(* ===== verification/_CoqProject ===== *)
-Q . S2P
Prelude.v
Exceptions.v
ProviderTree.v
PciDevice.v
PyStr.v
PciSpec.v
PciStats.v
PciTracker.v
Numa.v
Container.v
ComputeNode.v
Driver.v
Claims.v
NodeTracker.v
ResourceRequest.v
HostFilters.v
Scheduler.v
DockerDriver.v
Volumes.v
Manager.v
Placement.v
PlacementSync.v
PlacementFlush.v
PlacementClients.v
Quota.v
QuotaApi.v
Versions.v
Services.v
ApiState.v
ComputeApi.v
ContainersApi.v
ContainersCreate.v
Isolation.v
QuotaUse.v
Gates.v
Effects.v
VolumeDriver.v
Network.v
NetworkRace.v
DockerCreate.v
Cni.v
Websocket.v
Regex.v
ImageRef.v
Capsules.v
Cri.v
Images.v
