(* ===== verification/Prelude.v ===== *)
(** * A verification development for OpenStack Zun (container service)

    Zun runs containers for the tenants of an OpenStack cloud.  The API checks a
    request against its policy, its schema and the quotas of the project, and
    stores it; the scheduler picks a host with the placement service; the compute
    manager of that host claims the resources, attaches volumes and networks and
    drives Docker or a CRI runtime; a periodic task keeps the records of the host, of
    its PCI devices and of placement in step with what runs; a daemon plugs the
    networks, and a proxy relays consoles.  This development models those parts and
    proves what makes each correct.  Paths below are under [src/zun/].

    ** Conventions

    A method is a function from the state it may mutate to an outcome and the
    state it leaves ([M], and [py] for the exceptions of the service): a raise
    does not undo what was done before it.  Code whose calls to the outside matter
    one by one is a tree of calls ([Effects]), which is run alone against any
    answers or interleaved with others.  An exception is its class; message
    texts are not modelled.  Objects that several holders share (containers,
    PCI devices, pools) live in heaps and are referred to by index, so an alias
    sees every mutation.  Python integers are [Z] (they do not overflow), floats
    that carry amounts and ratios are rationals ([Qc]), dictionaries are [gmap]s,
    or [dict]s, which keep the order of insertion, where order is visible.  Code
    outside the repository is a class or a parameter: Docker's SDK ([DockerEnv]),
    Neutron, Docker and the runtime as answers to calls ([Answers]), placement as
    a server over a state of its own, [/sys], uuids, clocks, tenacity's waits.
    The rules of a policy are a parameter, and that each handler checks them is in
    the model.  Logging and notifications have no definition.

    ** Files, from the bottom up

    Basics:
    - [Prelude]: outcomes, the monad, dictionaries, the logics [keeps] (a state
      property survives, raise or not) and [step] tactics, shared lemmas.
    - [Exceptions] (common/exception.py): the class hierarchy, [isinstance], HTTP
      codes, the fault wrapper of the controllers.
    - [PyStr]: the string functions of Python the code uses; [Regex]: the matcher
      of [re], in the order it tries, with its soundness and completeness.
    - [Effects]: programs by their calls, run alone or interleaved.

    Resources of a host:
    - [ProviderTree] (compute/provider_tree.py): modules [Node] and [Tree]; [flat]
      is the abstract view, a finite map from uuid to provider, and every method
      has a specification on it.
    - [PciDevice] (objects/pci_device.py), [PciSpec] (pci/devspec.py, whitelist.py,
      utils.py), [PciStats] (pci/stats.py), [PciTracker] (pci/manager.py):
      devices, the whitelist, the pools and the tracker that owns them.  The class
      [DevFilter] is what the pools need of the whitelist.
    - [Numa] (objects/numa.py), [Container] (objects/container.py, common/consts.py,
      common/utils.py), [ComputeNode] (objects/compute_node.py): data, and the rows
      behind it.
    - [Driver] (container/driver.py): what a host reports of itself.
    - [Claims] (compute/claims.py): the test of a claim and its undoing, against
      the class [ResourceTracker].
    - [NodeTracker] (compute/compute_node_tracker.py): implements [ResourceTracker]
      on top of the PCI tracker, the database and a [ReportClient].

    Scheduling and placement:
    - [ResourceRequest] (scheduler/utils.py, request_filter.py): what is asked of
      placement.
    - [HostFilters] (scheduler/filters, host_state.py, base_filters.py) and
      [Scheduler] (filter_scheduler.py, chance_scheduler.py, client/query.py): the
      choice of a host, against the class [PlacementClient].
    - [Placement], [PlacementSync], [PlacementFlush] (scheduler/client/report.py):
      the allocations, the cached tree, and the flush of a changed tree;
      [PlacementClients] proves that the client keeps the promises the tracker and
      the scheduler rely on.

    The API:
    - [Quota] (common/quota.py, objects/quota.py) and [QuotaApi] (the controllers of
      quotas); [QuotaUse] ties the checks to the containers that are stored.
    - [Versions] (controllers/base.py, versions.py, versioned_method.py): routing and
      dispatch by microversion.  [Services] (servicegroup, zun_services).
    - [ApiState] is the state of a request, with the tables and the remote services;
      [ComputeApi] (compute/api.py) sends the work to the hosts; [ContainersApi] and
      [ContainersCreate] (controllers/v1/containers.py) are the container controller,
      with [Gates] on the order of its checks and [Isolation] on what a project can
      see and change; [Capsules] (controllers/v1/capsules.py) is the capsule
      controller.

    The work on a host:
    - [DockerDriver] and [DockerCreate] (container/docker/driver.py): the life cycle
      of a container in Docker, and its creation, deletion and networks; [Cri]
      (container/cri/driver.py, network/cni_network.py, os_vif_util.py): capsules on a
      CRI runtime, and the network they are plugged into.
    - [Volumes] and [Manager] (compute/manager.py): the operations of the compute
      service on the tracker and the driver; [docker_laws] shows that the Docker
      driver keeps the promises ([DriverLaws]) the manager's theorems use.
    - [VolumeDriver] (volume/driver.py, cinder_workflow.py, mount.py): attaching and
      mounting volumes.
    - [Network] (network/kuryr_network.py, neutron.py): networks of Docker and ports
      of Neutron; [NetworkRace]: the creation of one network by several at once.
    - [Cni] (cni/): the daemon that plugs networks, its server and its watcher on one
      registry.  [Websocket] (websocket/websocketproxy.py): the proxy of consoles.
    - [ImageRef] (common/docker_image, utils.parse_image_name): references of images;
      [Images] (image/, and the operations on images of the Docker driver and the
      manager): where an image comes from, and committing a container to one.

    ** What the theorems show

    - Provider tree: every reachable tree is well formed; each operation is the
      expected update of the abstract map; building from a list gives the union.
    - PCI: a physical function and its virtual functions are never both in use;
      claim and free are inverse; pools mirror the devices they hold; a request is
      served entirely or not at all; what [support_requests] answers is what
      [apply_requests] does; the whitelist matches as documented; the stored
      pools and addresses survive a round trip.
    - Resources of a host: the usage recorded is the sum over the tracked
      containers; a claim stays within the limits; an operation that fails
      gives back what it claimed; recomputing gives the usage of the database;
      the limits the filters set never make the claim fail on an unchanged node.
    - Scheduling: the amounts asked of placement; disabled hosts are excluded;
      what is chosen meets every filter and is claimed; a suitable host is found
      when there is one.
    - Placement: the cache and the server agree after a flush, or the cache drops
      what may be stale; allocations are written for new consumers and removed
      exactly; conflicts are retried a bounded number of times.
    - API: no request reaches rows of another project; an accepted creation stays
      within the quota; every handler refuses before it changes or sends anything;
      the outcomes of a creation; the microversion chosen and the handler it runs;
      what a capsule stores, and what the failure of its volumes leaves (the volumes
      Cinder refuses to delete).
    - Manager and drivers: the tasks that only work on a container (not its creation,
      deletion, update or commit) leave it without a task state;
      a failed creation ends in Error with its resources released; the row goes
      last in a deletion; recovery after a restart; the wait loops end; the states
      of Docker seen through either of its two interfaces agree; a container joins
      each of its networks once, and detaching takes back what attaching asked of
      Docker and Neutron; the containers
      of a pod start after its initial ones have ended.
    - Images: a commit fills the image it created or asks for its deletion, and asks for
      the container to run again; what each policy of pulling does.
    - Volumes and networks: a volume is attached whole, or what was done is taken back,
      but for the obstacles the theorem lists; ports are deleted or unbound exactly once; concurrent creations leave one network; the flags of the CNI
      registry never both stay; the proxy connects only with a token and relays in order.
    - Numbers and text: pinning and unpinning CPUs, the HTTP answer of every
      exception, image references that read back what they print, and the
      exponential time some of them take.

    Theorems that pin a behaviour the code does not mean to have (dedicated
    claims and updates, some interrupted tasks) state it as it is.

    ** Bounds and fuel

    [populate_loop] (ProviderTree) gets the number of entries as fuel, and each
    round places one of them.  The wait loops of [Volumes] are bounded by the
    clock of the driver: [volume_operations_end] shows that the fuel of the
    timeout suffices and the operations return.  Detaching from the members of
    a capsule nests at most three deep.  The matcher of [Regex] repeats at most as
    often as the text is long, and [lang_ways] shows that this finds every match.  The
    loop that sends a buffer ([Websocket]) has the length of the buffer as fuel, since
    each round sends something.  The waits of [Cni] and [Cri] are the lists of times
    their libraries give.  Everything else is structural.

    ** Simplifications that are visible

    A request without a project counts as the project with the empty name in the
    checks of quotas.  Creations are served one at a time ([QuotaUse]).  Threads
    interleave at the grain of a task in [Manager], and of a call in [NetworkRace] and
    [Cni]; methods under a lock are atomic.

    ** What is not modelled

    I/O and glue: RPC and service start-up, the command line, configuration, WSGI
    middleware, JSON schemas and views, the clients of other services, SQL and
    migrations (the queries that the models use are modelled with their tables),
    the parser of the host's capabilities, the generated CRI bindings, the loader of filter classes, style checks and contributed code.  The controllers
    of images, networks, hosts and registries, which look up, check and forward as the
    container controller does.  Parts of the Docker driver that only pass a call on
    (exec, archives, statistics). *)

From Stdlib Require Export Qcanon.
From stdpp Require Export base tactics gmap strings sorting numbers list.

(** ** Notations *)

Declare Scope py_scope.
Delimit Scope py_scope with py.

(** ** Python-style computations: state and exceptions

    A method is a function from the state it may mutate to an outcome and the
    state it leaves behind.  A raised exception does NOT roll the state back:
    every mutation made before the raise is still visible, as in the source. *)

Inductive outcome (E A : Type) : Type :=
| Ok (a : A)
| Raise (e : E).
Arguments Ok {E A} _.
Arguments Raise {E A} _.

Definition is_ok {E A} (o : outcome E A) : bool :=
  match o with Ok _ => true | Raise _ => false end.

Definition M (E S A : Type) : Type := S → outcome E A * S.

Section Monad.
Context {E S : Type}.

Definition ret {A} (a : A) : M E S A := λ s, (Ok a, s).
Definition bind {A B} (m : M E S A) (f : A → M E S B) : M E S B :=
  λ s, match m s with
       | (Ok a, s') => f a s'
       | (Raise e, s') => (Raise e, s')
       end.
Definition raise {A} (e : E) : M E S A := λ s, (Raise e, s).
Definition get : M E S S := λ s, (Ok s, s).
Definition gets {A} (f : S → A) : M E S A := λ s, (Ok (f s), s).
Definition put (s : S) : M E S unit := λ _, (Ok tt, s).
Definition modify (f : S → S) : M E S unit := λ s, (Ok tt, f s).

(** [try: m  except: h]; the handler decides from the exception, [None]
    meaning that no [except] clause matches. *)
Definition try_except {A} (m : M E S A) (h : E → option (M E S A)) : M E S A :=
  λ s, match m s with
       | (Ok a, s') => (Ok a, s')
       | (Raise e, s') =>
           match h e with
           | Some k => k s'
           | None => (Raise e, s')
           end
       end.

(** [try: m  finally: k]; an exception of [k] replaces that of [m]. *)
Definition try_finally {A} (m : M E S A) (k : M E S unit) : M E S A :=
  λ s, match m s with
       | (o, s') => match k s' with
                    | (Ok _, s'') => (o, s'')
                    | (Raise e, s'') => (Raise e, s'')
                    end
       end.

(** [if c: raise e] *)
Definition raise_if (c : bool) (e : E) : M E S unit :=
  if c then raise e else ret tt.

Definition of_option {A} (o : option A) (e : E) : M E S A :=
  match o with Some a => ret a | None => raise e end.

(** [for x in xs: f(x)] *)
Fixpoint for_each {X} (f : X → M E S unit) (xs : list X) : M E S unit :=
  match xs with
  | [] => ret tt
  | x :: xs' => bind (f x) (λ _, for_each f xs')
  end.

(** [\[f(x) for x in xs\]] *)
Fixpoint map_m {X Y} (f : X → M E S Y) (xs : list X) : M E S (list Y) :=
  match xs with
  | [] => ret []
  | x :: xs' => bind (f x) (λ y, bind (map_m f xs') (λ ys, ret (y :: ys)))
  end.
End Monad.

Notation "'let!' x := m 'in' k" := (bind m (λ x, k))
  (at level 10, x name, m at level 100, k at level 200) : py_scope.
Notation "'let!' ' p := m 'in' k" := (bind m (λ x, match x with p => k end))
  (at level 10, p pattern, m at level 100, k at level 200) : py_scope.
Notation "m ;;; k" := (bind m (λ _, k))
  (at level 100, right associativity) : py_scope.
Open Scope py_scope.

(** Running a computation of a component inside the state of its owner. *)
Definition zoom {E S T A} (prj : S → T) (inj : T → S → S) (m : M E T A) : M E S A :=
  λ s, match m (prj s) with (o, t) => (o, inj t s) end.

(** Inversion lemmas, one per construct (used by [run_inv]). *)
Section Inversion.
Context {E S : Type}.

Lemma bind_Ok {A B} (m : M E S A) (f : A → M E S B) s b s' :
  bind m f s = (Ok b, s') ↔ ∃ a s1, m s = (Ok a, s1) ∧ f a s1 = (Ok b, s').
Proof.
  unfold bind. destruct (m s) as [[a|e] s1] eqn:Hm; split; naive_solver.
Qed.

Lemma bind_Raise {A B} (m : M E S A) (f : A → M E S B) s e s' :
  bind m f s = (Raise e, s') ↔
  m s = (Raise e, s') ∨ ∃ a s1, m s = (Ok a, s1) ∧ f a s1 = (Raise e, s').
Proof.
  unfold bind. destruct (m s) as [[a|e1] s1] eqn:Hm; split; naive_solver.
Qed.

Lemma bind_ret {A B} (a : A) (f : A → M E S B) s : bind (ret a) f s = f a s.
Proof. done. Qed.

Lemma bind_eq {A B} (m : M E S A) (f : A → M E S B) s a s1 :
  m s = (Ok a, s1) → bind m f s = f a s1.
Proof. unfold bind. by intros ->. Qed.

Lemma bind_err {A B} (m : M E S A) (f : A → M E S B) s e s1 :
  m s = (Raise e, s1) → bind m f s = (Raise e, s1).
Proof. unfold bind. by intros ->. Qed.

Lemma bind_ext {A B} (m : M E S A) (f g : A → M E S B) s :
  (∀ a s', f a s' = g a s') → bind m f s = bind m g s.
Proof. intros Hf. unfold bind. by destruct (m s) as [[a|e] s1]. Qed.

Lemma bind_assoc {A B C} (m : M E S A) (f : A → M E S B) (g : B → M E S C) s :
  bind (bind m f) g s = bind m (λ a, bind (f a) g) s.
Proof. unfold bind. by destruct (m s) as [[a|e] s1]. Qed.

Lemma bind_get {B} (f : S → M E S B) s : bind get f s = f s s.
Proof. done. Qed.

Lemma bind_gets {A B} (g : S → A) (f : A → M E S B) s : bind (gets g) f s = f (g s) s.
Proof. done. Qed.

Lemma bind_put {B} s' (f : unit → M E S B) s : bind (put s') f s = f tt s'.
Proof. done. Qed.

Lemma bind_modify {B} g (f : unit → M E S B) s : bind (modify g) f s = f tt (g s).
Proof. done. Qed.

Lemma bind_raise {A B} e (f : A → M E S B) s : bind (raise e) f s = (Raise e, s).
Proof. done. Qed.

Lemma for_each_ext {X} (f g : X → M E S unit) xs s :
  (∀ x s, x ∈ xs → f x s = g x s) → for_each f xs s = for_each g xs s.
Proof.
  revert s. induction xs as [|x xs IH]; intros s Hfg; [done|]. cbn [for_each]. unfold bind.
  rewrite (Hfg x s) by left. destruct (g x s) as [[u|e] s1]; [|done].
  apply IH. intros y s2 Hy. apply Hfg. by right.
Qed.

Lemma for_each_raise_if {X} (c : X → bool) (e : E) xs (s : S) :
  for_each (λ x, raise_if (c x) e) xs s = (if existsb c xs then Raise e else Ok tt, s).
Proof.
  induction xs as [|x xs IH]; [done|]. cbn [for_each existsb]. unfold raise_if at 1.
  destruct (c x); [done|]. by rewrite bind_ret.
Qed.

Lemma map_m_pure {X Y} (f : X → M E S Y) (g : X → Y) xs s :
  (∀ x, x ∈ xs → f x s = (Ok (g x), s)) → map_m f xs s = (Ok (g <$> xs), s).
Proof.
  induction xs as [|x xs IH]; intros Hf; [done|]. cbn [map_m]. unfold bind at 1.
  rewrite (Hf x) by by left. unfold bind. by rewrite IH by (intros y Hy; apply Hf; by right).
Qed.

(** The first element that has no value decides. *)
Lemma map_m_option {X Y} (f : X → M E S Y) (g : X → option Y) (e : E) xs s :
  (∀ x, x ∈ xs → f x s = (match g x with Some y => Ok y | None => Raise e end, s)) →
  map_m f xs s = (match mapM g xs with Some ys => Ok ys | None => Raise e end, s).
Proof.
  induction xs as [|x xs IH]; intros Hf; [done|]. cbn [map_m]. unfold bind at 1.
  rewrite (Hf x) by by left. cbn. destruct (g x) as [y|]; [|done].
  unfold bind. rewrite IH by (intros z Hz; apply Hf; by right). cbn. by destruct (mapM g xs).
Qed.

Lemma for_each_app {X} (f : X → M E S unit) xs ys s :
  for_each f (xs ++ ys) s = bind (for_each f xs) (λ _, for_each f ys) s.
Proof.
  revert s. induction xs as [|x xs IH]; intros s; [done|].
  simpl. rewrite bind_assoc. unfold bind.
  destruct (f x s) as [[u|e] s1]; [apply IH|done].
Qed.
End Inversion.

(** ** A small program logic

    [hoare P m Q X]: started in a state satisfying [P], [m] either returns [a]
    in a state satisfying [Q a] or raises [e] in a state satisfying [X e]. *)
Definition hoare {E S A} (P : S → Prop) (m : M E S A)
    (Q : A → S → Prop) (X : E → S → Prop) : Prop :=
  ∀ s, P s → match m s with
             | (Ok a, s') => Q a s'
             | (Raise e, s') => X e s'
             end.

(** [preserves I m]: [m] keeps [I], whatever its outcome. *)
Definition preserves {E S A} (I : S → Prop) (m : M E S A) : Prop :=
  hoare I m (λ _, I) (λ _, I).

Create HintDb py.

Section Logic.
Context {E S : Type}.
Implicit Types P I : S → Prop.

Lemma hoare_ret {A} P (a : A) X : hoare (E:=E) P (ret a) (λ b s, b = a ∧ P s) X.
Proof. by intros s H. Qed.

Lemma hoare_bind {A B} P (m : M E S A) (f : A → M E S B) R Q X :
  hoare P m R X → (∀ a, hoare (R a) (f a) Q X) → hoare P (bind m f) Q X.
Proof.
  intros Hm Hf s HP. specialize (Hm s HP). unfold bind.
  destruct (m s) as [[a|e] s1]; [exact (Hf a s1 Hm)|done].
Qed.

Lemma hoare_conseq {A} P P' (m : M E S A) Q Q' X X' :
  hoare P m Q X → (∀ s, P' s → P s) → (∀ a s, Q a s → Q' a s) →
  (∀ e s, X e s → X' e s) → hoare P' m Q' X'.
Proof.
  intros Hm HP HQ HX s H. specialize (Hm s (HP s H)).
  destruct (m s) as [[a|e] s1]; auto.
Qed.

Lemma hoare_frame {A} P I (m : M E S A) Q X :
  hoare P m Q X → preserves I m →
  hoare (λ s, P s ∧ I s) m (λ a s, Q a s ∧ I s) (λ e s, X e s ∧ I s).
Proof.
  intros Hm Hi s [HP HI]. specialize (Hm s HP). specialize (Hi s HI).
  destruct (m s) as [[a|e] s1]; auto.
Qed.

Lemma preserves_ret_bind {A B} I a (f : A → M E S B) : preserves I (f a) → preserves I (bind (ret a) f).
Proof. done. Qed.

(** A fact about the result of the first part, used to run the second. *)
Lemma preserves_bind_pure {A B} I (φ : A → Prop) (m : M E S A) (f : A → M E S B) :
  hoare I m (λ a s, I s ∧ φ a) (λ _, I) → (∀ a, φ a → preserves I (f a)) →
  preserves I (bind m f).
Proof.
  intros Hm Hf. eapply hoare_bind; [exact Hm|]. intros a s [HI Ha]. exact (Hf a Ha s HI).
Qed.

Lemma preserves_ret {A} I (a : A) : preserves (E:=E) I (ret a).
Proof. by intros s H. Qed.

Lemma preserves_raise {A} I (e : E) : preserves (A:=A) I (raise e).
Proof. by intros s H. Qed.

Lemma preserves_get I : preserves (E:=E) I get.
Proof. by intros s H. Qed.

Lemma preserves_gets {A} I (f : S → A) : preserves (E:=E) I (gets f).
Proof. by intros s H. Qed.

Lemma preserves_modify I (f : S → S) :
  (∀ s, I s → I (f s)) → preserves (E:=E) I (modify f).
Proof. intros Hf s H. simpl. by apply Hf. Qed.

Lemma preserves_raise_if I c (e : E) : preserves I (raise_if c e).
Proof. intros s H. unfold raise_if. by destruct c. Qed.

Lemma preserves_of_option {A} I (o : option A) (e : E) : preserves I (of_option o e).
Proof. intros s H. by destruct o. Qed.

Lemma preserves_bind {A B} I (m : M E S A) (f : A → M E S B) :
  preserves I m → (∀ a, preserves I (f a)) → preserves I (bind m f).
Proof. intros Hm Hf. eapply hoare_bind; [exact Hm|exact Hf]. Qed.

Lemma preserves_try_except {A} I (m : M E S A) h :
  preserves I m → (∀ e k, h e = Some k → preserves I k) →
  preserves I (try_except m h).
Proof.
  intros Hm Hh s H. specialize (Hm s H). unfold try_except.
  destruct (m s) as [[a|e] s1]; [done|].
  destruct (h e) as [k|] eqn:Hk; [exact (Hh e k Hk s1 Hm)|done].
Qed.

Lemma preserves_try_finally {A} I (m : M E S A) k :
  preserves I m → preserves I k → preserves I (try_finally m k).
Proof.
  intros Hm Hk s H. specialize (Hm s H). unfold try_finally.
  destruct (m s) as [o s1]. assert (I s1) as H1 by (by destruct o).
  specialize (Hk s1 H1). destruct (k s1) as [[u|e] s2]; by destruct o.
Qed.

Lemma preserves_for_each {X} I (f : X → M E S unit) xs :
  (∀ x, x ∈ xs → preserves I (f x)) → preserves I (for_each f xs).
Proof.
  induction xs as [|x xs IH]; intros Hf; [apply preserves_ret|].
  apply preserves_bind; [apply Hf; set_solver|].
  intros _. apply IH. intros y Hy. apply Hf. set_solver.
Qed.

Lemma preserves_zoom {T A} I (prj : S → T) (inj : T → S → S) (m : M E T A) :
  (∀ s t, I s → I (inj t s)) → preserves I (zoom prj inj m).
Proof. intros Hi s H. unfold zoom. destruct (m (prj s)) as [[a|e] t]; by apply Hi. Qed.

Lemma preserves_run {A} I (m : M E S A) s o s' :
  preserves I m → I s → m s = (o, s') → I s'.
Proof. intros Hm H Hs. specialize (Hm s H). rewrite Hs in Hm. by destruct o. Qed.
End Logic.

#[export] Hint Resolve preserves_ret preserves_raise preserves_get preserves_gets
  preserves_raise_if preserves_of_option : py.

(** [keeps R m]: every run of [m], whatever its outcome, ends in a state related
    to the one it started from. *)
Definition keeps {E S A} (R : relation S) (m : M E S A) : Prop :=
  ∀ s o s', m s = (o, s') → R s s'.

Lemma keeps_weaken {E S A} (R R' : relation S) (m : M E S A) :
  (∀ s s', R s s' → R' s s') → keeps R m → keeps R' m.
Proof. intros HR Hm s o s' Hs. exact (HR _ _ (Hm _ _ _ Hs)). Qed.

Section Keeps.
Context {E S : Type} (R : relation S) `{!PreOrder R}.

Lemma keeps_ret {A} (a : A) : keeps (E:=E) R (ret a).
Proof. by intros s o s' [= <- <-]. Qed.

Lemma keeps_raise {A} (e : E) : keeps (A:=A) R (raise e).
Proof. by intros s o s' [= <- <-]. Qed.

Lemma keeps_get : keeps (E:=E) R get.
Proof. by intros s o s' [= <- <-]. Qed.

Lemma keeps_gets {A} (f : S → A) : keeps (E:=E) R (gets f).
Proof. by intros s o s' [= <- <-]. Qed.

Lemma keeps_modify (f : S → S) : (∀ s, R s (f s)) → keeps (E:=E) R (modify f).
Proof. by intros Hf s o s' [= <- <-]. Qed.

Lemma keeps_raise_if c (e : E) : keeps R (raise_if c e).
Proof. destruct c; [apply keeps_raise|apply keeps_ret]. Qed.

Lemma keeps_of_option {A} (o : option A) (e : E) : keeps R (of_option o e).
Proof. destruct o; [apply keeps_ret|apply keeps_raise]. Qed.

Lemma keeps_bind {A B} (m : M E S A) (f : A → M E S B) :
  keeps R m → (∀ a, keeps R (f a)) → keeps R (bind m f).
Proof.
  intros Hm Hf s o s'. unfold bind. destruct (m s) as [[a|e] s1] eqn:Hs.
  - intros Hr. etrans; [exact (Hm _ _ _ Hs)|exact (Hf a _ _ _ Hr)].
  - intros [= <- <-]. exact (Hm _ _ _ Hs).
Qed.

Lemma keeps_try_except {A} (m : M E S A) h :
  keeps R m → (∀ e k, h e = Some k → keeps R k) → keeps R (try_except m h).
Proof.
  intros Hm Hh s o s'. unfold try_except. destruct (m s) as [[a|e] s1] eqn:Hs.
  - intros [= <- <-]. exact (Hm _ _ _ Hs).
  - destruct (h e) as [k|] eqn:Hk; [|intros [= <- <-]; exact (Hm _ _ _ Hs)].
    intros Hr. etrans; [exact (Hm _ _ _ Hs)|exact (Hh _ _ Hk _ _ _ Hr)].
Qed.

Lemma keeps_try_finally {A} (m : M E S A) k :
  keeps R m → keeps R k → keeps R (try_finally m k).
Proof.
  intros Hm Hk s o s'. unfold try_finally. destruct (m s) as [o1 s1] eqn:Hs.
  destruct (k s1) as [o2 s2] eqn:Hs2.
  assert (R s s2) as Hr by (etrans; [exact (Hm _ _ _ Hs)|exact (Hk _ _ _ Hs2)]).
  destruct o2; intros [= _ <-]; exact Hr.
Qed.

Lemma keeps_for_each {X} (f : X → M E S unit) xs :
  (∀ x, x ∈ xs → keeps R (f x)) → keeps R (for_each f xs).
Proof.
  induction xs as [|x xs IH]; intros Hf; [apply keeps_ret|].
  apply keeps_bind; [apply Hf; by left|]. intros _. apply IH. intros y Hy. apply Hf. by right.
Qed.

Lemma keeps_map_m {X Y} (f : X → M E S Y) xs :
  (∀ x, x ∈ xs → keeps R (f x)) → keeps R (map_m f xs).
Proof.
  induction xs as [|x xs IH]; intros Hf; cbn [map_m]; [apply keeps_ret|].
  apply keeps_bind; [apply Hf; by left|]. intros y. apply keeps_bind; [|intros ys; apply keeps_ret].
  apply IH. intros z Hz. apply Hf. by right.
Qed.
End Keeps.

Lemma keeps_zoom {E S T A} (RS : relation S) (RT : relation T) prj inj (m : M E T A) :
  (∀ s t, RT (prj s) t → RS s (inj t s)) → keeps RT m → keeps RS (zoom prj inj m).
Proof.
  intros Hinj Hm s o s'. unfold zoom. destruct (m (prj s)) as [o1 t] eqn:Ht. intros [= _ <-].
  apply Hinj. exact (Hm _ _ _ Ht).
Qed.

#[export] Hint Resolve keeps_ret keeps_raise keeps_get keeps_gets keeps_raise_if
  keeps_of_option : py.

(** [keep_rel]: prove [keeps R m] by following the structure of [m]. *)
Ltac keep_rel :=
  repeat first
    [ solve [auto with py typeclass_instances]
    | apply keeps_bind; [apply _| |intros ?]
    | apply keeps_try_except; [apply _| |intros ? ? ?; simplify_eq/=]
    | apply keeps_try_finally; [apply _| |]
    | apply keeps_for_each; [apply _|intros ? ?]
    | match goal with
      | |- keeps _ (if ?b then _ else _) => destruct b eqn:?
      | |- keeps _ (match ?b with _ => _ end) => destruct b eqn:?
      end ].

(** [look]: [keep_rel] with loops that build lists and conditional handlers. *)
Ltac look :=
  repeat first
    [ progress keep_rel
    | apply keeps_map_m; [apply _|intros ? ?]
    | match goal with
      | H : (if ?b then Some _ else _) = Some _ |- keeps _ _ => destruct b eqn:?; simplify_eq
      end ].

(** [errs X m]: every exception [m] raises satisfies [X]. *)
Definition errs {E S A} (X : E → Prop) (m : M E S A) : Prop :=
  ∀ s e s', m s = (Raise e, s') → X e.

Section Errs.
Context {E S : Type} (X : E → Prop).

Lemma errs_ret {A} (a : A) : errs (S:=S) X (ret a).
Proof. by intros s e s'. Qed.

Lemma errs_raise {A} e : X e → errs (S:=S) (A:=A) X (raise e).
Proof. by intros He s e' s' [= <- <-]. Qed.

Lemma errs_get : errs (S:=S) X get.
Proof. by intros s e s'. Qed.

Lemma errs_gets {A} (f : S → A) : errs X (gets f).
Proof. by intros s e s'. Qed.

Lemma errs_modify (f : S → S) : errs X (modify f).
Proof. by intros s e s'. Qed.

Lemma errs_of_option {A} (o : option A) e : X e → errs (S:=S) X (of_option o e).
Proof. intros He. destruct o; [apply errs_ret|by apply errs_raise]. Qed.

Lemma errs_bind {A B} (m : M E S A) (f : A → M E S B) :
  errs X m → (∀ a, errs X (f a)) → errs X (bind m f).
Proof. intros Hm Hf s e s' [H|(a & s1 & _ & H)]%bind_Raise; [exact (Hm _ _ _ H)|exact (Hf _ _ _ _ H)]. Qed.

Lemma errs_try_except {A} (m : M E S A) h :
  (∀ s e s', m s = (Raise e, s') → match h e with Some k => errs X k | None => X e end) →
  errs X (try_except m h).
Proof.
  intros Hm s e s'. unfold try_except. destruct (m s) as [[a|e1] s1] eqn:Hs; [done|].
  specialize (Hm _ _ _ Hs). destruct (h e1) as [k|]; [apply Hm|by intros [= <- <-]].
Qed.

Lemma errs_for_each {Y} (f : Y → M E S unit) ys : (∀ y, errs X (f y)) → errs X (for_each f ys).
Proof.
  intros Hf. induction ys as [|y ys IH]; [apply errs_ret|]. by apply errs_bind.
Qed.

Lemma errs_map_m {Y Z} (f : Y → M E S Z) ys : (∀ y, errs X (f y)) → errs X (map_m f ys).
Proof.
  intros Hf. induction ys as [|y ys IH]; [apply errs_ret|].
  apply errs_bind; [done|]. intros z. apply errs_bind; [done|]. intros zs. apply errs_ret.
Qed.
End Errs.

#[export] Hint Resolve errs_ret errs_get errs_gets errs_modify errs_raise errs_of_option : py.

(** [err_rel]: prove [errs X m] by following the structure of [m]. *)
Ltac err_rel :=
  repeat first
    [ solve [auto with py]
    | apply errs_bind; [|intros ?]
    | apply errs_for_each; intros ?
    | apply errs_map_m; intros ?
    | match goal with
      | |- errs _ (if ?b then _ else _) => destruct b eqn:?
      | |- errs _ (match ?b with _ => _ end) => destruct b eqn:?
      end ].

(** [run_inv]: turn a run of a compound computation into runs of its parts. *)
Ltac run_inv :=
  repeat match goal with
  | H : (_, _) = (_, _) |- _ => inversion H; subst; clear H
  | H : ret _ _ = (_, _) |- _ => unfold ret in H
  | H : raise _ _ = (_, _) |- _ => unfold raise in H
  | H : get _ = (_, _) |- _ => unfold get in H
  | H : gets _ _ = (_, _) |- _ => unfold gets in H
  | H : put _ _ = (_, _) |- _ => unfold put in H
  | H : modify _ _ = (_, _) |- _ => unfold modify in H
  | H : raise_if ?c _ _ = (_, _) |- _ =>
      let Hc := fresh "Hc" in unfold raise_if in H; destruct c eqn:Hc
  | H : of_option ?o _ _ = (_, _) |- _ =>
      let Ho := fresh "Ho" in unfold of_option in H; destruct o eqn:Ho
  | H : bind _ _ _ = (Ok _, _) |- _ =>
      let a := fresh "a" in let s := fresh "s" in let H1 := fresh "Hrun" in
      apply bind_Ok in H as (a & s & H1 & H)
  | H : Ok _ = Ok _ |- _ => inversion H; subst; clear H
  | H : Raise _ = Raise _ |- _ => inversion H; subst; clear H
  | H : Ok _ = Raise _ |- _ => discriminate H
  | H : Raise _ = Ok _ |- _ => discriminate H
  end.

(** [steps]: run the basic computations at the head of a compound one. *)
Ltac steps :=
  repeat (first [ rewrite bind_assoc | rewrite bind_ret | rewrite bind_gets
                | rewrite bind_get | rewrite bind_put | rewrite bind_modify
                | rewrite bind_raise ]; cbv beta).

(** [step H]: replace the first part of a run by its outcome [H]. *)
Ltac step H := first [ rewrite (bind_eq _ _ _ _ _ H) | rewrite (bind_err _ _ _ _ _ H) ].

(** [keep]: prove that a computation preserves an invariant by following its
    structure; the leaves that change the state are left to the user. *)
Ltac keep :=
  repeat first
    [ solve [auto with py]
    | apply preserves_bind; [|intros ?]
    | apply preserves_try_except; [|intros ? ? ?]
    | apply preserves_try_finally
    | apply preserves_for_each; intros ? ?
    | match goal with
      | |- preserves _ (if ?b then _ else _) => destruct b eqn:?
      | |- preserves _ (match ?b with _ => _ end) => destruct b eqn:?
      end ].

(** ** Python dictionaries

    A [dict] is an association list in insertion order: iteration order is
    observable (searches, round-robin over pools, listings). *)
Abbreviation dict K V := (list (K * V)).

Section Dict.
Context {K V : Type} `{EqDecision K}.
Implicit Types (d : dict K V) (k : K) (v : V).

Fixpoint dget d k : option V :=
  match d with
  | [] => None
  | (k', v) :: d' => if decide (k' = k) then Some v else dget d' k
  end.

Definition dhas d k : bool := match dget d k with Some _ => true | None => false end.

(** [d\[k\] = v]: an existing key keeps its position. *)
Fixpoint dset d k v : dict K V :=
  match d with
  | [] => [(k, v)]
  | (k', v') :: d' => if decide (k' = k) then (k, v) :: d' else (k', v') :: dset d' k v
  end.

(** [del d\[k\]] / [d.pop(k, None)] *)
Fixpoint ddel d k : dict K V :=
  match d with
  | [] => []
  | (k', v') :: d' => if decide (k' = k) then d' else (k', v') :: ddel d' k
  end.

(** [d\[k\]] mutated in place through a reference to its value. *)
Fixpoint dalter (f : V → V) d k : dict K V :=
  match d with
  | [] => []
  | (k', v') :: d' => if decide (k' = k) then (k', f v') :: d' else (k', v') :: dalter f d' k
  end.

Definition dkeys d : list K := d.*1.
Definition dvalues d : list V := d.*2.

(** [dict(pairs)]: a later pair overrides an earlier one in place. *)
Definition dict_of (l : list (K * V)) : dict K V :=
  foldl (λ d kv, dset d kv.1 kv.2) [] l.

Lemma dget_dset_eq d k v : dget (dset d k v) k = Some v.
Proof.
  induction d as [|[k' v'] d IH]; simpl; [by rewrite decide_True|].
  case_decide as Hk; simpl; [by rewrite decide_True|by rewrite decide_False].
Qed.

Lemma dget_dset_ne d k k' v : k ≠ k' → dget (dset d k v) k' = dget d k'.
Proof.
  intros Hne. induction d as [|[k1 v1] d IH]; simpl; [by rewrite decide_False|].
  case_decide as Hk; simpl; [|by rewrite IH].
  subst. by rewrite !decide_False.
Qed.

Lemma dget_Some_In d k v : dget d k = Some v → (k, v) ∈ d.
Proof.
  induction d as [|[k' v'] d IH]; simpl; [done|].
  case_decide as Hk; intros H; [simplify_eq; left|right; auto].
Qed.

Lemma dget_None_keys d k : dget d k = None ↔ k ∉ dkeys d.
Proof.
  induction d as [|[k' v'] d IH]; simpl; [set_solver|].
  case_decide as Hk; [subst; set_solver|]. rewrite IH. set_solver.
Qed.

Lemma dget_Some_keys d k : is_Some (dget d k) ↔ k ∈ dkeys d.
Proof.
  split; intros H.
  - destruct (decide (k ∈ dkeys d)) as [|Hn]; [done|].
    apply dget_None_keys in Hn. rewrite Hn in H. by destruct H.
  - destruct (dget d k) eqn:Hg; [by eexists|].
    by apply dget_None_keys in Hg.
Qed.

Lemma dhas_true d k : dhas d k = true ↔ k ∈ dkeys d.
Proof.
  rewrite <- dget_Some_keys. unfold dhas, is_Some.
  destruct (dget d k); naive_solver.
Qed.

Lemma dget_In d k v : NoDup (dkeys d) → (k, v) ∈ d → dget d k = Some v.
Proof.
  induction d as [|[k' v'] d IH]; simpl; [set_solver|].
  intros [Hk Hd]%NoDup_cons [Heq|Hin]%elem_of_cons.
  - simplify_eq. by rewrite decide_True.
  - rewrite decide_False; [by apply IH|]. intros ->. apply Hk.
    apply (list_elem_of_fmap_2 fst) in Hin. done.
Qed.

Lemma dkeys_dset_Some d k v : k ∈ dkeys d → dkeys (dset d k v) = dkeys d.
Proof.
  induction d as [|[k' v'] d IH]; simpl; [set_solver|]. intros Hin.
  case_decide as Hk; simpl; [by subst|]. f_equal. apply IH. set_solver.
Qed.

Lemma dset_fresh d k v : k ∉ dkeys d → dset d k v = d ++ [(k, v)].
Proof.
  induction d as [|[k' v'] d IH]; simpl; [done|]. intros Hin.
  rewrite decide_False by set_solver. f_equal. apply IH. set_solver.
Qed.

Lemma dkeys_dset_None d k v : k ∉ dkeys d → dkeys (dset d k v) = dkeys d ++ [k].
Proof. intros Hk. rewrite dset_fresh by done. unfold dkeys. by rewrite fmap_app. Qed.

Lemma NoDup_dset d k v : NoDup (dkeys d) → NoDup (dkeys (dset d k v)).
Proof.
  intros Hd. destruct (decide (k ∈ dkeys d)) as [Hin|Hin].
  - by rewrite dkeys_dset_Some.
  - rewrite dkeys_dset_None by done. apply NoDup_app. split; [done|].
    split; [set_solver|apply NoDup_singleton].
Qed.

Lemma ddel_sublist d k : sublist (ddel d k) d.
Proof.
  induction d as [|[k' v'] d IH]; simpl; [constructor|].
  case_decide; by constructor.
Qed.

Lemma NoDup_ddel d k : NoDup (dkeys d) → NoDup (dkeys (ddel d k)).
Proof.
  intros Hd. eapply sublist_NoDup; [exact Hd|].
  unfold dkeys. apply fmap_sublist, ddel_sublist.
Qed.

Lemma dget_ddel_eq d k : NoDup (dkeys d) → dget (ddel d k) k = None.
Proof.
  induction d as [|[k' v'] d IH]; simpl; [done|].
  intros [Hk Hd]%NoDup_cons. case_decide as Hkk.
  - subst. by apply dget_None_keys.
  - simpl. rewrite decide_False by done. auto.
Qed.

Lemma dget_ddel_ne d k k' : k ≠ k' → dget (ddel d k) k' = dget d k'.
Proof.
  intros Hne. induction d as [|[k1 v1] d IH]; simpl; [done|].
  case_decide as Hk; simpl; [|by rewrite IH].
  subst. by rewrite decide_False.
Qed.

Lemma elem_dkeys_ddel d k k' :
  NoDup (dkeys d) → k' ∈ dkeys (ddel d k) ↔ k' ∈ dkeys d ∧ k' ≠ k.
Proof.
  intros Hd. rewrite <- !dget_Some_keys. destruct (decide (k = k')) as [->|Hne].
  - rewrite dget_ddel_eq by done. split; [by intros []|naive_solver].
  - rewrite dget_ddel_ne by done. naive_solver.
Qed.

Lemma elem_ddel d k kv : kv ∈ ddel d k → kv ∈ d.
Proof. intros H. eapply elem_of_sublist; [exact H|apply ddel_sublist]. Qed.

Lemma elem_dset d k v kv : kv ∈ dset d k v → kv = (k, v) ∨ kv ∈ d.
Proof.
  induction d as [|[k1 v1] d IH]; simpl; [set_solver|].
  case_decide; set_solver.
Qed.

Lemma elem_dict_of l kv : kv ∈ dict_of l → kv ∈ l.
Proof.
  unfold dict_of. intros H. cut (kv ∈ [] ∨ kv ∈ l); [set_solver|]. revert H.
  generalize ([] : dict K V) as d. induction l as [|[k v] l IH]; intros d; simpl; [auto|].
  intros [[->|H]%elem_dset|H]%IH; set_solver.
Qed.

Lemma ddel_absent d k : k ∉ dkeys d → ddel d k = d.
Proof.
  induction d as [|[k1 v1] d IH]; simpl; [done|]. intros Hk.
  rewrite decide_False by set_solver. f_equal. apply IH. set_solver.
Qed.

Lemma ddel_length d k : k ∈ dkeys d → length d = S (length (ddel d k)).
Proof.
  induction d as [|[k1 v1] d IH]; simpl; [set_solver|]. intros Hk.
  case_decide as Hkk; simpl; [done|]. f_equal. apply IH. set_solver.
Qed.

Lemma dget_dalter f d k k' :
  dget (dalter f d k) k' = if decide (k = k') then f <$> dget d k' else dget d k'.
Proof.
  induction d as [|[k1 v1] d IH]; simpl; [by case_decide|].
  destruct (decide (k1 = k)) as [->|Hk]; simpl.
  - by repeat case_decide.
  - rewrite IH. by repeat case_decide; subst.
Qed.

Lemma dkeys_dalter f d k : dkeys (dalter f d k) = dkeys d.
Proof.
  induction d as [|[k1 v1] d IH]; simpl; [done|].
  destruct (decide (k1 = k)) as [->|Hk]; simpl; [done|]. by f_equal.
Qed.

Lemma dget_dset d k k' v :
  dget (dset d k v) k' = if decide (k = k') then Some v else dget d k'.
Proof. case_decide; [subst; apply dget_dset_eq|by apply dget_dset_ne]. Qed.

Lemma dict_of_NoDup l : NoDup (dkeys l) → dict_of l = l.
Proof.
  unfold dict_of. assert (∀ acc, NoDup (dkeys (acc ++ l)) →
    foldl (λ d kv, dset d kv.1 kv.2) acc l = acc ++ l) as Hgen.
  { induction l as [|[k v] l IH]; intros acc Hnd; simpl; [by rewrite app_nil_r|].
    rewrite dset_fresh.
    - rewrite IH; rewrite <- app_assoc; done.
    - unfold dkeys in *. rewrite fmap_app in Hnd. apply NoDup_app in Hnd as (_ & Hd & _).
      intros Hin. apply (Hd k Hin). by left. }
  intros Hnd. by apply (Hgen []).
Qed.

Lemma NoDup_dict_of l : NoDup (dkeys (dict_of l)).
Proof.
  unfold dict_of. assert (NoDup (dkeys ([] : dict K V))) as H0 by constructor.
  revert H0. generalize ([] : dict K V) as d.
  induction l as [|[k v] l IH]; intros d Hd; simpl; [done|].
  by apply IH, NoDup_dset.
Qed.

(** The last pair with the key decides. *)
Lemma dget_dict_of l k : dget (dict_of l) k = snd <$> last (filter (λ kv, kv.1 = k) l).
Proof.
  induction l as [|[k' v] l IH] using rev_ind; [done|].
  unfold dict_of in *. rewrite foldl_app, filter_app. cbn. rewrite dget_dset.
  case_decide; [by rewrite last_snoc|]. by rewrite app_nil_r.
Qed.
End Dict.

Lemma dget_fmap {K V W} `{EqDecision K} (f : V → W) (d : dict K V) k :
  dget ((λ kv, (kv.1, f kv.2)) <$> d) k = f <$> dget d k.
Proof. induction d as [|[k' v] d IH]; [done|]. cbn. by case_decide. Qed.

Lemma dget_dsets {K V} `{EqDecision K} (l : dict K V) d k :
  NoDup (dkeys l) →
  dget (foldl (λ d kv, dset d kv.1 kv.2) d l) k =
    match dget l k with Some v => Some v | None => dget d k end.
Proof.
  revert d. induction l as [|[k' v] l IH]; intros d; [done|]. cbn.
  intros [Hk Hl]%NoDup_cons. rewrite IH by done. case_decide as Hkk.
  - subst. assert (dget l k = None) as -> by by apply dget_None_keys.
    by rewrite dget_dset_eq.
  - by rewrite dget_dset_ne.
Qed.

Lemma dget_filter {K V} `{EqDecision K} (p : K * V → Prop) `{!∀ kv, Decision (p kv)} (d : dict K V) k :
  NoDup (dkeys d) →
  dget (filter p d) k =
    match dget d k with Some v => if decide (p (k, v)) then Some v else None | None => None end.
Proof.
  induction d as [|[k' v] d IH]; [done|]. cbn. intros [Hk Hd]%NoDup_cons.
  specialize (IH Hd). destruct (decide (k' = k)) as [->|Hkk].
  - destruct (decide (p (k, v))); cbn; [by rewrite decide_True|].
    apply dget_None_keys in Hk. by rewrite Hk in IH.
  - destruct (decide (p (k', v))); cbn; [by rewrite decide_False|done].
Qed.

Lemma dkeys_filter_NoDup {K V} `{EqDecision K} (p : K * V → Prop) `{!∀ kv, Decision (p kv)} (d : dict K V) :
  NoDup (dkeys d) → NoDup (dkeys (filter p d)).
Proof.
  unfold dkeys. intros Hd. eapply sublist_NoDup; [exact Hd|].
  apply fmap_sublist. clear. induction d as [|kv d IH]; [done|]. cbn.
  destruct (decide (p kv)); by constructor.
Qed.

Lemma dget_dkeys {K V} `{EqDecision K} (d d' : dict K V) k :
  dkeys d' = dkeys d → is_Some (dget d' k) ↔ is_Some (dget d k).
Proof. intros Hk. by rewrite !dget_Some_keys, Hk. Qed.

Lemma dget_filter_In {K V} `{EqDecision K} (Q : K * V → Prop) `{∀ kv, Decision (Q kv)}
    (d : dict K V) k v :
  dget d k = Some v → Q (k, v) → dget (filter Q d) k = Some v.
Proof.
  induction d as [|[k1 v1] d IH]; [done|]. cbn [dget]. case_decide as Hk.
  - intros [= ->] Hv. subst. rewrite filter_cons_True by done. cbn. by rewrite decide_True.
  - intros Hd Hv. destruct (decide (Q (k1, v1))).
    + rewrite filter_cons_True by done. cbn. rewrite decide_False by done. by apply IH.
    + rewrite filter_cons_False by done. by apply IH.
Qed.

Lemma dget_map {K V W} `{EqDecision K} (f : V → W) (d : dict K V) k :
  dget (prod_map Datatypes.id f <$> d) k = f <$> dget d k.
Proof. induction d as [|[k1 v1] d IH]; [done|]. cbn. by case_decide. Qed.

#[export] Hint Resolve NoDup_dset NoDup_ddel NoDup_dict_of : py.

(** ** Lists *)

Lemma elem_of_flat_map {A B} (f : A → list B) l y :
  y ∈ flat_map f l ↔ ∃ x, x ∈ l ∧ y ∈ f x.
Proof.
  rewrite list_elem_of_In, in_flat_map. by setoid_rewrite list_elem_of_In.
Qed.

Lemma flat_map_ext_elem {A B} (f g : A → list B) l :
  (∀ x, x ∈ l → f x = g x) → flat_map f l = flat_map g l.
Proof.
  induction l as [|x l IH]; intros Hx; [done|]. simpl. rewrite (Hx x) by left.
  by rewrite IH by (intros; apply Hx; by right).
Qed.

Lemma flat_map_perm {A B} (f : A → list B) l l' : l ≡ₚ l' → flat_map f l ≡ₚ flat_map f l'.
Proof.
  induction 1 as [|x l l' _ IH|x y l|l1 l2 l3 _ IH1 _ IH2]; simpl; [done|by rewrite IH| |].
  - rewrite !app_assoc. apply Permutation_app_tail. apply Permutation_app_comm.
  - by rewrite IH1.
Qed.

Lemma NoDup_fmap_app {A B} (f : A → B) l1 l2 :
  NoDup (f <$> l1 ++ l2) → NoDup (f <$> l1) ∧ NoDup (f <$> l2) ∧
  (∀ x y, x ∈ l1 → y ∈ l2 → f x ≠ f y).
Proof.
  rewrite fmap_app. intros (H1 & H12 & H2)%NoDup_app. split_and!; [done..|].
  intros x y Hx Hy Heq. eapply H12.
  - by apply (list_elem_of_fmap_2 f).
  - rewrite Heq. by apply (list_elem_of_fmap_2 f).
Qed.

Lemma forallb_fmap {A B} (p : B → bool) (f : A → B) l :
  forallb p (f <$> l) = forallb (λ x, p (f x)) l.
Proof. induction l as [|x l IH]; [done|]. cbn. by rewrite IH. Qed.

Lemma forallb_elem {A} (p : A → bool) l : forallb p l = true ↔ ∀ x, x ∈ l → p x = true.
Proof. rewrite forallb_forall. by setoid_rewrite list_elem_of_In. Qed.

(** A run from its outcome. *)
Lemma run_eq {A B} (p : A * B) a : p.1 = a → p = (a, p.2).
Proof. by destruct p; simpl; intros ->. Qed.

(** Truthiness of a Python [str] and of an optional [str]. *)
Definition str_true (s : string) : bool := bool_decide (s ≠ "").
Definition ostr_true (s : option string) : bool :=
  match s with Some s => str_true s | None => false end.

(** [l.sort(key=k)]: a stable sort, where [R x y] is [k(x) <= k(y)]. *)
Section StableSort.
Context {A : Type} (R : relation A) `{!RelDecision R}.

Fixpoint insert_sorted (x : A) (l : list A) : list A :=
  match l with
  | [] => [x]
  | y :: l' => if decide (R x y) then x :: l else y :: insert_sorted x l'
  end.

Definition stable_sort (l : list A) : list A := foldr insert_sorted [] l.

Lemma insert_sorted_perm x l : insert_sorted x l ≡ₚ x :: l.
Proof.
  induction l as [|y l IH]; [done|]. simpl. case_decide; [done|].
  rewrite IH. apply perm_swap.
Qed.

Lemma stable_sort_perm l : stable_sort l ≡ₚ l.
Proof.
  induction l as [|x l IH]; [done|]. simpl. rewrite insert_sorted_perm. by constructor.
Qed.

Lemma stable_sort_sorted `{!Total R, !Transitive R} l : StronglySorted R (stable_sort l).
Proof.
  induction l as [|x l IH]; [constructor|]. simpl.
  induction IH as [|y l' Hl IH Hy]; simpl; [repeat constructor|]. case_decide as Hxy.
  - constructor; [by constructor|]. constructor; [done|].
    eapply Forall_impl; [exact Hy|]. intros z Hz. by transitivity y.
  - constructor; [exact IH|]. rewrite (insert_sorted_perm x l').
    constructor; [|done]. by destruct (total R x y).
Qed.

(** A list that is already sorted is left as it is. *)
Lemma stable_sort_id l : StronglySorted R l → stable_sort l = l.
Proof.
  induction 1 as [|x l Hl IH Hx]; [done|]. simpl. rewrite IH.
  destruct l as [|y l]; [done|]. simpl. apply Forall_cons in Hx as [Hxy _].
  by rewrite decide_True.
Qed.
End StableSort.

(** [l.remove(x)] for the equality [eqb]; [None] is a [ValueError]. *)
Fixpoint remove_first {A} (eqb : A → bool) (l : list A) : option (list A) :=
  match l with
  | [] => None
  | y :: l' => if eqb y then Some l' else cons y <$> remove_first eqb l'
  end.

Lemma remove_first_Some {A} (eqb : A → bool) l l' :
  remove_first eqb l = Some l' →
  ∃ l1 y l2, l = l1 ++ y :: l2 ∧ l' = l1 ++ l2 ∧ eqb y = true ∧
    Forall (λ x, eqb x = false) l1.
Proof.
  revert l'. induction l as [|y l IH]; intros l'; simpl; [done|].
  destruct (eqb y) eqn:Hy.
  - intros [= <-]. by exists [], y, l.
  - intros (l0 & H0 & ->)%fmap_Some. destruct (IH l0 H0) as (l1 & z & l2 & -> & -> & Hz & Hl1).
    exists (y :: l1), z, l2. split_and!; [done..|by constructor].
Qed.

Lemma remove_first_None {A} (eqb : A → bool) l :
  remove_first eqb l = None ↔ Forall (λ x, eqb x = false) l.
Proof.
  induction l as [|y l IH]; simpl; [done|]. rewrite Forall_cons, <- IH.
  destruct (eqb y); [naive_solver|]. destruct (remove_first eqb l); naive_solver.
Qed.

Lemma existsb_false_iff {A} (f : A → bool) l : existsb f l = false ↔ ∀ x, x ∈ l → f x = false.
Proof.
  induction l as [|x l IH]; cbn; [by split; [intros _ y Hy; by apply elem_of_nil in Hy|]|].
  rewrite orb_false_iff, IH. setoid_rewrite elem_of_cons. naive_solver.
Qed.

(** ** Retries

    [retrying.retry] with [S n] attempts: a failure that [p] accepts starts the
    computation again, in the state it left. *)
Section Retrying.
Context {E S A : Type} (p : E → bool).
Implicit Types (m : M E S A) (s : S).

Fixpoint retrying (n : nat) m : M E S A :=
  match n with
  | O => m
  | Datatypes.S n' => try_except m (λ e, if p e then Some (retrying n' m) else None)
  end.

(** [k] attempts that all ended in a failure [p] accepts. *)
Fixpoint failures (k : nat) m s s' : Prop :=
  match k with
  | O => s' = s
  | Datatypes.S k' => ∃ e s1, m s = (Raise e, s1) ∧ p e = true ∧ failures k' m s1 s'
  end.

Lemma retrying_spec n m s o s' :
  retrying n m s = (o, s') ↔
  ∃ k s1, (k ≤ n)%nat ∧ failures k m s s1 ∧ m s1 = (o, s') ∧
    (k = n ∨ ∀ e, o = Raise e → p e = false).
Proof.
  revert s. induction n as [|n IH]; intros s; cbn [retrying].
  - split.
    + intros Hs. exists 0, s. split_and!; [lia|done|done|by left].
    + intros (k & s1 & Hk & Hf & Hs & _). assert (k = 0) as -> by lia. by rewrite <- Hf.
  - unfold try_except. split.
    + destruct (m s) as [[a|e] s1] eqn:Hm.
      * intros [= <- <-]. exists 0, s. split_and!; [lia|done|done|by right].
      * destruct (p e) eqn:He.
        { intros (k & s2 & Hk & Hf & Hs & Hl)%IH. exists (Datatypes.S k), s2.
          split_and!; [lia| |done|naive_solver lia]. by exists e, s1. }
        intros [= <- <-]. exists 0, s. split_and!; [lia|done|done|right; naive_solver].
    + intros (k & s2 & Hk & Hf & Hs & Hl). destruct k as [|k]; cbn [failures] in Hf.
      * subst s2. rewrite Hs. destruct o as [a|e]; [done|].
        destruct Hl as [Hl|Hl]; [lia|]. by rewrite (Hl e eq_refl).
      * destruct Hf as (e & s1 & -> & -> & Hf). apply IH. exists k, s2.
        split_and!; [lia|done|done|naive_solver lia].
Qed.

Lemma preserves_retrying I n m : preserves I m → preserves I (retrying n m).
Proof.
  intros Hm. induction n as [|n IH]; [exact Hm|]. apply preserves_try_except; [exact Hm|].
  intros e k. destruct (p e); [|done]. by intros [= <-].
Qed.

Lemma hoare_retrying I n m Q :
  hoare I m Q (λ _, I) → hoare I (retrying n m) Q (λ _, I).
Proof.
  intros Hm. induction n as [|n IH]; [exact Hm|]. intros s Hs. specialize (Hm s Hs).
  cbn [retrying]. unfold try_except. destruct (m s) as [[a|e] s1]; [exact Hm|].
  destruct (p e); [by apply IH|exact Hm].
Qed.

Lemma keeps_retrying (R : relation S) `{!PreOrder R} n m : keeps R m → keeps R (retrying n m).
Proof.
  intros Hm. induction n as [|n IH]; [exact Hm|]. apply keeps_try_except; [apply _|exact Hm|].
  intros e k. destruct (p e); [|done]. by intros [= <-].
Qed.
End Retrying.

(** [range(n)] *)
Fixpoint repeat_m {E S} (n : nat) (m : M E S unit) : M E S unit :=
  match n with O => ret tt | Datatypes.S n' => bind m (λ _, repeat_m n' m) end.
