(* ===== verification/Exceptions.v ===== *)
(** * Exception classes (src/zun/common/exception.py)

    The exception hierarchy of the service as an inductive type, the class of
    each exception's parent, its HTTP code, [isinstance], and the decorator that
    turns an exception of an API controller into an HTTP response.  The text of a
    message is not modelled: an exception is its class. *)

From S2P Require Import Prelude.
Local Open Scope Z_scope.

(** Python's own exceptions that the modelled code raises or catches. *)
Inductive builtin : Type :=
| ValueError | KeyError | TypeError | IndexError | AttributeError
| NotImplementedError | StopIteration | IOError | OtherException.

(** The subclasses of [ZunException], in the order of the source. *)
Inductive zun_class : Type :=
| ZunException | ObjectNotFound | ObjectNotUnique | ObjectActionError
| ResourceNotFound | ResourceExists | AuthorizationFailure | UnsupportedObjectError
| IncompatibleObjectVersion | OrphanedObjectError | Invalid | InvalidValue
| ValidationError | SchemaValidationError | InvalidUUID | InvalidName
| InvalidDiscoveryURL | GetDiscoveryUrlFailed | InvalidUuidOrName | InvalidIdentity
| InvalidCsr | HTTPNotFound | Conflict | ConflictOptions | InvalidState
| InvalidParameterValue | InvalidParamInVersion | InvalidQuotaValue
| InvalidQuotaMethodUsage | PatchError | NotAuthorized | ConfigInvalid
| PolicyNotAuthorized | ContainerNotFound | ContainerHostNotUp
| ComputeNodeNotFound | NetworkNotFound | RegistryNotFound | NetworkAlreadyExists
| PortNotFound | VolumeMappingNotFound | VolumeNotFound | ImageNotFound
| OperationNotSupported | ZunServiceNotFound | ResourceClassNotFound
| InventoryNotFound | AllocationNotFound | ContainerAlreadyExists
| ExecInstanceAlreadyExists | ComputeNodeAlreadyExists | ImageAlreadyExists
| ZunServiceAlreadyExists | ResourceProviderAlreadyExists
| ResourceClassAlreadyExists | VolumeMappingAlreadyExists | VolumeAlreadyExists
| RegistryAlreadyExists | PortNotUsable | PortInUse | VolumeNotUsable | VolumeInUse
| PortBindingFailed | UniqueConstraintViolated | InvalidStateException
| DockerError | PollTimeOut | ServerInError | ServerUnknownStatus | EntityNotFound
| CommandError | NoValidHost | NoInteractiveFlag | CPUPinningUnknown
| CPUUnpinningUnknown | CPUPinningInvalid | CPUUnpinningInvalid | NotFound
| SchedulerHostFilterNotFound | ClassNotFound | ApiVersionsIntersect
| ConnectionFailed | SocketException | InvalidWebsocketUrl | InvalidWebsocketToken
| ResourcesUnavailable | MakeFileSystemException | MountException
| UnmountException | FileNotFound | PciConfigInvalidWhitelist
| PciDeviceWrongAddressFormat | PciDeviceInvalidDeviceName | PciDeviceNotFoundById
| PciDeviceNotFound | PciDevicePoolEmpty | CapsuleAlreadyExists | CapsuleNotFound
| InvalidCapsuleTemplate | FailedParseStringToJson | ExternalNetworkAttachForbidden
| PciDeviceInvalidStatus | PciDeviceVFInvalidStatus | PciDevicePFInvalidStatus
| PciDeviceInvalidOwner | VolumeCreateFailed | VolumeDeleteFailed
| SecurityGroupCannotBeApplied | SecurityGroupCannotBeRemoved
| ContainerActionNotFound | ContainerActionEventNotFound | OverQuota
| QuotaNotFound | QuotaUsageNotFound | ProjectQuotaNotFound | QuotaAlreadyExists
| QuotaClassNotFound | QuotaResourceUnknown | Base64Exception
| InvalidEncryptionKey | InvalidReference | ReferenceInvalidFormat | NameEmpty
| NameTooLong | ResourceProviderInUse | ResourceProviderRetrievalFailed
| ResourceProviderAggregateRetrievalFailed | ResourceProviderTraitRetrievalFailed
| ResourceProviderCreationFailed | ResourceProviderDeletionFailed
| ResourceProviderUpdateFailed | ResourceProviderNotFound
| ResourceProviderSyncFailed | PlacementAPIConnectFailure | PlacementAPIConflict
| ResourceProviderUpdateConflict | InvalidResourceClass | InvalidResourceAmount
| InvalidInventory | InventoryInUse | UsagesRetrievalFailed
| AllocationUpdateFailed | ConsumerAllocationRetrievalFailed | TraitRetrievalFailed
| TraitCreationFailed | AllocationMoveFailed
| ResourceProviderAllocationRetrievalFailed | ComputeHostNotFound
| RequestedHostNotFound | CNIError | ResourceNotReady.

#[export] Instance builtin_eq_dec : EqDecision builtin.
Proof. solve_decision. Defined.
(** The position of a class in the source, used to decide equality. *)
Definition all_classes : list zun_class := [
  ZunException; ObjectNotFound; ObjectNotUnique; ObjectActionError;
  ResourceNotFound; ResourceExists; AuthorizationFailure; UnsupportedObjectError;
  IncompatibleObjectVersion; OrphanedObjectError; Invalid; InvalidValue;
  ValidationError; SchemaValidationError; InvalidUUID; InvalidName;
  InvalidDiscoveryURL; GetDiscoveryUrlFailed; InvalidUuidOrName; InvalidIdentity;
  InvalidCsr; HTTPNotFound; Conflict; ConflictOptions; InvalidState;
  InvalidParameterValue; InvalidParamInVersion; InvalidQuotaValue;
  InvalidQuotaMethodUsage; PatchError; NotAuthorized; ConfigInvalid;
  PolicyNotAuthorized; ContainerNotFound; ContainerHostNotUp; ComputeNodeNotFound;
  NetworkNotFound; RegistryNotFound; NetworkAlreadyExists; PortNotFound;
  VolumeMappingNotFound; VolumeNotFound; ImageNotFound; OperationNotSupported;
  ZunServiceNotFound; ResourceClassNotFound; InventoryNotFound; AllocationNotFound;
  ContainerAlreadyExists; ExecInstanceAlreadyExists; ComputeNodeAlreadyExists;
  ImageAlreadyExists; ZunServiceAlreadyExists; ResourceProviderAlreadyExists;
  ResourceClassAlreadyExists; VolumeMappingAlreadyExists; VolumeAlreadyExists;
  RegistryAlreadyExists; PortNotUsable; PortInUse; VolumeNotUsable; VolumeInUse;
  PortBindingFailed; UniqueConstraintViolated; InvalidStateException; DockerError;
  PollTimeOut; ServerInError; ServerUnknownStatus; EntityNotFound; CommandError;
  NoValidHost; NoInteractiveFlag; CPUPinningUnknown; CPUUnpinningUnknown;
  CPUPinningInvalid; CPUUnpinningInvalid; NotFound; SchedulerHostFilterNotFound;
  ClassNotFound; ApiVersionsIntersect; ConnectionFailed; SocketException;
  InvalidWebsocketUrl; InvalidWebsocketToken; ResourcesUnavailable;
  MakeFileSystemException; MountException; UnmountException; FileNotFound;
  PciConfigInvalidWhitelist; PciDeviceWrongAddressFormat;
  PciDeviceInvalidDeviceName; PciDeviceNotFoundById; PciDeviceNotFound;
  PciDevicePoolEmpty; CapsuleAlreadyExists; CapsuleNotFound;
  InvalidCapsuleTemplate; FailedParseStringToJson; ExternalNetworkAttachForbidden;
  PciDeviceInvalidStatus; PciDeviceVFInvalidStatus; PciDevicePFInvalidStatus;
  PciDeviceInvalidOwner; VolumeCreateFailed; VolumeDeleteFailed;
  SecurityGroupCannotBeApplied; SecurityGroupCannotBeRemoved;
  ContainerActionNotFound; ContainerActionEventNotFound; OverQuota; QuotaNotFound;
  QuotaUsageNotFound; ProjectQuotaNotFound; QuotaAlreadyExists; QuotaClassNotFound;
  QuotaResourceUnknown; Base64Exception; InvalidEncryptionKey; InvalidReference;
  ReferenceInvalidFormat; NameEmpty; NameTooLong; ResourceProviderInUse;
  ResourceProviderRetrievalFailed; ResourceProviderAggregateRetrievalFailed;
  ResourceProviderTraitRetrievalFailed; ResourceProviderCreationFailed;
  ResourceProviderDeletionFailed; ResourceProviderUpdateFailed;
  ResourceProviderNotFound; ResourceProviderSyncFailed; PlacementAPIConnectFailure;
  PlacementAPIConflict; ResourceProviderUpdateConflict; InvalidResourceClass;
  InvalidResourceAmount; InvalidInventory; InventoryInUse; UsagesRetrievalFailed;
  AllocationUpdateFailed; ConsumerAllocationRetrievalFailed; TraitRetrievalFailed;
  TraitCreationFailed; AllocationMoveFailed;
  ResourceProviderAllocationRetrievalFailed; ComputeHostNotFound;
  RequestedHostNotFound; CNIError; ResourceNotReady].

Definition position (c : zun_class) : nat :=
  match c with
  | ZunException => 0 | ObjectNotFound => 1 | ObjectNotUnique => 2
  | ObjectActionError => 3 | ResourceNotFound => 4 | ResourceExists => 5
  | AuthorizationFailure => 6 | UnsupportedObjectError => 7
  | IncompatibleObjectVersion => 8 | OrphanedObjectError => 9 | Invalid => 10
  | InvalidValue => 11 | ValidationError => 12 | SchemaValidationError => 13
  | InvalidUUID => 14 | InvalidName => 15 | InvalidDiscoveryURL => 16
  | GetDiscoveryUrlFailed => 17 | InvalidUuidOrName => 18 | InvalidIdentity => 19
  | InvalidCsr => 20 | HTTPNotFound => 21 | Conflict => 22 | ConflictOptions => 23
  | InvalidState => 24 | InvalidParameterValue => 25 | InvalidParamInVersion => 26
  | InvalidQuotaValue => 27 | InvalidQuotaMethodUsage => 28 | PatchError => 29
  | NotAuthorized => 30 | ConfigInvalid => 31 | PolicyNotAuthorized => 32
  | ContainerNotFound => 33 | ContainerHostNotUp => 34 | ComputeNodeNotFound => 35
  | NetworkNotFound => 36 | RegistryNotFound => 37 | NetworkAlreadyExists => 38
  | PortNotFound => 39 | VolumeMappingNotFound => 40 | VolumeNotFound => 41
  | ImageNotFound => 42 | OperationNotSupported => 43 | ZunServiceNotFound => 44
  | ResourceClassNotFound => 45 | InventoryNotFound => 46
  | AllocationNotFound => 47 | ContainerAlreadyExists => 48
  | ExecInstanceAlreadyExists => 49 | ComputeNodeAlreadyExists => 50
  | ImageAlreadyExists => 51 | ZunServiceAlreadyExists => 52
  | ResourceProviderAlreadyExists => 53 | ResourceClassAlreadyExists => 54
  | VolumeMappingAlreadyExists => 55 | VolumeAlreadyExists => 56
  | RegistryAlreadyExists => 57 | PortNotUsable => 58 | PortInUse => 59
  | VolumeNotUsable => 60 | VolumeInUse => 61 | PortBindingFailed => 62
  | UniqueConstraintViolated => 63 | InvalidStateException => 64
  | DockerError => 65 | PollTimeOut => 66 | ServerInError => 67
  | ServerUnknownStatus => 68 | EntityNotFound => 69 | CommandError => 70
  | NoValidHost => 71 | NoInteractiveFlag => 72 | CPUPinningUnknown => 73
  | CPUUnpinningUnknown => 74 | CPUPinningInvalid => 75 | CPUUnpinningInvalid => 76
  | NotFound => 77 | SchedulerHostFilterNotFound => 78 | ClassNotFound => 79
  | ApiVersionsIntersect => 80 | ConnectionFailed => 81 | SocketException => 82
  | InvalidWebsocketUrl => 83 | InvalidWebsocketToken => 84
  | ResourcesUnavailable => 85 | MakeFileSystemException => 86
  | MountException => 87 | UnmountException => 88 | FileNotFound => 89
  | PciConfigInvalidWhitelist => 90 | PciDeviceWrongAddressFormat => 91
  | PciDeviceInvalidDeviceName => 92 | PciDeviceNotFoundById => 93
  | PciDeviceNotFound => 94 | PciDevicePoolEmpty => 95 | CapsuleAlreadyExists => 96
  | CapsuleNotFound => 97 | InvalidCapsuleTemplate => 98
  | FailedParseStringToJson => 99 | ExternalNetworkAttachForbidden => 100
  | PciDeviceInvalidStatus => 101 | PciDeviceVFInvalidStatus => 102
  | PciDevicePFInvalidStatus => 103 | PciDeviceInvalidOwner => 104
  | VolumeCreateFailed => 105 | VolumeDeleteFailed => 106
  | SecurityGroupCannotBeApplied => 107 | SecurityGroupCannotBeRemoved => 108
  | ContainerActionNotFound => 109 | ContainerActionEventNotFound => 110
  | OverQuota => 111 | QuotaNotFound => 112 | QuotaUsageNotFound => 113
  | ProjectQuotaNotFound => 114 | QuotaAlreadyExists => 115
  | QuotaClassNotFound => 116 | QuotaResourceUnknown => 117
  | Base64Exception => 118 | InvalidEncryptionKey => 119 | InvalidReference => 120
  | ReferenceInvalidFormat => 121 | NameEmpty => 122 | NameTooLong => 123
  | ResourceProviderInUse => 124 | ResourceProviderRetrievalFailed => 125
  | ResourceProviderAggregateRetrievalFailed => 126
  | ResourceProviderTraitRetrievalFailed => 127
  | ResourceProviderCreationFailed => 128 | ResourceProviderDeletionFailed => 129
  | ResourceProviderUpdateFailed => 130 | ResourceProviderNotFound => 131
  | ResourceProviderSyncFailed => 132 | PlacementAPIConnectFailure => 133
  | PlacementAPIConflict => 134 | ResourceProviderUpdateConflict => 135
  | InvalidResourceClass => 136 | InvalidResourceAmount => 137
  | InvalidInventory => 138 | InventoryInUse => 139 | UsagesRetrievalFailed => 140
  | AllocationUpdateFailed => 141 | ConsumerAllocationRetrievalFailed => 142
  | TraitRetrievalFailed => 143 | TraitCreationFailed => 144
  | AllocationMoveFailed => 145 | ResourceProviderAllocationRetrievalFailed => 146
  | ComputeHostNotFound => 147 | RequestedHostNotFound => 148 | CNIError => 149
  | ResourceNotReady => 150
  end%nat.

Lemma all_classes_position c : all_classes !! position c = Some c.
Proof. by destruct c. Qed.

#[export] Instance position_inj : Inj (=) (=) position.
Proof.
  intros c1 c2 H. apply (inj Some). by rewrite <- !all_classes_position, H.
Qed.

#[export] Instance zun_class_eq_dec : EqDecision zun_class :=
  λ c1 c2, match decide (position c1 = position c2) with
           | left H => left (position_inj c1 c2 H)
           | right H => right (λ e, H (f_equal position e))
           end.

Inductive exn : Type :=
| Py (b : builtin)
| Zun (c : zun_class)
| OutOfFuel. (** no Python counterpart: a bounded loop of the model gave up *)

#[export] Instance exn_eq_dec : EqDecision exn.
Proof. solve_decision. Defined.

(** A computation of the service that may raise. *)
Abbreviation py S A := (M exn S A).

(** The parent class; [None] for [ZunException], whose parent is [Exception]. *)
Definition parent_class (c : zun_class) : option zun_class :=
  match c with
  | ZunException => None
  | ResourceNotFound => Some ObjectNotFound
  | ResourceExists => Some ObjectNotUnique
  | InvalidValue | ValidationError | InvalidUUID | InvalidName
  | InvalidDiscoveryURL | InvalidUuidOrName | InvalidIdentity | InvalidCsr
  | InvalidParameterValue | InvalidParamInVersion | InvalidQuotaValue
  | InvalidQuotaMethodUsage | PatchError | ImageNotFound | PortNotUsable
  | PortInUse | VolumeNotUsable | VolumeInUse | PortBindingFailed
  | NoInteractiveFlag | CPUUnpinningUnknown | CPUPinningInvalid
  | CPUUnpinningInvalid | PciDeviceInvalidStatus | PciDeviceVFInvalidStatus
  | PciDevicePFInvalidStatus | PciDeviceInvalidOwner | VolumeCreateFailed
  | VolumeDeleteFailed | SecurityGroupCannotBeApplied
  | SecurityGroupCannotBeRemoved | Base64Exception | InvalidResourceClass
  | InvalidResourceAmount | InvalidInventory => Some Invalid
  | SchemaValidationError => Some ValidationError
  | HTTPNotFound => Some ResourceNotFound
  | ConflictOptions | InvalidState => Some Conflict
  | PolicyNotAuthorized | ExternalNetworkAttachForbidden => Some NotAuthorized
  | ContainerNotFound | ComputeNodeNotFound | NetworkNotFound | RegistryNotFound
  | PortNotFound | VolumeMappingNotFound | VolumeNotFound | ZunServiceNotFound
  | ResourceClassNotFound | InventoryNotFound | AllocationNotFound
  | CapsuleNotFound => Some HTTPNotFound
  | NetworkAlreadyExists | ContainerAlreadyExists | ExecInstanceAlreadyExists
  | ComputeNodeAlreadyExists | ImageAlreadyExists | ZunServiceAlreadyExists
  | ResourceProviderAlreadyExists | ResourceClassAlreadyExists
  | VolumeMappingAlreadyExists | VolumeAlreadyExists | RegistryAlreadyExists
  | UniqueConstraintViolated | CapsuleAlreadyExists => Some ResourceExists
  | SchedulerHostFilterNotFound | ClassNotFound | PciDeviceNotFoundById
  | PciDeviceNotFound | QuotaNotFound | QuotaUsageNotFound
  | ResourceProviderNotFound | ComputeHostNotFound | RequestedHostNotFound => Some NotFound
  | ProjectQuotaNotFound | QuotaClassNotFound | QuotaResourceUnknown => Some QuotaNotFound
  | ReferenceInvalidFormat | NameEmpty | NameTooLong => Some InvalidReference
  | ResourceProviderUpdateConflict => Some PlacementAPIConflict
  | InventoryInUse => Some InvalidInventory
  | ResourceNotReady => Some CNIError
  | _ => Some ZunException
  end.

(** The [code] attribute a class defines itself, if it does. *)
Definition own_code (c : zun_class) : option Z :=
  match c with
  | ZunException => Some 500
  | ResourceNotFound => Some 404
  | ResourceExists => Some 409
  | Invalid => Some 400
  | Conflict => Some 409
  | NotAuthorized => Some 403
  | InvalidStateException => Some 409
  | NotFound => Some 404
  | OverQuota => Some 403
  | _ => None
  end.

(** The class and its ancestors, nearest first.  The hierarchy is at most five
    classes deep ([mro_reaches_root]). *)
Fixpoint ancestors (fuel : nat) (c : zun_class) : list zun_class :=
  c :: match fuel, parent_class c with
       | S n, Some p => ancestors n p
       | _, _ => []
       end.

Definition mro (c : zun_class) : list zun_class := ancestors 4 c.

(** [isinstance(e, cls)] for a class of the hierarchy. *)
Definition isinstance (e : exn) (cls : zun_class) : bool :=
  match e with
  | Zun c => bool_decide (cls ∈ mro c)
  | _ => false
  end.

(** Attribute lookup of [code] along the ancestors. *)
Definition code (c : zun_class) : Z :=
  default 500 (head (omap own_code (mro c))).

(** [wrap_controller_exception]: what the API answers when a controller method
    returned [v] or raised. *)
Inductive response (A : Type) : Type :=
| Answer (v : A)
| ServerFault (status : Z)            (** obfuscated message, correlation id *)
| ClientFault (status : Z) (e : exn). (** the exception's own message *)
Arguments Answer {A} _.
Arguments ServerFault {A} _.
Arguments ClientFault {A} _ _.

Definition http_error_code (e : exn) : Z :=
  match e with Zun c => code c | _ => 500 end.

Definition wrap_controller_exception {S A} (func : py S A) : S → response A * S :=
  λ s, match func s with
       | (Ok v, s') => (Answer v, s')
       | (Raise excp, s') =>
           let http_error_code := http_error_code excp in
           if bool_decide (500 ≤ http_error_code)%Z
           then (ServerFault http_error_code, s')
           else (ClientFault http_error_code excp, s')
       end.

(** ** Properties *)

Lemma mro_reaches_root c : last (mro c) = Some ZunException.
Proof. by destruct c. Qed.

(** Every class is a [ZunException]. *)
Lemma isinstance_root c : isinstance (Zun c) ZunException = true.
Proof. by destruct c. Qed.

Lemma isinstance_refl c : isinstance (Zun c) c = true.
Proof. by destruct c. Qed.

Lemma mro_parent c p : parent_class c = Some p → mro c = c :: mro p.
Proof. by destruct c; intros; simplify_eq/=. Qed.

(** A handler for a class also catches everything its subclasses catch. *)
Lemma isinstance_parent c p d :
  parent_class c = Some p → isinstance (Zun p) d = true → isinstance (Zun c) d = true.
Proof.
  intros Hp%mro_parent. simpl. rewrite Hp, !bool_decide_eq_true. by right.
Qed.

Lemma code_range c : code c ∈ [400; 403; 404; 409; 500].
Proof.
  apply (bool_decide_eq_true_1 _).
  by destruct c; vm_compute.
Qed.

(** [isinstance] is the reflexive transitive closure of the class
    declarations: the ancestors computed with the chosen bound are all of them,
    so an [except cls] clause catches exactly [cls] and its subclasses. *)
Theorem isinstance_is_subclass c d :
  isinstance (Zun c) d = true ↔ rtc (λ x y, parent_class x = Some y) c d.
Proof.
  split.
  - unfold isinstance. rewrite bool_decide_eq_true. unfold mro.
    generalize 4%nat as n. intros n. revert c. induction n as [|n IH]; intros c; simpl.
    + intros ->%list_elem_of_singleton. constructor.
    + intros [->|Hd]%elem_of_cons; [constructor|].
      destruct (parent_class c) as [p|] eqn:Hp; [|by apply elem_of_nil in Hd].
      by eapply rtc_l; [exact Hp|apply IH].
  - induction 1 as [c|c p d Hp _ IH]; [apply isinstance_refl|].
    by eapply isinstance_parent.
Qed.

(** A wrapped controller method never lets an exception out, keeps the state
    the method left, and answers: the value returned; an obfuscated 500 for an
    exception that is not a [ZunException] or whose inherited code is at least
    500; otherwise the exception's own code, one of 400, 403, 404 and 409. *)
Theorem wrap_controller_exception_spec {S A} (func : py S A) s :
  (wrap_controller_exception func s).2 = (func s).2 ∧
  match (func s).1, (wrap_controller_exception func s).1 with
  | Ok v, Answer v' => v' = v
  | Raise e, ServerFault status => status = 500 ∧ ∀ c, e = Zun c → code c = 500
  | Raise e, ClientFault status e' =>
      e' = e ∧ ∃ c, e = Zun c ∧ status = code c ∧ status ∈ [400; 403; 404; 409]
  | _, _ => False
  end.
Proof.
  unfold wrap_controller_exception. destruct (func s) as [[v|e] s']; [done|].
  destruct e as [b|c|]; simpl; [by split_and!; [..|intros c [=]]| |
    by split_and!; [..|intros c [=]]].
  pose proof (code_range c) as Hc. case_bool_decide as H5; simpl.
  - split_and!; [done| |intros c' [= <-]]; set_unfold; lia.
  - split_and!; [done..|]. exists c. split_and!; [done..|]. set_unfold. lia.
Qed.
