(* ===== verification/ProviderTree.v ===== *)
(** * The tree of resource providers (src/zun/compute/provider_tree.py)

    Module [Node] models the class [_Provider], module [Tree] the class
    [ProviderTree].  A provider object is referred to by its position (root
    index and keys of the [children] dictionaries): [find] returns such a
    reference, and a method called on the provider found mutates the object
    there.  The lock is a mutex around each method, so a method is one atomic
    step.  [flat] is the abstract view: a finite map from uuid to provider
    data, which each method is proved to update as its specification says. *)

From S2P Require Import Prelude Exceptions.

Abbreviation inventory_t := (gmap string (gmap string Qc)).

Record ProviderData : Type := mkData {
  uuid : string;
  name : string;
  generation : option Z;
  parent_uuid : option string;
  inventory : inventory_t;
  traits : gset string;
  aggregates : gset string
}.

#[export] Instance ProviderData_eq_dec : EqDecision ProviderData.
Proof. solve_decision. Defined.

(** A provider object: its attributes and its [children] dictionary. *)
Inductive Provider : Type :=
| Prov (d : ProviderData) (children : dict string Provider).

(** The dictionaries given to [from_dict]; a missing key is [None]. *)
Record pdict : Type := mkPdict {
  pd_uuid : option string;
  pd_name : option string;
  pd_generation : option Z;
  pd_parent_provider_uuid : option string
}.

Module Node.

Definition data (p : Provider) : ProviderData := match p with Prov d _ => d end.
Definition children (p : Provider) : dict string Provider :=
  match p with Prov _ ch => ch end.

(** [_Provider(name, uuid, generation, parent_uuid)]; [generate_uuid] is the
    value drawn when no uuid is given. *)
Definition new (generate_uuid name : string) (uuid : option string)
    (generation : option Z) (parent_uuid : option string) : Provider :=
  Prov {| uuid := match uuid with None => generate_uuid | Some u => u end;
          name := name; generation := generation; parent_uuid := parent_uuid;
          inventory := ∅; traits := ∅; aggregates := ∅ |} [].

Definition from_dict (generate_uuid : string) (pd : pdict) : option Provider :=
  n ← pd_name pd;
  Some (new generate_uuid n (pd_uuid pd) (pd_generation pd) (pd_parent_provider_uuid pd)).

Fixpoint get_provider_uuids (p : Provider) : list string :=
  match p with
  | Prov d ch => uuid d :: flat_map (λ kc, get_provider_uuids kc.2) ch
  end.

(** The position of the provider found below [p]. *)
Fixpoint find (search : string) (p : Provider) : option (list string) :=
  match p with
  | Prov d ch =>
      if decide (name d = search ∨ uuid d = search) then Some []
      else if dhas ch search then Some [search]
      else (fix go (l : dict string Provider) : option (list string) :=
              match l with
              | [] => None
              | (k, child) :: l' =>
                  if decide (name (data child) = search) then Some [k]
                  else match find search child with
                       | Some path => Some (k :: path)
                       | None => go l'
                       end
              end) ch
  end.

Definition add_child (provider p : Provider) : Provider :=
  match p with
  | Prov d ch => Prov d (dset ch (uuid (data provider)) provider)
  end.

Definition remove_child (provider p : Provider) : Provider :=
  match p with
  | Prov d ch =>
      if dhas ch (uuid (data provider))
      then Prov d (ddel ch (uuid (data provider))) else p
  end.

Definition has_inventory (d : ProviderData) : bool := bool_decide (inventory d ≠ ∅).

(** One record of [has_inventory_changed]: new fields, or a common field with
    another value; fields missing from the new record are ignored. *)
Definition record_changed (cur_rec new_rec : gmap string Qc) : bool :=
  bool_decide (dom new_rec ∖ dom cur_rec ≠ ∅) ||
  existsb (λ kv, match new_rec !! kv.1 with
                 | None => false
                 | Some v => bool_decide (v ≠ kv.2)
                 end) (map_to_list cur_rec).

Definition has_inventory_changed (d : ProviderData) (new : inventory_t) : bool :=
  bool_decide (dom (inventory d) ≠ dom new) ||
  existsb (λ kr, record_changed kr.2 (default ∅ (new !! kr.1)))
    (map_to_list (inventory d)).

Definition _update_generation (gen : option Z) (d : ProviderData) : ProviderData :=
  if decide (gen ≠ None ∧ gen ≠ generation d)
  then mkData (uuid d) (name d) gen (parent_uuid d) (inventory d) (traits d) (aggregates d)
  else d.

Definition set_inventory (inv : inventory_t) (d : ProviderData) : ProviderData :=
  mkData (uuid d) (name d) (generation d) (parent_uuid d) inv (traits d) (aggregates d).
Definition set_traits (t : gset string) (d : ProviderData) : ProviderData :=
  mkData (uuid d) (name d) (generation d) (parent_uuid d) (inventory d) t (aggregates d).
Definition set_aggregates (a : gset string) (d : ProviderData) : ProviderData :=
  mkData (uuid d) (name d) (generation d) (parent_uuid d) (inventory d) (traits d) a.

Definition update_inventory (inv : inventory_t) (gen : option Z) (d : ProviderData)
    : bool * ProviderData :=
  let d := _update_generation gen d in
  if has_inventory_changed d inv then (true, set_inventory inv d) else (false, d).

Definition have_traits_changed (new : gset string) (d : ProviderData) : bool :=
  bool_decide (new ≠ traits d).

Definition update_traits (new : gset string) (gen : option Z) (d : ProviderData)
    : bool * ProviderData :=
  let d := _update_generation gen d in
  if have_traits_changed new d then (true, set_traits new d) else (false, d).

Definition has_traits (ts : gset string) (d : ProviderData) : bool :=
  negb (bool_decide (ts ∖ traits d ≠ ∅)).

Definition have_aggregates_changed (new : gset string) (d : ProviderData) : bool :=
  bool_decide (new ≠ aggregates d).

Definition update_aggregates (new : gset string) (gen : option Z) (d : ProviderData)
    : bool * ProviderData :=
  let d := _update_generation gen d in
  if have_aggregates_changed new d then (true, set_aggregates new d) else (false, d).

Definition in_aggregates (aggs : gset string) (d : ProviderData) : bool :=
  negb (bool_decide (aggs ∖ aggregates d ≠ ∅)).

End Node.

(** References into the tree. *)
Fixpoint subtree (path : list string) (p : Provider) : option Provider :=
  match path with
  | [] => Some p
  | k :: path' => dget (Node.children p) k ≫= subtree path'
  end.

Fixpoint alter_at (path : list string) (f : Provider → Provider) (p : Provider) : Provider :=
  match path with
  | [] => f p
  | k :: path' =>
      match p with Prov d ch => Prov d (dalter (alter_at path' f) ch k) end
  end.

Definition with_data (f : ProviderData → ProviderData) (p : Provider) : Provider :=
  match p with Prov d ch => Prov (f d) ch end.

Abbreviation ref := (nat * list string)%type.

Definition deref (t : list Provider) (r : ref) : option Provider :=
  t !! r.1 ≫= subtree r.2.
Definition assign (r : ref) (f : Provider → Provider) (t : list Provider) : list Provider :=
  alter (alter_at r.2 f) r.1 t.

Module Tree.

(** [ProviderTree.roots]. *)
Abbreviation tree := (list Provider).

Fixpoint find_from (i : nat) (search : string) (roots : tree) : option ref :=
  match roots with
  | [] => None
  | root :: roots' =>
      match Node.find search root with
      | Some path => Some (i, path)
      | None => find_from (S i) search roots'
      end
  end.

Definition _find_with_lock (name_or_uuid : string) (return_root : bool) : py tree ref :=
  λ t, match find_from 0 name_or_uuid t with
       | Some (i, path) => (Ok (i, if return_root then [] else path), t)
       | None => (Raise (Py ValueError), t)
       end.

(** Read, or mutate in place, the object a reference denotes. *)
Definition read {A} (r : ref) (f : Provider → A) : py tree A :=
  λ t, match deref t r with
       | Some p => (Ok (f p), t)
       | None => (Raise (Py KeyError), t)
       end.

Definition on_found {A} (name_or_uuid : string) (f : ProviderData → A * ProviderData)
    : py tree A :=
  let! r := _find_with_lock name_or_uuid false in
  let! a := read r (λ p, (f (Node.data p)).1) in
  modify (assign r (with_data (λ d, (f d).2)));;;
  ret a.

Definition look {A} (name_or_uuid : string) (f : ProviderData → A) : py tree A :=
  let! r := _find_with_lock name_or_uuid false in
  read r (λ p, f (Node.data p)).

Definition get_provider_uuids (name_or_uuid : option string) : py tree (list string) :=
  match name_or_uuid with
  | Some s =>
      let! r := _find_with_lock s false in
      read r Node.get_provider_uuids
  | None => gets (flat_map Node.get_provider_uuids)
  end.

Definition get_provider_uuids_in_tree (name_or_uuid : string) : py tree (list string) :=
  let! r := _find_with_lock name_or_uuid true in
  read r Node.get_provider_uuids.

(** [self.roots.remove(found)]: objects compare by identity. *)
Definition remove_root (r : ref) : py tree unit :=
  match r with
  | (i, []) => modify (delete i)
  | _ => raise (Py ValueError)
  end.

Definition _remove_with_lock (name_or_uuid : string) : py tree unit :=
  let! rf := _find_with_lock name_or_uuid false in
  let! found := read rf id in
  match parent_uuid (Node.data found) with
  | Some pu =>
      if str_true pu then
        let! rp := _find_with_lock pu false in
        modify (assign rp (Node.remove_child found))
      else remove_root rf
  | None => remove_root rf
  end.

Definition remove (name_or_uuid : string) : py tree unit := _remove_with_lock name_or_uuid.

Definition is_ValueError (e : exn) : bool := bool_decide (e = Py ValueError).

Definition exists_ (name_or_uuid : string) : py tree bool :=
  try_except (_find_with_lock name_or_uuid false;;; ret true)
    (λ e, if is_ValueError e then Some (ret false) else None).

Definition new_root (name uuid : string) (generation : option Z) : py tree string :=
  let! found := exists_ uuid in
  raise_if found (Py ValueError);;;
  let p := Node.new uuid name (Some uuid) generation None in
  modify (λ t, t ++ [p]);;;
  ret (ProviderTree.uuid (Node.data p)).

Definition data (name_or_uuid : string) : py tree ProviderData := look name_or_uuid id.

Definition new_child (generate_uuid name parent : string) (uuid : option string)
    (generation : option Z) : py tree string :=
  let key := match uuid with Some u => if str_true u then u else name | None => name end in
  let! found := exists_ key in
  raise_if found (Py ValueError);;;
  let! rp := _find_with_lock parent false in
  let! pu := read rp (λ p, ProviderTree.uuid (Node.data p)) in
  let p := Node.new generate_uuid name uuid generation (Some pu) in
  modify (assign rp (Node.add_child p));;;
  ret (ProviderTree.uuid (Node.data p)).

Definition has_inventory (s : string) : py tree bool := look s Node.has_inventory.
Definition has_inventory_changed (s : string) (inv : inventory_t) : py tree bool :=
  look s (λ d, Node.has_inventory_changed d inv).
Definition update_inventory (s : string) (inv : inventory_t) (gen : option Z) : py tree bool :=
  on_found s (Node.update_inventory inv gen).

(** [os_traits.MISC_SHARES_VIA_AGGREGATE] *)
Definition MISC_SHARES_VIA_AGGREGATE : string := "MISC_SHARES_VIA_AGGREGATE".

Definition has_sharing_provider (resource_class : string) : py tree bool :=
  let! uuids := get_provider_uuids None in
  (fix go (l : list string) : py tree bool :=
     match l with
     | [] => ret false
     | rp_uuid :: l' =>
         let! pdata := data rp_uuid in
         if bool_decide (is_Some (inventory pdata !! resource_class)) &&
            bool_decide (MISC_SHARES_VIA_AGGREGATE ∈ traits pdata)
         then ret true else go l'
     end) uuids.

Definition has_traits (s : string) (ts : gset string) : py tree bool :=
  look s (Node.has_traits ts).
Definition have_traits_changed (s : string) (ts : gset string) : py tree bool :=
  look s (Node.have_traits_changed ts).
Definition update_traits (s : string) (ts : gset string) (gen : option Z) : py tree bool :=
  on_found s (Node.update_traits ts gen).
Definition add_traits (s : string) (ts : list string) : py tree unit :=
  match ts with
  | [] => ret tt
  | _ => on_found s (λ d,
           (tt, (Node.update_traits (traits d ∪ list_to_set ts) None d).2))
  end.
Definition remove_traits (s : string) (ts : list string) : py tree unit :=
  match ts with
  | [] => ret tt
  | _ => on_found s (λ d,
           (tt, (Node.update_traits (traits d ∖ list_to_set ts) None d).2))
  end.

Definition in_aggregates (s : string) (aggs : gset string) : py tree bool :=
  look s (Node.in_aggregates aggs).
Definition have_aggregates_changed (s : string) (aggs : gset string) : py tree bool :=
  look s (Node.have_aggregates_changed aggs).
Definition update_aggregates (s : string) (aggs : gset string) (gen : option Z)
    : py tree bool :=
  on_found s (Node.update_aggregates aggs gen).
Definition add_aggregates (s : string) (aggs : list string) : py tree unit :=
  on_found s (λ d,
    (tt, (Node.update_aggregates (aggregates d ∪ list_to_set aggs) None d).2)).
Definition remove_aggregates (s : string) (aggs : list string) : py tree unit :=
  on_found s (λ d,
    (tt, (Node.update_aggregates (aggregates d ∖ list_to_set aggs) None d).2)).

(** *** [populate_from_iterable] *)

(** The next entry whose parent is not itself waiting to be added. *)
Definition pick (to_add : dict string pdict) : option (string * pdict) :=
  List.find (λ kv, match pd_parent_provider_uuid kv.2 with
                   | None => true
                   | Some pu => negb (dhas to_add pu)
                   end) to_add.

Definition inject (uuid : string) (pd : pdict) : py tree unit :=
  try_except (_remove_with_lock uuid)
    (λ e, if is_ValueError e then Some (ret tt) else None);;;
  let! provider := of_option (Node.from_dict uuid pd) (Py KeyError) in
  match pd_parent_provider_uuid pd with
  | None => modify (λ t, t ++ [provider])
  | Some pu =>
      let! rp := _find_with_lock pu false in
      modify (assign rp (Node.add_child provider))
  end.

Fixpoint populate_loop (fuel : nat) (to_add : dict string pdict) : py tree unit :=
  match to_add with
  | [] => ret tt
  | _ =>
      match fuel with
      | O => raise OutOfFuel
      | S n =>
          match pick to_add with
          | None => raise (Py ValueError)
          | Some (uuid, pd) =>
              inject uuid pd;;;
              populate_loop n (ddel to_add uuid)
          end
      end
  end.

Definition keyed (pd : pdict) : py tree (string * pdict) :=
  let! u := of_option (pd_uuid pd) (Py KeyError) in ret (u, pd).

Definition missing_parents (t : tree) (to_add : dict string pdict) : list string :=
  let all_parents := dkeys to_add ++ flat_map Node.get_provider_uuids t in
  omap (λ kv, match pd_parent_provider_uuid kv.2 with
              | None => None
              | Some pu => if decide (pu ∈ all_parents) then None else Some pu
              end) to_add.

Definition populate_from_iterable (provider_dicts : list pdict) : py tree unit :=
  match provider_dicts with
  | [] => ret tt
  | _ =>
      let! kvs := map_m keyed provider_dicts in
      let to_add_by_uuid := dict_of kvs in
      let! missing := gets (λ t, missing_parents t to_add_by_uuid) in
      raise_if (bool_decide (missing ≠ [])) (Py ValueError);;;
      populate_loop (length to_add_by_uuid) to_add_by_uuid
  end.

End Tree.

(** ** The abstract view *)

(** The data of the providers below a node, in traversal order. *)
Fixpoint nodes (p : Provider) : list ProviderData :=
  match p with Prov d ch => d :: flat_map (λ kc, nodes kc.2) ch end.

Definition all_nodes (t : list Provider) : list ProviderData := flat_map nodes t.
Definition all_uuids (t : list Provider) : list string := uuid <$> all_nodes t.

Definition flat (t : list Provider) : gmap string ProviderData :=
  list_to_map ((λ d, (uuid d, d)) <$> all_nodes t).

(** Children are stored under their uuid and name their parent. *)
Fixpoint linked (p : Provider) : Prop :=
  match p with
  | Prov d ch =>
      NoDup (dkeys ch) ∧
      foldr (λ kc acc, (uuid (Node.data kc.2) = kc.1 ∧
                        parent_uuid (Node.data kc.2) = Some (uuid d) ∧
                        linked kc.2) ∧ acc) True ch
  end.

(** Induction over providers, with the hypothesis for every child. *)
Section ProviderInd.
Context (P : Provider → Prop).
Context (HP : ∀ d ch, Forall (λ kc, P kc.2) ch → P (Prov d ch)).

Fixpoint provider_ind (p : Provider) : P p :=
  match p with
  | Prov d ch =>
      HP d ch ((fix go (l : dict string Provider) : Forall (λ kc, P kc.2) l :=
                  match l with
                  | [] => Forall_nil_2 _
                  | kc :: l' => Forall_cons_2 _ kc l' (provider_ind kc.2) (go l')
                  end) ch)
  end.
End ProviderInd.

Lemma linked_Prov d ch :
  linked (Prov d ch) ↔
  NoDup (dkeys ch) ∧
  ∀ k c, (k, c) ∈ ch →
    uuid (Node.data c) = k ∧ parent_uuid (Node.data c) = Some (uuid d) ∧ linked c.
Proof.
  simpl. f_equiv. induction ch as [|[k c] ch IH]; simpl; [set_solver|].
  rewrite IH. set_unfold. naive_solver.
Qed.

Lemma nodes_cons p : nodes p = Node.data p :: flat_map (λ kc, nodes kc.2) (Node.children p).
Proof. by destruct p. Qed.

(** [get_provider_uuids] lists exactly the uuids, in traversal order. *)
Lemma get_provider_uuids_nodes p : Node.get_provider_uuids p = uuid <$> nodes p.
Proof.
  induction p as [d ch IH] using provider_ind. simpl. f_equal.
  induction IH as [|[k c] ch Hc _ IHch]; simpl in *; [done|].
  by rewrite fmap_app, Hc, IHch.
Qed.

Lemma elem_nodes_child p k c d :
  (k, c) ∈ Node.children p → d ∈ nodes c → d ∈ nodes p.
Proof.
  intros Hc Hd. rewrite nodes_cons. right. apply elem_of_flat_map. by exists (k, c).
Qed.

(** *** A reference splits the traversal around the provider it denotes *)

Lemma dalter_split {V} (ch : dict string V) k c :
  dget ch k = Some c →
  ∃ pre post, ch = pre ++ (k, c) :: post ∧ k ∉ dkeys pre ∧
    ∀ f, dalter f ch k = pre ++ (k, f c) :: post.
Proof.
  induction ch as [|[k' c'] ch IH]; simpl; [done|].
  case_decide as Hk; intros H.
  - simplify_eq. exists [], ch. split_and!; [done|set_solver|done].
  - destruct (IH H) as (pre & post & -> & Hpre & Hf).
    exists ((k', c') :: pre), post. split_and!; [done|set_solver|].
    intros f. simpl. by rewrite Hf.
Qed.

Lemma alter_at_split path p q :
  subtree path p = Some q →
  ∃ pre post, ∀ f, nodes (alter_at path f p) = pre ++ nodes (f q) ++ post.
Proof.
  revert p. induction path as [|k path IH]; intros p Hp; simpl in *.
  - simplify_eq. exists [], []. intros f. by rewrite app_nil_r.
  - destruct p as [d ch]. apply bind_Some in Hp as (c & Hc & Hq). simpl in Hc.
    destruct (IH c Hq) as (pre & post & Hf).
    destruct (dalter_split _ _ _ Hc) as (l1 & l2 & -> & _ & Halt).
    exists (d :: flat_map (λ kc, nodes kc.2) l1 ++ pre),
      (post ++ flat_map (λ kc, nodes kc.2) l2).
    intros f. simpl. rewrite Halt. simpl. f_equal.
    rewrite flat_map_app. simpl. rewrite Hf, <- !app_assoc. done.
Qed.

Lemma alter_at_id path p : alter_at path id p = p.
Proof.
  revert p. induction path as [|k path IH]; intros [d ch]; simpl; [done|].
  f_equal. induction ch as [|[k' c] ch IHch]; simpl; [done|].
  case_decide; [by rewrite IH|by rewrite IHch].
Qed.

Lemma assign_split t r q :
  deref t r = Some q →
  ∃ pre post, all_nodes t = pre ++ nodes q ++ post ∧
    ∀ f, all_nodes (assign r f t) = pre ++ nodes (f q) ++ post.
Proof.
  destruct r as [i path]. unfold deref, assign. simpl. intros (p & Hp & Hq)%bind_Some.
  destruct (alter_at_split _ _ _ Hq) as (pre & post & Hf).
  apply list_elem_of_split_length in Hp as (l1 & l2 & -> & ->).
  exists (all_nodes l1 ++ pre), (post ++ all_nodes l2). unfold all_nodes. split.
  - rewrite flat_map_app. simpl. rewrite <- (alter_at_id path p) at 1.
    by rewrite Hf, <- !app_assoc.
  - intros f. rewrite alter_app_r_alt by lia. rewrite Nat.sub_diag. simpl.
    rewrite flat_map_app. simpl. by rewrite Hf, <- !app_assoc.
Qed.

(** What an assignment needs to keep the tree linked. *)
Definition same_place (p p' : Provider) : Prop :=
  uuid (Node.data p') = uuid (Node.data p) ∧
  parent_uuid (Node.data p') = parent_uuid (Node.data p).

Lemma alter_at_data path f p q :
  subtree path p = Some q → (same_place q (f q)) →
  same_place p (alter_at path f p).
Proof.
  destruct path as [|k path]; simpl; intros Hq Hf; [by simplify_eq|].
  by destruct p.
Qed.

Lemma alter_at_linked path f p q :
  linked p → subtree path p = Some q → same_place q (f q) → linked (f q) →
  linked (alter_at path f p).
Proof.
  revert p. induction path as [|k path IH]; intros p Hl Hq Hs Hf; simpl in *.
  { by simplify_eq. }
  destruct p as [d ch]. apply bind_Some in Hq as (c & Hc & Hq). simpl in Hc.
  apply linked_Prov in Hl as [Hnd Hl]. simpl.
  destruct (dalter_split _ _ _ Hc) as (l1 & l2 & -> & _ & Halt). rewrite Halt.
  assert ((k, c) ∈ l1 ++ (k, c) :: l2) as Hin by set_solver.
  destruct (Hl k c Hin) as (Hu & Hp & Hlc).
  destruct (alter_at_data _ _ _ _ Hq Hs) as [Hu' Hp'].
  apply linked_Prov. split.
  { unfold dkeys in *. rewrite fmap_app in *. done. }
  intros k' c' [Hin'|[[= -> ->]|Hin']%elem_of_cons]%elem_of_app.
  - apply Hl. set_solver.
  - rewrite Hu', Hp'. split_and!; [done..|]. by apply (IH c).
  - apply Hl. set_solver.
Qed.

(** *** Searching *)

Definition matches (s : string) (d : ProviderData) : Prop := name d = s ∨ uuid d = s.

(** The loop of [find] over the children. *)
Fixpoint find_children (s : string) (l : dict string Provider) : option (list string) :=
  match l with
  | [] => None
  | (k, child) :: l' =>
      if decide (name (Node.data child) = s) then Some [k]
      else match Node.find s child with
           | Some path => Some (k :: path)
           | None => find_children s l'
           end
  end.

Lemma find_Prov s d ch :
  Node.find s (Prov d ch) =
    if decide (matches s d) then Some []
    else if dhas ch s then Some [s] else find_children s ch.
Proof.
  simpl. unfold matches. case_decide; [done|]. destruct (dhas ch s); [done|].
  induction ch as [|[k c] ch IH]; simpl; [done|]. by rewrite IH.
Qed.

Lemma find_children_Some s l path :
  find_children s l = Some path →
  ∃ k c, (k, c) ∈ l ∧
    (path = [k] ∧ name (Node.data c) = s ∨
     ∃ path', path = k :: path' ∧ Node.find s c = Some path').
Proof.
  induction l as [|[k c] l IH]; simpl; [done|]. case_decide as Hn.
  { intros [= <-]. exists k, c. set_solver. }
  destruct (Node.find s c) as [path'|] eqn:Hf; intros H.
  - simplify_eq. exists k, c. set_solver.
  - destruct (IH H) as (k' & c' & Hin & Hor). exists k', c'. set_solver.
Qed.

Lemma find_children_None s l :
  find_children s l = None → ∀ k c, (k, c) ∈ l → Node.find s c = None.
Proof.
  induction l as [|[k c] l IH]; simpl; [set_solver|]. case_decide as Hn; [done|].
  destruct (Node.find s c) as [path'|] eqn:Hf; [done|].
  intros H k' c' [[= -> ->]|Hin]%elem_of_cons; [done|by eapply IH].
Qed.

Lemma find_Some s p path :
  linked p → Node.find s p = Some path →
  ∃ q, subtree path p = Some q ∧ matches s (Node.data q) ∧ linked q.
Proof.
  revert path. induction p as [d ch IH] using provider_ind. intros path Hl.
  pose proof Hl as [Hnd Hch]%linked_Prov. rewrite find_Prov. case_decide as Hd.
  { intros [= <-]. eauto. }
  destruct (dhas ch s) eqn:Hs.
  { intros [= <-]. unfold dhas in Hs. destruct (dget ch s) as [c|] eqn:Hc; [|done].
    destruct (Hch s c) as (Hu & _ & Hlc); [by apply dget_Some_In|].
    exists c. simpl. rewrite Hc. unfold matches. auto. }
  intros (k & c & Hin & Hor)%find_children_Some.
  destruct (Hch k c Hin) as (_ & _ & Hlc).
  apply dget_In in Hin as Hget; [|done].
  destruct Hor as [[-> Hn]|(path' & -> & Hf)].
  { exists c. simpl. rewrite Hget. unfold matches. auto. }
  rewrite Forall_forall in IH. simpl. rewrite Hget. simpl.
  by apply (IH (k, c) Hin).
Qed.

Lemma find_None s p :
  linked p → Node.find s p = None → ∀ d, d ∈ nodes p → ¬ matches s d.
Proof.
  induction p as [d ch IH] using provider_ind. intros [Hnd Hch]%linked_Prov.
  rewrite find_Prov. case_decide as Hd; [done|]. destruct (dhas ch s) eqn:Hs; [done|].
  intros Hgo d' [->|([k c] & Hkc & Hd')%elem_of_flat_map]%elem_of_cons; [done|].
  rewrite Forall_forall in IH. destruct (Hch k c Hkc) as (_ & _ & Hlc).
  by eapply (IH (k, c)); [..|eapply find_children_None|].
Qed.

Lemma find_from_Some i s t j path :
  Forall linked t → Tree.find_from i s t = Some (j, path) →
  ∃ n q, j = (i + n)%nat ∧ deref t (n, path) = Some q ∧
    matches s (Node.data q) ∧ linked q.
Proof.
  revert i. induction t as [|p t IH]; intros i Hl; simpl; [done|].
  apply Forall_cons in Hl as [Hp Hl].
  destruct (Node.find s p) as [path'|] eqn:Hf; intros H.
  - simplify_eq. destruct (find_Some _ _ _ Hp Hf) as (q & Hq & Hm & Hlq).
    exists 0%nat, q. split_and!; [lia|by unfold deref; simpl|done..].
  - destruct (IH (S i) Hl H) as (n & q & -> & Hq & Hm & Hlq).
    exists (S n), q. split_and!; [lia|done..].
Qed.

Lemma find_from_None i s t :
  Forall linked t → Tree.find_from i s t = None →
  ∀ d, d ∈ all_nodes t → ¬ matches s d.
Proof.
  revert i. induction t as [|p t IH]; intros i Hl; simpl; [set_solver|].
  apply Forall_cons in Hl as [Hp Hl].
  destruct (Node.find s p) as [path'|] eqn:Hf; [done|]. intros H d.
  unfold all_nodes. simpl. intros [Hd|Hd]%elem_of_app.
  - by apply (find_None s p).
  - by apply (IH (S i)).
Qed.

(** *** Uniqueness of references *)

Lemma subtree_data path p q : subtree path p = Some q → Node.data q ∈ nodes p.
Proof.
  revert p. induction path as [|k path IH]; intros p Hp; simpl in *.
  - simplify_eq. rewrite nodes_cons. left.
  - apply bind_Some in Hp as (c & Hc & Hq). eapply elem_nodes_child; [|by apply IH].
    by apply dget_Some_In.
Qed.

Lemma deref_data t r q : deref t r = Some q → Node.data q ∈ all_nodes t.
Proof.
  destruct r as [i path]. intros (p & Hp & Hq)%bind_Some. simpl in *.
  apply elem_of_flat_map. exists p. split; [by eapply list_elem_of_lookup_2|].
  by eapply subtree_data.
Qed.

Lemma NoDup_flat_map_inj {A} (f : A → list ProviderData) l i j x y d e :
  NoDup (uuid <$> flat_map f l) → l !! i = Some x → l !! j = Some y →
  d ∈ f x → e ∈ f y → uuid d = uuid e → i = j.
Proof.
  revert i j. induction l as [|a l IH]; intros i j Hnd Hi Hj Hd He Hde; [done|].
  simpl in Hnd. apply NoDup_fmap_app in Hnd as (_ & Hnd & Hdis).
  assert (∀ n z b, l !! n = Some z → b ∈ f z → b ∈ flat_map f l) as Hin.
  { intros n z b Hz Hb. apply elem_of_flat_map. exists z.
    split; [by eapply list_elem_of_lookup_2|done]. }
  destruct i as [|i], j as [|j]; simpl in *; simplify_eq.
  - done.
  - by destruct (Hdis d e); eauto.
  - destruct (Hdis e d); eauto.
  - f_equal. by eapply IH.
Qed.

Lemma NoDup_flat_map_piece {A} (f : A → list ProviderData) l x :
  NoDup (uuid <$> flat_map f l) → x ∈ l → NoDup (uuid <$> f x).
Proof.
  induction l as [|a l IH]; [set_solver|]. simpl.
  intros (Ha & Hl & _)%NoDup_fmap_app [->|Hx]%elem_of_cons; auto.
Qed.

Lemma subtree_inj path1 path2 p q1 q2 :
  NoDup (uuid <$> nodes p) →
  subtree path1 p = Some q1 → subtree path2 p = Some q2 →
  uuid (Node.data q1) = uuid (Node.data q2) → path1 = path2.
Proof.
  assert (∀ path p q k, NoDup (uuid <$> nodes p) → subtree (k :: path) p = Some q →
    uuid (Node.data q) ≠ uuid (Node.data p)) as Hhead.
  { intros path p' q k Hnd (c & Hc & Hq)%bind_Some Heq.
    rewrite nodes_cons, fmap_cons in Hnd. apply NoDup_cons in Hnd as [Hn _].
    apply Hn. rewrite <- Heq. apply list_elem_of_fmap_2, elem_of_flat_map.
    exists (k, c). split; [by apply dget_Some_In|by eapply subtree_data]. }
  revert path2 p. induction path1 as [|k1 path1 IH]; intros [|k2 path2] p Hnd H1 H2 Heq.
  - done.
  - simpl in H1. simplify_eq. by destruct (Hhead path2 q1 q2 k2).
  - simpl in H2. simplify_eq. by destruct (Hhead path1 q2 q1 k1).
  - simpl in H1, H2. apply bind_Some in H1 as (c1 & Hc1 & H1), H2 as (c2 & Hc2 & H2).
    rewrite nodes_cons, fmap_cons in Hnd. apply NoDup_cons in Hnd as [_ Hnd].
    apply dget_Some_In in Hc1 as Hin1, Hc2 as Hin2.
    apply list_elem_of_lookup in Hin1 as [i Hi], Hin2 as [j Hj].
    assert (i = j) as <-.
    { eapply (NoDup_flat_map_inj (λ kc, nodes kc.2) _ _ _ (k1, c1) (k2, c2));
        eauto; by eapply subtree_data. }
    assert ((k1, c1) = (k2, c2)) as [= <- <-] by congruence.
    f_equal. eapply (IH _ c1); [|done..].
    eapply (NoDup_flat_map_piece (λ kc : string * Provider, nodes kc.2) _ (k1, c1));
      [done|by apply dget_Some_In].
Qed.

Lemma deref_inj t r1 r2 q1 q2 :
  NoDup (all_uuids t) → deref t r1 = Some q1 → deref t r2 = Some q2 →
  uuid (Node.data q1) = uuid (Node.data q2) → r1 = r2.
Proof.
  destruct r1 as [i path1], r2 as [j path2]. unfold deref. simpl.
  intros Hnd (p1 & Hi & H1)%bind_Some (p2 & Hj & H2)%bind_Some Heq.
  assert (i = j) as <-.
  { eapply (NoDup_flat_map_inj nodes _ _ _ p1 p2); eauto; by eapply subtree_data. }
  simplify_eq. f_equal. eapply subtree_inj; [|done..].
  eapply NoDup_flat_map_piece; [done|]. by eapply list_elem_of_lookup_2.
Qed.

(** ** Well-formed trees

    uuids are unique; children sit under their uuid and name their parent; roots
    have no parent; and no provider's name has the shape of a uuid, so that a
    search by uuid cannot stop at a namesake. *)
Section Shape.
Context (is_uuid : string → bool) (is_uuid_empty : is_uuid "" = false).

Record wf (t : list Provider) : Prop := {
  wf_linked : Forall linked t;
  wf_roots : Forall (λ p, parent_uuid (Node.data p) = None) t;
  wf_NoDup : NoDup (all_uuids t);
  wf_shape : ∀ d, d ∈ all_nodes t → is_uuid (uuid d) = true ∧ is_uuid (name d) = false
}.

Lemma flat_lookup t u d :
  NoDup (all_uuids t) → flat t !! u = Some d ↔ d ∈ all_nodes t ∧ uuid d = u.
Proof.
  intros Hnd. unfold flat. rewrite <- elem_of_list_to_map.
  - rewrite list_elem_of_fmap. naive_solver.
  - rewrite <- list_fmap_compose. exact Hnd.
Qed.

Lemma flat_lookup_None t u :
  flat t !! u = None ↔ u ∉ all_uuids t.
Proof.
  unfold flat. rewrite <- not_elem_of_list_to_map, <- list_fmap_compose. done.
Qed.

Lemma flat_dom t : dom (flat t) = list_to_set (all_uuids t).
Proof.
  apply set_eq. intros u. rewrite elem_of_list_to_set, elem_of_dom.
  rewrite <- not_eq_None_Some, flat_lookup_None. split; [|tauto].
  intros H. by apply dec_stable.
Qed.

(** Searching a well-formed tree by uuid: the provider with that uuid, or a
    [ValueError] when there is none. *)
Lemma find_uuid t u :
  wf t → is_uuid u = true →
  match Tree._find_with_lock u false t with
  | (Ok r, t') => t' = t ∧ ∃ q, deref t r = Some q ∧ uuid (Node.data q) = u ∧
                    linked q ∧ flat t !! u = Some (Node.data q)
  | (Raise e, t') => t' = t ∧ e = Py ValueError ∧ flat t !! u = None
  end.
Proof.
  intros [Hl _ Hnd Hs] Hu. unfold Tree._find_with_lock.
  destruct (Tree.find_from 0 u t) as [[i path]|] eqn:Hf.
  - destruct (find_from_Some _ _ _ _ _ Hl Hf) as (n & q & -> & Hq & Hm & Hlq).
    split; [done|]. exists q. apply deref_data in Hq as Hin.
    destruct (Hs _ Hin) as [_ Hname]. destruct Hm as [Hm|Hm]; [congruence|].
    split_and!; [done..|]. by apply flat_lookup.
  - split_and!; [done..|]. apply flat_lookup_None. unfold all_uuids.
    intros (d & -> & Hd)%list_elem_of_fmap.
    by apply (find_from_None 0 (uuid d) t Hl Hf d Hd); right.
Qed.

Lemma find_any t s :
  wf t →
  match Tree._find_with_lock s false t with
  | (Ok r, t') => t' = t ∧ ∃ q, deref t r = Some q ∧ matches s (Node.data q) ∧
                    linked q ∧ flat t !! uuid (Node.data q) = Some (Node.data q)
  | (Raise e, t') => t' = t ∧ e = Py ValueError ∧ ∀ u d, flat t !! u = Some d → ¬ matches s d
  end.
Proof.
  intros [Hl _ Hnd Hs]. unfold Tree._find_with_lock.
  destruct (Tree.find_from 0 s t) as [[i path]|] eqn:Hf.
  - destruct (find_from_Some _ _ _ _ _ Hl Hf) as (n & q & -> & Hq & Hm & Hlq).
    split; [done|]. exists q. split_and!; [done..|].
    apply flat_lookup; [done|]. split; [by eapply deref_data|done].
  - split_and!; [done..|]. intros u d Hd%flat_lookup; [|done].
    apply (find_from_None 0 s t Hl Hf d). tauto.
Qed.

(** *** Mutating one provider *)

Definition keeps_identity (f : ProviderData → ProviderData) : Prop :=
  ∀ d, uuid (f d) = uuid d ∧ name (f d) = name d ∧ parent_uuid (f d) = parent_uuid d.

Lemma with_data_linked f p : keeps_identity f → linked p → linked (with_data f p).
Proof.
  intros Hf. destruct p as [d ch]. unfold with_data. rewrite !linked_Prov.
  by rewrite (proj1 (Hf d)).
Qed.

Lemma assign_linked t r f q :
  Forall linked t → deref t r = Some q → same_place q (f q) → linked (f q) →
  Forall linked (assign r f t).
Proof.
  destruct r as [i path]. unfold deref, assign. simpl.
  intros Hl (p & Hp & Hq)%bind_Some Hs Hf. apply Forall_alter; [done|].
  intros p' Hp' Hlp'. simplify_eq. by eapply alter_at_linked.
Qed.

Lemma assign_roots t r f q :
  Forall (λ p, parent_uuid (Node.data p) = None) t → deref t r = Some q →
  same_place q (f q) → Forall (λ p, parent_uuid (Node.data p) = None) (assign r f t).
Proof.
  destruct r as [i path]. unfold deref, assign. simpl.
  intros Hr (p & Hp & Hq)%bind_Some Hs. apply Forall_alter; [done|].
  intros p' Hp' Hn. simplify_eq.
  by destruct (alter_at_data _ _ _ _ Hq Hs) as [_ ->].
Qed.

Lemma flat_eq t m :
  NoDup (all_uuids t) →
  (∀ u d, m !! u = Some d ↔ d ∈ all_nodes t ∧ uuid d = u) → flat t = m.
Proof.
  intros Hnd Hm. apply map_eq. intros u. apply option_eq. intros d.
  by rewrite Hm, flat_lookup.
Qed.

Lemma assign_data t r q f :
  wf t → deref t r = Some q → keeps_identity f →
  wf (assign r (with_data f) t) ∧
  flat (assign r (with_data f) t) =
    <[uuid (Node.data q) := f (Node.data q)]> (flat t).
Proof.
  intros [Hl Hr Hnd Hs] Hq Hf. destruct (Hf (Node.data q)) as (Hu & Hn & Hp).
  destruct (assign_split t r q Hq) as (pre & post & Ht & Ht').
  specialize (Ht' (with_data f)).
  destruct q as [d ch]. simpl in *. rewrite Ht in Hs.
  assert (all_uuids (assign r (with_data f) t) = all_uuids t) as Huu.
  { unfold all_uuids. rewrite Ht, Ht'. rewrite !fmap_app. simpl. by rewrite Hu. }
  assert (same_place (Prov d ch) (with_data f (Prov d ch))) as Hsp by done.
  assert (linked (Prov d ch)) as Hlq.
  { destruct r as [i path]. apply bind_Some in Hq as (p & Hip & Hpq).
    rewrite Forall_lookup in Hl. specialize (Hl _ _ Hip).
    clear -Hl Hpq. revert p Hl Hpq.
    induction path as [|k path IH]; intros p Hl Hpq; simpl in *; [by simplify_eq|].
    apply bind_Some in Hpq as (c & Hc%dget_Some_In & Hq).
    destruct p as [d' ch']. apply linked_Prov in Hl as [_ Hl].
    eapply IH; [|done]. by apply (Hl k c). }
  split.
  - split.
    + eapply assign_linked; [done..|]. by apply with_data_linked.
    + by eapply assign_roots.
    + by rewrite Huu.
    + rewrite Ht'. intros d' Hd'. destruct (decide (d' = f d)) as [->|Hne].
      { rewrite Hu, Hn. apply Hs. set_solver. }
      apply Hs. set_solver.
  - apply flat_eq; [by rewrite Huu|]. intros u e.
    rewrite Ht'. rewrite lookup_insert_Some, (flat_lookup t) by done. rewrite Ht.
    unfold all_uuids in Hnd. rewrite Ht, !fmap_app in Hnd. simpl in Hnd.
    apply NoDup_app in Hnd as (_ & Hpre & [Hch _]%NoDup_cons).
    split.
    + intros [[<- <-]|(Hne & He & <-)]; [set_solver|]. split; [|done]. set_solver.
    + intros [He <-]. destruct (decide (e = f d)) as [->|Hfd]; [auto|].
      destruct (decide (uuid d = uuid e)) as [Heq|Hneq]; [|right; set_solver].
      exfalso. apply elem_of_app in He as [He|He].
      * apply (Hpre (uuid e)); [by apply list_elem_of_fmap_2|]. rewrite <- Heq. left.
      * rewrite Heq in Hch. apply Hch.
        apply list_elem_of_fmap_2. set_solver.
Qed.

(** Every method that mutates one provider in place is a point update of the
    abstract map, or a [ValueError] that changes nothing. *)
Lemma on_found_spec {A} s (f : ProviderData → A * ProviderData) t :
  wf t → keeps_identity (λ d, (f d).2) →
  match Tree.on_found s f t with
  | (Ok a, t') => ∃ d, matches s d ∧ flat t !! uuid d = Some d ∧ a = (f d).1 ∧
                    wf t' ∧ flat t' = <[uuid d := (f d).2]> (flat t)
  | (Raise e, t') => t' = t ∧ e = Py ValueError ∧
                    ∀ u d, flat t !! u = Some d → ¬ matches s d
  end.
Proof.
  intros Hwf Hf. pose proof (find_any t s Hwf) as H.
  unfold Tree.on_found, bind, Tree.read.
  destruct (Tree._find_with_lock s false t) as [[r|e] t1]; [|done].
  destruct H as (-> & q & Hq & Hm & Hlq & Hd). rewrite Hq. simpl.
  destruct (assign_data t r q _ Hwf Hq Hf) as [Hwf' Hflat].
  exists (Node.data q). split_and!; done.
Qed.

Lemma deref_linked t r q : Forall linked t → deref t r = Some q → linked q.
Proof.
  destruct r as [i path]. intros Hl (p & Hip & Hpq)%bind_Some. simpl in *.
  rewrite Forall_lookup in Hl. specialize (Hl _ _ Hip). clear Hip.
  revert p Hl Hpq. induction path as [|k path IH]; intros p Hl Hpq; simpl in *.
  { by simplify_eq. }
  apply bind_Some in Hpq as (c & Hc%dget_Some_In & Hq).
  destruct p as [d ch]. apply linked_Prov in Hl as [_ Hl].
  eapply IH; [|done]. by apply (Hl k c).
Qed.

(** *** Adding a provider *)

Definition leaf (d : ProviderData) : Provider := Prov d [].

Lemma wf_insert t t' d :
  wf t → Forall linked t' → Forall (λ p, parent_uuid (Node.data p) = None) t' →
  all_nodes t' ≡ₚ d :: all_nodes t → flat t !! uuid d = None →
  is_uuid (uuid d) = true → is_uuid (name d) = false →
  wf t' ∧ flat t' = <[uuid d := d]> (flat t).
Proof.
  intros [_ _ Hnd Hs] Hl' Hr' Hp Hd%flat_lookup_None Hu Hn.
  assert (NoDup (all_uuids t')) as Hnd'.
  { unfold all_uuids. rewrite Hp. simpl. by apply NoDup_cons. }
  split.
  - split; [done..|]. intros e. rewrite Hp. intros [->|He]%elem_of_cons; auto.
  - apply flat_eq; [done|]. intros u e.
    rewrite lookup_insert_Some, flat_lookup by done. rewrite Hp, elem_of_cons.
    split; [naive_solver|]. intros [[->|He] <-]; [auto|].
    right. split_and!; [|done..]. intros Heq. apply Hd. rewrite Heq.
    by apply list_elem_of_fmap_2.
Qed.

Lemma append_root t d :
  wf t → flat t !! uuid d = None → is_uuid (uuid d) = true → is_uuid (name d) = false →
  parent_uuid d = None →
  wf (t ++ [leaf d]) ∧ flat (t ++ [leaf d]) = <[uuid d := d]> (flat t).
Proof.
  intros Hwf Hd Hu Hn Hp. apply (wf_insert t); try done.
  - apply Forall_app. split; [apply Hwf|]. apply Forall_singleton, linked_Prov.
    split; [constructor|set_solver].
  - apply Forall_app. split; [apply Hwf|]. by apply Forall_singleton.
  - unfold all_nodes. rewrite flat_map_app. simpl. by rewrite Permutation_app_comm.
Qed.

Lemma nodes_add_child q d :
  dget (Node.children q) (uuid d) = None →
  nodes (Node.add_child (leaf d) q) = nodes q ++ [d].
Proof.
  destruct q as [dq ch]. simpl. intros Hd%dget_None_keys. rewrite dset_fresh by done.
  f_equal. rewrite flat_map_app. done.
Qed.

Lemma linked_add_child q d :
  linked q → dget (Node.children q) (uuid d) = None →
  parent_uuid d = Some (uuid (Node.data q)) → linked (Node.add_child (leaf d) q).
Proof.
  destruct q as [dq ch]. unfold Node.add_child. simpl Node.children. simpl Node.data.
  rewrite !linked_Prov. intros [Hnd Hl] Hd Hp. split; [by apply NoDup_dset|].
  apply dget_None_keys in Hd. rewrite dset_fresh by done.
  intros k c [Hin|[= -> ->]%list_elem_of_singleton]%elem_of_app; [by apply Hl|].
  split_and!; [done..|]. apply linked_Prov. split; [constructor|set_solver].
Qed.

Lemma append_child t r q d :
  wf t → deref t r = Some q → flat t !! uuid d = None →
  is_uuid (uuid d) = true → is_uuid (name d) = false →
  parent_uuid d = Some (uuid (Node.data q)) →
  wf (assign r (Node.add_child (leaf d)) t) ∧
  flat (assign r (Node.add_child (leaf d)) t) = <[uuid d := d]> (flat t).
Proof.
  intros Hwf Hq Hd Hu Hn Hp.
  destruct (assign_split t r q Hq) as (pre & post & Ht & Ht').
  assert (linked q) as Hlq by (eapply deref_linked; [apply Hwf|done]).
  assert (dget (Node.children q) (uuid d) = None) as Hfresh.
  { apply flat_lookup_None in Hd. destruct (dget _ _) as [c|] eqn:Hc; [|done].
    exfalso. apply Hd. destruct q as [dq ch]. apply linked_Prov in Hlq as [_ Hlq].
    apply dget_Some_In in Hc. destruct (Hlq _ _ Hc) as (<- & _ & _).
    apply list_elem_of_fmap_2. rewrite Ht. apply elem_of_app. right.
    apply elem_of_app. left. eapply elem_nodes_child; [done|].
    rewrite nodes_cons. left. }
  assert (same_place q (Node.add_child (leaf d) q)) as Hsp by by destruct q.
  apply (wf_insert t); try done.
  - eapply assign_linked; [apply Hwf|done..|]. by apply linked_add_child.
  - eapply assign_roots; [apply Hwf|done..].
  - rewrite Ht', nodes_add_child, Ht by done. solve_Permutation.
Qed.

(** *** Removing a provider *)

Lemma ddel_split {V} (ch : dict string V) k c :
  dget ch k = Some c →
  ∃ pre post, ch = pre ++ (k, c) :: post ∧ ddel ch k = pre ++ post.
Proof.
  induction ch as [|[k' c'] ch IH]; simpl; [done|].
  case_decide as Hk; intros H.
  - simplify_eq. by exists [], ch.
  - destruct (IH H) as (pre & post & -> & Hf). exists ((k', c') :: pre), post.
    split; [done|]. simpl. by rewrite Hf.
Qed.

Lemma wf_delete t t' q :
  wf t → Forall linked t' → Forall (λ p, parent_uuid (Node.data p) = None) t' →
  all_nodes t ≡ₚ nodes q ++ all_nodes t' →
  wf t' ∧ ∀ u, flat t' !! u =
            if decide (u ∈ Node.get_provider_uuids q) then None else flat t !! u.
Proof.
  intros [_ _ Hnd Hs] Hl' Hr' Hp.
  unfold all_uuids in Hnd. rewrite Hp in Hnd.
  pose proof Hnd as (_ & Hnd' & Hdis)%NoDup_fmap_app.
  split.
  - split; [done..|]. intros e He. apply Hs. rewrite Hp. set_solver.
  - intros u. rewrite get_provider_uuids_nodes. apply option_eq. intros e.
    rewrite flat_lookup by done. case_decide as Hu.
    + split; [|done]. intros [He <-]. exfalso.
      apply list_elem_of_fmap in Hu as (e' & Hee & He'). by apply (Hdis e' e).
    + rewrite flat_lookup by (unfold all_uuids; by rewrite Hp).
      rewrite Hp, elem_of_app. split; [tauto|]. intros [[He|He] <-]; [|done].
      exfalso. by apply Hu, list_elem_of_fmap_2.
Qed.

Lemma delete_root t i q :
  wf t → t !! i = Some q →
  wf (delete i t) ∧ ∀ u, flat (delete i t) !! u =
            if decide (u ∈ Node.get_provider_uuids q) then None else flat t !! u.
Proof.
  intros Hwf Hi. apply wf_delete; [done|apply Forall_delete, Hwf..|].
  unfold all_nodes. apply list_elem_of_split_length in Hi as (l1 & l2 & -> & ->).
  rewrite delete_middle, !flat_map_app. simpl. solve_Permutation.
Qed.

Lemma remove_child_perm q k c :
  dget (Node.children q) k = Some c → uuid (Node.data c) = k →
  nodes q ≡ₚ nodes c ++ nodes (Node.remove_child c q).
Proof.
  destruct q as [d ch]. simpl. intros Hc Hk. unfold dhas. rewrite Hk, Hc.
  destruct (ddel_split _ _ _ Hc) as (pre & post & -> & ->). simpl.
  rewrite !flat_map_app. simpl. solve_Permutation.
Qed.

Lemma remove_child_linked q c : linked q → linked (Node.remove_child c q).
Proof.
  destruct q as [d ch]. unfold Node.remove_child. destruct (dhas _ _); [|done].
  rewrite !linked_Prov. intros [Hnd Hl]. split; [by apply NoDup_ddel|].
  intros k c' Hin. apply Hl. eapply elem_of_sublist; [done|apply ddel_sublist].
Qed.

Lemma delete_child t r q k c :
  wf t → deref t r = Some q → dget (Node.children q) k = Some c →
  wf (assign r (Node.remove_child c) t) ∧
  ∀ u, flat (assign r (Node.remove_child c) t) !! u =
         if decide (u ∈ Node.get_provider_uuids c) then None else flat t !! u.
Proof.
  intros Hwf Hq Hc.
  destruct (assign_split t r q Hq) as (pre & post & Ht & Ht').
  assert (linked q) as Hlq by (eapply deref_linked; [apply Hwf|done]).
  assert (uuid (Node.data c) = k) as Hk.
  { destruct q as [d ch]. apply linked_Prov in Hlq as [_ Hlq].
    by destruct (Hlq k c (dget_Some_In _ _ _ Hc)). }
  assert (same_place q (Node.remove_child c q)) as Hsp.
  { destruct q as [d ch]. unfold Node.remove_child. by destruct (dhas _ _). }
  apply wf_delete; [done|..].
  - eapply assign_linked; [apply Hwf|done..|]. by apply remove_child_linked.
  - eapply assign_roots; [apply Hwf|done..].
  - rewrite Ht', Ht, (remove_child_perm q k c) by done. solve_Permutation.
Qed.

Lemma subtree_snoc path k p q :
  subtree (path ++ [k]) p = Some q →
  ∃ q0, subtree path p = Some q0 ∧ dget (Node.children q0) k = Some q.
Proof.
  revert p. induction path as [|k' path IH]; intros p H; simpl in *.
  - apply bind_Some in H as (c & Hc & Hq). simplify_eq. by exists p.
  - apply bind_Some in H as (c & Hc & Hq). destruct (IH c Hq) as (q0 & H0 & H1).
    exists q0. by rewrite Hc.
Qed.

(** [remove]: the subtree of the provider found disappears, nothing else
    changes; a [ValueError] when nothing is found. *)
Lemma remove_spec s t :
  wf t →
  match Tree._remove_with_lock s t with
  | (Ok _, t') => ∃ q r, deref t r = Some q ∧ matches s (Node.data q) ∧
       flat t !! uuid (Node.data q) = Some (Node.data q) ∧ linked q ∧ wf t' ∧
       ∀ u, flat t' !! u =
         if decide (u ∈ Node.get_provider_uuids q) then None else flat t !! u
  | (Raise e, t') => t' = t ∧ e = Py ValueError ∧
       ∀ u d, flat t !! u = Some d → ¬ matches s d
  end.
Proof.
  intros Hwf. pose proof (find_any t s Hwf) as H.
  unfold Tree._remove_with_lock, bind at 1.
  destruct (Tree._find_with_lock s false t) as [[r|e] t1]; [|done].
  destruct H as (-> & q & Hq & Hm & Hlq & Hd).
  unfold bind at 1, Tree.read at 1. rewrite Hq. unfold id.
  destruct r as [i path]. destruct path as [|k0 path0] using rev_ind.
  - clear Hlq. assert (t !! i = Some q) as Hi.
    { apply bind_Some in Hq as (p & Hp & Hq). simpl in *. by simplify_eq. }
    pose proof (wf_roots _ Hwf) as Hr. rewrite Forall_lookup in Hr.
    rewrite (Hr _ _ Hi). simpl. exists q, (i, []).
    destruct (delete_root t i q Hwf Hi) as [Hwf' Hfl].
    split_and!; try done. eapply deref_linked; [apply Hwf|done].
  - clear IHpath0. pose proof Hq as Hq'.
    apply bind_Some in Hq' as (p & Hp & Hpq). simpl in Hp, Hpq.
    destruct (subtree_snoc _ _ _ _ Hpq) as (q0 & Hq0 & Hk).
    assert (deref t (i, path0) = Some q0) as Hr0 by (unfold deref; simpl; by rewrite Hp).
    assert (linked q0) as Hlq0 by (eapply deref_linked; [apply Hwf|done]).
    assert (parent_uuid (Node.data q) = Some (uuid (Node.data q0))) as ->.
    { destruct q0 as [d0 ch0]. apply linked_Prov in Hlq0 as [_ Hl0].
      by destruct (Hl0 _ _ (dget_Some_In _ _ _ Hk)) as (_ & -> & _). }
    destruct (wf_shape _ Hwf _ (deref_data _ _ _ Hr0)) as [Hshape _].
    assert (str_true (uuid (Node.data q0)) = true) as ->.
    { apply bool_decide_eq_true. intros He. congruence. }
    pose proof (find_uuid t _ Hwf Hshape) as Hfind. unfold bind at 1.
    destruct (Tree._find_with_lock _ _ _) as [[rp|e] t2].
    + destruct Hfind as (-> & q1 & Hq1 & Hu1 & _ & _).
      assert (rp = (i, path0)) as ->.
      { eapply deref_inj; [apply Hwf|exact Hq1|exact Hr0|done]. }
      simplify_eq. unfold modify.
      destruct (delete_child t _ _ _ _ Hwf Hr0 Hk) as [Hwf' Hfl].
      exists q, (i, path0 ++ [k0]). split_and!; done.
    + exfalso. destruct Hfind as (_ & _ & Hn).
      apply flat_lookup_None in Hn. apply Hn, list_elem_of_fmap_2.
      by eapply deref_data.
Qed.

(** *** [new_root], [new_child] *)

Lemma exists_spec s t :
  wf t → ∃ b, Tree.exists_ s t = (Ok b, t) ∧
    (b = true ↔ ∃ u d, flat t !! u = Some d ∧ matches s d).
Proof.
  intros Hwf. pose proof (find_any t s Hwf) as H.
  unfold Tree.exists_, try_except, bind.
  destruct (Tree._find_with_lock s false t) as [[r|e] t1].
  - destruct H as (-> & q & _ & Hm & _ & Hd). exists true. split; [done|]. naive_solver.
  - destruct H as (-> & -> & Hn). exists false. split; [done|]. naive_solver.
Qed.

Lemma exists_uuid u t :
  wf t → is_uuid u = true →
  Tree.exists_ u t = (Ok (bool_decide (is_Some (flat t !! u))), t).
Proof.
  intros Hwf Hu. pose proof (find_uuid t u Hwf Hu) as H.
  unfold Tree.exists_, try_except, bind.
  destruct (Tree._find_with_lock u false t) as [[r|e] t1].
  - destruct H as (-> & q & _ & _ & _ & Hd). by rewrite Hd.
  - destruct H as (-> & -> & Hn). by rewrite Hn.
Qed.

Definition blank (u n : string) (gen : option Z) (parent : option string) : ProviderData :=
  mkData u n gen parent ∅ ∅ ∅.

(** [new_root]: a uuid already present is a [ValueError]; otherwise the map
    gains one provider without a parent. *)
Lemma new_root_spec n u gen t :
  wf t → is_uuid u = true → is_uuid n = false →
  match Tree.new_root n u gen t with
  | (Ok r, t') => r = u ∧ flat t !! u = None ∧ wf t' ∧
                  flat t' = <[u := blank u n gen None]> (flat t)
  | (Raise e, t') => t' = t ∧ e = Py ValueError ∧ is_Some (flat t !! u)
  end.
Proof.
  intros Hwf Hu Hn. unfold Tree.new_root, bind. rewrite exists_uuid by done.
  destruct (flat t !! u) as [d|] eqn:Hd; simpl; [by eauto|].
  destruct (append_root t (blank u n gen None)) as [Hwf' Hf]; done.
Qed.

Lemma new_child_spec gu n parent (uo : option string) gen t :
  wf t → is_uuid n = false → uo ≠ Some "" →
  (∀ u, uo = Some u → is_uuid u = true) →
  (uo = None → is_uuid gu = true ∧ flat t !! gu = None) →
  let u := default gu uo in
  match Tree.new_child gu n parent uo gen t with
  | (Ok r, t') => r = u ∧ flat t !! u = None ∧ wf t' ∧ ∃ dp,
       matches parent dp ∧ flat t !! uuid dp = Some dp ∧
       flat t' = <[u := blank u n gen (Some (uuid dp))]> (flat t)
  | (Raise e, t') => t' = t ∧ e = Py ValueError ∧
       ((∃ v d, flat t !! v = Some d ∧ matches (default n uo) d) ∨
        ∀ v d, flat t !! v = Some d → ¬ matches parent d)
  end.
Proof.
  intros Hwf Hn Hempty Hshape Hfresh u. unfold Tree.new_child.
  set (key := match uo with Some u0 => if str_true u0 then u0 else n | None => n end).
  assert (key = default n uo) as Hkey.
  { subst key. destruct uo as [u0|]; [|done]. unfold str_true.
    rewrite bool_decide_eq_true_2; [done|]. congruence. }
  rewrite Hkey. clear key Hkey.
  destruct (exists_spec (default n uo) t Hwf) as (b & Hb & Hiff).
  step Hb. destruct b; simpl raise_if.
  { split_and!; [done..|]. left. by apply Hiff. }
  rewrite bind_ret.
  assert (is_uuid u = true ∧ flat t !! u = None) as [Hu Hnone].
  { subst u. destruct uo as [u0|]; simpl in *; [|by apply Hfresh].
    split; [by apply Hshape|]. destruct (flat t !! u0) as [d|] eqn:Hd; [|done].
    exfalso. assert (false = true); [|done]. apply Hiff. exists u0, d. split; [done|].
    apply flat_lookup in Hd as [_ Hd]; [by right|apply Hwf]. }
  pose proof (find_any t parent Hwf) as H.
  destruct (Tree._find_with_lock parent false t) as [[rp|e] t1] eqn:Hfind; step Hfind.
  - destruct H as (-> & q & Hq & Hm & Hlq & Hd).
    unfold bind, Tree.read. rewrite Hq. simpl.
    assert (uuid (Node.data (Node.new gu n uo gen (Some (uuid (Node.data q))))) = u) as Hru.
    { by destruct uo. }
    destruct (append_child t rp q (blank u n gen (Some (uuid (Node.data q)))))
      as [Hwf' Hf]; try done.
    replace (Node.new gu n uo gen (Some (uuid (Node.data q))))
      with (leaf (blank u n gen (Some (uuid (Node.data q))))) by (subst u; by destruct uo).
    split_and!; [by destruct uo|done..|]. by exists (Node.data q).
  - destruct H as (-> & -> & Hnm). split_and!; [done..|]. by right.
Qed.

(** *** [populate_from_iterable] *)

(** A well-shaped entry of the input: keyed by its uuid, named, and its parent
    given by uuid. *)
Definition entry_ok (kv : string * pdict) : Prop :=
  pd_uuid kv.2 = Some kv.1 ∧ is_uuid kv.1 = true ∧
  (∃ n, pd_name kv.2 = Some n ∧ is_uuid n = false) ∧
  (∀ pu, pd_parent_provider_uuid kv.2 = Some pu → is_uuid pu = true).

Definition pd_data (kv : string * pdict) : ProviderData :=
  blank kv.1 (default "" (pd_name kv.2)) (pd_generation kv.2)
    (pd_parent_provider_uuid kv.2).

(** The descendants-or-self of [u] in the tree. *)
Definition below (t : list Provider) (u v : string) : Prop :=
  ∃ r q, deref t r = Some q ∧ uuid (Node.data q) = u ∧ v ∈ Node.get_provider_uuids q.

(** Replacing one provider: what was at or below its uuid goes, the new
    provider comes in; [ValueError] when its parent is not (or no more) there. *)
Lemma inject_spec u pd t :
  wf t → entry_ok (u, pd) →
  match Tree.inject u pd t with
  | (Ok _, t') => wf t' ∧ flat t' !! u = Some (pd_data (u, pd)) ∧
      ∀ v, v ≠ u → (flat t' !! v = flat t !! v ∨ below t u v ∧ flat t' !! v = None)
  | (Raise e, t') => wf t' ∧ e = Py ValueError ∧
      ∃ pu, pd_parent_provider_uuid pd = Some pu ∧ (flat t !! pu = None ∨ below t u pu)
  end.
Proof.
  intros Hwf (Hpu & Hu & (n & Hn & Hns) & Hpar). simpl in *. unfold Tree.inject.
  assert (∃ t1, try_except (Tree._remove_with_lock u)
      (λ e, if Tree.is_ValueError e then Some (ret tt) else None) t = (Ok tt, t1) ∧
      wf t1 ∧ flat t1 !! u = None ∧
      ∀ v, v ≠ u → flat t1 !! v = flat t !! v ∨ below t u v ∧ flat t1 !! v = None)
    as (t1 & Ht1 & Hwf1 & Hu1 & Hv1).
  { pose proof (remove_spec u t Hwf) as H. unfold try_except.
    destruct (Tree._remove_with_lock u t) as [[[]|e] t1].
    - destruct H as (q & r & Hr & Hm & Hd & Hlq & Hwf1 & Hfl). exists t1.
      assert (uuid (Node.data q) = u) as Hqu.
      { destruct Hm as [Hm|]; [|done]. destruct (wf_shape _ Hwf _ (deref_data _ _ _ Hr)).
        congruence. }
      split_and!; [done..| |].
      + rewrite Hfl, decide_True; [done|]. rewrite get_provider_uuids_nodes, nodes_cons.
        simpl. rewrite Hqu. left.
      + intros v Hv. rewrite Hfl. case_decide; [|by left]. right. split; [|done].
        by exists r, q.
    - destruct H as (-> & -> & Hnm). exists t. split_and!; [done..| |by left].
      destruct (flat t !! u) as [d|] eqn:Hd; [|done]. destruct (Hnm u d Hd).
      apply flat_lookup in Hd as [_ Hd]; [by right|apply Hwf]. }
  unfold bind at 1. rewrite Ht1. clear Ht1. unfold bind at 1, of_option, Node.from_dict.
  rewrite Hn. simpl. rewrite Hpu.
  change (Node.new u n (Some u) (pd_generation pd) (pd_parent_provider_uuid pd))
    with (leaf (blank u n (pd_generation pd) (pd_parent_provider_uuid pd))).
  unfold pd_data. simpl. rewrite Hn. simpl.
  destruct (pd_parent_provider_uuid pd) as [pu|].
  - specialize (Hpar pu eq_refl). pose proof (find_uuid t1 pu Hwf1 Hpar) as H.
    unfold bind. destruct (Tree._find_with_lock pu false t1) as [[rp|e] t2].
    + destruct H as (-> & q & Hq & Hqu & Hlq & Hd). simpl.
      destruct (append_child t1 rp q (blank u n (pd_generation pd) (Some pu)))
        as [Hwf' Hf]; try done; [by rewrite Hqu|]. simpl in *.
      rewrite Hf. split_and!; [done|apply lookup_insert_eq|].
      intros v Hv. rewrite lookup_insert_ne by done. auto.
    + destruct H as (-> & -> & Hd). split_and!; [done..|]. exists pu. split; [done|].
      destruct (decide (pu = u)) as [->|Hne].
      * destruct (flat t !! u) as [d|] eqn:Hdu; [|by left]. right.
        apply flat_lookup in Hdu as [Hin Hdu]; [|apply Hwf].
        pose proof (find_uuid t u Hwf Hu) as H.
        destruct (Tree._find_with_lock u false t) as [[r|e] t3].
        { destruct H as (-> & q & Hq & Hqu & _). exists r, q. split_and!; [done..|].
          rewrite get_provider_uuids_nodes, nodes_cons. simpl. rewrite Hqu. left. }
        destruct H as (_ & _ & Hno). apply flat_lookup_None in Hno. destruct Hno.
        rewrite <- Hdu. by apply list_elem_of_fmap_2.
      * destruct (Hv1 pu Hne) as [Heq|[Hb _]]; [left; congruence|by right].
  - unfold modify.
    destruct (append_root t1 (blank u n (pd_generation pd) None)) as [Hwf' Hf]; try done.
    simpl in *. rewrite Hf. split_and!; [done|apply lookup_insert_eq|].
    intros v Hv. rewrite lookup_insert_ne by done. auto.
Qed.

Lemma below_closed t (K : list string) u v :
  wf t →
  (∀ w d u', flat t !! w = Some d → parent_uuid d = Some u' → u' ∈ K → w ∈ K) →
  u ∈ K → below t u v → v ∈ K.
Proof.
  intros Hwf HK Hu (r & q & Hq & Hqu & Hv).
  destruct (assign_split t r q Hq) as (pre & post & Ht & _).
  assert (linked q) as Hlq by (eapply deref_linked; [apply Hwf|done]).
  assert (∀ e, e ∈ nodes q → flat t !! uuid e = Some e) as Hin.
  { intros e He. apply flat_lookup; [apply Hwf|]. split; [|done]. rewrite Ht. set_solver. }
  rewrite get_provider_uuids_nodes in Hv. apply list_elem_of_fmap in Hv as (e & -> & He).
  rewrite <- Hqu in Hu. clear Hq Hqu Ht. revert Hlq Hin Hu e He.
  induction q as [d ch IH] using provider_ind. intros [_ Hl]%linked_Prov Hin Hu e He.
  rewrite nodes_cons in He. apply elem_of_cons in He as [->|He]; [done|].
  apply elem_of_flat_map in He as ([k c] & Hc & He). simpl in He.
  destruct (Hl k c Hc) as (Hck & Hp & Hlc). rewrite Forall_forall in IH.
  apply (IH (k, c) Hc); [done| |..|done]; simpl.
  - intros e' He'. apply Hin. by eapply elem_nodes_child.
  - eapply HK; [|exact Hp|done]. apply Hin. eapply elem_nodes_child; [done|].
    rewrite nodes_cons. left.
Qed.

Lemma pick_Some D u pd :
  Tree.pick D = Some (u, pd) →
  (u, pd) ∈ D ∧ ∀ pu, pd_parent_provider_uuid pd = Some pu → pu ∉ dkeys D.
Proof.
  intros [Hin Hp]%find_some. rewrite <- list_elem_of_In in Hin. split; [done|].
  intros pu Hpu. simpl in Hp. rewrite Hpu in Hp. rewrite <- dhas_true.
  by destruct (dhas D pu).
Qed.

(** With a rank that decreases towards the parents, some entry can be picked. *)
Lemma pick_rank (rank : string → nat) D :
  D ≠ [] → (∀ kv pu, kv ∈ D → pd_parent_provider_uuid kv.2 = Some pu →
              pu ∈ dkeys D → (rank pu < rank kv.1)%nat) →
  is_Some (Tree.pick D).
Proof.
  intros Hne Hrank. destruct (Tree.pick D) as [kv|] eqn:Hpick; [by eexists|]. exfalso.
  assert (∀ n kv, kv ∈ D → (n ≤ rank kv.1)%nat) as Hall; cycle 1.
  { destruct D as [|kv D]; [done|]. specialize (Hall (S (rank kv.1)) kv). set_solver by lia. }
  induction n as [|n IH]; intros kv Hkv; [lia|].
  rewrite list_elem_of_In in Hkv. pose proof (find_none _ _ Hpick _ Hkv) as Hp.
  rewrite <- list_elem_of_In in Hkv. simpl in Hp.
  destruct (pd_parent_provider_uuid kv.2) as [pu|] eqn:Hpu; [|done].
  apply negb_false_iff, dhas_true in Hp. pose proof (Hrank kv pu Hkv Hpu Hp) as Hlt.
  unfold dkeys in Hp. apply list_elem_of_fmap in Hp as (kv' & -> & Hkv').
  specialize (IH kv' Hkv'). lia.
Qed.

(** The loop keeps the tree well-formed, and never runs out of fuel. *)
Lemma populate_loop_wf n D t :
  wf t → Forall entry_ok D → NoDup (dkeys D) → (length D ≤ n)%nat →
  match Tree.populate_loop n D t with
  | (Ok _, t') => wf t'
  | (Raise e, t') => wf t' ∧ e = Py ValueError
  end.
Proof.
  revert D t. induction n as [|n IH]; intros D t Hwf HD Hnd Hlen.
  { destruct D; simpl in *; [done|lia]. }
  destruct D as [|kv0 D0]; [done|]. set (D := kv0 :: D0) in *.
  change (Tree.populate_loop (S n) D) with
    (match Tree.pick D with
     | None => raise (Py ValueError)
     | Some (uuid, pd) => Tree.inject uuid pd;;; Tree.populate_loop n (ddel D uuid)
     end).
  destruct (Tree.pick D) as [[u pd]|] eqn:Hpick; [|done].
  apply pick_Some in Hpick as [Hin Hp].
  rewrite Forall_forall in HD. pose proof (HD _ Hin) as Hok.
  pose proof (inject_spec u pd t Hwf Hok) as Hinj.
  destruct (Tree.inject u pd t) as [[[]|e] t1] eqn:Hrun; step Hrun.
  - destruct Hinj as [Hwf1 _]. apply IH; [done| |by apply NoDup_ddel|].
    + apply Forall_forall. intros kv Hkv. by eapply HD, elem_ddel.
    + assert (u ∈ dkeys D) as Hu by by apply (list_elem_of_fmap_2 fst) in Hin.
      apply ddel_length in Hu. lia.
  - by destruct Hinj as (Hwf1 & -> & _).
Qed.

(** When the input is acyclic, its parents are known and it brings all the
    children of the providers it replaces, the loop succeeds, and its effect on
    the abstract map is the left-biased union with the input. *)
Lemma populate_loop_ok (rank : string → nat) D t :
  wf t → Forall entry_ok D → NoDup (dkeys D) →
  (∀ kv pu, kv ∈ D → pd_parent_provider_uuid kv.2 = Some pu →
     pu ∈ dkeys D → (rank pu < rank kv.1)%nat) →
  (∀ kv pu, kv ∈ D → pd_parent_provider_uuid kv.2 = Some pu →
     pu ∈ dkeys D ∨ is_Some (flat t !! pu)) →
  (∀ v d u, flat t !! v = Some d → parent_uuid d = Some u → u ∈ dkeys D → v ∈ dkeys D) →
  ∃ t', Tree.populate_loop (length D) D t = (Ok tt, t') ∧ wf t' ∧
    ∀ v, flat t' !! v = match dget D v with
                        | Some pd => Some (pd_data (v, pd))
                        | None => flat t !! v
                        end.
Proof.
  remember (length D) as n eqn:Hn. revert D t Hn.
  induction n as [|n IH]; intros D t Hn Hwf HD Hnd Hrank Hpar Hcl.
  { destruct D; [|done]. by exists t. }
  destruct D as [|kv0 D0]; [done|]. set (D := kv0 :: D0) in *.
  change (Tree.populate_loop (S n) D) with
    (match Tree.pick D with
     | None => raise (Py ValueError)
     | Some (uuid, pd) => Tree.inject uuid pd;;; Tree.populate_loop n (ddel D uuid)
     end).
  destruct (pick_rank rank D) as [[u pd] Hpick]; [done..|]. rewrite Hpick.
  apply pick_Some in Hpick as [Hin Hp].
  assert (u ∈ dkeys D) as Hu by by apply (list_elem_of_fmap_2 fst) in Hin.
  pose proof (λ v, below_closed t (dkeys D) u v Hwf Hcl Hu) as Hbelow.
  rewrite Forall_forall in HD. pose proof (inject_spec u pd t Hwf (HD _ Hin)) as Hinj.
  destruct (Tree.inject u pd t) as [[[]|e] t1] eqn:Hrun; step Hrun; cycle 1.
  { exfalso. destruct Hinj as (_ & _ & pu & Hpu & [Hno|Hb]).
    - destruct (Hpar _ _ Hin Hpu) as [|[d Hd]]; [by eapply Hp|congruence].
    - by eapply Hp, Hbelow. }
  destruct Hinj as (Hwf1 & Hu1 & Hv1).
  destruct (IH (ddel D u) t1) as (t' & Ht' & Hwf' & Hfl); [..|exists t'; split_and!; [done..|]].
  - apply ddel_length in Hu. lia.
  - done.
  - apply Forall_forall. intros kv Hkv. by eapply HD, elem_ddel.
  - by apply NoDup_ddel.
  - intros kv pu Hkv%elem_ddel Hpu [Hk _]%elem_dkeys_ddel; [|done]. by eapply Hrank.
  - intros kv pu Hkv%elem_ddel Hpu. rewrite elem_dkeys_ddel by done.
    destruct (decide (pu = u)) as [->|Hne]; [right; by eexists|].
    destruct (Hpar _ _ Hkv Hpu) as [|Hs]; [by left|].
    destruct (Hv1 pu Hne) as [->|[Hb _]]; [by right|]. left. auto.
  - intros v d w Hv Hd Hw. rewrite elem_dkeys_ddel in Hw |- * by done.
    destruct Hw as [Hw Hwu]. destruct (decide (v = u)) as [->|Hne].
    + exfalso. rewrite Hu1 in Hv. injection Hv as <-. simpl in Hd. by eapply Hp.
    + split; [|done]. eapply Hcl; [|done..]. destruct (Hv1 v Hne) as [<-|[_ Hn']]; congruence.
  - intros v. rewrite Hfl. destruct (decide (v = u)) as [->|Hne].
    + rewrite dget_ddel_eq, Hu1 by done. by rewrite (dget_In D u pd).
    + rewrite dget_ddel_ne by done. destruct (dget D v) eqn:Hdv; [done|].
      destruct (Hv1 v Hne) as [|[Hb _]]; [done|]. by apply dget_None_keys in Hdv; destruct Hdv; auto.
Qed.
End Shape.

(** ** Inventories *)

Lemma record_changed_false cur new : Node.record_changed cur new = false ↔ new ⊆ cur.
Proof.
  unfold Node.record_changed. rewrite orb_false_iff, bool_decide_eq_false.
  rewrite map_subseteq_spec, <- not_true_iff_false, existsb_exists. split.
  - intros [Hdom Hval] k v Hk. destruct (cur !! k) as [v'|] eqn:Hk'.
    + f_equal. apply dec_stable. intros Hne. apply Hval. exists (k, v').
      rewrite <- list_elem_of_In, elem_of_map_to_list. split; [done|]. simpl.
      rewrite Hk. apply bool_decide_eq_true. congruence.
    + exfalso. apply Hdom. intros He. assert (k ∈ dom new ∖ dom cur) as Hin; [|set_solver].
      apply elem_of_difference. rewrite elem_of_dom, not_elem_of_dom. by eauto.
  - intros Hsub. split.
    + intros Hne. apply Hne. apply set_eq. intros k. split; [|set_solver].
      rewrite elem_of_difference, elem_of_dom, not_elem_of_dom.
      intros [[v Hv] Hn]. apply Hsub in Hv. congruence.
    + intros ([k v] & Hin & Hb). rewrite <- list_elem_of_In, elem_of_map_to_list in Hin.
      simpl in Hb. destruct (new !! k) as [v'|] eqn:Hk; [|done].
      apply bool_decide_eq_true in Hb. apply Hsub in Hk. congruence.
Qed.

(** No change means: the same resource classes, and each new record agrees with
    the stored one on the fields it gives. *)
Lemma inventory_unchanged d new :
  Node.has_inventory_changed d new = false ↔
  dom (inventory d) = dom new ∧
  ∀ rc cur n, inventory d !! rc = Some cur → new !! rc = Some n → n ⊆ cur.
Proof.
  unfold Node.has_inventory_changed. rewrite orb_false_iff, bool_decide_eq_false.
  split.
  - intros [Hdom He]. apply dec_stable in Hdom. split; [done|]. intros rc cur n Hc Hn.
    apply record_changed_false. apply not_true_iff_false. intros Hch.
    apply not_true_iff_false in He. apply He, existsb_exists. exists (rc, cur).
    rewrite <- list_elem_of_In, elem_of_map_to_list. simpl. by rewrite Hn.
  - intros [Hdom Hsub]. split; [congruence|]. apply not_true_iff_false.
    intros ([rc cur] & Hin & Hch)%existsb_exists.
    rewrite <- list_elem_of_In, elem_of_map_to_list in Hin. simpl in Hch.
    assert (rc ∈ dom new) as [n Hn]%elem_of_dom by (rewrite <- Hdom; by apply elem_of_dom).
    rewrite Hn in Hch. simpl in Hch. apply not_false_iff_true in Hch.
    apply Hch, record_changed_false. by eapply Hsub.
Qed.

Lemma inventory_refl d : Node.has_inventory_changed d (inventory d) = false.
Proof. apply inventory_unchanged. split; [done|]. intros. by simplify_eq. Qed.

Lemma update_generation_keeps gen : keeps_identity (Node._update_generation gen).
Proof. intros d. unfold Node._update_generation. by case_decide. Qed.

Lemma update_inventory_keeps inv gen :
  keeps_identity (λ d, (Node.update_inventory inv gen d).2).
Proof.
  intros d. destruct (update_generation_keeps gen d) as (H1 & H2 & H3).
  unfold Node.update_inventory. by destruct (Node.has_inventory_changed _ _).
Qed.

Lemma update_traits_keeps (ts : ProviderData → gset string) gen :
  keeps_identity (λ d, (Node.update_traits (ts d) gen d).2).
Proof.
  intros d. destruct (update_generation_keeps gen d) as (H1 & H2 & H3).
  unfold Node.update_traits. by destruct (Node.have_traits_changed _ _).
Qed.

Lemma update_aggregates_keeps (ts : ProviderData → gset string) gen :
  keeps_identity (λ d, (Node.update_aggregates (ts d) gen d).2).
Proof.
  intros d. destruct (update_generation_keeps gen d) as (H1 & H2 & H3).
  unfold Node.update_aggregates. by destruct (Node.have_aggregates_changed _ _).
Qed.

(** ** Reachable trees *)

Inductive call : Type :=
| NewRoot (n u : string) (gen : option Z)
| NewChild (generate_uuid n parent : string) (u : option string) (gen : option Z)
| Remove (s : string)
| UpdateInventory (s : string) (inv : inventory_t) (gen : option Z)
| UpdateTraits (s : string) (ts : gset string) (gen : option Z)
| AddTraits (s : string) (ts : list string)
| RemoveTraits (s : string) (ts : list string)
| UpdateAggregates (s : string) (aggs : gset string) (gen : option Z)
| AddAggregates (s : string) (aggs : list string)
| RemoveAggregates (s : string) (aggs : list string)
| Populate (pds : list pdict).

Definition run_call (c : call) : py (list Provider) unit :=
  match c with
  | NewRoot n u gen => Tree.new_root n u gen;;; ret tt
  | NewChild gu n parent u gen => Tree.new_child gu n parent u gen;;; ret tt
  | Remove s => Tree.remove s
  | UpdateInventory s inv gen => Tree.update_inventory s inv gen;;; ret tt
  | UpdateTraits s ts gen => Tree.update_traits s ts gen;;; ret tt
  | AddTraits s ts => Tree.add_traits s ts
  | RemoveTraits s ts => Tree.remove_traits s ts
  | UpdateAggregates s aggs gen => Tree.update_aggregates s aggs gen;;; ret tt
  | AddAggregates s aggs => Tree.add_aggregates s aggs
  | RemoveAggregates s aggs => Tree.remove_aggregates s aggs
  | Populate pds => Tree.populate_from_iterable pds
  end.

(** The arguments a caller may pass: uuids where uuids are expected, names that
    are not uuids, and a generated uuid that is fresh. *)
Definition call_ok (is_uuid : string → bool) (c : call) (t : list Provider) : Prop :=
  match c with
  | NewRoot n u _ => is_uuid u = true ∧ is_uuid n = false
  | NewChild gu n _ u _ =>
      is_uuid n = false ∧ u ≠ Some "" ∧ (∀ v, u = Some v → is_uuid v = true) ∧
      (u = None → is_uuid gu = true ∧ flat t !! gu = None)
  | Populate pds => Forall (λ pd, ∃ u, entry_ok is_uuid (u, pd)) pds
  | _ => True
  end.

Inductive reachable (is_uuid : string → bool) : list Provider → Prop :=
| reach_init : reachable is_uuid []
| reach_step t c o t' :
    reachable is_uuid t → call_ok is_uuid c t → run_call c t = (o, t') →
    reachable is_uuid t'.

Section Reach.
Context (is_uuid : string → bool) (is_uuid_empty : is_uuid "" = false).

Lemma on_found_wf {A} s (f : ProviderData → A * ProviderData) t :
  wf is_uuid t → keeps_identity (λ d, (f d).2) → wf is_uuid (Tree.on_found s f t).2.
Proof.
  intros Hwf Hf. pose proof (on_found_spec is_uuid is_uuid_empty s f t Hwf Hf) as H.
  destruct (Tree.on_found s f t) as [[a|e] t']; simpl.
  - by destruct H as (d & _ & _ & _ & Hwf' & _).
  - by destruct H as (-> & _).
Qed.

Lemma then_ret_state {S A} (m : py S A) s : ((m;;; ret tt) s).2 = (m s).2.
Proof. unfold bind. by destruct (m s) as [[a|e] s']. Qed.

Lemma keyed_entries pds t :
  Forall (λ pd, ∃ u, entry_ok is_uuid (u, pd)) pds →
  map_m Tree.keyed pds t = (Ok ((λ pd, (default "" (pd_uuid pd), pd)) <$> pds), t).
Proof.
  induction 1 as [|pd pds (u & Hu & _) _ IH]; [done|]. simpl in Hu |- *.
  unfold bind at 1, Tree.keyed at 1. rewrite Hu. simpl.
  by step IH.
Qed.

Lemma keyed_entry_ok pds :
  Forall (λ pd, ∃ u, entry_ok is_uuid (u, pd)) pds →
  Forall (entry_ok is_uuid) (dict_of ((λ pd, (default "" (pd_uuid pd), pd)) <$> pds)).
Proof.
  intros Hpds. apply Forall_forall. intros kv Hkv%elem_dict_of.
  apply list_elem_of_fmap in Hkv as (pd & -> & Hpd). rewrite Forall_forall in Hpds.
  destruct (Hpds pd Hpd) as (u & Hu & Hrest). simpl in *. rewrite Hu. by split.
Qed.

Lemma populate_wf pds t :
  wf is_uuid t → Forall (λ pd, ∃ u, entry_ok is_uuid (u, pd)) pds →
  match Tree.populate_from_iterable pds t with
  | (Ok _, t') => wf is_uuid t'
  | (Raise e, t') => wf is_uuid t' ∧ e = Py ValueError
  end.
Proof.
  intros Hwf Hpds. destruct pds as [|pd0 pds0]; [done|]. set (pds := pd0 :: pds0) in *.
  change (Tree.populate_from_iterable pds) with
    (let! kvs := map_m Tree.keyed pds in
     let to_add_by_uuid := dict_of kvs in
     let! missing := gets (λ t, Tree.missing_parents t to_add_by_uuid) in
     raise_if (bool_decide (missing ≠ [])) (Py ValueError);;;
     Tree.populate_loop (length to_add_by_uuid) to_add_by_uuid).
  pose proof (keyed_entries pds t Hpds) as Hk. step Hk.
  set (D := dict_of _). unfold bind at 1, gets.
  destruct (bool_decide _); [done|]. simpl raise_if. rewrite bind_ret.
  apply populate_loop_wf; [exact is_uuid_empty|exact Hwf|by apply keyed_entry_ok|apply NoDup_dict_of|lia].
Qed.

Lemma call_wf c t :
  wf is_uuid t → call_ok is_uuid c t → wf is_uuid (run_call c t).2.
Proof.
  intros Hwf Hc. destruct c; simpl in Hc |- *; rewrite ?then_ret_state;
    try (destruct ts; [done|]);
    try (apply on_found_wf; [done|]; first
      [ apply update_inventory_keeps | apply (update_traits_keeps (λ d, _))
      | apply (update_aggregates_keeps (λ d, _)) ]).
  - pose proof (new_root_spec is_uuid is_uuid_empty n u gen t Hwf (proj1 Hc) (proj2 Hc)) as H.
    destruct (Tree.new_root n u gen t) as [[r|e] t']; simpl.
    + tauto.
    + by destruct H as (-> & _).
  - destruct Hc as (H1 & H2 & H3 & H4).
    pose proof (new_child_spec is_uuid is_uuid_empty generate_uuid n parent u gen t Hwf H1 H2 H3 H4) as H.
    destruct (Tree.new_child _ _ _ _ _ t) as [[r|e] t']; simpl in *.
    + tauto.
    + by destruct H as (-> & _).
  - pose proof (remove_spec is_uuid is_uuid_empty s t Hwf) as H. unfold Tree.remove.
    destruct (Tree._remove_with_lock s t) as [[r|e] t']; simpl.
    + by destruct H as (q & r' & _ & _ & _ & _ & Hwf' & _).
    + by destruct H as (-> & _).
  - pose proof (populate_wf pds t Hwf Hc) as H.
    destruct (Tree.populate_from_iterable pds t) as [[r|e] t']; simpl; tauto.
Qed.

Lemma empty_wf : wf is_uuid [].
Proof. split; [constructor..|set_solver]. Qed.

Lemma reachable_is_wf t : reachable is_uuid t → wf is_uuid t.
Proof.
  induction 1 as [|t c o t' _ IH Hok Hrun]; [apply empty_wf|].
  pose proof (call_wf c t IH Hok) as H. by rewrite Hrun in H.
Qed.
End Reach.

(** ** Properties of the provider tree *)

(** The input of [populate_from_iterable], keyed by uuid. *)
Definition by_uuid (pds : list pdict) : dict string pdict :=
  dict_of ((λ pd, (default "" (pd_uuid pd), pd)) <$> pds).

Definition well_shaped (is_uuid : string → bool) (pds : list pdict) : Prop :=
  Forall (λ pd, ∃ u, entry_ok is_uuid (u, pd)) pds.

(** Along parent links that stay inside the input, some rank decreases. *)
Definition acyclic_by (rank : string → nat) (D : dict string pdict) : Prop :=
  ∀ kv pu, kv ∈ D → pd_parent_provider_uuid kv.2 = Some pu → pu ∈ dkeys D →
    (rank pu < rank kv.1)%nat.

Definition parents_known (t : list Provider) (D : dict string pdict) : Prop :=
  ∀ kv pu, kv ∈ D → pd_parent_provider_uuid kv.2 = Some pu →
    pu ∈ dkeys D ∨ is_Some (flat t !! pu).

(** The input brings every child of the providers it replaces. *)
Definition covers_children (t : list Provider) (D : dict string pdict) : Prop :=
  ∀ v d u, flat t !! v = Some d → parent_uuid d = Some u → u ∈ dkeys D → v ∈ dkeys D.

Lemma omap_nil {A B} (f : A → option B) l : (∀ x, x ∈ l → f x = None) → omap f l = [].
Proof.
  induction l as [|x l IH]; intros H; [done|]. cbn. rewrite (H x) by set_solver.
  apply IH. set_solver.
Qed.

Lemma missing_parents_nil t D :
  parents_known t D → Tree.missing_parents t D = [].
Proof.
  intros Hk. apply omap_nil. intros kv Hkv.
  destruct (pd_parent_provider_uuid kv.2) as [pu|] eqn:Hpu; [|done].
  rewrite decide_True; [done|]. apply elem_of_app.
  destruct (Hk kv pu Hkv Hpu) as [H|[d Hd]]; [by left|right].
  assert (¬ (flat t !! pu = None)) as Hn by congruence.
  rewrite flat_lookup_None in Hn. apply dec_stable in Hn.
  apply list_elem_of_fmap in Hn as (d' & -> & (p & Hp & Hd')%elem_of_flat_map).
  apply elem_of_flat_map. exists p. split; [done|].
  rewrite get_provider_uuids_nodes. by apply list_elem_of_fmap_2.
Qed.

(** C1. [populate_from_iterable] on an acyclic input whose parents are known
    and which brings all the children of the providers it replaces succeeds, in
    any order of the input, and its effect is the left-biased union of the input
    with the tree: listed providers are (re)created blank, all others kept. *)
Theorem populate_is_union is_uuid rank pds t :
  is_uuid "" = false → wf is_uuid t → well_shaped is_uuid pds →
  acyclic_by rank (by_uuid pds) → parents_known t (by_uuid pds) →
  covers_children t (by_uuid pds) →
  ∃ t', Tree.populate_from_iterable pds t = (Ok tt, t') ∧ wf is_uuid t' ∧
    ∀ v, flat t' !! v = match dget (by_uuid pds) v with
                        | Some pd => Some (pd_data (v, pd))
                        | None => flat t !! v
                        end.
Proof.
  intros He Hwf Hpds Hrank Hpar Hcl. destruct pds as [|pd0 pds0]; [by exists t|].
  set (pds := pd0 :: pds0) in *.
  change (Tree.populate_from_iterable pds) with
    (let! kvs := map_m Tree.keyed pds in
     let to_add_by_uuid := dict_of kvs in
     let! missing := gets (λ t, Tree.missing_parents t to_add_by_uuid) in
     raise_if (bool_decide (missing ≠ [])) (Py ValueError);;;
     Tree.populate_loop (length to_add_by_uuid) to_add_by_uuid).
  pose proof (keyed_entries is_uuid pds t Hpds) as Hk. step Hk.
  fold (by_uuid pds). unfold bind at 1, gets. rewrite missing_parents_nil by done.
  rewrite bool_decide_eq_false_2 by tauto. simpl raise_if. rewrite bind_ret.
  apply (populate_loop_ok is_uuid He rank); try done;
    [by apply keyed_entry_ok|apply NoDup_dict_of].
Qed.

(** C28. Every tree built by any sequence of calls of the class (failing calls
    included) is well-formed: uuids are unique, children are stored under their
    own uuid and name their parent, roots have no parent. *)
Theorem reachable_trees_wf is_uuid t :
  is_uuid "" = false → reachable is_uuid t → wf is_uuid t.
Proof. intros He. by apply reachable_is_wf. Qed.

(** [update_inventory] is a point update of the abstract map on a provider
    that matches the name or uuid: it returns whether the inventory differs
    (after which the given inventory is stored, and otherwise the old one kept),
    a given generation is recorded in both cases, and asking again whether that
    inventory changes anything answers no; [ValueError] and an unchanged tree
    when nothing matches. *)
Theorem update_inventory_spec is_uuid s inv gen t :
  is_uuid "" = false → wf is_uuid t →
  match Tree.update_inventory s inv gen t with
  | (Ok changed, t') => ∃ d d', matches s d ∧ flat t !! uuid d = Some d ∧
      changed = Node.has_inventory_changed d inv ∧ wf is_uuid t' ∧
      flat t' = <[uuid d := d']> (flat t) ∧
      inventory d' = (if changed then inv else inventory d) ∧
      generation d' = (match gen with Some g => Some g | None => generation d end) ∧
      Node.has_inventory_changed d' inv = false ∧
      traits d' = traits d ∧ aggregates d' = aggregates d
  | (Raise e, t') => t' = t ∧ e = Py ValueError ∧
      ∀ u d, flat t !! u = Some d → ¬ matches s d
  end.
Proof.
  intros He Hwf.
  pose proof (on_found_spec is_uuid He s _ t Hwf (update_inventory_keeps inv gen)) as H.
  unfold Tree.update_inventory. destruct (Tree.on_found _ _ t) as [[b|e] t']; [|done].
  destruct H as (d & Hm & Hd & -> & Hwf' & Hf). exists d, (Node.update_inventory inv gen d).2.
  assert (inventory (Node._update_generation gen d) = inventory d ∧
          traits (Node._update_generation gen d) = traits d ∧
          aggregates (Node._update_generation gen d) = aggregates d ∧
          generation (Node._update_generation gen d) =
            match gen with Some g => Some g | None => generation d end)
    as (Hi & Ht & Ha & Hg).
  { unfold Node._update_generation. case_decide as Hc; [by destruct gen; naive_solver|].
    destruct gen as [g|]; [|done]. split_and!; [done..|]. apply dec_stable. naive_solver. }
  assert (Node.has_inventory_changed (Node._update_generation gen d) inv =
          Node.has_inventory_changed d inv) as Hc.
  { unfold Node.has_inventory_changed. by rewrite Hi. }
  unfold Node.update_inventory. rewrite Hc.
  destruct (Node.has_inventory_changed d inv) eqn:Hch; simpl; split_and!; try done.
  - unfold Node.update_inventory in Hf. by rewrite Hc in Hf.
  - apply (inventory_refl (Node.set_inventory inv _)).
  - unfold Node.update_inventory in Hf. by rewrite Hc in Hf.
Qed.

(** [remove] deletes the provider it finds and its descendants from the
    tree, and nothing else; on [ValueError] the tree is unchanged. *)
Theorem remove_deletes_subtree is_uuid s t :
  is_uuid "" = false → wf is_uuid t →
  match Tree.remove s t with
  | (Ok _, t') => ∃ q r, deref t r = Some q ∧ matches s (Node.data q) ∧ wf is_uuid t' ∧
      flat t' = filter (λ ud, ud.1 ∉ Node.get_provider_uuids q) (flat t)
  | (Raise e, t') => t' = t ∧ e = Py ValueError ∧
      ∀ u d, flat t !! u = Some d → ¬ matches s d
  end.
Proof.
  intros He Hwf. pose proof (remove_spec is_uuid He s t Hwf) as H. unfold Tree.remove.
  destruct (Tree._remove_with_lock s t) as [[[]|e] t']; [|done].
  destruct H as (q & r & Hr & Hm & _ & _ & Hwf' & Hf). exists q, r.
  split_and!; [done..|]. apply map_eq. intros u. rewrite Hf. case_decide as Hu.
  - symmetry. apply map_lookup_filter_None. right. intros d _ Hn. by apply Hn.
  - destruct (flat t !! u) as [d|] eqn:Hd; symmetry.
    + by apply map_lookup_filter_Some.
    + apply map_lookup_filter_None. by left.
Qed.

(** In a linked subtree, a provider is listed after its parent. *)
Lemma nodes_parents_first p l1 d l2 :
  linked p → nodes p = l1 ++ d :: l2 →
  l1 = [] ∧ d = Node.data p ∨
  ∃ pu, parent_uuid d = Some pu ∧ pu ∈ uuid <$> l1.
Proof.
  revert l1 d l2. induction p as [dp ch IH] using provider_ind. intros l1 d l2.
  intros [_ Hl]%linked_Prov Heq. rewrite nodes_cons in Heq. simpl in Heq.
  destruct l1 as [|d1 l1]; [left; naive_solver|]. injection Heq as -> Heq. right.
  cut (∃ pu, parent_uuid d = Some pu ∧ (pu = uuid d1 ∨ pu ∈ uuid <$> l1)).
  { intros (pu & Hpu & Hin). exists pu. split; [done|]. rewrite fmap_cons. set_solver. }
  rename d1 into dp. revert l1 Heq.
  induction ch as [|[k c] ch IHch]; intros l1 Heq; [by destruct l1|]. simpl in Heq.
  apply Forall_cons in IH as [IHc IH]. simpl in IHc.
  destruct (Hl k c) as (_ & Hp & Hlc); [by left|].
  apply app_eq_app in Heq as (m & [[Hn Hm]|[Hn Hm]]).
  - destruct m as [|d' m].
    + simpl in Hm. rewrite app_nil_r in Hn. subst l1.
      destruct (IHch IH) with (l1 := @nil ProviderData) as (pu & Hpu & [->|Hin]);
        [intros k' c' Hin; apply Hl; by right|by rewrite Hm| |set_solver].
      exists (uuid dp). auto.
    + injection Hm as -> Hm. destruct (IHc _ _ _ Hlc Hn) as [[-> ->]|(pu & Hpu & Hin)].
      * exists (uuid dp). auto.
      * exists pu. auto.
  - destruct (IHch IH) with (l1 := m) as (pu & Hpu & [->|Hin]);
      [intros k' c' Hin; apply Hl; by right|done| |].
    + exists (uuid dp). auto.
    + exists pu. split; [done|]. right. subst. rewrite fmap_app. set_solver.
Qed.

Lemma all_nodes_parents_first t l1 d l2 :
  Forall linked t → Forall (λ p, parent_uuid (Node.data p) = None) t →
  all_nodes t = l1 ++ d :: l2 →
  parent_uuid d = None ∨ ∃ pu, parent_uuid d = Some pu ∧ pu ∈ uuid <$> l1.
Proof.
  intros Hl Hr. revert l1. induction t as [|p t IH]; intros l1 Heq; [by destruct l1|].
  apply Forall_cons in Hl as [Hp Hl], Hr as [Hpr Hr]. unfold all_nodes in Heq. simpl in Heq.
  apply app_eq_app in Heq as (m & [[Hn Hm]|[Hn Hm]]).
  - destruct m as [|d' m].
    + simpl in Hm. rewrite app_nil_r in Hn. subst l1.
      destruct (IH Hl Hr []) as [|(pu & _ & Hin)]; [done|by left|set_solver].
    + injection Hm as -> Hm.
      destruct (nodes_parents_first _ _ _ _ Hp Hn) as [[-> ->]|]; [by left|by right].
  - destruct (IH Hl Hr m Hm) as [|(pu & Hpu & Hin)]; [by left|right].
    exists pu. split; [done|]. subst. rewrite fmap_app. set_solver.
Qed.

(** [get_provider_uuids] without argument lists every provider of the tree
    exactly once, and each provider after its parent. *)
Theorem get_provider_uuids_parents_first is_uuid t :
  wf is_uuid t →
  ∃ us, Tree.get_provider_uuids None t = (Ok us, t) ∧ NoDup us ∧
    list_to_set us = dom (flat t) ∧
    ∀ l1 u l2 d pu, us = l1 ++ u :: l2 → flat t !! u = Some d →
      parent_uuid d = Some pu → pu ∈ l1.
Proof.
  intros Hwf. exists (all_uuids t).
  assert (flat_map Node.get_provider_uuids t = all_uuids t) as Heq.
  { unfold all_uuids, all_nodes. clear Hwf. induction t as [|p t IH]; [done|].
    simpl. by rewrite get_provider_uuids_nodes, fmap_app, IH. }
  split_and!; [by unfold Tree.get_provider_uuids, gets; rewrite Heq|apply Hwf|
    by rewrite flat_dom|].
  clear Heq. intros l1 u l2 d pu Heq Hd Hpu. unfold all_uuids in Heq.
  apply fmap_app_inv in Heq as (n1 & n2 & -> & Hn2 & Hall).
  apply symmetry, fmap_cons_inv in Hn2 as (d' & n2' & -> & _ & ->).
  assert (flat t !! uuid d' = Some d') as Hd'.
  { apply flat_lookup; [apply Hwf|]. rewrite Hall. set_solver. }
  rewrite Hd in Hd'. injection Hd' as <-.
  destruct (all_nodes_parents_first t n1 d n2') as [|(pu' & Hpu' & Hin')];
    [apply Hwf..|done|congruence|]. congruence.
Qed.

(** ** Concrete trees *)

Definition uuid_like (s : string) : bool := Nat.eqb (String.length s) 36.

Definition u_root : string := "5d1d4b1e-8a0c-4b1c-9c55-0c9d3d2f9a01".
Definition u_numa0 : string := "5d1d4b1e-8a0c-4b1c-9c55-0c9d3d2f9a02".
Definition u_numa1 : string := "5d1d4b1e-8a0c-4b1c-9c55-0c9d3d2f9a03".
Definition u_share : string := "5d1d4b1e-8a0c-4b1c-9c55-0c9d3d2f9a04".

Definition entry (u n : string) (parent : option string) : pdict :=
  mkPdict (Some u) (Some n) (Some 0%Z) parent.

Definition disk_inv (total : Z) : inventory_t :=
  {[ "DISK_GB" := {[ "total" := Qc_of_Z total ]} ]}.

(** The tree of a host with one NUMA child. *)
Definition host_tree : list Provider :=
  (run_call (NewChild u_numa0 "numa0" "host" (Some u_numa0) (Some 1%Z))
     (run_call (NewRoot "host" u_root (Some 1%Z)) []).2).2.

Lemma host_tree_reachable : reachable uuid_like host_tree.
Proof.
  eapply (reach_step _ (run_call (NewRoot "host" u_root (Some 1%Z)) []).2
    (NewChild u_numa0 "numa0" "host" (Some u_numa0) (Some 1%Z))
    (Ok tt)); [|simpl; split_and!; [done..|by intros v [= <-]|done]|by vm_compute].
  eapply (reach_step _ [] (NewRoot "host" u_root (Some 1%Z)) (Ok tt));
    [constructor|done|by vm_compute].
Defined.

Lemma host_tree_wf : wf uuid_like host_tree.
Proof. by apply reachable_is_wf; [|apply host_tree_reachable]. Qed.

(** Replacing the host and its child, adding a second child (listed before its
    parent) and a sharing root. *)
Definition host_input : list pdict :=
  [entry u_numa1 "numa1" (Some u_root); entry u_numa0 "numa0" (Some u_root);
   entry u_root "host" None; entry u_share "share" None].

Definition host_rank (u : string) : nat := if decide (u = u_root) then 0 else 1.

Lemma host_tree_flat v d :
  flat host_tree !! v = Some d → v = u_root ∨ v = u_numa0.
Proof.
  intros Hd. apply flat_lookup in Hd as [Hin Hv]; [|apply host_tree_wf].
  revert Hin. subst v. vm_compute all_nodes.
  intros [->|[->|Hin]%elem_of_cons]%elem_of_cons; [by left|by right|by apply elem_of_nil in Hin].
Qed.

Lemma populate_is_union_witness :
  ∃ t', Tree.populate_from_iterable host_input host_tree = (Ok tt, t') ∧
    flat t' !! u_numa1 =
      Some (blank u_numa1 "numa1" (Some 0%Z) (Some u_root)).
Proof.
  destruct (populate_is_union uuid_like host_rank host_input host_tree)
    as (t' & Ht' & _ & Hf).
  - reflexivity.
  - exact host_tree_wf.
  - repeat constructor; eexists; (split_and!; [reflexivity|reflexivity| |]);
      try (by eexists); intros pu Hpu; vm_compute in Hpu; by simplify_eq.
  - intros kv pu Hkv Hpu _. vm_compute in Hkv.
    repeat (apply elem_of_cons in Hkv as [->|Hkv]; [vm_compute in Hpu; simplify_eq;
      vm_compute; lia|]). by apply elem_of_nil in Hkv.
  - intros kv pu Hkv Hpu. left. apply dhas_true. vm_compute in Hkv.
    repeat (apply elem_of_cons in Hkv as [->|Hkv]; [vm_compute in Hpu; simplify_eq;
      reflexivity|]). by apply elem_of_nil in Hkv.
  - intros v d u [->| ->]%host_tree_flat _ _; apply dhas_true; reflexivity.
  - exists t'. split; [exact Ht'|]. rewrite Hf. reflexivity.
Defined.

Lemma reachable_trees_wf_witness : wf uuid_like host_tree.
Proof. apply reachable_trees_wf; [reflexivity|apply host_tree_reachable]. Defined.

Lemma update_inventory_spec_witness :
  (Tree.update_inventory "numa0" (disk_inv 40) (Some 2%Z) host_tree).1 = Ok true.
Proof.
  pose proof (update_inventory_spec uuid_like "numa0" (disk_inv 40) (Some 2%Z) host_tree
    eq_refl host_tree_wf) as H.
  destruct (Tree.update_inventory _ _ _ _) as [[b|e] t'] eqn:Hrun.
  - vm_compute in Hrun. by injection Hrun as <- _.
  - vm_compute in Hrun. discriminate Hrun.
Defined.

Lemma remove_deletes_subtree_witness :
  ∃ q t', Tree.remove "host" host_tree = (Ok tt, t') ∧
    flat t' = filter (λ ud, ud.1 ∉ Node.get_provider_uuids q) (flat host_tree).
Proof.
  pose proof (remove_deletes_subtree uuid_like "host" host_tree eq_refl host_tree_wf) as H.
  destruct (Tree.remove "host" host_tree) as [[[]|e] t'] eqn:Hrun.
  - destruct H as (q & r & _ & _ & _ & Hf). exists q, t'. split; [reflexivity|exact Hf].
  - vm_compute in Hrun. discriminate Hrun.
Defined.

Lemma get_provider_uuids_parents_first_witness :
  ∃ us, Tree.get_provider_uuids None host_tree = (Ok us, host_tree) ∧ NoDup us.
Proof.
  destruct (get_provider_uuids_parents_first uuid_like host_tree host_tree_wf)
    as (us & Hus & Hnd & _). by exists us.
Defined.

(** Two entries that name each other as parent pass the check that all parents
    are known, and reach the [ValueError] of the loop. *)
Lemma populate_cycle_reaches_error :
  let pds := [entry u_numa0 "numa0" (Some u_numa1); entry u_numa1 "numa1" (Some u_numa0)] in
  Tree.missing_parents [] (by_uuid pds) = [] ∧
  Tree.pick (by_uuid pds) = None ∧
  Tree.populate_from_iterable pds [] = (Raise (Py ValueError), []).
Proof. split_and!; by vm_compute. Qed.
