(* ===== verification/PciDevice.v ===== *)
(** * PCI devices (src/zun/objects/pci_device.py)

    The life cycle of a PCI device: discovered, claimed by a container, allocated
    to it, freed, removed.  A physical function (PF) and its virtual functions
    (VFs) exclude each other, and each operation updates the state of its
    relatives.  Devices are objects that other objects point to (the tracker's
    list, the pools of [PciStats], [parent_device], [child_devices]), so they
    live in a heap and a reference is a [nat].  A field that may be unset is an
    [option]; reading an unset field raises [NotImplementedError], as
    [VersionedObject.obj_load_attr] does. *)

From S2P Require Import Prelude Exceptions.

(** fields.PciDeviceStatus *)
Inductive PciDeviceStatus : Type :=
| AVAILABLE | CLAIMED | ALLOCATED | REMOVED | DELETED | UNCLAIMABLE | UNAVAILABLE.

(** fields.PciDeviceType *)
Inductive PciDeviceType : Type := STANDARD | SRIOV_PF | SRIOV_VF.

#[export] Instance PciDeviceStatus_eq_dec : EqDecision PciDeviceStatus.
Proof. solve_decision. Defined.
#[export] Instance PciDeviceType_eq_dec : EqDecision PciDeviceType.
Proof. solve_decision. Defined.

(** [PciDevice]: [changes] is [obj_what_changed()]. *)
Record device : Type := mkDev {
  id : option Z;
  uuid : string;
  compute_node_uuid : option string;
  address : string;
  vendor_id : string;
  product_id : string;
  dev_type : PciDeviceType;
  status : PciDeviceStatus;
  dev_id : option (option string);
  label : option (option string);
  container_uuid : option (option string);
  request_id : option (option string);
  extra_info : gmap string string;
  numa_node : option (option Z);
  parent_addr : option string;
  parent_device : option nat;
  child_devices : list nat;
  changes : gset string
}.

#[export] Instance device_eq_dec : EqDecision device.
Proof. solve_decision. Defined.

#[export] Instance device_inhabited : Inhabited device := populate {|
  id := None; uuid := ""; compute_node_uuid := None; address := ""; vendor_id := "";
  product_id := ""; dev_type := STANDARD; status := AVAILABLE; dev_id := None; label := None;
  container_uuid := None; request_id := None; extra_info := ∅; numa_node := None; parent_addr := None;
  parent_device := None; child_devices := []; changes := ∅ |}.

(** A dictionary describing a device of the host; [None] is a missing key, and
    [di_other] holds the keys that are not fields of [PciDevice], already in
    string form. *)
Record dev_dict : Type := mkDict {
  di_address : string;
  di_vendor_id : string;
  di_product_id : string;
  di_dev_type : PciDeviceType;
  di_numa_node : option (option Z);
  di_dev_id : option (option string);
  di_label : option (option string);
  di_parent_addr : option string;
  di_compute_node_uuid : option (option string);
  di_other : gmap string string
}.

#[export] Instance dev_dict_eq_dec : EqDecision dev_dict.
Proof. solve_decision. Defined.

(** The attribute setters of a versioned object: a field is recorded as changed
    when its value differs from the current one. *)
Definition note (f : string) (same : bool) (d : device) : gset string :=
  if same then changes d else {[ f ]} ∪ changes d.

Definition set_status (v : PciDeviceStatus) (d : device) : device :=
  mkDev (id d) (uuid d) (compute_node_uuid d) (address d) (vendor_id d) (product_id d)
    (dev_type d) v (dev_id d) (label d) (container_uuid d) (request_id d) (extra_info d) (numa_node d)
    (parent_addr d) (parent_device d) (child_devices d)
    (note "status" (bool_decide (v = status d)) d).

Definition set_container_uuid (v : option string) (d : device) : device :=
  mkDev (id d) (uuid d) (compute_node_uuid d) (address d) (vendor_id d) (product_id d)
    (dev_type d) (status d) (dev_id d) (label d) (Some v) (request_id d) (extra_info d) (numa_node d)
    (parent_addr d) (parent_device d) (child_devices d)
    (note "container_uuid" (bool_decide (Some v = container_uuid d)) d).

Definition set_request_id (v : option string) (d : device) : device :=
  mkDev (id d) (uuid d) (compute_node_uuid d) (address d) (vendor_id d) (product_id d)
    (dev_type d) (status d) (dev_id d) (label d) (container_uuid d) (Some v) (extra_info d) (numa_node d)
    (parent_addr d) (parent_device d) (child_devices d)
    (note "request_id" (bool_decide (Some v = request_id d)) d).

(** [parent_device] and [child_devices] are plain attributes. *)
Definition set_parent_device (p : option nat) (d : device) : device :=
  mkDev (id d) (uuid d) (compute_node_uuid d) (address d) (vendor_id d) (product_id d)
    (dev_type d) (status d) (dev_id d) (label d) (container_uuid d) (request_id d) (extra_info d) (numa_node d)
    (parent_addr d) p (child_devices d) (changes d).
Definition set_child_devices (l : list nat) (d : device) : device :=
  mkDev (id d) (uuid d) (compute_node_uuid d) (address d) (vendor_id d) (product_id d)
    (dev_type d) (status d) (dev_id d) (label d) (container_uuid d) (request_id d) (extra_info d) (numa_node d)
    (parent_addr d) (parent_device d) l (changes d).

(** [update_device(dev_dict)], after the protected keys were dropped and
    [parent_addr] defaulted: fields are assigned, other keys go to
    [extra_info], which is then reassigned. *)
Definition update_device (v : dev_dict) (d : device) : device :=
  let chg (f : string) (same : bool) : gset string := if same then ∅ else {[ f ]} in
  {| id := id d; uuid := uuid d;
     compute_node_uuid := default (compute_node_uuid d) (di_compute_node_uuid v);
     address := di_address v; vendor_id := di_vendor_id v;
     product_id := di_product_id v; dev_type := di_dev_type v;
     status := status d;
     dev_id := match di_dev_id v with Some x => Some x | None => dev_id d end;
     label := match di_label v with Some x => Some x | None => label d end;
     container_uuid := container_uuid d; request_id := request_id d;
     extra_info := di_other v ∪ extra_info d;
     numa_node := match di_numa_node v with Some n => Some n | None => numa_node d end;
     parent_addr := di_parent_addr v;
     parent_device := parent_device d; child_devices := child_devices d;
     changes := changes d ∪
       chg "compute_node_uuid" (bool_decide
         (default (compute_node_uuid d) (di_compute_node_uuid v) = compute_node_uuid d)) ∪
       chg "address" (bool_decide (di_address v = address d)) ∪
       chg "vendor_id" (bool_decide (di_vendor_id v = vendor_id d)) ∪
       chg "product_id" (bool_decide (di_product_id v = product_id d)) ∪
       chg "dev_type" (bool_decide (di_dev_type v = dev_type d)) ∪
       chg "dev_id" (bool_decide (di_dev_id v = None ∨ di_dev_id v = dev_id d)) ∪
       chg "label" (bool_decide (di_label v = None ∨ di_label v = label d)) ∪
       chg "numa_node" (bool_decide (di_numa_node v = None ∨ di_numa_node v = numa_node d)) ∪
       chg "parent_addr" (bool_decide (di_parent_addr v = parent_addr d)) |}.

(** [PciDevice.create(context, dev_dict)]; every field the dictionary sets is
    new, hence changed.  [id], [container_uuid] and [request_id] stay unset. *)
Definition create (generate_uuid : string) (v : dev_dict) : device :=
  {| id := None; uuid := generate_uuid;
     compute_node_uuid := default None (di_compute_node_uuid v);
     address := di_address v; vendor_id := di_vendor_id v;
     product_id := di_product_id v; dev_type := di_dev_type v;
     status := AVAILABLE; dev_id := di_dev_id v; label := di_label v;
     container_uuid := None; request_id := None;
     extra_info := di_other v; numa_node := di_numa_node v;
     parent_addr := di_parent_addr v; parent_device := None; child_devices := [];
     changes := {[ "address"; "vendor_id"; "product_id"; "dev_type"; "parent_addr";
                   "status"; "uuid"; "extra_info" ]} ∪
       (if di_compute_node_uuid v then {[ "compute_node_uuid" ]} else ∅) ∪
       (if di_dev_id v then {[ "dev_id" ]} else ∅) ∪
       (if di_label v then {[ "label" ]} else ∅) ∪
       (if di_numa_node v then {[ "numa_node" ]} else ∅) |}.

(** [compare_pci_device_attributes]: the fields, not the tree links. *)
Definition __eq__ (a b : device) : bool :=
  bool_decide (id a = id b ∧ uuid a = uuid b ∧ compute_node_uuid a = compute_node_uuid b ∧
    address a = address b ∧ vendor_id a = vendor_id b ∧ product_id a = product_id b ∧
    dev_type a = dev_type b ∧ status a = status b ∧ dev_id a = dev_id b ∧ label a = label b ∧
    container_uuid a = container_uuid b ∧ request_id a = request_id b ∧
    extra_info a = extra_info b ∧ numa_node a = numa_node b ∧
    parent_addr a = parent_addr b).

(** The objects the methods reach: the device heap, the [pci_devices] list of
    each container, and the rows of the table [pci_device], which are unique per
    compute node and address (src/zun/db/sqlalchemy/api.py). *)
Record objs : Type := mkObjs {
  devs : gmap nat device;
  pci_devices : gmap string (list device);
  db : gmap (option string * string) device
}.

Definition on_devs (f : gmap nat device → gmap nat device) (s : objs) : objs :=
  mkObjs (f (devs s)) (pci_devices s) (db s).

(** Assign through a reference. *)
Definition upd (r : nat) (f : device → device) (m : gmap nat device) : gmap nat device :=
  <[ r := f (m !!! r) ]> m.

Definition dev (r : nat) : py objs device := gets (λ s, devs s !!! r).
Definition mutate (r : nat) (f : device → device) : py objs unit :=
  modify (on_devs (upd r f)).

Definition getattr {A} (o : option A) : py objs A := of_option o (Py NotImplementedError).

Definition _bulk_update_status (dev_list : list nat) (v : PciDeviceStatus) : py objs unit :=
  for_each (λ r, mutate r (set_status v)) dev_list.

Definition is_available (r : nat) : py objs bool :=
  let! d := dev r in ret (bool_decide (status d = AVAILABLE)).

Definition all_available (l : list nat) : py objs bool :=
  let! bs := map_m is_available l in ret (forallb Datatypes.id bs).

Definition parent_ok_statuses : list PciDeviceStatus := [AVAILABLE; UNCLAIMABLE; UNAVAILABLE].

Definition claim (r : nat) (cnt_uuid : string) : py objs unit :=
  let! self := dev r in
  raise_if (bool_decide (status self ≠ AVAILABLE)) (Zun PciDeviceInvalidStatus);;;
  match dev_type self with
  | SRIOV_PF =>
      let vfs_list := child_devices self in
      let! ok := all_available vfs_list in
      raise_if (negb ok) (Zun PciDeviceVFInvalidStatus);;;
      _bulk_update_status vfs_list UNCLAIMABLE
  | SRIOV_VF =>
      match parent_device self with
      | Some p =>
          let! parent := dev p in
          raise_if (bool_decide (status parent ∉ parent_ok_statuses))
            (Zun PciDevicePFInvalidStatus);;;
          if bool_decide (status parent = AVAILABLE)
          then mutate p (set_status UNCLAIMABLE) else ret tt
      | None => ret tt
      end
  | STANDARD => ret tt
  end;;;
  mutate r (set_status CLAIMED);;;
  mutate r (set_container_uuid (Some cnt_uuid)).

(** [container.pci_devices.append(copy.copy(self))] *)
Definition append_copy (cnt_uuid : string) (d : device) : py objs unit :=
  modify (λ s, mkObjs (devs s)
    (<[ cnt_uuid := default [] (pci_devices s !! cnt_uuid) ++ [d] ]> (pci_devices s)) (db s)).

(** A claimed device can only be allocated to the container that claimed it. *)
Definition check_owner (self : device) (cnt_uuid : string) : py objs unit :=
  if bool_decide (status self = CLAIMED) then
    let! owner := getattr (container_uuid self) in
    raise_if (bool_decide (owner ≠ Some cnt_uuid)) (Zun PciDeviceInvalidOwner)
  else ret tt.

Definition allocate (r : nat) (cnt_uuid : string) : py objs unit :=
  let! self := dev r in
  raise_if (bool_decide (status self ∉ [AVAILABLE; CLAIMED])) (Zun PciDeviceInvalidStatus);;;
  check_owner self cnt_uuid;;;
  match dev_type self with
  | SRIOV_PF =>
      let vfs_list := child_devices self in
      let! sts := map_m (λ vf, let! d := dev vf in ret (status d)) vfs_list in
      raise_if (negb (forallb (λ st, bool_decide (st ∈ [AVAILABLE; UNCLAIMABLE])) sts))
        (Zun PciDeviceVFInvalidStatus);;;
      _bulk_update_status vfs_list UNAVAILABLE
  | SRIOV_VF =>
      match parent_device self with
      | Some p =>
          let! parent := dev p in
          raise_if (bool_decide (status parent ∉ parent_ok_statuses))
            (Zun PciDevicePFInvalidStatus);;;
          mutate p (set_status UNAVAILABLE)
      | None => ret tt
      end
  | STANDARD => ret tt
  end;;;
  mutate r (set_status ALLOCATED);;;
  mutate r (set_container_uuid (Some cnt_uuid));;;
  let! self := dev r in
  append_copy cnt_uuid self.

Definition remove (r : nat) : py objs unit :=
  let! self := dev r in
  raise_if (bool_decide (status self ≠ AVAILABLE)) (Zun PciDeviceInvalidStatus);;;
  mutate r (set_status REMOVED);;;
  mutate r (set_container_uuid None);;;
  mutate r (set_request_id None).

(** [\[vf.is_available() for vf in vfs if vf.id != self.id\]] *)
Definition siblings_available (r : nat) (vfs : list nat) : py objs (list bool) :=
  let! oks := map_m (λ vf,
    let! d := dev vf in
    let! i := getattr (id d) in
    let! self := dev r in
    let! j := getattr (id self) in
    if bool_decide (i ≠ j) then let! b := is_available vf in ret [b] else ret []) vfs in
  ret (concat oks).

(** The [container] argument of [free]: absent, an object with attributes
    (which does not support [container\['uuid'\]]), or a plain dictionary (which
    has no attribute [pci_devices]). *)
Inductive container_arg : Type := NoContainer | ContainerObject (u : string) | ContainerDict (u : string).

Definition free (r : nat) (container : container_arg) : py objs (list nat) :=
  let! self := dev r in
  raise_if (bool_decide (status self ∉ [ALLOCATED; CLAIMED])) (Zun PciDeviceInvalidStatus);;;
  match container with
  | NoContainer => ret tt
  | ContainerObject _ =>
      let! _owner := getattr (container_uuid self) in raise (Py TypeError)
  | ContainerDict u =>
      let! owner := getattr (container_uuid self) in
      raise_if (bool_decide (owner ≠ Some u)) (Zun PciDeviceInvalidOwner)
  end;;;
  let! related :=
    match dev_type self with
    | SRIOV_PF =>
        let vfs_list := child_devices self in
        _bulk_update_status vfs_list AVAILABLE;;;
        ret vfs_list
    | SRIOV_VF =>
        match parent_device self with
        | None => ret []
        | Some p =>
            let! parent := dev p in
            let! oks := siblings_available r (child_devices parent) in
            if forallb Datatypes.id oks then
              mutate p (set_status AVAILABLE);;; ret [p]
            else ret []
        end
    | STANDARD => ret []
    end in
  let! self := dev r in
  let old_status := status self in
  mutate r (set_status AVAILABLE);;;
  mutate r (set_container_uuid None);;;
  mutate r (set_request_id None);;;
  match container with
  | NoContainer => ret (related ++ [r])
  | _ => if bool_decide (old_status = ALLOCATED) then raise (Py AttributeError)
         else ret (related ++ [r])
  end.

(** The row with the changed fields written over it; [extra_info] always is.  The links
    of the tree are no columns, and the marks of changes stay with the object. *)
Definition updated (self row : device) : device :=
  let pick {A} (f : string) (get : device → A) : A := get (if decide (f ∈ changes self) then self else row) in
  {| id := pick "id" id; uuid := pick "uuid" uuid; compute_node_uuid := pick "compute_node_uuid" compute_node_uuid;
     address := pick "address" address; vendor_id := pick "vendor_id" vendor_id;
     product_id := pick "product_id" product_id; dev_type := pick "dev_type" dev_type;
     status := pick "status" status; dev_id := pick "dev_id" dev_id; label := pick "label" label;
     container_uuid := pick "container_uuid" container_uuid; request_id := pick "request_id" request_id;
     extra_info := extra_info self; numa_node := pick "numa_node" numa_node;
     parent_addr := pick "parent_addr" parent_addr;
     parent_device := None; child_devices := []; changes := ∅ |}.

(** [dbapi.destroy_pci_device] and [dbapi.update_pci_device] (an upsert). *)
Definition destroy_pci_device (node : option string) (addr : string) : py objs unit :=
  let! t := gets db in
  raise_if (bool_decide (t !! (node, addr) = None)) (Zun PciDeviceNotFound);;;
  modify (λ s, mkObjs (devs s) (pci_devices s) (delete (node, addr) (db s))).
Definition update_pci_device (node : option string) (addr : string) (values : device → device) : py objs unit :=
  modify (λ s, mkObjs (devs s) (pci_devices s)
    (<[ (node, addr) := values (default inhabitant (db s !! (node, addr))) ]> (db s))).

Definition save (r : nat) : py objs unit :=
  let! self := dev r in
  if bool_decide (status self = REMOVED) then
    mutate r (set_status DELETED);;;
    destroy_pci_device (compute_node_uuid self) (address self)
  else if bool_decide (status self ≠ DELETED) then
    update_pci_device (compute_node_uuid self) (address self) (updated self)
  else ret tt.

(** ** Lemmas on the heap *)

Lemma lookup_upd r f m x : upd r f m !!! x = if decide (x = r) then f (m !!! x) else m !!! x.
Proof.
  unfold upd. case_decide as Hx; [subst; by rewrite lookup_total_insert_eq|].
  by rewrite lookup_total_insert_ne.
Qed.

Lemma set_status_twice v d : set_status v (set_status v d) = set_status v d.
Proof.
  unfold set_status. simpl. f_equal. unfold note at 1.
  by rewrite bool_decide_eq_true_2.
Qed.

(** What a bulk update leaves in the heap. *)
Definition bulk (l : list nat) (v : PciDeviceStatus) (m : gmap nat device) : gmap nat device :=
  foldl (λ m r, upd r (set_status v) m) m l.

Lemma bulk_run l v s : _bulk_update_status l v s = (Ok tt, on_devs (bulk l v) s).
Proof.
  unfold _bulk_update_status. revert s. induction l as [|r l IH]; intros s.
  - by destruct s.
  - simpl. unfold bind, mutate, modify. simpl. rewrite IH. by destruct s.
Qed.

Lemma lookup_bulk l v m x :
  bulk l v m !!! x = if decide (x ∈ l) then set_status v (m !!! x) else m !!! x.
Proof.
  unfold bulk. revert m. induction l as [|r l IH]; intros m; cbn [foldl].
  - case_decide as Hx; [by apply elem_of_nil in Hx|done].
  - rewrite IH, !lookup_upd.
    repeat case_decide; subst; rewrite ?set_status_twice; set_solver.
Qed.

Lemma map_m_read {A} (f : nat → A) (g : nat → py objs A) l s :
  (∀ r, g r s = (Ok (f r), s)) → map_m g l s = (Ok (f <$> l), s).
Proof.
  intros Hg. induction l as [|r l IH]; [done|]. simpl. unfold bind. rewrite Hg.
  by rewrite IH.
Qed.

Lemma all_available_run l s :
  all_available l s =
  (Ok (forallb (λ r, bool_decide (status (devs s !!! r) = AVAILABLE)) l), s).
Proof.
  unfold all_available. erewrite bind_eq by by apply map_m_read.
  unfold ret. by rewrite forallb_fmap.
Qed.

(** ** The exclusion invariant *)

Definition held (d : device) : Prop := status d = CLAIMED ∨ status d = ALLOCATED.
Definition blocked (d : device) : Prop := status d = UNCLAIMABLE ∨ status d = UNAVAILABLE.

(** The links form the two-level tree that [_build_device_tree] builds. *)
Record linked (m : gmap nat device) : Prop := {
  l_child : ∀ p v, dev_type (m !!! p) = SRIOV_PF → v ∈ child_devices (m !!! p) →
              dev_type (m !!! v) = SRIOV_VF ∧ parent_device (m !!! v) = Some p;
  l_parent : ∀ v p, dev_type (m !!! v) = SRIOV_VF → parent_device (m !!! v) = Some p →
              dev_type (m !!! p) = SRIOV_PF ∧ v ∈ child_devices (m !!! p)
}.

(** The VFs of one PF have distinct ids, as rows loaded from the database do. *)
Definition ids_ok (m : gmap nat device) : Prop :=
  ∀ p, dev_type (m !!! p) = SRIOV_PF →
    (∀ v, v ∈ child_devices (m !!! p) → is_Some (id (m !!! v))) ∧
    ∀ v w, v ∈ child_devices (m !!! p) → w ∈ child_devices (m !!! p) →
      id (m !!! v) = id (m !!! w) → v = w.

(** An assigned PF blocks all its VFs; an assigned VF blocks its PF. *)
Record exclusive (m : gmap nat device) : Prop := {
  x_pf : ∀ p v, dev_type (m !!! p) = SRIOV_PF → held (m !!! p) →
           v ∈ child_devices (m !!! p) → blocked (m !!! v);
  x_vf : ∀ v p, dev_type (m !!! v) = SRIOV_VF → held (m !!! v) →
           parent_device (m !!! v) = Some p → blocked (m !!! p)
}.

Record ok (m : gmap nat device) : Prop := {
  ok_linked : linked m; ok_ids : ids_ok m; ok_excl : exclusive m
}.

(** Only statuses, owners and requests differ. *)
Definition same_shape (m m' : gmap nat device) : Prop :=
  ∀ r, dev_type (m' !!! r) = dev_type (m !!! r) ∧
       parent_device (m' !!! r) = parent_device (m !!! r) ∧
       child_devices (m' !!! r) = child_devices (m !!! r) ∧ id (m' !!! r) = id (m !!! r).

Lemma same_shape_linked m m' : same_shape m m' → linked m → linked m'.
Proof.
  intros H [H1 H2]. split.
  - intros p v. destruct (H p) as (-> & _ & -> & _), (H v) as (-> & -> & _). auto.
  - intros v p. destruct (H p) as (-> & _ & -> & _), (H v) as (-> & -> & _). auto.
Qed.

Lemma same_shape_ids m m' : same_shape m m' → ids_ok m → ids_ok m'.
Proof.
  intros H Hi p. destruct (H p) as (-> & _ & -> & _). intros Hp.
  destruct (Hi p Hp) as [H1 H2]. split.
  - intros v. destruct (H v) as (_ & _ & _ & ->). apply H1.
  - intros v w. destruct (H v) as (_ & _ & _ & ->), (H w) as (_ & _ & _ & ->). apply H2.
Qed.

(** A new assignment of statuses keeps the exclusion when it satisfies it on
    the unchanged links. *)
Lemma ok_status m m' :
  ok m → same_shape m m' →
  (∀ p v, dev_type (m !!! p) = SRIOV_PF → v ∈ child_devices (m !!! p) →
     dev_type (m !!! v) = SRIOV_VF → parent_device (m !!! v) = Some p →
     (held (m' !!! p) → blocked (m' !!! v)) ∧ (held (m' !!! v) → blocked (m' !!! p))) →
  ok m'.
Proof.
  intros [Hl Hi [X1 X2]] Hs Hx. split;
    [by eapply same_shape_linked|by eapply same_shape_ids|]. split.
  - intros p v. destruct (Hs p) as (-> & _ & -> & _). intros Hp Hh Hv.
    destruct (l_child _ Hl p v Hp Hv) as [Hv1 Hv2]. by apply (Hx p v).
  - intros v p. destruct (Hs v) as (-> & -> & _). intros Hv Hh Hp.
    destruct (l_parent _ Hl v p Hv Hp) as [Hp1 Hp2]. by apply (Hx p v).
Qed.

(** *** Shape-keeping updates *)

Definition keeps_shape (f : device → device) : Prop :=
  ∀ d, dev_type (f d) = dev_type d ∧ parent_device (f d) = parent_device d ∧
       child_devices (f d) = child_devices d ∧ id (f d) = id d.

Lemma same_shape_refl m : same_shape m m.
Proof. done. Qed.

Lemma same_shape_trans m1 m2 m3 : same_shape m1 m2 → same_shape m2 m3 → same_shape m1 m3.
Proof.
  intros H1 H2 r. destruct (H1 r) as (<- & <- & <- & <-). apply H2.
Qed.

Lemma upd_shape r f m : keeps_shape f → same_shape m (upd r f m).
Proof. intros Hf x. rewrite lookup_upd. case_decide; [apply Hf|done]. Qed.

Lemma bulk_shape l v m : same_shape m (bulk l v m).
Proof. intros x. rewrite lookup_bulk. by case_decide. Qed.

Lemma set_status_shape v : keeps_shape (set_status v).
Proof. done. Qed.
Lemma set_container_uuid_shape v : keeps_shape (set_container_uuid v).
Proof. done. Qed.
Lemma set_request_id_shape v : keeps_shape (set_request_id v).
Proof. done. Qed.

#[export] Hint Resolve same_shape_refl bulk_shape upd_shape set_status_shape
  set_container_uuid_shape set_request_id_shape : py.
#[export] Hint Extern 2 (same_shape _ (upd _ _ _)) =>
  eapply same_shape_trans; [|apply upd_shape; solve [auto with py]] : py.

(** The relatives of a device that an assignment of it blocks. *)
Definition related (m : gmap nat device) (r x : nat) : Prop :=
  dev_type (m !!! r) = SRIOV_PF ∧ x ∈ child_devices (m !!! r) ∨
  dev_type (m !!! r) = SRIOV_VF ∧ parent_device (m !!! r) = Some x.

#[export] Instance related_dec m r x : Decision (related m r x).
Proof. unfold related. apply _. Defined.

Lemma related_irrefl m r : linked m → ¬ related m r r.
Proof.
  intros Hl [[Ht Hr]|[Ht Hr]].
  - destruct (l_child _ Hl r r Ht Hr). congruence.
  - destruct (l_parent _ Hl r r Ht Hr). congruence.
Qed.

Lemma related_types m r x :
  linked m → related m r x →
  (dev_type (m !!! r) = SRIOV_PF ∧ dev_type (m !!! x) = SRIOV_VF ∧
     parent_device (m !!! x) = Some r ∧ x ∈ child_devices (m !!! r)) ∨
  (dev_type (m !!! r) = SRIOV_VF ∧ dev_type (m !!! x) = SRIOV_PF ∧
     parent_device (m !!! r) = Some x ∧ r ∈ child_devices (m !!! x)).
Proof.
  intros Hl [[Ht Hr]|[Ht Hr]].
  - destruct (l_child _ Hl r x Ht Hr). auto.
  - destruct (l_parent _ Hl r x Ht Hr). auto 6.
Qed.

(** The status of [x] once [r] is in status [v], its VFs in status [w], and its
    PF in status [u]. *)
Definition after (m : gmap nat device) (r : nat) (v w : PciDeviceStatus)
    (u : PciDeviceStatus → PciDeviceStatus) (x : nat) : PciDeviceStatus :=
  if decide (x = r) then v
  else if decide (related m r x) then
    match dev_type (m !!! r) with SRIOV_PF => w | _ => u (status (m !!! x)) end
  else status (m !!! x).

Definition block_if_available (st : PciDeviceStatus) : PciDeviceStatus :=
  if decide (st = AVAILABLE) then UNCLAIMABLE else st.

Section After.
Context (m : gmap nat device) (r : nat) (v w : PciDeviceStatus)
  (u : PciDeviceStatus → PciDeviceStatus) (x : nat).

Lemma after_STANDARD :
  dev_type (m !!! r) = STANDARD →
  after m r v w u x = if decide (x = r) then v else status (m !!! x).
Proof.
  intros Ht. unfold after. case_decide; [done|]. rewrite decide_False; [done|].
  unfold related. rewrite Ht. naive_solver.
Qed.

Lemma after_PF :
  dev_type (m !!! r) = SRIOV_PF →
  after m r v w u x =
    if decide (x = r) then v
    else if decide (x ∈ child_devices (m !!! r)) then w else status (m !!! x).
Proof.
  intros Ht. unfold after. rewrite Ht. case_decide; [done|].
  apply decide_ext. unfold related. rewrite Ht. naive_solver.
Qed.

Lemma after_VF :
  dev_type (m !!! r) = SRIOV_VF →
  after m r v w u x =
    if decide (x = r) then v
    else if decide (parent_device (m !!! r) = Some x) then u (status (m !!! x))
    else status (m !!! x).
Proof.
  intros Ht. unfold after. rewrite Ht. case_decide; [done|].
  apply decide_ext. unfold related. rewrite Ht. naive_solver.
Qed.
End After.

(** What a claim or an allocation requires of the relatives. *)
Definition vfs_in (m : gmap nat device) (r : nat) (l : list PciDeviceStatus) : Prop :=
  dev_type (m !!! r) = SRIOV_PF → ∀ v, v ∈ child_devices (m !!! r) → status (m !!! v) ∈ l.
Definition pf_in (m : gmap nat device) (r : nat) (l : list PciDeviceStatus) : Prop :=
  ∀ p, dev_type (m !!! r) = SRIOV_VF → parent_device (m !!! r) = Some p → status (m !!! p) ∈ l.

Lemma claim_spec r cu s :
  linked (devs s) →
  match claim r cu s with
  | (Ok _, s') =>
      status (devs s !!! r) = AVAILABLE ∧ vfs_in (devs s) r [AVAILABLE] ∧
      pf_in (devs s) r parent_ok_statuses ∧
      pci_devices s' = pci_devices s ∧ db s' = db s ∧ same_shape (devs s) (devs s') ∧
      (∀ x, status (devs s' !!! x) =
              after (devs s) r CLAIMED UNCLAIMABLE block_if_available x) ∧
      container_uuid (devs s' !!! r) = Some (Some cu)
  | (Raise e, s') => s' = s ∧
      e ∈ [Zun PciDeviceInvalidStatus; Zun PciDeviceVFInvalidStatus;
           Zun PciDevicePFInvalidStatus]
  end.
Proof.
  intros Hl. unfold claim, dev. steps. set (m := devs s). set (d := m !!! r).
  unfold raise_if at 1. case_bool_decide as Hst; [by split; [|set_solver]|]. steps.
  unfold vfs_in, pf_in. fold d.
  assert (∀ (f g : device → device) m', container_uuid
    (upd r (set_container_uuid (Some cu)) m' !!! r) = Some (Some cu)) as Hcu.
  { intros _ _ m'. by rewrite lookup_upd, decide_True. }
  destruct (dev_type d) eqn:Ht.
  - steps. unfold mutate. steps. unfold modify. simpl. fold m.
    split_and!; try done; [auto with py| |by apply Hcu].
    intros x. rewrite !lookup_upd, after_STANDARD by done. by repeat case_decide.
  - steps. step (all_available_run (child_devices d) s). unfold raise_if. fold m.
    destruct (forallb _ _) eqn:Hall; simpl negb; [|by split; [|set_solver]].
    steps. step (bulk_run (child_devices d) UNCLAIMABLE s). unfold mutate. steps.
    unfold modify. simpl. fold m. rewrite forallb_elem in Hall.
    split_and!; try done; [|auto with py| |by apply Hcu].
    + intros _ v Hv. apply Hall, bool_decide_eq_true in Hv. rewrite Hv. set_solver.
    + intros x. rewrite !lookup_upd, lookup_bulk, after_PF by done. by repeat case_decide.
  - destruct (parent_device d) as [p|] eqn:Hp; steps; cycle 1.
    { unfold mutate. steps. unfold modify. simpl. fold m.
      split_and!; try done; [auto with py| |by apply Hcu].
      intros x. rewrite !lookup_upd, after_VF by done. fold d. rewrite Hp.
      by repeat case_decide. }
    fold m. unfold raise_if. case_bool_decide as Hps; [by split; [|set_solver]|]. steps.
    destruct (l_parent _ Hl r p Ht Hp) as [Hpt _]. fold m in Hpt.
    assert (p ≠ r) as Hne by (intros ->; fold d in Hpt; congruence).
    case_bool_decide as Hpa; unfold mutate; steps; unfold modify; simpl; fold m;
      (split_and!; try done; [intros p' _ [= <-]; done|auto with py| |by apply Hcu]);
      intros x; rewrite !lookup_upd, after_VF by done; fold d; rewrite Hp;
      unfold block_if_available; repeat case_decide; naive_solver.
Qed.

Lemma check_owner_spec d cu s :
  match check_owner d cu s with
  | (Ok _, s') => s' = s ∧ (status d = CLAIMED → container_uuid d = Some (Some cu))
  | (Raise e, s') => s' = s ∧ e ∈ [Zun PciDeviceInvalidOwner; Py NotImplementedError]
  end.
Proof.
  unfold check_owner. case_bool_decide; [|by split]. unfold getattr, of_option.
  destruct (container_uuid d) as [o|]; steps; [|by split; [|set_solver]].
  unfold raise_if. case_bool_decide; simpl; set_solver.
Qed.

Lemma allocate_spec r cu s :
  linked (devs s) →
  match allocate r cu s with
  | (Ok _, s') =>
      status (devs s !!! r) ∈ [AVAILABLE; CLAIMED] ∧
      (status (devs s !!! r) = CLAIMED → container_uuid (devs s !!! r) = Some (Some cu)) ∧
      vfs_in (devs s) r [AVAILABLE; UNCLAIMABLE] ∧ pf_in (devs s) r parent_ok_statuses ∧
      db s' = db s ∧ same_shape (devs s) (devs s') ∧
      (∀ x, status (devs s' !!! x) =
              after (devs s) r ALLOCATED UNAVAILABLE (λ _, UNAVAILABLE) x) ∧
      container_uuid (devs s' !!! r) = Some (Some cu) ∧
      pci_devices s' =
        <[ cu := default [] (pci_devices s !! cu) ++ [devs s' !!! r] ]> (pci_devices s)
  | (Raise e, s') => s' = s ∧
      e ∈ [Zun PciDeviceInvalidStatus; Zun PciDeviceInvalidOwner; Py NotImplementedError;
           Zun PciDeviceVFInvalidStatus; Zun PciDevicePFInvalidStatus]
  end.
Proof.
  intros Hl. unfold allocate, dev. steps. set (m := devs s). set (d := m !!! r).
  unfold raise_if at 1. case_bool_decide as Hst; [by split; [|set_solver]|]. steps.
  unfold vfs_in, pf_in. fold d.
  assert (∀ m', container_uuid
    (upd r (set_container_uuid (Some cu)) m' !!! r) = Some (Some cu)) as Hcu.
  { intros m'. by rewrite lookup_upd, decide_True. }
  pose proof (check_owner_spec d cu s) as Howner.
  destruct (check_owner d cu s) as [[[]|e] s1] eqn:Ho;
    destruct Howner as [-> Howner]; step Ho; clear Ho; [|split; [done|set_solver]].
  destruct (dev_type d) eqn:Ht.
  - steps. unfold mutate. steps. unfold append_copy, modify. simpl. fold m.
    split_and!; try done; [auto with py|].
    intros x. rewrite !lookup_upd, after_STANDARD by done. by repeat case_decide.
  - assert (map_m (λ vf, let! d := gets (λ s0, devs s0 !!! vf) in ret (status d))
      (child_devices d) s = (Ok ((λ v, status (m !!! v)) <$> child_devices d), s)) as Hmap
      by by apply map_m_read.
    steps. step Hmap. unfold raise_if. rewrite forallb_fmap.
    destruct (forallb _ (child_devices d)) eqn:Hall; simpl negb; [|by split; [|set_solver]].
    steps. step (bulk_run (child_devices d) UNAVAILABLE s). unfold mutate. steps.
    unfold append_copy, modify. simpl. fold m. rewrite forallb_elem in Hall.
    split_and!; try done; [|auto with py|].
    + intros _ v Hv. by apply Hall, bool_decide_eq_true in Hv.
    + intros x. rewrite !lookup_upd, lookup_bulk, after_PF by done. by repeat case_decide.
  - destruct (parent_device d) as [p|] eqn:Hp; steps; cycle 1.
    { unfold mutate. steps. unfold append_copy, modify. simpl. fold m.
      split_and!; try done; [auto with py|].
      intros x. rewrite !lookup_upd, after_VF by done. fold d. rewrite Hp.
      by repeat case_decide. }
    fold m. unfold raise_if. case_bool_decide as Hps; [by split; [|set_solver]|]. steps.
    destruct (l_parent _ Hl r p Ht Hp) as [Hpt _]. fold m in Hpt.
    assert (p ≠ r) as Hne by (intros ->; fold d in Hpt; congruence).
    unfold mutate; steps; unfold append_copy, modify; simpl; fold m;
      (split_and!; try done; [by intros p' _ [= <-]|auto with py|]);
      intros x; rewrite !lookup_upd, after_VF by done; fold d; rewrite Hp;
      repeat case_decide; naive_solver.
Qed.

(** The PF of [r], when all its other VFs are available. *)
Definition pf_released (m : gmap nat device) (r p : nat) : bool :=
  forallb (λ v, bool_decide (v = r ∨ status (m !!! v) = AVAILABLE)) (child_devices (m !!! p)).

Definition released (m : gmap nat device) (r : nat) : list nat :=
  match dev_type (m !!! r), parent_device (m !!! r) with
  | SRIOV_PF, _ => child_devices (m !!! r)
  | SRIOV_VF, Some p => if pf_released m r p then [p] else []
  | _, _ => []
  end.

Lemma siblings_run r p s :
  ids_ok (devs s) → dev_type (devs s !!! p) = SRIOV_PF → r ∈ child_devices (devs s !!! p) →
  ∃ oks, siblings_available r (child_devices (devs s !!! p)) s = (Ok oks, s) ∧
    forallb Datatypes.id oks = pf_released (devs s) r p.
Proof.
  intros Hi Hp Hr. destruct (Hi p Hp) as [Hset Hinj]. unfold siblings_available, pf_released.
  set (m := devs s) in *.
  set (read := λ v, if bool_decide (v = r) then []
                    else [bool_decide (status (m !!! v) = AVAILABLE)]).
  assert (∀ l, (∀ v, v ∈ l → v ∈ child_devices (m !!! p)) → map_m (λ vf,
    let! d := dev vf in
    let! i := getattr (id d) in
    let! self := dev r in
    let! j := getattr (id self) in
    if bool_decide (i ≠ j) then let! b := is_available vf in ret [b] else ret []) l s =
    (Ok (read <$> l), s)) as Hmap.
  { intros l. induction l as [|v l IH]; intros Hsub; [done|]. cbn [map_m].
    destruct (Hset v) as [i Hv]; [set_solver|]. destruct (Hset r Hr) as [j Hj].
    unfold dev. steps. fold m. rewrite Hv. unfold getattr at 1, of_option. steps.
    fold m. rewrite Hj. unfold getattr at 1, of_option. steps.
    rewrite fmap_cons. unfold read at 1.
    destruct (decide (v = r)) as [->|Hne].
    - rewrite Hv in Hj. simplify_eq. rewrite bool_decide_eq_false_2 by naive_solver.
      rewrite bool_decide_eq_true_2 by done. steps. by step (IH ltac:(set_solver)).
    - rewrite bool_decide_eq_true_2.
      2: { intros ->. apply Hne. apply Hinj; [set_solver|done|congruence]. }
      rewrite (bool_decide_eq_false_2 (v = r)) by done.
      unfold is_available, dev. steps. by step (IH ltac:(set_solver)). }
  exists (concat (read <$> child_devices (m !!! p))). split.
  - by step (Hmap (child_devices (m !!! p)) (λ v H, H)).
  - clear Hmap Hset Hinj Hr. induction (child_devices (m !!! p)) as [|v l IH]; [done|]. cbn.
    rewrite forallb_app, IH. f_equal. unfold read.
    destruct (decide (v = r)) as [->|Hne].
    + by rewrite !bool_decide_eq_true_2 by auto.
    + rewrite (bool_decide_eq_false_2 (v = r)) by done. cbn. rewrite andb_true_r.
      apply bool_decide_ext. naive_solver.
Qed.

Lemma free_spec r s :
  linked (devs s) → ids_ok (devs s) →
  match free r NoContainer s with
  | (Ok l, s') =>
      held (devs s !!! r) ∧ l = released (devs s) r ++ [r] ∧
      pci_devices s' = pci_devices s ∧ db s' = db s ∧ same_shape (devs s) (devs s') ∧
      (∀ x, status (devs s' !!! x) =
              if decide (x ∈ l) then AVAILABLE else status (devs s !!! x)) ∧
      container_uuid (devs s' !!! r) = Some None ∧ request_id (devs s' !!! r) = Some None
  | (Raise e, s') => s' = s ∧ e = Zun PciDeviceInvalidStatus ∧ ¬ held (devs s !!! r)
  end.
Proof.
  intros Hl Hi. unfold free, dev. steps. set (m := devs s). set (d := m !!! r).
  unfold raise_if at 1. unfold held. case_bool_decide as Hst;
    [by split_and!; [..|set_solver]|]. steps.
  assert (status d = CLAIMED ∨ status d = ALLOCATED) as Hh by set_solver.
  unfold released. fold d.
  assert (∀ m', request_id (upd r (set_request_id None) m' !!! r) = Some None) as Hrq.
  { intros m'. by rewrite lookup_upd, decide_True. }
  assert (∀ m', container_uuid (upd r (set_request_id None)
    (upd r (set_container_uuid None) m') !!! r) = Some None) as Hcu.
  { intros m'. by rewrite !lookup_upd, !decide_True. }
  destruct (dev_type d) eqn:Ht.
  - steps. unfold mutate. steps. unfold modify, ret. simpl. fold m.
    split_and!; try done; [auto with py|].
    intros x. rewrite !lookup_upd. repeat case_decide; set_solver.
  - steps. step (bulk_run (child_devices d) AVAILABLE s). steps. unfold mutate. steps.
    unfold modify, ret. simpl. fold m.
    split_and!; try done; [auto with py|].
    intros x. rewrite !lookup_upd, lookup_bulk. repeat case_decide; set_solver.
  - destruct (parent_device d) as [p|] eqn:Hp; steps; cycle 1.
    { unfold mutate. steps. unfold modify, ret. simpl. fold m.
      split_and!; try done; [auto with py|].
      intros x. rewrite !lookup_upd. repeat case_decide; set_solver. }
    destruct (l_parent _ Hl r p Ht Hp) as [Hpt Hc].
    destruct (siblings_run r p s Hi Hpt Hc) as (oks & Hrun & Hoks). fold m in Hrun, Hoks |- *.
    step Hrun. rewrite Hoks.
    destruct (pf_released m r p) eqn:Hrel; steps; unfold mutate; steps;
      unfold modify, ret; simpl; fold m; (split_and!; try done; [auto with py|]);
      intros x; rewrite !lookup_upd; repeat case_decide; set_solver.
Qed.

(** *** The invariant is preserved *)

Definition held_st (v : PciDeviceStatus) : Prop := v = CLAIMED ∨ v = ALLOCATED.
Definition blocked_st (v : PciDeviceStatus) : Prop := v = UNCLAIMABLE ∨ v = UNAVAILABLE.
Definition compatible (pf vf : PciDeviceStatus) : Prop :=
  (held_st pf → blocked_st vf) ∧ (held_st vf → blocked_st pf).

Lemma ok_compatible m p v :
  ok m → dev_type (m !!! p) = SRIOV_PF → v ∈ child_devices (m !!! p) →
  compatible (status (m !!! p)) (status (m !!! v)).
Proof.
  intros [Hl _ [X1 X2]] Hp Hv. destruct (l_child _ Hl p v Hp Hv) as [Hv1 Hv2].
  split; [intros Hh; by apply (X1 p v)|intros Hh; by apply (X2 v p)].
Qed.

Lemma ok_after m m' r v w u :
  ok m → same_shape m m' → (∀ x, status (m' !!! x) = after m r v w u x) →
  (dev_type (m !!! r) = SRIOV_PF → compatible v w) →
  (∀ p, dev_type (m !!! r) = SRIOV_VF → parent_device (m !!! r) = Some p →
     compatible (u (status (m !!! p))) v ∧
     ∀ x, x ∈ child_devices (m !!! p) → x ≠ r →
       compatible (u (status (m !!! p))) (status (m !!! x))) →
  ok m'.
Proof.
  intros Hok Hs Hst Hpf Hvf. apply (ok_status m); [done..|].
  intros p x Hp Hx Ht Hpar. unfold held, blocked. rewrite !Hst.
  pose proof (ok_compatible m p x Hok Hp Hx) as Hc.
  assert (p ≠ x) as Hpx by congruence.
  destruct (dev_type (m !!! r)) eqn:Hr.
  - rewrite !after_STANDARD by done.
    rewrite !decide_False by congruence. exact Hc.
  - rewrite !after_PF by done. destruct (decide (p = r)) as [->|Hpr].
    + rewrite (decide_False (P:=x = r)) by done. rewrite decide_True by done.
      by apply Hpf.
    + assert (x ∉ child_devices (m !!! r)) as Hxr.
      { intros Hxr. destruct (l_child _ (ok_linked _ Hok) r x Hr Hxr). congruence. }
      rewrite (decide_False (P:=x = r)) by congruence.
      rewrite decide_False; [by rewrite decide_False by done|].
      intros Hpr'. destruct (l_child _ (ok_linked _ Hok) r p Hr Hpr'). congruence.
  - rewrite !after_VF by done. rewrite (decide_False (P:=p = r)) by congruence.
    destruct (decide (x = r)) as [->|Hxr].
    + rewrite decide_True by done. by apply (Hvf p).
    + rewrite (decide_False (P:=parent_device _ = Some x)).
      2: { intros Hxp. destruct (l_parent _ (ok_linked _ Hok) r x Hr Hxp). congruence. }
      case_decide as Hrp; [|exact Hc]. by apply (Hvf p eq_refl Hrp).
Qed.

Ltac crush_status :=
  repeat match goal with
  | H : ∀ x : nat, _ = _ |- _ => clear H
  | H : ok _ |- _ => clear H
  | H : linked _ |- _ => clear H
  | H : same_shape _ _ |- _ => clear H
  end;
  unfold compatible, held_st, blocked_st, block_if_available in *;
  repeat case_decide; intuition congruence.

Lemma claim_ok r cu s : ok (devs s) → ok (devs (claim r cu s).2).
Proof.
  intros Hok. pose proof (claim_spec r cu s (ok_linked _ Hok)) as H.
  destruct (claim r cu s) as [[[]|e] s']; [|by destruct H as [-> _]].
  destruct H as (Hst & Hvfs & Hpf & _ & _ & Hsh & Haft & _).
  eapply (ok_after _ _ r); [done..|crush_status|]. intros p Hr Hp.
  specialize (Hpf p Hr Hp). destruct (l_parent _ (ok_linked _ Hok) r p Hr Hp) as [Hpt Hc].
  unfold parent_ok_statuses in Hpf. split; [set_unfold; crush_status|].
  intros x Hx _. pose proof (ok_compatible _ p x Hok Hpt Hx).
  set_unfold; crush_status.
Qed.

Lemma allocate_ok r cu s : ok (devs s) → ok (devs (allocate r cu s).2).
Proof.
  intros Hok. pose proof (allocate_spec r cu s (ok_linked _ Hok)) as H.
  destruct (allocate r cu s) as [[[]|e] s']; [|by destruct H as [-> _]].
  destruct H as (Hst & _ & Hvfs & Hpf & _ & Hsh & Haft & _).
  eapply (ok_after _ _ r); [done..|crush_status|]. intros p Hr Hp. crush_status.
Qed.

Lemma free_ok r s : ok (devs s) → ok (devs (free r NoContainer s).2).
Proof.
  intros Hok. pose proof (free_spec r s (ok_linked _ Hok) (ok_ids _ Hok)) as H.
  destruct (free r NoContainer s) as [[l|e] s']; [|by destruct H as [-> _]].
  destruct H as (Hh & -> & _ & _ & Hsh & Hst & _). apply (ok_status (devs s)); [done..|].
  intros p x Hp Hx Ht Hpar. unfold held, blocked. rewrite !Hst. clear Hst Hsh.
  pose proof (ok_compatible _ p x Hok Hp Hx) as Hc.
  assert (p ≠ x) as Hpx by congruence. unfold released.
  pose proof (ok_linked _ Hok) as Hl. unfold held in Hh.
  destruct (dev_type (devs s !!! r)) eqn:Hr.
  - rewrite !decide_False by (set_unfold; intuition congruence). exact Hc.
  - destruct (decide (p = r)) as [->|Hpr].
    + rewrite !decide_True by set_solver. crush_status.
    + assert (x ∉ child_devices (devs s !!! r) ∧ p ∉ child_devices (devs s !!! r)) as [H1 H2].
      { split; intros Hin; destruct (l_child _ Hl r _ Hr Hin); congruence. }
      rewrite !decide_False by (set_unfold; intuition congruence). exact Hc.
  - destruct (parent_device (devs s !!! r)) as [q|] eqn:Hq; cycle 1.
    { rewrite (decide_False (P:=p ∈ _)) by (set_unfold; intuition congruence).
      case_decide; [|exact Hc]. set_unfold. naive_solver. }
    destruct (l_parent _ Hl r q Hr Hq) as [Hqt Hrq].
    destruct (pf_released (devs s) r q) eqn:Hrel.
    + unfold pf_released in Hrel. rewrite forallb_elem in Hrel.
      destruct (decide (p = q)) as [->|Hpq].
      * specialize (Hrel x Hx). apply bool_decide_eq_true in Hrel.
        rewrite (decide_True (P:=q ∈ _)) by set_solver. case_decide; [crush_status|].
        destruct Hrel as [->|Hrel]; [set_solver|]. rewrite Hrel. crush_status.
      * rewrite !decide_False; [exact Hc|set_unfold; intuition congruence..].
    + rewrite (decide_False (P:=p ∈ _)) by (set_unfold; intuition congruence).
      case_decide as Hxr; [|exact Hc]. assert (x = r) as -> by (set_unfold; intuition). crush_status.
Qed.

Lemma remove_ok r s : ok (devs s) → ok (devs (remove r s).2).
Proof.
  intros Hok. unfold remove, dev. steps. unfold raise_if.
  case_bool_decide as Hst; [done|]. steps. unfold mutate. steps. unfold modify. simpl.
  apply (ok_status (devs s)); [done|auto with py|].
  intros p x Hp Hx _ _. pose proof (ok_compatible _ p x Hok Hp Hx).
  unfold held, blocked. rewrite !lookup_upd.
  repeat case_decide; subst; simpl; crush_status.
Qed.

Lemma save_ok r s : ok (devs s) → ok (devs (save r s).2).
Proof.
  intros Hok. unfold save, dev. steps. case_bool_decide as Hst.
  - unfold mutate, destroy_pci_device. steps. unfold raise_if.
    assert (ok (upd r (set_status DELETED) (devs s))) as Hok'.
    { apply (ok_status (devs s)); [done|auto with py|].
      intros p x Hp Hx _ _. pose proof (ok_compatible _ p x Hok Hp Hx).
      unfold held, blocked. rewrite !lookup_upd.
      repeat case_decide; subst; simpl; crush_status. }
    by case_bool_decide.
  - by case_bool_decide.
Qed.

(** ** Sequences of calls *)

Inductive op : Type :=
| Claim (r : nat) (cu : string)
| Allocate (r : nat) (cu : string)
| Free (r : nat)
| Remove (r : nat)
| Save (r : nat).

Definition run_op (o : op) (s : objs) : objs :=
  match o with
  | Claim r cu => (claim r cu s).2
  | Allocate r cu => (allocate r cu s).2
  | Free r => (free r NoContainer s).2
  | Remove r => (remove r s).2
  | Save r => (save r s).2
  end.

Definition run_ops (os : list op) (s : objs) : objs := foldl (λ s o, run_op o s) s os.

(** The PF of a VF is available exactly when its other VFs are. *)
Definition balanced (m : gmap nat device) (r : nat) : Prop :=
  ∀ p, dev_type (m !!! r) = SRIOV_VF → parent_device (m !!! r) = Some p →
    (status (m !!! p) = AVAILABLE ↔
     ∀ v, v ∈ child_devices (m !!! p) → v ≠ r → status (m !!! v) = AVAILABLE).

Lemma pf_released_spec m r p :
  pf_released m r p = true ↔
  ∀ v, v ∈ child_devices (m !!! p) → v ≠ r → status (m !!! v) = AVAILABLE.
Proof.
  unfold pf_released. rewrite forallb_elem. split; intros H v Hv.
  - intros Hne. specialize (H v Hv). apply bool_decide_eq_true in H. naive_solver.
  - apply bool_decide_eq_true. destruct (decide (v = r)); auto.
Qed.

(** ** Properties of PCI devices *)

(** C35. Whatever sequence of claims, allocations, releases, removals and saves
    is made, failed calls included, a physical function and one of its virtual
    functions are never assigned at the same time. *)
Theorem pf_vf_exclusion ops s :
  ok (devs s) →
  ok (devs (run_ops ops s)) ∧
  ∀ p v, dev_type (devs (run_ops ops s) !!! p) = SRIOV_PF →
    v ∈ child_devices (devs (run_ops ops s) !!! p) →
    ¬ (held (devs (run_ops ops s) !!! p) ∧ held (devs (run_ops ops s) !!! v)).
Proof.
  intros Hok. assert (ok (devs (run_ops ops s))) as Hok'.
  { unfold run_ops. revert s Hok. induction ops as [|o ops IH]; intros s Hok; [done|].
    simpl. apply IH. destruct o; simpl; auto using claim_ok, allocate_ok, free_ok,
      remove_ok, save_ok. }
  split; [done|]. intros p v Hp Hv [H1 H2].
  pose proof (ok_compatible _ p v Hok' Hp Hv). unfold held in *. crush_status.
Qed.

(** Releasing a claim undoes it: the status of every device is what it was
    before the claim, and the devices handed back to the pools are exactly the
    ones whose status the claim had changed. *)
Theorem claim_free_restores r cu s s1 :
  ok (devs s) → balanced (devs s) r → claim r cu s = (Ok tt, s1) →
  ∃ l s2, free r NoContainer s1 = (Ok l, s2) ∧
    (∀ x, status (devs s2 !!! x) = status (devs s !!! x)) ∧
    (∀ x, x ∈ l ↔ status (devs s1 !!! x) ≠ status (devs s !!! x)).
Proof.
  intros Hok Hbal Hrun. pose proof (claim_ok r cu s Hok) as Hok1.
  pose proof (claim_spec r cu s (ok_linked _ Hok)) as H. rewrite Hrun in H, Hok1.
  simpl in Hok1. destruct H as (Hst & Hvfs & Hpf & _ & _ & Hsh & Haft & _).
  pose proof (free_spec r s1 (ok_linked _ Hok1) (ok_ids _ Hok1)) as H.
  assert (status (devs s1 !!! r) = CLAIMED) as Hr1.
  { rewrite Haft. unfold after. by rewrite decide_True. }
  destruct (free r NoContainer s1) as [[l|e] s2];
    [|destruct H as (_ & _ & []); by left].
  destruct H as (_ & Hl & _ & _ & _ & Hst2 & _). exists l, s2. split; [done|].
  assert (∀ x, x ∈ l ↔ status (devs s1 !!! x) ≠ status (devs s !!! x)) as Hin; cycle 1.
  { split; [|done]. intros x. rewrite Hst2. case_decide as Hx.
    - apply Hin in Hx. rewrite Haft in Hx. unfold after, block_if_available in Hx.
      destruct (decide (x = r)) as [->|]; [done|].
      destruct (decide (related (devs s) r x)) as [Hrel|]; [|done].
      destruct (related_types _ _ _ (ok_linked _ Hok) Hrel) as [(Ht & _ & _ & Hc)|(Ht & _)].
      + specialize (Hvfs Ht x Hc). by apply list_elem_of_singleton in Hvfs.
      + rewrite Ht in Hx. by case_decide.
    - apply dec_stable. intros Hne. apply Hx, Hin. done. }
  intros x. rewrite Haft, Hl. destruct (Hsh r) as (Ht & Hp & Hc & _).
  unfold released. rewrite Ht, Hp, Hc, elem_of_app, list_elem_of_singleton.
  destruct (decide (x = r)) as [->|Hxr].
  { unfold after. rewrite decide_True by done. rewrite Hst. naive_solver. }
  destruct (dev_type (devs s !!! r)) eqn:Htr.
  - rewrite after_STANDARD by done. rewrite decide_False by done. set_solver.
  - rewrite after_PF by done. rewrite decide_False by done. case_decide as Hx; [|set_solver].
    specialize (Hvfs Htr x Hx). apply list_elem_of_singleton in Hvfs. rewrite Hvfs.
    naive_solver.
  - rewrite after_VF by done. rewrite decide_False by done.
    destruct (parent_device (devs s !!! r)) as [p|] eqn:Hpr; [|set_solver].
    assert (pf_released (devs s1) r p = true ↔ status (devs s !!! p) = AVAILABLE) as Hrel.
    { rewrite (Hbal p Htr Hpr), pf_released_spec.
      destruct (Hsh p) as (_ & _ & -> & _). apply forall_proper. intros v.
      split; intros H Hv Hne; specialize (H Hv Hne); revert H; rewrite Haft;
        rewrite after_VF by done; rewrite decide_False by done;
        (rewrite decide_False; [done|]); rewrite Hpr; intros [= ->];
        destruct (l_parent _ (ok_linked _ Hok) r v Htr Hpr) as [Hvt Hvc];
        destruct (l_child _ (ok_linked _ Hok) v v Hvt Hv); congruence. }
    unfold block_if_available.
    destruct (pf_released (devs s1) r p); case_decide as Hpx; simplify_eq.
    + rewrite decide_True by by apply Hrel. rewrite (proj1 Hrel eq_refl). set_solver.
    + set_solver.
    + rewrite decide_False; [set_solver|]. intros Ha. by apply Hrel in Ha.
    + set_solver.
Qed.

(** A claim reserves the device for its container: right after it, the
    allocation to that container succeeds, blocks the relatives and hands the
    container a copy of the device, while the allocation to any other container
    is refused and changes nothing. *)
Theorem claim_reserves r cu s s1 cu' :
  ok (devs s) → claim r cu s = (Ok tt, s1) →
  match allocate r cu' s1 with
  | (Ok _, s2) => cu' = cu ∧ status (devs s2 !!! r) = ALLOCATED ∧
      (∀ x, related (devs s) r x → status (devs s2 !!! x) = UNAVAILABLE) ∧
      pci_devices s2 !! cu = Some (default [] (pci_devices s !! cu) ++ [devs s2 !!! r])
  | (Raise e, s2) => cu' ≠ cu ∧ e = Zun PciDeviceInvalidOwner ∧ s2 = s1
  end.
Proof.
  intros Hok Hrun. pose proof (claim_ok r cu s Hok) as Hok1.
  pose proof (claim_spec r cu s (ok_linked _ Hok)) as H. rewrite Hrun in H, Hok1.
  simpl in Hok1. destruct H as (Hst & Hvfs & Hpf & Hpd & _ & Hsh & Haft & Hown).
  assert (status (devs s1 !!! r) = CLAIMED) as Hr1.
  { rewrite Haft. unfold after. by rewrite decide_True. }
  pose proof (allocate_spec r cu' s1 (ok_linked _ Hok1)) as H.
  destruct (allocate r cu' s1) as [[[]|e] s2] eqn:Halloc.
  - destruct H as (_ & Ho & _ & _ & _ & _ & Haft2 & _ & Hpd2).
    specialize (Ho Hr1). assert (cu' = cu) as -> by congruence.
    split_and!; [done| | |].
    + rewrite Haft2. unfold after. by rewrite decide_True.
    + intros x Hx. rewrite Haft2. unfold after. destruct (Hsh r) as (Ht & Hp & Hc & _).
      rewrite decide_False by (intros ->; by eapply related_irrefl; [apply Hok|]).
      rewrite decide_True by (unfold related in *; by rewrite Ht, Hp, Hc).
      by destruct (dev_type _).
    + rewrite Hpd2, lookup_insert_eq. by rewrite Hpd.
  - destruct H as (-> & _). destruct (decide (cu' = cu)) as [->|Hne].
    + exfalso. revert Halloc. unfold allocate, dev. steps. rewrite Hr1.
      unfold raise_if at 1. rewrite bool_decide_eq_false_2 by set_solver. steps.
      unfold check_owner. rewrite Hr1, bool_decide_eq_true_2 by done. steps.
      rewrite Hown. unfold getattr, of_option. steps. unfold raise_if at 1.
      rewrite bool_decide_eq_false_2 by naive_solver. steps.
      destruct (Hsh r) as (Ht & Hp & Hc & _). rewrite Ht, Hp, Hc.
      destruct (dev_type (devs s !!! r)) eqn:Htr; [done| |].
      * steps. rewrite (bind_eq _ _ _ _ _ (map_m_read (λ v, status (devs s1 !!! v)) _ _ _
          (λ v, eq_refl))).
        rewrite forallb_fmap. rewrite (proj2 (forallb_elem _ _)).
        { simpl. steps. by rewrite (bind_eq _ _ _ _ _ (bulk_run _ _ _)). }
        intros v Hv. apply bool_decide_eq_true. rewrite Haft, after_PF by done.
        rewrite (decide_True (P:=v ∈ _)) by done. case_decide; [|set_solver].
        subst. destruct (l_child _ (ok_linked _ Hok) r r Htr Hv). congruence.
      * destruct (parent_device (devs s !!! r)) as [p|] eqn:Hpr; [|done]. steps.
        specialize (Hpf p Htr Hpr). unfold raise_if.
        rewrite bool_decide_eq_false_2; [done|]. intros Hn. apply Hn.
        destruct (l_parent _ (ok_linked _ Hok) r p Htr Hpr) as [Hpt _].
        rewrite Haft, after_VF by done. rewrite decide_False by congruence.
        rewrite decide_True by done. unfold block_if_available, parent_ok_statuses in *.
        case_decide; [set_solver|done].
    + split_and!; [done| |done]. revert Halloc. unfold allocate, dev. steps. rewrite Hr1.
      unfold raise_if at 1. rewrite bool_decide_eq_false_2 by set_solver. steps.
      unfold check_owner. rewrite Hr1, bool_decide_eq_true_2 by done. steps.
      rewrite Hown. unfold getattr, of_option. steps. unfold raise_if at 1.
      rewrite bool_decide_eq_true_2 by naive_solver. steps. by intros [= <-].
Qed.

(** ** A network card with one PF and two VFs *)

Definition nic (i : option Z) (addr : string) (t : PciDeviceType) (parent : option nat)
    (children : list nat) : device :=
  mkDev i addr (Some "node1") addr "8086" "1520" t AVAILABLE None None None None ∅ (Some None)
    (if parent then Some "0000:81:00.0" else None) parent children ∅.

Definition card (ids : bool) : gmap nat device :=
  let i (n : Z) := if ids then Some n else None in
  <[ 0 := nic (i 1%Z) "0000:81:00.0" SRIOV_PF None [1; 2] ]>
  (<[ 1 := nic (i 2%Z) "0000:81:10.0" SRIOV_VF (Some 0) [] ]>
  (<[ 2 := nic (i 3%Z) "0000:81:10.2" SRIOV_VF (Some 0) [] ]> ∅)).

Definition card_objs (ids : bool) : objs := mkObjs (card ids) ∅ ∅.

Lemma card_cases (P : nat → device → Prop) :
  P 0 (card true !!! 0) → P 1 (card true !!! 1) → P 2 (card true !!! 2) →
  (∀ r, P r inhabitant) → ∀ r, P r (card true !!! r).
Proof.
  intros H0 H1 H2 Hr r. destruct r as [|[|[|r]]]; [done..|].
  unfold card. rewrite !lookup_total_insert_ne by lia. apply Hr.
Qed.

Lemma card_children p v :
  dev_type (card true !!! p) = SRIOV_PF → v ∈ child_devices (card true !!! p) →
  p = 0 ∧ (v = 1 ∨ v = 2).
Proof.
  apply (card_cases (λ p d, dev_type d = SRIOV_PF → v ∈ child_devices d →
    p = 0 ∧ (v = 1 ∨ v = 2))); try done.
  intros _. vm_compute child_devices. set_unfold. naive_solver.
Qed.

Lemma card_parent v p :
  dev_type (card true !!! v) = SRIOV_VF → parent_device (card true !!! v) = Some p →
  p = 0 ∧ (v = 1 ∨ v = 2).
Proof.
  apply (card_cases (λ v d, dev_type d = SRIOV_VF → parent_device d = Some p →
    p = 0 ∧ (v = 1 ∨ v = 2))); try done; vm_compute; naive_solver.
Qed.

Lemma card_available r : ¬ held (card true !!! r).
Proof. apply (card_cases (λ _ d, ¬ held d)); [| | |intros ?]; intros [H|H]; vm_compute in H; done. Qed.

Lemma card_ok : ok (card true).
Proof.
  split; [split|intros p Hp; split|split].
  - intros p v Hp Hv. by destruct (card_children p v Hp Hv) as [-> [-> | ->]].
  - intros v p Hv Hp. destruct (card_parent v p Hv Hp) as [-> [-> | ->]];
      (split; [done|]); vm_compute child_devices; set_solver.
  - intros v Hv. by destruct (card_children p v Hp Hv) as [-> [-> | ->]]; eexists.
  - intros v w Hv Hw. destruct (card_children p v Hp Hv) as [-> [-> | ->]],
      (card_children 0 w Hp Hw) as [_ [-> | ->]]; by vm_compute.
  - intros p v _ Hh _. by apply card_available in Hh.
  - intros v p _ Hh _. by apply card_available in Hh.
Qed.

Lemma pf_vf_exclusion_witness :
  ¬ (held (devs (run_ops [Claim 1 "c1"; Allocate 1 "c1"; Claim 0 "c2"] (card_objs true)) !!! 0) ∧
     held (devs (run_ops [Claim 1 "c1"; Allocate 1 "c1"; Claim 0 "c2"] (card_objs true)) !!! 1)).
Proof.
  apply (pf_vf_exclusion [Claim 1 "c1"; Allocate 1 "c1"; Claim 0 "c2"] (card_objs true) card_ok).
  - by vm_compute.
  - vm_compute. left.
Defined.

Lemma card_balanced : balanced (card true) 1.
Proof.
  intros p _. vm_compute. intros [= <-]. split; [|done].
  intros _ v Hv _. apply elem_of_cons in Hv as [->|Hv]; [done|].
  apply elem_of_cons in Hv as [->|Hv]; [done|]. by apply elem_of_nil in Hv.
Qed.

Lemma claim_free_restores_witness :
  ∃ l s2, free 1 NoContainer (claim 1 "c1" (card_objs true)).2 = (Ok l, s2) ∧
    status (devs s2 !!! 0) = AVAILABLE ∧ 0 ∈ l.
Proof.
  destruct (claim_free_restores 1 "c1" (card_objs true) (claim 1 "c1" (card_objs true)).2)
    as (l & s2 & Hfree & Hst & Hl); [exact card_ok|exact card_balanced|by vm_compute|].
  exists l, s2. split; [exact Hfree|]. split; [rewrite Hst; reflexivity|].
  apply Hl. by vm_compute.
Defined.

Lemma claim_reserves_witness :
  (allocate 1 "c2" (claim 1 "c1" (card_objs true)).2).1 = Raise (Zun PciDeviceInvalidOwner).
Proof.
  pose proof (claim_reserves 1 "c1" (card_objs true) (claim 1 "c1" (card_objs true)).2 "c2"
    card_ok ltac:(by vm_compute)) as H.
  destruct (allocate _ _ _) as [[[]|e] s2].
  - by destruct H as [[=] _].
  - destruct H as (_ & -> & _). reflexivity.
Defined.

(** Devices built by [create] have no [id], so a claimed VF of such a card cannot
    be released: the comparison of ids in [free] raises. *)
Lemma free_unsaved_vf_raises :
  (free 1 NoContainer (claim 1 "c1" (card_objs false)).2).1 = Raise (Py NotImplementedError).
Proof. by vm_compute. Qed.

(** A container object does not support [container\['uuid'\]]. *)
Lemma free_with_container_raises :
  (free 1 (ContainerObject "c1") (claim 1 "c1" (card_objs true)).2).1 = Raise (Py TypeError).
Proof. by vm_compute. Qed.
