(* ===== verification/PyStr.v ===== *)
(** * Python strings

    The operations on [str] that the modelled code uses: [strip], [split],
    [partition], [join], [int(s, base)] and the [%0wx] format, on ASCII strings;
    and the round trips between them. *)

From S2P Require Import Prelude.
From Stdlib Require Import Ascii.
Local Open Scope Z_scope.

Abbreviation chars := (list ascii).

Definition explode : string → chars := String.list_ascii_of_string.
Definition implode : chars → string := String.string_of_list_ascii.

Lemma implode_explode s : implode (explode s) = s.
Proof. apply String.string_of_list_ascii_of_string. Qed.
Lemma explode_implode l : explode (implode l) = l.
Proof. apply String.list_ascii_of_string_of_list_ascii. Qed.

Lemma implode_app a b : implode (a ++ b) = (implode a +:+ implode b).
Proof. induction a as [|c a IH]; [done|]. simpl. by rewrite IH. Qed.

Definition code_of (c : ascii) : Z := Z.of_nat (nat_of_ascii c).

(** [str.isspace] on ASCII characters. *)
Definition is_space (c : ascii) : bool :=
  let n := code_of c in ((9 <=? n) && (n <=? 13)) || ((28 <=? n) && (n <=? 32)).

Fixpoint lstrip_chars (l : chars) : chars :=
  match l with
  | c :: l' => if is_space c then lstrip_chars l' else l
  | [] => []
  end.

Definition strip_chars (l : chars) : chars := rev (lstrip_chars (rev (lstrip_chars l))).
Definition strip (s : string) : string := implode (strip_chars (explode s)).

(** [s.partition(sep)] for a one-character separator. *)
Fixpoint partition_chars (sep : ascii) (l : chars) : chars * bool * chars :=
  match l with
  | [] => ([], false, [])
  | c :: l' =>
      if decide (c = sep) then ([], true, l')
      else let '(a, found, b) := partition_chars sep l' in (c :: a, found, b)
  end.

Definition partition (sep : ascii) (s : string) : string * bool * string :=
  let '(a, found, b) := partition_chars sep (explode s) in (implode a, found, implode b).

(** [s.split(sep)] for a one-character separator: never empty. *)
Fixpoint split_chars (sep : ascii) (l : chars) : list chars :=
  match l with
  | [] => [[]]
  | c :: l' =>
      if decide (c = sep) then [] :: split_chars sep l'
      else match split_chars sep l' with
           | w :: ws => (c :: w) :: ws
           | [] => [[c]]
           end
  end.

Definition split (sep : ascii) (s : string) : list string :=
  implode <$> split_chars sep (explode s).

(** [sep.join(parts)] *)
Fixpoint join_chars (sep : ascii) (ls : list chars) : chars :=
  match ls with
  | [] => []
  | [w] => w
  | w :: ws => w ++ sep :: join_chars sep ws
  end.

Definition join (sep : ascii) (parts : list string) : string :=
  implode (join_chars sep (explode <$> parts)).

Lemma split_join_chars sep ls :
  ls ≠ [] → Forall (λ w, sep ∉ w) ls → split_chars sep (join_chars sep ls) = ls.
Proof.
  assert (∀ w l, sep ∉ w → split_chars sep (w ++ sep :: l) = w :: split_chars sep l) as Hw.
  { induction w as [|c w IH]; intros l Hw; simpl; [by rewrite decide_True|].
    rewrite decide_False by set_solver. rewrite IH by set_solver. done. }
  assert (∀ w, sep ∉ w → split_chars sep w = [w]) as Hw1.
  { induction w as [|c w IH]; intros Hin; simpl; [done|].
    rewrite decide_False by set_solver. by rewrite IH by set_solver. }
  intros Hne Hall. induction Hall as [|w [|w' ls] Hin _ IH]; [done|by apply Hw1|].
  simpl join_chars. rewrite Hw by done. f_equal. by apply IH.
Qed.

Lemma split_join sep ls :
  ls ≠ [] → Forall (λ w, sep ∉ explode w) ls → split sep (join sep ls) = ls.
Proof.
  intros Hne Hall. unfold split, join. rewrite explode_implode.
  rewrite split_join_chars.
  - clear. induction ls as [|w ls IH]; [done|]. rewrite !fmap_cons.
    by rewrite implode_explode, IH.
  - by destruct ls.
  - by apply Forall_fmap.
Qed.

Lemma partition_app sep a b :
  sep ∉ explode a →
  partition sep (implode (explode a ++ sep :: explode b)) = (a, true, b).
Proof.
  intros Ha. unfold partition. rewrite explode_implode.
  assert (∀ w l, sep ∉ w → partition_chars sep (w ++ sep :: l) = (w, true, l)) as Hp.
  { induction w as [|c w IH]; intros l Hw; simpl; [by rewrite decide_True|].
    rewrite decide_False by set_solver. by rewrite IH by set_solver. }
  rewrite Hp by done. by rewrite !implode_explode.
Qed.

(** ** Integers *)

Definition digit_val (c : ascii) : option Z :=
  let n := code_of c in
  if (48 <=? n) && (n <=? 57) then Some (n - 48)
  else if (97 <=? n) && (n <=? 102) then Some (n - 87)
  else if (65 <=? n) && (n <=? 70) then Some (n - 55)
  else None.

Definition digit_in (base : Z) (c : ascii) : option Z :=
  d ← digit_val c; if d <? base then Some d else None.

(** After a first digit: digits, each possibly preceded by one underscore. *)
Fixpoint more_digits (base acc : Z) (l : chars) : option Z :=
  match l with
  | [] => Some acc
  | c :: l' =>
      match digit_in base c with
      | Some d => more_digits base (acc * base + d) l'
      | None =>
          if decide (c = "_"%char) then
            match l' with
            | c' :: l'' => d ← digit_in base c'; more_digits base (acc * base + d) l''
            | [] => None
            end
          else None
      end
  end.

Definition digits (base : Z) (l : chars) : option Z :=
  match l with
  | c :: l' => d ← digit_in base c; more_digits base d l'
  | [] => None
  end.

Definition magnitude (base : Z) (l : chars) : option Z :=
  match l with
  | z :: x :: r =>
      if decide (base = 16 ∧ z = "0"%char ∧ (x = "x"%char ∨ x = "X"%char))
      then match r with
           | u :: r' => if decide (u = "_"%char) then digits base r' else digits base r
           | [] => None
           end
      else digits base l
  | _ => digits base l
  end.

(** [int(s, base)] for base 10 and 16; [None] is a [ValueError]. *)
Definition int_of (base : Z) (s : string) : option Z :=
  match strip_chars (explode s) with
  | c :: l =>
      if decide (c = "-"%char) then Z.opp <$> magnitude base l
      else if decide (c = "+"%char) then magnitude base l
      else magnitude base (c :: l)
  | [] => None
  end.

Definition hex_digit (d : Z) : ascii :=
  ascii_of_nat (Z.to_nat (if d <? 10 then 48 + d else 87 + d)).

(** Digits of [v], least significant first; [fuel] bounds their number. *)
Fixpoint hex_rev (fuel : nat) (v : Z) : chars :=
  match fuel with
  | O => []
  | S n => if v <? 16 then [hex_digit v] else hex_digit (v mod 16) :: hex_rev n (v / 16)
  end.

Definition hex_chars (v : Z) : chars := rev (hex_rev (S (Z.to_nat (Z.log2 v))) v).

Definition pad (w : nat) (l : chars) : chars := replicate (w - length l) "0"%char ++ l.

(** ['%0wx' % v] *)
Definition fmt_hex (w : nat) (v : Z) : string :=
  implode (if v <? 0 then "-"%char :: pad (w - 1) (hex_chars (- v)) else pad w (hex_chars v)).

(** *** [int] reads back what [%0wx] prints *)

Definition is_hex (c : ascii) : Prop := ∃ d, digit_in 16 c = Some d ∧ 0 <= d < 16.

Lemma hex_digit_val d : 0 <= d < 16 → digit_in 16 (hex_digit d) = Some d.
Proof.
  intros Hd. assert (d ∈ seqZ 0 16) as Hin by (apply elem_of_seqZ; lia).
  revert Hin. clear Hd. vm_compute seqZ.
  intros Hin. repeat (apply elem_of_cons in Hin as [->|Hin]; [by vm_compute|]).
  by apply elem_of_nil in Hin.
Qed.

Lemma more_digits_app acc l c d :
  digit_in 16 c = Some d → Forall is_hex l → 
  more_digits 16 acc (l ++ [c]) = (λ v, v * 16 + d) <$> more_digits 16 acc l.
Proof.
  intros Hc Hl. revert acc. induction Hl as [|c' l (d' & Hd & _) _ IH]; intros acc; simpl.
  - by rewrite Hc.
  - rewrite Hd. apply IH.
Qed.

(** Reading the digits of [v] most significant first, after [acc]. *)
Lemma hex_rev_read n v acc :
  0 <= v < 16 ^ Z.of_nat n →
  Forall is_hex (hex_rev n v) ∧ (n ≠ 0%nat → hex_rev n v ≠ []) ∧
  more_digits 16 acc (rev (hex_rev n v)) =
    Some (acc * 16 ^ Z.of_nat (length (hex_rev n v)) + v).
Proof.
  revert v. induction n as [|n IH]; intros v Hv.
  { simpl in Hv. assert (v = 0) as -> by lia. split_and!; [constructor|done|].
    simpl. f_equal. lia. }
  cbn [hex_rev]. destruct (v <? 16) eqn:Hlt.
  - apply Z.ltb_lt in Hlt. pose proof (hex_digit_val v ltac:(lia)) as Hd.
    split_and!; [constructor; [exists v; split; [done|lia]|constructor]|done|]. simpl. rewrite Hd. f_equal; lia.
  - apply Z.ltb_ge in Hlt.
    assert (0 <= v / 16 < 16 ^ Z.of_nat n) as Hdiv.
    { rewrite Nat2Z.inj_succ, Z.pow_succ_r in Hv by lia.
      split; [apply Z.div_pos; lia|apply Z.div_lt_upper_bound; lia]. }
    destruct (IH _ Hdiv) as (Hall & _ & Hread).
    pose proof (Z.mod_pos_bound v 16 ltac:(lia)) as Hmod.
    pose proof (hex_digit_val _ Hmod) as Hd.
    split_and!; [constructor; [by exists (v mod 16)|done]|done|]. simpl rev.
    rewrite (more_digits_app _ _ _ _ Hd), Hread by by apply Forall_rev.
    simpl length. rewrite Nat2Z.inj_succ, Z.pow_succ_r by lia. simpl. f_equal.
    pose proof (Z.div_mod v 16 ltac:(lia)). lia.
Qed.

Lemma hex_chars_bound v : 0 <= v → v < 16 ^ Z.of_nat (S (Z.to_nat (Z.log2 v))).
Proof.
  intros Hv. destruct (decide (v = 0)) as [->|Hne]; [done|].
  pose proof (Z.log2_spec v ltac:(lia)) as [_ H].
  rewrite Nat2Z.inj_succ, Z2Nat.id by apply Z.log2_nonneg.
  eapply Z.lt_le_trans; [exact H|]. apply Z.pow_le_mono_l.
  pose proof (Z.log2_nonneg v). lia.
Qed.

Lemma is_hex_not_space c : is_hex c → is_space c = false ∧ c ≠ "-"%char ∧ c ≠ "+"%char ∧
  c ≠ "x"%char ∧ c ≠ "X"%char ∧ c ≠ ":"%char ∧ c ≠ "."%char ∧ c ≠ "*"%char ∧ c ≠ "_"%char.
Proof.
  intros (d & Hd & _). destruct c as [[] [] [] [] [] [] [] []]; vm_compute in Hd; try done;
    (split_and!; [by vm_compute|done..]).
Qed.

Lemma lstrip_hex l : Forall is_hex l → lstrip_chars l = l.
Proof.
  destruct 1 as [|c l Hc _]; [done|]. simpl.
  by rewrite (proj1 (is_hex_not_space c Hc)).
Qed.

Lemma strip_hex l : Forall is_hex l → strip_chars l = l.
Proof.
  intros Hl. unfold strip_chars. rewrite (lstrip_hex l) by done.
  rewrite lstrip_hex by by apply Forall_rev. apply rev_involutive.
Qed.

Lemma digits_more l : Forall is_hex l → l ≠ [] → digits 16 l = more_digits 16 0 l.
Proof.
  destruct 1 as [|c l (d & Hd & _) _]; [done|]. intros _. simpl. by rewrite Hd.
Qed.

Lemma int_of_hex l : Forall is_hex l → l ≠ [] → int_of 16 (implode l) = more_digits 16 0 l.
Proof.
  intros Hl Hne. unfold int_of. rewrite explode_implode, strip_hex by done.
  destruct l as [|c l]; [done|]. pose proof Hl as [Hc Hl']%Forall_cons.
  destruct (is_hex_not_space c Hc) as (_ & H1 & H2 & _). rewrite !decide_False by done.
  rewrite <- digits_more by done. unfold magnitude. destruct l as [|c' l]; [done|].
  apply Forall_cons in Hl' as [Hc' _].
  destruct (is_hex_not_space c' Hc') as (_ & _ & _ & H3 & H4 & _).
  rewrite decide_False by naive_solver. done.
Qed.

Lemma zeros_hex k : Forall is_hex (replicate k "0"%char).
Proof. apply Forall_replicate. by exists 0. Qed.

Lemma more_digits_zeros k l : more_digits 16 0 (replicate k "0"%char ++ l) = more_digits 16 0 l.
Proof. induction k as [|k IH]; [done|]. exact IH. Qed.

Lemma pad_hex w v : 0 <= v → Forall is_hex (pad w (hex_chars v)) ∧ pad w (hex_chars v) ≠ [].
Proof.
  intros Hv. pose proof (hex_chars_bound v Hv) as Hb.
  destruct (hex_rev_read (S (Z.to_nat (Z.log2 v))) v 0) as (Hall & Hne & _); [lia|].
  unfold pad, hex_chars. split.
  - apply Forall_app. split; [apply zeros_hex|by apply Forall_rev].
  - intros [_ H]%app_eq_nil. apply (f_equal (@rev ascii)) in H. rewrite rev_involutive in H.
    by apply Hne.
Qed.

Lemma int_of_fmt_hex w v : 0 <= v → int_of 16 (fmt_hex w v) = Some v.
Proof.
  intros Hv. unfold fmt_hex. rewrite (proj2 (Z.ltb_ge v 0)) by done.
  destruct (pad_hex w v Hv) as [Hall Hne]. rewrite int_of_hex by done.
  unfold pad. rewrite more_digits_zeros. unfold hex_chars.
  pose proof (hex_chars_bound v Hv) as Hb.
  destruct (hex_rev_read (S (Z.to_nat (Z.log2 v))) v 0) as (_ & _ & ->); [lia|].
  f_equal; lia.
Qed.
