(* ===== verification/PciSpec.v ===== *)
(** * The PCI passthrough whitelist (src/zun/pci/devspec.py, whitelist.py, utils.py)

    Address specifications (one address, glob, regular expressions), device
    specifications and the whitelist that decides which devices of the host may
    be given to containers; and the property match used for requests.  The file
    system under [/sys] and the engine behind [re] are parameters. *)

From S2P Require Import Prelude Exceptions PyStr.
From Stdlib Require Import Ascii.
Local Open Scope Z_scope.

(** Values of configuration and device dictionaries. *)
Inductive pyval : Type :=
| VNone
| VStr (s : string)
| VInt (z : Z)
| VList (l : list string).

#[export] Instance pyval_eq_dec : EqDecision pyval.
Proof. solve_decision. Defined.

(** ** utils.py *)

Definition get_pci_address_fields (pci_addr : string)
    : outcome exn (string * string * string * string) :=
  let '(dbs, _, func) := partition "." pci_addr in
  match split ":" dbs with
  | [domain; bus; slot] => Ok (domain, bus, slot, func)
  | _ => Raise (Py ValueError)
  end.

Definition get_pci_address (domain bus slot func : string) : string :=
  domain +:+ ":" +:+ bus +:+ ":" +:+ slot +:+ "." +:+ func.

(** [_PCI_ADDRESS_REGEX.match]: four, two and two hexadecimal digits, and an
    octal one; the unescaped dot before the function matches any character but a
    newline, and [$] also matches before a final newline. *)
Definition is_hexdigit (c : ascii) : bool := bool_decide (is_Some (digit_in 16 c)).
Definition is_octdigit (c : ascii) : bool := bool_decide (is_Some (digit_in 8 c)).
Definition newline : ascii := "010"%char.

Definition parse_address (address : string) : outcome exn (list string) :=
  match explode address with
  | d1 :: d2 :: d3 :: d4 :: c1 :: b1 :: b2 :: c2 :: s1 :: s2 :: dot :: f :: rest =>
      if forallb is_hexdigit [d1; d2; d3; d4; b1; b2; s1; s2] && is_octdigit f &&
         bool_decide (c1 = ":"%char ∧ c2 = ":"%char ∧ dot ≠ newline ∧
                      (rest = [] ∨ rest = [newline]))
      then Ok (implode <$> [[d1; d2; d3; d4]; [b1; b2]; [s1; s2]; [f]])
      else Raise (Zun PciDeviceWrongAddressFormat)
  | _ => Raise (Zun PciDeviceWrongAddressFormat)
  end.

(** The dictionary lookup [pci_dev.get(k)] is a function; a spec is the list of
    its items. *)
Definition prop_ok (pci_dev : string → pyval) (kv : string * pyval) : bool :=
  match kv.2, pci_dev kv.1 with
  | VList v, VList dv => forallb (λ x, bool_decide (x ∈ dv)) v
  | v, dv => bool_decide (dv = v)
  end.

Definition pci_device_prop_match (pci_dev : string → pyval) (specs : list (dict string pyval))
    : bool :=
  existsb (λ spec, forallb (prop_ok pci_dev) spec) specs.

(** The part of the file system the code reads. *)
Record sysfs : Type := mkSysfs {
  isdir : string → bool;
  read_file : string → option string;   (** [None]: [IOError] *)
  readlink : string → string
}.

Definition dot_or_slash (c : ascii) : bool := bool_decide (c = "."%char ∨ c = "/"%char).

(** [s.strip("./")] *)
Fixpoint lstrip_in (p : ascii → bool) (l : chars) : chars :=
  match l with c :: l' => if p c then lstrip_in p l' else l | [] => [] end.
Definition strip_dots (s : string) : string :=
  implode (rev (lstrip_in dot_or_slash (rev (lstrip_in dot_or_slash (explode s))))).

Definition get_function_by_ifname (fs : sysfs) (ifname : string) : option string * bool :=
  let dev_path := "/sys/class/net/" +:+ ifname +:+ "/device" in
  if isdir fs dev_path then
    match read_file fs (dev_path +:+ "/sriov_totalvfs") ≫= int_of 10 with
    | Some sriov_totalvfs => (Some (strip_dots (readlink fs dev_path)), 0 <? sriov_totalvfs)
    | None => (Some (strip_dots (readlink fs dev_path)), false)
    end
  else (None, false).

Definition is_physical_function (fs : sysfs) (domain bus slot function : string) : bool :=
  let dev_path := "/sys/bus/pci/devices/" +:+ domain +:+ ":" +:+ bus +:+ ":" +:+ slot +:+
                  "." +:+ function +:+ "/" in
  isdir fs dev_path &&
  match read_file fs (dev_path +:+ "sriov_totalvfs") ≫= int_of 10 with
  | Some sriov_totalvfs => 0 <? sriov_totalvfs
  | None => false
  end.

(** ** devspec.py *)

Definition MAX_VENDOR_ID : Z := 0xFFFF.
Definition MAX_PRODUCT_ID : Z := 0xFFFF.
Definition MAX_FUNC : Z := 0x7.
Definition MAX_DOMAIN : Z := 0xFFFF.
Definition MAX_BUS : Z := 0xFF.
Definition MAX_SLOT : Z := 0x1F.
Definition ANY : string := "*".
Definition REGEX_ANY : string := ".*".

(** [get_pci_dev_info]: the normalised attribute. *)
Definition get_pci_dev_info (a : string) (max : Z) (w : nat) : outcome exn string :=
  if decide (a = ANY) then Ok a
  else match int_of 16 a with
       | None => Raise (Zun PciConfigInvalidWhitelist)
       | Some v => if max <? v then Raise (Zun PciConfigInvalidWhitelist)
                   else Ok (fmt_hex w v)
       end.

(** The four fields of an address; the class tells how they are compared. *)
Record fields : Type := mkFields { domain : string; bus : string; slot : string; func : string }.

#[export] Instance fields_eq_dec : EqDecision fields.
Proof. solve_decision. Defined.

Inductive PciAddressSpec : Type :=
| PhysicalPciAddress (f : fields)
| PciAddressGlobSpec (f : fields)
| PciAddressRegexSpec (f : fields).

Definition spec_fields (s : PciAddressSpec) : fields :=
  match s with
  | PhysicalPciAddress f | PciAddressGlobSpec f | PciAddressRegexSpec f => f
  end.

(** An address in the configuration: a string, or a dictionary of regular
    expressions (resp. of the fields of one address). *)
Inductive addr_value : Type :=
| AStr (s : string)
| ADict (d : gmap string string)
| AOther.

(** A sequence of validations, each of which may raise. *)
Definition andThen {A B} (m : outcome exn A) (k : A → outcome exn B) : outcome exn B :=
  match m with Ok a => k a | Raise e => Raise e end.
Local Notation "'try!' x := m 'in' k" := (andThen m (λ x, k))
  (at level 10, x name, m at level 100, k at level 200).

Definition normalise (f : fields) (fw : nat) : outcome exn fields :=
  try! fn := get_pci_dev_info (func f) MAX_FUNC fw in
  try! dm := get_pci_dev_info (domain f) MAX_DOMAIN 4 in
  try! bs := get_pci_dev_info (bus f) MAX_BUS 2 in
  try! sl := get_pci_dev_info (slot f) MAX_SLOT 2 in
  Ok (mkFields dm bs sl fn).

(** [except (KeyError, ValueError): raise PciDeviceWrongAddressFormat] *)
Definition wrong_format {A} (o : outcome exn A) : outcome exn A :=
  match o with
  | Raise (Py KeyError) | Raise (Py ValueError) => Raise (Zun PciDeviceWrongAddressFormat)
  | _ => o
  end.

Definition dict_fields (d : gmap string string) : option fields :=
  dm ← d !! "domain"; bs ← d !! "bus"; sl ← d !! "slot"; fn ← d !! "function";
  Some (mkFields dm bs sl fn).

Definition physical (pci_addr : addr_value) : outcome exn PciAddressSpec :=
  wrong_format
    (try! f := match pci_addr with
               | ADict d => match dict_fields d with
                            | Some f => Ok f
                            | None => Raise (Py KeyError)
                            end
               | AStr s =>
                   try! q := get_pci_address_fields s in
                   let '(d, b, sl, fn) := q in Ok (mkFields d b sl fn)
               | AOther => Raise (Py AttributeError)
               end in
     try! f := normalise f 1 in
     Ok (PhysicalPciAddress f)).

Definition or_any (s : string) : string := if str_true (strip s) then strip s else ANY.

Definition glob (pci_addr : string) : outcome exn PciAddressSpec :=
  let '(dbs, _, func) := partition "." pci_addr in
  try! fn := (if str_true func then get_pci_dev_info (strip func) MAX_FUNC 1 else Ok ANY) in
  if str_true dbs then
    let dbs_fields := split ":" dbs in
    if (3 <? length dbs_fields)%nat then Raise (Zun PciDeviceWrongAddressFormat)
    else match or_any <$> replicate (3 - length dbs_fields) ANY ++ dbs_fields with
         | [dm; bs; sl] =>
             try! dm := get_pci_dev_info dm MAX_DOMAIN 4 in
             try! bs := get_pci_dev_info bs MAX_BUS 2 in
             try! sl := get_pci_dev_info sl MAX_SLOT 2 in
             Ok (PciAddressGlobSpec (mkFields dm bs sl fn))
         | _ => Raise (Py ValueError)
         end
  else Ok (PciAddressGlobSpec (mkFields ANY ANY ANY fn)).

Section Spec.
Context (fs : sysfs).
(** [re_compiles r]: [re.compile(r)] does not raise; [re_match r s]: the
    truth value of [re.compile(r).match(s)]. *)
Context (re_compiles : string → bool) (re_match : string → string → bool).

Definition regex (d : gmap string string) : outcome exn PciAddressSpec :=
  let f := mkFields (default REGEX_ANY (d !! "domain")) (default REGEX_ANY (d !! "bus"))
             (default REGEX_ANY (d !! "slot")) (default REGEX_ANY (d !! "function")) in
  if re_compiles (domain f) && re_compiles (bus f) && re_compiles (slot f) &&
     re_compiles (func f)
  then Ok (PciAddressRegexSpec f) else Raise (Zun PciDeviceWrongAddressFormat).

Definition field_in (a b : string) : bool := bool_decide (a ∈ [ANY; b]).

Definition spec_match (s : PciAddressSpec) (phys : fields) : bool :=
  let cmp := match s with
             | PhysicalPciAddress _ => λ a b, bool_decide (a = b)
             | PciAddressGlobSpec _ => field_in
             | PciAddressRegexSpec _ => re_match
             end in
  let f := spec_fields s in
  cmp (domain f) (domain phys) && cmp (bus f) (bus phys) && cmp (slot f) (slot phys) &&
  cmp (func f) (func phys).

Definition all_hexdigits (s : string) : bool := forallb is_hexdigit (explode s).

Definition is_single_address (s : PciAddressSpec) : bool :=
  let f := spec_fields s in
  all_hexdigits (domain f) && all_hexdigits (bus f) && all_hexdigits (slot f) &&
  all_hexdigits (func f).

Record WhitelistPciAddress : Type := mkAddress {
  pci_address_spec : PciAddressSpec;
  is_pf : bool
}.

(** [WhitelistPciAddress(pci_addr, is_physical_function)] *)
Definition whitelist_address (pci_addr : addr_value) (pf : bool)
    : outcome exn WhitelistPciAddress :=
  if pf then
    try! s := physical pci_addr in Ok (mkAddress s true)
  else
    try! s := match pci_addr with
              | AStr a => glob a
              | ADict d => regex d
              | AOther => Raise (Zun PciDeviceWrongAddressFormat)
              end in
    let f := spec_fields s in
    Ok (mkAddress s (if is_single_address s
                     then is_physical_function fs (domain f) (bus f) (slot f) (func f)
                     else false)).

Definition address_match (w : WhitelistPciAddress) (pci_addr : string)
    (pci_phys_addr : option string) : outcome exn bool :=
  try! on_parent :=
    (if is_pf w && ostr_true pci_phys_addr then
       try! p := physical (AStr (default "" pci_phys_addr)) in
       Ok (spec_match (pci_address_spec w) (spec_fields p))
     else Ok false) in
  if on_parent then Ok true
  else try! p := physical (AStr pci_addr) in
       Ok (spec_match (pci_address_spec w) (spec_fields p)).

(** An entry of the configuration, and the specification built from it. *)
Record entry : Type := mkEntry {
  e_vendor_id : option string;
  e_product_id : option string;
  e_address : option addr_value;
  e_devname : option string;
  e_tags : gmap string pyval   (** every other key *)
}.

Record PciDeviceSpec : Type := mkSpec {
  vendor_id : string;
  product_id : string;
  address : option WhitelistPciAddress;
  dev_name : option string;
  tags : gmap string pyval
}.

(** Truthiness of the configured address. *)
Definition addr_true (a : option addr_value) : bool :=
  match a with
  | Some (AStr s) => str_true s
  | Some (ADict d) => bool_decide (d ≠ ∅)
  | Some AOther => true
  | None => false
  end.

Definition device_spec (e : entry) : outcome exn PciDeviceSpec :=
  try! v := get_pci_dev_info (strip (default ANY (e_vendor_id e))) MAX_VENDOR_ID 4 in
  try! p := get_pci_dev_info (default ANY (e_product_id e)) MAX_PRODUCT_ID 4 in
  if addr_true (e_address e) && ostr_true (e_devname e)
  then Raise (Zun PciDeviceInvalidDeviceName)
  else if ostr_true (e_devname e) then Ok (mkSpec v p None (e_devname e) (e_tags e))
  else
    let pci_address := if addr_true (e_address e) then default AOther (e_address e)
                       else AStr "*:*:*.*" in
    try! a := whitelist_address pci_address false in
    Ok (mkSpec v p (Some a) (e_devname e) (e_tags e)).

(** A device as the matcher sees it. *)
Record dev_view : Type := mkView {
  v_vendor_id : string; v_product_id : string; v_address : string;
  v_parent_addr : option string
}.

Definition match_ (s : PciDeviceSpec) (d : dev_view) : outcome exn bool :=
  try! address_obj :=
    (if ostr_true (dev_name s) then
       let '(address_str, pf) := get_function_by_ifname fs (default "" (dev_name s)) in
       if ostr_true address_str
       then try! w := whitelist_address (AStr (default "" address_str)) pf in Ok (Some w)
       else Ok None
     else match address s with
          | Some w => Ok (Some w)
          | None => Raise (Py AttributeError)
          end) in
  match address_obj with
  | None => Ok false
  | Some w =>
      try! m := address_match w (v_address d) (v_parent_addr d) in
      Ok (field_in (vendor_id s) (v_vendor_id d) && field_in (product_id s) (v_product_id d)
          && m)
  end.

(** ** whitelist.py *)

(** The parsed JSON of one configuration line. *)
Inductive json_line : Type :=
| JInvalid                     (** not JSON *)
| JDict (e : entry)
| JList (l : list (option entry))   (** [None]: an element that is not a dictionary *)
| JOther.

Fixpoint parse_entries (l : list (option entry)) : outcome exn (list PciDeviceSpec) :=
  match l with
  | [] => Ok []
  | None :: _ => Raise (Zun PciConfigInvalidWhitelist)
  | Some e :: l' =>
      try! s := device_spec e in
      try! ss := parse_entries l' in
      Ok (s :: ss)
  end.

Fixpoint _parse_white_list_from_config (whitelists : list json_line)
    : outcome exn (list PciDeviceSpec) :=
  match whitelists with
  | [] => Ok []
  | w :: ws =>
      try! ss := match w with
                 | JInvalid | JOther => Raise (Zun PciConfigInvalidWhitelist)
                 | JDict e => parse_entries [Some e]
                 | JList l => parse_entries l
                 end in
      try! rest := _parse_white_list_from_config ws in
      Ok (ss ++ rest)
  end.

Fixpoint device_assignable (specs : list PciDeviceSpec) (d : dev_view) : outcome exn bool :=
  match specs with
  | [] => Ok false
  | s :: specs' =>
      try! m := match_ s d in
      if m then Ok true else device_assignable specs' d
  end.

Fixpoint get_devspec (specs : list PciDeviceSpec) (d : dev_view)
    : outcome exn (option PciDeviceSpec) :=
  match specs with
  | [] => Ok None
  | s :: specs' =>
      try! m := match_ s d in
      if m then Ok (Some s) else get_devspec specs' d
  end.
End Spec.

(** ** Canonical addresses *)

(** A numeric address within the bounds of the bus. *)
Record location : Type := mkLoc { l_domain : Z; l_bus : Z; l_slot : Z; l_func : Z }.

#[export] Instance location_eq_dec : EqDecision location.
Proof. solve_decision. Defined.

Definition in_range (q : location) : Prop :=
  0 <= l_domain q <= MAX_DOMAIN ∧ 0 <= l_bus q <= MAX_BUS ∧ 0 <= l_slot q <= MAX_SLOT ∧
  0 <= l_func q <= MAX_FUNC.

Definition loc_fields (q : location) : fields :=
  mkFields (fmt_hex 4 (l_domain q)) (fmt_hex 2 (l_bus q)) (fmt_hex 2 (l_slot q))
    (fmt_hex 1 (l_func q)).

Definition canonical (q : location) : string :=
  let f := loc_fields q in get_pci_address (domain f) (bus f) (slot f) (func f).

Lemma fmt_hex_chars w v : 0 <= v → Forall is_hex (explode (fmt_hex w v)) ∧ fmt_hex w v ≠ "".
Proof.
  intros Hv. destruct (pad_hex w v Hv) as [H1 H2]. unfold fmt_hex.
  rewrite (proj2 (Z.ltb_ge v 0)) by done. split; [by rewrite explode_implode|].
  intros He. apply (f_equal explode) in He. by rewrite explode_implode in He.
Qed.

Lemma fmt_hex_inj w v v' : 0 <= v → 0 <= v' → fmt_hex w v = fmt_hex w v' → v = v'.
Proof.
  intros Hv Hv' He. apply (f_equal (int_of 16)) in He.
  rewrite !int_of_fmt_hex in He by done. congruence.
Qed.

Lemma hex_no c s : c ∈ [":"; "."; "*"]%char → Forall is_hex (explode s) → c ∉ explode s.
Proof.
  intros Hc Hs Hin. rewrite Forall_forall in Hs.
  destruct (is_hex_not_space c (Hs c Hin)) as (_ & _ & _ & _ & _ & H1 & H2 & H3 & _).
  set_solver.
Qed.

Lemma hex_not_any s : Forall is_hex (explode s) → s ≠ ANY.
Proof. intros Hs ->. by apply (hex_no "*" "*"); [set_solver|done|left]. Qed.

Lemma strip_hex_string s : Forall is_hex (explode s) → strip s = s.
Proof. intros Hs. unfold strip. rewrite strip_hex by done. apply implode_explode. Qed.

Lemma or_any_hex s : Forall is_hex (explode s) → s ≠ "" → or_any s = s.
Proof.
  intros Hs Hne. unfold or_any. rewrite strip_hex_string by done.
  unfold str_true. by rewrite bool_decide_eq_true_2.
Qed.

Lemma get_pci_dev_info_canonical v max w w' :
  0 <= v <= max → get_pci_dev_info (fmt_hex w' v) max w = Ok (fmt_hex w v).
Proof.
  intros Hv. destruct (fmt_hex_chars w' v ltac:(lia)) as [Hx _]. unfold get_pci_dev_info.
  rewrite decide_False by by apply hex_not_any. rewrite int_of_fmt_hex by lia.
  by rewrite (proj2 (Z.ltb_ge max v)) by lia.
Qed.

Lemma implode_cons c a : implode (c :: a) = (String c "" +:+ implode a).
Proof. done. Qed.
Lemma string_app_nil s : (s +:+ "") = s.
Proof. induction s as [|c s IH]; [done|]. change (String c (s +:+ "") = String c s). by rewrite IH. Qed.
Lemma string_app_assoc (a b c : string) : ((a +:+ b) +:+ c) = (a +:+ (b +:+ c)).
Proof.
  induction a as [|x a IH]; [done|].
  change (String x ((a +:+ b) +:+ c) = String x (a +:+ (b +:+ c))). by rewrite IH.
Qed.

(** The text of an address, as a join. *)
Lemma get_pci_address_text d b s f :
  get_pci_address d b s f =
  implode (explode (join ":" [d; b; s]) ++ "."%char :: explode f).
Proof.
  unfold get_pci_address, join. rewrite explode_implode, implode_app, implode_cons.
  rewrite !fmap_cons, fmap_nil. simpl join_chars.
  rewrite !implode_app, !implode_cons, !implode_app, !implode_cons, !implode_explode.
  by rewrite !string_app_assoc.
Qed.

Lemma no_sep_join (c sep : ascii) ls :
  c ≠ sep → Forall (λ w, c ∉ w) ls → c ∉ join_chars sep ls.
Proof.
  intros Hne. induction 1 as [|w [|w' ls] Hw _ IH]; [set_solver|done|].
  simpl join_chars in *. set_solver.
Qed.

Lemma address_parts d b s f :
  Forall (λ w, ":"%char ∉ explode w ∧ "."%char ∉ explode w) [d; b; s] →
  partition "." (get_pci_address d b s f) = (join ":" [d; b; s], true, f) ∧
  split ":" (join ":" [d; b; s]) = [d; b; s].
Proof.
  intros H. rewrite get_pci_address_text. split.
  - apply partition_app. unfold join. rewrite explode_implode.
    apply no_sep_join; [done|]. apply Forall_fmap. eapply Forall_impl; [exact H|].
    by intros w [_ ?].
  - apply split_join; [done|]. eapply Forall_impl; [exact H|]. by intros w [? _].
Qed.

Section Canonical.
Context (q : location) (Hq : in_range q).

Lemma loc_hex :
  Forall is_hex (explode (domain (loc_fields q))) ∧
  Forall is_hex (explode (bus (loc_fields q))) ∧
  Forall is_hex (explode (slot (loc_fields q))) ∧
  Forall is_hex (explode (func (loc_fields q))).
Proof. unfold in_range in Hq. split_and!; apply fmt_hex_chars; lia. Qed.

Lemma loc_nonempty :
  domain (loc_fields q) ≠ "" ∧ bus (loc_fields q) ≠ "" ∧
  slot (loc_fields q) ≠ "" ∧ func (loc_fields q) ≠ "".
Proof. unfold in_range in Hq. split_and!; apply fmt_hex_chars; lia. Qed.

Lemma canonical_parts :
  let f := loc_fields q in
  partition "." (canonical q) = (join ":" [domain f; bus f; slot f], true, func f) ∧
  split ":" (join ":" [domain f; bus f; slot f]) = [domain f; bus f; slot f].
Proof.
  destruct loc_hex as (H1 & H2 & H3 & _). apply address_parts.
  rewrite !Forall_cons, Forall_nil. split_and!; try done; apply hex_no; done || set_solver.
Qed.

Lemma normalise_loc w : w = 1%nat → normalise (loc_fields q) w = Ok (loc_fields q).
Proof.
  intros ->. unfold in_range in Hq. unfold normalise. simpl.
  by rewrite !get_pci_dev_info_canonical by lia.
Qed.

Lemma physical_canonical : physical (AStr (canonical q)) = Ok (PhysicalPciAddress (loc_fields q)).
Proof.
  destruct canonical_parts as [Hp Hs]. unfold physical, get_pci_address_fields.
  rewrite Hp, Hs. simpl. unfold andThen at 1.
  change (mkFields _ _ _ _) with (loc_fields q). by rewrite normalise_loc.
Qed.

Lemma glob_canonical : glob (canonical q) = Ok (PciAddressGlobSpec (loc_fields q)).
Proof.
  destruct canonical_parts as [Hp Hs]. destruct loc_hex as (H1 & H2 & H3 & H4).
  destruct loc_nonempty as (N1 & N2 & N3 & N4).
  unfold glob. rewrite Hp. unfold str_true at 1.
  rewrite bool_decide_eq_true_2 by done. rewrite strip_hex_string by done.
  unfold in_range in Hq. unfold loc_fields at 1. simpl func.
  rewrite get_pci_dev_info_canonical by lia. unfold andThen at 1.
  unfold str_true. rewrite bool_decide_eq_true_2.
  2: { intros He. rewrite He in Hs. done. }
  rewrite Hs. cbn [length Nat.ltb Nat.leb Nat.sub replicate app].
  rewrite !fmap_cons, fmap_nil, !or_any_hex by done.
  unfold loc_fields at 1 2 3. simpl domain. simpl bus. simpl slot.
  by rewrite !get_pci_dev_info_canonical by lia.
Qed.
End Canonical.

Lemma loc_fields_inj q q' : in_range q → in_range q' → loc_fields q = loc_fields q' → q = q'.
Proof.
  unfold in_range, loc_fields. destruct q, q'. simpl. intros H H' [= H1 H2 H3 H4].
  apply fmt_hex_inj in H1, H2, H3, H4; [|lia..]. congruence.
Qed.

Lemma glob_match_canonical rm q q' :
  in_range q → in_range q' →
  spec_match rm (PciAddressGlobSpec (loc_fields q)) (loc_fields q') = true ↔ q = q'.
Proof.
  intros Hq Hq'. destruct (loc_hex q Hq) as (H1 & H2 & H3 & H4).
  assert (∀ a b, Forall is_hex (explode a) → field_in a b = true ↔ a = b) as Hf.
  { intros a b Ha. apply hex_not_any in Ha. unfold field_in. rewrite bool_decide_eq_true.
    set_solver. }
  unfold spec_match. cbn [spec_fields]. rewrite !andb_true_iff, !Hf by done. split.
  - intros (((E1 & E2) & E3) & E4). apply loc_fields_inj; [done..|].
    destruct (loc_fields q), (loc_fields q'). simpl in *. congruence.
  - by intros ->.
Qed.

(** ** Properties of the whitelist *)

(** A device that is not a VF, at a canonical address. *)
Definition plain_view (v p : string) (q : location) : dev_view := mkView v p (canonical q) None.

Lemma whitelist_address_canonical fs rc q :
  in_range q →
  ∃ pf, whitelist_address fs rc (AStr (canonical q)) false =
          Ok (mkAddress (PciAddressGlobSpec (loc_fields q)) pf) ∧
    pf = is_physical_function fs (domain (loc_fields q)) (bus (loc_fields q))
           (slot (loc_fields q)) (func (loc_fields q)).
Proof.
  intros Hq. eexists. unfold whitelist_address. rewrite glob_canonical by done. simpl.
  split; [|done]. destruct (loc_hex q Hq) as (H1 & H2 & H3 & H4).
  assert (∀ s, Forall is_hex (explode s) → all_hexdigits s = true) as Ha.
  { intros s Hs. unfold all_hexdigits. apply forallb_elem. intros c Hc.
    rewrite Forall_forall in Hs. destruct (Hs c Hc) as (d & Hd & _).
    unfold is_hexdigit. apply bool_decide_eq_true. by exists d. }
  unfold is_single_address. simpl.
  by rewrite !Ha by done.
Qed.

Lemma field_in_any s : field_in ANY s = true.
Proof. by apply bool_decide_eq_true; left. Qed.

(** The entry for one address, everything else left open. *)
Definition address_entry (q : location) : entry :=
  mkEntry None None (Some (AStr (canonical q))) None ∅.

Lemma canonical_nonempty q : in_range q → canonical q ≠ "".
Proof.
  intros Hq He. destruct (canonical_parts q Hq) as [Hp _]. rewrite He in Hp. discriminate.
Qed.

Lemma device_spec_address fs rc q :
  in_range q →
  ∃ pf, device_spec fs rc (address_entry q) =
          Ok (mkSpec ANY ANY (Some (mkAddress (PciAddressGlobSpec (loc_fields q)) pf)) None ∅) ∧
    pf = is_physical_function fs (domain (loc_fields q)) (bus (loc_fields q))
           (slot (loc_fields q)) (func (loc_fields q)).
Proof.
  intros Hq. destruct (whitelist_address_canonical fs rc q Hq) as (pf & Hw & Hpf).
  exists pf. split; [|done]. unfold device_spec, address_entry.
  cbn [e_vendor_id e_product_id e_address e_devname e_tags default].
  change (get_pci_dev_info (strip ANY) MAX_VENDOR_ID 4) with (@Ok exn string ANY).
  change (get_pci_dev_info ANY MAX_PRODUCT_ID 4) with (@Ok exn string ANY).
  unfold andThen at 1 2. unfold addr_true, ostr_true, str_true.
  rewrite bool_decide_eq_true_2 by by apply canonical_nonempty.
  simpl andb. cbv iota. unfold default, id. by rewrite Hw.
Qed.

Lemma match_address fs rc rm q q' pf v p parent :
  in_range q → in_range q' → parent = None ∨ (∃ q'', in_range q'' ∧ parent = Some (canonical q'')) →
  match_ fs rc rm (mkSpec ANY ANY (Some (mkAddress (PciAddressGlobSpec (loc_fields q)) pf))
    None ∅) (mkView v p (canonical q') parent) =
  Ok (bool_decide (q = q' ∨ pf = true ∧ parent = Some (canonical q))).
Proof.
  intros Hq Hq' Hpar.
  assert (∀ q', in_range q' → spec_match rm (PciAddressGlobSpec (loc_fields q)) (loc_fields q')
    = bool_decide (q = q')) as Hm.
  { intros r Hr. apply eq_true_iff_eq. by rewrite glob_match_canonical, bool_decide_eq_true. }
  unfold match_, address_match. cbn [dev_name ostr_true address pci_address_spec is_pf
    v_address v_parent_addr v_vendor_id v_product_id vendor_id product_id].
  unfold andThen at 1. rewrite physical_canonical by done. rewrite !field_in_any.
  cbn [andThen spec_fields pci_address_spec is_pf]. rewrite (Hm q') by done.
  destruct Hpar as [->|(q'' & Hq'' & ->)].
  { simpl ostr_true. rewrite andb_false_r. simpl. f_equal. apply bool_decide_ext. naive_solver. }
  simpl ostr_true. unfold str_true at 1.
  rewrite bool_decide_eq_true_2, andb_true_r by by apply canonical_nonempty.
  destruct pf; simpl; [|f_equal; apply bool_decide_ext; naive_solver].
  rewrite physical_canonical by done. cbn [andThen spec_fields]. rewrite (Hm q'') by done.
  assert (canonical q'' = canonical q → q = q'') as Hinj.
  { intros He. pose proof (physical_canonical q Hq) as H1. rewrite <- He in H1.
    rewrite physical_canonical in H1 by done. apply loc_fields_inj; congruence. }
  case_bool_decide as Hqq; simpl.
  - subst q''. by rewrite bool_decide_eq_true_2 by auto.
  - f_equal. apply bool_decide_ext. naive_solver.
Qed.

(** A whitelist line that names one device by its full address is accepted,
    and assigns exactly the device at that address, plus, when the device is a
    physical function according to the file system, all its virtual functions
    (the devices whose parent address it is), whatever the regular-expression
    engine and the rest of the file system are. *)
Theorem whitelist_one_address fs rc rm q q' v p parent :
  in_range q → in_range q' → parent = None ∨ (∃ q'', in_range q'' ∧ parent = Some (canonical q'')) →
  let f := loc_fields q in
  ∃ specs, _parse_white_list_from_config fs rc [JDict (address_entry q)] = Ok specs ∧
    device_assignable fs rc rm specs (mkView v p (canonical q') parent) =
      Ok (bool_decide (q = q' ∨
            is_physical_function fs (domain f) (bus f) (slot f) (func f) = true ∧
            parent = Some (canonical q))).
Proof.
  intros Hq Hq' Hpar. cbv zeta. destruct (device_spec_address fs rc q Hq) as (pf & Hs & <-).
  eexists. unfold _parse_white_list_from_config, parse_entries. rewrite Hs.
  split; [reflexivity|]. simpl app. unfold device_assignable.
  rewrite match_address by done. simpl. by case_bool_decide.
Qed.

(** Both faces of the whitelist agree: a device is assignable exactly when
    [get_devspec] finds a specification for it, which is then the first one that
    matches, and they fail alike. *)
Theorem device_assignable_get_devspec fs rc rm specs d :
  match device_assignable fs rc rm specs d, get_devspec fs rc rm specs d with
  | Ok true, Ok (Some s) => ∃ l1 l2, specs = l1 ++ s :: l2 ∧ match_ fs rc rm s d = Ok true ∧
      Forall (λ s', match_ fs rc rm s' d = Ok false) l1
  | Ok false, Ok None => Forall (λ s', match_ fs rc rm s' d = Ok false) specs
  | Raise e, Raise e' => e' = e ∧ ∃ s, s ∈ specs ∧ match_ fs rc rm s d = Raise e
  | _, _ => False
  end.
Proof.
  induction specs as [|s specs IH]; [constructor|]. simpl.
  destruct (match_ fs rc rm s d) as [[]|e] eqn:Hm; simpl.
  - exists [], specs. by split_and!.
  - destruct (device_assignable fs rc rm specs d) as [[]|e], (get_devspec fs rc rm specs d)
      as [[s'|]|e']; try done.
    + destruct IH as (l1 & l2 & -> & Hs & Hall). exists (s :: l1), l2. by split_and!; [..|constructor].
    + by constructor.
    + destruct IH as (-> & s' & Hs' & He). split; [done|]. exists s'. split; [by right|done].
  - split; [done|]. exists s. split; [left|done].
Qed.

(** The fields of an address are recovered from the text [get_pci_address]
    prints, and the text of a canonical address passes [parse_address], with the
    four fields as groups. *)
Theorem pci_address_roundtrip q :
  in_range q →
  let f := loc_fields q in
  get_pci_address_fields (canonical q) = Ok (domain f, bus f, slot f, func f) ∧
  physical (AStr (canonical q)) = Ok (PhysicalPciAddress f) ∧
  int_of 16 (domain f) = Some (l_domain q) ∧ int_of 16 (bus f) = Some (l_bus q) ∧
  int_of 16 (slot f) = Some (l_slot q) ∧ int_of 16 (func f) = Some (l_func q).
Proof.
  intros Hq f. destruct (canonical_parts q Hq) as [Hp Hs]. unfold get_pci_address_fields.
  rewrite Hp, Hs. unfold in_range in Hq. split_and!; [done|by apply physical_canonical|..];
    apply int_of_fmt_hex; lia.
Qed.

(** [pci_device_prop_match] accepts a device iff for one of the alternatives
    every required property holds of it: a required list is included in the
    device's list, any other value is equal to the device's. *)
Theorem pci_device_prop_match_spec dev specs :
  pci_device_prop_match dev specs = true ↔
  ∃ spec, spec ∈ specs ∧ ∀ k v, (k, v) ∈ spec →
    match v, dev k with
    | VList l, VList dl => l ⊆ dl
    | _, dv => dv = v
    end.
Proof.
  unfold pci_device_prop_match. rewrite existsb_exists. apply exist_proper. intros spec.
  rewrite list_elem_of_In, forallb_elem. apply and_iff_compat_l. split.
  - intros H k v Hkv. specialize (H (k, v) Hkv). unfold prop_ok in H. simpl in H.
    destruct v, (dev k); try done; try by apply bool_decide_eq_true in H.
    rewrite forallb_elem in H. intros x Hx. by apply H, bool_decide_eq_true in Hx.
  - intros H [k v] Hkv. specialize (H k v Hkv). unfold prop_ok. simpl.
    destruct v, (dev k); try done; try by apply bool_decide_eq_true.
    apply forallb_elem. intros x Hx. by apply bool_decide_eq_true, H.
Qed.

(** ** Examples *)

Definition no_sysfs : sysfs := mkSysfs (λ _, false) (λ _, None) id.

Definition loc1 : location := mkLoc 0 0x81 0x10 2.

Lemma whitelist_one_address_witness :
  in_range loc1 ∧ canonical loc1 = "0000:81:10.2" ∧
  ∃ specs, _parse_white_list_from_config no_sysfs (λ _, true)
      [JDict (address_entry loc1)] = Ok specs ∧
    device_assignable no_sysfs (λ _, true) (λ _ _, true) specs
      (mkView "8086" "1520" "0000:81:10.2" None) = Ok true.
Proof.
  assert (in_range loc1) as Hq by (vm_compute; repeat split; discriminate).
  split; [exact Hq|]. split; [reflexivity|].
  destruct (whitelist_one_address no_sysfs (λ _, true) (λ _ _, true) loc1 loc1 "8086" "1520"
    None Hq Hq (or_introl eq_refl)) as (specs & Hs & Hd).
  exists specs. split; [exact Hs|]. etrans; [exact Hd|]. by vm_compute.
Defined.

Lemma pci_address_roundtrip_witness :
  get_pci_address_fields "0000:81:10.2" = Ok ("0000", "81", "10", "2").
Proof.
  exact (proj1 (pci_address_roundtrip loc1 ltac:(vm_compute; repeat split; discriminate))).
Defined.

(** The dot before the function is not escaped in the pattern. *)
Lemma parse_address_accepts_any_separator :
  parse_address "0000:81:10x2" = Ok ["0000"; "81"; "10"; "2"].
Proof. by vm_compute. Qed.
