(* ===== verification/PciStats.v ===== *)
(** * Pools of PCI devices (src/zun/pci/stats.py)

    Available devices are grouped into pools by product, vendor, NUMA node, type
    and the tags of the whitelist.  A pool is a dictionary object: the list
    [self.pools] and the lists filtered from it share the same objects, so pools
    live in a heap too.  The pools of the compute service hold their devices; the
    scheduler's, rebuilt from stored statistics, only a count. *)

From S2P Require Import Prelude Exceptions PyStr PciSpec PciDevice.

(** ** What the pools expect of the whitelist

    [dev_tags d] is [None] when no specification matches [d], otherwise the tags
    of the first one that does.  The answer depends on what identifies the
    device, not on its state. *)
Class DevFilter : Type := {
  dev_tags : device → outcome exn (option (gmap string pyval));
  dev_tags_identity d d' :
    vendor_id d = vendor_id d' → product_id d = product_id d' →
    address d = address d' → parent_addr d = parent_addr d' → dev_tags d = dev_tags d'
}.

Definition view (d : device) : dev_view :=
  mkView (vendor_id d) (product_id d) (address d) (parent_addr d).

(** The whitelist keeps that promise ([match_pci_obj] builds the view). *)
#[export] Instance whitelist_filter fs rc rm specs : DevFilter := {|
  dev_tags d := match get_devspec fs rc rm specs (view d) with
                | Ok (Some s) => Ok (Some (PciSpec.tags s))
                | Ok None => Ok None
                | Raise e => Raise e
                end;
  dev_tags_identity d d' Hv Hp Ha Hq := ltac:(unfold view; by rewrite Hv, Hp, Ha, Hq)
|}.

(** A pool: its properties, [count], and [devices] when it has that key. *)
Record pool : Type := mkPool {
  keys : gmap string pyval;
  count : Z;
  devices : option (list nat)
}.

#[export] Instance pool_eq_dec : EqDecision pool.
Proof. solve_decision. Defined.
#[export] Instance pool_inhabited : Inhabited pool := populate (mkPool ∅ 0 None).

Record stats : Type := mkStats {
  so : objs;                    (** the devices *)
  heap : gmap nat pool;
  pools : list nat;
  next_pool : nat               (** a reference not used yet *)
}.

(** ContainerPCIRequest *)
Record request : Type := mkRequest {
  r_count : Z;
  r_spec : list (dict string pyval);
  r_request_id : option string
}.

Definition the_dev (s : stats) (r : nat) : device := devs (so s) !!! r.

Definition on_objs (m : objs → objs) (s : stats) : stats :=
  mkStats (m (so s)) (heap s) (pools s) (next_pool s).
Definition set_pools (l : list nat) (s : stats) : stats :=
  mkStats (so s) (heap s) l (next_pool s).
Definition upd_pool (r : nat) (f : pool → pool) (s : stats) : stats :=
  mkStats (so s) (<[ r := f (heap s !!! r) ]> (heap s)) (pools s) (next_pool s).

Definition read_pool (r : nat) : py stats pool := gets (λ s, heap s !!! r).

(** [len(item)]: the keys, [count], and [devices] when present. *)
Definition pool_len (p : pool) : nat :=
  size (keys p) + 1 + match devices p with Some _ => 1 | None => 0 end.

Definition shorter (s : stats) : relation nat :=
  λ q q', (pool_len (heap s !!! q) ≤ pool_len (heap s !!! q'))%nat.

#[export] Instance shorter_dec s : RelDecision (shorter s).
Proof. intros q q'. unfold shorter. apply _. Defined.

Definition sort_pools (s : stats) : stats := set_pools (stable_sort (shorter s) (pools s)) s.

(** Equality of pool dictionaries; devices compare by identity or [__eq__]. *)
Definition same_dev (s : stats) (r r' : nat) : bool :=
  bool_decide (r = r') || __eq__ (the_dev s r) (the_dev s r').

Fixpoint same_devs (s : stats) (l l' : list nat) : bool :=
  match l, l' with
  | [], [] => true
  | r :: l, r' :: l' => same_dev s r r' && same_devs s l l'
  | _, _ => false
  end.

Definition pool_eq (s : stats) (p q : pool) : bool :=
  bool_decide (keys p = keys q) && bool_decide (count p = count q) &&
  match devices p, devices q with
  | Some l, Some l' => same_devs s l l'
  | None, None => true
  | _, _ => false
  end.

Definition PciDeviceType_str (t : PciDeviceType) : string :=
  match t with STANDARD => "PCI" | SRIOV_PF => "PF" | SRIOV_VF => "VF" end.

Section Stats.
Context `{DevFilter}.

Definition pool_keys : list string := ["product_id"; "vendor_id"; "numa_node"; "dev_type"].

(** The pool dictionary of a device: its own properties, overridden by tags. *)
Definition keys_with (d : device) (numa : option Z) (tags : gmap string pyval)
    : gmap string pyval :=
  tags ∪ {[ "product_id" := VStr (product_id d); "vendor_id" := VStr (vendor_id d);
            "numa_node" := match numa with Some z => VInt z | None => VNone end;
            "dev_type" := VStr (PciDeviceType_str (dev_type d)) ]}.

Definition keys_of (d : device) : outcome exn (option (gmap string pyval)) :=
  match dev_tags d with
  | Raise e => Raise e
  | Ok None => Ok None
  | Ok (Some tags) =>
      match numa_node d with
      | None => Raise (Py NotImplementedError)
      | Some numa => Ok (Some (keys_with d numa tags))
      end
  end.

Definition _create_pool_keys_from_dev (r : nat) : py stats (option (gmap string pyval)) :=
  λ s, (keys_of (the_dev s r), s).

Definition dict_get (m : gmap string pyval) (k : string) : pyval := default VNone (m !! k).

Definition _equal_properties (dev entry : gmap string pyval) (matching_keys : list string)
    : bool :=
  forallb (λ prop, bool_decide (dict_get dev prop = dict_get entry prop)) matching_keys.

Definition pool_matches (dev_pool : gmap string pyval) (p : pool) : bool :=
  (size (keys p) =? size dev_pool)%nat &&
  _equal_properties dev_pool (keys p) (map_to_list dev_pool).*1.

Fixpoint find_pool (dev_pool : gmap string pyval) (l : list nat) : py stats (option nat) :=
  match l with
  | [] => ret None
  | r :: l' =>
      let! p := read_pool r in
      raise_if (bool_decide (devices p = None)) (Py KeyError);;;
      if pool_matches dev_pool p then ret (Some r) else find_pool dev_pool l'
  end.

Definition _find_pool (dev_pool : gmap string pyval) : py stats (option nat) :=
  let! l := gets pools in find_pool dev_pool l.

Definition push (r : nat) (p : pool) : pool :=
  mkPool (keys p) (count p + 1) (option_map (λ l, l ++ [r]) (devices p)).

(** [self.pools.append(dev_pool)] of a new, empty pool. *)
Definition new_pool (dev_pool : gmap string pyval) : py stats nat :=
  let! r := gets next_pool in
  modify (λ s, sort_pools (mkStats (so s) (<[ r := mkPool dev_pool 0 (Some []) ]> (heap s))
                             (pools s ++ [r]) (Datatypes.S r)));;;
  ret r.

Definition add_device (r : nat) : py stats unit :=
  let! dev_pool := _create_pool_keys_from_dev r in
  match dev_pool with
  | None => ret tt
  | Some dev_pool =>
      let! found := _find_pool dev_pool in
      let! pool := match found with
                   | Some q => ret q
                   | None => new_pool dev_pool
                   end in
      modify (upd_pool pool (push r))
  end.

(** [pool_list.remove(pool)] *)
Definition remove_pool (q : nat) : py stats unit :=
  let! s := get in
  match remove_first (λ q', bool_decide (q' = q) || pool_eq s (heap s !!! q') (heap s !!! q))
          (pools s) with
  | Some l => modify (set_pools l)
  | None => raise (Py ValueError)
  end.

Definition _decrease_pool_count (q : nat) (n : Z) : py stats Z :=
  let! p := read_pool q in
  if (n <? count p)%Z then
    modify (upd_pool q (λ p, mkPool (keys p) (count p - n) (devices p)));;;
    ret 0%Z
  else
    remove_pool q;;;
    ret (n - count p)%Z.

Definition remove_device (r : nat) : py stats unit :=
  let! dev_pool := _create_pool_keys_from_dev r in
  match dev_pool with
  | None => ret tt
  | Some dev_pool =>
      let! found := _find_pool dev_pool in
      match found with
      | None => raise (Zun PciDevicePoolEmpty)
      | Some q =>
          let! p := read_pool q in
          let! s := get in
          let! l := of_option (remove_first (λ r', same_dev s r' r) (default [] (devices p)))
                      (Py ValueError) in
          modify (upd_pool q (λ p, mkPool (keys p) (count p) (Some l)));;;
          _decrease_pool_count q 1;;; ret tt
      end
  end.

Fixpoint collect_devs (l : list nat) : py stats (list nat) :=
  match l with
  | [] => ret []
  | q :: l' =>
      let! p := read_pool q in
      let! ds := of_option (devices p) (Py KeyError) in
      let! rest := collect_devs l' in
      ret (ds ++ rest)
  end.

Definition get_free_devs : py stats (list nat) :=
  let! l := gets pools in collect_devs l.

(** [pool.get(k)]; no requested value equals a device object, so the [devices]
    list compares like an empty one. *)
Definition pool_get (p : pool) (k : string) : pyval :=
  if decide (k = "count") then VInt (count p)
  else if decide (k = "devices") then match devices p with Some _ => VList [] | None => VNone end
  else dict_get (keys p) k.

Definition _filter_pools_for_spec (s : stats) (l : list nat) (specs : list (dict string pyval))
    : list nat :=
  List.filter (λ q, pci_device_prop_match (pool_get (heap s !!! q)) specs) l.

(** [numa_cells]: the ids of the cells of the topology; [None]: no topology. *)
Definition _filter_pools_for_numa_cells (s : stats) (l : list nat) (numa_cells : list Z)
    : list nat :=
  List.filter (λ q, existsb (λ cell, pci_device_prop_match (pool_get (heap s !!! q))
                                       [[("numa_node", cell)]])
                      (VNone :: (VInt <$> numa_cells))) l.

Definition _filter_pools_for_pfs (s : stats) (l : list nat) : list nat :=
  List.filter (λ q, negb (bool_decide (pool_get (heap s !!! q) "dev_type" = VStr "PF"))) l.

Definition _filter_non_requested_pfs (s : stats) (rq : request) (l : list nat) : list nat :=
  if forallb (λ spec, bool_decide (default VNone (dget spec "dev_type") ≠ VStr "PF")) (r_spec rq)
  then _filter_pools_for_pfs s l else l.

(** The pools a request may draw from. *)
Definition matching_pools (s : stats) (rq : request) (numa_cells : option (list Z)) : list nat :=
  let l := _filter_pools_for_spec s (pools s) (r_spec rq) in
  let l := match numa_cells with
           | Some (c :: cs) => _filter_pools_for_numa_cells s l (c :: cs)
           | _ => l
           end in
  _filter_non_requested_pfs s rq l.

Definition total (s : stats) (l : list nat) : Z :=
  foldr (λ q acc, (count (heap s !!! q) + acc)%Z) 0%Z l.

Definition _handle_device_dependents (r : nat) : py stats unit :=
  let! d := gets (λ s, the_dev s r) in
  match dev_type d with
  | SRIOV_PF => for_each remove_device (child_devices d)
  | SRIOV_VF =>
      let! free := get_free_devs in
      let! s := get in
      match parent_device d with
      | Some p =>
          if existsb (λ r', same_dev s r' p) free
          then try_except (remove_device p)
                 (λ e, if isinstance e PciDeviceNotFound then Some (ret tt) else None)
          else ret tt
      | None => ret tt
      end
  | STANDARD => ret tt
  end.

(** [pool\['devices'\].pop()] *)
Definition pop_device (q : nat) : py stats nat :=
  let! p := read_pool q in
  let! ds := of_option (devices p) (Py KeyError) in
  match last ds with
  | None => raise (Py IndexError)
  | Some r =>
      modify (upd_pool q (λ p, mkPool (keys p) (count p) (Some (removelast ds))));;;
      ret r
  end.

Fixpoint take_devices (n : nat) (q : nat) (rid : option string) : py stats (list nat) :=
  match n with
  | O => ret []
  | S n' =>
      let! r := pop_device q in
      _handle_device_dependents r;;;
      modify (on_objs (on_devs (upd r (set_request_id rid))));;;
      let! rest := take_devices n' q rid in
      ret (r :: rest)
  end.

(** Drawing [n] devices from the pools, in order. *)
Fixpoint draw (l : list nat) (n : Z) (rid : option string) : py stats (list nat) :=
  match l with
  | [] => ret []
  | q :: l' =>
      let! p := read_pool q in
      let num_alloc := if (n <=? count p)%Z then n else count p in
      modify (upd_pool q (λ p, mkPool (keys p) (count p - num_alloc) (devices p)));;;
      let! ds := take_devices (Z.to_nat num_alloc) q rid in
      if bool_decide (n - num_alloc = 0)%Z then ret ds
      else let! rest := draw l' (n - num_alloc) rid in ret (ds ++ rest)
  end.

Fixpoint consume_loop (rqs : list request) (numa_cells : option (list Z)) (alloc : list nat)
    : py stats (option (list nat)) :=
  match rqs with
  | [] => ret (Some alloc)
  | rq :: rqs' =>
      let! s := get in
      let l := matching_pools s rq numa_cells in
      if (total s l <? r_count rq)%Z then
        for_each add_device (rev alloc);;;
        ret None
      else
        let! ds := draw l (r_count rq) (r_request_id rq) in
        consume_loop rqs' numa_cells (alloc ++ ds)
  end.

Definition consume_requests (rqs : list request) (numa_cells : option (list Z))
    : py stats (option (list nat)) := consume_loop rqs numa_cells [].

(** The scheduler's side: counts only. *)
Fixpoint decrease_loop (l : list nat) (n : Z) : py stats unit :=
  match l with
  | [] => ret tt
  | q :: l' =>
      let! n' := _decrease_pool_count q n in
      if bool_decide (n' = 0)%Z then ret tt else decrease_loop l' n'
  end.

Definition _apply_request (rq : request) (numa_cells : option (list Z)) : py stats bool :=
  let! s := get in
  let l := matching_pools s rq numa_cells in
  if (total s l <? r_count rq)%Z then ret false
  else decrease_loop l (r_count rq);;; ret true.

Definition apply_all (rqs : list request) (numa_cells : option (list Z)) : py stats bool :=
  let! oks := map_m (λ rq, _apply_request rq numa_cells) rqs in
  ret (forallb Datatypes.id oks).

(** On a deep copy of the pools: the state is put back. *)
Definition support_requests (rqs : list request) (numa_cells : option (list Z))
    : py stats bool :=
  λ s, ((apply_all rqs numa_cells s).1, s).

(** The class it raises, [exception.PciDeviceRequestFailed], does not exist. *)
Definition apply_requests (rqs : list request) (numa_cells : option (list Z)) : py stats unit :=
  let! ok := apply_all rqs numa_cells in
  raise_if (negb ok) (Py AttributeError).

Definition clear : py stats unit := modify (set_pools []).

(** [__iter__]: the pools without their devices. *)
Definition summaries (s : stats) : list (gmap string pyval * Z) :=
  (λ q, (keys (heap s !!! q), count (heap s !!! q))) <$> pools s.

(** The constructor, from stored statistics. *)
Definition of_summaries (o : objs) (l : list (gmap string pyval * Z)) : stats :=
  sort_pools
    (mkStats o (list_to_map (imap (λ i kc, (i, mkPool kc.1 kc.2 None)) l))
       (seq 0 (length l)) (length l)).
End Stats.

(** ** The abstract view: the free devices *)

Definition devs_of (s : stats) (q : nat) : list nat := default [] (devices (heap s !!! q)).
Definition free_devs (s : stats) : list nat := flat_map (devs_of s) (pools s).

(** Keys as [_create_pool_keys_from_dev] builds them: only [numa_node] can be
    [None], and it is always there. *)
Definition full (m : gmap string pyval) : Prop :=
  is_Some (m !! "numa_node") ∧ ∀ k, m !! k = Some VNone → k = "numa_node".

Section Invariant.
Context `{DevFilter}.

(** No tag of the whitelist has the value [null]. *)
Definition no_null_tags : Prop :=
  ∀ d tags k, dev_tags d = Ok (Some tags) → tags !! k ≠ Some VNone.

(** The invariant of the pools of a compute node. *)
Record wf (s : stats) : Prop := {
  wf_NoDup : NoDup (pools s);
  wf_next : ∀ q, q ∈ pools s → (q < next_pool s)%nat;
  wf_count : ∀ q, q ∈ pools s → ∃ l, devices (heap s !!! q) = Some l ∧
               count (heap s !!! q) = Z.of_nat (length l);
  wf_full : ∀ q, q ∈ pools s → full (keys (heap s !!! q));
  wf_keys : ∀ q q', q ∈ pools s → q' ∈ pools s →
              keys (heap s !!! q) = keys (heap s !!! q') → q = q';
  wf_home : ∀ q r, q ∈ pools s → r ∈ devs_of s q →
              keys_of (the_dev s r) = Ok (Some (keys (heap s !!! q)));
  wf_free : NoDup (free_devs s);
  wf_same : ∀ r r', r ∈ free_devs s → r' ∈ free_devs s →
              uuid (the_dev s r) = uuid (the_dev s r') → r = r'
}.

Lemma same_dev_uuid s r r' : same_dev s r r' = true → uuid (the_dev s r) = uuid (the_dev s r').
Proof.
  unfold same_dev, __eq__. intros [He|He]%orb_true_iff; apply bool_decide_eq_true in He;
    [by subst|tauto].
Qed.

Lemma free_elem s r : r ∈ free_devs s ↔ ∃ q, q ∈ pools s ∧ r ∈ devs_of s q.
Proof. apply elem_of_flat_map. Qed.

(** The order of the pools does not matter. *)
Lemma wf_perm s l : wf s → l ≡ₚ pools s → wf (set_pools l s).
Proof.
  intros [H1 H2 H3 H4 H5 H6 H7 H8] Hp.
  assert (free_devs (set_pools l s) ≡ₚ free_devs s) as Hf by by apply flat_map_perm.
  assert (∀ q, q ∈ l → q ∈ pools s) as Hin by (intros q; by rewrite Hp).
  split.
  - simpl. by rewrite Hp.
  - intros q Hq. by apply H2, Hin.
  - intros q Hq. by apply H3, Hin.
  - intros q Hq. by apply H4, Hin.
  - intros q q' Hq Hq'. apply H5; by apply Hin.
  - intros q r Hq. by apply H6, Hin.
  - by rewrite Hf.
  - intros r r' Hr Hr'. apply H8; by rewrite <- Hf.
Qed.

Lemma full_same (dev entry : gmap string pyval) k :
  full dev → full entry → dev !! k = Some VNone → dict_get entry k = VNone → 
  entry !! k = Some VNone.
Proof.
  intros [_ Hd] [[v He] _] Hk Hg. rewrite (Hd k Hk) in Hg |- *. unfold dict_get in Hg.
  rewrite He in Hg. simpl in Hg. by subst.
Qed.

(** On such keys, the search for a pool is a search by equality. *)
Lemma pool_matches_full dp p :
  full dp → full (keys p) → pool_matches dp p = true ↔ keys p = dp.
Proof.
  intros Hdp Hp. unfold pool_matches, _equal_properties.
  rewrite andb_true_iff, Nat.eqb_eq, forallb_elem. split.
  - intros [Hsize Hall]. symmetry. apply map_subseteq_size_eq; [|lia].
    apply map_subseteq_spec. intros k v Hk.
    assert (k ∈ (map_to_list dp).*1) as Hin.
    { apply list_elem_of_fmap. exists (k, v). split; [done|]. by apply elem_of_map_to_list. }
    specialize (Hall k Hin). apply bool_decide_eq_true in Hall.
    unfold dict_get at 1 in Hall. rewrite Hk in Hall. simpl in Hall.
    destruct (decide (v = VNone)) as [->|Hv]; [apply (full_same dp); done|].
    unfold dict_get in Hall. destruct (keys p !! k); simpl in Hall; congruence.
  - intros ->. split; [done|]. intros k _. by apply bool_decide_eq_true.
Qed.

Lemma keys_of_full d m : no_null_tags → keys_of d = Ok (Some m) → full m.
Proof.
  intros Hnull. unfold keys_of. destruct (dev_tags d) as [[tags|]|e] eqn:Ht; try done.
  destruct (numa_node d) as [numa|]; [|done]. intros [= <-]. unfold keys_with. split.
  - destruct (tags !! "numa_node") as [v|] eqn:Hn.
    + exists v. by apply lookup_union_Some_l.
    + eexists. rewrite lookup_union_r by done.
      rewrite !lookup_insert_ne by done. by rewrite lookup_insert_eq.
  - intros k Hk. apply lookup_union_Some_raw in Hk as [Hk|[_ Hk]];
      [by destruct (Hnull d tags k Ht)|].
    rewrite lookup_insert_Some in Hk. destruct Hk as [[_ Hk]|[_ Hk]]; [done|].
    rewrite lookup_insert_Some in Hk. destruct Hk as [[_ Hk]|[_ Hk]]; [done|].
    rewrite lookup_insert_Some in Hk. destruct Hk as [[<- _]|[_ Hk]]; [done|].
    rewrite lookup_singleton_Some in Hk. naive_solver.
Qed.

(** A device keeps its place when only its state changes. *)
Lemma keys_of_identity d d' :
  vendor_id d = vendor_id d' → product_id d = product_id d' → address d = address d' →
  parent_addr d = parent_addr d' → numa_node d = numa_node d' → dev_type d = dev_type d' →
  keys_of d = keys_of d'.
Proof.
  intros Hv Hp Ha Hq Hn Ht. unfold keys_of, keys_with.
  by rewrite (dev_tags_identity d d' Hv Hp Ha Hq), Hn, Hv, Hp, Ht.
Qed.

Lemma find_pool_spec dp l s :
  full dp → (∀ q, q ∈ l → devices (heap s !!! q) ≠ None ∧ full (keys (heap s !!! q))) →
  ∃ o, find_pool dp l s = (Ok o, s) ∧
    match o with
    | Some q => q ∈ l ∧ keys (heap s !!! q) = dp
    | None => ∀ q, q ∈ l → keys (heap s !!! q) ≠ dp
    end.
Proof.
  intros Hdp. induction l as [|q l IH]; intros Hl; [by exists None; split; [|set_solver]|].
  simpl. unfold read_pool. steps. destruct (Hl q) as [Hd Hf]; [left|].
  unfold raise_if. rewrite bool_decide_eq_false_2 by done. steps.
  destruct (pool_matches dp (heap s !!! q)) eqn:Hm.
  - exists (Some q). split; [done|]. split; [left|]. by apply pool_matches_full.
  - destruct IH as (o & Ho & Hspec); [intros q' Hq'; apply Hl; by right|].
    exists o. split; [done|].
    destruct o as [q'|]; [destruct Hspec; split; [by right|done]|]. intros q' [->|Hq']%elem_of_cons; [|by apply Hspec].
    intros Heq. rewrite (proj2 (pool_matches_full dp _ Hdp Hf) Heq) in Hm. done.
Qed.

Lemma _find_pool_spec dp s :
  wf s → full dp →
  ∃ o, _find_pool dp s = (Ok o, s) ∧
    match o with
    | Some q => q ∈ pools s ∧ keys (heap s !!! q) = dp
    | None => ∀ q, q ∈ pools s → keys (heap s !!! q) ≠ dp
    end.
Proof.
  intros Hwf Hdp. apply find_pool_spec; [done|]. intros q Hq. split; [|by apply Hwf].
  destruct (wf_count _ Hwf q Hq) as (l & -> & _). done.
Qed.

(** Changing one pool changes only its own part of the free devices. *)
Lemma free_split s q :
  NoDup (pools s) → q ∈ pools s →
  ∃ rest, free_devs s ≡ₚ devs_of s q ++ rest ∧
    ∀ f, free_devs (upd_pool q f s) ≡ₚ default [] (devices (f (heap s !!! q))) ++ rest.
Proof.
  intros Hnd Hq. apply list_elem_of_split in Hq as (l1 & l2 & Hl).
  exists (flat_map (devs_of s) (l1 ++ l2)). unfold free_devs. rewrite Hl in Hnd |- *.
  apply NoDup_app in Hnd as (_ & Hd & [Hq2 _]%NoDup_cons).
  assert (q ∉ l1) as Hq1 by (intros Hq; apply (Hd q Hq); left).
  split.
  - rewrite !flat_map_app. simpl. rewrite !app_assoc. apply Permutation_app_tail.
    apply Permutation_app_comm.
  - intros f. simpl. rewrite Hl. rewrite !flat_map_app. simpl.
    assert (∀ x, x ≠ q → devs_of (upd_pool q f s) x = devs_of s x) as Hne.
    { intros x Hx. unfold devs_of. simpl. by rewrite lookup_total_insert_ne. }
    rewrite !(flat_map_ext_elem (devs_of (upd_pool q f s)) (devs_of s)) by
      (intros x Hx; apply Hne; congruence).
    unfold devs_of at 2. simpl. rewrite lookup_total_insert_eq.
    rewrite !app_assoc. apply Permutation_app_tail, Permutation_app_comm.
Qed.

Definition distinct_devs (s : stats) (l : list nat) : Prop :=
  NoDup l ∧ ∀ r r', r ∈ l → r' ∈ l → uuid (the_dev s r) = uuid (the_dev s r') → r = r'.

#[local] Instance distinct_perm s : Proper (Permutation ==> iff) (distinct_devs s).
Proof.
  intros l l' Hl. unfold distinct_devs. rewrite Hl. f_equiv.
  apply forall_proper. intros r. apply forall_proper. intros r'. by rewrite Hl.
Qed.

Lemma wf_distinct s : wf s → distinct_devs s (free_devs s).
Proof. intros Hwf. split; apply Hwf. Qed.

Lemma upd_pool_lookup q f s x :
  heap (upd_pool q f s) !!! x = if decide (x = q) then f (heap s !!! q) else heap s !!! x.
Proof.
  simpl. case_decide as Hx; [subst; apply lookup_total_insert_eq|].
  by apply lookup_total_insert_ne.
Qed.

Lemma wf_upd_pool s q f l :
  wf s → q ∈ pools s →
  keys (f (heap s !!! q)) = keys (heap s !!! q) → devices (f (heap s !!! q)) = Some l →
  count (f (heap s !!! q)) = Z.of_nat (length l) →
  (∀ r, r ∈ l → keys_of (the_dev s r) = Ok (Some (keys (heap s !!! q)))) →
  distinct_devs s (free_devs (upd_pool q f s)) →
  wf (upd_pool q f s).
Proof.
  intros [H1 H2 H3 H4 H5 H6 _ _] Hq Hk Hd Hc Hh [Hd1 Hd2].
  assert (∀ x, keys (heap (upd_pool q f s) !!! x) = keys (heap s !!! x)) as Hkeys.
  { intros x. rewrite upd_pool_lookup. case_decide; [by subst|done]. }
  split; [exact H1|exact H2|..|exact Hd1|exact Hd2].
  - intros x Hx. rewrite upd_pool_lookup. case_decide; [by exists l|by apply H3].
  - intros x Hx. rewrite Hkeys. by apply H4.
  - intros x y Hx Hy. rewrite !Hkeys. by apply H5.
  - intros x r Hx. rewrite Hkeys. unfold devs_of. rewrite upd_pool_lookup.
    case_decide as Hxq; [subst x|by apply H6]. rewrite Hd. apply Hh.
Qed.

Lemma new_pool_spec dp s :
  wf s → full dp → (∀ q, q ∈ pools s → keys (heap s !!! q) ≠ dp) →
  ∃ q s1, new_pool dp s = (Ok q, s1) ∧ wf s1 ∧ q ∈ pools s1 ∧ keys (heap s1 !!! q) = dp ∧
    so s1 = so s ∧ free_devs s1 ≡ₚ free_devs s.
Proof.
  intros Hwf Hdp Hnew. unfold new_pool. steps. set (q := next_pool s).
  set (s0 := mkStats (so s) (<[q := mkPool dp 0 (Some [])]> (heap s)) (pools s ++ [q]) (S q)).
  assert (q ∉ pools s) as Hq.
  { intros Hq. pose proof (wf_next _ Hwf q Hq). subst q. lia. }
  assert (∀ x, x ∈ pools s → heap s0 !!! x = heap s !!! x) as Hold.
  { intros x Hx. apply lookup_total_insert_ne. congruence. }
  assert (heap s0 !!! q = mkPool dp 0 (Some [])) as Hq0 by apply lookup_total_insert_eq.
  assert (free_devs s0 = free_devs s) as Hfree.
  { unfold free_devs. simpl. rewrite flat_map_app. simpl.
    unfold devs_of at 2. rewrite Hq0, !app_nil_r. apply flat_map_ext_elem.
    intros x Hx. unfold devs_of. by rewrite Hold. }
  assert (wf s0) as Hwf0.
  { destruct Hwf as [H1 H2 H3 H4 H5 H6 H7 H8].
    assert (∀ x, x ∈ pools s0 → x ∈ pools s ∨ x = q) as Hcase by (intros x; set_solver).
    split.
    - simpl. apply NoDup_app. split_and!; [done|set_solver|apply NoDup_singleton].
    - intros x [Hx| ->]%Hcase; simpl; [apply H2 in Hx; subst q; lia|lia].
    - intros x [Hx| ->]%Hcase; [rewrite Hold by done; by apply H3|].
      rewrite Hq0. by exists [].
    - intros x [Hx| ->]%Hcase; [rewrite Hold by done; by apply H4|by rewrite Hq0].
    - intros x y [Hx| ->]%Hcase [Hy| ->]%Hcase; rewrite ?Hq0;
        try rewrite (Hold x) by done; try rewrite (Hold y) by done; simpl; intros He.
      + by apply H5.
      + by apply Hnew in Hx.
      + symmetry in He. by apply Hnew in Hy.
      + done.
    - intros x r [Hx| ->]%Hcase; unfold devs_of.
      + rewrite Hold by done. by apply H6.
      + rewrite Hq0. by intros ?%elem_of_nil.
    - by rewrite Hfree.
    - rewrite Hfree. exact H8. }
  exists q, (sort_pools s0). split; [done|].
  assert (pools (sort_pools s0) ≡ₚ pools s0) as Hp by apply stable_sort_perm.
  split_and!; [by apply wf_perm| |exact (f_equal keys Hq0)|done|].
  - rewrite Hp. simpl. set_solver.
  - rewrite <- Hfree. by apply flat_map_perm.
Qed.

(** Adding a free device: it joins the pool of its properties, which is created
    when missing.  A device no specification matches is left out. *)
Lemma add_device_spec r s :
  no_null_tags → wf s → distinct_devs s (r :: free_devs s) →
  match keys_of (the_dev s r) with
  | Raise e => add_device r s = (Raise e, s)
  | Ok None => add_device r s = (Ok tt, s)
  | Ok (Some m) => ∃ s', add_device r s = (Ok tt, s') ∧ wf s' ∧ so s' = so s ∧
      free_devs s' ≡ₚ r :: free_devs s
  end.
Proof.
  intros Hnull Hwf Hr. unfold add_device, _create_pool_keys_from_dev.
  destruct (keys_of (the_dev s r)) as [[m|]|e] eqn:Hk;
    [|by unfold bind; rewrite Hk|by unfold bind; rewrite Hk].
  unfold bind at 1. rewrite Hk. pose proof (keys_of_full _ _ Hnull Hk) as Hfull.
  destruct (_find_pool_spec m s Hwf Hfull) as (o & Hfind & Ho). step Hfind.
  assert (∃ q s1, match o with Some q => ret q | None => new_pool m end s = (Ok q, s1) ∧
    wf s1 ∧ q ∈ pools s1 ∧ keys (heap s1 !!! q) = m ∧ so s1 = so s ∧
    free_devs s1 ≡ₚ free_devs s) as (q & s1 & Hrun & Hwf1 & Hq & Hkq & Hso & Hfree).
  { destruct o as [q|]; [|by apply new_pool_spec]. destruct Ho. by exists q, s. }
  step Hrun. exists (upd_pool q (push r) s1). split; [done|].
  destruct (free_split s1 q (wf_NoDup _ Hwf1) Hq) as (rest & Hf1 & Hf2).
  destruct (wf_count _ Hwf1 q Hq) as (l & Hl & Hc).
  assert (free_devs (upd_pool q (push r) s1) ≡ₚ r :: free_devs s) as Hf.
  { rewrite <- Hfree, Hf1, Hf2. unfold push, devs_of. simpl. rewrite Hl. simpl.
    rewrite <- app_assoc. simpl. symmetry. apply Permutation_middle. }
  assert (∀ x, the_dev s1 x = the_dev s x) as Hdev by (intros x; unfold the_dev; by rewrite Hso).
  split_and!; [|done|done].
  eapply wf_upd_pool; [done|done|done|by unfold push; simpl; rewrite Hl| | |].
  - unfold push. simpl. rewrite Hc, length_app. simpl. lia.
  - intros x [Hx|Hx%list_elem_of_singleton]%elem_of_app.
    + apply (wf_home _ Hwf1 q x Hq). unfold devs_of. by rewrite Hl.
    + subst x. by rewrite Hdev, Hkq.
  - rewrite Hf. unfold distinct_devs. setoid_rewrite Hdev. exact Hr.
Qed.

(** Dropping a pool, whatever it has become. *)
Lemma wf_drop s q l f :
  wf s → pools s ≡ₚ q :: l →
  wf (set_pools l (upd_pool q f s)) ∧
  free_devs s ≡ₚ devs_of s q ++ free_devs (set_pools l (upd_pool q f s)).
Proof.
  intros Hwf Hp. assert (q ∉ l ∧ NoDup l) as [Hq Hnd].
  { pose proof (wf_NoDup _ Hwf) as Hnd. by rewrite Hp, NoDup_cons in Hnd. }
  set (s' := set_pools l (upd_pool q f s)).
  assert (∀ x, x ∈ l → heap s' !!! x = heap s !!! x) as Hold.
  { intros x Hx. apply lookup_total_insert_ne. congruence. }
  assert (∀ x, x ∈ l → x ∈ pools s) as Hin by (intros x Hx; rewrite Hp; by right).
  assert (free_devs s ≡ₚ devs_of s q ++ free_devs s') as Hf.
  { unfold free_devs. rewrite (flat_map_perm _ _ _ Hp). simpl. apply Permutation_app_head.
    rewrite (flat_map_ext_elem (devs_of s') (devs_of s)); [done|].
    intros x Hx. unfold devs_of. by rewrite Hold. }
  split; [|done]. pose proof (wf_distinct s Hwf) as Hd.
  destruct Hwf as [H1 H2 H3 H4 H5 H6 _ _].
  assert (distinct_devs s (free_devs s')) as [D1 D2].
  { rewrite Hf in Hd. destruct Hd as [D1 D2]. apply NoDup_app in D1 as (_ & _ & D1).
    split; [done|]. intros r r' Hr Hr'. apply D2; apply elem_of_app; by right. }
  split; [done|..|exact D1|exact D2].
  - intros x Hx. by apply H2, Hin.
  - intros x Hx. rewrite Hold by done. by apply H3, Hin.
  - intros x Hx. rewrite Hold by done. by apply H4, Hin.
  - intros x y Hx Hy. rewrite !Hold by done. apply H5; by apply Hin.
  - intros x r Hx. unfold devs_of. rewrite Hold by done. by apply H6, Hin.
Qed.

(** [pool_list.remove(pool)]: no other pool compares equal. *)
Lemma remove_pool_spec s q :
  NoDup (pools s) → q ∈ pools s →
  (∀ x, x ∈ pools s → keys (heap s !!! x) = keys (heap s !!! q) → x = q) →
  ∃ l, remove_pool q s = (Ok tt, set_pools l s) ∧ pools s ≡ₚ q :: l.
Proof.
  intros Hnd Hq Hkeys. unfold remove_pool. steps.
  set (eqb := λ q', bool_decide (q' = q) || pool_eq s (heap s !!! q') (heap s !!! q)).
  assert (∀ x, x ∈ pools s → eqb x = true → x = q) as Heqb.
  { intros x Hx He. unfold eqb in He. apply orb_true_iff in He as [He|He];
      [by apply bool_decide_eq_true in He|]. apply Hkeys; [done|].
    unfold pool_eq in He. rewrite !andb_true_iff, !bool_decide_eq_true in He. tauto. }
  destruct (remove_first eqb (pools s)) as [l|] eqn:Hrem.
  - exists l. split; [done|]. apply remove_first_Some in Hrem as (l1 & y & l2 & Hp & -> & Hy & _).
    assert (y = q) as -> by (apply Heqb; [rewrite Hp; set_solver|done]).
    rewrite Hp. symmetry. apply Permutation_middle.
  - apply remove_first_None in Hrem. rewrite Forall_forall in Hrem.
    specialize (Hrem q Hq). unfold eqb in Hrem. by rewrite bool_decide_eq_true_2 in Hrem.
Qed.

(** Removing a free device takes it out of its pool, and the pool out of the
    list when it was the last one. *)
Lemma remove_device_spec r s :
  no_null_tags → wf s → r ∈ free_devs s →
  ∃ s', remove_device r s = (Ok tt, s') ∧ wf s' ∧ so s' = so s ∧
    free_devs s ≡ₚ r :: free_devs s'.
Proof.
  intros Hnull Hwf Hr. apply free_elem in Hr as Hr'. destruct Hr' as (q & Hq & Hrq).
  pose proof (wf_home _ Hwf q r Hq Hrq) as Hk.
  pose proof (keys_of_full _ _ Hnull Hk) as Hfull.
  unfold remove_device, _create_pool_keys_from_dev. unfold bind at 1. rewrite Hk.
  destruct (_find_pool_spec _ s Hwf Hfull) as (o & Hfind & Ho). step Hfind. clear Hfind.
  destruct o as [q'|]; [|by destruct (Ho q Hq)]. destruct Ho as [Hq' Hkq].
  apply (wf_keys _ Hwf) in Hkq as ->; [|done..]. unfold read_pool. steps.
  destruct (wf_count _ Hwf q Hq) as (l & Hl & Hc). rewrite Hl. simpl default.
  unfold devs_of in Hrq. rewrite Hl in Hrq. simpl in Hrq.
  assert (∃ l1 l2, remove_first (λ r', same_dev s r' r) l = Some (l1 ++ l2) ∧
                   l = l1 ++ r :: l2) as (l1 & l2 & Hrem & ->).
  { destruct (remove_first (λ r', same_dev s r' r) l) as [l'|] eqn:Hrem.
    - apply remove_first_Some in Hrem as (l1 & y & l2 & -> & -> & Hy & _).
      apply same_dev_uuid in Hy.
      assert (y = r) as ->; [|by exists l1, l2]. apply (wf_same _ Hwf); [|done..].
      apply free_elem. exists q. split; [done|]. unfold devs_of. rewrite Hl. set_solver.
    - apply remove_first_None in Hrem. rewrite Forall_forall in Hrem.
      specialize (Hrem r Hrq). unfold same_dev in Hrem.
      by rewrite bool_decide_eq_true_2 in Hrem. }
  rewrite Hrem. unfold of_option. steps.
  set (f := λ p : pool, mkPool (keys p) (count p) (Some (l1 ++ l2))).
  unfold _decrease_pool_count, read_pool. steps.
  rewrite upd_pool_lookup, decide_True by done. unfold f at 1 2. simpl count.
  destruct (free_split s q (wf_NoDup _ Hwf) Hq) as (rest & Hf1 & Hf2).
  unfold devs_of in Hf1. rewrite Hl in Hf1. simpl in Hf1.
  pose proof (wf_distinct s Hwf) as Hdist.
  case_match eqn:Hlt; [apply Z.ltb_lt in Hlt|apply Z.ltb_ge in Hlt].
  - steps. eexists. split; [done|].
    set (g := λ p : pool, mkPool (keys p) (count p - 1) (devices p)).
    assert (upd_pool q g (upd_pool q f s) = upd_pool q (g ∘ f) s) as ->.
    { unfold upd_pool. simpl. by rewrite lookup_total_insert_eq, insert_insert_eq. }
    assert (free_devs s ≡ₚ r :: free_devs (upd_pool q (g ∘ f) s)) as Hfree.
    { rewrite Hf1, Hf2. simpl. rewrite <- !app_assoc. simpl. symmetry.
      apply Permutation_middle. }
    split_and!; [|done|done]. eapply (wf_upd_pool s q (g ∘ f)); [done..| | |].
    + simpl. rewrite Hc, !length_app. simpl. lia.
    + intros x Hx. apply (wf_home _ Hwf q x Hq). unfold devs_of. rewrite Hl. set_solver.
    + rewrite Hfree in Hdist. destruct Hdist as [[_ D1]%NoDup_cons D2].
      split; [done|]. intros x y Hx Hy. apply D2; by right.
  - assert (l1 = [] ∧ l2 = []) as [-> ->].
    { rewrite Hc, length_app in Hlt. simpl in Hlt. destruct l1, l2; simpl in Hlt; auto; lia. }
    destruct (remove_pool_spec (upd_pool q f s) q) as (l & Hrun & Hp); [apply Hwf|done| |].
    { intros x Hx. rewrite !upd_pool_lookup, (decide_True (P:=q = q)) by done.
      case_decide as Hxq; [done|]. intros He. by apply (wf_keys _ Hwf). }
    steps. step Hrun. steps. eexists. split; [done|].
    destruct (wf_drop s q l f Hwf Hp) as [Hwf' Hf']. split_and!; [done|done|].
    rewrite Hf'. unfold devs_of. by rewrite Hl.
Qed.

(** ** The scheduler's side *)

(** Pools rebuilt from stored statistics: one pool per set of properties. *)
Record wf_counts (s : stats) : Prop := {
  wc_NoDup : NoDup (pools s);
  wc_keys : ∀ q q', q ∈ pools s → q' ∈ pools s →
              keys (heap s !!! q) = keys (heap s !!! q') → q = q';
  wc_nonneg : ∀ q, q ∈ pools s → (0 ≤ count (heap s !!! q))%Z
}.

Definition total_all (s : stats) : Z := total s (pools s).

Lemma total_perm s l l' : l ≡ₚ l' → total s l = total s l'.
Proof.
  unfold total. induction 1 as [|x l l' _ IH|x y l|l1 l2 l3 _ IH1 _ IH2]; simpl; lia.
Qed.

Lemma total_ext s s' l :
  (∀ q, q ∈ l → count (heap s' !!! q) = count (heap s !!! q)) → total s' l = total s l.
Proof.
  induction l as [|q l IH]; intros Hq; [done|]. simpl. rewrite (Hq q) by left.
  fold (total s' l) (total s l). by rewrite IH by (intros; apply Hq; by right).
Qed.

Lemma filter_sublist {A} (f : A → bool) l : sublist (List.filter f l) l.
Proof. induction l as [|x l IH]; simpl; [constructor|]. destruct (f x); by constructor. Qed.

Lemma matching_pools_sublist s rq nc : sublist (matching_pools s rq nc) (pools s).
Proof.
  unfold matching_pools, _filter_non_requested_pfs, _filter_pools_for_pfs,
    _filter_pools_for_numa_cells, _filter_pools_for_spec.
  destruct (forallb _ _); [etrans; [apply filter_sublist|]|];
    destruct nc as [[|c cs]|]; repeat (etrans; [apply filter_sublist|]); done.
Qed.

Lemma wf_counts_drop s q l :
  wf_counts s → pools s ≡ₚ q :: l →
  wf_counts (set_pools l s) ∧ total_all s = (count (heap s !!! q) + total_all (set_pools l s))%Z.
Proof.
  intros [H1 H2 H3] Hp. assert (∀ x, x ∈ l → x ∈ pools s) as Hin by (intros x; rewrite Hp; by right).
  split; [split|].
  - rewrite Hp, NoDup_cons in H1. by destruct H1.
  - intros x y Hx Hy. apply H2; by apply Hin.
  - intros x Hx. by apply H3, Hin.
  - unfold total_all. by rewrite (total_perm s _ _ Hp).
Qed.

Lemma decrease_loop_spec l n s :
  wf_counts s → NoDup l → (∀ q, q ∈ l → q ∈ pools s) → (0 ≤ n ≤ total s l)%Z →
  ∃ s', decrease_loop l n s = (Ok tt, s') ∧ wf_counts s' ∧ so s' = so s ∧
    total_all s' = (total_all s - n)%Z ∧
    ∀ q, q ∈ pools s → q ∉ l → q ∈ pools s' ∧ heap s' !!! q = heap s !!! q.
Proof.
  revert n s. induction l as [|q l IH]; intros n s Hwf Hnd Hl Hn.
  { simpl in Hn. exists s. split_and!; [done..| |done]. lia. }
  apply NoDup_cons in Hnd as [Hql Hnd]. assert (q ∈ pools s) as Hq by (apply Hl; left).
  pose proof (wc_nonneg _ Hwf q Hq) as Hc. simpl in Hn. fold (total s l) in Hn.
  simpl. unfold _decrease_pool_count, read_pool. steps.
  case_match eqn:Hlt; [apply Z.ltb_lt in Hlt|apply Z.ltb_ge in Hlt].
  - steps. rewrite bool_decide_eq_true_2 by done. eexists. split; [done|].
    set (f := λ p : pool, mkPool (keys p) (count p - n) (devices p)).
    assert (∀ x, x ≠ q → heap (upd_pool q f s) !!! x = heap s !!! x) as Hne.
    { intros x Hx. rewrite upd_pool_lookup. by rewrite decide_False. }
    destruct Hwf as [H1 H2 H3]. split_and!; [split; [done|..]|done|..].
    + intros x y Hx Hy. rewrite !upd_pool_lookup. repeat case_decide; subst; simpl; auto.
    + intros x Hx. rewrite upd_pool_lookup. case_decide; simpl; [lia|by apply H3].
    + apply list_elem_of_split in Hq as (l1 & l2 & Hp). unfold total_all.
      change (pools (upd_pool q f s)) with (pools s).
      assert (pools s ≡ₚ q :: l1 ++ l2) as Hperm by (rewrite Hp; symmetry; apply Permutation_middle).
      rewrite !(total_perm _ _ _ Hperm). simpl. rewrite lookup_total_insert_eq. simpl.
      fold (total (upd_pool q f s) (l1 ++ l2)) (total s (l1 ++ l2)).
      rewrite (total_ext s (upd_pool q f s)); [lia|]. intros x Hx. rewrite Hne; [done|].
      rewrite Hperm, NoDup_cons in H1. intros ->. by destruct H1.
    + intros x Hx Hxl. split; [done|]. apply Hne. set_solver.
  - destruct (remove_pool_spec s q) as (ps & Hrun & Hp); [apply Hwf|done| |].
    { intros x Hx. by apply Hwf. }
    steps. step Hrun. steps. destruct (wf_counts_drop s q ps Hwf Hp) as [Hwf' Htot].
    assert (∀ x, x ∈ pools s → x ≠ q → x ∈ ps) as Hps.
    { intros x. rewrite Hp. set_solver. }
    case_bool_decide as Hz.
    + eexists. split; [done|]. split_and!; [done|done|lia|].
      intros x Hx Hxl. split; [|done]. apply Hps; set_solver.
    + destruct (IH (n - count (heap s !!! q))%Z (set_pools ps s)) as (s' & Hs' & Hw & Hso & Ht & Hr);
        [done|done| |split; [lia|]|].
      * intros x Hx. apply Hps; [apply Hl; by right|congruence].
      * change (total (set_pools ps s) l) with (total s l). lia.
      * exists s'. split_and!; [done..|lia|]. intros x Hx Hxl.
        destruct (Hr x) as [Hin Hh]; [apply Hps; set_solver|set_solver|]. done.
Qed.

Lemma apply_request_spec rq nc s :
  wf_counts s → (0 ≤ r_count rq)%Z →
  let l := matching_pools s rq nc in
  if (total s l <? r_count rq)%Z then _apply_request rq nc s = (Ok false, s)
  else ∃ s', _apply_request rq nc s = (Ok true, s') ∧ wf_counts s' ∧ so s' = so s ∧
    total_all s' = (total_all s - r_count rq)%Z ∧
    ∀ q, q ∈ pools s → q ∉ l → q ∈ pools s' ∧ heap s' !!! q = heap s !!! q.
Proof.
  intros Hwf Hn l. unfold _apply_request. steps. fold l.
  destruct (total s l <? r_count rq)%Z eqn:Hlt; [done|]. apply Z.ltb_ge in Hlt.
  pose proof (matching_pools_sublist s rq nc) as Hsub.
  destruct (decrease_loop_spec l (r_count rq) s) as (s' & Hs' & Hrest); [done| | |lia|].
  - eapply sublist_NoDup; [apply Hwf|done].
  - intros q Hq. by eapply elem_of_sublist.
  - exists s'. split; [by step Hs'|done].
Qed.

(** ** Consuming devices without relatives *)

(** A device without its request and change marks. *)
Definition forget (d : device) : device :=
  mkDev (id d) (uuid d) (compute_node_uuid d) (address d) (vendor_id d) (product_id d)
    (dev_type d) (status d) (dev_id d) (label d) (container_uuid d) None (extra_info d) (numa_node d)
    (parent_addr d) (parent_device d) (child_devices d) ∅.

Definition only_requests (s s' : stats) : Prop :=
  ∀ r, forget (the_dev s' r) = forget (the_dev s r).

Lemma only_requests_trans s1 s2 s3 :
  only_requests s1 s2 → only_requests s2 s3 → only_requests s1 s3.
Proof. intros H1 H2 r. by rewrite H2. Qed.

Lemma forget_keys d d' : forget d' = forget d → keys_of d' = keys_of d ∧ uuid d' = uuid d.
Proof.
  intros He. split; [|exact (f_equal uuid He)].
  apply keys_of_identity; [exact (f_equal vendor_id He)|exact (f_equal product_id He)|
    exact (f_equal address He)|exact (f_equal parent_addr He)|exact (f_equal numa_node He)|
    exact (f_equal dev_type He)].
Qed.

Definition with_objs (o : objs) (s : stats) : stats := on_objs (λ _, o) s.

Lemma wf_with_objs s o : wf s → only_requests s (with_objs o s) → wf (with_objs o s).
Proof.
  intros [H1 H2 H3 H4 H5 H6 H7 H8] Ho. split; try done.
  - intros q r Hq Hr. rewrite (proj1 (forget_keys _ _ (Ho r))). by apply H6.
  - intros r r' Hr Hr'. rewrite (proj2 (forget_keys _ _ (Ho r))),
      (proj2 (forget_keys _ _ (Ho r'))). by apply H8.
Qed.

Definition plain (s : stats) (l : list nat) : Prop :=
  ∀ r, r ∈ l → dev_type (the_dev s r) = STANDARD.

Lemma plain_only_requests s s' l : only_requests s s' → plain s l → plain s' l.
Proof.
  intros Ho Hp r Hr. rewrite <- (Hp r Hr). exact (f_equal dev_type (Ho r)).
Qed.

Lemma take_devices_spec n q rid l s :
  devices (heap s !!! q) = Some l → (n ≤ length l)%nat → plain s l →
  ∃ ds l' o, take_devices n q rid s = (Ok ds, with_objs o
      (upd_pool q (λ p, mkPool (keys p) (count p) (Some l')) s)) ∧
    length ds = n ∧ l ≡ₚ ds ++ l' ∧ only_requests s (with_objs o s).
Proof.
  revert l s. induction n as [|n IH]; intros l s Hl Hn Hplain.
  - exists [], l, (so s). split_and!; [|done..]. simpl. unfold ret. do 2 f_equal.
    unfold with_objs, on_objs, upd_pool. simpl. destruct s as [o h ps nx]. simpl in *.
    f_equal. symmetry. rewrite <- Hl. destruct (h !! q) as [p|] eqn:Hp.
    + apply insert_id. rewrite Hp. f_equal. rewrite (lookup_total_correct _ _ _ Hp).
      by destruct p.
    + rewrite lookup_total_alt, Hp in Hl. done.
  - destruct (last l) as [r|] eqn:Hlast.
    2: { apply last_None in Hlast. subst l. simpl in Hn. lia. }
    apply last_Some in Hlast as (l0 & ->). rewrite length_app in Hn. simpl in Hn.
    simpl. unfold pop_device, read_pool. steps. rewrite Hl. unfold of_option. steps.
    rewrite last_snoc. steps. rewrite removelast_last.
    set (f0 := λ p : pool, mkPool (keys p) (count p) (Some l0)).
    unfold _handle_device_dependents. steps. unfold the_dev at 1. simpl so.
    assert (dev_type (devs (so s) !!! r) = STANDARD) as -> by (apply Hplain; set_solver).
    steps.
    set (o1 := on_devs (upd r (set_request_id rid)) (so s)).
    assert (only_requests s (with_objs o1 s)) as Ho1.
    { intros x. unfold the_dev. simpl. rewrite lookup_upd. by case_decide. }
    destruct (IH l0 (with_objs o1 (upd_pool q f0 s))) as (ds & l' & o & Hrun & Hlen & Hp & Ho).
    + change (devices (heap (upd_pool q f0 s) !!! q) = Some l0).
      by rewrite upd_pool_lookup, decide_True.
    + lia.
    + eapply plain_only_requests; [exact Ho1|]. intros x Hx. apply Hplain. set_solver.
    + change (on_objs _ (upd_pool q f0 s)) with (with_objs o1 (upd_pool q f0 s)).
      step Hrun. exists (r :: ds), l', o. split_and!.
      * steps. unfold ret. apply (f_equal (pair _)). unfold with_objs, on_objs, upd_pool. simpl.
        by rewrite lookup_total_insert_eq, insert_insert_eq.
      * simpl. by rewrite Hlen.
      * simpl. rewrite <- Hp. symmetry. apply Permutation_cons_append.
      * eapply only_requests_trans; [exact Ho1|]. exact Ho.
Qed.

Lemma wf_total_devs s l :
  wf s → (∀ q, q ∈ l → q ∈ pools s) → (0 ≤ total s l)%Z.
Proof.
  intros Hwf. induction l as [|q l IH]; intros Hl; [done|]. simpl.
  destruct (wf_count _ Hwf q) as (ds & _ & ->); [apply Hl; left|].
  fold (total s l). specialize (IH (λ x Hx, Hl x (list_elem_of_further _ _ _ Hx))). lia.
Qed.

(** Where a drawn device comes from. *)
Definition drawn_from (s : stats) (l : list nat) (ds : list nat) : Prop :=
  ∀ r, r ∈ ds → ∃ q, q ∈ l ∧ r ∈ devs_of s q.

Lemma draw_spec l n rid s :
  wf s → plain s (free_devs s) → NoDup l → (∀ q, q ∈ l → q ∈ pools s) →
  (0 ≤ n ≤ total s l)%Z →
  ∃ ds s', draw l n rid s = (Ok ds, s') ∧ Z.of_nat (length ds) = n ∧ wf s' ∧
    free_devs s ≡ₚ ds ++ free_devs s' ∧ only_requests s s' ∧ drawn_from s l ds.
Proof.
  revert n s. induction l as [|q l IH]; intros n s Hwf Hplain Hnd Hl Hn.
  { simpl in Hn. exists [], s. split_and!; [done|simpl; lia|done..|].
    by intros r ?%elem_of_nil. }
  apply NoDup_cons in Hnd as [Hql Hnd]. assert (q ∈ pools s) as Hq by (apply Hl; left).
  destruct (wf_count _ Hwf q Hq) as (ds & Hds & Hc).
  simpl in Hn. fold (total s l) in Hn. simpl. unfold read_pool. steps.
  set (k := if (n <=? count (heap s !!! q))%Z then n else count (heap s !!! q)).
  assert (0 ≤ k ≤ Z.of_nat (length ds) ∧ (k < n → k = count (heap s !!! q)) ∧ k ≤ n)%Z
    as (Hk1 & Hk2 & Hk3).
  { unfold k. rewrite Hc. destruct (Z.leb_spec n (Z.of_nat (length ds))); lia. }
  set (f1 := λ p : pool, mkPool (keys p) (count p - k) (devices p)).
  assert (∀ r, r ∈ ds → r ∈ free_devs s) as Hin.
  { intros r Hr. apply free_elem. exists q. split; [done|]. unfold devs_of. by rewrite Hds. }
  destruct (take_devices_spec (Z.to_nat k) q rid ds (upd_pool q f1 s))
    as (taken & l' & o & Hrun & Hlen & Hperm & Ho).
  { by rewrite upd_pool_lookup, decide_True. }
  { lia. }
  { intros r Hr. by apply Hplain, Hin. }
  step Hrun.
  assert (with_objs o (upd_pool q (λ p, mkPool (keys p) (count p) (Some l')) (upd_pool q f1 s))
    = with_objs o (upd_pool q (λ p, mkPool (keys p) (count p - k) (Some l')) s)) as ->.
  { unfold with_objs, on_objs, upd_pool. simpl.
    by rewrite lookup_total_insert_eq, insert_insert_eq. }
  set (f := λ p : pool, mkPool (keys p) (count p - k) (Some l')).
  set (s1 := with_objs o (upd_pool q f s)).
  assert (only_requests s s1) as Ho1 by exact Ho.
  destruct (free_split s q (wf_NoDup _ Hwf) Hq) as (rest & Hf1 & Hf2).
  unfold devs_of in Hf1. rewrite Hds in Hf1. simpl in Hf1.
  assert (free_devs s ≡ₚ taken ++ free_devs s1) as Hfree.
  { rewrite Hf1, Hperm. change (free_devs s1) with (free_devs (upd_pool q f s)).
    rewrite Hf2. simpl. by rewrite <- app_assoc. }
  pose proof (wf_distinct s Hwf) as Hdist.
  assert (wf s1) as Hwf1.
  { apply wf_with_objs; [|exact Ho1]. eapply (wf_upd_pool s q f l'); [done..| | |].
    - simpl. rewrite Hc. apply Permutation_length in Hperm. rewrite length_app in Hperm. lia.
    - intros r Hr. apply (wf_home _ Hwf q r Hq). unfold devs_of. rewrite Hds. simpl.
      rewrite Hperm. set_solver.
    - change (free_devs (upd_pool q f s)) with (free_devs s1). rewrite Hfree in Hdist.
      destruct Hdist as [(_ & _ & D1)%NoDup_app D2]. split; [done|].
      intros x y Hx Hy. apply D2; apply elem_of_app; by right. }
  assert (drawn_from s [q] taken) as Hfrom.
  { intros r Hr. exists q. split; [left|]. unfold devs_of. rewrite Hds. simpl.
    rewrite Hperm. set_solver. }
  case_bool_decide as Hz.
  - exists taken, s1. split_and!; [done|lia|done..|].
    intros r Hr. destruct (Hfrom r Hr) as (x & ->%list_elem_of_singleton & Hx).
    exists q. split; [left|done].
  - assert (∀ x, x ≠ q → heap s1 !!! x = heap s !!! x) as Hne.
    { intros x Hx. apply lookup_total_insert_ne. congruence. }
    destruct (IH (n - k)%Z s1) as (ds' & s' & Hrun' & Hlen' & Hwf' & Hfree' & Ho' & Hfrom');
      [done| |done| | |].
    + eapply plain_only_requests; [exact Ho1|]. intros r Hr. apply Hplain.
      rewrite Hfree. set_solver.
    + intros x Hx. apply (Hl x). by right.
    + rewrite (total_ext s s1). { lia. } intros x Hx. rewrite Hne; [done|congruence].
    + step Hrun'. exists (taken ++ ds'), s'. split_and!.
      * done.
      * rewrite length_app. lia.
      * done.
      * by rewrite Hfree, Hfree', app_assoc.
      * by eapply only_requests_trans.
      * intros r [Hr|Hr]%elem_of_app.
        { destruct (Hfrom r Hr) as (x & ->%list_elem_of_singleton & Hx).
          exists q. split; [left|done]. }
        { destruct (Hfrom' r Hr) as (x & Hx & Hrx). exists x. split; [by right|].
          unfold devs_of in *. rewrite Hne in Hrx; [done|congruence]. }
Qed.

(** What a node can still give, whether free or held back. *)
Definition rehomeable (s : stats) (l : list nat) : Prop :=
  ∀ r, r ∈ l → ∃ m, keys_of (the_dev s r) = Ok (Some m).

Lemma add_back_spec l s :
  no_null_tags → wf s → distinct_devs s (l ++ free_devs s) → rehomeable s l →
  ∃ s', for_each add_device l s = (Ok tt, s') ∧ wf s' ∧ so s' = so s ∧
    free_devs s' ≡ₚ l ++ free_devs s.
Proof.
  intros Hnull. revert s. induction l as [|r l IH]; intros s Hwf Hd Hh; [by exists s|].
  simpl. destruct (Hh r) as (m & Hm); [left|].
  assert (distinct_devs s (r :: free_devs s)) as Hdr.
  { destruct Hd as [D1 D2]. split.
    - apply NoDup_cons in D1 as [D1 D3]. apply NoDup_app in D3 as (_ & _ & D3).
      apply NoDup_cons. split; [set_solver|done].
    - intros x y Hx Hy. apply D2; set_solver. }
  pose proof (add_device_spec r s Hnull Hwf Hdr) as Hadd. rewrite Hm in Hadd.
  destruct Hadd as (s1 & Hrun & Hwf1 & Hso & Hf1). step Hrun.
  assert (∀ x, the_dev s1 x = the_dev s x) as Hdev by (intros x; unfold the_dev; by rewrite Hso).
  destruct (IH s1) as (s' & Hrun' & Hwf' & Hso' & Hf'); [done| | |].
  - assert (distinct_devs s (l ++ free_devs s1)) as Hd'.
    { rewrite Hf1. simpl in Hd. by rewrite <- Permutation_middle. }
    unfold distinct_devs in *. by setoid_rewrite Hdev.
  - intros x Hx. rewrite Hdev. apply Hh. by right.
  - exists s'. split_and!; [done..|congruence|]. rewrite Hf', Hf1. simpl.
    symmetry. apply Permutation_middle.
Qed.

Definition requested (rqs : list request) : Z :=
  foldr (λ rq acc, (r_count rq + acc)%Z) 0%Z rqs.

Lemma consume_loop_spec rqs nc alloc s :
  no_null_tags → wf s → distinct_devs s (alloc ++ free_devs s) → rehomeable s alloc →
  plain s (free_devs s) → Forall (λ rq, (0 ≤ r_count rq)%Z) rqs →
  match consume_loop rqs nc alloc s with
  | (Ok (Some ds), s') => ∃ ds', ds = alloc ++ ds' ∧ Z.of_nat (length ds') = requested rqs ∧
      wf s' ∧ free_devs s ≡ₚ ds' ++ free_devs s' ∧ only_requests s s'
  | (Ok None, s') => wf s' ∧ free_devs s' ≡ₚ alloc ++ free_devs s ∧ only_requests s s'
  | (Raise _, _) => False
  end.
Proof.
  intros Hnull. revert alloc s.
  induction rqs as [|rq rqs IH]; intros alloc s Hwf Hd Hh Hplain Hpos.
  { simpl. exists []. rewrite app_nil_r. split_and!; done. }
  apply Forall_cons in Hpos as [Hn Hpos]. simpl consume_loop. steps.
  pose proof (matching_pools_sublist s rq nc) as Hsub. set (l := matching_pools s rq nc) in *.
  destruct (total s l <? r_count rq)%Z eqn:Hlt; [apply Z.ltb_lt in Hlt|apply Z.ltb_ge in Hlt].
  - destruct (add_back_spec (rev alloc) s) as (s' & Hrun & Hwf' & Hso & Hf); [done|done| | |].
    + by rewrite <- Permutation_rev.
    + intros r Hr. apply Hh. by rewrite Permutation_rev.
    + step Hrun. simpl. split_and!; [done|by rewrite Hf, <- Permutation_rev|].
      intros r. unfold the_dev. by rewrite Hso.
  - destruct (draw_spec l (r_count rq) (r_request_id rq) s)
      as (ds & s1 & Hrun & Hlen & Hwf1 & Hf1 & Ho1 & Hfrom);
      [done|done|eapply sublist_NoDup; [apply Hwf|done]| |lia|].
    { intros q Hq. by eapply elem_of_sublist. }
    step Hrun.
    assert (∀ x, keys_of (the_dev s1 x) = keys_of (the_dev s x) ∧
                 uuid (the_dev s1 x) = uuid (the_dev s x)) as Hid
      by (intros x; apply forget_keys, Ho1).
    assert (distinct_devs s1 ((alloc ++ ds) ++ free_devs s1)) as Hd1.
    { rewrite <- app_assoc, <- Hf1. destruct Hd as [D1 D2]. split; [done|].
      intros x y Hx Hy. rewrite (proj2 (Hid x)), (proj2 (Hid y)). by apply D2. }
    assert (rehomeable s1 (alloc ++ ds)) as Hh1.
    { intros r [Hr|Hr]%elem_of_app; rewrite (proj1 (Hid r)); [by apply Hh|].
      destruct (Hfrom r Hr) as (q & Hq & Hrq). eexists.
      apply (wf_home _ Hwf q r); [by eapply elem_of_sublist|done]. }
    assert (plain s1 (free_devs s1)) as Hp1.
    { eapply plain_only_requests; [exact Ho1|]. intros r Hr. apply Hplain.
      rewrite Hf1. set_solver. }
    specialize (IH (alloc ++ ds) s1 Hwf1 Hd1 Hh1 Hp1 Hpos).
    destruct (consume_loop rqs nc (alloc ++ ds) s1) as [[[ds2|]|e] s2]; [| |done].
    + destruct IH as (ds' & -> & Hlen' & Hwf' & Hf' & Ho'). exists (ds ++ ds').
      split_and!; [by rewrite app_assoc|rewrite length_app; simpl; fold (requested rqs); lia|
        done|by rewrite Hf1, Hf', app_assoc|by eapply only_requests_trans].
    + destruct IH as (Hwf' & Hf' & Ho'). split_and!; [done| |by eapply only_requests_trans].
      by rewrite Hf', Hf1, app_assoc.
Qed.

Lemma apply_map_spec rqs nc s :
  wf_counts s → Forall (λ rq, (0 ≤ r_count rq)%Z) rqs →
  ∃ oks s', map_m (λ rq, _apply_request rq nc) rqs s = (Ok oks, s') ∧ wf_counts s' ∧
    (forallb Datatypes.id oks = true → total_all s' = total_all s - requested rqs)%Z.
Proof.
  intros Hwf Hpos. revert s Hwf. induction Hpos as [|rq rqs Hn _ IH]; intros s Hwf.
  { exists [], s. split_and!; [done..|]. simpl. lia. }
  simpl. pose proof (apply_request_spec rq nc s Hwf Hn) as H1. simpl in H1.
  destruct (total s (matching_pools s rq nc) <? r_count rq)%Z.
  - step H1. destruct (IH s Hwf) as (oks & s' & Hrun & Hwf' & _). step Hrun.
    exists (false :: oks), s'. by split_and!.
  - destruct H1 as (s1 & H1 & Hwf1 & _ & Ht & _). step H1.
    destruct (IH s1 Hwf1) as (oks & s' & Hrun & Hwf' & Ht'). step Hrun.
    exists (true :: oks), s'. split_and!; [done..|]. simpl. fold (requested rqs).
    intros Hok. rewrite (Ht' Hok). lia.
Qed.

Lemma total_nonneg s : wf_counts s → (0 ≤ total_all s)%Z.
Proof.
  intros [_ _ Hc]. unfold total_all. induction (pools s) as [|q l IH]; [done|]. simpl.
  fold (total s l). pose proof (Hc q (list_elem_of_here _ _)).
  specialize (IH (λ x Hx, Hc x (list_elem_of_further _ _ _ Hx))). lia.
Qed.
End Invariant.

(** ** Stored statistics (src/zun/objects/pci_device_pool.py) *)

(** PciDevicePool *)
Record pool_obj : Type := mkPoolObj {
  po_product_id : pyval;
  po_vendor_id : pyval;
  po_numa_node : pyval;
  po_tags : gmap string pyval;
  po_count : Z
}.

(** [PciDevicePool.from_dict] on the properties and the count of a pool. *)
Definition from_dict (value : gmap string pyval * Z) : outcome exn pool_obj :=
  match value.1 !! "vendor_id", delete "vendor_id" value.1 !! "product_id" with
  | Some v, Some p =>
      let rest := delete "product_id" (delete "vendor_id" value.1) in
      Ok (mkPoolObj p v (dict_get rest "numa_node") (delete "numa_node" rest) value.2)
  | _, _ => Raise (Py KeyError)
  end.

(** [to_dict]: the fields, overridden by the tags. *)
Definition to_dict (o : pool_obj) : gmap string pyval * Z :=
  (po_tags o ∪ {[ "product_id" := po_product_id o; "vendor_id" := po_vendor_id o;
                  "numa_node" := po_numa_node o ]}, po_count o).

Fixpoint from_dicts (l : list (gmap string pyval * Z)) : outcome exn (list pool_obj) :=
  match l with
  | [] => Ok []
  | v :: l' => match from_dict v with
               | Raise e => Raise e
               | Ok o => match from_dicts l' with
                         | Raise e => Raise e
                         | Ok os => Ok (o :: os)
                         end
               end
  end.

Definition to_device_pools_obj (s : stats) : outcome exn (list pool_obj) :=
  from_dicts (summaries s).

(** [PciDeviceStats(stats)] *)
Definition of_pool_objs (o : objs) (l : list pool_obj) : stats := of_summaries o (to_dict <$> l).

Definition base_keys (m : gmap string pyval) : Prop :=
  is_Some (m !! "vendor_id") ∧ is_Some (m !! "product_id") ∧ is_Some (m !! "numa_node").

Lemma to_dict_from_dict v o : base_keys v.1 → from_dict v = Ok o → to_dict o = v.
Proof.
  destruct v as [m c]. unfold from_dict, to_dict, dict_get. simpl.
  intros ([v Hv] & [p Hp] & [n Hn]). rewrite Hv, lookup_delete_ne, Hp by done.
  intros [= <-]. simpl. f_equal. apply map_eq. intros k.
  rewrite !lookup_delete_ne, Hn by done. simpl. rewrite lookup_union.
  destruct (decide (k = "numa_node")) as [->|H1].
  { rewrite lookup_delete_eq, !lookup_insert_ne, lookup_singleton_eq, Hn by done. done. }
  rewrite lookup_delete_ne by done. destruct (decide (k = "product_id")) as [->|H2].
  { rewrite lookup_delete_eq, lookup_insert_eq, Hp. done. }
  rewrite lookup_delete_ne by done. destruct (decide (k = "vendor_id")) as [->|H3].
  { rewrite lookup_delete_eq, lookup_insert_ne, lookup_insert_eq, Hv by done. done. }
  rewrite lookup_delete_ne, !lookup_insert_ne, lookup_singleton_ne by done.
  by destruct (m !! k).
Qed.

Lemma from_dicts_ok l :
  Forall (λ v, base_keys v.1) l → ∃ os, from_dicts l = Ok os ∧ to_dict <$> os = l.
Proof.
  induction 1 as [|v l Hv _ (os & Hos & Hl)]; [by exists []|]. simpl.
  destruct (from_dict v) as [o|e] eqn:Ho.
  - rewrite Hos. exists (o :: os). split; [done|]. rewrite fmap_cons, Hl. f_equal.
    by apply to_dict_from_dict.
  - exfalso. unfold from_dict in Ho. destruct Hv as ([a Ha] & [b Hb] & _).
    by rewrite Ha, lookup_delete_ne, Hb in Ho by done.
Qed.

Lemma seq_summaries (h : gmap nat pool) (l : list (gmap string pyval * Z)) :
  (∀ i kc, l !! i = Some kc → h !! i = Some (mkPool kc.1 kc.2 None)) →
  (λ q, (keys (h !!! q), count (h !!! q))) <$> seq 0 (length l) = l.
Proof.
  intros Hh. apply list_eq. intros i. rewrite list_lookup_fmap.
  destruct (l !! i) as [kc|] eqn:Hi.
  - apply lookup_lt_Some in Hi as Hlt. rewrite (lookup_seq_lt 0 (length l) i) by done. simpl.
    rewrite (lookup_total_correct _ _ _ (Hh i kc Hi)). by destruct kc.
  - rewrite lookup_seq_ge; [done|]. by apply lookup_ge_None.
Qed.

Lemma summaries_of_summaries o l : summaries (of_summaries o l) ≡ₚ l.
Proof.
  unfold summaries, of_summaries.
  set (h := list_to_map (imap (λ i kc, (i, mkPool kc.1 kc.2 None)) l) : gmap nat pool).
  transitivity ((λ q, (keys (h !!! q), count (h !!! q))) <$> seq 0 (length l)).
  { apply fmap_Permutation, stable_sort_perm. }
  assert (∀ i kc, l !! i = Some kc → h !! i = Some (mkPool kc.1 kc.2 None)) as Hh.
  { intros i kc Hi. apply elem_of_list_to_map.
    - rewrite fmap_imap. unfold compose. simpl.
      assert (∀ n, imap (λ i _, (n + i)%nat) l = seq n (length l)) as Hseq.
      { clear. induction l as [|x l IH]; intros n; [done|]. simpl. f_equal; [lia|].
        rewrite <- IH. apply imap_ext. intros. simpl. lia. }
      rewrite (imap_ext _ (λ i _, (0 + i)%nat)) by done. rewrite (Hseq 0%nat). apply NoDup_seq.
    - apply list_elem_of_lookup. exists i. by rewrite list_lookup_imap, Hi. }
  by rewrite (seq_summaries h).
Qed.

(** ** Properties of the pools *)

Section Properties.
Context `{DevFilter}.

(** The pools of a node represent its set of free devices.  Adding a device
    that a specification matches adds it to that set, keeping counts, keys and
    membership consistent; removing it again gives the set back; and a state
    change of the device in between (a claim, a release) does not matter as long
    as the fields that identify it stay. *)
Theorem add_then_remove_device r m s :
  no_null_tags → wf s → distinct_devs s (r :: free_devs s) →
  keys_of (the_dev s r) = Ok (Some m) →
  ∃ s1, add_device r s = (Ok tt, s1) ∧ wf s1 ∧ free_devs s1 ≡ₚ r :: free_devs s ∧
    ∀ o, only_requests s1 (with_objs o s1) →
      ∃ s2, remove_device r (with_objs o s1) = (Ok tt, s2) ∧ wf s2 ∧
        free_devs s2 ≡ₚ free_devs s.
Proof.
  intros Hnull Hwf Hd Hk. pose proof (add_device_spec r s Hnull Hwf Hd) as Hadd.
  rewrite Hk in Hadd. destruct Hadd as (s1 & Hrun & Hwf1 & _ & Hf).
  exists s1. split_and!; [done..|]. intros o Ho.
  destruct (remove_device_spec r (with_objs o s1)) as (s2 & Hrun2 & Hwf2 & _ & Hf2);
    [done|by apply wf_with_objs| |].
  - change (r ∈ free_devs s1). rewrite Hf. left.
  - exists s2. split_and!; [done..|]. change (free_devs (with_objs o s1)) with (free_devs s1) in Hf2.
    rewrite Hf in Hf2. by apply Permutation_cons_inv in Hf2.
Qed.

(** C40. On a node whose free devices have no relatives, [consume_requests] is all
    or nothing: it never raises; when it answers with a list, these are exactly
    as many distinct free devices as requested, and only they left the pools; when
    it answers [None], every device is back in the pools. *)
Theorem consume_requests_atomic rqs nc s :
  no_null_tags → wf s → plain s (free_devs s) → Forall (λ rq, (0 ≤ r_count rq)%Z) rqs →
  match consume_requests rqs nc s with
  | (Ok (Some ds), s') => Z.of_nat (length ds) = requested rqs ∧ NoDup ds ∧ wf s' ∧
      free_devs s ≡ₚ ds ++ free_devs s' ∧ only_requests s s'
  | (Ok None, s') => wf s' ∧ free_devs s' ≡ₚ free_devs s ∧ only_requests s s'
  | (Raise _, _) => False
  end.
Proof.
  intros Hnull Hwf Hp Hpos.
  pose proof (consume_loop_spec rqs nc [] s Hnull Hwf (wf_distinct s Hwf)) as Hc.
  unfold consume_requests. assert (rehomeable s []) as H0 by by intros r ?%elem_of_nil.
  specialize (Hc H0 Hp Hpos). destruct (consume_loop rqs nc [] s) as [[[ds|]|e] s']; [|done..].
  destruct Hc as (ds' & -> & Hlen & Hwf' & Hf & Ho). simpl. split_and!; try done.
  pose proof (wf_free _ Hwf) as Hnd. rewrite Hf in Hnd. by apply NoDup_app in Hnd as [? _].
Qed.

(** [support_requests] never raises and never changes the pools, and it
    predicts [apply_requests]: when it answers true, applying the same requests
    takes exactly the requested number of devices off the counts, which stay non
    negative; when it answers false, applying them raises. *)
Theorem support_predicts_apply rqs nc s :
  wf_counts s → Forall (λ rq, (0 ≤ r_count rq)%Z) rqs →
  ∃ b s', support_requests rqs nc s = (Ok b, s) ∧
    apply_requests rqs nc s = (if b then Ok tt else Raise (Py AttributeError), s') ∧
    wf_counts s' ∧ (0 ≤ total_all s')%Z ∧
    (b = true → total_all s' = total_all s - requested rqs)%Z.
Proof.
  intros Hwf Hpos. destruct (apply_map_spec rqs nc s Hwf Hpos) as (oks & s' & Hrun & Hwf' & Ht).
  assert (apply_all rqs nc s = (Ok (forallb Datatypes.id oks), s')) as Hall
    by (unfold apply_all; by step Hrun).
  exists (forallb Datatypes.id oks), s'. split_and!; [|  |done|by apply total_nonneg|exact Ht].
  - unfold support_requests. by rewrite Hall.
  - unfold apply_requests. step Hall. unfold raise_if. by destruct (forallb _ _).
Qed.

(** The statistics stored for the scheduler describe the pools: rebuilding
    them from the stored objects gives pools with the same properties and counts,
    without their devices. *)
Theorem stored_pools_roundtrip s o :
  Forall (λ q, base_keys (keys (heap s !!! q))) (pools s) →
  ∃ os, to_device_pools_obj s = Ok os ∧ summaries (of_pool_objs o os) ≡ₚ summaries s.
Proof.
  intros Hk. destruct (from_dicts_ok (summaries s)) as (os & Hos & Hl).
  { unfold summaries. by apply Forall_fmap. }
  exists os. split; [done|]. unfold of_pool_objs. rewrite Hl. apply summaries_of_summaries.
Qed.
End Properties.

(** ** Examples *)

(** Every device of vendor 8086 is assignable. *)
Definition vendor_entry : entry := mkEntry (Some "8086") None None None ∅.

Definition vendor_specs : list PciDeviceSpec :=
  match _parse_white_list_from_config no_sysfs (λ _, true) [JDict vendor_entry] with
  | Ok l => l
  | Raise _ => []
  end.

Definition vendor_filter : DevFilter :=
  whitelist_filter no_sysfs (λ _, true) (λ _ _, true) vendor_specs.

Lemma vendor_no_null : no_null_tags (H:=vendor_filter).
Proof.
  intros d tags k. unfold dev_tags, vendor_filter, whitelist_filter.
  pose proof (device_assignable_get_devspec no_sysfs (λ _, true) (λ _ _, true) vendor_specs
    (view d)) as Hs.
  destruct (get_devspec _ _ _ _ (view d)) as [[s|]|e]; try done. intros [= <-].
  destruct (device_assignable _ _ _ _ _) as [[]|e]; try done.
  destruct Hs as (l1 & l2 & Hspecs & _).
  assert (s ∈ vendor_specs) as Hin by (rewrite Hspecs; set_solver).
  vm_compute in Hin. apply elem_of_cons in Hin as [->|Hin]; [done|by apply elem_of_nil in Hin].
Qed.

Definition nic_dev (addr : string) (t : PciDeviceType) (parent : option nat)
    (children : list nat) : device :=
  mkDev None addr (Some "node1") addr "8086" "1520" t AVAILABLE None None None None ∅ (Some None)
    None parent children ∅.

Definition empty_stats (ds : list device) : stats :=
  mkStats (mkObjs (list_to_map (imap (λ i d, (i, d)) ds)) ∅ ∅) ∅ [] 0.

Definition two_nics : stats :=
  empty_stats [nic_dev "0000:81:00.0" STANDARD None []; nic_dev "0000:82:00.0" STANDARD None []].

Lemma empty_stats_wf f ds : wf (H:=f) (empty_stats ds).
Proof.
  split; try by apply NoDup_nil.
  all: try (intros q Hq; by apply elem_of_nil in Hq).
  all: intros q r Hq; by apply elem_of_nil in Hq.
Qed.

Lemma distinct_one s r : distinct_devs s [r].
Proof.
  split; [apply NoDup_singleton|].
  by intros x y ->%list_elem_of_singleton ->%list_elem_of_singleton.
Qed.

Definition nic_keys : gmap string pyval :=
  {[ "product_id" := VStr "1520"; "vendor_id" := VStr "8086"; "numa_node" := VNone;
     "dev_type" := VStr "PCI" ]}.

Lemma two_nics_keys : keys_of (H:=vendor_filter) (the_dev two_nics 0) = Ok (Some nic_keys).
Proof.
  assert (match keys_of (H:=vendor_filter) (the_dev two_nics 0) with
          | Ok (Some m) => bool_decide (m = nic_keys) | _ => false end = true) as He
    by (vm_compute; reflexivity).
  destruct (keys_of _) as [[m|]|e]; try discriminate He.
  by apply bool_decide_eq_true in He as ->.
Qed.

Lemma add_then_remove_device_witness :
  ∃ s1, add_device (H:=vendor_filter) 0 two_nics = (Ok tt, s1) ∧ free_devs s1 ≡ₚ [0] ∧
    ∃ s2, remove_device (H:=vendor_filter) 0 s1 = (Ok tt, s2) ∧ free_devs s2 ≡ₚ [].
Proof.
  destruct (add_then_remove_device (H:=vendor_filter) 0 nic_keys two_nics vendor_no_null
    (empty_stats_wf _ _) (distinct_one _ _) two_nics_keys) as (s1 & Hrun & _ & Hf & Hrem).
  exists s1. split; [exact Hrun|]. split; [exact Hf|].
  destruct (Hrem (so s1) (λ r, eq_refl)) as (s2 & Hrun2 & _ & Hf2).
  exists s2. split; [|exact Hf2]. destruct s1. exact Hrun2.
Defined.

Definition one_free : stats := (add_device (H:=vendor_filter) 0 two_nics).2.

Lemma one_free_wf : wf (H:=vendor_filter) one_free ∧ free_devs one_free ≡ₚ [0].
Proof.
  pose proof (add_device_spec (H:=vendor_filter) 0 two_nics vendor_no_null (empty_stats_wf _ _)
    (distinct_one _ _)) as Hadd. rewrite two_nics_keys in Hadd.
  destruct Hadd as (s' & Hrun & Hwf & _ & Hf). unfold one_free. by rewrite Hrun.
Qed.

Definition ask (n : Z) : request := mkRequest n [[("vendor_id", VStr "8086")]] (Some "rq1").

Lemma consume_requests_atomic_witness :
  (consume_requests (H:=vendor_filter) [ask 1] None one_free).1 = Ok (Some [0]) ∧
  free_devs (consume_requests (H:=vendor_filter) [ask 1; ask 1] None one_free).2 ≡ₚ [0].
Proof.
  destruct one_free_wf as [Hwf Hfree].
  assert (plain one_free (free_devs one_free)) as Hp.
  { intros r Hr. rewrite Hfree in Hr. apply list_elem_of_singleton in Hr as ->. by vm_compute. }
  split; [by vm_compute|].
  pose proof (consume_requests_atomic (H:=vendor_filter) [ask 1; ask 1] None one_free
    vendor_no_null Hwf Hp ltac:(repeat constructor; done)) as Hc.
  destruct (consume_requests (H:=vendor_filter) [ask 1; ask 1] None one_free)
    as [[[ds|]|e] s'] eqn:Hrun.
  - exfalso. destruct Hc as (Hlen & _ & _ & Hf & _). rewrite Hfree in Hf.
    apply Permutation_length in Hf. rewrite length_app in Hf. simpl in Hf, Hlen.
    unfold requested in Hlen. simpl in Hlen. lia.
  - destruct Hc as (_ & Hf & _). simpl. by rewrite Hf.
  - destruct Hc.
Defined.

Definition stored : list (gmap string pyval * Z) := [(nic_keys, 3%Z)].

Lemma support_predicts_apply_witness :
  (support_requests [ask 2; ask 1] None (of_summaries (mkObjs ∅ ∅ ∅) stored)).1 = Ok true ∧
  (apply_requests [ask 2; ask 2] None (of_summaries (mkObjs ∅ ∅ ∅) stored)).1 =
    Raise (Py AttributeError).
Proof.
  assert (wf_counts (of_summaries (mkObjs ∅ ∅ ∅) stored)) as Hwf.
  { split.
    - apply NoDup_singleton.
    - by intros q q' ->%list_elem_of_singleton ->%list_elem_of_singleton.
    - intros q ->%list_elem_of_singleton. by vm_compute. }
  split; [by vm_compute|].
  destruct (support_predicts_apply [ask 2; ask 2] None (of_summaries (mkObjs ∅ ∅ ∅) stored)
    Hwf ltac:(repeat constructor; done)) as (b & s' & Hb & Ha & _).
  rewrite Ha. simpl. vm_compute in Hb. by injection Hb as <-.
Defined.

Lemma stored_pools_roundtrip_witness :
  ∃ os, to_device_pools_obj one_free = Ok os ∧
    summaries (of_pool_objs (mkObjs ∅ ∅ ∅) os) ≡ₚ [(nic_keys, 1%Z)].
Proof.
  destruct (stored_pools_roundtrip one_free (mkObjs ∅ ∅ ∅)) as (os & Hos & Hs).
  - repeat constructor; vm_compute; by eexists.
  - exists os. split; [exact Hos|]. rewrite Hs. apply Permutation_refl'.
    apply (bool_decide_eq_true_1 _). vm_compute. reflexivity.
Defined.

(** *** With relatives *)

(** A PF (0) with one VF (1), both free. *)
Definition sriov : stats :=
  (add_device (H:=vendor_filter) 1 (add_device (H:=vendor_filter) 0 (empty_stats
     [nic_dev "0000:81:00.0" SRIOV_PF None [1]; nic_dev "0000:81:10.0" SRIOV_VF (Some 0) []])).2).2.

Definition ask_types (n : Z) (ts : list string) : request :=
  mkRequest n ((λ t, [("dev_type", VStr t)]) <$> ts) (Some "rq1").

(** A request served by a PF pool and then by the pool of its VFs: taking the PF
    removes the VF from its pool, which is dropped with a stale count, and the
    draw then pops from its empty list. *)
Lemma consume_pf_and_vf_raises :
  (consume_requests (H:=vendor_filter) [ask_types 2 ["PF"; "VF"]] None sriov).1 =
    Raise (Py IndexError).
Proof. by vm_compute. Qed.

(** A failed request returns the devices it took, but not the relatives that
    taking them had removed: the VF is lost, and the PF keeps the request id. *)
Lemma failed_consume_loses_relatives :
  let r := consume_requests (H:=vendor_filter)
             [ask_types 1 ["PF"]; ask_types 1 ["PCI"]] None sriov in
  r.1 = Ok None ∧ free_devs sriov = [0; 1] ∧ free_devs r.2 = [0] ∧
  request_id (the_dev r.2 0) = Some (Some "rq1").
Proof. by vm_compute. Qed.
