(* ===== verification/PciTracker.v ===== *)
(** * The PCI device tracker of a compute node (src/zun/pci/manager.py)

    The tracker owns the list of device objects of the node, the pools of
    [PciStats], and two dictionaries of the devices claimed by and allocated to
    each container.  It discovers devices, links virtual functions to their
    physical function, and claims, allocates, frees and saves devices. *)

From S2P Require Import Prelude Exceptions PyStr PciSpec PciDevice PciStats.

Record tracker : Type := mkTracker {
  st : stats;
  pci_devs : list nat;
  claims : dict (option string) (list nat);
  allocations : dict (option string) (list nat);
  stale : dict string dev_dict;
  node_id : string;
  next_dev : nat                 (** a device reference not used yet *)
}.

Definition set_st (s : stats) (t : tracker) : tracker :=
  mkTracker s (pci_devs t) (claims t) (allocations t) (stale t) (node_id t) (next_dev t).
Definition set_pci_devs (l : list nat) (t : tracker) : tracker :=
  mkTracker (st t) l (claims t) (allocations t) (stale t) (node_id t) (next_dev t).
Definition set_claims (c : dict (option string) (list nat)) (t : tracker) : tracker :=
  mkTracker (st t) (pci_devs t) c (allocations t) (stale t) (node_id t) (next_dev t).
Definition set_allocations (a : dict (option string) (list nat)) (t : tracker) : tracker :=
  mkTracker (st t) (pci_devs t) (claims t) a (stale t) (node_id t) (next_dev t).
Definition set_stale (m : dict string dev_dict) (t : tracker) : tracker :=
  mkTracker (st t) (pci_devs t) (claims t) (allocations t) m (node_id t) (next_dev t).

(** Running a method of the pools, or of a device. *)
Definition on_stats {A} (m : py stats A) : py tracker A := zoom st set_st m.
Definition on_dev {A} (m : py objs A) : py tracker A :=
  zoom (λ t, so (st t)) (λ o t, set_st (on_objs (λ _, o) (st t)) t) m.

Definition device_of (t : tracker) (r : nat) : device := devs (so (st t)) !!! r.
Definition read_dev (r : nat) : py tracker device := gets (λ t, device_of t r).

(** [d\[k\].append(x)] on a [defaultdict(list)] *)
Definition dappend (d : dict (option string) (list nat)) (k : option string) (l : list nat)
    : dict (option string) (list nat) := dset d k (default [] (dget d k) ++ l).

Definition by_address (t : tracker) : relation nat :=
  λ r r', String.le (address (device_of t r)) (address (device_of t r')).

#[export] Instance by_address_dec t : RelDecision (by_address t).
Proof. intros r r'. unfold by_address. apply _. Defined.

#[export] Instance by_address_total t : Total (by_address t).
Proof. intros r r'. unfold by_address. apply String.le_total. Qed.
#[export] Instance by_address_trans t : Transitive (by_address t).
Proof. intros r1 r2 r3. unfold by_address. apply transitivity. Qed.

Definition removed (d : device) : bool := bool_decide (status d ∈ [REMOVED; DELETED]).

(** The loop of [_build_device_tree] over the sorted devices. *)
Fixpoint link_devs (l : list nat) (parents : dict string nat) : py tracker unit :=
  match l with
  | [] => ret tt
  | r :: l' =>
      let! d := read_dev r in
      if removed d then link_devs l' parents
      else match dev_type d with
           | SRIOV_PF =>
               on_dev (mutate r (set_child_devices []));;;
               link_devs l' (dset parents (address d) r)
           | SRIOV_VF =>
               let p := a ← parent_addr d; dget parents a in
               on_dev (mutate r (set_parent_device p));;;
               match p with
               | Some p => on_dev (mutate p (λ d, set_child_devices (child_devices d ++ [r]) d))
               | None => ret tt
               end;;;
               link_devs l' parents
           | STANDARD => link_devs l' parents
           end
  end.

Definition _build_device_tree : py tracker unit :=
  modify (λ t, set_pci_devs (stable_sort (by_address t) (pci_devs t)) t);;;
  let! l := gets pci_devs in
  link_devs l [].

Section Tracker.
Context `{DevFilter}.
(** [device_assignable] of the whitelist on a dictionary of the host, and the
    uuids drawn for new devices. *)
Context (assignable : dev_dict → outcome exn bool) (new_uuid : nat → string).

Definition _initial_instance_usage : py tracker unit :=
  modify (set_claims []);;;
  modify (set_allocations []);;;
  let! l := gets pci_devs in
  for_each (λ r,
    let! d := read_dev r in
    let! u := on_dev (getattr (container_uuid d)) in
    match status d with
    | CLAIMED => modify (λ t, set_claims (dappend (claims t) u [r]) t)
    | ALLOCATED => modify (λ t, set_allocations (dappend (allocations t) u [r]) t)
    | AVAILABLE => on_stats (add_device r)
    | _ => ret tt
    end) l.

(** [PciDevTracker(context, node_id)] once the rows of the node are loaded. *)
Definition init : py tracker unit := _build_device_tree;;; _initial_instance_usage.

(** [for dev in self.pci_devs], with removals from the list being iterated: the
    iterator keeps an index into the current list. *)
Fixpoint save_from (fuel i : nat) : py tracker unit :=
  match fuel with
  | O => ret tt
  | S n =>
      let! l := gets pci_devs in
      match l !! i with
      | None => ret tt
      | Some r =>
          let! d := read_dev r in
          (if bool_decide (changes d ≠ ∅) then
             on_dev (PciDevice.save r);;;
             let! d := read_dev r in
             if bool_decide (status d = DELETED) then
               let! t := get in
               match remove_first (λ r', same_dev (st t) r' r) (pci_devs t) with
               | Some l => modify (set_pci_devs l)
               | None => raise (Py ValueError)
               end
             else ret tt
           else ret tt);;;
          save_from n (Datatypes.S i)
      end
  end.

(** Each step advances the index or shortens the list. *)
Definition save : py tracker unit :=
  let! l := gets pci_devs in save_from (Datatypes.S (length l)) 0.

Definition find_dict (ds : list dev_dict) (addr : string) : option dev_dict :=
  List.find (λ v, bool_decide (di_address v = addr)) ds.

(** [new_value\['compute_node_id'\] = self.node_id]: not a field of the device, so
    [update_device] will put it into [extra_info]. *)
Definition with_node (node : string) (v : dev_dict) : dev_dict :=
  mkDict (di_address v) (di_vendor_id v) (di_product_id v) (di_dev_type v) (di_numa_node v)
    (di_dev_id v) (di_label v) (di_parent_addr v) (di_compute_node_uuid v) (<[ "compute_node_id" := node ]> (di_other v)).

Definition with_node_uuid (node : string) (v : dev_dict) : dev_dict :=
  mkDict (di_address v) (di_vendor_id v) (di_product_id v) (di_dev_type v) (di_numa_node v)
    (di_dev_id v) (di_label v) (di_parent_addr v) (Some (Some node)) (di_other v).

Definition sync_existing (ds : list dev_dict) (gone : string → bool) (r : nat) : py tracker unit :=
  let! d := read_dev r in
  if gone (address d) then
    λ t, match on_dev (PciDevice.remove r) t with
         | (Ok _, t') => on_stats (remove_device r) t'
         | (Raise (Zun PciDeviceInvalidStatus), t') =>
             (* the warning reads [existed.container_uuid] *)
             (let! d := read_dev r in
              on_dev (getattr (container_uuid d));;;
              on_dev (mutate r (set_status REMOVED))) t'
         | (Raise e, t') => (Raise e, t')
         end
  else
    let! v := of_option (find_dict ds (address d)) (Py StopIteration) in
    let! node := gets node_id in
    let v := with_node node v in
    if bool_decide (status d ∈ [CLAIMED; ALLOCATED])
    then modify (λ t, set_stale (dset (stale t) (di_address v) v) t)
    else on_dev (mutate r (PciDevice.update_device v)).

Definition add_new (v : dev_dict) : py tracker unit :=
  let! node := gets node_id in
  let! r := gets next_dev in
  modify (λ t, mkTracker
    (on_objs (on_devs (insert r (create (new_uuid r) (with_node_uuid node v)))) (st t))
    (pci_devs t ++ [r]) (claims t) (allocations t) (stale t) (node_id t) (Datatypes.S r));;;
  on_stats (add_device r).

Definition _set_hvdevs (ds : list dev_dict) : py tracker unit :=
  let! t := get in
  let exist_addrs := (λ r, address (device_of t r)) <$> pci_devs t in
  let new_addrs := di_address <$> ds in
  for_each (sync_existing ds (λ a, bool_decide (a ∉ new_addrs))) (pci_devs t);;;
  for_each add_new (List.filter (λ v, bool_decide (di_address v ∉ exist_addrs)) ds);;;
  _build_device_tree.

Fixpoint select_assignable (ds : list dev_dict) : py tracker (list dev_dict) :=
  match ds with
  | [] => ret []
  | v :: ds' =>
      let! b := (λ t, (assignable v, t)) in
      let! rest := select_assignable ds' in
      ret (if b then v :: rest else rest)
  end.

Definition update_devices_from_compute_resources (ds : list dev_dict) : py tracker unit :=
  let! l := select_assignable ds in _set_hvdevs l.

Definition _claim_container (u : string) (rqs : list request) : py tracker (option (list nat)) :=
  let! ds := on_stats (consume_requests rqs None) in
  match ds with
  | None | Some [] => ret None
  | Some ds => for_each (λ r, on_dev (claim r u)) ds;;; ret (Some ds)
  end.

Definition claim_container (u : string) (rqs : list request) : py tracker (option (list nat)) :=
  let! l := gets pci_devs in
  match l, rqs with
  | _ :: _, _ :: _ =>
      let! ds := _claim_container u rqs in
      match ds with
      | Some (d :: ds) => modify (λ t, set_claims (dset (claims t) (Some u) (d :: ds)) t)
      | _ => ret tt
      end;;;
      ret ds
  | _, _ => ret (Some [])
  end.

Definition _allocate_container (u : string) (ds : list nat) : py tracker unit :=
  for_each (λ r, on_dev (allocate r u)) ds.

Definition allocate_container (u : string) : py tracker unit :=
  let! ds := gets (λ t, default [] (dget (claims t) (Some u))) in
  modify (λ t, set_claims (ddel (claims t) (Some u)) t);;;
  _allocate_container u ds;;;
  match ds with
  | [] => ret tt
  | _ => modify (λ t, set_allocations (dappend (allocations t) (Some u) ds) t)
  end.

Definition update_from_stale (r : nat) : py tracker unit :=
  let! d := read_dev r in
  let! o := gets (λ t, dget (stale t) (address d)) in
  modify (λ t, set_stale (ddel (stale t) (address d)) t);;;
  match o with
  | Some v => on_dev (mutate r (PciDevice.update_device v))
  | None => ret tt
  end.

Definition _free_device (r : nat) (container : container_arg) : py tracker unit :=
  let! freed_devs := on_dev (free r container) in
  update_from_stale r;;;
  for_each (λ r', on_stats (add_device r')) freed_devs.

(** [_remove_device_from_pci_mapping]; devices compare by [__eq__]. *)
Definition remove_from_mapping (t : tracker) (u : option string) (r : nat)
    (m : dict (option string) (list nat)) : dict (option string) (list nat) :=
  match remove_first (λ r', same_dev (st t) r' r) (default [] (dget m u)) with
  | Some [] => ddel m u
  | Some l => dset m u l
  | None => m
  end.

(** [free_device(dev, container)] for a copy [d] of a device. *)
Fixpoint free_device_in (l : list nat) (d : device) (u : string) : py tracker unit :=
  match l with
  | [] => ret tt
  | r :: l' =>
      let! i := on_dev (getattr (id d)) in
      let! d' := read_dev r in
      let! j := on_dev (getattr (id d')) in
      let! hit := (if bool_decide (i = j) then
                     let! o := on_dev (getattr (container_uuid d)) in
                     ret (bool_decide (o = Some u))
                   else ret false) in
      if hit : bool then
        modify (λ t, set_allocations (remove_from_mapping t (Some u) r (allocations t)) t);;;
        modify (λ t, set_claims (remove_from_mapping t (Some u) r (claims t)) t);;;
        _free_device r NoContainer
      else free_device_in l' d u
  end.

Definition free_device (d : device) (u : string) : py tracker unit :=
  let! l := gets pci_devs in free_device_in l d u.

Definition free_if_held (u : string) (r : nat) : py tracker unit :=
  let! d := read_dev r in
  if bool_decide (status d ∈ [CLAIMED; ALLOCATED]) then
    let! o := on_dev (getattr (container_uuid d)) in
    if bool_decide (o = Some u) then _free_device r NoContainer else ret tt
  else ret tt.

Definition _free_container (u : string) : py tracker unit :=
  let! l := gets pci_devs in for_each (free_if_held u) l.

Definition free_container (u : string) : py tracker unit :=
  let! a := gets (λ t, dget (allocations t) (Some u)) in
  modify (λ t, set_allocations (ddel (allocations t) (Some u)) t);;;
  match a with
  | Some (_ :: _) => _free_container u
  | _ =>
      let! c := gets (λ t, dget (claims t) (Some u)) in
      modify (λ t, set_claims (ddel (claims t) (Some u)) t);;;
      match c with
      | Some (_ :: _) => _free_container u
      | _ => ret tt
      end
  end.

Definition update_pci_for_container (u : string) (sign : Z) : py tracker unit :=
  let! l := gets pci_devs in
  match l with
  | [] => ret tt
  | _ =>
      (if bool_decide (sign = -1)%Z then free_container u else ret tt);;;
      (if bool_decide (sign = 1)%Z then allocate_container u else ret tt)
  end.

(** One of the two loops of [clean_usage]. *)
Definition clean_mapping (prj : tracker → dict (option string) (list nat))
    (upd : dict (option string) (list nat) → tracker → tracker)
    (existed : list (option string)) : py tracker unit :=
  let! keys := gets (λ t, dkeys (prj t)) in
  for_each (λ u,
    if bool_decide (u ∈ existed) then ret tt
    else
      let! ds := gets (λ t, default [] (dget (prj t) u)) in
      modify (λ t, upd (ddel (prj t) u) t);;;
      for_each (λ r, _free_device r NoContainer) ds) keys.

(** [clean_usage(containers, orphans)]; [existed] are the uuids of both. *)
Definition clean_usage (existed : list (option string)) : py tracker unit :=
  clean_mapping claims set_claims existed;;;
  clean_mapping allocations set_allocations existed.

(** [get_container_pci_devs(cnt, request_id)] on the list [cnt.pci_devices]; [None]
    selects generic requests, ["all"] every device. *)
Fixpoint get_container_pci_devs (l : list device) (rid : option string)
    : outcome exn (list device) :=
  match l with
  | [] => Ok []
  | d :: l' =>
      match request_id d with
      | None => Raise (Py NotImplementedError)
      | Some q =>
          match get_container_pci_devs l' rid with
          | Raise e => Raise e
          | Ok rest => Ok (if bool_decide (q = rid ∨ rid = Some "all") then d :: rest else rest)
          end
      end
  end.
End Tracker.

(** ** Lifting invariants *)

(** An invariant of one device, stated of the objects or of the tracker. *)
Definition dev_inv (P : device → Prop) (x : nat) (o : objs) : Prop := P (devs o !!! x).
Definition held_inv (P : device → Prop) (x : nat) (t : tracker) : Prop := P (device_of t x).

Lemma preserves_mutate (P : device → Prop) x r f :
  (∀ d, P d → P (f d)) → preserves (dev_inv P x) (mutate r f).
Proof.
  intros Hf. apply preserves_modify. intros o Ho. unfold dev_inv in *. simpl.
  rewrite lookup_upd. case_decide; auto.
Qed.

Lemma preserves_on_dev {A} P x (m : py objs A) :
  preserves (dev_inv P x) m → preserves (held_inv P x) (on_dev m).
Proof.
  intros Hm t Ht. unfold on_dev, zoom. specialize (Hm (so (st t)) Ht).
  destruct (m (so (st t))) as [[a|e] o]; exact Hm.
Qed.

(** The methods of the pools leave the devices alone. *)
Definition keeps_objs {A} (m : py stats A) : Prop := ∀ o, preserves (λ s, so s = o) m.

Lemma preserves_on_stats {A} P x (m : py stats A) :
  keeps_objs m → preserves (held_inv P x) (on_stats m).
Proof.
  intros Hm t Ht. unfold on_stats, zoom. specialize (Hm (so (st t)) (st t) eq_refl).
  unfold held_inv, device_of in *.
  destruct (m (st t)) as [[a|e] s]; simpl; by rewrite Hm.
Qed.

Lemma find_pool_keeps `{DevFilter} dp l : keeps_objs (find_pool dp l).
Proof.
  intros o. induction l as [|q l IH]; simpl; [apply preserves_ret|].
  unfold read_pool. keep.
Qed.

Lemma add_device_keeps `{DevFilter} r : keeps_objs (add_device r).
Proof.
  intros o. unfold add_device, _create_pool_keys_from_dev, _find_pool, new_pool.
  apply preserves_bind; [by intros s Hs; destruct (keys_of _)|]. intros [dp|]; [|keep].
  apply preserves_bind; [apply preserves_bind; [keep|]; intros l; apply find_pool_keeps|].
  intros found. apply preserves_bind; [destruct found; keep|intros q]; by apply preserves_modify.
Qed.

Lemma hoare_bind_last {E S A B} (m : M E S A) (f : A → M E S B) Q :
  (∀ a, hoare (λ _, True) (f a) Q (λ _ _, True)) →
  hoare (λ _, True) (bind m f) Q (λ _ _, True).
Proof.
  intros Hf. eapply (hoare_bind _ _ _ (λ _ _, True)); [|exact Hf].
  intros s _. by destruct (m s) as [[a|e] s'].
Qed.

Lemma free_available r :
  hoare (λ _, True) (free r NoContainer)
    (λ _ o, status (devs o !!! r) = AVAILABLE) (λ _ _, True).
Proof.
  unfold free. do 5 (apply hoare_bind_last; intros ?).
  intros o _. unfold mutate. steps. unfold ret. simpl. by rewrite !lookup_upd, !decide_True by done.
Qed.

Section Release.
Context `{DevFilter} (u : string).

(** Not assigned to the container [u]. *)
Definition not_of (d : device) : Prop :=
  ¬ (held d ∧ container_uuid d = Some (Some u)).

Lemma available_not_of d : status d = AVAILABLE → not_of d.
Proof. intros Hd [[Hh|Hh] _]; congruence. Qed.

Lemma free_not_of x r : preserves (dev_inv not_of x) (free r NoContainer).
Proof.
  assert (∀ q, preserves (dev_inv not_of x) (mutate q (set_status AVAILABLE))) as H1.
  { intros q. apply preserves_mutate. intros d _. by apply available_not_of. }
  assert (∀ q, preserves (dev_inv not_of x) (mutate q (set_container_uuid None))) as H2.
  { intros q. apply preserves_mutate. intros d _ [_ Hd]. discriminate Hd. }
  assert (∀ q, preserves (dev_inv not_of x) (mutate q (set_request_id None))) as H3.
  { intros q. apply preserves_mutate. intros d Hd. exact Hd. }
  assert (∀ q l, preserves (dev_inv not_of x) (siblings_available q l)) as H4.
  { intros q l. unfold siblings_available, dev, getattr, is_available. keep.
    induction l as [|v l IH]; simpl; keep. unfold dev. keep. }
  unfold free, dev, getattr. keep; unfold _bulk_update_status; keep.
Qed.

Lemma modify_tracker_inv P x f :
  (∀ t, so (st (f t)) = so (st t)) → preserves (E:=exn) (held_inv P x) (modify f).
Proof.
  intros Hf. apply preserves_modify. intros t Ht. unfold held_inv, device_of in *.
  by rewrite Hf.
Qed.

Lemma update_from_stale_not_of x r : preserves (held_inv not_of x) (update_from_stale r).
Proof.
  unfold update_from_stale, read_dev. keep; try by apply modify_tracker_inv.
  apply preserves_on_dev, preserves_mutate. intros ? Hd. exact Hd.
Qed.

#[local] Hint Resolve preserves_on_dev free_not_of update_from_stale_not_of
  preserves_on_stats add_device_keeps : py.

Lemma free_device_not_of x r : preserves (held_inv not_of x) (_free_device r NoContainer).
Proof.
  unfold _free_device. keep.
Qed.

#[local] Hint Resolve free_device_not_of : py.

Lemma free_if_held_not_of x r : preserves (held_inv not_of x) (free_if_held u r).
Proof.
  unfold free_if_held, read_dev, getattr. keep.
Qed.

(** One step of the release loop leaves its device unassigned. *)
Lemma free_if_held_done r :
  hoare (λ _, True) (free_if_held u r) (λ _ t, not_of (device_of t r)) (λ _ _, True).
Proof.
  intros t _. unfold free_if_held, read_dev. steps.
  case_bool_decide as Hst; cycle 1.
  { simpl. intros [[Hh|Hh] _]; apply Hst; set_solver. }
  unfold on_dev at 1, zoom, getattr, of_option, bind at 1.
  destruct (container_uuid (device_of t r)) as [o|] eqn:Ho; simpl; [|done].
  replace (set_st (on_objs (λ _, so (st t)) (st t)) t) with t; cycle 1.
  { destruct t as [[]]. reflexivity. }
  case_bool_decide as Hu; cycle 1.
  { intros [_ He]. congruence. }
  assert (hoare (λ _, True) (_free_device r NoContainer)
    (λ _ t', not_of (device_of t' r)) (λ _ _, True)) as Hfree; [|by apply Hfree].
  unfold _free_device. eapply (hoare_bind _ _ _ (λ _, held_inv not_of r)).
  - intros t' _. unfold on_dev, zoom. pose proof (free_available r (so (st t')) I) as Hf.
    destruct (free r NoContainer (so (st t'))) as [[l|e] o']; [|done].
    apply available_not_of. exact Hf.
  - intros l. eapply hoare_conseq; [|done|intros ? ? HQ; exact HQ|done].
    instantiate (1 := λ _, held_inv not_of r). change (preserves (held_inv not_of r)
      (update_from_stale r;;; for_each (λ r', on_stats (add_device r')) l)). keep.
Qed.

Lemma release_loop l :
  hoare (λ _, True) (for_each (free_if_held u) l)
    (λ _ t, ∀ r, r ∈ l → not_of (device_of t r)) (λ _ _, True).
Proof.
  induction l as [|r l IH].
  { intros t Ht. simpl. by intros r ?%elem_of_nil. }
  simpl.
  eapply hoare_bind; [apply free_if_held_done|]. intros ?.
  eapply hoare_conseq; [eapply (hoare_frame _ (held_inv not_of r)); [exact IH|]|..].
  - apply preserves_for_each. intros r' _. apply free_if_held_not_of.
  - done.
  - intros ? t [Hl Hr] r' [->|Hr']%elem_of_cons; [exact Hr|by apply Hl].
  - done.
Qed.
End Release.

(** ** Claims *)

(** Nothing but request ids (and change marks) differs from the heap [m]. *)
Definition like (m : gmap nat device) (s : stats) : Prop :=
  ∀ r, forget (the_dev s r) = forget (m !!! r).

Lemma like_of_keeps {A} m (f : py stats A) : keeps_objs f → preserves (like m) f.
Proof.
  intros Hf s Hs. specialize (Hf (so s) s eq_refl). unfold like, the_dev in *.
  destruct (f s) as [[a|e] s']; by rewrite Hf.
Qed.

Section Like.
Context `{DevFilter} (m : gmap nat device).

Lemma remove_device_keeps r : keeps_objs (remove_device r).
Proof.
  intros o. unfold remove_device, _create_pool_keys_from_dev, _find_pool,
    _decrease_pool_count, remove_pool, read_pool.
  apply preserves_bind; [by intros s Hs; destruct (keys_of _)|]. intros [dp|]; [|keep].
  apply preserves_bind; [apply preserves_bind; [keep|]; intros l; apply find_pool_keeps|].
  intros [q|]; keep; by apply preserves_modify.
Qed.

Lemma get_free_devs_keeps : keeps_objs get_free_devs.
Proof.
  intros o. unfold get_free_devs. keep. induction a as [|q l IH]; simpl; [keep|].
  unfold read_pool. keep.
Qed.

Lemma consume_like rqs nc : preserves (like m) (consume_requests rqs nc).
Proof.
  assert (∀ r, preserves (like m) (add_device r)) as Hadd
    by (intros; apply like_of_keeps, add_device_keeps).
  assert (∀ r, preserves (like m) (remove_device r)) as Hrem
    by (intros; apply like_of_keeps, remove_device_keeps).
  assert (preserves (like m) get_free_devs) as Hfree by apply like_of_keeps, get_free_devs_keeps.
  assert (∀ q f, preserves (E:=exn) (like m) (modify (upd_pool q f))) as Hupd
    by (intros; by apply preserves_modify).
  assert (∀ q, preserves (like m) (pop_device q)) as Hpop
    by (intros; unfold pop_device, read_pool; keep).
  assert (∀ r, preserves (like m) (_handle_device_dependents r)) as Hdep.
  { intros r. unfold _handle_device_dependents. keep. destruct (isinstance _ _); simplify_eq. keep. }
  assert (∀ n q rid, preserves (like m) (take_devices n q rid)) as Htake.
  { induction n as [|n IH]; intros q rid; simpl; keep.
    apply preserves_modify. intros s Hs r. unfold like, the_dev in *. simpl.
    rewrite lookup_upd, <- Hs. by case_decide. }
  assert (∀ l n rid, preserves (like m) (draw l n rid)) as Hdraw.
  { induction l as [|q l IH]; intros n rid; simpl; unfold read_pool; keep. }
  unfold consume_requests. generalize (@nil nat) as alloc.
  induction rqs as [|rq rqs IH]; intros alloc; simpl; keep.
Qed.
End Like.

Lemma ok_like m s : ok m → like m s → ok (devs (so s)).
Proof.
  intros Hok Hl. assert (∀ r, status (devs (so s) !!! r) = status (m !!! r)) as Hst
    by (intros r; exact (f_equal status (Hl r))).
  apply (ok_status m); [done| |].
  - intros r. split_and!; [exact (f_equal dev_type (Hl r))|exact (f_equal parent_device (Hl r))|
      exact (f_equal child_devices (Hl r))|exact (f_equal id (Hl r))].
  - intros p v Hp Hv _ _. unfold held, blocked. rewrite !Hst.
    by apply (ok_compatible m p v).
Qed.

Definition claimed_by (u : string) (d : device) : Prop :=
  status d = CLAIMED ∧ container_uuid d = Some (Some u).

Lemma claim_keeps_owner x r cu c :
  x ≠ r → preserves (dev_inv (λ d, container_uuid d = c) x) (claim r cu).
Proof.
  intros Hx. assert (∀ f, preserves (E:=exn) (dev_inv (λ d, container_uuid d = c) x)
    (modify (on_devs (upd r f)))) as Hr.
  { intros f. apply preserves_modify. intros o Ho. unfold dev_inv in *. simpl.
    by rewrite lookup_upd, decide_False. }
  assert (∀ q v, preserves (dev_inv (λ d, container_uuid d = c) x)
    (mutate q (set_status v))) as Hq by (intros; by apply preserves_mutate).
  assert (∀ l, preserves (dev_inv (λ d, container_uuid d = c) x) (all_available l)) as Ha.
  { intros l. unfold all_available, is_available, dev. keep.
    induction l as [|v l IH]; simpl; keep. }
  unfold claim, dev, _bulk_update_status. keep.
  all: unfold mutate; keep.
Qed.

Lemma claim_keeps_claimed u x r cu s :
  ok (devs s) → claimed_by u (devs s !!! x) → claimed_by u (devs (claim r cu s).2 !!! x).
Proof.
  intros Hok [Hs Ho]. pose proof (claim_spec r cu s (ok_linked _ Hok)) as Hspec.
  destruct (decide (x = r)) as [->|Hx].
  { destruct (claim r cu s) as [[[]|e] s']; [|by destruct Hspec as [-> _]].
    destruct Hspec as (Hst & _). congruence. }
  pose proof (claim_keeps_owner x r cu (Some (Some u)) Hx s Ho) as Hown.
  destruct (claim r cu s) as [[[]|e] s']; [|by destruct Hspec as [-> _]].
  destruct Hspec as (_ & Hvfs & Hpf & _ & _ & _ & Haft & _). split; [|exact Hown].
  rewrite Haft. unfold after. rewrite decide_False by done.
  case_decide as Hrel; [|done]. destruct (related_types _ _ _ (ok_linked _ Hok) Hrel)
    as [(Ht & _ & _ & Hc)|(Ht & _ & Hp & _)].
  - specialize (Hvfs Ht x Hc). apply list_elem_of_singleton in Hvfs. congruence.
  - specialize (Hpf x Ht Hp). rewrite Hs in Hpf. unfold parent_ok_statuses in Hpf. set_solver.
Qed.

Lemma claim_loop u l o :
  ok (devs o) →
  match for_each (λ r, claim r u) l o with
  | (Ok _, o') => ok (devs o') ∧ ∀ x, x ∈ l ∨ claimed_by u (devs o !!! x) →
                    claimed_by u (devs o' !!! x)
  | (Raise _, o') => ok (devs o')
  end.
Proof.
  revert o. induction l as [|r l IH]; intros o Hok.
  { simpl. split; [done|]. intros x [Hx|Hx]; [by apply elem_of_nil in Hx|done]. }
  simpl. pose proof (claim_ok r u o Hok) as Hok1.
  pose proof (λ x, claim_keeps_claimed u x r u o Hok) as Hkeep.
  pose proof (claim_spec r u o (ok_linked _ Hok)) as Hspec.
  destruct (claim r u o) as [[[]|e] o1] eqn:Hrun; step Hrun; simpl in Hok1; [|done].
  destruct Hspec as (_ & _ & _ & _ & _ & _ & Haft & Hown).
  assert (claimed_by u (devs o1 !!! r)) as Hr.
  { split; [|done]. rewrite Haft. unfold after. by rewrite decide_True. }
  specialize (IH o1 Hok1). destruct (for_each (λ r, claim r u) l o1) as [[[]|e] o2]; [|done].
  destruct IH as [Hok2 Hcl]. split; [done|]. intros x [Hx|Hx].
  - apply elem_of_cons in Hx as [->|Hx]; apply Hcl; [by right|by left].
  - apply Hcl. right. by apply Hkeep.
Qed.

Lemma on_dev_for_each {X} (f : X → py objs unit) l t :
  for_each (λ x, on_dev (f x)) l t = on_dev (for_each f l) t.
Proof.
  revert t. induction l as [|x l IH]; intros t.
  - unfold on_dev, zoom. simpl. by destruct t as [[]].
  - simpl. unfold bind at 1, on_dev at 1 3, zoom, bind.
    destruct (f x (so (st t))) as [[[]|e] o] eqn:Hf; [|done]. rewrite IH.
    unfold on_dev, zoom. simpl. destruct (for_each f l o) as [[?|?] ?]; by destruct t as [[]].
Qed.

(** ** Properties of the tracker *)

(** When [free_container] returns for a container that has devices, no device
    of the node is claimed by it or allocated to it any more. *)
Theorem free_container_releases `{DevFilter} u r rs t t' :
  dget (allocations t) (Some u) = Some (r :: rs) ∨
    dget (allocations t) (Some u) = None ∧ dget (claims t) (Some u) = Some (r :: rs) →
  free_container u t = (Ok tt, t') →
  ∀ x, x ∈ pci_devs t →
    ¬ (held (device_of t' x) ∧ container_uuid (device_of t' x) = Some (Some u)).
Proof.
  intros Hd. unfold free_container. steps.
  assert (∀ t0, pci_devs t0 = pci_devs t → _free_container u t0 = (Ok tt, t') →
    ∀ x, x ∈ pci_devs t → not_of u (device_of t' x)) as Hloop.
  { intros t0 Hp. unfold _free_container. steps. rewrite Hp. intros Hrun.
    pose proof (release_loop u (pci_devs t) t0 I) as Hl. by rewrite Hrun in Hl. }
  destruct Hd as [Ha|[Ha Hc]]; rewrite Ha; steps.
  - by apply Hloop.
  - cbn [claims set_allocations]. rewrite Hc. steps. by apply Hloop.
Qed.

(** Claiming devices for a container keeps physical and virtual functions
    exclusive whatever happens; when it answers with devices, each of them is in
    state claimed with that container as owner, and they are recorded under it;
    when it answers with none, the records are unchanged. *)
Theorem claim_container_effect `{DevFilter} u rqs t :
  ok (devs (so (st t))) →
  match claim_container u rqs t with
  | (Ok (Some (d :: ds)), t') => ok (devs (so (st t'))) ∧
      dget (claims t') (Some u) = Some (d :: ds) ∧
      ∀ x, x ∈ d :: ds → claimed_by u (device_of t' x)
  | (Ok _, t') => ok (devs (so (st t'))) ∧ claims t' = claims t
  | (Raise _, t') => ok (devs (so (st t')))
  end.
Proof.
  intros Hok. unfold claim_container. steps.
  destruct (pci_devs t) as [|r0 l0]; [done|]. destruct rqs as [|rq rqs]; [done|].
  unfold _claim_container. steps.
  pose proof (consume_like (devs (so (st t))) (rq :: rqs) None (st t) (λ r, eq_refl)) as Hl.
  unfold on_stats at 1, zoom, bind at 1.
  destruct (consume_requests (rq :: rqs) None (st t)) as [[[[|d ds]|]|e] s1];
    pose proof (ok_like _ _ Hok Hl) as Hok1; [by split| |by split|done]. steps.
  pose proof (claim_loop u (d :: ds) (so s1) Hok1) as Hc.
  assert (for_each (λ r, on_dev (claim r u)) (d :: ds) (set_st s1 t) =
          on_dev (for_each (λ r, claim r u) (d :: ds)) (set_st s1 t)) as Heach
    by apply on_dev_for_each.
  unfold on_dev at 2, zoom in Heach. simpl so in Heach. simpl st in Heach.
  destruct (for_each (λ r, claim r u) (d :: ds) (so s1)) as [[[]|e] o]; step Heach; [|done].
  destruct Hc as [Hok2 Hcl]. steps. simpl. split_and!; [done|apply dget_dset_eq|].
  intros x Hx. apply Hcl. by left.
Qed.

(** ** The device tree *)

(** What linking does not change. *)
Definition unlinked (d : device) : device := set_child_devices [] (set_parent_device None d).

Definition same_devices (m m' : gmap nat device) : Prop :=
  ∀ r, unlinked (m' !!! r) = unlinked (m !!! r).

Definition live_pf (d : device) : bool := negb (removed d) && bool_decide (dev_type d = SRIOV_PF).
Definition live_vf (d : device) : bool := negb (removed d) && bool_decide (dev_type d = SRIOV_VF).

Lemma unlinked_attrs d d' :
  unlinked d' = unlinked d →
  address d' = address d ∧ parent_addr d' = parent_addr d ∧ live_pf d' = live_pf d ∧
  live_vf d' = live_vf d ∧ removed d' = removed d ∧ dev_type d' = dev_type d.
Proof.
  intros He. pose proof (f_equal address He) as H1. pose proof (f_equal parent_addr He) as H2.
  pose proof (f_equal dev_type He) as H3. pose proof (f_equal status He) as H4.
  simpl in *. unfold live_pf, live_vf, removed. by rewrite H1, H2, H3, H4.
Qed.

Section Tree.
Context (m : gmap nat device).

Definition note_parent (parents : dict string nat) (r : nat) : dict string nat :=
  if live_pf (m !!! r) then dset parents (address (m !!! r)) r else parents.

(** The PF the loop finds for [v]. *)
Fixpoint resolve (l : list nat) (parents : dict string nat) (v : nat) : option nat :=
  match l with
  | [] => None
  | r :: l' =>
      if decide (r = v) then a ← parent_addr (m !!! v); dget parents a
      else resolve l' (note_parent parents r) v
  end.

Lemma on_dev_mutate r f t :
  on_dev (mutate r f) t = (Ok tt, set_st (on_objs (on_devs (upd r f)) (st t)) t).
Proof. done. Qed.

Lemma link_devs_spec l parents t :
  NoDup l → (∀ a p, dget parents a = Some p → p ∉ l) → same_devices m (devs (so (st t))) →
  ∃ t', link_devs l parents t = (Ok tt, t') ∧ pci_devs t' = pci_devs t ∧
    same_devices m (devs (so (st t'))) ∧
    (∀ v, v ∈ l → live_vf (m !!! v) = true →
       parent_device (device_of t' v) = resolve l parents v) ∧
    (∀ v, v ∉ l → parent_device (device_of t' v) = parent_device (device_of t v)) ∧
    (∀ v p, v ∈ child_devices (device_of t' p) ↔
       v ∈ l ∧ live_vf (m !!! v) = true ∧ resolve l parents v = Some p ∨
       ¬ (p ∈ l ∧ live_pf (m !!! p) = true) ∧ v ∈ child_devices (device_of t p)).
Proof.
  revert parents t. induction l as [|r l IH]; intros parents t Hnd Hpar Hsame.
  { exists t. split_and!; try done.
    - by intros v ?%elem_of_nil.
    - intros v p. split; [intros Hv; right; split; [|done]|intros [[Hv _]|[_ Hv]]; [|done]];
        [intros [Hp _]|]; by apply elem_of_nil in Hv || apply elem_of_nil in Hp. }
  apply NoDup_cons in Hnd as [Hr Hnd].
  destruct (unlinked_attrs _ _ (Hsame r)) as (Ha & Hpa & Hpf & Hvf & Hrm & Hty).
  assert (∀ t1 pars1, same_devices m (devs (so (st t1))) → pci_devs t1 = pci_devs t →
    pars1 = note_parent parents r →
    (∀ x, x ≠ r → parent_device (device_of t1 x) = parent_device (device_of t x)) →
    (live_vf (m !!! r) = true → parent_device (device_of t1 r) = resolve (r :: l) parents r) →
    (∀ v p, ¬ (p ∈ l ∧ live_pf (m !!! p) = true) → 
       v ∈ child_devices (device_of t1 p) ↔
       (v = r ∧ live_vf (m !!! r) = true ∧ resolve (r :: l) parents r = Some p) ∨
       ¬ (p = r ∧ live_pf (m !!! p) = true) ∧ v ∈ child_devices (device_of t p)) →
    (∀ p, live_vf (m !!! r) = true → resolve (r :: l) parents r = Some p → p ∉ r :: l) →
    ∃ t', link_devs l pars1 t1 = (Ok tt, t') ∧ pci_devs t' = pci_devs t ∧
      same_devices m (devs (so (st t'))) ∧
      (∀ v, v ∈ r :: l → live_vf (m !!! v) = true →
         parent_device (device_of t' v) = resolve (r :: l) parents v) ∧
      (∀ v, v ∉ r :: l → parent_device (device_of t' v) = parent_device (device_of t v)) ∧
      (∀ v p, v ∈ child_devices (device_of t' p) ↔
         v ∈ r :: l ∧ live_vf (m !!! v) = true ∧ resolve (r :: l) parents v = Some p ∨
         ¬ (p ∈ r :: l ∧ live_pf (m !!! p) = true) ∧ v ∈ child_devices (device_of t p)))
    as Hstep.
  { intros t1 pars1 Hs1 Hp1 -> Hpd1 Hr1 Hch1 Hfresh.
    destruct (IH (note_parent parents r) t1 Hnd) as (t' & Hrun & Hp' & Hs' & Hv' & Ho' & Hc');
      [|done|].
    { unfold note_parent. intros a p. destruct (live_pf (m !!! r)).
      - destruct (decide (address (m !!! r) = a)) as [<-|Hne].
        + rewrite dget_dset_eq. by intros [= <-].
        + rewrite dget_dset_ne by done. intros Hg. apply Hpar in Hg. set_solver.
      - intros Hg. apply Hpar in Hg. set_solver. }
    assert (∀ v, v ∈ l → resolve (r :: l) parents v = resolve l (note_parent parents r) v) as Hres.
    { intros v Hv. simpl. rewrite decide_False; [done|congruence]. }
    exists t'. split_and!; [done|congruence|done|..].
    - intros v [->|Hv]%elem_of_cons Hlv.
      + rewrite Ho' by done. by apply Hr1.
      + rewrite Hres by done. by apply Hv'.
    - intros v Hv. rewrite Ho' by set_solver. apply Hpd1. set_solver.
    - intros v p. rewrite Hc'. clear Hc'.
      destruct (decide (p ∈ l ∧ live_pf (m !!! p) = true)) as [Hpl|Hpl].
      + split.
        * intros [(Hv & Hlv & Hrp)|[[] _]]; [|done]. left.
          rewrite Hres by done. split_and!; [by right|done..].
        * intros [(Hv & Hlv & Hrp)|[Hn _]]; [|destruct Hn; split; [right|]; tauto].
          left. apply elem_of_cons in Hv as [->|Hv].
          { exfalso. apply (Hfresh p Hlv Hrp). right. tauto. }
          rewrite Hres in Hrp by done. done.
      + rewrite (Hch1 v p Hpl). split.
        * intros [(Hv & Hlv & Hrp)|[_ [(-> & Hlv & Hrp)|[Hn Hv]]]].
          { left. rewrite Hres by done. split_and!; [by right|done..]. }
          { left. split_and!; [left|done..]. }
          { right. split; [|done]. intros [[->|Hp]%elem_of_cons Hl]; tauto. }
        * intros [(Hv & Hlv & Hrp)|[Hn Hv]].
          { apply elem_of_cons in Hv as [->|Hv]; [right; split; [done|by left]|].
            left. by rewrite Hres in Hrp. }
          { right. split; [done|]. right. split; [|done]. intros [-> Hl]. apply Hn.
            split; [left|done]. } }
  simpl link_devs. unfold read_dev. steps. unfold device_of at 1.
  rewrite Hrm. clear IH.
  assert (∀ t1, live_pf (m !!! r) = false → live_vf (m !!! r) = false → t1 = t →
    (∀ v p, ¬ (p ∈ l ∧ live_pf (m !!! p) = true) → 
       v ∈ child_devices (device_of t1 p) ↔
       (v = r ∧ live_vf (m !!! r) = true ∧ resolve (r :: l) parents r = Some p) ∨
       ¬ (p = r ∧ live_pf (m !!! p) = true) ∧ v ∈ child_devices (device_of t p))) as Hplain.
  { intros t1 H1 H2 -> v p Hp. split; [intros Hv; right; split; [|done]; intros [-> ?]; congruence|].
    intros [(_ & ? & _)|[_ Hv]]; congruence. }
  destruct (removed (m !!! r)) eqn:Hrm'.
  { assert (live_pf (m !!! r) = false ∧ live_vf (m !!! r) = false) as [H1 H2]
      by (unfold live_pf, live_vf; by rewrite Hrm').
    apply Hstep; try congruence; try exact Hsame; try done;
      [unfold note_parent; by rewrite H1|by apply Hplain]. }
  unfold device_of. rewrite Hty. destruct (dev_type (m !!! r)) eqn:Hty'.
  - assert (live_pf (m !!! r) = false ∧ live_vf (m !!! r) = false) as [H1 H2]
      by (unfold live_pf, live_vf; by rewrite Hrm', Hty').
    apply Hstep; try congruence; try exact Hsame; try done;
      [unfold note_parent; by rewrite H1|by apply Hplain].
  - assert (live_pf (m !!! r) = true ∧ live_vf (m !!! r) = false) as [H1 H2]
      by (unfold live_pf, live_vf; by rewrite Hrm', Hty').
    step (on_dev_mutate r (set_child_devices []) t). rewrite Ha. apply Hstep; try congruence.
    + intros x. simpl. rewrite lookup_upd. case_decide; [|apply Hsame]. subst x.
      rewrite <- (Hsame r). done.
    + done.
    + unfold note_parent. by rewrite H1.
    + intros x Hx. unfold device_of. simpl. by rewrite lookup_upd, decide_False.
    + intros v p Hp. unfold device_of. simpl. rewrite lookup_upd. case_decide as Hpr.
      * subst p. simpl. split; [by intros ?%elem_of_nil|].
        intros [(_ & ? & _)|[Hn _]]; [congruence|]. by destruct Hn.
      * split; [intros Hv; right; split; [|done]; by intros [-> _]|].
        intros [(_ & ? & _)|[_ Hv]]; congruence.
  - assert (live_pf (m !!! r) = false ∧ live_vf (m !!! r) = true) as [H1 H2]
      by (unfold live_pf, live_vf; by rewrite Hrm', Hty').
    set (p0 := a ← parent_addr (m !!! r); dget parents a).
    assert (resolve (r :: l) parents r = p0) as Hres by (simpl; by rewrite decide_True).
    step (on_dev_mutate r (set_parent_device (a ← parent_addr (devs (so (st t)) !!! r);
      dget parents a)) t). rewrite Hpa. fold p0.
    assert (∀ p, p0 = Some p → p ∉ r :: l) as Hfresh.
    { intros p Hp. unfold p0 in Hp. apply bind_Some in Hp as (a & _ & Hp).
      by eapply Hpar. }
    set (t1 := set_st (on_objs (on_devs (upd r (set_parent_device p0))) (st t)) t).
    set (t2 := match p0 with
               | Some p => set_st (on_objs (on_devs (upd p
                    (λ d, set_child_devices (child_devices d ++ [r]) d))) (st t1)) t1
               | None => t1 end).
    assert (match p0 with
            | Some p => on_dev (mutate p (λ d, set_child_devices (child_devices d ++ [r]) d))
            | None => ret tt
            end t1 = (Ok tt, t2)) as Hrun by by destruct p0.
    step Hrun. clear Hrun.
    assert (∀ x, device_of t2 x = if decide (x = r) then set_parent_device p0 (device_of t r)
      else if decide (p0 = Some x)
           then set_child_devices (child_devices (device_of t x) ++ [r]) (device_of t x)
           else device_of t x) as Hdev.
    { intros x. unfold t2, device_of. destruct p0 as [p|]; simpl; rewrite !lookup_upd.
      - assert (p ≠ r) by (specialize (Hfresh p eq_refl); set_solver).
        repeat case_decide; congruence || (subst; rewrite ?decide_False by done; done) || done.
      - repeat case_decide; congruence. }
    apply Hstep.
    + intros x. change (devs (so (st t2)) !!! x) with (device_of t2 x). rewrite Hdev.
      rewrite <- (Hsame x). unfold device_of. repeat case_decide; by subst.
    + unfold t2. by destruct p0.
    + unfold note_parent. by rewrite H1.
    + intros x Hx. rewrite Hdev, decide_False by done. by case_decide.
    + intros _. by rewrite Hdev, decide_True.
    + intros v p Hp. rewrite Hdev, Hres. case_decide as Hpr.
      * subst p. simpl. split; [intros Hv; right; split; [|done]; intros [_ ?]; congruence|].
        intros [(_ & _ & Hp0)|[_ Hv]]; [|done]. exfalso. apply (Hfresh r Hp0). left.
      * case_decide as Hpp; simpl.
        { rewrite elem_of_app, list_elem_of_singleton. split.
          - intros [Hv| ->]; [right; split; [by intros [? _]|done]|by left].
          - intros [(-> & _)|[_ Hv]]; [by right|by left]. }
        { split; [intros Hv; right; split; [by intros [? _]|done]|].
          intros [(_ & _ & Hp0)|[_ Hv]]; congruence. }
    + intros p _. rewrite Hres. apply Hfresh.
Qed.

Lemma resolve_split l1 v l2 parents :
  v ∉ l1 → resolve (l1 ++ v :: l2) parents v =
    (a ← parent_addr (m !!! v); dget (foldl note_parent parents l1) a).
Proof.
  revert parents. induction l1 as [|r l1 IH]; intros parents Hv; simpl.
  - by rewrite decide_True.
  - rewrite decide_False by set_solver. apply IH. set_solver.
Qed.

Definition distinct_addresses (l : list nat) : Prop :=
  ∀ r r', r ∈ l → r' ∈ l → address (m !!! r) = address (m !!! r') → r = r'.

Lemma foldl_note l a p :
  distinct_addresses l →
  dget (foldl note_parent [] l) a = Some p ↔
  p ∈ l ∧ live_pf (m !!! p) = true ∧ address (m !!! p) = a.
Proof.
  induction l as [|r l IH] using rev_ind; intros Hd; simpl.
  { split; [done|]. by intros [?%elem_of_nil _]. }
  rewrite foldl_app. simpl. rewrite elem_of_app, list_elem_of_singleton.
  assert (distinct_addresses l) as Hdl
    by (intros x y Hx Hy; apply Hd; rewrite elem_of_app; by left).
  specialize (IH Hdl). unfold note_parent at 1.
  destruct (live_pf (m !!! r)) eqn:Hlr; [|rewrite IH; split; [tauto|]; intros ([?| ->] & ? & ?); [tauto|congruence]].
  destruct (decide (address (m !!! r) = a)) as [<-|Ha].
  - rewrite dget_dset_eq. split; [intros [= ->]; auto|]. intros ([Hp| ->] & Hl & He); [|done].
    f_equal. apply Hd; [|rewrite elem_of_app; by left|done].
    rewrite elem_of_app. right. left.
  - rewrite dget_dset_ne by done. rewrite IH. split; [tauto|]. intros ([?| ->] & ? & ?); [tauto|congruence].
Qed.

(** On a list sorted by address, a PF precedes its VF exactly when its address
    does. *)
Lemma resolve_sorted l v p :
  distinct_addresses l → NoDup l → v ∈ l →
  StronglySorted (λ r r', String.le (address (m !!! r)) (address (m !!! r'))) l →
  live_vf (m !!! v) = true →
  resolve l [] v = Some p ↔
  p ∈ l ∧ live_pf (m !!! p) = true ∧ parent_addr (m !!! v) = Some (address (m !!! p)) ∧
  String.le (address (m !!! p)) (address (m !!! v)).
Proof.
  intros Hd Hnd Hv Hs Hlv. apply list_elem_of_split in Hv as (l1 & l2 & ->).
  apply NoDup_app in Hnd as (_ & Hv1 & [Hv2 _]%NoDup_cons).
  assert (v ∉ l1) as Hvl by (intros Hv; apply (Hv1 v Hv); left).
  rewrite resolve_split by done. rewrite bind_Some.
  assert (∀ x, x ∈ l1 → String.le (address (m !!! x)) (address (m !!! v))) as Hbefore.
  { intros x Hx. clear -Hs Hx. induction l1 as [|y l1 IH]; [by apply elem_of_nil in Hx|].
    simpl in Hs. apply StronglySorted_inv in Hs as [Hs Hy].
    apply elem_of_cons in Hx as [->|Hx]; [|by apply IH]. rewrite Forall_forall in Hy.
    apply Hy. set_solver. }
  assert (∀ x, x ∈ l2 → String.le (address (m !!! v)) (address (m !!! x))) as Hafter.
  { intros x Hx. clear -Hs Hx. induction l1 as [|y l1 IH]; simpl in Hs;
      apply StronglySorted_inv in Hs as [Hs Hy]; [|by apply IH].
    rewrite Forall_forall in Hy. by apply Hy. }
  assert (distinct_addresses l1) as Hd1
    by (intros x y Hx Hy; apply Hd; rewrite elem_of_app; by left).
  split.
  - intros (a & Ha & Hp). apply foldl_note in Hp as (Hp & Hl & <-); [|done].
    split_and!; [rewrite elem_of_app; by left|done..|by apply Hbefore].
  - intros (Hp & Hl & Ha & Hle). exists (address (m !!! p)). split; [done|].
    apply foldl_note; [done|]. split_and!; [|done..].
    apply elem_of_app in Hp as [Hp|Hp]; [done|]. exfalso.
    assert (p = v) as ->.
    { apply elem_of_cons in Hp as [->|Hp]; [done|].
      apply Hd; [rewrite elem_of_app, elem_of_cons; auto..|].
      apply (anti_symm String.le); [done|by apply Hafter]. }
    unfold live_pf, live_vf in *. destruct (removed _), (dev_type _); done.
Qed.
End Tree.

(** [_build_device_tree] links every live virtual function to the live
    physical function of the node whose address is its parent address and sorts
    before its own, and lists it among that PF's children; and links nothing
    else.  Nothing but the links changes, and the list is the same up to order. *)
Theorem build_device_tree_links t :
  NoDup (pci_devs t) → distinct_addresses (devs (so (st t))) (pci_devs t) →
  ∃ t', _build_device_tree t = (Ok tt, t') ∧ pci_devs t' ≡ₚ pci_devs t ∧
    (∀ r, unlinked (device_of t' r) = unlinked (device_of t r)) ∧
    ∀ p v, p ∈ pci_devs t → v ∈ pci_devs t →
      live_pf (device_of t p) = true → live_vf (device_of t v) = true →
      let child := parent_addr (device_of t v) = Some (address (device_of t p)) ∧
                   String.le (address (device_of t p)) (address (device_of t v)) in
      (parent_device (device_of t' v) = Some p ↔ child) ∧
      (v ∈ child_devices (device_of t' p) ↔ child).
Proof.
  intros Hnd Hd. set (m := devs (so (st t))) in *.
  set (l := stable_sort (by_address t) (pci_devs t)).
  assert (l ≡ₚ pci_devs t) as Hl by apply stable_sort_perm.
  assert (StronglySorted (by_address t) l) as Hs.
  { apply (stable_sort_sorted (by_address t)). }
  assert (distinct_addresses m l) as Hdl by (intros x y; rewrite Hl; apply Hd).
  assert (NoDup l) as Hndl by by rewrite Hl.
  unfold _build_device_tree. steps. fold l.
  destruct (link_devs_spec m l [] (set_pci_devs l t)) as (t' & Hrun & Hp & Hsame & Hpar & _ & Hch);
    [done..|].
  exists t'. split_and!; [exact Hrun|by rewrite Hp|exact Hsame|].
  intros p v Hpin Hvin Hlp Hlv. rewrite <- Hl in Hpin, Hvin.
  change (device_of t p) with (m !!! p) in *. change (device_of t v) with (m !!! v) in *.
  assert (resolve m l [] v = Some p ↔ parent_addr (m !!! v) = Some (address (m !!! p)) ∧
    String.le (address (m !!! p)) (address (m !!! v))) as Hres.
  { rewrite (resolve_sorted m l v p) by done. tauto. }
  split.
  - by rewrite Hpar, Hres.
  - rewrite Hch, Hres. tauto.
Qed.

(** ** Examples *)

(** A node with a PF (0) and two VFs (2 and 1), freshly loaded. *)
Definition row (i : Z) (addr : string) (t : PciDeviceType) (parent : option string)
    (s : PciDeviceStatus) (owner : option string) : device :=
  mkDev (Some i) addr (Some "node1") addr "8086" "1520" t s None None (Some owner) (Some None) ∅
    (Some None) parent None [] ∅.

Definition node (ds : list device) : tracker :=
  mkTracker (empty_stats ds) (seq 0 (length ds)) [] [] [] "node1" (length ds).

Definition sriov_rows : list device :=
  [row 1 "0000:81:00.0" SRIOV_PF None AVAILABLE None;
   row 2 "0000:81:10.2" SRIOV_VF (Some "0000:81:00.0") AVAILABLE None;
   row 3 "0000:81:10.0" SRIOV_VF (Some "0000:81:00.0") AVAILABLE None].

Lemma build_device_tree_links_witness :
  ∃ t', _build_device_tree (node sriov_rows) = (Ok tt, t') ∧
    parent_device (device_of t' 1) = Some 0 ∧ 2 ∈ child_devices (device_of t' 0).
Proof.
  destruct (build_device_tree_links (node sriov_rows)) as (t' & Hrun & _ & _ & Hlinks).
  - apply (bool_decide_eq_true_1 _). vm_compute. reflexivity.
  - intros x y Hx Hy. vm_compute in Hx, Hy.
    repeat (apply elem_of_cons in Hx as [->|Hx]; [|try by apply elem_of_nil in Hx]);
      repeat (apply elem_of_cons in Hy as [->|Hy]; [|try by apply elem_of_nil in Hy]);
      vm_compute; done.
  - exists t'. split; [exact Hrun|].
    assert (0 ∈ pci_devs (node sriov_rows) ∧ 1 ∈ pci_devs (node sriov_rows) ∧
            2 ∈ pci_devs (node sriov_rows)) as (H0 & H1 & H2) by (vm_compute; set_solver).
    split.
    + apply (Hlinks 0 1 H0 H1); [by vm_compute..|]. split; by vm_compute.
    + apply (Hlinks 0 2 H0 H2); [by vm_compute..|]. split; by vm_compute.
Defined.

(** A claimed VF is released with its container. *)
Definition claimed_node : tracker :=
  (init (H:=vendor_filter) (node
    [row 1 "0000:81:00.0" SRIOV_PF None UNCLAIMABLE None;
     row 2 "0000:81:10.0" SRIOV_VF (Some "0000:81:00.0") CLAIMED (Some "c1")])).2.

Lemma free_container_releases_witness :
  ¬ (held (device_of (free_container (H:=vendor_filter) "c1" claimed_node).2 1) ∧
     container_uuid (device_of (free_container (H:=vendor_filter) "c1" claimed_node).2 1) =
       Some (Some "c1")).
Proof.
  apply (free_container_releases (H:=vendor_filter) "c1" 1 [] claimed_node
    (free_container (H:=vendor_filter) "c1" claimed_node).2).
  - right. split; by vm_compute.
  - by vm_compute.
  - vm_compute. right. left.
Defined.

Definition plain_node : tracker :=
  (_initial_instance_usage (H:=vendor_filter)
     (node [row 1 "0000:81:00.0" STANDARD None AVAILABLE None])).2.

Lemma plain_ok m : (∀ r, dev_type (m !!! r) = STANDARD) → ok m.
Proof.
  intros Hm. split; [split|intros p Hp|split]; intros *; try (rewrite Hm; done).
  rewrite Hm in Hp. done.
Qed.

Lemma claim_container_effect_witness :
  ∃ t', claim_container (H:=vendor_filter) "c1" [ask 1] plain_node = (Ok (Some [0]), t') ∧
    claimed_by "c1" (device_of t' 0).
Proof.
  pose proof (claim_container_effect (H:=vendor_filter) "c1" [ask 1] plain_node) as Hc.
  destruct (claim_container (H:=vendor_filter) "c1" [ask 1] plain_node) as [o t'] eqn:Hrun.
  assert (o = Ok (Some [0])) as -> by
    (change o with (o, t').1; rewrite <- Hrun; by vm_compute).
  exists t'. split; [reflexivity|]. apply Hc; [|left]. apply plain_ok. intros r.
  assert (devs (so (st plain_node)) =
    <[ 0 := row 1 "0000:81:00.0" STANDARD None AVAILABLE None ]> ∅) as -> by by vm_compute.
  destruct r as [|r]; [by vm_compute|]. rewrite lookup_total_insert_ne by done.
  reflexivity.
Defined.

(** Two devices hot-removed at once: the save of the first one takes it out of
    the list under iteration, and the second one is skipped. *)
Definition hot_removed : tracker :=
  let r i addr := set_status REMOVED (row i addr STANDARD None AVAILABLE None) in
  let t := node [r 1%Z "0000:81:00.0"; r 2%Z "0000:82:00.0"] in
  set_st (on_objs (λ o, mkObjs (devs o) (PciDevice.pci_devices o)
    (<[ (Some "node1", "0000:81:00.0") := r 1%Z "0000:81:00.0" ]>
     (<[ (Some "node1", "0000:82:00.0") := r 2%Z "0000:82:00.0" ]> ∅))) (st t)) t.

Lemma save_skips_a_removed_device :
  let t' := (save hot_removed).2 in
  (save hot_removed).1 = Ok tt ∧ pci_devs t' = [1] ∧
  status (device_of t' 1) = REMOVED ∧
  db (so (st t')) !! (Some "node1", "0000:82:00.0") ≠ None.
Proof. split_and!; by vm_compute. Qed.
