(* ===== verification/Numa.v ===== *)
(** * NUMA topology of a compute node (src/zun/objects/numa.py)

    A NUMA cell holds the set of its CPUs and the set of those pinned to a
    container.  [pin_cpus] and [unpin_cpus] are methods that mutate the cell, so
    they run on the state [NUMANode]. *)

From S2P Require Import Prelude Exceptions.

Record NUMANode : Type := mkNode {
  id : Z;
  cpuset : gset Z;
  pinned_cpus : gset Z;
  mem_total : option Z;
  mem_available : option Z
}.

#[export] Instance NUMANode_eq_dec : EqDecision NUMANode.
Proof. solve_decision. Defined.

Definition set_pinned (p : gset Z) (n : NUMANode) : NUMANode :=
  mkNode (id n) (cpuset n) p (mem_total n) (mem_available n).
Definition set_mem_available (m : option Z) (n : NUMANode) : NUMANode :=
  mkNode (id n) (cpuset n) (pinned_cpus n) (mem_total n) m.

Definition free_cpus (n : NUMANode) : gset Z := cpuset n ∖ pinned_cpus n.
Definition avail_cpus (n : NUMANode) : nat := size (free_cpus n).

Definition pin_cpus (cpus : gset Z) : py NUMANode unit :=
  let! self := get in
  raise_if (bool_decide (cpus ∖ cpuset self ≠ ∅)) (Zun CPUPinningUnknown);;;
  raise_if (bool_decide (pinned_cpus self ∩ cpus ≠ ∅)) (Zun CPUPinningInvalid);;;
  modify (set_pinned (pinned_cpus self ∪ cpus)).

Definition unpin_cpus (cpus : gset Z) : py NUMANode unit :=
  let! self := get in
  raise_if (bool_decide (cpus ∖ cpuset self ≠ ∅)) (Zun CPUUnpinningUnknown);;;
  raise_if (bool_decide (pinned_cpus self ∩ cpus ≠ cpus)) (Zun CPUUnpinningInvalid);;;
  modify (set_pinned (pinned_cpus self ∖ cpus)).

(** The dictionary stored in the database; [None] is a missing key or a null. *)
Record node_dict : Type := mkNodeDict {
  d_id : option Z;
  d_cpuset : option (list Z);
  d_pinned_cpus : option (list Z);
  d_mem_total : option Z;
  d_mem_available : option Z
}.

Definition node_to_dict (n : NUMANode) : node_dict :=
  mkNodeDict (Some (id n)) (Some (elements (cpuset n))) (Some (elements (pinned_cpus n)))
    (mem_total n) (mem_available n).

(** [set(None)] is a [TypeError]; [id] is not nullable, so its field refuses
    [None]. *)
Definition node_from_dict (d : node_dict) : outcome exn NUMANode :=
  match d_pinned_cpus d with
  | None => Raise (Py TypeError)
  | Some pinned =>
      match d_id d with
      | None => Raise (Py ValueError)
      | Some i =>
          Ok (mkNode i (list_to_set (default [] (d_cpuset d))) (list_to_set pinned)
                (d_mem_total d) (d_mem_available d))
      end
  end.

(** [NUMATopology]: the list of the cells. *)
Definition NUMATopology : Type := list NUMANode.

Definition topology_to_list (t : NUMATopology) : list node_dict := node_to_dict <$> t.

Fixpoint topology_from_list (l : list node_dict) : outcome exn NUMATopology :=
  match l with
  | [] => Ok []
  | d :: l' =>
      match node_from_dict d with
      | Raise e => Raise e
      | Ok n => match topology_from_list l' with
                | Raise e => Raise e
                | Ok ns => Ok (n :: ns)
                end
      end
  end.

(** ** Lemmas *)

(** A cell pins only CPUs it has. *)
Definition node_ok (n : NUMANode) : Prop := pinned_cpus n ⊆ cpuset n.

Lemma set_pinned_same n : set_pinned (pinned_cpus n) n = n.
Proof. by destruct n. Qed.

Lemma pin_cpus_spec cpus n :
  pin_cpus cpus n =
  if decide (cpus ⊆ cpuset n) then
    if decide (cpus ## pinned_cpus n) then (Ok tt, set_pinned (pinned_cpus n ∪ cpus) n)
    else (Raise (Zun CPUPinningInvalid), n)
  else (Raise (Zun CPUPinningUnknown), n).
Proof.
  unfold pin_cpus. steps. unfold raise_if.
  destruct (decide (cpus ⊆ cpuset n)) as [Hs|Hs].
  - rewrite bool_decide_eq_false_2 by set_solver. steps.
    destruct (decide (cpus ## pinned_cpus n)) as [Hd|Hd].
    + rewrite bool_decide_eq_false_2 by set_solver. by steps.
    + rewrite bool_decide_eq_true_2 by set_solver. by steps.
  - rewrite bool_decide_eq_true_2 by (intros H; apply Hs; set_solver). by steps.
Qed.

Lemma unpin_cpus_spec cpus n :
  unpin_cpus cpus n =
  if decide (cpus ⊆ cpuset n) then
    if decide (cpus ⊆ pinned_cpus n) then (Ok tt, set_pinned (pinned_cpus n ∖ cpus) n)
    else (Raise (Zun CPUUnpinningInvalid), n)
  else (Raise (Zun CPUUnpinningUnknown), n).
Proof.
  unfold unpin_cpus. steps. unfold raise_if.
  destruct (decide (cpus ⊆ cpuset n)) as [Hs|Hs].
  - rewrite bool_decide_eq_false_2 by set_solver. steps.
    destruct (decide (cpus ⊆ pinned_cpus n)) as [Hd|Hd].
    + rewrite bool_decide_eq_false_2 by (intros H; apply H; set_solver). by steps.
    + rewrite bool_decide_eq_true_2 by (intros H; apply Hd; set_solver). by steps.
  - rewrite bool_decide_eq_true_2 by (intros H; apply Hs; set_solver). by steps.
Qed.

Lemma pin_cpus_ok cpus : preserves node_ok (pin_cpus cpus).
Proof.
  intros n Hok. rewrite pin_cpus_spec. repeat case_decide; try done.
  unfold node_ok in *. simpl. set_solver.
Qed.

Lemma unpin_cpus_ok cpus : preserves node_ok (unpin_cpus cpus).
Proof.
  intros n Hok. rewrite unpin_cpus_spec. repeat case_decide; try done.
  unfold node_ok in *. simpl. set_solver.
Qed.

#[export] Hint Resolve pin_cpus_ok unpin_cpus_ok : py.

Lemma node_from_to_dict n : node_from_dict (node_to_dict n) = Ok n.
Proof.
  unfold node_from_dict. simpl. do 2 f_equal.
  destruct n; simpl. f_equal; apply leibniz_equiv, list_to_set_elements.
Qed.

(** ** Properties *)

(** Pinning CPUs succeeds exactly when they are free CPUs of the cell; it
    takes exactly them out of the free ones, keeps the pinned CPUs within the
    cell, and unpinning the same CPUs gives back the cell as it was. *)
Theorem pin_unpin_roundtrip cpus n :
  node_ok n →
  match pin_cpus cpus n with
  | (Ok _, n') => cpus ⊆ free_cpus n ∧ node_ok n' ∧ free_cpus n' = free_cpus n ∖ cpus ∧
      (avail_cpus n' + size cpus = avail_cpus n)%nat ∧ unpin_cpus cpus n' = (Ok tt, n)
  | (Raise _, n') => ¬ cpus ⊆ free_cpus n ∧ n' = n
  end.
Proof.
  intros Hok. pose proof (pin_cpus_ok cpus n Hok) as Hp. revert Hp. unfold free_cpus.
  rewrite pin_cpus_spec. destruct (decide (cpus ⊆ cpuset n)) as [Hs|Hs]; [|set_solver].
  destruct (decide (cpus ## pinned_cpus n)) as [Hd|Hd]; [|intros _; split; [set_solver|done]].
  intros Hp. assert (free_cpus (set_pinned (pinned_cpus n ∪ cpus) n) = free_cpus n ∖ cpus)
    as Hf by (unfold free_cpus; simpl; set_solver).
  assert (cpus ⊆ free_cpus n) as Hin by (unfold free_cpus; set_solver).
  split_and!; [done..| |].
  - unfold avail_cpus. rewrite Hf, size_difference by done.
    pose proof (subseteq_size _ _ Hin). lia.
  - rewrite unpin_cpus_spec. simpl. rewrite !decide_True by set_solver.
    do 2 f_equal. destruct n; unfold set_pinned; simpl in *. f_equal. set_solver.
Qed.

(** A topology written to the database as a list of dictionaries is read back
    unchanged. *)
Lemma topology_roundtrip t : topology_from_list (topology_to_list t) = Ok t.
Proof.
  induction t as [|n t IH]; [done|].
  change (topology_to_list (n :: t)) with (node_to_dict n :: topology_to_list t).
  cbn [topology_from_list]. by rewrite node_from_to_dict, IH.
Qed.

(** ** Witnesses *)

Definition cell : NUMANode := mkNode 0 {[ 0; 1; 2; 3 ]}%Z {[ 3 ]}%Z (Some 4096%Z) (Some 4096%Z).

Lemma pin_unpin_roundtrip_witness :
  node_ok cell ∧ (pin_cpus {[ 0; 2 ]}%Z cell).1 = Ok tt ∧
  free_cpus (pin_cpus {[ 0; 2 ]}%Z cell).2 = {[ 1 ]}%Z ∧
  unpin_cpus {[ 0; 2 ]}%Z (pin_cpus {[ 0; 2 ]}%Z cell).2 = (Ok tt, cell).
Proof.
  assert (node_ok cell) as Hok by (by apply (bool_decide_eq_true_1 _); vm_compute).
  assert ((pin_cpus {[ 0; 2 ]}%Z cell).1 = Ok tt) as Hrun by (vm_compute; reflexivity).
  pose proof (pin_unpin_roundtrip {[ 0; 2 ]}%Z cell Hok) as H.
  destruct (pin_cpus {[ 0; 2 ]}%Z cell) as [[u|e] n'] eqn:Hp; [|discriminate Hrun].
  destruct H as (_ & _ & Hf & _ & Hu). split_and!; [done|by destruct u| |exact Hu].
  simpl. rewrite Hf. by apply (bool_decide_eq_true_1 _); vm_compute.
Defined.
