(* ===== verification/Container.v ===== *)
(** * Containers (src/zun/objects/container.py, src/zun/common/consts.py)

    The container object that the API, the scheduler and the compute manager pass
    around, with the fields their logic reads; the states it can be in; the
    database rows behind it; and the table of the states in which each operation
    is allowed (src/zun/common/utils.py).

    Containers are shared mutable objects (a claim, the manager and the driver
    hold the same one), so they live in a heap and a reference is an index.  The
    database rows are kept in insertion order; a row holds the modelled columns
    and [save] writes all of them, so writers that race with the owner of the
    object are outside the model. *)

From S2P Require Import Prelude Exceptions.

(** consts.CONTAINER_STATUSES *)
Inductive ContainerStatus : Type :=
| ERROR | RUNNING | STOPPED | PAUSED | UNKNOWN | CREATING | CREATED
| DELETED | DELETING | REBUILDING | DEAD | RESTARTING.

(** consts.TASK_STATES *)
Inductive TaskState : Type :=
| IMAGE_PULLING | CONTAINER_CREATING | CONTAINER_STARTING | CONTAINER_DELETING
| CONTAINER_STOPPING | CONTAINER_REBOOTING | CONTAINER_PAUSING | CONTAINER_UNPAUSING
| CONTAINER_KILLING | SG_ADDING | SG_REMOVING | NETWORK_ATTACHING | NETWORK_DETACHING
| CONTAINER_REBUILDING.

(** The class of the object, which is also the column [container_type]. *)
Inductive ContainerType : Type :=
| TYPE_CONTAINER | TYPE_CAPSULE | TYPE_CAPSULE_CONTAINER | TYPE_CAPSULE_INIT_CONTAINER.

#[export] Instance ContainerStatus_eq_dec : EqDecision ContainerStatus.
Proof. solve_decision. Defined.
#[export] Instance TaskState_eq_dec : EqDecision TaskState.
Proof. solve_decision. Defined.
#[export] Instance ContainerType_eq_dec : EqDecision ContainerType.
Proof. solve_decision. Defined.

(** [Cpuset]: a field is unset ([None]), null ([Some None]) or a set. *)
Record Cpuset : Type := mkCpuset {
  cpuset_cpus : option (option (gset Z));
  cpuset_mems : option (option (gset Z))
}.

#[export] Instance Cpuset_eq_dec : EqDecision Cpuset.
Proof. solve_decision. Defined.

(** The dictionary of the column [cpuset]; a missing key reads as null. *)
Record cpuset_dict : Type := mkCpusetDict {
  dict_cpus : option (gset Z);
  dict_mems : option (gset Z)
}.

Definition getattr {S A} (o : option A) : py S A := of_option o (Py NotImplementedError).

Definition cpuset_to_dict {S} (c : Cpuset) : py S cpuset_dict :=
  let! cpus := getattr (cpuset_cpus c) in
  let! mems := getattr (cpuset_mems c) in
  ret (mkCpusetDict cpus mems).

Definition cpuset_from_dict (d : option cpuset_dict) : Cpuset :=
  match d with
  | None => mkCpuset (Some None) (Some None)
  | Some d => mkCpuset (Some (dict_cpus d)) (Some (dict_mems d))
  end.

(** One address of a container, as [addresses] lists them under its network. *)
Record address : Type := mkAddress {
  a_addr : option string;
  a_version : option Z;
  a_port : option string;
  a_subnet_id : option string;
  a_preserve_on_delete : option bool
}.

#[export] Instance address_eq_dec : EqDecision address.
Proof. solve_decision. Defined.

(** [memory] is the text of a number of MiB, [cpu] a float. *)
Record container : Type := mkContainer {
  uuid : string;
  ctype : ContainerType;
  name : option string;
  container_id : option string;
  status : option ContainerStatus;
  task_state : option TaskState;
  host : option string;
  cpu : option Qc;
  cpu_policy : option string;
  cpuset : option Cpuset;
  memory : option string;
  disk : option Z;
  runtime : option string;
  auto_remove : option bool;
  security_groups : list string;
  auto_heal : option bool;
  project_id : option string;
  user_id : option string;
  image : option string;
  image_driver : option string;
  interactive : option bool;
  addresses : dict string (list address)
}.

#[export] Instance container_eq_dec : EqDecision container.
Proof. solve_decision. Defined.

#[export] Instance container_inhabited : Inhabited container := populate {|
  uuid := ""; ctype := TYPE_CONTAINER; name := None; container_id := None;
  status := None; task_state := None; host := None; cpu := None; cpu_policy := None;
  cpuset := None; memory := None; disk := None; runtime := None; auto_remove := None;
  security_groups := []; auto_heal := None; project_id := None; user_id := None; image := None;
  image_driver := None; interactive := None; addresses := [] |}.

Definition set_status (v : option ContainerStatus) (c : container) : container :=
  mkContainer (uuid c) (ctype c) (name c) (container_id c) v (task_state c) (host c) (cpu c)
    (cpu_policy c) (cpuset c) (memory c) (disk c) (runtime c) (auto_remove c) (security_groups c)
    (auto_heal c) (project_id c) (user_id c) (image c)
    (image_driver c) (interactive c) (addresses c).
Definition set_task_state (v : option TaskState) (c : container) : container :=
  mkContainer (uuid c) (ctype c) (name c) (container_id c) (status c) v (host c) (cpu c)
    (cpu_policy c) (cpuset c) (memory c) (disk c) (runtime c) (auto_remove c) (security_groups c)
    (auto_heal c) (project_id c) (user_id c) (image c)
    (image_driver c) (interactive c) (addresses c).
Definition set_host (v : option string) (c : container) : container :=
  mkContainer (uuid c) (ctype c) (name c) (container_id c) (status c) (task_state c) v (cpu c)
    (cpu_policy c) (cpuset c) (memory c) (disk c) (runtime c) (auto_remove c) (security_groups c)
    (auto_heal c) (project_id c) (user_id c) (image c)
    (image_driver c) (interactive c) (addresses c).
Definition set_cpu_policy (v : option string) (c : container) : container :=
  mkContainer (uuid c) (ctype c) (name c) (container_id c) (status c) (task_state c) (host c)
    (cpu c) v (cpuset c) (memory c) (disk c) (runtime c) (auto_remove c) (security_groups c)
    (auto_heal c) (project_id c) (user_id c) (image c)
    (image_driver c) (interactive c) (addresses c).
Definition set_cpuset (v : option Cpuset) (c : container) : container :=
  mkContainer (uuid c) (ctype c) (name c) (container_id c) (status c) (task_state c) (host c)
    (cpu c) (cpu_policy c) v (memory c) (disk c) (runtime c) (auto_remove c) (security_groups c)
    (auto_heal c) (project_id c) (user_id c) (image c)
    (image_driver c) (interactive c) (addresses c).
Definition set_disk (v : option Z) (c : container) : container :=
  mkContainer (uuid c) (ctype c) (name c) (container_id c) (status c) (task_state c) (host c)
    (cpu c) (cpu_policy c) (cpuset c) (memory c) v (runtime c) (auto_remove c)
    (security_groups c) (auto_heal c) (project_id c) (user_id c) (image c)
    (image_driver c) (interactive c) (addresses c).
Definition set_container_id (v : option string) (c : container) : container :=
  mkContainer (uuid c) (ctype c) (name c) v (status c) (task_state c) (host c) (cpu c)
    (cpu_policy c) (cpuset c) (memory c) (disk c) (runtime c) (auto_remove c) (security_groups c)
    (auto_heal c) (project_id c) (user_id c) (image c)
    (image_driver c) (interactive c) (addresses c).
Definition set_runtime (v : option string) (c : container) : container :=
  mkContainer (uuid c) (ctype c) (name c) (container_id c) (status c) (task_state c) (host c)
    (cpu c) (cpu_policy c) (cpuset c) (memory c) (disk c) v (auto_remove c) (security_groups c)
    (auto_heal c) (project_id c) (user_id c) (image c)
    (image_driver c) (interactive c) (addresses c).
Definition set_security_groups (v : list string) (c : container) : container :=
  mkContainer (uuid c) (ctype c) (name c) (container_id c) (status c) (task_state c) (host c)
    (cpu c) (cpu_policy c) (cpuset c) (memory c) (disk c) (runtime c) (auto_remove c) v (auto_heal c) (project_id c) (user_id c) (image c)
    (image_driver c) (interactive c) (addresses c).

Definition set_uuid (u : string) (c : container) : container :=
  mkContainer u (ctype c) (name c) (container_id c) (status c) (task_state c) (host c) (cpu c)
    (cpu_policy c) (cpuset c) (memory c) (disk c) (runtime c) (auto_remove c) (security_groups c)
    (auto_heal c) (project_id c) (user_id c) (image c)
    (image_driver c) (interactive c) (addresses c).
Definition set_name (v : option string) (c : container) : container :=
  mkContainer (uuid c) (ctype c) v (container_id c) (status c) (task_state c) (host c) (cpu c)
    (cpu_policy c) (cpuset c) (memory c) (disk c) (runtime c) (auto_remove c) (security_groups c)
    (auto_heal c) (project_id c) (user_id c) (image c)
    (image_driver c) (interactive c) (addresses c).
Definition set_image (v : option string) (c : container) : container :=
  mkContainer (uuid c) (ctype c) (name c) (container_id c) (status c) (task_state c) (host c) (cpu c)
    (cpu_policy c) (cpuset c) (memory c) (disk c) (runtime c) (auto_remove c) (security_groups c)
    (auto_heal c) (project_id c) (user_id c) v
    (image_driver c) (interactive c) (addresses c).
Definition set_image_driver (v : option string) (c : container) : container :=
  mkContainer (uuid c) (ctype c) (name c) (container_id c) (status c) (task_state c) (host c) (cpu c)
    (cpu_policy c) (cpuset c) (memory c) (disk c) (runtime c) (auto_remove c) (security_groups c)
    (auto_heal c) (project_id c) (user_id c) (image c)
    v (interactive c) (addresses c).
Definition set_addresses (v : dict string (list address)) (c : container) : container :=
  mkContainer (uuid c) (ctype c) (name c) (container_id c) (status c) (task_state c) (host c) (cpu c)
    (cpu_policy c) (cpuset c) (memory c) (disk c) (runtime c) (auto_remove c) (security_groups c)
    (auto_heal c) (project_id c) (user_id c) (image c)
    (image_driver c) (interactive c) v.

(** ** The object heap and the table [container] *)

Record store : Type := mkStore {
  objects : list container;
  rows : dict string container
}.

Definition obj (s : store) (r : nat) : container := objects s !!! r.

Definition read (r : nat) : py store container := gets (λ s, obj s r).
Definition mutate (r : nat) (f : container → container) : py store unit :=
  modify (λ s, mkStore (alter f r (objects s)) (rows s)).
Definition alloc (c : container) : py store nat :=
  let! r := gets (λ s, length (objects s)) in
  modify (λ s, mkStore (objects s ++ [c]) (rows s));;;
  ret r.

(** The row a query filtered by type and uuid finds. *)
Definition find_row (s : store) (c : container) : option container :=
  match dget (rows s) (uuid c) with
  | Some row => if decide (ctype row = ctype c) then Some row else None
  | None => None
  end.

(** The cpuset is converted before the row is written. *)
Definition convert_cpuset {S} (c : container) : py S unit :=
  match cpuset c with
  | Some cs => let! _d := cpuset_to_dict cs in ret tt
  | None => ret tt
  end.

Definition save (r : nat) : py store unit :=
  let! c := read r in
  convert_cpuset c;;;
  let! s := get in
  match find_row s c with
  | None => raise (Zun ContainerNotFound)
  | Some _ => modify (λ s, mkStore (objects s) (dset (rows s) (uuid c) c))
  end.

Definition destroy (r : nat) : py store unit :=
  let! c := read r in
  let! s := get in
  match find_row s c with
  | None => raise (Zun ContainerNotFound)
  | Some _ => modify (λ s, mkStore (objects s) (ddel (rows s) (uuid c)))
  end.

(** Each listed row becomes a new object. *)
Definition list_by_host (t : ContainerType) (h : string) : py store (list nat) :=
  let! s := get in
  map_m alloc
    (filter (λ c, bool_decide (ctype c = t ∧ host c = Some h)) (dvalues (rows s))).

(** ** Which states allow which operation *)

Definition VALID_STATES : dict string (list ContainerStatus) :=
  [("commit", [RUNNING; STOPPED; PAUSED]);
   ("delete", [CREATED; ERROR; STOPPED; DELETED; DEAD]);
   ("delete_force", [CREATED; CREATING; ERROR; RUNNING; STOPPED; UNKNOWN; DELETED; DEAD;
                     RESTARTING; REBUILDING; DELETING]);
   ("delete_after_stop", [RUNNING; CREATED; ERROR; STOPPED; DELETED; DEAD]);
   ("start", [CREATED; STOPPED; ERROR]);
   ("stop", [RUNNING]);
   ("reboot", [CREATED; RUNNING; STOPPED; ERROR]);
   ("rebuild", [CREATED; RUNNING; STOPPED; ERROR]);
   ("pause", [RUNNING]);
   ("unpause", [PAUSED]);
   ("kill", [RUNNING]);
   ("execute", [RUNNING]);
   ("execute_resize", [RUNNING]);
   ("update", [CREATED; RUNNING; STOPPED; PAUSED]);
   ("attach", [RUNNING]);
   ("resize", [RUNNING]);
   ("top", [RUNNING]);
   ("get_archive", [CREATED; PAUSED; RUNNING; STOPPED]);
   ("put_archive", [CREATED; PAUSED; RUNNING; STOPPED]);
   ("logs", [CREATED; ERROR; PAUSED; RUNNING; STOPPED; UNKNOWN]);
   ("stats", [RUNNING]);
   ("add_security_group", [CREATED; RUNNING; STOPPED; PAUSED]);
   ("remove_security_group", [CREATED; RUNNING; STOPPED; PAUSED]);
   ("resize_container", [CREATED; RUNNING; STOPPED; PAUSED])].

Definition validate_container_state {S} (c : container) (action : string) : py S unit :=
  let! states := of_option (dget VALID_STATES action) (Py KeyError) in
  raise_if (negb (existsb (λ st, bool_decide (status c = Some st)) states))
    (Zun InvalidStateException).

(** The object has a row, and its cpuset can be written. *)
Definition saveable (s : store) (r : nat) : Prop :=
  is_Some (find_row s (obj s r)) ∧ (convert_cpuset (obj s r) tt).1 = Ok tt.

(** ** What an operation may touch *)

(** Only the object [r] and the row of its uuid, and not the identity or the
    task of the object. *)
Record only (r : nat) (st st' : store) : Prop := mkOnly {
  only_length : length (objects st') = length (objects st);
  only_objects : ∀ q, q ≠ r → obj st' q = obj st q;
  only_uuid : uuid (obj st' r) = uuid (obj st r);
  only_ctype : ctype (obj st' r) = ctype (obj st r);
  only_task : task_state (obj st' r) = task_state (obj st r);
  only_keys : dkeys (rows st') = dkeys (rows st);
  only_rows : ∀ u, u ≠ uuid (obj st r) → dget (rows st') u = dget (rows st) u;
  only_saveable : saveable st r → saveable st' r
}.

#[export] Instance only_preorder r : PreOrder (only r).
Proof.
  split; [by split|]. intros s1 s2 s3 [L1 O1 U1 C1 T1 K1 R1 W1] [L2 O2 U2 C2 T2 K2 R2 W2].
  split; try congruence; [|by intros u Hu; rewrite R2 by congruence; apply R1|auto].
  intros q Hq. by rewrite O2, O1.
Qed.

Lemma obj_alter_at st f r q :
  r < length (objects st) →
  obj (mkStore (alter f r (objects st)) (rows st)) q = if decide (q = r) then f (obj st r) else obj st q.
Proof.
  intros Hr. unfold obj. simpl. rewrite !list_lookup_total_alt. destruct (decide (q = r)) as [->|Hq].
  - rewrite list_lookup_alter_eq. destruct (lookup_lt_is_Some_2 (objects st) r Hr) as [c Hc].
    by rewrite Hc.
  - by rewrite list_lookup_alter_ne.
Qed.

(** A change of the object that keeps its identity, its task and its cpuset. *)
Definition milder (c c' : container) : Prop :=
  uuid c' = uuid c ∧ ctype c' = ctype c ∧ task_state c' = task_state c ∧ cpuset c' = cpuset c.
Definition mild (f : container → container) : Prop := ∀ c, milder c (f c).

Lemma alter_ge {A} (f : A → A) (l : list A) i : length l ≤ i → alter f i l = l.
Proof.
  intros Hi. apply list_eq. intros j. destruct (decide (i = j)) as [<-|Hj].
  - by rewrite list_lookup_alter_eq, lookup_ge_None_2.
  - by rewrite list_lookup_alter_ne.
Qed.

Lemma alter_twice {A} (f g : A → A) (l : list A) i : alter g i (alter f i l) = alter (λ x, g (f x)) i l.
Proof.
  apply list_eq. intros j. destruct (decide (i = j)) as [<-|Hj].
  - rewrite !list_lookup_alter_eq. by destruct (l !! i).
  - by rewrite !list_lookup_alter_ne.
Qed.

Lemma alter_only r f st :
  milder (obj st r) (f (obj st r)) →
  only r st (mkStore (alter f r (objects st)) (rows st)).
Proof.
  intros (Hu & Hc & Ht & Hs). destruct (decide (r < length (objects st))) as [Hr|Hr].
  - split; try done; rewrite ?(obj_alter_at st f r r Hr), ?decide_True by done; try done.
    + simpl. by rewrite length_alter.
    + intros q Hq. rewrite obj_alter_at by done. by rewrite decide_False.
    + unfold saveable. rewrite (obj_alter_at st f r r Hr), decide_True by done.
      unfold find_row, convert_cpuset. simpl. by rewrite Hu, Hc, Hs.
  - rewrite alter_ge by lia. by destruct st.
Qed.

Lemma mutate_only r f : mild f → keeps (only r) (mutate r f).
Proof.
  intros Hf s o s'. unfold mutate, modify. intros [= _ <-].
  apply alter_only, Hf.
Qed.

Lemma convert_cpuset_state {S} c (s : S) o s' : convert_cpuset c s = (o, s') → s' = s.
Proof.
  assert (keeps (E:=exn) eq (convert_cpuset (S:=S) c)) as Hk.
  { unfold convert_cpuset, cpuset_to_dict, getattr. keep_rel. }
  intros H. symmetry. exact (Hk _ _ _ H).
Qed.

(** A save that succeeds writes the object over its row. *)
Lemma save_Ok r s u s' :
  save r s = (Ok u, s') →
  is_Some (find_row s (obj s r)) ∧
  s' = mkStore (objects s) (dset (rows s) (uuid (obj s r)) (obj s r)).
Proof.
  unfold save, read. rewrite bind_gets. intros H. apply bind_Ok in H as (v & s1 & H1 & H).
  apply convert_cpuset_state in H1 as ->. rewrite bind_get in H.
  destruct (find_row s (obj s r)); [|done]. injection H as _ <-. eauto.
Qed.

Lemma save_Raise r s e s' : save r s = (Raise e, s') → s' = s.
Proof.
  unfold save, read. rewrite bind_gets. intros H. apply bind_Raise in H as [H|(v & s1 & H1 & H)].
  - by apply convert_cpuset_state in H.
  - apply convert_cpuset_state in H1 as ->. rewrite bind_get in H.
    destruct (find_row s (obj s r)); [done|]. by injection H as _ <-.
Qed.

Lemma find_row_Some s c : is_Some (find_row s c) ↔ ∃ row, dget (rows s) (uuid c) = Some row ∧ ctype row = ctype c.
Proof.
  unfold find_row. destruct (dget (rows s) (uuid c)) as [row|].
  - case_decide; split; [eauto|by eexists|by intros []|intros (? & [= <-] & ?); done].
  - split; [by intros []|by intros (? & ? & _)].
Qed.

Lemma save_only r : keeps (only r) (save r).
Proof.
  intros s o s' H. destruct o as [u|e].
  - apply save_Ok in H as [Hr ->]. pose proof Hr as Hrow. apply find_row_Some in Hrow as (row & Hd & Hc).
    split; try done; simpl.
    + apply dkeys_dset_Some. apply dget_Some_keys. eauto.
    + intros v Hv. by rewrite dget_dset_ne.
    + intros [_ Hs]. split; [|exact Hs]. apply find_row_Some. simpl. rewrite dget_dset_eq. eauto.
  - by apply save_Raise in H as ->.
Qed.

(** After a successful save the row is the object. *)
Lemma save_row r s u s' :
  save r s = (Ok u, s') → dget (rows s') (uuid (obj s' r)) = Some (obj s' r).
Proof. intros [_ ->]%save_Ok. simpl. apply dget_dset_eq. Qed.

Lemma convert_cpuset_run {S T} c (s : S) (t : T) : (convert_cpuset c s).1 = (convert_cpuset c t).1.
Proof.
  unfold convert_cpuset, cpuset_to_dict, getattr. destruct (cpuset c) as [[[x|] [y|]]|]; done.
Qed.

Lemma save_saveable r s :
  saveable s r →
  save r s = (Ok tt, mkStore (objects s) (dset (rows s) (uuid (obj s r)) (obj s r))).
Proof.
  intros [[row Hr] Hc]. unfold save, read. rewrite bind_gets.
  destruct (convert_cpuset (obj s r) s) as [o s1] eqn:H1.
  pose proof (convert_cpuset_state _ _ _ _ H1) as ->.
  assert (o = Ok tt) as -> by (rewrite <- Hc, <- (convert_cpuset_run _ s tt), H1; done).
  step H1. rewrite bind_get, Hr. done.
Qed.

(** Updates that keep what [save] needs. *)
Definition plain_update (f : container → container) : Prop :=
  ∀ c, uuid (f c) = uuid c ∧ ctype (f c) = ctype c ∧ cpuset (f c) = cpuset c.

Lemma saveable_alter r f s :
  plain_update f → saveable s r → saveable (mkStore (alter f r (objects s)) (rows s)) r.
Proof.
  intros Hf [Hr Hc]. destruct (decide (r < length (objects s))) as [Hl|Hl].
  - unfold saveable. rewrite obj_alter_at, decide_True by done.
    destruct (Hf (obj s r)) as (Hu & Ht & Hs). unfold find_row, convert_cpuset in *. simpl.
    by rewrite Hu, Ht, Hs.
  - rewrite alter_ge by lia. by destruct s.
Qed.

Lemma plain_status v : plain_update (set_status v).
Proof. by intros []. Qed.
Lemma plain_task_state v : plain_update (set_task_state v).
Proof. by intros []. Qed.
Lemma plain_host v : plain_update (set_host v).
Proof. by intros []. Qed.
#[export] Hint Resolve plain_status plain_task_state plain_host : py.
Lemma mild_status v : mild (set_status v).
Proof. by intros []. Qed.
Lemma mild_runtime v : mild (set_runtime v).
Proof. by intros []. Qed.
Lemma mild_host v : mild (set_host v).
Proof. by intros []. Qed.
Lemma mild_disk v : mild (set_disk v).
Proof. by intros []. Qed.
Lemma mild_security_groups (f : container → list string) : mild (λ c, set_security_groups (f c) c).
Proof. by intros []. Qed.
Lemma mild_image_driver v : mild (set_image_driver v).
Proof. by split. Qed.
Lemma mild_addresses (f : container → dict string (list address)) : mild (λ c, set_addresses (f c) c).
Proof. by split. Qed.
#[export] Hint Resolve mild_status mild_runtime mild_host mild_disk mild_security_groups mild_image_driver
  mild_addresses : py.

(** ** Writing a field of an object, and its row *)

Definition write (r : nat) (f : container → container) (s : store) : store :=
  let objs := alter f r (objects s) in
  mkStore objs (dset (rows s) (uuid (objs !!! r)) (objs !!! r)).

Lemma write_obj r f s q :
  r < length (objects s) → obj (write r f s) q = if decide (q = r) then f (obj s r) else obj s q.
Proof. intros Hr. by rewrite <- (obj_alter_at s f r q Hr). Qed.

Lemma write_length r f s : length (objects (write r f s)) = length (objects s).
Proof. simpl. by rewrite length_alter. Qed.

Lemma write_row r f s :
  dget (rows (write r f s)) (uuid (obj (write r f s) r)) = Some (obj (write r f s) r).
Proof. apply dget_dset_eq. Qed.

Lemma mutate_save_run r f s :
  saveable s r → plain_update f → (mutate r f;;; save r) s = (Ok tt, write r f s).
Proof.
  intros Hs Hf. unfold mutate. rewrite bind_modify. by rewrite save_saveable by by apply saveable_alter.
Qed.

Lemma write_saveable r f s :
  r < length (objects s) → plain_update f → saveable s r → saveable (write r f s) r.
Proof.
  intros Hr Hf Hs. pose proof (saveable_alter r f s Hf Hs) as Hs'.
  pose proof (save_saveable _ _ Hs') as Hrun. by apply (only_saveable _ _ _ (save_only r _ _ _ Hrun)).
Qed.

(** Fields of one object written twice around changes of that object only: if the
    task is back to what it was, the whole is a change of that object only. *)
Lemma write_only r f s1 g s2 s :
  r < length (objects s) → plain_update f → plain_update g → saveable s r →
  s1 = write r f s → only r s1 s2 → task_state (g (obj s2 r)) = task_state (obj s r) →
  only r s (write r g s2).
Proof.
  intros Hr Hf Hg Hs -> [L O U C T K R W] Ht.
  assert (r < length (objects s2)) as Hr2 by (by rewrite L, write_length).
  destruct (Hf (obj s r)) as (Fu & Fc & Fs). destruct (Hg (obj s2 r)) as (Gu & Gc & Gs).
  pose proof (write_obj r f s) as Wf. pose proof (write_obj r g s2) as Wg.
  assert (uuid (obj (write r f s) r) = uuid (obj s r)) as Wu by (by rewrite Wf, decide_True, Fu).
  assert (uuid (obj (write r g s2) r) = uuid (obj s r)) as Wu2.
  { rewrite Wg, decide_True, Gu, U by done. exact Wu. }
  assert (dget (rows s) (uuid (obj s r)) ≠ None) as Hrow.
  { destruct Hs as [(row & Hd & _)%find_row_Some _]. by rewrite Hd. }
  assert (dkeys (rows (write r f s)) = dkeys (rows s)) as Wk.
  { apply dkeys_dset_Some, dget_Some_keys. change (objects (write r f s) !!! r) with (obj (write r f s) r).
    change (alter f r (objects s) !!! r) with (obj (write r f s) r). rewrite Wu.
    by destruct (dget (rows s) _) eqn:?; [eexists|]. }
  split.
  - by rewrite write_length, L, write_length.
  - intros q Hq. rewrite Wg, decide_False, O, Wf, decide_False by done. done.
  - exact Wu2.
  - rewrite Wg, decide_True, Gc, C, Wf, decide_True, Fc by done. done.
  - by rewrite Wg, decide_True by done.
  - rewrite <- Wk, <- K. apply dkeys_dset_Some, dget_Some_keys.
    change (alter g r (objects s2) !!! r) with (obj (write r g s2) r).
    assert (uuid (obj s r) ∈ dkeys (rows s2)) as Hin.
    { rewrite K, Wk. apply dget_Some_keys. destruct (dget (rows s) _) eqn:?; [by eexists|done]. }
    rewrite Wu2. by apply dget_Some_keys.
  - intros u Hu. simpl. rewrite dget_dset_ne.
    + rewrite R by by rewrite Wu. simpl. by rewrite dget_dset_ne by (by change (uuid (obj (write r f s) r) ≠ u); rewrite Wu).
    + change (uuid (obj (write r g s2) r) ≠ u). by rewrite Wu2.
  - intros _. apply write_saveable; [done..|]. apply W. by apply write_saveable.
Qed.
