(* ===== verification/ComputeNode.v ===== *)
(** * Compute nodes (src/zun/objects/compute_node.py)

    The record of a host that the resource tracker keeps up to date and the
    scheduler reads, and the table behind it (src/zun/db/sqlalchemy/api.py).
    Sizes are MiB (memory) and GiB (disk); [cpu_used] is a float, hence a
    rational.  The timestamps and the versioned-object change sets are not
    modelled: [save] writes every modelled column. *)

From S2P Require Import Prelude Exceptions PciSpec PciStats Numa.

Record ComputeNode : Type := mkNode {
  uuid : string;
  rp_uuid : option string;
  numa_topology : option NUMATopology;
  hostname : string;
  mem_total : Z;
  mem_free : Z;
  mem_available : Z;
  mem_used : Z;
  total_containers : Z;
  running_containers : Z;
  paused_containers : Z;
  stopped_containers : Z;
  cpus : Z;
  cpu_used : Qc;
  os_info : list (option string);      (** architecture, os_type, os, kernel_version *)
  labels : option (gmap string string);
  pci_device_pools : option (list pool_obj);
  disk_total : Z;
  disk_used : Z;
  disk_quota_supported : bool;
  runtimes : option (list string);
  enable_cpu_pinning : bool
}.

#[export] Instance pool_obj_eq_dec : EqDecision pool_obj.
Proof. solve_decision. Defined.
#[export] Instance ComputeNode_eq_dec : EqDecision ComputeNode.
Proof. solve_decision. Defined.

(** The attributes the resource tracker assigns. *)
Definition set_usage (free used running : Z) (cpu : Qc) (disk : Z) (n : ComputeNode)
    : ComputeNode :=
  mkNode (uuid n) (rp_uuid n) (numa_topology n) (hostname n) (mem_total n) free
    (mem_available n) used (total_containers n) running (paused_containers n)
    (stopped_containers n) (cpus n) cpu (os_info n) (labels n) (pci_device_pools n)
    (disk_total n) disk (disk_quota_supported n) (runtimes n) (enable_cpu_pinning n).
Definition set_numa (t : option NUMATopology) (n : ComputeNode) : ComputeNode :=
  mkNode (uuid n) (rp_uuid n) t (hostname n) (mem_total n) (mem_free n)
    (mem_available n) (mem_used n) (total_containers n) (running_containers n)
    (paused_containers n) (stopped_containers n) (cpus n) (cpu_used n) (os_info n) (labels n)
    (pci_device_pools n) (disk_total n) (disk_used n) (disk_quota_supported n) (runtimes n)
    (enable_cpu_pinning n).
Definition set_rp_uuid (u : option string) (n : ComputeNode) : ComputeNode :=
  mkNode (uuid n) u (numa_topology n) (hostname n) (mem_total n) (mem_free n)
    (mem_available n) (mem_used n) (total_containers n) (running_containers n)
    (paused_containers n) (stopped_containers n) (cpus n) (cpu_used n) (os_info n) (labels n)
    (pci_device_pools n) (disk_total n) (disk_used n) (disk_quota_supported n) (runtimes n)
    (enable_cpu_pinning n).
Definition set_pci_device_pools (l : option (list pool_obj)) (n : ComputeNode) : ComputeNode :=
  mkNode (uuid n) (rp_uuid n) (numa_topology n) (hostname n) (mem_total n) (mem_free n)
    (mem_available n) (mem_used n) (total_containers n) (running_containers n)
    (paused_containers n) (stopped_containers n) (cpus n) (cpu_used n) (os_info n) (labels n)
    l (disk_total n) (disk_used n) (disk_quota_supported n) (runtimes n)
    (enable_cpu_pinning n).

(** ** The table [compute_node]

    A row keeps the topology as dictionaries. *)
Record row : Type := mkRow {
  row_node : ComputeNode;                 (** with no topology *)
  row_numa : option (list node_dict)
}.

#[export] Instance node_dict_eq_dec : EqDecision node_dict.
Proof. solve_decision. Defined.

Abbreviation table := (list row).

Definition row_uuid (w : row) : string := uuid (row_node w).

(** [_from_db_object]: [NUMATopology._from_dict(None)] fails. *)
Definition _from_db_object {S} (w : row) : py S ComputeNode :=
  match row_numa w with
  | None => raise (Py AttributeError)
  | Some l =>
      match topology_from_list l with
      | Ok t => ret (set_numa (Some t) (row_node w))
      | Raise e => raise e
      end
  end.

Definition to_row (old : option (list node_dict)) (n : ComputeNode) : row :=
  mkRow (set_numa None n)
    (match numa_topology n with Some t => Some (topology_to_list t) | None => old end).

Definition get_by_name (h : string) : py table ComputeNode :=
  let! t := get in
  match filter (λ w, hostname (row_node w) = h) t with
  | [] => raise (Zun ComputeNodeNotFound)
  | [w] => _from_db_object w
  | _ => raise (Zun Conflict)
  end.

(** Listings are sorted by the default key [uuid]. *)
Definition by_uuid : relation row := λ w w', String.le (row_uuid w) (row_uuid w').
#[export] Instance by_uuid_dec : RelDecision by_uuid.
Proof. intros w w'. unfold by_uuid. apply _. Defined.

(** The filters of a listing; [None] is a missing key. *)
Record node_filters : Type := mkFilters {
  f_hostname : option string;
  f_rp_uuid : option (list string)
}.

Definition listed (f : node_filters) (w : row) : bool :=
  match f_hostname f with
  | None => true
  | Some h => bool_decide (hostname (row_node w) = h)
  end &&
  match f_rp_uuid f, rp_uuid (row_node w) with
  | None, _ => true
  | Some us, Some u => bool_decide (u ∈ us)
  | Some _, None => false
  end.

(** [ComputeNode.list] *)
Definition list_nodes (f : node_filters) : py table (list ComputeNode) :=
  let! t := get in
  map_m _from_db_object (stable_sort by_uuid (filter (λ w, listed f w = true) t)).

(** The uuid of a new node is the one [n] was given. *)
Definition create (n : ComputeNode) : py table ComputeNode :=
  let! t := get in
  raise_if (existsb (λ w, bool_decide (row_uuid w = uuid n)) t)
    (Zun ComputeNodeAlreadyExists);;;
  let n := match rp_uuid n with
           | None => set_rp_uuid (Some (uuid n)) n
           | Some u => if str_true u then n else set_rp_uuid (Some (uuid n)) n
           end in
  let w := to_row None n in
  put (t ++ [w]);;;
  _from_db_object w.

Definition save (n : ComputeNode) : py table unit :=
  let! t := get in
  match filter (λ w, row_uuid w = uuid n) t with
  | [] => raise (Zun ComputeNodeNotFound)
  | _ => put ((λ w, if decide (row_uuid w = uuid n) then to_row (row_numa w) n else w) <$> t)
  end.

(** ** Lemmas *)

(** The row of [n] is the only one with its name or its uuid. *)
Definition stored (n : ComputeNode) (t : table) : Prop :=
  is_Some (numa_topology n) ∧ ∃ t1 t2, t = t1 ++ to_row None n :: t2 ∧
    Forall (λ w, hostname (row_node w) ≠ hostname n ∧ row_uuid w ≠ uuid n) (t1 ++ t2).

Lemma to_row_old old n : is_Some (numa_topology n) → to_row old n = to_row None n.
Proof. intros [t Ht]. unfold to_row. by rewrite Ht. Qed.

Lemma from_to_row {S} old n (s : S) :
  is_Some (numa_topology n) → _from_db_object (to_row old n) s = (Ok n, s).
Proof.
  intros [t Ht]. unfold _from_db_object, to_row. rewrite Ht. cbn [row_numa row_node].
  rewrite topology_roundtrip. destruct n; simpl in *. by subst.
Qed.

Lemma filter_none {A} (Q : A → Prop) `{∀ x, Decision (Q x)} l :
  Forall (λ x, ¬ Q x) l → filter Q l = [].
Proof.
  induction 1 as [|x l Hx Hl IH]; [done|]. by rewrite filter_cons_False.
Qed.

Lemma filter_one {A} (Q : A → Prop) `{∀ x, Decision (Q x)} l1 x l2 :
  Q x → Forall (λ y, ¬ Q y) (l1 ++ l2) → filter Q (l1 ++ x :: l2) = [x].
Proof.
  intros Hx [H1 H2]%Forall_app. by rewrite filter_app, filter_cons_True, !filter_none.
Qed.

Lemma get_by_name_stored n t : stored n t → get_by_name (hostname n) t = (Ok n, t).
Proof.
  intros (Hn & t1 & t2 & -> & Ht). unfold get_by_name. steps.
  rewrite filter_one; [by apply from_to_row|done|].
  eapply Forall_impl; [exact Ht|]. by intros w [Hw _].
Qed.

Lemma save_stored n n' t :
  stored n t → uuid n' = uuid n → hostname n' = hostname n → is_Some (numa_topology n') →
  ∃ t', save n' t = (Ok tt, t') ∧ stored n' t'.
Proof.
  intros (Hn & t1 & t2 & -> & Ht) Hu Hh Hn'. unfold save. steps.
  assert (Forall (λ w, ¬ row_uuid w = uuid n') (t1 ++ t2)) as Hne.
  { eapply Forall_impl; [exact Ht|]. rewrite Hu. by intros w [_ Hw]. }
  rewrite filter_one; [|by rewrite Hu|done]. eexists. split; [reflexivity|].
  split; [done|]. exists t1, t2. split.
  - rewrite fmap_app, fmap_cons. apply Forall_app in Hne as [H1 H2].
    assert (∀ l, Forall (λ w, ¬ row_uuid w = uuid n') l →
      (λ w, if decide (row_uuid w = uuid n') then to_row (row_numa w) n' else w) <$> l = l) as Hid.
    { induction 1 as [|w l Hw _ IH]; [done|]. rewrite fmap_cons, IH. by rewrite decide_False. }
    rewrite !Hid by done. rewrite decide_True by by rewrite Hu. by rewrite to_row_old.
  - eapply Forall_impl; [exact Ht|]. rewrite Hu, Hh. by intros w Hw.
Qed.
