(* ===== verification/Driver.v ===== *)
(** * What a container driver reports of its host (src/zun/container/driver.py)

    [BaseDriver] turns what the operating system and the configuration say into
    the resources of the compute node and into the inventory of its provider in
    the provider tree.  The readings themselves (memory, disk, CPUs, NUMA cells,
    the Docker daemon's [info]) come from the host: they are the fields of
    [host_info].  Volume attachment is not part of this file. *)

From S2P Require Import Prelude Exceptions ProviderTree Numa ComputeNode.

(** The options of [\[compute\]] the driver reads; a ratio of 0 or no ratio
    means "not set". *)
Record compute_conf : Type := mkConf {
  conf_cpu_allocation_ratio : option Qc;
  conf_ram_allocation_ratio : option Qc;
  conf_disk_allocation_ratio : option Qc;
  initial_cpu_allocation_ratio : Qc;
  initial_ram_allocation_ratio : Qc;
  initial_disk_allocation_ratio : Qc;
  reserved_host_cpus : Z;
  reserved_host_memory_mb : Z;
  reserved_host_disk_mb : Z;
  conf_enable_cpu_pinning : bool
}.

(** [DockerDriver.get_host_info] *)
Record docker_info : Type := mkInfo {
  info_total_containers : Z;
  info_running_containers : Z;
  info_paused_containers : Z;
  info_stopped_containers : Z;
  info_cpus : Z;
  info_os : list (option string);
  info_labels : option (gmap string string);
  info_runtimes : option (list string)
}.

Record host_info : Type := mkHost {
  host_numa_topology : NUMATopology;
  host_mem : Z * Z * Z * Z;                 (** total, free, available, used, in KiB *)
  host_disk : Z * Z;                        (** total and reserved for images, in GiB *)
  host_disk_quota : bool;
  host_cpu_count : Z;
  host_nodes : list string;
  host_docker : option docker_info;         (** [None] for a plain [BaseDriver] *)
  capabilities : list (string * bool)
}.

(** The resource dictionary; [r_info] stands for the keys only the Docker
    driver adds, [r_cpu_used] for a key that may be missing. *)
Record resources : Type := mkResources {
  r_numa_topology : NUMATopology;
  r_mem_total : Z;
  r_mem_free : Z;
  r_mem_available : Z;
  r_mem_used : Z;
  r_disk_total : Z;
  r_disk_quota_supported : bool;
  r_enable_cpu_pinning : bool;
  r_info : option docker_info;
  r_cpu_used : option Qc
}.

Definition VCPU : string := "VCPU".
Definition MEMORY_MB : string := "MEMORY_MB".
Definition DISK_GB : string := "DISK_GB".

(** The attributes of the driver that change, and the tree it is given. *)
Record driver_state : Type := mkDriver {
  cpu_allocation_ratio : option Qc;
  ram_allocation_ratio : option Qc;
  own_provider_tree : option Tree.tree;
  given_tree : Tree.tree
}.

Definition on_tree {A} (m : py Tree.tree A) : py driver_state A :=
  zoom given_tree (λ t d, mkDriver (cpu_allocation_ratio d) (ram_allocation_ratio d)
                            (own_provider_tree d) t) m.

Section Driver.
Context (conf : compute_conf) (host : host_info).

Definition get_available_resources : resources :=
  let '(mem_total, mem_free, mem_ava, mem_used) := host_mem host in
  let '(disk_total, disk_reserved) := host_disk host in
  {| r_numa_topology := host_numa_topology host;
     r_mem_total := mem_total `div` 1024;
     r_mem_free := mem_free `div` 1024;
     r_mem_available := mem_ava `div` 1024;
     r_mem_used := mem_used `div` 1024;
     r_disk_total := disk_total - disk_reserved;
     r_disk_quota_supported := host_disk_quota host;
     r_enable_cpu_pinning := conf_enable_cpu_pinning conf;
     r_info := host_docker host;
     r_cpu_used := None |}%Z.

Definition node_is_available (nodename : string) : bool :=
  bool_decide (nodename ∈ host_nodes host).

(** [CAPABILITY_TRAITS_MAP] is empty, so no capability is reported. *)
Definition CAPABILITY_TRAITS_MAP : dict string string := [].

Definition capabilities_as_traits : dict string bool :=
  dict_of (omap (λ cs, (λ t, (t, cs.2)) <$> dget CAPABILITY_TRAITS_MAP cs.1) (capabilities host)).

(** One resource class of [_get_allocation_ratios]. *)
Definition allocation_ratio (conf_ratio : option Qc) (initial : Qc) (rc : string)
    (inventory : inventory_t) : py driver_state Qc :=
  match conf_ratio with
  | Some q => if bool_decide (q = 0%Qc) then
                match inventory !! rc with
                | None => ret initial
                | Some i => of_option (i !! "allocation_ratio") (Py KeyError)
                end
              else ret q
  | None => match inventory !! rc with
            | None => ret initial
            | Some i => of_option (i !! "allocation_ratio") (Py KeyError)
            end
  end.

Definition _get_allocation_ratios (inventory : inventory_t) : py driver_state (Qc * Qc * Qc) :=
  let! cpu := allocation_ratio (conf_cpu_allocation_ratio conf)
                (initial_cpu_allocation_ratio conf) VCPU inventory in
  let! ram := allocation_ratio (conf_ram_allocation_ratio conf)
                (initial_ram_allocation_ratio conf) MEMORY_MB inventory in
  let! disk := allocation_ratio (conf_disk_allocation_ratio conf)
                (initial_disk_allocation_ratio conf) DISK_GB inventory in
  ret (cpu, ram, disk).

(** [utils.convert_mb_to_ceil_gb] *)
Definition convert_mb_to_ceil_gb (mb_value : Z) : Z := (- ((- mb_value) `div` 1024))%Z.

Definition inventory_record (total : Z) (ratio : Qc) (reserved : Z) : gmap string Qc :=
  list_to_map [("total", Qc_of_Z total); ("min_unit", 1%Qc); ("max_unit", Qc_of_Z total);
               ("step_size", 1%Qc); ("allocation_ratio", ratio); ("reserved", Qc_of_Z reserved)].

(** The inventory of the host, for given allocation ratios. *)
Definition host_inventory (cpu ram disk : Qc) : inventory_t :=
  let disk_gb := (host_disk host).1 in
  let memory_mb := ((host_mem host).1.1.1 `div` 1024)%Z in
  let vcpus := host_cpu_count host in
  list_to_map
    [(VCPU, inventory_record vcpus cpu (reserved_host_cpus conf));
     (MEMORY_MB, inventory_record memory_mb ram (reserved_host_memory_mb conf));
     (DISK_GB, inventory_record disk_gb disk
                 (convert_mb_to_ceil_gb (reserved_host_disk_mb conf)))].

Definition update_provider_tree (nodename : string) : py driver_state unit :=
  let! d := on_tree (Tree.data nodename) in
  let! ratios := _get_allocation_ratios (inventory d) in
  let '(cpu, ram, disk) := ratios in
  modify (λ s, mkDriver (Some cpu) (Some ram) (own_provider_tree s) (given_tree s));;;
  let result := host_inventory cpu ram disk in
  let! _shared := on_tree (Tree.has_sharing_provider DISK_GB) in
  let! _changed := on_tree (Tree.update_inventory nodename result None) in
  modify (λ s, mkDriver (cpu_allocation_ratio s) (ram_allocation_ratio s)
                 (Some (given_tree s)) (given_tree s)).
End Driver.
