(* ===== verification/Claims.v ===== *)
(** * Resource claims (src/zun/compute/claims.py)

    A claim checks that a compute node has room for a container, and is the
    handle with which the manager gives the resources back when the operation
    that needed them fails.  Amounts are rationals ([cpu] is a float and limits
    are multiplied by allocation ratios). *)

From S2P Require Import Prelude Exceptions PyStr PciStats Numa Container ComputeNode.

(** What a claim needs from the tracker that made it.  [S] is the state of the
    tracker. *)
Class ResourceTracker (S : Type) : Type := {
  on_store : ∀ {A}, py store A → py S A;
  pci_support_requests : list request → py S bool;
  abort_container_claim : container → py S unit;
  abort_container_update_claim : container → container → py S unit
}.

(** [limits\['cpuset'\]] *)
Record cpuset_limit : Type := mkCpusetLimit {
  lim_node : Z;
  lim_cpuset_cpu : list Z;
  lim_cpuset_cpu_pinned : list Z;
  lim_cpuset_mem : option Z
}.

(** The dictionary of limits; [None] is a missing key. *)
Record limits : Type := mkLimits {
  lim_memory : option Qc;
  lim_cpu : option Qc;
  lim_disk : option Qc;
  lim_cpuset : option cpuset_limit
}.

Definition no_limits : limits := mkLimits None None None None.

(** The three classes; a claim holds copies of the containers. *)
Inductive claim : Type :=
| NopClaim
| Claim (c : container)
| UpdateClaim (new_container old_container : container).

(** [int(memory or "0")] *)
Definition int_memory {S} (m : option string) : py S Z :=
  match m with
  | Some s => if str_true s then of_option (int_of 10 s) (Py ValueError) else ret 0%Z
  | None => ret 0%Z
  end.

Definition cpu_of (c : container) : Qc := default 0%Qc (cpu c).
Definition disk_of (c : container) : Z := default 0%Z (disk c).

Definition claim_memory {S} (self : claim) : py S Z :=
  match self with
  | NopClaim => ret 0%Z
  | Claim c => int_memory (memory c)
  | UpdateClaim n o =>
      let! a := int_memory (memory n) in
      let! b := int_memory (memory o) in
      ret (a - b)%Z
  end.

Definition claim_cpu (self : claim) : Qc :=
  match self with
  | NopClaim => 0%Qc
  | Claim c => cpu_of c
  | UpdateClaim n o => (cpu_of n - cpu_of o)%Qc
  end.

Definition claim_disk (self : claim) : Z :=
  match self with
  | NopClaim => 0%Z
  | Claim c => disk_of c
  | UpdateClaim n _ => disk_of n
  end.

(** [_test]: [true] is a reason to refuse the claim. *)
Definition _test (used requested : Qc) (limit : option Qc) : bool :=
  match limit with
  | None => false
  | Some l => bool_decide (l - used < requested)%Qc
  end.

(** [int(x)] of a float *)
Definition trunc (q : Qc) : Z :=
  Z.quot (QArith_base.Qnum (Qcanon.this q)) (Zpos (QArith_base.Qden (Qcanon.this q))).

(** [l\[i\]] with Python's negative indices *)
Definition index {S A} (l : list A) (i : Z) : py S A :=
  let j := if (i <? 0)%Z then (i + Z.of_nat (length l))%Z else i in
  if (j <? 0)%Z then raise (Py IndexError)
  else of_option (l !! Z.to_nat j) (Py IndexError).

Definition nonempty {A} (l : list A) : bool := match l with [] => false | _ => true end.

Section Claims.
Context {S : Type} `{ResourceTracker S}.
(** [random.sample] *)
Context (sample : list Z → nat → list Z).

Definition _test_memory (self : claim) (resources : ComputeNode) (limit : option Qc)
    : py S bool :=
  let! requested := claim_memory self in
  ret (_test (Qc_of_Z (mem_used resources)) (Qc_of_Z requested) limit).

Definition _test_cpu (self : claim) (resources : ComputeNode) (limit : option Qc) : bool :=
  _test (cpu_used resources) (claim_cpu self) limit.

Definition _test_disk (self : claim) (resources : ComputeNode) (limit : option Qc) : bool :=
  _test (Qc_of_Z (disk_used resources)) (Qc_of_Z (claim_disk self)) limit.

Definition _test_pci (pci_requests : option (list request)) : py S bool :=
  match pci_requests with
  | Some ((_ :: _) as rqs) => let! ok := pci_support_requests rqs in ret (negb ok)
  | _ => ret false
  end.

Definition _test_cpuset_cpu (self : claim) (limit : option cpuset_limit) : bool :=
  match limit with
  | None => false
  | Some l => _test (Qc_of_Z (Z.of_nat (length (lim_cpuset_cpu_pinned l)))) (claim_cpu self)
                (Some (Qc_of_Z (Z.of_nat (length (lim_cpuset_cpu l)))))
  end.

Definition _test_cpuset_mem (self : claim) (resources : ComputeNode)
    (limit : option cpuset_limit) : py S bool :=
  match limit with
  | None => ret false
  | Some l =>
      let! nodes := of_option (numa_topology resources) (Py AttributeError) in
      let! _total := index nodes (lim_node l) in
      let! requested := claim_memory self in
      ret (_test 0%Qc (Qc_of_Z requested) (Qc_of_Z <$> lim_cpuset_mem l))
  end.

Definition _claim_test (self : claim) (pci_requests : option (list request))
    (resources : option ComputeNode) (lims : option limits) : py S unit :=
  let l := default no_limits lims in
  let! _memory := claim_memory self in
  let! resources := of_option resources (Py AttributeError) in
  let! memory := _test_memory self resources (lim_memory l) in
  let cpu := _test_cpu self resources (lim_cpu l) in
  let disk := _test_disk self resources (lim_disk l) in
  let! pci := _test_pci pci_requests in
  let cpuset_cpu := _test_cpuset_cpu self (lim_cpuset l) in
  let! cpuset_mem := _test_cpuset_mem self resources (lim_cpuset l) in
  raise_if (memory || cpu || disk || pci || cpuset_cpu || cpuset_mem) (Zun ResourcesUnavailable).

(** [limits\['cpuset'\]]: [None] is not subscriptable. *)
Definition cpuset_of (lims : option limits) : py S cpuset_limit :=
  let! l := of_option lims (Py TypeError) in
  of_option (lim_cpuset l) (Py KeyError).

Definition random_sample (population : list Z) (k : Z) : py S (list Z) :=
  if (k <? 0)%Z || (Z.of_nat (length population) <? k)%Z then raise (Py ValueError)
  else ret (sample population (Z.to_nat k)).

Definition claim_cpuset_cpu_for_container (self : claim) (r : nat) (lims : option limits)
    : py S unit :=
  let! l := cpuset_of lims in
  let available_cpu : gset Z :=
    list_to_set (lim_cpuset_cpu l) ∖ list_to_set (lim_cpuset_cpu_pinned l) in
  let! usage := random_sample (elements available_cpu) (trunc (claim_cpu self)) in
  on_store (Container.mutate r (λ c, set_cpuset
    ((λ cs, mkCpuset (Some (Some (list_to_set usage))) (cpuset_mems cs)) <$> cpuset c) c)).

(** [set(n)] for an [int] *)
Definition set_of_int (n : Z) : py S (gset Z) := raise (Py TypeError).

Definition claim_cpuset_mem_for_container (r : nat) (lims : option limits) : py S unit :=
  let! l := cpuset_of lims in
  let! mems := set_of_int (lim_node l) in
  on_store (Container.mutate r (λ c, set_cpuset
    ((λ cs, mkCpuset (cpuset_cpus cs) (Some (Some mems))) <$> cpuset c) c)).

(** [Claim.__init__] for the container object [r]. *)
Definition init_claim (self : claim) (r : nat) (resources : option ComputeNode)
    (pci_requests : option (list request)) (lims : option limits) : py S claim :=
  _claim_test self pci_requests resources lims;;;
  let! c := on_store (Container.read r) in
  if bool_decide (cpu_policy c = Some "dedicated") then
    on_store (Container.mutate r (set_cpuset (Some (mkCpuset None None))));;;
    claim_cpuset_cpu_for_container self r lims;;;
    claim_cpuset_mem_for_container r lims;;;
    ret self
  else ret self.

Definition new_claim (r : nat) (resources : option ComputeNode)
    (pci_requests : option (list request)) (lims : option limits) : py S claim :=
  let! c := on_store (Container.read r) in
  init_claim (Claim c) r resources pci_requests lims.

Definition new_update_claim (new_container : nat) (old_container : container)
    (resources : option ComputeNode) (lims : option limits) : py S claim :=
  let! c := on_store (Container.read new_container) in
  init_claim (UpdateClaim c old_container) new_container resources (Some []) lims.

Definition abort (self : claim) : py S unit :=
  match self with
  | NopClaim => ret tt
  | Claim c => abort_container_claim c
  | UpdateClaim n o => abort_container_update_claim n o
  end.

(** [with claim: body] ([__enter__], [__exit__]) *)
Definition with_claim {A} (self : claim) (body : py S A) : py S A :=
  try_except body (λ e, Some (abort self;;; raise e)).
End Claims.
