(* ===== verification/NodeTracker.v ===== *)
(** * The resource tracker of a compute node (src/zun/compute/compute_node_tracker.py)

    [ComputeNodeTracker] keeps the usage of its compute node equal to what the
    containers on the host ask for: it adds a container's resources when it is
    claimed, takes them back when the claim is aborted or the container removed,
    recomputes everything from the database periodically, and publishes each
    change to the database and to placement.  Every entry point holds the
    semaphore [COMPUTE_RESOURCE_SEMAPHORE], so the methods run one at a time. *)

From S2P Require Import Prelude Exceptions PyStr ProviderTree PciDevice PciSpec PciStats.
From S2P Require Import PciTracker Numa Container ComputeNode Driver Claims.

(** The operations of [SchedulerReportClient] the tracker calls
    (src/zun/scheduler/client/report.py), on the state [P] of placement. *)
Class ReportClient (P : Type) : Type := {
  get_provider_by_name : string → py P string;           (** its uuid *)
  get_provider_tree_and_ensure_root : string → string → py P Tree.tree;
  update_from_provider_tree : Tree.tree → py P unit
}.

(** The configuration and the host: [host_names] are [socket.gethostname()] and
    [socket.getfqdn()], [pci_resources] what the driver lists, [node_uuid] the
    uuid drawn if the node is created. *)
Record settings : Type := mkSettings {
  host : string;
  host_shared_with_nova : bool;
  host_names : list string;
  compute_options : compute_conf;
  host_facts : host_info;
  pci_resources : list dev_dict;
  node_uuid : string
}.

Record rt (P : Type) : Type := mkRt {
  compute_node : option ComputeNode;
  tracked_containers : gmap string container;
  old_resources : gmap string ComputeNode;
  pci_tracker : option tracker;
  rp_uuid : option string;
  driver : driver_state;
  containers : Container.store;
  nodes : ComputeNode.table;
  pci_table : list device;               (** the rows of this node *)
  service_disabled : option bool;        (** the zun-compute service of the host *)
  placement : P
}.

#[global] Arguments mkRt {P}.
#[global] Arguments compute_node {P}.
#[global] Arguments tracked_containers {P}.
#[global] Arguments old_resources {P}.
#[global] Arguments pci_tracker {P}.
#[global] Arguments rp_uuid {P}.
#[global] Arguments driver {P}.
#[global] Arguments containers {P}.
#[global] Arguments nodes {P}.
#[global] Arguments pci_table {P}.
#[global] Arguments service_disabled {P}.
#[global] Arguments placement {P}.

Section Setters.
Context {P : Type}.
Implicit Types s : rt P.

Definition set_compute_node (n : option ComputeNode) s : rt P :=
  mkRt n (tracked_containers s) (old_resources s) (pci_tracker s) (rp_uuid s) (driver s)
    (containers s) (nodes s) (pci_table s) (service_disabled s) (placement s).
Definition set_tracked (m : gmap string container) s : rt P :=
  mkRt (compute_node s) m (old_resources s) (pci_tracker s) (rp_uuid s) (driver s)
    (containers s) (nodes s) (pci_table s) (service_disabled s) (placement s).
Definition set_old (m : gmap string ComputeNode) s : rt P :=
  mkRt (compute_node s) (tracked_containers s) m (pci_tracker s) (rp_uuid s) (driver s)
    (containers s) (nodes s) (pci_table s) (service_disabled s) (placement s).
Definition set_pci (t : option tracker) s : rt P :=
  mkRt (compute_node s) (tracked_containers s) (old_resources s) t (rp_uuid s) (driver s)
    (containers s) (nodes s) (pci_table s) (service_disabled s) (placement s).
Definition set_rp_uuid (u : option string) s : rt P :=
  mkRt (compute_node s) (tracked_containers s) (old_resources s) (pci_tracker s) u (driver s)
    (containers s) (nodes s) (pci_table s) (service_disabled s) (placement s).
Definition set_driver (d : driver_state) s : rt P :=
  mkRt (compute_node s) (tracked_containers s) (old_resources s) (pci_tracker s) (rp_uuid s) d
    (containers s) (nodes s) (pci_table s) (service_disabled s) (placement s).
Definition set_containers (c : Container.store) s : rt P :=
  mkRt (compute_node s) (tracked_containers s) (old_resources s) (pci_tracker s) (rp_uuid s)
    (driver s) c (nodes s) (pci_table s) (service_disabled s) (placement s).
Definition set_nodes (t : ComputeNode.table) s : rt P :=
  mkRt (compute_node s) (tracked_containers s) (old_resources s) (pci_tracker s) (rp_uuid s)
    (driver s) (containers s) t (pci_table s) (service_disabled s) (placement s).
Definition set_placement (p : P) s : rt P :=
  mkRt (compute_node s) (tracked_containers s) (old_resources s) (pci_tracker s) (rp_uuid s)
    (driver s) (containers s) (nodes s) (pci_table s) (service_disabled s) p.

Definition on_containers {A} (m : py Container.store A) : py (rt P) A :=
  zoom containers set_containers m.
Definition on_nodes {A} (m : py ComputeNode.table A) : py (rt P) A := zoom nodes set_nodes m.
Definition on_driver {A} (m : py driver_state A) : py (rt P) A := zoom driver set_driver m.
Definition on_placement {A} (m : py P A) : py (rt P) A := zoom placement set_placement m.

(** A method of the PCI tracker, when there is one. *)
Definition on_pci {A} (t : tracker) (m : py tracker A) : py (rt P) A :=
  zoom (λ s, default t (pci_tracker s)) (λ t' s, set_pci (Some t') s) m.

(** [self.compute_node], used as an object. *)
Definition cn : py (rt P) ComputeNode :=
  let! n := gets compute_node in of_option n (Py AttributeError).
Definition upd_cn (f : ComputeNode → ComputeNode) : py (rt P) unit :=
  modify (λ s, set_compute_node (f <$> compute_node s) s).
End Setters.

(** What a container uses; [u_cpuset] holds the CPUs and the NUMA node. *)
Record usage : Type := mkUsage {
  u_memory : Z;
  u_cpu : Qc;
  u_disk : Z;
  u_cpuset : option (gset Z * Z)
}.

#[export] Instance NUMANode_inhabited : Inhabited NUMANode :=
  populate (Numa.mkNode 0 ∅ ∅ None None).

(** [_copy_resources]; [disk_used] and the PCI pools are not resources. *)
Definition _copy_resources (r : resources) (n : ComputeNode) : ComputeNode :=
  let i (f : docker_info → Z) (old : Z) : Z :=
    match r_info r with Some i => f i | None => old end in
  {| uuid := uuid n; ComputeNode.rp_uuid := ComputeNode.rp_uuid n;
     numa_topology := Some (r_numa_topology r); hostname := hostname n;
     mem_total := r_mem_total r; mem_free := r_mem_free r;
     mem_available := r_mem_available r; mem_used := r_mem_used r;
     total_containers := i info_total_containers (total_containers n);
     running_containers := i info_running_containers (running_containers n);
     paused_containers := i info_paused_containers (paused_containers n);
     stopped_containers := i info_stopped_containers (stopped_containers n);
     cpus := i info_cpus (cpus n);
     cpu_used := default (cpu_used n) (r_cpu_used r);
     os_info := match r_info r with Some i => info_os i | None => os_info n end;
     labels := match r_info r with Some i => info_labels i | None => labels n end;
     pci_device_pools := pci_device_pools n;
     disk_total := r_disk_total r; disk_used := disk_used n;
     disk_quota_supported := r_disk_quota_supported r;
     runtimes := match r_info r with Some i => info_runtimes i | None => runtimes n end;
     enable_cpu_pinning := r_enable_cpu_pinning r |}.

(** [objects.ComputeNode(context)] with the defaults of the table. *)
Definition blank_node (u h : string) : ComputeNode :=
  ComputeNode.mkNode u None None h 0 0 0 0 0 0 0 0 0 0%Qc [None; None; None; None] None None
    0 0 false None false.

(** The tracker of the rows of a node, before [PciDevTracker.__init__] ran. *)
Definition load_pci (ds : list device) (node_id : string) : tracker :=
  mkTracker
    (mkStats (mkObjs (list_to_map (imap (λ i d, (i, d)) ds)) ∅
                (list_to_map ((λ d, ((PciDevice.compute_node_uuid d, PciDevice.address d), d)) <$> ds)))
       ∅ [] 0)
    (seq 0 (length ds)) [] [] [] node_id (length ds).

Section Tracker.
Context {P : Type} `{ReportClient P} `{DevFilter}.
Context (assignable : dev_dict → outcome exn bool) (new_uuid : nat → string).
Context (sample : list Z → nat → list Z) (cfg : settings).

(** ** Finding the compute node and its provider *)

Definition _get_compute_node : py (rt P) (option ComputeNode) :=
  try_except
    (let! n := on_nodes (ComputeNode.get_by_name (host cfg)) in ret (Some n))
    (λ e, if isinstance e ComputeNodeNotFound then Some (ret None) else None).

(** The loop over the possible names; it stops at the first provider found. *)
Fixpoint try_names (names : list string) : py (rt P) unit :=
  match names with
  | [] => ret tt
  | name :: names' =>
      let! found := try_except
        (let! u := on_placement (get_provider_by_name name) in
         modify (set_rp_uuid (Some u));;; ret true)
        (λ e, if isinstance e ResourceProviderNotFound then Some (ret false) else None) in
      if found : bool then ret tt else try_names names'
  end.

Definition _get_node_rp_uuid (node : ComputeNode) : py (rt P) (option string) :=
  let! cached := gets rp_uuid in
  if ostr_true cached then ret cached else
  (if host_shared_with_nova cfg then
     try_except
       (let! u := on_placement (get_provider_by_name (hostname node)) in
        modify (set_rp_uuid (Some u)))
       (λ e, if isinstance e ResourceProviderNotFound then
               Some (try_names (host_names cfg);;;
                     let! u := gets rp_uuid in
                     raise_if (negb (ostr_true u)) (Zun ComputeHostNotFound))
             else None)
   else modify (set_rp_uuid (Some (uuid node))));;;
  gets rp_uuid.

Definition _setup_pci_tracker (node : ComputeNode) : py (rt P) ComputeNode :=
  let! t := gets pci_tracker in
  match t with
  | Some _ => ret node
  | None =>
      let! ds := gets pci_table in
      let t0 := load_pci ds (uuid node) in
      let '(o, t1) := PciTracker.init t0 in
      match o with
      | Raise e => raise e
      | Ok _ =>
          modify (set_pci (Some t1));;;
          on_pci t1 (update_devices_from_compute_resources assignable new_uuid
                       (pci_resources cfg));;;
          let! pools := on_pci t1 (λ t, (to_device_pools_obj (st t), t)) in
          ret (set_pci_device_pools (Some pools) node)
      end
  end.

(** ** Usage *)

(** [int(x)] of a set or of [None] *)
Definition int_of_set (s : option (gset Z)) : py (rt P) Z := raise (Py TypeError).

Definition _get_usage_dict (c : container) : py (rt P) usage :=
  let! memory := int_memory (memory c) in
  let! cs := of_option (cpuset c) (Py AttributeError) in
  let! cpus := Container.getattr (cpuset_cpus cs) in
  let! pins :=
    match cpus with
    | Some s =>
        if bool_decide (s = ∅) then ret None else
        let! mems := Container.getattr (cpuset_mems cs) in
        let! node := int_of_set mems in
        ret (Some (s, node))
    | None => ret None
    end in
  ret (mkUsage memory (cpu_of c) (disk_of c) pins).

Definition numa_nodes (s : rt P) : NUMATopology :=
  default [] (n ← compute_node s; numa_topology n).

(** A method of the [i]-th cell of the compute node. *)
Definition set_cell (i : nat) (c : NUMANode) (s : rt P) : rt P :=
  set_compute_node
    ((λ n, set_numa (Some (<[ i := c ]> (numa_nodes s))) n) <$> compute_node s) s.
Definition on_cell {A} (i : nat) (m : py NUMANode A) : py (rt P) A :=
  zoom (λ s, numa_nodes s !!! i) (set_cell i) m.

(** One NUMA cell of the loop of [_update_usage]. *)
Definition update_cell (u : usage) (sign : Z) (i : nat) : py (rt P) unit :=
  match u_cpuset u with
  | None => ret tt
  | Some (cpus, node) =>
      let! c := on_cell i get in
      if bool_decide (Numa.id c = node) then
        let! avail := of_option (Numa.mem_available c) (Py TypeError) in
        on_cell i (modify (set_mem_available (Some (avail - u_memory u * sign)%Z)));;;
        if (0 <? sign)%Z then on_cell i (pin_cpus cpus) else on_cell i (unpin_cpus cpus)
      else ret tt
  end.

Definition _update_usage (u : usage) (sign : Z) : py (rt P) unit :=
  let! n := cn in
  let! topology := of_option (numa_topology n) (Py AttributeError) in
  let used := (mem_used n + sign * u_memory u)%Z in
  upd_cn (set_usage (mem_total n - used) used (running_containers n + sign)
    (cpu_used n + Qc_of_Z sign * u_cpu u)%Qc (disk_used n + sign * u_disk u)%Z);;;
  match u_cpuset u with
  | None => ret tt
  | Some (cpus, _) =>
      if bool_decide (cpus = ∅) then ret tt
      else for_each (update_cell u sign) (seq 0 (length topology))
  end.

Definition update_pci (u : string) (sign : Z) : py (rt P) unit :=
  let! t := gets pci_tracker in
  match t with
  | Some t => on_pci t (update_pci_for_container u sign)
  | None => ret tt
  end.

Definition _update_usage_from_container (c : container) (is_removed : bool) : py (rt P) unit :=
  let! tracked := gets tracked_containers in
  let u := Container.uuid c in
  let is_new_container := bool_decide (tracked !! u = None) in
  let is_removed_container := negb is_new_container && is_removed in
  (if is_new_container then modify (λ s, set_tracked (<[ u := c ]> (tracked_containers s)) s)
   else ret tt);;;
  (if is_removed_container then modify (λ s, set_tracked (delete u (tracked_containers s)) s)
   else ret tt);;;
  if is_new_container || is_removed_container then
    let sign := if is_removed_container then (-1)%Z else 1%Z in
    update_pci u sign;;;
    let! usage := _get_usage_dict c in
    _update_usage usage sign
  else ret tt.

Definition _update_usage_from_container_update (new_container old_container : container)
    : py (rt P) unit :=
  modify (λ s, set_tracked (<[ Container.uuid new_container := new_container ]>
                              (tracked_containers s)) s);;;
  let! old_usage := _get_usage_dict old_container in
  _update_usage old_usage (-1);;;
  let! new_usage := _get_usage_dict new_container in
  _update_usage new_usage 1.

Definition _update_usage_from_containers (cs : list container) : py (rt P) unit :=
  modify (set_tracked ∅);;;
  let! n := cn in
  upd_cn (set_usage (mem_total n) 0 0 0%Qc 0);;;
  for_each (λ c, _update_usage_from_container c false) cs;;;
  upd_cn (λ n, set_usage (Z.max 0 (mem_free n)) (mem_used n) (running_containers n)
                 (cpu_used n) (disk_used n) n).
(** ** Publishing *)

(** Equality of the primitives is equality of the modelled fields. *)
Definition _resource_change (n : ComputeNode) : py (rt P) bool :=
  let! old := gets old_resources in
  if bool_decide (old !! hostname n = Some n) then ret false
  else modify (set_old (<[ hostname n := n ]> old));;; ret true.

Definition _sync_compute_service_disabled_trait (traits : gset string) : py (rt P) (gset string) :=
  let! service := gets service_disabled in
  ret (match service with
       | Some true => traits ∪ {[ "CUSTOM_ZUN_COMPUTE_STATUS_DISABLED" ]}
       | Some false => traits ∖ {[ "CUSTOM_ZUN_COMPUTE_STATUS_DISABLED" ]}
       | None => traits
       end).

Definition apply_capability (traits : gset string) (ts : string * bool) : gset string :=
  if ts.2 then traits ∪ {[ ts.1 ]} else traits ∖ {[ ts.1 ]}.

Definition _get_traits (nodename : string) : py (rt P) (gset string) :=
  let! d := on_driver (on_tree (Tree.data nodename)) in
  _sync_compute_service_disabled_trait
    (foldl apply_capability (traits d) (capabilities_as_traits (host_facts cfg))).

(** One attempt of [_update_to_placement]. *)
Definition update_to_placement_once (node : ComputeNode) : py (rt P) unit :=
  let! u := _get_node_rp_uuid node in
  let node_rp_uuid := default "" u in
  let! prov_tree := on_placement (get_provider_tree_and_ensure_root node_rp_uuid (hostname node)) in
  modify (λ s, set_driver (mkDriver (cpu_allocation_ratio (driver s))
    (ram_allocation_ratio (driver s)) (own_provider_tree (driver s)) prov_tree) s);;;
  on_driver (update_provider_tree (compute_options cfg) (host_facts cfg) node_rp_uuid);;;
  let! ts := _get_traits node_rp_uuid in
  let! _changed := on_driver (on_tree (Tree.update_traits node_rp_uuid ts None)) in
  let! t := gets (λ s, given_tree (driver s)) in
  on_placement (update_from_provider_tree t).

Definition is_conflict (e : exn) : bool := isinstance e ResourceProviderUpdateConflict.

Definition _update_to_placement (node : ComputeNode) : py (rt P) unit :=
  retrying is_conflict 3 (update_to_placement_once node).

(** [_update(context, self.compute_node)] *)
Definition _update : py (rt P) unit :=
  let! n := cn in
  let! changed := _resource_change n in
  if changed : bool then
    on_nodes (ComputeNode.save n);;;
    _update_to_placement n;;;
    let! t := gets pci_tracker in
    match t with Some t => on_pci t PciTracker.save | None => ret tt end
  else ret tt.

(** ** The entry points *)

Definition abort_claim (c : container) : py (rt P) unit :=
  _update_usage_from_container c true;;; _update.

(** [self._update(self.compute_node)] misses an argument. *)
Definition abort_update_claim (new_container old_container : container) : py (rt P) unit :=
  _update_usage_from_container_update old_container new_container;;;
  raise (Py TypeError).

Definition support_requests_of_tracker (rqs : list request) : py (rt P) bool :=
  let! t := gets pci_tracker in
  let! t := of_option t (Py AttributeError) in
  on_pci t (on_stats (support_requests rqs None)).

#[export] Instance rt_ResourceTracker : ResourceTracker (rt P) := {|
  on_store := @on_containers P;
  pci_support_requests := support_requests_of_tracker;
  abort_container_claim := abort_claim;
  abort_container_update_claim := abort_update_claim |}.

Definition _set_container_host (r : nat) : py (rt P) unit :=
  on_containers (Container.mutate r (set_host (Some (host cfg)));;; Container.save r).

Definition refresh_compute_node : py (rt P) unit :=
  let! n := _get_compute_node in modify (set_compute_node n).

Definition claim_pci (u : string) (pci_requests : option (list request)) : py (rt P) unit :=
  let! t := gets pci_tracker in
  match t with
  | Some t => let! _devs := on_pci t (claim_container u (default [] pci_requests)) in ret tt
  | None => ret tt
  end.

(** [container_claim] for the container object [r]. *)
Definition needs_claim (c : container) (pci_requests : option (list request)) : bool :=
  ostr_true (memory c) || bool_decide (cpu_of c ≠ 0%Qc) ||
  bool_decide (pci_requests ≠ None) || bool_decide (disk_of c ≠ 0%Z).

Definition container_claim (r : nat) (pci_requests : option (list request))
    (lims : option limits) : py (rt P) claim :=
  let! c := on_containers (Container.read r) in
  if needs_claim c pci_requests then
    refresh_compute_node;;;
    let! n := gets compute_node in
    let! cl := new_claim sample r n pci_requests lims in
    claim_pci (Container.uuid c) pci_requests;;;
    _set_container_host r;;;
    let! c := on_containers (Container.read r) in
    _update_usage_from_container c false;;;
    _update;;;
    ret cl
  else ret NopClaim.

Definition container_update_claim (new_container : nat) (old_container : container)
    (lims : option limits) : py (rt P) claim :=
  let! c := on_containers (Container.read new_container) in
  if bool_decide (cpu c = cpu old_container ∧ memory c = memory old_container)
  then ret NopClaim
  else
    refresh_compute_node;;;
    let! n := gets compute_node in
    let! cl := new_update_claim sample new_container old_container n lims in
    let! c := on_containers (Container.read new_container) in
    _update_usage_from_container_update c old_container;;;
    _update;;;
    ret cl.

Definition remove_usage_from_container (c : container) (is_removed : bool) : py (rt P) unit :=
  refresh_compute_node;;;
  _update_usage_from_container c is_removed;;;
  _update.

Definition disabled (hostname : string) : py (rt P) bool :=
  let! n := gets compute_node in
  ret (match n with
       | None => true
       | Some n => bool_decide (hostname ≠ ComputeNode.hostname n) ||
                   negb (node_is_available (host_facts cfg) hostname)
       end).

Definition _update_available_resource : py (rt P) unit :=
  let! off := disabled (host cfg) in
  if off : bool then ret tt else
  let! cs := on_containers (Container.list_by_host TYPE_CONTAINER (host cfg)) in
  let! capsules := on_containers (Container.list_by_host TYPE_CAPSULE (host cfg)) in
  let! all := on_containers (map_m Container.read (cs ++ capsules)) in
  _update_usage_from_containers all;;;
  _update.

Definition update_available_resources : py (rt P) unit :=
  let r := get_available_resources (compute_options cfg) (host_facts cfg) in
  let r := match r_cpu_used r with
           | None => mkResources (r_numa_topology r) (r_mem_total r) (r_mem_free r)
                       (r_mem_available r) (r_mem_used r) (r_disk_total r)
                       (r_disk_quota_supported r) (r_enable_cpu_pinning r) (r_info r) (Some 0%Qc)
           | Some _ => r
           end in
  let! found := _get_compute_node in
  let! n :=
    match found with
    | None => on_nodes (ComputeNode.create
                (_copy_resources r (blank_node (node_uuid cfg) (host cfg))))
    | Some n => ret (_copy_resources r n)
    end in
  let! u := _get_node_rp_uuid n in
  let! n := _setup_pci_tracker (ComputeNode.set_rp_uuid u n) in
  modify (set_compute_node (Some n));;;
  _update_available_resource.
End Tracker.

(** ** The books: what the usage of the node must add up to *)

(** A sum over the tracked containers. *)
Definition msum {A} (add : A → A → A) (zero : A) (f : container → A)
    (m : gmap string container) : A := map_fold (λ _ c acc, add (f c) acc) zero m.

Section Sum.
Context {A : Type} (add : A → A → A) (zero : A) (f : container → A).
Context (add_left_comm : ∀ x y z, add x (add y z) = add y (add x z)).

Lemma msum_insert m u c :
  m !! u = None → msum add zero f (<[ u := c ]> m) = add (f c) (msum add zero f m).
Proof.
  intros Hm. apply (map_fold_insert_L (λ _ c acc, add (f c) acc)); [|done].
  intros. apply add_left_comm.
Qed.

Lemma msum_delete m u c :
  m !! u = Some c → msum add zero f m = add (f c) (msum add zero f (delete u m)).
Proof.
  intros Hm. apply (map_fold_delete_L (λ _ c acc, add (f c) acc)); [|done].
  intros. apply add_left_comm.
Qed.
End Sum.

Lemma Zadd_left_comm (x y z : Z) : (x + (y + z) = y + (x + z))%Z.
Proof. lia. Qed.
Lemma Qcplus_left_comm (x y z : Qc) : (x + (y + z) = y + (x + z))%Qc.
Proof. rewrite !Qcplus_assoc. by rewrite (Qcplus_comm x y). Qed.
Lemma Qc_of_1 : Qc_of_Z 1 = 1%Qc.
Proof. by apply Qc_is_canon. Qed.
Lemma Qc_of_minus_1 : Qc_of_Z (-1) = (- (1))%Qc.
Proof. by apply Qc_is_canon. Qed.
Lemma Qcplus_cancel (x y : Qc) : (x + y + Qc_of_Z (-1) * x = y)%Qc.
Proof. rewrite Qc_of_minus_1. ring. Qed.

(** The memory of a container as a number. *)
Definition mem_of (c : container) : Z :=
  match memory c with
  | Some s => if str_true s then default 0%Z (int_of 10 s) else 0%Z
  | None => 0%Z
  end.

(** A container whose memory is a number and that pins no CPU. *)
Definition plain_container (c : container) : Prop :=
  (∀ s, memory c = Some s → str_true s = true → is_Some (int_of 10 s)) ∧
  ∃ cs o, cpuset c = Some cs ∧ cpuset_cpus cs = Some o ∧ default ∅ o = ∅.

Definition sum_mem (m : gmap string container) : Z := msum Z.add 0%Z mem_of m.
Definition sum_cpu (m : gmap string container) : Qc := msum Qcplus 0%Qc cpu_of m.
Definition sum_disk (m : gmap string container) : Z := msum Z.add 0%Z disk_of m.

(** The node's usage is that of the tracked containers. *)
Record accounted (m : gmap string container) (n : ComputeNode) : Prop := {
  acc_mem : mem_used n = sum_mem m;
  acc_cpu : cpu_used n = sum_cpu m;
  acc_disk : disk_used n = sum_disk m;
  acc_count : running_containers n = Z.of_nat (size m)
}.

(** The node with [sign] times the usage of [c] added. *)
Definition add_usage (sign : Z) (c : container) (n : ComputeNode) : ComputeNode :=
  let used := (mem_used n + sign * mem_of c)%Z in
  set_usage (mem_total n - used) used (running_containers n + sign)
    (cpu_used n + Qc_of_Z sign * cpu_of c)%Qc (disk_used n + sign * disk_of c)%Z n.

Lemma accounted_insert m n u c :
  m !! u = None → accounted m n → accounted (<[ u := c ]> m) (add_usage 1 c n).
Proof.
  intros Hm [H1 H2 H3 H4]. split; unfold add_usage, sum_mem, sum_cpu, sum_disk; simpl.
  - rewrite msum_insert by (done || (intros; lia)). rewrite H1. unfold sum_mem. lia.
  - rewrite msum_insert by (done || apply Qcplus_left_comm). rewrite H2. unfold sum_cpu.
    by rewrite Qcplus_comm, Qc_of_1, Qcmult_1_l.
  - rewrite msum_insert by (done || (intros; lia)). rewrite H3. unfold sum_disk. lia.
  - rewrite map_size_insert_None by done. lia.
Qed.

Lemma accounted_delete m n u c c' :
  m !! u = Some c → mem_of c' = mem_of c → cpu_of c' = cpu_of c → disk_of c' = disk_of c →
  accounted m n → accounted (delete u m) (add_usage (-1) c' n).
Proof.
  intros Hm E1 E2 E3 [H1 H2 H3 H4]. split; unfold add_usage, sum_mem, sum_cpu, sum_disk; simpl.
  - rewrite H1, E1. unfold sum_mem. rewrite (msum_delete Z.add 0%Z mem_of Zadd_left_comm _ _ _ Hm). lia.
  - rewrite H2, E2. unfold sum_cpu. rewrite (msum_delete Qcplus 0%Qc cpu_of Qcplus_left_comm _ _ _ Hm).
    apply Qcplus_cancel.
  - rewrite H3, E3. unfold sum_disk. rewrite (msum_delete Z.add 0%Z disk_of Zadd_left_comm _ _ _ Hm). lia.
  - rewrite map_size_delete, Hm. pose proof (map_size_ne_0_lookup_2 m u ltac:(by eexists)). lia.
Qed.

(** ** Running the methods *)

Section Runs.
Context {P : Type}.
Implicit Types s : rt P.

Lemma usage_dict_plain c s :
  plain_container c →
  _get_usage_dict c s = (Ok (mkUsage (mem_of c) (cpu_of c) (disk_of c) None), s).
Proof.
  intros (Hm & cs & o & Hc & Ho & He). unfold _get_usage_dict.
  assert (int_memory (memory c) s = (Ok (mem_of c), s)) as Hmem.
  { unfold int_memory, mem_of. destruct (memory c) as [t|]; [|done].
    destruct (str_true t) eqn:Ht; [|done]. by destruct (Hm t eq_refl Ht) as [z ->]. }
  step Hmem. rewrite Hc. cbn [of_option]. steps. unfold Container.getattr. rewrite Ho.
  cbn [of_option]. steps. destruct o as [x|]; [|by steps].
  rewrite bool_decide_eq_true_2 by done. by steps.
Qed.

Lemma update_usage_plain c sign s n t :
  compute_node s = Some n → numa_topology n = Some t →
  _update_usage (mkUsage (mem_of c) (cpu_of c) (disk_of c) None) sign s =
    (Ok tt, set_compute_node (Some (add_usage sign c n)) s).
Proof.
  intros Hn Ht. unfold _update_usage, cn. steps. rewrite Hn. cbn [of_option]. steps.
  rewrite Ht. cbn [of_option]. steps. unfold upd_cn. steps. rewrite Hn. done.
Qed.

(** What the tracker and the database know about the node. *)
Definition books s : option ComputeNode * gmap string container *
    gmap string ComputeNode * ComputeNode.table :=
  (compute_node s, tracked_containers s, old_resources s, nodes s).
Definition books_are b s : Prop := books s = b.

Lemma on_pci_books {A} b t (m : py tracker A) : preserves (books_are b) (on_pci t m).
Proof. apply preserves_zoom. intros s x H. exact H. Qed.
Lemma on_driver_books {A} b (m : py driver_state A) : preserves (books_are b) (on_driver m).
Proof. apply preserves_zoom. intros s x H. exact H. Qed.
Lemma on_placement_books {A} b (m : py P A) : preserves (books_are b) (on_placement m).
Proof. apply preserves_zoom. intros s x H. exact H. Qed.
Lemma on_containers_books {A} b (m : py Container.store A) :
  preserves (books_are b) (on_containers m).
Proof. apply preserves_zoom. intros s x H. exact H. Qed.
Lemma rp_uuid_books b u : preserves (E:=exn) (books_are b) (modify (set_rp_uuid u)).
Proof. apply preserves_modify. intros s H. exact H. Qed.
Lemma driver_books b f : preserves (E:=exn) (books_are b) (modify (λ s, set_driver (f s) s)).
Proof. apply preserves_modify. intros s H. exact H. Qed.

#[local] Hint Resolve on_pci_books on_driver_books on_placement_books on_containers_books
  rp_uuid_books driver_books : py.

Context `{ReportClient P} `{DevFilter}.
Context (cfg : settings).

Lemma update_pci_books b u sign : preserves (books_are b) (update_pci u sign).
Proof. unfold update_pci. keep. Qed.

Lemma try_names_books b l : preserves (books_are b) (try_names l).
Proof.
  induction l as [|x l IH]; [apply preserves_ret|]. cbn [try_names].
  apply preserves_bind; [|intros []; [apply preserves_ret|exact IH]].
  apply preserves_try_except; [keep|]. intros e k. destruct (isinstance _ _); intros [= <-]; keep.
Qed.
#[local] Hint Resolve try_names_books : py.

Lemma rp_books b n : preserves (books_are b) (_get_node_rp_uuid cfg n).
Proof.
  unfold _get_node_rp_uuid. apply preserves_bind; [keep|]. intros u.
  destruct (ostr_true u); [keep|]. apply preserves_bind; [|intros _; keep].
  destruct (host_shared_with_nova cfg); [|keep].
  apply preserves_try_except; [keep|]. intros e k.
  destruct (isinstance _ _); [|done]. intros [= <-]. keep.
Qed.
#[local] Hint Resolve rp_books : py.

Lemma placement_once_books b n : preserves (books_are b) (update_to_placement_once cfg n).
Proof.
  unfold update_to_placement_once, _get_traits, _sync_compute_service_disabled_trait. keep.
Qed.

Lemma to_placement_books b n : preserves (books_are b) (_update_to_placement cfg n).
Proof. apply preserves_retrying, placement_once_books. Qed.
End Runs.

(** ** The containers are touched by a claim only, and only the claimed one *)

Definition same_store {P} : relation (rt P) := λ s s', containers s' = containers s.
#[export] Instance same_store_preorder {P} : PreOrder (same_store (P:=P)).
Proof. split; [by intros s|]. intros s1 s2 s3 H1 H2. unfold same_store in *. congruence. Qed.

Section Store.
Context {P : Type} `{ReportClient P} `{DevFilter}.
Context (sample : list Z → nat → list Z) (cfg : settings).
Implicit Types s : rt P.

Lemma zoom_store {T A} prj inj (m : py T A) :
  (∀ (s : rt P) t, containers (inj t s) = containers s) → keeps same_store (zoom prj inj m).
Proof. intros Hi s o s'. unfold zoom. destruct (m (prj s)) as [a t]. intros [= _ <-]. apply Hi. Qed.
Lemma modify_store f : (∀ s : rt P, containers (f s) = containers s) → keeps (E:=exn) same_store (modify f).
Proof. intros Hf. by apply keeps_modify. Qed.
#[local] Hint Extern 1 (keeps same_store (on_pci _ _)) => by apply zoom_store : py.
#[local] Hint Extern 1 (keeps same_store (on_driver _)) => by apply zoom_store : py.
#[local] Hint Extern 1 (keeps same_store (on_placement _)) => by apply zoom_store : py.
#[local] Hint Extern 1 (keeps same_store (on_nodes _)) => by apply zoom_store : py.
#[local] Hint Extern 1 (keeps same_store (on_cell _ _)) => by apply zoom_store : py.
#[local] Hint Extern 1 (keeps same_store (modify _)) => by apply modify_store : py.
#[local] Hint Extern 1 (keeps same_store (upd_cn _)) => by apply modify_store : py.

Lemma usage_store c b : keeps same_store (_update_usage_from_container (P:=P) c b).
Proof.
  unfold _update_usage_from_container, update_pci, _get_usage_dict, int_memory, Container.getattr,
    int_of_set, _update_usage, update_cell, cn. keep_rel.
Qed.

Lemma try_names_store l : keeps same_store (try_names (P:=P) l).
Proof.
  induction l as [|x l IH]; [by apply keeps_ret, _|]. cbn [try_names].
  apply keeps_bind; [apply _| |intros []; [by apply keeps_ret, _|done]]. keep_rel.
  by destruct (isinstance _ _); simplify_eq; keep_rel.
Qed.
#[local] Hint Resolve try_names_store : py.
Lemma rp_store n : keeps same_store (_get_node_rp_uuid (P:=P) cfg n).
Proof.
  unfold _get_node_rp_uuid. keep_rel. destruct (isinstance _ _); simplify_eq; keep_rel.
Qed.
#[local] Hint Resolve rp_store : py.
Lemma to_placement_store n : keeps same_store (_update_to_placement (P:=P) cfg n).
Proof.
  apply keeps_retrying; [apply _|]. unfold update_to_placement_once, _get_traits,
    _sync_compute_service_disabled_trait. keep_rel.
Qed.
#[local] Hint Resolve to_placement_store : py.
Lemma update_store : keeps same_store (_update (P:=P) cfg).
Proof. unfold _update, cn, _resource_change. keep_rel. Qed.
#[local] Hint Resolve usage_store update_store : py.
Lemma refresh_store : keeps same_store (refresh_compute_node (P:=P) cfg).
Proof.
  unfold refresh_compute_node, _get_compute_node. keep_rel.
  destruct (isinstance _ _); simplify_eq; keep_rel.
Qed.
#[local] Hint Resolve refresh_store : py.

Lemma remove_usage_store c b : keeps same_store (remove_usage_from_container (P:=P) cfg c b).
Proof. unfold remove_usage_from_container. keep_rel. Qed.
Lemma abort_claim_store c : keeps same_store (abort_claim (P:=P) cfg c).
Proof. unfold abort_claim. keep_rel. Qed.

(** A claim for shared CPUs changes the host of its container, in the object and
    in the row, and nothing else. *)
Definition claimed (r : nat) : relation (rt P) := λ s s',
  cpu_policy (obj (containers s) r) ≠ Some "dedicated" →
  only r (containers s) (containers s') ∧
  cpu_policy (obj (containers s') r) = cpu_policy (obj (containers s) r).
#[local] Instance claimed_preorder r : PreOrder (claimed r).
Proof.
  split; [by intros s|]. intros s1 s2 s3 H1 H2 Hp. destruct (H1 Hp) as [O1 E1].
  destruct H2 as [O2 E2]; [by rewrite E1|]. split; [by etrans|congruence].
Qed.
Lemma same_store_claimed {A} r (m : py (rt P) A) : keeps same_store m → keeps (claimed r) m.
Proof. intros Hm s o s' Hs _. by rewrite (Hm _ _ _ Hs). Qed.

Lemma claim_test_store self pci n lims :
  keeps same_store (_claim_test (H:=rt_ResourceTracker (P:=P) cfg) self pci n lims).
Proof.
  assert (keeps (E:=exn) (same_store (P:=P)) (claim_memory self)) as Hm.
  { unfold claim_memory, int_memory. destruct self; keep_rel. }
  unfold _claim_test, _test_memory, _test_pci, _test_cpuset_mem, index. simpl.
  unfold support_requests_of_tracker. keep_rel.
Qed.

Lemma set_host_claimed r : keeps (claimed r) (_set_container_host (P:=P) cfg r).
Proof.
  intros s o s'. unfold _set_container_host, on_containers, zoom.
  destruct ((Container.mutate r (set_host (Some (host cfg)));;; Container.save r) (containers s)) as [o1 st] eqn:Hst.
  intros [= <- <-] _. cbn. split.
  - revert Hst. apply (keeps_bind (only r)); [apply mutate_only; auto with py|intros _; apply Container.save_only].
  - assert (objects st = alter (set_host (Some (host cfg))) r (objects (containers s))) as Ho.
    { revert Hst. unfold mutate. rewrite bind_modify. destruct o1; intros Hst;
        [apply Container.save_Ok in Hst as [_ ->]|apply Container.save_Raise in Hst as ->]; done. }
    unfold obj. rewrite Ho. destruct (decide (r < length (objects (containers s)))) as [Hr|Hr].
    + rewrite !list_lookup_total_alt, list_lookup_alter_eq.
      by destruct (objects (containers s) !! r) as [[]|].
    + by rewrite alter_ge by lia.
Qed.

Lemma container_claim_store r pci lims :
  keeps (claimed r) (container_claim (P:=P) sample cfg r pci lims).
Proof.
  assert (∀ {A} (m : py (rt P) A), keeps same_store m → keeps (claimed r) m) as Hw.
  { intros A m. apply same_store_claimed. }
  assert (keeps (claimed r) (on_containers (P:=P) (Container.read r))) as Hread.
  { intros s o s' Hs. assert (s' = s) as -> by (destruct s; by injection Hs as _ <-). done. }
  assert (∀ n, keeps (claimed r) (new_claim (H:=rt_ResourceTracker cfg) sample r n pci lims)) as Hnew.
  { intros n. unfold new_claim, init_claim. apply keeps_bind; [apply _|exact Hread|]. intros c.
    apply keeps_bind; [apply _|apply Hw, claim_test_store|]. intros _ s o s'.
    change (on_store (read r)) with (on_containers (P:=P) (Container.read r)).
    assert (on_containers (read r) s = (Ok (obj (containers s) r), s)) as Hr by (by destruct s).
    step Hr. case_bool_decide as Hp; [|by intros [= _ <-]]. intros _ Hn. done. }
  assert (∀ u, keeps (claimed r) (claim_pci (P:=P) u pci)) as Hpci.
  { intros u. apply Hw. unfold claim_pci. keep_rel. }
  unfold container_claim. apply keeps_bind; [apply _|exact Hread|]. intros c.
  destruct (needs_claim c pci); [|by apply keeps_ret, _].
  repeat first [match goal with |- keeps _ (bind _ _) => apply keeps_bind; [apply _| |intros ?] end
    |apply Hnew|apply Hpci|exact Hread
    |apply set_host_claimed|apply keeps_ret, _|apply keeps_gets, _
    |apply Hw; first [apply refresh_store|apply usage_store|apply update_store]].
Qed.
End Store.

Section Books.
Context {P : Type} `{ReportClient P} `{DevFilter}.
Context (sample : list Z → nat → list Z) (cfg : settings).
Implicit Types s : rt P.

(** The tracker is in step: its node [n] is the one in the database, the last
    one published, and the usage is that of the tracked containers. *)
Record in_step s (n : ComputeNode) : Prop := {
  step_node : compute_node s = Some n;
  step_host : hostname n = host cfg;
  step_stored : stored n (nodes s);
  step_old : ∀ o, old_resources s !! hostname n = Some o → o = n;
  step_accounted : accounted (tracked_containers s) n
}.

Lemma in_step_books s s' n : books s' = books s → in_step s n → in_step s' n.
Proof. intros [= H1 H2 H3 H4] []. split; by rewrite ?H1, ?H2, ?H3, ?H4. Qed.

(** Publishing the changed node of a tracker that was in step. *)
Lemma update_spec s n n' s' :
  stored n (nodes s) → compute_node s = Some n' → uuid n' = uuid n → hostname n' = hostname n →
  is_Some (numa_topology n') → hostname n = host cfg →
  (∀ o, old_resources s !! hostname n = Some o → o = n) →
  accounted (tracked_containers s) n' →
  _update cfg s = (Ok tt, s') →
  in_step s' n' ∧ tracked_containers s' = tracked_containers s.
Proof.
  intros Hst Hn Hu Hh Ht Hhost Hold Hacc. unfold _update, cn, _resource_change. steps.
  rewrite Hn. cbn [of_option]. steps.
  destruct (bool_decide (old_resources s !! hostname n' = Some n')) eqn:Hd; steps.
  - apply bool_decide_eq_true_1 in Hd. intros [= <-].
    assert (n' = n) as -> by (apply Hold; by rewrite <- Hh). by split.
  - intros (u1 & s1 & Hsave & (u2 & s2 & Hpl & Hpci)%bind_Ok)%bind_Ok.
    destruct (save_stored n n' (nodes s) Hst Hu Hh Ht) as (t' & Hrun & Hst').
    unfold on_nodes, zoom in Hsave. cbn [nodes set_old] in Hsave. rewrite Hrun in Hsave.
    injection Hsave as <- <-.
    pose proof (preserves_run _ _ _ _ _ (to_placement_books cfg _ n') eq_refl Hpl) as Hb.
    assert (books_are (books s2) s') as Hb'.
    { eapply preserves_run; [|reflexivity|exact Hpci].
      apply preserves_bind; [apply preserves_gets|]. intros [t|]; [apply on_pci_books|apply preserves_ret]. }
    unfold books_are in Hb, Hb'. rewrite Hb in Hb'. injection Hb' as E1 E2 E3 E4. cbn in *.
    split; [|done]. split; rewrite ?E1, ?E2, ?E3, ?E4; [done|by rewrite Hh|done| |done].
    intros o. rewrite lookup_insert_eq. by intros [= ->].
Qed.
(** The node has room for the claim within the limits that are set. *)
Record fits (self : claim) (m : Z) (n : ComputeNode) (l : limits) : Prop := {
  fits_memory : ∀ q, lim_memory l = Some q → (Qc_of_Z (mem_used n) + Qc_of_Z m ≤ q)%Qc;
  fits_cpu : ∀ q, lim_cpu l = Some q → (cpu_used n + claim_cpu self ≤ q)%Qc;
  fits_disk : ∀ q, lim_disk l = Some q →
    (Qc_of_Z (disk_used n) + Qc_of_Z (claim_disk self) ≤ q)%Qc
}.

Lemma test_passes used requested l :
  _test used requested l = false ↔ ∀ q, l = Some q → (used + requested ≤ q)%Qc.
Proof.
  unfold _test. destruct l as [q|]; [|naive_solver].
  assert ((q - used < requested)%Qc ↔ ¬ (used + requested ≤ q)%Qc) as Hiff.
  { rewrite Qcle_ngt. unfold Qcminus. split.
    - intros Hlt Hn. apply Hn. rewrite (Qcplus_comm used).
      apply (Qcplus_lt_mono_r _ _ (- used)). rewrite <- Qcplus_assoc, Qcplus_opp_r.
      by rewrite Qcplus_0_r.
    - intros Hn. apply dec_stable in Hn.
      apply (Qcplus_lt_mono_r _ _ used). rewrite <- Qcplus_assoc, (Qcplus_comm (- used)).
      by rewrite Qcplus_opp_r, Qcplus_0_r, (Qcplus_comm requested). }
  rewrite bool_decide_eq_false, Hiff. split.
  - intros Hn q' [= <-]. by apply dec_stable.
  - intros Hq Hn. apply Hn. by apply Hq.
Qed.

Lemma support_keeps rqs s o s' :
  support_requests_of_tracker rqs s = (o, s') → books s' = books s ∧ containers s' = containers s.
Proof.
  unfold support_requests_of_tracker. steps. destruct (pci_tracker s) as [t|]; cbn [of_option]; steps.
  - unfold on_pci, zoom. by intros [= <- <-].
  - by intros [= <- <-].
Qed.

Lemma claim_memory_keeps self s (o : outcome exn Z) s' :
  claim_memory (S:=rt P) self s = (o, s') → s' = s.
Proof.
  assert (∀ m s (o : outcome exn Z) s', int_memory (S:=rt P) m s = (o, s') → s' = s) as Hm.
  { intros [m|] s1 o1 s1'; unfold int_memory; [|by intros [= <- <-]].
    destruct (str_true m); [|by intros [= <- <-]].
    destruct (int_of 10 m); by intros [= <- <-]. }
  destruct self as [|c|a b]; cbn [claim_memory]; [by intros [= <- <-]|apply Hm|].
  unfold bind. destruct (int_memory (memory a) s) as [[x|e] s1] eqn:H1.
  - destruct (int_memory (memory b) s1) as [[y|e] s2] eqn:H2; intros [= <- <-];
      apply Hm in H1, H2; by subst.
  - intros [= <- <-]. by apply Hm in H1.
Qed.

Lemma claim_test_ok self pci n lims s s' :
  _claim_test (H:=rt_ResourceTracker cfg) self pci (Some n) lims s = (Ok tt, s') →
  ∃ m, claim_memory self s = (Ok m, s) ∧ fits self m n (default no_limits lims) ∧
    books s' = books s ∧ containers s' = containers s.
Proof.
  unfold _claim_test. intros (m & s1 & Hm & Hrun)%bind_Ok.
  pose proof (claim_memory_keeps _ _ _ _ Hm) as ->. exists m. split; [done|].
  cbn [of_option] in Hrun. revert Hrun. steps. unfold _test_memory. steps. step Hm. steps.
  intros (pcib & s1 & Hpci & Hrun)%bind_Ok.
  assert (books s1 = books s ∧ containers s1 = containers s) as [Hb1 Hc1].
  { unfold _test_pci in Hpci. destruct pci as [[|rq rqs]|]; [by injection Hpci as <- <-| |
      by injection Hpci as <- <-].
    apply bind_Ok in Hpci as (b & s2 & Hs & Hr). injection Hr as <- <-.
    exact (support_keeps _ _ _ _ Hs). }
  apply bind_Ok in Hrun as (mb & s2 & Hmem & Hrun).
  assert (s2 = s1) as ->.
  { unfold _test_cpuset_mem in Hmem. destruct (lim_cpuset _) as [l|]; [|by injection Hmem as <- <-].
    apply bind_Ok in Hmem as (ns & s3 & Hns & Hmem).
    destruct (numa_topology n); [injection Hns as <- <-|done].
    apply bind_Ok in Hmem as (c & s3 & Hi & Hmem). apply bind_Ok in Hmem as (z & s4 & Hz & Hmem).
    apply claim_memory_keeps in Hz. injection Hmem as <- <-. subst s4.
    unfold index in Hi. case_match; run_inv; done. }
  unfold raise_if in Hrun. case_match eqn:Hor; [done|]. injection Hrun as <-.
  repeat (apply orb_false_iff in Hor as [Hor ?]).
  split; [|by split]. split; by apply test_passes.
Qed.

Lemma obj_alter f r (st : Container.store) :
  obj (Container.mkStore (alter f r (objects st)) (rows st)) r = f (obj st r) ∨
  obj (Container.mkStore (alter f r (objects st)) (rows st)) r = obj st r.
Proof.
  unfold obj. cbn [objects]. destruct (objects st !! r) as [c|] eqn:Hr.
  - left. by rewrite !list_lookup_total_alt, list_lookup_alter_eq, Hr.
  - right. by rewrite !list_lookup_total_alt, list_lookup_alter_eq, Hr.
Qed.
(** Same resources and same place in the tracker. *)
Definition same_request (c c' : container) : Prop :=
  Container.uuid c' = Container.uuid c ∧ mem_of c' = mem_of c ∧ cpu_of c' = cpu_of c ∧
  disk_of c' = disk_of c ∧ (plain_container c → plain_container c').

Lemma same_request_host h c : same_request c (set_host h c).
Proof. split_and!; [done..|]. intros Hc. exact Hc. Qed.

Lemma same_request_refl c : same_request c c.
Proof. by split_and!. Qed.

Lemma add_usage_same sign c c' n : same_request c c' → add_usage sign c' n = add_usage sign c n.
Proof. intros (_ & H1 & H2 & H3 & _). unfold add_usage. by rewrite H1, H2, H3. Qed.

Lemma memory_plain (c : container) s :
  plain_container c → int_memory (memory c) s = (Ok (mem_of c), s).
Proof.
  intros [Hm _]. unfold int_memory, mem_of. destruct (memory c) as [t|]; [|done].
  destruct (str_true t) eqn:Ht; [|done]. by destruct (Hm t eq_refl Ht) as [z ->].
Qed.

Lemma usage_add c b s n s' :
  compute_node s = Some n → is_Some (numa_topology n) → plain_container c →
  tracked_containers s !! Container.uuid c = None →
  _update_usage_from_container c b s = (Ok tt, s') →
  books s' = (Some (add_usage 1 c n), <[ Container.uuid c := c ]> (tracked_containers s),
              old_resources s, nodes s).
Proof.
  intros Hn [t Ht] Hc Htr. unfold _update_usage_from_container. steps.
  rewrite (bool_decide_eq_true_2 (_ = None)) by done. cbn [negb andb orb]. steps.
  intros (u & s1 & Hpci & (ud & s2 & Hud & Hrun)%bind_Ok)%bind_Ok.
  pose proof (preserves_run _ _ _ _ _ (update_pci_books _ _ _) eq_refl Hpci) as Hb.
  rewrite usage_dict_plain in Hud by done. injection Hud as <- <-.
  injection Hb as E1 E2 E3 E4. cbn in E1, E2, E3, E4.
  rewrite (update_usage_plain _ _ _ n t) in Hrun by (by rewrite ?E1).
  injection Hrun as <-. unfold books. cbn. by rewrite E2, E3, E4.
Qed.

Lemma usage_remove c s n c0 s' :
  compute_node s = Some n → is_Some (numa_topology n) → plain_container c →
  tracked_containers s !! Container.uuid c = Some c0 →
  _update_usage_from_container c true s = (Ok tt, s') →
  books s' = (Some (add_usage (-1) c n), delete (Container.uuid c) (tracked_containers s),
              old_resources s, nodes s).
Proof.
  intros Hn [t Ht] Hc Htr. unfold _update_usage_from_container. steps.
  rewrite (bool_decide_eq_false_2 (_ = None)) by by rewrite Htr. cbn [negb andb orb]. steps.
  intros (u & s1 & Hpci & (ud & s2 & Hud & Hrun)%bind_Ok)%bind_Ok.
  pose proof (preserves_run _ _ _ _ _ (update_pci_books _ _ _) eq_refl Hpci) as Hb.
  rewrite usage_dict_plain in Hud by done. injection Hud as <- <-.
  injection Hb as E1 E2 E3 E4. cbn in E1, E2, E3, E4.
  rewrite (update_usage_plain _ _ _ n t) in Hrun by (by rewrite ?E1).
  injection Hrun as <-. unfold books. cbn. by rewrite E2, E3, E4.
Qed.

Lemma usage_known c c0 s :
  tracked_containers s !! Container.uuid c = Some c0 →
  _update_usage_from_container c false s = (Ok tt, s).
Proof.
  intros Htr. unfold _update_usage_from_container. steps.
  rewrite (bool_decide_eq_false_2 (_ = None)) by by rewrite Htr. done.
Qed.

Lemma refresh_spec s n :
  stored n (nodes s) → hostname n = host cfg →
  ∃ s1, refresh_compute_node cfg s = (Ok tt, s1) ∧
    books s1 = (Some n, tracked_containers s, old_resources s, nodes s) ∧
    containers s1 = containers s.
Proof.
  intros Hst Hh. unfold refresh_compute_node, _get_compute_node.
  assert (on_nodes (P:=P) (get_by_name (host cfg)) s = (Ok n, set_nodes (nodes s) s)) as Hg.
  { unfold on_nodes, zoom. by rewrite <- Hh, (get_by_name_stored n). }
  assert (try_except (let! n := on_nodes (P:=P) (get_by_name (host cfg)) in ret (Some n))
    (λ e, if isinstance e ComputeNodeNotFound then Some (ret None) else None) s =
    (Ok (Some n), set_nodes (nodes s) s)) as Hrun.
  { unfold try_except. by step Hg. }
  step Hrun. steps. by eexists.
Qed.

Lemma claim_pci_keeps u pci s o s' :
  claim_pci u pci s = (o, s') → books s' = books s ∧ containers s' = containers s.
Proof.
  unfold claim_pci. steps. destruct (pci_tracker s) as [t|]; [|by intros [= <- <-]].
  unfold bind, on_pci, zoom. by destruct (claim_container _ _ _) as [[a|e] x]; intros [= <- <-].
Qed.

Lemma set_host_keeps r s s' :
  _set_container_host cfg r s = (Ok tt, s') →
  books s' = books s ∧ same_request (obj (containers s) r) (obj (containers s') r).
Proof.
  intros Hrun. split.
  { refine (preserves_run (books_are _) _ _ _ _ _ eq_refl Hrun). apply on_containers_books. }
  revert Hrun. unfold _set_container_host, on_containers, zoom.
  destruct ((Container.mutate r (set_host (Some (host cfg)));;; Container.save r) (containers s))
    as [o st] eqn:Hm. intros [= -> <-]. cbn.
  apply bind_Ok in Hm as (x & st1 & Hm & Hs). injection Hm as <- <-.
  assert (objects st = alter (set_host (Some (host cfg))) r (objects (containers s))) as Ho.
  { by apply Container.save_Ok in Hs as [_ ->]. }
  pose proof (obj_alter (set_host (Some (host cfg))) r (containers s)) as Hobj.
  unfold obj in *. cbn [objects] in Hobj. rewrite Ho. destruct Hobj as [->| ->]; [apply same_request_host|apply same_request_refl].
Qed.

(** A claim that succeeds, in a tracker that was in step. *)
Lemma container_claim_ok r pci lims s n cl s' :
  in_step s n →
  let c := obj (containers s) r in
  needs_claim c pci = true → cpu_policy c ≠ Some "dedicated" → plain_container c →
  tracked_containers s !! Container.uuid c = None →
  container_claim sample cfg r pci lims s = (Ok cl, s') →
  cl = Claim c ∧ in_step s' (add_usage 1 c n) ∧ fits cl (mem_of c) n (default no_limits lims) ∧
  ∃ c', same_request c c' ∧ tracked_containers s' = <[ Container.uuid c := c' ]> (tracked_containers s).
Proof.
  intros Hin c Hneed Hpol Hplain Huntr.
  destruct Hin as [Hn Hh Hst Hold Hacc]. unfold container_claim.
  assert (on_containers (read r) s = (Ok c, s)) as Hread by (by destruct s).
  step Hread. rewrite Hneed.
  destruct (refresh_spec s n Hst Hh) as (s1 & Href & Hb1 & Hc1). step Href.
  injection Hb1 as E1 E2 E3 E4. steps. rewrite E1. unfold new_claim, init_claim. cbn [on_store rt_ResourceTracker].
  assert (on_containers (read r) s1 = (Ok c, s1)) as Hread1.
  { unfold c. rewrite <- Hc1. by destruct s1. }
  rewrite bind_assoc. step Hread1. rewrite bind_assoc.
  intros ([] & s2 & Htest & Hrun)%bind_Ok.
  destruct (claim_test_ok _ _ _ _ _ _ Htest) as (m & Hm & Hfits & Hb2 & Hc2).
  assert (m = mem_of c) as ->.
  { cbn [claim_memory] in Hm. rewrite memory_plain in Hm by done. by injection Hm. }
  assert (on_containers (read r) s2 = (Ok c, s2)) as Hread2.
  { unfold c. rewrite <- Hc1, <- Hc2. by destruct s2. }
  revert Hrun. rewrite bind_assoc. step Hread2.
  rewrite bool_decide_eq_false_2 by done. rewrite bind_ret.
  intros ([] & s3 & Hpci & ([] & s4 & Hhost & Hrun)%bind_Ok)%bind_Ok.
  destruct (claim_pci_keeps _ _ _ _ _ Hpci) as [Hb3 Hc3].
  destruct (set_host_keeps _ _ _ Hhost) as [Hb4 Hsame].
  rewrite Hc3, Hc2, Hc1 in Hsame. fold c in Hsame. set (c' := obj (containers s4) r) in *.
  assert (on_containers (read r) s4 = (Ok c', s4)) as Hread4 by (by destruct s4).
  revert Hrun. step Hread4. intros ([] & s5 & Husage & ([] & s6 & Hupd & Hret)%bind_Ok)%bind_Ok.
  injection Hret as <- <-.
  assert (books s4 = (Some n, tracked_containers s, old_resources s, nodes s)) as Hb.
  { rewrite Hb4, Hb3, Hb2. unfold books. by rewrite E1, E2, E3, E4. }
  injection Hb as F1 F2 F3 F4. pose proof Hsame as (Hu & _ & _ & _ & Hp').
  apply (usage_add _ _ _ n) in Husage; [|done|apply Hst|by apply Hp'|by rewrite F2, Hu].
  rewrite F2, F3, F4, Hu in Husage. rewrite (add_usage_same _ c c') in Husage by done.
  injection Husage as G1 G2 G3 G4.
  assert (in_step s6 (add_usage 1 c n) ∧ tracked_containers s6 = tracked_containers s5) as [Hs6 Ht6].
  { eapply update_spec; [rewrite G4; exact Hst|done|done|done|apply Hst|done|by rewrite G3| |exact Hupd].
    rewrite G2. pose proof (accounted_insert _ _ (Container.uuid c) c' Huntr Hacc) as Ha.
    by rewrite (add_usage_same _ c c') in Ha. }
  split_and!; [done|done|done|]. exists c'. split; [done|]. by rewrite Ht6, G2.
Qed.
Lemma usage_update c old s n s' :
  compute_node s = Some n → is_Some (numa_topology n) → plain_container c → plain_container old →
  _update_usage_from_container_update c old s = (Ok tt, s') →
  books s' = (Some (add_usage 1 c (add_usage (-1) old n)),
              <[ Container.uuid c := c ]> (tracked_containers s), old_resources s, nodes s).
Proof.
  intros Hn [t Ht] Hc Ho. unfold _update_usage_from_container_update. steps.
  set (s0 := set_tracked _ s).
  rewrite (bind_eq _ _ _ _ _ (usage_dict_plain old s0 Ho)).
  rewrite (bind_eq _ _ _ _ _ (update_usage_plain old (-1) s0 n t Hn Ht)).
  rewrite (bind_eq _ _ _ _ _ (usage_dict_plain c _ Hc)).
  rewrite (update_usage_plain c 1 _ (add_usage (-1) old n) t) by done.
  by intros [= <-].
Qed.

Lemma accounted_update m n u c0 old c :
  m !! u = Some c0 → same_request c0 old → accounted m n →
  accounted (<[ u := c ]> m) (add_usage 1 c (add_usage (-1) old n)).
Proof.
  intros Hm (_ & H1 & H2 & H3 & _) Ha. rewrite <- insert_delete_eq.
  apply accounted_insert; [apply lookup_delete_eq|]. by eapply accounted_delete.
Qed.

(** A removal, after which the node is published. *)
Lemma removal_ok c c0 s n s' :
  in_step s n → plain_container c →
  tracked_containers s !! Container.uuid c = Some c0 → same_request c0 c →
  (_update_usage_from_container c true;;; _update cfg) s = (Ok tt, s') →
  in_step s' (add_usage (-1) c n) ∧
  tracked_containers s' = delete (Container.uuid c) (tracked_containers s).
Proof.
  intros [Hn Hh Hst Hold Hacc] Hc Htr (_ & E1 & E2 & E3 & _) ([] & s1 & Hu & Hupd)%bind_Ok.
  apply (usage_remove _ _ n c0) in Hu; [|done|apply Hst|done|done].
  injection Hu as F1 F2 F3 F4.
  assert (in_step s' (add_usage (-1) c n) ∧ tracked_containers s' = tracked_containers s1)
    as [Hs' Ht'].
  { eapply update_spec; [rewrite F4; exact Hst|done|done|done|apply Hst|done|by rewrite F3| |exact Hupd].
    rewrite F2. by eapply accounted_delete. }
  split; [done|]. by rewrite Ht', F2.
Qed.

(** The entry points, but for the periodic recomputation. *)
Inductive op : Type :=
| OClaim (r : nat) (pci_requests : option (list request)) (lims : option limits)
| OUpdateClaim (r : nat) (old_container : container) (lims : option limits)
| OAbort (c : container)
| ORemove (c : container).

Definition run_op (o : op) : py (rt P) unit :=
  match o with
  | OClaim r pci lims => let! _cl := container_claim sample cfg r pci lims in ret tt
  | OUpdateClaim r old lims => let! _cl := container_update_claim sample cfg r old lims in ret tt
  | OAbort c => abort (H:=rt_ResourceTracker cfg) (Claim c)
  | ORemove c => remove_usage_from_container cfg c true
  end.

(** What the manager passes: containers with no pinned CPUs; a new container
    when it claims, and the one the tracker knows when it updates or removes. *)
Definition known (s : rt P) (c : container) : Prop :=
  plain_container c ∧ ∃ c0, tracked_containers s !! Container.uuid c = Some c0 ∧ same_request c0 c.

Definition op_ok (s : rt P) (o : op) : Prop :=
  match o with
  | OClaim r _ _ =>
      let c := obj (containers s) r in
      cpu_policy c ≠ Some "dedicated" ∧ plain_container c ∧
      tracked_containers s !! Container.uuid c = None
  | OUpdateClaim r old _ =>
      let c := obj (containers s) r in
      cpu_policy c ≠ Some "dedicated" ∧ plain_container c ∧
      Container.uuid c = Container.uuid old ∧ known s old
  | OAbort c => known s c
  | ORemove c => known s c
  end.

Lemma update_claim_ok r old lims s n cl s' :
  in_step s n → op_ok s (OUpdateClaim r old lims) →
  container_update_claim sample cfg r old lims s = (Ok cl, s') →
  s' = s ∧ cl = NopClaim ∨
  let c := obj (containers s) r in
  let n' := add_usage 1 c (add_usage (-1) old n) in
  cl = UpdateClaim c old ∧ in_step s' n' ∧
  tracked_containers s' = <[ Container.uuid c := c ]> (tracked_containers s) ∧
  fits cl (mem_of c - mem_of old) n (default no_limits lims).
Proof.
  set (c := obj (containers s) r). intros [Hn Hh Hst Hold Hacc] (Hpol & Hplain & Hu & Hpo & c0 & Htr & Hsame).
  fold c in Hpol, Hplain, Hu. unfold container_update_claim.
  assert (on_containers (read r) s = (Ok c, s)) as Hread by (by destruct s).
  step Hread. case_match; [by intros [= <- <-]; left|]. right.
  destruct (refresh_spec s n Hst Hh) as (s1 & Href & Hb1 & Hc1). revert H2. step Href.
  injection Hb1 as E1 E2 E3 E4. steps. rewrite E1. unfold new_update_claim, init_claim.
  cbn [on_store rt_ResourceTracker].
  assert (on_containers (read r) s1 = (Ok c, s1)) as Hread1.
  { unfold c. rewrite <- Hc1. by destruct s1. }
  rewrite bind_assoc. step Hread1. rewrite bind_assoc.
  intros ([] & s2 & Htest & Hrun)%bind_Ok.
  destruct (claim_test_ok _ _ _ _ _ _ Htest) as (m & Hm & Hfits & Hb2 & Hc2).
  assert (m = mem_of c - mem_of old)%Z as ->.
  { cbn [claim_memory] in Hm. rewrite (bind_eq _ _ _ _ _ (memory_plain c s1 Hplain)),
      (bind_eq _ _ _ _ _ (memory_plain old s1 Hpo)) in Hm. by injection Hm. }
  assert (on_containers (read r) s2 = (Ok c, s2)) as Hread2.
  { unfold c. rewrite <- Hc1, <- Hc2. by destruct s2. }
  revert Hrun. rewrite bind_assoc. step Hread2. rewrite bool_decide_eq_false_2 by done.
  rewrite bind_ret. step Hread2.
  intros ([] & s3 & Husage & ([] & s4 & Hupd & Hret)%bind_Ok)%bind_Ok. injection Hret as <- <-.
  injection Hb2 as F1 F2 F3 F4.
  apply (usage_update _ _ _ n) in Husage; [|by rewrite F1|apply Hst|done..].
  rewrite F2, F3, F4, E2, E3, E4 in Husage. injection Husage as G1 G2 G3 G4.
  assert (in_step s4 (add_usage 1 c (add_usage (-1) old n)) ∧
          tracked_containers s4 = tracked_containers s3) as [Hs4 Ht4].
  { eapply update_spec; [rewrite G4; exact Hst|done|done|done|apply Hst|done|by rewrite G3| |exact Hupd].
    rewrite G2, Hu. by eapply accounted_update. }
  split_and!; [done|done|by rewrite Ht4, G2|done].
Qed.
Lemma add_remove_usage c n :
  let n' := add_usage (-1) c (add_usage 1 c n) in
  mem_used n' = mem_used n ∧ cpu_used n' = cpu_used n ∧ disk_used n' = disk_used n ∧
  running_containers n' = running_containers n.
Proof.
  cbn. split_and!; [lia| |lia|lia].
  rewrite Qc_of_1, Qcmult_1_l, (Qcplus_comm (cpu_used n)). apply Qcplus_cancel.
Qed.

(** A claim, whether or not the container asks for anything. *)
Lemma claim_cases r pci lims s n cl s' :
  in_step s n → op_ok s (OClaim r pci lims) →
  container_claim sample cfg r pci lims s = (Ok cl, s') →
  s' = s ∧ cl = NopClaim ∨
  let c := obj (containers s) r in
  cl = Claim c ∧ in_step s' (add_usage 1 c n) ∧ fits cl (mem_of c) n (default no_limits lims) ∧
  ∃ c', same_request c c' ∧ tracked_containers s' = <[ Container.uuid c := c' ]> (tracked_containers s).
Proof.
  intros Hin (Hpol & Hplain & Huntr) Hrun.
  destruct (needs_claim (obj (containers s) r) pci) eqn:Hneed.
  - right. by eapply container_claim_ok.
  - left. revert Hrun. unfold container_claim.
    assert (on_containers (read r) s = (Ok (obj (containers s) r), s)) as Hread by (by destruct s).
    step Hread. rewrite Hneed. by intros [= <- <-].
Qed.

(** Aborting a granted claim puts the books back. *)
Lemma claim_released r pci lims s n c s1 s2 s3 :
  in_step s n → op_ok s (OClaim r pci lims) →
  container_claim sample cfg r pci lims s = (Ok (Claim c), s1) → books s2 = books s1 →
  abort_claim cfg c s2 = (Ok tt, s3) →
  tracked_containers s3 = tracked_containers s ∧
  ∃ n3, in_step s3 n3 ∧ mem_used n3 = mem_used n ∧ cpu_used n3 = cpu_used n ∧
    disk_used n3 = disk_used n ∧ running_containers n3 = running_containers n.
Proof.
  intros Hin Hok Hrun Hb Habort.
  destruct (claim_cases _ _ _ _ _ _ _ Hin Hok Hrun)
    as [[_ ?]|([= ->] & Hin1 & _ & c' & Hsame & Htr)]; [done|].
  pose proof (in_step_books _ s2 _ Hb Hin1) as Hin2. injection Hb as _ E2 _ _.
  destruct Hok as (_ & Hplain & Huntr). set (c := obj (containers s) r) in *.
  assert (same_request c' c) as Hback by (destruct Hsame as (?&?&?&?&?); by split_and!).
  destruct (removal_ok c c' s2 _ s3 Hin2 Hplain) as [Hin3 Ht3];
    [by rewrite E2, Htr, lookup_insert_eq|done|exact Habort|].
  split.
  - by rewrite Ht3, E2, Htr, delete_insert_id.
  - eexists. split; [exact Hin3|]. apply add_remove_usage.
Qed.

(** The claimed node is within the limits. *)
Lemma fits_added c n l :
  fits (Claim c) (mem_of c) n l →
  (∀ q, lim_memory l = Some q → (Qc_of_Z (mem_used (add_usage 1 c n)) ≤ q)%Qc) ∧
  (∀ q, lim_cpu l = Some q → (cpu_used (add_usage 1 c n) ≤ q)%Qc) ∧
  (∀ q, lim_disk l = Some q → (Qc_of_Z (disk_used (add_usage 1 c n)) ≤ q)%Qc).
Proof.
  intros [Hm Hc Hd]. cbn. split_and!; intros q Hq.
  - replace (mem_used n + _)%Z with (mem_used n + mem_of c)%Z by (destruct (mem_of c); done).
    rewrite Z2Qc_inj_add. by apply Hm.
  - rewrite Qc_of_1, Qcmult_1_l. by apply Hc.
  - replace (disk_used n + _)%Z with (disk_used n + disk_of c)%Z by (destruct (disk_of c); done).
    rewrite Z2Qc_inj_add. by apply Hd.
Qed.

(** The containers counted by [_update_usage_from_containers]: the first one of
    each uuid. *)
Definition track (m : gmap string container) (c : container) : gmap string container :=
  match m !! Container.uuid c with None => <[ Container.uuid c := c ]> m | Some _ => m end.

Definition mem_free_exact (n : ComputeNode) : Prop := mem_free n = (mem_total n - mem_used n)%Z.

Lemma recompute_loop cs : ∀ s n s',
  compute_node s = Some n → is_Some (numa_topology n) → Forall plain_container cs →
  accounted (tracked_containers s) n → mem_free_exact n →
  for_each (λ c, _update_usage_from_container c false) cs s = (Ok tt, s') →
  ∃ n', compute_node s' = Some n' ∧ is_Some (numa_topology n') ∧
    tracked_containers s' = foldl track (tracked_containers s) cs ∧
    accounted (tracked_containers s') n' ∧ mem_free_exact n' ∧ mem_total n' = mem_total n.
Proof.
  induction cs as [|c cs IH]; intros s n s' Hn Ht Hcs Hacc Hfree.
  { intros [= <-]. by exists n. }
  apply Forall_cons in Hcs as [Hc Hcs]. cbn [for_each foldl].
  destruct (tracked_containers s !! Container.uuid c) as [c0|] eqn:Htr.
  - rewrite (bind_eq _ _ _ _ _ (usage_known c c0 s Htr)). intros Hrun.
    destruct (IH s n s' Hn Ht Hcs Hacc Hfree Hrun) as (n' & H'). exists n'.
    unfold track at 2. by rewrite Htr.
  - intros ([] & s1 & Hu & Hrun)%bind_Ok.
    apply (usage_add _ _ _ n) in Hu; [|done..]. injection Hu as F1 F2 F3 F4.
    destruct (IH s1 (add_usage 1 c n) s' F1 Ht Hcs) as (n' & H'); [|done|done|].
    { rewrite F2. by apply accounted_insert. }
    exists n'. rewrite F2 in H'. unfold track at 2. by rewrite Htr.
Qed.

(** With no PCI devices to hand out, nothing can fail. *)
Lemma recompute_loop_total cs : ∀ s n,
  compute_node s = Some n → is_Some (numa_topology n) → Forall plain_container cs →
  pci_tracker s = None →
  ∃ s' n', for_each (λ c, _update_usage_from_container c false) cs s = (Ok tt, s') ∧
    compute_node s' = Some n'.
Proof.
  induction cs as [|c cs IH]; intros s n Hn Ht Hcs Hpci; [by exists s, n|].
  apply Forall_cons in Hcs as [Hc Hcs]. cbn [for_each].
  destruct (tracked_containers s !! Container.uuid c) as [c0|] eqn:Htr.
  - rewrite (bind_eq _ _ _ _ _ (usage_known c c0 s Htr)). by eapply IH.
  - set (s1 := set_compute_node (Some (add_usage 1 c n))
      (set_tracked (<[ Container.uuid c := c ]> (tracked_containers s)) s)).
    assert (_update_usage_from_container c false s = (Ok tt, s1)) as Hrun.
    { unfold _update_usage_from_container, update_pci. steps.
      rewrite (bool_decide_eq_true_2 (_ = None)) by done. cbn [negb andb orb]. steps.
      cbn [pci_tracker set_tracked]. rewrite Hpci. steps. destruct Ht as [t Ht].
      rewrite (bind_eq _ _ _ _ _ (usage_dict_plain c _ Hc)).
      by rewrite (update_usage_plain c 1 _ n t). }
    step Hrun. by apply (IH s1 (add_usage 1 c n)).
Qed.

(** ** Properties *)

(** C4. The books stay right: whenever a claim, an update claim, the abort of a
    claim or a removal returns, the compute node of the tracker, the row in the
    database and the copy last published agree again, and the memory, CPU and
    disk in use and the number of containers are the sums over the containers
    the tracker knows. *)
Theorem usage_matches_containers o s n s' :
  in_step s n → op_ok s o → run_op o s = (Ok tt, s') → ∃ n', in_step s' n'.
Proof.
  intros Hin Hok. destruct o as [r pci lims|r old lims|c|c]; cbn [run_op].
  - intros (cl & s1 & Hrun & Hret)%bind_Ok. injection Hret as <-.
    destruct (claim_cases _ _ _ _ _ _ _ Hin Hok Hrun) as [[-> _]|(_ & Hin' & _)]; by eexists.
  - intros (cl & s1 & Hrun & Hret)%bind_Ok. injection Hret as <-.
    destruct (update_claim_ok _ _ _ _ _ _ _ Hin Hok Hrun) as [[-> _]|(_ & Hin' & _)]; by eexists.
  - destruct Hok as (Hc & c0 & Htr & Hsame). intros Hrun.
    eexists. by apply (removal_ok c c0 s n s').
  - destruct Hok as (Hc & c0 & Htr & Hsame). unfold remove_usage_from_container.
    destruct Hin as [Hn Hh Hst Hold Hacc].
    destruct (refresh_spec s n Hst Hh) as (s1 & Href & Hb & _). step Href. intros Hrun.
    injection Hb as E1 E2 E3 E4.
    assert (in_step s1 n) as Hin1 by (split; by rewrite ?E1, ?E2, ?E3, ?E4).
    eexists. apply (removal_ok c c0 s1 n s'); [done|done|by rewrite E2|done|exact Hrun].
Qed.

(** C36. No overcommitment: after a claim that was granted, the memory, CPU and
    disk in use on the node, the new container included, are within the limits
    the scheduler set. *)
Theorem claim_within_limits r pci lims s n c s' :
  in_step s n → op_ok s (OClaim r pci (Some lims)) →
  container_claim sample cfg r pci (Some lims) s = (Ok (Claim c), s') →
  ∃ n', in_step s' n' ∧
    (∀ q, lim_memory lims = Some q → (Qc_of_Z (mem_used n') ≤ q)%Qc) ∧
    (∀ q, lim_cpu lims = Some q → (cpu_used n' ≤ q)%Qc) ∧
    (∀ q, lim_disk lims = Some q → (Qc_of_Z (disk_used n') ≤ q)%Qc).
Proof.
  intros Hin Hok Hrun.
  destruct (claim_cases _ _ _ _ _ _ _ Hin Hok Hrun) as [[_ ?]|([= ->] & Hin' & Hfits & _)]; [done|].
  eexists. split; [exact Hin'|]. exact (fits_added _ _ _ Hfits).
Qed.

(** Giving back: when the operation a claim was made for raises (without
    itself touching the books), leaving the [with] block re-raises the exception
    with the container forgotten and the usage of the node what it was before
    the claim. *)
Theorem failed_create_releases {A} r pci lims s n c s1 (body : py (rt P) A) e s2 s3 :
  in_step s n → op_ok s (OClaim r pci lims) →
  container_claim sample cfg r pci lims s = (Ok (Claim c), s1) →
  body s1 = (Raise e, s2) → books s2 = books s1 →
  abort (H:=rt_ResourceTracker cfg) (Claim c) s2 = (Ok tt, s3) →
  with_claim (H:=rt_ResourceTracker cfg) (Claim c) body s1 = (Raise e, s3) ∧
  tracked_containers s3 = tracked_containers s ∧
  ∃ n3, in_step s3 n3 ∧ mem_used n3 = mem_used n ∧ cpu_used n3 = cpu_used n ∧
    disk_used n3 = disk_used n ∧ running_containers n3 = running_containers n.
Proof.
  intros Hin Hok Hrun Hbody Hb Habort.
  destruct (claim_released r pci lims s n c s1 s2 s3) as [Htr Hn]; [done..|].
  split; [|done]. unfold with_claim, try_except. rewrite Hbody. by step Habort.
Qed.

(** The periodic recomputation: from the containers of the host it tracks the
    first one of each uuid, the usage of the node is their sum, and the free
    memory is what is left of the total, never negative.  Without PCI devices it
    cannot fail. *)
Theorem recompute_usage cs s n :
  compute_node s = Some n → is_Some (numa_topology n) → Forall plain_container cs →
  (pci_tracker s = None → ∃ s', _update_usage_from_containers cs s = (Ok tt, s')) ∧
  ∀ s', _update_usage_from_containers cs s = (Ok tt, s') →
    tracked_containers s' = foldl track ∅ cs ∧
    ∃ n', compute_node s' = Some n' ∧ accounted (foldl track ∅ cs) n' ∧
      mem_free n' = Z.max 0 (mem_total n - sum_mem (foldl track ∅ cs))%Z.
Proof.
  intros Hn Ht Hcs. unfold _update_usage_from_containers, cn, upd_cn. steps.
  cbn [compute_node set_tracked]. rewrite Hn. cbn [of_option]. steps.
  cbn [compute_node set_compute_node set_tracked]. rewrite Hn. cbn [fmap option_fmap option_map].
  set (s0 := set_compute_node _ _). set (n0 := set_usage (mem_total n) 0 0 0%Qc 0 n).
  split.
  - intros Hpci. destruct (recompute_loop_total cs s0 n0) as (s1 & n1 & Hrun & Hn1); [done..|].
    step Hrun. by eexists.
  - intros s' ([] & s1 & Hrun & Hlast)%bind_Ok. injection Hlast as <-.
    destruct (recompute_loop cs s0 n0 s1) as (n' & Hn' & _ & Htr & Hacc & Hfree & Htot);
      [done|done|done|by split|unfold mem_free_exact; cbn; lia|done|].
    cbn [tracked_containers set_compute_node s0] in *. rewrite Htr in Hacc.
    split; [done|]. rewrite Hn'. eexists. split; [done|]. split.
    + destruct Hacc. by split.
    + cbn. rewrite Hfree, Htot. by rewrite (acc_mem _ _ Hacc).
Qed.

(** A container that asks for dedicated CPUs is never claimed: whatever the
    limits, the claim raises. *)
Theorem dedicated_claim_fails r pci lims s :
  let c := obj (containers s) r in
  needs_claim c pci = true → cpu_policy c = Some "dedicated" →
  ¬ ∃ cl s', container_claim sample cfg r pci lims s = (Ok cl, s').
Proof.
  intros c Hneed Hpol (cl & s' & Hrun). revert Hrun. unfold container_claim.
  assert (on_containers (read r) s = (Ok c, s)) as Hread by (by destruct s).
  step Hread. rewrite Hneed. intros (u & s1 & Href & Hrun)%bind_Ok.
  assert (containers s1 = containers s) as Hc1.
  { revert Href. unfold refresh_compute_node. intros (o & s2 & Hget & Hmod)%bind_Ok.
    injection Hmod as _ Hs1. subst s1. revert Hget.
    unfold _get_compute_node, try_except, bind, on_nodes, zoom.
    destruct (get_by_name _ _) as [[m|e] t]; [by injection 1 as _ <-|].
    destruct (isinstance _ _); [by injection 1 as _ <-|done]. }
  revert Hrun. steps. unfold new_claim, init_claim. cbn [on_store rt_ResourceTracker].
  assert (on_containers (read r) s1 = (Ok c, s1)) as Hread1.
  { unfold c. rewrite <- Hc1. by destruct s1. }
  rewrite bind_assoc. step Hread1. intros (cl' & s2 & Hclaim & _)%bind_Ok.
  apply bind_Ok in Hclaim as ([] & s3 & Htest & Hclaim).
  destruct (compute_node s1) as [n|] eqn:Hn; [|].
  - destruct (claim_test_ok _ _ _ _ _ _ Htest) as (m & _ & _ & _ & Hc2).
    assert (on_containers (read r) s3 = (Ok c, s3)) as Hread2.
    { unfold c. rewrite <- Hc1, <- Hc2. by destruct s3. }
    revert Hclaim. step Hread2. rewrite bool_decide_eq_true_2 by done.
    intros (? & ? & _ & (? & ? & _ & (? & ? & Hmem & _)%bind_Ok)%bind_Ok)%bind_Ok.
    unfold claim_cpuset_mem_for_container in Hmem.
    by apply bind_Ok in Hmem as (? & ? & _ & Hmem).
  - unfold _claim_test in Htest. by apply bind_Ok in Htest as (? & ? & _ & Htest).
Qed.

(** An update of placement is attempted at most four times: it is repeated
    exactly while it meets a conflict, and its outcome is that of the last
    attempt. *)
Theorem placement_retry_spec n s o s' :
  _update_to_placement cfg n s = (o, s') ↔
  ∃ k s1, (k ≤ 3)%nat ∧ failures is_conflict k (update_to_placement_once cfg n) s s1 ∧
    update_to_placement_once cfg n s1 = (o, s') ∧
    (k = 3%nat ∨ ∀ e, o = Raise e → is_conflict e = false).
Proof. apply retrying_spec. Qed.

(** Aborting an update claim puts the usage back in memory and then always fails:
    [_update] is called with one argument too few, so nothing is published. *)
Lemma update_abort_raises new old s n :
  compute_node s = Some n → is_Some (numa_topology n) →
  plain_container new → plain_container old →
  ∃ s', abort (H:=rt_ResourceTracker cfg) (UpdateClaim new old) s = (Raise (Py TypeError), s') ∧
    compute_node s' = Some (add_usage 1 old (add_usage (-1) new n)) ∧ nodes s' = nodes s.
Proof.
  intros Hn [t Ht] Hnew Hold. cbn [abort abort_container_update_claim rt_ResourceTracker].
  unfold abort_update_claim, _update_usage_from_container_update. steps.
  set (s0 := set_tracked _ s).
  rewrite ?bind_assoc, (bind_eq _ _ _ _ _ (usage_dict_plain new s0 Hnew)).
  rewrite ?bind_assoc, (bind_eq _ _ _ _ _ (update_usage_plain new (-1) s0 n t Hn Ht)).
  rewrite ?bind_assoc, (bind_eq _ _ _ _ _ (usage_dict_plain old _ Hold)).
  set (s1 := set_compute_node _ s0).
  rewrite (bind_eq _ _ _ _ _ (update_usage_plain old 1 s1 (add_usage (-1) new n) t eq_refl Ht)).
  by eexists.
Qed.

(** Removing a container the tracker does not know counts it as a new one. *)
Lemma removing_unknown_adds c s n s' :
  compute_node s = Some n → is_Some (numa_topology n) → plain_container c →
  tracked_containers s !! Container.uuid c = None →
  _update_usage_from_container c true s = (Ok tt, s') →
  compute_node s' = Some (add_usage 1 c n) ∧
  tracked_containers s' !! Container.uuid c = Some c.
Proof.
  intros Hn Ht Hc Htr Hrun. apply (usage_add _ _ _ n) in Hrun; [|done..].
  injection Hrun as E1 E2 _ _. by rewrite E1, E2, lookup_insert_eq.
Qed.
End Books.

(** ** Examples *)

(** A placement service that knows one provider. *)
#[export] Instance demo_client : ReportClient unit := {|
  get_provider_by_name := λ _, ret "rp1";
  get_provider_tree_and_ensure_root := λ u n, ret [Node.new u n (Some u) (Some 1%Z) None];
  update_from_provider_tree := λ _, ret tt |}.

Definition demo_conf : compute_conf :=
  mkConf None None None (Qc_of_Z 16) (Qc_of_Z 3 / Qc_of_Z 2)%Qc 1%Qc 0 512 0 false.
Definition demo_topology : NUMATopology :=
  [Numa.mkNode 0 {[ 0; 1; 2; 3 ]}%Z ∅ (Some 4096%Z) (Some 4096%Z)].
Definition demo_host : host_info :=
  mkHost demo_topology (8388608, 4194304, 4194304, 4194304)%Z (100, 20)%Z false 4 ["host1"] None [].
Definition demo_settings : settings :=
  mkSettings "host1" false [] demo_conf demo_host [] "node1".

Definition demo_node : ComputeNode :=
  ComputeNode.mkNode "node1" (Some "node1") (Some demo_topology) "host1" 8192 8192 4096 0 0 0 0 0
    4 0%Qc [None; None; None; None] None None 80 0 false None false.
Definition demo_container : container :=
  Container.mkContainer "c1" TYPE_CONTAINER (Some "web") None (Some CREATING) None None
    (Some 2%Qc) (Some "shared") (Some (mkCpuset (Some None) (Some None))) (Some "512")
    (Some 10%Z) None None [] None None None None None None [].
Definition demo : rt unit :=
  mkRt (Some demo_node) ∅ ∅ None None (mkDriver None None None [])
    (Container.mkStore [demo_container] [("c1", demo_container)]) [to_row None demo_node]
    [] None tt.
Definition demo_limits : limits :=
  mkLimits (Some (Qc_of_Z 1024)) (Some (Qc_of_Z 4)) (Some (Qc_of_Z 80)) None.

Abbreviation demo_claim :=
  (container_claim (H0:=vendor_filter) (λ l k, take k l) demo_settings 0 None
     (Some demo_limits) demo).

Lemma demo_in_step : in_step demo_settings demo demo_node.
Proof.
  split; [done|done| |done|by split].
  split; [by eexists|]. exists [], []. by split.
Qed.

Lemma demo_plain : plain_container demo_container.
Proof.
  split; [by intros s [= <-] _; vm_compute; eexists|].
  by exists (mkCpuset (Some None) (Some None)), None.
Qed.

Lemma demo_op_ok lims : op_ok demo (OClaim 0 None lims).
Proof. split_and!; [done|exact demo_plain|done]. Qed.

Lemma usage_matches_containers_witness :
  in_step demo_settings demo demo_node ∧
  ∃ n', in_step demo_settings
    (run_op (H0:=vendor_filter) (λ l k, take k l) demo_settings
       (OClaim 0 None (Some demo_limits)) demo).2 n'.
Proof.
  split; [exact demo_in_step|].
  apply (usage_matches_containers (H0:=vendor_filter) (λ l k, take k l) demo_settings
    (OClaim 0 None (Some demo_limits)) demo demo_node);
    [exact demo_in_step|exact (demo_op_ok _)|].
  assert ((run_op (H0:=vendor_filter) (λ l k, take k l) demo_settings
    (OClaim 0 None (Some demo_limits)) demo).1 = Ok tt) as Hrun by (vm_compute; reflexivity).
  exact (run_eq _ _ Hrun).
Defined.

Lemma claim_within_limits_witness :
  demo_claim.1 = Ok (Claim demo_container) ∧
  ∃ n', in_step demo_settings demo_claim.2 n' ∧ (Qc_of_Z (mem_used n') ≤ Qc_of_Z 1024)%Qc.
Proof.
  assert (demo_claim.1 = Ok (Claim demo_container)) as Hrun by (vm_compute; reflexivity).
  split; [exact Hrun|].
  destruct (claim_within_limits (H0:=vendor_filter) (λ l k, take k l) demo_settings 0 None
    demo_limits demo demo_node demo_container demo_claim.2) as (n' & Hin & Hm & _ & _);
    [exact demo_in_step|exact (demo_op_ok _)|exact (run_eq _ _ Hrun)|].
  exists n'. split; [exact Hin|by apply Hm].
Defined.

Lemma failed_create_releases_witness :
  ∃ s3, with_claim (H:=rt_ResourceTracker (H0:=vendor_filter) demo_settings)
    (Claim demo_container) (raise (A:=unit) (Zun DockerError)) demo_claim.2 =
      (Raise (Zun DockerError), s3) ∧ tracked_containers s3 = ∅.
Proof.
  assert (demo_claim.1 = Ok (Claim demo_container)) as Hrun by (vm_compute; reflexivity).
  set (ab := abort (H:=rt_ResourceTracker (H0:=vendor_filter) demo_settings) (Claim demo_container)
    demo_claim.2).
  assert (ab.1 = Ok tt) as Hab by (vm_compute; reflexivity).
  exists ab.2.
  destruct (failed_create_releases (H0:=vendor_filter) (λ l k, take k l) demo_settings 0 None
    (Some demo_limits) demo demo_node demo_container demo_claim.2
    (raise (A:=unit) (Zun DockerError)) (Zun DockerError) demo_claim.2 ab.2)
    as (Hw & Ht & _); [exact demo_in_step|exact (demo_op_ok _)|exact (run_eq _ _ Hrun)|
      reflexivity|reflexivity|exact (run_eq ab _ Hab)|].
  split; [exact Hw|exact Ht].
Defined.

Lemma recompute_usage_witness :
  ∃ s' n', _update_usage_from_containers (H0:=vendor_filter) [demo_container] demo = (Ok tt, s') ∧
    compute_node s' = Some n' ∧ mem_free n' = 7680%Z.
Proof.
  destruct (recompute_usage (H0:=vendor_filter) [demo_container] demo demo_node) as [Htot Hspec];
    [reflexivity|by eexists|by constructor; [exact demo_plain|]|].
  destruct (Htot eq_refl) as [s' Hrun].
  destruct (Hspec s' Hrun) as (_ & n' & Hn & _ & Hfree).
  exists s', n'. split; [exact Hrun|]. split; [exact Hn|]. rewrite Hfree. vm_compute. reflexivity.
Defined.

Lemma dedicated_claim_fails_witness :
  let c := set_cpu_policy (Some "dedicated") demo_container in
  ¬ ∃ cl s', container_claim (H0:=vendor_filter) (λ l k, take k l) demo_settings 0 None None
    (set_containers (Container.mkStore [c] [("c1", c)]) demo) = (Ok cl, s').
Proof.
  apply (dedicated_claim_fails (H0:=vendor_filter) (λ l k, take k l) demo_settings 0 None None
    (set_containers (Container.mkStore [set_cpu_policy (Some "dedicated") demo_container]
       [("c1", set_cpu_policy (Some "dedicated") demo_container)]) demo));
    vm_compute; reflexivity.
Defined.
