(* ===== verification/ResourceRequest.v ===== *)
(** * What a container asks of placement (src/zun/scheduler/utils.py)

    A [ResourceRequest] is a dictionary of request groups: the unnumbered group
    ([None]), groups numbered in the extra specs (text), and groups added by
    other services (integers).  It is built from the extra specs and the
    container, and printed as the query of [GET /allocation_candidates]. *)

From stdpp Require Import pretty.
From Stdlib Require Import Ascii.
From S2P Require Import Prelude Exceptions PyStr PciStats Container ComputeNode.

(** objects.RequestGroup (src/zun/objects/request_group.py) *)
Record RequestGroup : Type := mkGroup {
  use_same_provider : bool;
  resources : dict string Z;
  required_traits : gset string;
  forbidden_traits : gset string;
  aggregates : list (list string);
  in_tree : option string
}.

Definition new_group (same : bool) : RequestGroup := mkGroup same [] ∅ ∅ [] None.

Definition set_resources (r : dict string Z) (g : RequestGroup) : RequestGroup :=
  mkGroup (use_same_provider g) r (required_traits g) (forbidden_traits g) (aggregates g)
    (in_tree g).
Definition set_required (t : gset string) (g : RequestGroup) : RequestGroup :=
  mkGroup (use_same_provider g) (resources g) t (forbidden_traits g) (aggregates g) (in_tree g).
Definition set_forbidden (t : gset string) (g : RequestGroup) : RequestGroup :=
  mkGroup (use_same_provider g) (resources g) (required_traits g) t (aggregates g) (in_tree g).
Definition set_in_tree (u : option string) (g : RequestGroup) : RequestGroup :=
  mkGroup (use_same_provider g) (resources g) (required_traits g) (forbidden_traits g)
    (aggregates g) u.

(** The keys of [_rg_by_id] besides [None]: text and integers do not collide. *)
Inductive ident : Type := IStr (s : string) | INum (n : Z).

#[export] Instance ident_eq_dec : EqDecision ident.
Proof. solve_decision. Defined.

Record ResourceRequest : Type := mkRR {
  rg_by_id : dict (option ident) RequestGroup;
  group_policy : option string;
  limit : option Z
}.

Definition set_groups (d : dict (option ident) RequestGroup) (rr : ResourceRequest)
    : ResourceRequest := mkRR d (group_policy rr) (limit rr).
Definition set_policy (p : option string) (rr : ResourceRequest) : ResourceRequest :=
  mkRR (rg_by_id rr) p (limit rr).
Definition set_limit (l : option Z) (rr : ResourceRequest) : ResourceRequest :=
  mkRR (rg_by_id rr) (group_policy rr) l.

(** The extra specs: [xs_items] are the entries with a text value, in order; of
    the other keys, the ones the scheduler reads. *)
Record extra_specs : Type := mkXs {
  xs_items : dict string string;
  xs_hints : option (option (dict string string));  (** a missing key or a null *)
  xs_requested_host : option string;
  xs_availability_zone : option string;
  xs_pci_requests : option (option (list request));
  xs_requested_resources : option (list RequestGroup)
}.

(** Truthiness of the dictionary. *)
Definition xs_true (xs : extra_specs) : bool :=
  match xs_items xs, xs_hints xs, xs_requested_host xs, xs_availability_zone xs,
        xs_pci_requests xs, xs_requested_resources xs with
  | [], None, None, None, None, None => false
  | _, _, _, _, _, _ => true
  end.

(** ** The keys [resources$N:name] and [trait$N:name]

    [XS_KEYPAT]: one of the two prefixes, an optional number without leading
    zero, a colon, and a name that runs to the end of the text. *)
Inductive prefix : Type := Resources | Trait.

Fixpoint strip_prefix (p l : chars) : option chars :=
  match p, l with
  | [], _ => Some l
  | c :: p', c' :: l' => if decide (c = c') then strip_prefix p' l' else None
  | _, [] => None
  end.

Definition is_digit (c : ascii) : bool := (48 <=? code_of c)%Z && (code_of c <=? 57)%Z.

Fixpoint span_digits (l : chars) : chars * chars :=
  match l with
  | c :: l' => if is_digit c then let '(d, r) := span_digits l' in (c :: d, r) else ([], l)
  | [] => ([], [])
  end.

(** The optional number and the colon. *)
Definition number_colon (l : chars) : option (option chars * chars) :=
  let '(d, r) := span_digits l in
  match d, r with
  | [], ":"%char :: r' => Some (None, r')
  | "0"%char :: _, _ => None
  | _, ":"%char :: r' => Some (Some d, r')
  | _, _ => None
  end.

(** The name has no newline; one at the very end of the text is left out. *)
Definition newline : ascii := ascii_of_nat 10.
Fixpoint to_end (l : chars) : option chars :=
  match l with
  | [] => Some []
  | c :: l' => if decide (c = newline) then match l' with [] => Some [] | _ => None end
               else cons c <$> to_end l'
  end.

Definition after_prefix (p : prefix) (l : chars) : option (prefix * option string * string) :=
  match number_colon l with
  | None => None
  | Some (n, r) =>
      match to_end r with
      | None => None
      | Some name => Some (p, option_map implode n, implode name)
      end
  end.

Definition keypat (key : string) : option (prefix * option string * string) :=
  match strip_prefix (explode "resources") (explode key) with
  | Some l => after_prefix Resources l
  | None => match strip_prefix (explode "trait") (explode key) with
            | Some l => after_prefix Trait l
            | None => None
            end
  end.

Section Request.
(** [orc.STANDARDS], of the package os_resource_classes *)
Context (standards : list string).
(** [CONF.scheduler.max_placement_results], [CONF.default_cpu], [CONF.default_memory] *)
Context (max_placement_results : Z) (default_cpu : Qc) (default_memory : Z).

Definition empty : ResourceRequest := mkRR [] None (Some max_placement_results).

(** [bool(ident)] *)
Definition ident_true (i : option ident) : bool :=
  match i with
  | None => false
  | Some (IStr s) => str_true s
  | Some (INum n) => bool_decide (n ≠ 0%Z)
  end.

(** [get_request_group(ident)], which creates the group if need be. *)
Definition ensure_group (i : option ident) (rr : ResourceRequest) : ResourceRequest :=
  if dhas (rg_by_id rr) i then rr
  else set_groups (dset (rg_by_id rr) i (new_group (ident_true i))) rr.
Definition get_request_group (i : option ident) (f : RequestGroup → RequestGroup)
    (rr : ResourceRequest) : ResourceRequest :=
  let rr := ensure_group i rr in set_groups (dalter f (rg_by_id rr) i) rr.

(** [int(ident)] for the idents that are true *)
Fixpoint int_idents (l : list (option ident)) : outcome exn (list Z) :=
  match l with
  | [] => Ok []
  | i :: l' =>
      match int_idents l' with
      | Raise e => Raise e
      | Ok zs =>
          match i with
          | None => Ok zs
          | Some (INum n) => Ok (if bool_decide (n = 0%Z) then zs else n :: zs)
          | Some (IStr s) => if str_true s then
                               match int_of 10 s with
                               | Some n => Ok (n :: zs)
                               | None => Raise (Py ValueError)
                               end
                             else Ok zs
          end
      end
  end.

Definition add_request_group (g : RequestGroup) (rr : ResourceRequest)
    : outcome exn ResourceRequest :=
  match int_idents (dkeys (rg_by_id rr)) with
  | Raise e => Raise e
  | Ok group_idents =>
      let i := Some (INum (foldr Z.max 0 group_idents + 1)%Z) in
      Ok (set_groups (dset (rg_by_id rr) i g) rr)
  end.

Definition valid_class (rclass : string) : bool :=
  String.prefix "CUSTOM_" rclass || bool_decide (rclass ∈ standards).

Definition _add_resource (groupid : option string) (rclass amount : string)
    (rr : ResourceRequest) : ResourceRequest :=
  if valid_class rclass then
    match int_of 10 amount with
    | Some n =>
        if (n <? 0)%Z then rr
        else get_request_group (IStr <$> groupid)
               (λ g, set_resources (dset (resources g) rclass n) g) rr
    | None => rr
    end
  else rr.

Definition _add_trait (groupid : option string) (trait_name trait_type : string)
    (rr : ResourceRequest) : ResourceRequest :=
  if bool_decide (trait_type = "required") then
    get_request_group (IStr <$> groupid)
      (λ g, set_required ({[ trait_name ]} ∪ required_traits g) g) rr
  else if bool_decide (trait_type = "forbidden") then
    get_request_group (IStr <$> groupid)
      (λ g, set_forbidden ({[ trait_name ]} ∪ forbidden_traits g) g) rr
  else rr.

Definition _add_group_policy (policy : string) (rr : ResourceRequest) : ResourceRequest :=
  if bool_decide (policy ∈ ["none"; "isolate"]) then set_policy (Some policy) rr else rr.

(** One entry of the loop of [from_extra_specs]. *)
Definition add_entry (rr : ResourceRequest) (kv : string * string) : ResourceRequest :=
  let '(key, val) := kv in
  if bool_decide (key = "group_policy") then _add_group_policy val rr
  else match keypat key with
       | None => rr
       | Some (Resources, suffix, name) => _add_resource suffix name val rr
       | Some (Trait, suffix, name) => _add_trait suffix name val rr
       end.

Definition from_extra_specs (items : dict string string) : ResourceRequest :=
  foldl add_entry empty items.

Definition resource_groups (rr : ResourceRequest) : list (dict string Z) :=
  resources <$> dvalues (rg_by_id rr).

Definition get_num_of_numbered_groups (rr : ResourceRequest) : nat :=
  length (filter (λ i, i ≠ None) (dkeys (rg_by_id rr))).

(** [ret\[rc\] += amount] on a [defaultdict] *)
Definition accumulate (ret : dict string Z) (ra : string * Z) : dict string Z :=
  dset ret ra.1 (default 0%Z (dget ret ra.1) + ra.2)%Z.

(** [merged_resources()], without the optional argument. *)
Definition merged_resources (rr : ResourceRequest) : dict string Z :=
  foldl accumulate [] (concat (resource_groups rr)).

Definition has_content (g : RequestGroup) : bool :=
  bool_decide (resources g ≠ []) || bool_decide (required_traits g ≠ ∅) ||
  bool_decide (forbidden_traits g ≠ ∅).

Definition _clean_empties (rr : ResourceRequest) : ResourceRequest :=
  set_groups (filter (λ ig, has_content ig.2 = true) (rg_by_id rr)) rr.

Definition strip_group (g : RequestGroup) : RequestGroup :=
  set_resources (filter (λ ra, ra.2 ≠ 0%Z) (resources g)) g.

Definition strip_zeros (rr : ResourceRequest) : ResourceRequest :=
  _clean_empties (set_groups (prod_map Datatypes.id strip_group <$> rg_by_id rr) rr).
(** ** The query string

    The parameters are sorted pairs of texts; [urllib.parse.urlencode] quotes
    and joins them. *)

#[local] Instance string_le_dec : RelDecision String.le.
Proof. apply _. Defined.

Definition sorted (l : list string) : list string := stable_sort String.le l.

Definition pair_le (p q : string * string) : Prop :=
  p.1 ≠ q.1 ∧ String.le p.1 q.1 ∨ p.1 = q.1 ∧ String.le p.2 q.2.
#[local] Instance pair_le_dec : RelDecision pair_le.
Proof. intros p q. unfold pair_le. apply _. Defined.

Definition suffix_of (i : option ident) : string :=
  match i with None => "" | Some (IStr s) => s | Some (INum n) => pretty n end.

Definition to_queryparams (g : RequestGroup) (suffix : string) : list (string * string) :=
  let resource_query :=
    join "," (sorted ((λ ra, (ra.1 +:+ ":" +:+ pretty ra.2)%string) <$> resources g)) in
  let required_val :=
    join "," (sorted (elements (required_traits g)) ++
              ((λ t, ("!" +:+ t)%string) <$> sorted (elements (forbidden_traits g)))) in
  [(("resources" +:+ suffix)%string, resource_query)] ++
  (if str_true required_val then [(("required" +:+ suffix)%string, required_val)] else []) ++
  stable_sort pair_le
    ((λ l, (("member_of" +:+ suffix)%string, ("in:" +:+ join "," (sorted l))%string)) <$>
       aggregates g) ++
  match in_tree g with
  | Some u => if str_true u then [(("in_tree" +:+ suffix)%string, u)] else []
  | None => []
  end.

Definition query_params (rr : ResourceRequest) : list (string * string) :=
  stable_sort pair_le
    (match limit rr with Some n => [("limit", pretty n)] | None => [] end ++
     match group_policy rr with Some p => [("group_policy", p)] | None => [] end ++
     flat_map (λ ig, to_queryparams ig.2 (suffix_of ig.1)) (rg_by_id rr)).

(** ** [resources_from_request_spec] *)

(** [int(math.ceil(q))] *)
Definition ceil (q : Qc) : Z :=
  (- ((- QArith_base.Qnum (Qcanon.this q)) `div` Zpos (QArith_base.Qden (Qcanon.this q))))%Z.

Definition VCPU : string := "VCPU".
Definition MEMORY_MB : string := "MEMORY_MB".
Definition DISK_GB : string := "DISK_GB".

(** The resources of the container itself; placement does not take zero. *)
Definition container_resources (c : container) : outcome exn (dict string Z) :=
  let cpu := match cpu c with
             | Some q => if bool_decide (q = 0%Qc) then default_cpu else q
             | None => default_cpu
             end in
  let disk := match disk c with
              | Some d => if bool_decide (d = 0%Z) then [] else [(DISK_GB, d)]
              | None => []
              end in
  match (if ostr_true (memory c) then m ← memory c; int_of 10 m else Some default_memory) with
  | None => Raise (Py ValueError)
  | Some m => Ok ([(VCPU, Z.max (ceil cpu) 1); (MEMORY_MB, Z.max m 1)] ++ disk)
  end.

Definition request_item (rr : ResourceRequest) (ra : string * Z) : ResourceRequest :=
  get_request_group None (λ g, set_resources (dset (resources g) ra.1 ra.2) g) rr.

(** The extra specs override the container; explicit zeros are then dropped. *)
Definition base_request (xs : extra_specs) (own : dict string Z) : ResourceRequest :=
  if xs_true xs then
    let res_req := from_extra_specs (xs_items xs) in
    let merged := merged_resources res_req in
    foldl request_item (strip_zeros res_req) (filter (λ ra, dhas merged ra.1 = false) own)
  else foldl request_item empty own.

Fixpoint add_groups (l : list RequestGroup) (rr : ResourceRequest) : outcome exn ResourceRequest :=
  match l with
  | [] => Ok rr
  | g :: l' => match add_request_group g rr with
               | Raise e => Raise e
               | Ok rr' => add_groups l' rr'
               end
  end.

(** The nodes of the requested host: one gives [in_tree], several no limit. *)
Definition target_host (xs : extra_specs) (rr : ResourceRequest) : py table ResourceRequest :=
  match xs_requested_host xs with
  | None => ret rr
  | Some h =>
      if str_true h then
        let! nodes := list_nodes (mkFilters (Some h) None) in
        match nodes with
        | [] => raise (Zun NoValidHost)
        | [n] => ret (get_request_group None (set_in_tree (rp_uuid n)) rr)
        | _ => ret (set_limit None rr)
        end
      else ret rr
  end.

Definition affinity_hint (xs : extra_specs) : bool :=
  match mjoin (xs_hints xs) with
  | None => false
  | Some h => existsb (λ k, bool_decide (k ∈ ["group"; "same_host"; "different_host"])) (dkeys h)
  end.

Definition resources_from_request_spec (c : container) (xs : extra_specs)
    : py table ResourceRequest :=
  let! own := (λ t, (container_resources c, t)) in
  let numbered_groups :=
    if xs_true xs then get_num_of_numbered_groups (strip_zeros (from_extra_specs (xs_items xs)))
    else 0%nat in
  let! rr := (λ t, (add_groups (default [] (xs_requested_resources xs)) (base_request xs own), t)) in
  let! rr := target_host xs rr in
  let rr := if affinity_hint xs then set_limit None rr else rr in
  ret (if (2 <=? get_num_of_numbered_groups rr)%nat && negb (ostr_true (group_policy rr)) &&
          (numbered_groups <=? 1)%nat
       then set_policy (Some "none") rr else rr).

(** ** Request filters (src/zun/scheduler/request_filter.py) *)

Definition ZUN_COMPUTE_STATUS_DISABLED : string := "CUSTOM_ZUN_COMPUTE_STATUS_DISABLED".

Definition compute_status_filter (xs : extra_specs) : extra_specs :=
  mkXs (dset (xs_items xs) ("trait:" +:+ ZUN_COMPUTE_STATUS_DISABLED)%string "forbidden")
    (xs_hints xs) (xs_requested_host xs) (xs_availability_zone xs) (xs_pci_requests xs)
    (xs_requested_resources xs).

Definition ALL_REQUEST_FILTERS : list (extra_specs → extra_specs) := [compute_status_filter].
Definition process_reqspec (xs : extra_specs) : extra_specs :=
  foldl (λ xs f, f xs) xs ALL_REQUEST_FILTERS.
End Request.

(** ** Lemmas *)

Lemma lookup_group i f j rr :
  dget (rg_by_id (get_request_group i f rr)) j =
  if decide (i = j) then Some (f (default (new_group (ident_true i)) (dget (rg_by_id rr) i)))
  else dget (rg_by_id rr) j.
Proof.
  unfold get_request_group, ensure_group, dhas. cbn [rg_by_id set_groups]. rewrite dget_dalter.
  destruct (dget (rg_by_id rr) i) as [g|] eqn:Hg.
  - case_decide; [subst; by rewrite Hg|done].
  - cbn [rg_by_id set_groups]. rewrite dget_dset. by case_decide.
Qed.

Lemma keys_group i f rr :
  dkeys (rg_by_id (get_request_group i f rr)) =
  dkeys (rg_by_id rr) ++ (if dhas (rg_by_id rr) i then [] else [i]).
Proof.
  unfold get_request_group, ensure_group. cbn [rg_by_id set_groups]. rewrite dkeys_dalter.
  unfold dhas. destruct (dget (rg_by_id rr) i) eqn:Hg; [by rewrite app_nil_r|].
  cbn [rg_by_id set_groups]. rewrite dkeys_dset_None; [done|by apply dget_None_keys].
Qed.

(** *** Traits are never dropped *)

(** The unnumbered group forbids [t]. *)
Definition forbids (t : string) (rr : ResourceRequest) : Prop :=
  ∃ g, dget (rg_by_id rr) None = Some g ∧ t ∈ forbidden_traits g.

Lemma forbids_group t i f rr :
  (∀ g, forbidden_traits g ⊆ forbidden_traits (f g)) → forbids t rr →
  forbids t (get_request_group i f rr).
Proof.
  intros Hf (g & Hg & Ht). unfold forbids. rewrite lookup_group. destruct (decide (i = None)) as [->|].
  - rewrite Hg. eexists. split; [done|]. by apply Hf.
  - by exists g.
Qed.

Lemma forbids_entry std t rr kv : forbids t rr → forbids t (add_entry std rr kv).
Proof.
  intros Hf. destruct kv as [key val]. unfold add_entry, _add_group_policy, _add_resource, _add_trait.
  repeat case_match; try done; apply forbids_group; done || (intros g; cbn; set_solver).
Qed.

Lemma forbids_entries std t l rr : forbids t rr → forbids t (foldl (add_entry std) rr l).
Proof. revert rr. induction l as [|kv l IH]; intros rr Hf; [done|]. by apply IH, forbids_entry. Qed.

Lemma forbids_strip t rr : forbids t rr → forbids t (strip_zeros rr).
Proof.
  intros (g & Hg & Ht). exists (strip_group g). split; [|done].
  unfold strip_zeros, _clean_empties. cbn [rg_by_id set_groups].
  apply dget_filter_In; [by rewrite dget_map, Hg|]. cbn [snd].
  unfold has_content. apply orb_true_iff. right. apply bool_decide_eq_true_2. cbn. set_solver.
Qed.

Lemma forbids_items t l rr : forbids t rr → forbids t (foldl request_item rr l).
Proof.
  revert rr. induction l as [|ra l IH]; intros rr Hf; [done|]. apply IH.
  by apply forbids_group.
Qed.

Lemma forbids_add t l rr rr' : add_groups l rr = Ok rr' → forbids t rr → forbids t rr'.
Proof.
  revert rr. induction l as [|g l IH]; intros rr; cbn [add_groups]; [by intros [= ->]|].
  unfold add_request_group. destruct (int_idents _); [|done]. intros Hrun (g0 & Hg0 & Ht).
  apply (IH _ Hrun). exists g0. split; [|done]. cbn [rg_by_id set_groups]. by rewrite dget_dset_ne.
Qed.

Lemma forbids_policy t p rr : forbids t rr → forbids t (set_policy p rr).
Proof. done. Qed.
Lemma forbids_limit t p rr : forbids t rr → forbids t (set_limit p rr).
Proof. done. Qed.

(** *** Amounts *)

Definition amount_of (rc : string) (g : RequestGroup) : Z := default 0%Z (dget (resources g) rc).

Definition sum_groups (rc : string) (d : dict (option ident) RequestGroup) : Z :=
  foldr (λ ig z, (amount_of rc ig.2 + z)%Z) 0%Z d.

(** How much of [rc] the request asks for, over all its groups. *)
Definition total_amount (rr : ResourceRequest) (rc : string) : Z := sum_groups rc (rg_by_id rr).

(** Resource classes are the keys of dictionaries. *)
Definition wf_groups (rr : ResourceRequest) : Prop :=
  Forall (λ ig, NoDup (dkeys (resources ig.2))) (rg_by_id rr).

Lemma sum_groups_cons rc i g d :
  sum_groups rc ((i, g) :: d) = (amount_of rc g + sum_groups rc d)%Z.
Proof. done. Qed.

Lemma sum_groups_app rc d1 d2 : sum_groups rc (d1 ++ d2) = (sum_groups rc d1 + sum_groups rc d2)%Z.
Proof. unfold sum_groups. induction d1 as [|x d IH]; [done|]. cbn. rewrite IH. lia. Qed.

Lemma sum_groups_dalter rc f d i g :
  dget d i = Some g →
  sum_groups rc (dalter f d i) = (sum_groups rc d + (amount_of rc (f g) - amount_of rc g))%Z.
Proof.
  unfold sum_groups. induction d as [|[i1 g1] d IH]; [done|]. cbn. case_decide as Hi.
  - intros [= ->]. cbn. lia.
  - intros Hg. cbn. rewrite IH by done. lia.
Qed.

Lemma total_group rr i f rc :
  let g := default (new_group (ident_true i)) (dget (rg_by_id rr) i) in
  total_amount (get_request_group i f rr) rc =
    (total_amount rr rc + (amount_of rc (f g) - amount_of rc g))%Z.
Proof.
  unfold total_amount, get_request_group, ensure_group, dhas. cbn [rg_by_id set_groups].
  destruct (dget (rg_by_id rr) i) as [g|] eqn:Hg.
  - by erewrite sum_groups_dalter.
  - cbn [rg_by_id set_groups]. erewrite sum_groups_dalter by apply dget_dset_eq.
    rewrite dset_fresh by by apply dget_None_keys. rewrite sum_groups_app. cbn. lia.
Qed.

Lemma Forall_dalter {K V} `{EqDecision K} (Q : K * V → Prop) f (d : dict K V) k :
  Forall Q d → (∀ v, Q (k, v) → Q (k, f v)) → Forall Q (dalter f d k).
Proof.
  intros Hd Hf. induction Hd as [|[k1 v1] d Hv Hd IH]; [constructor|]. cbn.
  case_decide as Hk; [subst|]; constructor; [by apply Hf|done|done|done].
Qed.

Lemma wf_group rr i f :
  wf_groups rr → (∀ g, NoDup (dkeys (resources g)) → NoDup (dkeys (resources (f g)))) →
  wf_groups (get_request_group i f rr).
Proof.
  intros Hw Hf. unfold wf_groups, get_request_group, ensure_group. cbn [rg_by_id set_groups].
  apply Forall_dalter; [|intros g; apply Hf]. case_match; [done|]. cbn [rg_by_id set_groups].
  apply Forall_forall. intros ig [->|Hin]%elem_dset; [constructor|].
  by eapply Forall_forall in Hw.
Qed.

Lemma wf_from_extra_specs std mx items : wf_groups (from_extra_specs std mx items).
Proof.
  unfold from_extra_specs. assert (wf_groups (empty mx)) as Hw by constructor.
  revert Hw. generalize (empty mx). induction items as [|[k v] l IH]; intros rr Hw; [done|].
  apply IH. unfold add_entry, _add_group_policy, _add_resource, _add_trait.
  repeat case_match; try done; apply wf_group; try done.
  intros g Hg. by apply NoDup_dset.
Qed.

(** The amounts under one key of a list of pairs. *)
Definition key_sum (rc : string) (l : list (string * Z)) : Z :=
  foldr (λ ra z, ((if decide (ra.1 = rc) then ra.2 else 0) + z)%Z) 0%Z l.

Lemma key_sum_cons rc k z l :
  key_sum rc ((k, z) :: l) = ((if decide (k = rc) then z else 0) + key_sum rc l)%Z.
Proof. done. Qed.

Lemma key_sum_app rc l1 l2 : key_sum rc (l1 ++ l2) = (key_sum rc l1 + key_sum rc l2)%Z.
Proof.
  induction l1 as [|[k z] l IH]; [done|]. cbn [app]. rewrite !key_sum_cons, IH. lia.
Qed.

Lemma key_sum_absent rc l : rc ∉ dkeys l → key_sum rc l = 0%Z.
Proof.
  induction l as [|[k z] l IH]; [done|]. intros [Hne Hl]%not_elem_of_cons.
  rewrite key_sum_cons, decide_False by done. by apply IH.
Qed.

Lemma key_sum_dget rc d : NoDup (dkeys d) → key_sum rc d = default 0%Z (dget d rc).
Proof.
  induction d as [|[k z] d IH]; [done|]. intros [Hk Hd]%NoDup_cons. rewrite key_sum_cons.
  cbn [dget]. case_decide as Heq; [|by apply IH].
  subst. rewrite key_sum_absent by done. cbn. lia.
Qed.

Lemma accumulate_sum rc l d :
  default 0%Z (dget (foldl accumulate d l) rc) = (default 0%Z (dget d rc) + key_sum rc l)%Z.
Proof.
  revert d. induction l as [|[k z] l IH]; intros d; [cbn; lia|]. cbn [foldl].
  rewrite IH, key_sum_cons. unfold accumulate. cbn [fst snd]. rewrite dget_dset.
  case_decide; subst; cbn; lia.
Qed.

(** [merged_resources] adds up the groups. *)
Lemma merged_total rr rc :
  wf_groups rr → default 0%Z (dget (merged_resources rr) rc) = total_amount rr rc.
Proof.
  intros Hw. unfold merged_resources. rewrite accumulate_sum. cbn [dget default].
  unfold total_amount, resource_groups. unfold wf_groups in Hw.
  induction Hw as [|[i g] d Hg _ IH]; [done|].
  change (dvalues ((i, g) :: d)) with (g :: dvalues d) in *. unfold dvalues in *.
  rewrite fmap_cons. cbn [concat]. rewrite key_sum_app, key_sum_dget by done.
  rewrite sum_groups_cons. unfold amount_of. lia.
Qed.

(** Stripping the zeros changes no amount. *)
Lemma strip_total rr rc : wf_groups rr → total_amount (strip_zeros rr) rc = total_amount rr rc.
Proof.
  unfold wf_groups, total_amount, strip_zeros, _clean_empties. cbn [rg_by_id set_groups].
  induction 1 as [|[i g] d Hg _ IH]; [done|]. cbn [fst snd] in *.
  rewrite fmap_cons. cbn [prod_map fst snd].
  assert (amount_of rc (strip_group g) = amount_of rc g) as Hamt.
  { unfold amount_of, strip_group. cbn [resources set_resources].
    rewrite dget_filter by done. destruct (dget (resources g) rc) as [z|]; [|done].
    case_decide as Hz; [done|]. cbn in Hz. by subst. }
  destruct (decide (has_content (strip_group g) = true)) as [Hc|Hc].
  - rewrite filter_cons_True by done. rewrite !sum_groups_cons, Hamt. cbn [Datatypes.id]. lia.
  - rewrite filter_cons_False by done. rewrite IH, sum_groups_cons.
    assert (amount_of rc (strip_group g) = 0%Z) as H0; [|rewrite <- Hamt, H0; lia].
    unfold amount_of. unfold has_content in Hc.
    destruct (resources (strip_group g)) as [|x l] eqn:Hr; [done|].
    exfalso. apply Hc. by rewrite bool_decide_eq_true_2.
Qed.

(** What the unnumbered group already asks for. *)
Definition none_amount (rr : ResourceRequest) (rc : string) : Z :=
  match dget (rg_by_id rr) None with Some g => amount_of rc g | None => 0%Z end.

Lemma amount_dset rc k a g :
  amount_of rc (set_resources (dset (resources g) k a) g) =
  if decide (k = rc) then a else amount_of rc g.
Proof. unfold amount_of. cbn [resources set_resources]. rewrite dget_dset. by case_decide. Qed.

Lemma request_item_none rr k a rc :
  none_amount (request_item rr (k, a)) rc = if decide (k = rc) then a else none_amount rr rc.
Proof.
  unfold none_amount, request_item. rewrite lookup_group, decide_True by done. cbn [fst snd].
  rewrite amount_dset. case_decide; [done|].
  by destruct (dget (rg_by_id rr) None).
Qed.

Lemma request_item_total rr k a rc :
  total_amount (request_item rr (k, a)) rc =
  (total_amount rr rc + if decide (k = rc) then a - none_amount rr rc else 0)%Z.
Proof.
  unfold request_item, none_amount. rewrite total_group. cbn [fst snd]. rewrite amount_dset.
  destruct (decide (k = rc)); [|lia].
  by destruct (dget (rg_by_id rr) None).
Qed.

Lemma request_items_total own : ∀ rr rc,
  NoDup (dkeys own) → (∀ k, k ∈ dkeys own → none_amount rr k = 0%Z) →
  total_amount (foldl request_item rr own) rc = (total_amount rr rc + default 0 (dget own rc))%Z.
Proof.
  induction own as [|[k a] own IH]; intros rr rc; [cbn; lia|].
  intros [Hk Hd]%NoDup_cons Hnone. cbn [foldl]. rewrite IH; [|done|].
  - rewrite request_item_total. cbn [dget]. destruct (decide (k = rc)) as [->|]; [|lia].
    rewrite (Hnone rc) by left. assert (dget own rc = None) as -> by by apply dget_None_keys.
    cbn. lia.
  - intros k' Hk'. rewrite request_item_none, decide_False by (by intros ->).
    apply Hnone. by right.
Qed.

Lemma accumulate_keys rc l d :
  rc ∈ dkeys (foldl accumulate d l) ↔ rc ∈ dkeys d ∨ rc ∈ dkeys l.
Proof.
  revert d. induction l as [|[k z] l IH]; intros d; [cbn; set_solver|]. cbn [foldl].
  rewrite IH. assert (rc ∈ dkeys (accumulate d (k, z)) ↔ rc = k ∨ rc ∈ dkeys d) as ->.
  { unfold accumulate. cbn [fst snd]. rewrite <- !dget_Some_keys, dget_dset.
    destruct (decide (k = rc)) as [->|Hne]; [by split; [left|eexists]|].
    split; [by right|]. by intros [->|?]. }
  change (dkeys ((k, z) :: l)) with (k :: dkeys l). rewrite elem_of_cons. tauto.
Qed.

(** A class no group mentions: the unnumbered group does not ask for it. *)
Lemma unmerged_none rr rc :
  dhas (merged_resources rr) rc = false → none_amount (strip_zeros rr) rc = 0%Z.
Proof.
  intros Hm. unfold none_amount.
  destruct (dget (rg_by_id (strip_zeros rr)) None) as [g'|] eqn:Hg; [|done].
  apply dget_Some_In in Hg. unfold strip_zeros, _clean_empties in Hg. cbn [rg_by_id set_groups] in Hg.
  apply list_elem_of_filter in Hg as [_ Hg]. apply list_elem_of_fmap in Hg as ([i g] & Heq & Hin).
  cbn [prod_map fst snd] in Heq. injection Heq as _ ->.
  assert (rc ∉ dkeys (resources g)) as Hk.
  { intros Hk. assert (rc ∈ dkeys (merged_resources rr)) as Hin'; [|].
    - unfold merged_resources. apply accumulate_keys. right. unfold dkeys, resource_groups, dvalues.
      apply list_elem_of_fmap in Hk as (ra & -> & Hra). apply list_elem_of_fmap_2.
      apply list_elem_of_In, in_concat. exists (resources g). split; apply list_elem_of_In; [|done].
      apply (list_elem_of_fmap_2 resources), (list_elem_of_fmap_2 snd _ _ Hin).
    - apply dhas_true in Hin'. congruence. }
  unfold amount_of. assert (dget (resources (strip_group g)) rc = None) as ->; [|done].
  apply dget_None_keys. intros Hs. apply Hk. unfold dkeys, strip_group in *. cbn [resources set_resources] in Hs.
  apply list_elem_of_fmap in Hs as (ra & -> & Hra). apply list_elem_of_filter in Hra as [_ Hra].
  by apply list_elem_of_fmap_2.
Qed.

Lemma int_idents_in l zs n :
  int_idents l = Ok zs → Some (INum n) ∈ l → n ≠ 0%Z → n ∈ zs.
Proof.
  intros Hz Hin Hn. revert zs Hz. induction l as [|i l IH]; intros zs; [by apply elem_of_nil in Hin|].
  cbn [int_idents]. destruct (int_idents l) as [zs'|]; [|done].
  apply elem_of_cons in Hin as [<-|Hin].
  - rewrite bool_decide_eq_false_2 by done. intros [= <-]. by left.
  - specialize (IH Hin zs' eq_refl). repeat case_match; intros [= <-]; try done; by right.
Qed.

(** An added group gets a key of its own. *)
Lemma add_request_group_fresh g rr rr' :
  add_request_group g rr = Ok rr' →
  ∃ n, Some (INum n) ∉ dkeys (rg_by_id rr) ∧ rr' = set_groups (rg_by_id rr ++ [(Some (INum n), g)]) rr.
Proof.
  unfold add_request_group. destruct (int_idents _) as [zs|] eqn:Hz; [|done]. intros [= <-].
  set (n := (foldr Z.max 0 zs + 1)%Z). exists n.
  assert (Some (INum n) ∉ dkeys (rg_by_id rr)) as Hn.
  { assert (∀ z, z ∈ zs → (z < n)%Z) as Hmax.
    { unfold n. clear. induction zs as [|z zs IH]; intros x; [set_solver|].
      intros [->|Hx]%elem_of_cons; cbn; [lia|]. specialize (IH x Hx). lia. }
    assert (0 < n)%Z as Hpos by (unfold n; clear; induction zs; cbn; lia).
    intros Hin. cut (n ∈ zs); [intros Hnz; specialize (Hmax n Hnz); lia|].
    eapply int_idents_in; [exact Hz|exact Hin|lia]. }
  split; [done|]. by rewrite dset_fresh.
Qed.

Lemma add_groups_total gs : ∀ rr rr' rc,
  add_groups gs rr = Ok rr' →
  total_amount rr' rc = (total_amount rr rc + foldr Z.add 0 (amount_of rc <$> gs))%Z.
Proof.
  induction gs as [|g gs IH]; intros rr rr' rc; cbn [add_groups]; [intros [= ->]; cbn; lia|].
  destruct (add_request_group g rr) as [rr1|] eqn:Hadd; [|done]. intros Hrun.
  rewrite (IH rr1 rr' rc Hrun).
  apply add_request_group_fresh in Hadd as (n & _ & ->). unfold total_amount. cbn [rg_by_id set_groups].
  rewrite sum_groups_app. cbn. lia.
Qed.

Lemma add_groups_keeps gs rr rr' i g :
  add_groups gs rr = Ok rr' → dget (rg_by_id rr) i = Some g → dget (rg_by_id rr') i = Some g.
Proof.
  revert rr. induction gs as [|g0 gs IH]; intros rr; cbn [add_groups]; [by intros [= ->]|].
  destruct (add_request_group g0 rr) as [rr1|] eqn:Hadd; [|done]. intros Hrun Hg.
  apply (IH rr1 Hrun). apply add_request_group_fresh in Hadd as (n & Hn & ->).
  cbn [rg_by_id set_groups]. rewrite <- dset_fresh by done. rewrite dget_dset_ne; [done|].
  intros <-. apply dget_None_keys in Hn. congruence.
Qed.

Section Result.
Context (standards : list string) (max_placement_results : Z) (default_cpu : Qc)
  (default_memory : Z).

Abbreviation request c xs :=
  (resources_from_request_spec standards max_placement_results default_cpu default_memory c xs).

(** What the extra specs or, failing them, the container itself ask for. *)
Definition wanted (xs : extra_specs) (own : dict string Z) (rc : string) : Z :=
  match (if xs_true xs
         then dget (merged_resources (from_extra_specs standards max_placement_results (xs_items xs))) rc
         else None) with
  | Some explicit => explicit
  | None => default 0%Z (dget own rc)
  end.

Lemma own_resources c own :
  container_resources default_cpu default_memory c = Ok own →
  NoDup (dkeys own) ∧ (1 ≤ default 0 (dget own VCPU) ∧ 1 ≤ default 0 (dget own MEMORY_MB))%Z.
Proof.
  unfold container_resources. set (q := match cpu c with Some _ => _ | None => _ end).
  destruct (if ostr_true (memory c) then _ else _) as [m|]; [|done]. intros [= <-]. split.
  - case_match; [case_match|]; apply (bool_decide_eq_true_1 _); vm_compute; reflexivity.
  - cbn [app dget]. rewrite (decide_False (P:=VCPU = MEMORY_MB)), !decide_True by done. cbn. lia.
Qed.

Lemma dget_filter_out (d : dict string Z) merged rc :
  NoDup (dkeys d) →
  dget (filter (λ ra : string * Z, dhas merged ra.1 = false) d) rc =
  if dhas (V:=Z) merged rc then None else dget d rc.
Proof.
  intros Hd. rewrite dget_filter by done. cbn [fst].
  destruct (dget d rc); [|by case_match].
  destruct (dhas merged rc); [by rewrite decide_False|by rewrite decide_True].
Qed.

Lemma base_total xs c own rc :
  container_resources default_cpu default_memory c = Ok own →
  total_amount (base_request standards max_placement_results xs own) rc = wanted xs own rc.
Proof.
  intros Hown. apply own_resources in Hown as [Hnd _]. unfold base_request, wanted.
  destruct (xs_true xs).
  - set (rr := from_extra_specs _ _ _).
    assert (wf_groups rr) as Hwf by apply wf_from_extra_specs.
    rewrite request_items_total.
    + rewrite strip_total, dget_filter_out, <- merged_total by done. unfold dhas.
      destruct (dget (merged_resources rr) rc); cbn; lia.
    + eapply sublist_NoDup; [exact Hnd|]. apply fmap_sublist, sublist_filter.
    + intros k Hk. apply unmerged_none. apply list_elem_of_fmap in Hk as (ra & -> & Hra).
      by apply list_elem_of_filter in Hra as [? _].
  - rewrite request_items_total; [cbn; lia|done|done].
Qed.

Lemma target_host_total xs rr t rr' t' rc :
  target_host xs rr t = (Ok rr', t') → total_amount rr' rc = total_amount rr rc.
Proof.
  unfold target_host. destruct (xs_requested_host xs) as [h|]; [|by intros [= <- _]].
  destruct (str_true h); [|by intros [= <- _]].
  intros (ns & t1 & _ & Hrun)%bind_Ok. destruct ns as [|n [|n' ns]]; [done| |by injection Hrun as <- _].
  injection Hrun as <- _. rewrite total_group. unfold amount_of at 1. cbn [resources set_in_tree].
  unfold amount_of. lia.
Qed.

Lemma target_host_forbids xs rr t rr' t' tr :
  target_host xs rr t = (Ok rr', t') → forbids tr rr → forbids tr rr'.
Proof.
  unfold target_host. destruct (xs_requested_host xs) as [h|]; [|by intros [= <- _]].
  destruct (str_true h); [|by intros [= <- _]].
  intros (ns & t1 & _ & Hrun)%bind_Ok. destruct ns as [|n [|n' ns]]; [done| |by injection Hrun as <- _].
  injection Hrun as <- _. by apply forbids_group.
Qed.

(** The stages of a request that is granted. *)
Lemma request_stages c xs t rr t' :
  request c xs t = (Ok rr, t') →
  ∃ own rr1 rr2 p l, container_resources default_cpu default_memory c = Ok own ∧
    add_groups (default [] (xs_requested_resources xs))
      (base_request standards max_placement_results xs own) = Ok rr1 ∧
    target_host xs rr1 t = (Ok rr2, t') ∧ rr = set_policy p (set_limit l rr2).
Proof.
  unfold resources_from_request_spec. intros (own & t0 & Hown & Hrun)%bind_Ok.
  injection Hown as Hown <-. revert Hrun. cbv zeta.
  intros (rr1 & t1 & Hadd & (rr2 & t2 & Hhost & Hret)%bind_Ok)%bind_Ok.
  injection Hadd as Hadd <-. injection Hret as <- <-.
  set (l := if affinity_hint xs then None else limit rr2).
  assert ((if affinity_hint xs then set_limit None rr2 else rr2) = set_limit l rr2) as ->
    by (unfold l; destruct (affinity_hint xs), rr2; done).
  case_match.
  - by exists own, rr1, rr2, (Some "none"), l.
  - exists own, rr1, rr2, (group_policy rr2), l. by destruct rr2.
Qed.

(** What is asked of placement: for every resource class the request adds up
    to the amount the extra specs give explicitly, or else to what the container
    asks for, plus the groups other services requested; a container always asks
    for at least one CPU and one MiB. *)
Theorem request_amounts c xs t rr t' :
  request c xs t = (Ok rr, t') →
  ∃ own, container_resources default_cpu default_memory c = Ok own ∧
    (1 ≤ default 0 (dget own VCPU))%Z ∧ (1 ≤ default 0 (dget own MEMORY_MB))%Z ∧
    ∀ rc, total_amount rr rc =
      (wanted xs own rc + foldr Z.add 0 (amount_of rc <$> default [] (xs_requested_resources xs)))%Z.
Proof.
  intros (own & rr1 & rr2 & p & l & Hown & Hadd & Hhost & ->)%request_stages.
  destruct (own_resources c own Hown) as (_ & Hcpu & Hmem).
  exists own. split_and!; [done..|]. intros rc.
  change (total_amount rr2 rc = wanted xs own rc +
    foldr Z.add 0 (amount_of rc <$> default [] (xs_requested_resources xs)))%Z.
  rewrite (target_host_total _ _ _ _ _ rc Hhost), (add_groups_total _ _ _ rc Hadd).
  by rewrite (base_total xs c).
Qed.

(** Hosts whose compute service is disabled are never asked for: after the
    request filters ran, every request that is built forbids the trait
    [CUSTOM_ZUN_COMPUTE_STATUS_DISABLED] in its unnumbered group. *)
Theorem disabled_hosts_forbidden c xs t rr t' :
  request c (process_reqspec xs) t = (Ok rr, t') →
  ∃ g, dget (rg_by_id rr) None = Some g ∧ ZUN_COMPUTE_STATUS_DISABLED ∈ forbidden_traits g.
Proof.
  intros (own & rr1 & rr2 & p & l & Hown & Hadd & Hhost & ->)%request_stages.
  change (forbids ZUN_COMPUTE_STATUS_DISABLED rr2). eapply target_host_forbids; [exact Hhost|].
  eapply forbids_add; [exact Hadd|]. unfold base_request, process_reqspec. cbn [foldl ALL_REQUEST_FILTERS].
  set (key := ("trait:" +:+ ZUN_COMPUTE_STATUS_DISABLED)%string).
  assert (xs_true (compute_status_filter xs) = true) as ->.
  { unfold xs_true. cbn [compute_status_filter xs_items].
    assert (key ∈ dkeys (dset (xs_items xs) key "forbidden")) as Hin
      by (apply dget_Some_keys; rewrite dget_dset_eq; by eexists).
    fold key. destruct (dset (xs_items xs) key "forbidden") as [|x l0]; [|done].
    exfalso. by apply elem_of_nil in Hin. }
  apply forbids_items, forbids_strip. unfold from_extra_specs. cbn [compute_status_filter xs_items].
  fold key. assert ((key, "forbidden") ∈ dset (xs_items xs) key "forbidden") as Hin
    by apply dget_Some_In, dget_dset_eq.
  apply list_elem_of_split in Hin as (l1 & l2 & ->). rewrite foldl_app. cbn [foldl].
  apply forbids_entries. generalize (foldl (add_entry standards) (empty max_placement_results) l1).
  intros rr0. unfold add_entry. rewrite bool_decide_eq_false_2 by done.
  assert (keypat key = Some (Trait, None, ZUN_COMPUTE_STATUS_DISABLED)) as -> by by vm_compute.
  unfold _add_trait. rewrite bool_decide_eq_false_2, bool_decide_eq_true_2 by done.
  unfold forbids. cbn [fmap option_fmap option_map]. rewrite lookup_group, decide_True by done.
  eexists. split; [done|]. cbn. set_solver.
Qed.
End Result.

(** ** Examples *)

Definition demo_xs : extra_specs :=
  mkXs [("resources:VCPU", "4"); ("resources1:CUSTOM_FPGA", "1"); ("resources:DISK_GB", "0")]
    None None None None (Some [set_resources [("NET_BW", 100%Z)] (new_group true)]).
Definition demo_request_container : container :=
  Container.mkContainer "c1" TYPE_CONTAINER None None None None None (Some (Qc_of_Z 3 / Qc_of_Z 2)%Qc)
    None None (Some "512") (Some 10%Z) None None [] None None None None None None [].

Abbreviation demo_run :=
  (resources_from_request_spec ["VCPU"; "MEMORY_MB"; "DISK_GB"] 1000 1%Qc 512
     demo_request_container (process_reqspec demo_xs) []).

Lemma demo_run_ok : ∃ rr t', demo_run = (Ok rr, t').
Proof. vm_compute. by do 2 eexists. Qed.

Lemma request_amounts_witness :
  ∃ rr t', demo_run = (Ok rr, t') ∧ total_amount rr "VCPU" = 4%Z ∧ total_amount rr "MEMORY_MB" = 512%Z ∧
    total_amount rr "DISK_GB" = 0%Z ∧ total_amount rr "NET_BW" = 100%Z.
Proof.
  destruct demo_run_ok as (rr & t' & Hrun). exists rr, t'. split; [exact Hrun|].
  destruct (request_amounts _ _ _ _ _ _ _ _ _ Hrun) as (own & Hown & _ & _ & Hamt).
  assert (own = [("VCPU", 2); ("MEMORY_MB", 512); ("DISK_GB", 10)]%Z) as ->.
  { assert (container_resources 1%Qc 512 demo_request_container =
      Ok [("VCPU", 2); ("MEMORY_MB", 512); ("DISK_GB", 10)]%Z) as Hval by (vm_compute; reflexivity).
    rewrite Hval in Hown. by injection Hown as <-. }
  split_and!; rewrite Hamt; vm_compute; reflexivity.
Defined.

Lemma disabled_hosts_forbidden_witness :
  ∃ rr t' g, demo_run = (Ok rr, t') ∧ dget (rg_by_id rr) None = Some g ∧
    ZUN_COMPUTE_STATUS_DISABLED ∈ forbidden_traits g.
Proof.
  destruct demo_run_ok as (rr & t' & Hrun).
  destruct (disabled_hosts_forbidden _ _ _ _ _ _ _ _ _ Hrun) as (g & Hg & Ht).
  exists rr, t', g. split; [exact Hrun|]. split; [exact Hg|exact Ht].
Defined.

(** A key is read as prefix, optional number and name. *)
Example keypat_numbered : keypat "resources12:VCPU" = Some (Resources, Some "12", "VCPU").
Proof. reflexivity. Qed.
Example keypat_zero : keypat "trait0:X" = None.
Proof. reflexivity. Qed.
