(* ===== verification/HostFilters.v ===== *)
(** * Host filters (src/zun/scheduler/filters, base_filters.py, host_state.py)

    The view the scheduler has of a host, the nine filters, the handler that runs
    the enabled ones, and what they decide.  A filter also records in the host
    the limits the compute node will check ([Claims]). *)

From S2P Require Import Prelude Exceptions PyStr PciSpec PciDevice PciStats Numa Container.
From S2P Require Import ComputeNode Claims ResourceRequest.

(** objects.ZunService; times are seconds. *)
Record service : Type := mkService {
  s_host : string;
  s_disabled : bool;
  s_forced_down : bool;
  s_last_seen_up : option Z;
  s_updated_at : option Z;
  s_created_at : option Z;
  s_availability_zone : option string
}.

(** [HostState] (host_state.py) *)
Record HostState : Type := mkHost {
  h_hostname : string;
  h_uuid : option string;
  h_mem_available : Z;
  h_mem_total : Z;
  h_mem_free : Z;
  h_mem_used : Z;
  h_cpus : Z;
  h_cpu_used : Qc;
  h_disk_total : Z;
  h_disk_used : Z;
  h_numa_topology : option NUMATopology;
  h_labels : option (gmap string string);
  h_pci_stats : option stats;
  h_disk_quota_supported : bool;
  h_runtimes : option (list string);
  h_enable_cpu_pinning : bool;
  h_limits : limits;
  h_service : option service
}.

Definition set_limits (l : limits) (h : HostState) : HostState :=
  mkHost (h_hostname h) (h_uuid h) (h_mem_available h) (h_mem_total h) (h_mem_free h)
    (h_mem_used h) (h_cpus h) (h_cpu_used h) (h_disk_total h) (h_disk_used h)
    (h_numa_topology h) (h_labels h) (h_pci_stats h) (h_disk_quota_supported h)
    (h_runtimes h) (h_enable_cpu_pinning h) l (h_service h).
Definition set_h_usage (free used : Z) (cpu : Qc) (disk : Z) (h : HostState) : HostState :=
  mkHost (h_hostname h) (h_uuid h) (h_mem_available h) (h_mem_total h) free used
    (h_cpus h) cpu (h_disk_total h) disk
    (h_numa_topology h) (h_labels h) (h_pci_stats h) (h_disk_quota_supported h)
    (h_runtimes h) (h_enable_cpu_pinning h) (h_limits h) (h_service h).

(** [HostState(host)] updated from a node and its service.  The object is new,
    so it has no update time and the staleness test of
    [_update_from_compute_node] does not apply. *)
Definition host_state (n : ComputeNode) (s : option service) : HostState :=
  {| h_hostname := hostname n; h_uuid := rp_uuid n; h_mem_available := mem_available n;
     h_mem_total := mem_total n; h_mem_free := mem_free n; h_mem_used := mem_used n;
     h_cpus := cpus n; h_cpu_used := cpu_used n; h_disk_total := disk_total n;
     h_disk_used := disk_used n; h_numa_topology := numa_topology n; h_labels := labels n;
     h_pci_stats := Some (of_pool_objs (mkObjs ∅ ∅ ∅) (default [] (pci_device_pools n)));
     h_disk_quota_supported := disk_quota_supported n; h_runtimes := runtimes n;
     h_enable_cpu_pinning := enable_cpu_pinning n; h_limits := no_limits; h_service := s |}.

(** ** The filters (src/zun/scheduler/filters) *)

Inductive filter_class : Type :=
| AvailabilityZoneFilter | ComputeFilter | CPUFilter | CpuSetFilter | DiskFilter
| LabelFilter | PciPassthroughFilter | RamFilter | RuntimeFilter.

#[export] Instance filter_class_eq_dec : EqDecision filter_class.
Proof. solve_decision. Defined.

(** The options the scheduler reads, and the clock. *)
Record sched_conf : Type := mkSched {
  default_schedule_zone : option string;
  default_availability_zone : option string;
  compute_enable_cpu_pinning : bool;
  service_down_time : Z;
  now : Z
}.

Section Filters.
Context (conf : sched_conf).

(** [ServiceGroup.service_is_up] (src/zun/api/servicegroup.py); a service that
    has no date at all cannot be subtracted from the clock. *)
Definition or_else {A} (a b : option A) : option A := match a with Some _ => a | None => b end.

Definition service_is_up {S} (member : service) : py S bool :=
  if s_forced_down member then ret false else
  let last_heartbeat :=
    or_else (s_last_seen_up member) (or_else (s_updated_at member) (s_created_at member)) in
  let! t := of_option last_heartbeat (Py TypeError) in
  ret (Z.abs (now conf - t) <=? service_down_time conf)%Z.

(** A filter may change the limits of the host and the container object. *)
Abbreviation verdict := (py Container.store (bool * HostState)%type).

Definition the_service (h : HostState) : py Container.store service :=
  of_option (h_service h) (Py AttributeError).

Definition availability_zone_filter (h : HostState) (xs : extra_specs) : verdict :=
  let zone := if ostr_true (xs_availability_zone xs) then xs_availability_zone xs
              else default_schedule_zone conf in
  if negb (ostr_true zone) then ret (true, h) else
  let! s := the_service h in
  let host_az := if ostr_true (s_availability_zone s) then s_availability_zone s
                 else default_availability_zone conf in
  ret (bool_decide (zone = host_az), h).

Definition compute_filter (h : HostState) : verdict :=
  let! s := the_service h in
  if s_disabled s then ret (false, h) else
  let! up := service_is_up s in ret (up, h).

Definition cpu_filter (h : HostState) (c : container) : verdict :=
  let want := cpu_of c in
  if bool_decide (want = 0%Qc) then ret (true, h) else
  if bool_decide (Qc_of_Z (h_cpus h) - h_cpu_used h < want)%Qc then ret (false, h) else
  ret (true, set_limits (mkLimits (lim_memory (h_limits h)) (Some (Qc_of_Z (h_cpus h)))
                           (lim_disk (h_limits h)) (lim_cpuset (h_limits h))) h).

Definition ram_filter (h : HostState) (c : container) : verdict :=
  if negb (ostr_true (memory c)) then ret (true, h) else
  let! request_ram := int_memory (memory c) in
  if (h_mem_total h - h_mem_used h <? request_ram)%Z then ret (false, h) else
  ret (true, set_limits (mkLimits (Some (Qc_of_Z (h_mem_total h))) (lim_cpu (h_limits h))
                           (lim_disk (h_limits h)) (lim_cpuset (h_limits h))) h).

Definition disk_filter (h : HostState) (c : container) : verdict :=
  let want := disk_of c in
  if bool_decide (want = 0%Z) then ret (true, h) else
  if negb (h_disk_quota_supported h) then ret (false, h) else
  if (h_disk_total h - h_disk_used h <? want)%Z then ret (false, h) else
  ret (true, set_limits (mkLimits (lim_memory (h_limits h)) (lim_cpu (h_limits h))
                           (Some (Qc_of_Z (h_disk_total h))) (lim_cpuset (h_limits h))) h).

(** The loop of [CpuSetFilter]: the first cell with enough free CPUs and memory.
    Comparing with [None] is a [TypeError]. *)
Fixpoint find_cell (cells : list NUMANode) (cpu : option Qc) (mem : Z)
    : py Container.store (option NUMANode) :=
  match cells with
  | [] => ret None
  | n :: cells' =>
      let! q := of_option cpu (Py TypeError) in
      let free := (Z.of_nat (size (Numa.cpuset n)) - Z.of_nat (size (Numa.pinned_cpus n)))%Z in
      if bool_decide (q ≤ Qc_of_Z free)%Qc then
        let! avail := of_option (Numa.mem_available n) (Py TypeError) in
        if (mem <=? avail)%Z then ret (Some n) else find_cell cells' cpu mem
      else find_cell cells' cpu mem
  end.

Definition cpuset_filter (h : HostState) (r : nat) : verdict :=
  let! c := Container.read r in
  (if bool_decide (cpu_policy c = None)
   then Container.mutate r (set_cpu_policy (Some "shared")) else ret tt);;;
  let policy := default "shared" (cpu_policy c) in
  let! mem := match memory c with
              | None => ret 0%Z
              | Some s => of_option (int_of 10 s) (Py ValueError)
              end in
  if bool_decide (policy = "dedicated") then
    if h_enable_cpu_pinning h then
      let! cells := of_option (h_numa_topology h) (Py AttributeError) in
      let! cell := find_cell cells (cpu c) mem in
      match cell with
      | None => ret (false, h)
      | Some n =>
          let lim := mkCpusetLimit (Numa.id n) (elements (Numa.cpuset n)) (elements (Numa.pinned_cpus n))
                       (Numa.mem_available n) in
          ret (true, set_limits (mkLimits (lim_memory (h_limits h)) (lim_cpu (h_limits h))
                                   (lim_disk (h_limits h)) (Some lim)) h)
      end
    else ret (false, h)
  else if bool_decide (policy = "shared") then ret (negb (compute_enable_cpu_pinning conf), h)
  else ret (false, h).

(** [key\[6:\]] of the hints that start with [label:]. *)
Definition wanted_labels (hints : dict string string) : dict string string :=
  dict_of (omap (λ kv, if Stdlib.Strings.String.prefix "label:" kv.1
                       then Some (Stdlib.Strings.String.substring 6 (String.length kv.1 - 6) kv.1, kv.2) else None) hints).

Definition label_filter (h : HostState) (xs : extra_specs) : verdict :=
  let! hints := of_option (xs_hints xs) (Py KeyError) in
  let! hints := of_option hints (Py AttributeError) in
  match wanted_labels hints with
  | [] => ret (true, h)
  | want =>
      let! have := of_option (h_labels h) (Py TypeError) in
      ret (forallb (λ kv, bool_decide (have !! kv.1 = Some kv.2)) want, h)
  end.

Definition pci_passthrough_filter (h : HostState) (xs : extra_specs) : verdict :=
  let! rqs := of_option (xs_pci_requests xs) (Py KeyError) in
  match rqs, h_pci_stats h with
  | None, _ | Some [], _ => ret (true, h)
  | Some _, None => ret (false, h)
  | Some rqs, Some s =>
      let '(o, _) := support_requests rqs None s in
      match o with Ok ok => ret (ok, h) | Raise e => raise e end
  end.

Definition runtime_filter (h : HostState) (c : container) : verdict :=
  if negb (ostr_true (runtime c)) then ret (true, h) else
  let! have := of_option (h_runtimes h) (Py TypeError) in
  ret (bool_decide (default "" (runtime c) ∈ have), h).

(** [host_passes] of each class, for the container object [r]. *)
Definition host_passes (f : filter_class) (r : nat) (xs : extra_specs) (h : HostState) : verdict :=
  let! c := Container.read r in
  match f with
  | AvailabilityZoneFilter => availability_zone_filter h xs
  | ComputeFilter => compute_filter h
  | CPUFilter => cpu_filter h c
  | CpuSetFilter => cpuset_filter h r
  | DiskFilter => disk_filter h c
  | LabelFilter => label_filter h xs
  | PciPassthroughFilter => pci_passthrough_filter h xs
  | RamFilter => ram_filter h c
  | RuntimeFilter => runtime_filter h c
  end.

(** ** Running the filters (base_filters.py) *)

Fixpoint filter_all (f : filter_class) (hosts : list HostState) (r : nat) (xs : extra_specs)
    : py Container.store (list HostState) :=
  match hosts with
  | [] => ret []
  | h :: hosts' =>
      let! v := host_passes f r xs h in
      let! rest := filter_all f hosts' r xs in
      ret (if v.1 : bool then v.2 :: rest else rest)
  end.

(** [get_filtered_objects] for the first request, whose index 0 runs every
    filter; it stops when no host is left. *)
Fixpoint get_filtered_objects (filters : list filter_class) (hosts : list HostState) (r : nat)
    (xs : extra_specs) : py Container.store (list HostState) :=
  match filters with
  | [] => ret hosts
  | f :: filters' =>
      let! left := filter_all f hosts r xs in
      match left with
      | [] => ret []
      | _ => get_filtered_objects filters' left r xs
      end
  end.

Definition _get_filtered_hosts (filters : list filter_class) (hosts : list HostState) (r : nat)
    (xs : extra_specs) : py Container.store (list HostState) :=
  let hosts :=
    match xs_requested_host xs with
    | Some requested => if str_true requested
                        then List.filter (λ h, bool_decide (h_hostname h = requested)) hosts
                        else hosts
    | None => hosts
    end in
  get_filtered_objects filters hosts r xs.
End Filters.

(** ** What the filters decide

    The requirement behind each filter, on the amounts of the host. *)

Definition zone_wanted (conf : sched_conf) (xs : extra_specs) : option string :=
  if ostr_true (xs_availability_zone xs) then xs_availability_zone xs
  else default_schedule_zone conf.

Definition zone_of (conf : sched_conf) (s : service) : option string :=
  if ostr_true (s_availability_zone s) then s_availability_zone s
  else default_availability_zone conf.

(** The service has sent a heartbeat within the allowed time. *)
Definition alive (conf : sched_conf) (s : service) : Prop :=
  s_forced_down s = false ∧ ∃ t,
    or_else (s_last_seen_up s) (or_else (s_updated_at s) (s_created_at s)) = Some t ∧
    (Z.abs (now conf - t) ≤ service_down_time conf)%Z.

(** The amount of memory a container asks for, when it asks for one. *)
Definition ram_wanted (c : container) : option Z :=
  if ostr_true (memory c) then memory c ≫= int_of 10 else None.

Definition free_cpus (n : NUMANode) : Z :=
  Z.of_nat (size (Numa.cpuset n)) - Z.of_nat (size (Numa.pinned_cpus n)).

Definition cell_fits (c : container) (n : NUMANode) : Prop :=
  ∃ q avail, cpu c = Some q ∧ (q ≤ Qc_of_Z (free_cpus n))%Qc ∧
    Numa.mem_available n = Some avail ∧ (default 0 (memory c ≫= int_of 10) ≤ avail)%Z.

Definition admissible (conf : sched_conf) (c : container) (xs : extra_specs) (h : HostState)
    (f : filter_class) : Prop :=
  match f with
  | AvailabilityZoneFilter =>
      ostr_true (zone_wanted conf xs) = true →
      ∃ s, h_service h = Some s ∧ zone_wanted conf xs = zone_of conf s
  | ComputeFilter => ∃ s, h_service h = Some s ∧ s_disabled s = false ∧ alive conf s
  | CPUFilter => cpu_of c = 0%Qc ∨ (cpu_of c ≤ Qc_of_Z (h_cpus h) - h_cpu_used h)%Qc
  | CpuSetFilter =>
      default "shared" (cpu_policy c) = "dedicated" ∧ h_enable_cpu_pinning h = true ∧
        (∃ cells n, h_numa_topology h = Some cells ∧ n ∈ cells ∧ cell_fits c n) ∨
      default "shared" (cpu_policy c) = "shared" ∧ compute_enable_cpu_pinning conf = false
  | DiskFilter => disk_of c = 0%Z ∨
      h_disk_quota_supported h = true ∧ (disk_of c ≤ h_disk_total h - h_disk_used h)%Z
  | LabelFilter => ∀ hints k v, xs_hints xs = Some (Some hints) → ("label:" +:+ k, v) ∈ hints →
      ∃ have, h_labels h = Some have ∧ have !! k = Some v
  | PciPassthroughFilter => ∀ rqs, xs_pci_requests xs = Some (Some rqs) → rqs ≠ [] →
      ∃ s, h_pci_stats h = Some s ∧ (support_requests rqs None s).1 = Ok true
  | RamFilter => ∀ m, ram_wanted c = Some m → (m ≤ h_mem_total h - h_mem_used h)%Z
  | RuntimeFilter => ∀ r, runtime c = Some r → r ≠ "" →
      ∃ have, h_runtimes h = Some have ∧ r ∈ have
  end.

(** Hosts that differ in their limits only. *)
Definition relim (h h' : HostState) : Prop := set_limits no_limits h = set_limits no_limits h'.

(** The object with its default policy written out; the only thing the filters
    do to a container. *)
Definition policed (c : container) : container :=
  set_cpu_policy (Some (default "shared" (cpu_policy c))) c.

Definition same_requests (st st' : Container.store) : Prop :=
  rows st' = rows st ∧ length (objects st') = length (objects st) ∧
  ∀ r, policed (obj st' r) = policed (obj st r).

#[export] Instance relim_equiv : Equivalence relim.
Proof. unfold relim. split; [done|by intros ??|by intros ??? -> ->]. Qed.

#[export] Instance same_requests_preorder : PreOrder same_requests.
Proof.
  split; [done|]. intros s1 s2 s3 (? & ? & H1) (? & ? & H2).
  split_and!; [congruence..|]. intros r. by rewrite H2.
Qed.

Lemma relim_set_limits l h : relim h (set_limits l h).
Proof. done. Qed.

Lemma admissible_relim conf c xs h h' f :
  relim h h' → admissible conf c xs h f ↔ admissible conf c xs h' f.
Proof. destruct h, h'. intros [= <- <- <- <- <- <- <- <- <- <- <- <- <- <- <- <- <-]. done. Qed.

Lemma admissible_policed conf c c' xs h f :
  policed c' = policed c → admissible conf c xs h f ↔ admissible conf c' xs h f.
Proof.
  destruct c, c'. unfold policed, set_cpu_policy. simpl.
  intros [= -> -> -> -> -> -> -> -> Hp -> -> -> -> -> -> ->].
  destruct f; try done. simpl. by rewrite Hp.
Qed.

(** A run of a filter answers whether its requirement holds, and touches only
    the limits of the host and the policy of the container. *)
Definition decides (conf : sched_conf) (f : filter_class) (r : nat) (xs : extra_specs)
    (h : HostState) (st : Container.store) (b : bool) (h' : HostState) (st' : Container.store)
    : Prop :=
  (b = true ↔ admissible conf (obj st r) xs h f) ∧ relim h h' ∧ same_requests st st'.

Lemma decides_pure conf f r xs h st b h' :
  (b = true ↔ admissible conf (obj st r) xs h f) → relim h h' →
  decides conf f r xs h st b h' st.
Proof. done. Qed.

Lemma same_requests_mutate r st f :
  policed (f (obj st r)) = policed (obj st r) → same_requests st (Container.mutate r f st).2.
Proof.
  unfold Container.mutate, modify, same_requests, obj. simpl. intros Hf.
  rewrite length_alter. split_and!; [done..|]. intros r'. revert Hf.
  rewrite !list_lookup_total_alt. destruct (decide (r = r')) as [->|Hne]; intros Hf.
  - rewrite list_lookup_alter_eq. by destruct (objects st !! r').
  - by rewrite list_lookup_alter_ne.
Qed.

Lemma service_is_up_alive {S} conf m (s : S) b s' :
  service_is_up conf m s = (Ok b, s') → (b = true ↔ alive conf m) ∧ s' = s.
Proof.
  unfold service_is_up, alive. destruct (s_forced_down m).
  { intros [= <- <-]. split; [|done]. split; [done|]. by intros [? _]. }
  intros H. run_inv. split; [|done]. rewrite Z.leb_le. split.
  - intros Hle. eauto.
  - intros (_ & t & [= <-] & Hle). done.
Qed.

Lemma az_decides conf r xs h st b h' st' :
  availability_zone_filter conf h xs st = (Ok (b, h'), st') →
  decides conf AvailabilityZoneFilter r xs h st b h' st'.
Proof.
  unfold availability_zone_filter. change (if ostr_true (xs_availability_zone xs) then _ else _)
    with (zone_wanted conf xs). destruct (ostr_true (zone_wanted conf xs)) eqn:Hz; simpl.
  - unfold the_service. intros H. run_inv. apply decides_pure; [|done].
    rewrite bool_decide_eq_true. simpl. split; [eauto|].
    intros Ha. destruct (Ha Hz) as (x & ? & Hs). simplify_eq. done.
  - intros H. run_inv. apply decides_pure; [|done]. simpl. rewrite Hz. by split.
Qed.

Lemma compute_decides conf r xs h st b h' st' :
  compute_filter conf h st = (Ok (b, h'), st') →
  decides conf ComputeFilter r xs h st b h' st'.
Proof.
  unfold compute_filter, the_service. intros H. run_inv.
  destruct (s_disabled _) eqn:Hd; run_inv.
  - apply decides_pure; [|done]. split; [done|]. intros (x & ? & ? & _). congruence.
  - apply service_is_up_alive in Hrun as [Hb ->]. apply decides_pure; [|done].
    rewrite Hb. simpl. split; [eauto|]. intros (x & ? & _ & ?). congruence.
Qed.

Lemma cpu_decides conf r xs h st b h' st' :
  cpu_filter h (obj st r) st = (Ok (b, h'), st') →
  decides conf CPUFilter r xs h st b h' st'.
Proof.
  unfold cpu_filter. case_bool_decide as H0; [|case_bool_decide as H1]; intros H; run_inv;
    (apply decides_pure; [|done]); simpl.
  - naive_solver.
  - split; [done|]. intros [?|Hle]; [done|]. by apply Qcle_not_lt in Hle.
  - split; [|done]. intros _. right. by apply Qcnot_lt_le.
Qed.

Lemma int_memory_wanted {S} c (s : S) m s' :
  ostr_true (memory c) = true → int_memory (memory c) s = (Ok m, s') →
  ram_wanted c = Some m ∧ s' = s.
Proof.
  unfold int_memory, ram_wanted. intros Ht. rewrite Ht. unfold ostr_true in Ht.
  destruct (memory c) as [x|]; [|done]. rewrite Ht. intros H. by run_inv.
Qed.

Lemma ram_decides conf r xs h st b h' st' :
  ram_filter h (obj st r) st = (Ok (b, h'), st') →
  decides conf RamFilter r xs h st b h' st'.
Proof.
  unfold ram_filter. destruct (ostr_true (memory (obj st r))) eqn:Ht; simpl; intros H; run_inv.
  - apply int_memory_wanted in Hrun as [Hw ->]; [|done]. destruct (_ <? _)%Z eqn:Hlt; run_inv;
      (apply decides_pure; [|done]); simpl; rewrite Hw.
    + split; [done|]. intros Hm. specialize (Hm _ eq_refl). lia.
    + split; [|done]. intros _ m [= <-]. lia.
  - apply decides_pure; [|done]. simpl. unfold ram_wanted. by rewrite Ht.
Qed.

Lemma disk_decides conf r xs h st b h' st' :
  disk_filter h (obj st r) st = (Ok (b, h'), st') →
  decides conf DiskFilter r xs h st b h' st'.
Proof.
  unfold disk_filter. case_bool_decide as H0;
    [|destruct (h_disk_quota_supported h) eqn:Hq; [destruct (_ <? _)%Z eqn:Hlt|]];
    simpl; intros H; run_inv; (apply decides_pure; [|done]); simpl.
  - naive_solver.
  - split; [done|]. intros [?|[_ ?]]; [done|lia].
  - split; [|done]. intros _. right. split; [done|lia].
  - split; [done|]. intros [?|[? _]]; congruence.
Qed.

Lemma ostr_true_iff o : ostr_true o = true ↔ ∃ x, o = Some x ∧ x ≠ "".
Proof.
  unfold ostr_true, str_true. destruct o as [x|]; [|naive_solver].
  rewrite bool_decide_eq_true. naive_solver.
Qed.

Lemma runtime_decides conf r xs h st b h' st' :
  runtime_filter h (obj st r) st = (Ok (b, h'), st') →
  decides conf RuntimeFilter r xs h st b h' st'.
Proof.
  unfold runtime_filter. destruct (ostr_true (runtime (obj st r))) eqn:Ht; simpl; intros H; run_inv;
    (apply decides_pure; [|done]); simpl.
  - apply ostr_true_iff in Ht as (x & Hx & Hne). rewrite bool_decide_eq_true, Hx. simpl.
    split; [intros Hin r' [= <-] _; eauto|].
    intros Hr. destruct (Hr _ eq_refl Hne) as (have & ? & ?). congruence.
  - split; [|done]. intros _ x Hx Hne.
    assert (ostr_true (runtime (obj st' r)) = true) as Ht' by (apply ostr_true_iff; eauto).
    congruence.
Qed.

Lemma pci_decides conf r xs h st b h' st' :
  pci_passthrough_filter h xs st = (Ok (b, h'), st') →
  decides conf PciPassthroughFilter r xs h st b h' st'.
Proof.
  unfold pci_passthrough_filter. intros H. run_inv.
  destruct a as [[|rq rqs]|]; [| destruct (h_pci_stats h) as [ps|] eqn:Hs; [|] |]; run_inv.
  - apply decides_pure; [|done]. unfold admissible. rewrite Ho. naive_solver.
  - destruct (support_requests _ _ _) as [[ok|e] ps'] eqn:Hr; run_inv.
    apply decides_pure; [|done]. unfold admissible. rewrite Ho. split.
    + intros -> ? [= <-] _. exists ps. split; [done|]. by rewrite Hr.
    + intros Hk. destruct (Hk _ eq_refl) as (s2 & ? & H2); [done|]. simplify_eq.
      rewrite Hr in H2. by injection H2.
  - apply decides_pure; [|done]. unfold admissible. rewrite Ho. split; [done|].
    intros Hk. destruct (Hk _ eq_refl) as (s2 & ? & H2); [done|]. congruence.
  - apply decides_pure; [|done]. unfold admissible. rewrite Ho. naive_solver.
Qed.

(** *** Labels *)

Lemma substring_all s : Stdlib.Strings.String.substring 0 (String.length s) s = s.
Proof. induction s as [|a s IH]; [done|]. simpl. by rewrite IH. Qed.

Lemma substring_app p s :
  Stdlib.Strings.String.substring (String.length p) (String.length s) (p +:+ s) = s.
Proof. induction p as [|a p IH]; [apply substring_all|exact IH]. Qed.

Lemma prefix_app p s : Stdlib.Strings.String.prefix p (p +:+ s) = true.
Proof.
  induction p as [|a p IH]; [by destruct s|]. simpl.
  by destruct (Ascii.ascii_dec a a).
Qed.

Lemma prefix_split p s :
  Stdlib.Strings.String.prefix p s = true → ∃ k, s = p +:+ k.
Proof.
  revert s. induction p as [|a p IH]; intros s; [by exists s|].
  destruct s as [|b s]; [done|]. simpl. destruct (Ascii.ascii_dec a b) as [->|]; [|done].
  intros (k & ->)%IH. by exists k.
Qed.

Lemma length_app_string p s : String.length (p +:+ s) = (String.length p + String.length s)%nat.
Proof. induction p as [|a p IH]; simpl; [done|by rewrite IH]. Qed.

(** The name of a [label:] hint. *)
Definition label_of (kv : string * string) : option (string * string) :=
  if Stdlib.Strings.String.prefix "label:" kv.1
  then Some (Stdlib.Strings.String.substring 6 (String.length kv.1 - 6) kv.1, kv.2) else None.

Lemma label_of_Some kv k v : label_of kv = Some (k, v) ↔ kv = ("label:" +:+ k, v).
Proof.
  destruct kv as [key w]. unfold label_of. cbn [fst snd]. split.
  - destruct (Stdlib.Strings.String.prefix _ key) eqn:Hp; [|done].
    apply prefix_split in Hp as (x & ->). rewrite length_app_string.
    change (String.length "label:") with 6. rewrite Nat.add_sub_swap, Nat.sub_diag by done.
    change 6 with (String.length "label:"). rewrite Nat.add_0_l, substring_app. naive_solver.
  - intros [= -> ->]. rewrite prefix_app, length_app_string.
    change (String.length "label:") with 6. rewrite Nat.add_sub_swap, Nat.sub_diag by done.
    change 6 with (String.length "label:"). by rewrite Nat.add_0_l, substring_app.
Qed.

Lemma wanted_labels_eq hints : wanted_labels hints = dict_of (omap label_of hints).
Proof. done. Qed.

Lemma wanted_labels_elem hints k v :
  NoDup (dkeys hints) → (k, v) ∈ wanted_labels hints ↔ ("label:" +:+ k, v) ∈ hints.
Proof.
  intros Hnd. rewrite wanted_labels_eq, dict_of_NoDup.
  - rewrite list_elem_of_omap. split.
    + intros (kv & Hin & Hl). by apply label_of_Some in Hl as ->.
    + intros Hin. eexists. split; [exact Hin|]. by apply label_of_Some.
  - induction hints as [|[key w] hints IH]; [constructor|]. unfold dkeys in *.
    rewrite fmap_cons in Hnd. apply NoDup_cons in Hnd as [Hn Hnd]. simpl.
    destruct (label_of (key, w)) as [[x y]|] eqn:Hl; [|by apply IH].
    apply label_of_Some in Hl as [= -> ->]. rewrite fmap_cons. apply NoDup_cons.
    split; [|by apply IH]. simpl. intros ([x' y'] & -> & Hin)%list_elem_of_fmap.
    apply list_elem_of_omap in Hin as (kv & Hin & Hl). apply label_of_Some in Hl as ->.
    apply Hn. apply list_elem_of_fmap. eexists. split; [|exact Hin]. done.
Qed.

Lemma label_decides conf r xs h st b h' st' :
  (∀ hints, xs_hints xs = Some (Some hints) → NoDup (dkeys hints)) →
  label_filter h xs st = (Ok (b, h'), st') →
  decides conf LabelFilter r xs h st b h' st'.
Proof.
  intros Hnd. unfold label_filter. intros H. apply bind_Ok in H as (o & s1 & H1 & H). run_inv.
  specialize (Hnd _ eq_refl). pose proof (λ k v, wanted_labels_elem a k v Hnd) as Hw.
  destruct (wanted_labels a) as [|w ws] eqn:He; run_inv; (apply decides_pure; [|done]);
    unfold admissible; rewrite Ho.
  - split; [|done]. intros _ ? k v [= <-] Hin. apply Hw in Hin. by apply elem_of_nil in Hin.
  - change (_ && forallb _ ws) with
      (forallb (λ kv : string * string, bool_decide (a0 !! kv.1 = Some kv.2)) (w :: ws)).
    rewrite forallb_elem. split.
    + intros Hall ? k v [= <-] Hin. apply Hw, Hall in Hin. eexists. split; [done|].
      by apply bool_decide_eq_true in Hin.
    + intros Ha [k v] Hin. apply Hw in Hin. destruct (Ha _ k v eq_refl Hin) as (have & ? & ?).
      apply bool_decide_eq_true. simpl. congruence.
Qed.

(** *** Pinned CPUs *)

Lemma find_cell_spec c cells st o st' :
  let mem := default 0%Z (memory c ≫= int_of 10) in
  find_cell cells (cpu c) mem st = (Ok o, st') →
  st' = st ∧ match o with
             | Some n => n ∈ cells ∧ cell_fits c n
             | None => ∀ n, n ∈ cells → ¬ cell_fits c n
             end.
Proof.
  intros mem. induction cells as [|n cells IH]; intros H.
  { cbn [find_cell] in H. run_inv. split; [done|]. intros n Hn. by apply elem_of_nil in Hn. }
  cbn [find_cell] in H. apply bind_Ok in H as (q & s1 & Hq & H). run_inv.
  assert (¬ cell_fits c n → (∀ m, m ∈ cells → ¬ cell_fits c m) →
    ∀ m, m ∈ n :: cells → ¬ cell_fits c m) as Hcons.
  { intros Hn Hc m [->|Hm]%elem_of_cons; [exact Hn|by apply Hc]. }
  case_bool_decide as Hle; [apply bind_Ok in H as (avail & s2 & Ha & H); run_inv;
    destruct (mem <=? avail)%Z eqn:Hm|]; run_inv.
  - split; [done|]. split; [by left|]. exists q, avail. split_and!; try done. lia.
  - apply IH in H as [-> H]. split; [done|]. destruct o as [m|].
    + destruct H. split; [by right|done].
    + apply Hcons; [|done]. intros (q' & a' & ? & ? & ? & ?). simplify_eq. unfold mem in Hm. lia.
  - apply IH in H as [-> H]. split; [done|]. destruct o as [m|].
    + destruct H. split; [by right|done].
    + apply Hcons; [|done]. intros (q' & a' & ? & ? & ? & ?). simplify_eq. done.
Qed.

Lemma cpuset_decides conf r xs h st b h' st' :
  cpuset_filter conf h r st = (Ok (b, h'), st') →
  decides conf CpuSetFilter r xs h st b h' st'.
Proof.
  intros H. unfold cpuset_filter in H. apply bind_Ok in H as (c & s1 & Hc & H).
  unfold Container.read, gets in Hc. injection Hc as <- <-.
  apply bind_Ok in H as (u & s2 & Hu & H).
  assert (same_requests st s2) as Hs.
  { clear H. case_bool_decide as Hp; [|run_inv; reflexivity]. replace s2 with (Container.mutate r
      (set_cpu_policy (Some "shared")) st).2 by by rewrite Hu.
    apply same_requests_mutate. by destruct (obj st r); simplify_eq/=. }
  clear Hu. apply bind_Ok in H as (m & s3 & Hm & H).
  assert (m = default 0%Z (memory (obj st r) ≫= int_of 10) ∧ s3 = s2) as [-> ->].
  { destruct (memory (obj st r)); run_inv; [|done]. simpl. by rewrite Ho. }
  enough (relim h h' ∧ st' = s2 ∧ (b = true ↔ admissible conf (obj st r) xs h CpuSetFilter))
    as (? & -> & ?) by done.
  unfold admissible. case_bool_decide as Hd; [rewrite Hd|case_bool_decide as Hsh].
  - destruct (h_enable_cpu_pinning h) eqn:Hp; run_inv; [|naive_solver].
    apply find_cell_spec in Hrun as [-> Hcell].
    destruct a0 as [n|]; run_inv; split_and!; try done.
    + split; [|done]. intros _. left. destruct Hcell. eauto 8.
    + split; [done|]. intros [(_ & _ & cells & n & ? & Hin & Hf)|[? _]]; [|done].
      simplify_eq. by destruct (Hcell n).
  - run_inv. split_and!; try done. rewrite negb_true_iff. naive_solver.
  - run_inv. naive_solver.
Qed.

(** ** The filters together *)

(** The hints are a dictionary. *)
Definition dict_hints (xs : extra_specs) : Prop :=
  ∀ hints, xs_hints xs = Some (Some hints) → NoDup (dkeys hints).

Lemma host_passes_decides conf f r xs h st b h' st' :
  dict_hints xs → host_passes conf f r xs h st = (Ok (b, h'), st') →
  decides conf f r xs h st b h' st'.
Proof.
  intros Hx H. unfold host_passes in H. apply bind_Ok in H as (c & s1 & Hc & H).
  unfold Container.read, gets in Hc. injection Hc as <- <-.
  destruct f; eauto using az_decides, compute_decides, cpu_decides, cpuset_decides,
    disk_decides, label_decides, pci_decides, ram_decides, runtime_decides.
Qed.

(** What each filter reads is there: it gives an answer. *)
Definition readable (conf : sched_conf) (c : container) (xs : extra_specs) (h : HostState)
    (f : filter_class) : Prop :=
  match f with
  | AvailabilityZoneFilter => ostr_true (zone_wanted conf xs) = true → is_Some (h_service h)
  | ComputeFilter => ∃ s, h_service h = Some s ∧
      is_Some (or_else (s_last_seen_up s) (or_else (s_updated_at s) (s_created_at s)))
  | CPUFilter | DiskFilter => True
  | CpuSetFilter => (∀ m, memory c = Some m → is_Some (int_of 10 m)) ∧
      (default "shared" (cpu_policy c) = "dedicated" → h_enable_cpu_pinning h = true →
       is_Some (cpu c) ∧ ∃ cells, h_numa_topology h = Some cells ∧
       ∀ n, n ∈ cells → is_Some (Numa.mem_available n))
  | LabelFilter => (∃ hints, xs_hints xs = Some (Some hints)) ∧ is_Some (h_labels h)
  | PciPassthroughFilter => ∃ o, xs_pci_requests xs = Some o ∧
      ∀ rqs s, o = Some rqs → h_pci_stats h = Some s → ∃ b, (support_requests rqs None s).1 = Ok b
  | RamFilter => ostr_true (memory c) = true → is_Some (memory c ≫= int_of 10)
  | RuntimeFilter => is_Some (h_runtimes h)
  end.

Lemma readable_relim conf c xs h h' f :
  relim h h' → readable conf c xs h f → readable conf c xs h' f.
Proof. destruct h, h'. intros [= <- <- <- <- <- <- <- <- <- <- <- <- <- <- <- <- <-]. done. Qed.

Lemma readable_policed conf c c' xs h f :
  policed c' = policed c → readable conf c xs h f → readable conf c' xs h f.
Proof.
  destruct c, c'. unfold policed, set_cpu_policy. simpl.
  intros [= -> -> -> -> -> -> -> -> Hp -> -> -> -> -> -> ->].
  destruct f; try done. simpl. by rewrite Hp.
Qed.

Lemma find_cell_total cells q mem (st : Container.store) :
  (∀ n, n ∈ cells → is_Some (Numa.mem_available n)) →
  ∃ o, find_cell cells (Some q) mem st = (Ok o, st).
Proof.
  induction cells as [|n cells IH]; intros Hm; [by eexists|].
  destruct (Hm n) as [avail Ha]; [by left|].
  destruct IH as [o Ho]; [intros m Hin; apply Hm; by right|].
  cbn [find_cell of_option]. steps. case_bool_decide; [|by eexists].
  rewrite Ha. cbn [of_option]. steps. destruct (mem <=? avail)%Z; by eexists.
Qed.

Lemma cpuset_total conf r xs h st :
  readable conf (obj st r) xs h CpuSetFilter → ∃ v st', cpuset_filter conf h r st = (Ok v, st').
Proof.
  intros [Hm Hd]. unfold cpuset_filter, Container.read. steps.
  assert (∃ s1, (if bool_decide (cpu_policy (obj st r) = None)
    then Container.mutate r (set_cpu_policy (Some "shared")) else ret tt) st = (Ok tt, s1)) as [s1 H1].
  { case_bool_decide; by eexists. }
  step H1. assert (∃ m, (match memory (obj st r) with
    | None => ret 0%Z | Some s => of_option (int_of 10 s) (Py ValueError) end) s1 = (Ok m, s1))
    as [m H2].
  { destruct (memory (obj st r)) as [x|]; [|by eexists]. destruct (Hm x eq_refl) as [m Hx].
    rewrite Hx. by exists m. }
  step H2. clear H1 H2. case_bool_decide as Hp; [|case_bool_decide; by eexists _, _].
  destruct (h_enable_cpu_pinning h) eqn:He; [|by eexists _, _].
  destruct (Hd Hp eq_refl) as ([q Hq] & cells & Hc & Ha). rewrite Hc, Hq. cbn [of_option]. steps.
  destruct (find_cell_total cells q m s1 Ha) as [o Ho]. step Ho.
  destruct o; by eexists _, _.
Qed.

Lemma host_passes_total conf f r xs h st :
  readable conf (obj st r) xs h f → ∃ b h' st', host_passes conf f r xs h st = (Ok (b, h'), st').
Proof.
  enough (readable conf (obj st r) xs h f → ∃ v st', host_passes conf f r xs h st = (Ok v, st'))
    as Hv by (intros ([b h'] & st' & ?)%Hv; eauto).
  unfold host_passes, Container.read. steps. destruct f; try apply cpuset_total; cbn [readable];
    unfold availability_zone_filter, compute_filter, cpu_filter, disk_filter, label_filter,
      pci_passthrough_filter, ram_filter, runtime_filter, the_service.
  - fold (zone_wanted conf xs). destruct (ostr_true (zone_wanted conf xs)); simpl.
    + intros [s Hs]; [done|]. rewrite Hs. by eexists _, _.
    + by eexists _, _.
  - intros (s & Hs & [t Ht]). rewrite Hs. cbn [of_option]. steps.
    destruct (s_disabled s); [by eexists _, _|]. unfold service_is_up.
    destruct (s_forced_down s); [by eexists _, _|]. rewrite Ht. by eexists _, _.
  - intros _. repeat case_bool_decide; by eexists _, _.
  - intros _. case_bool_decide; [by eexists _, _|]. destruct (h_disk_quota_supported h); simpl;
      [destruct (_ <? _)%Z|]; by eexists _, _.
  - intros ([hints Hh] & [have Hl]). rewrite Hh, Hl. cbn [of_option]. steps.
    cbn [of_option]. steps. destruct (wanted_labels hints); by eexists _, _.
  - intros (o & Ho & Hs). rewrite Ho. cbn [of_option]. steps.
    destruct o as [[|rq rqs]|]; [by eexists _, _| |by eexists _, _].
    destruct (h_pci_stats h) as [ps|]; [|by eexists _, _].
    destruct (Hs _ _ eq_refl eq_refl) as [b Hb].
    destruct (support_requests (rq :: rqs) None ps) as [[ok|e] ?]; [by eexists _, _|done].
  - unfold int_memory. destruct (ostr_true (memory (obj st r))) eqn:Ht; simpl; [|by eexists _, _].
    intros [m Hm]; [done|]. destruct (memory (obj st r)) as [x|]; [|done]. simpl in Hm, Ht.
    rewrite Ht, Hm. cbn [of_option]. steps. destruct (_ <? _)%Z; by eexists _, _.
  - intros [have Hr]. destruct (ostr_true _); simpl; [|by eexists _, _]. rewrite Hr. by eexists _, _.
Qed.

(** [kept Q hosts left]: [left] is the sub-sequence of the hosts that satisfy
    [Q], with possibly other limits. *)
Inductive kept (Q : HostState → Prop) : list HostState → list HostState → Prop :=
| kept_nil : kept Q [] []
| kept_in h h' l l' : Q h → relim h h' → kept Q l l' → kept Q (h :: l) (h' :: l')
| kept_out h l l' : ¬ Q h → kept Q l l' → kept Q (h :: l) l'.

Lemma kept_elem Q l l' h' : kept Q l l' → h' ∈ l' → ∃ h, h ∈ l ∧ Q h ∧ relim h h'.
Proof.
  induction 1 as [|h h1 l l' HQ Hr _ IH|h l l' HQ _ IH].
  - by intros ?%elem_of_nil.
  - intros [->|Hin]%elem_of_cons; [exists h; split_and!; [by left|done..]|].
    destruct (IH Hin) as (x & ? & ? & ?). exists x. split_and!; [by right|done..].
  - intros Hin. destruct (IH Hin) as (x & ? & ? & ?). exists x. split_and!; [by right|done..].
Qed.

Lemma kept_all l : kept (λ _, True) l l.
Proof. induction l; by constructor. Qed.

Lemma kept_impl Q Q' l l' : (∀ h, Q h ↔ Q' h) → kept Q l l' → kept Q' l l'.
Proof. intros HQ. induction 1; constructor; try done; by apply HQ || rewrite <- HQ. Qed.

Lemma kept_trans Q Q' l1 l2 l3 :
  (∀ h h', relim h h' → Q' h ↔ Q' h') →
  kept Q l1 l2 → kept Q' l2 l3 → kept (λ h, Q h ∧ Q' h) l1 l3.
Proof.
  intros HQ' H. revert l3. induction H as [|h h' l l' HQ Hr H IH|h l l' HQ H IH]; intros l3 H3.
  - inversion H3; subst. constructor.
  - inversion H3 as [|? ? ? ? ? Hr'|]; subst.
    + constructor; [|by etrans|by apply IH]. split; [done|]. by apply (HQ' h h').
    + apply kept_out; [|by apply IH]. intros [_ Hh]. by apply (HQ' h h') in Hh.
  - apply kept_out; [|by apply IH]. by intros [? _].
Qed.

Lemma filter_all_kept conf f r xs : dict_hints xs → ∀ hosts st l st',
  filter_all conf f hosts r xs st = (Ok l, st') →
  same_requests st st' ∧ kept (λ h, admissible conf (obj st r) xs h f) hosts l.
Proof.
  intros Hx. induction hosts as [|h hosts IH]; intros st l st' H.
  { cbn [filter_all] in H. run_inv. split; [done|constructor]. }
  cbn [filter_all] in H. apply bind_Ok in H as ([b h'] & s1 & Hv & H).
  apply host_passes_decides in Hv as (Hb & Hr & Hs1); [|done].
  apply bind_Ok in H as (rest & s2 & Hrest & H). apply IH in Hrest as [Hs2 Hk]. run_inv.
  split; [by etrans|].
  apply (kept_impl _ (λ h, admissible conf (obj st r) xs h f)) in Hk;
    [|intros x; symmetry; apply admissible_policed, Hs1].
  destruct b; simpl; constructor; try done; naive_solver.
Qed.

Lemma filter_all_total conf f r xs : dict_hints xs → ∀ hosts st,
  (∀ h, h ∈ hosts → readable conf (obj st r) xs h f) →
  ∃ l st', filter_all conf f hosts r xs st = (Ok l, st').
Proof.
  intros Hx. induction hosts as [|h hosts IH]; intros st Hr; [by eexists _, _|]. cbn [filter_all].
  destruct (host_passes_total conf f r xs h st) as (b & h' & s1 & H1); [apply Hr; by left|].
  step H1. apply host_passes_decides in H1 as (_ & _ & Hs); [|done].
  destruct (IH s1) as (l & s2 & H2).
  { intros x Hin. eapply readable_policed; [apply Hs|]. apply Hr. by right. }
  step H2. by eexists _, _.
Qed.

Lemma get_filtered_objects_kept conf r xs : dict_hints xs → ∀ filters hosts st l st',
  get_filtered_objects conf filters hosts r xs st = (Ok l, st') →
  same_requests st st' ∧
  kept (λ h, ∀ f, f ∈ filters → admissible conf (obj st r) xs h f) hosts l.
Proof.
  intros Hx. induction filters as [|f filters IH]; intros hosts st l st' H.
  { cbn [get_filtered_objects] in H. run_inv. split; [done|].
    eapply kept_impl; [|apply kept_all]. intros h. split; [intros _ f Hf; by apply elem_of_nil in Hf|done]. }
  cbn [get_filtered_objects] in H. apply bind_Ok in H as (left & s1 & H1 & H).
  apply filter_all_kept in H1 as [Hs1 Hk]; [|done].
  assert (same_requests s1 st' ∧
    kept (λ h, ∀ f, f ∈ filters → admissible conf (obj s1 r) xs h f) left l) as [Hs2 Hk2].
  { destruct left; [|by apply IH in H]. run_inv. split; [done|constructor]. }
  split; [by etrans|]. eapply kept_impl; [|eapply kept_trans; [|exact Hk|exact Hk2]].
  - intros h. simpl. assert (∀ g, admissible conf (obj s1 r) xs h g ↔ admissible conf (obj st r) xs h g)
      as Heq by (intros g; symmetry; apply admissible_policed, Hs1).
    split.
    + intros [Hf Hall] g [->|Hg]%elem_of_cons; [done|]. by apply Heq, Hall.
    + intros Hall. split; [apply Hall; by left|]. intros g Hg. apply Heq, Hall. by right.
  - intros h h' Hrl. split; intros Ha g Hg; by apply (admissible_relim _ _ _ h h'), Ha.
Qed.

Lemma get_filtered_objects_total conf r xs : dict_hints xs → ∀ filters hosts st,
  (∀ h f, h ∈ hosts → f ∈ filters → readable conf (obj st r) xs h f) →
  ∃ l st', get_filtered_objects conf filters hosts r xs st = (Ok l, st').
Proof.
  intros Hx. induction filters as [|f filters IH]; intros hosts st Hr; [by eexists _, _|].
  cbn [get_filtered_objects].
  destruct (filter_all_total conf f r xs Hx hosts st) as (left & s1 & H1).
  { intros h Hh. apply Hr; [done|by left]. }
  step H1. apply filter_all_kept in H1 as [Hs Hk]; [|done]. destruct left as [|h0 left]; [by eexists _, _|].
  apply IH. intros h g Hh Hg. eapply readable_policed; [apply Hs|].
  destruct (kept_elem _ _ _ _ Hk Hh) as (x & Hin & _ & Hrl).
  eapply readable_relim; [exact Hrl|]. apply Hr; [done|by right].
Qed.

(** The host name the request insists on. *)
Definition host_requested (xs : extra_specs) (h : HostState) : Prop :=
  ∀ name, xs_requested_host xs = Some name → name ≠ "" → h_hostname h = name.

Lemma kept_filter Q (p : HostState → bool) l l' :
  kept Q (List.filter p l) l' → kept (λ h, p h = true ∧ Q h) l l'.
Proof.
  revert l'. induction l as [|h l IH]; intros l' H; simpl in H; [inversion H; constructor|].
  destruct (p h) eqn:Hp.
  - inversion H; subst.
    + constructor; [done|done|by apply IH].
    + apply kept_out; [by intros [_ ?]|by apply IH].
  - apply kept_out; [by intros [? _]; congruence|by apply IH].
Qed.

Lemma filtered_hosts_kept conf filters r xs hosts st l st' :
  dict_hints xs → _get_filtered_hosts conf filters hosts r xs st = (Ok l, st') →
  same_requests st st' ∧
  kept (λ h, host_requested xs h ∧ ∀ f, f ∈ filters → admissible conf (obj st r) xs h f) hosts l.
Proof.
  intros Hx. unfold _get_filtered_hosts, host_requested.
  intros [Hs Hk]%get_filtered_objects_kept; [|done]. split; [done|].
  destruct (xs_requested_host xs) as [name|]; [destruct (str_true name) eqn:Hn|].
  - apply kept_filter in Hk. eapply kept_impl; [|exact Hk]. intros h. simpl.
    apply (bool_decide_eq_true_1 _) in Hn. rewrite bool_decide_eq_true. naive_solver.
  - apply (bool_decide_eq_false_1 _) in Hn. eapply kept_impl; [|exact Hk]. naive_solver.
  - eapply kept_impl; [|exact Hk]. naive_solver.
Qed.

Lemma filtered_hosts_total conf filters r xs hosts st :
  dict_hints xs →
  (∀ h f, h ∈ hosts → f ∈ filters → readable conf (obj st r) xs h f) →
  ∃ l st', _get_filtered_hosts conf filters hosts r xs st = (Ok l, st').
Proof.
  intros Hx Hr. apply get_filtered_objects_total; [done|]. intros h f Hh Hf. apply Hr; [|done].
  destruct (xs_requested_host xs) as [name|]; [destruct (str_true name)|]; try done.
  apply list_elem_of_In in Hh. apply filter_In in Hh as [Hh _]. by apply list_elem_of_In.
Qed.

(** C32. When what the filters read is there, filtering answers with exactly the
    hosts, in their order, that have the requested name and meet the requirement
    of every enabled filter; of the hosts only the limits change, and of the
    containers only an absent [cpu_policy], set to its default. *)
Theorem filtered_hosts_exact conf filters r xs hosts st :
  dict_hints xs →
  (∀ h f, h ∈ hosts → f ∈ filters → readable conf (obj st r) xs h f) →
  ∃ l st', _get_filtered_hosts conf filters hosts r xs st = (Ok l, st') ∧
    same_requests st st' ∧
    kept (λ h, host_requested xs h ∧ ∀ f, f ∈ filters → admissible conf (obj st r) xs h f)
      hosts l.
Proof.
  intros Hx Hr. destruct (filtered_hosts_total _ _ _ _ _ _ Hx Hr) as (l & st' & H).
  exists l, st'. split; [done|]. by apply filtered_hosts_kept in H.
Qed.

(** ** The limits handed to the compute node *)

(** Every limit set in the host is the total the request was checked against. *)
Record limits_ok (c : container) (h : HostState) : Prop := mkLimitsOk {
  memory_ok : ∀ l, lim_memory (h_limits h) = Some l → l = Qc_of_Z (h_mem_total h) ∧
    ∃ m, ram_wanted c = Some m ∧ (m ≤ h_mem_total h - h_mem_used h)%Z;
  cpu_ok : ∀ l, lim_cpu (h_limits h) = Some l → l = Qc_of_Z (h_cpus h) ∧
    (cpu_of c ≤ Qc_of_Z (h_cpus h) - h_cpu_used h)%Qc;
  disk_ok : ∀ l, lim_disk (h_limits h) = Some l → l = Qc_of_Z (h_disk_total h) ∧
    (disk_of c ≤ h_disk_total h - h_disk_used h)%Z;
  cpuset_ok : ∀ l, lim_cpuset (h_limits h) = Some l → ∃ n, cell_fits c n ∧
    l = mkCpusetLimit (Numa.id n) (elements (Numa.cpuset n)) (elements (Numa.pinned_cpus n))
          (Numa.mem_available n)
}.

Lemma limits_ok_none c h : h_limits h = no_limits → limits_ok c h.
Proof. intros Hl. by split; rewrite Hl. Qed.

Lemma limits_ok_policed c c' h : policed c = policed c' → limits_ok c h → limits_ok c' h.
Proof.
  destruct c, c'. unfold policed, set_cpu_policy. simpl.
  intros [= -> -> -> -> -> -> -> -> _ -> -> -> -> -> -> ->] [Hm Hc Hd Hs]. by split.
Qed.

Lemma host_passes_limits conf f r xs h st b h' st' :
  host_passes conf f r xs h st = (Ok (b, h'), st') →
  limits_ok (obj st r) h → limits_ok (obj st r) h'.
Proof.
  unfold host_passes. intros H. apply bind_Ok in H as (c & s1 & Hc & H).
  unfold Container.read, gets in Hc. injection Hc as <- <-. intros [Hm Hp Hd Hs].
  destruct f;
    unfold availability_zone_filter, compute_filter, cpu_filter, disk_filter, label_filter,
      pci_passthrough_filter, ram_filter, runtime_filter, the_service in H.
  - destruct (negb _); by run_inv.
  - run_inv. destruct (s_disabled _); by run_inv.
  - case_bool_decide; [by run_inv|]. case_bool_decide as Hlt; [by run_inv|]. run_inv.
    split; try done. simpl. intros l [= <-]. split; [done|]. by apply Qcnot_lt_le.
  - unfold cpuset_filter in H. apply bind_Ok in H as (c & s1 & Hc & H).
    unfold Container.read, gets in Hc. injection Hc as <- <-.
    apply bind_Ok in H as (u & s2 & _ & H). apply bind_Ok in H as (m & s3 & Hmem & H).
    assert (m = default 0%Z (memory (obj st r) ≫= int_of 10)) as ->.
    { destruct (memory (obj st r)); run_inv; [|done]. simpl. by rewrite Ho. }
    case_bool_decide; [|case_bool_decide; by run_inv].
    destruct (h_enable_cpu_pinning h); run_inv; [|done].
    apply find_cell_spec in Hrun as [-> Hcell]. destruct a0 as [n|]; run_inv; [|done].
    split; try done. simpl. intros l [= <-]. exists n. by destruct Hcell.
  - case_bool_decide as H0; [by run_inv|]. destruct (h_disk_quota_supported h); simpl in H; [|by run_inv].
    destruct (_ <? _)%Z eqn:Hlt; run_inv; [done|]. split; try done. simpl. intros l [= <-].
    split; [done|]. lia.
  - run_inv. destruct (wanted_labels _); by run_inv.
  - run_inv. destruct a as [[|rq rqs]|]; [by run_inv| |by run_inv].
    destruct (h_pci_stats h) as [ps|]; [|by run_inv].
    destruct (support_requests _ _ _) as [[ok|e] ps']; by run_inv.
  - destruct (ostr_true (memory (obj st r))) eqn:Ht; simpl in H; [|by run_inv].
    apply bind_Ok in H as (m & s1 & Hw & H). apply int_memory_wanted in Hw as [Hw ->]; [|done].
    destruct (_ <? _)%Z eqn:Hlt; run_inv; [done|].
    split; try done. simpl. intros l [= <-]. split; [done|]. exists m. split; [done|lia].
  - destruct (ostr_true (runtime (obj st r))); simpl in H; by run_inv.
Qed.

Lemma filter_all_limits conf f r xs : dict_hints xs → ∀ hosts st l st' c,
  filter_all conf f hosts r xs st = (Ok l, st') → policed (obj st r) = policed c →
  Forall (limits_ok c) hosts → Forall (limits_ok c) l.
Proof.
  intros Hx. induction hosts as [|h hosts IH]; intros st l st' c H Hc Hl.
  { cbn [filter_all] in H. by run_inv. }
  apply Forall_cons in Hl as [Hh Hl]. cbn [filter_all] in H.
  apply bind_Ok in H as ([b h'] & s1 & Hv & H). apply bind_Ok in H as (rest & s2 & Hrest & H).
  assert (limits_ok c h') as Hh'.
  { eapply limits_ok_policed; [exact Hc|]. eapply host_passes_limits; [exact Hv|].
    by eapply limits_ok_policed. }
  apply host_passes_decides in Hv as (_ & _ & Hs1); [|done].
  apply (IH _ _ _ c) in Hrest; [|destruct Hs1 as (_ & _ & Hs1); by rewrite Hs1|done].
  run_inv. destruct b; simpl; [by constructor|done].
Qed.

Lemma filtered_hosts_limits conf filters r xs hosts st l st' :
  dict_hints xs → _get_filtered_hosts conf filters hosts r xs st = (Ok l, st') →
  Forall (λ h, h_limits h = no_limits) hosts → Forall (limits_ok (obj st r)) l.
Proof.
  intros Hx H Hl. assert (Forall (limits_ok (obj st r)) hosts) as Hok
    by (eapply Forall_impl; [exact Hl|]; intros h; apply limits_ok_none).
  clear Hl. unfold _get_filtered_hosts in H. revert H.
  assert (∀ hosts st1, Forall (limits_ok (obj st r)) hosts → policed (obj st1 r) = policed (obj st r) →
    get_filtered_objects conf filters hosts r xs st1 = (Ok l, st') →
    Forall (limits_ok (obj st r)) l) as Hgen.
  { clear hosts Hok. induction filters as [|f filters IH]; intros hosts st1 Hok Hc H.
    { cbn [get_filtered_objects] in H. by run_inv. }
    cbn [get_filtered_objects] in H. apply bind_Ok in H as (left & s1 & H1 & H).
    pose proof (filter_all_limits _ _ _ _ Hx _ _ _ _ _ H1 Hc Hok) as Hleft.
    apply filter_all_kept in H1 as [(_ & _ & Hs1) _]; [|done].
    destruct left; [by run_inv|]. eapply IH; [exact Hleft| |exact H]. by rewrite Hs1. }
  intros H. eapply Hgen; [|done|exact H].
  destruct (xs_requested_host xs) as [name|]; [destruct (str_true name)|]; try done.
  apply Forall_forall. intros h Hh%list_elem_of_In. apply filter_In in Hh as [Hh _].
  rewrite Forall_forall in Hok. by apply Hok, list_elem_of_In.
Qed.

(** The limits the filters run so far have set: the totals of the host, of what the
    container asks for; and a cell for a container with CPUs of its own. *)
Definition wants_own_cpus (c : container) : bool := bool_decide (default "shared" (cpu_policy c) = "dedicated").
Record set_by (fs : list filter_class) (c : container) (h : HostState) : Prop := mkSetBy {
  memory_set : lim_memory (h_limits h) =
    if bool_decide (RamFilter ∈ fs) && ostr_true (memory c) then Some (Qc_of_Z (h_mem_total h)) else None;
  cpu_set : lim_cpu (h_limits h) =
    if bool_decide (CPUFilter ∈ fs) && negb (bool_decide (cpu_of c = 0%Qc)) then Some (Qc_of_Z (h_cpus h)) else None;
  disk_set : lim_disk (h_limits h) =
    if bool_decide (DiskFilter ∈ fs) && negb (bool_decide (disk_of c = 0%Z)) then Some (Qc_of_Z (h_disk_total h)) else None;
  cpuset_set : bool_decide (is_Some (lim_cpuset (h_limits h))) = bool_decide (CpuSetFilter ∈ fs) && wants_own_cpus c
}.

Lemma set_by_policed fs c c' h : policed c = policed c' → set_by fs c h → set_by fs c' h.
Proof.
  destruct c, c'. unfold policed, set_cpu_policy. simpl.
  intros [= -> -> -> -> -> -> -> -> Hp -> -> -> -> -> -> ->] [Hm Hc Hd Hs].
  split; [done..|]. rewrite Hs. unfold wants_own_cpus. simpl. by rewrite Hp.
Qed.

Lemma set_by_none c h : h_limits h = no_limits → set_by [] c h.
Proof. intros Hl. by split; rewrite Hl. Qed.

Lemma filter_in_snoc (g : filter_class) fs f : bool_decide (g ∈ fs ++ [f]) = bool_decide (g ∈ fs) || bool_decide (g = f).
Proof.
  apply eq_bool_prop_intro. rewrite orb_True, !bool_decide_spec, elem_of_app, list_elem_of_singleton. done.
Qed.

Ltac sets :=
  match goal with Hset : set_by _ _ _ |- _ => destruct Hset as [Hm Hp Hd Hs] end;
  split; cbn [set_limits h_limits lim_memory lim_cpu lim_disk lim_cpuset h_mem_total h_cpus h_disk_total];
  rewrite filter_in_snoc;
  repeat match goal with
  | |- context [bool_decide (?f = ?f)] => rewrite (bool_decide_true (f = f)) by done
  | |- context [bool_decide (?f = ?g)] => rewrite (bool_decide_false (f = g)) by done
  end;
  rewrite ?orb_false_r, ?orb_true_r, ?andb_true_l; try done.

Ltac holding Hw :=
  match type of Hw with
  | ¬ ?P => rewrite ?(bool_decide_false P Hw) in *
  | ?P => rewrite ?(bool_decide_true P Hw) in *
  end; cbn [negb] in *.

Lemma host_passes_sets conf f r xs h st h' st' fs :
  host_passes conf f r xs h st = (Ok (true, h'), st') → set_by fs (obj st r) h → set_by (fs ++ [f]) (obj st r) h'.
Proof.
  unfold host_passes. intros H. apply bind_Ok in H as (c & s1 & Hc & H).
  unfold Container.read, gets in Hc. injection Hc as <- <-. intros Hset.
  destruct f;
    unfold availability_zone_filter, compute_filter, cpu_filter, disk_filter, label_filter,
      pci_passthrough_filter, ram_filter, runtime_filter, the_service in H.
  - destruct (negb _); run_inv; by sets.
  - run_inv. destruct (s_disabled _); run_inv; by sets.
  - case_bool_decide as Hw; [|case_bool_decide]; run_inv; sets.
    holding Hw. by rewrite Hp, andb_false_r.
  - unfold cpuset_filter in H. apply bind_Ok in H as (c & s1 & Hc & H).
    unfold Container.read, gets in Hc. injection Hc as <- <-.
    apply bind_Ok in H as (u & s2 & _ & H). apply bind_Ok in H as (m & s3 & Hmem & H).
    case_bool_decide as Hpol.
    + destruct (h_enable_cpu_pinning h); run_inv. destruct a0 as [n|]; run_inv; sets.
      unfold wants_own_cpus. by rewrite !bool_decide_true by (by eexists || done).
    + case_bool_decide; run_inv; sets. unfold wants_own_cpus in *. holding Hpol. by rewrite andb_false_r in *.
  - case_bool_decide as Hw; [|destruct (h_disk_quota_supported h); simpl in H; [destruct (_ <? _)%Z|]];
      run_inv; sets.
    holding Hw. by rewrite Hd, andb_false_r.
  - run_inv. destruct (wanted_labels _); run_inv; by sets.
  - run_inv. destruct a as [[|rq rqs]|]; [run_inv; by sets| |run_inv; by sets].
    destruct (h_pci_stats h) as [ps|]; [|run_inv].
    destruct (support_requests _ _ _) as [[ok|e] ps']; run_inv; by sets.
  - destruct (ostr_true (memory (obj st r))) eqn:Ht; simpl in H; [|run_inv; sets; by rewrite Hm, Ht, andb_false_r].
    apply bind_Ok in H as (m & s1 & Hw & H). destruct (_ <? _)%Z; run_inv. sets. by rewrite Ht.
  - destruct (ostr_true (runtime (obj st r))); simpl in H; run_inv; by sets.
Qed.

Lemma filter_all_sets conf f r xs : dict_hints xs → ∀ hosts st l st' c fs,
  filter_all conf f hosts r xs st = (Ok l, st') → policed (obj st r) = policed c →
  Forall (set_by fs c) hosts → Forall (set_by (fs ++ [f]) c) l.
Proof.
  intros Hx. induction hosts as [|h hosts IH]; intros st l st' c fs H Hc Hl.
  { cbn [filter_all] in H. by run_inv. }
  apply Forall_cons in Hl as [Hh Hl]. cbn [filter_all] in H.
  apply bind_Ok in H as ([b h'] & s1 & Hv & H). apply bind_Ok in H as (rest & s2 & Hrest & H).
  pose proof Hv as Hsame. apply host_passes_decides in Hsame as (_ & _ & Hs1); [|done].
  apply (IH _ _ _ c fs) in Hrest; [|destruct Hs1 as (_ & _ & Hs1); by rewrite Hs1|done].
  run_inv. destruct b; simpl; [|done]. constructor; [|done].
  eapply set_by_policed; [exact Hc|]. eapply host_passes_sets; [exact Hv|]. by eapply set_by_policed.
Qed.

Lemma filtered_hosts_set conf filters r xs hosts st l st' :
  dict_hints xs → _get_filtered_hosts conf filters hosts r xs st = (Ok l, st') →
  Forall (λ h, h_limits h = no_limits) hosts → Forall (set_by filters (obj st r)) l.
Proof.
  intros Hx H Hl. assert (Forall (set_by [] (obj st r)) hosts) as Hok
    by (eapply Forall_impl; [exact Hl|]; intros h; apply set_by_none).
  clear Hl. unfold _get_filtered_hosts in H. revert H.
  assert (∀ fs hosts st1, Forall (set_by fs (obj st r)) hosts → policed (obj st1 r) = policed (obj st r) →
    get_filtered_objects conf filters hosts r xs st1 = (Ok l, st') →
    Forall (set_by (fs ++ filters) (obj st r)) l) as Hgen.
  { clear hosts Hok. induction filters as [|f filters IH]; intros fs hosts st1 Hok Hc H.
    { cbn [get_filtered_objects] in H. rewrite app_nil_r. by run_inv. }
    cbn [get_filtered_objects] in H. apply bind_Ok in H as (left & s1 & H1 & H).
    pose proof (filter_all_sets _ _ _ _ Hx _ _ _ _ _ _ H1 Hc Hok) as Hleft.
    apply filter_all_kept in H1 as [(_ & _ & Hs1) _]; [|done].
    rewrite cons_middle, app_assoc. destruct left; [by run_inv|]. eapply IH; [exact Hleft| |exact H]. by rewrite Hs1. }
  intros H. eapply (Hgen []); [|done|exact H].
  destruct (xs_requested_host xs) as [name|]; [destruct (str_true name)|]; try done.
  apply Forall_forall. intros h Hh%list_elem_of_In. apply filter_In in Hh as [Hh _].
  rewrite Forall_forall in Hok. by apply Hok, list_elem_of_In.
Qed.

Lemma relim_limits h h' : relim h h' → set_limits (h_limits h) h' = h.
Proof. destruct h, h'. by intros [= <- <- <- <- <- <- <- <- <- <- <- <- <- <- <- <- <-]. Qed.

(** ** The claim of the compute node accepts what the scheduler found *)

Lemma test_fits used requested l :
  (Qc_of_Z requested <= l - used)%Qc → _test used (Qc_of_Z requested) (Some l) = false.
Proof. intros Hle. unfold _test. apply bool_decide_eq_false. by apply Qcle_not_lt. Qed.

Lemma int_memory_default {S} c (s : S) m s' :
  int_memory (memory c) s = (Ok m, s') → s' = s ∧ m = default 0%Z (memory c ≫= int_of 10).
Proof.
  unfold int_memory. destruct (memory c) as [x|]; [destruct (str_true x) eqn:Hx|];
    intros Hr; run_inv; [| |done].
  - simpl. by rewrite Ho.
  - apply (bool_decide_eq_false_1 _) in Hx. assert (x = "") as -> by (by apply dec_stable). done.
Qed.

Section ClaimAgrees.
Context {S : Type} `{ResourceTracker S}.

(** A computation that only answers [a], or raises something else than
    [ResourcesUnavailable]. *)
Definition answers {A} (m : py S A) (s : S) (a : A) : Prop :=
  m s = (Ok a, s) ∨ ∃ e, m s = (Raise e, s) ∧ e ≠ Zun ResourcesUnavailable.

Lemma answers_bind {A B} (m : py S A) (f : A → py S B) s a :
  answers m s a → (∀ s', f a s ≠ (Raise (Zun ResourcesUnavailable), s')) →
  ∀ s', bind m f s ≠ (Raise (Zun ResourcesUnavailable), s').
Proof.
  intros [Hm|(e & Hm & He)] Hf s'; step Hm; [apply Hf|]. intros [= ? ?]. by apply He.
Qed.

Lemma int_memory_answers c (s : S) :
  answers (int_memory (memory c)) s (default 0%Z (memory c ≫= int_of 10)).
Proof.
  destruct (int_memory (memory c) s) as [[m|e] s1] eqn:Hm.
  - left. rewrite Hm. by apply int_memory_default in Hm as [-> ->].
  - right. unfold int_memory in Hm. destruct (memory c) as [x|]; [|by run_inv].
    destruct (str_true x) eqn:Hx; [|by run_inv]. unfold of_option in Hm.
    destruct (int_of 10 x) eqn:Hi; run_inv. exists (Py ValueError). simpl. rewrite Hx, Hi. done.
Qed.

Lemma ram_wanted_default c m : ram_wanted c = Some m → default 0%Z (memory c ≫= int_of 10) = m.
Proof.
  unfold ram_wanted. destruct (ostr_true _); [|done]. by intros ->.
Qed.

Lemma test_memory_answers c n sv l (s : S) :
  limits_ok c (set_limits l (host_state n sv)) →
  answers (_test_memory (Claim c) n (lim_memory l)) s false.
Proof.
  intros [Hm _ _ _]. unfold _test_memory. cbn [claim_memory]. simpl in Hm.
  destruct (int_memory_answers c s) as [Hi|(e & Hi & He)]; [left|right; exists e]; step Hi; [|done].
  destruct (lim_memory l) as [q|]; [|done].
  destruct (Hm q eq_refl) as (-> & m & Hw & Hle). rewrite (ram_wanted_default _ _ Hw).
  rewrite test_fits; [done|]. by rewrite <- Z2Qc_inj_sub, <- Z2Qc_inj_le.
Qed.

Lemma test_cpuset_mem_answers c n sv l (s : S) :
  limits_ok c (set_limits l (host_state n sv)) →
  answers (_test_cpuset_mem (Claim c) n (lim_cpuset l)) s false.
Proof.
  intros [_ _ _ Hs]. unfold _test_cpuset_mem. simpl in Hs.
  destruct (lim_cpuset l) as [cl|]; [|by left]. destruct (Hs cl eq_refl) as (x & Hf & ->).
  cbn [lim_node lim_cpuset_mem]. unfold answers.
  destruct (numa_topology n) as [nodes|]; cbn [of_option];
    [steps|by right; exists (Py AttributeError)].
  destruct (index nodes (Numa.id x) s) as [o s1] eqn:Hi.
  assert (s1 = s ∧ ∀ e, o = Raise e → e = Py IndexError) as [-> Ho].
  { unfold index, of_option, raise, ret in Hi. cbv zeta in Hi. repeat case_match; simplify_eq/=;
      (split; [done|intros e He; congruence]). }
  destruct o as [t|e]; step Hi; [|right; exists e; by rewrite (Ho e eq_refl)].
  destruct (int_memory_answers c s) as [Hm|(e & Hm & He)]; [left|right; exists e];
    cbn [claim_memory]; step Hm; [|done].
  destruct Hf as (q & avail & _ & _ & Ha & Hle). rewrite Ha. cbn [fmap option_fmap option_map].
  rewrite test_fits; [done|].
  rewrite <- Z2Qc_inj_0. rewrite <- Z2Qc_inj_sub, <- Z2Qc_inj_le. lia.
Qed.

Lemma test_cpu_false c n sv l :
  limits_ok c (set_limits l (host_state n sv)) → _test_cpu (Claim c) n (lim_cpu l) = false.
Proof.
  intros [_ Hc _ _]. simpl in Hc. unfold _test_cpu, _test. cbn [claim_cpu].
  destruct (lim_cpu l) as [q|]; [|done]. destruct (Hc q eq_refl) as [-> Hle].
  apply bool_decide_eq_false. by apply Qcle_not_lt.
Qed.

Lemma test_disk_false c n sv l :
  limits_ok c (set_limits l (host_state n sv)) → _test_disk (Claim c) n (lim_disk l) = false.
Proof.
  intros [_ _ Hd _]. simpl in Hd. unfold _test_disk. cbn [claim_disk].
  destruct (lim_disk l) as [q|]; [|done]. destruct (Hd q eq_refl) as [-> Hle].
  apply test_fits. by rewrite <- Z2Qc_inj_sub, <- Z2Qc_inj_le.
Qed.

Lemma test_cpuset_cpu_false c n sv l :
  limits_ok c (set_limits l (host_state n sv)) → _test_cpuset_cpu (Claim c) (lim_cpuset l) = false.
Proof.
  intros [_ _ _ Hs]. simpl in Hs. unfold _test_cpuset_cpu, _test. cbn [claim_cpu].
  destruct (lim_cpuset l) as [cl|]; [|done]. destruct (Hs cl eq_refl) as (x & Hf & ->).
  destruct Hf as (q & avail & Hq & Hle & _). cbn [lim_cpuset_cpu lim_cpuset_cpu_pinned].
  apply bool_decide_eq_false, Qcle_not_lt. rewrite <- Z2Qc_inj_sub. unfold cpu_of. rewrite Hq.
  exact Hle.
Qed.

Lemma test_pci_answers pci (s : S) :
  (∀ rqs, pci = Some rqs → pci_support_requests rqs s = (Ok true, s)) →
  answers (_test_pci pci) s false.
Proof.
  intros Hp. left. unfold _test_pci. destruct pci as [[|rq rqs]|]; [done| |done].
  by step (Hp _ eq_refl).
Qed.

(** The tracker answers for the PCI devices the node had published. *)
Definition tracks_published (n : ComputeNode) (s : S) : Prop :=
  ∀ rqs, pci_support_requests rqs s =
    ((support_requests rqs None (of_pool_objs (mkObjs ∅ ∅ ∅) (default [] (pci_device_pools n)))).1, s).

Lemma published_support conf c xs n sv pci (s : S) :
  admissible conf c xs (host_state n sv) PciPassthroughFilter → tracks_published n s →
  xs_pci_requests xs = Some pci → answers (_test_pci pci) s false.
Proof.
  intros Ha Ht Hx. destruct pci as [[|rq rqs]|]; [by left| |by left].
  apply test_pci_answers. intros rqs' [= <-]. destruct (Ha _ Hx ltac:(done)) as (ps & [= <-] & Hok).
  by rewrite Ht, Hok.
Qed.

(** C31. What passes the filters is not refused by the claim of a node that has not
    changed since.  A host that comes out of filtering the states of some nodes is the
    state of one of them with its limits set as the filters that ran say: the total
    memory, CPUs and disk of the node for what the container asks for, and a cell for
    a container with CPUs of its own.  Under exactly these limits no test of the claim
    on that node finds a resource short; for the PCI devices, when the filter for them
    ran and the tracker answers for the devices the node had published. *)
Theorem scheduler_claim_agree conf filters r xs (nodes : list (ComputeNode * option service)) st hosts st' h pci (s : S) :
  dict_hints xs →
  _get_filtered_hosts conf filters ((λ ns, host_state ns.1 ns.2) <$> nodes) r xs st = (Ok hosts, st') → h ∈ hosts →
  ∃ n sv, (n, sv) ∈ nodes ∧ relim (host_state n sv) h ∧ set_by filters (obj st' r) h ∧
    (pci = None ∨ PciPassthroughFilter ∈ filters ∧ xs_pci_requests xs = Some pci ∧ tracks_published n s →
     ∀ s', _claim_test (Claim (obj st' r)) pci (Some n) (Some (h_limits h)) s ≠
       (Raise (Zun ResourcesUnavailable), s')).
Proof.
  intros Hx Hrun Hh. assert (Forall (λ h, h_limits h = no_limits) ((λ ns, host_state ns.1 ns.2) <$> nodes)) as Hnone
    by (apply Forall_fmap, Forall_forall; by intros [n sv] _).
  pose proof (filtered_hosts_limits _ _ _ _ _ _ _ _ Hx Hrun Hnone) as Hlim.
  pose proof (filtered_hosts_set _ _ _ _ _ _ _ _ Hx Hrun Hnone) as Hset.
  rewrite Forall_forall in Hlim, Hset. specialize (Hlim h Hh). specialize (Hset h Hh).
  apply filtered_hosts_kept in Hrun as [(_ & _ & Hsame) Hkept]; [|done]. specialize (Hsame r).
  destruct (kept_elem _ _ _ _ Hkept Hh) as (h0 & Hin & [_ Hadm] & Hrel).
  apply list_elem_of_fmap in Hin as ([n sv] & -> & Hin). exists n, sv. cbn [fst snd] in *.
  split; [done|]. split; [done|]. split; [by eapply set_by_policed|].
  intros Hpci. set (c := obj st' r). apply (limits_ok_policed _ c) in Hlim; [|done].
  rewrite <- (relim_limits h (host_state n sv)) in Hlim by by symmetry.
  assert (answers (_test_pci pci) s false) as Htest.
  { destruct Hpci as [->|(Hf & Hreq & Ht)]; [by left|]. by eapply published_support; [apply Hadm|..]. }
  unfold _claim_test. change (default no_limits (Some ?l)) with l.
  eapply answers_bind; [apply int_memory_answers|]. cbn [of_option]. intros s'. steps. revert s'.
  eapply answers_bind; [by eapply test_memory_answers|].
  cbv beta zeta. rewrite (test_cpu_false _ _ _ _ Hlim), (test_disk_false _ _ _ _ Hlim), (test_cpuset_cpu_false _ _ _ _ Hlim).
  eapply answers_bind; [exact Htest|].
  eapply answers_bind; [by eapply test_cpuset_mem_answers|]. by intros s'.
Qed.
End ClaimAgrees.

(** The label filter fails on every request made without hints. *)
Lemma label_filter_without_hints h xs st :
  xs_hints xs = Some None → label_filter h xs st = (Raise (Py AttributeError), st).
Proof. unfold label_filter. by intros ->. Qed.

(** ** Example: one node, a container that asks for part of it *)

Definition demo_service : service := mkService "host1" false false (Some 95%Z) None None None.
Definition demo_sched_conf : sched_conf := mkSched None (Some "nova") false 60 100.
Definition demo_sched_node : ComputeNode :=
  ComputeNode.mkNode "node1" (Some "node1") (Some []) "host1" 8192 8192 4096 0 0 0 0 0
    4 0%Qc [] (Some ∅) None 100 20 false (Some ["runc"]) false.
Definition demo_request : container :=
  Container.mkContainer "c1" TYPE_CONTAINER None None None None None (Some (Qc_of_Z 2))
    None None (Some "512") None None None [] None None None None None None [].
Definition demo_filters : list filter_class :=
  [AvailabilityZoneFilter; ComputeFilter; RuntimeFilter; RamFilter; CPUFilter].
Definition demo_specs : extra_specs :=
  mkXs [] (Some None) None None (Some None) None.
Definition demo_store : Container.store := Container.mkStore [demo_request] [].

Lemma demo_readable h f :
  h = host_state demo_sched_node (Some demo_service) → f ∈ demo_filters →
  readable demo_sched_conf demo_request demo_specs h f.
Proof.
  intros -> Hf. unfold demo_filters in Hf. rewrite !elem_of_cons, elem_of_nil in Hf.
  destruct Hf as [->|[->|[->|[->|[->|[]]]]]]; cbn [readable].
  - intros _. by eexists.
  - exists demo_service. by split; [|eexists].
  - by eexists.
  - intros _. by vm_compute; eexists.
  - done.
Qed.

Lemma demo_hints : dict_hints demo_specs.
Proof. done. Qed.

Lemma filtered_hosts_exact_witness :
  ∃ l st', _get_filtered_hosts demo_sched_conf demo_filters
    [host_state demo_sched_node (Some demo_service)] 0 demo_specs demo_store = (Ok l, st') ∧
    h_hostname <$> l = ["host1"].
Proof.
  destruct (filtered_hosts_exact demo_sched_conf demo_filters 0 demo_specs
    [host_state demo_sched_node (Some demo_service)] demo_store) as (l & st' & Hr & _ & Hk).
  - exact demo_hints.
  - intros h f Hh%list_elem_of_singleton. exact (demo_readable h f Hh).
  - exists l, st'. split; [exact Hr|].
    assert (h_hostname <$> match (_get_filtered_hosts demo_sched_conf demo_filters
      [host_state demo_sched_node (Some demo_service)] 0 demo_specs demo_store).1
      with Ok l => l | Raise _ => [] end = ["host1"]) as Hl by (vm_compute; reflexivity).
    rewrite Hr in Hl. exact Hl.
Defined.

Lemma demo_admissible f : f ∈ demo_filters →
  admissible demo_sched_conf demo_request demo_specs (host_state demo_sched_node (Some demo_service)) f.
Proof.
  intros Hf.
  assert (∃ h' st', host_passes demo_sched_conf f 0 demo_specs
    (host_state demo_sched_node (Some demo_service)) demo_store = (Ok (true, h'), st'))
    as (h' & st' & Hr).
  { unfold demo_filters in Hf. rewrite !elem_of_cons, elem_of_nil in Hf.
    destruct Hf as [->|[->|[->|[->|[->|[]]]]]]; vm_compute; by do 2 eexists. }
  apply (host_passes_decides _ _ _ _ _ _ _ _ _ demo_hints) in Hr as [Ha _]. by apply Ha.
Qed.

(** A tracker with no containers and no devices. *)
Definition demo_tracker : ResourceTracker unit := {|
  on_store := λ A m, zoom (λ _, Container.mkStore [] []) (λ _ u, u) m;
  pci_support_requests := λ _, ret false;
  abort_container_claim := λ _, ret tt;
  abort_container_update_claim := λ _ _, ret tt
|}.

Abbreviation demo_filtered :=
  (_get_filtered_hosts demo_sched_conf demo_filters
    ((λ ns, host_state ns.1 ns.2) <$> [(demo_sched_node, Some demo_service)]) 0 demo_specs demo_store).

Lemma scheduler_claim_agree_witness :
  ∃ h hosts st', demo_filtered = (Ok (h :: hosts), st') ∧
    lim_memory (h_limits h) = Some (Qc_of_Z (h_mem_total h)) ∧
    ∀ s', _claim_test (S:=unit) (H:=demo_tracker) (Claim (obj st' 0)) None (Some demo_sched_node)
      (Some (h_limits h)) tt ≠ (Raise (Zun ResourcesUnavailable), s').
Proof.
  assert (match demo_filtered.1 with Ok (_ :: _) => true | _ => false end = true) as Hone by (vm_compute; reflexivity).
  destruct demo_filtered as [[[|h hosts]|e] st'] eqn:Hrun; [done| |done]. exists h, hosts, st'. split; [done|].
  destruct (scheduler_claim_agree (H:=demo_tracker) demo_sched_conf demo_filters 0 demo_specs
    [(demo_sched_node, Some demo_service)] demo_store (h :: hosts) st' h None tt demo_hints Hrun
    ltac:(by left)) as (n & sv & [= -> ->]%list_elem_of_singleton & _ & Hset & Hclaim).
  split; [|apply Hclaim; by left].
  assert (∃ c, obj st' 0 = c ∧ ostr_true (memory c) = true) as (c & Hc & Hm).
  { eexists. split; [reflexivity|]. apply (f_equal snd) in Hrun. cbn [snd] in Hrun. subst. vm_compute. reflexivity. }
  rewrite (memory_set _ _ _ Hset), Hc, Hm. reflexivity.
Defined.
