(* ===== verification/Scheduler.v ===== *)
(** * The schedulers (src/zun/scheduler/filter_scheduler.py, chance_scheduler.py, client/query.py)

    The filter scheduler takes the compute nodes placement proposes that have a
    service, keeps the ones that pass the enabled filters ([HostFilters]), and
    claims resources in placement for the first one it can.  The client in front
    of it builds the request ([ResourceRequest]) and asks placement. *)

From S2P Require Import Prelude Exceptions PyStr PciSpec PciDevice PciStats Numa Container.
From S2P Require Import ComputeNode Claims ResourceRequest HostFilters.

(** [_choose_host_filters]: the enabled names among the available classes. *)
Definition filter_cls_map : dict string filter_class :=
  [("AvailabilityZoneFilter", AvailabilityZoneFilter); ("ComputeFilter", ComputeFilter);
   ("CPUFilter", CPUFilter); ("CpuSetFilter", CpuSetFilter); ("DiskFilter", DiskFilter);
   ("LabelFilter", LabelFilter); ("PciPassthroughFilter", PciPassthroughFilter);
   ("RamFilter", RamFilter); ("RuntimeFilter", RuntimeFilter)].

Definition _choose_host_filters {S} (names : list string) : py S (list filter_class) :=
  raise_if (existsb (λ n, negb (dhas filter_cls_map n)) names) (Zun SchedulerHostFilterNotFound);;;
  ret (omap (dget filter_cls_map) names).

(** ** Choosing a host (filter_scheduler.py) *)

(** An allocation request of placement: amounts per provider and class. *)
Record alloc_req : Type := mkAllocReq { allocations : dict string (dict string Z) }.

(** What the scheduler asks of the placement client
    (src/zun/scheduler/client/report.py), whose state is [P]; [None] is one of
    the connection errors of the keystone library. *)
Record candidates : Type := mkCandidates {
  alloc_reqs : list alloc_req;
  provider_summaries : list string      (** the uuids it has a summary of *)
}.

Class PlacementClient (P : Type) : Type := {
  _ensure_traits : py P unit;
  get_allocation_candidates : ResourceRequest → py P (option candidates);
  claim_resources : string → alloc_req → py P bool
}.

(** The databases, the heap of containers and placement. *)
Record world (P : Type) : Type := mkWorld {
  w_nodes : ComputeNode.table;
  w_services : list service;
  w_store : Container.store;
  w_placement : P;
  w_traits_ensured : bool              (** of the [SchedulerClient] *)
}.
Arguments mkWorld {P} _ _ _ _ _.
Arguments w_nodes {P} _.
Arguments w_services {P} _.
Arguments w_store {P} _.
Arguments w_placement {P} _.
Arguments w_traits_ensured {P} _.

(** A destination; its [nodename] is always [None]. *)
Record destination : Type := mkDest { d_host : string; d_limits : limits }.

(** [_consume_selected_host]: an exception leaves the host as it is. *)
Definition _locked_consume_from_request (c : container) (h : HostState) : outcome exn HostState :=
  match int_memory (memory c) tt with
  | (Raise e, _) => Raise e
  | (Ok ram_mb, _) =>
      let used := (h_mem_used h + ram_mb)%Z in
      Ok (set_h_usage (h_mem_total h - used)%Z used (h_cpu_used h + cpu_of c)%Qc
            (h_disk_used h + disk_of c)%Z h)
  end.

Definition consume_from_request (c : container) (h : HostState) : HostState :=
  match _locked_consume_from_request c h with Ok h' => h' | Raise _ => h end.

Section FilterScheduler.
Context {P : Type} `{PlacementClient P} (conf : sched_conf).
Context (enabled_filters : list filter_class).

Abbreviation W := (world P).

Definition on_nodes {A} : py ComputeNode.table A → py W A :=
  zoom w_nodes (λ t w, mkWorld t (w_services w) (w_store w) (w_placement w) (w_traits_ensured w)).
Definition on_containers {A} : py Container.store A → py W A :=
  zoom w_store (λ st w, mkWorld (w_nodes w) (w_services w) st (w_placement w) (w_traits_ensured w)).
Definition on_placement {A} : py P A → py W A :=
  zoom w_placement (λ p w, mkWorld (w_nodes w) (w_services w) (w_store w) p (w_traits_ensured w)).

(** A later service of the same host replaces an earlier one. *)
Definition _get_services_by_host : py W (dict string service) :=
  gets (λ w, dict_of ((λ s, (s_host s, s)) <$> w_services w)).

Definition get_all_host_state (nodes : list ComputeNode) (services : dict string service)
    : list HostState :=
  (λ n, host_state n (dget services (hostname n))) <$> nodes.

(** The loop over the hosts of [_schedule]. *)
Fixpoint claim_host (hosts : list HostState) (u : string)
    (by_rp_uuid : dict string (list alloc_req)) : py W (option HostState) :=
  match hosts with
  | [] => ret None
  | h :: hosts' =>
      match h_uuid h ≫= dget by_rp_uuid with
      | None => claim_host hosts' u by_rp_uuid
      | Some l =>
          let! ar := of_option (head l) (Py IndexError) in
          let! ok := on_placement (claim_resources u ar) in
          if ok : bool then ret (Some h) else claim_host hosts' u by_rp_uuid
      end
  end.

Definition _schedule (r : nat) (xs : extra_specs) (by_rp_uuid : dict string (list alloc_req))
    (summaries : option (list string)) : py W HostState :=
  let! nodes := on_nodes (list_nodes (mkFilters None summaries)) in
  let! services := _get_services_by_host in
  let nodes := List.filter (λ n, dhas services (hostname n)) nodes in
  let host_states := get_all_host_state nodes services in
  let! hosts := on_containers (_get_filtered_hosts conf enabled_filters host_states r xs) in
  raise_if (negb (nonempty hosts)) (Zun NoValidHost);;;
  let! c := on_containers (Container.read r) in
  let! claimed := claim_host hosts (Container.uuid c) by_rp_uuid in
  let! h := of_option claimed (Zun NoValidHost) in
  ret (consume_from_request c h).

(** [FilterScheduler.select_destinations] *)
Definition select_destinations (containers : list nat) (xs : extra_specs)
    (by_rp_uuid : dict string (list alloc_req)) (summaries : option (list string))
    : py W (list destination) :=
  let! dests := map_m (λ r,
    let! h := _schedule r xs by_rp_uuid summaries in
    ret (mkDest (h_hostname h) (h_limits h))) containers in
  raise_if (negb (nonempty dests)) (Zun NoValidHost);;;
  ret dests.

(** [alloc_reqs_by_rp_uuid\[rp_uuid\].append(ar)], a defaultdict *)
Definition append_req (d : dict string (list alloc_req)) (u : string) (ar : alloc_req)
    : dict string (list alloc_req) :=
  dset d u (default [] (dget d u) ++ [ar]).

Definition group_alloc_reqs (l : list alloc_req) : dict string (list alloc_req) :=
  foldl (λ d ar, foldl (λ d u, append_req d u ar) d (dkeys (allocations ar))) [] l.

(** ** The chance scheduler (chance_scheduler.py) *)

(** [hosts_up] (driver.py) *)
Fixpoint hosts_up {S} (services : list service) : py S (list string) :=
  match services with
  | [] => ret []
  | s :: services' =>
      let! up := service_is_up conf s in
      let! rest := hosts_up services' in
      ret (if up && negb (s_disabled s) then s_host s :: rest else rest)
  end.

(** [random.choice] *)
Context (choice : list string → string).

Definition chance_schedule : py W string :=
  let! services := gets w_services in
  let! hosts := hosts_up services in
  match hosts with
  | [] => raise (Zun NoValidHost)
  | _ => ret (choice hosts)
  end.

Definition chance_select_destinations (containers : list nat) : py W (list (string * option limits)) :=
  let! dests := map_m (λ _, let! h := chance_schedule in ret (h, None)) containers in
  raise_if (negb (nonempty dests)) (Zun NoValidHost);;;
  ret dests.

(** ** The client (src/zun/scheduler/client/query.py) *)

Inductive driver : Type := FilterScheduler | ChanceScheduler.

Context (standards : list string) (max_placement_results : Z) (default_cpu : Qc)
  (default_memory : Z).

(** The call of the driver; [ChanceScheduler.select_destinations] does not take
    the six arguments it is given. *)
Definition driver_select_destinations (d : driver) (containers : list nat) (xs : extra_specs)
    (by_rp_uuid : dict string (list alloc_req)) (summaries : option (list string))
    : py W (list destination) :=
  match d with
  | FilterScheduler => select_destinations containers xs by_rp_uuid summaries
  | ChanceScheduler => raise (Py TypeError)
  end.

Definition ensure_traits : py W unit :=
  let! done := gets w_traits_ensured in
  if done : bool then ret tt else
  on_placement _ensure_traits;;;
  modify (λ w, mkWorld (w_nodes w) (w_services w) (w_store w) (w_placement w) true).

(** [SchedulerClient.select_destinations] *)
Definition client_select_destinations (d : driver) (containers : list nat) (xs : extra_specs)
    : py W (list destination) :=
  ensure_traits;;;
  let xs := process_reqspec xs in
  let! r := of_option (head containers) (Py IndexError) in
  let! c := on_containers (Container.read r) in
  let! resources := on_nodes
    (resources_from_request_spec standards max_placement_results default_cpu default_memory c xs) in
  let! res := on_placement (get_allocation_candidates resources) in
  match res with
  | None => raise (Zun NoValidHost)
  | Some res =>
      raise_if (negb (nonempty (alloc_reqs res))) (Zun NoValidHost);;;
      driver_select_destinations d containers xs (group_alloc_reqs (alloc_reqs res))
        (Some (provider_summaries res))
  end.
End FilterScheduler.

(** ** What scheduling leaves as it was, whatever its outcome *)

(** The rows, and of the objects all but the policy a filter may fill in. *)
Definition same_store (st st' : Container.store) : Prop :=
  rows st' = rows st ∧ length (objects st') = length (objects st) ∧
  ∀ r, set_cpu_policy None (obj st' r) = set_cpu_policy None (obj st r).

#[export] Instance same_store_preorder : PreOrder same_store.
Proof.
  split; [done|]. intros s1 s2 s3 (R1 & L1 & O1) (R2 & L2 & O2).
  split_and!; [congruence..|]. intros r. by rewrite O2, O1.
Qed.

Lemma mutate_policy_same r v : keeps same_store (Container.mutate r (set_cpu_policy v)).
Proof.
  intros st o st' [= _ <-]. split_and!; [done|cbn; by rewrite length_alter|]. intros q.
  unfold obj. cbn. rewrite !list_lookup_total_alt. destruct (decide (r = q)) as [<-|Hq].
  - rewrite list_lookup_alter_eq. by destruct (objects st !! r).
  - by rewrite list_lookup_alter_ne.
Qed.

Lemma host_passes_same conf f r xs h : keeps same_store (host_passes conf f r xs h).
Proof.
  assert (∀ cells q mem, keeps same_store (find_cell cells q mem)) as Hcell.
  { intros cells q mem. induction cells as [|n cells IH]; cbn [find_cell]; keep_rel. }
  unfold host_passes, Container.read, availability_zone_filter, compute_filter, service_is_up,
    cpu_filter, disk_filter, label_filter, pci_passthrough_filter, ram_filter, int_memory, runtime_filter,
    cpuset_filter, Container.read, the_service.
  pose proof (mutate_policy_same r (Some "shared")) as Hmut.
  keep_rel.
Qed.

Lemma filtered_hosts_same conf fs hosts r xs : keeps same_store (_get_filtered_hosts conf fs hosts r xs).
Proof.
  assert (∀ f hs, keeps same_store (filter_all conf f hs r xs)) as Hall.
  { intros f hs. induction hs as [|h hs IH]; cbn [filter_all]; [keep_rel|].
    pose proof (host_passes_same conf f r xs h). keep_rel. }
  unfold _get_filtered_hosts. generalize (match xs_requested_host xs with
    | Some requested => if str_true requested then List.filter (λ h, bool_decide (h_hostname h = requested)) hosts
                        else hosts
    | None => hosts end) as hs.
  induction fs as [|f fs IH]; intros hs; cbn [get_filtered_objects]; [keep_rel|].
  apply keeps_bind; [apply _|apply Hall|]. intros [|h l]; [keep_rel|apply IH].
Qed.

Section Same.
Context {P : Type} `{PlacementClient P} (conf : sched_conf) (filters : list filter_class).

(** The nodes and services, and the containers as above; placement may change. *)
Definition same_world (w w' : world P) : Prop :=
  w_nodes w' = w_nodes w ∧ w_services w' = w_services w ∧ same_store (w_store w) (w_store w').

#[local] Instance same_world_preorder : PreOrder same_world.
Proof.
  split; [done|]. intros w1 w2 w3 (N1 & S1 & H1) (N2 & S2 & H2). split_and!; [congruence..|by etrans].
Qed.

Lemma on_placement_same {A} (m : py P A) : keeps same_world (on_placement m).
Proof. intros w o w' Hm. unfold on_placement, zoom in Hm. destruct (m _). by injection Hm as _ <-. Qed.

Lemma on_containers_same {A} (m : py Container.store A) :
  keeps same_store m → keeps same_world (on_containers m).
Proof. intros Hm. apply (keeps_zoom _ same_store); [|exact Hm]. done. Qed.

Lemma on_nodes_same {A} (m : py ComputeNode.table A) :
  keeps eq m → keeps same_world (on_nodes m).
Proof. intros Hm. apply (keeps_zoom _ eq); [|exact Hm]. intros w t <-. by destruct w. Qed.

Lemma list_nodes_eq f : keeps eq (list_nodes f).
Proof.
  intros t o t'. unfold list_nodes. rewrite bind_get.
  assert (∀ l, keeps eq (map_m (E:=exn) (S:=ComputeNode.table) _from_db_object l)) as Hl.
  { intros l. apply keeps_map_m; [apply _|]. intros x _ s o1 s1. unfold _from_db_object.
    destruct (row_numa x) as [l1|]; [|by intros [= _ <-]]. destruct (topology_from_list l1); by intros [= _ <-]. }
  apply Hl.
Qed.

Lemma get_by_name_eq h : keeps eq (ComputeNode.get_by_name h).
Proof.
  unfold ComputeNode.get_by_name, _from_db_object. intros t o t'. rewrite bind_get.
  destruct (filter _ t) as [|w [|w' l]]; try by intros [= _ <-].
  destruct (row_numa w) as [l|]; [|by intros [= _ <-]]. destruct (topology_from_list l); by intros [= _ <-].
Qed.

Lemma list_nodes_same f : keeps same_world (on_nodes (list_nodes f)).
Proof. apply on_nodes_same, list_nodes_eq. Qed.

Lemma claim_host_same hosts u by_rp : keeps same_world (claim_host hosts u by_rp).
Proof.
  induction hosts as [|h hosts IH]; cbn [claim_host]; [apply keeps_ret, _|].
  destruct (h_uuid h ≫= dget by_rp) as [l|]; [|exact IH].
  apply keeps_bind; [apply _|apply keeps_of_option, _|]. intros ar.
  apply keeps_bind; [apply _|apply on_placement_same|]. intros [|]; [apply keeps_ret, _|exact IH].
Qed.

Lemma schedule_same r xs by_rp summaries : keeps same_world (_schedule conf filters r xs by_rp summaries).
Proof.
  unfold _schedule, _get_services_by_host, Container.read.
  pose proof (list_nodes_same (mkFilters None summaries)).
  repeat first [apply keeps_bind; [apply _| |intros ?] | apply keeps_gets, _ | apply keeps_raise_if, _
    | apply keeps_of_option, _ | apply keeps_ret, _ | exact (list_nodes_same _) | apply claim_host_same
    | apply on_containers_same | apply filtered_hosts_same].
Qed.

Lemma select_same std mx dc dm d containers xs :
  keeps same_world (client_select_destinations conf filters std mx dc dm d containers xs).
Proof.
  unfold client_select_destinations, ensure_traits.
  apply keeps_bind; [apply _| |intros _].
  { apply keeps_bind; [apply _|apply keeps_gets, _|]. intros [|]; [apply keeps_ret, _|].
    apply keeps_bind; [apply _|apply on_placement_same|]. intros _. by apply keeps_modify. }
  apply keeps_bind; [apply _|apply keeps_of_option, _|intros r].
  apply keeps_bind; [apply _|apply on_containers_same, keeps_gets, _|intros c].
  apply keeps_bind; [apply _| |intros rr].
  { apply on_nodes_same. unfold resources_from_request_spec.
    apply keeps_bind; [apply _|by intros s o s' [= _ <-]|intros own].
    apply keeps_bind; [apply _|by intros s o s' [= _ <-]|intros rr].
    apply keeps_bind; [apply _| |intros rr'; apply keeps_ret, _].
    unfold target_host. destruct (xs_requested_host (process_reqspec xs)) as [h|]; [|apply keeps_ret, _].
    pose proof (list_nodes_eq (mkFilters (Some h) None)). keep_rel. }
  apply keeps_bind; [apply _|apply on_placement_same|intros res].
  destruct res as [res|]; [|apply keeps_raise, _].
  apply keeps_bind; [apply _|apply keeps_raise_if, _|intros _].
  unfold driver_select_destinations. destruct d; [|apply keeps_raise, _].
  unfold select_destinations. apply keeps_bind; [apply _| |intros ds].
  { apply keeps_map_m; [apply _|]. intros r' _. apply keeps_bind; [apply _|apply schedule_same|].
    intros h. apply keeps_ret, _. }
  apply keeps_bind; [apply _|apply keeps_raise_if, _|intros _]. apply keeps_ret, _.
Qed.
End Same.

(** ** The chosen destinations *)

Section Chosen.
Context {P : Type} `{PlacementClient P} (conf : sched_conf).
Context (filters : list filter_class).
Abbreviation W := (world P).

(** A claim as a step of placement; scheduling sends it nothing else. *)
Definition claims (p p' : P) : Prop := ∃ u ar o, claim_resources u ar p = (o, p').

(** Why a destination is right for the container [c]: a listed node, with a
    service; the requested host; the requirement of every filter; resources
    claimed in placement, between [w] and [w'], with the first allocation request
    of its provider, for this container; limits that are the totals the request
    was checked against. *)
Record right_for (xs : extra_specs) (by_rp_uuid : dict string (list alloc_req))
    (summaries : option (list string)) (w w' : W) (c : container) (d : destination) : Prop :=
  mkRight {
  right_exists : ∃ ns t' n s u ar reqs p p',
    list_nodes (mkFilters None summaries) (w_nodes w) = (Ok ns, t') ∧ n ∈ ns ∧
    s ∈ w_services w ∧ s_host s = hostname n ∧ d_host d = hostname n ∧
    host_requested xs (host_state n (Some s)) ∧
    (∀ f, f ∈ filters → admissible conf c xs (host_state n (Some s)) f) ∧
    rp_uuid n = Some u ∧ dget by_rp_uuid u = Some (ar :: reqs) ∧
    rtc claims (w_placement w) p ∧
    claim_resources (Container.uuid c) ar p = (Ok true, p') ∧
    rtc claims p' (w_placement w') ∧
    limits_ok c (set_limits (d_limits d) (host_state n (Some s)))
}.

(** What scheduling leaves as it was. *)
Definition frame (w w' : W) : Prop :=
  w_nodes w' = w_nodes w ∧ w_services w' = w_services w ∧
  same_requests (w_store w) (w_store w').

#[local] Instance frame_preorder : PreOrder frame.
Proof.
  split; [done|]. intros w1 w2 w3 (H1 & H2 & H3) (H4 & H5 & H6).
  split_and!; [congruence..|by etrans].
Qed.

Lemma from_db_state {S} (x : row) (s : S) o s' : _from_db_object x s = (o, s') → s' = s.
Proof.
  unfold _from_db_object. destruct (row_numa x) as [l|]; [|by intros [= <- <-]].
  destruct (topology_from_list l); by intros [= <- <-].
Qed.

Lemma map_m_state {E S X Y} (f : X → M E S Y) xs s o s' :
  (∀ x s o s', f x s = (o, s') → s' = s) → map_m f xs s = (o, s') → s' = s.
Proof.
  intros Hf. revert s o s'. induction xs as [|x xs IH]; intros s o s' Hm; cbn [map_m] in Hm.
  { by injection Hm as _ <-. }
  unfold bind in Hm. destruct (f x s) as [[y|e] s1] eqn:Hx; apply Hf in Hx as ->;
    [|by injection Hm as _ <-].
  destruct (map_m f xs s) as [[ys|e] s2] eqn:Hys; apply IH in Hys as ->; by injection Hm as _ <-.
Qed.

Lemma list_nodes_state f t o t' : list_nodes f t = (o, t') → t' = t.
Proof.
  unfold list_nodes. rewrite bind_get. apply map_m_state. intros x s o1 s1. apply from_db_state.
Qed.

Lemma claim_host_spec hosts u by_rp w o w' :
  claim_host hosts u by_rp w = (Ok o, w') →
  frame w w' ∧ rtc claims (w_placement w) (w_placement w') ∧
  ∀ h, o = Some h → h ∈ hosts ∧ ∃ r ar reqs p p', h_uuid h = Some r ∧
    dget by_rp r = Some (ar :: reqs) ∧ rtc claims (w_placement w) p ∧
    claim_resources u ar p = (Ok true, p') ∧ rtc claims p' (w_placement w').
Proof.
  revert w. induction hosts as [|h hosts IH]; intros w Hc; cbn [claim_host] in Hc.
  { run_inv. split_and!; [done|done|]. by intros h. }
  destruct (h_uuid h) as [r|] eqn:Hu; simpl in Hc; [|
    apply IH in Hc as (Hf & Hr & Hc); split_and!; [done..|]; intros x Hx; destruct (Hc x Hx) as [? ?];
    split; [by right|done]].
  destruct (dget by_rp r) as [reqs|] eqn:Hd; [|
    apply IH in Hc as (Hf & Hr & Hc); split_and!; [done..|]; intros x Hx; destruct (Hc x Hx) as [? ?];
    split; [by right|done]].
  apply bind_Ok in Hc as (ar & w1 & Har & Hc). apply bind_Ok in Hc as (ok & w2 & Hclaim & Hc).
  destruct reqs as [|ar' reqs]; simpl in Har; run_inv.
  unfold on_placement, zoom in Hclaim. destruct (claim_resources u ar _) as [o1 p'] eqn:Hp.
  injection Hclaim as -> <-. assert (claims (w_placement w1) p') as Hstep by by eexists _, _, _.
  destruct ok.
  - run_inv. split_and!; [done|by apply rtc_once|]. intros x [= <-]. split; [by left|].
    exists r, ar, reqs, (w_placement w1), p'. by split_and!.
  - apply IH in Hc as (Hf & Hr & Hc). split_and!; [etrans; [|exact Hf]; done|by eapply rtc_l|].
    intros x Hx. destruct (Hc x Hx) as (Hin & r1 & ar1 & reqs1 & p1 & p2 & Hc1 & Hc2 & Hc3 & Hc4).
    split; [by right|]. exists r1, ar1, reqs1, p1, p2. destruct Hc4 as [Hc4 Hc5].
    split_and!; [exact Hc1|exact Hc2|by eapply rtc_l|exact Hc4|exact Hc5].
Qed.

Lemma dget_services (l : list service) name s :
  dget (dict_of ((λ s, (s_host s, s)) <$> l)) name = Some s → s ∈ l ∧ s_host s = name.
Proof.
  intros Hd%dget_Some_In%elem_dict_of. apply list_elem_of_fmap in Hd as (x & [= -> ->] & ?). done.
Qed.

Lemma consume_hostname c h : h_hostname (consume_from_request c h) = h_hostname h.
Proof.
  unfold consume_from_request, _locked_consume_from_request.
  by destruct (int_memory _ _) as [[m|e] ?].
Qed.

Lemma consume_limits c h : h_limits (consume_from_request c h) = h_limits h.
Proof.
  unfold consume_from_request, _locked_consume_from_request.
  by destruct (int_memory _ _) as [[m|e] ?].
Qed.

Lemma set_limits_relim h h' : relim h h' → set_limits (h_limits h') h = h'.
Proof. destruct h, h'. by intros [= <- <- <- <- <- <- <- <- <- <- <- <- <- <- <- <- <-]. Qed.

Lemma schedule_right r xs by_rp summaries w h w' :
  dict_hints xs → _schedule conf filters r xs by_rp summaries w = (Ok h, w') →
  frame w w' ∧ rtc claims (w_placement w) (w_placement w') ∧
  right_for xs by_rp summaries w w' (obj (w_store w) r) (mkDest (h_hostname h) (h_limits h)).
Proof.
  intros Hx Hs. unfold _schedule in Hs.
  apply bind_Ok in Hs as (ns & w1 & Hns & Hs). unfold on_nodes, zoom in Hns.
  destruct (list_nodes _ _) as [o t] eqn:Hl. injection Hns as -> <-.
  pose proof (list_nodes_state _ _ _ _ Hl) as ->.
  apply bind_Ok in Hs as (services & w2 & Hsv & Hs). unfold _get_services_by_host, gets in Hsv.
  injection Hsv as <- <-. simpl in Hs.
  apply bind_Ok in Hs as (hosts & w3 & Hh & Hs). unfold on_containers, zoom in Hh. simpl in Hh.
  destruct (_get_filtered_hosts _ _ _ _ _ _) as [o st] eqn:Hf. injection Hh as -> <-.
  pose proof (filtered_hosts_limits _ _ _ _ _ _ _ _ Hx Hf) as Hlim.
  apply filtered_hosts_kept in Hf as [Hsame Hk]; [|done].
  apply bind_Ok in Hs as ([] & w4 & Hne & Hs). unfold raise_if in Hne.
  destruct (negb _); [done|]. injection Hne as <-.
  apply bind_Ok in Hs as (c & w5 & Hc & Hs). unfold on_containers, zoom, Container.read in Hc.
  simpl in Hc. injection Hc as <- <-.
  apply bind_Ok in Hs as (claimed & w6 & Hcl & Hs). apply claim_host_spec in Hcl as (Hfr & Hsteps & Hcl).
  destruct claimed as [h0|]; [|done]. simpl in Hs. rewrite bind_ret in Hs. injection Hs as <- <-.
  destruct (Hcl h0 eq_refl) as (Hin & u & ar & reqs & p & p' & Hu & Hd & Hbefore & Hclaim & Hafter).
  split_and!; [etrans; [|exact Hfr]; done|exact Hsteps|]. constructor.
  destruct (kept_elem _ _ _ _ Hk Hin) as (h1 & Hh1 & [Hreq Hadm] & Hrl).
  unfold get_all_host_state in Hh1. apply list_elem_of_fmap in Hh1 as (n & -> & Hn).
  apply list_elem_of_In, filter_In in Hn as [Hn Hhas]. unfold dhas in Hhas.
  destruct (dget _ (hostname n)) as [s|] eqn:Hsv; [|done]. apply dget_services in Hsv as [Hs Hsh].
  rewrite consume_hostname, consume_limits. exists ns, (w_nodes w), n, s, u, ar, reqs, p, p'.
  assert (h_hostname h0 = hostname n ∧ h_uuid h0 = rp_uuid n) as [Hname Huu].
  { destruct h0. by injection Hrl. }
  split_and!; try done.
  - by apply list_elem_of_In.
  - congruence.
  - destruct Hsame as (_ & _ & Hp). specialize (Hp r).
    assert (Container.uuid (obj st r) = Container.uuid (obj (w_store w) r)) as <-; [|done].
    by injection Hp.
  - simpl. rewrite set_limits_relim by done.
    assert (Forall (limits_ok (obj (w_store w) r)) hosts) as Hok; [apply Hlim, Forall_forall|].
    + intros x Hxin. apply list_elem_of_fmap in Hxin as (m & -> & _). done.
    + rewrite Forall_forall in Hok. by apply Hok.
Qed.

Lemma right_later xs by_rp summaries w w0 w1 w2 c d :
  w_nodes w0 = w_nodes w → w_services w0 = w_services w → rtc claims (w_placement w) (w_placement w0) →
  rtc claims (w_placement w1) (w_placement w2) →
  right_for xs by_rp summaries w0 w1 c d → right_for xs by_rp summaries w w2 c d.
Proof.
  intros Hn Hsv Hb Ha [(ns & t & n & s & u & ar & reqs & p & p' & Hr)]. rewrite Hn, Hsv in Hr.
  destruct Hr as (? & ? & ? & ? & ? & ? & ? & ? & ? & Hbp & ? & Hpa & ?). constructor.
  exists ns, t, n, s, u, ar, reqs, p, p'. split_and!; [done..|by etrans|done|by etrans|done].
Qed.

Lemma destinations_right containers xs by_rp summaries w ds w' :
  dict_hints xs →
  select_destinations conf filters containers xs by_rp summaries w = (Ok ds, w') →
  frame w w' ∧ ds ≠ [] ∧
  Forall2 (λ r d, ∃ c, policed c = policed (obj (w_store w) r) ∧
    right_for xs by_rp summaries w w' c d) containers ds.
Proof.
  intros Hx Hs. unfold select_destinations in Hs. apply bind_Ok in Hs as (ds0 & w1 & Hm & Hs).
  apply bind_Ok in Hs as ([] & w2 & Hne & Hs). unfold raise_if in Hne.
  destruct ds0 as [|d0 ds0]; [done|]. injection Hne as <-. injection Hs as <- <-.
  cut (frame w w1 ∧ Forall2 (λ r d, ∃ c, policed c = policed (obj (w_store w) r) ∧
    right_for xs by_rp summaries w w1 c d) containers (d0 :: ds0)); [naive_solver|].
  revert Hm. generalize (d0 :: ds0) as l. intros l.
  assert (∀ w0, frame w w0 → rtc claims (w_placement w) (w_placement w0) →
    map_m (λ r, let! h := _schedule conf filters r xs by_rp summaries in
      ret (mkDest (h_hostname h) (h_limits h))) containers w0 = (Ok l, w1) →
    frame w w1 ∧ rtc claims (w_placement w0) (w_placement w1) ∧
    Forall2 (λ r d, ∃ c, policed c = policed (obj (w_store w) r) ∧
    right_for xs by_rp summaries w w1 c d) containers l) as Hgen;
    [|intros Hm; destruct (Hgen w ltac:(done) ltac:(done) Hm) as (? & _ & ?); done].
  revert l. induction containers as [|r rs IH]; intros l w0 Hf Hst Hm; cbn [map_m] in Hm.
  { injection Hm as <- <-. split_and!; [done|done|constructor]. }
  apply bind_Ok in Hm as (d & w2 & Hd & Hm). apply bind_Ok in Hm as (rest & w3 & Hrest & Hm).
  injection Hm as <- <-. apply bind_Ok in Hd as (h & w4 & Hh & Hd). injection Hd as <- <-.
  apply schedule_right in Hh as (Hf1 & Hst1 & Hr); [|done].
  apply IH in Hrest as (Hf2 & Hst2 & Hall); [|by etrans..].
  split_and!; [done|by etrans|]. constructor; [|done].
  destruct Hf as (Hn & Hsv & _ & _ & Hp). exists (obj (w_store w0) r). split; [apply Hp|].
  by eapply right_later.
Qed.

(** C7. Every destination the filter scheduler returns is right for its
    container, one per container and in their order: it is a node of the
    provider summaries whose host has a service, it has the requested name, it
    meets the requirement of every enabled filter on the figures of the node, the
    resources of the container were claimed there in placement, and its limits
    are totals its request fits in. *)
Theorem select_destinations_valid containers xs by_rp summaries w ds w' :
  dict_hints xs →
  select_destinations conf filters containers xs by_rp summaries w = (Ok ds, w') →
  frame w w' ∧ ds ≠ [] ∧
  Forall2 (λ r d, ∃ c, policed c = policed (obj (w_store w) r) ∧
    right_for xs by_rp summaries w w' c d) containers ds.
Proof. apply destinations_right. Qed.

(** *** When scheduling succeeds *)

Lemma kept_elem_back Q l l' h : kept Q l l' → h ∈ l → Q h → ∃ h', h' ∈ l' ∧ relim h h'.
Proof.
  induction 1 as [|h0 h1 l l' HQ Hr _ IH|h0 l l' HQ _ IH].
  - by intros ?%elem_of_nil.
  - intros [->|Hin]%elem_of_cons Hq; [exists h1; split; [by left|done]|].
    destruct (IH Hin Hq) as (x & ? & ?). exists x. split; [by right|done].
  - intros [->|Hin]%elem_of_cons Hq; [done|]. by apply IH.
Qed.

(** The provider of a host has an allocation request that placement accepts. *)
Definition claimable (by_rp : dict string (list alloc_req)) (u : string) (h : HostState) : Prop :=
  ∃ r ar reqs, h_uuid h = Some r ∧ dget by_rp r = Some (ar :: reqs) ∧
    ∀ p, ∃ p', claim_resources u ar p = (Ok true, p').

Lemma claim_host_succeeds by_rp u hosts w :
  (∀ ar p, ∃ b p', claim_resources u ar p = (Ok b, p')) →
  (∀ r reqs, dget by_rp r = Some reqs → reqs ≠ []) →
  (∃ h, h ∈ hosts ∧ claimable by_rp u h) →
  ∃ h w', claim_host hosts u by_rp w = (Ok (Some h), w').
Proof.
  intros Hp Hne. revert w. induction hosts as [|h hosts IH]; intros w (h0 & Hin & Hc).
  { by apply elem_of_nil in Hin. }
  cbn [claim_host]. destruct (h_uuid h ≫= dget by_rp) as [reqs|] eqn:Hl.
  - destruct (h_uuid h) as [r|] eqn:Hr; [|done]. simpl in Hl.
    destruct reqs as [|ar reqs]; [by destruct (Hne _ _ Hl)|]. cbn [head of_option]. steps.
    destruct (Hp ar (w_placement w)) as (b & p' & Hb).
    assert (on_placement (claim_resources u ar) w = (Ok b, mkWorld (w_nodes w) (w_services w)
      (w_store w) p' (w_traits_ensured w))) as H1 by (unfold on_placement, zoom; by rewrite Hb).
    step H1. destruct b; [by eexists _, _|]. apply IH.
    apply elem_of_cons in Hin as [->|Hin]; [|by exists h0].
    destruct Hc as (r' & ar' & reqs' & Hr' & Hd' & Hok). simplify_eq.
    destruct (Hok (w_placement w)) as (p2 & Hp2). congruence.
  - apply IH. apply elem_of_cons in Hin as [->|Hin]; [|by exists h0].
    destruct Hc as (r' & ar' & reqs' & Hr' & Hd' & _). rewrite Hr' in Hl. simpl in Hl. congruence.
Qed.

Definition services_by_host (w : W) : dict string service :=
  dict_of ((λ s, (s_host s, s)) <$> w_services w).

Lemma host_states_elem ns services h :
  h ∈ get_all_host_state (List.filter (λ n, dhas services (hostname n)) ns) services ↔
  ∃ m sm, m ∈ ns ∧ dget services (hostname m) = Some sm ∧ h = host_state m (Some sm).
Proof.
  unfold get_all_host_state, dhas. rewrite list_elem_of_fmap. split.
  - intros (m & -> & Hm%list_elem_of_In%filter_In). destruct Hm as [Hm Hd].
    destruct (dget services (hostname m)) as [sm|] eqn:Hsm; [|done]. exists m, sm.
    split_and!; [by apply list_elem_of_In|done|done].
  - intros (m & sm & Hm & Hsm & ->). exists m. rewrite Hsm. split; [done|].
    apply list_elem_of_In, filter_In. rewrite Hsm. split; [by apply list_elem_of_In|done].
Qed.

(** C30. Scheduling succeeds whenever it can: if a listed node with a service
    meets the request, and placement accepts the first allocation request of its
    provider whatever it has accepted before, then a host is returned, provided
    the figures of the listed nodes can be read and placement always answers. *)
Theorem schedule_succeeds r xs by_rp summaries w ns n s :
  let c := obj (w_store w) r in
  dict_hints xs →
  (∀ ar p, ∃ b p', claim_resources (Container.uuid c) ar p = (Ok b, p')) →
  (∀ u reqs, dget by_rp u = Some reqs → reqs ≠ []) →
  list_nodes (mkFilters None summaries) (w_nodes w) = (Ok ns, w_nodes w) →
  (∀ m sm f, m ∈ ns → dget (services_by_host w) (hostname m) = Some sm → f ∈ filters →
    readable conf c xs (host_state m (Some sm)) f) →
  n ∈ ns → dget (services_by_host w) (hostname n) = Some s →
  host_requested xs (host_state n (Some s)) →
  (∀ f, f ∈ filters → admissible conf c xs (host_state n (Some s)) f) →
  claimable by_rp (Container.uuid c) (host_state n (Some s)) →
  ∃ h w', _schedule conf filters r xs by_rp summaries w = (Ok h, w').
Proof.
  intros c Hx Hp Hne Hns Hr Hn Hs Hreq Hadm Hc. unfold _schedule.
  assert (on_nodes (list_nodes (mkFilters None summaries)) w = (Ok ns, w)) as H1.
  { unfold on_nodes, zoom. rewrite Hns. by destruct w. }
  step H1. unfold _get_services_by_host. steps. fold (services_by_host w).
  set (hosts := get_all_host_state _ _).
  destruct (filtered_hosts_total conf filters r xs hosts (w_store w) Hx) as (l & st' & Hf).
  { intros h f (m & sm & Hm & Hsm & ->)%host_states_elem Hf. by apply Hr. }
  pose proof Hf as [Hsame Hk]%filtered_hosts_kept; [|done].
  set (w1 := mkWorld (w_nodes w) (w_services w) st' (w_placement w) (w_traits_ensured w)).
  assert (on_containers (_get_filtered_hosts conf filters hosts r xs) w = (Ok l, w1)) as H2
    by (unfold on_containers, zoom; by rewrite Hf).
  step H2. destruct (kept_elem_back _ _ _ (host_state n (Some s)) Hk) as (h' & Hin & Hrl).
  { apply host_states_elem. by exists n, s. }
  { done. }
  destruct l as [|h0 l]; [by apply elem_of_nil in Hin|]. cbn [nonempty negb raise_if].
  rewrite bind_ret. unfold on_containers, Container.read, zoom at 1.
  assert ((zoom w_store (λ st w2, mkWorld (w_nodes w2) (w_services w2) st (w_placement w2)
    (w_traits_ensured w2)) (gets (λ st, obj st r)) : py W container) w1 = (Ok (obj st' r), w1)) as H3
    by done.
  step H3. assert (Container.uuid (obj st' r) = Container.uuid c) as Hu.
  { destruct Hsame as (_ & _ & Hpol). specialize (Hpol r). by injection Hpol. }
  rewrite Hu. destruct (claim_host_succeeds by_rp (Container.uuid c) (h0 :: l) w1 Hp Hne)
    as (h2 & w2 & H4).
  { exists h'. split; [done|]. destruct Hc as (u & ar & reqs & Hc1 & Hc2 & Hc3).
    exists u, ar, reqs. split_and!; [|done|done]. destruct h'. injection Hrl. simpl in *. congruence. }
  step H4. by eexists _, _.
Qed.
End Chosen.

(** ** The client *)

(** The requests filed under a provider are requests of placement that use it. *)
Definition filed (l : list alloc_req) (d : dict string (list alloc_req)) : Prop :=
  ∀ u reqs, dget d u = Some reqs → reqs ≠ [] ∧
    ∀ ar, ar ∈ reqs → ar ∈ l ∧ u ∈ dkeys (allocations ar).

Lemma filed_append l d u ar :
  filed l d → ar ∈ l → u ∈ dkeys (allocations ar) → filed l (append_req d u ar).
Proof.
  intros Hd Hl Hu v reqs. unfold append_req. rewrite dget_dset. case_decide as Hv; [subst v|by apply Hd].
  intros [= <-]. split; [by destruct (default _ _)|]. intros x [Hx|Hx]%elem_of_app.
  - destruct (dget d u) as [old|] eqn:Ho; simpl in Hx; [|by apply elem_of_nil in Hx].
    destruct (Hd u old Ho) as [_ Hall]. by apply Hall.
  - apply list_elem_of_singleton in Hx as ->. done.
Qed.

Lemma group_alloc_reqs_filed l : filed l (group_alloc_reqs l).
Proof.
  unfold group_alloc_reqs. assert (∀ l', l' ⊆ l → ∀ d, filed l d →
    filed l (foldl (λ d ar, foldl (λ d u, append_req d u ar) d (dkeys (allocations ar))) d l')) as Hgen.
  - induction l' as [|ar l' IH]; intros Hl d Hd; [done|]. simpl. apply IH; [set_solver|].
    assert (∀ us, us ⊆ dkeys (allocations ar) → ∀ d, filed l d →
      filed l (foldl (λ d u, append_req d u ar) d us)) as Hus; [|by apply Hus].
    induction us as [|u us IHu]; intros Hus d' Hd'; [done|]. simpl. apply IHu; [set_solver|].
    apply filed_append; [done|set_solver|set_solver].
  - by apply Hgen.
Qed.

(** With the chance scheduler configured, no request is ever scheduled. *)
Lemma chance_scheduler_unusable {P} `{PlacementClient P} conf filters std mx dc dm containers xs
    (w : world P) :
  is_ok (client_select_destinations conf filters std mx dc dm ChanceScheduler containers xs w).1 = false.
Proof.
  destruct (client_select_destinations _ _ _ _ _ _ _ _ _ _) as [[ds|e] w'] eqn:Hr; [exfalso|done].
  unfold client_select_destinations in Hr. apply bind_Ok in Hr as ([] & w1 & _ & Hr).
  cbv zeta in Hr. apply bind_Ok in Hr as (r & w2 & _ & Hr). apply bind_Ok in Hr as (c & w3 & _ & Hr).
  apply bind_Ok in Hr as (q & w4 & _ & Hr). apply bind_Ok in Hr as ([res|] & w5 & _ & Hr); [|done].
  by apply bind_Ok in Hr as ([] & w6 & _ & Hr).
Qed.

(** ** Example: one node, a container that asks for part of it *)

Definition demo_alloc : alloc_req :=
  mkAllocReq [("node1", [("VCPU", 2%Z); ("MEMORY_MB", 512%Z)])].

(** A placement service that records the claims and accepts them all. *)
#[export] Instance demo_placement : PlacementClient (list (string * alloc_req)) := {|
  _ensure_traits := ret tt;
  get_allocation_candidates := λ _, ret (Some (mkCandidates [demo_alloc] ["node1"]));
  claim_resources := λ u ar l, (Ok true, (u, ar) :: l)
|}.

Definition demo_world : world (list (string * alloc_req)) :=
  mkWorld [to_row None demo_sched_node] [demo_service] demo_store [] false.

Abbreviation demo_by_rp := (group_alloc_reqs [demo_alloc]).

Abbreviation demo_select :=
  (select_destinations demo_sched_conf demo_filters [0] demo_specs demo_by_rp (Some ["node1"])
     demo_world).

Lemma demo_select_ok : demo_select.1 = Ok [mkDest "host1"
  (mkLimits (Some (Qc_of_Z 8192)) (Some (Qc_of_Z 4)) None None)].
Proof. vm_compute. reflexivity. Qed.

Lemma select_destinations_valid_witness :
  ∃ ds w', demo_select = (Ok ds, w') ∧ w_placement w' = [("c1", demo_alloc)] ∧
    w_nodes w' = w_nodes demo_world ∧
    ∃ c, Forall (λ d, right_for demo_sched_conf demo_filters demo_specs demo_by_rp (Some ["node1"])
      demo_world w' c d) ds.
Proof.
  pose proof (run_eq _ _ demo_select_ok) as Hrun.
  eexists _, _. split; [exact Hrun|]. split; [vm_compute; reflexivity|].
  destruct (select_destinations_valid demo_sched_conf demo_filters [0] demo_specs demo_by_rp
    (Some ["node1"]) demo_world _ _ demo_hints Hrun) as ((Hn & _) & _ & Hall).
  split; [exact Hn|]. apply Forall2_cons in Hall as [(c & _ & Hr) _]. exists c.
  constructor; [exact Hr|constructor].
Defined.

Lemma schedule_succeeds_witness :
  ∃ h w', _schedule demo_sched_conf demo_filters 0 demo_specs demo_by_rp (Some ["node1"]) demo_world
    = (Ok h, w').
Proof.
  apply (schedule_succeeds demo_sched_conf demo_filters 0 demo_specs demo_by_rp (Some ["node1"])
    demo_world [demo_sched_node] demo_sched_node demo_service).
  - exact demo_hints.
  - intros ar p. by eexists _, _.
  - intros u reqs Hd. assert (demo_by_rp = [("node1", [demo_alloc])]) as He by (vm_compute; reflexivity).
    rewrite He in Hd. simpl in Hd. case_decide; [|done]. by injection Hd as <-.
  - vm_compute. reflexivity.
  - intros m sm f ->%list_elem_of_singleton Hs Hf.
    assert (dget (services_by_host demo_world) (hostname demo_sched_node) = Some demo_service) as He
      by (vm_compute; reflexivity).
    rewrite He in Hs. injection Hs as <-. by apply (demo_readable _ f eq_refl).
  - by left.
  - vm_compute. reflexivity.
  - done.
  - exact demo_admissible.
  - exists "node1", demo_alloc, []. split_and!; [reflexivity|vm_compute; reflexivity|].
    intros p. by eexists.
Defined.
