(* ===== verification/DockerDriver.v ===== *)
(** * The Docker driver: life cycle and states (src/zun/container/docker/driver.py)

    The operations that start, stop, pause, kill, show and delete a container, how
    the answers of Docker become the status of the container, how Docker's errors
    become exceptions of the service, and the periodic synchronisation of the
    recorded states with Docker.

    The Docker SDK and the network drivers are the class [DockerEnv].  An error of
    Docker is known by what the code looks for in its text.  The operations run on
    the pair of the state of that environment and the store of containers.
    Creation, deletion and networks are in [DockerCreate], images in [Images];
    statistics and archives are not modelled. *)

From Stdlib Require Import Ascii.
From S2P Require Import Prelude Exceptions PyStr Container.

(** [is_not_found], [is_not_connected] and [is_conflict] of the text *)
Record api_error : Type := mkApiError {
  is_not_found : bool;
  is_not_connected : bool;
  is_conflict : bool
}.

(** [errors.APIError], its translation by [docker_client], anything else. *)
Inductive derr : Type :=
| APIError (e : api_error)
| DockerErr (e : api_error)
| Exn (x : exn).

(** A date in an answer of Docker. *)
Inductive stamp : Type := Unparsable | YearOne | Instant.

(** ['State'] of a container: absent or empty, a dictionary ([inspect]) or a text
    ([containers]). *)
Record state_dict : Type := mkStateDict {
  d_Error : bool;
  d_Paused : bool;
  d_Restarting : bool;
  d_Running : bool;
  d_Dead : bool;
  d_Status : option string;
  d_StartedAt : option stamp;
  d_FinishedAt : option stamp
}.
Inductive docker_state : Type :=
| NoState
| StateDict (d : state_dict)
| StateText (s : string).

(** An entry of [list_containers], or the answer of [inspect_container]:
    [dc_runtime] is [HostConfig\['Runtime'\]] when there is a [HostConfig]. *)
Record docker_container : Type := mkDocker {
  dc_id : string;
  dc_name : string;
  dc_state : docker_state;
  dc_runtime : option (option string)
}.

Class DockerEnv (D : Type) : Type := {
  docker_start : string → M derr D unit;
  docker_stop : string → option Z → M derr D unit;
  docker_restart : string → option Z → M derr D unit;
  docker_pause : string → M derr D unit;
  docker_unpause : string → M derr D unit;
  docker_kill : string → option string → M derr D unit;
  docker_remove : string → bool → M derr D unit;
  docker_inspect : string → M derr D docker_container;
  docker_list : M derr D (list docker_container);
  on_container_started : container → M derr D unit;
  on_container_stopped : container → M derr D unit;
  cleanup_network : container → M derr D unit;
  cleanup_exposed_ports : container → M derr D unit;
  record_action_start : string → M derr D unit
}.

(** [s.capitalize() in CONTAINER_STATUSES], for the status it names. *)
Definition lower_char (c : ascii) : ascii :=
  if (65 <=? code_of c)%Z && (code_of c <=? 90)%Z
  then ascii_of_nat (nat_of_ascii c + 32) else c.
Definition lower (s : string) : string := implode (lower_char <$> explode s).

Definition status_names : list (string * ContainerStatus) :=
  [("error", ERROR); ("running", RUNNING); ("stopped", STOPPED); ("paused", PAUSED);
   ("unknown", UNKNOWN); ("creating", CREATING); ("created", CREATED); ("deleted", DELETED);
   ("deleting", DELETING); ("rebuilding", REBUILDING); ("dead", DEAD);
   ("restarting", RESTARTING)].
Definition capitalized_status (s : string) : option ContainerStatus :=
  dget status_names (lower s).

(** ** From Docker's answer to the status of the container *)

Abbreviation on_container := (M derr container).

Definition put_status (s : ContainerStatus) : on_container unit := modify (set_status (Some s)).

(** [format_status_detail(t) == ""]; [None] cannot be sliced. *)
Definition empty_detail (t : option stamp) : on_container bool :=
  match t with
  | None => raise (Exn (Py TypeError))
  | Some YearOne => ret true
  | Some _ => ret false
  end.

Definition is_one_of (s : option ContainerStatus) (l : list ContainerStatus) : bool :=
  existsb (λ x, bool_decide (s = Some x)) l.

Definition populate_dict (d : state_dict) : on_container unit :=
  if d_Error d then
    (if bool_decide (d_Status d = Some "exited" ∨ d_Status d = Some "removing")
     then put_status STOPPED
     else let! s := of_option (d_Status d) (Exn (Py AttributeError)) in
          match capitalized_status s with Some st => put_status st | None => ret tt end);;;
    let! _detail := empty_detail (d_FinishedAt d) in ret tt
  else if d_Paused d then
    put_status PAUSED;;; let! _detail := empty_detail (d_StartedAt d) in ret tt
  else if d_Restarting d then put_status RESTARTING
  else if d_Running d then
    put_status RUNNING;;; let! _detail := empty_detail (d_StartedAt d) in ret tt
  else if d_Dead d then put_status DEAD
  else
    let! never_started := empty_detail (d_StartedAt d) in
    let! never_finished := empty_detail (d_FinishedAt d) in
    let! c := get in
    if never_started && bool_decide (status c = Some CREATING) then put_status CREATED
    else if never_started && is_one_of (status c) [CREATED; RESTARTING; ERROR; REBUILDING]
    then ret tt
    else if negb never_started && never_finished then put_status UNKNOWN
    else if negb never_started && negb never_finished then put_status STOPPED
    else ret tt.

Definition populate_text (s : string) : on_container unit :=
  let state := lower s in
  let! c := get in
  if bool_decide (state = "created") && bool_decide (status c = Some CREATING) then put_status CREATED
  else if bool_decide (state = "created") &&
          is_one_of (status c) [CREATED; RESTARTING; ERROR; REBUILDING] then ret tt
  else if bool_decide (state = "paused") then put_status PAUSED
  else if bool_decide (state = "running") then put_status RUNNING
  else if bool_decide (state = "dead") then put_status DEAD
  else if bool_decide (state = "restarting") then put_status RESTARTING
  else if bool_decide (state ∈ ["exited"; "removing"]) then put_status STOPPED
  else put_status UNKNOWN.

Definition _populate_container_state (state : docker_state) (force : bool) : on_container unit :=
  let! c := get in
  if bool_decide (task_state c ≠ None) && negb force then ret tt else
  match state with
  | NoState | StateText "" => put_status UNKNOWN
  | StateDict d => populate_dict d
  | StateText s => populate_text s
  end.

(** The host name and the ports are not modelled. *)
Definition _populate_container (response : docker_container) (force : bool) : on_container unit :=
  _populate_container_state (dc_state response) force;;;
  match dc_runtime response with
  | Some r => modify (set_runtime r)
  | None => ret tt
  end.

(** ** Errors *)

Section Driver.
Context {D : Type} `{DockerEnv D}.
(** [CONF.host]; [uuidutils.is_uuid_like] *)
Context (conf_host : string) (is_uuid_like : string → bool).

Abbreviation St := (D * Container.store)%type.
Abbreviation dm := (M derr St).

Definition on_env {A} : M derr D A → dm A := zoom fst (λ d s, (d, snd s)).

(** A computation of the store raises only exceptions of the service. *)
Definition lift_exn {E S A} (f : exn → E) (m : M exn S A) : M E S A :=
  λ s, match m s with
       | (Ok a, s') => (Ok a, s')
       | (Raise x, s') => (Raise (f x), s')
       end.
Definition on_db {A} (m : M exn Container.store A) : dm A :=
  lift_exn Exn (zoom snd (λ st s, (fst s, st)) m).

(** Running on the object [r]. *)
Definition on_object {A} (r : nat) (m : on_container A) : dm A :=
  λ s, match m (obj (snd s) r) with
       | (o, c) => (o, (fst s, mkStore (alter (λ _, c) r (objects (snd s))) (rows (snd s))))
       end.

(** [with docker_utils.docker_client()] *)
Definition docker_client {A} (m : dm A) : dm A :=
  λ s, match m s with
       | (Raise (APIError e), s') => (Raise (DockerErr e), s')
       | res => res
       end.

Definition handle_not_found (r : nat) (do_not_raise : bool) : dm unit :=
  let! c := on_db (Container.read r) in
  if bool_decide (status c = Some DELETING) then ret tt else
  on_object r (put_status (if bool_decide (auto_remove c = Some true) then DELETED else ERROR));;;
  on_db (Container.save r);;;
  if do_not_raise then ret tt else raise (Exn (Zun Conflict)).

Definition wrap_docker_error {A} (r : nat) (function : dm A) : dm A :=
  try_except function (λ e,
    match e with
    | DockerErr e => Some (
        (if is_not_found e then handle_not_found r false else ret tt);;;
        if is_conflict e then raise (Exn (Zun Conflict)) else raise (DockerErr e))
    | _ => None
    end).

Definition check_container_id {A} (r : nat) (function : dm A) : dm A :=
  let! c := on_db (Container.read r) in
  match container_id c with
  | None => raise (Exn (Zun Invalid))
  | Some _ => function
  end.

(** What leaves the driver. *)
Definition exn_of (e : derr) : exn :=
  match e with
  | APIError _ => Py OtherException
  | DockerErr _ => Zun DockerError
  | Exn x => x
  end.
Definition run_driver {A} (m : dm A) : py St A :=
  λ s, match m s with
       | (Ok a, s') => (Ok a, s')
       | (Raise e, s') => (Raise (exn_of e), s')
       end.

(** ** The operations on one container *)

Definition the_id (r : nat) : dm string :=
  let! c := on_db (Container.read r) in ret (default "" (container_id c)).

(** [try: m  except Exception: k] *)
Definition try_any {E S} (m k : M E S unit) : M E S unit := try_except m (λ _, Some k).

Definition operation (r : nat) (body : string → dm unit) : dm unit :=
  check_container_id r (wrap_docker_error r (let! cid := the_id r in docker_client (body cid))).

(** [if timeout:] *)
Definition given (timeout : option Z) : option Z :=
  if bool_decide (timeout = Some 0%Z) then None else timeout.

Definition reboot (r : nat) (timeout : option Z) : dm unit :=
  operation r (λ cid,
    on_env (docker_restart cid (given timeout));;;
    on_object r (put_status RUNNING);;;
    let! c := on_db (Container.read r) in
    on_env (on_container_started c)).

Definition stop (r : nat) (timeout : option Z) : dm unit :=
  operation r (λ cid,
    on_env (docker_stop cid (given timeout));;;
    on_object r (put_status STOPPED);;;
    let! c := on_db (Container.read r) in
    try_any (on_env (on_container_stopped c)) (ret tt)).

Definition start (r : nat) : dm unit :=
  operation r (λ cid,
    on_env (docker_start cid);;;
    on_object r (put_status RUNNING);;;
    let! c := on_db (Container.read r) in
    try_any (on_env (on_container_started c))
      (try_any (on_env (docker_stop cid (Some 5%Z));;; on_env (on_container_stopped c)) (ret tt);;;
       on_object r (put_status STOPPED))).

Definition pause (r : nat) : dm unit :=
  operation r (λ cid, on_env (docker_pause cid);;; on_object r (put_status PAUSED)).

Definition unpause (r : nat) : dm unit :=
  operation r (λ cid, on_env (docker_unpause cid);;; on_object r (put_status RUNNING)).

Definition kill (r : nat) (signal : option string) : dm unit :=
  operation r (λ cid,
    let signal := if bool_decide (signal = Some "None") then None else signal in
    on_env (docker_kill cid signal);;; on_object r (put_status STOPPED)).

Definition show (r : nat) : dm unit :=
  docker_client (
    let! c := on_db (Container.read r) in
    match container_id c with
    | None => ret tt
    | Some cid =>
        let! response := try_except (let! x := on_env (docker_inspect cid) in ret (Some x)) (λ e,
          match e with
          | APIError a => if is_not_found a then Some (handle_not_found r true;;; ret None)
                          else Some (raise (APIError a))
          | _ => None
          end) in
        match response with
        | None => ret tt
        | Some x => on_object r (_populate_container x false)
        end
    end).

Definition delete (r : nat) (force : bool) : dm unit :=
  docker_client (
    try_except (
      let! c := on_db (Container.read r) in
      on_env (cleanup_network c);;;
      on_env (cleanup_exposed_ports c);;;
      match container_id c with
      | Some cid => if str_true cid then on_env (docker_remove cid force) else ret tt
      | None => ret tt
      end) (λ e,
      match e with
      | APIError a => if is_not_found a || is_not_connected a then Some (ret tt)
                      else Some (raise (APIError a))
      | _ => None
      end)).

Definition check_container_exist (r : nat) : dm bool :=
  let! c := on_db (Container.read r) in
  docker_client (
    let! l := on_env docker_list in
    ret (existsb (λ d, bool_decide (container_id c = Some (dc_id d))) l)).

(** ** Synchronisation with Docker *)

(** [s.replace(p, '', 1)] *)
Fixpoint replace_first (p : string) (s : string) : string :=
  if Stdlib.Strings.String.prefix p s
  then Stdlib.Strings.String.substring (String.length p) (String.length s - String.length p) s
  else match s with
       | EmptyString => EmptyString
       | String a s' => String a (replace_first p s')
       end.

Definition _get_container_uuids (containers : list docker_container) : list string :=
  List.filter is_uuid_like (replace_first "/zun-" ∘ dc_name <$> containers).

(** [Container.list(filters={'uuid': uuids})] *)
Definition list_by_uuids (t : ContainerType) (uuids : list string) : M exn Container.store (list nat) :=
  let! s := get in
  map_m alloc (List.filter (λ c, bool_decide (ctype c = t ∧ uuid c ∈ uuids)) (dvalues (rows s))).

Definition _get_local_containers (uuids : list string) : dm (list nat) :=
  let! host_containers := on_db (list_by_host TYPE_CONTAINER conf_host) in
  let! s := get in
  on_db (list_by_uuids TYPE_CONTAINER (uuids ++ (uuid ∘ obj s.2 <$> host_containers))).

(** The loop of [list] over the local containers: the ones Docker does not have. *)
Fixpoint populate_all (id_map : dict string docker_container) (local : list nat) : dm (list nat) :=
  match local with
  | [] => ret []
  | r :: local' =>
      let! c := on_db (Container.read r) in
      if is_one_of (status c) [CREATING; DELETING; DELETED] then populate_all id_map local'
      else match (if ostr_true (container_id c) then container_id c ≫= dget id_map else None) with
           | None => let! rest := populate_all id_map local' in ret (r :: rest)
           | Some d => on_object r (_populate_container d false);;; populate_all id_map local'
           end
  end.

Definition list_containers : dm (list nat * list nat) :=
  let! l := docker_client (on_env docker_list) in
  let! local := _get_local_containers (_get_container_uuids l) in
  let! missing := populate_all (dict_of ((λ d, (dc_id d, d)) <$> l)) local in
  ret (local, missing).

(** [manager.container_rebuild] is called without its argument [run]; the
    [TypeError] is caught and logged. *)
Definition container_rebuild_without_run : dm unit := raise (Exn (Py TypeError)).

Definition heal_with_rebuilding_container (r : nat) : dm unit :=
  let! c := on_db (Container.read r) in
  if negb (ostr_true (container_id c)) then ret tt else
  try_any (
    if bool_decide (auto_heal c = Some true) &&
       is_one_of (status c) (default [] (dget VALID_STATES "rebuild")) then
      on_env (record_action_start (uuid c));;;
      container_rebuild_without_run
    else
      on_object r (put_status ERROR);;;
      on_db (Container.save r)) (ret tt).

(** [{c.container_id: c for c in containers if c.container_id}] *)
Definition by_container_id (refs : list nat) : dm (dict string nat) :=
  let! s := get in
  ret (dict_of (omap (λ r, match container_id (obj s.2 r) with
                           | Some cid => if str_true cid then Some (cid, r) else None
                           | None => None
                           end) refs)).

Definition sync_one (r local : nat) : dm unit :=
  let! c := on_db (Container.read r) in
  let! l := on_db (Container.read local) in
  (if bool_decide (status c = status l) then ret tt
   else on_object r (modify (set_status (status l)));;; on_db (Container.save r));;;
  let! c := on_db (Container.read r) in
  if bool_decide (host c = Some conf_host) then ret tt
  else on_object r (modify (set_host (Some conf_host)));;; on_db (Container.save r).

Definition sync_missing (r : nat) : dm unit :=
  let! c := on_db (Container.read r) in
  if bool_decide (host c = Some conf_host) then
    if bool_decide (auto_remove c = Some true) then
      on_object r (put_status DELETED);;; on_db (Container.save r)
    else heal_with_rebuilding_container r
  else ret tt.

Definition update_containers_states (containers : list nat) : dm unit :=
  let! '(local, missing) := list_containers in
  match local with
  | [] => ret tt
  | _ =>
      let! local_map := by_container_id local in
      let! map := by_container_id containers in
      for_each (λ kv : string * nat,
        match dget local_map kv.1 with Some l => sync_one kv.2 l | None => ret tt end) map;;;
      for_each sync_missing missing
  end.
End Driver.

(** ** The operations touch their container only *)

#[export] Instance milder_preorder : PreOrder milder.
Proof. split; [done|]. unfold milder. intros ??? (?&?&?&?) (?&?&?&?). split_and!; congruence. Qed.

Lemma keeps_mild f : mild f → keeps (E:=derr) milder (modify f).
Proof. intros Hf. apply keeps_modify. exact Hf. Qed.
#[export] Hint Resolve keeps_mild : py.

Lemma populate_milder d force : keeps milder (_populate_container d force).
Proof.
  unfold _populate_container, _populate_container_state, populate_dict, populate_text, put_status,
    empty_detail.
  keep_rel.
Qed.

Lemma put_status_milder st : keeps milder (put_status st).
Proof. unfold put_status. auto with py. Qed.
#[export] Hint Resolve populate_milder put_status_milder : py.

Section Frames.
Context {D : Type} `{DockerEnv D} (conf_host : string) (is_uuid_like : string → bool).
Abbreviation St := (D * Container.store)%type.

Definition only2 (r : nat) (s s' : St) : Prop := only r s.2 s'.2.
#[export] Instance only2_preorder r : PreOrder (only2 r).
Proof. split; [by intros s; red|]. intros s1 s2 s3 H1 H2. red in H1, H2 |- *. by etrans. Qed.

Lemma on_env_only {A} r (m : M derr D A) : keeps (only2 r) (on_env m).
Proof. unfold on_env, zoom. intros s o s'. destruct (m s.1). by intros [= <- <-]. Qed.

Lemma on_db_only {A} r (m : M exn Container.store A) : keeps (only r) m → keeps (only2 r) (on_db (D:=D) m).
Proof.
  intros Hm s o s'. unfold on_db, lift_exn, zoom. destruct (m s.2) as [[a|e] st] eqn:Hs;
    intros [= <- <-]; exact (Hm _ _ _ Hs).
Qed.

Lemma on_object_only {A} r (m : on_container A) : keeps milder m → keeps (only2 r) (on_object (D:=D) r m).
Proof.
  intros Hm s o s'. unfold on_object. destruct (m (obj s.2 r)) as [o1 c] eqn:Hs. intros [= <- <-].
  exact (alter_only _ (λ _, c) _ (Hm _ _ _ Hs)).
Qed.

Lemma read_only r q : keeps (only r) (Container.read q).
Proof. apply keeps_gets, _. Qed.

Lemma docker_client_only {A} r (m : M derr St A) : keeps (only2 r) m → keeps (only2 r) (docker_client m).
Proof.
  intros Hm s o s'. unfold docker_client. destruct (m s) as [[a|[]] s1] eqn:Hs;
    intros [= <- <-]; exact (Hm _ _ _ Hs).
Qed.

#[local] Hint Resolve on_env_only on_db_only on_object_only read_only docker_client_only save_only : py.

Lemma handle_not_found_only r b : keeps (only2 r) (handle_not_found (D:=D) r b).
Proof. unfold handle_not_found. keep_rel. Qed.
#[local] Hint Resolve handle_not_found_only : py.

Lemma operation_only r body :
  (∀ cid, keeps (only2 r) (body cid)) → keeps (only2 r) (operation (D:=D) r body).
Proof.
  intros Hb. unfold operation, check_container_id, wrap_docker_error, the_id. keep_rel.
  destruct e; simplify_eq/=. keep_rel.
Qed.

Lemma try_any_only r (m k : M derr St unit) : keeps (only2 r) m → keeps (only2 r) k → keeps (only2 r) (try_any m k).
Proof. intros. unfold try_any. keep_rel. Qed.
#[local] Hint Resolve try_any_only : py.

(** Starting, stopping and the like keep the identity and the task of the
    container, and touch no other container. *)
Lemma start_only r : keeps (only2 r) (start (D:=D) r).
Proof. unfold start. apply operation_only. intros cid. keep_rel. Qed.
Lemma stop_only r t : keeps (only2 r) (stop (D:=D) r t).
Proof. unfold stop. apply operation_only. intros cid. keep_rel. Qed.
Lemma reboot_only r t : keeps (only2 r) (reboot (D:=D) r t).
Proof. unfold reboot. apply operation_only. intros cid. keep_rel. Qed.
Lemma pause_only r : keeps (only2 r) (pause (D:=D) r).
Proof. unfold pause. apply operation_only. intros cid. keep_rel. Qed.
Lemma unpause_only r : keeps (only2 r) (unpause (D:=D) r).
Proof. unfold unpause. apply operation_only. intros cid. keep_rel. Qed.
Lemma kill_only r sig : keeps (only2 r) (kill (D:=D) r sig).
Proof. unfold kill. apply operation_only. intros cid. cbv zeta. keep_rel. Qed.
Lemma show_only r : keeps (only2 r) (show (D:=D) r).
Proof.
  unfold show. apply docker_client_only. keep_rel.
  destruct e as [x| |]; simplify_eq/=. destruct (is_not_found x); simplify_eq/=; keep_rel.
Qed.
Lemma delete_only r force : keeps (only2 r) (delete (D:=D) r force).
Proof.
  unfold delete. apply docker_client_only. keep_rel.
  destruct e as [x| |]; simplify_eq/=. destruct (_ || _); simplify_eq/=; keep_rel.
Qed.
Lemma check_exist_only r : keeps (only2 r) (check_container_exist (D:=D) r).
Proof. unfold check_container_exist. keep_rel. apply docker_client_only. keep_rel. Qed.

Lemma run_driver_only {A} r (m : M derr St A) : keeps (only2 r) m → keeps (only2 r) (run_driver m).
Proof.
  intros Hm s o s'. unfold run_driver. destruct (m s) as [[a|e] s1] eqn:Hs;
    intros [= <- <-]; exact (Hm _ _ _ Hs).
Qed.
End Frames.

(** ** The two descriptions of a state agree

    The phases of Docker's life cycle, as [inspect] describes them (a container
    that is paused also has [Running]) and as [containers] names them. *)

Inductive phase : Type :=
| Created | Running | Paused | Restarting | Removing | Exited | Dead.

Definition phase_text (p : phase) : string :=
  match p with
  | Created => "created" | Running => "running" | Paused => "paused"
  | Restarting => "restarting" | Removing => "removing" | Exited => "exited" | Dead => "dead"
  end.

(** [fault]: the text ['Error'] is not empty. *)
Definition phase_dict (p : phase) (fault : bool) : state_dict :=
  let flags pa re ru de st fi :=
    mkStateDict fault pa re ru de (Some (phase_text p)) (Some st) (Some fi) in
  match p with
  | Created => flags false false false false YearOne YearOne
  | Running => flags false false true false Instant YearOne
  | Paused => flags true false true false Instant YearOne
  | Restarting => flags false true true false Instant Instant
  | Removing => flags false false false false Instant Instant
  | Exited => flags false false false false Instant Instant
  | Dead => flags false false false true Instant Instant
  end.

Definition unstarted (s : option ContainerStatus) : bool :=
  is_one_of s [CREATING; CREATED; RESTARTING; ERROR; REBUILDING].

(** The two code paths that read Docker's state, the dictionary of
    [inspect_container] and the text of [list_containers], give a container the
    same status in every phase, with one exception: a container Docker says it has
    not started, when the service believes it has been, becomes [Unknown] from the
    text and is left alone from the dictionary; a container that failed to start
    becomes [Created] from the dictionary.  Both leave a container with a task
    alone, unless forced. *)
Theorem list_inspect_agree p fault force c :
  (p = Created → fault = false ∧ unstarted (status c) = true) →
  _populate_container_state (StateDict (phase_dict p fault)) force c =
    _populate_container_state (StateText (phase_text p)) force c ∧
  (task_state c ≠ None → force = false →
   _populate_container_state (StateText (phase_text p)) force c = (Ok tt, c)) ∧
  (task_state c = None ∨ force = true →
   (_populate_container_state (StateText (phase_text p)) force c).1 = Ok tt).
Proof.
  intros Hc. unfold _populate_container_state. steps.
  destruct (bool_decide (task_state c ≠ None) && negb force) eqn:Hb.
  { apply andb_true_iff in Hb as [Ht%bool_decide_eq_true Hf%negb_true_iff].
    split_and!; [by destruct p|done|]. intros [?|?]; congruence. }
  assert (¬ (task_state c ≠ None ∧ force = false)) as Hn.
  { intros [Ht ->]. rewrite bool_decide_true in Hb by done. done. }
  split; [|split; [intros; tauto|]].
  - destruct p; try (by destruct fault).
    destruct (Hc eq_refl) as [-> Hu]. unfold unstarted in Hu.
    destruct (status c) as [[]|] eqn:Hs; try discriminate Hu;
      unfold populate_dict, populate_text; simpl; unfold bind, get; simpl; by rewrite !Hs.
  - intros _. destruct p; try done.
    destruct (Hc eq_refl) as [-> Hu]. unfold populate_text. simpl. unfold bind, get. simpl.
    destruct (status c) as [[]|]; try discriminate Hu; done.
Qed.

Lemma list_inspect_agree_witness :
  _populate_container_state (StateDict (phase_dict Paused true)) true inhabitant =
  _populate_container_state (StateText "paused") true inhabitant.
Proof. apply (list_inspect_agree Paused true true inhabitant). intros [=]. Defined.

(** The exception is real. *)
Example created_while_running :
  let c := set_status (Some RUNNING) inhabitant in
  status (_populate_container_state (StateText "created") false c).2 = Some UNKNOWN ∧
  status (_populate_container_state (StateDict (phase_dict Created false)) false c).2 = Some RUNNING.
Proof. done. Qed.

(** ** A container marked [Deleted] removes itself *)

Definition del_ok (c : container) : Prop := status c = Some DELETED → auto_remove c = Some true.

Definition marked_ok (st : Container.store) : Prop :=
  (∀ q, del_ok (obj st q)) ∧ ∀ u c, dget (rows st) u = Some c → del_ok c.

(** Docker has no state called "deleted". *)
Definition sane (st : docker_state) : Prop :=
  match st with
  | StateDict d => ∀ s, d_Status d = Some s → capitalized_status s ≠ Some DELETED
  | _ => True
  end.

Lemma put_status_del_ok st : st ≠ DELETED → preserves del_ok (put_status st).
Proof. intros Hst c Hc. simpl. intros [= ->]. done. Qed.

Lemma set_runtime_del_ok v : preserves (E:=derr) del_ok (modify (set_runtime v)).
Proof. apply preserves_modify. by intros []. Qed.
#[local] Hint Resolve put_status_del_ok set_runtime_del_ok : py.

Lemma populate_del_ok x force : sane (dc_state x) → preserves del_ok (_populate_container x force).
Proof.
  intros Hx. unfold _populate_container. apply preserves_bind; [|intros _; keep].
  unfold _populate_container_state. apply preserves_bind; [keep|]. intros c.
  destruct (_ && _); [keep|]. destruct (dc_state x) as [|d|[|a s]].
  - by apply put_status_del_ok.
  - unfold populate_dict, empty_detail. destruct (d_Error d); [|keep; by apply put_status_del_ok].
    apply preserves_bind; [|intros _; keep]. case_bool_decide; [by apply put_status_del_ok|].
    intros c1 H1. unfold of_option. destruct (d_Status d) as [s|] eqn:Hs; [|exact H1].
    rewrite bind_ret. destruct (capitalized_status s) as [st|] eqn:Hst; [|exact H1].
    refine (put_status_del_ok st _ c1 H1). intros ->. exact (Hx s Hs Hst).
  - by apply put_status_del_ok.
  - unfold populate_text. keep; by apply put_status_del_ok.
Qed.

Section Marked.
Context {D : Type} `{DockerEnv D}.
Abbreviation St := (D * Container.store)%type.
Implicit Types s : St.

Definition marked2 (s : St) : Prop := marked_ok s.2.

Lemma on_env_marked {A} (m : M derr D A) : preserves marked2 (on_env m).
Proof. intros s Hs. unfold on_env, zoom. destruct (m s.1) as [[a|e] d]; exact Hs. Qed.

Lemma on_db_marked {A} (m : M exn Container.store A) :
  preserves marked_ok m → preserves marked2 (on_db (D:=D) m).
Proof.
  intros Hm s Hs. unfold on_db, lift_exn, zoom. specialize (Hm s.2 Hs).
  destruct (m s.2) as [[a|e] st]; exact Hm.
Qed.

Lemma alter_marked r f st :
  marked_ok st → del_ok (f (obj st r)) →
  marked_ok (mkStore (alter f r (objects st)) (rows st)).
Proof.
  intros [Ho Hr] Hf. split; [|exact Hr]. intros q.
  destruct (decide (r < length (objects st))) as [Hl|Hl].
  - rewrite obj_alter_at by done. case_decide; [exact Hf|apply Ho].
  - rewrite alter_ge by lia. apply Ho.
Qed.

Lemma on_object_marked {A} r (m : on_container A) :
  preserves del_ok m → preserves marked2 (on_object (D:=D) r m).
Proof.
  intros Hm s Hs. unfold on_object. specialize (Hm (obj s.2 r) (proj1 Hs r)).
  destruct (m (obj s.2 r)) as [[a|e] c]; by apply alter_marked.
Qed.

Lemma save_marked r : preserves marked_ok (Container.save r).
Proof.
  intros st Hs. destruct (Container.save r st) as [[u|e] st'] eqn:H1.
  - apply save_Ok in H1 as [_ ->]. destruct Hs as [Ho Hr]. split; [exact Ho|].
    intros v c. simpl. rewrite dget_dset. case_decide; [intros [= <-]; apply Ho|apply Hr].
  - by apply save_Raise in H1 as ->.
Qed.

Lemma read_marked q : preserves marked_ok (Container.read q).
Proof. apply preserves_gets. Qed.
#[local] Hint Resolve on_env_marked on_db_marked on_object_marked save_marked read_marked : py.

Lemma docker_client_marked {A} (m : M derr St A) :
  preserves marked2 m → preserves marked2 (docker_client m).
Proof.
  intros Hm s Hs. unfold docker_client. specialize (Hm s Hs).
  destruct (m s) as [[a|[]] s1]; exact Hm.
Qed.

Lemma handle_not_found_marked r b : preserves marked2 (handle_not_found (D:=D) r b).
Proof.
  intros s Hs. unfold handle_not_found.
  assert (on_db (Container.read r) s = (Ok (obj s.2 r), s)) as Hrd by by destruct s.
  step Hrd. case_bool_decide; [exact Hs|]. unfold bind at 1.
  set (st := if bool_decide _ then DELETED else ERROR).
  assert (marked2 (on_object r (put_status st) s).2) as Hm.
  { apply alter_marked; [exact Hs|]. simpl. unfold st. case_bool_decide as Ha; [|by intros ?].
    intros _. by destruct (obj s.2 r). }
  destruct (on_object r (put_status st) s) as [[u|e] s1]; [|exact Hm].
  refine ((_ : preserves marked2 _) s1 Hm). keep.
Qed.
#[local] Hint Resolve docker_client_marked handle_not_found_marked : py.

Lemma operation_marked r body :
  (∀ cid, preserves marked2 (body cid)) → preserves marked2 (operation (D:=D) r body).
Proof.
  intros Hb. unfold operation, check_container_id, wrap_docker_error, the_id. keep.
  destruct e; simplify_eq/=. keep.
Qed.

Lemma try_any_marked (m k : M derr St unit) :
  preserves marked2 m → preserves marked2 k → preserves marked2 (try_any m k).
Proof. intros. unfold try_any. keep. by simplify_eq/=. Qed.
#[local] Hint Resolve try_any_marked : py.

(** The operations of the driver on one container. *)
Inductive driver_op : Type :=
| OpStart | OpStop (t : option Z) | OpReboot (t : option Z) | OpPause | OpUnpause
| OpKill (signal : option string) | OpShow | OpDelete (force : bool).

Definition run_driver_op (op : driver_op) (r : nat) : M derr St unit :=
  match op with
  | OpStart => start r
  | OpStop t => stop r t
  | OpReboot t => reboot r t
  | OpPause => pause r
  | OpUnpause => unpause r
  | OpKill sig => kill r sig
  | OpShow => show r
  | OpDelete force => delete r force
  end.

Lemma put_marked st r : st ≠ DELETED → preserves marked2 (on_object (D:=D) r (put_status st)).
Proof. intros. apply on_object_marked. by apply put_status_del_ok. Qed.

Lemma show_marked r :
  (∀ cid d x d', docker_inspect cid d = (Ok x, d') → sane (dc_state x)) →
  preserves marked2 (show (D:=D) r).
Proof.
  intros Hi. unfold show. apply docker_client_marked. apply preserves_bind; [keep|intros c].
  destruct (container_id c) as [cid|]; [|keep].
  eapply (hoare_bind _ _ _ (λ o s, marked2 s ∧ ∀ x, o = Some x → sane (dc_state x))).
  - intros s1 Hs. unfold try_except, bind at 1, on_env, zoom.
    destruct (docker_inspect _ s1.1) as [[x|e] d] eqn:Hx; simpl.
    + split; [exact Hs|]. intros ? [= <-]. by eapply Hi.
    + destruct e as [a'| |]; [|exact Hs..]. destruct (is_not_found a'); [|exact Hs].
      assert (marked2 (d, s1.2)) as H1 by exact Hs.
      unfold bind. specialize (handle_not_found_marked r true _ H1).
      destruct (handle_not_found r true (d, s1.2)) as [[u|e] s2]; [|done]. intros H2. by split.
  - intros [x|] s1 [H1 Hx]; [|exact H1].
    refine (on_object_marked r _ _ s1 H1). apply populate_del_ok. by apply Hx.
Qed.

Lemma delete_marked r force : preserves marked2 (delete (D:=D) r force).
Proof.
  unfold delete. apply docker_client_marked. keep.
  destruct e as [x| |]; simplify_eq/=. destruct (_ || _); simplify_eq/=; keep.
Qed.

(** Whatever Docker and the network answer, an operation that raises or not
    keeps this: an object or a row is marked [Deleted] only if its container is
    one that removes itself, so the periodic clean-up never deletes a container
    its owner did not ask to be removed. *)
Theorem deleted_needs_auto_remove op r s :
  (∀ cid d x d', docker_inspect cid d = (Ok x, d') → sane (dc_state x)) →
  marked_ok s.2 → marked_ok (run_driver_op op r s).2.2.
Proof.
  intros Hi Hs. assert (preserves marked2 (run_driver_op op r)) as Hp.
  { destruct op; simpl; [..|by apply show_marked|apply delete_marked];
      unfold start, stop, reboot, pause, unpause, kill; cbv zeta;
      apply operation_marked; intros cid;
      repeat match goal with
        | |- preserves _ (bind _ _) => apply preserves_bind; [|intros ?]
        | |- preserves _ (try_any _ _) => apply try_any_marked
        | |- preserves _ (on_object _ (put_status _)) => by apply put_marked
        | _ => solve [auto with py]
        end. }
  specialize (Hp s Hs). destruct (run_driver_op op r s) as [[u|e] s']; exact Hp.
Qed.
End Marked.

(** ** Starting a container *)

Section Start.
Context {D : Type} `{DockerEnv D}.
Abbreviation St := (D * Container.store)%type.

(** [st] with the object [r] replaced. *)
Definition with_object (r : nat) (c : container) (st : Container.store) : Container.store :=
  mkStore (alter (λ _, c) r (objects st)) (rows st).

Lemma on_object_put r st (s : St) :
  on_object r (put_status st) s =
  (Ok tt, (s.1, with_object r (set_status (Some st) (obj s.2 r)) s.2)).
Proof. done. Qed.

Lemma obj_with_object r c st : r < length (objects st) → obj (with_object r c st) r = c.
Proof. intros Hr. unfold with_object. rewrite obj_alter_at by done. by rewrite decide_True. Qed.

Lemma on_db_read r (s : St) : on_db (Container.read r) s = (Ok (obj s.2 r), s).
Proof. by destruct s. Qed.

Lemma on_env_run {A} (m : M derr D A) (s : St) : on_env m s = ((m s.1).1, ((m s.1).2, s.2)).
Proof. unfold on_env, zoom. by destruct (m s.1). Qed.

Lemma operation_body r body (s : St) cid :
  container_id (obj s.2 r) = Some cid →
  operation r body s = wrap_docker_error r (docker_client (body cid)) s.
Proof.
  intros Hc. unfold operation, check_container_id. step (on_db_read r s). rewrite Hc.
  unfold wrap_docker_error, try_except, the_id. unfold bind at 1 2. rewrite on_db_read. simpl.
  by rewrite Hc.
Qed.

Lemma with_object_twice r c c' st : with_object r c' (with_object r c st) = with_object r c' st.
Proof. unfold with_object. simpl. f_equal. apply list_alter_alter_eq. Qed.

(** The clean-up after a failed start, whatever it meets. *)
Lemma stop_quietly (c : container) cid (s : St) :
  ∃ d, try_any (on_env (docker_stop cid (Some 5%Z));;; on_env (on_container_stopped c)) (ret tt) s =
    (Ok tt, (d, s.2)).
Proof.
  unfold try_any, try_except. unfold bind. rewrite on_env_run.
  destruct (docker_stop cid (Some 5%Z) s.1) as [[[]|e] d]; simpl; [|by eexists].
  rewrite on_env_run. simpl. destruct (on_container_stopped c d) as [[[]|e] d1]; by eexists.
Qed.

Lemma handle_not_found_run r (s : St) :
  let c := obj s.2 r in
  let c' := set_status (Some (if bool_decide (auto_remove c = Some true) then DELETED else ERROR)) c in
  r < length (objects s.2) → saveable s.2 r → status c ≠ Some DELETING →
  handle_not_found r false s = (Raise (Exn (Zun Conflict)),
    (s.1, mkStore (objects (with_object r c' s.2)) (dset (rows s.2) (uuid c) c'))).
Proof.
  intros c c' Hr Hs Hd. unfold handle_not_found. step (on_db_read r s).
  rewrite bool_decide_eq_false_2 by done. step (on_object_put r
    (if bool_decide (auto_remove c = Some true) then DELETED else ERROR) s). fold c c'.
  assert (saveable (with_object r c' s.2) r) as Hs'.
  { destruct Hs as [Hrow Hcs]. unfold saveable. rewrite obj_with_object by done.
    fold c in Hrow, Hcs. unfold find_row, convert_cpuset in *. unfold c'. by destruct c. }
  unfold bind, on_db, lift_exn, zoom. simpl. rewrite (save_saveable _ _ Hs'). simpl.
  rewrite obj_with_object by done. done.
Qed.

(** What the network driver has to say about a container Docker started. *)
Definition network_ok (c : container) (d : D) : bool :=
  is_ok (on_container_started (set_status (Some RUNNING) c) d).1.

(** Starting a created container, for every answer of Docker and of the
    network.  Docker starts it: the call succeeds, nothing is written to the
    database, and the object is [Running], or [Stopped] when the network could not
    be set up.  Docker has lost it: the object and its row become [Error], or
    [Deleted] if it removes itself, and [Conflict] is raised.  Docker refuses:
    nothing changes and [Conflict] or [DockerError] is raised. *)
Theorem start_outcome r cid (s : St) :
  let c := obj s.2 r in
  r < length (objects s.2) → container_id c = Some cid → saveable s.2 r → status c ≠ Some DELETING →
  match docker_start cid s.1 with
  | (Ok _, d) =>
      let st := if network_ok c d then RUNNING else STOPPED in
      ∃ d', run_driver (start r) s = (Ok tt, (d', with_object r (set_status (Some st) c) s.2))
  | (Raise (APIError e), d) =>
      if is_not_found e then
        let st := if bool_decide (auto_remove c = Some true) then DELETED else ERROR in
        let c' := set_status (Some st) c in
        run_driver (start r) s = (Raise (Zun Conflict),
          (d, mkStore (objects (with_object r c' s.2)) (dset (rows s.2) (uuid c) c')))
      else run_driver (start r) s =
        (Raise (if is_conflict e then Zun Conflict else Zun DockerError), (d, s.2))
  | (Raise (DockerErr e), d) => True
  | (Raise (Exn x), d) => run_driver (start r) s = (Raise x, (d, s.2))
  end.
Proof.
  intros c Hr Hcid Hsave Hdel. unfold run_driver, start. rewrite (operation_body _ _ _ cid Hcid).
  pose proof (on_env_run (docker_start cid) s) as He.
  destruct (docker_start cid s.1) as [[[]|[e|e|x]] d] eqn:Hd; try done;
    cbn [fst snd] in He; unfold wrap_docker_error, try_except, docker_client; step He;
    cbv beta iota zeta; [| |done].
  - step (on_object_put r RUNNING (d, s.2)). cbn [fst snd]. fold c.
    step (on_db_read r (d, with_object r (set_status (Some RUNNING) c) s.2)). cbn [fst snd].
    rewrite obj_with_object by done.
    unfold try_any at 1, try_except at 1. rewrite on_env_run. cbn [fst snd]. unfold network_ok.
    destruct (on_container_started _ d) as [[[]|e] d1]; cbn [fst snd is_ok]; [by eexists|].
    set (st1 := with_object r _ s.2).
    destruct (stop_quietly (set_status (Some RUNNING) c) cid (d1, st1)) as [d2 Hq]. step Hq.
    rewrite on_object_put. exists d2. simpl snd. unfold st1.
    rewrite obj_with_object, with_object_twice by done. by destruct c.
  - destruct (is_not_found e).
    + pose proof (handle_not_found_run r (d, s.2) Hr Hsave Hdel) as Hh. by step Hh.
    + rewrite bind_ret. by destruct (is_conflict e).
Qed.
End Start.

(** *** Example: a Docker that starts anything, a network that fails. *)

#[export] Instance demo_docker : DockerEnv unit := {|
  docker_start := λ _, ret tt; docker_stop := λ _ _, ret tt; docker_restart := λ _ _, ret tt;
  docker_pause := λ _, ret tt; docker_unpause := λ _, ret tt; docker_kill := λ _ _, ret tt;
  docker_remove := λ _ _, ret tt;
  docker_inspect := λ cid, ret (mkDocker cid "/zun-c1" (StateDict (phase_dict Exited true)) None);
  docker_list := ret [];
  on_container_started := λ _, raise (Exn (Zun PortNotFound));
  on_container_stopped := λ _, ret tt;
  cleanup_network := λ _, ret tt; cleanup_exposed_ports := λ _, ret tt;
  record_action_start := λ _, ret tt
|}.

Definition demo_created : container :=
  Container.mkContainer "c1" TYPE_CONTAINER (Some "web") (Some "d1") (Some CREATED) None None
    None None None None None None None [] None None None None None None [].
Definition demo_store : Container.store := mkStore [demo_created] [("c1", demo_created)].

Lemma start_outcome_witness :
  run_driver (start 0) ((), demo_store) =
    (Ok tt, ((), with_object 0 (set_status (Some STOPPED) demo_created) demo_store)).
Proof.
  destruct (start_outcome 0 "d1" ((), demo_store)) as [[] Hd].
  - simpl. lia.
  - reflexivity.
  - split; [by eexists|reflexivity].
  - discriminate.
  - exact Hd.
Defined.

Lemma deleted_needs_auto_remove_witness :
  marked_ok demo_store ∧ marked_ok (run_driver_op OpShow 0 ((), demo_store)).2.2.
Proof.
  assert (marked_ok demo_store) as Hm.
  { split.
    - intros [|q]; unfold del_ok; [by intros [=]|]. unfold obj, demo_store. simpl.
      destruct q; by intros [=].
    - intros u c Hd. simpl in Hd. case_decide; [|done]. injection Hd as <-. by intros [=]. }
  split; [exact Hm|].
  apply (deleted_needs_auto_remove OpShow 0 ((), demo_store)); [|exact Hm].
  intros cid d x d' [= <- _] s [= <-]. vm_compute. discriminate.
Defined.
