(* ===== verification/Volumes.v ===== *)
(** * The compute manager: state, decorators, volumes (src/zun/compute/manager.py)

    The state of the manager is the state of its resource tracker ([NodeTracker]),
    whose store holds the container objects, the state [D] of the container and
    volume drivers and of the clock, the volume mappings, the queue of tasks and
    the log of events and actions.

    This file has that state, the interface of the drivers, the decorators of the
    operations (src/zun/common/utils.py), and the part of the manager that attaches
    and detaches volumes and marks a container as failed.  The operations
    themselves are in [Manager]. *)

From Stdlib Require Import QArith.
From S2P Require Import Prelude Exceptions PyStr PciStats Numa Container.
From S2P Require Import PciTracker ComputeNode Driver Claims NodeTracker.

(** objects.VolumeMapping; [vm_connected] is the truth of [connection_info] as the
    object last read it. *)
Record volmap : Type := mkVolmap {
  vm_uuid : string;
  vm_volume : string;
  vm_cinder : string;
  vm_auto_remove : bool;
  vm_container : option string;
  vm_host : option string;
  vm_connected : bool
}.

#[export] Instance volmap_inhabited : Inhabited volmap :=
  populate (mkVolmap "" "" "" false None None false).

(** The volume mapping objects, their rows, and the volumes whose row has
    connection information. *)
Record volumes : Type := mkVolumes {
  vm_objects : list volmap;
  vm_rows : list volmap;
  vm_connections : gset string
}.

(** The image a driver pulled. *)
Record image : Type := mkImage {
  i_driver : option string;
  i_path : string;
  i_repo : string;
  i_tag : string
}.

(** Events and actions ([utils.EventReporter], [utils.FinishAction]). *)
Inductive event : Type :=
| EventStart (u name : string)
| EventFinish (u name : string) (ok : bool)
| ActionFinish (u name : string) (ok : bool).

(** A requested network: its id, a port on it, what is known of the network, and
    whether the port is to be kept.  The fixed address of a request is left out. *)
Record net_info : Type := mkNetInfo {
  ni_network : string;
  ni_port : option string;
  ni_external : option bool;
  ni_shared : option bool;
  ni_preserve_on_delete : option bool
}.
Abbreviation networks := (list net_info).
Abbreviation requested_volumes := (dict string (list nat)).

(** The fields of an update; [None] is a missing key. *)
Record patch : Type := mkPatch {
  p_cpu : option (option Qc);
  p_memory : option (option string);
  p_name : option (option string);
  p_auto_heal : option (option bool)
}.

(** What [spawn_n] runs. *)
Inductive task : Type :=
| TCreate (lims : option limits) (nets : networks) (vols : requested_volumes) (r : nat)
    (run : bool) (pci_requests : option (list request))
| TDelete (r : nat) (force : bool)
| TStart (r : nat)
| TStop (r : nat) (timeout : option Z)
| TReboot (r : nat) (timeout : option Z)
| TPause (r : nat)
| TUnpause (r : nat)
| TKill (r : nat) (signal : option string)
| TRebuild (r : nat) (run : bool)
| TAddSecurityGroup (r : nat) (group : string)
| TRemoveSecurityGroup (r : nat) (group : string)
| TNetworkAttach (r : nat) (net : string)
| TNetworkDetach (r : nat) (net : string)
| TUpdate (r : nat) (p : patch)
| TCommit (r : nat) (snapshot : option string) (repository : string) (tag : option string).

Record mgr (P D : Type) : Type := mkMgr {
  m_rt : rt P;
  m_drivers : D;
  m_volumes : volumes;
  m_tasks : list task;
  m_events : list event
}.
#[global] Arguments mkMgr {P D}.
#[global] Arguments m_rt {P D}.
#[global] Arguments m_drivers {P D}.
#[global] Arguments m_volumes {P D}.
#[global] Arguments m_tasks {P D}.
#[global] Arguments m_events {P D}.

(** The container driver, the capsule driver and the volume drivers.  An
    operation on a container runs on the store of containers too. *)
Class ComputeDriver (D : Type) : Type := {
  drv_start : nat → py (D * store) unit;
  drv_stop : nat → option Z → py (D * store) unit;
  drv_reboot : nat → option Z → py (D * store) unit;
  drv_pause : nat → py (D * store) unit;
  drv_unpause : nat → py (D * store) unit;
  drv_kill : nat → option string → py (D * store) unit;
  drv_show : nat → py (D * store) unit;
  drv_update : nat → py (D * store) unit;
  drv_delete : nat → bool → py (D * store) unit;
  drv_delete_capsule : nat → bool → py (D * store) unit;
  drv_create : nat → image → networks → requested_volumes → py (D * store) unit;
  drv_create_capsule : nat → image → networks → requested_volumes → py (D * store) unit;
  drv_check_container_exist : nat → py (D * store) bool;
  drv_get_neutron_port : option string → py D unit;
  drv_get_neutron_network : string → py D (option bool * option bool);   (** external, shared *)
  drv_network_attach : nat → string → py (D * store) unit;
  drv_network_detach : nat → string → py (D * store) unit;
  drv_add_security_group : nat → string → py (D * store) unit;
  drv_remove_security_group : nat → string → py (D * store) unit;
  drv_parse_image_name : nat → py (D * store) (string * string);
  drv_pull_image : nat → string → string → py (D * store) (image * bool);
  drv_load_image : string → py D unit;
  drv_read_tar_image : image → py D unit;
  drv_commit : nat → string → string → py (D * store) string;
  drv_create_image : string → py D string;                (** its id *)
  drv_get_image : string → py D unit;
  drv_upload_image_data : option string → string → py D unit;
  drv_delete_committed_image : string → py D unit;
  drv_delete_image : string → py D unit;
  drv_list : py (D * store) (list (string * option ContainerStatus));  (** uuid, status *)
  base_device_size : D → option Qc;         (** [get_host_default_base_size] *)
  support_disk_quota : D → bool;
  vol_attach : volmap → py D bool;          (** whether connection information is stored *)
  vol_detach : volmap → py D unit;
  vol_delete : volmap → py D unit;
  vol_is_available : volmap → py D (bool * bool);
  vol_is_deleted : volmap → py D (bool * bool);
  clock : py D Z;
  sleep : Z → py D unit
}.

(** [delete_allocation_for_container] of the placement client *)
Class AllocationClient (P : Type) : Type := {
  delete_allocation_for_container : string → py P unit
}.

(** The options, in ticks of the clock where they are times. *)
Record manager_conf : Type := mkManagerConf {
  timeout_wait_volume_available : Z;
  timeout_wait_volume_deleted : Z;
  poll_interval : Z;
  default_disk : Z;
  default_timeout : option Z;
  remount_container_volume : bool;
  resume_container_state : bool
}.

Section Volumes.
Context {P D : Type} `{ReportClient P} `{AllocationClient P} `{ComputeDriver D} `{DevFilter}.
Context (sample : list Z → nat → list Z) (cfg : settings) (conf : manager_conf).
(** [capsule.init_containers] and [capsule.containers]; fuel of the waiting loops *)
Context (members : nat → list nat) (fuel : nat).

Abbreviation MS := (mgr P D).
Implicit Types s : MS.

(** ** Access to the parts of the state *)

Definition set_m_rt (t : rt P) s : MS :=
  mkMgr t (m_drivers s) (m_volumes s) (m_tasks s) (m_events s).
Definition set_m_volumes (v : volumes) s : MS :=
  mkMgr (m_rt s) (m_drivers s) v (m_tasks s) (m_events s).
Definition set_m_tasks (l : list task) s : MS :=
  mkMgr (m_rt s) (m_drivers s) (m_volumes s) l (m_events s).
Definition set_m_events (l : list event) s : MS :=
  mkMgr (m_rt s) (m_drivers s) (m_volumes s) (m_tasks s) l.

Definition on_rt {A} (m : py (rt P) A) : py MS A := zoom m_rt set_m_rt m.
Definition on_store {A} (m : py store A) : py MS A := on_rt (on_containers m).
Definition on_drivers {A} (m : py D A) : py MS A :=
  zoom m_drivers (λ d s, mkMgr (m_rt s) d (m_volumes s) (m_tasks s) (m_events s)) m.
(** A driver operation on a container. *)
Definition on_driver_store {A} (m : py (D * store) A) : py MS A :=
  zoom (λ s, (m_drivers s, containers (m_rt s)))
    (λ ds s, mkMgr (set_containers ds.2 (m_rt s)) ds.1 (m_volumes s) (m_tasks s) (m_events s)) m.
Definition on_volumes {A} (m : py volumes A) : py MS A := zoom m_volumes set_m_volumes m.

Definition the (r : nat) : py MS container := on_store (Container.read r).
Definition mut (r : nat) (f : container → container) : py MS unit := on_store (Container.mutate r f).
Definition save_c (r : nat) : py MS unit := on_store (Container.save r).
Definition spawn_n (t : task) : py MS unit :=
  modify (λ s, set_m_tasks (m_tasks s ++ [t]) s).
Definition log (e : event) : py MS unit := modify (λ s, set_m_events (m_events s ++ [e]) s).

(** What an [except Exception] clause catches: running out of the model's fuel is
    not an exception of the program. *)
Definition caught (e : exn) : bool := match e with OutOfFuel => false | _ => true end.
Definition except_any {A} (m : py MS A) (handler : exn → py MS A) : py MS A :=
  try_except m (λ e, if caught e then Some (handler e) else None).

(** [except Exception: with excutils.save_and_reraise_exception(reraise): handler] *)
Definition on_error {A} (m : py MS A) (handler : py MS unit) : py MS A :=
  except_any m (λ e, handler;;; raise e).
Definition on_error_unless (reraise : bool) (m handler : py MS unit) : py MS unit :=
  except_any m (λ e, handler;;; if reraise then raise e else ret tt).
Definition swallow (m : py MS unit) : py MS unit := except_any m (λ _, ret tt).

(** ** Decorators (src/zun/common/utils.py) *)

(** The finishing event is logged whatever the outcome ([__exit__]). *)
Definition reporting {A} (e : bool → event) (m : py MS A) : py MS A :=
  λ s, match m s with (o, s') => (o, (log (e (is_ok o)) s').2) end.
Definition event_reporter {A} (u name : string) (m : py MS A) : py MS A :=
  log (EventStart u name);;; reporting (EventFinish u name) m.
Definition finish_action {A} (u name : string) (m : py MS A) : py MS A :=
  reporting (ActionFinish u name) m.

Definition wrap_container_event {A} (name : string) (finish : option string) (r : nat)
    (function : py MS A) : py MS A :=
  let! c := the r in
  match finish with
  | Some action => finish_action (Container.uuid c) action (event_reporter (Container.uuid c) name function)
  | None => event_reporter (Container.uuid c) name function
  end.

(** No exception leaves the function; it then returns [None]. *)
Definition wrap_exception (function : py MS unit) : py MS unit := swallow function.

Definition translate_exception {A} (function : py MS A) : py MS A :=
  except_any function (λ e,
    raise (if isinstance e ZunException then e else Zun ZunException)).

(** [with self._update_task_state(context, container, task_state): body] *)
Definition _update_task_state {A} (r : nat) (ts : TaskState) (body : py MS A) : py MS A :=
  let! c := the r in
  if bool_decide (task_state c ≠ None) then body else
  mut r (set_task_state (Some ts));;;
  save_c r;;;
  try_finally body (mut r (set_task_state None);;; save_c r).

(** ** Volumes *)

Definition vm (v : nat) : py MS volmap :=
  gets (λ s, vm_objects (m_volumes s) !!! v).
Definition alter_vm (v : nat) (f : volmap → volmap) : py MS unit :=
  on_volumes (modify (λ x, mkVolumes (alter f v (vm_objects x)) (vm_rows x) (vm_connections x))).

(** [itertools.chain.from_iterable(requested_volumes.values())] *)
Definition all_volmaps (vols : requested_volumes) : list nat := concat (dvalues vols).

(** The mappings of a container, and of a volume. *)
Definition list_by_container (u : string) : py MS (list volmap) :=
  gets (λ s, List.filter (λ v, bool_decide (vm_container v = Some u)) (vm_rows (m_volumes s))).
Definition list_by_cinder_volume (cid : string) : py MS (list volmap) :=
  gets (λ s, List.filter (λ v, bool_decide (vm_cinder v = cid)) (vm_rows (m_volumes s))).
Definition count_by_volume (vid : string) : py MS nat :=
  gets (λ s, length (List.filter (λ v, bool_decide (vm_volume v = vid)) (vm_rows (m_volumes s)))).

(** [create] and [destroy] of a mapping *)
Definition create_volmap (v : volmap) : py MS unit :=
  on_volumes (
    let! x := get in
    raise_if (existsb (λ w, bool_decide (vm_uuid w = vm_uuid v)) (vm_rows x))
      (Zun VolumeMappingAlreadyExists);;;
    modify (λ x, mkVolumes (vm_objects x) (vm_rows x ++ [v]) (vm_connections x))).
Definition destroy_volmap (v : volmap) : py MS unit :=
  on_volumes (
    let! x := get in
    raise_if (negb (existsb (λ w, bool_decide (vm_uuid w = vm_uuid v)) (vm_rows x)))
      (Zun VolumeMappingNotFound);;;
    let left := List.filter (λ w, bool_decide (vm_uuid w ≠ vm_uuid v)) (vm_rows x) in
    modify (λ x, mkVolumes (vm_objects x) left
      (if existsb (λ w, bool_decide (vm_volume w = vm_volume v)) left then vm_connections x
       else vm_connections x ∖ {[ vm_volume v ]}))).

Definition record_connection (vid : string) : py MS unit :=
  on_volumes (modify (λ x, mkVolumes (vm_objects x) (vm_rows x) ({[ vid ]} ∪ vm_connections x))).

Definition set_owner (u : string) (h : string) (v : volmap) : volmap :=
  mkVolmap (vm_uuid v) (vm_volume v) (vm_cinder v) (vm_auto_remove v) (Some u) (Some h) (vm_connected v).
Definition set_connected (b : bool) (v : volmap) : volmap :=
  mkVolmap (vm_uuid v) (vm_volume v) (vm_cinder v) (vm_auto_remove v) (vm_container v) (vm_host v) b.

Definition _attach_volume (v : nat) : py MS unit :=
  let! x := vm v in
  let! stored := on_error (on_drivers (vol_attach x))
    ((if vm_auto_remove x then swallow (on_drivers (vol_delete x)) else ret tt);;;
     destroy_volmap x) in
  if stored : bool then record_connection (vm_volume x);;; alter_vm v (set_connected true)
  else ret tt.

(** The other mappings of the volume read it again. *)
Definition _refresh_attached_volumes (vols : requested_volumes) (attached : nat) : py MS unit :=
  let! a := vm attached in
  for_each (λ v,
    let! x := vm v in
    if bool_decide (vm_volume x ≠ vm_volume a) || bool_decide (vm_uuid x = vm_uuid a) then ret tt
    else let! conn := gets (λ s, bool_decide (vm_volume x ∈ vm_connections (m_volumes s))) in
         alter_vm v (set_connected conn)) (all_volmaps vols).

Definition _detach_volume (v : volmap) (reraise : bool) : py MS unit :=
  let! n := count_by_volume (vm_volume v) in
  (if bool_decide (n = 1) then on_error_unless reraise (on_drivers (vol_detach v)) (ret tt)
   else ret tt);;;
  destroy_volmap v.

(** *** Waiting

    [time.time() - start_time < timeout], with [next] on the mappings left: the
    loop ends when they are used up ([StopIteration]), on an error, or at the
    time out. *)

Inductive waited : Type := AllReady | GaveUp.

Fixpoint wait_available (n : nat) (start timeout : Z) (v : nat) (rest : list nat)
    : py MS waited :=
  match n with
  | O => raise OutOfFuel
  | S n =>
      let! t := on_drivers clock in
      if (t - start <? timeout)%Z then
        let! x := vm v in
        let! '(is_available, is_error) := on_drivers (vol_is_available x) in
        match (if is_available : bool then rest else v :: rest) with
        | [] => ret AllReady
        | v :: rest =>
            if is_error : bool then ret GaveUp else
            on_drivers (sleep (poll_interval conf));;;
            wait_available n start timeout v rest
        end
      else ret GaveUp
  end.

(** The mappings waited for are all [auto_remove]. *)
Fixpoint wait_deleted (n : nat) (start timeout : Z) (v : volmap) (rest : list volmap)
    : py MS waited :=
  match n with
  | O => raise OutOfFuel
  | S n =>
      let! t := on_drivers clock in
      if (t - start <? timeout)%Z then
        match (if vm_auto_remove v then v :: rest else rest) with
        | [] => ret AllReady
        | v :: rest =>
            let! '(is_deleted, is_error) := on_drivers (vol_is_deleted v) in
            match (if is_deleted : bool then rest else v :: rest) with
            | [] => ret AllReady
            | v :: rest =>
                if is_error : bool then ret GaveUp else
                on_drivers (sleep (poll_interval conf));;;
                wait_deleted n start timeout v rest
            end
        end
      else ret GaveUp
  end.

Definition wait_for_deleted (l : list volmap) : py MS waited :=
  let! start := on_drivers clock in
  match l with
  | [] => ret AllReady
  | v :: l' => wait_deleted fuel start (timeout_wait_volume_deleted conf) v l'
  end.

(** ** Failing, and detaching the volumes

    [_detach_volumes] of a container may fail it ([_fail_container]), which detaches
    its volumes again; [n] bounds the depth. *)

Definition fail_with (detach : py MS unit) (r : nat) (unset_host : bool) : py MS unit :=
  swallow detach;;;
  mut r (set_status (Some ERROR));;;
  (if unset_host then mut r (set_host None) else ret tt);;;
  save_c r.

(** The loop of [_detach_volumes]; it returns the mappings whose volume is deleted. *)
Fixpoint detach_each (volmaps : list volmap) (reraise : bool) : py MS (list volmap) :=
  match volmaps with
  | [] => ret []
  | v :: volmaps' =>
      let! db_volmaps := list_by_cinder_volume (vm_cinder v) in
      _detach_volume v reraise;;;
      if vm_auto_remove v && bool_decide (length db_volmaps = 1) then
        on_drivers (vol_delete v);;;
        let! l := detach_each volmaps' reraise in ret (v :: l)
      else detach_each volmaps' reraise
  end.

Fixpoint detach_volumes (n : nat) (r : nat) (reraise : bool) : py MS unit :=
  match n with
  | O => raise OutOfFuel
  | S n =>
      let! c := the r in
      if bool_decide (ctype c = TYPE_CAPSULE) then
        for_each (λ m, detach_volumes n m reraise) (members r)
      else
        let! volmaps := list_by_container (Container.uuid c) in
        let! auto_remove_volmaps := detach_each volmaps reraise in
        let! w := wait_for_deleted auto_remove_volmaps in
        match w with
        | AllReady => ret tt
        | GaveUp => fail_with (detach_volumes n r true) r true;;; raise (Zun Conflict)
        end
  end.

(** A capsule, its member, the failed member again. *)
Definition depth : nat := 3.
Definition _detach_volumes (r : nat) (reraise : bool) : py MS unit := detach_volumes depth r reraise.
Definition _fail_container (r : nat) (unset_host : bool) : py MS unit :=
  fail_with (_detach_volumes r true) r unset_host.

Definition _wait_for_volumes_available (vols : requested_volumes) (r : nat) : py MS unit :=
  let! start := on_drivers clock in
  let! w :=
    match all_volmaps vols with
    | [] => ret AllReady
    | v :: rest => wait_available fuel start (timeout_wait_volume_available conf) v rest
    end in
  match w with
  | AllReady => ret tt
  | GaveUp =>
      for_each (λ v,
        let! x := vm v in
        if vm_auto_remove x then swallow (on_drivers (vol_delete x)) else ret tt)
        (all_volmaps vols);;;
      _fail_container r true;;;
      raise (Zun Conflict)
  end.

(** [not container.disk]; [math.ceil] *)
Definition no_disk (c : container) : bool := bool_decide (default 0%Z (disk c) = 0%Z).
Definition ceil (q : Qc) : Z :=
  (- ((- QArith_base.Qnum (Qcanon.this q)) `div` Zpos (QArith_base.Qden (Qcanon.this q))))%Z.

Definition refuse (r : nat) (e : zun_class) : py MS unit := _fail_container r true;;; raise (Zun e).

Definition _check_support_disk_quota (r : nat) : py MS unit :=
  let! c := the r in
  let! d := gets m_drivers in
  let quota_check : py MS unit :=
    if support_disk_quota d then
      if no_disk c then mut r (set_disk (Some (default_disk conf))) else ret tt
    else if no_disk c then ret tt else refuse r Invalid in
  match base_device_size d with
  | None => quota_check
  | Some size =>
      if bool_decide (size = 0%Qc) then quota_check
      else if no_disk c then
        mut r (set_disk (Some (Z.max (ceil size) (default_disk conf))))
      else if bool_decide (Qc_of_Z (default 0%Z (disk c)) < size)%Qc then refuse r Invalid
      else quota_check
  end.

(** [_attach_volumes] of a container that is not a capsule. *)
Definition attach_own_volumes (r : nat) (vols : requested_volumes) : py MS unit :=
  let! c := the r in
  on_error
    (for_each (λ v,
       alter_vm v (set_owner (Container.uuid c) (NodeTracker.host cfg));;;
       let! x := vm v in
       create_volmap x;;;
       if vm_connected x && bool_decide (ctype c = TYPE_CAPSULE_CONTAINER ∨
                                          ctype c = TYPE_CAPSULE_INIT_CONTAINER)
       then ret tt
       else _attach_volume v;;; _refresh_attached_volumes vols v)
       (default [] (dget vols (Container.uuid c))))
    (_fail_container r true).

(** The members of a capsule are not capsules. *)
Definition _attach_volumes (r : nat) (vols : requested_volumes) : py MS unit :=
  let! c := the r in
  if bool_decide (ctype c = TYPE_CAPSULE) then for_each (λ m, attach_own_volumes m vols) (members r)
  else attach_own_volumes r vols.
End Volumes.

(** ** Everything but the fuel: computations that end *)

Definition ends {S A} (m : py S A) : Prop := ∀ s, (m s).1 ≠ Raise OutOfFuel.

Section Ends.
Context {S : Type}.

Lemma ends_ret {A} (a : A) : ends (S:=S) (ret a).
Proof. by intros s. Qed.
Lemma ends_raise {A} e : e ≠ OutOfFuel → ends (S:=S) (A:=A) (raise e).
Proof. intros He s [= ?]. done. Qed.
Lemma ends_get : ends (S:=S) get.
Proof. by intros s. Qed.
Lemma ends_gets {A} (f : S → A) : ends (gets f).
Proof. by intros s. Qed.
Lemma ends_modify (f : S → S) : ends (modify f).
Proof. by intros s. Qed.
Lemma ends_raise_if b e : e ≠ OutOfFuel → ends (S:=S) (raise_if b e).
Proof. intros He. destruct b; [by apply ends_raise|apply ends_ret]. Qed.
Lemma ends_of_option {A} (o : option A) e : e ≠ OutOfFuel → ends (S:=S) (of_option o e).
Proof. intros He. destruct o; [apply ends_ret|by apply ends_raise]. Qed.
Lemma ends_bind {A B} (m : py S A) (f : A → py S B) :
  ends m → (∀ a, ends (f a)) → ends (bind m f).
Proof.
  intros Hm Hf s. unfold bind. specialize (Hm s). destruct (m s) as [[a|e] s1]; [apply Hf|].
  simpl in *. congruence.
Qed.
Lemma ends_except_any {A} (m : py S A) h : ends m → (∀ e, e ≠ OutOfFuel → ends (h e)) →
  ends (try_except m (λ e, if caught e then Some (h e) else None)).
Proof.
  intros Hm Hh s. unfold try_except. specialize (Hm s).
  destruct (m s) as [[a|e] s1]; [done|]. destruct (caught e) eqn:He; [apply Hh; by intros ->|done].
Qed.
Lemma ends_for_each {X} (f : X → py S unit) xs : (∀ x, ends (f x)) → ends (for_each f xs).
Proof. intros Hf. induction xs; [apply ends_ret|]. by apply ends_bind. Qed.
Lemma ends_zoom {T A} (prj : S → T) inj (m : py T A) : ends m → ends (zoom prj inj m).
Proof. intros Hm s. unfold zoom. specialize (Hm (prj s)). by destruct (m (prj s)). Qed.
End Ends.

#[export] Hint Resolve ends_ret ends_get ends_gets ends_modify : py.
#[export] Hint Extern 1 (_ ≠ OutOfFuel) => discriminate : py.

Ltac ends_tac :=
  repeat first
    [ solve [auto 3 with py nocore]
    | progress intros
    | apply ends_bind | apply ends_zoom | apply ends_for_each
    | apply ends_raise | apply ends_raise_if | apply ends_of_option | apply ends_except_any
    | match goal with
      | |- ends (if ?b then _ else _) => destruct b
      | |- ends (match ?b with _ => _ end) => destruct b
      end ].

Lemma save_ends r : ends (Container.save r).
Proof. unfold Container.save, Container.read, convert_cpuset, cpuset_to_dict, getattr. ends_tac. Qed.
#[export] Hint Resolve save_ends : py.

(** ** What the volume drivers and the clock promise *)

Class VolumeLaws {D : Type} `{ComputeDriver D} (now : D → Z) (poll : Z) : Prop := {
  poll_positive : (0 < poll)%Z;
  clock_now d : clock d = (Ok (now d), d);
  sleep_ends d : (sleep poll d).1 ≠ Raise OutOfFuel;
  sleep_advances d : (now d + poll <= now (sleep poll d).2)%Z;
  attach_ends v : ends (vol_attach v);
  detach_ends v : ends (vol_detach v);
  delete_ends v : ends (vol_delete v);
  available_ends v : ends (vol_is_available v);
  available_now v d : (now d <= now (vol_is_available v d).2)%Z;
  deleted_ends v : ends (vol_is_deleted v);
  deleted_now v d : (now d <= now (vol_is_deleted v d).2)%Z
}.

#[export] Hint Extern 1 (ends (vol_attach _)) => eapply attach_ends : py.
#[export] Hint Extern 1 (ends (vol_detach _)) => eapply detach_ends : py.
#[export] Hint Extern 1 (ends (vol_delete _)) => eapply delete_ends : py.

(** A relation on the stores of containers, as one on the states of the manager. *)
Definition on_stores {P D} (R : relation store) : relation (mgr P D) :=
  λ s s', R (containers (m_rt s)) (containers (m_rt s')).

#[export] Instance on_stores_preorder {P D} (R : relation store) `{!PreOrder R} :
  PreOrder (on_stores (P:=P) (D:=D) R).
Proof. split; [by intros s; red|]. intros s1 s2 s3 H1 H2. unfold on_stores in *. by etrans. Qed.

(** The objects keep their classes. *)
Definition same_types (st st' : store) : Prop := ∀ q, ctype (obj st' q) = ctype (obj st q).
#[export] Instance same_types_preorder : PreOrder same_types.
Proof. split; [by intros st q|]. intros s1 s2 s3 H1 H2 q. by rewrite (H2 q). Qed.

Lemma only_same_types r st st' : only r st st' → same_types st st'.
Proof.
  intros Ho q. destruct (decide (q = r)) as [->|Hq]; [apply (only_ctype _ _ _ Ho)|].
  by rewrite (only_objects _ _ _ Ho q Hq).
Qed.

(** The state of the tracker, or everything but the drivers, is left alone. *)
Definition same_rt {P D} : relation (mgr P D) := λ s s', m_rt s' = m_rt s.
Definition drivers_only {P D} : relation (mgr P D) := λ s s',
  m_rt s' = m_rt s ∧ m_volumes s' = m_volumes s.
#[export] Instance same_rt_preorder {P D} : PreOrder (same_rt (P:=P) (D:=D)).
Proof. split; [by intros s|]. intros s1 s2 s3 H1 H2. red in H1, H2 |- *. congruence. Qed.
#[export] Instance drivers_only_preorder {P D} : PreOrder (drivers_only (P:=P) (D:=D)).
Proof.
  split; [by intros s|]. intros s1 s2 s3 [H1 H1'] [H2 H2']. split; congruence.
Qed.

Section Frames.
Context {P D : Type}.
Abbreviation MS := (mgr P D).

Lemma on_store_frame {A} R (m : py store A) : keeps R m → keeps (on_stores (P:=P) (D:=D) R) (on_store m).
Proof.
  intros Hm s o s'. unfold on_store, on_rt, on_containers, zoom.
  destruct (m (containers (m_rt s))) as [o1 st] eqn:Hs. intros [= <- <-]. exact (Hm _ _ _ Hs).
Qed.
Lemma on_driver_store_frame {A} R (m : py (D * store) A) :
  keeps (λ x y, R x.2 y.2) m → keeps (on_stores (P:=P) R) (on_driver_store m).
Proof.
  intros Hm s o s'. unfold on_driver_store, zoom.
  destruct (m _) as [o1 ds] eqn:Hs. intros [= <- <-]. exact (Hm _ _ _ Hs).
Qed.
Lemma on_drivers_frame {A} (m : py D A) : keeps (drivers_only (P:=P)) (on_drivers m).
Proof. intros s o s'. unfold on_drivers, zoom. destruct (m _). by intros [= <- <-]. Qed.
Lemma on_drivers_rt {A} (m : py D A) : keeps (same_rt (P:=P)) (on_drivers m).
Proof. intros s o s' Hs. apply (on_drivers_frame _ _ _ _ Hs). Qed.
Lemma on_volumes_rt {A} (m : py volumes A) : keeps (same_rt (P:=P) (D:=D)) (on_volumes m).
Proof. intros s o s'. unfold on_volumes, zoom. destruct (m _). by intros [= <- <-]. Qed.
Lemma same_rt_stores R `{!PreOrder R} {A} (m : py MS A) : keeps same_rt m → keeps (on_stores R) m.
Proof. intros Hm s o s' Hs. red. rewrite (Hm _ _ _ Hs). reflexivity. Qed.
Lemma drivers_only_rt {A} (m : py MS A) : keeps drivers_only m → keeps same_rt m.
Proof. intros Hm s o s' Hs. apply (Hm _ _ _ Hs). Qed.
Lemma the_same r : keeps (drivers_only (P:=P) (D:=D)) (the r).
Proof. intros [[] d v t e] o s'. by intros [= <- <-]. Qed.

Lemma keeps_except_any {A} R `{!PreOrder R} (m : py MS A) h :
  keeps R m → (∀ e, keeps R (h e)) → keeps R (except_any m h).
Proof.
  intros Hm Hh. apply keeps_try_except; [apply _|done|]. intros e k Hk.
  destruct (caught e); by simplify_eq.
Qed.
Lemma keeps_on_error {A} R `{!PreOrder R} (m : py MS A) h :
  keeps R m → keeps R h → keeps R (on_error m h).
Proof.
  intros Hm Hh. apply keeps_except_any; [done..|]. intros e.
  apply keeps_bind; [done..|]. intros _. by apply keeps_raise.
Qed.
Lemma keeps_on_error_unless R `{!PreOrder R} b (m h : py MS unit) :
  keeps R m → keeps R h → keeps R (on_error_unless b m h).
Proof.
  intros Hm Hh. apply keeps_except_any; [done..|]. intros e.
  apply keeps_bind; [done..|]. intros _. destruct b; [by apply keeps_raise|by apply keeps_ret].
Qed.
Lemma keeps_swallow R `{!PreOrder R} (m : py MS unit) : keeps R m → keeps R (swallow m).
Proof. intros Hm. apply keeps_except_any; [done..|]. intros e. by apply keeps_ret. Qed.
End Frames.

#[export] Hint Resolve on_drivers_frame on_drivers_rt on_volumes_rt the_same : py.

(** [keep_rel] for the handlers of this file. *)
Ltac keep_m :=
  repeat first
    [ solve [auto with py typeclass_instances]
    | match goal with
      | |- keeps _ (bind _ _) => apply keeps_bind; [apply _| |intros ?]
      | |- keeps _ (swallow _) => apply keeps_swallow; [apply _|]
      | |- keeps _ (on_error _ _) => apply keeps_on_error; [apply _| |]
      | |- keeps _ (on_error_unless _ _ _) => apply keeps_on_error_unless; [apply _| |]
      | |- keeps _ (except_any _ _) => apply keeps_except_any; [apply _| |intros ?]
      | |- keeps _ (try_except _ _) => apply keeps_try_except; [apply _| |intros ? ? ?; simplify_eq/=]
      | |- keeps _ (try_finally _ _) => apply keeps_try_finally; [apply _| |]
      | |- keeps _ (for_each _ _) => apply keeps_for_each; [apply _|intros ? ?]
      | |- keeps _ (if ?b then _ else _) => destruct b eqn:?
      | |- keeps _ (match ?b with _ => _ end) => destruct b eqn:?
      end ].

(** ** Waiting, detaching and failing end *)

(** The mappings of a container in the table. *)
Definition mappings_of {P D} (s : mgr P D) (u : string) : list volmap :=
  List.filter (λ v, bool_decide (vm_container v = Some u)) (vm_rows (m_volumes s)).

Section Waiting.
Context {P D : Type} `{ReportClient P} `{ComputeDriver D}.
Context (cfg : settings) (conf : manager_conf) (members : nat → list nat) (fuel : nat).
Context (now : D → Z) `{!VolumeLaws now (poll_interval conf)}.
Context (some_fuel : 0 < fuel).
Context (fuel_available :
  (timeout_wait_volume_available conf <= (Z.of_nat fuel - 1) * poll_interval conf)%Z).
Context (fuel_deleted :
  (timeout_wait_volume_deleted conf <= (Z.of_nat fuel - 1) * poll_interval conf)%Z).

Abbreviation MS := (mgr P D).
Abbreviation fail r b := (_fail_container (P:=P) (D:=D) conf members fuel r b).
Abbreviation detach n r b := (detach_volumes (P:=P) (D:=D) conf members fuel n r b).
Implicit Types s : MS.

Lemma the_run r s : the r s = (Ok (obj (containers (m_rt s)) r), s).
Proof. by destruct s as [[] d v t e]. Qed.
Lemma the_ends r : ends (the (P:=P) (D:=D) r).
Proof. intros s. by rewrite the_run. Qed.
Lemma on_drivers_run {A} (m : py D A) s o d :
  m (m_drivers s) = (o, d) →
  on_drivers m s = (o, mkMgr (m_rt s) d (m_volumes s) (m_tasks s) (m_events s)).
Proof. unfold on_drivers, zoom. by intros ->. Qed.
Lemma clock_run s : on_drivers clock s = (Ok (now (m_drivers s)), s).
Proof. rewrite (on_drivers_run _ _ _ _ (clock_now _)). by destruct s. Qed.

(** A driver operation that ends; the clock is not set back. *)
Lemma driver_step {A} (m : py D A) s (k : Z) :
  ends m → (∀ d, now d + k <= now (m d).2)%Z →
  ∃ o s', on_drivers m s = (o, s') ∧ o ≠ Raise OutOfFuel ∧
    (now (m_drivers s) + k <= now (m_drivers s'))%Z.
Proof.
  intros Hm Hk. specialize (Hm (m_drivers s)). specialize (Hk (m_drivers s)).
  destruct (m (m_drivers s)) as [o d] eqn:Hd. rewrite (on_drivers_run _ _ _ _ Hd). eauto.
Qed.

Lemma sleep_step s :
  ∃ o s', on_drivers (sleep (poll_interval conf)) s = (o, s') ∧ o ≠ Raise OutOfFuel ∧
    (now (m_drivers s) + poll_interval conf <= now (m_drivers s'))%Z.
Proof. apply driver_step; [intros d; apply sleep_ends|apply sleep_advances]. Qed.

(** Each round takes the clock one poll further, so the time out is reached. *)
Lemma wait_available_ends n start timeout v rest : ∀ s,
  0 < n → (timeout <= now (m_drivers s) - start + (Z.of_nat n - 1) * poll_interval conf)%Z →
  (wait_available conf n start timeout v rest s).1 ≠ Raise OutOfFuel.
Proof.
  revert v rest. induction n as [|n IH]; intros v rest s Hn Ht; [lia|]. simpl.
  step (clock_run s). destruct (Z.ltb_spec (now (m_drivers s) - start) timeout) as [Hlt|]; [|done].
  unfold vm. rewrite bind_gets.
  destruct (driver_step (vol_is_available (vm_objects (m_volumes s) !!! v)) s 0) as (o & s1 & H1 & Ho & Hnow).
  { apply available_ends. } { intros d. rewrite Z.add_0_r. apply available_now. }
  destruct o as [[ok err]|e]; [|rewrite (bind_err _ _ _ _ _ H1); simpl; congruence]. step H1.
  destruct (if ok then rest else v :: rest) as [|v' rest']; [done|]. destruct err; [done|].
  destruct (sleep_step s1) as (o2 & s2 & H2 & Ho2 & Hnow2).
  destruct o2 as [[]|e]; [|rewrite (bind_err _ _ _ _ _ H2); simpl; congruence]. step H2.
  pose proof poll_positive. apply IH; nia.
Qed.

Lemma wait_deleted_ends n start timeout v rest : ∀ s,
  0 < n → (timeout <= now (m_drivers s) - start + (Z.of_nat n - 1) * poll_interval conf)%Z →
  (wait_deleted conf n start timeout v rest s).1 ≠ Raise OutOfFuel.
Proof.
  revert v rest. induction n as [|n IH]; intros v rest s Hn Ht; [lia|]. simpl.
  step (clock_run s). destruct (Z.ltb_spec (now (m_drivers s) - start) timeout) as [Hlt|]; [|done].
  destruct (if vm_auto_remove v then v :: rest else rest) as [|w rest1]; [done|].
  destruct (driver_step (vol_is_deleted w) s 0) as (o & s1 & H1 & Ho & Hnow).
  { apply deleted_ends. } { intros d. rewrite Z.add_0_r. apply deleted_now. }
  destruct o as [[ok err]|e]; [|rewrite (bind_err _ _ _ _ _ H1); simpl; congruence]. step H1.
  destruct (if ok then rest1 else w :: rest1) as [|v' rest']; [done|]. destruct err; [done|].
  destruct (sleep_step s1) as (o2 & s2 & H2 & Ho2 & Hnow2).
  destruct o2 as [[]|e]; [|rewrite (bind_err _ _ _ _ _ H2); simpl; congruence]. step H2.
  pose proof poll_positive. apply IH; nia.
Qed.

Lemma wait_for_deleted_ends l : ends (wait_for_deleted (P:=P) conf fuel l).
Proof.
  intros s. unfold wait_for_deleted. step (clock_run s). destruct l as [|v l]; [done|].
  apply wait_deleted_ends; lia.
Qed.

Lemma wait_deleted_drivers n start timeout v rest :
  keeps drivers_only (wait_deleted (P:=P) conf n start timeout v rest).
Proof.
  revert v rest. induction n as [|n IH]; intros v rest; simpl; [by apply keeps_raise, _|].
  keep_rel.
Qed.
Lemma wait_for_deleted_drivers l : keeps drivers_only (wait_for_deleted (P:=P) conf fuel l).
Proof. unfold wait_for_deleted. keep_rel. apply wait_deleted_drivers. Qed.

(** *** Detaching one mapping after the other *)

Lemma detach_each_ends l b : ends (detach_each (P:=P) l b).
Proof.
  induction l as [|v l IH]; simpl; [apply ends_ret|].
  unfold list_by_cinder_volume, _detach_volume, count_by_volume, destroy_volmap, on_error_unless,
    except_any, on_drivers, on_volumes. ends_tac.
Qed.

Lemma detach_each_rt l b : keeps same_rt (detach_each (P:=P) l b).
Proof.
  induction l as [|v l IH]; simpl; [by apply keeps_ret, _|].
  unfold list_by_cinder_volume, _detach_volume, count_by_volume, destroy_volmap. keep_m.
Qed.

Lemma destroy_volmap_rows v s s' :
  destroy_volmap v s = (Ok tt, s') →
  vm_rows (m_volumes s') = List.filter (λ w, bool_decide (vm_uuid w ≠ vm_uuid v)) (vm_rows (m_volumes s)).
Proof.
  unfold destroy_volmap, on_volumes, zoom, raise_if. rewrite bind_get.
  destruct (negb _); simpl; [done|]. by intros [= <-].
Qed.

(** A step of the loop removes the row of the mapping; the driver's part keeps all. *)
Lemma detach_volume_rows v b s s' :
  _detach_volume (P:=P) v b s = (Ok tt, s') →
  vm_rows (m_volumes s') = List.filter (λ w, bool_decide (vm_uuid w ≠ vm_uuid v)) (vm_rows (m_volumes s)).
Proof.
  unfold _detach_volume, count_by_volume. rewrite bind_gets. intros (u & s1 & H1 & Hd)%bind_Ok.
  apply destroy_volmap_rows in Hd. rewrite Hd. f_equal.
  assert (keeps drivers_only (if bool_decide (length (List.filter (λ w, bool_decide (vm_volume w = vm_volume v))
    (vm_rows (m_volumes s))) = 1) then on_error_unless b (on_drivers (vol_detach v)) (ret tt)
    else ret (E:=exn) (S:=MS) tt)) as Hk.
  { case_bool_decide; [|by apply keeps_ret, _].
    apply keeps_on_error_unless; [apply _|apply on_drivers_frame|by apply keeps_ret, _]. }
  by rewrite (proj2 (Hk _ _ _ H1)).
Qed.

Lemma detach_each_rows l b : ∀ s l' s',
  detach_each (P:=P) l b s = (Ok l', s') →
  vm_rows (m_volumes s') =
  List.filter (λ w, bool_decide (vm_uuid w ∉ vm_uuid <$> l)) (vm_rows (m_volumes s)).
Proof.
  induction l as [|v l IH]; intros s l' s'; cbn [detach_each].
  - intros [= <- <-]. symmetry. apply forallb_filter_id, forallb_forall. intros w _.
    apply bool_decide_eq_true_2. rewrite fmap_nil. apply not_elem_of_nil.
  - unfold list_by_cinder_volume. rewrite bind_gets. intros ([] & s1 & H1 & H2)%bind_Ok.
    apply detach_volume_rows in H1.
    assert (vm_rows (m_volumes s') =
      List.filter (λ w, bool_decide (vm_uuid w ∉ vm_uuid <$> l)) (vm_rows (m_volumes s1))) as ->.
    { destruct (_ && _) in H2; [|by eapply IH].
      apply bind_Ok in H2 as (u & s2 & H2 & H3). apply bind_Ok in H3 as (l2 & s3 & H3 & [= _ <-]).
      rewrite (IH _ _ _ H3). by rewrite (proj2 (on_drivers_frame _ _ _ _ H2)). }
    rewrite H1. generalize (vm_rows (m_volumes s)). intros ws. induction ws as [|w ws IHw]; [done|].
    simpl. destruct (decide (vm_uuid w = vm_uuid v)) as [Hw|Hw].
    + rewrite bool_decide_eq_false_2 by (by intros ?).
      rewrite (bool_decide_eq_false_2 (vm_uuid w ∉ _)) by set_solver. done.
    + rewrite bool_decide_eq_true_2 by done. simpl. rewrite IHw.
      destruct (decide (vm_uuid w ∈ vm_uuid <$> l)).
      * rewrite !bool_decide_eq_false_2 by set_solver. done.
      * rewrite !bool_decide_eq_true_2 by set_solver. done.
Qed.

(** All the mappings of the container are gone. *)
Lemma detach_own_rows u b s l' s' :
  detach_each (P:=P) (mappings_of s u) b s = (Ok l', s') → mappings_of s' u = [].
Proof.
  intros Hr%detach_each_rows. unfold mappings_of at 1. rewrite Hr. unfold mappings_of.
  set (ws := vm_rows (m_volumes s)).
  assert (∀ w, w ∈ List.filter (λ w, bool_decide (vm_container w = Some u)) (List.filter (λ w,
    bool_decide (vm_uuid w ∉ vm_uuid <$> List.filter (λ v, bool_decide (vm_container v = Some u)) ws)) ws)
    → False) as Hnone.
  { intros w Hw%list_elem_of_In. apply filter_In in Hw as [Hw Hu]. apply filter_In in Hw as [Hw Hn].
    apply bool_decide_eq_true in Hn. apply Hn. apply list_elem_of_fmap. exists w. split; [done|].
    by apply list_elem_of_In, filter_In. }
  by apply elem_of_nil_inv.
Qed.

(** *** Failing a container, and detaching its volumes *)

Lemma mut_frame r f : mild f → keeps (on_stores (only r)) (mut (P:=P) (D:=D) r f).
Proof. intros Hf. by apply on_store_frame, mutate_only. Qed.
Lemma save_frame r : keeps (on_stores (only r)) (save_c (P:=P) (D:=D) r).
Proof. apply on_store_frame, save_only. Qed.
Lemma mut_ends r f : ends (mut (P:=P) (D:=D) r f).
Proof. unfold mut, on_store, on_rt, on_containers, Container.mutate. ends_tac. Qed.
Lemma save_c_ends r : ends (save_c (P:=P) (D:=D) r).
Proof. unfold save_c, on_store, on_rt, on_containers. ends_tac. Qed.

Lemma fail_with_frame R `{!PreOrder R} d r b :
  (∀ st st', only r st st' → R st st') →
  keeps (on_stores R) d → keeps (on_stores R) (fail_with (P:=P) (D:=D) d r b).
Proof.
  intros HR Hd. assert (∀ A (m : py MS A), keeps (on_stores (only r)) m → keeps (on_stores R) m) as Hw.
  { intros A m. apply keeps_weaken. intros s s'. apply HR. }
  unfold fail_with. keep_m; first [apply Hw, mut_frame; solve [auto with py]|apply Hw, save_frame].
Qed.

Lemma fail_with_ends d r b s :
  (d s).1 ≠ Raise OutOfFuel → (fail_with (P:=P) (D:=D) d r b s).1 ≠ Raise OutOfFuel.
Proof.
  intros Hd. unfold fail_with.
  assert (ends (mut (P:=P) (D:=D) r (set_status (Some ERROR));;;
    (if b then mut r (set_host None) else ret tt);;; save_c r)) as Hrest.
  { repeat first [apply ends_bind; [|intros _]|apply mut_ends|apply save_c_ends|destruct b|apply ends_ret]. }
  unfold swallow, except_any, try_except, bind at 1. destruct (d s) as [[[]|e] s1]; [apply Hrest|].
  destruct (caught e) eqn:He; [apply Hrest|]. by destruct e.
Qed.

Lemma detach_types n r b : keeps (on_stores same_types) (detach n r b).
Proof.
  revert r b. induction n as [|n IH]; intros r b; simpl; [by apply keeps_raise, _|].
  unfold list_by_container. keep_m.
  - apply same_rt_stores; [apply _|]. apply drivers_only_rt, the_same.
  - apply same_rt_stores; [apply _|]. apply detach_each_rt.
  - apply same_rt_stores; [apply _|]. apply drivers_only_rt, wait_for_deleted_drivers.
  - apply fail_with_frame; [apply _|apply only_same_types|apply IH].
Qed.

(** Nothing to detach: nothing happens. *)
Lemma detach_nothing n r b s :
  let c := obj (containers (m_rt s)) r in
  ctype c ≠ TYPE_CAPSULE → mappings_of s (Container.uuid c) = [] →
  detach (S n) r b s = (Ok tt, s).
Proof.
  intros c Hc Hm. simpl. step (the_run r s). rewrite bool_decide_eq_false_2 by done.
  unfold list_by_container. rewrite bind_gets. unfold mappings_of in Hm. subst c. rewrite Hm.
  simpl. rewrite bind_ret. unfold wait_for_deleted. rewrite bind_assoc. by step (clock_run s).
Qed.

Lemma detach_own n r b s :
  let u := Container.uuid (obj (containers (m_rt s)) r) in
  ctype (obj (containers (m_rt s)) r) ≠ TYPE_CAPSULE →
  (detach (S (S n)) r b s).1 ≠ Raise OutOfFuel ∧
  ∀ s', detach (S (S n)) r b s = (Ok tt, s') → mappings_of s' u = [].
Proof.
  intros u Hc. remember (S n) as n1. simpl. step (the_run r s).
  rewrite bool_decide_eq_false_2 by done.
  unfold list_by_container. rewrite bind_gets. fold u.
  change (List.filter _ (vm_rows (m_volumes s))) with (mappings_of s u).
  pose proof (detach_each_ends (mappings_of s u) b s) as He.
  destruct (detach_each (mappings_of s u) b s) as [o1 s1] eqn:H1.
  destruct o1 as [l1|e]; [|rewrite (bind_err _ _ _ _ _ H1); simpl in *; split; [congruence|done]].
  step H1. pose proof (detach_own_rows _ _ _ _ _ H1) as Hrows.
  pose proof (detach_each_rt _ _ _ _ _ H1) as Hrt. red in Hrt.
  pose proof (wait_for_deleted_ends l1 s1) as Hw.
  destruct (wait_for_deleted conf fuel l1 s1) as [o2 s2] eqn:H2.
  pose proof (wait_for_deleted_drivers _ _ _ _ H2) as [Hrt2 Hv2].
  destruct o2 as [w|e]; [|rewrite (bind_err _ _ _ _ _ H2); simpl in *; split; [congruence|done]].
  step H2. destruct w.
  - split; [done|]. intros s' [= <-]. unfold mappings_of. by rewrite Hv2.
  - assert (detach n1 r true s2 = (Ok tt, s2)) as Hagain.
    { subst n1. apply detach_nothing; rewrite Hrt2, Hrt; [done|]. fold u.
      unfold mappings_of. by rewrite Hv2. }
    pose proof (fail_with_ends (detach n1 r true) r true s2) as Hf. rewrite Hagain in Hf.
    destruct (fail_with _ r true s2) as [[[]|e] s3] eqn:H3;
      [by step H3|rewrite (bind_err _ _ _ _ _ H3)]; simpl in *; split; [|done].
    intros [= ->]. by apply Hf.
Qed.

(** The members of a capsule are containers. *)
Definition plain_members (s : MS) : Prop :=
  ∀ r m, m ∈ members r → ctype (obj (containers (m_rt s)) m) ≠ TYPE_CAPSULE.

Lemma detach_members n b l : ∀ s,
  (∀ m, m ∈ l → ctype (obj (containers (m_rt s)) m) ≠ TYPE_CAPSULE) →
  (for_each (λ m, detach (S (S n)) m b) l s).1 ≠ Raise OutOfFuel.
Proof.
  induction l as [|m l IH]; intros s Hl; [done|]. cbn [for_each].
  destruct (detach_own n m b s (Hl m (list_elem_of_here _ _))) as [He _].
  destruct (detach (S (S n)) m b s) as [[[]|e] s1] eqn:H1;
    [step H1|rewrite (bind_err _ _ _ _ _ H1); done].
  apply IH. intros q Hq. rewrite (detach_types _ _ _ _ _ _ H1 q). apply Hl. by right.
Qed.

Lemma detach_capsule n r b s :
  ctype (obj (containers (m_rt s)) r) = TYPE_CAPSULE →
  detach (S n) r b s = for_each (λ m, detach n m b) (members r) s.
Proof. intros Hc. simpl. step (the_run r s). by rewrite bool_decide_eq_true_2. Qed.

Lemma detach_volumes_ends r b s :
  plain_members s → (_detach_volumes conf members fuel r b s).1 ≠ Raise OutOfFuel.
Proof.
  intros Hm. unfold _detach_volumes, depth.
  destruct (decide (ctype (obj (containers (m_rt s)) r) = TYPE_CAPSULE)) as [Hc|Hc].
  - rewrite detach_capsule by done. apply detach_members, Hm.
  - by apply detach_own.
Qed.

Lemma fail_ends r b s :
  plain_members s → (_fail_container (P:=P) conf members fuel r b s).1 ≠ Raise OutOfFuel.
Proof. intros Hm. by apply fail_with_ends, detach_volumes_ends. Qed.

Lemma wait_available_drivers n start timeout v rest :
  keeps drivers_only (wait_available (P:=P) conf n start timeout v rest).
Proof.
  revert v rest. induction n as [|n IH]; intros v rest; simpl; [by apply keeps_raise, _|].
  unfold vm. keep_m.
Qed.

Lemma plain_members_types s s' : on_stores same_types s s' → plain_members s → plain_members s'.
Proof. intros Ht Hm r m Hr. rewrite (Ht m). by eapply Hm. Qed.

Lemma wait_for_available_ends vols r s :
  plain_members s → (_wait_for_volumes_available conf members fuel vols r s).1 ≠ Raise OutOfFuel.
Proof.
  intros Hm. unfold _wait_for_volumes_available. step (clock_run s).
  set (w := match all_volmaps vols with [] => _ | _ => _ end).
  assert ((w s).1 ≠ Raise OutOfFuel ∧ keeps drivers_only w) as [He Hk].
  { unfold w. destruct (all_volmaps vols) as [|v rest]; [split; [done|by apply keeps_ret, _]|].
    split; [apply wait_available_ends; lia|apply wait_available_drivers]. }
  destruct (w s) as [[[]|e] s1] eqn:H1;
    [by step H1| |rewrite (bind_err _ _ _ _ _ H1); simpl in *; congruence].
  step H1. set (del := for_each _ _).
  assert (ends del ∧ keeps drivers_only del) as [Hde Hdk].
  { split; [unfold del, vm, swallow, except_any, on_drivers; ends_tac|unfold del, vm; keep_m]. }
  pose proof (Hde s1) as Hd. destruct (del s1) as [[[]|e] s2] eqn:H2;
    [step H2|rewrite (bind_err _ _ _ _ _ H2); simpl in *; congruence].
  assert (plain_members s2) as Hm2.
  { intros q m Hq. rewrite (proj1 (Hdk _ _ _ H2)), (proj1 (Hk _ _ _ H1)). by eapply Hm. }
  pose proof (fail_ends r true s2 Hm2) as Hf.
  destruct (_fail_container _ _ _ r true s2) as [[[]|e] s3] eqn:H3;
    [by step H3|rewrite (bind_err _ _ _ _ _ H3); simpl in *; congruence].
Qed.

(** C34. Waiting for volumes and detaching them always end.  When each poll of the
    volume drivers takes the clock forward and the fuel covers the time out,
    [_wait_for_volumes_available], [_detach_volumes] and [_fail_container] return
    or raise an exception of the program: the loops of polls reach their time out,
    and a container that fails while its volumes are detached, which detaches its
    volumes again, does so once only, because its mappings are gone by then.  A
    detach of a container that succeeds leaves it no mapping. *)
Theorem volume_operations_end vols r b s :
  plain_members s →
  (_wait_for_volumes_available conf members fuel vols r s).1 ≠ Raise OutOfFuel ∧
  (_detach_volumes conf members fuel r b s).1 ≠ Raise OutOfFuel ∧
  (_fail_container conf members fuel r b s).1 ≠ Raise OutOfFuel ∧
  (∀ s', ctype (obj (containers (m_rt s)) r) ≠ TYPE_CAPSULE →
     _detach_volumes conf members fuel r b s = (Ok tt, s') →
     mappings_of s' (Container.uuid (obj (containers (m_rt s)) r)) = []).
Proof.
  intros Hm. split_and!.
  - by apply wait_for_available_ends.
  - by apply detach_volumes_ends.
  - by apply fail_ends.
  - intros s' Hc. apply (detach_own 1 r b s Hc).
Qed.
End Waiting.

(** ** A container whose volume is never deleted *)

(** The state of the drivers is the clock; no image can be pulled after 100. *)
#[export] Instance demo_drivers : ComputeDriver Z := {|
  drv_start _ := ret tt; drv_stop _ _ := ret tt; drv_reboot _ _ := ret tt; drv_pause _ := ret tt;
  drv_unpause _ := ret tt; drv_kill _ _ := ret tt; drv_show _ := ret tt; drv_update _ := ret tt;
  drv_delete _ _ := ret tt; drv_delete_capsule _ _ := ret tt; drv_create _ _ _ _ := ret tt;
  drv_create_capsule _ _ _ _ := ret tt; drv_check_container_exist _ := ret true;
  drv_get_neutron_port _ := ret tt; drv_get_neutron_network _ := ret (None, None);
  drv_network_attach _ _ := ret tt; drv_network_detach _ _ := ret tt;
  drv_add_security_group _ _ := ret tt; drv_remove_security_group _ _ := ret tt;
  drv_parse_image_name _ := ret ("nginx", "latest");
  drv_pull_image _ repo tag := λ x,
    (if (100 <=? x.1)%Z then raise (Zun DockerError)
     else ret (mkImage (Some "docker") "" repo tag, true)) x;
  drv_load_image _ := ret tt; drv_read_tar_image _ := ret tt;
  drv_commit _ _ _ := ret "i1"; drv_create_image _ := ret "i1"; drv_get_image _ := ret tt;
  drv_upload_image_data _ _ := ret tt; drv_delete_committed_image _ := ret tt;
  drv_delete_image _ := ret tt; drv_list := ret []; base_device_size _ := None;
  support_disk_quota _ := false; vol_attach _ := ret true; vol_detach _ := ret tt;
  vol_delete _ := ret tt; vol_is_available _ := ret (false, false);
  vol_is_deleted _ := ret (false, false); clock := get; sleep t := modify (Z.add t) |}.

Definition demo_manager_conf : manager_conf := mkManagerConf 3 2 1 10 (Some 10%Z) false true.
Definition demo_members (_ : nat) : list nat := [].

#[export] Instance demo_volume_laws : VolumeLaws (λ d : Z, d) (poll_interval demo_manager_conf).
Proof. split; try done; intros; simpl; lia. Qed.

Definition demo_volume : volmap := mkVolmap "m1" "v1" "x1" true (Some "c1") None true.
Definition demo_manager : mgr unit Z :=
  mkMgr NodeTracker.demo 0%Z (mkVolumes [demo_volume] [demo_volume] {[ "v1" ]}) [] [].

Abbreviation demo_detach := (_detach_volumes demo_manager_conf demo_members 4 0 true demo_manager).

Lemma volume_operations_end_witness :
  demo_detach.1 = Raise (Zun Conflict) ∧
  status (obj (containers (m_rt demo_detach.2)) 0) = Some ERROR ∧
  demo_detach.1 ≠ Raise OutOfFuel.
Proof.
  split_and!; [by vm_compute..|].
  apply (volume_operations_end (P:=unit) demo_manager_conf demo_members 4 (λ d, d)
    ltac:(lia) ltac:(simpl; lia) ltac:(simpl; lia) [] 0 true demo_manager).
  by intros r m Hm%elem_of_nil.
Defined.
