(* ===== verification/Manager.v ===== *)
(** * The compute manager: operations (src/zun/compute/manager.py)

    Creating, starting, stopping, rebuilding, updating, committing and deleting a
    container, and recovering the containers of the host when the service starts.

    What the API asks for becomes a task: it is queued ([utils.spawn_n]) and runs
    later in its own thread, under the lock of its container.  The model runs a
    task as a whole, in any order ([step]); the threads of different containers
    interleave more finely in the program. *)

From S2P Require Import Prelude Exceptions PyStr PciDevice PciSpec PciStats Numa Container DockerDriver.
From S2P Require Import PciTracker ComputeNode Driver Claims NodeTracker Volumes.

Section Manager.
Context {P D : Type} `{ReportClient P} `{AllocationClient P} `{ComputeDriver D} `{DevFilter}.
Context (assignable : dev_dict → outcome exn bool) (new_uuid : nat → string).
Context (sample : list Z → nat → list Z) (cfg : settings) (conf : manager_conf).
Context (members : nat → list nat) (fuel : nat).

Abbreviation MS := (mgr P D).
Abbreviation fail r unset_host := (_fail_container (P:=P) (D:=D) conf members fuel r unset_host).
Implicit Types s : MS.

#[export] Instance mgr_ResourceTracker : ResourceTracker MS := {|
  Claims.on_store A m := Volumes.on_store m;
  pci_support_requests rqs := on_rt (support_requests_of_tracker rqs);
  abort_container_claim c := on_rt (abort_claim cfg c);
  abort_container_update_claim n o := on_rt (abort_update_claim n o) |}.

Definition delete_allocation (r : nat) : py MS unit :=
  let! c := the r in
  on_rt (on_placement (delete_allocation_for_container (Container.uuid c))).

(** ** Creation *)

(** Pulling the image, and loading it when it is not yet there. *)
Definition fetch_image (r : nat) (repo tag : string) : py MS image :=
  let! '(img, image_loaded) := on_driver_store (drv_pull_image r repo tag) in
  let img := mkImage (i_driver img) (i_path img) repo tag in
  (if image_loaded : bool then ret tt else on_drivers (drv_load_image (i_path img)));;;
  ret img.

Definition create_on_driver (r : nat) (img : image) (nets : networks) (vols : requested_volumes)
    : py MS unit :=
  let! driver_name := of_option (i_driver img) (Py KeyError) in
  (if bool_decide (driver_name = "glance") then on_drivers (drv_read_tar_image img) else ret tt);;;
  let! c := the r in
  match ctype c with
  | TYPE_CAPSULE => on_driver_store (drv_create_capsule r img nets vols)
  | TYPE_CONTAINER => on_driver_store (drv_create r img nets vols)
  | _ => ret tt
  end.

Definition _do_container_create_base (r : nat) (nets : networks) (vols : requested_volumes)
    : py MS unit :=
  _update_task_state r CONTAINER_CREATING (
    let! '(repo, tag) := on_driver_store (drv_parse_image_name r) in
    let! img := on_error (fetch_image r repo tag) (fail r false) in
    mut r (set_image_driver (i_driver img));;;
    save_c r;;;
    on_error (create_on_driver r img nets vols) (fail r true)).

(** The claim is given back when the creation fails. *)
Definition claimed_create (r : nat) (nets : networks) (vols : requested_volumes)
    (pci_requests : option (list request)) (lims : option limits) : py MS unit :=
  let! cl := on_rt (container_claim sample cfg r pci_requests lims) in
  with_claim cl (_do_container_create_base r nets vols).

Definition _do_container_create (r : nat) (nets : networks) (vols : requested_volumes)
    (pci_requests : option (list request)) (lims : option limits) : py MS unit :=
  wrap_container_event "compute__do_container_create" None r
    (try_except (claimed_create r nets vols pci_requests lims)
      (λ e, if isinstance e ResourcesUnavailable
            then Some (fail r true;;; delete_allocation r;;; raise e) else None)).

Definition _do_container_start (r : nat) : py MS unit :=
  wrap_container_event "compute__do_container_start" None r
    (_update_task_state r CONTAINER_STARTING
      (on_error (on_driver_store (drv_start r);;; save_c r) (fail r false))).

Definition do_container_create (lims : option limits) (nets : networks) (vols : requested_volumes)
    (r : nat) (run : bool) (pci_requests : option (list request)) : py MS unit :=
  let! c := the r in
  finish_action (Container.uuid c) "create" (
    _wait_for_volumes_available conf members fuel vols r;;;
    _attach_volumes cfg conf members fuel r vols;;;
    _check_support_disk_quota conf members fuel r;;;
    _do_container_create r nets vols pci_requests lims;;;
    if run then _do_container_start r else ret tt).

Definition container_create (lims : option limits) (nets : networks) (vols : requested_volumes)
    (r : nat) (run : bool) (pci_requests : option (list request)) : py MS unit :=
  spawn_n (TCreate lims nets vols r run pci_requests).

(** ** Deletion *)

Definition delete_on_driver (r : nat) (force : bool) : py MS unit :=
  let! c := the r in
  match ctype c with
  | TYPE_CAPSULE => on_driver_store (drv_delete_capsule r force)
  | TYPE_CONTAINER => on_driver_store (drv_delete r force)
  | _ => ret tt
  end.

(** The row goes last: after the usage, and after the allocation in placement. *)
Definition _do_container_delete (r : nat) (force : bool) : py MS unit :=
  let reraise := negb force in
  _update_task_state r CONTAINER_DELETING (
    on_error_unless reraise (delete_on_driver r force) (fail r false);;;
    _detach_volumes conf members fuel r reraise);;;
  let! c := the r in
  on_rt (remove_usage_from_container cfg c true);;;
  delete_allocation r;;;
  Volumes.on_store (Container.destroy r).

Definition container_delete (r : nat) (force : bool) : py MS unit :=
  translate_exception (spawn_n (TDelete r force)).

(** Every row of a removed container, on whatever host. *)
Definition delete_unused_containers : py MS unit :=
  let! cs := gets (λ s, filter (λ c, bool_decide (ctype c = TYPE_CONTAINER ∧
    auto_remove c = Some true ∧ status c = Some DELETED ∧ task_state c = None))
    (dvalues (rows (containers (m_rt s))))) in
  let! refs := Volumes.on_store (map_m alloc cs) in
  except_any (for_each (λ r, container_delete r true) refs) (λ _, ret tt).

(** ** One driver operation under a task state *)

(** [@wrap_exception() @wrap_container_event(...)], then the body under its state *)
Definition driver_action (function action : string) (ts : TaskState) (r : nat) (body : py MS unit)
    : py MS unit :=
  wrap_exception (wrap_container_event ("compute_" +:+ function) (Some action) r
    (_update_task_state r ts body)).

Definition _do_container_reboot (r : nat) (timeout : option Z) : py MS unit :=
  driver_action "_do_container_reboot" "reboot" CONTAINER_REBOOTING r
    (on_driver_store (drv_reboot r timeout)).
Definition _do_container_stop (r : nat) (timeout : option Z) : py MS unit :=
  driver_action "_do_container_stop" "stop" CONTAINER_STOPPING r
    (on_driver_store (drv_stop r timeout)).
Definition _do_container_pause (r : nat) : py MS unit :=
  driver_action "_do_container_pause" "pause" CONTAINER_PAUSING r (on_driver_store (drv_pause r)).
Definition _do_container_unpause (r : nat) : py MS unit :=
  driver_action "_do_container_unpause" "unpause" CONTAINER_UNPAUSING r
    (on_driver_store (drv_unpause r)).
Definition _do_container_kill (r : nat) (signal : option string) : py MS unit :=
  driver_action "_do_container_kill" "kill" CONTAINER_KILLING r
    (on_driver_store (drv_kill r signal)).
Definition _do_network_attach (r : nat) (net : string) : py MS unit :=
  driver_action "_do_network_attach" "network_attach" NETWORK_ATTACHING r
    (on_driver_store (drv_network_attach r net)).
Definition _do_network_detach (r : nat) (net : string) : py MS unit :=
  driver_action "_do_network_detach" "network_detach" NETWORK_DETACHING r
    (on_driver_store (drv_network_detach r net)).

Definition _add_security_group (r : nat) (group : string) : py MS unit :=
  driver_action "_add_security_group" "add_security_group" SG_ADDING r
    (on_driver_store (drv_add_security_group r group);;;
     mut r (λ c, set_security_groups (security_groups c ++ [group]) c);;;
     save_c r).
(** [list(set(...) - set(...))], in some order *)
Definition _remove_security_group (r : nat) (group : string) : py MS unit :=
  driver_action "_remove_security_group" "remove_security_group" SG_REMOVING r
    (on_driver_store (drv_remove_security_group r group);;;
     mut r (λ c, set_security_groups
       (elements (list_to_set (C:=gset string) (security_groups c) ∖ {[ group ]})) c);;;
     save_c r).

Definition container_start (r : nat) : py MS unit := spawn_n (TStart r).
Definition container_reboot (r : nat) (timeout : option Z) : py MS unit := spawn_n (TReboot r timeout).
Definition container_stop (r : nat) (timeout : option Z) : py MS unit := spawn_n (TStop r timeout).
Definition container_pause (r : nat) : py MS unit := spawn_n (TPause r).
Definition container_unpause (r : nat) : py MS unit := spawn_n (TUnpause r).
Definition container_kill (r : nat) (signal : option string) : py MS unit := spawn_n (TKill r signal).
Definition add_security_group (r : nat) (group : string) : py MS unit :=
  spawn_n (TAddSecurityGroup r group).
Definition remove_security_group (r : nat) (group : string) : py MS unit :=
  spawn_n (TRemoveSecurityGroup r group).
Definition network_attach (r : nat) (net : string) : py MS unit := spawn_n (TNetworkAttach r net).
Definition network_detach (r : nat) (net : string) : py MS unit := spawn_n (TNetworkDetach r net).

(** [if container.obj_what_changed()]: the object differs from its row. *)
Definition container_show (r : nat) : py MS unit :=
  translate_exception (
    on_driver_store (drv_show r);;;
    let! c := the r in
    let! st := gets (λ s, containers (m_rt s)) in
    if bool_decide (find_row st c = Some c) then ret tt else save_c r).

(** ** Rebuild *)

(** The mappings become objects. *)
Definition _get_vol_info (r : nat) : py MS (list nat) :=
  let! c := the r in
  let! l := list_by_container (Container.uuid c) in
  let! n := gets (λ s, length (vm_objects (m_volumes s))) in
  on_volumes (modify (λ x, mkVolumes (vm_objects x ++ l) (vm_rows x) (vm_connections x)));;;
  ret (seq n (length l)).

(** The networks of the container, by its first address on each. *)
Definition _get_network_info (r : nat) : py MS networks :=
  let! c := the r in
  map_m (λ nl : string * list address,
    let! addr_info := of_option (head nl.2) (Py IndexError) in
    on_drivers (drv_get_neutron_port (a_port addr_info));;;
    let! '(external, shared) := on_drivers (drv_get_neutron_network nl.1) in
    ret (mkNetInfo nl.1 (a_port addr_info) external shared (a_preserve_on_delete addr_info))) (Container.addresses c).

(** [port\['preserve_on_delete'\] = True] for every address *)
Definition preserve_address (a : address) : address :=
  mkAddress (a_addr a) (a_version a) (a_port a) (a_subnet_id a) (Some true).
Definition preserve_ports (c : container) : container :=
  set_addresses ((λ nl : string * list address, (nl.1, preserve_address <$> nl.2)) <$> Container.addresses c) c.

Definition _do_container_rebuild (r : nat) (run : bool) : py MS unit :=
  wrap_container_event "compute__do_container_rebuild" (Some "rebuild") r
    (_update_task_state r CONTAINER_REBUILDING (
      let! c := the r in
      let! vols := _get_vol_info r in
      let! nets := on_error (_get_network_info r) (fail r false) in
      let! exist := on_driver_store (drv_check_container_exist r) in
      (if exist : bool
       then mut r preserve_ports;;; on_error (on_driver_store (drv_delete r true)) (fail r false) else ret tt);;;
      on_error (_do_container_create_base r nets [(Container.uuid c, vols)];;;
                mut r (set_status (Some CREATED));;; save_c r) (fail r false);;;
      if run then _do_container_start r else ret tt)).

Definition container_rebuild (r : nat) (run : bool) : py MS unit := spawn_n (TRebuild r run).

(** ** Update *)

Definition apply_patch (p : patch) (c : container) : container :=
  mkContainer (Container.uuid c) (ctype c) (default (name c) (p_name p)) (container_id c) (status c)
    (task_state c) (Container.host c) (default (cpu c) (p_cpu p)) (cpu_policy c) (Container.cpuset c)
    (default (memory c) (p_memory p)) (disk c) (runtime c) (auto_remove c) (security_groups c)
    (default (auto_heal c) (p_auto_heal p)) (project_id c) (user_id c) (Container.image c)
    (Container.image_driver c) (interactive c) (addresses c).

(** [container.memory] is a text (or null), which an integer cannot be compared
    with. *)
Fixpoint cpuset_limits (cells : NUMATopology) (c : container) : py MS cpuset_limit :=
  match cells with
  | [] => raise (Zun NoValidHost)
  | n :: cells' =>
      let! q := of_option (cpu c) (Py TypeError) in
      let room := (Z.of_nat (size (Numa.cpuset n)) - Z.of_nat (size (pinned_cpus n)))%Z in
      if bool_decide (q <= Qc_of_Z room)%Qc then raise (Py TypeError)
      else cpuset_limits cells' c
  end.
Definition _get_cpuset_limits (n : ComputeNode) (c : container) : py MS cpuset_limit :=
  let! cells := of_option (numa_topology n) (Py AttributeError) in
  cpuset_limits cells c.

Definition update_limits (c : container) : py MS limits :=
  let! n := on_rt cn in
  let! d := gets (λ s, NodeTracker.driver (m_rt s)) in
  let! cpu_ratio := of_option (cpu_allocation_ratio d) (Py TypeError) in
  let! ram_ratio := of_option (ram_allocation_ratio d) (Py TypeError) in
  let lims cs := mkLimits (Some (Qc_of_Z (mem_total n) * ram_ratio)%Qc)
                   (Some (Qc_of_Z (cpus n) * cpu_ratio)%Qc) None cs in
  if bool_decide (cpu_policy c = Some "dedicated")
  then let! cs := _get_cpuset_limits n c in ret (lims (Some cs))
  else ret (lims None).

Definition container_update (r : nat) (p : patch) : py MS unit :=
  translate_exception (
    let! old_container := the r in
    mut r (apply_patch p);;;
    let! c := the r in
    let! lims := update_limits c in
    let! cl := on_rt (container_update_claim sample cfg r old_container (Some lims)) in
    with_claim cl (on_driver_store (drv_update r);;; save_c r)).

Definition resize_container (r : nat) (p : patch) : py MS unit := spawn_n (TUpdate r p).

(** ** Commit: the container is paused while its image is taken *)

(** [snapshot_image.id] *)
Definition id_of (snapshot : option string) : py MS string :=
  of_option snapshot (Py AttributeError).

Definition delete_committed_image (snapshot : option string) : py MS unit :=
  let! i := id_of snapshot in on_drivers (drv_delete_committed_image i).

Definition _do_container_image_upload (snapshot : option string) (image_id tag : string)
    : py MS unit :=
  except_any (on_drivers (drv_upload_image_data snapshot tag))
    (λ e, delete_committed_image snapshot;;; on_drivers (drv_delete_image image_id);;; raise e).

Definition take_image (r : nat) (snapshot : option string) (repository tag : string) : py MS string :=
  try_except
    (let! i := on_driver_store (drv_commit r repository tag) in
     on_drivers (drv_get_image (repository +:+ ":" +:+ tag));;; ret i)
    (λ e, if isinstance e DockerError
          then Some (delete_committed_image snapshot;;; raise e) else None).

Definition _do_container_commit (r : nat) (snapshot : option string) (repository : string)
    (tag : option string) : py MS unit :=
  wrap_container_event "compute__do_container_commit" (Some "commit") r (
    let tag := default "latest" tag in
    let! c := the r in
    let unpause := bool_decide (status c = Some RUNNING) in
    (if unpause then on_driver_store (drv_pause r);;; save_c r else ret tt);;;
    let! image_id := try_finally (take_image r snapshot repository tag)
      (if unpause then swallow (on_driver_store (drv_unpause r);;; save_c r) else ret tt) in
    _do_container_image_upload snapshot image_id tag).

(** The task is queued even when no image was created. *)
Definition container_commit (r : nat) (repository : string) (tag : option string) : py MS string :=
  translate_exception (
    let! snapshot := try_except
      (let! i := on_drivers (drv_create_image repository) in ret (Some i))
      (λ e, if isinstance e DockerError then Some (ret None) else None) in
    spawn_n (TCommit r snapshot repository tag);;;
    id_of snapshot).

(** ** Starting the service *)

Definition transitional (c : container) : bool :=
  bool_decide (status c = Some CREATING) ||
  match task_state c with
  | Some (CONTAINER_CREATING | IMAGE_PULLING | NETWORK_ATTACHING | NETWORK_DETACHING |
          SG_ADDING | SG_REMOVING) => true
  | _ => false
  end.

(** [container_kill] misses its argument [signal]. *)
Definition _init_container (r : nat) : py MS unit :=
  let! c := the r in
  let clear := mut r (set_task_state None) in
  if transitional c then
    clear;;; mut r (set_status (Some ERROR));;; save_c r
  else if bool_decide (status c = Some DELETING) || bool_decide (task_state c = Some CONTAINER_DELETING)
  then clear;;; container_delete r true
  else
    match task_state c with
    | Some CONTAINER_REBOOTING => clear;;; container_reboot r (default_timeout conf)
    | Some CONTAINER_STOPPING => clear;;; container_stop r (default_timeout conf)
    | Some CONTAINER_STARTING => clear;;; container_start r
    | Some CONTAINER_PAUSING => clear;;; container_pause r
    | Some CONTAINER_UNPAUSING => clear;;; container_unpause r
    | Some CONTAINER_KILLING => clear;;; raise (Py TypeError)
    | _ => ret tt
    end.

Definition restore_running_container (r : nat) (current_status : option ContainerStatus)
    : py MS unit :=
  let! c := the r in
  if bool_decide (status c = Some RUNNING ∧ current_status = Some STOPPED)
  then container_start r else ret tt.

Definition _remount_volume (r : nat) : py MS unit :=
  let! c := the r in
  let! volmaps := list_by_container (Container.uuid c) in
  for_each (λ v,
    except_any (let! stored := on_drivers (vol_attach v) in
                if stored : bool then record_connection (vm_volume v) else ret tt)
      (λ _, fail r false)) volmaps.

Definition init_one (uuid_to_status_map : dict string (option ContainerStatus)) (r : nat)
    : py MS unit :=
  let! c := the r in
  let! current_status := of_option (dget uuid_to_status_map (Container.uuid c)) (Py KeyError) in
  _init_container r;;;
  (if remount_container_volume conf then _remount_volume r else ret tt);;;
  if resume_container_state conf then restore_running_container r current_status else ret tt.

Definition init_containers : py MS unit :=
  let! refs := Volumes.on_store (list_by_host TYPE_CONTAINER (NodeTracker.host cfg)) in
  let! local_containers := on_driver_store drv_list in
  for_each (init_one (dict_of local_containers)) refs.

Definition inventory_host : py MS unit :=
  on_rt (update_available_resources assignable new_uuid cfg).

(** ** The tasks *)

Definition run_task (t : task) : py MS unit :=
  match t with
  | TCreate lims nets vols r run pci => do_container_create lims nets vols r run pci
  | TDelete r force => _do_container_delete r force
  | TStart r =>
      let! c := the r in finish_action (Container.uuid c) "start" (_do_container_start r)
  | TStop r timeout => _do_container_stop r timeout
  | TReboot r timeout => _do_container_reboot r timeout
  | TPause r => _do_container_pause r
  | TUnpause r => _do_container_unpause r
  | TKill r signal => _do_container_kill r signal
  | TRebuild r run => _do_container_rebuild r run
  | TAddSecurityGroup r group => _add_security_group r group
  | TRemoveSecurityGroup r group => _remove_security_group r group
  | TNetworkAttach r net => _do_network_attach r net
  | TNetworkDetach r net => _do_network_detach r net
  | TUpdate r p => container_update r p
  | TCommit r snapshot repository tag => _do_container_commit r snapshot repository tag
  end.

(** Any queued task may run next. *)
Inductive step : relation MS :=
| step_task s t l1 l2 :
    m_tasks s = l1 ++ t :: l2 →
    step s (run_task t (set_m_tasks (l1 ++ l2) s)).2.
End Manager.

(** ** What the drivers promise

    A driver operation on a container changes that container only, its row
    included, and not its identity, its class or its task. *)
Class DriverLaws (D : Type) `{ComputeDriver D} : Prop := {
  law_start r : keeps (λ x y, only r x.2 y.2) (drv_start r);
  law_stop r t : keeps (λ x y, only r x.2 y.2) (drv_stop r t);
  law_reboot r t : keeps (λ x y, only r x.2 y.2) (drv_reboot r t);
  law_pause r : keeps (λ x y, only r x.2 y.2) (drv_pause r);
  law_unpause r : keeps (λ x y, only r x.2 y.2) (drv_unpause r);
  law_kill r sig : keeps (λ x y, only r x.2 y.2) (drv_kill r sig);
  law_delete r force : keeps (λ x y, only r x.2 y.2) (drv_delete r force);
  law_create r i n v : keeps (λ x y, only r x.2 y.2) (drv_create r i n v);
  law_exist r : keeps (λ x y, only r x.2 y.2) (drv_check_container_exist r);
  law_network_attach r n : keeps (λ x y, only r x.2 y.2) (drv_network_attach r n);
  law_network_detach r n : keeps (λ x y, only r x.2 y.2) (drv_network_detach r n);
  law_add_group r g : keeps (λ x y, only r x.2 y.2) (drv_add_security_group r g);
  law_remove_group r g : keeps (λ x y, only r x.2 y.2) (drv_remove_security_group r g);
  law_parse r : keeps (λ x y, only r x.2 y.2) (drv_parse_image_name r);
  law_pull r repo tag : keeps (λ x y, only r x.2 y.2) (drv_pull_image r repo tag);
  law_commit r repo tag : keeps (λ x y, only r x.2 y.2) (drv_commit r repo tag)
}.

#[export] Hint Resolve law_start law_stop law_reboot law_pause law_unpause law_kill law_delete
  law_create law_exist law_network_attach law_network_detach law_add_group
  law_remove_group law_parse law_pull law_commit : py.

Definition same_tasks {P D} : relation (mgr P D) := λ s s', m_tasks s' = m_tasks s.
#[export] Instance same_tasks_preorder {P D} : PreOrder (same_tasks (P:=P) (D:=D)).
Proof. split; [by intros s|]. intros s1 s2 s3 H1 H2. unfold same_tasks in *. congruence. Qed.

(** What the body of an operation on the container [r] may do while the container
    is in a task: touch [r] only.  It queues nothing. *)
Record within {P D} (r : nat) (s s' : mgr P D) : Prop := mkWithin {
  within_tasks : same_tasks s s';
  within_only : let st := containers (m_rt s) in
    ctype (obj st r) ≠ TYPE_CAPSULE → task_state (obj st r) ≠ None →
    only r st (containers (m_rt s'))
}.

#[export] Instance within_preorder {P D} r : PreOrder (within (P:=P) (D:=D) r).
Proof.
  split; [by intros s|]. intros s1 s2 s3 [T1 O1] [T2 O2]. split; [by etrans|].
  intros st Hc Ht. specialize (O1 Hc Ht). etrans; [exact O1|].
  apply O2; [by rewrite (only_ctype _ _ _ O1)|by rewrite (only_task _ _ _ O1)].
Qed.

(** A container that an operation can work on: it has a row it can be saved to,
    and is in no task. *)
Record ready {P D} (r : nat) (s : mgr P D) : Prop := mkReady {
  ready_object : r < length (objects (containers (m_rt s)));
  ready_type : ctype (obj (containers (m_rt s)) r) ≠ TYPE_CAPSULE;
  ready_task : task_state (obj (containers (m_rt s)) r) = None;
  ready_saveable : saveable (containers (m_rt s)) r
}.

(** The object is what its row says. *)
Definition recorded {P D} (r : nat) (s : mgr P D) : Prop :=
  let st := containers (m_rt s) in dget (rows st) (Container.uuid (obj st r)) = Some (obj st r).

(** ** Bodies *)

Section Bodies.
Context {P D : Type} `{ReportClient P} `{ComputeDriver D} `{!DriverLaws D}.
Context (cfg : settings) (conf : manager_conf) (members : nat → list nat) (fuel : nat).
Abbreviation MS := (mgr P D).
Abbreviation fail r b := (_fail_container (P:=P) (D:=D) conf members fuel r b).
Implicit Types s : MS.

Lemma rt_tasks {A} (m : py (rt P) A) : keeps (same_tasks (D:=D)) (on_rt m).
Proof. intros s o s'. unfold on_rt, zoom. destruct (m _). by intros [= _ <-]. Qed.
Lemma driver_store_tasks {A} (m : py (D * store) A) : keeps (same_tasks (P:=P)) (on_driver_store m).
Proof. intros s o s'. unfold on_driver_store, zoom. destruct (m _). by intros [= _ <-]. Qed.
Lemma drivers_tasks {A} (m : py D A) : keeps (same_tasks (P:=P)) (on_drivers m).
Proof. intros s o s'. unfold on_drivers, zoom. destruct (m _). by intros [= _ <-]. Qed.
Lemma volumes_tasks {A} (m : py volumes A) : keeps (same_tasks (P:=P) (D:=D)) (on_volumes m).
Proof. intros s o s'. unfold on_volumes, zoom. destruct (m _). by intros [= _ <-]. Qed.

Lemma store_within {A} r (m : py store A) : keeps (only r) m → keeps (within r) (Volumes.on_store (P:=P) (D:=D) m).
Proof.
  intros Hm s o s' Hs. split; [apply (rt_tasks _ _ _ _ Hs)|]. intros st _ _.
  exact (on_store_frame _ _ Hm _ _ _ Hs).
Qed.
Lemma driver_within {A} r (m : py (D * store) A) :
  keeps (λ x y, only r x.2 y.2) m → keeps (within r) (on_driver_store (P:=P) m).
Proof.
  intros Hm s o s' Hs. split; [apply (driver_store_tasks _ _ _ _ Hs)|]. intros st _ _.
  exact (on_driver_store_frame _ _ Hm _ _ _ Hs).
Qed.
Lemma drivers_within {A} r (m : py D A) : keeps (within r) (on_drivers (P:=P) m).
Proof.
  intros s o s' Hs. split; [apply (drivers_tasks _ _ _ _ Hs)|].
  by rewrite (proj1 (on_drivers_frame _ _ _ _ Hs)).
Qed.
Lemma volumes_within {A} r (m : py volumes A) : keeps (within r) (on_volumes (P:=P) (D:=D) m).
Proof.
  intros s o s' Hs. split; [apply (volumes_tasks _ _ _ _ Hs)|]. by rewrite (on_volumes_rt _ _ _ _ Hs).
Qed.
Lemma the_within r q : keeps (within r) (the (P:=P) (D:=D) q).
Proof. intros s o s'. rewrite the_run. by intros [= _ <-]. Qed.
Lemma log_within r e : keeps (within r) (log (P:=P) (D:=D) e).
Proof. intros s o s'. intros [= _ <-]. by split. Qed.
#[local] Hint Resolve store_within driver_within drivers_within volumes_within the_within log_within : py.

Lemma mut_within r f : mild f → keeps (within r) (mut (P:=P) (D:=D) r f).
Proof. intros. by apply store_within, mutate_only. Qed.
Lemma save_within r : keeps (within r) (save_c (P:=P) (D:=D) r).
Proof. apply store_within, save_only. Qed.
#[local] Hint Resolve mut_within save_within : py.

Lemma report_within {A} r e (m : py MS A) : keeps (within r) m → keeps (within r) (reporting e m).
Proof.
  intros Hm s o s'. unfold reporting. destruct (m s) as [o1 s1] eqn:Hs. intros [= <- <-].
  etrans; [exact (Hm _ _ _ Hs)|]. by eapply (log_within r).
Qed.
#[local] Hint Resolve report_within : py.
Lemma wrap_event_within {A} n a r (m : py MS A) :
  keeps (within r) m → keeps (within r) (wrap_container_event n a r m).
Proof.
  intros Hm. unfold wrap_container_event, finish_action, event_reporter. keep_m; apply report_within; keep_m.
Qed.
#[local] Hint Resolve wrap_event_within : py.

Lemma vm_within r v : keeps (within r) (vm (P:=P) (D:=D) v).
Proof. unfold vm. keep_m. Qed.
Lemma detach_each_within r l b : keeps (within r) (detach_each (P:=P) l b).
Proof.
  induction l as [|v l IH]; simpl; [by apply keeps_ret, _|].
  unfold list_by_cinder_volume, _detach_volume, count_by_volume, destroy_volmap. keep_m.
Qed.
Lemma wait_deleted_within r n start timeout v rest :
  keeps (within r) (wait_deleted (P:=P) conf n start timeout v rest).
Proof.
  revert v rest. induction n as [|n IH]; intros v rest; simpl; [by apply keeps_raise, _|]. keep_m.
Qed.
Lemma wait_for_deleted_within r l : keeps (within r) (wait_for_deleted (P:=P) conf fuel l).
Proof. unfold wait_for_deleted. keep_m. apply wait_deleted_within. Qed.
#[local] Hint Resolve vm_within detach_each_within wait_for_deleted_within : py.

Lemma fail_with_within r d b : keeps (within r) d → keeps (within r) (fail_with (P:=P) (D:=D) d r b).
Proof. intros Hd. unfold fail_with. keep_m. Qed.
#[local] Hint Resolve fail_with_within : py.

#[local] Hint Resolve rt_tasks drivers_tasks volumes_tasks : py.
Lemma detach_tasks n r b : keeps same_tasks (detach_volumes (P:=P) (D:=D) conf members fuel n r b).
Proof.
  revert r b. induction n as [|n IH]; intros r b; [by apply keeps_raise, _|].
  assert (∀ l b, keeps same_tasks (detach_each (P:=P) (D:=D) l b)) as He.
  { intros l c s o s' Hs. apply (detach_each_within r _ _ _ _ _ Hs). }
  assert (∀ l, keeps same_tasks (wait_for_deleted (P:=P) (D:=D) conf fuel l)) as Hw.
  { intros l s o s' Hs. apply (wait_for_deleted_within r _ _ _ _ Hs). }
  simpl. unfold the, Volumes.on_store, list_by_container, fail_with, mut, save_c, Volumes.on_store.
  keep_m.
Qed.

(** Of the container's own volumes, not those of the members of a capsule. *)
Lemma detach_within n r b : keeps (within r) (detach_volumes (P:=P) conf members fuel n r b).
Proof.
  revert b. induction n as [|n IH]; intros b; [by apply keeps_raise, _|]. intros s o s' Hs.
  destruct (decide (ctype (obj (containers (m_rt s)) r) = TYPE_CAPSULE)) as [Hc|Hc].
  - split; [|done]. exact (detach_tasks _ _ _ _ _ _ Hs).
  - revert Hs. simpl. step (the_run r s). rewrite bool_decide_eq_false_2 by done.
    match goal with |- ?m s = _ → _ => enough (keeps (within r) m) as Hk by apply Hk end.
    unfold list_by_container. keep_m.
Qed.
#[local] Hint Resolve detach_within : py.

Lemma fail_within r b : keeps (within r) (fail r b).
Proof. unfold _fail_container, _detach_volumes. auto with py. Qed.
#[local] Hint Resolve fail_within : py.

(** Inside a task another task state is not recorded. *)
Lemma nested_within {A} r ts (m : py MS A) :
  keeps (within r) m → keeps (within r) (_update_task_state r ts m).
Proof.
  intros Hm s o s'. unfold _update_task_state. step (the_run r s).
  destruct (decide (task_state (obj (containers (m_rt s)) r) = None)) as [Ht|Ht].
  - rewrite bool_decide_eq_false_2 by (by intros ?). intros Hs. split; [|done].
    revert Hs. match goal with |- ?k s = _ → _ => enough (keeps same_tasks k) as Hk by apply Hk end.
    unfold mut, save_c, Volumes.on_store. assert (keeps same_tasks m) by (intros ??? Hs; apply (Hm _ _ _ Hs)).
    keep_m.
  - rewrite bool_decide_eq_true_2 by done. apply Hm.
Qed.
#[local] Hint Resolve nested_within : py.

(** ** Entering and leaving a task *)

Definition write_c (r : nat) (f : container → container) s : MS :=
  set_m_rt (set_containers (write r f (containers (m_rt s))) (m_rt s)) s.

Lemma mut_save_run r f s :
  saveable (containers (m_rt s)) r → plain_update f →
  (mut r f;;; save_c r) s = (Ok tt, write_c r f s).
Proof.
  intros Hs Hf. pose proof (mutate_save_run r f _ Hs Hf) as Hrun.
  unfold mut, save_c, Volumes.on_store, on_rt, on_containers, zoom, bind in *.
  unfold mutate, modify in *. simpl in *. destruct (Container.save r _) as [[[]|e] st]; [|done].
  by injection Hrun as ->.
Qed.

(** What [_update_task_state] does around a body that keeps to its container. *)
Lemma task_run {A} r ts (body : py MS A) s o s2 :
  ready r s → keeps (within r) body →
  body (write_c r (set_task_state (Some ts)) s) = (o, s2) →
  _update_task_state r ts body s = (o, write_c r (set_task_state None) s2) ∧
  only r (containers (m_rt (write_c r (set_task_state (Some ts)) s))) (containers (m_rt s2)) ∧
  saveable (containers (m_rt s2)) r.
Proof.
  intros [Hl Hc Ht Hs] Hk Hbody. set (s1 := write_c r _ s) in *.
  assert (only r (containers (m_rt s1)) (containers (m_rt s2))) as Ho.
  { destruct (Hk _ _ _ Hbody) as [_ Hw]. apply Hw.
    - cbn. rewrite write_obj, decide_True by done. exact Hc.
    - cbn. by rewrite write_obj, decide_True by done. }
  assert (saveable (containers (m_rt s2)) r) as Hs2.
  { apply (only_saveable _ _ _ Ho). cbn. apply write_saveable; auto with py. }
  split_and!; [|done..].
  unfold _update_task_state. step (the_run r s). rewrite bool_decide_eq_false_2 by (by intros ?).
  rewrite <- bind_assoc. step (mut_save_run r (set_task_state (Some ts)) s Hs (plain_task_state _)).
  fold s1. unfold try_finally. rewrite Hbody.
  by rewrite (mut_save_run r (set_task_state None) s2 Hs2 (plain_task_state _)).
Qed.

(** The container ends in no task, in the object and in the row, and nothing else
    has changed. *)
Definition settled r s s' : Prop :=
  on_stores (only r) s s' ∧ recorded r s' ∧ same_tasks s s' ∧ ready r s'.
Definition settles {A} (r : nat) (m : py MS A) : Prop := ∀ s, ready r s → settled r s (m s).2.

Lemma task_settles {A} r ts (body : py MS A) :
  keeps (within r) body → settles r (_update_task_state r ts body).
Proof.
  intros Hk s Hr. pose proof Hr as [Hl Hc Ht Hs].
  destruct (body (write_c r (set_task_state (Some ts)) s)) as [o s2] eqn:Hbody.
  destruct (task_run r ts body s o s2 Hr Hk Hbody) as (Hrun & Ho & Hs2). rewrite Hrun. cbn.
  assert (length (objects (containers (m_rt s2))) = length (objects (containers (m_rt s)))) as Hlen.
  { rewrite (only_length _ _ _ Ho). apply write_length. }
  assert (on_stores (only r) s (write_c r (set_task_state None) s2)) as Hon.
  { red. cbn. eapply write_only; [exact Hl|apply plain_task_state|apply plain_task_state|done|done|exact Ho|].
    by rewrite Ht. }
  split_and!; [done|red; apply write_row|exact (within_tasks _ _ _ (Hk _ _ _ Hbody))|].
  split.
  - by rewrite (only_length _ _ _ Hon).
  - by rewrite (only_ctype _ _ _ Hon).
  - by rewrite (only_task _ _ _ Hon).
  - by apply (only_saveable _ _ _ Hon).
Qed.

(** The decorators leave the containers alone. *)
Lemma settled_store r s s1 s' :
  m_rt s1 = m_rt s' → m_tasks s1 = m_tasks s' → settled r s s' → settled r s s1.
Proof.
  intros Hrt Hts (H1 & H2 & H3 & [R1 R2 R3 R4]). unfold settled, on_stores, recorded, same_tasks.
  rewrite Hrt, Hts. split_and!; [done..|]. split; by rewrite Hrt.
Qed.
Lemma settles_reporting {A} r e (m : py MS A) : settles r m → settles r (reporting e m).
Proof.
  intros Hm s Hs. specialize (Hm s Hs). unfold reporting. destruct (m s) as [o s1]. cbn in *.
  by apply (settled_store _ _ _ s1).
Qed.
Lemma settles_the {A} r q (f : container → py MS A) :
  (∀ c, settles r (f c)) → settles r (bind (the q) f).
Proof. intros Hf s Hs. rewrite (bind_eq _ _ _ _ _ (the_run q s)). by apply Hf. Qed.
Lemma settles_log {A} r e (m : py MS A) : settles r m → settles r (log e;;; m).
Proof.
  intros Hm s [R1 R2 R3 R4]. unfold log. rewrite bind_modify.
  destruct (Hm (set_m_events (m_events s ++ [e]) s)) as (H1 & H2 & H3 & H4); [by split|].
  by split_and!.
Qed.
Lemma settles_swallow r (m : py MS unit) : settles r m → settles r (swallow m).
Proof.
  intros Hm s Hs. specialize (Hm s Hs). unfold swallow, except_any, try_except.
  destruct (m s) as [[a|e] s1]; [done|]. by destruct (caught e).
Qed.
Lemma settles_event {A} r n a q (m : py MS A) :
  settles r m → settles r (wrap_container_event n a q m).
Proof.
  intros Hm. unfold wrap_container_event, finish_action, event_reporter.
  apply settles_the. intros c. destruct a as [a|]; [apply settles_reporting|];
    apply settles_log; by apply settles_reporting.
Qed.
Lemma settles_action r fn a ts (body : py MS unit) :
  keeps (within r) body → settles r (driver_action fn a ts r body).
Proof. intros Hk. by apply settles_swallow, settles_event, task_settles. Qed.

(** *** The operations *)

Lemma start_body r : keeps (within r)
  (on_error (on_driver_store (P:=P) (drv_start r);;; save_c r) (fail r false)).
Proof. keep_m. Qed.

(** What is done to a capsule is not done to a container. *)
Lemma by_class_within r (m1 m2 : py MS unit) :
  keeps same_tasks m1 → keeps (within r) m2 →
  keeps (within r) (let! c := the r in
    match ctype c with TYPE_CAPSULE => m1 | TYPE_CONTAINER => m2 | _ => ret tt end).
Proof.
  intros H1 H2 s o s'. step (the_run r s).
  destruct (ctype (obj (containers (m_rt s)) r)) eqn:Hc; intros Hs.
  - exact (H2 _ _ _ Hs).
  - split; [exact (H1 _ _ _ Hs)|done].
  - by injection Hs as _ <-.
  - by injection Hs as _ <-.
Qed.
#[local] Hint Resolve by_class_within driver_store_tasks : py.

Lemma mild_preserve : mild preserve_ports.
Proof. apply mild_addresses. Qed.
#[local] Hint Resolve mild_preserve : py.

Lemma create_base_body r nets vols : keeps (within r)
  (let! '(repo, tag) := on_driver_store (P:=P) (drv_parse_image_name r) in
   let! img := on_error (fetch_image r repo tag) (fail r false) in
   mut r (set_image_driver (i_driver img));;;
   save_c r;;; on_error (create_on_driver r img nets vols) (fail r true)).
Proof.
  unfold fetch_image, create_on_driver. keep_m.
Qed.
Lemma create_base_within r nets vols :
  keeps (within r) (_do_container_create_base (P:=P) conf members fuel r nets vols).
Proof. apply nested_within, create_base_body. Qed.
Lemma start_within r : keeps (within r) (_do_container_start (P:=P) conf members fuel r).
Proof. apply wrap_event_within, nested_within, start_body. Qed.
#[local] Hint Resolve create_base_within start_within : py.

Lemma rebuild_body r (run : bool) : keeps (within r) (
  let! c := the (P:=P) (D:=D) r in
  let! vols := _get_vol_info (P:=P) (D:=D) r in
  let! nets := on_error (_get_network_info (P:=P) (D:=D) r) (fail r false) in
  let! exist := on_driver_store (drv_check_container_exist r) in
  (if exist : bool
   then mut r preserve_ports;;; on_error (on_driver_store (drv_delete r true)) (fail r false) else ret tt);;;
  on_error (_do_container_create_base (P:=P) (D:=D) conf members fuel r nets [(Container.uuid c, vols)];;;
            mut r (set_status (Some CREATED));;; save_c r) (fail r false);;;
  if run then _do_container_start (P:=P) (D:=D) conf members fuel r else ret tt).
Proof. unfold _get_vol_info, list_by_container, _get_network_info. keep_m. apply keeps_map_m; [apply _|]. intros nl _. keep_m. Qed.
Lemma rebuild_settles r run : settles r (_do_container_rebuild (P:=P) conf members fuel r run).
Proof. apply settles_event, task_settles, rebuild_body. Qed.

Lemma group_update_within r (m : py MS unit) f :
  keeps (within r) m →
  keeps (within r) (m;;; mut r (λ c, set_security_groups (f c) c);;; save_c r).
Proof. intros. keep_m. Qed.
End Bodies.

(** ** The tasks that only work on their container *)

Definition lifecycle (t : task) : option nat :=
  match t with
  | TStart r | TStop r _ | TReboot r _ | TPause r | TUnpause r | TKill r _ | TRebuild r _
  | TAddSecurityGroup r _ | TRemoveSecurityGroup r _ | TNetworkAttach r _ | TNetworkDetach r _ => Some r
  | TCreate _ _ _ _ _ _ | TDelete _ _ | TUpdate _ _ | TCommit _ _ _ _ => None
  end.

Section Tasks.
Context {P D : Type} `{ReportClient P} `{AllocationClient P} `{ComputeDriver D} `{DevFilter}.
Context `{!DriverLaws D}.
Context (sample : list Z → nat → list Z) (cfg : settings) (conf : manager_conf).
Context (members : nat → list nat) (fuel : nat).
Abbreviation MS := (mgr P D).
Abbreviation run t := (run_task (P:=P) (D:=D) sample cfg conf members fuel t).
Abbreviation next := (step (P:=P) (D:=D) sample cfg conf members fuel).
Implicit Types s : MS.

Lemma lifecycle_settles t r : lifecycle t = Some r → settles r (run t).
Proof.
  destruct t; simpl; try done; intros [= ->]; try (apply settles_action; auto using driver_within with py);
    try (apply group_update_within; auto using driver_within with py).
  - apply settles_the. intros c. apply settles_reporting, settles_event, task_settles, start_body.
  - apply rebuild_settles.
Qed.

(** A container that is in a task already keeps it. *)
Lemma lifecycle_within t r : lifecycle t = Some r → keeps (within r) (run t).
Proof.
  assert (∀ fn a ts (body : py MS unit), keeps (within r) body →
    keeps (within r) (driver_action fn a ts r body)) as Ha.
  { intros fn a ts body Hb. apply keeps_swallow; [apply _|]. by apply wrap_event_within, nested_within. }
  destruct t; simpl; try done; intros [= ->]; try (apply Ha; auto using driver_within with py);
    try (apply group_update_within; auto using driver_within with py).
  - apply keeps_bind; [apply _|apply the_within|]. intros c. apply report_within, start_within.
  - apply wrap_event_within, nested_within, rebuild_body.
Qed.

(** [r] stays ready when another container is worked on. *)
Lemma ready_stable q r s s' : ready r s → settled q s s' → saveable (containers (m_rt s)) q → ready r s'.
Proof.
  intros [Hl Hc Ht Hs] (Ho & Hrec & _ & Hq) Hsq. destruct (decide (r = q)) as [->|Hrq]; [done|].
  pose proof (only_objects _ _ _ Ho r Hrq) as Hobj. split; rewrite ?Hobj; [|done|done|].
  - by rewrite (only_length _ _ _ Ho).
  - destruct Hs as [Hrow Hcs]. unfold saveable, find_row in *. rewrite Hobj. split; [|done].
    destruct (decide (Container.uuid (obj (containers (m_rt s)) r) =
                      Container.uuid (obj (containers (m_rt s)) q))) as [Hu|Hu].
    + rewrite Hu in Hrow |- *. rewrite <- (only_uuid _ _ _ Ho), Hrec.
      destruct Hsq as [Hrq' _]. unfold find_row in Hrq'.
      destruct (dget _ _) as [row|]; [|by destruct Hrow]. case_decide as E1; [|by destruct Hrow].
      case_decide as E2; [|by destruct Hrq']. rewrite (only_ctype _ _ _ Ho).
      by rewrite decide_True by congruence.
    + by rewrite (only_rows _ _ _ Ho _ Hu).
Qed.

(** Every queued task is of that kind, on a container it can work on. *)
Definition calm s : Prop := ∀ t, t ∈ m_tasks s → ∃ r, lifecycle t = Some r ∧ ready r s.

(** A row that changed says that its container is in no task. *)
Definition no_task_left s s' : Prop := ∀ u row,
  dget (rows (containers (m_rt s'))) u = Some row →
  dget (rows (containers (m_rt s))) u = Some row ∨ task_state row = None.

#[export] Instance no_task_left_preorder : PreOrder no_task_left.
Proof.
  split; [by intros s u row; left|]. intros s1 s2 s3 H12 H23 u row Hd.
  destruct (H23 u row Hd) as [H2'|]; [|by right]. exact (H12 u row H2').
Qed.

Lemma step_calm s s' : next s s' → calm s →
  calm s' ∧ (∀ q, ready q s → ready q s') ∧ no_task_left s s' ∧ length (m_tasks s) = S (length (m_tasks s')).
Proof.
  intros [s0 t l1 l2 Ht] Hcalm. destruct (Hcalm t) as (r & Hr & Hready).
  { rewrite Ht. apply elem_of_app. right. by left. }
  set (s1 := set_m_tasks (l1 ++ l2) s0).
  assert (∀ q, ready q s0 → ready q s1) as H01 by (intros q []; by split).
  pose proof (lifecycle_settles t r Hr s1 (H01 r Hready)) as Hset.
  pose proof Hset as (Ho & Hrec & Hts & Hr').
  assert (∀ q, ready q s0 → ready q (run t s1).2) as Hq.
  { intros q Hq0. apply (ready_stable r q s1); [by apply H01|done|apply H01, Hready]. }
  split_and!; [|done| |].
  - intros t' Ht'. rewrite Hts in Ht'. destruct (Hcalm t') as (q & Hq1 & Hq2); [|by eauto].
    rewrite Ht. cbn in Ht'. apply elem_of_app in Ht' as [|]; apply elem_of_app; [by left|right; by right].
  - intros u row Hd. destruct (decide (u = Container.uuid (obj (containers (m_rt s0)) r))) as [->|Hu].
    + right. red in Hrec. pose proof (only_uuid _ _ _ Ho) as Huu.
      change (containers (m_rt s1)) with (containers (m_rt s0)) in Huu.
      rewrite <- Huu, Hrec in Hd. injection Hd as <-. apply Hr'.
    + left. rewrite <- Hd. symmetry. exact (only_rows _ _ _ Ho u Hu).
  - rewrite Hts, Ht. cbn. rewrite !length_app. simpl. lia.
Qed.

(** C10. Whatever Docker, the network or the volumes answer, an operation leaves its
    container in no task.  From a queue of starts, stops, reboots, pauses, kills,
    rebuilds and changes of networks or security groups on containers that can be
    saved, the tasks may run in any order: every container that could be worked on
    still can, each row of the database is either as it was or says that no task
    is running, and the queue runs empty, one task at a time. *)
Theorem tasks_settle s s' n :
  calm s → nsteps next n s s' →
  calm s' ∧ (∀ r, ready r s → ready r s') ∧ no_task_left s s' ∧
  length (m_tasks s) = n + length (m_tasks s') ∧
  (m_tasks s' ≠ [] → ∃ s'', next s' s'').
Proof.
  intros Hcalm Hn.
  assert (calm s' ∧ (∀ r, ready r s → ready r s') ∧ no_task_left s s' ∧
          length (m_tasks s) = n + length (m_tasks s')) as (H1' & H2' & H3' & H4').
  { induction Hn as [s|n s s1 s' Hs Hn IH]; [split_and!; done || reflexivity|].
    destruct (step_calm _ _ Hs Hcalm) as (Hc1 & Hr1 & Hn1 & Hl1).
    destruct (IH Hc1) as (Hc2 & Hr2 & Hn2 & Hl2).
    split_and!; [done|auto|by etrans|lia]. }
  split_and!; [done..|]. destruct (m_tasks s') as [|t l] eqn:Ht; [done|]. intros _.
  eexists. by apply (step_task _ _ _ _ _ s' t [] l).
Qed.

(** ** Recovery at start-up *)

(** The task an interrupted operation is resumed by. *)
Definition resumption (r : nat) (c : container) : option task :=
  match task_state c with
  | Some CONTAINER_REBOOTING => Some (TReboot r (default_timeout conf))
  | Some CONTAINER_STOPPING => Some (TStop r (default_timeout conf))
  | Some CONTAINER_STARTING => Some (TStart r)
  | Some CONTAINER_PAUSING => Some (TPause r)
  | Some CONTAINER_UNPAUSING => Some (TUnpause r)
  | _ => None
  end.

Definition deleting (c : container) : bool :=
  bool_decide (status c = Some DELETING) || bool_decide (task_state c = Some CONTAINER_DELETING).

Abbreviation init r := (_init_container (P:=P) (D:=D) conf r).

Lemma mut_run r f s : mut (P:=P) (D:=D) r f s =
  (Ok tt, set_m_rt (set_containers (mkStore (alter f r (objects (containers (m_rt s))))
     (rows (containers (m_rt s)))) (m_rt s)) s).
Proof. done. Qed.

(** Clearing the task of the object makes the container one that can be worked on. *)
Definition cleared (r : nat) s : MS :=
  set_m_rt (set_containers (mkStore (alter (set_task_state None) r (objects (containers (m_rt s))))
    (rows (containers (m_rt s)))) (m_rt s)) s.

Lemma cleared_ready r s :
  r < length (objects (containers (m_rt s))) → ctype (obj (containers (m_rt s)) r) ≠ TYPE_CAPSULE →
  saveable (containers (m_rt s)) r → ready r (cleared r s).
Proof.
  intros Hl Hc Hs. split; cbn.
  - by rewrite length_alter.
  - by rewrite obj_alter_at, decide_True by done.
  - by rewrite obj_alter_at, decide_True by done.
  - by apply saveable_alter; auto with py.
Qed.

Lemma init_resumes r s t :
  let c := obj (containers (m_rt s)) r in
  transitional c = false → deleting c = false → resumption r c = Some t →
  init r s = (Ok tt, set_m_tasks (m_tasks s ++ [t]) (cleared r s)).
Proof.
  intros c Ht Hd Hr. unfold _init_container. step (the_run r s). fold c. rewrite Ht.
  unfold deleting in Hd. rewrite Hd. unfold resumption in Hr.
  destruct (task_state c) as [[]|]; try done; injection Hr as <-; step (mut_run r (set_task_state None) s); done.
Qed.

Lemma init_fails r s :
  let c := obj (containers (m_rt s)) r in
  r < length (objects (containers (m_rt s))) → saveable (containers (m_rt s)) r → transitional c = true →
  init r s = (Ok tt, write_c r (λ c, set_status (Some ERROR) (set_task_state None c)) s).
Proof.
  intros c Hl Hs Ht. unfold _init_container. step (the_run r s). fold c. rewrite Ht.
  step (mut_run r (set_task_state None) s). fold (cleared r s).
  assert (saveable (containers (m_rt (cleared r s))) r) as Hs1 by (cbn; apply saveable_alter; auto with py).
  rewrite (mut_save_run r (set_status (Some ERROR)) _ Hs1 (plain_status _)).
  unfold write_c, cleared, write. cbn. by rewrite alter_twice.
Qed.

(** After a restart of the service the containers it finds half-way come to
    rest.  One whose creation, or whose network or security group change, was
    interrupted is recorded in error with no task at once.  One that was being
    started, stopped, rebooted, paused or unpaused gets the same task again, and
    when that task has run, whatever it met, the row says that no task is
    running.  No other container changes. *)
Theorem restart_recovers r s :
  let c := obj (containers (m_rt s)) r in
  r < length (objects (containers (m_rt s))) → ctype c ≠ TYPE_CAPSULE →
  saveable (containers (m_rt s)) r → transitional c = true ∨ is_Some (resumption r c) →
  deleting c = false →
  ∃ s1, init r s = (Ok tt, s1) ∧
    let s2 := match drop (length (m_tasks s)) (m_tasks s1) with
              | [t] => (run t (set_m_tasks (m_tasks s) s1)).2
              | _ => s1
              end in
    m_tasks s2 = m_tasks s ∧ recorded r s2 ∧
    task_state (obj (containers (m_rt s2)) r) = None ∧
    (transitional c = true → status (obj (containers (m_rt s2)) r) = Some ERROR) ∧
    (∀ q, q ≠ r → obj (containers (m_rt s2)) q = obj (containers (m_rt s)) q).
Proof.
  intros c Hl Hc Hs Hcase Hdel. destruct (transitional c) eqn:Htr.
  - eexists. split; [by apply init_fails|]. cbn zeta. cbn [m_tasks write_c set_m_rt].
    rewrite drop_all. cbn. rewrite !write_obj by done. rewrite decide_True by done.
    split_and!; [done|apply write_row|done|done|]. intros q Hq. by rewrite write_obj, decide_False.
  - destruct Hcase as [|[t Ht]]; [done|]. eexists. split; [by apply (init_resumes r s t)|].
    cbn zeta. cbn [m_tasks set_m_tasks]. rewrite drop_app_length.
    assert (lifecycle t = Some r) as Hlife.
    { unfold resumption in Ht. destruct (task_state c) as [[]|]; by simplify_eq. }
    set (s1 := set_m_tasks (m_tasks s) _).
    assert (ready r s1) as Hready by (destruct (cleared_ready r s Hl Hc Hs); by split).
    destruct (lifecycle_settles t r Hlife s1 Hready) as (Ho & Hrec & Hts & Hr).
    split_and!; [exact Hts|done|apply Hr|done|]. intros q Hq.
    rewrite (only_objects _ _ _ Ho q Hq). cbn. by rewrite obj_alter_at, decide_False.
Qed.

(** Two interrupted operations are not recovered.  A container that was being
    killed makes the recovery raise, because [container_kill] is called without
    its signal; and one that was being rebuilt is left as it is, after which no
    operation ever clears its task: each sees a task already there and leaves it. *)
Theorem restart_leaves r s :
  let c := obj (containers (m_rt s)) r in
  transitional c = false → deleting c = false →
  (task_state c = Some CONTAINER_KILLING → (init r s).1 = Raise (Py TypeError)) ∧
  (task_state c = Some CONTAINER_REBUILDING → ctype c ≠ TYPE_CAPSULE →
   init r s = (Ok tt, s) ∧
   ∀ t, lifecycle t = Some r →
     task_state (obj (containers (m_rt (run t s).2)) r) = Some CONTAINER_REBUILDING).
Proof.
  intros c Htr Hdel. unfold deleting in Hdel. split.
  - intros Ht. unfold _init_container. step (the_run r s). fold c. by rewrite Htr, Hdel, Ht.
  - intros Ht Hc. split.
    { unfold _init_container. step (the_run r s). fold c. by rewrite Htr, Hdel, Ht. }
    intros t Hlife. destruct (run t s) as [o s'] eqn:Hrun.
    destruct (lifecycle_within t r Hlife _ _ _ Hrun) as [_ Hw]. fold c in Hw.
    assert (task_state c ≠ None) as Hn by (rewrite Ht; done).
    pose proof (Hw Hc Hn) as Ho. cbn. rewrite (only_task _ _ _ Ho). exact Ht.
Qed.
End Tasks.

(** ** Creation and deletion *)

(** A container in a task, which can be saved. *)
Record inside {P D} (r : nat) (s : mgr P D) : Prop := mkInside {
  inside_object : r < length (objects (containers (m_rt s)));
  inside_type : ctype (obj (containers (m_rt s)) r) ≠ TYPE_CAPSULE;
  inside_task : task_state (obj (containers (m_rt s)) r) ≠ None;
  inside_saveable : saveable (containers (m_rt s)) r
}.

Lemma inside_within {P D} r (s s' : mgr P D) : inside r s → within r s s' → inside r s'.
Proof.
  intros [Hl Hc Ht Hs] [_ Hw]. specialize (Hw Hc Ht). split.
  - by rewrite (only_length _ _ _ Hw).
  - by rewrite (only_ctype _ _ _ Hw).
  - by rewrite (only_task _ _ _ Hw).
  - by apply (only_saveable _ _ _ Hw).
Qed.

(** What the tracker and the database know of the node. *)
Definition same_books {P D} : relation (mgr P D) := λ s s', books (m_rt s') = books (m_rt s).
#[export] Instance same_books_preorder {P D} : PreOrder (same_books (P:=P) (D:=D)).
Proof. split; [by intros s|]. intros s1 s2 s3 H1 H2. unfold same_books in *. congruence. Qed.

Section CreateDelete.
Context {P D : Type} `{ReportClient P} `{AllocationClient P} `{ComputeDriver D} `{DevFilter}.
Context `{!DriverLaws D}.
Context (sample : list Z → nat → list Z) (cfg : settings) (conf : manager_conf).
Context (members : nat → list nat) (fuel : nat).
Abbreviation MS := (mgr P D).
Abbreviation fail r b := (_fail_container (P:=P) (D:=D) conf members fuel r b).
Implicit Types s : MS.

#[local] Hint Resolve store_within driver_within drivers_within volumes_within the_within save_within
  mut_within detach_within fail_within by_class_within driver_store_tasks : py.

(** Failing a container, inside a task, records the error. *)
Lemma fail_run r b s o s' :
  inside r s → fail r b s = (o, s') →
  match o with
  | Ok _ => status (obj (containers (m_rt s')) r) = Some ERROR
  | Raise e => e = OutOfFuel
  end.
Proof.
  intros Hin. unfold _fail_container, fail_with.
  destruct (swallow (_detach_volumes conf members fuel r true) s) as [o1 s1] eqn:R1.
  assert (inside r s1) as Hin1.
  { apply (inside_within r s s1 Hin).
    refine (keeps_swallow (within r) _ _ _ _ _ R1). apply detach_within. }
  destruct o1 as [[]|e1].
  - step R1. rewrite <- bind_assoc. set (f := λ c : container, if b then set_host None (set_status (Some ERROR) c)
      else set_status (Some ERROR) c).
    assert (plain_update f) as Hf by (intros []; unfold f; by destruct b).
    assert ((mut r (set_status (Some ERROR));;; (if b then mut r (set_host None) else ret tt);;; save_c r) s1 =
      (mut r f;;; save_c r) s1) as Hrun.
    { rewrite !(bind_eq _ _ _ _ _ (mut_run r _ s1)). unfold f. destruct b; [|done].
      rewrite (bind_eq _ _ _ _ _ (mut_run r _ _)). cbn. by rewrite alter_twice. }
    rewrite bind_assoc, Hrun, (mut_save_run r f s1 (inside_saveable _ _ Hin1) Hf). intros [= <- <-].
    cbn. rewrite write_obj, decide_True by (done || apply Hin1). unfold f. by destruct b.
  - rewrite (bind_err _ _ _ _ _ R1). intros [= <- <-]. revert R1. unfold swallow, except_any, try_except.
    destruct (_detach_volumes _ _ _ r true s) as [[[]|e] s2]; [done|].
    destruct (caught e) eqn:He; [done|]. intros [= <- <-]. by destruct e.
Qed.

(** So does an error handled by failing the container. *)
Lemma on_error_fails {A} r b (m : py MS A) s e s' :
  inside r s → keeps (within r) m → on_error m (fail r b) s = (Raise e, s') → e ≠ OutOfFuel →
  status (obj (containers (m_rt s')) r) = Some ERROR.
Proof.
  intros Hin Hm Hrun He. unfold on_error, except_any, try_except in Hrun.
  destruct (m s) as [[a|e1] s1] eqn:R1; [done|].
  destruct (caught e1) eqn:Hc; [|by destruct e1; simplify_eq].
  pose proof (inside_within r s s1 Hin (Hm _ _ _ R1)) as Hin1.
  destruct (fail r b s1) as [o2 s2] eqn:R2. pose proof (fail_run _ _ _ _ _ Hin1 R2) as Hf.
  destruct o2 as [[]|e2].
  - rewrite (bind_eq _ _ _ _ _ R2) in Hrun. by injection Hrun as <- <-.
  - rewrite (bind_err _ _ _ _ _ R2) in Hrun. congruence.
Qed.

Lemma task_inside r ts s : ready r s → inside r (write_c r (set_task_state (Some ts)) s).
Proof.
  intros [Hl Hc Ht Hs]. split; cbn.
  - by rewrite length_alter.
  - rewrite write_obj, decide_True by done. exact Hc.
  - by rewrite write_obj, decide_True by done.
  - apply write_saveable; auto with py.
Qed.

(** When creation fails after the name of the image was understood, the container
    is recorded in error and in no task. *)
Lemma base_fails r nets vols s e s' name :
  ready r s →
  (on_driver_store (drv_parse_image_name r) (write_c r (set_task_state (Some CONTAINER_CREATING)) s)).1
    = Ok name →
  _do_container_create_base (P:=P) conf members fuel r nets vols s = (Raise e, s') → e ≠ OutOfFuel →
  status (obj (containers (m_rt s')) r) = Some ERROR.
Proof.
  intros Hr Hparse Hrun He. unfold _do_container_create_base in Hrun.
  set (s0 := write_c r (set_task_state (Some CONTAINER_CREATING)) s) in *.
  set (body := bind _ _) in Hrun. assert (keeps (within r) body) as Hk by apply create_base_body.
  destruct (body s0) as [o s2] eqn:Hbody.
  destruct (task_run r CONTAINER_CREATING body s o s2 Hr Hk Hbody) as (Heq & Ho & _).
  rewrite Heq in Hrun. injection Hrun as -> <-. cbn.
  rewrite write_obj, decide_True; [|done|rewrite (only_length _ _ _ Ho); cbn; rewrite length_alter; apply Hr].
  pose proof (task_inside r CONTAINER_CREATING s Hr) as Hin. fold s0 in Hin.
  change (status (obj (containers (m_rt s2)) r) = Some ERROR).
  unfold body in Hbody. destruct (on_driver_store (drv_parse_image_name r) s0) as [o1 s1] eqn:R1.
  cbn in Hparse. subst o1. rewrite (bind_eq _ _ _ _ _ R1) in Hbody. destruct name as [repo tag].
  assert (inside r s1) as Hin1 by (eapply inside_within; [exact Hin|];
    refine (driver_within r _ _ _ _ _ R1); auto with py).
  apply bind_Raise in Hbody as [Hf|(img & s3 & R3 & Hbody)].
  - eapply on_error_fails; [exact Hin1| |exact Hf|done]. unfold fetch_image. keep_m.
  - assert (inside r s3) as Hin3.
    { eapply inside_within; [exact Hin1|]. refine (keeps_on_error (within r) _ _ _ _ _ _ _ R3).
      - unfold fetch_image. keep_m.
      - apply fail_within. }
    apply bind_Raise in Hbody as [Hm|([] & s5 & R5 & Hbody)]; [done|].
    assert (inside r s5) as Hin5 by (eapply inside_within; [exact Hin3|]; refine (mut_within r _ _ _ _ _ R5); auto with py).
    apply bind_Raise in Hbody as [Hsave|([] & s4 & R4 & Hbody)].
    + pose proof (save_saveable _ _ (inside_saveable _ _ Hin5)) as Hok.
      unfold save_c, Volumes.on_store, on_rt, on_containers, zoom in Hsave. by rewrite Hok in Hsave.
    + eapply on_error_fails; [| |exact Hbody|done].
      * eapply inside_within; [exact Hin5|]. exact (save_within r _ _ _ R4).
      * unfold create_on_driver. keep_m.
Qed.

(** *** The books are left to the tracker *)

Lemma store_books {A} (m : py store A) : keeps (same_books (P:=P) (D:=D)) (Volumes.on_store m).
Proof.
  intros s o s'. unfold Volumes.on_store, on_rt, on_containers, zoom. destruct (m _). by intros [= _ <-].
Qed.
Lemma driver_store_books {A} (m : py (D * store) A) : keeps (same_books (P:=P)) (on_driver_store m).
Proof. intros s o s'. unfold on_driver_store, zoom. destruct (m _). by intros [= _ <-]. Qed.
Lemma drivers_books {A} (m : py D A) : keeps (same_books (P:=P)) (on_drivers m).
Proof. intros s o s'. unfold on_drivers, zoom. destruct (m _). by intros [= _ <-]. Qed.
Lemma volumes_books {A} (m : py volumes A) : keeps (same_books (P:=P) (D:=D)) (on_volumes m).
Proof. intros s o s'. unfold on_volumes, zoom. destruct (m _). by intros [= _ <-]. Qed.
#[local] Hint Resolve store_books driver_store_books drivers_books volumes_books : py.
#[local] Hint Extern 1 (keeps same_books (the _)) => apply store_books : py.
#[local] Hint Extern 1 (keeps same_books (mut _ _)) => apply store_books : py.
#[local] Hint Extern 1 (keeps same_books (save_c _)) => apply store_books : py.

Lemma detach_each_books l b : keeps same_books (detach_each (P:=P) (D:=D) l b).
Proof. intros s o s' Hs. red. by rewrite (detach_each_rt _ _ _ _ _ Hs). Qed.
Lemma wait_deleted_books l : keeps same_books (wait_for_deleted (P:=P) (D:=D) conf fuel l).
Proof. intros s o s' Hs. red. by rewrite (proj1 (wait_for_deleted_drivers _ _ _ _ _ _ Hs)). Qed.
#[local] Hint Resolve detach_each_books wait_deleted_books : py.

Lemma detach_books n r b : keeps same_books (detach_volumes (P:=P) (D:=D) conf members fuel n r b).
Proof.
  revert r b. induction n as [|n IH]; intros r b; [by apply keeps_raise, _|].
  simpl. unfold list_by_container, fail_with. keep_m.
Qed.
#[local] Hint Resolve detach_books : py.
Lemma fail_books r b : keeps same_books (fail r b).
Proof. unfold _fail_container, _detach_volumes, fail_with. keep_m. Qed.
#[local] Hint Resolve fail_books : py.
Lemma base_books r nets vols :
  keeps same_books (_do_container_create_base (P:=P) (D:=D) conf members fuel r nets vols).
Proof. unfold _do_container_create_base, _update_task_state, fetch_image, create_on_driver. keep_m. Qed.

Lemma on_rt_run {A} (m : py (rt P) A) s o s' :
  on_rt m s = (o, s') → m (m_rt s) = (o, m_rt s').
Proof. unfold on_rt, zoom. destruct (m (m_rt s)) as [o1 t]. by intros [= <- <-]. Qed.


Lemma delete_body r force : keeps (within r)
  (on_error_unless (negb force) (delete_on_driver (P:=P) r force) (fail r false);;;
   _detach_volumes conf members fuel r (negb force)).
Proof. unfold delete_on_driver, _detach_volumes. keep_m. Qed.

(** Giving back the usage and the allocation touches no container. *)
Definition same_containers : relation MS := λ s s', containers (m_rt s') = containers (m_rt s).
#[local] Instance same_containers_preorder : PreOrder same_containers.
Proof. split; [by intros s|]. intros s1 s2 s3 E1 E2. unfold same_containers in *. congruence. Qed.
Lemma rt_containers {A} (m : py (rt P) A) : keeps same_store m → keeps same_containers (on_rt (D:=D) m).
Proof. intros Hm s o s' Hs. exact (Hm _ _ _ (on_rt_run _ _ _ _ Hs)). Qed.
Lemma allocation_containers r : keeps same_containers (delete_allocation (P:=P) (D:=D) r).
Proof.
  unfold delete_allocation. apply keeps_bind; [apply _| |intros c].
  - intros s o s'. rewrite the_run. by intros [= _ <-].
  - apply rt_containers, zoom_store. done.
Qed.

(** C37. A container disappears from the database last.  If the deletion returns,
    its row is gone; if anything in it raises, Docker, the volumes, the tracker
    or the deletion of the allocation in placement, the row is still there, so
    that the deletion can be tried again.  No other row changes, and the container
    is left in no task. *)
Theorem delete_removes_row_last r force s o s' :
  ready r s → NoDup (dkeys (rows (containers (m_rt s)))) →
  _do_container_delete cfg conf members fuel r force s = (o, s') →
  let u := Container.uuid (obj (containers (m_rt s)) r) in
  match o with
  | Ok _ => dget (rows (containers (m_rt s'))) u = None
  | Raise _ => is_Some (dget (rows (containers (m_rt s'))) u)
  end ∧
  (∀ v, v ≠ u → dget (rows (containers (m_rt s'))) v = dget (rows (containers (m_rt s))) v) ∧
  task_state (obj (containers (m_rt s')) r) = None.
Proof.
  intros Hr Hnd Hrun u. unfold _do_container_delete in Hrun.
  destruct (task_settles r CONTAINER_DELETING _ (delete_body r force) s Hr) as (Ho & _ & _ & Hr1).
  destruct (_update_task_state r CONTAINER_DELETING _ s) as [o1 s1] eqn:R1. cbn [snd] in Ho, Hr1.
  pose proof (only_uuid _ _ _ Ho) as Hu. fold u in Hu.
  assert (find_row (containers (m_rt s1)) (obj (containers (m_rt s1)) r) ≠ None) as Hrow.
  { destruct (ready_saveable _ _ Hr1) as [[row Hrow] _]. by rewrite Hrow. }
  assert (is_Some (dget (rows (containers (m_rt s1))) u)) as Hget.
  { rewrite <- Hu. unfold find_row in Hrow. destruct (dget _ _); [by eexists|done]. }
  assert (∀ s2, same_containers s1 s2 →
    is_Some (dget (rows (containers (m_rt s2))) u) ∧
    (∀ v, v ≠ u → dget (rows (containers (m_rt s2))) v = dget (rows (containers (m_rt s))) v) ∧
    task_state (obj (containers (m_rt s2)) r) = None) as Hkept.
  { intros s2 ->. split_and!; [done|apply Ho|apply Hr1]. }
  destruct o1 as [[]|e]; [|rewrite (bind_err _ _ _ _ _ R1) in Hrun; injection Hrun as <- <-; by apply Hkept].
  rewrite (bind_eq _ _ _ _ _ R1) in Hrun. rewrite (bind_eq _ _ _ _ _ (the_run r s1)) in Hrun.
  rewrite <- bind_assoc in Hrun. match type of Hrun with bind ?m _ _ = _ => set (give := m) in Hrun end.
  assert (keeps same_containers give) as K.
  { apply (keeps_bind same_containers); [apply rt_containers, remove_usage_store|intros _; apply allocation_containers]. }
  destruct (give s1) as [[[]|e3] s3] eqn:R3; apply K in R3 as Hs3;
    [|rewrite (bind_err _ _ _ _ _ R3) in Hrun; injection Hrun as <- <-; by apply Hkept].
  rewrite (bind_eq _ _ _ _ _ R3) in Hrun.
  assert (s' = set_m_rt (set_containers (mkStore (objects (containers (m_rt s1)))
    (ddel (rows (containers (m_rt s1))) u)) (m_rt s3)) s3 ∧ o = Ok tt) as [-> ->].
  { revert Hrun. unfold Volumes.on_store, on_rt, on_containers, zoom, destroy, Container.read.
    rewrite bind_gets, bind_get, Hs3. destruct (find_row _ _); [|done]. cbn. rewrite Hu.
    by intros [= <- <-]. }
  cbn. split_and!; [|intros v Hv|apply Hr1].
  - apply dget_ddel_eq. by rewrite (only_keys _ _ _ Ho).
  - rewrite dget_ddel_ne by done. by apply Ho.
Qed.

(** *** Updating a container with dedicated CPUs *)

Definition limit_error (e : exn) : Prop := e = Py AttributeError ∨ e = Py TypeError ∨ e = Zun NoValidHost.

Lemma cpuset_limits_raise cells c s :
  ∃ e, (cpuset_limits (P:=P) (D:=D) cells c s) = (Raise e, s) ∧ limit_error e.
Proof.
  unfold limit_error. induction cells as [|n cells IH]; simpl; [by eauto|].
  destruct (cpu c) as [q|]; simpl; [|by eauto]. rewrite bind_ret. case_bool_decide; [by eauto|exact IH].
Qed.

Lemma update_limits_raise c s :
  cpu_policy c = Some "dedicated" →
  ∃ e, (update_limits (P:=P) (D:=D) c s) = (Raise e, s) ∧ limit_error e.
Proof.
  intros Hp. unfold update_limits.
  assert ((∃ n, on_rt cn s = (Ok n, s)) ∨ on_rt (D:=D) cn s = (Raise (Py AttributeError), s))
    as [[n R1]|R1].
  { unfold on_rt, cn, zoom. rewrite bind_gets. destruct s as [t d v l ev]. cbn.
    destruct (compute_node t); [left; by eexists|by right]. }
  - rewrite (bind_eq _ _ _ _ _ R1), bind_gets.
    destruct (cpu_allocation_ratio _) as [q1|]; [cbn [of_option]|eexists; split; [done|unfold limit_error; auto]].
    destruct (ram_allocation_ratio _) as [q2|]; [cbn [of_option]|eexists; split; [done|unfold limit_error; auto]].
    rewrite !bind_ret, bool_decide_eq_true_2 by done. unfold _get_cpuset_limits.
    destruct (numa_topology n) as [cells|]; cbn [of_option];
      [|eexists; split; [done|unfold limit_error; auto]].
    rewrite bind_assoc, bind_ret. destruct (cpuset_limits_raise cells c s) as (e & R2 & He).
    exists e. by rewrite (bind_err _ _ _ _ _ R2).
  - eexists. rewrite (bind_err _ _ _ _ _ R1). split; [done|unfold limit_error; auto].
Qed.

(** A container with dedicated CPUs cannot be updated.  The limits of the update
    compare the free memory of a NUMA cell, a number, with the memory of the
    container, a text: whatever the node and the patch are, [container_update]
    raises a [ZunException], Docker is not asked anything and no row changes; but
    the object keeps the patched fields. *)
Theorem dedicated_update_fails r p s :
  cpu_policy (obj (containers (m_rt s)) r) = Some "dedicated" →
  r < length (objects (containers (m_rt s))) →
  ∃ e s', container_update sample cfg r p s = (Raise e, s') ∧ isinstance e ZunException = true ∧
    m_drivers s' = m_drivers s ∧ rows (containers (m_rt s')) = rows (containers (m_rt s)) ∧
    obj (containers (m_rt s')) r = apply_patch p (obj (containers (m_rt s)) r).
Proof.
  intros Hp Hl. unfold container_update, translate_exception, except_any, try_except.
  rewrite (bind_eq _ _ _ _ _ (the_run r s)), (bind_eq _ _ _ _ _ (mut_run r _ s)).
  set (s1 := set_m_rt _ s). rewrite (bind_eq _ _ _ _ _ (the_run r s1)).
  assert (obj (containers (m_rt s1)) r = apply_patch p (obj (containers (m_rt s)) r)) as Hobj.
  { cbn. by rewrite obj_alter_at, decide_True. }
  destruct (update_limits_raise (obj (containers (m_rt s1)) r) s1) as (e & R1 & He); [by rewrite Hobj|].
  rewrite (bind_err _ _ _ _ _ R1).
  destruct He as [->|[->| ->]]; eexists _, s1; split_and!; done.
Qed.
End CreateDelete.

(** ** The Docker driver keeps the promises

    Its life cycle is [DockerDriver]'s; what that file does not model (creation,
    images, networks, volumes) is any driver [rest] that keeps them. *)

Section Docker.
Context {D : Type} `{DockerEnv D} (rest : ComputeDriver D).

Definition docker_compute : ComputeDriver D := {|
  drv_start r := run_driver (DockerDriver.start r);
  drv_stop r t := run_driver (DockerDriver.stop r t);
  drv_reboot r t := run_driver (DockerDriver.reboot r t);
  drv_pause r := run_driver (DockerDriver.pause r);
  drv_unpause r := run_driver (DockerDriver.unpause r);
  drv_kill r sig := run_driver (DockerDriver.kill r sig);
  drv_show r := run_driver (DockerDriver.show r);
  drv_delete r force := run_driver (DockerDriver.delete r force);
  drv_check_container_exist r := run_driver (DockerDriver.check_container_exist r);
  drv_update := drv_update; drv_delete_capsule := drv_delete_capsule;
  drv_create := drv_create; drv_create_capsule := drv_create_capsule;
  drv_get_neutron_port := drv_get_neutron_port; drv_get_neutron_network := drv_get_neutron_network;
  drv_network_attach := drv_network_attach;
  drv_network_detach := drv_network_detach; drv_add_security_group := drv_add_security_group;
  drv_remove_security_group := drv_remove_security_group;
  drv_parse_image_name := drv_parse_image_name; drv_pull_image := drv_pull_image;
  drv_load_image := drv_load_image; drv_read_tar_image := drv_read_tar_image;
  drv_commit := drv_commit; drv_create_image := drv_create_image; drv_get_image := drv_get_image;
  drv_upload_image_data := drv_upload_image_data;
  drv_delete_committed_image := drv_delete_committed_image; drv_delete_image := drv_delete_image;
  drv_list := drv_list; base_device_size := base_device_size;
  support_disk_quota := support_disk_quota; vol_attach := vol_attach; vol_detach := vol_detach;
  vol_delete := vol_delete; vol_is_available := vol_is_available;
  vol_is_deleted := vol_is_deleted; clock := clock; sleep := sleep |}.

Lemma docker_laws : DriverLaws D (H:=rest) → DriverLaws D (H:=docker_compute).
Proof.
  intros Hrest. split; intros; simpl;
    first [apply run_driver_only; first [apply start_only|apply stop_only|apply reboot_only
            |apply pause_only|apply unpause_only|apply kill_only|apply delete_only|apply check_exist_only]
          |apply Hrest].
Qed.
End Docker.

(** ** Examples *)

#[export] Instance demo_allocations : AllocationClient unit :=
  {| delete_allocation_for_container _ := ret tt |}.

#[export] Instance demo_driver_laws : DriverLaws Z.
Proof.
  assert (∀ A (r : nat) (a : A), keeps (E:=exn) (S:=Z * store) (λ x y, only r x.2 y.2) (ret a)) as Hret.
  { by intros A r a s o s' [= _ <-]. }
  split; intros; try apply Hret.
  intros x o x'. simpl. destruct (100 <=? x.1)%Z; by intros [= _ <-].
Qed.

Abbreviation demo_run t s := (run_task (P:=unit) (D:=Z) (H2:=vendor_filter) (λ l k, take k l)
  demo_settings demo_manager_conf demo_members 4 t s).
Abbreviation demo_step := (step (P:=unit) (D:=Z) (H2:=vendor_filter) (λ l k, take k l)
  demo_settings demo_manager_conf demo_members 4).

Lemma demo_ready : ready 0 demo_manager.
Proof. split; simpl; [lia|done|done|]. split; [by eexists|done]. Qed.

Definition demo_queue : mgr unit Z := set_m_tasks [TStart 0; TPause 0] demo_manager.
Abbreviation demo_after_one := ((demo_run (TPause 0) (set_m_tasks [TStart 0] demo_queue)).2).
Abbreviation demo_after_two := ((demo_run (TStart 0) (set_m_tasks [] demo_after_one)).2).

(** The second task first. *)
Lemma tasks_settle_witness :
  calm demo_queue ∧ nsteps demo_step 2 demo_queue demo_after_two ∧
  ready 0 demo_after_two ∧ m_tasks demo_after_two = [].
Proof.
  assert (calm demo_queue) as Hcalm.
  { intros t Ht. exists 0. destruct demo_ready as [R1 R2 R3 R4].
    cbn in Ht. apply elem_of_cons in Ht as [->|Ht]; [by split|].
    apply list_elem_of_singleton in Ht as ->. by split. }
  assert (nsteps demo_step 2 demo_queue demo_after_two) as Hsteps.
  { eapply (nsteps_l _ 1 _ demo_after_one).
    - exact (step_task _ _ _ _ _ demo_queue (TPause 0) [TStart 0] [] eq_refl).
    - eapply (nsteps_l _ 0 _ demo_after_two); [|apply nsteps_O].
      apply (step_task _ _ _ _ _ demo_after_one (TStart 0) [] []). by vm_compute. }
  split; [exact Hcalm|split; [exact Hsteps|]].
  destruct (tasks_settle (P:=unit) (H2:=vendor_filter) (λ l k, take k l) demo_settings demo_manager_conf
    demo_members 4 demo_queue demo_after_two 2 Hcalm Hsteps) as (_ & Hr & _ & _).
  split; [apply Hr; destruct demo_ready; by split|by vm_compute].
Defined.

(** The manager with another container, or with another clock. *)
Definition demo_with (f : container → container) : mgr unit Z := write_c 0 f demo_manager.
Definition demo_late : mgr unit Z :=
  mkMgr NodeTracker.demo 100%Z (m_volumes demo_manager) [] [].

Definition demo_interrupted (ts : TaskState) : mgr unit Z :=
  demo_with (λ c, set_status (Some RUNNING) (set_task_state (Some ts) c)).

Lemma restart_recovers_witness :
  ∃ s1, _init_container demo_manager_conf 0 (demo_interrupted CONTAINER_STARTING) = (Ok tt, s1) ∧
    m_tasks s1 = [TStart 0] ∧ recorded 0 (demo_run (TStart 0) (set_m_tasks [] s1)).2.
Proof.
  destruct (restart_recovers (P:=unit) (H2:=vendor_filter) (λ l k, take k l) demo_settings
    demo_manager_conf demo_members 4 0 (demo_interrupted CONTAINER_STARTING))
    as (s1 & Hrun & _ & Hrec & _);
    [simpl; lia|done|by split; [eexists|]|by right; eexists|done|].
  assert (m_tasks s1 = [TStart 0]) as Ht.
  { transitivity (m_tasks (_init_container (P:=unit) demo_manager_conf 0
      (demo_interrupted CONTAINER_STARTING)).2); [by rewrite Hrun|vm_compute; reflexivity]. }
  change (m_tasks (demo_interrupted CONTAINER_STARTING)) with (@nil task) in Hrec.
  rewrite Ht in Hrec. cbn [length drop] in Hrec.
  exists s1. split; [exact Hrun|]. split; [exact Ht|exact Hrec].
Defined.

Lemma restart_leaves_witness :
  (_init_container (P:=unit) demo_manager_conf 0 (demo_interrupted CONTAINER_KILLING)).1
    = Raise (Py TypeError) ∧
  task_state (obj (containers (m_rt (demo_run (TStart 0) (demo_interrupted CONTAINER_REBUILDING)).2)) 0)
    = Some CONTAINER_REBUILDING.
Proof.
  split.
  - by apply (restart_leaves (P:=unit) (H2:=vendor_filter) (λ l k, take k l) demo_settings
      demo_manager_conf demo_members 4 0 (demo_interrupted CONTAINER_KILLING)).
  - by apply (restart_leaves (P:=unit) (H2:=vendor_filter) (λ l k, take k l) demo_settings
      demo_manager_conf demo_members 4 0 (demo_interrupted CONTAINER_REBUILDING)).
Defined.

Abbreviation demo_late_claim :=
  (on_rt (container_claim (H0:=vendor_filter) (λ l k, take k l) demo_settings 0 None (Some demo_limits))
     demo_late).
Abbreviation demo_late_base :=
  (_do_container_create_base demo_manager_conf demo_members 4 0 [] [] demo_late_claim.2).
Abbreviation demo_late_abort :=
  (on_rt (abort_claim (H0:=vendor_filter) demo_settings demo_container) demo_late_base.2).


(** Placement refuses to delete the allocation. *)
Definition no_allocations : AllocationClient unit :=
  {| delete_allocation_for_container _ := raise (Zun Conflict) |}.
Definition demo_bare : mgr unit Z :=
  set_m_volumes (mkVolumes [] [] ∅) (demo_with (set_status (Some CREATED))).
Abbreviation demo_delete alloc := (_do_container_delete (H0:=alloc) (H2:=vendor_filter) demo_settings
  demo_manager_conf demo_members 4 0 true demo_bare).

Lemma delete_removes_row_last_witness :
  dget (rows (containers (m_rt (demo_delete demo_allocations).2))) "c1" = None ∧
  is_Some (dget (rows (containers (m_rt (demo_delete no_allocations).2))) "c1").
Proof.
  assert (ready 0 demo_bare) as Hr.
  { split; simpl; [lia|done|done|]. by split; [eexists|]. }
  assert (NoDup (dkeys (rows (containers (m_rt demo_bare))))) as Hnd.
  { apply NoDup_singleton. }
  assert ((demo_delete demo_allocations).1 = Ok tt) as R1 by (vm_compute; reflexivity).
  assert ((demo_delete no_allocations).1 = Raise (Zun Conflict)) as R2 by (vm_compute; reflexivity).
  split.
  - exact (proj1 (delete_removes_row_last (P:=unit) (H0:=demo_allocations) (H2:=vendor_filter)
      demo_settings demo_manager_conf demo_members 4 0 true _ _ _ Hr Hnd (run_eq _ _ R1))).
  - exact (proj1 (delete_removes_row_last (P:=unit) (H0:=no_allocations) (H2:=vendor_filter)
      demo_settings demo_manager_conf demo_members 4 0 true _ _ _ Hr Hnd (run_eq _ _ R2))).
Defined.

Lemma dedicated_update_fails_witness :
  ∃ e s', container_update (P:=unit) (H2:=vendor_filter) (λ l k, take k l) demo_settings 0
    (mkPatch (Some (Some 1%Qc)) None None None) (demo_with (set_cpu_policy (Some "dedicated"))) =
    (Raise e, s').
Proof.
  destruct (dedicated_update_fails (P:=unit) (H2:=vendor_filter) (λ l k, take k l) demo_settings 0
    (mkPatch (Some (Some 1%Qc)) None None None) (demo_with (set_cpu_policy (Some "dedicated"))))
    as (e & s' & Hrun & _); [done|simpl; lia|]. by exists e, s'.
Defined.
