(* ===== verification/Placement.v ===== *)
(** * The placement client: requests and allocations (src/zun/scheduler/client/report.py)

    [SchedulerReportClient] talks to the placement service over HTTP: it looks
    providers up, claims resources for a consumer (a container) and removes them.
    Its cached tree of providers is in [PlacementSync].

    The service and the keystone library are the class [PlacementServer]: one
    method that answers a request, on a state of its own.  A request carries its
    microversion, and its answer has the type of its JSON body.  An error status
    may come back as an answer or as an exception of the library; the models
    cover both.  Request ids, logging and the random pauses between attempts are
    left out. *)

From S2P Require Import Prelude Exceptions ProviderTree ResourceRequest Scheduler.

(** ** Requests and answers *)

(** [(major, minor)], what [convert_version_to_tuple] gives. *)
Abbreviation microversion := (Z * Z)%type.

Definition RESHAPER_VERSION : microversion := (1, 30)%Z.
Definition CONSUMER_GENERATION_VERSION : microversion := (1, 28)%Z.
Definition INTREE_AC_VERSION : microversion := (1, 31)%Z.
Definition ALLOW_RESERVED_EQUAL_TOTAL_INVENTORY_VERSION : microversion := (1, 26)%Z.
Definition POST_RPS_RETURNS_PAYLOAD_API_VERSION : microversion := (1, 20)%Z.
Definition AGGREGATE_GENERATION_VERSION : microversion := (1, 19)%Z.
Definition NESTED_PROVIDER_API_VERSION : microversion := (1, 14)%Z.
Definition GET_USAGES_VERSION : microversion := (1, 9)%Z.

Definition version_ge (v w : microversion) : bool :=
  ((w.1 <? v.1) || (w.1 =? v.1) && (w.2 <=? v.2))%Z.

(** The JSON of a provider's inventories; of its traits or aggregates; of a
    consumer's allocations.  An absent key is [None]; the outer option of
    [consumer_generation] is the key, the inner one [null]. *)
Record inv_json : Type := mkInvJson { ij_inventories : inventory_t; ij_generation : Z }.
Record assoc_json : Type := mkAssocJson { aj_items : list string; aj_generation : Z }.
Record rp_alloc : Type := mkRpAlloc {
  ra_generation : option Z;
  resources : dict string Z
}.
Record allocs : Type := mkAllocs {
  allocations : dict string rp_alloc;
  project_id : option string;
  user_id : option string;
  consumer_generation : option (option Z)
}.

#[export] Instance rp_alloc_eq_dec : EqDecision rp_alloc.
Proof. solve_decision. Defined.
#[export] Instance allocs_eq_dec : EqDecision allocs.
Proof. solve_decision. Defined.

Definition set_allocations (l : dict string rp_alloc) (a : allocs) : allocs :=
  mkAllocs l (project_id a) (user_id a) (consumer_generation a).

Definition with_resources (r : dict string Z) (a : rp_alloc) : rp_alloc :=
  mkRpAlloc (ra_generation a) r.

(** Verb, path and payload, indexed by the JSON of the answer. *)
Inductive request : Type → Type :=
| GetCandidates (query : list (string * string)) : request candidates
| GetAggregates (rp : string) : request assoc_json
| GetTraits (rp : string) : request assoc_json
| GetProvider (rp : string) : request pdict
| GetSharing (aggs : list string) (required : string) : request (list pdict)
| GetInTree (rp : string) : request (list pdict)
| GetByName (name : string) : request (list pdict)
| PostProvider (rp name : string) (parent : option string) : request pdict
| DeleteProvider (rp : string) : request unit
| GetInventory (rp : string) : request inv_json
| PutInventories (rp : string) (gen : option Z) (inv : inventory_t) : request inv_json
| QueryTraits (names : list string) : request (list string)
| PutTrait (name : string) : request unit
| PutTraits (rp : string) (gen : option Z) (traits : list string) : request assoc_json
| PutAggregates (rp : string) (gen : option Z) (aggs : list string) : request assoc_json
| PutResourceClass (name : string) : request unit
| PostReshaper (invs : dict string (inventory_t * option Z)) (al : dict string allocs) : request unit
| GetAllocations (consumer : string) : request allocs
| PutAllocations (consumer : string) (payload : allocs) : request unit
| PostAllocations (payload : dict string allocs) : request unit
| GetProviderAllocations (rp : string) : request (dict string (dict string Z))
| GetUsages (project : string) (user : option string) : request (dict string Z).

Record api_error : Type := mkApiError { err_code : string; err_detail : string }.

Inductive body (A : Type) : Type :=
| Json (a : A)
| Errors (l : list api_error)
| NoJson.
Arguments Json {A} _.
Arguments Errors {A} _.
Arguments NoJson {A}.

Record response (A : Type) : Type := mkResponse {
  status_code : Z;
  content : body A;
  text : string
}.
Arguments mkResponse {A} _ _ _.
Arguments status_code {A} _.
Arguments content {A} _.
Arguments text {A} _.

(** [keystoneauth1.exceptions.ClientException] and the subclasses the code names *)
Inductive ks_error : Type :=
| EndpointNotFound | MissingAuthPlugin | Unauthorized | DiscoveryFailure
| ConnectFailure | KsNotFound | OtherClientException.

Inductive rerr : Type :=
| RExn (e : exn)
| RKs (k : ks_error)
| Retry.

(** The service, and [time.time()]. *)
Class PlacementServer (P : Type) : Type := {
  send : ∀ {A}, microversion → request A → M ks_error P (response A);
  time : P → Z * P
}.

(** Versions the code does not name; [None] is the service's default, 1.0. *)
Definition v1_0 : microversion := (1, 0)%Z.
Definition v1_6 : microversion := (1, 6)%Z.
Definition v1_7 : microversion := (1, 7)%Z.
Definition v1_18 : microversion := (1, 18)%Z.

(** [SchedulerReportClient]: the cached tree, when each provider was last
    refreshed, and the service. *)
Record client (P : Type) : Type := mkClient {
  _provider_tree : Tree.tree;
  _association_refresh_time : gmap string Z;
  server : P
}.
Arguments mkClient {P} _ _ _.
Arguments _provider_tree {P} _.
Arguments _association_refresh_time {P} _.
Arguments server {P} _.

Definition set_tree {P} (t : Tree.tree) (c : client P) : client P :=
  mkClient t (_association_refresh_time c) (server c).
Definition set_times {P} (m : gmap string Z) (c : client P) : client P :=
  mkClient (_provider_tree c) m (server c).
Definition set_server {P} (p : P) (c : client P) : client P :=
  mkClient (_provider_tree c) (_association_refresh_time c) p.

(** [needle in s] *)
Definition str_in (needle s : string) : bool :=
  match String.index 0 needle s with Some _ => true | None => false end.

Definition is_retry (e : rerr) : bool := match e with Retry => true | _ => false end.

(** The errors a failed connection raises, caught together in two places. *)
Definition no_connection (e : rerr) : bool :=
  match e with
  | RKs EndpointNotFound | RKs MissingAuthPlugin | RKs Unauthorized
  | RKs DiscoveryFailure | RKs ConnectFailure => true
  | _ => false
  end.

Section Client.
Context {P : Type} `{PlacementServer P}.
Abbreviation C := (client P).
Abbreviation rm := (M rerr C).

Definition zun {A} (z : zun_class) : rm A := raise (RExn (Zun z)).
Definition python {A} (b : builtin) : rm A := raise (RExn (Py b)).

(** [self.get], [self.post], [self.put], [self.delete] *)
Definition call {A} (v : microversion) (q : request A) : rm (response A) :=
  λ c, match send v q (server c) with
       | (Ok r, p) => (Ok r, set_server p c)
       | (Raise k, p) => (Raise (RKs k), set_server p c)
       end.

Definition now : rm Z := λ c, let '(t, p) := time (server c) in (Ok t, set_server p c).

(** The truth value of a response. *)
Definition is_true {A} (r : response A) : bool := (status_code r <? 400)%Z.

(** [resp.json()], used as the body of a success *)
Definition json {A} (r : response A) : rm A :=
  match content r with
  | Json a => ret a
  | Errors _ => python KeyError
  | NoJson => python ValueError
  end.

(** [r.json()\['errors'\]\[0\]] *)
Definition first_error {A} (r : response A) : rm api_error :=
  match content r with
  | Errors (e :: _) => ret e
  | Errors [] => python IndexError
  | Json _ => python KeyError
  | NoJson => python ValueError
  end.

Definition status_is {A} (n : Z) (r : response A) : bool := (status_code r =? n)%Z.

(** The decorator [retries]: four attempts, then [False]. *)
Fixpoint attempts (n : nat) (f : rm bool) : rm bool :=
  match n with
  | O => ret false
  | S n' => try_except f (λ e, if is_retry e then Some (attempts n' f) else None)
  end.
Definition retries (f : rm bool) : rm bool := attempts 4 f.

(** ** Looking up *)

Definition get_allocation_candidates (rr : ResourceRequest) : rm (option candidates) :=
  let! resp := call INTREE_AC_VERSION (GetCandidates (query_params rr)) in
  if status_is 200 resp then let! d := json resp in ret (Some d) else ret None.

(** [AggInfo], [TraitInfo]: the items as a set, and the generation. *)
Definition _get_provider_aggregates (rp_uuid : string) : rm (gset string * Z) :=
  let! resp := call AGGREGATE_GENERATION_VERSION (GetAggregates rp_uuid) in
  if status_is 200 resp
  then let! d := json resp in ret (list_to_set (aj_items d), aj_generation d)
  else zun ResourceProviderAggregateRetrievalFailed.

Definition get_provider_traits (rp_uuid : string) : rm (gset string * Z) :=
  let! resp := call v1_6 (GetTraits rp_uuid) in
  if status_is 200 resp
  then let! d := json resp in ret (list_to_set (aj_items d), aj_generation d)
  else zun ResourceProviderTraitRetrievalFailed.

Definition _get_resource_provider (uuid : string) : rm (option pdict) :=
  let! resp := call NESTED_PROVIDER_API_VERSION (GetProvider uuid) in
  if status_is 200 resp then let! d := json resp in ret (Some d)
  else if status_is 404 resp then ret None
  else zun ResourceProviderRetrievalFailed.

Definition _get_sharing_providers (agg_uuids : gset string) : rm (list pdict) :=
  if decide (agg_uuids = ∅) then ret [] else
  let! resp := call v1_18 (GetSharing (elements agg_uuids) Tree.MISC_SHARES_VIA_AGGREGATE) in
  if status_is 200 resp then json resp else zun ResourceProviderRetrievalFailed.

Definition get_providers_in_tree (uuid : string) : rm (list pdict) :=
  let! resp := call NESTED_PROVIDER_API_VERSION (GetInTree uuid) in
  if status_is 200 resp then json resp else zun ResourceProviderRetrievalFailed.

Definition name_conflict : string := "Conflicting resource provider name:".

(** [None] when the provider another thread created has gone again. *)
Definition _create_resource_provider (uuid name : string) (parent_provider_uuid : option string)
    : rm (option pdict) :=
  let! resp := call POST_RPS_RETURNS_PAYLOAD_API_VERSION
                 (PostProvider uuid name parent_provider_uuid) in
  if is_true resp then let! d := json resp in ret (Some d)
  else if status_is 409 resp && negb (str_in name_conflict (text resp))
  then _get_resource_provider uuid
  else zun ResourceProviderCreationFailed.

Definition get_provider_by_name (name : string) : rm pdict :=
  let! resp := try_except (call v1_0 (GetByName name))
    (λ e, match e with RKs _ => Some (zun PlacementAPIConnectFailure) | _ => None end) in
  if status_is 200 resp then
    let! records := json resp in
    match records with
    | [r] => ret r
    | _ => zun ResourceProviderNotFound
    end
  else zun ResourceProviderNotFound.

(** [if n.startswith('CUSTOM_')] *)
Definition CUSTOM_NAMESPACE : string := "CUSTOM_".
Definition _ensure_resource_classes (names : gset string) : rm unit :=
  let to_ensure := filter (λ n, String.prefix CUSTOM_NAMESPACE n = true) (elements names) in
  for_each (λ name,
    let! resp := call v1_7 (PutResourceClass name) in
    if is_true resp then ret tt else zun InvalidResourceClass) to_ensure.

Definition _ensure_traits (traits : gset string) : rm unit :=
  if decide (traits = ∅) then ret tt else
  let! resp := call v1_6 (QueryTraits (elements traits)) in
  if status_is 200 resp then
    let! known := json resp in
    for_each (λ trait,
      let! resp := call v1_6 (PutTrait trait) in
      if is_true resp then ret tt else zun TraitCreationFailed)
      (elements (traits ∖ list_to_set known))
  else zun TraitRetrievalFailed.

(** ** Allocations *)

Definition _put_allocations (consumer_uuid : string) (payload : allocs) (version : microversion)
    : rm (response unit) :=
  call version (PutAllocations consumer_uuid payload).

Definition get_allocs_for_consumer (consumer : string) : rm allocs :=
  let! resp := call CONSUMER_GENERATION_VERSION (GetAllocations consumer) in
  if is_true resp then json resp else zun ConsumerAllocationRetrievalFailed.

(** It calls [get_allocations_for_consumer], which no class defines. *)
Definition get_allocations_for_consumer_by_provider (rp_uuid consumer : string)
    : rm (dict string Z) :=
  python AttributeError.

(** The doubled-up request of a move: what the source holds (without the
    generations), and the destination's resources on other providers. *)
Definition _move_operation_alloc_request (source_allocs : dict string rp_alloc)
    (dest_alloc_req : allocs) : allocs :=
  let current := (λ kv, (kv.1, mkRpAlloc None (resources kv.2))) <$> source_allocs in
  let added := filter (λ kv, dhas source_allocs kv.1 = false) (allocations dest_alloc_req) in
  mkAllocs (foldl (λ d kv, dset d kv.1 kv.2) current added) None None None.

(** What the claim sends: a new consumer gets the request as it is. *)
Definition claim_payload (consumer_uuid : string) (ar : allocs) (expected : option Z)
    : rm (allocs * option Z) :=
  let! r := call CONSUMER_GENERATION_VERSION (GetAllocations consumer_uuid) in
  if status_is 200 r then
    let! b := json r in
    if decide (allocations b = []) then ret (ar, expected) else
    let! gen := match consumer_generation ar with
                | None => of_option (consumer_generation b) (RExn (Py KeyError))
                | Some g => ret g
                end in
    ret (_move_operation_alloc_request (allocations b) ar, gen)
  else ret (ar, expected).

Definition concurrent_update : string := "placement.concurrent_update".
Definition generation_conflict : string := "consumer generation conflict".

(** The end of a claim, a move and a put: a conflict on the consumer's generation
    is an error of the caller, any other concurrent update is tried again. *)
Definition allocation_answer {A} (on_consumer : zun_class) (r : response A) : rm bool :=
  if status_is 204 r then ret true else
  let! err := first_error r in
  if String.eqb (err_code err) concurrent_update then
    if str_in generation_conflict (err_detail err) then zun on_consumer else raise Retry
  else ret false.

Definition claim_resources_once (consumer_uuid : string) (alloc_request : allocs)
    (project user : option string) (version : microversion) (expected : option Z) : rm bool :=
  let! '(payload, gen) := claim_payload consumer_uuid alloc_request expected in
  let payload := mkAllocs (allocations payload) project user
    (if version_ge version CONSUMER_GENERATION_VERSION then Some gen
     else consumer_generation payload) in
  let! r := _put_allocations consumer_uuid payload version in
  allocation_answer AllocationUpdateFailed r.

Definition claim_resources (consumer_uuid : string) (alloc_request : allocs)
    (project user : option string) (version : microversion) (expected : option Z) : rm bool :=
  retries (claim_resources_once consumer_uuid alloc_request project user version expected).

(** [put_allocations] *)
Definition put_allocations (consumer_uuid : string) (payload : allocs) : rm bool :=
  retries (let! r := _put_allocations consumer_uuid payload CONSUMER_GENERATION_VERSION in
           allocation_answer AllocationUpdateFailed r).

(** *** Removing resources *)

(** Taking [value] of one class from the allocation on a provider, in place. *)
Definition take_resource (rp_uuid rc : string) (value : Z) : py (dict string rp_alloc) unit :=
  let! a := gets (λ d, dget d rp_uuid) in
  let! a := of_option a (Py KeyError) in
  let! v := of_option (dget (resources a) rc) (Py KeyError) in
  let rest := (v - value)%Z in
  let store (r : dict string Z) := 
    modify (λ d : dict string rp_alloc, dalter (with_resources r) d rp_uuid) in
  store (dset (resources a) rc rest);;;
  raise_if (rest <? 0)%Z (Zun AllocationUpdateFailed);;;
  if (rest =? 0)%Z then store (ddel (resources a) rc) else ret tt.

Definition take_resources (wanted : dict string (dict string Z)) : py (dict string rp_alloc) unit :=
  try_except
    (for_each (λ kv,
       let! a := gets (λ d, dget d kv.1) in
       let! _a := of_option a (Py KeyError) in
       for_each (λ rv, take_resource kv.1 rv.1 rv.2) kv.2) wanted)
    (λ e, if decide (e = Py KeyError) then Some (raise (Zun AllocationUpdateFailed)) else None).

Definition of_exn {A} (o : outcome exn A) : rm A :=
  match o with Ok a => ret a | Raise e => raise (RExn e) end.

Definition _remove_resources_once (consumer_uuid : string) (wanted : dict string (dict string Z))
    : rm bool :=
  if decide (wanted = []) then ret true else
  let! current := get_allocs_for_consumer consumer_uuid in
  if decide (allocations current = []) then zun AllocationUpdateFailed else
  let '(o, taken) := take_resources wanted (allocations current) in
  of_exn o;;;
  let kept := filter (λ kv, resources kv.2 ≠ []) taken in
  let! r := _put_allocations consumer_uuid (set_allocations kept current)
              CONSUMER_GENERATION_VERSION in
  if status_is 204 r then ret true else
  let! err := first_error r in
  if String.eqb (err_code err) concurrent_update then raise Retry else ret true.

Definition _remove_resources_from_container_allocation (consumer_uuid : string)
    (wanted : dict string (dict string Z)) : rm bool :=
  retries (_remove_resources_once consumer_uuid wanted).

Definition remove_resources_from_container_allocation (consumer_uuid : string)
    (wanted : dict string (dict string Z)) : rm unit :=
  let! done := _remove_resources_from_container_allocation consumer_uuid wanted in
  if done : bool then ret tt else zun AllocationUpdateFailed.

Definition remove_provider_tree_from_container_allocation (consumer_uuid root_rp_uuid : string)
    : rm bool :=
  let! current := get_allocs_for_consumer consumer_uuid in
  if decide (allocations current = []) then ret false else
  let! rps := get_providers_in_tree root_rp_uuid in
  let! rp_uuids := map_m (λ rp, of_option (pd_uuid rp) (RExn (Py KeyError))) rps in
  let kept := foldl ddel (allocations current) rp_uuids in
  if decide (kept = allocations current) then ret true else
  let! r := _put_allocations consumer_uuid (set_allocations kept current)
              CONSUMER_GENERATION_VERSION in
  ret (status_is 204 r).

(** *** Moving and deleting *)

Definition move_allocations_once (source target : string) : rm bool :=
  let! source_alloc := get_allocs_for_consumer source in
  let! target_alloc := get_allocs_for_consumer target in
  if bool_decide (allocations target_alloc ≠ []) && bool_decide (allocations source_alloc = [])
  then ret true else
  let! project := of_option (project_id source_alloc) (RExn (Py KeyError)) in
  let! user := of_option (user_id source_alloc) (RExn (Py KeyError)) in
  let! gen := of_option (consumer_generation source_alloc) (RExn (Py KeyError)) in
  let payload := dict_of
    [(source, mkAllocs [] (Some project) (Some user) (Some gen));
     (target, mkAllocs (allocations source_alloc) (Some project) (Some user)
                (Some (default None (consumer_generation target_alloc))))] in
  let! r := call CONSUMER_GENERATION_VERSION (PostAllocations payload) in
  allocation_answer AllocationMoveFailed r.

Definition move_allocations (source target : string) : rm bool :=
  retries (move_allocations_once source target).

(** [exception.AllocationDeleteFailed], raised when the service refuses, is not
    defined in common/exception.py. *)
Definition delete_allocation_for_container (uuid : string) : rm bool :=
  let! r := call CONSUMER_GENERATION_VERSION (GetAllocations uuid) in
  if negb (is_true r) then python AttributeError else
  let! a := json r in
  if decide (allocations a = []) then ret false else
  let! r := call CONSUMER_GENERATION_VERSION (PutAllocations uuid (set_allocations [] a)) in
  if status_is 204 r then ret true else python AttributeError.

Definition get_allocations_for_resource_provider (rp_uuid : string)
    : rm (dict string (dict string Z)) :=
  let! resp := call v1_0 (GetProviderAllocations rp_uuid) in
  if is_true resp then json resp else zun ResourceProviderAllocationRetrievalFailed.

(** ** Usages *)

Definition is_ConnectFailure (e : rerr) : bool :=
  match e with RKs ConnectFailure => true | _ => false end.

Definition _get_usages (project : string) (user : option string) : rm (response (dict string Z)) :=
  retrying is_ConnectFailure 3 (call GET_USAGES_VERSION (GetUsages project user)).

Record counts : Type := mkCounts { cores : Z; ram : Z }.

Definition counts_of (resp : response (dict string Z)) : rm counts :=
  if is_true resp then
    let! usages := json resp in
    ret (mkCounts (default 0%Z (dget usages "VCPU")) (default 0%Z (dget usages "MEMORY_MB")))
  else zun UsagesRetrievalFailed.

(** The counts of the project, and of the user when one is given. *)
Definition get_usages_counts_for_quota (project : string) (user : option string)
    : rm (counts * option counts) :=
  let! resp := _get_usages project None in
  let! total := counts_of resp in
  if ostr_true user then
    let! resp := _get_usages project user in
    let! own := counts_of resp in
    ret (total, Some own)
  else ret (total, None).
End Client.

(** ** Claims and moves *)

(** The doubled-up request, provider by provider. *)
Lemma move_operation_spec src ar rp :
  NoDup (dkeys (allocations ar)) →
  dget (allocations (_move_operation_alloc_request src ar)) rp =
    match dget src rp with
    | Some a => Some (mkRpAlloc None (resources a))
    | None => dget (allocations ar) rp
    end.
Proof.
  intros Har. cbn [allocations _move_operation_alloc_request].
  rewrite dget_dsets by by apply dkeys_filter_NoDup.
  rewrite dget_filter by done.
  rewrite (dget_fmap (λ a, mkRpAlloc None (resources a))).
  unfold dhas. cbn [fst]. destruct (dget (allocations ar) rp); destruct (dget src rp); by repeat case_decide.
Qed.

(** ** Taking resources away *)

(** The amount of a class held on a provider. *)
Definition amount (d : dict string rp_alloc) (rp rc : string) : option Z :=
  a ← dget d rp; dget (resources a) rc.
(** What is left of it; nothing left is no entry. *)
Definition minus (held : option Z) (v : Z) : option Z :=
  w ← held; if decide (w = v) then None else Some (w - v)%Z.
Definition allocs_wf (d : dict string rp_alloc) : Prop :=
  NoDup (dkeys d) ∧ ∀ rp a, dget d rp = Some a → NoDup (dkeys (resources a)).

Lemma store_wf r d rp a :
  allocs_wf d → dget d rp = Some a → NoDup (dkeys r) →
  let d' := dalter (with_resources r) d rp in
  allocs_wf d' ∧ dkeys d' = dkeys d ∧
  ∀ rp' rc', amount d' rp' rc' = if decide (rp' = rp) then dget r rc' else amount d rp' rc'.
Proof.
  intros [Hd Hr] Ha Hndr d'.
  assert (dkeys d' = dkeys d) as Hk by apply dkeys_dalter.
  assert (∀ rp', dget d' rp' = if decide (rp' = rp) then Some (with_resources r a) else dget d rp') as Hg.
  { intros rp'. unfold d'. rewrite dget_dalter. destruct (decide (rp = rp')) as [->|Hne].
    - by rewrite decide_True, Ha.
    - by rewrite decide_False. }
  split_and!; [split; [by rewrite Hk|]|done|].
  - intros rp' a'. rewrite Hg. case_decide; [by intros [= <-]|apply Hr].
  - intros rp' rc'. unfold amount. rewrite Hg. by case_decide.
Qed.

Lemma store_twice r r' (d : dict string rp_alloc) rp :
  dalter (with_resources r) (dalter (with_resources r') d rp) rp = dalter (with_resources r) d rp.
Proof.
  induction d as [|[k a] d IH]; [done|]. cbn. case_decide; cbn; [by rewrite decide_True|].
  rewrite decide_False by done. by rewrite IH.
Qed.

Lemma take_resource_spec rp rc v d :
  allocs_wf d →
  match take_resource rp rc v d with
  | (Ok _, d') => (∃ w, amount d rp rc = Some w ∧ (v ≤ w)%Z) ∧ allocs_wf d' ∧
      dkeys d' = dkeys d ∧
      ∀ rp' rc', amount d' rp' rc' =
        if decide (rp' = rp ∧ rc' = rc) then minus (amount d rp rc) v else amount d rp' rc'
  | (Raise e, _) => (e = Py KeyError ∨ e = Zun AllocationUpdateFailed) ∧
      ∀ w, amount d rp rc = Some w → (w < v)%Z
  end.
Proof.
  intros Hwf. unfold take_resource, minus. steps.
  assert (amount d rp rc = a ← dget d rp; dget (resources a) rc) as Ham by done.
  destruct (dget d rp) as [a|] eqn:Ha; [|rewrite Ham; cbn; split; [by left|done]].
  cbn [of_option mbind option_bind] in Ham |- *. steps.
  destruct (dget (resources a) rc) as [w|] eqn:Hw; [|rewrite Ham; cbn; split; [by left|done]].
  assert (NoDup (dkeys (resources a))) as Hnd by (by eapply Hwf).
  cbn [of_option]. steps. rewrite Ham. unfold raise_if.
  destruct (w - v <? 0)%Z eqn:Hlt.
  { apply Z.ltb_lt in Hlt. split; [by right|]. intros w' Hw'. cbn in Hw'. simplify_eq. lia. }
  apply Z.ltb_ge in Hlt. steps. change (mbind ?f (Some w)) with (f w). cbv beta.
  assert (∃ w', Some w = Some w' ∧ (v ≤ w')%Z) as Hle by (exists w; split; [done|lia]).
  destruct (w - v =? 0)%Z eqn:Hz.
  - apply Z.eqb_eq in Hz. unfold modify.
    rewrite store_twice.
    destruct (store_wf (ddel (resources a) rc) d rp a) as (? & ? & Hst); [done|done|by apply NoDup_ddel|].
    split_and!; [done..|]. intros rp' rc'. rewrite Hst. destruct (decide (rp' = rp)) as [->|Hne].
    + destruct (decide (rc' = rc)) as [->|Hne].
      * rewrite !decide_True by (done || lia). by apply dget_ddel_eq.
      * rewrite decide_False by naive_solver. rewrite dget_ddel_ne by done. unfold amount. by rewrite Ha.
    + by rewrite decide_False by naive_solver.
  - apply Z.eqb_neq in Hz. cbn [ret].
    destruct (store_wf (dset (resources a) rc (w - v)%Z) d rp a) as (? & ? & Hst); [done|done|by apply NoDup_dset|].
    split_and!; [done..|]. intros rp' rc'. rewrite Hst. destruct (decide (rp' = rp)) as [->|Hne].
    + destruct (decide (rc' = rc)) as [->|Hne].
      * rewrite decide_True by done. rewrite decide_False by lia. by apply dget_dset_eq.
      * rewrite decide_False by naive_solver. rewrite dget_dset_ne by done. unfold amount. by rewrite Ha.
    + by rewrite decide_False by naive_solver.
Qed.

Definition take_class (rp : string) (rv : string * Z) : py (dict string rp_alloc) unit :=
  take_resource rp rv.1 rv.2.

Lemma take_classes_spec rp rs d :
  allocs_wf d → NoDup (dkeys rs) →
  match for_each (take_class rp) rs d with
  | (Ok _, d') => (∀ rc v, (rc, v) ∈ rs → ∃ w, amount d rp rc = Some w ∧ (v ≤ w)%Z) ∧
      allocs_wf d' ∧ dkeys d' = dkeys d ∧
      ∀ rp' rc', amount d' rp' rc' =
        match dget rs rc' with
        | Some v => if decide (rp' = rp) then minus (amount d rp rc') v else amount d rp' rc'
        | None => amount d rp' rc'
        end
  | (Raise e, _) => (e = Py KeyError ∨ e = Zun AllocationUpdateFailed) ∧
      ∃ rc v, (rc, v) ∈ rs ∧ ∀ w, amount d rp rc = Some w → (w < v)%Z
  end.
Proof.
  revert d. induction rs as [|[rc v] rs IH]; intros d Hwf.
  { intros _. cbn. split_and!; [set_solver|done..]. }
  cbn [dkeys fmap list_fmap fst]. intros [Hrc Hnd]%NoDup_cons. cbn [for_each].
  pose proof (take_resource_spec rp rc v d Hwf) as Hone. unfold take_class at 1. cbn [fst snd].
  destruct (take_resource rp rc v d) as [[[]|e] d1] eqn:Hrun.
  2: { step Hrun. destruct Hone as [He Hlt]. split; [done|]. exists rc, v. split; [left|done]. }
  destruct Hone as (Hle & Hwf1 & Hk1 & Ham1). step Hrun. specialize (IH d1 Hwf1 Hnd).
  assert (∀ rc', rc' ≠ rc → amount d1 rp rc' = amount d rp rc') as Hsame
    by (intros rc' Hne; rewrite Ham1; by rewrite decide_False by naive_solver).
  assert (∀ rc' v', (rc', v') ∈ rs → rc' ≠ rc) as Hother.
  { intros rc' v' Hin ->. apply Hrc. by apply (list_elem_of_fmap_2 fst) in Hin. }
  destruct (for_each _ rs d1) as [[[]|e] d2].
  - destruct IH as (Hle2 & Hwf2 & Hk2 & Ham2). split_and!; [|done|congruence|].
    + intros rc' v' [[= -> ->]|Hin]%elem_of_cons; [done|].
      rewrite <- Hsame by by eapply Hother. by apply Hle2.
    + intros rp' rc'. rewrite Ham2. cbn [dget]. destruct (decide (rc = rc')) as [->|Hne].
      * assert (dget rs rc' = None) as -> by by apply dget_None_keys.
        rewrite Ham1. destruct (decide (rp' = rp)) as [->|Hne]; [by rewrite decide_True|].
        by rewrite decide_False by naive_solver.
      * rewrite Hsame, Ham1 by done. by rewrite decide_False by naive_solver.
  - destruct IH as (He & rc' & v' & Hin & Hlt). split; [done|]. exists rc', v'.
    split; [by right|]. intros w. rewrite <- Hsame by by eapply Hother. apply Hlt.
Qed.

Definition take_provider (kv : string * dict string Z) : py (dict string rp_alloc) unit :=
  let! a := gets (λ d, dget d kv.1) in
  let! _a := of_option a (Py KeyError) in
  for_each (take_class kv.1) kv.2.

Definition wanted_wf (wanted : dict string (dict string Z)) : Prop :=
  NoDup (dkeys wanted) ∧ ∀ rp rs, (rp, rs) ∈ wanted → NoDup (dkeys rs).
Definition wanted_of (wanted : dict string (dict string Z)) (rp rc : string) : option Z :=
  rs ← dget wanted rp; dget rs rc.

(** All the wanted amounts are held. *)
Definition covered (wanted : dict string (dict string Z)) (d : dict string rp_alloc) : Prop :=
  ∀ rp rs, (rp, rs) ∈ wanted → is_Some (dget d rp) ∧
    ∀ rc v, (rc, v) ∈ rs → ∃ w, amount d rp rc = Some w ∧ (v ≤ w)%Z.

Lemma take_providers_spec wanted d :
  allocs_wf d → wanted_wf wanted →
  match for_each take_provider wanted d with
  | (Ok _, d') => covered wanted d ∧ allocs_wf d' ∧
      ∀ rp rc, amount d' rp rc =
        match wanted_of wanted rp rc with
        | Some v => minus (amount d rp rc) v
        | None => amount d rp rc
        end
  | (Raise e, _) => (e = Py KeyError ∨ e = Zun AllocationUpdateFailed) ∧ ¬ covered wanted d
  end.
Proof.
  revert d. induction wanted as [|[rp rs] wanted IH]; intros d Hwf [Hnd Hrs].
  { cbn. split_and!; [by intros ?? ?%elem_of_nil|done..]. }
  cbn [dkeys fmap list_fmap fst] in Hnd. apply NoDup_cons in Hnd as [Hrp Hnd].
  assert (wanted_wf wanted) as Hww by (split; [done|]; intros ???; eapply Hrs; by right).
  specialize (Hrs rp rs ltac:(left)). cbn [for_each]. unfold take_provider at 1. steps. cbn [fst snd].
  destruct (dget d rp) as [a|] eqn:Ha.
  2: { cbn. split; [by left|]. intros Hc. destruct (Hc rp rs ltac:(left)) as [[? ?] _]. congruence. }
  cbn [of_option]. steps. pose proof (take_classes_spec rp rs d Hwf Hrs) as Hone.
  destruct (for_each (take_class rp) rs d) as [[[]|e] d1] eqn:Hrun; step Hrun.
  2: { destruct Hone as (He & rc & v & Hin & Hlt). split; [done|]. intros Hc.
       destruct (Hc rp rs ltac:(left)) as [_ Hv]. destruct (Hv rc v Hin) as (w & Hw & ?).
       specialize (Hlt w Hw). lia. }
  destruct Hone as (Hle & Hwf1 & Hk1 & Ham1). specialize (IH d1 Hwf1 Hww).
  assert (∀ rp' rs', (rp', rs') ∈ wanted → rp' ≠ rp) as Hother.
  { intros rp' rs' Hin ->. apply Hrp. by apply (list_elem_of_fmap_2 fst) in Hin. }
  assert (∀ rp' rc, rp' ≠ rp → amount d1 rp' rc = amount d rp' rc) as Hsame.
  { intros rp' rc Hne. rewrite Ham1. destruct (dget rs rc); [|done]. by rewrite decide_False. }
  assert (covered ((rp, rs) :: wanted) d ↔ covered wanted d1) as Hcov.
  { split.
    - intros Hc rp' rs' Hin. destruct (Hc rp' rs' ltac:(by right)) as [Hs Hv].
      split; [by rewrite (dget_dkeys d)|]. intros rc v ?. rewrite Hsame by by eapply Hother. by apply Hv.
    - intros Hc rp' rs' [[= -> ->]|Hin]%elem_of_cons; [by split; [eexists|]|].
      destruct (Hc rp' rs' Hin) as [Hs Hv]. split; [by rewrite (dget_dkeys d) in Hs|].
      intros rc v ?. rewrite <- Hsame by by eapply Hother. by apply Hv. }
  destruct (for_each _ wanted d1) as [[[]|e] d2].
  - destruct IH as (Hc & Hwf2 & Ham2). split_and!; [by apply Hcov|done|]. intros rp' rc.
    rewrite Ham2. unfold wanted_of. cbn [dget]. destruct (decide (rp = rp')) as [->|Hne].
    + assert (dget wanted rp' = None) as -> by by apply dget_None_keys. cbn. rewrite Ham1.
      destruct (dget rs rc); [by rewrite decide_True|done].
    + by rewrite Hsame.
  - destruct IH as [He Hc]. split; [done|]. by rewrite Hcov.
Qed.

(** [_remove_resources_from_container_allocation], the arithmetic: it succeeds
    exactly when all the wanted amounts are held. *)
Lemma take_resources_spec wanted d :
  allocs_wf d → wanted_wf wanted →
  match take_resources wanted d with
  | (Ok _, d') => covered wanted d ∧ allocs_wf d' ∧
      ∀ rp rc, amount d' rp rc =
        match wanted_of wanted rp rc with
        | Some v => minus (amount d rp rc) v
        | None => amount d rp rc
        end
  | (Raise e, _) => e = Zun AllocationUpdateFailed ∧ ¬ covered wanted d
  end.
Proof.
  intros Hwf Hw. pose proof (take_providers_spec wanted d Hwf Hw) as Hall.
  unfold take_resources, try_except. change (for_each _ wanted) with (for_each take_provider wanted).
  destruct (for_each take_provider wanted d) as [[[]|e] d1]; [done|].
  destruct Hall as [[->| ->] Hc]; [by rewrite decide_True|by rewrite decide_False].
Qed.

Definition not_empty (kv : string * rp_alloc) : Prop := resources kv.2 ≠ [].

Lemma drop_empty d rp rc :
  allocs_wf d → amount (filter not_empty d) rp rc = amount d rp rc.
Proof.
  intros [Hd _]. unfold amount. rewrite dget_filter by done. unfold not_empty.
  destruct (dget d rp) as [a|]; [|done]. cbn [snd]. case_decide as Ha; [done|].
  cbn. by rewrite Ha.
Qed.

(** A provider that is listed still holds something. *)
Lemma listed_holds d rp :
  NoDup (dkeys d) →
  is_Some (dget (filter not_empty d) rp) → ∃ rc, is_Some (amount (filter not_empty d) rp rc).
Proof.
  intros Hd [a Ha]. unfold amount. rewrite Ha. cbn.
  assert (resources a ≠ []) as Hne by (by apply dget_Some_In, list_elem_of_filter in Ha as [Hne _]).
  destruct (resources a) as [|[rc v] rs] eqn:Hrs; [done|]. exists rc. cbn. by rewrite decide_True.
Qed.

(** ** Runs *)

Section Facts.
Context {P : Type} `{PlacementServer P}.
Abbreviation C := (client P).
Abbreviation rm := (M rerr C).
Implicit Types s : C.

(** An answer of the service to a request of the client. *)
Definition answers {A} (v : microversion) (q : request A) (r : response A) (s s' : C) : Prop :=
  call v q s = (Ok r, s').

(** At most four attempts; the last one that is not a [Retry] decides. *)
Lemma retries_Ok (f : rm bool) s s' :
  retries f s = (Ok true, s') ↔
  ∃ k s1, (k ≤ 3)%nat ∧ failures is_retry k f s s1 ∧ f s1 = (Ok true, s').
Proof.
  unfold retries. generalize 3%nat as n. intros n. revert s.
  induction n as [|n IH]; intros s.
  - cbn [attempts]. unfold try_except. split.
    + destruct (f s) as [[b|e] s1] eqn:Hf; [|by destruct (is_retry e)].
      intros [= -> ->]. by exists 0%nat, s.
    + intros (k & s1 & Hk & Hfl & Hf). assert (k = 0)%nat as -> by lia.
      cbn in Hfl. subst. by rewrite Hf.
  - cbn [attempts] in IH |- *. unfold try_except at 1. split.
    + destruct (f s) as [[b|e] s1] eqn:Hf.
      * intros [= -> ->]. exists 0%nat, s. split_and!; [lia|done|done].
      * destruct (is_retry e) eqn:He; [|done]. intros (k & s2 & Hk & Hfl & Hs)%IH.
        exists (S k), s2. split_and!; [lia| |done]. by exists e, s1.
    + intros (k & s2 & Hk & Hfl & Hs). destruct k as [|k]; cbn in Hfl.
      * subst. by rewrite Hs.
      * destruct Hfl as (e & s1 & -> & -> & Hfl). apply IH. exists k, s2.
        split_and!; [lia|done|done].
Qed.

Lemma allocation_answer_true {A} z (r : response A) s s' :
  allocation_answer z r s = (Ok true, s') → status_code r = 204%Z ∧ s' = s.
Proof.
  unfold allocation_answer, status_is. destruct (status_code r =? 204)%Z eqn:Hr.
  - intros [= ->]. split; [by apply Z.eqb_eq|done].
  - intros (e & s1 & _ & Hf)%bind_Ok. destruct (String.eqb _ _); [|done].
    by destruct (str_in _ _).
Qed.


(** What an answer to [GetAllocations] says a consumer holds. *)
Definition held (r : response allocs) : dict string rp_alloc :=
  if status_is 200 r then match content r with Json b => allocations b | _ => [] end else [].
Definition held_generation (r : response allocs) : option (option Z) :=
  match content r with Json b => consumer_generation b | _ => None end.

Lemma claim_payload_Ok consumer ar expected s payload gen s' :
  claim_payload consumer ar expected s = (Ok (payload, gen), s') →
  ∃ r0, answers CONSUMER_GENERATION_VERSION (GetAllocations consumer) r0 s s' ∧
    ((held r0 = [] ∧ payload = ar ∧ gen = expected) ∨
     (held r0 ≠ [] ∧ payload = _move_operation_alloc_request (held r0) ar ∧
      Some gen = match consumer_generation ar with
                 | Some g => Some g | None => held_generation r0 end)).
Proof.
  assert (∀ (o : option (option Z)) s s' g,
    of_option o (RExn (Py KeyError)) s = (Ok g, s') → o = Some g ∧ s' = s) as Hof
    by (intros [o|] ? ? ?; [by injection 1 as -> ->|done]).
  unfold claim_payload. intros (r0 & s1 & Hget & Hk)%bind_Ok. exists r0.
  unfold held, held_generation. destruct (status_is 200 r0); [|injection Hk as -> -> ->; by auto].
  apply bind_Ok in Hk as (b & s2 & Hj & Hk). unfold json in Hj.
  destruct (content r0); [|done..]. injection Hj as -> <-.
  case_decide; [injection Hk as -> -> ->; by auto|].
  apply bind_Ok in Hk as (g & s3 & Hg & Hk). injection Hk as -> -> ->.
  destruct (consumer_generation ar); [injection Hg as -> ->|apply Hof in Hg as [-> ->]]; by auto.
Qed.

Lemma claim_Ok consumer ar project user v expected s s' :
  NoDup (dkeys (allocations ar)) →
  claim_resources consumer ar project user v expected s = (Ok true, s') →
  ∃ s1 s2 r0 r payload,
    answers CONSUMER_GENERATION_VERSION (GetAllocations consumer) r0 s1 s2 ∧
    answers v (PutAllocations consumer payload) r s2 s' ∧ status_code r = 204%Z ∧
    project_id payload = project ∧ user_id payload = user ∧
    (∀ rp, dget (allocations payload) rp =
       match dget (held r0) rp with
       | Some a => Some (mkRpAlloc None (resources a))
       | None => dget (allocations ar) rp
       end) ∧
    (held r0 ≠ [] → version_ge v CONSUMER_GENERATION_VERSION = true →
     consumer_generation ar = None → consumer_generation payload = held_generation r0).
Proof.
  intros Har (k & s1 & _ & _ & Hrun)%retries_Ok.
  apply bind_Ok in Hrun as ([payload gen] & s2 & Hp & Hrun).
  apply bind_Ok in Hrun as (r & s3 & Hput & [Hr ->]%allocation_answer_true).
  destruct (claim_payload_Ok _ _ _ _ _ _ _ Hp) as (r0 & Hget & Hcase).
  eexists s1, s2, r0, r, _. split_and!; [exact Hget|exact Hput|done|done|done| |].
  - intros rp. cbn [allocations]. destruct Hcase as [(-> & -> & _)|(_ & -> & _)]; [done|].
    by apply move_operation_spec.
  - intros Hheld Hv Hnone. cbn [consumer_generation]. rewrite Hv.
    destruct Hcase as [(? & _)|(_ & _ & ->)]; [done|]. by rewrite Hnone.
Qed.

(** C33. When [claim_resources] answers [True], the service has accepted one
    request for the consumer, right after the client read what the consumer
    held.  The request names, on every provider, what the consumer held there,
    or else what the scheduler asked for there; it carries the given project and
    user; and for a consumer that held something it carries the generation read
    with it, so that a change in between is refused. *)
Theorem claim_accepted consumer ar project user v expected s s' :
  NoDup (dkeys (allocations ar)) →
  claim_resources consumer ar project user v expected s = (Ok true, s') →
  ∃ s1 s2 r0 r payload,
    answers CONSUMER_GENERATION_VERSION (GetAllocations consumer) r0 s1 s2 ∧
    answers v (PutAllocations consumer payload) r s2 s' ∧ status_code r = 204%Z ∧
    project_id payload = project ∧ user_id payload = user ∧
    (∀ rp, dget (allocations payload) rp =
       match dget (held r0) rp with
       | Some a => Some (mkRpAlloc None (resources a))
       | None => dget (allocations ar) rp
       end) ∧
    (held r0 ≠ [] → version_ge v CONSUMER_GENERATION_VERSION = true →
     consumer_generation ar = None → consumer_generation payload = held_generation r0).
Proof. apply claim_Ok. Qed.

(** [delete_allocation_for_container] answers [True] only when the service
    has accepted an empty allocation that carries the generation it had just
    reported, and [False] only when it reported that the container holds
    nothing; a refusal is an exception (of the wrong class). *)
Theorem deletion_accepted u s s' b :
  delete_allocation_for_container u s = (Ok b, s') →
  ∃ r0 a s1, answers CONSUMER_GENERATION_VERSION (GetAllocations u) r0 s s1 ∧
    content r0 = Json a ∧
    (if b then allocations a ≠ [] ∧ ∃ r payload,
       answers CONSUMER_GENERATION_VERSION (PutAllocations u payload) r s1 s' ∧
       status_code r = 204%Z ∧ allocations payload = [] ∧
       consumer_generation payload = consumer_generation a
     else allocations a = [] ∧ s' = s1).
Proof.
  unfold delete_allocation_for_container. intros (r0 & s1 & Hget & Hk)%bind_Ok.
  destruct (is_true r0); [|done]. cbn [negb] in Hk. apply bind_Ok in Hk as (a & s2 & Hj & Hk).
  unfold json in Hj. destruct (content r0) as [a0| |] eqn:Hc; [|done..]. injection Hj as -> <-.
  exists r0, a, s1. split_and!; [exact Hget|done|]. case_decide as Ha.
  - by injection Hk as <- <-.
  - apply bind_Ok in Hk as (r & s2 & Hput & Hk). unfold status_is in Hk.
    destruct (status_code r =? 204)%Z eqn:Hr; [|done]. injection Hk as <- <-.
    split; [done|]. exists r, (set_allocations [] a).
    split_and!; [exact Hput|by apply Z.eqb_eq|done|done].
Qed.

(** One read of the allocation and one write of the difference. *)
Definition exactly_removed (consumer : string) (wanted : dict string (dict string Z)) s s' : Prop :=
  ∃ s1 r0 cur payload r,
    answers CONSUMER_GENERATION_VERSION (GetAllocations consumer) r0 s s1 ∧
    content r0 = Json cur ∧
    answers CONSUMER_GENERATION_VERSION (PutAllocations consumer payload) r s1 s' ∧
    consumer_generation payload = consumer_generation cur ∧
    (allocs_wf (allocations cur) → covered wanted (allocations cur) ∧
      (∀ rp rc, amount (allocations payload) rp rc =
        match wanted_of wanted rp rc with
        | Some v => minus (amount (allocations cur) rp rc) v
        | None => amount (allocations cur) rp rc
        end) ∧
      ∀ rp, is_Some (dget (allocations payload) rp) →
        ∃ rc, is_Some (amount (allocations payload) rp rc)) ∧
    (status_code r = 204%Z ∨
     ∃ e l, content r = Errors (e :: l) ∧ err_code e ≠ concurrent_update).

Lemma removal_attempt consumer wanted s s' :
  wanted_wf wanted → wanted ≠ [] →
  _remove_resources_once consumer wanted s = (Ok true, s') → exactly_removed consumer wanted s s'.
Proof.
  intros Hww Hne. unfold _remove_resources_once. rewrite decide_False by done.
  intros (cur & s1 & Hget & Hk)%bind_Ok. unfold get_allocs_for_consumer in Hget.
  apply bind_Ok in Hget as (r0 & s2 & Hget & Hj). destruct (is_true r0); [|done].
  unfold json in Hj. destruct (content r0) as [b| |] eqn:Hc; [|done..]. injection Hj as -> <-.
  case_decide; [done|]. destruct (take_resources wanted (allocations cur)) as [[[]|e] taken] eqn:Ht; [|done].
  cbn [of_exn] in Hk. rewrite bind_ret in Hk. apply bind_Ok in Hk as (r & s3 & Hput & Hk).
  assert (s3 = s' ∧ (status_code r = 204%Z ∨
     ∃ e l, content r = Errors (e :: l) ∧ err_code e ≠ concurrent_update)) as [-> Hend].
  { unfold status_is in Hk. destruct (status_code r =? 204)%Z eqn:Hr.
    { injection Hk as <-. split; [done|left]. by apply Z.eqb_eq. }
    apply bind_Ok in Hk as (e & s4 & He & Hk). unfold first_error in He.
    destruct (content r) as [|[|e' l]|]; [done|done| |done]. injection He as -> <-.
    destruct (String.eqb (err_code e) concurrent_update) eqn:Hcode; [done|]. injection Hk as <-.
    split; [done|right]. exists e, l. split; [done|]. by apply String.eqb_neq. }
  eexists s2, r0, cur, _, r. split_and!; [exact Hget|exact Hc|exact Hput|done| |exact Hend].
  intros Hwf. pose proof (take_resources_spec wanted _ Hwf Hww) as Hspec. rewrite Ht in Hspec.
  destruct Hspec as (Hcov & Hwf' & Ham). split; [exact Hcov|]. cbn [allocations set_allocations].
  split; [|intros rp; apply listed_holds, Hwf'].
  intros rp rc. rewrite <- Ham. by apply drop_empty.
Qed.

(** C39. [remove_resources_from_container_allocation] returns only when every
    wanted amount was held, according to the service, and the client has sent
    back exactly the difference: each wanted amount subtracted (a class that
    reaches zero is dropped, and a provider that no class is left of is not listed
    any more), everything else as it was, never a negative amount, with the
    generation it had read.  The service then accepted it, or
    answered with an error other than a concurrent update, which goes
    unnoticed. *)
Theorem removal_exact consumer wanted s s' :
  wanted_wf wanted → wanted ≠ [] →
  remove_resources_from_container_allocation consumer wanted s = (Ok tt, s') →
  ∃ s1, exactly_removed consumer wanted s1 s'.
Proof.
  intros Hww Hne (b & s1 & Hrun & Hend)%bind_Ok. destruct b; [|done]. injection Hend as ->.
  apply retries_Ok in Hrun as (k & s0 & _ & _ & Hrun).
  exists s0. by apply removal_attempt.
Qed.

End Facts.

(** ** A service

    A small placement service that answers as the documented API does: it checks
    the generations of providers and consumers.  The witnesses run against it. *)
Module Service.

Record provider : Type := mkProvider {
  p_name : string;
  p_parent : option string;
  p_gen : Z;
  p_inv : inventory_t;
  p_traits : gset string;
  p_aggs : gset string
}.

Record state : Type := mkState {
  providers : dict string provider;
  consumers : dict string allocs;
  clock : Z
}.

Definition done {A} (code : Z) (a : A) : response A := mkResponse code (Json a) "".
Definition refuse {A} (code : Z) (e detail : string) : response A :=
  mkResponse code (Errors [mkApiError e detail]) detail.
Definition missing {A} : response A := refuse 404 "placement.undefined_code" "No such provider".

Definition to_pdict (u : string) (p : provider) : pdict :=
  mkPdict (Some u) (Some (p_name p)) (Some (p_gen p)) (p_parent p).

Fixpoint root_of (fuel : nat) (ps : dict string provider) (u : string) : string :=
  match fuel, dget ps u ≫= p_parent with
  | S n, Some pu => root_of n ps pu
  | _, _ => u
  end.

Definition read {A} (rp : string) (f : provider → A) (s : state) : response A :=
  match dget (providers s) rp with Some p => done 200 (f p) | None => missing end.

(** A write at the generation the caller has seen. *)
Definition write {A} (rp : string) (gen : option Z) (f : provider → provider) (out : provider → A)
    (s : state) : response A * state :=
  match dget (providers s) rp with
  | None => (missing, s)
  | Some p =>
      if decide (gen = Some (p_gen p)) then
        let p' := f p in
        let p' := mkProvider (p_name p') (p_parent p') (p_gen p + 1)%Z (p_inv p') (p_traits p') (p_aggs p') in
        (done 200 (out p'), mkState (dset (providers s) rp p') (consumers s) (clock s))
      else (refuse 409 concurrent_update "resource provider generation conflict", s)
  end.

Definition put_consumer (c : string) (a : allocs) (cs : dict string allocs) : option (dict string allocs) :=
  let current := default None (dget cs c ≫= consumer_generation) in
  if decide (default None (consumer_generation a) = current) then
    Some (if decide (allocations a = []) then ddel cs c
          else dset cs c (mkAllocs (allocations a) (project_id a) (user_id a)
                 (Some (Some (default (-1) current + 1)%Z))))
  else None.

Definition put_consumers (l : list (string * allocs)) (s : state) : response unit * state :=
  match foldl (λ cs ca, cs ≫= put_consumer ca.1 ca.2) (Some (consumers s)) l with
  | Some cs => (mkResponse 204 NoJson "", mkState (providers s) cs (clock s))
  | None => (refuse 409 concurrent_update generation_conflict, s)
  end.

Definition assoc (f : provider → gset string) (p : provider) : assoc_json :=
  mkAssocJson (elements (f p)) (p_gen p).

Definition matching (f : string → provider → bool) (s : state) : list pdict :=
  (λ up, to_pdict up.1 up.2) <$> filter (λ up, f up.1 up.2 = true) (providers s).

Definition reply {A} (q : request A) (s : state) : response A * state :=
  match q in request A return response A * state with
  | GetCandidates _ => (done 200 (mkCandidates [] []), s)
  | GetAggregates rp => (read rp (assoc p_aggs) s, s)
  | GetTraits rp => (read rp (assoc p_traits) s, s)
  | GetProvider rp => (read rp (to_pdict rp) s, s)
  | GetSharing aggs t => (done 200 (matching (λ _ p,
      bool_decide (t ∈ p_traits p) && bool_decide (p_aggs p ∩ list_to_set aggs ≠ ∅)) s), s)
  | GetInTree rp =>
      let root := root_of (length (providers s)) (providers s) in
      (done 200 (matching (λ u _, dhas (providers s) rp && String.eqb (root u) (root rp)) s), s)
  | GetByName n => (done 200 (matching (λ _ p, String.eqb (p_name p) n) s), s)
  | PostProvider rp n parent =>
      if dhas (providers s) rp then (refuse 409 "placement.undefined_code" "Conflicting uuid", s) else
      if existsb (λ up, String.eqb (p_name up.2) n) (providers s)
      then (refuse 409 "placement.undefined_code" name_conflict, s) else
      let p := mkProvider n parent 0 ∅ ∅ ∅ in
      (done 200 (to_pdict rp p), mkState (providers s ++ [(rp, p)]) (consumers s) (clock s))
  | DeleteProvider rp =>
      if negb (dhas (providers s) rp) then (missing, s) else
      if existsb (λ ca, dhas (allocations ca.2) rp) (consumers s)
         || existsb (λ up, bool_decide (p_parent up.2 = Some rp)) (providers s)
      then (refuse 409 "placement.undefined_code" "in use", s) else
      (mkResponse 204 NoJson "", mkState (ddel (providers s) rp) (consumers s) (clock s))
  | GetInventory rp => (read rp (λ p, mkInvJson (p_inv p) (p_gen p)) s, s)
  | PutInventories rp gen inv =>
      write rp gen (λ p, mkProvider (p_name p) (p_parent p) (p_gen p) inv (p_traits p) (p_aggs p))
        (λ p, mkInvJson (p_inv p) (p_gen p)) s
  | QueryTraits names => (done 200 names, s)
  | PutTrait _ => (mkResponse 201 NoJson "", s)
  | PutTraits rp gen l =>
      write rp gen (λ p, mkProvider (p_name p) (p_parent p) (p_gen p) (p_inv p) (list_to_set l) (p_aggs p))
        (assoc p_traits) s
  | PutAggregates rp gen l =>
      write rp gen (λ p, mkProvider (p_name p) (p_parent p) (p_gen p) (p_inv p) (p_traits p) (list_to_set l))
        (assoc p_aggs) s
  | PutResourceClass _ => (mkResponse 201 NoJson "", s)
  | PostReshaper _ _ => (refuse 406 "placement.undefined_code" "Unacceptable version", s)
  | GetAllocations c => (done 200 (default (mkAllocs [] None None None) (dget (consumers s) c)), s)
  | PutAllocations c a => put_consumers [(c, a)] s
  | PostAllocations l => put_consumers l s
  | GetProviderAllocations rp =>
      (done 200 (omap (λ ca, (λ a, (ca.1, resources a)) <$> dget (allocations ca.2) rp) (consumers s)), s)
  | GetUsages _ _ => (done 200 [], s)
  end.

End Service.

#[export] Instance the_service : PlacementServer Service.state := {|
  send A v q s := let '(r, s') := Service.reply q s in (Ok r, s');
  time s := (Service.clock s, Service.mkState (Service.providers s) (Service.consumers s)
                                (Service.clock s + 1)%Z)
|}.

(** ** Runs against the service *)

Definition rp1 : string := "5d1d4b1e-8a0c-4b1c-9c55-0c9d3d2f9b01".
Definition rp2 : string := "5d1d4b1e-8a0c-4b1c-9c55-0c9d3d2f9b02".

Definition holding : allocs :=
  mkAllocs [(rp1, mkRpAlloc (Some 3%Z) [("VCPU", 2%Z); ("MEMORY_MB", 512%Z)])]
    (Some "project") (Some "user") (Some (Some 1%Z)).
Definition wanted_req : allocs :=
  mkAllocs [(rp1, mkRpAlloc None [("VCPU", 1%Z)]); (rp2, mkRpAlloc None [("VCPU", 4%Z)])] None None None.

Definition service0 : client Service.state :=
  mkClient [] ∅ (Service.mkState [] [("c1", holding)] 100).

Abbreviation claim_run c :=
  (claim_resources c wanted_req (Some "project") (Some "user") INTREE_AC_VERSION None service0).

Lemma claim_accepted_witness :
  NoDup (dkeys (allocations wanted_req)) ∧
  ∃ s1 s2 r0 r payload,
    answers CONSUMER_GENERATION_VERSION (GetAllocations "c1") r0 s1 s2 ∧
    answers INTREE_AC_VERSION (PutAllocations "c1" payload) r s2 (claim_run "c1").2 ∧
    status_code r = 204%Z ∧ project_id payload = Some "project" ∧ user_id payload = Some "user" ∧
    (∀ rp, dget (allocations payload) rp =
       match dget (held r0) rp with
       | Some a => Some (mkRpAlloc None (resources a))
       | None => dget (allocations wanted_req) rp
       end) ∧
    (held r0 ≠ [] → version_ge INTREE_AC_VERSION CONSUMER_GENERATION_VERSION = true →
     consumer_generation wanted_req = None → consumer_generation payload = held_generation r0).
Proof.
  assert (NoDup (dkeys (allocations wanted_req))) as Hnd by (vm_compute; repeat constructor; set_solver).
  split; [exact Hnd|].
  assert ((claim_run "c1").1 = Ok true) as Hrun by (vm_compute; reflexivity).
  exact (claim_accepted "c1" wanted_req _ _ _ _ _ _ Hnd (run_eq _ _ Hrun)).
Defined.

(** What the doubled-up claim leaves, and a removal that gives a class back. *)
Example claim_doubles_up :
  dget (Service.consumers (server (claim_run "c1").2)) "c1" =
    Some (mkAllocs [(rp1, mkRpAlloc None [("VCPU", 2%Z); ("MEMORY_MB", 512%Z)]);
                    (rp2, mkRpAlloc None [("VCPU", 4%Z)])]
            (Some "project") (Some "user") (Some (Some 2%Z))).
Proof. vm_compute. reflexivity. Qed.

Lemma deletion_accepted_witness :
  delete_allocation_for_container "c1" service0 =
    (Ok true, (delete_allocation_for_container "c1" service0).2) ∧
  ∃ r0 a s1, answers CONSUMER_GENERATION_VERSION (GetAllocations "c1") r0 service0 s1 ∧
    content r0 = Json a ∧ allocations a ≠ [] ∧ ∃ r payload,
       answers CONSUMER_GENERATION_VERSION (PutAllocations "c1" payload) r s1
         (delete_allocation_for_container "c1" service0).2 ∧
       status_code r = 204%Z ∧ allocations payload = [] ∧
       consumer_generation payload = consumer_generation a.
Proof.
  assert ((delete_allocation_for_container "c1" service0).1 = Ok true) as Hrun
    by (vm_compute; reflexivity).
  split; [exact (run_eq _ _ Hrun)|].
  exact (deletion_accepted "c1" service0 _ true (run_eq _ _ Hrun)).
Defined.

Abbreviation removal_run :=
  (remove_resources_from_container_allocation "c1" [(rp1, [("VCPU", 2%Z)])] service0).

Lemma removal_exact_witness :
  wanted_wf [(rp1, [("VCPU", 2%Z)])] ∧
  ∃ s1, exactly_removed "c1" [(rp1, [("VCPU", 2%Z)])] s1 removal_run.2.
Proof.
  assert (wanted_wf [(rp1, [("VCPU", 2%Z)])]) as Hwf.
  { split; [apply NoDup_singleton|]. intros rp rs [= -> ->]%list_elem_of_singleton.
    apply NoDup_singleton. }
  split; [exact Hwf|].
  assert (removal_run.1 = Ok tt) as Hrun by (vm_compute; reflexivity).
  exact (removal_exact "c1" _ service0 _ Hwf ltac:(discriminate) (run_eq _ _ Hrun)).
Defined.

Example removal_leaves :
  dget (Service.consumers (server removal_run.2)) "c1" =
    Some (mkAllocs [(rp1, mkRpAlloc (Some 3%Z) [("MEMORY_MB", 512%Z)])]
            (Some "project") (Some "user") (Some (Some 2%Z))).
Proof. vm_compute. reflexivity. Qed.

(** A service that reports [holding] and refuses every write with an error of
    its own: a removal still succeeds for the caller, and a deletion raises
    [AttributeError] instead of the exception the code names. *)
Definition refusing : PlacementServer unit := {|
  send A v q p := (Ok (match q in request B return response B with
                       | GetAllocations _ => mkResponse 200 (Json holding) ""
                       | _ => Service.refuse 500 "placement.undefined_code" ""
                       end), p);
  time p := (0%Z, p)
|}.

Lemma removal_failure_ignored :
  remove_resources_from_container_allocation (H:=refusing) "c1" [(rp1, [("VCPU", 2%Z)])]
    (mkClient [] ∅ tt) = (Ok tt, mkClient [] ∅ tt).
Proof. vm_compute. reflexivity. Qed.

Lemma refused_deletion_wrong_class :
  delete_allocation_for_container (H:=refusing) "c1" (mkClient [] ∅ tt) =
    (Raise (RExn (Py AttributeError)), mkClient [] ∅ tt).
Proof. vm_compute. reflexivity. Qed.

(** Moving the allocations of a consumer that holds nothing is a [KeyError]: the
    service's answer has no [project_id] then. *)
Lemma move_nothing_raises :
  (move_allocations "c2" "c3" service0).1 = Raise (RExn (Py KeyError)).
Proof. vm_compute. reflexivity. Qed.
