(* ===== verification/PlacementSync.v ===== *)
(** * The placement client: the cached tree (src/zun/scheduler/client/report.py)

    [SchedulerReportClient] keeps a tree of the providers it has seen.  It brings
    the providers of a host into the cache, with their inventories, traits and
    aggregates, and flushes a changed copy of the tree back, provider by provider.
    Every write carries the generation the client last saw of the provider; the
    service refuses it when the provider has changed since, and the client then
    drops that part of its cache. *)

From S2P Require Import Prelude Exceptions Container ComputeNode ProviderTree Placement.

(** The expression [e.pop(k, None)] on the table of refresh times *)
Definition forget {P} (u : string) (c : client P) : client P :=
  set_times (delete u (_association_refresh_time c)) c.

Definition is_conflict (e : rerr) : bool :=
  match e with RExn x => isinstance x ResourceProviderUpdateConflict | _ => false end.
Definition is_ValueError (e : rerr) : bool :=
  match e with RExn x => Tree.is_ValueError x | _ => false end.

(** The exceptions [catch_all] turns into [ResourceProviderSyncFailed]. *)
Definition helper_exceptions : list zun_class := [
  InvalidResourceClass; InventoryInUse; ResourceProviderAggregateRetrievalFailed;
  ResourceProviderDeletionFailed; ResourceProviderInUse; ResourceProviderRetrievalFailed;
  ResourceProviderTraitRetrievalFailed; ResourceProviderUpdateFailed; TraitCreationFailed;
  TraitRetrievalFailed].
Definition is_helper (e : rerr) : bool :=
  match e with RExn x => existsb (isinstance x) helper_exceptions | _ => false end.

Section Sync.
Context {P : Type} `{PlacementServer P}.
(** [CONF.compute.resource_provider_association_refresh], in ticks of [time] *)
Context (association_refresh : Z).
Abbreviation C := (client P).
Abbreviation rm := (M rerr C).

(** A method of the cached tree. *)
Definition on_tree {A} (m : py Tree.tree A) : rm A :=
  λ c, let '(o, t) := m (_provider_tree c) in
       (match o with Ok a => Ok a | Raise e => Raise (RExn e) end, set_tree t c).

(** [try: m  except ValueError: k] *)
Definition unless_ValueError {A} (m k : rm A) : rm A :=
  try_except m (λ e, if is_ValueError e then Some k else None).

Definition clear_provider_cache : rm unit := modify (λ c, mkClient [] ∅ (server c)).

Definition _clear_provider_cache_for_tree (rp_uuid : string) : rm unit :=
  let! uuids := unless_ValueError
    (let! l := on_tree (Tree.get_provider_uuids_in_tree rp_uuid) in ret (Some l)) (ret None) in
  match uuids with
  | None => ret tt
  | Some uuids =>
      let! root := of_option (head uuids) (RExn (Py IndexError)) in
      on_tree (Tree.remove root);;;
      for_each (λ u, modify (forget u)) uuids
  end.

Definition get_resource_provider_name (uuid : string) : rm string :=
  unless_ValueError (let! d := on_tree (Tree.data uuid) in ret (name d))
    (let! rsp := _get_resource_provider uuid in
     match rsp with
     | None => zun ResourceProviderNotFound
     | Some pd => of_option (pd_name pd) (RExn (Py KeyError))
     end).

(** ** Bringing providers into the cache *)

Definition _associations_stale (uuid : string) : rm bool :=
  let! c := get in
  let refresh_time := default 0%Z (_association_refresh_time c !! uuid) in
  if ((association_refresh =? 0) && negb (refresh_time =? 0))%Z then ret false else
  let! t := now in
  ret (association_refresh <? t - refresh_time)%Z.

Definition mark_refreshed (uuid : string) : rm unit :=
  let! t := now in modify (λ c, set_times (<[uuid := t]> (_association_refresh_time c)) c).

Definition _get_inventory (rp_uuid : string) : rm (option inv_json) :=
  let! result := call v1_0 (GetInventory rp_uuid) in
  if is_true result then let! d := json result in ret (Some d) else ret None.

Definition _refresh_and_get_inventory (rp_uuid : string) : rm (option inv_json) :=
  let! curr := _get_inventory rp_uuid in
  match curr with
  | None => ret None
  | Some d =>
      let! _b := on_tree (Tree.update_inventory rp_uuid (ij_inventories d) (Some (ij_generation d))) in
      ret (Some d)
  end.

(** [_refresh_associations], where [share] deals with the sharing providers of
    the aggregates found. *)
Definition refresh_with (share : gset string → rm unit) (rp_uuid : string) (force : bool) : rm unit :=
  let! wanted := (if force then ret true else _associations_stale rp_uuid) in
  if wanted : bool then
    let! _i := _refresh_and_get_inventory rp_uuid in
    let! '(aggs, generation) := _get_provider_aggregates rp_uuid in
    let! _a := on_tree (Tree.update_aggregates rp_uuid aggs (Some generation)) in
    let! '(traits, generation) := get_provider_traits rp_uuid in
    let! _t := on_tree (Tree.update_traits rp_uuid traits (Some generation)) in
    share aggs;;;
    mark_refreshed rp_uuid
  else ret tt.

Definition refresh_sharing_provider (force : bool) (rp : pdict) : rm unit :=
  let! u := of_option (pd_uuid rp) (RExn (Py KeyError)) in
  let! known := on_tree (Tree.exists_ u) in
  (if known : bool then ret tt else
     let! n := of_option (pd_name rp) (RExn (Py KeyError)) in
     let! _u := on_tree (Tree.new_root n u (pd_generation rp)) in ret tt);;;
  refresh_with (λ _, ret tt) u force.

Definition _refresh_associations (rp_uuid : string) (force refresh_sharing : bool) : rm unit :=
  refresh_with
    (λ aggs, if refresh_sharing then
       let! rps := _get_sharing_providers aggs in
       for_each (refresh_sharing_provider force) rps else ret tt)
    rp_uuid force.

Fixpoint filter_m (f : string → rm bool) (l : list string) : rm (list string) :=
  match l with
  | [] => ret []
  | u :: l' => let! b := f u in let! l'' := filter_m f l' in ret (if b : bool then u :: l'' else l'')
  end.

(** Created, when placement does not know it; the answer is [None] when it was
    created and deleted by others meanwhile. *)
Definition create_missing (uuid : string) (name parent_provider_uuid : option string)
    : rm (option pdict) :=
  let name := if ostr_true name then default uuid name else uuid in
  let! rp := try_except (_create_resource_provider uuid name parent_provider_uuid)
    (λ e, if no_connection e then Some (zun ResourceProviderCreationFailed) else None) in
  mark_refreshed uuid;;;
  ret rp.

Definition pull_or_create (uuid : string) (name parent_provider_uuid : option string)
    : rm (list string) :=
  let! rps_to_refresh := get_providers_in_tree uuid in
  let! found := match rps_to_refresh with
                | [] => let! rp := create_missing uuid name parent_provider_uuid in
                        let! rp := of_option rp (RExn (Py TypeError)) in ret [rp]
                | _ => ret rps_to_refresh
                end in
  on_tree (Tree.populate_from_iterable found);;;
  map_m (λ rp, of_option (pd_uuid rp) (RExn (Py KeyError))) rps_to_refresh.

Definition _ensure_resource_provider (uuid : string) (name parent_provider_uuid : option string)
    : rm string :=
  let! known := on_tree (Tree.exists_ uuid) in
  let! fresh := (if known : bool then let! st := _associations_stale uuid in ret (negb st)
                 else ret false) in
  let! uuids_to_refresh :=
    (if fresh : bool then
       let! us := on_tree (Tree.get_provider_uuids (Some uuid)) in
       filter_m _associations_stale us
     else pull_or_create uuid name parent_provider_uuid) in
  for_each (λ u, _refresh_associations u true true) uuids_to_refresh;;;
  ret uuid.

(** The copy is a value here. *)
Definition get_provider_tree_and_ensure_root (rp_uuid : string)
    (name parent_provider_uuid : option string) : rm Tree.tree :=
  let! _u := _ensure_resource_provider rp_uuid name parent_provider_uuid in
  gets _provider_tree.

(** ** Writing one provider *)

(** A provider that is gone already is as good as deleted. *)
Definition _delete_provider (rp_uuid : string) : rm unit :=
  let! resp := call v1_0 (DeleteProvider rp_uuid) in
  if is_true resp || status_is 404 resp then
    unless_ValueError (on_tree (Tree.remove rp_uuid)) (ret tt);;;
    modify (forget rp_uuid)
  else if status_is 409 resp then zun ResourceProviderInUse
  else zun ResourceProviderDeletionFailed.

Definition inventory_inuse : string := "placement.inventory.inuse".

Definition set_inventory_for_provider (rp_uuid : string) (inv_data : inventory_t) : rm unit :=
  let! changed := on_tree (Tree.has_inventory_changed rp_uuid inv_data) in
  if negb changed then ret tt else
  _ensure_resource_classes (dom inv_data);;;
  let! d := on_tree (Tree.data rp_uuid) in
  let! resp := call ALLOW_RESERVED_EQUAL_TOTAL_INVENTORY_VERSION
                 (PutInventories rp_uuid (generation d) inv_data) in
  if status_is 200 resp then
    let! j := json resp in
    let! _b := on_tree (Tree.update_inventory rp_uuid (ij_inventories j) (Some (ij_generation j))) in
    ret tt
  else if status_is 409 resp then
    let! err := first_error resp in
    if String.eqb (err_code err) inventory_inuse then zun InventoryInUse
    else zun ResourceProviderUpdateConflict
  else zun ResourceProviderUpdateFailed.

Definition set_traits_for_provider (rp_uuid : string) (traits : gset string) : rm unit :=
  let! changed := on_tree (Tree.have_traits_changed rp_uuid traits) in
  if negb changed then ret tt else
  _ensure_traits traits;;;
  let! d := on_tree (Tree.data rp_uuid) in
  let! resp := call v1_6 (PutTraits rp_uuid (generation d) (elements traits)) in
  if status_is 200 resp then
    let! j := json resp in
    let! _b := on_tree (Tree.update_traits rp_uuid (list_to_set (aj_items j)) (Some (aj_generation j))) in
    ret tt
  else if status_is 409 resp then zun ResourceProviderUpdateConflict
  else zun ResourceProviderUpdateFailed.

(** Whether the cache, at this generation, has these aggregates already. *)
Definition aggregates_cached (rp_uuid : string) (aggregates : gset string) (generation : option Z)
    : rm bool :=
  unless_ValueError
    (let! d := on_tree (Tree.data rp_uuid) in
     if decide (ProviderTree.generation d = generation) then
       let! changed := on_tree (Tree.have_aggregates_changed rp_uuid aggregates) in
       ret (negb changed)
     else ret false)
    (ret false).

Definition set_aggregates_for_provider (rp_uuid : string) (aggregates : gset string)
    (use_cache : bool) (generation : option Z) : rm unit :=
  let! generation :=
    match generation with
    | Some g => ret (Some g)
    | None => if use_cache then let! d := on_tree (Tree.data rp_uuid) in ret (ProviderTree.generation d)
              else python ValueError
    end in
  let! same := aggregates_cached rp_uuid aggregates generation in
  if same : bool then ret tt else
  let! resp := call AGGREGATE_GENERATION_VERSION
                 (PutAggregates rp_uuid generation (elements aggregates)) in
  if status_is 200 resp then
    try_except
      (let! j := json resp in
       let! _b := on_tree (Tree.update_aggregates rp_uuid (list_to_set (aj_items j))
                             (Some (aj_generation j))) in
       ret tt)
      (λ e, if is_ValueError e && negb use_cache then Some (ret tt) else None)
  else if status_is 409 resp then
    unless_ValueError (on_tree (Tree.remove rp_uuid)) (ret tt);;;
    modify (forget rp_uuid);;;
    zun ResourceProviderUpdateConflict
  else zun ResourceProviderUpdateFailed.

(** ** Flushing a tree *)

(** [with catch_all(rp_uuid): m] *)
Definition catch_all {A} (rp_uuid : string) (m : rm A) : rm A :=
  try_except m (λ e,
    if is_conflict e then Some (_clear_provider_cache_for_tree rp_uuid;;; raise e)
    else if is_helper e
         then Some (_clear_provider_cache_for_tree rp_uuid;;; zun ResourceProviderSyncFailed)
         else None).

(** A method of another tree, [new_tree], whose new value is returned. *)
Definition of_tree {A} (m : py Tree.tree A) (t : Tree.tree) : rm (A * Tree.tree) :=
  let '(o, t') := m t in let! a := of_exn o in ret (a, t').
Definition read_tree {A} (m : py Tree.tree A) (t : Tree.tree) : rm A :=
  let! '(a, _t) := of_tree m t in ret a.

(** One provider that the cache lacks: it is ensured, and its generation is
    copied into the new tree. *)
Definition add_body (uuid : string) (provider : ProviderData) (new_tree : Tree.tree) : rm Tree.tree :=
  let! _u := _ensure_resource_provider uuid (Some (name provider)) (parent_uuid provider) in
  let! n := read_tree (Tree.data uuid) new_tree in
  let! d := on_tree (Tree.data uuid) in
  let! '(_b, new_tree) := of_tree (Tree.update_inventory uuid (inventory n) (generation d)) new_tree in
  ret new_tree.

Definition add_provider (uuid : string) (new_tree : Tree.tree) : rm Tree.tree :=
  let! provider := read_tree (Tree.data uuid) new_tree in
  catch_all uuid (add_body uuid provider new_tree).

Fixpoint add_providers (uuids : list string) (new_tree : Tree.tree) : rm Tree.tree :=
  match uuids with
  | [] => ret new_tree
  | u :: us => let! new_tree := add_provider u new_tree in add_providers us new_tree
  end.

Definition _reshape (inventories : dict string (inventory_t * option Z)) (al : dict string allocs)
    : rm (response unit) :=
  for_each (λ kv, _ensure_resource_classes (dom kv.2.1)) inventories;;;
  let! resp := call RESHAPER_VERSION (PostReshaper inventories al) in
  if is_true resp then ret resp else python AttributeError.

(** [exception.ReshapeFailed] is not defined: both the raise above and the
    [except] clause that names it end in [AttributeError].  [old_tree] is the
    cached tree itself, so its providers are read after the additions. *)
Definition _set_up_and_do_reshape (new_tree : Tree.tree) (al : dict string allocs) : rm unit :=
  let! new_uuids := read_tree (Tree.get_provider_uuids None) new_tree in
  let! kept := map_m (λ u, let! d := read_tree (Tree.data u) new_tree in
                           ret (u, (inventory d, generation d))) new_uuids in
  let! old_uuids := on_tree (Tree.get_provider_uuids None) in
  let to_remove := elements (list_to_set old_uuids ∖ list_to_set new_uuids : gset string) in
  let! gone := map_m (λ u, let! d := on_tree (Tree.data u) in
                           ret (u, (∅, generation d))) to_remove in
  try_except (let! _r := _reshape (dict_of (kept ++ gone)) al in ret tt)
    (λ _, Some (python AttributeError)).

(** The inventory, the aggregates and the traits of one provider. *)
Definition flush_body (pd : ProviderData) : rm unit :=
  set_inventory_for_provider (ProviderTree.uuid pd) (inventory pd);;;
  set_aggregates_for_provider (ProviderTree.uuid pd) (aggregates pd) true None;;;
  set_traits_for_provider (ProviderTree.uuid pd) (traits pd).

Definition flush_provider (new_tree : Tree.tree) (uuid : string) : rm unit :=
  let! pd := read_tree (Tree.data uuid) new_tree in
  catch_all (ProviderTree.uuid pd) (flush_body pd).

Definition update_from_provider_tree (new_tree : Tree.tree) (al : option (dict string allocs))
    : rm unit :=
  let! old_uuids := on_tree (Tree.get_provider_uuids None) in
  let! new_uuids := read_tree (Tree.get_provider_uuids None) new_tree in
  let! new_tree := add_providers (filter (.∉ old_uuids) new_uuids) new_tree in
  match al with
  | None => ret tt
  | Some al =>
      _set_up_and_do_reshape new_tree al;;;
      for_each (λ u, catch_all u (let! _i := _refresh_and_get_inventory u in ret tt)) new_uuids
  end;;;
  for_each (λ u, catch_all u (_delete_provider u)) (reverse (filter (.∉ new_uuids) old_uuids));;;
  for_each (flush_provider new_tree) (reverse new_uuids).

(** ** Other users of the client *)

Definition get_allocations_for_provider_tree (nodename : string) : rm (dict string allocs) :=
  let! uuids := on_tree (Tree.get_provider_uuids (Some nodename)) in
  let! infos := map_m get_allocations_for_resource_provider uuids in
  let consumers : gset string := ⋃ ((λ d : dict string (dict string Z), list_to_set (dkeys d)) <$> infos) in
  map_m (λ c, let! a := get_allocs_for_consumer c in ret (c, a)) (elements consumers).

(** The rest runs on the containers of the database too. *)
Definition delete_resource_provider (node : ComputeNode) (cascade : bool) : M rerr (C * store) unit :=
  let on_client {A} (m : rm A) : M rerr (C * store) A := zoom fst (λ c s, (c, s.2)) m in
  (if cascade then
     let! rs := (λ s, let '(o, st) := list_by_host TYPE_CONTAINER (hostname node) s.2 in
                      (match o with Ok l => Ok l | Raise e => Raise (RExn e) end, (s.1, st))) in
     for_each (λ r, let! s := get in
                    let! _b := on_client (delete_allocation_for_container (Container.uuid (obj s.2 r))) in
                    ret tt) rs
   else ret tt);;;
  try_except (on_client (_delete_provider (default "None" (rp_uuid node))))
    (λ e, match e with
          | RExn x => if isinstance x ResourceProviderInUse || isinstance x ResourceProviderDeletionFailed
                      then Some (ret tt) else None
          | _ => None
          end).

Definition provider_uuid_by_name (name : string) : rm string :=
  let! pd := get_provider_by_name name in of_option (pd_uuid pd) (RExn (Py KeyError)).

Definition aggregate_add_host_once (agg_uuid : string) (host_name rp_uuid : option string) : rm unit :=
  let! rp_uuid :=
    match rp_uuid, host_name with
    | Some u, _ => ret u
    | None, Some h => provider_uuid_by_name h
    | None, None => python ValueError
    end in
  let! '(existing_aggs, gen) := _get_provider_aggregates rp_uuid in
  if decide (agg_uuid ∈ existing_aggs) then ret tt else
  set_aggregates_for_provider rp_uuid (existing_aggs ∪ {[agg_uuid]}) false (Some gen).

Definition aggregate_add_host (agg_uuid : string) (host_name rp_uuid : option string) : rm unit :=
  retrying is_conflict 3 (aggregate_add_host_once agg_uuid host_name rp_uuid).

Definition aggregate_remove_host_once (agg_uuid host_name : string) : rm unit :=
  let! rp_uuid := provider_uuid_by_name host_name in
  let! '(existing_aggs, gen) := _get_provider_aggregates rp_uuid in
  if decide (agg_uuid ∉ existing_aggs) then ret tt else
  set_aggregates_for_provider rp_uuid (existing_aggs ∖ {[agg_uuid]}) false (Some gen).

Definition aggregate_remove_host (agg_uuid host_name : string) : rm unit :=
  retrying is_conflict 3 (aggregate_remove_host_once agg_uuid host_name).
End Sync.

(** ** Reading a well-formed tree *)

Section Reading.
Context (is_uuid : string → bool) (is_uuid_empty : is_uuid "" = false).

Lemma look_uuid {A} u (f : ProviderData → A) t d :
  wf is_uuid t → flat t !! u = Some d → Tree.look u f t = (Ok (f d), t).
Proof.
  intros Hwf Hd. assert (is_uuid u = true) as Hu.
  { apply flat_lookup in Hd as [Hin <-]; [|apply Hwf]. by apply (wf_shape _ _ Hwf). }
  pose proof (find_uuid is_uuid is_uuid_empty t u Hwf Hu) as Hf.
  unfold Tree.look, bind. destruct (Tree._find_with_lock u false t) as [[r|e] t'].
  - destruct Hf as (-> & q & Hq & _ & _ & Hd'). unfold Tree.read. rewrite Hq. by simplify_eq.
  - destruct Hf as (_ & _ & Hn). congruence.
Qed.

Lemma look_missing {A} u (f : ProviderData → A) t :
  wf is_uuid t → is_uuid u = true → flat t !! u = None →
  Tree.look u f t = (Raise (Py ValueError), t).
Proof.
  intros Hwf Hu Hd. pose proof (find_uuid is_uuid is_uuid_empty t u Hwf Hu) as Hf.
  unfold Tree.look, bind. destruct (Tree._find_with_lock u false t) as [[r|e] t'].
  - destruct Hf as (-> & q & _ & _ & _ & Hd'). congruence.
  - by destruct Hf as (-> & -> & _).
Qed.

Lemma uuids_of_tree t : Tree.get_provider_uuids None t = (Ok (all_uuids t), t).
Proof.
  unfold Tree.get_provider_uuids, gets, all_uuids, all_nodes. do 2 f_equal.
  induction t as [|p t IH]; [done|]. cbn. by rewrite IH, get_provider_uuids_nodes, fmap_app.
Qed.

Lemma elem_uuids t u : u ∈ all_uuids t ↔ is_Some (flat t !! u).
Proof.
  rewrite <- not_eq_None_Some, flat_lookup_None. split; [tauto|]. intros Hn. by apply dec_stable.
Qed.

Lemma wf_is_uuid t u d : wf is_uuid t → flat t !! u = Some d → is_uuid u = true ∧ uuid d = u.
Proof.
  intros Hwf [Hin <-]%flat_lookup; [|apply Hwf]. split; [|done]. by apply (wf_shape _ _ Hwf).
Qed.

Lemma matches_uuid t u v d :
  wf is_uuid t → is_uuid u = true → flat t !! v = Some d → matches u d → v = u ∧ uuid d = u.
Proof.
  intros Hwf Hu Hd Hm. assert (d ∈ all_nodes t ∧ uuid d = v) as [Hin Hv] by (by apply flat_lookup in Hd; [|apply Hwf]).
  destruct Hm as [Hm|Hm]; [|by split; congruence].
  destruct (wf_shape _ _ Hwf d Hin) as [_ Hn]. congruence.
Qed.

(** Mutating the provider with a uuid: a point update, or nothing there. *)
Lemma on_found_uuid {A} u (f : ProviderData → A * ProviderData) t :
  wf is_uuid t → is_uuid u = true → keeps_identity (λ d, (f d).2) →
  match Tree.on_found u f t with
  | (Ok a, t') => ∃ d, flat t !! u = Some d ∧ a = (f d).1 ∧ wf is_uuid t' ∧
                    flat t' = <[u := (f d).2]> (flat t)
  | (Raise e, t') => t' = t ∧ e = Py ValueError ∧ flat t !! u = None
  end.
Proof.
  intros Hwf Hu Hf. pose proof (on_found_spec is_uuid is_uuid_empty u f t Hwf Hf) as Hs.
  destruct (Tree.on_found u f t) as [[a|e] t'].
  - destruct Hs as (d & Hm & Hd & -> & Hwf' & Hfl).
    destruct (matches_uuid t u _ d Hwf Hu Hd Hm) as [He _]. rewrite He in *. by exists d.
  - destruct Hs as (-> & -> & Hn). split_and!; [done..|].
    destruct (flat t !! u) as [d|] eqn:Hd; [|done]. destruct (Hn u d Hd). right.
    by destruct (wf_is_uuid t u d Hwf Hd).
Qed.

Lemma parent_in_tree t u d pu :
  wf is_uuid t → flat t !! u = Some d → parent_uuid d = Some pu → is_Some (flat t !! pu).
Proof.
  intros Hwf [Hin _]%flat_lookup Hpu; [|apply Hwf].
  apply list_elem_of_split in Hin as (l1 & l2 & Hall).
  destruct (all_nodes_parents_first t l1 d l2) as [Hn|(pu' & Hpu' & Hin)];
    [apply Hwf..|done|congruence|]. simplify_eq. apply elem_uuids. unfold all_uuids.
  rewrite Hall, fmap_app. apply elem_of_app. by left.
Qed.
End Reading.

(** ** An update that has nothing to say *)

(** What the cache knows of a provider is what the new tree wants of it. *)
Definition agrees (d n : ProviderData) : Prop :=
  Node.has_inventory_changed d (inventory n) = false ∧ traits n = traits d ∧
  aggregates n = aggregates d.

Definition up_to_date (cache new_tree : Tree.tree) : Prop :=
  dom (flat cache) = dom (flat new_tree) ∧
  ∀ u d n, flat cache !! u = Some d → flat new_tree !! u = Some n → agrees d n.

Section Idle.
Context {P : Type} `{PlacementServer P} (rf : Z).
Context (is_uuid : string → bool) (is_uuid_empty : is_uuid "" = false).
Implicit Types s : client P.

Lemma on_tree_look {A} u (f : ProviderData → A) s d :
  wf is_uuid (_provider_tree s) → flat (_provider_tree s) !! u = Some d →
  on_tree (Tree.look u f) s = (Ok (f d), s).
Proof.
  intros Hwf Hd. unfold on_tree. rewrite (look_uuid is_uuid is_uuid_empty u f _ d) by done.
  by destruct s.
Qed.

Lemma read_tree_look {A} u (f : ProviderData → A) t d s :
  wf is_uuid t → flat t !! u = Some d → read_tree (Tree.look u f) t s = (Ok (f d), s).
Proof.
  intros Hwf Hd. unfold read_tree, of_tree.
  by rewrite (look_uuid is_uuid is_uuid_empty u f _ d) by done.
Qed.

Lemma set_inventory_silent u d inv s :
  wf is_uuid (_provider_tree s) → flat (_provider_tree s) !! u = Some d →
  Node.has_inventory_changed d inv = false → set_inventory_for_provider u inv s = (Ok tt, s).
Proof.
  intros Hwf Hd Hi. unfold set_inventory_for_provider, Tree.has_inventory_changed.
  rewrite (bind_eq _ _ _ _ _ (on_tree_look u _ s d Hwf Hd)). by rewrite Hi.
Qed.

Lemma set_traits_silent u d s :
  wf is_uuid (_provider_tree s) → flat (_provider_tree s) !! u = Some d →
  set_traits_for_provider u (traits d) s = (Ok tt, s).
Proof.
  intros Hwf Hd. unfold set_traits_for_provider, Tree.have_traits_changed.
  rewrite (bind_eq _ _ _ _ _ (on_tree_look u _ s d Hwf Hd)).
  unfold Node.have_traits_changed. by rewrite bool_decide_eq_false_2 by tauto.
Qed.

Lemma aggregates_cached_run u d aggs s :
  wf is_uuid (_provider_tree s) → flat (_provider_tree s) !! u = Some d →
  aggregates_cached u aggs (generation d) s = (Ok (bool_decide (aggs = aggregates d)), s).
Proof.
  intros Hwf Hd. unfold aggregates_cached, unless_ValueError, try_except, Tree.data,
    Tree.have_aggregates_changed, Node.have_aggregates_changed.
  rewrite (bind_eq _ _ _ _ _ (on_tree_look u id s d Hwf Hd)). unfold id.
  rewrite decide_True by done. rewrite (bind_eq _ _ _ _ _ (on_tree_look u _ s d Hwf Hd)).
  cbn [ret]. unfold ret. do 2 f_equal. by repeat case_bool_decide.
Qed.

Lemma set_aggregates_run u d aggs s :
  wf is_uuid (_provider_tree s) → flat (_provider_tree s) !! u = Some d → aggs = aggregates d →
  set_aggregates_for_provider u aggs true None s = (Ok tt, s).
Proof.
  intros Hwf Hd Ha. unfold set_aggregates_for_provider, Tree.data. rewrite bind_assoc.
  rewrite (bind_eq _ _ _ _ _ (on_tree_look u id s d Hwf Hd)). rewrite bind_ret. unfold id.
  rewrite (bind_eq _ _ _ _ _ (aggregates_cached_run u d aggs s Hwf Hd)).
  by rewrite bool_decide_eq_true_2.
Qed.

Lemma flush_silent new_tree u d n s :
  wf is_uuid (_provider_tree s) → wf is_uuid new_tree →
  flat (_provider_tree s) !! u = Some d → flat new_tree !! u = Some n → agrees d n →
  flush_provider new_tree u s = (Ok tt, s).
Proof.
  intros Hwf Hwfn Hd Hn (Hi & Ht & Ha). unfold flush_provider, Tree.data.
  rewrite (bind_eq _ _ _ _ _ (read_tree_look u id new_tree n s Hwfn Hn)). unfold id.
  unfold catch_all, try_except, flush_body.
  destruct (wf_is_uuid is_uuid new_tree u n Hwfn Hn) as [_ ->].
  rewrite (bind_eq _ _ _ _ _ (set_inventory_silent u d (inventory n) s Hwf Hd Hi)).
  rewrite (bind_eq _ _ _ _ _ (set_aggregates_run u d (aggregates n) s Hwf Hd Ha)).
  rewrite Ht. by rewrite (set_traits_silent u d s Hwf Hd).
Qed.

(** Flushing a tree that says what the cache says already, provider by
    provider, sends no request at all: the client is left exactly as it was, and
    so is the service, whatever it would have answered. *)
Theorem idle_update_silent new_tree s :
  wf is_uuid (_provider_tree s) → wf is_uuid new_tree →
  up_to_date (_provider_tree s) new_tree →
  update_from_provider_tree rf new_tree None s = (Ok tt, s).
Proof.
  intros Hwf Hwfn [Hdom Hag]. unfold update_from_provider_tree.
  assert (on_tree (Tree.get_provider_uuids None) s = (Ok (all_uuids (_provider_tree s)), s)) as Hold
    by (unfold on_tree; rewrite uuids_of_tree; by destruct s).
  step Hold.
  assert (read_tree (Tree.get_provider_uuids None) new_tree s = (Ok (all_uuids new_tree), s)) as Hnew
    by (unfold read_tree, of_tree; by rewrite uuids_of_tree).
  step Hnew.
  assert (∀ u, u ∈ all_uuids new_tree ↔ u ∈ all_uuids (_provider_tree s)) as Hsame.
  { intros u. by rewrite !elem_uuids, <- !elem_of_dom, Hdom. }
  rewrite (filter_none _ (all_uuids new_tree)), (filter_none _ (all_uuids (_provider_tree s)))
    by (apply Forall_forall; intros u; rewrite Hsame; tauto).
  cbn [add_providers reverse rev_append for_each]. steps.
  assert (∀ l, l ⊆ all_uuids new_tree → for_each (flush_provider new_tree) l s = (Ok tt, s)) as Hloop.
  { induction l as [|u l IH]; intros Hl; [done|]. cbn [for_each].
    assert (u ∈ all_uuids new_tree) as Hu by set_solver. pose proof Hu as Hu'.
    apply elem_uuids in Hu' as [n Hn]. apply Hsame, elem_uuids in Hu as [d Hd].
    rewrite (bind_eq _ _ _ _ _ (flush_silent new_tree u d n s Hwf Hwfn Hd Hn (Hag u d n Hd Hn))).
    apply IH. set_solver. }
  apply Hloop. intros u. by rewrite elem_of_reverse.
Qed.
End Idle.

Lemma idle_update_silent_witness :
  wf uuid_like host_tree ∧ up_to_date host_tree host_tree ∧
  update_from_provider_tree 300 host_tree None (mkClient host_tree ∅ (Service.mkState [] [] 100)) =
    (Ok tt, mkClient host_tree ∅ (Service.mkState [] [] 100)).
Proof.
  assert (up_to_date host_tree host_tree) as Hup.
  { split; [done|]. intros u d n Hd Hn. simplify_eq.
    split; [apply inventory_refl|by split]. }
  split_and!; [exact host_tree_wf|exact Hup|].
  apply (idle_update_silent 300 uuid_like eq_refl); [exact host_tree_wf..|exact Hup].
Defined.
