(* ===== verification/PlacementFlush.v ===== *)
(** * The placement client: what a flush guarantees

    Against a service that keeps the documented promises ([ServiceLaws]): the
    cached tree stays well formed, a flush that returns has made the cache agree
    with the tree that was flushed, and one that fails with a conflict has dropped
    the provider concerned from the cache, so that the next pass reads it again. *)

From S2P Require Import Prelude Exceptions ProviderTree Placement PlacementSync.

(** ** What the client relies on *)

(** What the requests of the client respect: a provider is created under a uuid,
    with a name that is not one, below a uuid. *)
Definition request_ok (is_uuid : string → bool) {A} (q : request A) : Prop :=
  match q with
  | PostProvider u n parent =>
      is_uuid u = true ∧ is_uuid n = false ∧ ∀ pu, parent = Some pu → is_uuid pu = true
  | _ => True
  end.

(** A stored inventory repeats what was sent, and may add fields to a record. *)
Definition repeats (stored sent : inventory_t) : Prop :=
  dom stored = dom sent ∧
  ∀ rc cur n, stored !! rc = Some cur → sent !! rc = Some n → n ⊆ cur.

(** [good]: the service's own data are in order.  Its lists of providers are
    well shaped, and the answer to an accepted write repeats what was written. *)
Class ServiceLaws (is_uuid : string → bool) (P : Type) `{PlacementServer P} := {
  good : P → Prop;
  good_send A v (q : request A) p o p' :
    request_ok is_uuid q → good p → send v q p = (o, p') → good p';
  good_time p : good p → good (time p).2;
  in_tree_shape v u p r p' l :
    good p → send v (GetInTree u) p = (Ok r, p') → content r = Json l → well_shaped is_uuid l;
  sharing_shape v aggs t p r p' l :
    good p → send v (GetSharing aggs t) p = (Ok r, p') → content r = Json l → well_shaped is_uuid l;
  provider_shape v u p r p' pd :
    good p → send v (GetProvider u) p = (Ok r, p') → content r = Json pd → well_shaped is_uuid [pd];
  by_name_shape v n p r p' l :
    good p → send v (GetByName n) p = (Ok r, p') → content r = Json l → well_shaped is_uuid l;
  post_shape v u n parent p r p' pd :
    good p → request_ok is_uuid (PostProvider u n parent) →
    send v (PostProvider u n parent) p = (Ok r, p') → content r = Json pd → well_shaped is_uuid [pd];
  echo_inventory v u g inv p r p' j :
    send v (PutInventories u g inv) p = (Ok r, p') → status_code r = 200%Z →
    content r = Json j → repeats (ij_inventories j) inv;
  echo_traits v u g l p r p' j :
    send v (PutTraits u g l) p = (Ok r, p') → status_code r = 200%Z →
    content r = Json j → (list_to_set (aj_items j) : gset string) = list_to_set l;
  echo_aggregates v u g l p r p' j :
    send v (PutAggregates u g l) p = (Ok r, p') → status_code r = 200%Z →
    content r = Json j → (list_to_set (aj_items j) : gset string) = list_to_set l
}.

(** ** The cache stays well formed *)

Section Sane.
Context {is_uuid : string → bool} (is_uuid_empty : is_uuid "" = false).
Context {P : Type} `{ServiceLaws is_uuid P} (rf : Z).
Abbreviation C := (client P).
Abbreviation rm := (M rerr C).
Implicit Types s : C.

Definition sane s : Prop := wf is_uuid (_provider_tree s) ∧ good (server s).

Lemma call_sane {A} v (q : request A) : request_ok is_uuid q → preserves sane (call v q).
Proof.
  intros Hq s [Hwf Hg]. unfold call. destruct (send v q (server s)) as [[r|k] p] eqn:Hs;
    (split; [exact Hwf|by eapply good_send]).
Qed.
#[local] Hint Extern 1 (preserves sane (call _ _)) => apply call_sane; exact I : py.

Lemma now_sane : preserves sane now.
Proof. intros s [Hwf Hg]. unfold now. pose proof (good_time _ Hg) as Ht. by destruct (time (server s)). Qed.
#[local] Hint Resolve now_sane : py.

Lemma times_sane f : (∀ s, _provider_tree (f s) = _provider_tree s ∧ server (f s) = server s) →
  preserves (E:=rerr) sane (modify f).
Proof. intros Hf. apply preserves_modify. intros s [Hwf Hg]. destruct (Hf s) as [Ht Hp]. split; congruence. Qed.
#[local] Hint Extern 1 (preserves sane (modify _)) => by apply times_sane : py.

Lemma on_tree_sane {A} (m : py Tree.tree A) :
  (∀ t, wf is_uuid t → wf is_uuid (m t).2) → preserves sane (on_tree m).
Proof.
  intros Hm s [Hwf Hg]. unfold on_tree. specialize (Hm _ Hwf).
  destruct (m (_provider_tree s)) as [[a|e] t]; by split.
Qed.

Lemma look_wf {A} u (f : ProviderData → A) t : wf is_uuid t → wf is_uuid (Tree.look u f t).2.
Proof.
  intros Hwf. unfold Tree.look, bind, Tree._find_with_lock, Tree.read.
  destruct (Tree.find_from 0 u t) as [[i path]|]; [|done]. by destruct (deref t _).
Qed.
Lemma exists_wf u t : wf is_uuid t → wf is_uuid (Tree.exists_ u t).2.
Proof. intros Hwf. by destruct (exists_spec _ u t Hwf) as (b & -> & _). Qed.
Lemma uuids_wf o t : wf is_uuid t → wf is_uuid (Tree.get_provider_uuids o t).2.
Proof.
  intros Hwf. destruct o as [u|]; [|done]. unfold Tree.get_provider_uuids, bind, Tree._find_with_lock,
    Tree.read. destruct (Tree.find_from 0 u t) as [[i path]|]; [|done]. by destruct (deref t _).
Qed.
Lemma in_tree_wf u t : wf is_uuid t → wf is_uuid (Tree.get_provider_uuids_in_tree u t).2.
Proof.
  intros Hwf. unfold Tree.get_provider_uuids_in_tree, bind, Tree._find_with_lock, Tree.read.
  destruct (Tree.find_from 0 u t) as [[i path]|]; [|done]. by destruct (deref t _).
Qed.
Lemma remove_wf u t : wf is_uuid t → wf is_uuid (Tree.remove u t).2.
Proof. intros Hwf. apply (call_wf _ is_uuid_empty (Remove u) t Hwf I). Qed.
Lemma update_inventory_wf u inv g t : wf is_uuid t → wf is_uuid (Tree.update_inventory u inv g t).2.
Proof. intros Hwf. apply on_found_wf; [done|done|apply update_inventory_keeps]. Qed.
Lemma update_traits_wf u ts g t : wf is_uuid t → wf is_uuid (Tree.update_traits u ts g t).2.
Proof. intros Hwf. apply on_found_wf; [done|done|apply (update_traits_keeps (λ _, ts))]. Qed.
Lemma update_aggregates_wf u ts g t : wf is_uuid t → wf is_uuid (Tree.update_aggregates u ts g t).2.
Proof. intros Hwf. apply on_found_wf; [done|done|apply (update_aggregates_keeps (λ _, ts))]. Qed.
#[local] Hint Extern 1 (preserves sane (on_tree (Tree.exists_ _))) => apply on_tree_sane, exists_wf : py.
#[local] Hint Extern 1 (preserves sane (on_tree (Tree.data _))) => apply on_tree_sane, look_wf : py.
#[local] Hint Extern 1 (preserves sane (on_tree (Tree.get_provider_uuids _))) =>
  apply on_tree_sane, uuids_wf : py.
#[local] Hint Extern 1 (preserves sane (on_tree (Tree.get_provider_uuids_in_tree _))) =>
  apply on_tree_sane, in_tree_wf : py.
#[local] Hint Extern 1 (preserves sane (on_tree (Tree.has_inventory_changed _ _))) =>
  apply on_tree_sane, look_wf : py.
#[local] Hint Extern 1 (preserves sane (on_tree (Tree.have_traits_changed _ _))) =>
  apply on_tree_sane, look_wf : py.
#[local] Hint Extern 1 (preserves sane (on_tree (Tree.have_aggregates_changed _ _))) =>
  apply on_tree_sane, look_wf : py.
#[local] Hint Extern 1 (preserves sane (on_tree (Tree.remove _))) => apply on_tree_sane, remove_wf : py.
#[local] Hint Extern 1 (preserves sane (on_tree (Tree.update_inventory _ _ _))) =>
  apply on_tree_sane, update_inventory_wf : py.
#[local] Hint Extern 1 (preserves sane (on_tree (Tree.update_traits _ _ _))) =>
  apply on_tree_sane, update_traits_wf : py.
#[local] Hint Extern 1 (preserves sane (on_tree (Tree.update_aggregates _ _ _))) =>
  apply on_tree_sane, update_aggregates_wf : py.

(** Reading an answer changes nothing. *)
Lemma json_sane {A} (r : response A) : preserves sane (json r).
Proof. unfold json, python. keep. Qed.
Lemma first_error_sane {A} (r : response A) : preserves sane (first_error r).
Proof. unfold first_error, python. keep. Qed.
Lemma zun_sane {A} z : preserves sane (zun (A:=A) z).
Proof. apply preserves_raise. Qed.
#[local] Hint Resolve json_sane first_error_sane zun_sane : py.

Lemma unless_sane {A} (m k : rm A) : preserves sane m → preserves sane k → preserves sane (unless_ValueError m k).
Proof.
  intros Hm Hk. apply preserves_try_except; [done|]. intros e h. destruct (is_ValueError e); [|done].
  by intros [= <-].
Qed.
#[local] Hint Resolve unless_sane : py.
#[local] Opaque unless_ValueError.
Ltac keep_sane := repeat first [ progress keep | apply unless_sane ].

Lemma ensure_traits_sane ts : preserves sane (_ensure_traits ts).
Proof. unfold _ensure_traits. keep_sane. Qed.
Lemma ensure_classes_sane ns : preserves sane (_ensure_resource_classes ns).
Proof. unfold _ensure_resource_classes. keep_sane. Qed.
#[local] Hint Resolve ensure_traits_sane ensure_classes_sane : py.

Lemma set_inventory_sane u inv : preserves sane (set_inventory_for_provider u inv).
Proof. unfold set_inventory_for_provider. keep_sane. Qed.
Lemma set_traits_sane u ts : preserves sane (set_traits_for_provider u ts).
Proof. unfold set_traits_for_provider. keep_sane. Qed.
Lemma set_aggregates_sane u ts b g : preserves sane (set_aggregates_for_provider u ts b g).
Proof.
  unfold set_aggregates_for_provider, aggregates_cached, python. keep_sane.
  destruct (_ && _); simplify_eq; keep.
Qed.
Lemma clear_sane u : preserves sane (_clear_provider_cache_for_tree u).
Proof. unfold _clear_provider_cache_for_tree. keep_sane. Qed.
Lemma delete_sane u : preserves sane (_delete_provider u).
Proof. unfold _delete_provider. keep_sane. Qed.
#[local] Hint Resolve set_inventory_sane set_traits_sane set_aggregates_sane clear_sane delete_sane : py.

(** *** Bringing providers in *)

Lemma stale_sane u : preserves sane (_associations_stale rf u).
Proof. unfold _associations_stale. keep_sane. Qed.
Lemma mark_sane u : preserves sane (mark_refreshed u).
Proof. unfold mark_refreshed. keep_sane. Qed.
Lemma refresh_inventory_sane u : preserves sane (_refresh_and_get_inventory u).
Proof. unfold _refresh_and_get_inventory, _get_inventory. keep_sane. Qed.
Lemma provider_aggregates_sane u : preserves sane (_get_provider_aggregates u).
Proof. unfold _get_provider_aggregates. keep_sane. Qed.
Lemma provider_traits_sane u : preserves sane (get_provider_traits u).
Proof. unfold get_provider_traits. keep_sane. Qed.
#[local] Hint Resolve stale_sane mark_sane refresh_inventory_sane provider_aggregates_sane
  provider_traits_sane : py.

Lemma refresh_with_sane share u force :
  (∀ aggs, preserves sane (share aggs)) → preserves sane (refresh_with rf share u force).
Proof. intros Hs. unfold refresh_with. keep_sane. Qed.

(** An answer that lists providers, whichever request it answers. *)
Lemma call_pure {A} v (q : request A) (φ : A → Prop) :
  request_ok is_uuid q →
  (∀ p r p' a, good p → send v q p = (Ok r, p') → content r = Json a → φ a) →
  hoare sane (call v q) (λ r s, sane s ∧ ∀ a, content r = Json a → φ a) (λ _, sane).
Proof.
  intros Hq Hφ s [Hwf Hg]. unfold call. destruct (send v q (server s)) as [[r|k] p] eqn:Hs.
  - split; [split; [exact Hwf|by eapply good_send]|]. intros a. by eapply Hφ.
  - split; [exact Hwf|by eapply good_send].
Qed.

Lemma json_pure {A} (r : response A) (φ : A → Prop) :
  (∀ a, content r = Json a → φ a) → hoare sane (json r) (λ a s, sane s ∧ φ a) (λ _, sane).
Proof. intros Hφ s Hs. unfold json. destruct (content r); cbn; auto. Qed.

Lemma sharing_pure aggs :
  hoare sane (_get_sharing_providers aggs) (λ l s, sane s ∧ well_shaped is_uuid l) (λ _, sane).
Proof.
  unfold _get_sharing_providers. case_decide; [intros s Hs; split; [done|constructor]|].
  eapply hoare_bind; [apply call_pure; [done|intros; by eapply sharing_shape]|]. intros r s [Hs Hr].
  cbv beta. destruct (status_is 200 r); [by apply json_pure|done].
Qed.

Lemma in_tree_pure u :
  hoare sane (get_providers_in_tree u) (λ l s, sane s ∧ well_shaped is_uuid l) (λ _, sane).
Proof.
  unfold get_providers_in_tree.
  eapply hoare_bind; [apply call_pure; [done|intros; by eapply in_tree_shape]|]. intros r s [Hs Hr].
  cbv beta. destruct (status_is 200 r); [by apply json_pure|done].
Qed.

Definition shaped_option (o : option pdict) : Prop := ∀ pd, o = Some pd → well_shaped is_uuid [pd].

Lemma provider_pure u :
  hoare sane (_get_resource_provider u) (λ o s, sane s ∧ shaped_option o) (λ _, sane).
Proof.
  unfold _get_resource_provider.
  eapply hoare_bind; [apply call_pure; [done|intros; by eapply provider_shape]|]. intros r s [Hs Hr].
  cbv beta. destruct (status_is 200 r).
  - unfold json. destruct (content r) as [a| |] eqn:Hc; cbn; [|done..]. split; [done|].
    intros pd [= <-]. by apply Hr.
  - by destruct (status_is 404 r).
Qed.

Lemma create_pure u n parent :
  request_ok is_uuid (PostProvider u n parent) →
  hoare sane (_create_resource_provider u n parent) (λ o s, sane s ∧ shaped_option o) (λ _, sane).
Proof.
  intros Hq. unfold _create_resource_provider.
  eapply hoare_bind; [apply call_pure; [exact Hq|intros; by eapply post_shape]|]. intros r s [Hs Hr].
  cbv beta. destruct (is_true r).
  - unfold json. destruct (content r) as [a| |] eqn:Hc; cbn; [|done..]. split; [done|].
    intros pd [= <-]. by apply Hr.
  - destruct (_ && _); [by apply provider_pure|done].
Qed.

Lemma shaped_uuid pd u : well_shaped is_uuid [pd] → pd_uuid pd = Some u →
  entry_ok is_uuid (u, pd).
Proof. intros [(v & Hv) _]%Forall_cons Hu. destruct Hv as (Hv & ?). cbn in *. by simplify_eq. Qed.

Lemma new_root_wf n u g t :
  is_uuid u = true → is_uuid n = false → wf is_uuid t → wf is_uuid (Tree.new_root n u g t).2.
Proof.
  intros Hu Hn Hwf. pose proof (call_wf _ is_uuid_empty (NewRoot n u g) t Hwf (conj Hu Hn)) as Hc.
  cbn [run_call] in Hc. by rewrite then_ret_state in Hc.
Qed.

Lemma populate_sane pds : well_shaped is_uuid pds → preserves sane (on_tree (Tree.populate_from_iterable pds)).
Proof.
  intros Hp. apply on_tree_sane. intros t Hwf. exact (call_wf _ is_uuid_empty (Populate pds) t Hwf Hp).
Qed.

Lemma sharing_provider_sane force pd :
  well_shaped is_uuid [pd] → preserves sane (refresh_sharing_provider rf force pd).
Proof.
  intros Hpd. unfold refresh_sharing_provider. destruct (pd_uuid pd) as [u|] eqn:Hu; [|apply preserves_raise].
  destruct (shaped_uuid pd u Hpd Hu) as (_ & Huu & (n & Hn & Hnn) & _). cbn in Huu, Hn.
  rewrite Hn. apply preserves_ret_bind. apply preserves_bind; [auto with py|]. intros known.
  apply preserves_bind; [|intros _; apply refresh_with_sane; intros; apply preserves_ret].
  destruct known; [apply preserves_ret|]. apply preserves_ret_bind.
  apply preserves_bind; [|intros; apply preserves_ret].
  apply on_tree_sane. intros t Hwf. by apply new_root_wf.
Qed.

Lemma well_shaped_elem l pd : well_shaped is_uuid l → pd ∈ l → well_shaped is_uuid [pd].
Proof. unfold well_shaped. rewrite Forall_forall. intros Hl Hpd. constructor; [by apply Hl|constructor]. Qed.

Lemma refresh_sane u force sharing : preserves sane (_refresh_associations rf u force sharing).
Proof.
  unfold _refresh_associations. apply refresh_with_sane. intros aggs.
  destruct sharing; [|apply preserves_ret].
  eapply preserves_bind_pure; [apply sharing_pure|]. intros l Hl.
  apply preserves_for_each. intros pd Hpd. by apply sharing_provider_sane, (well_shaped_elem l).
Qed.

(** A name the client may create a provider under. *)
Definition name_ok (uuid : string) (name : option string) : Prop :=
  is_uuid uuid = true ∧ ∃ n, name = Some n ∧ n ≠ "" ∧ is_uuid n = false.
Definition parent_ok (parent : option string) : Prop :=
  ∀ pu, parent = Some pu → is_uuid pu = true.

Lemma create_missing_pure u n parent :
  name_ok u n → parent_ok parent →
  hoare sane (create_missing u n parent) (λ o s, sane s ∧ shaped_option o) (λ _, sane).
Proof.
  intros (Hu & m & -> & Hm & Hmu) Hp. unfold create_missing. change (default u (Some m)) with m.
  cbn [ostr_true]. unfold str_true. rewrite bool_decide_eq_true_2 by done.
  eapply (hoare_bind _ _ _ (λ o s, sane s ∧ shaped_option o)).
  - intros s Hs. pose proof (create_pure u m parent (conj Hu (conj Hmu Hp)) s Hs) as Hc.
    unfold try_except. destruct (_create_resource_provider u m parent s) as [[o|e] s1]; [exact Hc|].
    by destruct (no_connection e).
  - intros o s [Hs Ho]. unfold bind. pose proof (mark_sane u s Hs) as Hk.
    by destruct (mark_refreshed u s) as [[[]|e] s1].
Qed.

Lemma pull_sane u n parent : name_ok u n → parent_ok parent → preserves sane (pull_or_create u n parent).
Proof.
  intros Hn Hp. unfold pull_or_create. eapply preserves_bind_pure; [apply in_tree_pure|]. intros l Hl.
  eapply (preserves_bind_pure _ (λ found, well_shaped is_uuid found)).
  - destruct l as [|pd l]; [|intros s Hs; by split].
    eapply hoare_bind; [by apply create_missing_pure|]. intros o s [Hs Ho].
    destruct o as [pd|]; cbn; [|done]. split; [done|by apply Ho].
  - intros found Hf. apply preserves_bind; [by apply populate_sane|]. intros _.
    generalize l. clear. induction l as [|pd l IH]; [apply preserves_ret|]. cbn [map_m]. keep.
Qed.

Lemma filter_m_sane f l : (∀ u, preserves sane (f u)) → preserves sane (filter_m (P:=P) f l).
Proof. intros Hf. induction l as [|u l IH]; [apply preserves_ret|]. cbn [filter_m]. keep. Qed.

Lemma ensure_sane u n parent :
  name_ok u n → parent_ok parent → preserves sane (_ensure_resource_provider rf u n parent).
Proof.
  intros Hn Hp. unfold _ensure_resource_provider.
  apply preserves_bind; [auto with py|]. intros known.
  apply preserves_bind; [destruct known; [|apply preserves_ret]; keep|]. intros fresh.
  apply preserves_bind; [|intros us; apply preserves_bind; [|intros _; apply preserves_ret]].
  - destruct fresh; [|by apply pull_sane]. apply preserves_bind; [auto with py|].
    intros us. apply filter_m_sane, stale_sane.
  - apply preserves_for_each. intros v _. apply refresh_sane.
Qed.

(** *** Flushing *)

Lemma catch_all_hoare {A} u (m : rm A) Q :
  hoare sane m Q (λ _, sane) → hoare sane (catch_all u m) Q (λ _, sane).
Proof.
  intros Hm s Hs. specialize (Hm s Hs). unfold catch_all, try_except.
  destruct (m s) as [[a|e] s1]; [done|]. pose proof (clear_sane u s1 Hm) as Hc.
  destruct (is_conflict e); [|destruct (is_helper e); [|done]]; unfold bind;
    by destruct (_clear_provider_cache_for_tree u s1) as [[[]|e'] s2].
Qed.
Lemma catch_all_sane {A} u (m : rm A) : preserves sane m → preserves sane (catch_all u m).
Proof. apply catch_all_hoare. Qed.

Lemma read_tree_sane {A} (m : py Tree.tree A) t : preserves sane (read_tree m t).
Proof.
  unfold read_tree, of_tree. destruct (m t) as [[a|e] t']; cbn [of_exn].
  - do 2 apply preserves_ret_bind. apply preserves_ret.
  - apply preserves_bind; [apply preserves_bind; [apply preserves_raise|]|];
      intros; (apply preserves_ret || (destruct a; apply preserves_ret)).
Qed.
#[local] Hint Resolve read_tree_sane : py.

(** The tree to flush: well formed, and the providers the cache lacks are named. *)
Definition plan (cached : list string) (t : Tree.tree) : Prop :=
  wf is_uuid t ∧ ∀ u d, u ∉ cached → flat t !! u = Some d → name d ≠ "".

(** A provider but for its generation. *)
Definition wants (d : ProviderData) : ProviderData :=
  mkData (uuid d) (name d) None (parent_uuid d) (inventory d) (traits d) (aggregates d).
Definition same_plan (t t' : Tree.tree) : Prop := wants <$> flat t' = wants <$> flat t.

#[local] Instance same_plan_preorder : PreOrder same_plan.
Proof. split; [by intros t|]. intros t1 t2 t3 H1 H2. unfold same_plan in *. congruence. Qed.

Lemma same_plan_dom t t' u : same_plan t t' → is_Some (flat t' !! u) ↔ is_Some (flat t !! u).
Proof. intros Hs. by rewrite <- (fmap_is_Some wants), <- lookup_fmap, Hs, lookup_fmap, fmap_is_Some. Qed.

Lemma same_plan_names cached t t' :
  same_plan t t' → wf is_uuid t' → plan cached t → plan cached t'.
Proof.
  intros Hs Hwf' [Hwf Hn]. split; [done|]. intros u d' Hu Hd'.
  assert ((wants <$> flat t') !! u = Some (wants d')) as Hw by by rewrite lookup_fmap, Hd'.
  rewrite Hs, lookup_fmap in Hw. destruct (flat t !! u) as [d|] eqn:Hd; [|done].
  injection Hw as _ Hname _ _ _ _. rewrite <- Hname. by apply (Hn u d).
Qed.

Lemma regenerate g d : wants (Node.update_inventory (inventory d) g d).2 = wants d.
Proof.
  unfold Node.update_inventory, Node._update_generation. case_decide; cbn.
  - pose proof (inventory_refl d) as Hr. unfold Node.has_inventory_changed in *. cbn in *. by rewrite Hr.
  - by rewrite inventory_refl.
Qed.

Lemma of_tree_regenerate u g t d s :
  wf is_uuid t → flat t !! u = Some d →
  ∃ b t', of_tree (Tree.update_inventory u (inventory d) g) t s = (Ok (b, t'), s) ∧
    wf is_uuid t' ∧ same_plan t t'.
Proof.
  intros Hwf Hd. destruct (wf_is_uuid is_uuid t u d Hwf Hd) as [Hu _].
  pose proof (on_found_uuid is_uuid is_uuid_empty u (Node.update_inventory (inventory d) g) t Hwf Hu
    (update_inventory_keeps _ _)) as Hf.
  unfold of_tree, Tree.update_inventory. destruct (Tree.on_found u _ t) as [[b|e] t'].
  - destruct Hf as (d' & Hd' & _ & Hwf' & Hfl). simplify_eq. exists b, t'. split_and!; [done..|].
    unfold same_plan. rewrite Hfl, fmap_insert, regenerate.
    apply insert_id. by rewrite lookup_fmap, Hd.
  - destruct Hf as (_ & _ & Hn). congruence.
Qed.

Lemma add_body_sane cached u t d :
  plan cached t → u ∉ cached → flat t !! u = Some d →
  hoare sane (add_body rf u d t) (λ t' s, sane s ∧ plan cached t' ∧ same_plan t t') (λ _, sane).
Proof.
  intros [Hwf Hn] Hnew Hd. destruct (wf_is_uuid is_uuid t u d Hwf Hd) as [Hu Hud].
  assert (name_ok u (Some (name d)) ∧ parent_ok (parent_uuid d)) as [Hname Hpar].
  { apply flat_lookup in Hd as Hin; [|apply Hwf]. destruct Hin as [Hin _].
    split.
    - split; [done|]. exists (name d). split_and!; [done|by eapply Hn|by apply (wf_shape _ _ Hwf)].
    - intros pu Hpu. destruct (parent_in_tree is_uuid t u d pu Hwf Hd Hpu) as [d' Hd'].
      by destruct (wf_is_uuid is_uuid t pu d' Hwf Hd'). }
  unfold add_body, Tree.data.
  eapply hoare_bind; [by apply ensure_sane|]. intros _ s1 Hs1.
  rewrite (bind_eq _ _ _ _ _ (read_tree_look is_uuid is_uuid_empty u Datatypes.id t d s1 Hwf Hd)).
  assert (preserves sane (on_tree (P:=P) (Tree.look u Datatypes.id))) as Hl by apply on_tree_sane, look_wf.
  specialize (Hl s1 Hs1). destruct (on_tree _ s1) as [[d2|e] s2] eqn:Ht; step Ht; [|done].
  destruct (of_tree_regenerate u (generation d2) t d s2 Hwf Hd) as (b & t' & Hof & Hwf' & Hsame).
  cbn [Datatypes.id]. step Hof. cbn. split_and!; [done| |done]. by eapply same_plan_names.
Qed.

Lemma add_provider_run u t d s :
  wf is_uuid t → flat t !! u = Some d → add_provider rf u t s = catch_all u (add_body rf u d t) s.
Proof.
  intros Hwf Hd. unfold add_provider, Tree.data.
  by rewrite (bind_eq _ _ _ _ _ (read_tree_look is_uuid is_uuid_empty u Datatypes.id t d s Hwf Hd)).
Qed.

Lemma add_provider_sane cached u t d :
  plan cached t → u ∉ cached → flat t !! u = Some d →
  hoare sane (add_provider rf u t) (λ t' s, sane s ∧ plan cached t' ∧ same_plan t t') (λ _, sane).
Proof.
  intros Ht Hu Hd s Hs. rewrite (add_provider_run u t d s (proj1 Ht) Hd).
  revert s Hs. by apply catch_all_hoare, add_body_sane.
Qed.

Lemma add_providers_sane cached us t :
  plan cached t → (∀ u, u ∈ us → u ∉ cached ∧ is_Some (flat t !! u)) →
  hoare sane (add_providers rf us t) (λ t' s, sane s ∧ plan cached t' ∧ same_plan t t') (λ _, sane).
Proof.
  revert t. induction us as [|u us IH]; intros t Ht Hus; [by intros s Hs|]. cbn [add_providers].
  destruct (Hus u ltac:(by left)) as [Hu [d Hd]].
  eapply hoare_bind; [by apply (add_provider_sane cached u t d)|]. intros t' s (Hs & Ht' & Hsame).
  assert (∀ v, v ∈ us → v ∉ cached ∧ is_Some (flat t' !! v)) as Hus'.
  { intros v Hv. rewrite (same_plan_dom t t' v Hsame). apply Hus. by right. }
  specialize (IH t' Ht' Hus' s Hs). destruct (add_providers rf us t' s) as [[t2|e] s2]; [|done].
  destruct IH as (? & ? & Hsame'). split_and!; [done..|by etrans].
Qed.

Lemma delete_all_sane us : preserves sane (for_each (λ u, catch_all u (_delete_provider u)) us).
Proof. apply preserves_for_each. intros u _. apply catch_all_sane, delete_sane. Qed.

Lemma flush_sane t u : preserves sane (flush_provider t u).
Proof.
  unfold flush_provider. apply preserves_bind; [apply read_tree_sane|]. intros pd.
  apply catch_all_sane. unfold flush_body. keep.
Qed.

Lemma flush_run t u d s :
  wf is_uuid t → flat t !! u = Some d → flush_provider t u s = catch_all u (flush_body d) s.
Proof.
  intros Hwf Hd. unfold flush_provider, Tree.data.
  rewrite (bind_eq _ _ _ _ _ (read_tree_look is_uuid is_uuid_empty u Datatypes.id t d s Hwf Hd)).
  cbn [Datatypes.id]. by destruct (wf_is_uuid is_uuid t u d Hwf Hd) as [_ ->].
Qed.
End Sane.

(** ** Dropping a part of the cache *)

Section Dropping.
Context {is_uuid : string → bool} (is_uuid_empty : is_uuid "" = false).
Context {P : Type} `{PlacementServer P}.
Implicit Types s : client P.

(** The tree of a cached provider, and its removal. *)
Lemma in_tree_run u t :
  wf is_uuid t → is_uuid u = true →
  match Tree.get_provider_uuids_in_tree u t with
  | (Ok us, t') => t' = t ∧ ∃ root i, t !! i = Some root ∧ us = Node.get_provider_uuids root ∧ u ∈ us
  | (Raise e, t') => t' = t ∧ e = Py ValueError ∧ flat t !! u = None
  end.
Proof.
  intros Hwf Hu. pose proof (find_uuid is_uuid is_uuid_empty t u Hwf Hu) as Hf.
  unfold Tree.get_provider_uuids_in_tree, bind. unfold Tree._find_with_lock in *.
  destruct (Tree.find_from 0 u t) as [[i path]|]; [|done].
  destruct Hf as (_ & q & Hq & Huq & _ & _). unfold deref in Hq. cbn [fst snd] in Hq.
  unfold Tree.read, deref. cbn [fst snd subtree].
  destruct (t !! i) as [root|] eqn:Hi; [|done]. cbn in Hq |- *. split; [done|].
  exists root, i. split_and!; [done..|]. rewrite get_provider_uuids_nodes, <- Huq.
  apply list_elem_of_fmap_2. by eapply subtree_data.
Qed.

Lemma remove_root_run i root t :
  wf is_uuid t → t !! i = Some root →
  ∃ t', Tree.remove (uuid (Node.data root)) t = (Ok tt, t') ∧ wf is_uuid t' ∧
    ∀ v, v ∈ Node.get_provider_uuids root → flat t' !! v = None.
Proof.
  intros Hwf Hi. set (u := uuid (Node.data root)).
  assert (deref t (i, []) = Some root) as Hr by (unfold deref; cbn; by rewrite Hi).
  assert (flat t !! u = Some (Node.data root)) as Hd.
  { apply flat_lookup; [apply Hwf|]. split; [|done]. by eapply deref_data. }
  destruct (wf_is_uuid is_uuid t u _ Hwf Hd) as [Hu _].
  pose proof (remove_spec is_uuid is_uuid_empty u t Hwf) as Hs. unfold Tree.remove.
  destruct (Tree._remove_with_lock u t) as [[[]|e] t'].
  - destruct Hs as (q & r & Hq & Hm & Hdq & _ & Hwf' & Hfl).
    destruct (matches_uuid is_uuid is_uuid_empty t u _ _ Hwf Hu Hdq Hm) as [_ He].
    assert (r = (i, [])) as -> by (eapply deref_inj; [apply Hwf|done..]).
    simplify_eq. exists t'. split_and!; [done..|]. intros v Hv. rewrite Hfl. by rewrite decide_True.
  - destruct Hs as (_ & _ & Hn). destruct (Hn u _ Hd). by right.
Qed.

Lemma forget_all us s :
  ∃ s', for_each (λ u, modify (E:=rerr) (forget u)) us s = (Ok tt, s') ∧
    _provider_tree s' = _provider_tree s ∧ server s' = server s.
Proof.
  revert s. induction us as [|u us IH]; intros s; [by exists s|]. cbn [for_each]. steps.
  destruct (IH (forget u s)) as (s' & Hs & Ht & Hp). by exists s'.
Qed.

Lemma clear_run u s :
  wf is_uuid (_provider_tree s) → is_uuid u = true →
  ∃ s', _clear_provider_cache_for_tree u s = (Ok tt, s') ∧ flat (_provider_tree s') !! u = None.
Proof.
  intros Hwf Hu. unfold _clear_provider_cache_for_tree.
  pose proof (in_tree_run u _ Hwf Hu) as Hin.
  destruct (Tree.get_provider_uuids_in_tree u (_provider_tree s)) as [[us|e] t] eqn:Hrun.
  - destruct Hin as (-> & root & i & Hi & -> & Hmem).
    assert (unless_ValueError (let! l := on_tree (Tree.get_provider_uuids_in_tree u) in ret (Some l))
      (ret None) s = (Ok (Some (Node.get_provider_uuids root)), s)) as Hget.
    { unfold unless_ValueError, try_except, bind, on_tree. rewrite Hrun. by destruct s. }
    step Hget. assert (head (Node.get_provider_uuids root) = Some (uuid (Node.data root))) as ->
      by by destruct root.
    cbn [of_option]. steps.
    destruct (remove_root_run i root _ Hwf Hi) as (t' & Hrm & _ & Hgone).
    assert (on_tree (Tree.remove (uuid (Node.data root))) s = (Ok tt, set_tree t' s)) as Hon
      by (unfold on_tree; by rewrite Hrm).
    step Hon. destruct (forget_all (Node.get_provider_uuids root) (set_tree t' s)) as (s' & Hs' & Ht & _).
    exists s'. split; [done|]. rewrite Ht. by apply Hgone.
  - destruct Hin as (-> & -> & Hnone).
    assert (unless_ValueError (let! l := on_tree (Tree.get_provider_uuids_in_tree u) in ret (Some l))
      (ret None) s = (Ok None, s)) as Hget.
    { unfold unless_ValueError, try_except, bind, on_tree. rewrite Hrun. cbn. by destruct s. }
    step Hget. by exists s.
Qed.
End Dropping.

(** ** Which exceptions leave a flush *)

(** The provider tree raises exceptions of Python only. *)
Definition not_zun (e : exn) : Prop := match e with Zun _ => False | _ => True end.

Lemma find_errs u b : errs not_zun (Tree._find_with_lock u b).
Proof. intros t e t'. unfold Tree._find_with_lock. destruct (Tree.find_from 0 u t) as [[i path]|]; [done|]. by intros [= <- <-]. Qed.
Lemma read_errs {A} r (f : Provider → A) : errs not_zun (Tree.read r f).
Proof. intros t e t'. unfold Tree.read. destruct (deref t r); [done|]. by intros [= <- <-]. Qed.
#[local] Hint Resolve find_errs read_errs : py.
#[local] Hint Extern 1 (not_zun _) => exact I : py.
Lemma look_errs {A} u (f : ProviderData → A) : errs not_zun (Tree.look u f).
Proof. unfold Tree.look. err_rel. Qed.
Lemma on_found_errs {A} u (f : ProviderData → A * ProviderData) : errs not_zun (Tree.on_found u f).
Proof. unfold Tree.on_found. err_rel. Qed.
Lemma uuids_errs o : errs not_zun (Tree.get_provider_uuids o).
Proof. unfold Tree.get_provider_uuids. err_rel. Qed.
Lemma uuids_in_tree_errs u : errs not_zun (Tree.get_provider_uuids_in_tree u).
Proof. unfold Tree.get_provider_uuids_in_tree. err_rel. Qed.
Lemma remove_errs u : errs not_zun (Tree._remove_with_lock u).
Proof. unfold Tree._remove_with_lock, Tree.remove_root. err_rel. Qed.
Lemma exists_errs u : errs not_zun (Tree.exists_ u).
Proof.
  unfold Tree.exists_. apply errs_try_except. intros t e t' He. destruct (Tree.is_ValueError e); [err_rel|].
  eapply errs_bind; [apply find_errs| |exact He]. intros a. apply errs_ret.
Qed.
#[local] Hint Resolve exists_errs : py.
Lemma new_root_errs n u g : errs not_zun (Tree.new_root n u g).
Proof. unfold Tree.new_root, raise_if. err_rel. Qed.
Lemma inject_errs u pd : errs not_zun (Tree.inject u pd).
Proof.
  unfold Tree.inject. apply errs_bind; [|intros _; err_rel].
  apply errs_try_except. intros t e t' He. destruct (Tree.is_ValueError e); [err_rel|].
  by eapply remove_errs.
Qed.
Lemma populate_errs pds : errs not_zun (Tree.populate_from_iterable pds).
Proof.
  unfold Tree.populate_from_iterable. destruct pds as [|pd pds]; [err_rel|].
  apply errs_bind; [unfold Tree.keyed; err_rel|]. intros kvs. apply errs_bind; [err_rel|]. intros ms.
  apply errs_bind; [unfold raise_if; err_rel|]. intros _.
  assert (∀ n D, errs not_zun (Tree.populate_loop n D)) as Hloop; [|apply Hloop].
  induction n as [|n IH]; intros D; cbn [Tree.populate_loop]; [err_rel|].
  destruct D as [|kv D]; [err_rel|]. destruct (Tree.pick _) as [[u pd']|]; [|err_rel].
  apply errs_bind; [apply inject_errs|]. intros _. apply IH.
Qed.

Section Errors.
Context {P : Type} `{PlacementServer P} (rf : Z).
Abbreviation C := (client P).
Abbreviation rm := (M rerr C).

(** What the body of a [catch_all] raises, among the service's exceptions. *)
Definition body_exn (e : rerr) : Prop :=
  match e with
  | RExn (Zun z) => z = ResourceProviderUpdateConflict ∨ z = ResourceProviderCreationFailed ∨
      z ∈ helper_exceptions
  | _ => True
  end.

Lemma zun_errs {A} z :
  z = ResourceProviderUpdateConflict ∨ z = ResourceProviderCreationFailed ∨ z ∈ helper_exceptions →
  errs body_exn (zun (P:=P) (A:=A) z).
Proof. intros Hz. by apply errs_raise. Qed.
#[local] Hint Extern 1 (errs body_exn (zun _)) =>
  apply zun_errs; unfold helper_exceptions; set_solver : py.

Lemma python_errs {A} b : errs body_exn (python (P:=P) (A:=A) b).
Proof. by apply errs_raise. Qed.
Lemma call_errs {A} v (q : request A) : errs body_exn (call (P:=P) v q).
Proof. intros s e s'. unfold call. destruct (send v q _) as [[r|k] p]; [done|]. by intros [= <- <-]. Qed.
Lemma now_errs : errs body_exn (now (P:=P)).
Proof. intros s e s'. unfold now. by destruct (time _). Qed.
#[local] Hint Resolve python_errs call_errs now_errs : py.
#[local] Hint Extern 1 (body_exn _) => exact I : py.

Lemma on_tree_errs {A} (m : py Tree.tree A) : errs not_zun m → errs body_exn (on_tree (P:=P) m).
Proof.
  intros Hm s e s'. unfold on_tree. destruct (m _) as [[a|x] t] eqn:Hr; [done|]. intros [= <- <-].
  specialize (Hm _ _ _ Hr). by destruct x.
Qed.
#[local] Hint Extern 1 (errs body_exn (on_tree _)) => apply on_tree_errs;
  first [ apply look_errs | apply on_found_errs | apply uuids_errs | apply uuids_in_tree_errs
        | apply remove_errs | apply exists_errs | apply new_root_errs | apply populate_errs ] : py.

Lemma unless_errs {A} (m k : rm A) : errs body_exn m → errs body_exn k → errs body_exn (unless_ValueError m k).
Proof.
  intros Hm Hk. apply errs_try_except. intros s e s' He. destruct (is_ValueError e); [done|by eapply Hm].
Qed.
#[local] Hint Resolve unless_errs : py.
#[local] Opaque unless_ValueError.
Ltac err_body := repeat first [ progress err_rel | apply unless_errs ].

Lemma json_errs {A} (r : response A) : errs body_exn (json (P:=P) r).
Proof. unfold json. err_body. Qed.
Lemma first_error_errs {A} (r : response A) : errs body_exn (first_error (P:=P) r).
Proof. unfold first_error. err_body. Qed.
#[local] Hint Resolve json_errs first_error_errs : py.

Lemma classes_errs ns : errs body_exn (_ensure_resource_classes (P:=P) ns).
Proof. unfold _ensure_resource_classes. err_body. Qed.
Lemma traits_errs ts : errs body_exn (_ensure_traits (P:=P) ts).
Proof. unfold _ensure_traits. err_body. Qed.
#[local] Hint Resolve classes_errs traits_errs : py.
Lemma set_inventory_errs u inv : errs body_exn (set_inventory_for_provider (P:=P) u inv).
Proof. unfold set_inventory_for_provider. err_body. Qed.
Lemma set_traits_errs u ts : errs body_exn (set_traits_for_provider (P:=P) u ts).
Proof. unfold set_traits_for_provider. err_body. Qed.
Lemma set_aggregates_errs u ts b g : errs body_exn (set_aggregates_for_provider (P:=P) u ts b g).
Proof.
  unfold set_aggregates_for_provider, aggregates_cached. err_body. apply errs_try_except.
  intros s e s' He. destruct (_ && _); [err_body|]. revert He.
  match goal with |- ?m s = _ → _ => assert (errs body_exn m) as Hm by err_body end. apply Hm.
Qed.
Lemma delete_errs u : errs body_exn (_delete_provider (P:=P) u).
Proof. unfold _delete_provider. err_body. Qed.

Lemma stale_errs u : errs body_exn (_associations_stale (P:=P) rf u).
Proof. unfold _associations_stale. err_body. Qed.
Lemma mark_errs u : errs body_exn (mark_refreshed (P:=P) u).
Proof. unfold mark_refreshed. err_body. Qed.
Lemma refresh_inventory_errs u : errs body_exn (_refresh_and_get_inventory (P:=P) u).
Proof. unfold _refresh_and_get_inventory, _get_inventory. err_body. Qed.
Lemma provider_aggregates_errs u : errs body_exn (_get_provider_aggregates (P:=P) u).
Proof. unfold _get_provider_aggregates. err_body. Qed.
Lemma provider_traits_errs u : errs body_exn (get_provider_traits (P:=P) u).
Proof. unfold get_provider_traits. err_body. Qed.
Lemma provider_errs u : errs body_exn (_get_resource_provider (P:=P) u).
Proof. unfold _get_resource_provider. err_body. Qed.
Lemma sharing_errs aggs : errs body_exn (_get_sharing_providers (P:=P) aggs).
Proof. unfold _get_sharing_providers. err_body. Qed.
Lemma providers_in_tree_errs u : errs body_exn (get_providers_in_tree (P:=P) u).
Proof. unfold get_providers_in_tree. err_body. Qed.
#[local] Hint Resolve stale_errs mark_errs refresh_inventory_errs provider_aggregates_errs
  provider_traits_errs provider_errs sharing_errs providers_in_tree_errs : py.

Lemma refresh_with_errs share u force :
  (∀ aggs, errs body_exn (share aggs)) → errs body_exn (refresh_with (P:=P) rf share u force).
Proof. intros Hs. unfold refresh_with. err_body. Qed.
Lemma refresh_errs u force sharing : errs body_exn (_refresh_associations (P:=P) rf u force sharing).
Proof.
  unfold _refresh_associations. apply refresh_with_errs. intros aggs. destruct sharing; [|err_body].
  apply errs_bind; [auto with py|]. intros l. apply errs_for_each. intros pd.
  assert (∀ u, errs body_exn (refresh_with (P:=P) rf (λ _, ret tt) u force)) as Hin
    by (intros v; apply refresh_with_errs; auto with py).
  unfold refresh_sharing_provider. err_body.
Qed.
Lemma create_errs u n parent : errs body_exn (_create_resource_provider (P:=P) u n parent).
Proof. unfold _create_resource_provider. err_body. Qed.
Lemma create_missing_errs u n parent : errs body_exn (create_missing (P:=P) u n parent).
Proof.
  unfold create_missing. apply errs_bind; [|intros rp; apply errs_bind; [apply mark_errs|intros; apply errs_ret]].
  apply errs_try_except. intros s e s' He. destruct (no_connection e); [auto with py|by eapply create_errs].
Qed.
Lemma pull_errs u n parent : errs body_exn (pull_or_create (P:=P) u n parent).
Proof.
  unfold pull_or_create. apply errs_bind; [auto with py|]. intros l.
  apply errs_bind; [|intros found; err_body].
  destruct l; [|err_body]. apply errs_bind; [apply create_missing_errs|intros o; err_body].
Qed.
Lemma filter_m_errs f l : (∀ u, errs body_exn (f u)) → errs body_exn (filter_m (P:=P) f l).
Proof. intros Hf. induction l as [|u l IH]; [apply errs_ret|].
  cbn [filter_m]. err_body.
Qed.
Lemma ensure_errs u n parent : errs body_exn (_ensure_resource_provider (P:=P) rf u n parent).
Proof.
  unfold _ensure_resource_provider. apply errs_bind; [auto with py|]. intros known.
  apply errs_bind; [destruct known; [|err_body]; err_body|]. intros fresh.
  apply errs_bind; [|intros us; apply errs_bind; [|intros; apply errs_ret]].
  - destruct fresh; [|apply pull_errs]. apply errs_bind; [auto with py|]. intros us.
    apply filter_m_errs, stale_errs.
  - apply errs_for_each. intros v. apply refresh_errs.
Qed.
End Errors.

(** ** A failed flush *)

Section Failures.
Context {is_uuid : string → bool} (is_uuid_empty : is_uuid "" = false).
Context {P : Type} `{ServiceLaws is_uuid P} (rf : Z).
Abbreviation C := (client P).
Implicit Types s : C.

(** What a failing [catch_all] leaves: an exception of the service is one of the
    three, and for a conflict or a failed synchronisation the provider is out of
    the cache. *)
Definition dropped (u : string) (e : rerr) s : Prop :=
  match e with
  | RExn (Zun z) => z = ResourceProviderCreationFailed ∨
      (z = ResourceProviderUpdateConflict ∨ z = ResourceProviderSyncFailed) ∧
      flat (_provider_tree s) !! u = None
  | _ => True
  end.

Lemma helper_cases z :
  z = ResourceProviderUpdateConflict ∨ z = ResourceProviderCreationFailed ∨ z ∈ helper_exceptions →
  (is_conflict (RExn (Zun z)) = true ∧ z = ResourceProviderUpdateConflict) ∨
  (is_conflict (RExn (Zun z)) = false ∧ is_helper (RExn (Zun z)) = true) ∨
  (is_conflict (RExn (Zun z)) = false ∧ is_helper (RExn (Zun z)) = false ∧
   z = ResourceProviderCreationFailed).
Proof.
  unfold helper_exceptions. rewrite !elem_of_cons, elem_of_nil.
  intros Hz. repeat destruct Hz as [->|Hz]; try done; vm_compute; tauto.
Qed.

Lemma catch_all_drops {A} u (m : M rerr C A) s e s' :
  preserves (sane (is_uuid:=is_uuid)) m → errs body_exn m → is_uuid u = true → sane (is_uuid:=is_uuid) s →
  catch_all u m s = (Raise e, s') → dropped u e s'.
Proof.
  intros Hm He Hu Hs. unfold catch_all, try_except. specialize (Hm s Hs). specialize (He s).
  destruct (m s) as [[a|x] s1]; [done|]. specialize (He _ _ eq_refl).
  destruct (clear_run is_uuid_empty u s1 (proj1 Hm) Hu) as (s2 & Hclear & Hgone).
  destruct x as [[b|z|]| |]; try (intros [= <- <-]; done).
  destruct (helper_cases z He) as [[-> ->]|[[-> ->]|(-> & -> & ->)]].
  - step Hclear. intros [= <- <-]. right. split; [by left|exact Hgone].
  - step Hclear. intros [= <- <-]. right. split; [by right|exact Hgone].
  - intros [= <- <-]. by left.
Qed.

Lemma hoare_preserves {A} (I : C → Prop) (m : M rerr C A) Q :
  hoare I m (λ a s, I s ∧ Q a s) (λ _, I) → preserves I m.
Proof. intros Hm s Hs. specialize (Hm s Hs). destruct (m s) as [[a|e] s1]; tauto. Qed.

Lemma add_body_errs u d t : errs body_exn (add_body (P:=P) rf u d t).
Proof.
  assert (∀ {A} (m : py Tree.tree A) t, errs not_zun m → errs body_exn (of_tree (P:=P) m t)) as Hof.
  { intros A m t0 Hm s e s'. unfold of_tree. destruct (m t0) as [[a|x] t'] eqn:Hr; [done|].
    cbn. intros [= <- <-]. specialize (Hm _ _ _ Hr). by destruct x. }
  assert (∀ {A} (m : py Tree.tree A) t, errs not_zun m → errs body_exn (read_tree (P:=P) m t)) as Hrd.
  { intros A m t0 Hm. apply errs_bind; [by apply Hof|]. intros [a t1]. apply errs_ret. }
  unfold add_body. apply errs_bind; [apply ensure_errs|]. intros _.
  apply errs_bind; [apply Hrd, look_errs|]. intros n. apply errs_bind; [apply on_tree_errs, look_errs|].
  intros d'. apply errs_bind; [apply Hof, on_found_errs|]. intros [b t']. apply errs_ret.
Qed.

Lemma flush_body_errs d : errs body_exn (flush_body (P:=P) d).
Proof.
  unfold flush_body. apply errs_bind; [apply set_inventory_errs|]. intros _.
  apply errs_bind; [apply set_aggregates_errs|]. intros _. apply set_traits_errs.
Qed.

Lemma flush_body_sane d : preserves (sane (is_uuid:=is_uuid)) (flush_body (P:=P) d).
Proof.
  unfold flush_body. apply preserves_bind; [apply (set_inventory_sane is_uuid_empty)|]. intros _.
  apply preserves_bind; [apply (set_aggregates_sane is_uuid_empty)|]. intros _.
  apply (set_traits_sane is_uuid_empty).
Qed.

Lemma add_providers_drop cached us t s e s' :
  plan (is_uuid:=is_uuid) cached t → (∀ u, u ∈ us → u ∉ cached ∧ is_Some (flat t !! u)) →
  sane (is_uuid:=is_uuid) s →
  add_providers rf us t s = (Raise e, s') → ∃ u, u ∈ us ∧ dropped u e s'.
Proof.
  revert t s. induction us as [|u us IH]; intros t s Ht Hus Hs; [done|]. cbn [add_providers].
  destruct (Hus u ltac:(by left)) as [Hnew [d Hd]].
  destruct (wf_is_uuid is_uuid t u d (proj1 Ht) Hd) as [Hu _].
  pose proof (add_provider_sane is_uuid_empty rf cached u t d Ht Hnew Hd s Hs) as Hone.
  intros [Hrun|(t' & s1 & Hrun & Hrest)]%bind_Raise; rewrite Hrun in Hone.
  - exists u. split; [by left|]. rewrite (add_provider_run is_uuid_empty rf u t d s (proj1 Ht) Hd) in Hrun.
    eapply catch_all_drops; [|apply add_body_errs|done|exact Hs|exact Hrun].
    by eapply hoare_preserves, add_body_sane.
  - destruct Hone as (Hs1 & Ht' & Hsame).
    destruct (IH t' s1 Ht') as (v & Hv & Hdrop); [|done|done|by exists v; split; [right|]].
    intros v Hv. rewrite (same_plan_dom t t' v Hsame). apply Hus. by right.
Qed.

(** One provider after the other, each inside its [catch_all]. *)
Lemma caught_loop_drops (f : string → M rerr C unit) us s e s' :
  (∀ u, u ∈ us → is_uuid u = true ∧ preserves (sane (is_uuid:=is_uuid)) (f u) ∧ errs body_exn (f u)) →
  sane (is_uuid:=is_uuid) s →
  for_each (λ u, catch_all u (f u)) us s = (Raise e, s') → ∃ u, u ∈ us ∧ dropped u e s'.
Proof.
  revert s. induction us as [|u us IH]; intros s Hf Hs; [done|]. cbn [for_each].
  destruct (Hf u ltac:(by left)) as (Hu & Hp & He).
  intros [Hrun|([] & s1 & Hrun & Hrest)]%bind_Raise.
  - exists u. split; [by left|]. by eapply (catch_all_drops u (f u)).
  - assert (sane (is_uuid:=is_uuid) s1) as Hs1.
    { pose proof (catch_all_sane is_uuid_empty u (f u) Hp s Hs) as Hc. by rewrite Hrun in Hc. }
    destruct (IH s1) as (v & Hv & Hdrop); [intros v Hv; apply Hf; by right|done|done|].
    exists v. split; [by right|done].
Qed.

Definition flush_of (t : Tree.tree) (u : string) : M rerr C unit :=
  match flat t !! u with Some d => flush_body d | None => ret tt end.

Lemma flush_loop_run t us s :
  wf is_uuid t → (∀ u, u ∈ us → is_Some (flat t !! u)) →
  for_each (flush_provider t) us s = for_each (λ u, catch_all u (flush_of t u)) us s.
Proof.
  intros Hwf Hus. apply for_each_ext. intros u s1 Hu. destruct (Hus u Hu) as [d Hd].
  unfold flush_of. rewrite Hd. by apply (flush_run is_uuid_empty).
Qed.

Lemma flush_of_ok t u :
  wf is_uuid t → is_Some (flat t !! u) →
  is_uuid u = true ∧ preserves (sane (is_uuid:=is_uuid)) (flush_of t u) ∧ errs body_exn (flush_of t u).
Proof.
  intros Hwf [d Hd]. unfold flush_of. rewrite Hd. split_and!;
    [by eapply wf_is_uuid|apply flush_body_sane|apply flush_body_errs].
Qed.

(** The parts of a flush without a reshape. *)
Lemma update_parts t s :
  update_from_provider_tree rf t None s =
    (let! t' := add_providers rf (filter (.∉ all_uuids (_provider_tree s)) (all_uuids t)) t in
     for_each (λ u, catch_all u (_delete_provider u))
       (reverse (filter (.∉ all_uuids t) (all_uuids (_provider_tree s))));;;
     for_each (flush_provider t') (reverse (all_uuids t))) s.
Proof.
  unfold update_from_provider_tree.
  assert (on_tree (Tree.get_provider_uuids None) s = (Ok (all_uuids (_provider_tree s)), s)) as Hold
    by (unfold on_tree; rewrite uuids_of_tree; by destruct s).
  step Hold.
  assert (read_tree (Tree.get_provider_uuids None) t s = (Ok (all_uuids t), s)) as Hnew
    by (unfold read_tree, of_tree; by rewrite uuids_of_tree).
  by step Hnew.
Qed.

(** The deletions and the writes of one flush. *)
Lemma deletions_drop us s e s' :
  (∀ u, u ∈ us → is_uuid u = true) → sane (is_uuid:=is_uuid) s →
  for_each (λ u, catch_all u (_delete_provider u)) us s = (Raise e, s') → ∃ u, u ∈ us ∧ dropped u e s'.
Proof.
  intros Hus Hs. apply caught_loop_drops; [|done]. intros u Hu.
  split_and!; [by apply Hus|apply (delete_sane is_uuid_empty)|apply delete_errs].
Qed.

Lemma flushes_drop t us s e s' :
  wf is_uuid t → (∀ u, u ∈ us → is_Some (flat t !! u)) → sane (is_uuid:=is_uuid) s →
  for_each (flush_provider t) us s = (Raise e, s') → ∃ u, u ∈ us ∧ dropped u e s'.
Proof.
  intros Hwf Hus Hs. rewrite flush_loop_run by done. apply caught_loop_drops; [|done].
  intros u Hu. by apply flush_of_ok, Hus.
Qed.

Lemma flushes_sane t us : preserves (sane (is_uuid:=is_uuid)) (for_each (flush_provider (P:=P) t) us).
Proof. apply preserves_for_each. intros u _. apply (flush_sane is_uuid_empty). Qed.

(** The new providers are those of the new tree, the old ones of the cache. *)
Lemma to_add_known (cached : list string) t u :
  u ∈ filter (.∉ cached) (all_uuids t) → u ∉ cached ∧ is_Some (flat t !! u).
Proof. intros [Hn Hu]%list_elem_of_filter. split; [done|]. by apply elem_uuids. Qed.
Lemma to_flush_known t t' u :
  same_plan t t' → u ∈ reverse (all_uuids t) → is_Some (flat t' !! u).
Proof. intros Hsame Hu. rewrite elem_of_reverse in Hu. apply (same_plan_dom t t' u Hsame). by apply elem_uuids. Qed.
Lemma to_delete_known t (gone : list string) u :
  wf is_uuid t → u ∈ reverse (filter (.∉ gone) (all_uuids t)) → u ∈ all_uuids t ∧ is_uuid u = true.
Proof.
  intros Hwf. rewrite elem_of_reverse, list_elem_of_filter. intros [_ Hu]. split; [done|].
  apply elem_uuids in Hu as [d Hd]. by eapply wf_is_uuid.
Qed.

Lemma update_sane t s o s' :
  sane (is_uuid:=is_uuid) s → plan (is_uuid:=is_uuid) (all_uuids (_provider_tree s)) t →
  update_from_provider_tree rf t None s = (o, s') → sane (is_uuid:=is_uuid) s'.
Proof.
  intros Hs Ht. rewrite update_parts. set (cached := all_uuids (_provider_tree s)). intros Hrun.
  pose proof (add_providers_sane is_uuid_empty rf cached _ t Ht (to_add_known cached t) s Hs) as Ha.
  unfold bind at 1 in Hrun.
  destruct (add_providers rf _ t s) as [[t'|e] s1]; [|by injection Hrun as _ <-].
  eapply (preserves_run (sane (is_uuid:=is_uuid))); [|exact (proj1 Ha)|exact Hrun].
  apply preserves_bind; [apply (delete_all_sane is_uuid_empty)|]. intros _. apply flushes_sane.
Qed.

(** C21. When a flush fails, the exceptions of the service that reach the caller
    are [ResourceProviderUpdateConflict], which the tracker retries on,
    [ResourceProviderSyncFailed], and [ResourceProviderCreationFailed]; and after
    the first two, a provider of the old cache or of the new tree is missing from
    the cache, so that the next pass reads it from the service again.  The cache
    is well formed in any case. *)
Theorem failed_flush_drops new_tree s e s' :
  sane (is_uuid:=is_uuid) s → plan (is_uuid:=is_uuid) (all_uuids (_provider_tree s)) new_tree →
  update_from_provider_tree rf new_tree None s = (Raise e, s') →
  wf is_uuid (_provider_tree s') ∧
  match e with
  | RExn (Zun z) =>
      z = ResourceProviderCreationFailed ∨
      (z = ResourceProviderUpdateConflict ∨ z = ResourceProviderSyncFailed) ∧
      ∃ u, (u ∈ all_uuids (_provider_tree s) ∨ u ∈ all_uuids new_tree) ∧
        flat (_provider_tree s') !! u = None
  | _ => True
  end.
Proof.
  intros Hs Ht Hrun. split; [by eapply (update_sane new_tree s _ s' Hs Ht)|]. revert Hrun.
  rewrite update_parts. set (cached := all_uuids (_provider_tree s)). intros Hrun.
  cut (∃ u, (u ∈ cached ∨ u ∈ all_uuids new_tree) ∧ dropped u e s').
  { intros (u & Hu & Hd). destruct e as [[|z|]| |]; try done.
    destruct Hd as [->|[Hz Hgone]]; [by left|right; split; [done|by exists u]]. }
  pose proof (add_providers_sane is_uuid_empty rf cached _ new_tree Ht (to_add_known cached new_tree) s Hs) as Hadds.
  apply bind_Raise in Hrun as [Hrun|(t' & s1 & Hrun & Hrest)]; rewrite Hrun in Hadds.
  { destruct (add_providers_drop cached _ _ _ _ _ Ht (to_add_known cached new_tree) Hs Hrun)
      as (u & [_ Hu]%list_elem_of_filter & Hd). exists u. by auto. }
  destruct Hadds as (Hs1 & [Hwf' _] & Hsame).
  pose proof (delete_all_sane is_uuid_empty (reverse (filter (.∉ all_uuids new_tree) cached)) s1 Hs1) as Hdel.
  assert (∀ u, u ∈ reverse (filter (.∉ all_uuids new_tree) cached) → u ∈ cached ∧ is_uuid u = true) as Hold
    by (intros u; apply to_delete_known, Hs).
  apply bind_Raise in Hrest as [Hr|([] & s2 & Hr & Hrest)]; rewrite Hr in Hdel.
  { destruct (deletions_drop _ _ _ _ (λ u Hu, proj2 (Hold u Hu)) Hs1 Hr) as (u & Hu & Hd).
    exists u. split; [left; by apply Hold|done]. }
  destruct (flushes_drop t' _ _ _ _ Hwf' (λ u, to_flush_known new_tree t' u Hsame) Hdel Hrest) as (u & Hu & Hd).
  exists u. rewrite elem_of_reverse in Hu. by auto.
Qed.
End Failures.

(** ** A successful flush *)

Section Success.
Context {is_uuid : string → bool} (is_uuid_empty : is_uuid "" = false).
Context {P : Type} `{ServiceLaws is_uuid P} (rf : Z).
Abbreviation C := (client P).
Implicit Types s : C.

Definition same_tree : relation C := λ s s', _provider_tree s' = _provider_tree s.
#[local] Instance same_tree_preorder : PreOrder same_tree.
Proof. split; [by intros s|]. intros s1 s2 s3 H1 H2. unfold same_tree in *. congruence. Qed.

Lemma call_same {A} v (q : request A) : keeps same_tree (call (P:=P) v q).
Proof. intros s o s'. unfold call. by destruct (send v q _) as [[r|k] p]; intros [= <- <-]. Qed.
#[local] Hint Resolve call_same : py.
Lemma zun_same {A} z : keeps same_tree (zun (P:=P) (A:=A) z).
Proof. apply keeps_raise, _. Qed.
#[local] Hint Resolve zun_same : py.
Lemma classes_same ns : keeps same_tree (_ensure_resource_classes (P:=P) ns).
Proof. unfold _ensure_resource_classes. keep_rel. Qed.
Lemma traits_same ts : keeps same_tree (_ensure_traits (P:=P) ts).
Proof. unfold _ensure_traits, json, python. keep_rel. Qed.

Lemma on_tree_look_Ok {A} u (f : ProviderData → A) s a s' :
  wf is_uuid (_provider_tree s) → is_uuid u = true → on_tree (Tree.look u f) s = (Ok a, s') →
  s' = s ∧ ∃ d, flat (_provider_tree s) !! u = Some d ∧ a = f d.
Proof.
  intros Hwf Hu. destruct (flat (_provider_tree s) !! u) as [d|] eqn:Hd.
  - rewrite (on_tree_look is_uuid is_uuid_empty u f s d Hwf Hd). intros [= <- <-]. split; [done|by exists d].
  - unfold on_tree. by rewrite (look_missing is_uuid is_uuid_empty u f _ Hwf Hu Hd).
Qed.

Lemma on_tree_found_Ok {A} u (f : ProviderData → A * ProviderData) s a s' :
  wf is_uuid (_provider_tree s) → is_uuid u = true → keeps_identity (λ d, (f d).2) →
  on_tree (Tree.on_found u f) s = (Ok a, s') →
  ∃ d, flat (_provider_tree s) !! u = Some d ∧ wf is_uuid (_provider_tree s') ∧
    flat (_provider_tree s') = <[u := (f d).2]> (flat (_provider_tree s)).
Proof.
  intros Hwf Hu Hf. unfold on_tree. pose proof (on_found_uuid is_uuid is_uuid_empty u f _ Hwf Hu Hf) as Hs.
  destruct (Tree.on_found u f _) as [[b|e] t]; [|done]. intros [= <- <-].
  destruct Hs as (d & Hd & _ & Hwf' & Hfl). by exists d.
Qed.

(** A step that replaces the data of [u] by data that satisfy [Q]. *)
Definition rewrites (u : string) (Q : ProviderData → ProviderData → Prop) s s' : Prop :=
  ∃ d d', flat (_provider_tree s) !! u = Some d ∧ wf is_uuid (_provider_tree s') ∧
    flat (_provider_tree s') = <[u := d']> (flat (_provider_tree s)) ∧ Q d d'.

Lemma rewrites_same u (Q : ProviderData → ProviderData → Prop) s d :
  wf is_uuid (_provider_tree s) → flat (_provider_tree s) !! u = Some d → Q d d → rewrites u Q s s.
Proof. intros Hwf Hd HQ. exists d, d. split_and!; [done..|by rewrite insert_id|done]. Qed.

(** The common shape of an accepted write: the answer updates the cache. *)
Lemma write_accepted {J} u (Q : ProviderData → ProviderData → Prop) v (q : request J)
    (f : J → ProviderData → bool * ProviderData) (fail : response J → M rerr C unit) s s' :
  wf is_uuid (_provider_tree s) → is_uuid u = true →
  (∀ j, keeps_identity (λ d, (f j d).2)) → (∀ r s a s', fail r s ≠ (Ok a, s')) →
  (∀ p r p' j d, send v q p = (Ok r, p') → status_code r = 200%Z → content r = Json j →
     Q d (f j d).2) →
  (let! resp := call v q in
   if status_is 200 resp then
     let! j := json resp in let! _b := on_tree (Tree.on_found u (f j)) in ret tt
   else fail resp) s = (Ok tt, s') →
  rewrites u Q s s'.
Proof.
  intros Hwf Hu Hf Hfail HQ (r & s1 & Hcall & Hrun)%bind_Ok.
  pose proof (call_same v q _ _ _ Hcall) as Ht1. unfold same_tree in Ht1.
  unfold status_is in Hrun. destruct (status_code r =? 200)%Z eqn:Hst; [|by apply Hfail in Hrun].
  apply Z.eqb_eq in Hst. apply bind_Ok in Hrun as (j & s2 & Hj & Hrun).
  unfold json in Hj. destruct (content r) as [a| |] eqn:Hc; [|done..]. injection Hj as -> <-.
  apply bind_Ok in Hrun as (b & s3 & Hon & Hrun). injection Hrun as <-.
  rewrite <- Ht1 in Hwf.
  destruct (on_tree_found_Ok u (f j) s1 b s3 Hwf Hu (Hf j) Hon) as (d & Hd & Hwf' & Hfl).
  rewrite Ht1 in Hd, Hfl. exists d, (f j d).2. split_and!; [done..|].
  unfold call in Hcall. destruct (send v q (server s)) as [[r'|k] p] eqn:Hsend; [|done].
  injection Hcall as -> _. by eapply HQ.
Qed.

Definition inventory_set (inv : inventory_t) (d d' : ProviderData) : Prop :=
  Node.has_inventory_changed d' inv = false ∧ traits d' = traits d ∧ aggregates d' = aggregates d.
Definition traits_set (ts : gset string) (d d' : ProviderData) : Prop :=
  traits d' = ts ∧ inventory d' = inventory d ∧ aggregates d' = aggregates d.
Definition aggregates_set (ts : gset string) (d d' : ProviderData) : Prop :=
  aggregates d' = ts ∧ inventory d' = inventory d ∧ traits d' = traits d.

Lemma generation_only g d :
  inventory (Node._update_generation g d) = inventory d ∧
  traits (Node._update_generation g d) = traits d ∧
  aggregates (Node._update_generation g d) = aggregates d.
Proof. unfold Node._update_generation. by case_decide. Qed.

Lemma repeats_unchanged stored sent d :
  repeats stored sent → Node.has_inventory_changed d stored = false →
  Node.has_inventory_changed d sent = false.
Proof.
  intros [Hdom Hsub] [Hd Hc]%inventory_unchanged. apply inventory_unchanged.
  split; [congruence|]. intros rc cur n Hcur Hn.
  assert (rc ∈ dom stored) as [m Hm]%elem_of_dom by (rewrite Hdom; by eapply elem_of_dom_2).
  etrans; [exact (Hsub rc m n Hm Hn)|exact (Hc rc cur m Hcur Hm)].
Qed.

Lemma update_inventory_set stored sent g d :
  repeats stored sent → inventory_set sent d (Node.update_inventory stored g d).2.
Proof.
  intros Hrep. destruct (generation_only g d) as (Hi & Ht & Ha). unfold Node.update_inventory.
  destruct (Node.has_inventory_changed _ stored) eqn:Hc; cbn; split_and!; try done.
  - eapply repeats_unchanged; [exact Hrep|]. apply (inventory_refl (Node.set_inventory stored _)).
  - by eapply repeats_unchanged.
Qed.

Lemma update_traits_set ts g d : traits_set ts d (Node.update_traits ts g d).2.
Proof.
  destruct (generation_only g d) as (Hi & Ht & Ha). unfold Node.update_traits, Node.have_traits_changed.
  case_bool_decide; cbn; split_and!; done || congruence.
Qed.
Lemma update_aggregates_set ts g d : aggregates_set ts d (Node.update_aggregates ts g d).2.
Proof.
  destruct (generation_only g d) as (Hi & Ht & Ha).
  unfold Node.update_aggregates, Node.have_aggregates_changed.
  case_bool_decide; cbn; split_and!; done || congruence.
Qed.

Lemma zun_never {A} z s (a : A) s' : zun z s ≠ (Ok a, s').
Proof. done. Qed.

Lemma set_inventory_Ok u inv s s' :
  wf is_uuid (_provider_tree s) → is_uuid u = true →
  set_inventory_for_provider u inv s = (Ok tt, s') → rewrites u (inventory_set inv) s s'.
Proof.
  intros Hwf Hu (ch & s1 & Hch & Hrun)%bind_Ok.
  destruct (on_tree_look_Ok u _ s ch s1 Hwf Hu Hch) as (-> & d & Hd & ->).
  destruct (Node.has_inventory_changed d inv) eqn:Hc; cbn [negb] in Hrun.
  2: { injection Hrun as <-. by apply (rewrites_same u _ s d). }
  apply bind_Ok in Hrun as ([] & s2 & Hcl & Hrun). apply classes_same in Hcl as Ht2.
  unfold same_tree in Ht2. rewrite <- Ht2 in Hwf, Hd.
  apply bind_Ok in Hrun as (d2 & s3 & Hd2 & Hrun).
  destruct (on_tree_look_Ok u _ s2 d2 s3 Hwf Hu Hd2) as (-> & _ & _ & _).
  cut (rewrites u (inventory_set inv) s2 s'); [unfold rewrites; by rewrite Ht2|].
  refine (write_accepted u _ _ _ (λ j, Node.update_inventory (ij_inventories j) (Some (ij_generation j)))
    _ s2 s' Hwf Hu _ _ _ Hrun).
  - intros j. apply update_inventory_keeps.
  - intros r s4 a s5. destruct (status_is 409 r); [|by apply zun_never].
    intros (err & s6 & _ & He)%bind_Ok. by destruct (String.eqb _ _).
  - intros p r p' j d0 Hs Hst Hj. apply update_inventory_set. by eapply echo_inventory.
Qed.

Lemma set_traits_Ok u ts s s' :
  wf is_uuid (_provider_tree s) → is_uuid u = true →
  set_traits_for_provider u ts s = (Ok tt, s') → rewrites u (traits_set ts) s s'.
Proof.
  intros Hwf Hu (ch & s1 & Hch & Hrun)%bind_Ok.
  destruct (on_tree_look_Ok u _ s ch s1 Hwf Hu Hch) as (-> & d & Hd & ->).
  unfold Node.have_traits_changed in Hrun. case_bool_decide as Hc; cbn [negb] in Hrun.
  2: { injection Hrun as <-. apply (rewrites_same u _ s d); [done..|]. split; [congruence|done]. }
  apply bind_Ok in Hrun as ([] & s2 & Hcl & Hrun). apply traits_same in Hcl as Ht2.
  unfold same_tree in Ht2. rewrite <- Ht2 in Hwf, Hd.
  apply bind_Ok in Hrun as (d2 & s3 & Hd2 & Hrun).
  destruct (on_tree_look_Ok u _ s2 d2 s3 Hwf Hu Hd2) as (-> & _ & _ & _).
  cut (rewrites u (traits_set ts) s2 s'); [unfold rewrites; by rewrite Ht2|].
  refine (write_accepted u _ _ _ (λ j, Node.update_traits (list_to_set (aj_items j)) (Some (aj_generation j)))
    _ s2 s' Hwf Hu _ _ _ Hrun).
  - intros j. apply (update_traits_keeps (λ _, _)).
  - intros r s4 a s5. by destruct (status_is 409 r).
  - intros p r p' j d0 Hs Hst Hj. rewrite (echo_traits _ _ _ _ _ _ _ _ Hs Hst Hj), list_to_set_elements_L.
    apply update_traits_set.
Qed.

Lemma set_aggregates_Ok u ts s s' :
  wf is_uuid (_provider_tree s) → is_uuid u = true →
  set_aggregates_for_provider u ts true None s = (Ok tt, s') → rewrites u (aggregates_set ts) s s'.
Proof.
  intros Hwf Hu (g & s1 & Hg & Hrun)%bind_Ok. apply bind_Ok in Hg as (d & s0 & Hd & Hg).
  destruct (on_tree_look_Ok u _ s d s0 Hwf Hu Hd) as (-> & d0 & Hd0 & ->). injection Hg as <- <-.
  unfold Datatypes.id in Hrun.
  rewrite (bind_eq _ _ _ _ _ (aggregates_cached_run is_uuid is_uuid_empty u d0 ts s Hwf Hd0)) in Hrun.
  case_bool_decide as Hc.
  { injection Hrun as <-. by apply (rewrites_same u _ s d0). }
  apply bind_Ok in Hrun as (r & s2 & Hcall & Hrun).
  refine (write_accepted u _ AGGREGATE_GENERATION_VERSION (PutAggregates u (generation d0) (elements ts))
    (λ j, Node.update_aggregates (list_to_set (aj_items j)) (Some (aj_generation j)))
    (λ r, if status_is 409 r
          then unless_ValueError (on_tree (Tree.remove u)) (ret tt);;; modify (forget u);;;
               zun ResourceProviderUpdateConflict
          else zun ResourceProviderUpdateFailed) s s' Hwf Hu _ _ _ _).
  - intros j. apply (update_aggregates_keeps (λ _, _)).
  - intros r0 s4 a s5. destruct (status_is 409 r0); [|done].
    intros ([] & s6 & _ & He)%bind_Ok. by apply bind_Ok in He as ([] & s7 & _ & He).
  - intros p r0 p' j d1 Hs Hst Hj. rewrite (echo_aggregates _ _ _ _ _ _ _ _ Hs Hst Hj), list_to_set_elements_L.
    apply update_aggregates_set.
  - rewrite (bind_eq _ _ _ _ _ Hcall). destruct (status_is 200 r); [|exact Hrun].
    unfold try_except in Hrun. destruct (bind _ _ s2) as [[[]|e] s3]; [exact Hrun|].
    by rewrite andb_false_r in Hrun.
Qed.

Lemma rewrites_trans u (Q1 Q2 Q : ProviderData → ProviderData → Prop) s1 s2 s3 :
  (∀ d1 d2 d3, Q1 d1 d2 → Q2 d2 d3 → Q d1 d3) →
  rewrites u Q1 s1 s2 → rewrites u Q2 s2 s3 → rewrites u Q s1 s3.
Proof.
  intros HQ (d1 & d2 & Hd1 & _ & Hf2 & H1) (d2' & d3 & Hd2 & Hwf3 & Hf3 & H2).
  rewrite Hf2, lookup_insert_eq in Hd2. simplify_eq. exists d1, d3.
  split_and!; [done..|by rewrite Hf3, Hf2, insert_insert_eq|by eapply HQ].
Qed.

Lemma rewrites_wf u Q s s' : rewrites u Q s s' → wf is_uuid (_provider_tree s').
Proof. by intros (d & d' & _ & Hwf & _). Qed.

Lemma flush_body_Ok n s s' :
  wf is_uuid (_provider_tree s) → is_uuid (uuid n) = true →
  flush_body n s = (Ok tt, s') → rewrites (uuid n) (λ _ d', agrees d' n) s s'.
Proof.
  intros Hwf Hu ([] & s1 & Hi & ([] & s2 & Ha & Ht)%bind_Ok)%bind_Ok.
  apply set_inventory_Ok in Hi; [|done|done].
  apply set_aggregates_Ok in Ha; [|by eapply rewrites_wf|done].
  apply set_traits_Ok in Ht; [|by eapply rewrites_wf|done].
  eapply rewrites_trans; [|exact Hi|]. 2: eapply (rewrites_trans _ _ _ (λ d d',
    inventory d' = inventory d ∧ traits d' = traits n ∧ aggregates d' = aggregates n)); [|exact Ha|exact Ht].
  - intros d1 d2 d3 (H1 & _ & _) (H2 & H3 & H4). split_and!; [|done..].
    unfold Node.has_inventory_changed in *. by rewrite H2.
  - intros d1 d2 d3 (H1 & H2 & H3) (H4 & H5 & H6). split_and!; congruence.
Qed.

Lemma catch_all_Ok {A} u (m : M rerr C A) s a s' : catch_all u m s = (Ok a, s') → m s = (Ok a, s').
Proof.
  unfold catch_all, try_except. destruct (m s) as [[b|e] s1]; [done|].
  destruct (is_conflict e); [|destruct (is_helper e); [|done]];
    by intros ([] & s2 & _ & Hr)%bind_Ok.
Qed.

(** The loop over the providers of the new tree. *)
Lemma flushes_Ok t us s s' :
  wf is_uuid t → wf is_uuid (_provider_tree s) → NoDup us →
  (∀ u, u ∈ us → is_Some (flat t !! u)) →
  for_each (flush_provider t) us s = (Ok tt, s') →
  wf is_uuid (_provider_tree s') ∧
  (∀ u n, u ∈ us → flat t !! u = Some n →
     ∃ d, flat (_provider_tree s') !! u = Some d ∧ agrees d n) ∧
  ∀ u, u ∉ us → flat (_provider_tree s') !! u = flat (_provider_tree s) !! u.
Proof.
  intros Hwft. revert s. induction us as [|u us IH]; intros s Hwf Hnd Hus; cbn [for_each].
  { intros [= <-]. split_and!; [done| |done]. by intros u n ?%elem_of_nil. }
  apply NoDup_cons in Hnd as [Hu Hnd]. destruct (Hus u ltac:(by left)) as [n Hn].
  destruct (wf_is_uuid is_uuid t u n Hwft Hn) as [Huu Hun].
  intros ([] & s1 & Hone & Hrest)%bind_Ok. rewrite (flush_run is_uuid_empty t u n s Hwft Hn) in Hone.
  apply catch_all_Ok in Hone. subst u.
  destruct (flush_body_Ok n s s1 Hwf Huu Hone) as (d & d' & _ & Hwf1 & Hf1 & Hag).
  destruct (IH s1 Hwf1 Hnd) as (Hwf' & Hin & Hout); [intros v Hv; apply Hus; by right|done|].
  split_and!; [done| |].
  - intros v m [->|Hv]%elem_of_cons Hm; [|by apply Hin]. simplify_eq. exists d'.
    split; [|done]. by rewrite Hout, Hf1, lookup_insert_eq.
  - intros v [Hne Hv]%not_elem_of_cons. rewrite Hout, Hf1 by done. by rewrite lookup_insert_ne.
Qed.

(** Deletions only take away. *)
Lemma delete_Ok u s s' :
  wf is_uuid (_provider_tree s) → is_uuid u = true → _delete_provider u s = (Ok tt, s') →
  wf is_uuid (_provider_tree s') ∧ flat (_provider_tree s') !! u = None ∧
  ∀ v, flat (_provider_tree s) !! v = None → flat (_provider_tree s') !! v = None.
Proof.
  intros Hwf Hu (r & s1 & Hcall & Hrun)%bind_Ok. apply call_same in Hcall as Ht. unfold same_tree in Ht.
  rewrite <- Ht in Hwf |- *. destruct (_ || _); [|by destruct (status_is 409 r)].
  apply bind_Ok in Hrun as ([] & s2 & Hrm & Hrun). injection Hrun as <-. cbn [forget set_times _provider_tree].
  unfold unless_ValueError, try_except, on_tree in Hrm.
  pose proof (remove_spec is_uuid is_uuid_empty u _ Hwf) as Hs. unfold Tree.remove in Hrm.
  destruct (Tree._remove_with_lock u (_provider_tree s1)) as [[[]|e] t].
  - injection Hrm as <-. cbn [_provider_tree set_tree].
    destruct Hs as (q & i & _ & Hm & Hdq & _ & Hwf' & Hfl). split_and!; [done| |].
    + rewrite Hfl, decide_True; [done|]. destruct (matches_uuid is_uuid is_uuid_empty _ u _ _ Hwf Hu Hdq Hm) as [_ He].
      rewrite get_provider_uuids_nodes, nodes_cons, fmap_cons, He. by left.
    + intros v Hv. rewrite Hfl. by case_decide.
  - destruct Hs as (-> & -> & Hn). injection Hrm as <-. cbn. split_and!; [done| |done].
    destruct (flat (_provider_tree s1) !! u) as [d|] eqn:Hd; [|done]. destruct (Hn u d Hd). right.
    by destruct (wf_is_uuid is_uuid _ u d Hwf Hd).
Qed.

Lemma deletions_Ok us s s' :
  wf is_uuid (_provider_tree s) → (∀ u, u ∈ us → is_uuid u = true) →
  for_each (λ u, catch_all u (_delete_provider u)) us s = (Ok tt, s') →
  wf is_uuid (_provider_tree s') ∧
  (∀ u, u ∈ us → flat (_provider_tree s') !! u = None) ∧
  ∀ v, flat (_provider_tree s) !! v = None → flat (_provider_tree s') !! v = None.
Proof.
  revert s. induction us as [|u us IH]; intros s Hwf Hus; cbn [for_each].
  { intros [= <-]. split_and!; [done| |done]. by intros u ?%elem_of_nil. }
  intros ([] & s1 & Hone%catch_all_Ok & Hrest)%bind_Ok.
  destruct (delete_Ok u s s1 Hwf (Hus u ltac:(by left)) Hone) as (Hwf1 & Hu1 & Hless1).
  destruct (IH s1 Hwf1) as (Hwf' & Hgone & Hless); [intros v Hv; apply Hus; by right|done|].
  split_and!; [done| |by auto]. intros v [->|Hv]%elem_of_cons; by auto.
Qed.

Lemma agrees_wants d n n' : wants n' = wants n → agrees d n' → agrees d n.
Proof. unfold agrees. intros [= _ _ _ Hi Ht Ha]. by rewrite Hi, Ht, Ha. Qed.

Lemma same_plan_lookup t t' u n :
  same_plan t t' → flat t !! u = Some n → ∃ n', flat t' !! u = Some n' ∧ wants n' = wants n.
Proof.
  intros Hs Hn. assert ((wants <$> flat t') !! u = Some (wants n)) as Hw
    by (rewrite Hs, lookup_fmap, Hn; done).
  rewrite lookup_fmap in Hw. destruct (flat t' !! u) as [n'|]; [|done]. exists n'. split; [done|]. exact (inj Some _ _ Hw).
Qed.

(** What a successful flush leaves in the cache. *)
Definition reflected (cache new_tree cache' : Tree.tree) : Prop :=
  (∀ u n, flat new_tree !! u = Some n → ∃ d, flat cache' !! u = Some d ∧ agrees d n) ∧
  (∀ u, is_Some (flat cache !! u) → flat new_tree !! u = None → flat cache' !! u = None).

Lemma flush_Ok new_tree s s' :
  sane (is_uuid:=is_uuid) s → plan (is_uuid:=is_uuid) (all_uuids (_provider_tree s)) new_tree →
  update_from_provider_tree rf new_tree None s = (Ok tt, s') →
  wf is_uuid (_provider_tree s') ∧ reflected (_provider_tree s) new_tree (_provider_tree s').
Proof.
  intros Hs Ht. rewrite update_parts. set (cached := all_uuids (_provider_tree s)).
  intros (t' & s1 & Hadd & ([] & s2 & Hdel & Hflush)%bind_Ok)%bind_Ok.
  pose proof (add_providers_sane is_uuid_empty rf cached _ new_tree Ht (to_add_known cached new_tree) s Hs) as Ha.
  rewrite Hadd in Ha. destruct Ha as ([Hwf1 _] & [Hwf' _] & Hsame).
  assert (∀ u, u ∈ reverse (filter (.∉ all_uuids new_tree) cached) → is_uuid u = true) as Hold
    by (intros u Hu; by apply (to_delete_known (_provider_tree s) (all_uuids new_tree) u (proj1 Hs))).
  destruct (deletions_Ok _ s1 s2 Hwf1 Hold Hdel) as (Hwf2 & Hgone & _).
  destruct (flushes_Ok t' (reverse (all_uuids new_tree)) s2 s' Hwf' Hwf2) as (Hwf3 & Hin & Hout);
    [rewrite reverse_Permutation; apply (proj1 Ht)|intros u; by apply to_flush_known|exact Hflush|].
  split; [done|split].
  - intros u n Hn. destruct (same_plan_lookup _ _ _ _ Hsame Hn) as (n' & Hn' & Hw).
    destruct (Hin u n') as (d & Hd & Hag); [|done|].
    + rewrite elem_of_reverse. apply elem_uuids. by exists n.
    + exists d. split; [done|]. by eapply agrees_wants.
  - intros u Hu Hnone. apply flat_lookup_None in Hnone as Hnot.
    rewrite Hout by by rewrite elem_of_reverse. apply Hgone.
    rewrite elem_of_reverse, list_elem_of_filter. split; [done|]. by apply elem_uuids.
Qed.

(** C3. A flush without a reshape that returns has done its work: every provider
    of the new tree is in the cache with the traits and the aggregates of the new
    tree and an inventory that the new one would not change; and every provider
    that was in the cache and is not in the new tree is gone from it. *)
Theorem flush_reflects new_tree s s' :
  sane (is_uuid:=is_uuid) s → plan (is_uuid:=is_uuid) (all_uuids (_provider_tree s)) new_tree →
  update_from_provider_tree rf new_tree None s = (Ok tt, s') →
  wf is_uuid (_provider_tree s') ∧ reflected (_provider_tree s) new_tree (_provider_tree s').
Proof. apply flush_Ok. Qed.
End Success.

(** ** The laws hold of the service *)

Definition service_ok (is_uuid : string → bool) (s : Service.state) : Prop :=
  Forall (λ up, entry_ok is_uuid (up.1, Service.to_pdict up.1 up.2)) (Service.providers s).

Section Laws.
Context (is_uuid : string → bool).

Lemma matching_shape f s : service_ok is_uuid s → well_shaped is_uuid (Service.matching f s).
Proof.
  unfold service_ok, well_shaped, Service.matching. rewrite !Forall_forall. intros Hs pd.
  intros (up & -> & [_ Hup]%list_elem_of_filter)%list_elem_of_fmap. eexists. by apply Hs.
Qed.

Lemma write_ok {A} rp g f (out : Service.provider → A) s :
  (∀ p, Service.p_name (f p) = Service.p_name p ∧ Service.p_parent (f p) = Service.p_parent p) →
  service_ok is_uuid s → service_ok is_uuid (Service.write rp g f out s).2.
Proof.
  unfold service_ok, Service.write. intros Hf Hs.
  destruct (dget (Service.providers s) rp) as [p|] eqn:Hp; [|done]. case_decide; [|done]. cbn.
  rewrite !Forall_forall in *. intros [u q] [[= -> ->]|Hin]%elem_dset; [|by apply Hs].
  apply dget_Some_In, Hs in Hp. destruct (Hf p) as [Hn Hpar].
  unfold entry_ok, Service.to_pdict in *. cbn in *. by rewrite Hn, Hpar.
Qed.

Lemma put_consumers_ok l s : service_ok is_uuid s → service_ok is_uuid (Service.put_consumers l s).2.
Proof. unfold Service.put_consumers. by destruct (foldl _ _ _). Qed.

Lemma reply_ok {A} (q : request A) s :
  request_ok is_uuid q → service_ok is_uuid s → service_ok is_uuid (Service.reply q s).2.
Proof.
  intros Hq Hs. destruct q; cbn [Service.reply snd];
    first [ exact Hs | by apply write_ok | by apply put_consumers_ok | idtac ].
  - destruct (dhas _ _); [exact Hs|]. destruct (existsb _ _); [exact Hs|].
    unfold service_ok in *. cbn. apply Forall_app. split; [exact Hs|]. constructor; [|constructor].
    destruct Hq as (Hu & Hn & Hp). split_and!; [done|done|by exists name|exact Hp].
  - destruct (negb _); [exact Hs|]. destruct (_ || _); [exact Hs|].
    unfold service_ok in *. rewrite Forall_forall in *. intros up Hup%elem_ddel. by apply Hs.
Qed.

Lemma write_echo {J} rp g f (out : Service.provider → J) s (r : response J) s' (j : J) :
  Service.write rp g f out s = (r, s') → status_code r = 200%Z → content r = Json j →
  ∃ p, j = out (Service.mkProvider (Service.p_name (f p)) (Service.p_parent (f p)) (Service.p_gen p + 1)%Z
                 (Service.p_inv (f p)) (Service.p_traits (f p)) (Service.p_aggs (f p))).
Proof.
  unfold Service.write. destruct (dget _ _) as [p|]; [|by intros [= <- _]].
  case_decide; [|by intros [= <- _]]. intros [= <- _] _ [= <-]. by exists p.
Qed.
End Laws.

#[export] Program Instance service_laws is_uuid : ServiceLaws is_uuid Service.state := {|
  good := service_ok is_uuid
|}.
Next Obligation.
  intros is_uuid A v q p o p' Hq Hp Hs. pose proof (reply_ok is_uuid q p Hq Hp) as Hr.
  cbn in Hs. destruct (Service.reply q p). by injection Hs as _ <-.
Qed.
Next Obligation. intros is_uuid p Hp. exact Hp. Qed.
Next Obligation.
  intros is_uuid v u p r p' l Hp [= <- _] [= <-]. by apply matching_shape.
Qed.
Next Obligation.
  intros is_uuid v aggs t p r p' l Hp [= <- _] [= <-]. by apply matching_shape.
Qed.
Next Obligation.
  intros is_uuid v u p r p' pd Hp [= <- _]. unfold Service.read.
  destruct (dget (Service.providers p) u) as [q|] eqn:Hq; [|done]. intros [= <-].
  constructor; [|constructor]. apply dget_Some_In in Hq. unfold service_ok in Hp.
  rewrite Forall_forall in Hp. exists u. exact (Hp _ Hq).
Qed.
Next Obligation.
  intros is_uuid v n p r p' l Hp [= <- _] [= <-]. by apply matching_shape.
Qed.
Next Obligation.
  intros is_uuid v u n parent p r p' pd Hp (Hu & Hn & Hpar) Hs Hc. cbn in Hs.
  destruct (dhas _ _); [by injection Hs as <- _|]. destruct (existsb _ _); [by injection Hs as <- _|].
  injection Hs as <- _. injection Hc as <-. constructor; [|constructor]. exists u.
  split_and!; [done|done|by exists n|exact Hpar].
Qed.
Next Obligation.
  intros is_uuid v u g inv p r p' j Hs Hst Hc. cbn in Hs.
  destruct (Service.write _ _ _ _ _) as [r' s'] eqn:Hw. injection Hs as -> _.
  destruct (write_echo _ _ _ _ _ _ _ _ Hw Hst Hc) as [q ->]. cbn.
  split; [done|]. intros rc cur n Hcur Hn. by simplify_eq.
Qed.
Next Obligation.
  intros is_uuid v u g l p r p' j Hs Hst Hc. cbn in Hs.
  destruct (Service.write _ _ _ _ _) as [r' s'] eqn:Hw. injection Hs as -> _.
  destruct (write_echo _ _ _ _ _ _ _ _ Hw Hst Hc) as [q ->]. cbn. apply list_to_set_elements_L.
Qed.
Next Obligation.
  intros is_uuid v u g l p r p' j Hs Hst Hc. cbn in Hs.
  destruct (Service.write _ _ _ _ _) as [r' s'] eqn:Hw. injection Hs as -> _.
  destruct (write_echo _ _ _ _ _ _ _ _ Hw Hst Hc) as [q ->]. cbn. apply list_to_set_elements_L.
Qed.

(** ** Runs against the service *)

(** The tree of a host with an inventory and a trait to publish. *)
Definition wanted_tree : Tree.tree :=
  (Tree.update_traits u_root {["CUSTOM_ZUN"]} None
     (Tree.update_inventory u_root (disk_inv 40) None host_tree).2).2.

Lemma wanted_plan cached : plan (is_uuid:=uuid_like) cached wanted_tree.
Proof.
  assert (wf uuid_like wanted_tree) as Hwf
    by (apply update_traits_wf, update_inventory_wf, host_tree_wf; done).
  split; [exact Hwf|]. intros u d _ [Hin _]%flat_lookup; [|apply Hwf].
  assert (Forall (λ d, name d ≠ "") (all_nodes wanted_tree)) as Hall
    by (vm_compute; repeat constructor; discriminate).
  rewrite Forall_forall in Hall. by apply Hall.
Qed.

(** A service without providers, and one where the host has changed since the
    client last read it. *)
Definition new_client : client Service.state := mkClient [] ∅ (Service.mkState [] [] 100).
Definition stale_client : client Service.state :=
  mkClient host_tree ∅ (Service.mkState
    [(u_root, Service.mkProvider "host" None 5 (disk_inv 20) ∅ ∅);
     (u_numa0, Service.mkProvider "numa0" (Some u_root) 1 ∅ ∅ ∅)] [] 100).

Lemma new_client_sane : sane (is_uuid:=uuid_like) new_client.
Proof. split; [by apply empty_wf|constructor]. Qed.
Lemma stale_client_sane : sane (is_uuid:=uuid_like) stale_client.
Proof.
  split; [exact host_tree_wf|]. repeat constructor; try (by eexists); intros pu Hpu; by simplify_eq/=.
Qed.

Abbreviation flush_run0 c := (update_from_provider_tree 300 wanted_tree None c).

Lemma flush_reflects_witness :
  ∃ d n, flat wanted_tree !! u_root = Some n ∧
    flat (_provider_tree (flush_run0 new_client).2) !! u_root = Some d ∧ agrees d n.
Proof.
  assert ((flush_run0 new_client).1 = Ok tt) as Hrun by (vm_compute; reflexivity).
  pose proof (flush_reflects (is_uuid:=uuid_like) eq_refl 300 wanted_tree new_client _
    new_client_sane (wanted_plan _) (run_eq _ _ Hrun)) as (_ & Hin & _).
  destruct (flat wanted_tree !! u_root) as [n|] eqn:Hn; [|by vm_compute in Hn].
  destruct (Hin u_root n Hn) as (d & Hd & Hag). exists d, n.
  exact (conj eq_refl (conj Hd Hag)).
Defined.

(** What the service holds in the end is what was wanted. *)
Example flush_publishes :
  (λ p, (Service.p_traits p, bool_decide (Service.p_inv p = disk_inv 40))) <$>
    dget (Service.providers (server (flush_run0 new_client).2)) u_root =
  Some ({["CUSTOM_ZUN"]}, true).
Proof. vm_compute. reflexivity. Qed.

Lemma failed_flush_drops_witness :
  (flush_run0 stale_client).1 = Raise (RExn (Zun ResourceProviderUpdateConflict)) ∧
  ∃ u, (u ∈ all_uuids host_tree ∨ u ∈ all_uuids wanted_tree) ∧
    flat (_provider_tree (flush_run0 stale_client).2) !! u = None.
Proof.
  assert ((flush_run0 stale_client).1 = Raise (RExn (Zun ResourceProviderUpdateConflict))) as Hrun
    by (vm_compute; reflexivity).
  split; [exact Hrun|].
  pose proof (failed_flush_drops (is_uuid:=uuid_like) eq_refl 300 wanted_tree stale_client _ _
    stale_client_sane (wanted_plan _) (run_eq _ _ Hrun)) as [_ [Hc|[_ Hu]]]; [discriminate Hc|exact Hu].
Defined.
