(* ===== verification/PlacementClients.v ===== *)
(** * The placement client behind the interfaces of its users

    The resource tracker, the manager and the scheduler are verified against type
    classes that state what each of them asks of placement.  Here
    [SchedulerReportClient] ([Placement], [PlacementSync]) implements the three
    classes, and its guarantees are carried over to its users: what the tracker
    publishes of a host, and what backs a destination the scheduler returns. *)

From S2P Require Import Prelude Exceptions Numa Container ComputeNode Driver Claims NodeTracker.
From S2P Require Import ResourceRequest HostFilters Scheduler Volumes ProviderTree.
From S2P Require Import Placement PlacementSync PlacementFlush.

(** [consts.CUSTOM_TRAITS] *)
Definition ZUN_COMPUTE_STATUS_DISABLED : string := "CUSTOM_ZUN_COMPUTE_STATUS_DISABLED".
Definition CUSTOM_TRAITS : gset string := {[ ZUN_COMPUTE_STATUS_DISABLED ]}.

(** ** The instances *)

Section Clients.
Context {P : Type} `{PlacementServer P} (association_refresh : Z).
(** The project and the user of the container with a uuid. *)
Context (project_of user_of : string → option string).

(** An exception of the client in the code that calls it.  The errors of the
    keystone library are no [ZunException]; [Retry] never leaves [retries]. *)
Definition exn_of (e : rerr) : exn :=
  match e with RExn x => x | RKs _ | Retry => Py OtherException end.

Definition client_call {A} (m : M rerr (client P) A) : py (client P) A :=
  λ c, let '(o, c') := m c in (match o with Ok a => Ok a | Raise e => Raise (exn_of e) end, c').

(** What the resource tracker calls. *)
Definition report_client : ReportClient (client P) := {|
  NodeTracker.get_provider_by_name name := client_call (provider_uuid_by_name name);
  NodeTracker.get_provider_tree_and_ensure_root u name :=
    client_call (PlacementSync.get_provider_tree_and_ensure_root association_refresh u (Some name) None);
  NodeTracker.update_from_provider_tree t :=
    client_call (PlacementSync.update_from_provider_tree association_refresh t None)
|}.

(** What the manager calls. *)
Definition allocation_client : AllocationClient (client P) := {|
  Volumes.delete_allocation_for_container u :=
    client_call (let! _b := Placement.delete_allocation_for_container u in ret tt)
|}.

(** An allocation request as the service sent it. *)
Definition to_allocs (ar : alloc_req) : allocs :=
  mkAllocs ((λ kv, (kv.1, mkRpAlloc None kv.2)) <$> Scheduler.allocations ar) None None None.

(** [utils.claim_resources] *)
Definition claim_for (u : string) (ar : alloc_req) : M rerr (client P) bool :=
  Placement.claim_resources u (to_allocs ar) (project_of u) (user_of u) INTREE_AC_VERSION None.

(** What the scheduler calls; it takes a failed connection for no candidates. *)
Definition scheduler_client : PlacementClient (client P) := {|
  Scheduler._ensure_traits := client_call (Placement._ensure_traits CUSTOM_TRAITS);
  Scheduler.get_allocation_candidates rr := client_call
    (try_except (Placement.get_allocation_candidates rr)
       (λ e, if no_connection e then Some (ret None) else None));
  Scheduler.claim_resources u ar := client_call (claim_for u ar)
|}.

Lemma client_call_hoare {A} I Q (m : M rerr (client P) A) :
  hoare I m Q (λ _, I) → hoare I (client_call m) Q (λ _, I).
Proof. intros Hm s Hs. specialize (Hm s Hs). unfold client_call. by destruct (m s) as [[a|e] s']. Qed.

Lemma client_call_Ok {A} (m : M rerr (client P) A) c a c' :
  client_call m c = (Ok a, c') ↔ m c = (Ok a, c').
Proof. unfold client_call. destruct (m c) as [[b|e] c1]; split; intros [=]; by simplify_eq. Qed.
End Clients.

(** ** What the tracker publishes *)

Section Published.
Context {is_uuid : string → bool} (is_uuid_empty : is_uuid "" = false).
Context {P : Type} `{ServiceLaws is_uuid P} (rf : Z) (cfg : settings).
#[local] Instance the_report_client : ReportClient (client P) := report_client rf.
Abbreviation tracker := (rt (client P)).
Implicit Types s : tracker.

(** The cache is in order, and the provider of the node, once found, is a uuid. *)
Definition ready s : Prop :=
  sane (is_uuid:=is_uuid) (placement s) ∧ ∀ u, NodeTracker.rp_uuid s = Some u → is_uuid u = true.

(** What placement knows of the host, as far as the client can tell. *)
Definition published s : Prop :=
  ∃ u d cpu ram disk,
    NodeTracker.rp_uuid s = Some u ∧ flat (_provider_tree (placement s)) !! u = Some d ∧
    repeats (inventory d) (host_inventory (compute_options cfg) (host_facts cfg) cpu ram disk) ∧
    ∀ b, service_disabled s = Some b → ZUN_COMPUTE_STATUS_DISABLED ∈ traits d ↔ b = true.

(** A call of the client inside the tracker. *)
Lemma on_placement_hoare {A} (m : M rerr (client P) A) (Q : A → client P → Prop) (K : tracker → Prop) :
  hoare (sane (is_uuid:=is_uuid)) m Q (λ _, sane (is_uuid:=is_uuid)) →
  (∀ a c, Q a c → sane (is_uuid:=is_uuid) c) → (∀ p s, K s → K (set_placement p s)) →
  hoare (λ s, ready s ∧ K s) (NodeTracker.on_placement (client_call m))
    (λ a s, ready s ∧ Q a (placement s) ∧ K s) (λ _, ready).
Proof.
  intros Hm Hq HK s [[Hs Hu] Hk]. pose proof (client_call_hoare _ _ m Hm (placement s) Hs) as Hc.
  unfold NodeTracker.on_placement, zoom. destruct (client_call m (placement s)) as [[a|e] p].
  - split_and!; [|exact Hc|by apply HK]. split; [by eapply Hq|exact Hu].
  - split; [exact Hc|exact Hu].
Qed.

(** *** The provider of the node *)

Lemma by_name_pure name :
  hoare (sane (is_uuid:=is_uuid)) (provider_uuid_by_name name)
    (λ u c, sane (is_uuid:=is_uuid) c ∧ is_uuid u = true) (λ _, sane (is_uuid:=is_uuid)).
Proof.
  unfold provider_uuid_by_name, Placement.get_provider_by_name.
  eapply (hoare_bind _ _ _ (λ pd c, sane (is_uuid:=is_uuid) c ∧ well_shaped is_uuid [pd])).
  - eapply (hoare_bind _ _ _ (λ r c, sane (is_uuid:=is_uuid) c ∧
      ∀ l, content r = Json l → well_shaped is_uuid l)).
    + intros c Hc. assert (hoare (sane (is_uuid:=is_uuid)) (call v1_0 (GetByName name))
        (λ r c, sane (is_uuid:=is_uuid) c ∧ ∀ l, content r = Json l → well_shaped is_uuid l)
        (λ _, sane (is_uuid:=is_uuid))) as Hg
        by (apply call_pure; [done|intros; by eapply by_name_shape]).
      specialize (Hg c Hc). unfold try_except. destruct (call _ _ c) as [[r|[]] c1]; exact Hg.
    + intros r c [Hc Hl]. unfold json, zun. destruct (status_is 200 r); [|exact Hc].
      destruct (content r) as [l| |]; [|exact Hc..]. rewrite bind_ret.
      specialize (Hl l eq_refl). by destruct l as [|pd [|]].
  - intros pd c [Hc Hpd]. apply Forall_singleton in Hpd as (u & Hu & Hid & _).
    cbn in Hu, Hid. rewrite Hu. by split.
Qed.

Lemma found_by_name name :
  hoare ready (let! u := NodeTracker.on_placement (NodeTracker.get_provider_by_name name) in
               modify (set_rp_uuid (P:=client P) (Some u)))
    (λ _ s, ready s ∧ is_Some (NodeTracker.rp_uuid s)) (λ _, ready).
Proof.
  eapply (hoare_bind _ _ _ (λ u s, ready s ∧ is_uuid u = true)).
  - eapply hoare_conseq; [apply (on_placement_hoare _ _ (λ _, True) (by_name_pure name)); [|done]|..].
    + by intros a c [Hc _].
    + by intros s Hs.
    + by intros a s (Hs & [_ Hu] & _).
    + done.
  - intros u s [[Hs _] Hu]. cbn. split; [|by eexists]. split; [exact Hs|]. cbn. by intros v [= <-].
Qed.

Lemma try_names_ready names : preserves ready (try_names (P:=client P) names).
Proof.
  induction names as [|name names IH]; [apply preserves_ret|]. cbn [try_names].
  apply preserves_bind; [|by intros []; [apply preserves_ret|]].
  intros s Hs. pose proof (found_by_name name s Hs) as Hf. unfold try_except.
  rewrite <- bind_assoc. unfold bind at 1. destruct (bind _ _ s) as [[[]|e] s1]; [apply Hf|].
  by destruct (isinstance _ _).
Qed.

Lemma node_rp_uuid_pure n : is_uuid (ComputeNode.uuid n) = true →
  hoare ready (_get_node_rp_uuid cfg n)
    (λ u s, ready s ∧ NodeTracker.rp_uuid s = Some (default "" u) ∧ is_uuid (default "" u) = true)
    (λ _, ready).
Proof.
  intros Hn. unfold _get_node_rp_uuid. eapply (hoare_bind _ _ _ (λ u s, ready s ∧ NodeTracker.rp_uuid s = u)).
  { by intros s Hs. }
  intros cached. destruct (ostr_true cached) eqn:Hc.
  { intros s [[Hs Hu] Hcached]. destruct cached as [u|]; [|done]. split_and!; [done|done|by apply Hu]. }
  eapply (hoare_bind _ _ _ (λ _ s, ready s ∧ is_Some (NodeTracker.rp_uuid s))).
  - destruct (host_shared_with_nova cfg).
    + intros s [Hs _]. pose proof (found_by_name (hostname n) s Hs) as Hf. unfold try_except.
      destruct (bind _ _ s) as [[[]|e] s1]; [done|]. destruct (isinstance _ _); [|done].
      pose proof (try_names_ready (host_names cfg) s1 Hf) as Ht. unfold bind.
      destruct (try_names _ s1) as [[[]|e'] s2]; [|done]. cbn.
      destruct (NodeTracker.rp_uuid s2) as [u|] eqn:Hu; [|done]. unfold ostr_true, raise_if.
      destruct (negb _); [done|]. cbn. rewrite Hu. split; [done|by eexists].
    + intros s [[Hs _] _]. cbn. split; [|by eexists]. split; [exact Hs|]. cbn. by intros v [= <-].
  - intros _ s [[Hs Hu] [u Hru]]. cbn. rewrite Hru. split_and!; [done|done|by apply Hu].
Qed.

(** *** The tree the driver fills in *)

(** The work between reading the tree and flushing it. *)
Definition fill_in (u : string) (t : Tree.tree) : py tracker unit :=
  modify (λ s, NodeTracker.set_driver (mkDriver (cpu_allocation_ratio (NodeTracker.driver s))
    (ram_allocation_ratio (NodeTracker.driver s)) (own_provider_tree (NodeTracker.driver s)) t) s);;;
  NodeTracker.on_driver (update_provider_tree (compute_options cfg) (host_facts cfg) u);;;
  let! ts := _get_traits cfg u in
  let! _changed := NodeTracker.on_driver (Driver.on_tree (Tree.update_traits u ts None)) in
  ret tt.

Lemma attempt_parts n s :
  update_to_placement_once cfg n s =
  (let! u := _get_node_rp_uuid cfg n in
   let! t := NodeTracker.on_placement
     (NodeTracker.get_provider_tree_and_ensure_root (default "" u) (hostname n)) in
   fill_in (default "" u) t;;;
   let! t := gets (λ s, given_tree (NodeTracker.driver s)) in
   NodeTracker.on_placement (NodeTracker.update_from_provider_tree t)) s.
Proof.
  unfold update_to_placement_once, fill_in.
  do 2 (apply bind_ext; intros ? ?). repeat (rewrite bind_assoc; apply bind_ext; intros ? ?).
  by rewrite bind_ret.
Qed.

(** It stays within the driver. *)
Definition outside s s' : Prop :=
  placement s' = placement s ∧ NodeTracker.rp_uuid s' = NodeTracker.rp_uuid s ∧
  service_disabled s' = service_disabled s.
#[local] Instance outside_preorder : PreOrder outside.
Proof. split; [by intros s|]. unfold outside. intros s1 s2 s3 (H1 & H2 & H3) (H4 & H5 & H6). split_and!; congruence. Qed.

Lemma on_driver_outside {A} (m : py driver_state A) : keeps outside (NodeTracker.on_driver (P:=client P) m).
Proof. intros s o s'. unfold NodeTracker.on_driver, zoom. destruct (m _) as [o1 d]. by intros [= <- <-]. Qed.

Lemma fill_in_outside u t : keeps outside (fill_in u t).
Proof.
  unfold fill_in, _get_traits, _sync_compute_service_disabled_trait.
  repeat first [ apply on_driver_outside | apply keeps_modify; by intros s | progress keep_rel ].
Qed.

(** A tree of the driver in which the provider [u] is the one with data [d]. *)
Definition drawn (u : string) (d : ProviderData) (t t0 : Tree.tree) : Prop :=
  wf is_uuid t ∧ dom (flat t) = dom (flat t0) ∧ flat t !! u = Some d.

Lemma ratios_state inv (ds ds' : driver_state) o :
  _get_allocation_ratios (compute_options cfg) inv ds = (o, ds') → ds' = ds.
Proof.
  unfold _get_allocation_ratios, allocation_ratio. intros Hr.
  assert (keeps eq (_get_allocation_ratios (compute_options cfg) inv)) as Hk
    by (unfold _get_allocation_ratios, allocation_ratio; keep_rel).
  symmetry. by eapply Hk.
Qed.

Lemma look_state {A} u (f : ProviderData → A) : keeps eq (Tree.look u f).
Proof.
  intros t o t'. unfold Tree.look, bind, Tree._find_with_lock, Tree.read.
  destruct (Tree.find_from 0 u t) as [[i path]|]; [|by intros [=]].
  by destruct (deref t _); intros [=].
Qed.

Lemma sharing_state rc : keeps eq (Tree.has_sharing_provider rc).
Proof.
  unfold Tree.has_sharing_provider. apply keeps_bind; [apply _|apply (keeps_gets eq)|].
  intros us. induction us as [|u us IH]; [apply (keeps_ret eq)|].
  apply keeps_bind; [apply _|apply look_state|]. intros d. by case_match; [apply (keeps_ret eq)|].
Qed.

Lemma driver_on_tree {A} (m : py Tree.tree A) (ds ds' : driver_state) o :
  Driver.on_tree m ds = (o, ds') → m (given_tree ds) = (o, given_tree ds').
Proof. unfold Driver.on_tree, zoom. destruct (m _) as [o1 t]. by intros [= <- <-]. Qed.

Lemma driver_inventory u (ds ds' : driver_state) :
  wf is_uuid (given_tree ds) → is_uuid u = true →
  update_provider_tree (compute_options cfg) (host_facts cfg) u ds = (Ok tt, ds') →
  ∃ d cpu ram disk, drawn u d (given_tree ds') (given_tree ds) ∧
    repeats (inventory d) (host_inventory (compute_options cfg) (host_facts cfg) cpu ram disk).
Proof.
  intros Hwf Hu. unfold update_provider_tree.
  intros (d0 & s1 & Hd%driver_on_tree & ([[cpu ram] disk] & s2 & ->%ratios_state & Hrun)%bind_Ok)%bind_Ok.
  apply look_state in Hd. rewrite bind_modify in Hrun. cbv zeta in Hrun.
  apply bind_Ok in Hrun as (b & s3 & Hsh%driver_on_tree%sharing_state & Hrun). cbn in Hsh.
  apply bind_Ok in Hrun as (b' & s4 & Hup%driver_on_tree & [= <-]). cbn.
  rewrite <- Hsh, <- Hd in Hup.
  pose proof (on_found_uuid is_uuid is_uuid_empty u _ (given_tree ds) Hwf Hu
    (update_inventory_keeps (host_inventory (compute_options cfg) (host_facts cfg) cpu ram disk) None)) as Hf.
  unfold Tree.update_inventory in Hup. rewrite Hup in Hf.
  destruct Hf as (d & Hd0 & _ & Hwf' & Hfl). eexists _, cpu, ram, disk. split.
  - split; [exact Hwf'|]. rewrite Hfl. split; [|by rewrite lookup_insert_eq].
    by apply dom_insert_lookup_L.
  - destruct (update_inventory_set (host_inventory (compute_options cfg) (host_facts cfg) cpu ram disk)
      (host_inventory (compute_options cfg) (host_facts cfg) cpu ram disk) None d) as [Hinv _];
      [by split; [|intros; simplify_eq]|]. by apply inventory_unchanged in Hinv.
Qed.

Lemma disabled_trait s ts :
  ∃ ts', _sync_compute_service_disabled_trait ts s = (Ok ts', s) ∧
    ∀ b, service_disabled s = Some b → ZUN_COMPUTE_STATUS_DISABLED ∈ ts' ↔ b = true.
Proof.
  unfold _sync_compute_service_disabled_trait. rewrite bind_gets.
  eexists. split; [reflexivity|]. intros b ->. unfold ZUN_COMPUTE_STATUS_DISABLED.
  destruct b; set_solver.
Qed.

(** What the tree to flush says of the node. *)
Definition wanted s (d : ProviderData) : Prop :=
  (∃ cpu ram disk, repeats (inventory d)
     (host_inventory (compute_options cfg) (host_facts cfg) cpu ram disk)) ∧
  (∀ b, service_disabled s = Some b → ZUN_COMPUTE_STATUS_DISABLED ∈ traits d ↔ b = true).

Lemma on_driver_run {A} (m : py driver_state A) s o s' :
  NodeTracker.on_driver m s = (o, s') → m (NodeTracker.driver s) = (o, NodeTracker.driver s').
Proof. unfold NodeTracker.on_driver, zoom. destruct (m _) as [o1 d]. by intros [= <- <-]. Qed.

Lemma fill_in_Ok u t s s' :
  wf is_uuid t → is_uuid u = true → fill_in u t s = (Ok tt, s') →
  ∃ d, drawn u d (given_tree (NodeTracker.driver s')) t ∧ wanted s' d.
Proof.
  intros Hwf Hu Hrun. destruct (fill_in_outside u t s _ s' Hrun) as (_ & _ & Hdis).
  unfold fill_in in Hrun. rewrite bind_modify in Hrun.
  apply bind_Ok in Hrun as ([] & s1 & Hinv & Hrun).
  destruct (on_driver_outside _ _ _ _ Hinv) as (_ & _ & Hdis1). apply on_driver_run in Hinv.
  apply driver_inventory in Hinv as (d & cpu & ram & disk & (Hwf1 & Hdom & Hd) & Hrep); [|done..].
  apply bind_Ok in Hrun as (ts & s2 & Hts & Hrun). unfold _get_traits in Hts.
  apply bind_Ok in Hts as (d' & s3 & Hlook & Hts).
  destruct (on_driver_outside _ _ _ _ Hlook) as (_ & _ & Hdis3).
  apply on_driver_run, driver_on_tree, look_state in Hlook.
  edestruct (disabled_trait s3) as (ts' & Hs & Hts'). rewrite Hs in Hts. injection Hts as <- <-.
  apply bind_Ok in Hrun as (b & s4 & Hup & [= <-]). apply on_driver_run, driver_on_tree in Hup.
  rewrite <- Hlook in Hup.
  pose proof (on_found_uuid is_uuid is_uuid_empty u (Node.update_traits ts' None) _ Hwf1 Hu
    (update_traits_keeps (λ _, ts') None)) as Hf.
  unfold Tree.update_traits in Hup. rewrite Hup in Hf. destruct Hf as (d1 & Hd1 & _ & Hwf' & Hfl).
  simplify_eq. destruct (update_traits_set ts' None d) as (Htr & Hi & _).
  eexists. split; [|split].
  - split_and!; [exact Hwf'| |by rewrite Hfl, lookup_insert_eq].
    rewrite Hfl. etrans; [by apply dom_insert_lookup_L|exact Hdom].
  - exists cpu, ram, disk. by rewrite Hi.
  - intros b0 Hb. rewrite Htr. apply Hts'. rewrite Hdis3, Hdis1. rewrite <- Hb, Hdis. done.
Qed.

(** *** One attempt, and the attempts *)

Definition stands s s' := NodeTracker.rp_uuid s' = NodeTracker.rp_uuid s.

Lemma ensure_root_pure u name :
  is_uuid u = true → name ≠ "" → is_uuid name = false →
  hoare (sane (is_uuid:=is_uuid))
    (PlacementSync.get_provider_tree_and_ensure_root (P:=P) rf u (Some name) None)
    (λ t c, sane (is_uuid:=is_uuid) c ∧ _provider_tree c = t) (λ _, sane (is_uuid:=is_uuid)).
Proof.
  intros Hu Hne Hn. unfold PlacementSync.get_provider_tree_and_ensure_root.
  eapply hoare_bind; [apply (ensure_sane is_uuid_empty); [|done]|].
  - split; [done|]. by exists name.
  - by intros _ c Hc.
Qed.

(** The state between the two calls of placement. *)
Definition filled u s : Prop :=
  ready s ∧ NodeTracker.rp_uuid s = Some u ∧ is_uuid u = true ∧
  ∃ d, drawn u d (given_tree (NodeTracker.driver s)) (_provider_tree (placement s)) ∧ wanted s d.

Lemma fill_in_hoare u t :
  hoare (λ s, ready s ∧ _provider_tree (placement s) = t ∧
           NodeTracker.rp_uuid s = Some u ∧ is_uuid u = true)
    (fill_in u t) (λ _, filled u) (λ _, ready).
Proof.
  intros s ([Hs Hid] & Ht & Hu & Huu). destruct (fill_in u t s) as [o s'] eqn:Hrun.
  destruct (fill_in_outside u t s _ s' Hrun) as (Hp & Hr & _).
  assert (ready s') as Hready by (split; [by rewrite Hp|by rewrite Hr]).
  destruct o as [[]|e]; [|exact Hready]. destruct Hs as [Hwf Hg].
  apply fill_in_Ok in Hrun as (d & Hd & Hw); [|by rewrite <- Ht|done].
  split_and!; [done|by rewrite Hr|done|]. exists d. by rewrite Hp, Ht.
Qed.

Lemma flush_hoare u :
  hoare (filled u)
    (let! t := gets (λ s, given_tree (NodeTracker.driver s)) in
     NodeTracker.on_placement (NodeTracker.update_from_provider_tree t))
    (λ _ s, ready s ∧ published s) (λ _, ready).
Proof.
  intros s ([Hs Hid] & Hu & Huu & d & (Hwf & Hdom & Hd) & (cpu & ram & disk & Hrep) & Htr).
  rewrite bind_gets. set (t := given_tree _) in *.
  assert (plan (is_uuid:=is_uuid) (all_uuids (_provider_tree (placement s))) t) as Hplan.
  { split; [done|]. intros v dv Hv Hdv. destruct Hv. apply elem_uuids, elem_of_dom.
    rewrite <- Hdom. by eapply elem_of_dom_2. }
  unfold NodeTracker.on_placement, zoom, NodeTracker.update_from_provider_tree. cbn.
  unfold client_call. destruct (PlacementSync.update_from_provider_tree rf t None (placement s))
    as [o c] eqn:Hrun.
  pose proof (update_sane is_uuid_empty rf t (placement s) _ _ Hs Hplan Hrun) as Hsane.
  destruct o as [[]|e]; [|split; [exact Hsane|exact Hid]].
  split; [split; [exact Hsane|exact Hid]|].
  apply (flush_Ok is_uuid_empty rf t (placement s) c Hs Hplan) in Hrun as (_ & Hin & _).
  destruct (Hin u d Hd) as (d' & Hd' & Hinv & Htraits & _).
  exists u, d', cpu, ram, disk. split_and!; [done|exact Hd'| |].
  - apply inventory_unchanged, (repeats_unchanged _ _ _ Hrep Hinv).
  - cbn. intros b Hb. rewrite <- Htraits. by apply Htr.
Qed.

Lemma attempt_hoare n :
  is_uuid (ComputeNode.uuid n) = true → hostname n ≠ "" → is_uuid (hostname n) = false →
  hoare ready (update_to_placement_once cfg n) (λ _ s, ready s ∧ published s) (λ _, ready).
Proof.
  intros Hn Hne Hhost s Hs. rewrite attempt_parts. revert s Hs.
  eapply hoare_bind; [by apply node_rp_uuid_pure|]. intros u.
  eapply (hoare_bind _ _ _ (λ t s, ready s ∧ _provider_tree (placement s) = t ∧
    NodeTracker.rp_uuid s = Some (default "" u) ∧ is_uuid (default "" u) = true)).
  - intros s (Hs & Hu & Huu).
    pose proof (on_placement_hoare _ _ (λ s, NodeTracker.rp_uuid s = Some (default "" u))
      (ensure_root_pure (default "" u) (hostname n) Huu Hne Hhost)
      (λ _ _ H, proj1 H) (λ p s H, H) s (conj Hs Hu)) as Hc.
    cbn [NodeTracker.get_provider_tree_and_ensure_root the_report_client report_client].
    destruct (NodeTracker.on_placement _ s) as [[t|e] s1]; [|exact Hc]. naive_solver.
  - intros t. eapply hoare_bind; [apply fill_in_hoare|]. intros ?. apply flush_hoare.
Qed.

(** C2. When the tracker has updated placement, whatever conflicts it met on the
    way, the provider of its node carries the VCPUs, the memory and the disk of
    the host (totals, reserved amounts and ratios), and it has the trait of
    disabled hosts exactly when the service of the host is disabled. *)
Theorem update_publishes_host n s s' :
  is_uuid (ComputeNode.uuid n) = true → hostname n ≠ "" → is_uuid (hostname n) = false →
  ready s → _update_to_placement cfg n s = (Ok tt, s') → ready s' ∧ published s'.
Proof.
  intros Hn Hne Hhost Hs Hrun.
  pose proof (hoare_retrying NodeTracker.is_conflict ready 3 _ _ (attempt_hoare n Hn Hne Hhost) s Hs) as Hr.
  unfold _update_to_placement in Hrun. by rewrite Hrun in Hr.
Qed.
End Published.

(** ** What backs a destination *)

Section Scheduled.
Context {P : Type} `{PlacementServer P} (project_of user_of : string → option string).
#[local] Instance the_scheduler_client : PlacementClient (client P) := scheduler_client project_of user_of.
Context (conf : sched_conf) (filters : list filter_class) (standards : list string)
  (max_placement_results : Z) (default_cpu : Qc) (default_memory : Z).
Abbreviation W := (world (client P)).
Implicit Types w : W.

(** JSON objects have distinct keys. *)
Definition unique_keys : Prop := ∀ v q (p : P) r p' d,
  send v (GetCandidates q) p = (Ok r, p') → content r = Json d →
  Forall (λ ar, NoDup (dkeys (Scheduler.allocations ar))) (alloc_reqs d).

(** The service has accepted allocations of the consumer [u] that name the
    provider [rp]; afterwards it was sent other claims of the scheduler only. *)
Definition backed (u rp : string) (c' : client P) : Prop :=
  ∃ payload r c1 c2,
    answers INTREE_AC_VERSION (PutAllocations u payload) r c1 c2 ∧ status_code r = 204%Z ∧
    project_id payload = project_of u ∧ user_id payload = user_of u ∧
    is_Some (dget (Placement.allocations payload) rp) ∧ rtc claims c2 c'.

Lemma claim_backs u ar rp p p' c' :
  NoDup (dkeys (Scheduler.allocations ar)) → rp ∈ dkeys (Scheduler.allocations ar) →
  Scheduler.claim_resources u ar p = (Ok true, p') → rtc claims p' c' → backed u rp c'.
Proof.
  intros Hnd Hrp Hclaim Hlater. apply client_call_Ok in Hclaim.
  assert (dkeys (Placement.allocations (to_allocs ar)) = dkeys (Scheduler.allocations ar)) as Hk
    by (unfold to_allocs, dkeys; cbn; rewrite <- list_fmap_compose; done).
  apply claim_Ok in Hclaim as (c1 & c2 & r0 & r & payload & _ & Hput & Hst & Hpr & Hus & Hal & _);
    [|by rewrite Hk].
  exists payload, r, c2, p'. split_and!; [done..| |done]. rewrite Hal.
  destruct (dget (held r0) rp); [by eexists|]. apply dget_Some_keys. by rewrite Hk.
Qed.

(** What the service proposes, filed under each of its providers. *)
Lemma candidates_filed (res : candidates) rp ar reqs :
  dget (group_alloc_reqs (alloc_reqs res)) rp = Some (ar :: reqs) →
  ar ∈ alloc_reqs res ∧ rp ∈ dkeys (Scheduler.allocations ar).
Proof.
  intros Hd. apply (group_alloc_reqs_filed (alloc_reqs res)) in Hd as [_ Hall].
  apply Hall. by left.
Qed.

Abbreviation select :=
  (client_select_destinations conf filters standards max_placement_results default_cpu default_memory
     FilterScheduler).

Lemma ensure_traits_store w o w' : ensure_traits w = (o, w') → w_store w' = w_store w.
Proof.
  unfold ensure_traits. rewrite bind_gets. destruct (w_traits_ensured w); [by intros [= _ <-]|].
  unfold bind, Scheduler.on_placement, zoom, modify.
  destruct (Scheduler._ensure_traits _) as [[[]|e] p]; by intros [= _ <-].
Qed.

(** The scheduler's driver, as the client calls it. *)
Lemma select_runs containers xs w ds w' :
  unique_keys → select containers xs w = (Ok ds, w') →
  ∃ res w1, w_store w1 = w_store w ∧
    Forall (λ ar, NoDup (dkeys (Scheduler.allocations ar))) (alloc_reqs res) ∧
    select_destinations conf filters containers (process_reqspec xs)
      (group_alloc_reqs (alloc_reqs res)) (Some (provider_summaries res)) w1 = (Ok ds, w').
Proof.
  intros Huniq ([] & w1 & Htr%ensure_traits_store & Hrun)%bind_Ok. cbv zeta in Hrun.
  apply bind_Ok in Hrun as (r & w2 & Hr & Hrun). destruct (head containers); [injection Hr as -> <-|done].
  apply bind_Ok in Hrun as (c & w3 & Hc & Hrun). unfold Scheduler.on_containers, zoom, Container.read in Hc.
  cbn in Hc. injection Hc as <- <-.
  apply bind_Ok in Hrun as (rr & w4 & Hrr & Hrun). unfold Scheduler.on_nodes, zoom in Hrr.
  destruct (resources_from_request_spec _ _ _ _ _ _ _) as [o t]. injection Hrr as -> <-.
  apply bind_Ok in Hrun as (res & w5 & Hres & Hrun).
  unfold Scheduler.on_placement, zoom in Hres. cbn [w_placement] in Hres.
  destruct (Scheduler.get_allocation_candidates _ _) as [o p] eqn:Hcand. injection Hres as -> <-.
  destruct res as [res|]; [|done]. apply bind_Ok in Hrun as ([] & w6 & Hne & Hrun).
  unfold raise_if in Hne. destruct (negb _); [done|]. injection Hne as <-.
  exists res. eexists. split; [|split; [|exact Hrun]]; [by cbn|].
  apply client_call_Ok in Hcand. unfold try_except, Placement.get_allocation_candidates in Hcand.
  destruct (bind _ _ _) as [[o|e] c1] eqn:Hg; [|by destruct (no_connection e)].
  injection Hcand as -> ->. apply bind_Ok in Hg as (resp & c2 & Hcall & Hg).
  destruct (status_is 200 resp); [|done]. apply bind_Ok in Hg as (d & c3 & Hj & [= -> <-]).
  unfold json in Hj. destruct (content resp) as [d'| |] eqn:Hd; [|done..]. injection Hj as -> <-.
  unfold call in Hcall. destruct (send _ _ _) as [[r'|k] p'] eqn:Hsend; [|done].
  injection Hcall as -> _. by eapply Huniq.
Qed.

(** C6. Behind every destination the scheduler returns, one per container and in
    their order, there is a compute node with a provider, and an allocation of the
    container, under its project and user, that names this provider and that the
    service accepted; the only requests sent after it are further claims. *)
Theorem destinations_backed containers xs w ds w' :
  unique_keys → dict_hints (process_reqspec xs) → select containers xs w = (Ok ds, w') →
  Forall2 (λ r d, ∃ n rp, d_host d = hostname n ∧ ComputeNode.rp_uuid n = Some rp ∧
    backed (Container.uuid (obj (w_store w) r)) rp (w_placement w')) containers ds.
Proof.
  intros Huniq Hx Hrun. apply select_runs in Hrun as (res & w1 & Hst & Hkeys & Hrun); [|done].
  apply destinations_right in Hrun as (_ & _ & Hall); [|done]. rewrite <- Hst.
  eapply Forall2_impl; [exact Hall|]. intros r d (c & Hpol & [Hright]).
  destruct Hright as (ns & t & n & sv & rp & ar & reqs & p & p' & _ & _ & _ & _ & Hhost & _ & _ & Hrp
    & Hd & _ & Hclaim & Hlater & _).
  apply candidates_filed in Hd as [Har Hin]. exists n, rp. split_and!; [done..|].
  assert (Container.uuid (obj (w_store w1) r) = Container.uuid c) as -> by by injection Hpol.
  rewrite Forall_forall in Hkeys. by eapply claim_backs; [apply Hkeys| |exact Hclaim|].
Qed.
End Scheduled.

(** ** Runs against the service *)

(** A node whose service is disabled, and a service that has never heard of it. *)
Definition new_node : ComputeNode :=
  ComputeNode.mkNode u_root None (Some demo_topology) "host1" 8192 8192 4096 0 0 0 0 0
    4 0%Qc [None; None; None; None] None None 80 0 false None false.
Definition new_tracker : rt (client Service.state) :=
  mkRt (Some new_node) ∅ ∅ None None (mkDriver None None None [])
    (Container.mkStore [] []) [] [] (Some true) new_client.

Lemma new_tracker_ready : ready (is_uuid:=uuid_like) new_tracker.
Proof. split; [exact new_client_sane|done]. Qed.

Abbreviation publish_run :=
  (_update_to_placement (H:=report_client 300) demo_settings new_node new_tracker).

Lemma update_publishes_host_witness :
  publish_run.1 = Ok tt ∧ ready (is_uuid:=uuid_like) publish_run.2 ∧ published demo_settings publish_run.2.
Proof.
  assert (publish_run.1 = Ok tt) as Hrun by (vm_compute; reflexivity).
  split; [exact Hrun|].
  apply (update_publishes_host (is_uuid:=uuid_like) eq_refl 300 demo_settings new_node new_tracker publish_run.2);
    [reflexivity|discriminate|reflexivity|exact new_tracker_ready|exact (run_eq _ _ Hrun)].
Defined.

(** The service then holds what was published. *)
Example publish_reaches_service :
  (λ p, (Service.p_traits p, (λ r, r !! "total") <$> Service.p_inv p !! MEMORY_MB)) <$>
    dget (Service.providers (server (placement publish_run.2))) u_root =
  Some (CUSTOM_TRAITS, Some (Some (Qc_of_Z 8192))).
Proof. vm_compute. reflexivity. Qed.

(** A service that proposes the request of the demonstration. *)
#[local] Instance proposing : PlacementServer Service.state := {|
  send A v q :=
    match q in request A return M ks_error Service.state (response A) with
    | GetCandidates _ => ret (Service.done 200 (mkCandidates [demo_alloc] ["node1"]))
    | q => send v q
    end;
  time := time
|}.

Lemma proposing_keys : unique_keys (P:=Service.state).
Proof.
  intros v q p r p' d [= <- <-] [= <-]. constructor; [|constructor]. by apply NoDup_singleton.
Qed.

Definition scheduling_world : world (client Service.state) :=
  mkWorld [to_row None demo_sched_node] [demo_service] demo_store
    (mkClient [] ∅ (Service.mkState [] [] 100)) false.

Abbreviation schedule_run :=
  (client_select_destinations
     (H:=scheduler_client (λ _, Some "project") (λ _, Some "user"))
     demo_sched_conf demo_filters ["VCPU"; "MEMORY_MB"; "DISK_GB"] 1000 1%Qc 512
     FilterScheduler [0] demo_specs scheduling_world).

Lemma destinations_backed_witness :
  ∃ d, schedule_run.1 = Ok [d] ∧ ∃ rp,
    backed (λ _, Some "project") (λ _, Some "user") "c1" rp (w_placement schedule_run.2).
Proof.
  destruct schedule_run.1 as [ds|e] eqn:Hrun; [|vm_compute in Hrun; discriminate Hrun].
  pose proof (destinations_backed (λ _, Some "project") (λ _, Some "user") demo_sched_conf demo_filters
    ["VCPU"; "MEMORY_MB"; "DISK_GB"] 1000 1%Qc 512 [0] demo_specs scheduling_world ds schedule_run.2
    proposing_keys demo_hints (run_eq _ _ Hrun)) as Hall.
  apply Forall2_cons_inv_l in Hall as (d & ds' & (n & rp & _ & _ & Hb) & Hnil & ->).
  apply Forall2_nil_inv_l in Hnil as ->. exists d. split; [reflexivity|]. exists rp. exact Hb.
Defined.
