(* ===== verification/Quota.v ===== *)
(** * Quotas (src/zun/common/quota.py, src/zun/objects/quota.py, quota_class.py)

    The limit of a project on a resource is its own row in the table [quotas], or
    else the row of the default class in [quota_classes], or else an option of the
    configuration.  [limit_check] compares proposed totals with these limits; -1
    means no limit.  The tables and the queries on them are those of
    src/zun/db/sqlalchemy/api.py.

    What the rest of the database holds is the parameter [D], and the usage of a
    project is the query [count_usage] on it.  Floats are exact rationals. *)

From S2P Require Import Prelude Exceptions.

(** ** Numbers *)

Inductive number : Type :=
| NInt (z : Z)
| NFloat (q : Qc).

#[export] Instance number_eq_dec : EqDecision number.
Proof. solve_decision. Defined.

Definition num (n : number) : Qc := match n with NInt z => Qc_of_Z z | NFloat q => q end.

Definition absq (q : Qc) : Qc := if decide (0 ≤ q)%Qc then q else (- q)%Qc.
Definition maxq (p q : Qc) : Qc := if decide (q ≤ p)%Qc then p else q.

(** [utils.is_close], with its default tolerances *)
Definition rel_tol : Qc := (1 / Qc_of_Z 1000000)%Qc.
Definition is_close (x y : Qc) : bool :=
  bool_decide (absq (x - y) ≤ maxq (rel_tol * maxq (absq x) (absq y)) 0)%Qc.

Definition is_less_than (x y : number) : bool :=
  match x, y with
  | NInt x, NInt y => (x <? y)%Z
  | _, _ => if bool_decide (0 ≤ num x - num y)%Qc || is_close (num x) (num y) then false else true
  end.

(** ** The database *)

Record quota_row : Type := mkQuotaRow {
  project_id : string;
  resource : string;
  hard_limit : option Z
}.
Record class_row : Type := mkClassRow {
  class_name : string;
  class_resource : string;
  class_limit : option Z
}.

Record qdb (D : Type) : Type := mkQdb {
  quotas : list quota_row;
  quota_classes : list class_row;
  others : D
}.
Arguments mkQdb {D} _ _ _.
Arguments quotas {D} _.
Arguments quota_classes {D} _.
Arguments others {D} _.

(** consts.DEFAULT_QUOTA_CLASS_NAME *)
Definition DEFAULT_QUOTA_CLASS_NAME : string := "default".

Definition set_quotas {D} (l : list quota_row) (s : qdb D) : qdb D :=
  mkQdb l (quota_classes s) (others s).
Definition set_quota_classes {D} (l : list class_row) (s : qdb D) : qdb D :=
  mkQdb (quotas s) l (others s).

(** [CountableResource]: its name, the option with its default limit, and the
    column it counts. *)
Record CountableResource : Type := mkResource {
  name : string;
  flag : option string;
  counted : string
}.

(** The registered resources. *)
Definition resources : dict string CountableResource :=
  dict_of ((λ n, (n, mkResource n (Some n) n)) <$> ["containers"; "memory"; "disk"; "cpu"]).

Record quota_info : Type := mkInfo { limit : option Z; in_use : option number }.

Section Quotas.
Context {D : Type}.
(** The first column of the answer of [count_usage], [None] for null. *)
Context (count_usage : D → string → string → option number).
(** [CONF.quota] *)
Context (conf_quota : string → Z).
Abbreviation qm := (M exn (qdb D)).
Implicit Types s : qdb D.

(** *** Queries *)

Definition of_project (p : string) (q : quota_row) : Prop := project_id q = p.
Definition is_quota (p r : string) (q : quota_row) : bool :=
  String.eqb (project_id q) p && String.eqb (resource q) r.
Definition is_class (c r : string) (q : class_row) : bool :=
  String.eqb (class_name q) c && String.eqb (class_resource q) r.

(** The tables have no unique index, so [DBDuplicateEntry] is never raised. *)
Definition quota_create (p r : string) (l : option Z) : qm unit :=
  modify (λ s, set_quotas (quotas s ++ [mkQuotaRow p r l]) s).

Definition quota_get (p r : string) : qm quota_row :=
  let! s := get in
  of_option (head (filter (λ q, is_quota p r q = true) (quotas s))) (Zun ProjectQuotaNotFound).

(** The entry of the project's own name is left out: no resource is called so. *)
Definition quota_get_all_by_project (p : string) : qm (dict string (option Z)) :=
  let! s := get in
  ret (dict_of ((λ q, (resource q, hard_limit q)) <$>
    filter (λ q, String.eqb (project_id q) p = true) (quotas s))).

Definition quota_update (p r : string) (l : option Z) : qm unit :=
  let! s := get in
  raise_if (negb (existsb (is_quota p r) (quotas s))) (Zun ProjectQuotaNotFound);;;
  modify (λ s, set_quotas ((λ q, if is_quota p r q then mkQuotaRow p r l else q) <$> quotas s) s).

Definition quota_destroy_all_by_project (p : string) : qm unit :=
  modify (λ s, set_quotas (filter (λ q, String.eqb (project_id q) p = false) (quotas s)) s).

Definition quota_class_create (c r : string) (l : option Z) : qm unit :=
  modify (λ s, set_quota_classes (quota_classes s ++ [mkClassRow c r l]) s).

Definition quota_class_get (c r : string) : qm class_row :=
  let! s := get in
  of_option (head (filter (λ q, is_class c r q = true) (quota_classes s))) (Zun QuotaClassNotFound).

Definition quota_class_get_all_by_name (c : string) : qm (dict string (option Z)) :=
  let! s := get in
  ret (dict_of ((λ q, (class_resource q, class_limit q)) <$>
    filter (λ q, String.eqb (class_name q) c = true) (quota_classes s))).

Definition quota_class_get_default : qm (dict string (option Z)) :=
  quota_class_get_all_by_name DEFAULT_QUOTA_CLASS_NAME.

Definition quota_class_update (c r : string) (l : option Z) : qm unit :=
  let! s := get in
  raise_if (negb (existsb (is_class c r) (quota_classes s))) (Zun QuotaClassNotFound);;;
  modify (λ s, set_quota_classes
    ((λ q, if is_class c r q then mkClassRow c r l else q) <$> quota_classes s) s).

(** [QuotaClass.get_all] *)
Definition class_get_all (c : option string) : qm (dict string (option Z)) :=
  match c with None => quota_class_get_default | Some c => quota_class_get_all_by_name c end.

(** *** Counting *)

(** [Container.get_count]: a count of zero is the float zero too. *)
Definition get_count (p f : string) : qm number :=
  let! s := get in
  ret (match count_usage (others s) p f with
       | Some n => if decide (num n = 0%Qc) then NFloat 0 else n
       | None => NFloat 0
       end).

(** [round(x, 3)] of a float; an integer stays one. *)
Context (round3 : Qc → Qc).

Definition count (r : CountableResource) (p : string) : qm number :=
  let! n := get_count p (counted r) in
  ret (if String.eqb (counted r) "cpu"
       then match n with NFloat q => NFloat (round3 q) | NInt z => NInt z end else n).

(** [BaseResource.default] *)
Definition default_limit (r : CountableResource) : Z :=
  match flag r with Some f => if String.eqb f "" then (-1)%Z else conf_quota f | None => (-1)%Z end.

(** *** [DbQuotaDriver] *)

Definition get_defaults (rs : dict string CountableResource) : qm (dict string (option Z)) :=
  let! default_quotas := class_get_all None in
  ret (dict_of ((λ r, (name r, default (Some (default_limit r)) (dget default_quotas (name r))))
                  <$> dvalues rs)).

Definition get_class_quotas (rs : dict string CountableResource) (quota_class : string)
    (defaults : bool) : qm (dict string (option Z)) :=
  let! class_quotas := class_get_all (Some quota_class) in
  ret (dict_of ((λ r, (name r, default (Some (default_limit r)) (dget class_quotas (name r)))) <$>
    filter (λ r, defaults || dhas class_quotas (name r) = true) (dvalues rs))).

Definition _process_quotas (rs : dict string CountableResource) (own : dict string (option Z))
    (quota_class : option string) (defaults : bool) (usages : dict string number)
    : qm (dict string quota_info) :=
  let! class_quotas :=
    (if ostr_true quota_class then class_get_all quota_class else ret []) in
  let! default_quotas := get_defaults rs in
  let! entries := map_m (λ r,
    let! d := of_option (dget default_quotas (name r)) (Py KeyError) in
    let l := default (default d (dget class_quotas (name r))) (dget own (name r)) in
    ret (name r, mkInfo l (if decide (usages = []) then None
                           else Some (default (NInt 0) (dget usages (name r))))))
    (filter (λ r, defaults || dhas own (name r) = true) (dvalues rs)) in
  ret (dict_of entries).

Definition get_project_quotas (rs : dict string CountableResource) (p : string)
    (quota_class : option string) (defaults usages : bool)
    (project_quotas : option (dict string (option Z))) : qm (dict string quota_info) :=
  let! own := match project_quotas with Some d => ret d | None => quota_get_all_by_project p end in
  let! used := (if usages then map_m (λ r, let! n := count r p in ret (name r, n)) (dvalues rs)
                else ret []) in
  _process_quotas rs own quota_class defaults (dict_of used).

Definition _get_quotas (rs : dict string CountableResource) (keys : list string) (p : string)
    (project_quotas : option (dict string (option Z))) : qm (dict string (option Z)) :=
  let sub := filter (λ kr, kr.1 ∈ keys) rs in
  let! qs := get_project_quotas sub p None true false project_quotas in
  ret ((λ kv, (kv.1, limit kv.2)) <$> qs).

(** Whether a value is over its limit; a null limit cannot be compared. *)
Definition over (qs : dict string (option Z)) (key : string) (val : number) : qm bool :=
  let! q := of_option (dget qs key) (Py KeyError) in
  let! q := of_option q (Py TypeError) in
  ret ((0 <=? q)%Z && is_less_than (NInt q) val).

(** The limits that [OverQuota] reports. *)
Definition headroom (qs own : dict string (option Z)) (key : string) : qm Z :=
  match omap Datatypes.id (option_list (dget qs key) ++ option_list (dget own key)) with
  | [] => raise (Py ValueError)
  | z :: zs => ret (foldl Z.min z zs)
  end.

Definition limit_check (rs : dict string CountableResource) (values : dict string number)
    (p : string) : qm unit :=
  for_each (λ k, raise_if (negb (dhas rs k)) (Zun InvalidQuotaMethodUsage)) (dkeys values);;;
  raise_if (existsb (λ kv, bool_decide (num kv.2 < 0)%Qc) values) (Zun InvalidQuotaValue);;;
  let! project_quotas := quota_get_all_by_project p in
  let! qs := _get_quotas rs (dkeys values) p (Some project_quotas) in
  let! marks := map_m (λ kv, over qs kv.1 kv.2) values in
  let overs := (zip (dkeys values) marks) ≫= (λ km, if km.2 : bool then [km.1] else []) in
  match overs with
  | [] => ret tt
  | _ => let! _h := map_m (headroom qs project_quotas) overs in raise (Zun OverQuota)
  end.
End Quotas.

(** ** What [limit_check] decides *)

(** The registered resources are filed under their names. *)
Definition registered (rs : dict string CountableResource) : Prop :=
  NoDup (dkeys rs) ∧ ∀ k r, (k, r) ∈ rs → name r = k.

Lemma resources_registered : registered resources.
Proof.
  split; [apply NoDup_dict_of|].
  assert (Forall (λ kr, name kr.2 = kr.1) resources) as Hall by (vm_compute; repeat constructor).
  intros k r Hin. rewrite Forall_forall in Hall. exact (Hall _ Hin).
Qed.

Section Checks.
Context {D : Type} (count_usage : D → string → string → option number) (conf_quota : string → Z)
  (round3 : Qc → Qc).
Implicit Types (s : qdb D) (rs : dict string CountableResource).

(** The rows that decide: the last of the project, the last of the default class. *)
Definition project_limit s p k : option (option Z) :=
  hard_limit <$> last (filter (λ q, is_quota p k q = true) (quotas s)).
Definition default_class_limit s k : option (option Z) :=
  class_limit <$> last (filter (λ q, is_class DEFAULT_QUOTA_CLASS_NAME k q = true) (quota_classes s)).

(** The limit in force; [None] is a null limit. *)
Definition effective rs s p k : option Z :=
  match project_limit s p k with
  | Some l => l
  | None => match default_class_limit s k with
            | Some l => l
            | None => default_limit conf_quota <$> dget rs k
            end
  end.

Definition within (l : option Z) (v : number) : bool :=
  match l with Some z => (z <? 0)%Z || negb (is_less_than (NInt z) v) | None => false end.

Definition own_quotas s p : dict string (option Z) :=
  dict_of ((λ q, (resource q, hard_limit q)) <$>
    filter (λ q, String.eqb (project_id q) p = true) (quotas s)).
Definition default_class s : dict string (option Z) :=
  dict_of ((λ q, (class_resource q, class_limit q)) <$>
    filter (λ q, String.eqb (class_name q) DEFAULT_QUOTA_CLASS_NAME = true) (quota_classes s)).

Lemma filter_fmap {X Y} (f : X → Y) (Q : Y → Prop) `{∀ y, Decision (Q y)} (l : list X) :
  filter Q (f <$> l) = f <$> filter (λ x, Q (f x)) l.
Proof.
  induction l as [|x l IH]; [done|]. rewrite fmap_cons, !filter_cons.
  case_decide; [by rewrite fmap_cons, IH|exact IH].
Qed.

Lemma filter_true {X} (Q : X → Prop) `{∀ x, Decision (Q x)} (l : list X) : (∀ x, Q x) → filter Q l = l.
Proof. intros HQ. induction l as [|x l IH]; [done|]. by rewrite filter_cons_True, IH. Qed.

Lemma own_quotas_get s p k : dget (own_quotas s p) k = project_limit s p k.
Proof.
  unfold own_quotas, project_limit. rewrite dget_dict_of, filter_fmap, fmap_last.
  rewrite <- option_fmap_compose. f_equal. rewrite list_filter_filter. f_equal.
  apply list_filter_iff. intros q. unfold is_quota. cbn.
  rewrite andb_true_iff, !String.eqb_eq. tauto.
Qed.

Lemma default_class_get s k : dget (default_class s) k = default_class_limit s k.
Proof.
  unfold default_class, default_class_limit. rewrite dget_dict_of, filter_fmap, fmap_last.
  rewrite <- option_fmap_compose. f_equal. rewrite list_filter_filter. f_equal.
  apply list_filter_iff. intros q. unfold is_class. cbn.
  rewrite andb_true_iff, !String.eqb_eq. tauto.
Qed.

(** *** Reading the limits *)

(** A dictionary built from the resources, one entry for each. *)
Lemma by_name {A} (g : CountableResource → A) rs :
  registered rs →
  let d := dict_of ((λ r, (name r, g r)) <$> dvalues rs) in
  dkeys d = dkeys rs ∧ ∀ k, dget d k = g <$> dget rs k.
Proof.
  intros [Hnd Hname]. assert ((λ r, (name r, g r)) <$> dvalues rs = (λ kr, (kr.1, g kr.2)) <$> rs) as ->.
  { unfold dvalues. rewrite <- list_fmap_compose. apply list_fmap_ext. intros i [k r] Hkr. cbn.
    apply list_elem_of_lookup_2, Hname in Hkr. by rewrite Hkr. }
  assert (dkeys ((λ kr, (kr.1, g kr.2)) <$> rs) = dkeys rs) as Hk
    by (unfold dkeys; by rewrite <- list_fmap_compose).
  cbv zeta. rewrite dict_of_NoDup by by rewrite Hk. split; [exact Hk|apply dget_fmap].
Qed.

Lemma registered_sub rs (keys : list string) : registered rs → registered (filter (λ kr, kr.1 ∈ keys) rs).
Proof.
  intros [Hnd Hname]. split; [by apply dkeys_filter_NoDup|].
  intros k r [_ Hin]%list_elem_of_filter. by apply Hname.
Qed.

(** The quotas of a project, without its usages, are the limits in force. *)
Lemma project_quotas_run rs s p own :
  registered rs → own = None ∨ own = Some (own_quotas s p) →
  get_project_quotas count_usage conf_quota round3 rs p None true false own s =
  (Ok (dict_of ((λ r, (name r, mkInfo (effective rs s p (name r)) None)) <$> dvalues rs)), s).
Proof.
  intros Hrs Hown. unfold get_project_quotas.
  assert (match own with Some d => ret d | None => quota_get_all_by_project p end s
    = (Ok (own_quotas s p), s)) as Ho by by destruct Hown as [->| ->].
  step Ho. steps. unfold _process_quotas, get_defaults. cbn [ostr_true]. steps.
  unfold class_get_all, quota_class_get_default, quota_class_get_all_by_name. steps.
  fold (default_class s). set (defs := dict_of _).
  destruct (by_name (λ r, default (Some (default_limit conf_quota r)) (dget (default_class s) (name r))) rs Hrs)
    as [_ Hdefs]. fold defs in Hdefs. rewrite filter_true by done.
  erewrite (bind_eq _ _ _ _ s); [reflexivity|].
  apply (map_m_pure _ (λ r, (name r, mkInfo (effective rs s p (name r)) None))). intros r Hr.
  unfold dvalues in Hr. apply list_elem_of_fmap in Hr as ([k r'] & -> & Hin). cbn [snd].
  assert (name r' = k) as -> by (destruct Hrs as [_ Hname]; exact (Hname k r' Hin)).
  assert (dget rs k = Some r') as Hk by by apply dget_In; [apply Hrs|].
  rewrite Hdefs, Hk. cbn [fmap option_fmap option_map of_option]. steps.
  assert (name r' = k) as -> by (destruct Hrs as [_ Hname]; exact (Hname k r' Hin)).
  rewrite own_quotas_get, default_class_get. cbn. unfold effective. rewrite Hk.
  destruct (project_limit s p k); [done|]. by destruct (default_class_limit s k).
Qed.

Lemma limits_run rs keys s p :
  registered rs →
  ∃ d, _get_quotas count_usage conf_quota round3 rs keys p (Some (own_quotas s p)) s = (Ok d, s) ∧
    ∀ k, k ∈ keys → is_Some (dget rs k) → dget d k = Some (effective rs s p k).
Proof.
  intros Hrs. unfold _get_quotas. set (sub := filter _ rs).
  pose proof (registered_sub rs keys Hrs) as Hsub. fold sub in Hsub.
  step (project_quotas_run sub s p (Some (own_quotas s p)) Hsub (or_intror eq_refl)).
  eexists. split; [reflexivity|]. intros k Hk [r Hr]. rewrite dget_fmap.
  destruct (by_name (λ r, mkInfo (effective sub s p (name r)) None) sub Hsub) as [_ ->].
  assert (dget sub k = Some r) as Hd by by apply dget_filter_In.
  rewrite Hd. cbn. unfold effective. 
  assert (name r = k) as -> by (destruct Hrs as [_ Hname]; apply Hname, dget_Some_In, Hr).
  by rewrite Hd, Hr.
Qed.

(** *** The decision *)

Lemma over_run d k v s :
  over d k v s = (match dget d k with
                  | Some (Some q) => Ok ((0 <=? q)%Z && is_less_than (NInt q) v)
                  | Some None => Raise (Py TypeError)
                  | None => Raise (Py KeyError)
                  end, s).
Proof. unfold over. by destruct (dget d k) as [[q|]|]. Qed.

Definition negative (kv : string * number) : bool := bool_decide (num kv.2 < 0)%Qc.

Lemma headrooms_run d own ks s :
  (∀ k, k ∈ ks → ∃ q, dget d k = Some (Some q)) → ∃ zs, map_m (headroom d own) ks s = (Ok zs, s).
Proof.
  induction ks as [|k ks IH]; intros Hks; [by exists []|].
  destruct (Hks k ltac:(by left)) as [q Hq]. destruct IH as [zs Hzs]; [intros x Hx; apply Hks; by right|].
  cbn [map_m]. unfold headroom at 1. rewrite Hq. cbn. steps. unfold bind. rewrite Hzs. by eexists.
Qed.

#[local] Arguments is_less_than : simpl never.

(** Which values are marked. *)
Lemma marks_spec (lim : string → option Z) values marks :
  mapM (λ kv, (λ q, (0 <=? q)%Z && is_less_than (NInt q) kv.2) <$> lim kv.1) values = Some marks →
  let overs := (zip (dkeys values) marks) ≫= (λ km, if km.2 : bool then [km.1] else []) in
  (overs = [] ↔ forallb (λ kv, within (lim kv.1) kv.2) values = true) ∧
  ∀ k, k ∈ overs → ∃ v, (k, v) ∈ values.
Proof.
  intros Hm%mapM_Some. cbv zeta. induction Hm as [|[k v] m values marks Hkv _ IH]; [by split; [|set_solver]|].
  cbn in Hkv. destruct (lim k) as [q|] eqn:Hq; [|done]. injection Hkv as <-. destruct IH as [IH1 IH2].
  cbn. rewrite Hq. cbn. rewrite Z.leb_antisym.
  destruct (q <? 0)%Z; cbn.
  - split; [exact IH1|]. intros x [w Hw]%IH2. exists w. by right.
  - destruct (is_less_than (NInt q) v); cbn.
    + split; [by split|]. intros x [->|Hx]%elem_of_cons; [exists v; by left|].
      destruct (IH2 x Hx) as [w Hw]. exists w. by right.
    + split; [exact IH1|]. intros x [w Hw]%IH2. exists w. by right.
Qed.

Lemma limit_check_run rs values p s :
  registered rs →
  limit_check count_usage conf_quota round3 rs values p s =
  (if existsb (λ k, negb (dhas rs k)) (dkeys values) then Raise (Zun InvalidQuotaMethodUsage) else
   if existsb negative values then Raise (Zun InvalidQuotaValue) else
   if existsb (λ kv, bool_decide (effective rs s p kv.1 = None)) values then Raise (Py TypeError) else
   if forallb (λ kv, within (effective rs s p kv.1) kv.2) values then Ok tt
   else Raise (Zun OverQuota), s).
Proof.
  intros Hrs. unfold limit_check. unfold bind at 1. rewrite for_each_raise_if.
  destruct (existsb _ (dkeys values)) eqn:Hknown; [done|]. unfold raise_if. fold negative.
  destruct (existsb negative values); [done|]. rewrite bind_ret.
  unfold quota_get_all_by_project. steps. fold (own_quotas s p).
  destruct (limits_run rs (dkeys values) s p Hrs) as (d & Hd & Hlim). step Hd.
  assert (∀ kv, kv ∈ values → dget d kv.1 = Some (effective rs s p kv.1)) as Hkv.
  { intros [k v] Hin. apply (list_elem_of_fmap_2 fst) in Hin. apply Hlim; [exact Hin|].
    rewrite existsb_false_iff in Hknown. specialize (Hknown k Hin). cbn in Hknown.
    apply negb_false_iff, dhas_true in Hknown. by apply dget_Some_keys. }
  set (mark := λ kv, (λ q, (0 <=? q)%Z && is_less_than (NInt q) kv.2) <$> effective rs s p kv.1).
  assert (map_m (λ kv, over d kv.1 kv.2) values s =
    (match mapM mark values with Some ys => Ok ys | None => Raise (Py TypeError) end, s)) as Hmarks.
  { apply map_m_option. intros kv Hin. rewrite over_run, Hkv by done. unfold mark.
    by destruct (effective rs s p kv.1). }
  destruct (mapM mark values) as [marks|] eqn:Hm; step Hmarks.
  - assert (existsb (λ kv, bool_decide (effective rs s p kv.1 = None)) values = false) as ->.
    { apply existsb_false_iff. intros kv Hin. apply bool_decide_eq_false. intros Hnone.
      apply mapM_Some_1 in Hm. apply list_elem_of_lookup in Hin as [i Hi].
      destruct (Forall2_lookup_l _ _ _ _ _ Hm Hi) as (b & _ & Hb). unfold mark in Hb. by rewrite Hnone in Hb. }
    destruct (marks_spec (effective rs s p) values marks Hm) as [Hnil Hin].
    destruct (zip _ _ ≫= _) as [|k ks] eqn:Hovers.
    + by rewrite (proj1 Hnil eq_refl).
    + destruct (forallb _ values); [by destruct Hnil as [_ Hn]; specialize (Hn eq_refl)|].
      destruct (headrooms_run d (own_quotas s p) (k :: ks) s) as [zs Hzs].
      { intros x [v Hv]%Hin. specialize (Hkv _ Hv). cbn in Hkv. rewrite Hkv.
        apply mapM_Some_1 in Hm. apply list_elem_of_lookup in Hv as [i Hi].
        destruct (Forall2_lookup_l _ _ _ _ _ Hm Hi) as (b & _ & Hb). unfold mark in Hb. cbn in Hb.
        destruct (effective rs s p x) as [q|]; [by exists q|done]. }
      by step Hzs.
  - assert (existsb (λ kv, bool_decide (effective rs s p kv.1 = None)) values = true) as ->; [|done].
    apply dec_stable. intros Hno%not_true_is_false. rewrite existsb_false_iff in Hno.
    apply eq_None_not_Some in Hm. apply Hm, mapM_is_Some, Forall_forall.
    intros kv Hin. specialize (Hno kv Hin). apply bool_decide_eq_false in Hno. cbn. unfold mark.
    destruct (effective rs s p kv.1); [by eexists|done].
Qed.

(** *** What is let through *)

Lemma absq_spec q : (q ≤ absq q)%Qc ∧ (- q ≤ absq q)%Qc.
Proof.
  unfold absq. destruct (decide (0 ≤ q)%Qc) as [Hq|Hq%Qclt_nge]; split; try apply Qcle_refl.
  - apply Qcle_trans with 0%Qc; [|done]. rewrite <- (Qcopp_involutive 0). by apply Qcopp_le_compat.
  - apply Qcle_trans with 0%Qc; [by apply Qclt_le_weak|]. rewrite <- (Qcopp_involutive 0).
    by apply Qcopp_le_compat, Qclt_le_weak.
Qed.

Lemma absq_nonneg q : (0 ≤ q)%Qc → absq q = q.
Proof. intros Hq. unfold absq. by rewrite decide_True. Qed.

Lemma is_less_than_bound z v :
  (0 ≤ z)%Z → (0 ≤ num v)%Qc → is_less_than (NInt z) v = false →
  match v with
  | NInt n => (n ≤ z)%Z
  | NFloat q => (q - Qc_of_Z z ≤ rel_tol * q)%Qc
  end.
Proof.
  intros Hz Hv. destruct v as [n|q]; unfold is_less_than; [rewrite Z.ltb_ge; lia|]. cbn [num] in *.
  assert (0 ≤ rel_tol * q)%Qc as Htol by (apply Qcmult_nonneg_nonneg; [done|exact Hv]).
  destruct (decide (0 ≤ Qc_of_Z z - q)%Qc) as [Hle|Hgt].
  - intros _. apply Qcle_trans with 0%Qc; [|exact Htol].
    rewrite (Qcplus_le_mono_r _ _ (Qc_of_Z z - q)). 
    assert (q - Qc_of_Z z + (Qc_of_Z z - q) = 0)%Qc as -> by ring. by rewrite Qcplus_0_l.
  - rewrite bool_decide_eq_false_2 by done. cbn [orb]. destruct (is_close _ _) eqn:Hclose; [|done].
    intros _. unfold is_close in Hclose. apply bool_decide_eq_true in Hclose.
    assert (0 ≤ Qc_of_Z z)%Qc as HZ by exact (proj1 (Z2Qc_inj_le 0 z) Hz).
    assert (Qc_of_Z z < q)%Qc as Hzq.
    { apply Qclt_nge. intros Hle. apply Hgt.
      rewrite (Qcplus_le_mono_r _ _ q). rewrite Qcplus_0_l.
      by assert (Qc_of_Z z - q + q = Qc_of_Z z)%Qc as -> by ring. }
    rewrite (absq_nonneg (Qc_of_Z z)), (absq_nonneg q) in Hclose by done. unfold maxq in Hclose.
    rewrite (decide_False (P:=(q ≤ Qc_of_Z z)%Qc)) in Hclose by by apply Qclt_nge.
    rewrite decide_True in Hclose by done.
    apply Qcle_trans with (absq (Qc_of_Z z - q)); [|exact Hclose].
    assert (q - Qc_of_Z z = - (Qc_of_Z z - q))%Qc as -> by ring. apply absq_spec.
Qed.

(** [limit_check] reads the database only, and its outcome is decided in this
    order: a name that is not registered, a negative value, a limit that is null
    (which it cannot compare), a value over the limit in force.  The limit in
    force is that of the project, else that of the default class, else that of
    the configuration; a negative one allows anything. *)
Theorem limit_check_spec rs values p s :
  registered rs →
  limit_check count_usage conf_quota round3 rs values p s =
  (if existsb (λ k, negb (dhas rs k)) (dkeys values) then Raise (Zun InvalidQuotaMethodUsage) else
   if existsb negative values then Raise (Zun InvalidQuotaValue) else
   if existsb (λ kv, bool_decide (effective rs s p kv.1 = None)) values then Raise (Py TypeError) else
   if forallb (λ kv, within (effective rs s p kv.1) kv.2) values then Ok tt
   else Raise (Zun OverQuota), s).
Proof. exact (limit_check_run rs values p s). Qed.
(** What the check lets through stays within the limit in force: a count
    never exceeds a limit that is not negative, and a real amount exceeds it by
    no more than a millionth of itself; no accepted value is negative. *)
Theorem limit_check_bounds rs values p s s' k v z :
  registered rs →
  limit_check count_usage conf_quota round3 rs values p s = (Ok tt, s') →
  (k, v) ∈ values → effective rs s p k = Some z →
  (0 ≤ num v)%Qc ∧
  ((0 ≤ z)%Z → match v with
               | NInt n => (n ≤ z)%Z
               | NFloat q => (q - Qc_of_Z z ≤ rel_tol * q)%Qc
               end).
Proof.
  intros Hrs Hrun Hin Hz. rewrite limit_check_run in Hrun by done.
  destruct (existsb _ (dkeys values)); [done|]. destruct (existsb negative values) eqn:Hneg; [done|].
  destruct (existsb (λ kv, bool_decide (effective rs s p kv.1 = None)) values); [done|]. destruct (forallb _ values) eqn:Hall; [|done].
  rewrite existsb_false_iff in Hneg. specialize (Hneg _ Hin). apply bool_decide_eq_false in Hneg.
  assert (0 ≤ num v)%Qc as Hv by by apply Qcle_ngt.
  split; [exact Hv|]. intros Hz0. rewrite forallb_elem in Hall. specialize (Hall _ Hin). cbn in Hall.
  rewrite Hz in Hall. cbn in Hall. apply is_less_than_bound; [done..|].
  apply orb_true_iff in Hall as [?%Z.ltb_lt|?%negb_true_iff]; [lia|done].
Qed.
End Checks.

(** ** Witnesses *)

Section Witnesses.
#[local] Definition wstate : qdb unit :=
  mkQdb [mkQuotaRow "p" "containers" (Some 9%Z); mkQuotaRow "p" "containers" (Some 3%Z);
         mkQuotaRow "q" "memory" (Some 1%Z)]
        [mkClassRow "default" "cpu" (Some 2%Z); mkClassRow "gold" "cpu" (Some 50%Z)] tt.
#[local] Definition wcount : unit → string → string → option number := λ _ _ _, None.
#[local] Definition wconf : string → Z := λ f, if String.eqb f "memory" then 512%Z else (-1)%Z.
#[local] Definition wround : Qc → Qc := λ q, q.
#[local] Definition wasked : dict string number :=
  [("containers", NInt 3); ("cpu", NFloat (Qc_of_Z 20000001 / Qc_of_Z 10000000)%Qc); ("memory", NInt 512); ("disk", NInt 99)].

(** The limits come from the project, the default class, the configuration and
    nowhere; a fourth container is over the limit, a fraction of a millionth of a
    CPU is not. *)
Lemma limit_check_spec_witness :
  registered resources ∧
  limit_check wcount wconf wround resources wasked "p" wstate = (Ok tt, wstate) ∧
  limit_check wcount wconf wround resources [("containers", NInt 4)] "p" wstate = (Raise (Zun OverQuota), wstate).
Proof.
  split; [exact resources_registered|]. split.
  - rewrite (limit_check_spec wcount wconf wround resources wasked "p" wstate resources_registered).
    by vm_compute.
  - rewrite (limit_check_spec wcount wconf wround resources _ "p" wstate resources_registered).
    by vm_compute.
Defined.

Lemma limit_check_bounds_witness : (3 ≤ 3)%Z.
Proof.
  apply (limit_check_bounds wcount wconf wround resources wasked "p" wstate wstate "containers" (NInt 3) 3
    resources_registered); [by vm_compute|by left|by vm_compute|done].
Defined.
End Witnesses.
