(* ===== verification/QuotaApi.v ===== *)
(** * Quota drivers, the quota engine and the quota controllers
    (src/zun/common/quota.py, src/zun/api/controllers/v1/quotas.py, quota_classes.py)

    The engine forwards to the driver that the configuration names; the class
    [QuotaDriver] is what it expects of one, [DbQuotaDriver] and
    [NoopQuotaDriver] are the two there are.  The controllers of the two quota
    resources are modelled with their schema and their policy check, whose
    outcome is the parameter [enforced]. *)

From Stdlib Require Import Ascii.
From S2P Require Import Prelude Exceptions PyStr Quota.

(** ** Drivers *)

(** What [get_by_project] and [get_by_class] answer: an object or a number. *)
Inductive quota_value : Type :=
| AQuota (q : quota_row)
| AQuotaClass (q : class_row)
| ALimit (z : Z).

Class QuotaDriver (D : Type) : Type := {
  get_by_project : string → string → M exn (qdb D) quota_value;
  get_by_class : string → string → M exn (qdb D) quota_value;
  get_defaults : dict string CountableResource → M exn (qdb D) (dict string (option Z));
  get_class_quotas : dict string CountableResource → string → bool →
    M exn (qdb D) (dict string (option Z));
  get_project_quotas : dict string CountableResource → string → option string → bool → bool →
    M exn (qdb D) (dict string quota_info);
  limit_check : dict string CountableResource → dict string number → string →
    M exn (qdb D) unit;
  destroy_all_by_project : string → M exn (qdb D) unit
}.

Section Drivers.
Context {D : Type}.
Abbreviation qm := (M exn (qdb D)).

Definition DbQuotaDriver (count_usage : D → string → string → option number)
    (conf_quota : string → Z) (round3 : Qc → Qc) : QuotaDriver D := {|
  get_by_project p r := let! q := quota_get p r in ret (AQuota q);
  get_by_class c r := let! q := quota_class_get c r in ret (AQuotaClass q);
  get_defaults rs := Quota.get_defaults conf_quota rs;
  get_class_quotas rs c defaults := Quota.get_class_quotas conf_quota rs c defaults;
  get_project_quotas rs p c defaults usages :=
    Quota.get_project_quotas count_usage conf_quota round3 rs p c defaults usages None;
  limit_check rs values p := Quota.limit_check count_usage conf_quota round3 rs values p;
  destroy_all_by_project p := quota_destroy_all_by_project p
|}.

(** The limit -1 for every resource, whatever is asked. *)
Definition unlimited (rs : dict string CountableResource) : dict string (option Z) :=
  dict_of ((λ r, (name r, Some (-1)%Z)) <$> dvalues rs).

Definition NoopQuotaDriver : QuotaDriver D := {|
  get_by_project _ _ := ret (ALimit (-1));
  get_by_class _ _ := ret (ALimit (-1));
  get_defaults rs := ret (unlimited rs);
  get_class_quotas rs _ _ := ret (unlimited rs);
  get_project_quotas rs _ _ _ usages := ret (dict_of ((λ r,
    (name r, mkInfo (Some (-1)%Z) (if usages then Some (NInt (-1)) else None))) <$> dvalues rs));
  limit_check _ _ _ := ret tt;
  destroy_all_by_project _ := ret tt
|}.

(** [BaseResource.quota]; [project_id] is the argument, or that of the context. *)
Definition quota {H : QuotaDriver D} (conf_quota : string → Z) (r : CountableResource)
    (project_id : option string) (quota_class : option string) : qm quota_value :=
  let missing c (next : qm quota_value) (found : qm quota_value) :=
    try_except found (λ e, if isinstance e c then Some next else None) in
  let last := ret (ALimit (default_limit conf_quota r)) in
  let class := match quota_class with
    | Some c => if str_true c then missing QuotaClassNotFound last (get_by_class c (name r)) else last
    | None => last
    end in
  match project_id with
  | Some p => if str_true p then missing ProjectQuotaNotFound class (get_by_project p (name r)) else class
  | None => class
  end.
End Drivers.

(** A driver whose checks only read. *)
Class ChecksRead {D : Type} (H : QuotaDriver D) : Prop :=
  limit_check_reads rs values p : keeps eq (QuotaApi.limit_check (QuotaDriver:=H) rs values p).

#[export] Instance db_checks_read {D} (count_usage : D → string → string → option number)
  (conf_quota : string → Z) (round3 : Qc → Qc) : ChecksRead (DbQuotaDriver count_usage conf_quota round3).
Proof.
  intros rs values p. cbn. unfold Quota.limit_check, _get_quotas, Quota.get_project_quotas, _process_quotas,
    quota_get_all_by_project, Quota.get_defaults, class_get_all, quota_class_get_default,
    quota_class_get_all_by_name, over, headroom. look.
Qed.

#[export] Instance noop_checks_read {D} : ChecksRead (D:=D) NoopQuotaDriver.
Proof. intros rs values p. cbn. keep_rel. Qed.

(** [QuotaEngine]: every method forwards to the driver with the registered
    resources. *)
Module Engine.
Definition register_resource (rs : dict string CountableResource) (r : CountableResource)
    : dict string CountableResource := dset rs (name r) r.

Definition register_resources (rs : dict string CountableResource) (l : list CountableResource)
    : dict string CountableResource := foldl register_resource rs l.

(** [count] of a name; [QuotaResourceUnknown] for one that is not registered. *)
Definition count {D} (count_usage : D → string → string → option number) (round3 : Qc → Qc)
    (rs : dict string CountableResource) (resource p : string) : M exn (qdb D) number :=
  match dget rs resource with
  | Some r => Quota.count count_usage round3 r p
  | None => raise (Zun QuotaResourceUnknown)
  end.
End Engine.

(** ** Controllers *)

(** A value of the request: a JSON integer or string. *)
Inductive quota_arg : Type :=
| ArgInt (z : Z)
| ArgStr (s : string).

(** What the controller of a project's quotas answers. *)
Inductive listing : Type :=
| Infos (d : dict string quota_info)
| Limits (d : dict string (option Z)).

Definition is_digit (c : ascii) : bool := ((48 <=? code_of c) && (code_of c <=? 57))%Z.

(** ^-?[0-9]+$, where the dollar also matches before a final newline *)
Definition quota_pattern (s : string) : bool :=
  let l := explode s in
  let l := match l with c :: l' => if decide (c = "-"%char) then l' else l | [] => l end in
  let l := match last l with
           | Some c => if decide (code_of c = 10%Z) then removelast l else l
           | None => l
           end in
  negb (bool_decide (l = [])) && forallb is_digit l.

(** [int(value)] *)
Definition int_arg (a : quota_arg) : option Z :=
  match a with ArgInt z => Some z | ArgStr s => int_of 10 s end.

(** The schema of a limit: type, pattern and minimum, which also reads strings. *)
Definition common_quota (a : quota_arg) : bool :=
  match a with ArgInt _ => true | ArgStr s => quota_pattern s end &&
  match int_arg a with Some z => (-1 <=? z)%Z | None => true end.

Definition query_param_update (d : dict string quota_arg) : bool :=
  forallb (λ kv, bool_decide (kv.1 ∈ ["containers"; "memory"; "cpu"; "disk"]) && common_quota kv.2) d.

Section Controllers.
Context {D : Type} {H : QuotaDriver D}.
(** Whether the caller may do an action on a project. *)
Context (enforced : string → option string → bool).
Abbreviation qm := (M exn (qdb D)).

(** [policy.enforce] *)
Definition enforce (action : string) (target : option string) : qm unit :=
  raise_if (negb (enforced action target)) (Zun PolicyNotAuthorized).

(** [validated], for the schema of the quotas.  The first decorator, the same
    schema on the query string alone, is left out: pecan passes the query string
    among the arguments. *)
Definition validated {A} (d : dict string quota_arg) (func : qm A) : qm A :=
  raise_if (negb (query_param_update d)) (Zun SchemaValidationError);;; func.

Definition int_value (a : quota_arg) : qm Z := of_option (int_arg a) (Py ValueError).

(** [QuotaController] *)
Definition _get_quotas (p : string) (usages : bool) : qm listing :=
  let! values := get_project_quotas resources p None true usages in
  ret (if usages then Infos values else Limits ((λ kv, (kv.1, limit kv.2)) <$> values)).

Definition put_one (p : string) (kv : string * quota_arg) : qm unit :=
  let! value := int_value kv.2 in
  try_except (quota_create p kv.1 (Some value))
    (λ e, if isinstance e QuotaAlreadyExists then Some (quota_update p kv.1 (Some value)) else None).

Definition quotas_put (p : string) (quotas_dict : dict string quota_arg)
    : qdb D → response listing * qdb D :=
  wrap_controller_exception (validated quotas_dict (
    enforce "quota:update" (Some p);;;
    for_each (put_one p) quotas_dict;;;
    _get_quotas p false)).

(** The query's [usages] is a string: any text but the empty one asks for them. *)
Definition quotas_get (p : string) (usages : option string)
    : qdb D → response listing * qdb D :=
  wrap_controller_exception (
    enforce "quota:get" (Some p);;;
    _get_quotas p (ostr_true usages)).

Definition quotas_defaults (p : string) : qdb D → response (dict string (option Z)) * qdb D :=
  wrap_controller_exception (
    enforce "quota:get_default" (Some p);;;
    get_defaults resources).

Definition quotas_delete (p : string) : qdb D → response unit * qdb D :=
  wrap_controller_exception (
    enforce "quota:delete" (Some p);;;
    destroy_all_by_project p).

(** [QuotaClassController] *)
Definition put_class_one (c : string) (kv : string * quota_arg) : qm unit :=
  let! value := int_value kv.2 in
  try_except (quota_class_update c kv.1 (Some value))
    (λ e, if isinstance e QuotaClassNotFound then Some (quota_class_create c kv.1 (Some value)) else None).

Definition quota_classes_put (c : string) (quota_classes_dict : dict string quota_arg)
    : qdb D → response (dict string (option Z)) * qdb D :=
  wrap_controller_exception (validated quota_classes_dict (
    enforce "quota_class:update" None;;;
    for_each (put_class_one c) quota_classes_dict;;;
    get_class_quotas resources c true)).

Definition quota_classes_get (c : string) : qdb D → response (dict string (option Z)) * qdb D :=
  wrap_controller_exception (
    enforce "quota_class:get" None;;;
    get_class_quotas resources c true).
End Controllers.

(** ** Properties *)

(** *** Reading the request *)

Lemma digit_solid c : is_digit c = true →
  is_space c = false ∧ c ≠ "-"%char ∧ c ≠ "+"%char ∧ c ≠ "x"%char ∧ c ≠ "X"%char ∧
  is_Some (digit_in 10 c).
Proof.
  intros Hc. destruct c as [[] [] [] [] [] [] [] []]; vm_compute in Hc; try done;
    (split_and!; [by vm_compute|done..|by eexists]).
Qed.

Lemma more_digits_some acc l : forallb is_digit l = true → is_Some (more_digits 10 acc l).
Proof.
  revert acc. induction l as [|c l IH]; intros acc Hl; [by eexists|].
  apply andb_true_iff in Hl as [Hc Hl]. cbn.
  destruct (digit_solid c Hc) as (_ & _ & _ & _ & _ & d & ->). by apply IH.
Qed.

Lemma magnitude_some l : l ≠ [] → forallb is_digit l = true → is_Some (magnitude 10 l).
Proof.
  intros Hne Hl. assert (is_Some (digits 10 l)) as Hd.
  { destruct l as [|c l]; [done|]. apply andb_true_iff in Hl as [Hc Hl].
    destruct (digit_solid c Hc) as (_ & _ & _ & _ & _ & d & Hd). cbn. rewrite Hd. by apply more_digits_some. }
  destruct l as [|c [|c' l]]; [done|exact Hd|]. unfold magnitude. by rewrite decide_False by naive_solver.
Qed.

Lemma lstrip_solid c l : is_space c = false → lstrip_chars (c :: l) = c :: l.
Proof. intros Hc. cbn. by rewrite Hc. Qed.

Lemma lstrip_all l : forallb (λ c, negb (is_space c)) l = true → lstrip_chars l = l.
Proof. destruct l as [|c l]; [done|]. intros [Hc%negb_true_iff _]%andb_true_iff. by apply lstrip_solid. Qed.

Lemma lstrip_spaces w l : forallb is_space w = true → lstrip_chars (w ++ l) = lstrip_chars l.
Proof. induction w as [|c w IH]; [done|]. intros [Hc Hw]%andb_true_iff. cbn. rewrite Hc. by apply IH. Qed.

Lemma forallb_rev {A} (f : A → bool) l : forallb f l = true → forallb f (rev l) = true.
Proof. rewrite !forallb_forall. intros Hf x Hx%in_rev. by apply Hf. Qed.

Lemma strip_tail l w :
  l ≠ [] → forallb (λ c, negb (is_space c)) l = true → forallb is_space w = true →
  strip_chars (l ++ w) = l.
Proof.
  intros Hne Hl Hw. unfold strip_chars. destruct l as [|c l]; [done|].
  pose proof Hl as [Hc%negb_true_iff _]%andb_true_iff. cbn [app]. rewrite lstrip_solid by done.
  rewrite app_comm_cons, rev_app_distr, lstrip_spaces by by apply forallb_rev.
  rewrite lstrip_all by by apply forallb_rev. apply rev_involutive.
Qed.

(** A text of the pattern: an optional sign, digits, an optional newline. *)
Lemma quota_pattern_shape s :
  quota_pattern s = true →
  ∃ sign ds nl, explode s = sign ++ ds ++ nl ∧ (sign = [] ∨ sign = ["-"%char]) ∧
    ds ≠ [] ∧ forallb is_digit ds = true ∧ forallb is_space nl = true.
Proof.
  unfold quota_pattern. set (l0 := explode s). clearbody l0.
  set (l1 := match l0 with c :: l' => if decide (c = "-"%char) then l' else l0 | [] => l0 end).
  assert (∃ sign, l0 = sign ++ l1 ∧ (sign = [] ∨ sign = ["-"%char])) as (sign & Hl0 & Hsign).
  { subst l1. destruct l0 as [|c l']; [by exists []; split; [|left]|].
    destruct (decide (c = "-"%char)) as [->|]; [exists ["-"%char]|exists []]; eauto. }
  clearbody l1. assert (∃ nl, l1 = (match last l1 with
      | Some c => if decide (code_of c = 10%Z) then removelast l1 else l1 | None => l1 end) ++ nl
      ∧ forallb is_space nl = true) as (nl & Hl1 & Hnl).
  { destruct (last l1) as [c|] eqn:Hlast; [|exists []; by rewrite app_nil_r].
    case_decide as Hc; [|exists []; by rewrite app_nil_r].
    apply last_Some in Hlast as [l' ->]. rewrite removelast_last. exists [c]. split; [done|].
    unfold is_space. cbn. by rewrite Hc. }
  intros [Hne%negb_true_iff%bool_decide_eq_false Hds]%andb_true_iff.
  exists sign, (match last l1 with
      | Some c => if decide (code_of c = 10%Z) then removelast l1 else l1 | None => l1 end), nl.
  split_and!; [|done..]. by rewrite <- Hl1.
Qed.

Lemma quota_pattern_int s : quota_pattern s = true → is_Some (int_of 10 s).
Proof.
  intros (sign & ds & nl & Hs & Hsign & Hne & Hds & Hnl)%quota_pattern_shape.
  assert (strip_chars (explode s) = sign ++ ds) as Hstrip.
  { rewrite Hs, app_assoc. apply strip_tail; [by destruct Hsign as [->| ->], ds| |done].
    rewrite forallb_app. apply andb_true_iff. split; [by destruct Hsign as [->| ->]|].
    rewrite forallb_elem in Hds |- *. intros c Hc. by rewrite (proj1 (digit_solid c (Hds c Hc))). }
  unfold int_of. rewrite Hstrip. pose proof (magnitude_some ds Hne Hds) as [z Hz].
  destruct Hsign as [->| ->]; cbn [app].
  - destruct ds as [|c ds]; [done|]. pose proof Hds as [Hc _]%andb_true_iff.
    destruct (digit_solid c Hc) as (_ & Hm & Hp & _). rewrite !decide_False by done. by rewrite Hz.
  - rewrite decide_True by done. rewrite Hz. by eexists.
Qed.

Lemma valid_values d :
  query_param_update d = true → ∀ kv, kv ∈ d → is_Some (int_arg kv.2).
Proof.
  unfold query_param_update. rewrite forallb_elem. intros Hd kv Hin. specialize (Hd kv Hin).
  apply andb_true_iff in Hd as [_ Hv]. unfold common_quota in Hv. apply andb_true_iff in Hv as [Hv _].
  destruct (kv.2) as [z|s]; [by eexists|by apply quota_pattern_int].
Qed.

(** *** What a PUT leaves *)

Section Project.
Context {D : Type} (count_usage : D → string → string → option number) (conf_quota : string → Z)
  (round3 : Qc → Qc) (enforced : string → option string → bool).
Abbreviation db := (DbQuotaDriver count_usage conf_quota round3).
Implicit Types (s : qdb D) (d : dict string quota_arg).

(** The rows a PUT adds. *)
Definition put_rows (p : string) d : list quota_row :=
  (λ kv, mkQuotaRow p kv.1 (int_arg kv.2)) <$> d.

Lemma put_all_run p d s :
  (∀ kv, kv ∈ d → is_Some (int_arg kv.2)) →
  for_each (put_one p) d s = (Ok tt, set_quotas (quotas s ++ put_rows p d) s).
Proof.
  revert s. induction d as [|[k a] d IH]; intros s Hd.
  - cbn. unfold ret, set_quotas. rewrite app_nil_r. by destruct s.
  - destruct (Hd (k, a) ltac:(by left)) as [z Hz]. cbn [for_each].
    assert (put_one p (k, a) s = (Ok tt, set_quotas (quotas s ++ [mkQuotaRow p k (Some z)]) s)) as Hone.
    { unfold put_one, int_value. cbn [fst snd] in *. by rewrite Hz. }
    step Hone. rewrite IH by (intros kv Hin; apply Hd; by right). cbn [quotas set_quotas].
    unfold put_rows. rewrite fmap_cons. cbn [fst snd] in *. by rewrite Hz, <- app_assoc.
Qed.

Lemma project_limit_snoc s q p k :
  project_limit (set_quotas (quotas s ++ [q]) s) p k =
  (if is_quota p k q then Some (hard_limit q) else project_limit s p k).
Proof.
  unfold project_limit. cbn [quotas set_quotas]. rewrite filter_app, filter_cons, filter_nil.
  destruct (is_quota p k q); [by rewrite decide_True, last_snoc|].
  by rewrite decide_False, app_nil_r by done.
Qed.

Lemma project_limit_put p d s p' k :
  NoDup (dkeys d) →
  project_limit (set_quotas (quotas s ++ put_rows p d) s) p' k =
  (match (if decide (p' = p) then dget d k else None) with
   | Some a => Some (int_arg a)
   | None => project_limit s p' k
   end).
Proof.
  revert s. induction d as [|[k0 a0] d IH]; intros s Hnd.
  - unfold put_rows. cbn. rewrite app_nil_r. by case_decide.
  - apply NoDup_cons in Hnd as [Hk0 Hnd]. unfold put_rows. rewrite fmap_cons. fold (put_rows p d).
    set (s1 := set_quotas (quotas s ++ [mkQuotaRow p k0 (int_arg a0)]) s).
    cbn [fst snd] in *. fold (dkeys d) in *. assert (set_quotas (quotas s ++ mkQuotaRow p k0 (int_arg a0) :: put_rows p d) s =
            set_quotas (quotas s1 ++ put_rows p d) s1) as ->
      by (unfold s1, set_quotas; cbn; by rewrite <- app_assoc).
    rewrite IH by done. unfold s1. rewrite project_limit_snoc. unfold is_quota.
    cbn [project_id resource hard_limit dget].
    destruct (decide (p' = p)) as [->|Hp].
    + rewrite String.eqb_refl. cbn. destruct (decide (k0 = k)) as [->|Hk].
      * rewrite String.eqb_refl. by rewrite (proj2 (dget_None_keys d k) Hk0).
      * by rewrite (proj2 (String.eqb_neq k0 k) Hk).
    + by rewrite (proj2 (String.eqb_neq p p') (not_eq_sym Hp)).
Qed.

Lemma effective_put p d s p' k :
  NoDup (dkeys d) →
  effective conf_quota resources (set_quotas (quotas s ++ put_rows p d) s) p' k =
  (match (if decide (p' = p) then dget d k else None) with
   | Some a => int_arg a
   | None => effective conf_quota resources s p' k
   end).
Proof.
  intros Hnd. unfold effective. rewrite project_limit_put by done.
  destruct (if decide _ then _ else _); [done|]. by destruct (project_limit s p' k).
Qed.

Lemma limits_listed s p :
  let ls := (λ kv, (kv.1, limit kv.2)) <$>
    dict_of ((λ r, (name r, mkInfo (effective conf_quota resources s p (name r)) None)) <$> dvalues resources) in
  dkeys ls = dkeys resources ∧ ∀ k, k ∈ dkeys resources → dget ls k = Some (effective conf_quota resources s p k).
Proof.
  cbv zeta. split; [done|]. intros k Hk.
  assert (Forall (λ k, dget ((λ kv, (kv.1, limit kv.2)) <$>
    dict_of ((λ r, (name r, mkInfo (effective conf_quota resources s p (name r)) None)) <$> dvalues resources)) k
    = Some (effective conf_quota resources s p k)) (dkeys resources)) as Hall by (repeat constructor).
  rewrite Forall_forall in Hall. by apply Hall.
Qed.

(** A PUT of quotas that the schema and the policy accept sets the limits in
    force of that project for the resources it names, leaves every other limit of
    every project as it was, and answers the limits now in force; one that the
    schema or the policy refuses changes nothing. *)
Theorem quotas_put_spec p d s :
  NoDup (dkeys d) →
  let run := quotas_put (H:=db) enforced p d s in
  if negb (query_param_update d) then run = (ClientFault 400 (Zun SchemaValidationError), s) else
  if negb (enforced "quota:update" (Some p)) then run = (ClientFault 403 (Zun PolicyNotAuthorized), s) else
  ∃ ls s', run = (Answer (Limits ls), s') ∧
    (∀ k, k ∈ dkeys resources → dget ls k = Some (effective conf_quota resources s' p k)) ∧
    ∀ p' k, effective conf_quota resources s' p' k =
      match (if decide (p' = p) then dget d k else None) with
      | Some a => int_arg a
      | None => effective conf_quota resources s p' k
      end.
Proof.
  intros Hnd run. subst run. unfold quotas_put, validated, raise_if, enforce, raise_if, wrap_controller_exception.
  destruct (query_param_update d) eqn:Hd; [|done]. cbn [negb]. steps.
  destruct (enforced _ _); [|done]. cbn [negb]. steps. pose proof (valid_values d Hd) as Hvals.
  step (put_all_run p d s Hvals). unfold _get_quotas. cbn [get_project_quotas DbQuotaDriver].
  step (project_quotas_run count_usage conf_quota round3 resources
          (set_quotas (quotas s ++ put_rows p d) s) p None resources_registered (or_introl eq_refl)).
  unfold ret.
  eexists _, _. split; [reflexivity|]. split; [apply limits_listed|].
  intros p' k. by apply effective_put.
Qed.

(** DELETE undoes PUT: for a project that had no limits of its own the
    database is then what it was, and DELETE never touches another project. *)
Theorem quotas_put_delete p d s :
  query_param_update d = true → enforced "quota:update" (Some p) = true →
  enforced "quota:delete" (Some p) = true → (∀ q, q ∈ quotas s → project_id q ≠ p) →
  quotas_delete (H:=db) enforced p (quotas_put (H:=db) enforced p d s).2 = (Answer tt, s).
Proof.
  intros Hd Hput Hdel Hfree.
  assert ((quotas_put (H:=db) enforced p d s).2 = set_quotas (quotas s ++ put_rows p d) s) as ->.
  { unfold quotas_put, validated, raise_if, enforce, raise_if, wrap_controller_exception.
    rewrite Hd, Hput. cbn [negb]. steps. step (put_all_run p d s (valid_values d Hd)).
    unfold _get_quotas. cbn [get_project_quotas DbQuotaDriver].
    by step (project_quotas_run count_usage conf_quota round3 resources
      (set_quotas (quotas s ++ put_rows p d) s) p None resources_registered (or_introl eq_refl)). }
  unfold quotas_delete, enforce, raise_if, wrap_controller_exception. rewrite Hdel. cbn [negb]. steps.
  cbn. unfold quota_destroy_all_by_project, modify. cbn. f_equal. destruct s as [qs cs o]. unfold set_quotas. cbn in *.
  f_equal. rewrite filter_app. rewrite <- (app_nil_r qs) at 2. f_equal.
  - clear Hput Hdel. induction qs as [|q qs IH]; [done|].
    rewrite filter_cons_True; [f_equal; apply IH; intros ? ?; apply Hfree; by right|].
    apply String.eqb_neq, Hfree. by left.
  - unfold put_rows. rewrite filter_fmap. induction d as [|kv d' IH]; [done|].
    rewrite filter_cons_False; [|cbn; by rewrite String.eqb_refl].
    apply IH. by apply andb_true_iff in Hd as [_ Hd].
Qed.

(** *** Classes *)

Lemma is_class_true c k q : is_class c k q = true ↔ class_name q = c ∧ class_resource q = k.
Proof. unfold is_class. by rewrite andb_true_iff, !String.eqb_eq. Qed.

(** What a PUT of one limit of a class leaves. *)
Lemma put_class_one_run c k a z s :
  int_arg a = Some z →
  ∃ rows, put_class_one c (k, a) s = (Ok tt, set_quota_classes rows s) ∧
    ∀ c' k', class_limit <$> last (filter (λ q, is_class c' k' q = true) rows) =
      (if decide (c' = c ∧ k' = k) then Some (Some z)
       else class_limit <$> last (filter (λ q, is_class c' k' q = true) (quota_classes s))).
Proof.
  intros Hz. unfold put_class_one, int_value. cbn [fst snd]. rewrite Hz. cbn [of_option]. steps.
  unfold try_except, quota_class_update, raise_if. steps.
  destruct (existsb (is_class c k) (quota_classes s)) eqn:Hex; cbn [negb]; steps; cbn.
  - eexists. split; [reflexivity|]. intros c' k'. rewrite filter_fmap.
    assert (filter (λ q, is_class c' k' (if is_class c k q then mkClassRow c k (Some z) else q) = true)
      (quota_classes s) = filter (λ q, is_class c' k' q = true) (quota_classes s)) as ->.
    { apply list_filter_iff. intros q. destruct (is_class c k q) eqn:Hq; [|done].
      apply is_class_true in Hq as [<- <-]. by rewrite !is_class_true. }
    rewrite fmap_last. destruct (last _) as [q|] eqn:Hl.
    + apply last_Some in Hl as [l Hl].
      assert (q ∈ filter (λ q, is_class c' k' q = true) (quota_classes s)) as Hin by (rewrite Hl; set_solver).
      apply list_elem_of_filter in Hin as [[Hc Hk]%is_class_true _]. cbn.
      destruct (is_class c k q) eqn:Hq.
      * apply is_class_true in Hq as [Hc2 Hk2]. by rewrite decide_True by by rewrite <- Hc, <- Hk.
      * rewrite decide_False; [done|]. intros [-> ->].
        by rewrite (proj2 (is_class_true _ _ q) (conj Hc Hk)) in Hq.
    + cbn. rewrite decide_False; [done|]. intros [-> ->].
      apply existsb_exists in Hex as (q & Hin & Hq). rewrite last_None in Hl.
      eapply (filter_nil_not_elem_of (λ q, is_class c k q = true)); [exact Hl|exact Hq|].
      by apply list_elem_of_In.
  - rewrite existsb_false_iff in Hex. eexists. split; [reflexivity|]. intros c' k'.
    rewrite filter_app, filter_cons, filter_nil. case_decide as Hnew.
    + rewrite last_snoc. apply is_class_true in Hnew as [<- <-]. cbn. by rewrite decide_True.
    + rewrite app_nil_r. case_decide as Hck; [|done]. destruct Hck as [-> ->].
      destruct Hnew. by apply is_class_true.
Qed.

Lemma put_class_run c d s :
  NoDup (dkeys d) → (∀ kv, kv ∈ d → is_Some (int_arg kv.2)) →
  ∃ rows, for_each (put_class_one c) d s = (Ok tt, set_quota_classes rows s) ∧
    ∀ c' k, class_limit <$> last (filter (λ q, is_class c' k q = true) rows) =
      match (if decide (c' = c) then dget d k else None) with
      | Some a => Some (int_arg a)
      | None => class_limit <$> last (filter (λ q, is_class c' k q = true) (quota_classes s))
      end.
Proof.
  revert s. induction d as [|[k a] d IH]; intros s Hnd Hd.
  - exists (quota_classes s). split; [by destruct s|]. intros c' k. by case_decide.
  - apply NoDup_cons in Hnd as [Hk Hnd]. destruct (Hd (k, a) ltac:(by left)) as [z Hz].
    destruct (put_class_one_run c k a z s Hz) as (rows & Hrun & Hrows).
    destruct (IH (set_quota_classes rows s) Hnd) as (rows' & Hrun' & Hrows');
      [intros kv Hin; apply Hd; by right|].
    exists rows'. cbn [for_each]. split; [by step Hrun|].
    intros c' k'. rewrite Hrows'. cbn [quota_classes set_quota_classes dget]. rewrite Hrows.
    cbn [snd] in Hz. destruct (decide (c' = c)) as [->|Hc]; [|by rewrite decide_False by naive_solver].
    destruct (decide (k = k')) as [->|Hkk].
    + rewrite (proj2 (dget_None_keys d k') Hk), decide_True by done. by rewrite Hz.
    + rewrite decide_False by naive_solver. done.
Qed.

(** An accepted PUT of the quotas of a class touches the limits in force only
    when the class is the default one: there it gives the named resources their
    new limit in every project that has no limit of its own.  The limits of any
    other class are never consulted. *)
Theorem quota_classes_put_spec c d s :
  NoDup (dkeys d) → query_param_update d = true → enforced "quota_class:update" None = true →
  ∃ ls s', quota_classes_put (H:=db) enforced c d s = (Answer ls, s') ∧
    ∀ p k, effective conf_quota resources s' p k =
      match project_limit s p k, (if decide (c = DEFAULT_QUOTA_CLASS_NAME) then dget d k else None) with
      | None, Some a => int_arg a
      | _, _ => effective conf_quota resources s p k
      end.
Proof.
  intros Hnd Hd Hput. destruct (put_class_run c d s Hnd (valid_values d Hd)) as (rows & Hrun & Hrows).
  unfold quota_classes_put, validated, raise_if, enforce, raise_if, wrap_controller_exception.
  rewrite Hd, Hput. cbn [negb]. steps. step Hrun.
  cbn [get_class_quotas DbQuotaDriver]. unfold Quota.get_class_quotas, class_get_all, quota_class_get_all_by_name.
  steps. unfold ret. eexists _, _. split; [reflexivity|]. intros p k.
  specialize (Hrows DEFAULT_QUOTA_CLASS_NAME k). unfold effective, project_limit, default_class_limit.
  cbn [quotas quota_classes set_quota_classes]. rewrite Hrows.
  destruct (hard_limit <$> _) as [l|]; [done|].
  destruct (decide (c = DEFAULT_QUOTA_CLASS_NAME)) as [->|Hc].
  - rewrite decide_True by done. by destruct (dget d k).
  - by rewrite decide_False by (intros ?; by apply Hc).
Qed.
End Project.

(** ** Witnesses *)

Section Witnesses.
#[local] Definition wdb : qdb unit :=
  mkQdb [mkQuotaRow "q" "memory" (Some 1%Z)] [mkClassRow "default" "cpu" (Some 2%Z)] tt.
#[local] Definition wcount : unit → string → string → option number := λ _ _ _, None.
#[local] Definition wconf : string → Z := λ _, 10%Z.
#[local] Definition wround : Qc → Qc := λ q, q.
#[local] Definition wallow : string → option string → bool := λ _ _, true.
#[local] Definition wasked : dict string quota_arg := [("cpu", ArgStr "7"); ("disk", ArgInt (-1))].

Lemma wasked_keys : NoDup (dkeys wasked).
Proof. by vm_compute; repeat constructor; set_solver. Qed.

Lemma quotas_put_spec_witness :
  ∃ s', (quotas_put (H:=DbQuotaDriver wcount wconf wround) wallow "p" wasked wdb).2 = s' ∧
    effective wconf resources s' "p" "cpu" = Some 7%Z.
Proof.
  destruct (quotas_put_spec wcount wconf wround wallow "p" wasked wdb wasked_keys) as (ls & s' & -> & _ & Heff).
  exists s'. split; [done|]. by rewrite Heff.
Defined.

Lemma quotas_put_delete_witness :
  quotas_delete (H:=DbQuotaDriver wcount wconf wround) wallow "p"
    (quotas_put (H:=DbQuotaDriver wcount wconf wround) wallow "p" wasked wdb).2 = (Answer tt, wdb).
Proof.
  apply (quotas_put_delete wcount wconf wround wallow "p" wasked wdb); [by vm_compute|done..|].
  intros q [->|[]%not_elem_of_nil]%elem_of_cons. done.
Defined.

Lemma quota_classes_put_spec_witness :
  ∃ s', (quota_classes_put (H:=DbQuotaDriver wcount wconf wround) wallow "default" wasked wdb).2 = s' ∧
    effective wconf resources s' "p" "cpu" = Some 7%Z.
Proof.
  destruct (quota_classes_put_spec wcount wconf wround wallow "default" wasked wdb wasked_keys)
    as (ls & s' & -> & Heff); [by vm_compute|done|].
  exists s'. split; [done|]. by rewrite Heff.
Defined.
End Witnesses.
