(* ===== verification/Versions.v ===== *)
(** * API versions (src/zun/api/controllers/versions.py, base.py, v1/__init__.py)

    A request carries its version in a header; the router parses it and checks
    that the service supports it.  A controller may define one method several
    times, each for a range of versions: the decorator refuses ranges that
    overlap, and an attribute look-up picks the method of the request's version.

    The two failures are an exception of webob, which answers 406, and a
    [ValueError]. *)

From Stdlib Require Import Ascii.
From S2P Require Import Prelude Exceptions PyStr.

(** ** Versions *)

Record Version : Type := mkVersion { major : Z; minor : Z }.

#[export] Instance Version_eq_dec : EqDecision Version.
Proof. solve_decision. Defined.

Definition v_lt (a b : Version) : bool :=
  if (major a <? major b)%Z then true
  else if (major a =? major b)%Z && (minor a <? minor b)%Z then true
  else false.
Definition v_gt (a b : Version) : bool :=
  if (major a >? major b)%Z then true
  else if (major a =? major b)%Z && (minor a >? minor b)%Z then true
  else false.
Definition v_eq (a b : Version) : bool := (major a =? major b)%Z && (minor a =? minor b)%Z.
Definition v_le (a b : Version) : bool := v_lt a b || v_eq a b.

Definition is_null (v : Version) : bool := (major v =? 0)%Z && (minor v =? 0)%Z.

Inductive http : Type :=
| HTTPNotAcceptable
| Value_Error.

Abbreviation web A := (outcome http A).

Definition matches (v start_version end_version : Version) : web bool :=
  if is_null v then Raise Value_Error
  else Ok (v_le start_version v && v_le v end_version).

(** *** The header *)

(** [str.split()]: the words between white space *)
Fixpoint words (cur : chars) (l : chars) : list chars :=
  match l with
  | [] => if decide (cur = []) then [] else [rev cur]
  | c :: l' => if is_space c then (if decide (cur = []) then words [] l' else rev cur :: words [] l')
               else words (c :: cur) l'
  end.

(** [str.lower] on ASCII *)
Definition lower_char (c : ascii) : ascii :=
  let n := code_of c in
  if ((65 <=? n) && (n <=? 90))%Z then ascii_of_nat (Z.to_nat (n + 32)) else c.
Definition lower (s : string) : string := implode (lower_char <$> explode s).

Definition service_string : string := "container".
Definition BASE_VER : string := "1.1".
Definition CURRENT_MAX_VER : string := "1.40".
Definition MIN_VER_STR : string := (service_string +:+ " " +:+ BASE_VER)%string.
Definition MAX_VER_STR : string := (service_string +:+ " " +:+ CURRENT_MAX_VER)%string.

(** Two words, or a [ValueError] *)
Definition two_words (s : string) : option (string * string) :=
  match words [] (explode s) with
  | [a; b] => Some (implode a, implode b)
  | _ => None
  end.

(** [tuple(int(i) for i in version_str.split('.'))], of length two *)
Definition read_version (s : string) : option Version :=
  match mapM (int_of 10) (split "." s) with
  | Some [a; b] => Some (mkVersion a b)
  | _ => None
  end.

Definition of_opt {A} (o : option A) (e : http) : web A :=
  match o with Some a => Ok a | None => Raise e end.
Definition then_ {A B} (m : web A) (f : A → web B) : web B :=
  match m with Ok a => f a | Raise e => Raise e end.

Definition parse_headers (header : option string) (default_version latest_version : string)
    : web Version :=
  let version_hdr := default default_version header in
  then_ (of_opt (two_words version_hdr) HTTPNotAcceptable) (λ sv,
  then_ (if decide (lower sv.2 = "latest") then of_opt (two_words latest_version) Value_Error else Ok sv)
    (λ sv,
  if decide (sv.1 = service_string) then of_opt (read_version sv.2) HTTPNotAcceptable
  else Raise HTTPNotAcceptable)).

(** [Version(..., from_string)] *)
Definition from_string (s : string) : web Version := of_opt (read_version s) Value_Error.

(** *** The router *)

Definition BASE_VERSION : Z := 1.
Definition MIN_VER : Version := mkVersion 1 1.
Definition MAX_VER : Version := mkVersion 1 40.

Definition _check_version (v : Version) : web unit :=
  if negb (major v =? BASE_VERSION)%Z then Raise HTTPNotAcceptable
  else if v_lt v MIN_VER || v_gt v MAX_VER then Raise HTTPNotAcceptable
  else Ok tt.

(** The version of the request, for [_route]. *)
Definition route_version (header : option string) : web Version :=
  then_ (parse_headers header MIN_VER_STR MAX_VER_STR) (λ v,
  then_ (_check_version v) (λ _, Ok v)).

(** ** Versioned methods *)

Record VersionedMethod (F : Type) : Type := mkMethod {
  start_version : Version;
  end_version : Version;
  func : F
}.
Arguments mkMethod {F} _ _ _.
Arguments start_version {F} _.
Arguments end_version {F} _.
Arguments func {F} _.

Section Methods.
Context {F : Type}.
Abbreviation method := (VersionedMethod F).
Implicit Types (l : list method).

Definition boundary : Type := Version * Z.

Definition by_version (p q : boundary) : Prop := v_le p.1 q.1 = true.
(** The order of [sort(..., reverse=True)] on the second component *)
Definition by_kind_desc (p q : boundary) : Prop := (q.2 ≤ p.2)%Z.
Definition by_start_desc (f g : method) : Prop := v_le (start_version g) (start_version f) = true.

#[local] Instance by_version_dec : RelDecision by_version.
Proof. intros p q. unfold by_version. apply _. Defined.
#[local] Instance by_kind_desc_dec : RelDecision by_kind_desc.
Proof. intros p q. unfold by_kind_desc. apply _. Defined.
#[local] Instance by_start_desc_dec : RelDecision by_start_desc.
Proof. intros f g. unfold by_start_desc. apply _. Defined.

Fixpoint sweep (counter : Z) (pairs : list boundary) : bool :=
  match pairs with
  | [] => false
  | p :: pairs' => let counter := (counter + p.2)%Z in
                   if (1 <? counter)%Z then true else sweep counter pairs'
  end.

Definition boundaries l : list boundary :=
  l ≫= λ f, [(start_version f, 1%Z); (end_version f, (-1)%Z)].

Definition check_for_versions_intersection (func_list : list method) : bool :=
  sweep 0 (stable_sort by_version (stable_sort by_kind_desc (boundaries func_list))).

(** One use of the decorator [api_version]: the list of the methods of its name,
    and whether the ranges overlap, which raises [ApiVersionsIntersect]. *)
Definition api_version (min_ver : string) (max_ver : option string) (f : F)
    (func_list : list method) : web (outcome exn (list method)) :=
  then_ (from_string min_ver) (λ lo,
  then_ (from_string (match max_ver with
                      | Some m => if str_true m then m else CURRENT_MAX_VER
                      | None => CURRENT_MAX_VER end)) (λ hi,
  let func_list := func_list ++ [mkMethod lo hi f] in
  Ok (if check_for_versions_intersection func_list then Raise (Zun ApiVersionsIntersect)
      else Ok (stable_sort by_start_desc func_list)))).

(** [Controller.__getattribute__] of a versioned name; no method answers 406. *)
Fixpoint version_select (ver : Version) (func_list : list method) : web F :=
  match func_list with
  | [] => Raise HTTPNotAcceptable
  | f :: func_list' =>
      then_ (matches ver (start_version f) (end_version f)) (λ ok,
        if ok : bool then Ok (func f) else version_select ver func_list')
  end.
End Methods.

(** [api_utils.version_check] *)
Definition version_check {S} (req_version : Version) (version : string) : py S unit :=
  match from_string version with
  | Ok min_version => raise_if (v_lt req_version min_version) (Zun InvalidParamInVersion)
  | Raise _ => raise (Py ValueError)
  end.

(** ** The order of versions *)

Lemma v_lt_spec a b :
  v_lt a b = true ↔ (major a < major b)%Z ∨ major a = major b ∧ (minor a < minor b)%Z.
Proof.
  unfold v_lt. destruct (Z.ltb_spec (major a) (major b)); [naive_solver lia|].
  destruct (Z.eqb_spec (major a) (major b)); destruct (Z.ltb_spec (minor a) (minor b)); cbn; naive_solver lia.
Qed.

Lemma v_le_spec a b :
  v_le a b = true ↔ (major a < major b)%Z ∨ major a = major b ∧ (minor a ≤ minor b)%Z.
Proof.
  unfold v_le, v_eq. rewrite orb_true_iff, andb_true_iff, v_lt_spec, !Z.eqb_eq. naive_solver lia.
Qed.

Lemma v_lt_not_le a b : v_lt a b = negb (v_le b a).
Proof.
  destruct (v_le b a) eqn:Hle.
  - apply v_le_spec in Hle. apply not_true_is_false. rewrite v_lt_spec. naive_solver lia.
  - apply v_lt_spec. apply not_true_iff_false in Hle. rewrite v_le_spec in Hle. lia.
Qed.

Lemma v_gt_lt a b : v_gt a b = v_lt b a.
Proof.
  unfold v_gt, v_lt. rewrite !Z.gtb_ltb, (Z.eqb_sym (major b)). done.
Qed.

Definition vle (a b : Version) : Prop := v_le a b = true.

#[export] Instance vle_total : TotalOrder vle.
Proof.
  split; [split; [split|]|].
  - intros a. apply v_le_spec. lia.
  - intros a b c. unfold vle. rewrite !v_le_spec. lia.
  - intros a b. unfold vle. rewrite !v_le_spec. intros Hab Hba. destruct a, b; cbn in *. f_equal; lia.
  - intros a b. unfold strict, vle. rewrite !v_le_spec. destruct (decide (a = b)) as [->|Hne]; [by right; left|].
    assert (¬ (major a = major b ∧ minor a = minor b)) by (intros []; apply Hne; by destruct a, b; cbn in *; subst).
    lia.
Qed.

#[export] Instance vle_le_total : Total vle.
Proof. intros a b. unfold vle. rewrite !v_le_spec. lia. Qed.

(** ** The sweep finds an overlap *)

Section Overlap.
Context {F : Type}.
Abbreviation method := (VersionedMethod F).
Implicit Types (l : list method) (v : Version).

#[local] Existing Instances by_version_dec by_kind_desc_dec by_start_desc_dec.

(** A boundary comes before another: an earlier version, or an opening before a
    closing of the same version. *)
Definition before (p q : boundary) : Prop :=
  vle p.1 q.1 ∧ (p.1 = q.1 → (q.2 ≤ p.2)%Z).

Lemma insert_before (p : boundary) (l : list boundary) :
  StronglySorted before l → (∀ q, q ∈ l → by_kind_desc p q) →
  StronglySorted before (insert_sorted by_version p l).
Proof.
  induction 1 as [|q l Hl IH Hq]; intros Hp; cbn; [repeat constructor|]. case_decide as Hpq.
  - constructor; [by constructor|]. apply Forall_forall. intros r Hr. split.
    + apply elem_of_cons in Hr as [->|Hr]; [exact Hpq|]. rewrite Forall_forall in Hq.
      destruct (Hq r Hr) as [Hqr _]. unfold by_version in Hpq. by transitivity q.1.
    + intros _. by apply Hp.
  - constructor; [apply IH; intros r Hr; apply Hp; by right|].
    rewrite (insert_sorted_perm by_version p l). constructor; [|done]. split.
    + destruct (total vle q.1 p.1) as [?|?]; done.
    + intros Heq. destruct Hpq. unfold by_version. rewrite Heq. by apply (reflexivity (R:=vle)).
Qed.

Lemma sorted_boundaries l :
  StronglySorted before (stable_sort by_version (stable_sort by_kind_desc (boundaries l))).
Proof.
  assert (StronglySorted by_kind_desc (stable_sort by_kind_desc (boundaries l))) as Hk.
  { apply stable_sort_sorted.
    - intros p q. unfold by_kind_desc. lia.
    - intros p q r. unfold by_kind_desc. lia. }
  induction Hk as [|p ps Hps IH Hp]; [constructor|]. cbn. apply insert_before; [exact IH|].
  intros q Hq. fold (stable_sort by_version ps) in Hq. rewrite (stable_sort_perm by_version ps) in Hq.
  rewrite Forall_forall in Hp. by apply Hp.
Qed.
(** *** Counting the open ranges *)

Fixpoint sum (ps : list boundary) : Z :=
  match ps with [] => 0 | p :: ps' => p.2 + sum ps' end%Z.

(** The boundary counts at the version [v]. *)
Definition due v (p : boundary) : bool := if (0 <? p.2)%Z then v_le p.1 v else v_lt p.1 v.
Fixpoint score v (ps : list boundary) : Z :=
  match ps with [] => 0 | p :: ps' => (if due v p then p.2 else 0) + score v ps' end%Z.

Definition contains v (f : method) : bool := v_le (start_version f) v && v_le v (end_version f).
Definition well_ranged l : Prop := ∀ f, f ∈ l → vle (start_version f) (end_version f).

Lemma sum_app ps qs : sum (ps ++ qs) = (sum ps + sum qs)%Z.
Proof. induction ps as [|p ps IH]; cbn; [done|rewrite IH; lia]. Qed.

Lemma score_app v ps qs : score v (ps ++ qs) = (score v ps + score v qs)%Z.
Proof. induction ps as [|p ps IH]; cbn; [done|rewrite IH; lia]. Qed.

Lemma score_perm v ps qs : ps ≡ₚ qs → score v ps = score v qs.
Proof. induction 1; cbn; lia. Qed.

Lemma score_filter v ps : sum (filter (λ p, due v p = true) ps) = score v ps.
Proof.
  induction ps as [|p ps IH]; [done|]. rewrite filter_cons. cbn.
  destruct (due v p) eqn:Hp; [rewrite decide_True by done; cbn; lia|rewrite decide_False by done; lia].
Qed.

(** The score at a version is the number of ranges that contain it. *)
Lemma score_boundaries v l :
  well_ranged l → score v (boundaries l) = Z.of_nat (length (filter (λ f, contains v f = true) l)).
Proof.
  induction l as [|f l IH]; intros Hl; [done|].
  assert (vle (start_version f) (end_version f)) as Hf by (apply Hl; by left).
  specialize (IH (λ g Hg, Hl g (list_elem_of_further _ _ _ Hg))).
  change (boundaries (f :: l)) with ((start_version f, 1%Z) :: (end_version f, (-1)%Z) :: boundaries l).
  cbn [score]. rewrite IH, filter_cons. unfold due. cbn.
  rewrite v_lt_not_le. unfold contains. unfold vle in Hf.
  destruct (v_le v (end_version f)) eqn:Hend, (v_le (start_version f) v) eqn:Hstart; cbn;
    rewrite ?decide_True, ?decide_False by done; cbn [length]; try lia.
  exfalso. apply not_true_iff_false in Hend, Hstart. rewrite v_le_spec in Hend, Hstart, Hf. lia.
Qed.

Lemma sweep_spec c ps :
  (c ≤ 1)%Z → sweep c ps = true ↔ ∃ P Q, ps = P ++ Q ∧ (1 < c + sum P)%Z.
Proof.
  revert c. induction ps as [|p ps IH]; intros c Hc; cbn.
  - split; [done|]. intros (P & Q & HP & Hs). symmetry in HP. apply app_eq_nil in HP as [-> ->]. cbn in Hs. lia.
  - destruct (Z.ltb_spec 1 (c + p.2)).
    + split; [|done]. intros _. exists [p], ps. cbn. split; [done|lia].
    + rewrite IH by lia. split.
      * intros (P & Q & -> & Hs). exists (p :: P), Q. cbn. split; [done|lia].
      * intros ([|p' P] & Q & HP & Hs); [cbn in Hs; lia|]. injection HP as <- ->.
        exists P, Q. cbn in Hs. split; [done|lia].
Qed.

Lemma due_down v p q : before p q → due v q = true → due v p = true.
Proof.
  intros [Hpq Hkind]. unfold due, vle in *. rewrite v_le_spec in Hpq.
  assert (major p.1 = major q.1 → minor p.1 = minor q.1 → (q.2 ≤ p.2)%Z) as Hk.
  { intros ? ?. apply Hkind. destruct p.1, q.1. cbn in *. by subst. }
  destruct (Z.ltb_spec 0 q.2), (Z.ltb_spec 0 p.2); rewrite ?v_le_spec, ?v_lt_spec; lia.
Qed.

Lemma split_due v ps :
  StronglySorted before ps →
  ps = filter (λ p, due v p = true) ps ++ filter (λ p, due v p ≠ true) ps.
Proof.
  induction 1 as [|p ps Hps IH Hp]; [done|]. rewrite !filter_cons. destruct (due v p) eqn:Hd.
  - rewrite decide_True, (decide_False (P:=true ≠ true)) by (done || by intros []). cbn. by f_equal.
  - rewrite decide_False, decide_True by done. rewrite Forall_forall in Hp.
    assert (filter (λ p, due v p = true) ps = []) as ->.
    { destruct (filter (λ p, due v p = true) ps) as [|q qs] eqn:Hqs; [done|].
      assert (q ∈ filter (λ p, due v p = true) ps) as Hq by (rewrite Hqs; by left).
      apply list_elem_of_filter in Hq as [Hq Hin]. by rewrite (due_down v p q (Hp q Hin) Hq) in Hd. }
    cbn. f_equal. clear -Hps Hp Hd. 
    assert (∀ q, q ∈ ps → due v q ≠ true) as Hall by (intros q Hq Hdq; by rewrite (due_down v p q (Hp q Hq) Hdq) in Hd).
    clear -Hall. induction ps as [|q ps IH]; [done|]. rewrite filter_cons_True by (apply Hall; by left).
    f_equal. apply IH. intros r Hr. apply Hall. by right.
Qed.

(** Up to the boundary [p], the running counter is at most the score there. *)
Lemma prefix_score P p Q :
  StronglySorted before (P ++ p :: Q) → (sum (P ++ [p]) ≤ score p.1 (P ++ p :: Q))%Z.
Proof.
  intros Hs. assert (∀ x, x ∈ P ++ [p] → vle x.1 p.1) as Hle.
  { intros x [Hx|Hx]%elem_of_app; [|apply list_elem_of_singleton in Hx as ->; reflexivity].
    clear -Hs Hx. induction P as [|y P IH]; [by apply not_elem_of_nil in Hx|].
    cbn in Hs. apply StronglySorted_inv in Hs as [Hs Hy]. apply elem_of_cons in Hx as [->|Hx]; [|by apply IH].
    rewrite Forall_forall in Hy. apply Hy. set_solver. }
  assert (∀ q, q ∈ Q → vle p.1 q.1) as Hge.
  { intros q Hq. clear -Hs Hq. induction P as [|y P IH]; cbn in Hs; apply StronglySorted_inv in Hs as [Hs Hy].
    - rewrite Forall_forall in Hy. by apply Hy.
    - by apply IH. }
  assert (P ++ p :: Q = (P ++ [p]) ++ Q) as -> by by rewrite <- app_assoc.
  rewrite score_app.
  assert (0 ≤ score p.1 Q)%Z as HQ.
  { clear -Hge. induction Q as [|q Q IH]; [done|]. cbn.
    assert (0 ≤ score p.1 Q)%Z by (apply IH; intros r Hr; apply Hge; by right).
    unfold due. destruct (Z.ltb_spec 0 q.2); [destruct (v_le q.1 p.1); lia|].
    rewrite v_lt_not_le. rewrite (Hge q (list_elem_of_here _ _)). cbn. lia. }
  assert (sum (P ++ [p]) ≤ score p.1 (P ++ [p]))%Z; [|lia].
  clear -Hle. induction (P ++ [p]) as [|x xs IH]; [done|]. cbn.
  assert (sum xs ≤ score p.1 xs)%Z by (apply IH; intros r Hr; apply Hle; by right).
  unfold due. destruct (Z.ltb_spec 0 x.2); [rewrite (Hle x (list_elem_of_here _ _)); lia|].
  destruct (v_lt x.1 p.1); lia.
Qed.

Lemma sweep_covers l :
  well_ranged l →
  check_for_versions_intersection l = true ↔
  ∃ v, 2 ≤ length (filter (λ f, contains v f = true) l).
Proof.
  intros Hl. unfold check_for_versions_intersection. set (ps := stable_sort by_version _).
  assert (ps ≡ₚ boundaries l) as Hperm by (unfold ps; by rewrite !stable_sort_perm).
  pose proof (sorted_boundaries l) as Hs. fold ps in Hs. rewrite sweep_spec by lia. split.
  - intros (P & Q & HPQ & Hsum). destruct P as [|p P' _] using rev_ind.
    + cbn in Hsum. lia.
    + exists p.1. apply Nat2Z.inj_le. rewrite <- score_boundaries by done.
      rewrite <- (score_perm _ _ _ Hperm), HPQ. rewrite HPQ in Hs.
      pose proof (prefix_score P' p Q). rewrite <- app_assoc in Hs |- *. cbn in *. specialize (H Hs). lia.
  - intros [v Hv]. exists (filter (λ p, due v p = true) ps), (filter (λ p, due v p ≠ true) ps).
    split; [by apply split_due|]. rewrite score_filter, (score_perm _ _ _ Hperm), score_boundaries by done. lia.
Qed.
(** *** Two ranges that share a version *)

Lemma two_in_filter {X} (b : X → bool) (xs : list X) :
  2 ≤ length (filter (λ x, b x = true) xs) ↔
  ∃ i j x y, i < j ∧ xs !! i = Some x ∧ xs !! j = Some y ∧ b x = true ∧ b y = true.
Proof.
  assert (∀ ys, 1 ≤ length (filter (λ x, b x = true) ys) ↔ ∃ j y, ys !! j = Some y ∧ b y = true) as Hone.
  { intros ys. split.
    - destruct (filter _ ys) as [|y l] eqn:Hl; cbn; [lia|]. intros _.
      assert (y ∈ filter (λ x, b x = true) ys) as Hy by (rewrite Hl; by left).
      apply list_elem_of_filter in Hy as [Hb [j Hj]%list_elem_of_lookup]. eauto.
    - intros (j & y & Hj & Hb). apply list_elem_of_lookup_2 in Hj.
      assert (y ∈ filter (λ x, b x = true) ys) as Hy by by apply list_elem_of_filter.
      destruct (filter _ ys); [by apply not_elem_of_nil in Hy|cbn; lia]. }
  induction xs as [|x xs IH]; [split; [cbn; lia|by intros (i & j & ? & ? & _ & ? & _)]|].
  rewrite filter_cons. destruct (b x) eqn:Hx.
  - rewrite decide_True by done. cbn. split.
    + intros Hlen. destruct (proj1 (Hone xs)) as (j & y & Hj & Hy); [lia|].
      exists 0, (S j), x, y. split; [lia|done].
    + intros (i & j & y & z & Hij & Hi & Hj & Hy & Hz). destruct j as [|j]; [lia|].
      assert (1 ≤ length (filter (λ x, b x = true) xs)) by (apply Hone; eauto). lia.
  - rewrite decide_False by done. rewrite IH. split.
    + intros (i & j & y & z & Hij & Hi & Hj & Hb). exists (S i), (S j), y, z. split; [lia|done].
    + intros (i & j & y & z & Hij & Hi & Hj & Hy & Hz). destruct j as [|j]; [lia|].
      destruct i as [|i]; [cbn in Hi; congruence|]. exists i, j, y, z. split; [lia|done].
Qed.

(** The check of the ranges, a sweep over their sorted boundaries, answers yes
    exactly when two of the methods share a version, as long as every range starts
    before it ends. *)
Theorem intersection_found l :
  well_ranged l →
  check_for_versions_intersection l = true ↔
  ∃ i j f g v, i < j ∧ l !! i = Some f ∧ l !! j = Some g ∧
    contains v f = true ∧ contains v g = true.
Proof.
  intros Hl. rewrite sweep_covers by done. split.
  - intros [v (i & j & f & g & Hij & Hf)%two_in_filter]. exists i, j, f, g, v. done.
  - intros (i & j & f & g & v & Hij & Hf). exists v. apply two_in_filter. exists i, j, f, g. done.
Qed.

(** *** Dispatch *)

(** The lists of methods a name can get. *)
Inductive accepted : list method → Prop :=
| accepted_nil : accepted []
| accepted_add lo hi f l l' :
    accepted l → api_version lo hi f l = Ok (Ok l') → accepted l'.

Lemma accepted_disjoint l v :
  accepted l → well_ranged l → length (filter (λ f, contains v f = true) l) ≤ 1.
Proof.
  destruct 1 as [|lo hi f l l' _ Hadd]; intros Hl; [cbn; lia|].
  unfold api_version, then_ in Hadd. destruct (from_string lo) as [vlo|]; [|done].
  destruct (from_string _) as [vhi|]; [|done].
  destruct (check_for_versions_intersection _) eqn:Hcheck; [done|]. injection Hadd as <-.
  assert (well_ranged (l ++ [mkMethod vlo vhi f])) as Hw.
  { intros g Hg. apply Hl. by rewrite (stable_sort_perm by_start_desc). }
  assert (filter (λ f, contains v f = true) (stable_sort by_start_desc (l ++ [mkMethod vlo vhi f]))
    ≡ₚ filter (λ f, contains v f = true) (l ++ [mkMethod vlo vhi f])) as ->
    by by rewrite (stable_sort_perm by_start_desc).
  destruct (decide (length (filter (λ f, contains v f = true) (l ++ [mkMethod vlo vhi f])) ≤ 1))
    as [?|Hmany]; [done|].
  exfalso. apply not_true_iff_false in Hcheck. apply Hcheck, sweep_covers; [done|]. exists v. lia.
Qed.

Lemma version_select_first v l :
  is_null v = false →
  version_select v l =
  match head (filter (λ f, contains v f = true) l) with
  | Some f => Ok (func f)
  | None => Raise HTTPNotAcceptable
  end.
Proof.
  intros Hv. induction l as [|f l IH]; [done|]. cbn [version_select]. unfold matches. rewrite Hv. cbn [then_].
  change (v_le _ _ && v_le _ _) with (contains v f). destruct (contains v f) eqn:Hf.
  - by rewrite filter_cons_True.
  - rewrite filter_cons_False by by rewrite Hf. exact IH.
Qed.

(** Whatever methods were registered under a name, a request is dispatched to
    the method whose range holds its version, which is the only one, and answers
    406 when there is none. *)
Theorem version_select_spec v l :
  accepted l → well_ranged l → is_null v = false →
  match version_select v l with
  | Ok f => ∃ m, m ∈ l ∧ func m = f ∧ contains v m = true ∧
              ∀ i j g h, l !! i = Some g → l !! j = Some h →
                contains v g = true → contains v h = true → i = j
  | Raise e => e = HTTPNotAcceptable ∧ ∀ m, m ∈ l → contains v m = false
  end.
Proof.
  intros Hacc Hl Hv. rewrite version_select_first by done.
  pose proof (accepted_disjoint l v Hacc Hl) as Hone.
  destruct (filter (λ f, contains v f = true) l) as [|f fs] eqn:Hfs; cbn.
  - split; [done|]. intros m Hm. apply not_true_iff_false. intros Hc.
    exact (filter_nil_not_elem_of _ _ _ Hfs Hc Hm).
  - assert (f ∈ filter (λ f, contains v f = true) l) as Hf by (rewrite Hfs; by left).
    apply list_elem_of_filter in Hf as [Hc Hin]. exists f. split_and!; [done..|].
    intros i j g h Hg Hh Hcg Hch. rewrite <- Hfs in Hone. 
    destruct (Nat.lt_trichotomy i j) as [Hij|[->|Hij]]; [|done|].
    + assert (2 ≤ length (filter (λ f, contains v f = true) l))
        by (apply two_in_filter; by exists i, j, g, h). lia.
    + assert (2 ≤ length (filter (λ f, contains v f = true) l))
        by (apply two_in_filter; by exists j, i, h, g). lia.
Qed.
End Overlap.

(** ** The router and the dispatch *)

(** The versions the service supports. *)
Definition supported (v : Version) : Prop := major v = 1%Z ∧ (1 ≤ minor v ≤ 40)%Z.

Lemma check_version_ok v : _check_version v = Ok tt ↔ supported v.
Proof.
  unfold _check_version, supported, BASE_VERSION. rewrite v_gt_lt. destruct (Z.eqb_spec (major v) 1) as [Hm|Hm]; cbn; [|naive_solver].
  destruct (v_lt v MIN_VER) eqn:Hlo; [|destruct (v_lt MAX_VER v) eqn:Hhi]; cbn;
    rewrite ?v_lt_spec in *; cbn in *.
  - split; [done|]. lia.
  - split; [done|]. lia.
  - apply not_true_iff_false in Hlo, Hhi. rewrite v_lt_spec in Hlo, Hhi. cbn in *. split; [lia|done].
Qed.

Lemma constants_parsed :
  parse_headers (Some MIN_VER_STR) MIN_VER_STR MAX_VER_STR = Ok MIN_VER ∧
  parse_headers (Some MAX_VER_STR) MIN_VER_STR MAX_VER_STR = Ok MAX_VER.
Proof. by vm_compute. Qed.

Lemma parse_headers_error h : parse_headers h MIN_VER_STR MAX_VER_STR ≠ Raise Value_Error.
Proof.
  unfold parse_headers. destruct (two_words _) as [[a b]|]; cbn; [|done].
  assert (two_words MAX_VER_STR = Some ("container", "1.40")) as -> by by vm_compute.
  case_decide; cbn; (case_decide; [|done]); by destruct (read_version _).
Qed.

Lemma route_version_spec h :
  match route_version h with Ok v => supported v | Raise e => e = HTTPNotAcceptable end.
Proof.
  unfold route_version. pose proof (parse_headers_error h) as Hp.
  destruct (parse_headers _ _ _) as [v|[]]; cbn; [|done..].
  destruct (_check_version v) as [[]|e] eqn:Hv; cbn; [by apply check_version_ok|].
  unfold _check_version in Hv. destruct (negb _); [by injection Hv|]. by destruct (_ || _); [injection Hv|].
Qed.

(** C38. Whatever the header of a request says, the router ends with 406 or with a
    version from 1.1 to 1.40, and for such a version the look-up of a versioned
    method never fails with a [ValueError]: it is a method or 406. *)
Theorem routed_dispatch {F} h (l : list (VersionedMethod F)) :
  match route_version h with
  | Ok v => supported v ∧ version_select v l ≠ Raise Value_Error ∧
      (∀ f, version_select v l = Ok f → ∃ m, m ∈ l ∧ func m = f ∧ contains v m = true)
  | Raise e => e = HTTPNotAcceptable
  end.
Proof.
  pose proof (route_version_spec h) as Hr. destruct (route_version h) as [v|e]; [|done].
  split; [done|]. destruct Hr as [Hmajor _].
  assert (is_null v = false) as Hnull by (unfold is_null; by rewrite Hmajor).
  rewrite version_select_first by done.
  destruct (filter (λ f, contains v f = true) l) as [|f fs] eqn:Hfs; cbn; [done|]. split; [done|].
  intros g [= <-]. exists f. assert (f ∈ filter (λ f, contains v f = true) l) as Hf by (rewrite Hfs; by left).
  apply list_elem_of_filter in Hf as [? ?]. done.
Qed.

(** ** The methods of the container controller *)

(** One name of [ContainersController] (src/zun/api/controllers/v1/containers.py):
    the ranges in the order of the file. *)
Definition post_ranges : list (string * option string) :=
  [("1.1", Some "1.19"); ("1.20", Some "1.35"); ("1.36", Some "1.38"); ("1.39", Some "1.39"); ("1.40", None)].

Definition register (ranges : list (string * option string))
    : web (outcome exn (list (VersionedMethod nat))) :=
  foldl (λ acc kr, then_ acc (λ r, match r with
    | Ok l => api_version kr.2.1 kr.2.2 kr.1 l | Raise e => Ok (Raise e) end))
    (Ok (Ok [])) (imap pair ranges).

Definition post_methods : list (VersionedMethod nat) :=
  match register post_ranges with Ok (Ok l) => l | _ => [] end.

Lemma post_methods_accepted : accepted post_methods.
Proof.
  assert (register post_ranges = Ok (Ok post_methods)) as H by by vm_compute.
  assert (∀ rs (acc l : list (VersionedMethod nat)), accepted acc →
    foldl (λ acc kr, then_ acc (λ r, match r with
      | Ok l => api_version kr.2.1 kr.2.2 kr.1 l | Raise e => Ok (Raise e) end)) (Ok (Ok acc)) rs = Ok (Ok l) →
    accepted l) as Hfold.
  { induction rs as [|[n [lo hi]] rs IH]; intros acc l Hacc Hl; cbn in Hl; [by injection Hl as <-|].
    destruct (api_version lo hi n acc) as [[acc'|e]|e] eqn:Hadd.
    - eapply IH; [by eapply accepted_add|exact Hl].
    - exfalso. clear -Hl. induction rs as [|? rs IH]; [done|]. by apply IH.
    - exfalso. clear -Hl. induction rs as [|? rs IH]; [done|]. by apply IH. }
  exact (Hfold _ [] _ accepted_nil H).
Qed.

Lemma post_methods_ranged : well_ranged post_methods.
Proof.
  assert (Forall (λ f, vle (start_version f) (end_version f)) post_methods) as Hall
    by (vm_compute; repeat constructor).
  intros f Hf. rewrite Forall_forall in Hall. by apply Hall.
Qed.

Lemma version_select_spec_witness :
  ∃ m, m ∈ post_methods ∧ func m = 2 ∧ contains (mkVersion 1 37) m = true.
Proof.
  pose proof (version_select_spec (mkVersion 1 37) post_methods post_methods_accepted post_methods_ranged
    eq_refl) as H.
  assert (version_select (mkVersion 1 37) post_methods = Ok 2) as Hs by by vm_compute.
  rewrite Hs in H. destruct H as (m & Hin & Hm & Hc & _). exists m. by split_and!.
Defined.

Lemma intersection_found_witness :
  ∃ i j f g v, i < j ∧ (post_methods ++ post_methods) !! i = Some f ∧
    (post_methods ++ post_methods) !! j = Some g ∧ contains v f = true ∧ contains v g = true.
Proof.
  apply intersection_found; [|by vm_compute].
  intros f [Hf|Hf]%elem_of_app; by apply post_methods_ranged.
Defined.

(** Every version the router lets through has its own method for creating a
    container. *)
Lemma post_total v : supported v → is_ok (version_select v post_methods) = true.
Proof.
  intros [Hmaj Hmin]. destruct v as [ma mi]. cbn in *. subst ma.
  assert (Forall (λ n : nat, is_ok (version_select (mkVersion 1 (Z.of_nat n)) post_methods) = true) (seq 1 40)) as Hall
    by (apply (bool_decide_unpack _); by vm_compute).
  rewrite Forall_forall in Hall. specialize (Hall (Z.to_nat mi)).
  rewrite Z2Nat.id in Hall by lia. apply Hall. apply elem_of_seq. lia.
Qed.

(** A range that ends before it starts is registered, and hides an overlap of
    others. *)
Lemma reversed_range_hides_overlap :
  register [("1.5", Some "1.2"); ("1.3", Some "1.4"); ("1.3", Some "1.4")] =
  Ok (Ok [mkMethod (mkVersion 1 5) (mkVersion 1 2) 0; mkMethod (mkVersion 1 3) (mkVersion 1 4) 1;
          mkMethod (mkVersion 1 3) (mkVersion 1 4) 2]).
Proof. by vm_compute. Qed.

(** The name of the service is not looked at when the latest version is asked for. *)
Lemma latest_of_any_service : route_version (Some "compute latest") = Ok MAX_VER.
Proof. by vm_compute. Qed.
