(* ===== verification/Services.v ===== *)
(** * What the API asks of Neutron and Cinder
    (src/zun/network/neutron.py, src/zun/volume/cinder_api.py)

    The clients of the two services are the class [Clients]; the look-ups by name
    or uuid and the checks that a port or a volume can be used are modelled on
    top of it. *)

From S2P Require Import Prelude Exceptions.

Record port : Type := mkPort {
  p_id : string;
  p_network_id : string;
  p_tenant_id : option string;
  p_device_id : option string;
  p_status : option string;
  p_vif_type : option string;
  p_vnic_type : option string
}.

(** The dates of creation are texts that sort as dates. *)
Record network : Type := mkNetwork {
  w_id : string;
  w_created_at : string;
  w_router_external : bool;
  w_shared : bool;
  w_physical_network : option string
}.

(** A Cinder volume; [cv_tenant] is [None] when the attribute is missing. *)
Record cinder_volume : Type := mkCinder {
  cv_id : string;
  cv_tenant : option string;
  cv_attachments : bool;
  cv_multiattach : bool
}.

(** The queries the code sends. *)
Inductive net_query : Type :=
| ById (i : string) | ByName (n : string) | OfTenant (project : option string) | SharedNets.

(** How a search that wants one result ends. *)
Inductive search (A : Type) : Type := Found (a : A) | NotFound_ | NoUniqueMatch.
Arguments Found {A} _.
Arguments NotFound_ {A}.
Arguments NoUniqueMatch {A}.

(** The search of a security group; an error of Neutron has a status. *)
Inductive sg_answer : Type := SgFound (id : string) | SgNoUniqueMatch | SgError (status : Z).

Class Clients (X : Type) : Type := {
  list_networks : net_query → X → list network * X;
  list_ports : net_query → X → list port * X;
  find_security_group : string → option string → X → sg_answer * X;
  show_port : string → py X port;
  show_network : string → py X network;
  volumes_get : string → X → search cinder_volume * X;
  volumes_find : string → X → search cinder_volume * X;
  volumes_create : string → X → option cinder_volume * X   (** [None] is a [ClientException] *)
}.

Section Services.
Context {X : Type} `{Clients X} (is_uuid_like : string → bool).
(** The project of the context. *)
Context (project : option string).

Definition query {A} (q : X → A * X) : py X A := λ s, let '(a, s') := q s in (Ok a, s').

(** One result, or an exception. *)
Definition the_one {A} (l : list A) (none : zun_class) : py X A :=
  match l with
  | [] => raise (Zun none)
  | [x] => ret x
  | _ => raise (Zun Conflict)
  end.

Definition get_neutron_network (n : string) : py X network :=
  let! networks := query (list_networks (if is_uuid_like n then ById n else ByName n)) in
  the_one networks NetworkNotFound.

Definition get_neutron_port (p : string) : py X port :=
  let! ports := query (list_ports (if is_uuid_like p then ById p else ByName p)) in
  the_one ports PortNotFound.

Definition created_before (m n : network) : Prop := w_created_at m = w_created_at n ∨
  String.ltb (w_created_at m) (w_created_at n) = true.
#[local] Instance created_before_dec : RelDecision created_before.
Proof. intros m n. unfold created_before. apply _. Defined.

(** The networks of the project that are not shared, or else the shared ones;
    the oldest. *)
Definition get_available_network : py X network :=
  let! own := query (list_networks (OfTenant project)) in
  let! nets := (match own with [] => query (list_networks SharedNets) | _ => ret own end) in
  of_option (head (stable_sort created_before nets)) (Zun Conflict).

Definition ensure_neutron_port_usable (p : port) : py X unit :=
  raise_if (bool_decide (p_tenant_id p ≠ project)) (Zun PortNotUsable);;;
  raise_if (ostr_true (p_device_id p)) (Zun PortInUse);;;
  raise_if (bool_decide (p_status p ∈ Some <$> ["ACTIVE"; "BUILD"; "ERROR"])) (Zun PortNotUsable);;;
  raise_if (bool_decide (p_vif_type p = Some "binding_failed")) (Zun PortBindingFailed).

Definition search_volume (v : string) : py X cinder_volume :=
  if is_uuid_like v then
    let! r := query (volumes_get v) in
    match r with Found v => ret v | NotFound_ => raise (Zun VolumeNotFound) | NoUniqueMatch => raise (Py OtherException) end
  else
    let! r := query (volumes_find v) in
    match r with Found v => ret v | NotFound_ => raise (Zun VolumeNotFound) | NoUniqueMatch => raise (Zun Conflict) end.

Definition ensure_volume_usable (v : cinder_volume) : py X unit :=
  raise_if (match cv_tenant v with Some t => bool_decide (Some t ≠ project) | None => false end)
    (Zun VolumeNotUsable);;;
  raise_if (cv_attachments v && negb (cv_multiattach v)) (Zun VolumeInUse).

Definition create_volume (size : string) : py X cinder_volume :=
  let! v := query (volumes_create size) in of_option v (Zun VolumeCreateFailed).
End Services.

(** A port that may be used belongs to the project, is not attached and is not in
    a state of use; nothing is changed by asking. *)
Lemma port_usable {X} project p (s : X) s' :
  ensure_neutron_port_usable project p s = (Ok tt, s') ↔
  s' = s ∧ p_tenant_id p = project ∧ ostr_true (p_device_id p) = false ∧
  p_status p ∉ Some <$> ["ACTIVE"; "BUILD"; "ERROR"] ∧ p_vif_type p ≠ Some "binding_failed".
Proof.
  unfold ensure_neutron_port_usable, raise_if.
  destruct (bool_decide (p_tenant_id p ≠ project)) eqn:Ht; steps;
    [apply bool_decide_eq_true in Ht; naive_solver|apply bool_decide_eq_false, dec_stable in Ht].
  destruct (ostr_true (p_device_id p)) eqn:Hd; steps; [naive_solver|].
  destruct (bool_decide (p_status p ∈ _)) eqn:Hs; steps;
    [apply bool_decide_eq_true in Hs; naive_solver|apply bool_decide_eq_false in Hs].
  destruct (bool_decide (p_vif_type p = _)) eqn:Hv;
    [apply bool_decide_eq_true in Hv; cbn; naive_solver|apply bool_decide_eq_false in Hv].
  unfold ret. split; [by intros [= <-]|by intros (-> & _)].
Qed.
