(* ===== verification/ApiState.v ===== *)
(** * What the API service works on

    The context of a request, the queries on the table of containers that it
    restricts (src/zun/db/sqlalchemy/api.py, src/zun/objects/container.py), the
    policy checks, the messages sent to the compute services, and the services
    outside the repository (Neutron, Cinder).

    The tables of the quotas ([Quota.qdb]) enclose the state [api], which
    encloses the state the scheduler works on ([Scheduler.world]). *)

From stdpp Require Import pretty.
From Stdlib Require Import Ascii.
From S2P Require Import Prelude Exceptions PyStr Quota PciStats Container ComputeNode Claims.
From S2P Require Import ResourceRequest HostFilters Scheduler Volumes Versions Services.

(** ** The request *)

(** [RequestContext] (src/zun/common/context.py) *)
Record context : Type := mkContext {
  c_project_id : option string;
  c_user_id : option string;
  c_is_admin : bool;
  c_all_projects : bool
}.

Definition with_all_projects (c : context) : context :=
  mkContext (c_project_id c) (c_user_id c) (c_is_admin c) true.

(** The object a policy rule is checked against: its owners. *)
Record target : Type := mkTarget { t_project_id : option string; t_user_id : option string }.

Definition default_target (c : context) : target := mkTarget (c_project_id c) (c_user_id c).
Definition as_dict (c : container) : target := mkTarget (project_id c) (user_id c).

(** [_add_project_filters], on the owners of a row *)
Definition project_filter (ctx : context) (project user : option string) : bool :=
  if c_is_admin ctx && c_all_projects ctx then true
  else if ostr_true (c_project_id ctx) then bool_decide (project = c_project_id ctx)
  else bool_decide (user = c_user_id ctx).

Definition visible (ctx : context) (c : container) : bool :=
  project_filter ctx (project_id c) (user_id c).

(** ** Requested networks, PCI devices and volumes *)

Record net_request : Type := mkNet {
  n_network : string;
  n_port : string;
  n_router_external : bool;
  n_shared : bool;
  n_fixed_ip : string;
  n_preserve_on_delete : bool;
  n_pci_request_id : option string
}.

(** A row of the table [volume]; ids count up. *)
Record volume_row : Type := mkVolumeRow {
  v_id : nat;
  v_cinder_volume_id : option string;
  v_provider : option string;
  v_auto_remove : bool;
  v_contents : option string
}.

(** A volume mapping not yet stored: its volume, and where it is mounted. *)
Record volmapp : Type := mkVolmapp { m_volume : volume_row; m_container_path : string }.

(** ** Messages to the compute services (src/zun/compute/rpcapi.py) *)

(** A container is serialised when the message is sent. *)
Inductive rpc_request : Type :=
| container_create (c : container) (lims : limits) (nets : list net_request)
    (vols : list volmapp) (run : bool) (pci_requests : option (list request))
| container_delete (c : container) (force : bool)
| container_show (c : container)
| container_rebuild (c : container) (run : bool)
| container_reboot (c : container) (timeout : option string)
| container_stop (c : container) (timeout : option string)
| container_start (c : container)
| container_pause (c : container)
| container_unpause (c : container)
| container_logs (c : container) (stdout stderr timestamps : bool) (tail : string) (since : option string)
| container_exec (c : container) (command : string) (run interactive : bool)
| container_exec_resize (exec_id : string) (height width : option string)
| container_kill (c : container) (signal : option string)
| container_update (c : container) (p : patch)
| resize_container (c : container) (p : patch)
| container_attach (c : container)
| container_resize (c : container) (height width : option string)
| container_top (c : container) (ps_args : option string)
| container_get_archive (c : container) (path : string) (encode_data : bool)
| container_put_archive (c : container) (path data : string) (decode_data : bool)
| container_stats (c : container)
| container_commit (c : container) (repository tag : option string)
| add_security_group (c : container) (group : string)
| remove_security_group (c : container) (group : string)
| image_delete (image : string)
| image_pull (image : string)
| image_search (image image_driver : option string) (exact_match : bool)
| network_detach (c : container) (network : string)
| network_attach (c : container) (net : net_request)
| network_create (neutron_net_id : string)
| network_delete (network : string).

(** What a compute service answers to a call. *)
Record exec_data : Type := mkExec { e_token : option string; e_exec_id : option string; e_output : string }.

Definition reply (q : rpc_request) : Type :=
  match q with
  | container_show _ | container_update _ _ => container
  | container_logs _ _ _ _ _ _ | container_attach _ | container_top _ _ | container_stats _
  | container_commit _ _ _ => string
  | container_exec _ _ _ _ => exec_data
  | container_get_archive _ _ _ => (string * string)%type
  | image_search _ _ _ => list string
  | network_create _ => string
  | _ => unit
  end.

(** [Cast] does not wait for an answer. *)
Inductive kind : Type := Cast | Call.

Record message : Type := mkMessage { m_server : option string; m_kind : kind; m_request : rpc_request }.

(** The container a message is about. *)
Definition about (q : rpc_request) : option container :=
  match q with
  | container_create c _ _ _ _ _ | container_delete c _ | container_show c | container_rebuild c _
  | container_reboot c _ | container_stop c _ | container_start c | container_pause c
  | container_unpause c | container_logs c _ _ _ _ _ | container_exec c _ _ _ | container_kill c _
  | container_update c _ | resize_container c _ | container_attach c | container_resize c _ _
  | container_top c _ | container_get_archive c _ _ | container_put_archive c _ _ _
  | container_stats c | container_commit c _ _ | add_security_group c _ | remove_security_group c _
  | network_detach c _ | network_attach c _ => Some c
  | _ => None
  end.

Definition concerns (p : string) (m : message) : Prop :=
  ∀ c, about (m_request m) = Some c → project_id c = Some p.

(** The remote end: its answer to a call after the messages sent before. *)
Class Remote : Type := answer : ∀ q : rpc_request, list message → outcome exn (reply q).

(** ** The state *)

Record api (P X : Type) : Type := mkApi {
  a_ctx : context;
  a_world : world P;
  a_sent : list message;
  a_actions : list (string * string);      (** container, action *)
  a_volumes : list volume_row;
  a_mappings : list (nat * target);        (** volume, owners of the mapping *)
  a_ext : X
}.
Arguments mkApi {P X} _ _ _ _ _ _ _.
Arguments a_ctx {P X} _.
Arguments a_world {P X} _.
Arguments a_sent {P X} _.
Arguments a_actions {P X} _.
Arguments a_volumes {P X} _.
Arguments a_mappings {P X} _.
Arguments a_ext {P X} _.

(** ** Operations on the state *)

(** The options the API reads, and what is outside the model: the rules of the
    policy file, uuids, text that reads as a boolean, and [float] on texts. *)
Record api_conf : Type := mkApiConf {
  unique_container_name_scope : string;
  enable_image_validation : bool;
  default_image_driver : string;
  image_driver_list : list string;
  conf_default_memory : Z;
  conf_default_cpu : Qc;
  max_limit : Z;
  proxy_base_url : string
}.

Section State.
Context {P X : Type} (allowed : context → string → target → bool).
Context (conf : api_conf) (is_uuid_like : string → bool) (new_uuid : Container.store → string).

Abbreviation AS := (qdb (api P X)).

Definition on_api {A} : py (api P X) A → py AS A :=
  zoom others (λ a s, mkQdb (quotas s) (quota_classes s) a).
Definition set_ctx (c : context) (a : api P X) : api P X :=
  mkApi c (a_world a) (a_sent a) (a_actions a) (a_volumes a) (a_mappings a) (a_ext a).
Definition set_world (w : world P) (a : api P X) : api P X :=
  mkApi (a_ctx a) w (a_sent a) (a_actions a) (a_volumes a) (a_mappings a) (a_ext a).
Definition set_sent (l : list message) (a : api P X) : api P X :=
  mkApi (a_ctx a) (a_world a) l (a_actions a) (a_volumes a) (a_mappings a) (a_ext a).
Definition set_actions (l : list (string * string)) (a : api P X) : api P X :=
  mkApi (a_ctx a) (a_world a) (a_sent a) l (a_volumes a) (a_mappings a) (a_ext a).
Definition set_volumes (l : list volume_row) (a : api P X) : api P X :=
  mkApi (a_ctx a) (a_world a) (a_sent a) (a_actions a) l (a_mappings a) (a_ext a).
Definition set_ext (x : X) (a : api P X) : api P X :=
  mkApi (a_ctx a) (a_world a) (a_sent a) (a_actions a) (a_volumes a) (a_mappings a) x.

Definition on_world {A} (m : py (world P) A) : py AS A := on_api (zoom a_world set_world m).
Definition on_store {A} (m : py Container.store A) : py AS A :=
  on_world (zoom w_store
    (λ st w, mkWorld (w_nodes w) (w_services w) st (w_placement w) (w_traits_ensured w)) m).
Definition on_nodes {A} (m : py ComputeNode.table A) : py AS A :=
  on_world (zoom w_nodes
    (λ t w, mkWorld t (w_services w) (w_store w) (w_placement w) (w_traits_ensured w)) m).
Definition on_ext {A} (m : py X A) : py AS A := on_api (zoom a_ext set_ext m).

Definition ctx : py AS context := gets (λ s, a_ctx (others s)).
Definition the (r : nat) : py AS container := on_store (Container.read r).
Definition mut (r : nat) (f : container → container) : py AS unit := on_store (Container.mutate r f).

(** *** Policy *)

(** [policy.enforce]; without a target, that of the context *)
Definition enforce (action : string) (t : option target) : py AS unit :=
  let! c := ctx in
  raise_if (negb (allowed c action (default (default_target c) t))) (Zun PolicyNotAuthorized).

Definition check_policy_on_container (r : nat) (action : string) : py AS unit :=
  let! c := the r in enforce action (Some (as_dict c)).

(** [context.can(action, fatal=False)] *)
Definition can (action : string) : py AS bool :=
  let! c := ctx in ret (allowed c action (default_target c)).

(** *** The table of containers *)

Definition store_of (s : AS) : Container.store := w_store (a_world (others s)).

(** The rows a query of the request sees. *)
Definition seen (c : context) (t : ContainerType) (l : list container) : list container :=
  filter (λ x, visible c x && bool_decide (ctype x = t) = true) l.

Definition get_container_by_uuid (t : ContainerType) (u : string) : py AS container :=
  let! c := ctx in
  let! st := gets store_of in
  match filter (λ x, Container.uuid x = u) (seen c t (dvalues (rows st))) with
  | [x] => ret x
  | _ => raise (Zun ContainerNotFound)
  end.

Definition get_container_by_name (t : ContainerType) (n : string) : py AS container :=
  let! c := ctx in
  let! st := gets store_of in
  match filter (λ x, Container.name x = Some n) (seen c t (dvalues (rows st))) with
  | [] => raise (Zun ContainerNotFound)
  | [x] => ret x
  | _ => raise (Zun Conflict)
  end.

(** [api_utils.get_resource('Container', ident)]: the row becomes a new object. *)
Definition get_resource (resource_ident : string) : py AS nat :=
  let! c := ctx in
  (if c_is_admin c then on_api (modify (set_ctx (with_all_projects c))) else ret tt);;;
  let! x := (if is_uuid_like resource_ident then get_container_by_uuid TYPE_CONTAINER resource_ident
             else get_container_by_name TYPE_CONTAINER resource_ident) in
  on_store (Container.alloc x).

Definition _validate_unique_container_name (n : string) : py AS unit :=
  let! c := ctx in
  let! st := gets store_of in
  let same := filter (λ x, lower <$> Container.name x = Some (lower n)) (dvalues (rows st)) in
  let scope := unique_container_name_scope conf in
  let clash := if String.eqb scope "project"
               then filter (λ x, project_id x = c_project_id c) same
               else if String.eqb scope "global" then same else [] in
  raise_if (negb (bool_decide (clash = []))) (Zun ContainerAlreadyExists).

(** [Container.create]: the row gets a uuid, and the object the row. *)
Definition create (r : nat) : py AS unit :=
  let! c := the r in
  (if ostr_true (Container.name c) then _validate_unique_container_name (default "" (Container.name c))
   else ret tt);;;
  let! st := gets store_of in
  let u := new_uuid st in
  raise_if (dhas (rows st) u) (Zun ContainerAlreadyExists);;;
  let row := set_uuid u (set_cpuset (Some (cpuset_from_dict None)) c) in
  on_store (modify (λ st, mkStore (alter (λ _, row) r (objects st)) (rows st ++ [(u, row)]))).

(** [container.save] when the name is among the changes, and otherwise *)
Definition save_named (r : nat) : py AS unit :=
  let! c := the r in
  on_store (convert_cpuset c);;;
  _validate_unique_container_name (default "" (Container.name c));;;
  on_store (Container.save r).
Definition save (r : nat) : py AS unit := on_store (Container.save r).
Definition destroy (r : nat) : py AS unit := on_store (Container.destroy r).
End State.
