(* ===== verification/ComputeApi.v ===== *)
(** * The compute API (src/zun/compute/api.py, src/zun/compute/rpcapi.py)

    [Rpc] is the client side of the messages to the compute services; some of its
    methods first check that the service of the container's host is up.
    [Compute] is what the controllers call: it records an action and forwards,
    and creates a container by way of the scheduler. *)

From S2P Require Import Prelude Exceptions PyStr Quota PciStats Container ComputeNode Claims.
From S2P Require Import ResourceRequest HostFilters Scheduler Volumes Versions Services ApiState.

(** ** The messages *)

Module Rpc.
Section Rpc.
Context {P X : Type} `{Remote} (sched : sched_conf).
Abbreviation AS := (qdb (api P X)).

Definition send (m : message) : py AS unit :=
  on_api (modify (λ a, set_sent (a_sent a ++ [m]) a)).

Definition _cast (server : option string) (q : rpc_request) : py AS unit :=
  send (mkMessage server Cast q).

Definition _call (server : option string) (q : rpc_request) : py AS (reply q) :=
  let! sent := gets (λ s, a_sent (others s)) in
  send (mkMessage server Call q);;;
  match answer q sent with Ok a => ret a | Raise e => raise e end.

(** [@check_container_host] *)
Definition check_container_host {A} (r : nat) (func : py AS A) : py AS A :=
  let! services := gets (λ s, w_services (a_world (others s))) in
  let! up_hosts := map_m (λ s, let! up := service_is_up sched s in ret (s_host s, up)) services in
  let! c := the r in
  raise_if (match Container.host c with
            | Some h => negb (bool_decide ((h, true) ∈ up_hosts))
            | None => false
            end) (Zun ContainerHostNotUp);;;
  func.

(** To the host of the container, whose state is sent along. *)
Definition cast_container (r : nat) (q : container → rpc_request) : py AS unit :=
  let! c := the r in _cast (Container.host c) (q c).


Definition container_create (h : string) (r : nat) (lims : limits) (nets : list net_request)
    (vols : list volmapp) (run : bool) (pci_requests : option (list request)) : py AS unit :=
  let! c := the r in
  _cast (Some h) (ApiState.container_create c lims nets vols run pci_requests).

Definition container_delete (r : nat) (force : bool) : py AS unit :=
  check_container_host r (cast_container r (λ c, ApiState.container_delete c force)).

Definition container_show (r : nat) : py AS container :=
  check_container_host r (let! c := the r in _call (Container.host c) (ApiState.container_show c)).

Definition container_rebuild (r : nat) (run : bool) : py AS unit :=
  cast_container r (λ c, ApiState.container_rebuild c run).
Definition container_reboot (r : nat) (timeout : option string) : py AS unit :=
  cast_container r (λ c, ApiState.container_reboot c timeout).
Definition container_stop (r : nat) (timeout : option string) : py AS unit :=
  cast_container r (λ c, ApiState.container_stop c timeout).
Definition container_start (r : nat) : py AS unit := cast_container r ApiState.container_start.
Definition container_pause (r : nat) : py AS unit := cast_container r ApiState.container_pause.
Definition container_unpause (r : nat) : py AS unit := cast_container r ApiState.container_unpause.

Definition container_logs (r : nat) (stdout stderr timestamps : bool) (tail : string)
    (since : option string) : py AS string :=
  check_container_host r (let! c := the r in
    _call (Container.host c) (ApiState.container_logs c stdout stderr timestamps tail since)).
Definition container_exec (r : nat) (command : string) (run interactive : bool) : py AS exec_data :=
  check_container_host r (let! c := the r in
    _call (Container.host c) (ApiState.container_exec c command run interactive)).
Definition container_exec_resize (r : nat) (exec_id : string) (height width : option string)
    : py AS unit :=
  check_container_host r (let! c := the r in
    _call (Container.host c) (ApiState.container_exec_resize exec_id height width)).
Definition container_kill (r : nat) (signal : option string) : py AS unit :=
  cast_container r (λ c, ApiState.container_kill c signal).
Definition container_update (r : nat) (p : patch) : py AS container :=
  check_container_host r (let! c := the r in _call (Container.host c) (ApiState.container_update c p)).
Definition resize_container (r : nat) (p : patch) : py AS unit :=
  cast_container r (λ c, ApiState.resize_container c p).
Definition container_attach (r : nat) : py AS string :=
  check_container_host r (let! c := the r in _call (Container.host c) (ApiState.container_attach c)).
Definition container_resize (r : nat) (height width : option string) : py AS unit :=
  check_container_host r (let! c := the r in
    _call (Container.host c) (ApiState.container_resize c height width)).
Definition container_top (r : nat) (ps_args : option string) : py AS string :=
  check_container_host r (let! c := the r in _call (Container.host c) (ApiState.container_top c ps_args)).
Definition container_get_archive (r : nat) (path : string) (encode_data : bool)
    : py AS (string * string) :=
  check_container_host r (let! c := the r in
    _call (Container.host c) (ApiState.container_get_archive c path encode_data)).
Definition container_put_archive (r : nat) (path data : string) (decode_data : bool) : py AS unit :=
  check_container_host r (let! c := the r in
    _call (Container.host c) (ApiState.container_put_archive c path data decode_data)).
Definition container_stats (r : nat) : py AS string :=
  check_container_host r (let! c := the r in _call (Container.host c) (ApiState.container_stats c)).
Definition container_commit (r : nat) (repository tag : option string) : py AS string :=
  check_container_host r (let! c := the r in
    _call (Container.host c) (ApiState.container_commit c repository tag)).

Definition add_security_group (r : nat) (group : string) : py AS unit :=
  cast_container r (λ c, ApiState.add_security_group c group).
Definition remove_security_group (r : nat) (group : string) : py AS unit :=
  cast_container r (λ c, ApiState.remove_security_group c group).

(** An image is known by its uuid here. *)
Definition image_delete (image : string) (h : option string) : py AS unit :=
  _cast h (ApiState.image_delete image).
Definition image_pull (image : string) (h : option string) : py AS unit :=
  _cast h (ApiState.image_pull image).
Definition image_search (image image_driver : option string) (exact_match : bool)
    (h : option string) : py AS (list string) :=
  _call h (ApiState.image_search image image_driver exact_match).

Definition network_detach (r : nat) (net : string) : py AS unit :=
  cast_container r (λ c, ApiState.network_detach c net).
Definition network_attach (r : nat) (net : net_request) : py AS unit :=
  cast_container r (λ c, ApiState.network_attach c net).
Definition network_create (neutron_net_id : string) : py AS string :=
  _call None (ApiState.network_create neutron_net_id).
Definition network_delete (net : string) : py AS unit :=
  _call None (ApiState.network_delete net).
End Rpc.
End Rpc.

(** ** The API of the controllers *)

Module Compute.
Section Compute.
Context {P X : Type} `{Remote} `{Scheduler.PlacementClient P} (sched : sched_conf) (conf : api_conf).
(** The settings of the scheduler and its client. *)
Context (enabled_filters : list filter_class) (standards : list string) (max_placement_results : Z)
  (sched_driver : Scheduler.driver).
Abbreviation AS := (qdb (api P X)).

(** [except Exception] *)
Definition except_any {A} (m : py AS A) (handler : exn → py AS A) : py AS A :=
  try_except m (λ e, if caught e then Some (handler e) else None).

Definition _record_action_start (r : nat) (action : string) : py AS unit :=
  let! c := the r in
  on_api (modify (λ a, set_actions (a_actions a ++ [(Container.uuid c, action)]) a)).

(** [VolumeMapping._destroy_volume] (src/zun/objects/volume_mapping.py) *)
Definition _destroy_volume (v : volmapp) : py AS unit :=
  let! c := ctx in
  let! a := gets others in
  let id := v_id (m_volume v) in
  let mappings := filter (λ m, m.1 = id ∧ project_filter c (t_project_id m.2) (t_user_id m.2) = true)
    (a_mappings a) in
  match mappings with
  | [] =>
      raise_if (negb (existsb (λ w, Nat.eqb (v_id w) id) (a_volumes a))) (Zun VolumeNotFound);;;
      on_api (modify (λ a, set_volumes (filter (λ w, v_id w ≠ id) (a_volumes a)) a))
  | _ => ret tt
  end.

Definition _validate_host (r : nat) (h : string) (requested_volumes : list volmapp) : py AS unit :=
  if str_true h then
    try_except (let! _n := on_nodes (ComputeNode.get_by_name h) in ret tt)
      (λ e, if isinstance e ComputeNodeNotFound then Some (
         destroy r;;;
         for_each (λ v, try_except (_destroy_volume v)
           (λ e, if isinstance e VolumeNotFound then Some (ret tt) else None)) requested_volumes;;;
         raise (Zun RequestedHostNotFound)) else None)
  else ret tt.

Definition _schedule_container (r : nat) (xs : extra_specs) : py AS destination :=
  let! dests := on_world (client_select_destinations sched enabled_filters standards
    max_placement_results (conf_default_cpu conf) (conf_default_memory conf) sched_driver [r] xs) in
  of_option (head dests) (Py IndexError).

(** The status of the container after the failure of its scheduling. *)
Definition fail_scheduling (r : nat) : py AS unit := mut r (set_status (Some ERROR));;; save r.

(** The name of the image is searched on the chosen host; the registry of the
    image is left out. *)
Definition validate_image (r : nat) (h : string) : py AS unit :=
  try_except
    (let! c := the r in
     let! images := Rpc.image_search (Container.image c) (Container.image_driver c) true (Some h) in
     raise_if (bool_decide (images = [])) (Zun ImageNotFound);;;
     raise_if (1 <? length images) (Zun Conflict))
    (λ e, if isinstance e OperationNotSupported then Some (ret tt)
          else if isinstance e ReferenceInvalidFormat then Some (raise (Zun InvalidValue))
          else if caught e then Some (ret tt) else None).

Definition container_create (r : nat) (xs : extra_specs) (nets : list net_request)
    (vols : list volmapp) (run : bool) (pci_requests : option (list request)) : py AS unit :=
  let requested_host := xs_requested_host xs in
  (if ostr_true requested_host then _validate_host r (default "" requested_host) vols else ret tt);;;
  let! host_state := try_except (let! d := _schedule_container r xs in ret (Some d))
    (λ e, if isinstance e NoValidHost then Some (fail_scheduling r;;; ret None)
          else if caught e then Some (fail_scheduling r;;; raise e) else None) in
  match host_state with
  | None => ret tt
  | Some d =>
      (if enable_image_validation conf then validate_image r (d_host d) else ret tt);;;
      _record_action_start r "create";;;
      Rpc.container_create (d_host d) r (d_limits d) nets vols run pci_requests
  end.

Definition container_delete (r : nat) (force : bool) : py AS unit :=
  _record_action_start r "delete";;; Rpc.container_delete sched r force.
Definition container_show (r : nat) : py AS container := Rpc.container_show sched r.
Definition container_rebuild (r : nat) (run : bool) : py AS unit :=
  _record_action_start r "rebuild";;; Rpc.container_rebuild r run.
Definition container_reboot (r : nat) (timeout : option string) : py AS unit :=
  _record_action_start r "reboot";;; Rpc.container_reboot r timeout.
Definition container_stop (r : nat) (timeout : option string) : py AS unit :=
  _record_action_start r "stop";;; Rpc.container_stop r timeout.
Definition container_start (r : nat) : py AS unit :=
  _record_action_start r "start";;; Rpc.container_start r.
Definition container_pause (r : nat) : py AS unit :=
  _record_action_start r "pause";;; Rpc.container_pause r.
Definition container_unpause (r : nat) : py AS unit :=
  _record_action_start r "unpause";;; Rpc.container_unpause r.
Definition container_logs (r : nat) (stdout stderr timestamps : bool) (tail : string)
    (since : option string) : py AS string :=
  Rpc.container_logs sched r stdout stderr timestamps tail since.

(** The answer without its token, and the url of the proxy. *)
Definition container_exec (r : nat) (command : string) (run interactive : bool)
    : py AS (exec_data * option string) :=
  let! data := Rpc.container_exec sched r command run interactive in
  let! c := the r in
  let data' := mkExec None (e_exec_id data) (e_output data) in
  ret (data', if ostr_true (e_token data)
    then Some (proxy_base_url conf +:+ "?token=" +:+ default "" (e_token data) +:+ "&uuid=" +:+
               Container.uuid c +:+ "&exec_id=" +:+ default "None" (e_exec_id data))%string
    else None).

Definition container_exec_resize (r : nat) (exec_id : string) (height width : option string)
    : py AS unit := Rpc.container_exec_resize sched r exec_id height width.
Definition container_kill (r : nat) (signal : option string) : py AS unit :=
  _record_action_start r "kill";;; Rpc.container_kill r signal.
Definition container_update (r : nat) (p : patch) : py AS container := Rpc.container_update sched r p.

Definition container_attach (r : nat) : py AS string :=
  let! token := Rpc.container_attach sched r in
  let! c := the r in
  ret (proxy_base_url conf +:+ "?token=" +:+ token +:+ "&uuid=" +:+ Container.uuid c)%string.

Definition container_resize (r : nat) (height width : option string) : py AS unit :=
  Rpc.container_resize sched r height width.
Definition container_top (r : nat) (ps_args : option string) : py AS string :=
  Rpc.container_top sched r ps_args.
Definition container_get_archive (r : nat) (path : string) (encode_data : bool)
    : py AS (string * string) := Rpc.container_get_archive sched r path encode_data.
Definition add_security_group (r : nat) (group : string) : py AS unit :=
  _record_action_start r "add_security_group";;; Rpc.add_security_group r group.
Definition remove_security_group (r : nat) (group : string) : py AS unit :=
  _record_action_start r "remove_security_group";;; Rpc.remove_security_group r group.
Definition container_put_archive (r : nat) (path data : string) (decode_data : bool) : py AS unit :=
  Rpc.container_put_archive sched r path data decode_data.
Definition container_stats (r : nat) : py AS string := Rpc.container_stats sched r.
Definition container_commit (r : nat) (repository tag : option string) : py AS string :=
  _record_action_start r "commit";;; Rpc.container_commit sched r repository tag.

Definition image_delete (image : string) (h : option string) : py AS unit := Rpc.image_delete image h.
Definition image_pull (image : string) (h : option string) : py AS unit := Rpc.image_pull image h.
Definition image_search (image image_driver : option string) (exact_match : bool)
    (h : option string) : py AS (list string) := Rpc.image_search image image_driver exact_match h.

Definition network_detach (r : nat) (net : string) : py AS unit :=
  _record_action_start r "network_detach";;; Rpc.network_detach r net.
Definition network_attach (r : nat) (net : net_request) : py AS unit :=
  _record_action_start r "network_attach";;; Rpc.network_attach r net.
Definition network_create (neutron_net_id : string) : py AS string := Rpc.network_create neutron_net_id.
Definition network_delete (net : string) : py AS unit := Rpc.network_delete net.
Definition resize_container (r : nat) (p : patch) : py AS unit := Rpc.resize_container r p.
End Compute.
End Compute.

(** ** The outcome of a creation *)

Section Creation.
Context {P X : Type} `{Remote} `{Scheduler.PlacementClient P} (sched : sched_conf) (conf : api_conf).
Context (enabled_filters : list filter_class) (standards : list string) (max_placement_results : Z)
  (sched_driver : Scheduler.driver).
Abbreviation AS := (qdb (api P X)).
Abbreviation schedule := (Compute._schedule_container (X:=X) sched conf enabled_filters standards
  max_placement_results sched_driver).
Abbreviation create_container := (Compute.container_create sched conf enabled_filters standards
  max_placement_results sched_driver).
Implicit Types s : AS.

Definition with_store (st : Container.store) s : AS :=
  let w := a_world (others s) in
  mkQdb (quotas s) (quota_classes s)
    (set_world (mkWorld (w_nodes w) (w_services w) st (w_placement w) (w_traits_ensured w)) (others s)).
Definition with_sent (l : list message) s : AS :=
  mkQdb (quotas s) (quota_classes s) (set_sent (a_sent (others s) ++ l) (others s)).
Definition with_action (a : string * string) s : AS :=
  mkQdb (quotas s) (quota_classes s) (set_actions (a_actions (others s) ++ [a]) (others s)).

Lemma on_store_run {A} (m : py Container.store A) s :
  on_store m s = ((m (store_of s)).1, with_store (m (store_of s)).2 s).
Proof. unfold on_store, on_world, on_api, zoom, store_of. by destruct (m (w_store (a_world (others s)))). Qed.

Lemma with_store_id s : with_store (store_of s) s = s.
Proof. by destruct s as [qs cs [? [] ? ? ? ? ?]]. Qed.

Lemma object_run r s : the r s = (Ok (obj (store_of s) r), s).
Proof. unfold the. rewrite on_store_run. cbn. by rewrite with_store_id. Qed.

(** What scheduling leaves as it was. *)
Record scheduled s s' : Prop := mkScheduled {
  scheduled_quotas : quotas s' = quotas s;
  scheduled_classes : quota_classes s' = quota_classes s;
  scheduled_ctx : a_ctx (others s') = a_ctx (others s);
  scheduled_sent : a_sent (others s') = a_sent (others s);
  scheduled_actions : a_actions (others s') = a_actions (others s);
  scheduled_volumes : a_volumes (others s') = a_volumes (others s);
  scheduled_mappings : a_mappings (others s') = a_mappings (others s);
  scheduled_ext : a_ext (others s') = a_ext (others s);
  scheduled_world : same_world (a_world (others s)) (a_world (others s'))
}.

Lemma on_world_scheduled {A} (m : py (world P) A) :
  keeps same_world m → keeps scheduled (on_world (X:=X) m).
Proof.
  intros Hm s o s'. unfold on_world, on_api, zoom. destruct (m _) as [o1 w] eqn:Hw.
  intros [= _ <-]. split; try done. exact (Hm _ _ _ Hw).
Qed.

Lemma schedule_container_same r xs : keeps scheduled (schedule r xs).
Proof.
  unfold Compute._schedule_container. intros s o s' Hrun. unfold bind in Hrun.
  destruct (on_world _ s) as [[ds|e] s1] eqn:Hw; (apply on_world_scheduled in Hw; [|apply select_same]).
  - destruct (head ds); by injection Hrun as _ <-.
  - by injection Hrun as _ <-.
Qed.

Lemma same_store_saveable st st' r : same_store st st' → saveable st r → saveable st' r.
Proof.
  intros (Hrows & _ & Hobj) [Hr Hc]. specialize (Hobj r).
  assert (Container.uuid (obj st' r) = Container.uuid (obj st r) ∧ ctype (obj st' r) = ctype (obj st r) ∧
          Container.cpuset (obj st' r) = Container.cpuset (obj st r)) as (Hu & Ht & Hs).
  { destruct (obj st' r), (obj st r). cbn in *. by simplify_eq. }
  unfold saveable, find_row, convert_cpuset in *. by rewrite Hrows, Hu, Ht, Hs.
Qed.

Lemma fail_scheduling_run r s :
  saveable (store_of s) r →
  Compute.fail_scheduling r s = (Ok tt, with_store (write r (set_status (Some ERROR)) (store_of s)) s).
Proof.
  intros Hs. unfold Compute.fail_scheduling, mut, save.
  pose proof (mutate_save_run r (set_status (Some ERROR)) (store_of s) Hs (plain_status _)) as Hrun.
  unfold bind in Hrun. unfold bind. rewrite on_store_run. unfold Container.mutate, modify in *. cbn [fst snd] in *.
  rewrite on_store_run.
  change (store_of (with_store ?st s)) with st. rewrite Hrun. reflexivity.
Qed.
Lemma send_run m s : Rpc.send m s = (Ok tt, with_sent [m] s).
Proof. done. Qed.

Lemma record_run r a s :
  Compute._record_action_start r a s = (Ok tt, with_action (Container.uuid (obj (store_of s) r), a) s).
Proof. unfold Compute._record_action_start. by step (object_run r s). Qed.

Lemma call_run server q s :
  Rpc._call server q s = (answer q (a_sent (others s)), with_sent [mkMessage server Call q] s).
Proof. unfold Rpc._call. steps. step (send_run (mkMessage server Call q) s). by destruct (answer _ _). Qed.

(** The search the image is validated with. *)
Definition image_query (c : container) : rpc_request :=
  image_search (Container.image c) (Container.image_driver c) true.

(** The answers that stop the creation: the name of the image cannot be read. *)
Definition bad_name (o : outcome exn (list string)) : bool :=
  match o with
  | Raise e => negb (isinstance e OperationNotSupported) && isinstance e ReferenceInvalidFormat
  | Ok _ => false
  end.

Lemma validate_image_run r h s :
  let q := image_query (obj (store_of s) r) in
  (∀ e, answer q (a_sent (others s)) = Raise e → caught e = true) →
  Compute.validate_image r h s =
  ((if bad_name (answer q (a_sent (others s))) then Raise (Zun InvalidValue) else Ok tt),
   with_sent [mkMessage (Some h) Call q] s).
Proof.
  intros q Hcaught. unfold Compute.validate_image, try_except. rewrite (bind_eq _ _ _ _ _ (object_run r s)).
  unfold Rpc.image_search, bind. fold (image_query (obj (store_of s) r)). fold q. rewrite call_run.
  destruct (answer q _) as [images|e] eqn:Ha.
  - unfold raise_if. case_bool_decide; [done|]. cbn [ret]. by destruct (1 <? length images).
  - specialize (Hcaught e eq_refl). cbn [bad_name]. destruct (isinstance e OperationNotSupported); [done|].
    destruct (isinstance e ReferenceInvalidFormat); [done|]. cbn. by rewrite Hcaught.
Qed.

(** The requested host, if there is one, has a compute node. *)
Definition host_known (xs : extra_specs) s : Prop :=
  ostr_true (xs_requested_host xs) = true →
  ∃ n, (ComputeNode.get_by_name (default "" (xs_requested_host xs)) (w_nodes (a_world (others s)))).1 = Ok n.

Lemma host_known_run xs vols r s :
  host_known xs s →
  (if ostr_true (xs_requested_host xs)
   then Compute._validate_host r (default "" (xs_requested_host xs)) vols else ret tt) s = (Ok tt, s).
Proof.
  intros Hh. unfold host_known in Hh. destruct (ostr_true _); [|done]. destruct (Hh eq_refl) as [n Hn].
  unfold Compute._validate_host. destruct (str_true _); [|done].
  unfold try_except, bind, on_nodes, on_world, on_api, zoom.
  destruct (ComputeNode.get_by_name _ _) as [o t] eqn:Hg. cbn in Hn. subst o.
  apply get_by_name_eq in Hg as <-. cbn. by destruct s as [? ? [? [] ? ? ? ? ?]].
Qed.

(** The ends of a creation. *)
Lemma creation_ends r xs nets vols run pci s :
  saveable (store_of s) r → host_known xs s →
  match schedule r xs s with
  | (Raise e, s1) =>
      caught e = true →
      create_container r xs nets vols run pci s =
        ((if isinstance e NoValidHost then Ok tt else Raise e),
         with_store (write r (set_status (Some ERROR)) (store_of s1)) s1) ∧
      a_sent (others s1) = a_sent (others s)
  | (Ok d, s1) =>
      let c := obj (store_of s1) r in
      let found := answer (image_query c) (a_sent (others s1)) in
      let s2 := if enable_image_validation conf
                then with_sent [mkMessage (Some (d_host d)) Call (image_query c)] s1 else s1 in
      (∀ e, found = Raise e → caught e = true) →
      a_sent (others s1) = a_sent (others s) ∧
      create_container r xs nets vols run pci s =
        if enable_image_validation conf && bad_name found then (Raise (Zun InvalidValue), s2)
        else (Ok tt, with_sent [mkMessage (Some (d_host d)) Cast
                       (container_create c (d_limits d) nets vols run pci)]
                     (with_action (Container.uuid c, "create") s2))
  end.
Proof.
  intros Hsave Hhost. destruct (schedule r xs s) as [o s1] eqn:Hsched.
  pose proof (schedule_container_same r xs _ _ _ Hsched) as Hsame.
  pose proof (scheduled_sent _ _ Hsame) as Hsent. destruct (scheduled_world _ _ Hsame) as (_ & _ & Hstore).
  pose proof (same_store_saveable _ _ _ Hstore Hsave) as Hsave1. fold (store_of s1) in Hsave1.
  unfold Compute.container_create. rewrite (bind_eq _ _ _ _ _ (host_known_run xs vols r s Hhost)).
  destruct o as [d|e]; cbv zeta.
  - intros Hcaught. split; [exact Hsent|]. unfold try_except, bind at 1. 
    rewrite (bind_eq _ _ _ _ _ Hsched). cbn [ret].
    destruct (enable_image_validation conf); cbn [andb].
    + unfold bind at 1. rewrite validate_image_run by done. destruct (bad_name _); [done|].
      step (record_run r "create" (with_sent [mkMessage (Some (d_host d)) Call (image_query (obj (store_of s1) r))] s1)).
      unfold Rpc.container_create. by step (object_run r (with_action (Container.uuid (obj (store_of s1) r), "create")
        (with_sent [mkMessage (Some (d_host d)) Call (image_query (obj (store_of s1) r))] s1))).
    + rewrite bind_ret. step (record_run r "create" s1).
      unfold Rpc.container_create. by step (object_run r (with_action (Container.uuid (obj (store_of s1) r), "create") s1)).
  - intros Hcaught. split; [|exact Hsent]. unfold try_except, bind at 1. rewrite (bind_err _ _ _ _ _ Hsched).
    destruct (isinstance e NoValidHost) eqn:He.
    + by step (fail_scheduling_run r s1 Hsave1).
    + rewrite Hcaught. by step (fail_scheduling_run r s1 Hsave1).
Qed.

(** The image is not there, or there are several of its name. *)
Definition no_one_image (o : outcome exn (list string)) : bool :=
  match o with
  | Ok [_] => false
  | Ok _ => true
  | Raise e => isinstance e ImageNotFound || isinstance e Conflict
  end.

(** The comment in the code says that such a creation fails with 400; the handler of
    all exceptions catches [ImageNotFound], and the creation goes on. *)
Lemma missing_image_goes_on r xs nets vols run pci d s s1 :
  saveable (store_of s) r → host_known xs s → schedule r xs s = (Ok d, s1) →
  answer (image_query (obj (store_of s1) r)) (a_sent (others s1)) = Ok [] →
  (create_container r xs nets vols run pci s).1 = Ok tt.
Proof.
  intros Hsave Hhost Hsched Hnone. pose proof (creation_ends r xs nets vols run pci s Hsave Hhost) as Hend.
  rewrite Hsched in Hend. cbv zeta in Hend. rewrite Hnone in Hend. destruct (Hend ltac:(done)) as [_ ->].
  by rewrite andb_false_r.
Qed.

(** C20. Creating a container without a requested host, or on one that has a compute
    node, has these ends.  No suitable host: the container is saved in Error and
    nothing is raised.  Another exception of the scheduler: it is saved in Error and
    the exception goes on.  Either way no message is sent.  A host: an image name that
    cannot be read is refused, after the search for it, and nothing more is done; when
    images are not validated, or the search does not say that there is no such image,
    or several, the action is recorded and exactly one creation is sent to that host,
    with the limits the scheduler chose; and no answer to the search makes anything
    else be sent than the search and that creation. *)
Theorem container_create_outcome r xs nets vols run pci s :
  saveable (store_of s) r → host_known xs s →
  match schedule r xs s with
  | (Raise e, s1) =>
      caught e = true →
      create_container r xs nets vols run pci s =
        ((if isinstance e NoValidHost then Ok tt else Raise e),
         with_store (write r (set_status (Some ERROR)) (store_of s1)) s1) ∧
      a_sent (others s1) = a_sent (others s)
  | (Ok d, s1) =>
      let c := obj (store_of s1) r in
      let found := answer (image_query c) (a_sent (others s1)) in
      let search := if enable_image_validation conf then [mkMessage (Some (d_host d)) Call (image_query c)] else [] in
      let s2 := if enable_image_validation conf then with_sent search s1 else s1 in
      let creation := mkMessage (Some (d_host d)) Cast (container_create c (d_limits d) nets vols run pci) in
      let '(o, s') := create_container r xs nets vols run pci s in
      (∀ e, found = Raise e → caught e = true) →
      a_sent (others s1) = a_sent (others s) ∧
      (enable_image_validation conf = true → bad_name found = true →
        o = Raise (Zun InvalidValue) ∧ s' = s2) ∧
      (enable_image_validation conf = false ∨ bad_name found = false ∧ no_one_image found = false →
        o = Ok tt ∧ s' = with_sent [creation] (with_action (Container.uuid c, "create") s2)) ∧
      ∃ sent, a_sent (others s') = a_sent (others s) ++ search ++ sent ∧ (sent = [] ∨ sent = [creation])
  end.
Proof.
  intros Hsave Hhost. pose proof (creation_ends r xs nets vols run pci s Hsave Hhost) as Hend.
  destruct (schedule r xs s) as [[d|e] s1]; [|exact Hend]. cbv zeta in *.
  destruct (create_container r xs nets vols run pci s) as [o s'] eqn:Hrun.
  intros Hcaught. destruct (Hend Hcaught) as [Hsent Hres]. split; [done|]. clear Hend.
  destruct (enable_image_validation conf); cbn [andb] in Hres.
  - destruct (bad_name _) eqn:Hbad; injection Hres as -> ->.
    + split_and!; [done|by intros [|[]]|]. exists []. split; [|by left]. cbn. by rewrite Hsent.
    + split_and!; [done|done|]. eexists [_]. split; [|by right]. cbn. by rewrite Hsent, <- app_assoc.
  - injection Hres as -> ->. split_and!; [done|done|]. eexists [_]. split; [|by right]. cbn. by rewrite Hsent.
Qed.
End Creation.

(** ** Witnesses *)

Definition demo_context : context := mkContext (Some "p1") (Some "u1") false false.
Definition demo_conf : api_conf :=
  mkApiConf "" true "docker" ["docker"; "glance"] 512 1%Qc 1000 "ws://proxy".
(** Every image is found once; other calls fail. *)
Definition demo_remote : Remote := λ q _,
  match q return outcome exn (reply q) with
  | image_search _ _ _ => Ok ["nginx"]
  | _ => Raise (Zun DockerError)
  end.

Definition demo_row : container :=
  Container.mkContainer "c1" TYPE_CONTAINER (Some "web") None (Some CREATING) None None (Some (Qc_of_Z 2))
    None None (Some "512") None None None [] None (Some "p1") (Some "u1") (Some "nginx") (Some "docker")
    None [].
Definition demo_api (st : Container.store) : qdb (api (list (string * alloc_req)) unit) :=
  mkQdb [] [] (mkApi demo_context
    (mkWorld [to_row None demo_sched_node] [demo_service] st [] false) [] [] [] [] tt).
Definition demo_new : qdb (api (list (string * alloc_req)) unit) :=
  demo_api (mkStore [demo_row] [("c1", demo_row)]).

Abbreviation demo_scheduling :=
  (Compute._schedule_container (X:=unit) demo_sched_conf demo_conf demo_filters
     ["VCPU"; "MEMORY_MB"; "DISK_GB"] 1000 FilterScheduler 0 demo_specs demo_new).
Abbreviation demo_creation :=
  (Compute.container_create (X:=unit) (H:=demo_remote) demo_sched_conf demo_conf demo_filters
     ["VCPU"; "MEMORY_MB"; "DISK_GB"] 1000 FilterScheduler 0 demo_specs [] [] true None demo_new).

Lemma demo_scheduled : is_ok demo_scheduling.1 = true.
Proof. vm_compute. reflexivity. Qed.

(** A host is found, the image is looked for, and the creation is sent. *)
Lemma container_create_outcome_witness :
  ∃ d s1, demo_scheduling = (Ok d, s1) ∧
  demo_creation.1 = Ok tt ∧ m_kind <$> a_sent (others demo_creation.2) = [Call; Cast].
Proof.
  pose proof (container_create_outcome (H:=demo_remote) demo_sched_conf demo_conf demo_filters
    ["VCPU"; "MEMORY_MB"; "DISK_GB"] 1000 FilterScheduler 0 demo_specs [] [] true None demo_new) as Hout.
  pose proof demo_scheduled as Hok. destruct demo_scheduling as [[d|e] s1] eqn:Hrun; [|done]. clear Hok.
  assert (saveable (store_of demo_new) 0) as Hsave by (split; [by vm_compute; eexists|by vm_compute]).
  assert (host_known demo_specs demo_new) as Hhost by (intros Hh; vm_compute in Hh; done).
  specialize (Hout Hsave Hhost). cbv zeta in Hout. destruct demo_creation as [o s'] eqn:Hc.
  destruct Hout as (_ & _ & Hgood & sent & Hsent & _); [intros e Ha; vm_compute in Ha; done|].
  destruct Hgood as [-> ->]; [right; by vm_compute|]. exists d, s1. split; [done|]. split; [done|].
  apply (f_equal snd) in Hc. cbn [snd] in *. rewrite <- Hc. by vm_compute.
Defined.
