(* ===== verification/ContainersApi.v ===== *)
(** * The container controller: operations on a container
    (src/zun/api/controllers/v1/containers.py)

    Every operation looks the container up, checks the policy on it and, but for
    a few, its state, and then calls the compute API; an exception becomes an
    answer of the wrapper ([Exceptions.wrap_controller_exception]).  Creation is
    in [ContainersCreate].

    The JSON schemas are not modelled: an argument has a type that the schema of
    its operation admits.  An answer is what is formatted, not its JSON; the
    status 202 or 204 of an operation that answers nothing is left out. *)

From Stdlib Require Import Ascii.
From S2P Require Import Prelude Exceptions PyStr Quota PciStats Container ComputeNode Claims.
From S2P Require Import ResourceRequest HostFilters Scheduler Volumes Versions Services ApiState ComputeApi.

(** A boolean of a request: JSON, or text. *)
Inductive flag : Type := FBool (b : bool) | FStr (s : string).

(** The text of a status and of a task (src/zun/common/consts.py) *)
Definition status_text (s : ContainerStatus) : string :=
  match s with
  | ERROR => "Error" | RUNNING => "Running" | STOPPED => "Stopped" | PAUSED => "Paused"
  | UNKNOWN => "Unknown" | CREATING => "Creating" | CREATED => "Created" | DELETED => "Deleted"
  | DELETING => "Deleting" | REBUILDING => "Rebuilding" | DEAD => "Dead" | RESTARTING => "Restarting"
  end.
Definition task_text (t : TaskState) : string :=
  match t with
  | IMAGE_PULLING => "image_pulling" | CONTAINER_CREATING => "container_creating"
  | CONTAINER_STARTING => "container_starting" | CONTAINER_DELETING => "container_deleting"
  | CONTAINER_STOPPING => "container_stopping" | CONTAINER_REBOOTING => "container_rebooting"
  | CONTAINER_PAUSING => "container_pausing" | CONTAINER_UNPAUSING => "container_unpausing"
  | CONTAINER_KILLING => "container_killing" | SG_ADDING => "sg_adding" | SG_REMOVING => "sg_removing"
  | NETWORK_ATTACHING => "network_attaching" | NETWORK_DETACHING => "network_detaching"
  | CONTAINER_REBUILDING => "container_rebuilding"
  end.

(** What one network of a container looks like in a listing. *)
Record legacy_network : Type := mkLegacy {
  l_net_id : string; l_subnet_id : option string; l_port_id : option string;
  l_version : option Z; l_ip_address : option string
}.
Record port_network : Type := mkPortNetwork {
  o_net_id : string; o_port_id : string;
  o_fixed_ips : list (option string * option Z * option string)   (** subnet, version, address *)
}.

Section Controller.
Context {P X : Type} `{Remote} `{Scheduler.PlacementClient P} `{Clients X}.
Context (allowed : context → string → target → bool) (rule_exists : string → bool).
Context (conf : api_conf) (sched : sched_conf) (is_uuid_like : string → bool).
(** [strutils.bool_from_string] on a text, strictly *)
Context (bool_of_text : string → option bool).
(** The comparison of the column [auto_remove] with a text, and the pages of a
    listing: limit, marker, key and direction of the sort. *)
Context (auto_remove_is : option bool → string → bool).
Context (_paginate_query : list container → Z → option container → string → string →
  outcome exn (list container)).
(** The version of the request. *)
Context (version : Version).

Abbreviation AS := (qdb (api P X)).
Abbreviation enforce := (ApiState.enforce (P:=P) (X:=X) allowed).
Abbreviation check_policy_on_container := (ApiState.check_policy_on_container (P:=P) (X:=X) allowed).
Abbreviation get_resource := (ApiState.get_resource (P:=P) (X:=X) is_uuid_like).
Abbreviation respond := (wrap_controller_exception (S:=AS)).

Definition validate_state (r : nat) (action : string) : py AS unit :=
  let! c := the r in validate_container_state c action.

Definition bool_from_string (f : flag) : py AS bool :=
  match f with
  | FBool b => ret b
  | FStr s => of_option (bool_of_text s) (Py ValueError)
  end.

(** [except ValueError: raise InvalidValue] *)
Definition valid_flag (f : flag) : py AS bool :=
  try_except (bool_from_string f)
    (λ e, if bool_decide (e = Py ValueError) then Some (raise (Zun InvalidValue)) else None).

Definition flag_true (f : flag) : bool := match f with FBool b => b | FStr s => str_true s end.

(** [utils.is_all_projects] *)
Definition is_all_projects (all_projects : option flag) : py AS bool :=
  match all_projects with
  | Some f => if flag_true f then valid_flag f else ret false
  | None => ret false
  end.

(** The beginning of an operation that may look into all projects. *)
Definition across_projects (all_projects : option flag) (rule : string) : py AS unit :=
  let! b := is_all_projects all_projects in
  if b : bool then
    enforce rule None;;;
    on_api (modify (λ a, set_ctx (with_all_projects (a_ctx a)) a))
  else ret tt.

(** The container, once the policy and its state allow the action. *)
Definition checked (ident rule action : string) : py AS nat :=
  let! r := get_resource ident in
  check_policy_on_container r rule;;;
  validate_state r action;;;
  ret r.

(** ** Listing *)

(** [_add_containers_filters]: one column against a text *)
Definition column_is (c : container) (key value : string) : bool :=
  let eq o := bool_decide (o = Some value) in
  if String.eqb key "name" then eq (Container.name c)
  else if String.eqb key "image" then eq (Container.image c)
  else if String.eqb key "project_id" then eq (project_id c)
  else if String.eqb key "user_id" then eq (user_id c)
  else if String.eqb key "memory" then eq (memory c)
  else if String.eqb key "host" then eq (Container.host c)
  else if String.eqb key "task_state" then eq (task_text <$> task_state c)
  else if String.eqb key "status" then eq (status_text <$> status c)
  else auto_remove_is (auto_remove c) value.

Definition container_allowed_filters : list string :=
  ["name"; "image"; "project_id"; "user_id"; "memory"; "host"; "task_state"; "status"; "auto_remove"].

(** [api_utils.validate_limit] *)
Definition validate_limit (limit : option string) : py AS Z :=
  match limit with
  | None => ret (max_limit conf)
  | Some l =>
      match int_of 10 l with
      | Some n => raise_if (n <=? 0)%Z (Zun InvalidValue);;; ret (Z.min (max_limit conf) n)
      | None => raise (Zun InvalidValue)
      end
  end.

Definition validate_sort_dir (sort_dir : string) : py AS string :=
  raise_if (negb (bool_decide (sort_dir ∈ ["asc"; "desc"]))) (Zun InvalidValue);;; ret sort_dir.

(** [context.can(action, might_not_exist=True)] *)
Definition can_if_exists (action : string) : py AS unit :=
  let! c := ctx in
  raise_if (rule_exists action && negb (allowed c action (default_target c))) (Zun PolicyNotAuthorized).

Definition list_containers (limit : Z) (marker : option container) (sort_key sort_dir : string)
    (filters : dict string string) : py AS (list container) :=
  let! c := ctx in
  let! st := gets store_of in
  let rows := filter (λ x, forallb (λ kv, column_is x kv.1 kv.2) filters = true)
    (seen c TYPE_CONTAINER (dvalues (rows st))) in
  match _paginate_query rows limit marker sort_key sort_dir with
  | Ok l => ret l | Raise e => raise e
  end.

(** [kwargs] are the arguments of the request other than [all_projects]. *)
Definition _get_containers_collection (all_projects : option flag) (kwargs : dict string string)
    : py AS (list container) :=
  across_projects all_projects "container:get_all_all_projects";;;
  let! limit := validate_limit (dget kwargs "limit") in
  let! sort_dir := validate_sort_dir (default "asc" (dget kwargs "sort_dir")) in
  let sort_key := default "id" (dget kwargs "sort_key") in
  let kwargs := filter (λ kv, kv.1 ∉ ["limit"; "sort_dir"; "sort_key"; "resource_url"; "expand"]) kwargs in
  let filters := omap (λ k, pair k <$> dget kwargs k) container_allowed_filters in
  for_each (λ kv, can_if_exists ("container:get_one:" +:+ kv.1)%string) filters;;;
  let kwargs := filter (λ kv, kv.1 ∉ container_allowed_filters) kwargs in
  let marker := dget kwargs "marker" in
  let! marker_obj := (if ostr_true marker
                      then let! x := get_container_by_uuid TYPE_CONTAINER (default "" marker) in ret (Some x)
                      else ret None) in
  let kwargs := filter (λ kv, kv.1 ≠ "marker") kwargs in
  raise_if (negb (bool_decide (kwargs = []))) (Zun InvalidValue);;;
  list_containers limit marker_obj sort_key sort_dir filters.

Definition get_all (all_projects : option flag) (kwargs : dict string string)
    : AS → response (list container) * AS :=
  respond (enforce "container:get_all" None;;; _get_containers_collection all_projects kwargs).

(** The host of the container is asked for its state, unless it is down. *)
Definition get_one (ident : string) (all_projects : option flag) : AS → response container * AS :=
  respond (
    across_projects all_projects "container:get_one_all_projects";;;
    let! r := get_resource ident in
    check_policy_on_container r "container:get_one";;;
    let! c := the r in
    if ostr_true (Container.host c) then
      try_except (Compute.container_show sched r)
        (λ e, if isinstance e ContainerHostNotUp then Some (the r) else None)
    else ret c).

(** The actions of a container ([ContainersActionsController.get_all]), the last
    first. *)
Definition actions_get_all (ident : string) : AS → response (list string) * AS :=
  respond (
    enforce "container:actions" None;;;
    let! r := get_resource ident in
    let! c := the r in
    let! l := gets (λ s, a_actions (others s)) in
    ret (rev (snd <$> filter (λ ua, ua.1 = Container.uuid c) l))).

(** ** Changing a container *)

Definition start (ident : string) : AS → response unit * AS :=
  respond (let! r := checked ident "container:start" "start" in Compute.container_start r).

Definition stop (ident : string) (timeout : option string) : AS → response unit * AS :=
  respond (let! r := checked ident "container:stop" "stop" in Compute.container_stop r timeout).

Definition reboot (ident : string) (timeout : option string) : AS → response unit * AS :=
  respond (
    let! r := checked ident "container:reboot" "reboot" in
    mut r (set_status (Some RESTARTING));;;
    save r;;;
    Compute.container_reboot r timeout).

Definition pause (ident : string) : AS → response unit * AS :=
  respond (let! r := checked ident "container:pause" "pause" in Compute.container_pause r).

Definition unpause (ident : string) : AS → response unit * AS :=
  respond (let! r := checked ident "container:unpause" "unpause" in Compute.container_unpause r).

Definition kill (ident : string) (signal : option string) : AS → response unit * AS :=
  respond (let! r := checked ident "container:kill" "kill" in Compute.container_kill r signal).

(** [utils.validate_image_driver] *)
Definition validate_image_driver (d : string) : py AS unit :=
  raise_if (negb (bool_decide (d ∈ image_driver_list conf))) (Zun ValidationError).

Definition rebuild (ident : string) (new_image new_driver : option string) : AS → response unit * AS :=
  respond (
    let! r := checked ident "container:rebuild" "rebuild" in
    (if ostr_true new_image then mut r (set_image new_image) else ret tt);;;
    (if ostr_true new_driver
     then validate_image_driver (default "" new_driver);;; mut r (set_image_driver new_driver) else ret tt);;;
    let! c := the r in
    let run := bool_decide (status c = Some RUNNING) in
    mut r (set_status (Some REBUILDING));;;
    save r;;;
    Compute.container_rebuild r run).

(** The checks of the three ways to delete; stopping wins over forcing. *)
Definition deletion_checks (r : nat) (force stop : bool) : py AS unit :=
  if negb force && negb stop then validate_state r "delete"
  else if force && negb stop then
    version_check version "1.7";;;
    enforce "container:delete_force" None;;;
    validate_state r "delete_force"
  else if stop then
    version_check version "1.12";;;
    validate_state r "delete_after_stop";;;
    let! c := the r in
    if bool_decide (status c = Some RUNNING) then
      check_policy_on_container r "container:stop";;;
      Compute.container_stop r (Some "10")
    else ret tt
  else ret tt.

Definition delete (ident : string) (all_projects : option flag) (force stop : flag)
    : AS → response unit * AS :=
  respond (
    across_projects all_projects "container:delete_all_projects";;;
    let! r := get_resource ident in
    check_policy_on_container r "container:delete";;;
    let! force := valid_flag force in
    let! stop := valid_flag stop in
    deletion_checks r force stop;;;
    mut r (set_status (Some DELETING));;;
    let! c := the r in
    if ostr_true (Container.host c) then Compute.container_delete sched r force else destroy r).

Definition rename (ident : string) (n : string) : AS → response container * AS :=
  respond (
    let! r := get_resource ident in
    check_policy_on_container r "container:rename";;;
    let! c := the r in
    raise_if (bool_decide (Container.name c = Some n)) (Zun Conflict);;;
    mut r (set_name (Some n));;;
    save_named conf r;;;
    the r).

(** The cpu is a number already, the memory a text. *)
Definition resize_container (ident : string) (p : patch) : AS → response container * AS :=
  respond (
    let! r := checked ident "container:resize_container" "resize_container" in
    Compute.resize_container r p;;;
    the r).

(** ** Asking the host *)

Definition logs (ident : string) (stdout stderr timestamps : flag) (tail : string) (since : option string)
    : AS → response string * AS :=
  respond (
    let! r := checked ident "container:logs" "logs" in
    let! stdout := valid_flag stdout in
    let! stderr := valid_flag stderr in
    let! timestamps := valid_flag timestamps in
    Compute.container_logs sched r stdout stderr timestamps tail since).

Definition execute (ident : string) (command : string) (run interactive : flag)
    : AS → response (exec_data * option string) * AS :=
  respond (
    let! r := checked ident "container:execute" "execute" in
    let! run := valid_flag run in
    let! interactive := valid_flag interactive in
    Compute.container_exec sched conf r command run interactive).

Definition execute_resize (ident exec_id : string) (h w : option string) : AS → response unit * AS :=
  respond (
    let! r := checked ident "container:execute_resize" "execute_resize" in
    Compute.container_exec_resize sched r exec_id h w).

Definition attach (ident : string) : AS → response string * AS :=
  respond (
    let! r := checked ident "container:attach" "attach" in
    let! c := the r in
    if bool_decide (interactive c = Some true) then Compute.container_attach sched conf r
    else raise (Zun NoInteractiveFlag)).

Definition resize (ident : string) (h w : option string) : AS → response unit * AS :=
  respond (
    let! r := checked ident "container:resize" "resize" in
    Compute.container_resize sched r h w).

Definition top (ident : string) (ps_args : option string) : AS → response string * AS :=
  respond (
    let! r := checked ident "container:top" "top" in
    Compute.container_top sched r ps_args).

(** The version of the request decides whether the data are encoded. *)
Definition _get_archive (ident path : string) (encode_data : bool) : py AS (string * string) :=
  let! r := checked ident "container:get_archive" "get_archive" in
  Compute.container_get_archive sched r path encode_data.
Definition get_archive (ident path : string) : AS → response (string * string) * AS :=
  respond (_get_archive ident path (v_le (mkVersion 1 25) version)).

Definition _put_archive (ident path data : string) (decode_data : bool) : py AS unit :=
  let! r := checked ident "container:put_archive" "put_archive" in
  Compute.container_put_archive sched r path data decode_data.
Definition put_archive (ident path data : string) : AS → response unit * AS :=
  respond (_put_archive ident path data (v_le (mkVersion 1 25) version)).

Definition stats (ident : string) : AS → response string * AS :=
  respond (
    let! r := checked ident "container:stats" "stats" in
    Compute.container_stats sched r).

Definition commit (ident : string) (repository tag : option string) : AS → response string * AS :=
  respond (
    let! r := checked ident "container:commit" "commit" in
    Compute.container_commit sched r repository tag).
(** ** Security groups *)

Definition project : py AS (option string) := let! c := ctx in ret (c_project_id c).

Definition _check_security_group (name : string) : py AS string :=
  let! p := project in
  let! found := on_ext (query (find_security_group name p)) in
  match found with
  | SgFound i => ret i
  | SgNoUniqueMatch => raise (Zun Conflict)
  | SgError status => if (status =? 404)%Z then raise (Zun InvalidValue) else raise (Py OtherException)
  end.

Definition add_security_group (ident name : string) : AS → response unit * AS :=
  respond (
    let! r := checked ident "container:add_security_group" "add_security_group" in
    let! g := _check_security_group name in
    let! c := the r in
    raise_if (bool_decide (g ∈ security_groups c)) (Zun InvalidValue);;;
    Compute.add_security_group r g).

Definition remove_security_group (ident name : string) : AS → response unit * AS :=
  respond (
    let! r := checked ident "container:remove_security_group" "remove_security_group" in
    let! g := _check_security_group name in
    let! c := the r in
    raise_if (bool_decide (g ∉ security_groups c)) (Zun InvalidValue);;;
    Compute.remove_security_group r g).

(** ** Networks *)

(** One network of a request. *)
Record net_arg : Type := mkNetArg {
  na_network : option string;
  na_port : option string;
  na_fixed_ip : option string;
  na_v4_fixed_ip : option string;
  na_v6_fixed_ip : option string
}.

(** [a or b] on texts, where a missing one is the empty text *)
Definition or_text (a b : option string) : option string := if ostr_true a then a else b.

Definition of_network (w : network) (port fixed_ip : string) (keep : bool) : net_request :=
  mkNet (w_id w) port (w_router_external w) (w_shared w) fixed_ip keep None.

Definition build_network (n : net_arg) : py AS (list net_request) :=
  if ostr_true (na_port n) then
    let! p := project in
    let! port := on_ext (get_neutron_port is_uuid_like (default "" (na_port n))) in
    on_ext (ensure_neutron_port_usable p port);;;
    let! w := on_ext (get_neutron_network is_uuid_like (p_network_id port)) in
    ret [mkNet (p_network_id port) (p_id port) (w_router_external w) (w_shared w) "" true None]
  else if ostr_true (na_network n) then
    let! w := on_ext (get_neutron_network is_uuid_like (default "" (na_network n))) in
    let ip := or_text (na_fixed_ip n) (or_text (na_v4_fixed_ip n) (na_v6_fixed_ip n)) in
    ret [of_network w "" (default "" ip) false]
  else ret [].

Definition NETWORK_ATTACH_EXTERNAL : string := "network:attach_external_network".

Definition check_external_network_attach (nets : list net_request) : py AS unit :=
  let! ok := can allowed NETWORK_ATTACH_EXTERNAL in
  if ok : bool then ret tt
  else for_each (λ n, raise_if (n_router_external n && negb (n_shared n))
                        (Zun ExternalNetworkAttachForbidden)) nets.

(** [utils.build_requested_networks] *)
Definition build_requested_networks (nets : list net_arg) : py AS (list net_request) :=
  let! built := map_m build_network nets in
  let! requested := match mjoin built with
    | [] => let! p := project in
            let! w := on_ext (get_available_network p) in ret [of_network w "" "" false]
    | l => ret l
    end in
  check_external_network_attach requested;;;
  ret requested.

(** The networks and ports of [container.addresses]. *)
Definition ports_of (l : list address) : py AS (list string) :=
  map_m (λ a, of_option (a_port a) (Py KeyError)) l.

Definition network_detach (ident : string) (port net : option string) : AS → response unit * AS :=
  respond (
    let! r := get_resource ident in
    check_policy_on_container r "container:network_detach";;;
    let! c := the r in
    let! net_id := (if ostr_true port then
        let! p := on_ext (get_neutron_port is_uuid_like (default "" port)) in
        match dget (addresses c) (p_network_id p) with
        | None => raise (Zun Invalid)
        | Some l => let! ports := ports_of l in
                    raise_if (negb (bool_decide (p_id p ∈ ports))) (Zun Invalid);;;
                    ret (p_network_id p)
        end
      else
        let! w := on_ext (get_neutron_network is_uuid_like (default "" net)) in
        raise_if (negb (dhas (addresses c) (w_id w))) (Zun Invalid);;;
        ret (w_id w)) in
    Compute.network_detach r net_id).

Definition network_attach (ident : string) (arg : net_arg) : AS → response unit * AS :=
  respond (
    let! r := get_resource ident in
    check_policy_on_container r "container:network_attach";;;
    let! requested := build_requested_networks [arg] in
    let! n := of_option (head requested) (Py IndexError) in
    let! c := the r in
    raise_if (dhas (addresses c) (n_network n)) (Zun Invalid);;;
    Compute.network_attach r n).

(** [_get_container_networks_legacy], before 1.18; neither listing has a policy. *)
Definition _get_container_networks_legacy (c : container) : list legacy_network :=
  addresses c ≫= λ nl, (λ a, mkLegacy nl.1 (a_subnet_id a) (a_port a) (a_version a) (a_addr a)) <$> nl.2.

Definition _get_container_networks (c : container) : py AS (list port_network) :=
  let! built := map_m (λ nl : string * list address,
    let! pairs := map_m (λ a, let! p := of_option (a_port a) (Py KeyError) in
                              ret (p, (a_subnet_id a, a_version a, a_addr a))) nl.2 in
    let by_port := foldl (λ d pa, dset d pa.1 (default [] (dget d pa.1) ++ [pa.2])) [] pairs in
    ret ((λ pl, mkPortNetwork nl.1 pl.1 pl.2) <$> by_port)) (addresses c) in
  ret (mjoin built).

Definition network_list_legacy (ident : string) : AS → response (list legacy_network) * AS :=
  respond (let! r := get_resource ident in let! c := the r in ret (_get_container_networks_legacy c)).
Definition network_list (ident : string) : AS → response (list port_network) * AS :=
  respond (let! r := get_resource ident in let! c := the r in _get_container_networks c).
End Controller.
