(* ===== verification/ContainersCreate.v ===== *)
(** * The container controller: creation and update
    (src/zun/api/controllers/v1/containers.py)

    The two operations that are checked against the quotas of the project
    ([QuotaApi]).  The usage they add to is the query [count_usage] on the table
    of containers (src/zun/db/sqlalchemy/api.py). *)

From stdpp Require Import pretty.
From Stdlib Require Import Ascii QArith_base.
From S2P Require Import Manager.
From S2P Require Import Prelude Exceptions PyStr PciDevice PciSpec Quota QuotaApi PciStats Container ComputeNode Claims.
From S2P Require Import ResourceRequest HostFilters Scheduler Volumes Versions Services ApiState ComputeApi.
From S2P Require Import ContainersApi.

(** A number of a request. *)
Inductive jval : Type := JNull | JInt (z : Z) | JFloat (q : Qc) | JStr (s : string).

(** [int(q)] of a float drops the fraction. *)
Definition truncate (q : Qc) : Z := Z.quot (Qnum (this q)) (Zpos (Qden (this q))).

Definition to_int {S} (v : jval) : py S Z :=
  match v with
  | JNull => raise (Py TypeError)
  | JInt z => ret z
  | JFloat q => ret (truncate q)
  | JStr s => of_option (int_of 10 s) (Py ValueError)
  end.

(** The value of decimal digits, and how many there are. *)
Definition fraction (l : chars) : option Qc :=
  match l with
  | [] => Some 0%Qc
  | _ => if forallb is_digit l
         then (λ n, (Qc_of_Z n / Qc_of_Z (10 ^ Z.of_nat (length l)))%Qc) <$> digits 10 l else None
  end.

(** [float(s)], for the texts the schema admits: digits, a point and digits. *)
Definition float_text (s : string) : option Qc :=
  let '(a, dot, b) := partition_chars "."%char (strip_chars (explode s)) in
  match a, b with
  | [], [] => None
  | _, _ =>
      w ← (match a with [] => Some 0%Qc | _ => if forallb is_digit a then Qc_of_Z <$> digits 10 a else None end);
      f ← fraction b;
      Some (w + f)%Qc
  end.

Definition to_float {S} (v : jval) : py S Qc :=
  match v with
  | JNull => raise (Py TypeError)
  | JInt z => ret (Qc_of_Z z)
  | JFloat q => ret q
  | JStr s => of_option (float_text s) (Py ValueError)
  end.

(** [str(v)], where the text of a float is an argument *)
Definition str_of (str_float : Qc → string) (v : jval) : string :=
  match v with
  | JNull => "None"
  | JInt z => pretty z
  | JFloat q => str_float q
  | JStr s => s
  end.

(** A missing key is [None], a null is [Some JNull]. *)
Record delta : Type := mkDelta { d_cpu : option jval; d_memory : option jval; d_disk : option jval }.

(** [restart_policy]; the count may be missing. *)
Record restart_policy : Type := mkRestart { rp_name : string; rp_count : option jval }.

Record mount : Type := mkMount {
  mt_type : option string;
  mt_source : option string;
  mt_size : option string;
  mt_destination : option string
}.

(** The body of a creation; a key whose null differs from its absence has two
    options.  Values that are only stored are left out. *)
Record create_body : Type := mkBody {
  b_name : option string;
  b_image : string;
  b_amounts : delta;
  b_security_groups : option (list string);
  b_interactive : option flag;
  b_auto_remove : option flag;
  b_runtime : option string;
  b_hostname : option string;
  b_nets : option (option (list net_arg));
  b_healthcheck : bool;
  b_mounts : option (option (list mount));
  b_cpu_policy : option string;
  b_privileged : option flag;
  b_image_driver : option string;
  b_image_pull_policy : option string;
  b_restart_policy : option restart_policy;
  b_exposed_ports : option (list string);
  b_registry : option string;
  b_host : option string;
  b_hints : option (dict string string);
  b_availability_zone : option string;
  b_auto_heal : option flag
}.

(** The body of an update. *)
Record patch_body : Type := mkPatchBody {
  pb_cpu : option jval;
  pb_memory : option jval;
  pb_name : option (option string);
  pb_auto_heal : option flag
}.

(** The requests to the controller: the methods of REST, [_custom_actions] and the
    listing of the actions. *)
Inductive operation : Type :=
| GetAll (all_projects : option flag) (kwargs : dict string string)
| GetOne (ident : string) (all_projects : option flag)
| GetActions (ident : string)
| Post (run : flag) (b : create_body)
| Patch (ident : string) (b : patch_body)
| Delete (ident : string) (all_projects : option flag) (force stop : flag)
| Start (ident : string)
| Stop (ident : string) (timeout : option string)
| Reboot (ident : string) (timeout : option string)
| Rebuild (ident : string) (image image_driver : option string)
| Pause (ident : string)
| Unpause (ident : string)
| Logs (ident : string) (stdout stderr timestamps : flag) (tail : string) (since : option string)
| Execute (ident command : string) (run interactive : flag)
| ExecuteResize (ident exec_id : string) (h w : option string)
| Kill (ident : string) (signal : option string)
| Rename (ident name : string)
| Attach (ident : string)
| Resize (ident : string) (h w : option string)
| ResizeContainer (ident : string) (p : Volumes.patch)
| Top (ident : string) (ps_args : option string)
| GetArchive (ident path : string)
| PutArchive (ident path data : string)
| Stats (ident : string)
| Commit (ident : string) (repository tag : option string)
| AddSecurityGroup (ident name : string)
| RemoveSecurityGroup (ident name : string)
| NetworkDetach (ident : string) (port net : option string)
| NetworkAttach (ident : string) (arg : net_arg)
| NetworkList (ident : string)
| NetworkListLegacy (ident : string).

Section Create.
Context {P X : Type} `{Remote} `{Scheduler.PlacementClient P} `{Clients X} `{QuotaDriver (api P X)}.
Context (allowed : context → string → target → bool).
Context (conf : api_conf) (sched : sched_conf) (is_uuid_like : string → bool)
  (bool_of_text : string → option bool) (version : Version).
Context (enabled_filters : list filter_class) (standards : list string) (max_placement_results : Z)
  (sched_driver : Scheduler.driver).
(** A fresh uuid, a random name, the look-up of a registry, the rounding of the
    counts, how the database reads a text as a number, the order of a set, the
    text of a float and what a boolean field makes of a value. *)
Context (new_uuid : Container.store → string) (request_uuid : nat → string) (random_name : string).
Context (get_registry : string → py X unit).
Context (round3 : Qc → Qc) (sql_number : string → Qc).
Context (set_order : list string → list string) (str_float : Qc → string) (coerce_bool : flag → bool).

Abbreviation AS := (qdb (api P X)).
Abbreviation enforce := (ApiState.enforce (P:=P) (X:=X) allowed).
Abbreviation respond := (wrap_controller_exception (S:=AS)).

(** ** Usage and quotas *)

Definition owned (a : api P X) (p : string) : list container :=
  filter (λ c, ctype c = TYPE_CONTAINER ∧ project_id c = Some p) (dvalues (rows (w_store (a_world a)))).

(** A sum over no value at all is null. *)
Definition sql_sum (l : list Qc) : option Qc :=
  match l with [] => None | _ => Some (foldr Qcplus 0%Qc l) end.

Definition count_usage (a : api P X) (p f : string) : option number :=
  let mine := owned a p in
  if String.eqb f "containers" then Some (NInt (Z.of_nat (length mine)))
  else if String.eqb f "disk" then NFloat <$> sql_sum (omap (λ c, Qc_of_Z <$> disk c) mine)
  else if String.eqb f "cpu" then NFloat <$> sql_sum (omap cpu mine)
  else NFloat <$> sql_sum (omap (λ c, sql_number <$> memory c) mine).

Definition the_project : py AS string := let! c := ctx in ret (default "" (c_project_id c)).

(** The new total of one resource. *)
Definition total (p : string) (kd : string * jval) : py AS (string * number) :=
  let! n := Engine.count count_usage round3 Quota.resources kd.1 p in
  match n with
  | NInt z => let! d := to_int kd.2 in ret (kd.1, NInt (z + d)%Z)
  | NFloat q => let! d := to_float kd.2 in ret (kd.1, NFloat (q + d)%Qc)
  end.

Definition _check_container_quotas (container_delta : delta) (update_container : bool) : py AS unit :=
  let deltas : dict string jval :=
    [("containers", JInt (if update_container then 0 else 1)%Z);
     ("cpu", default (JInt 0) (d_cpu container_delta));
     ("memory", default (JInt 0) (d_memory container_delta));
     ("disk", default (JInt 0) (d_disk container_delta))] in
  let! p := the_project in
  let! check_kwargs := map_m (total p) deltas in
  QuotaApi.limit_check Quota.resources check_kwargs p.

(** ** The pieces of a creation *)

(** The default amounts: disk, memory and cpu.  They are set only after the
    quotas were checked. *)
Definition _set_default_resource_limit (d : delta) : option jval * string * jval :=
  (d_disk d, str_of str_float (default (JInt (conf_default_memory conf)) (d_memory d)),
   default (JFloat (conf_default_cpu conf)) (d_cpu d)).

(** [utils.check_for_restart_policy] *)
Definition check_for_restart_policy (rp : restart_policy) : py AS unit :=
  let! count := to_int (default (JStr "0") (rp_count rp)) in
  raise_if (bool_decide (rp_name rp ∈ ["unless-stopped"; "always"]) && negb (count =? 0)%Z)
    (Zun InvalidValue).

(** [utils.build_exposed_ports], on the keys *)
Definition build_exposed_port (key : string) : py AS string :=
  let '(port, protocol) := match split "/" key with [a; b] => (a, b) | _ => (key, "tcp") end in
  raise_if (negb (bool_decide (protocol ∈ ["tcp"; "udp"]))) (Zun InvalidValue);;;
  raise_if (match int_of 10 port with Some _ => false | None => true end) (Zun InvalidValue);;;
  ret (join "/" [port; protocol]).

Definition VNIC_TYPES_SRIOV : list string := ["direct"; "macvtap"; "direct-physical"; "virtio-forwarder"].

(** [_get_port_vnic_info]: the type, and the physical network of an SR-IOV port *)
Definition _get_port_vnic_info (port_id : string) : py AS (string * option string) :=
  let! port := on_ext (show_port port_id) in
  let vnic_type := default "normal" (p_vnic_type port) in
  if bool_decide (vnic_type ∈ VNIC_TYPES_SRIOV) then
    let! w := on_ext (show_network (p_network_id port)) in
    ret (vnic_type, w_physical_network w)
  else ret (vnic_type, None).

Definition sriov_request (n : nat) (net : net_request) : py AS (net_request * list request) :=
  let! '(vnic_type, phynet_name) :=
    (if str_true (n_port net) then _get_port_vnic_info (n_port net) else ret ("normal", None)) in
  if bool_decide (vnic_type ∈ VNIC_TYPES_SRIOV) then
    let spec : dict string pyval :=
      [("physical_network", match phynet_name with Some p => VStr p | None => VNone end)] ++
      (if String.eqb vnic_type "direct-physical" then [("dev_type", VStr (PciDeviceType_str PciDevice.SRIOV_PF))] else []) in
    let rid := request_uuid n in
    ret (mkNet (n_network net) (n_port net) (n_router_external net) (n_shared net) (n_fixed_ip net)
           (n_preserve_on_delete net) (Some rid), [mkRequest 1 [spec] (Some rid)])
  else ret (net, []).

Definition _create_pci_requests_for_sriov_ports (nets : list net_request)
    : py AS (list net_request * list request) :=
  let! l := map_m (λ nn, sriov_request nn.1 nn.2) (imap pair nets) in
  ret (l.*1, mjoin l.*2).

(** One mount; the row of its volume gets the next id. *)
Definition build_mount (m : mount) : py AS volmapp :=
  let! p := project in
  let volume_type := default "volume" (mt_type m) in
  let! '(cinder, provider, auto_remove, contents) :=
    (if String.eqb volume_type "volume" then
       if ostr_true (mt_source m) then
         let! v := on_ext (search_volume is_uuid_like (default "" (mt_source m))) in
         on_ext (ensure_volume_usable p v);;;
         ret (Some (cv_id v), Some "cinder", false, None)
       else if ostr_true (mt_size m) then
         let! v := on_ext (Services.create_volume (default "" (mt_size m))) in
         on_ext (ensure_volume_usable p v);;;
         ret (Some (cv_id v), Some "cinder", true, None)
       else ret (None, None, false, None)
     else if String.eqb volume_type "bind" then
       ret (None, Some "local", false, Some (default "" (mt_source m)))
     else ret (None, None, false, None)) in
  let! rows := gets (λ s, a_volumes (others s)) in
  let v := mkVolumeRow (S (foldr max 0 (v_id <$> rows))) cinder provider auto_remove contents in
  on_api (modify (λ a, set_volumes (a_volumes a ++ [v]) a));;;
  let! d := of_option (mt_destination m) (Py KeyError) in
  ret (mkVolmapp v d).

(** [for mount in None] is a [TypeError]. *)
Definition _build_requested_volumes (mounts : option (list mount)) : py AS (list volmapp) :=
  let! l := of_option mounts (Py TypeError) in map_m build_mount l.

(** [api_utils.string_or_none] *)
Definition string_or_none (v : option string) : option string :=
  if bool_decide (v = Some "None") then None else v.

(** ** Creation *)

Abbreviation valid_flag := (valid_flag (P:=P) (X:=X) bool_of_text).

(** A value of the request that not every version admits. *)
Definition since {A B} (v : string) (o : option A) (f : A → py AS B) : py AS (option B) :=
  match o with
  | Some a => version_check version v;;; let! b := f a in ret (Some b)
  | None => ret None
  end.

(** What a field makes of a value that may be missing or null. *)
Definition float_field (v : jval) : py AS (option Qc) :=
  match v with JNull => ret None | v => let! q := to_float v in ret (Some q) end.
Definition int_field (o : option jval) : py AS (option Z) :=
  match o with
  | None | Some JNull => ret None
  | Some v => let! z := to_int v in ret (Some z)
  end.

(** The values of the container that the request determines. *)
Definition new_container (b : create_body) (c : context) (groups : list string) (interactive : bool)
    (auto_remove : option bool) (runtime : option string) (driver : string)
    (amounts : option jval * string * jval) : py AS container :=
  let '(d, m, q) := amounts in
  let! cpu := float_field q in
  let! disk := int_field d in
  ret {| Container.uuid := ""; ctype := TYPE_CONTAINER;
    Container.name := Some (if ostr_true (b_name b) then default "" (b_name b) else random_name);
    container_id := None; status := Some CREATING; task_state := None; Container.host := None;
    Container.cpu := cpu; Container.cpu_policy := b_cpu_policy b; Container.cpuset := None;
    memory := Some m; Container.disk := disk; Container.runtime := runtime;
    Container.auto_remove := auto_remove; security_groups := groups;
    auto_heal := coerce_bool <$> b_auto_heal b; project_id := c_project_id c; user_id := c_user_id c;
    Container.image := Some (b_image b); Container.image_driver := Some driver;
    Container.interactive := Some interactive; addresses := [] |}.

Definition _do_post (run : flag) (b : create_body) : AS → response container * AS :=
  respond (
    enforce "container:create" None;;;
    let! groups := map_m (_check_security_group (P:=P))
      (match b_security_groups b with None | Some [] => [] | Some l => set_order l end) in
    let! run := valid_flag run in
    let! interactive := valid_flag (default (FBool false) (b_interactive b)) in
    _check_container_quotas (b_amounts b) false;;;
    let! auto_remove := since "1.3" (b_auto_remove b) valid_flag in
    let! runtime := since "1.5" (b_runtime b) (λ r, enforce "container:create:runtime" None;;; ret r) in
    let! _hostname := since "1.9" (b_hostname b) ret in
    let! nets := of_option (default (Some []) (b_nets b)) (Py TypeError) in
    let! requested_networks := build_requested_networks (P:=P) allowed is_uuid_like nets in
    let! '(requested_networks, pci_req) := _create_pci_requests_for_sriov_ports requested_networks in
    let! _healthcheck := since "1.22" (if b_healthcheck b then Some tt else None) ret in
    let mounts := default (Some []) (b_mounts b) in
    (match mounts with Some (_ :: _) => version_check version "1.11" | _ => ret tt end);;;
    let! _privileged := since "1.21" (b_privileged b)
      (λ f, enforce "container:create:privileged" None;;; valid_flag f) in
    let driver := string_or_none (b_image_driver b) in
    let driver := if ostr_true driver then default "" driver else default_image_driver conf in
    (if ostr_true (b_image_pull_policy b) then enforce "container:create:image_pull_policy" None
     else ret tt);;;
    let! c := ctx in
    let amounts := _set_default_resource_limit (b_amounts b) in
    (match b_restart_policy b with Some rp => check_for_restart_policy rp | None => ret tt end);;;
    let! _exposed_ports := since "1.24" (b_exposed_ports b) (map_m build_exposed_port) in
    (if ostr_true (b_registry b)
     then version_check version "1.31";;; on_ext (get_registry (default "" (b_registry b)))
     else ret tt);;;
    (if ostr_true (b_host b) then enforce "container:create:requested_destination" None else ret tt);;;
    let xs := mkXs [] (Some (b_hints b)) (b_host b) (b_availability_zone b) (Some (Some pci_req)) None in
    let! row := new_container b c groups interactive auto_remove runtime driver amounts in
    let! r := on_store (Container.alloc row) in
    ApiState.create conf new_uuid r;;;
    let! vols := _build_requested_volumes mounts in
    Compute.container_create sched conf enabled_filters standards max_placement_results sched_driver
      r xs requested_networks vols run (if bool_decide (pci_req = []) then None else Some pci_req);;;
    the r).

(** ** Update *)

Definition int_text (o : option string) : py AS Z :=
  let! s := of_option o (Py TypeError) in of_option (int_of 10 s) (Py ValueError).

Definition memory_delta (v : jval) (c : container) : py AS (jval * option string) :=
  let! new := to_int v in
  let! old := int_text (memory c) in
  ret (JInt (new - old), Some (str_of str_float v)).

Definition cpu_delta (v : jval) (c : container) : py AS (jval * option Qc) :=
  let! new := to_float v in
  let! old := of_option (Container.cpu c) (Py TypeError) in
  ret (JFloat (new - old)%Qc, Some new).

Definition optional {A B} (o : option A) (f : A → py AS B) : py AS (option B) :=
  match o with Some a => let! b := f a in ret (Some b) | None => ret None end.

(** An update of the name and of [auto_heal] is written to the row. *)
Definition save_patch (r : nat) (n : option (option string)) (heal : option flag) : py AS unit :=
  let! c := the r in
  let renamed := match n with Some n => negb (bool_decide (Container.name c = n)) | None => false end in
  mut r (λ c, apply_patch (mkPatch None None n (option_map (λ f, Some (coerce_bool f)) heal)) c);;;
  if renamed then save_named conf r else save r.

(** [str(None)] is a name. *)
Definition name_text (n : option string) : option string := Some (default "None" n).

Definition patch (ident : string) (b : patch_body) : AS → response container * AS :=
  respond (
    let! r := checked (P:=P) allowed is_uuid_like ident "container:update" "update" in
    let! c := the r in
    let! m := optional (pb_memory b) (λ v, memory_delta v c) in
    let! q := optional (pb_cpu b) (λ v, cpu_delta v c) in
    let n := name_text <$> pb_name b in
    match m, q with
    | None, None => save_patch r n (pb_auto_heal b);;; the r
    | _, _ =>
        _check_container_quotas (mkDelta (fst <$> q) (fst <$> m) None) true;;;
        Compute.container_update sched r
          (mkPatch (snd <$> q) (snd <$> m) n (option_map (λ f, Some (coerce_bool f)) (pb_auto_heal b)))
    end).

(** ** Serving requests *)

Context (rule_exists : string → bool) (auto_remove_is : option bool → string → bool)
  (_paginate_query : list container → Z → option container → string → string →
     outcome exn (list container)).

(** The state after a request. *)
Definition serve (op : operation) (s : AS) : AS :=
  match op with
  | GetAll ap kw => (get_all allowed rule_exists conf bool_of_text auto_remove_is _paginate_query ap kw s).2
  | GetOne i ap => (get_one allowed sched is_uuid_like bool_of_text i ap s).2
  | GetActions i => (actions_get_all allowed is_uuid_like i s).2
  | Post run b => (_do_post run b s).2
  | Patch i b => (patch i b s).2
  | Delete i ap force stop => (delete allowed sched is_uuid_like bool_of_text version i ap force stop s).2
  | Start i => (start allowed is_uuid_like i s).2
  | Stop i t => (ContainersApi.stop allowed is_uuid_like i t s).2
  | Reboot i t => (reboot allowed is_uuid_like i t s).2
  | Rebuild i image driver => (rebuild allowed conf is_uuid_like i image driver s).2
  | Pause i => (pause allowed is_uuid_like i s).2
  | Unpause i => (unpause allowed is_uuid_like i s).2
  | Logs i o e t tail since => (logs allowed sched is_uuid_like bool_of_text i o e t tail since s).2
  | Execute i c run inter => (execute allowed conf sched is_uuid_like bool_of_text i c run inter s).2
  | ExecuteResize i e h w => (execute_resize allowed sched is_uuid_like i e h w s).2
  | Kill i g => (kill allowed is_uuid_like i g s).2
  | Rename i n => (rename allowed conf is_uuid_like i n s).2
  | Attach i => (attach allowed conf sched is_uuid_like i s).2
  | Resize i h w => (resize allowed sched is_uuid_like i h w s).2
  | ResizeContainer i p => (resize_container allowed is_uuid_like i p s).2
  | Top i a => (top allowed sched is_uuid_like i a s).2
  | GetArchive i p => (get_archive allowed sched is_uuid_like version i p s).2
  | PutArchive i p d => (put_archive allowed sched is_uuid_like version i p d s).2
  | Stats i => (stats allowed sched is_uuid_like i s).2
  | Commit i r t => (commit allowed sched is_uuid_like i r t s).2
  | AddSecurityGroup i n => (add_security_group allowed is_uuid_like i n s).2
  | RemoveSecurityGroup i n => (remove_security_group allowed is_uuid_like i n s).2
  | NetworkDetach i p n => (network_detach allowed is_uuid_like i p n s).2
  | NetworkAttach i a => (network_attach allowed is_uuid_like i a s).2
  | NetworkList i => (network_list is_uuid_like i s).2
  | NetworkListLegacy i => (network_list_legacy is_uuid_like i s).2
  end.

(** A request brings its own context. *)
Definition arrive (c : context) (s : AS) : AS :=
  mkQdb (quotas s) (quota_classes s) (set_ctx c (others s)).

(** Requests, one after the other. *)
Definition serve_all (requests : list (context * operation)) (s : AS) : AS :=
  foldl (λ s co, serve co.2 (arrive co.1 s)) s requests.
End Create.
