(* ===== verification/Isolation.v ===== *)
(** * The projects are isolated from each other

    Whatever a user of a project without the admin role asks of the container
    controller, the rows of the other projects stay as they are and every message
    about a container is about one of the user's project.  The proof carries an
    invariant through each handler: what was of another project before is the same
    now ([confined]), and the object the handler works on belongs to the project,
    as does the row of its uuid ([linked]). *)

From Stdlib Require Import Ascii.
From S2P Require Import Prelude Exceptions PyStr Quota QuotaApi PciStats Container ComputeNode Claims.
From S2P Require Import ResourceRequest HostFilters Scheduler Volumes Versions Services ApiState ComputeApi.
From S2P Require Import ContainersApi ContainersCreate.

(** Every row is stored under its own uuid, once. *)
Definition rows_wf (t : dict string container) : Prop :=
  NoDup (dkeys t) ∧ ∀ u c, dget t u = Some c → Container.uuid c = u.

Section Isolation.
Context {P X : Type}.
Abbreviation AS := (qdb (api P X)).
Implicit Types s : AS.

(** What a request of the project [p] may have changed since [s0]. *)
Record confined (p : string) s0 s : Prop := mkConfined {
  confined_quotas : quotas s = quotas s0;
  confined_classes : quota_classes s = quota_classes s0;
  confined_wf : rows_wf (rows (store_of s));
  confined_rows : ∀ u c, project_id c ≠ Some p →
    dget (rows (store_of s)) u = Some c ↔ dget (rows (store_of s0)) u = Some c;
  confined_sent : ∃ ms, a_sent (others s) = a_sent (others s0) ++ ms ∧ Forall (concerns p) ms
}.

(** The request is of a user of [p] who is not an admin. *)
Definition of_user (p : string) (c : context) : Prop := c_project_id c = Some p ∧ c_is_admin c = false.

Definition working p s0 s : Prop := confined p s0 s ∧ of_user p (a_ctx (others s)).

(** The object and the row of its uuid belong to [p]. *)
Definition linked p r s : Prop :=
  let st := store_of s in
  project_id (obj st r) = Some p ∧
  ∀ row, dget (rows st) (Container.uuid (obj st r)) = Some row → project_id row = Some p.

Definition holding p s0 r s : Prop := working p s0 s ∧ linked p r s.

(** ** Steps that keep the invariants *)

(** Two states with the same tables, store, messages and context. *)
Definition alike s s' : Prop :=
  quotas s' = quotas s ∧ quota_classes s' = quota_classes s ∧ store_of s' = store_of s ∧
  a_sent (others s') = a_sent (others s) ∧ a_ctx (others s') = a_ctx (others s).

Lemma alike_working p s0 s s' : alike s s' → working p s0 s → working p s0 s'.
Proof.
  intros (Hq & Hc & Hst & Hsent & Hctx) [[] Hu]. split; [|by rewrite Hctx].
  split; rewrite ?Hq, ?Hc, ?Hst, ?Hsent; done.
Qed.

Lemma alike_linked p r s s' : alike s s' → linked p r s → linked p r s'.
Proof. intros (_ & _ & Hst & _). unfold linked. by rewrite Hst. Qed.

Lemma alike_holding p s0 r s s' : alike s s' → holding p s0 r s → holding p s0 r s'.
Proof. intros Ha [Hw Hl]. split; [by eapply alike_working|by eapply alike_linked]. Qed.

Lemma keeps_alike_working {A} p s0 (m : py AS A) : keeps alike m → preserves (working p s0) m.
Proof.
  intros Hm s Hs. destruct (m s) as [o s'] eqn:Hrun. specialize (Hm _ _ _ Hrun).
  destruct o; by eapply alike_working.
Qed.

Lemma keeps_alike_holding {A} p s0 r (m : py AS A) : keeps alike m → preserves (holding p s0 r) m.
Proof.
  intros Hm s Hs. destruct (m s) as [o s'] eqn:Hrun. specialize (Hm _ _ _ Hrun).
  destruct o; by eapply alike_holding.
Qed.

#[export] Instance alike_preorder : PreOrder alike.
Proof.
  split; [by intros s; repeat split|]. intros s1 s2 s3 (? & ? & ? & ? & ?) (? & ? & ? & ? & ?).
  unfold alike; split_and!; congruence.
Qed.

Lemma on_ext_alike {A} (m : py X A) : keeps alike (on_ext (P:=P) m).
Proof.
  intros s o s'. unfold on_ext, on_api, zoom. destruct (m _). intros [= _ <-]. by unfold alike; split_and!.
Qed.

Lemma on_api_alike (f : api P X → api P X) :
  (∀ a, w_store (a_world (f a)) = w_store (a_world a) ∧ a_sent (f a) = a_sent a ∧ a_ctx (f a) = a_ctx a) →
  keeps alike (on_api (modify f)).
Proof.
  intros Hf s o s'. unfold on_api, zoom, modify. intros [= _ <-].
  destruct (Hf (others s)) as (? & ? & ?). by unfold alike; split_and!.
Qed.

Lemma on_nodes_alike {A} (m : py ComputeNode.table A) : keeps alike (on_nodes (X:=X) (P:=P) m).
Proof.
  intros s o s'. unfold on_nodes, on_world, on_api, zoom. destruct (m _). intros [= _ <-]. by unfold alike; split_and!.
Qed.

(** Reading an object. *)
Lemma the_alike r : keeps alike (the (P:=P) (X:=X) r).
Proof. intros s o s'. rewrite object_run. by intros [= _ <-]. Qed.

(** Sending a message about the project. *)
Lemma send_working p s0 m : concerns p m → preserves (working p s0) (Rpc.send (P:=P) (X:=X) m).
Proof.
  intros Hm s [[Hq Hc Hwf Hrows (ms & Hsent & Hms)] Hu]. cbn. split; [|done]. split; [done..|].
  exists (ms ++ [m]). cbn. rewrite Hsent, app_assoc. split; [done|]. apply Forall_app. split; [done|by apply Forall_singleton].
Qed.

Lemma send_holding p s0 r m : concerns p m → preserves (holding p s0 r) (Rpc.send (P:=P) (X:=X) m).
Proof.
  intros Hm s [Hw Hl]. pose proof (send_working p s0 m Hm s Hw) as Hw'. cbn in *. by split.
Qed.

(** A change of the store. *)
Lemma working_store p s0 st s :
  working p s0 s → rows_wf (rows st) →
  (∀ u c, project_id c ≠ Some p → dget (rows st) u = Some c ↔ dget (rows (store_of s)) u = Some c) →
  working p s0 (with_store st s).
Proof.
  intros [[Hq Hc Hwf Hrows Hsent] Hu] Hst Hsame. split; [|done]. split; [done..| |done].
  intros u c Hp. cbn. rewrite (Hsame u c Hp). by apply Hrows.
Qed.

Lemma rows_wf_dset t c : rows_wf t → rows_wf (dset t (Container.uuid c) c).
Proof.
  intros [Hnd Hu]. split; [by apply NoDup_dset|]. intros u d. rewrite dget_dset.
  case_decide as Heq; [by intros [= <-]|apply Hu].
Qed.

Lemma rows_wf_ddel t u : rows_wf t → rows_wf (ddel t u).
Proof.
  intros [Hnd Hu]. split; [by apply NoDup_ddel|]. intros v d Hd. apply Hu.
  destruct (decide (u = v)) as [<-|Hne]; [by rewrite dget_ddel_eq in Hd|by rewrite dget_ddel_ne in Hd].
Qed.

(** A mutation of the object that keeps its owner and its uuid. *)
Definition keeps_owner (f : container → container) : Prop :=
  ∀ c, Container.uuid (f c) = Container.uuid c ∧ project_id (f c) = project_id c.

Lemma linked_in_range p r s : linked p r s → r < length (objects (store_of s)).
Proof.
  intros [Hp _]. destruct (decide (r < length (objects (store_of s)))) as [|Hr]; [done|].
  unfold obj in Hp. rewrite list_lookup_total_alt, lookup_ge_None_2 in Hp by lia. done.
Qed.

Lemma mut_holding p s0 r f : keeps_owner f → preserves (holding p s0 r) (mut (P:=P) (X:=X) r f).
Proof.
  intros Hf s [Hw Hl]. pose proof (linked_in_range _ _ _ Hl) as Hr. destruct Hl as [Hp Hrow].
  unfold mut. rewrite on_store_run. cbn [Container.mutate modify fst snd].
  split; [apply working_store; [done|apply Hw|done]|].
  unfold linked. change (store_of (with_store ?st s)) with st. rewrite obj_alter_at, decide_True by done.
  destruct (Hf (obj (store_of s) r)) as [-> ->]. by split.
Qed.

Lemma save_store p r st o st' :
  rows_wf (rows st) → project_id (obj st r) = Some p →
  (∀ row, dget (rows st) (Container.uuid (obj st r)) = Some row → project_id row = Some p) →
  Container.save r st = (o, st') →
  objects st' = objects st ∧ rows_wf (rows st') ∧
  (∀ u c, project_id c ≠ Some p → dget (rows st') u = Some c ↔ dget (rows st) u = Some c) ∧
  (∀ row, dget (rows st') (Container.uuid (obj st r)) = Some row → project_id row = Some p).
Proof.
  intros Hwf Hp Hrow Hrun. destruct o as [[]|e]; [|apply save_Raise in Hrun as ->; done].
  apply save_Ok in Hrun as [_ ->]. cbn. split_and!; [done|by apply rows_wf_dset| |].
  - intros u c Hc. rewrite dget_dset. case_decide as Hu; [subst u|done].
    split; [by intros [= <-]|]. intros Hd. by apply Hrow in Hd.
  - intros row. rewrite dget_dset_eq. by intros [= <-].
Qed.

Lemma save_holding p s0 r : preserves (holding p s0 r) (ApiState.save (P:=P) (X:=X) r).
Proof.
  intros s [Hw [Hp Hrow]]. unfold ApiState.save. rewrite on_store_run.
  destruct (Container.save r (store_of s)) as [o st'] eqn:Hrun.
  destruct (save_store p r _ o st' (confined_wf _ _ _ (proj1 Hw)) Hp Hrow Hrun) as (Hobj & Hwf & Hrows & Hr).
  assert (holding p s0 r (with_store st' s)) as H; [|by destruct o].
  split; [by apply working_store|]. unfold linked. change (store_of (with_store st' s)) with st'.
  unfold obj. rewrite Hobj. by split.
Qed.

Lemma destroy_holding p s0 r : preserves (holding p s0 r) (ApiState.destroy (P:=P) (X:=X) r).
Proof.
  intros s [Hw [Hp Hrow]]. unfold ApiState.destroy. rewrite on_store_run.
  unfold Container.destroy, Container.read. steps. destruct (find_row _ _) as [row|]; [|cbn [raise fst snd]; rewrite with_store_id; by split].
  set (u := Container.uuid _). cbn [fst snd modify].
  destruct (confined_wf _ _ _ (proj1 Hw)) as [Hnd Hu].
  split; [apply working_store; [done|by apply rows_wf_ddel|]|].
  - intros v c Hc. cbn. destruct (decide (u = v)) as [<-|Hne]; [|by rewrite dget_ddel_ne].
    rewrite dget_ddel_eq by done. split; [done|]. intros Hd. by apply Hrow in Hd.
  - split; [done|]. cbn. fold u. intros row'. by rewrite dget_ddel_eq.
Qed.

Lemma unique_name_alike conf n : keeps alike (_validate_unique_container_name (P:=P) (X:=X) conf n).
Proof. unfold _validate_unique_container_name, ctx. keep_rel. Qed.

Lemma on_store_pure {A} (m : py Container.store A) : keeps eq m → keeps alike (on_store (P:=P) (X:=X) m).
Proof.
  intros Hm s o s'. rewrite on_store_run. destruct (m (store_of s)) as [o1 st] eqn:Hrun.
  apply Hm in Hrun as <-. intros [= _ <-]. cbn. by rewrite with_store_id.
Qed.

Lemma save_named_holding p s0 r conf : preserves (holding p s0 r) (save_named (P:=P) (X:=X) conf r).
Proof.
  unfold save_named. apply preserves_bind; [apply keeps_alike_holding, the_alike|]. intros c.
  apply preserves_bind; [apply keeps_alike_holding, on_store_pure|intros _].
  { intros st o st' Hrun. by apply convert_cpuset_state in Hrun. }
  apply preserves_bind; [apply keeps_alike_holding, unique_name_alike|intros _]. apply save_holding.
Qed.

(** The object handed to a message belongs to the project. *)
Lemma the_owned p s0 r : hoare (holding p s0 r) (the (P:=P) (X:=X) r)
  (λ c s, holding p s0 r s ∧ project_id c = Some p) (λ _, holding p s0 r).
Proof. intros s Hs. rewrite object_run. split; [done|exact (proj1 (proj2 Hs))]. Qed.

Lemma the_bind_holding {A} p s0 r (f : container → py AS A) :
  (∀ c, project_id c = Some p → preserves (holding p s0 r) (f c)) →
  preserves (holding p s0 r) (bind (the r) f).
Proof. intros Hf. eapply preserves_bind_pure; [apply the_owned|exact Hf]. Qed.

Lemma record_holding p s0 r a : preserves (holding p s0 r) (Compute._record_action_start (P:=P) (X:=X) r a).
Proof.
  unfold Compute._record_action_start. apply keeps_alike_holding.
  apply keeps_bind; [apply _|apply the_alike|intros c]. by apply on_api_alike.
Qed.

(** ** Looking a container up *)

Lemma visible_own p c x :
  str_true p = true → of_user p c → visible c x = true → project_id x = Some p.
Proof.
  intros Hp [Hc Ha]. unfold visible, project_filter. rewrite Ha, Hc. cbn. rewrite Hp.
  by rewrite bool_decide_eq_true.
Qed.

Lemma seen_own p c t l x :
  str_true p = true → of_user p c → x ∈ seen c t l → x ∈ l ∧ project_id x = Some p.
Proof.
  intros Hp Hc Hx. unfold seen in Hx. apply list_elem_of_filter in Hx as [Hv Hin].
  apply andb_true_iff in Hv as [Hv _]. split; [done|by eapply visible_own].
Qed.

(** A found row is in the table and belongs to the project. *)
Definition own_row (p : string) (x : container) s : Prop :=
  x ∈ dvalues (rows (store_of s)) ∧ project_id x = Some p.

Lemma by_uuid_own p s0 t u : str_true p = true →
  hoare (working p s0) (get_container_by_uuid (P:=P) (X:=X) t u)
    (λ x s, working p s0 s ∧ own_row p x s) (λ _, working p s0).
Proof.
  intros Hp s Hs. unfold get_container_by_uuid, ctx. steps.
  destruct (filter _ _) as [|x [|]] eqn:Hf; [done| |done]. cbn. split; [done|].
  assert (x ∈ [x]) as Hx by by left. rewrite <- Hf in Hx. apply list_elem_of_filter in Hx as [_ Hx].
  eapply seen_own; [done|apply Hs|exact Hx].
Qed.

Lemma by_name_own p s0 t n : str_true p = true →
  hoare (working p s0) (get_container_by_name (P:=P) (X:=X) t n)
    (λ x s, working p s0 s ∧ own_row p x s) (λ _, working p s0).
Proof.
  intros Hp s Hs. unfold get_container_by_name, ctx. steps.
  destruct (filter _ _) as [|x [|]] eqn:Hf; [done| |done]. cbn. split; [done|].
  assert (x ∈ [x]) as Hx by by left. rewrite <- Hf in Hx. apply list_elem_of_filter in Hx as [_ Hx].
  eapply seen_own; [done|apply Hs|exact Hx].
Qed.

(** A row of the project as a new object. *)
Lemma alloc_holding p s0 x s : working p s0 s → own_row p x s →
  match on_store (P:=P) (X:=X) (Container.alloc x) s with
  | (Ok r, s') => holding p s0 r s' | (Raise _, s') => working p s0 s'
  end.
Proof.
  intros Hw [Hin Hp]. rewrite on_store_run. cbn. destruct (confined_wf _ _ _ (proj1 Hw)) as [Hnd Hu].
  split; [by apply working_store; [|apply Hw|]|].
  unfold linked. change (store_of (with_store ?st s)) with st. unfold obj. cbn.
  rewrite list_lookup_total_middle by done. split; [done|]. intros row Hrow.
  unfold dvalues in Hin. apply list_elem_of_fmap in Hin as ([u y] & -> & Hin). cbn in *.
  apply dget_In in Hin; [|done]. rewrite (Hu _ _ Hin), Hin in Hrow. by injection Hrow as <-.
Qed.

Lemma get_resource_holding p s0 is_uuid ident : str_true p = true →
  hoare (working p s0) (get_resource (P:=P) (X:=X) is_uuid ident) (λ r, holding p s0 r) (λ _, working p s0).
Proof.
  intros Hp. unfold get_resource. intros s Hs. unfold ctx. steps.
  assert (c_is_admin (a_ctx (others s)) = false) as -> by apply Hs. rewrite bind_ret.
  set (find := if is_uuid ident then _ else _).
  assert (hoare (working p s0) find (λ x s, working p s0 s ∧ own_row p x s) (λ _, working p s0)) as Hfind
    by (unfold find; destruct (is_uuid ident); [by apply by_uuid_own|by apply by_name_own]).
  specialize (Hfind s Hs). unfold bind. destruct (find s) as [[x|e] s']; [|done].
  destruct Hfind as [Hw Hx]. exact (alloc_holding p s0 x s' Hw Hx).
Qed.

(** What follows a look-up holds the object. *)
Lemma holding_bind {A} p s0 (m : py AS nat) (f : nat → py AS A) :
  hoare (working p s0) m (λ r, holding p s0 r) (λ _, working p s0) →
  (∀ r, preserves (holding p s0 r) (f r)) → preserves (working p s0) (bind m f).
Proof.
  intros Hm Hf. eapply hoare_bind; [exact Hm|]. intros r s Hs. specialize (Hf r s Hs).
  destruct (f r s) as [[a|e] s']; apply Hf.
Qed.

(** ** Messages *)

Section Messages.
Context `{Remote}.

Lemma call_holding p s0 r server q :
  (∀ c, about q = Some c → project_id c = Some p) →
  preserves (holding p s0 r) (Rpc._call (P:=P) (X:=X) server q).
Proof.
  intros Hq. unfold Rpc._call. apply preserves_bind; [apply preserves_gets|intros sent].
  apply preserves_bind; [by apply send_holding|intros _].
  destruct (answer q sent); [apply preserves_ret|apply preserves_raise].
Qed.

Lemma cast_holding p s0 r q :
  (∀ c d, about (q c) = Some d → d = c) →
  preserves (holding p s0 r) (Rpc.cast_container (P:=P) (X:=X) r q).
Proof.
  intros Hq. apply the_bind_holding. intros c Hc. apply send_holding. intros d Hd%Hq. by subst d.
Qed.

Lemma host_holding {A} p s0 r sched (func : py AS A) :
  preserves (holding p s0 r) func →
  preserves (holding p s0 r) (Rpc.check_container_host (P:=P) (X:=X) sched r func).
Proof.
  intros Hf. unfold Rpc.check_container_host. apply preserves_bind; [apply preserves_gets|intros services].
  apply preserves_bind.
  { apply keeps_alike_holding, keeps_map_m; [apply _|]. intros x _. unfold service_is_up. keep_rel. }
  intros ups. apply the_bind_holding. intros c _.
  apply preserves_bind; [apply preserves_raise_if|intros _; exact Hf].
Qed.

End Messages.

End Isolation.

(** [hold]: follow a computation that works on a container of the project.  What
    writes neither the store nor a message is left to [look]. *)
Ltac hold :=
  repeat
    lazymatch goal with
    | H : (if ?b then Some _ else _) = Some _ |- preserves _ _ => destruct b; simplify_eq
    | |- preserves _ (ret _) => apply preserves_ret
    | |- preserves _ (raise _) => apply preserves_raise
    | |- preserves _ (raise_if _ _) => apply preserves_raise_if
    | |- preserves _ (bind (the _) _) => apply the_bind_holding; intros ? ?
    | |- preserves _ (bind _ _) => apply preserves_bind; [|intros ?]
    | |- preserves _ (if ?b then _ else _) => destruct b
    | |- preserves _ (match ?b with _ => _ end) => destruct b
    | |- preserves _ (Compute._record_action_start _ _) => apply record_holding
    | |- preserves _ (ApiState.save _) => apply save_holding
    | |- preserves _ (save_named _ _) => apply save_named_holding
    | |- preserves _ (ApiState.destroy _) => apply destroy_holding
    | |- preserves _ (mut _ _) => apply mut_holding; by intros ?
    | |- preserves _ (for_each _ _) => apply preserves_for_each; intros ? ?
    | |- preserves _ (Rpc.send _) => apply send_holding; by intros ? [= <-]
    | |- preserves _ (Rpc.cast_container _ _) => apply cast_holding; by intros ? ? [= <-]
    | |- preserves (holding ?p ?s0 ?r) (Rpc._call ?server ?q) =>
        refine (call_holding p s0 r server q _); by intros ? [= <-]
    | |- preserves _ (Rpc.check_container_host _ _ _) => apply host_holding
    | |- preserves _ (try_except _ _) =>
        first [ solve [apply keeps_alike_holding; look] | apply preserves_try_except; [|intros ? ? ?; simplify_eq] ]
    | |- _ => solve [ auto with py | apply keeps_alike_holding; look ]
    end.

#[export] Hint Resolve the_alike on_ext_alike on_nodes_alike unique_name_alike : py.
#[export] Hint Extern 1 (keeps alike (on_api (modify _))) => apply on_api_alike; by intros ? : py.

Create HintDb zun.
#[local] Hint Unfold Compute.container_delete Rpc.container_delete : zun.
#[local] Hint Unfold Compute.container_show Rpc.container_show : zun.
#[local] Hint Unfold Compute.container_rebuild Rpc.container_rebuild : zun.
#[local] Hint Unfold Compute.container_reboot Rpc.container_reboot : zun.
#[local] Hint Unfold Compute.container_stop Rpc.container_stop : zun.
#[local] Hint Unfold Compute.container_start Rpc.container_start : zun.
#[local] Hint Unfold Compute.container_pause Rpc.container_pause : zun.
#[local] Hint Unfold Compute.container_unpause Rpc.container_unpause : zun.
#[local] Hint Unfold Compute.container_logs Rpc.container_logs : zun.
#[local] Hint Unfold Compute.container_exec Rpc.container_exec : zun.
#[local] Hint Unfold Compute.container_exec_resize Rpc.container_exec_resize : zun.
#[local] Hint Unfold Compute.container_kill Rpc.container_kill : zun.
#[local] Hint Unfold Compute.container_update Rpc.container_update : zun.
#[local] Hint Unfold Compute.resize_container Rpc.resize_container : zun.
#[local] Hint Unfold Compute.container_attach Rpc.container_attach : zun.
#[local] Hint Unfold Compute.container_resize Rpc.container_resize : zun.
#[local] Hint Unfold Compute.container_top Rpc.container_top : zun.
#[local] Hint Unfold Compute.container_get_archive Rpc.container_get_archive : zun.
#[local] Hint Unfold Compute.container_put_archive Rpc.container_put_archive : zun.
#[local] Hint Unfold Compute.container_stats Rpc.container_stats : zun.
#[local] Hint Unfold Compute.container_commit Rpc.container_commit : zun.
#[local] Hint Unfold Compute.add_security_group Rpc.add_security_group : zun.
#[local] Hint Unfold Compute.remove_security_group Rpc.remove_security_group : zun.
#[local] Hint Unfold Compute.network_detach Rpc.network_detach : zun.
#[local] Hint Unfold Compute.network_attach Rpc.network_attach : zun.

Section Handlers.
Context {P X : Type} `{Remote} `{Scheduler.PlacementClient P} `{Clients X}.
Context (allowed : context → string → target → bool) (conf : api_conf) (sched : sched_conf)
  (is_uuid_like : string → bool) (bool_of_text : string → option bool) (version : Version).
Context (p : string) (s0 : qdb (api P X)) (Hp : str_true p = true).
Abbreviation AS := (qdb (api P X)).

Lemma enforce_alike action t : keeps alike (ApiState.enforce (P:=P) (X:=X) allowed action t).
Proof. unfold ApiState.enforce, ctx. keep_rel. Qed.

Lemma check_policy_alike r action : keeps alike (ApiState.check_policy_on_container (P:=P) (X:=X) allowed r action).
Proof. pose proof enforce_alike. unfold ApiState.check_policy_on_container. keep_rel. Qed.

Lemma validate_state_alike r action : keeps alike (validate_state (P:=P) (X:=X) r action).
Proof. unfold validate_state, validate_container_state. keep_rel. Qed.

Lemma valid_flag_alike f : keeps alike (valid_flag (P:=P) (X:=X) bool_of_text f).
Proof. unfold valid_flag, bool_from_string. look. Qed.

Lemma checked_holding ident rule action :
  hoare (working p s0) (checked (P:=P) (X:=X) allowed is_uuid_like ident rule action)
    (λ r, holding p s0 r) (λ _, working p s0).
Proof.
  unfold checked. eapply hoare_bind; [by apply get_resource_holding|]. intros r.
  apply (hoare_conseq (holding p s0 r) _ _ (λ r' s, r' = r ∧ holding p s0 r s) _ (λ _, holding p s0 r)).
  - eapply hoare_bind; [apply keeps_alike_holding, check_policy_alike|intros []].
    eapply hoare_bind; [apply keeps_alike_holding, validate_state_alike|intros []]. apply hoare_ret.
  - done.
  - intros r' s [Heq Hs]. by rewrite Heq.
  - by intros e s [Hw _].
Qed.

Lemma all_projects_working : preserves (working p s0)
  (on_api (P:=P) (X:=X) (modify (λ a, set_ctx (with_all_projects (a_ctx a)) a))).
Proof. intros s [Hc Hu]. cbn. split; [by destruct Hc|exact Hu]. Qed.

Lemma across_working ap rule :
  preserves (working p s0) (across_projects (P:=P) (X:=X) allowed bool_of_text ap rule).
Proof.
  unfold across_projects, is_all_projects. apply preserves_bind.
  { apply keeps_alike_working. pose proof valid_flag_alike. look. }
  intros [|]; [|apply preserves_ret]. apply preserves_bind; [|intros _; apply all_projects_working].
  apply keeps_alike_working, enforce_alike.
Qed.

(** A handler that only looks. *)
Lemma deletion_checks_holding r force stop : preserves (holding p s0 r)
  (deletion_checks (P:=P) (X:=X) allowed version r force stop).
Proof.
  pose proof enforce_alike. pose proof check_policy_alike. pose proof validate_state_alike.
  unfold deletion_checks, version_check. autounfold with zun. hold.
Qed.

Lemma validate_driver_alike d : keeps alike (validate_image_driver (P:=P) (X:=X) conf d).
Proof. unfold validate_image_driver. look. Qed.

(** The end of an operation: from what it does with the container to its answer. *)
Lemma respond_working {A} (m : py AS A) s :
  preserves (working p s0) m → working p s0 s → working p s0 (wrap_controller_exception m s).2.
Proof.
  intros Hm Hs. specialize (Hm s Hs). unfold wrap_controller_exception.
  destruct (m s) as [[a|e] s']; [done|]. by case_bool_decide.
Qed.

Lemma checked_working {A} ident rule action (f : nat → py AS A) s :
  (∀ r, preserves (holding p s0 r) (f r)) → working p s0 s →
  working p s0 (wrap_controller_exception (bind (checked allowed is_uuid_like ident rule action) f) s).2.
Proof. intros Hf. apply respond_working, holding_bind; [apply checked_holding|exact Hf]. Qed.

Lemma resource_working {A} ident (f : nat → py AS A) s :
  (∀ r, preserves (holding p s0 r) (f r)) → working p s0 s →
  working p s0 (wrap_controller_exception (bind (get_resource is_uuid_like ident) f) s).2.
Proof. intros Hf. apply respond_working, holding_bind; [by apply get_resource_holding|exact Hf]. Qed.
End Handlers.

(** [work]: a handler that starts by looking its container up. *)
Ltac work :=
  first [ apply checked_working; [done|intros ?|assumption] | apply resource_working; [done|intros ?|assumption] ];
  autounfold with zun; hold.

Section Serve.
Context {P X : Type} `{Remote} `{Scheduler.PlacementClient P} `{Clients X}.
Context (allowed : context → string → target → bool) (conf : api_conf) (sched : sched_conf)
  (is_uuid_like : string → bool) (bool_of_text : string → option bool) (version : Version).
Context (p : string) (s0 : qdb (api P X)) (Hp : str_true p = true).
Abbreviation AS := (qdb (api P X)).
Implicit Types s : AS.

Lemma delete_working i ap force stop s : working p s0 s →
  working p s0 (delete allowed sched is_uuid_like bool_of_text version i ap force stop s).2.
Proof.
  intros Hs. unfold delete. apply respond_working; [|done]. apply preserves_bind; [apply across_working|intros _].
  apply holding_bind; [by apply get_resource_holding|intros r].
  pose proof (check_policy_alike (P:=P) (X:=X) allowed). pose proof (valid_flag_alike (P:=P) (X:=X) bool_of_text).
  autounfold with zun.
  repeat first [apply deletion_checks_holding | progress hold].
Qed.

Lemma get_one_working i ap s : working p s0 s →
  working p s0 (get_one allowed sched is_uuid_like bool_of_text i ap s).2.
Proof.
  intros Hs. unfold get_one. apply respond_working; [|done]. apply preserves_bind; [apply across_working|intros _].
  apply holding_bind; [by apply get_resource_holding|intros r].
  pose proof (check_policy_alike (P:=P) (X:=X) allowed). autounfold with zun. hold.
Qed.

Lemma networks_alike nets :
  keeps alike (build_requested_networks (P:=P) (X:=X) allowed is_uuid_like nets).
Proof.
  unfold build_requested_networks, build_network, check_external_network_attach, can, project, ctx. look.
Qed.

Lemma security_group_alike n : keeps alike (_check_security_group (P:=P) (X:=X) n).
Proof. unfold _check_security_group, project, ctx. look. Qed.

Lemma ports_alike l : keeps alike (ports_of (P:=P) (X:=X) l).
Proof. unfold ports_of. look. Qed.

(** The operations that work on a container they look up. *)
Definition works_on_container (op : operation) : bool :=
  match op with
  | GetAll _ _ | GetOne _ _ | GetActions _ | Post _ _ | Patch _ _ | Delete _ _ _ _ => false
  | _ => true
  end.

Section Rest.
Context {Q : QuotaDriver (api P X)} `{!ChecksRead Q}.
Context (enabled_filters : list filter_class) (standards : list string) (max_placement_results : Z)
  (sched_driver : Scheduler.driver).
Context (new_uuid : Container.store → string) (request_uuid : nat → string) (random_name : string)
  (get_registry : string → py X unit) (round3 : Qc → Qc) (sql_number : string → Qc)
  (set_order : list string → list string) (str_float : Qc → string) (coerce_bool : flag → bool)
  (rule_exists : string → bool) (auto_remove_is : option bool → string → bool)
  (paginate : list container → Z → option container → string → string → outcome exn (list container)).

Abbreviation serve := (serve allowed conf sched is_uuid_like bool_of_text version enabled_filters
  standards max_placement_results sched_driver new_uuid request_uuid random_name get_registry
  round3 sql_number set_order str_float coerce_bool rule_exists auto_remove_is paginate).

Lemma serve_works op s : works_on_container op = true → working p s0 s → working p s0 (serve op s).
Proof.
  pose proof (validate_driver_alike (P:=P) (X:=X) conf). pose proof security_group_alike.
  pose proof networks_alike. pose proof ports_alike.
  pose proof (valid_flag_alike (P:=P) (X:=X) bool_of_text).
  pose proof (check_policy_alike (P:=P) (X:=X) allowed).
  intros Hop Hs. destruct op; try discriminate Hop; cbn [serve].
  all: unfold start, ContainersApi.stop, reboot, rebuild, pause, unpause, logs, execute, execute_resize, kill, rename,
    attach, resize, ContainersApi.resize_container, top, get_archive, put_archive, _get_archive, _put_archive, stats,
    commit, ContainersApi.add_security_group, ContainersApi.remove_security_group,
    ContainersApi.network_detach, ContainersApi.network_attach, network_list, network_list_legacy,
    _get_container_networks.
  all: work.
Qed.

Lemma quotas_alike d update :
  keeps alike (_check_container_quotas (P:=P) (X:=X) round3 sql_number d update).
Proof.
  assert (∀ rs values q, keeps alike (QuotaApi.limit_check rs values q)) as Hcheck.
  { intros rs values q. eapply keeps_weaken; [|apply limit_check_reads]. by intros x ? <-. }
  unfold _check_container_quotas, total, the_project, ctx, Engine.count, Quota.count, get_count, to_int, to_float.
  look.
Qed.

Lemma save_patch_holding r n heal :
  preserves (holding p s0 r) (save_patch (P:=P) (X:=X) conf coerce_bool r n heal).
Proof. unfold save_patch. hold. Qed.

Lemma patch_working i b s : working p s0 s → working p s0 (serve (Patch i b) s).
Proof.
  pose proof quotas_alike. pose proof save_patch_holding.
  intros Hs. cbn [serve]. unfold patch.
  assert (∀ (v : option jval) c, keeps alike (optional (P:=P) (X:=X) v (λ v, memory_delta str_float v c))) as Hm
    by (intros v c; unfold optional, memory_delta, int_text, to_int; look).
  assert (∀ (v : option jval) c, keeps alike (optional (P:=P) (X:=X) v (λ v, cpu_delta v c))) as Hq
    by (intros v c; unfold optional, cpu_delta, to_float; look).
  work.
Qed.

Lemma list_working ap kw s : working p s0 s → working p s0 (serve (GetAll ap kw) s).
Proof.
  intros Hs. cbn [serve]. unfold get_all. apply respond_working; [|done].
  apply preserves_bind; [apply keeps_alike_working, enforce_alike|intros _].
  unfold _get_containers_collection. apply preserves_bind; [apply across_working|intros _].
  apply keeps_alike_working.
  unfold validate_limit, validate_sort_dir, can_if_exists, list_containers, get_container_by_uuid, ctx. look.
Qed.

Lemma actions_working i s : working p s0 s → working p s0 (serve (GetActions i) s).
Proof.
  intros Hs. cbn [serve]. unfold actions_get_all. apply respond_working; [|done].
  apply preserves_bind; [apply keeps_alike_working, enforce_alike|intros _].
  apply holding_bind; [by apply get_resource_holding|intros r]. hold.
Qed.

(** *** Creation *)

(** An object of the project that has no row yet. *)
Definition fresh r s : Prop := working p s0 s ∧ project_id (obj (store_of s) r) = Some p.

Lemma dget_snoc {A} (d : dict string A) u v k :
  dget d u = None → dget (d ++ [(u, v)]) k = if decide (u = k) then Some v else dget d k.
Proof.
  intros Hu%dget_None_keys. rewrite <- dset_fresh by done. apply dget_dset.
Qed.

Lemma create_holding r :
  hoare (fresh r) (create (P:=P) (X:=X) conf new_uuid r) (λ _, holding p s0 r) (λ _, working p s0).
Proof.
  intros s [Hw Hp']. unfold create. rewrite (bind_eq _ _ _ _ _ (object_run r s)).
  set (c := obj (store_of s) r) in *. set (names := if ostr_true _ then _ else _).
  assert (keeps alike names) as Hn.
  { unfold names. destruct (ostr_true _); [apply unique_name_alike|apply keeps_ret, _]. }
  unfold bind at 1. destruct (names s) as [[[]|e] s1] eqn:Hrun; apply Hn in Hrun;
    [|by eapply alike_working]. pose proof (alike_working _ _ _ _ Hrun Hw) as Hw1.
  destruct Hrun as (_ & _ & Hst & _). unfold raise_if. steps. rewrite Hst.
  destruct (dhas _ _) eqn:Hhas; [done|]. rewrite bind_ret, on_store_run. cbn [modify fst snd].
  set (u := new_uuid _) in *. set (row := set_uuid u _).
  assert (dget (rows (store_of s)) u = None) as Hu
    by (unfold dhas in Hhas; by destruct (dget _ _)).
  assert (r < length (objects (store_of s))) as Hr.
  { destruct (decide (r < length (objects (store_of s)))) as [|Hr]; [done|].
    unfold c, obj in Hp'. rewrite list_lookup_total_alt, lookup_ge_None_2 in Hp' by lia. done. }
  destruct (confined_wf _ _ _ (proj1 Hw)) as [Hnd Huu].
  split; [apply working_store; [done| |]|].
  - rewrite Hst. cbn. split.
    + unfold dkeys. rewrite fmap_app. apply NoDup_app. split_and!; [done| |apply NoDup_singleton].
      intros x Hx ->%list_elem_of_singleton. by apply dget_None_keys in Hu.
    + intros k d. rewrite dget_snoc by done. case_decide as Hk; [intros [= <-]; done|apply Huu].
  - intros k d Hd. rewrite Hst. cbn. rewrite dget_snoc by done. case_decide as Hk; [|done].
    subst k. rewrite Hu. split; [|done]. intros [= <-]. by destruct Hd.
  - unfold linked. change (store_of (with_store ?st s1)) with st. rewrite Hst.
    assert (obj (mkStore (alter (λ _, row) r (objects (store_of s))) (rows (store_of s) ++ [(u, row)])) r = row) as ->.
    { unfold obj. cbn. rewrite list_lookup_total_alt, list_lookup_alter_eq.
      destruct (lookup_lt_is_Some_2 _ _ Hr) as [x Hx]. by rewrite Hx. }
    split; [exact Hp'|]. cbn. intros d. rewrite dget_snoc, decide_True by done. by intros [= <-].
Qed.

Lemma scheduled_holding r s s' : scheduled s s' → holding p s0 r s → holding p s0 r s'.
Proof.
  intros [Hq Hc Hctx Hsent _ _ _ _ (_ & _ & Hrows & _ & Hobj)] [[[Hq0 Hc0 Hwf Hr (ms & Hms & Hall)] Hu] [Hp' Hrow]].
  specialize (Hobj r). fold (store_of s') (store_of s) in *.
  assert (Container.uuid (obj (store_of s') r) = Container.uuid (obj (store_of s) r) ∧
          project_id (obj (store_of s') r) = project_id (obj (store_of s) r)) as [Huuid Hproj]
    by (destruct (obj (store_of s') r), (obj (store_of s) r); cbn in *; by simplify_eq).
  split; [split|].
  - split; [by rewrite Hq|by rewrite Hc|by rewrite Hrows|by rewrite Hrows|].
    exists ms. by rewrite Hsent.
  - by rewrite Hctx.
  - unfold linked. by rewrite Huuid, Hproj, Hrows.
Qed.

Lemma container_create_holding r xs nets vols run pci :
  preserves (holding p s0 r) (Compute.container_create (X:=X) sched conf enabled_filters standards
    max_placement_results sched_driver r xs nets vols run pci).
Proof.
  assert (preserves (holding p s0 r) (Compute._schedule_container (X:=X) sched conf enabled_filters standards
    max_placement_results sched_driver r xs)) as Hsched.
  { intros s Hs. destruct (Compute._schedule_container _ _ _ _ _ _ r xs s) as [o s'] eqn:Hrun.
    apply schedule_container_same in Hrun. destruct o; by eapply scheduled_holding. }
  unfold Compute.container_create. apply preserves_bind.
  { unfold Compute._validate_host, Compute._destroy_volume, ctx. hold. }
  intros _. apply preserves_bind.
  { apply preserves_try_except.
    - apply preserves_bind; [exact Hsched|intros d; apply preserves_ret].
    - intros e k Hk. unfold Compute.fail_scheduling in Hk. destruct (isinstance e NoValidHost); simplify_eq; hold. }
  intros [d|]; [|apply preserves_ret].
  unfold Compute.validate_image, Rpc.image_search, Rpc.container_create, Rpc._cast. hold.
Qed.

Lemma alloc_fresh row s : working p s0 s → project_id row = Some p →
  match on_store (P:=P) (X:=X) (Container.alloc row) s with
  | (Ok r, s') => fresh r s' | (Raise _, s') => working p s0 s'
  end.
Proof.
  intros Hw Hp'. rewrite on_store_run. cbn. split; [by apply working_store; [|apply Hw|]|].
  change (store_of (with_store ?st s)) with st. unfold obj. cbn. by rewrite list_lookup_total_middle.
Qed.

Lemma new_row_working {A} row (f : nat → py AS A) :
  project_id row = Some p → (∀ r, preserves (holding p s0 r) (f r)) →
  preserves (working p s0) (let! r := on_store (Container.alloc row) in
                            ApiState.create conf new_uuid r;;; f r).
Proof.
  intros Hp' Hf s Hs. pose proof (alloc_fresh row s Hs Hp') as Ha. unfold bind at 1.
  destruct (on_store _ s) as [[r|e] s1]; [|exact Ha].
  pose proof (create_holding r s1 Ha) as Hc. unfold bind.
  destruct (ApiState.create conf new_uuid r s1) as [[[]|e] s2]; [|exact Hc].
  specialize (Hf r s2 Hc). destruct (f r s2) as [[a|e] s3]; apply Hf.
Qed.

Lemma new_container_owner b c groups interactive auto_remove runtime driver amounts :
  of_user p c →
  hoare (working p s0) (new_container (P:=P) (X:=X) random_name coerce_bool b c groups interactive auto_remove
    runtime driver amounts)
    (λ row s, working p s0 s ∧ project_id row = Some p) (λ _, working p s0).
Proof.
  intros [Hc _]. unfold new_container. destruct amounts as [[d m] q].
  assert (keeps alike (float_field (P:=P) (X:=X) q)) as Hq by (unfold float_field, to_float; look).
  assert (keeps alike (int_field (P:=P) (X:=X) d)) as Hd by (unfold int_field, to_int; look).
  eapply hoare_bind; [apply keeps_alike_working, Hq|]. intros cpu.
  eapply hoare_bind; [apply keeps_alike_working, Hd|]. intros disk s Hs. by split.
Qed.

Lemma volumes_alike mounts : keeps alike (_build_requested_volumes (P:=P) (X:=X) is_uuid_like mounts).
Proof. unfold _build_requested_volumes, build_mount, project, ctx. look. Qed.

Lemma since_alike {A B} v (o : option A) (f : A → py AS B) :
  (∀ a, keeps alike (f a)) → keeps alike (since (P:=P) (X:=X) version v o f).
Proof. intros Hf. unfold since, version_check. look. Qed.

Lemma sriov_alike nets : keeps alike (_create_pci_requests_for_sriov_ports (P:=P) (X:=X) request_uuid nets).
Proof. unfold _create_pci_requests_for_sriov_ports, sriov_request, _get_port_vnic_info. look. Qed.

Lemma version_check_alike v : keeps alike (version_check (S:=AS) version v).
Proof. unfold version_check. look. Qed.

Lemma ctx_user : hoare (working p s0) (ctx (P:=P) (X:=X)) (λ c s, working p s0 s ∧ of_user p c) (λ _, working p s0).
Proof. intros s Hs. split; [done|apply Hs]. Qed.

(** [prefix]: the steps of a creation before its row is written. *)
Ltac prefix :=
  repeat lazymatch goal with
  | |- preserves _ (bind ctx _) => apply (preserves_bind_pure _ _ _ _ ctx_user); intros ? ?
  | |- preserves _ (bind (new_container _ _ _ _ _ _ _ _ _ _) _) =>
      eapply preserves_bind_pure; [by apply new_container_owner|intros ? ?]
  | |- preserves _ (bind (on_store _) _) => apply new_row_working; [assumption|intros ?]
  | |- preserves (holding _ _ _) _ => fail
  | |- preserves _ (bind (since _ _ _ _) _) =>
      apply preserves_bind; [apply keeps_alike_working, since_alike; intros ?; look|intros ?]
  | |- preserves _ (bind _ _) => apply preserves_bind; [apply keeps_alike_working; look|intros ?]
  | |- preserves _ (match ?x with pair _ _ => _ end) => destruct x
  end.

Lemma post_working run b s : working p s0 s → working p s0 (serve (Post run b) s).
Proof.
  pose proof quotas_alike. pose proof volumes_alike. pose proof sriov_alike. pose proof networks_alike.
  pose proof security_group_alike. pose proof version_check_alike.
  pose proof (enforce_alike (P:=P) (X:=X) allowed). pose proof (valid_flag_alike (P:=P) (X:=X) bool_of_text).
  assert (∀ rp, keeps alike (check_for_restart_policy (P:=P) (X:=X) rp)) as Hrp
    by (intros rp; unfold check_for_restart_policy, to_int; look).
  assert (∀ k, keeps alike (build_exposed_port (P:=P) (X:=X) k)) as Hport
    by (intros k; unfold build_exposed_port; look).
  intros Hs. cbn [serve]. unfold _do_post. apply respond_working; [|done]. prefix.
  apply preserves_bind; [apply keeps_alike_holding, volumes_alike|intros vols].
  apply preserves_bind; [apply container_create_holding|intros _; hold].
Qed.

Lemma serve_working op s : working p s0 s → working p s0 (serve op s).
Proof.
  intros Hs. destruct (works_on_container op) eqn:Hop; [by apply serve_works|].
  destruct op; try discriminate Hop; clear Hop.
  - by apply list_working.
  - by apply get_one_working.
  - by apply actions_working.
  - by apply post_working.
  - by apply patch_working.
  - by apply delete_working.
Qed.

(** C5. Isolation of projects.  Whatever requests users of a project who are not
    admins send, in any order and whatever the compute services, Neutron, Cinder
    and placement answer: every row of another project is what it was, no row of
    another project appears, every message about a container is about one of the
    project, and the quotas are untouched. *)
Theorem projects_isolated requests :
  rows_wf (rows (store_of s0)) → Forall (λ co, of_user p co.1) requests →
  confined p s0 (serve_all allowed conf sched is_uuid_like bool_of_text version enabled_filters
    standards max_placement_results sched_driver new_uuid request_uuid random_name get_registry
    round3 sql_number set_order str_float coerce_bool rule_exists auto_remove_is paginate requests s0).
Proof.
  intros Hwf Hreq. assert (confined p s0 s0) as Hs by (split; try done; exists []; by rewrite app_nil_r).
  unfold serve_all. revert Hs. generalize s0 at 2 4 as s. induction Hreq as [|[c op] requests Hc _ IH]; intros s Hs; [exact Hs|].
  apply IH. cbn [fst snd] in *. apply serve_working. split; [by destruct Hs|exact Hc].
Qed.
End Rest.
End Serve.

(** ** Witness *)

#[local] Definition iso_clients : Clients unit := {|
  list_networks _ s := ([], s); list_ports _ s := ([], s); find_security_group _ _ s := (SgError 404, s);
  show_port _ := raise (Zun PortNotFound); show_network _ := raise (Zun NetworkNotFound);
  volumes_get _ s := (NotFound_, s); volumes_find _ s := (NotFound_, s); volumes_create _ s := (None, s) |}.
#[local] Definition other_row : container :=
  set_name (Some "db") (set_status (Some RUNNING)
    (Container.mkContainer "c2" TYPE_CONTAINER None None None None None None None None None None None None
       [] None (Some "p2") (Some "u2") None None None [])).
#[local] Definition own_running : container := set_status (Some RUNNING) demo_row.
#[local] Definition iso_state : qdb (api (list (string * alloc_req)) unit) :=
  demo_api (mkStore [] [("c1", own_running); ("c2", other_row)]).
#[local] Definition iso_requests : list (context * operation) :=
  (λ op, (demo_context, op)) <$>
    [Stop "web" None; Stop "db" None; Rename "web" "shop"; Delete "c2" None (FBool true) (FBool true);
     Delete "shop" None (FBool false) (FBool true)].
Abbreviation iso_end :=
  (serve_all (H:=demo_remote) (H1:=iso_clients) (H2:=NoopQuotaDriver) (λ _ _ _, true) demo_conf demo_sched_conf
     (λ i, String.eqb i "c1" || String.eqb i "c2") (λ _, None) (mkVersion 1 40) demo_filters
     ["VCPU"; "MEMORY_MB"; "DISK_GB"] 1000 FilterScheduler (λ _, "new") (λ _, "req") "name"
     (λ _, ret tt) (λ q, q) (λ _, 0%Qc) (λ l, l) (λ _, "1.0") (λ _, true) (λ _, true) (λ _ _, true)
     (λ l _ _ _ _, Ok l) iso_requests iso_state).

(** Stopping and deleting one's own container does something; the others' is not found. *)
Lemma projects_isolated_witness :
  confined "p1" iso_state iso_end ∧
  m_kind <$> a_sent (others iso_end) = [Cast; Cast] ∧ dkeys (rows (store_of iso_end)) = ["c2"].
Proof.
  split; [|split; vm_compute; reflexivity].
  apply projects_isolated.
  - done.
  - apply _.
  - split; [|intros u c Hd].
    + cbn. repeat constructor; set_solver.
    + cbn in Hd. repeat case_decide; simplify_eq; done.
  - by repeat constructor.
Defined.
