(* ===== verification/QuotaUse.v ===== *)
(** * A created container fits in the quota of its project

    Creation counts the containers of the project, checks the limit in force and
    only then writes the row ([ContainersCreate._do_post]).  Served one request at a
    time, an accepted creation leaves the project within its limit; two creations
    served at the same time could both pass the check, which is outside the model. *)

From Stdlib Require Import Ascii.
From S2P Require Import Prelude Exceptions PyStr Quota QuotaApi PciStats Container ComputeNode Claims.
From S2P Require Import ResourceRequest HostFilters Scheduler Volumes Versions Services ApiState ComputeApi.
From S2P Require Import ContainersApi ContainersCreate Isolation.

(** ** Counting rows *)

Section Counting.
Context {A : Type} (Q : A → Prop) `{∀ x, Decision (Q x)}.

Lemma count_dset (d : dict string A) k v v' :
  dget d k = Some v → Q v → Q v' →
  length (filter Q (dvalues (dset d k v'))) = length (filter Q (dvalues d)).
Proof.
  intros Hk Hv Hv'. induction d as [|[k' w] d IH]; [done|]. cbn [dget dset] in *.
  change (dvalues ((k', w) :: d)) with (w :: dvalues d). case_decide as Heq.
  - injection Hk as ->. change (dvalues ((k, v') :: d)) with (v' :: dvalues d). by rewrite !filter_cons_True.
  - change (dvalues ((k', w) :: dset d k v')) with (w :: dvalues (dset d k v')).
    rewrite !filter_cons. destruct (decide (Q w)); cbn [length]; by rewrite IH.
Qed.
End Counting.

Section QuotaUse.
Context {P X : Type}.
Abbreviation AS := (qdb (api P X)).
Implicit Types s : AS.

(** The rows a project is charged for. *)
Definition charged (p : string) (c : container) : Prop := ctype c = TYPE_CONTAINER ∧ project_id c = Some p.
#[export] Instance charged_dec p c : Decision (charged p c).
Proof. unfold charged. apply _. Defined.

Definition in_use (p : string) s : nat := length (owned (others s) p).

(** The object and the row of its uuid are charged to [p], which has [n] rows. *)
Definition counted_row p n r s : Prop :=
  let st := store_of s in
  in_use p s = n ∧ charged p (obj st r) ∧
  ∃ row, dget (rows st) (Container.uuid (obj st r)) = Some row ∧ charged p row.

Definition same_store_of s s' : Prop := store_of s' = store_of s.
#[export] Instance same_store_of_preorder : PreOrder same_store_of.
Proof. split; [by intros s|]. unfold same_store_of. intros s1 s2 s3. congruence. Qed.

Lemma same_store_counted {A} p n r (m : py AS A) :
  keeps same_store_of m → preserves (counted_row p n r) m.
Proof.
  intros Hm s Hs. destruct (m s) as [o s'] eqn:Hrun. apply Hm in Hrun.
  assert (counted_row p n r s') as H; [|by destruct o].
  revert Hs. unfold counted_row, in_use, owned. unfold same_store_of, store_of in Hrun. unfold store_of.
  by rewrite Hrun.
Qed.

Lemma alike_same_store {A} (m : py AS A) : keeps alike m → keeps same_store_of m.
Proof. apply keeps_weaken. by intros s s' (_ & _ & H & _). Qed.

Lemma send_same_store m : keeps same_store_of (Rpc.send (P:=P) (X:=X) m).
Proof. by intros s o s' [= _ <-]. Qed.

Lemma in_use_store p st s :
  in_use p (with_store st s) = length (filter (charged p) (dvalues (rows st))).
Proof. done. Qed.

Lemma save_counted p n r : preserves (counted_row p n r) (ApiState.save (P:=P) (X:=X) r).
Proof.
  intros s (Hn & Hobj & row & Hrow & Hch). unfold ApiState.save. rewrite on_store_run.
  destruct (Container.save r (store_of s)) as [[[]|e] st] eqn:Hrun; cbn [fst snd].
  - apply save_Ok in Hrun as [_ ->]. split; [|split; [exact Hobj|]].
    + rewrite in_use_store. cbn. rewrite <- Hn. by eapply count_dset.
    + exists (obj (store_of s) r). cbn. by rewrite dget_dset_eq.
  - apply save_Raise in Hrun as ->. rewrite with_store_id. split; [done|]. split; [done|by exists row].
Qed.

Lemma status_counted p n r v : preserves (counted_row p n r) (mut (P:=P) (X:=X) r (set_status v)).
Proof.
  intros s (Hn & Hobj & row & Hrow & Hch). unfold mut. rewrite on_store_run. cbn [Container.mutate modify fst snd].
  assert (r < length (objects (store_of s))) as Hr.
  { destruct (decide (r < length (objects (store_of s)))) as [|Hr]; [done|]. destruct Hobj as [_ Hp].
    unfold obj in Hp. rewrite list_lookup_total_alt, lookup_ge_None_2 in Hp by lia. done. }
  split; [done|]. change (store_of (with_store ?st s)) with st. rewrite obj_alter_at, decide_True by done.
  split; [exact Hobj|by exists row].
Qed.

(** The computation keeps [I] when it returns. *)
Definition returns_in {A} (I : AS → Prop) (m : py AS A) (Q : A → AS → Prop) : Prop :=
  hoare I m Q (λ _ _, True).

Lemma preserves_returns {A} I (m : py AS A) : preserves I m → returns_in I m (λ _, I).
Proof. intros Hm. by eapply hoare_conseq; [exact Hm|..]. Qed.

Lemma returns_bind {A B} I (m : py AS A) (f : A → py AS B) R Q :
  returns_in I m R → (∀ a, returns_in (R a) (f a) Q) → returns_in I (bind m f) Q.
Proof. apply hoare_bind. Qed.

Lemma returns_and {A} I (φ : Prop) (m : py AS A) Q :
  φ → returns_in I m Q → returns_in I m (λ a s, φ ∧ Q a s).
Proof. intros Hφ Hm s Hs. specialize (Hm s Hs). by destruct (m s) as [[a|e] s1]. Qed.

(** A handler that raises in the end never returns. *)
Lemma raising_returns {A B} I (m : py AS A) (e : exn) Q : returns_in (A:=B) I (bind m (λ _, raise e)) Q.
Proof. intros s _. unfold bind. by destruct (m s) as [[a|e'] s']. Qed.

Lemma returns_try {A} I (m : py AS A) h :
  preserves I m → (∀ e k, h e = Some k → returns_in I k (λ _, I)) → returns_in I (try_except m h) (λ _, I).
Proof.
  intros Hm Hh s Hs. specialize (Hm s Hs). unfold try_except.
  destruct (m s) as [[a|e] s1]; [done|]. destruct (h e) as [k|] eqn:Hk; [exact (Hh e k Hk s1 Hm)|done].
Qed.

Section Create.
Context `{Remote} `{Scheduler.PlacementClient P}.
Context (conf : api_conf) (sched : sched_conf).
Context (enabled_filters : list filter_class) (standards : list string) (max_placement_results : Z)
  (sched_driver : Scheduler.driver) (new_uuid : Container.store → string).

Lemma scheduled_counted p n r s s' : scheduled s s' → counted_row p n r s → counted_row p n r s'.
Proof.
  intros [_ _ _ _ _ _ _ _ (_ & _ & Hrows & _ & Hobj)] (Hn & Hch & row & Hrow & Hchr).
  specialize (Hobj r). fold (store_of s') (store_of s) in *.
  assert (Container.uuid (obj (store_of s') r) = Container.uuid (obj (store_of s) r) ∧
          ctype (obj (store_of s') r) = ctype (obj (store_of s) r) ∧
          project_id (obj (store_of s') r) = project_id (obj (store_of s) r)) as (Hu & Ht & Hp)
    by (destruct (obj (store_of s') r), (obj (store_of s) r); cbn in *; by simplify_eq).
  split; [|split].
  - unfold in_use, owned. fold (store_of s'). rewrite Hrows. exact Hn.
  - unfold charged. rewrite Ht, Hp. exact Hch.
  - exists row. by rewrite Hu, Hrows.
Qed.

Lemma validate_host_counted p n r h vols :
  returns_in (counted_row p n r) (Compute._validate_host (P:=P) (X:=X) r h vols) (λ _, counted_row p n r).
Proof.
  unfold Compute._validate_host. destruct (str_true h); [|apply preserves_returns, preserves_ret].
  apply returns_try.
  - apply same_store_counted, alike_same_store. look.
  - intros e k Hk. destruct (isinstance e ComputeNodeNotFound); [|done]. injection Hk as <-.
    intros s _. unfold bind. by repeat case_match.
Qed.

Lemma compute_create_counted p n r xs nets vols run pci :
  returns_in (counted_row p n r) (Compute.container_create (X:=X) sched conf enabled_filters standards
    max_placement_results sched_driver r xs nets vols run pci) (λ _, counted_row p n r).
Proof.
  assert (preserves (counted_row p n r) (Compute._schedule_container (X:=X) sched conf enabled_filters standards
    max_placement_results sched_driver r xs)) as Hsched.
  { intros s Hs. destruct (Compute._schedule_container _ _ _ _ _ _ r xs s) as [o s'] eqn:Hrun.
    apply schedule_container_same in Hrun. destruct o; by eapply scheduled_counted. }
  assert (preserves (counted_row p n r) (Compute.fail_scheduling (P:=P) (X:=X) r)) as Hfail.
  { apply preserves_bind; [apply status_counted|intros _; apply save_counted]. }
  assert (∀ q, keeps same_store_of (the (P:=P) (X:=X) q)) as Hthe by (intros q; apply alike_same_store, the_alike).
  pose proof send_same_store as Hsend.
  unfold Compute.container_create. eapply returns_bind.
  { destruct (ostr_true _); [apply validate_host_counted|apply preserves_returns, preserves_ret]. }
  intros []. apply preserves_returns, preserves_bind.
  - apply preserves_try_except; [apply preserves_bind; [exact Hsched|intros d; apply preserves_ret]|].
    intros e k Hk. destruct (isinstance e NoValidHost); [|destruct (caught e)]; simplify_eq;
      (apply preserves_bind; [exact Hfail|intros _]); [apply preserves_ret|apply preserves_raise].
  - intros [d|]; [|apply preserves_ret]. apply same_store_counted.
    assert (∀ a, keeps same_store_of (Compute._record_action_start (P:=P) (X:=X) r a)) as Hrec.
    { intros a. unfold Compute._record_action_start. apply keeps_bind; [apply _|apply Hthe|intros c].
      apply alike_same_store. by apply on_api_alike. }
    unfold Compute.validate_image, Rpc.image_search, Rpc._call, Rpc.container_create, Rpc._cast. look.
Qed.

(** Writing the row of a new object charges it. *)
Lemma create_counted p n r :
  returns_in (λ s, in_use p s = n ∧ charged p (obj (store_of s) r))
    (create (P:=P) (X:=X) conf new_uuid r) (λ _, counted_row p (S n) r).
Proof.
  intros s [Hn Hch]. unfold create. rewrite (bind_eq _ _ _ _ _ (object_run r s)).
  set (c := obj (store_of s) r) in *. set (names := if ostr_true _ then _ else _).
  assert (keeps alike names) as Hnames.
  { unfold names. destruct (ostr_true _); [apply unique_name_alike|apply keeps_ret, _]. }
  unfold bind at 1. destruct (names s) as [[[]|e] s1] eqn:Hrun; apply Hnames in Hrun; [|done].
  destruct Hrun as (_ & _ & Hst & _). unfold raise_if. steps. rewrite Hst.
  destruct (dhas _ _) eqn:Hhas; [done|]. rewrite bind_ret, on_store_run. cbn [modify fst snd].
  set (u := new_uuid _) in *. set (row := set_uuid u _).
  assert (dget (rows (store_of s)) u = None) as Hu by (unfold dhas in Hhas; by destruct (dget _ _)).
  assert (r < length (objects (store_of s))) as Hr.
  { destruct (decide (r < length (objects (store_of s)))) as [|Hr]; [done|]. destruct Hch as [_ Hp].
    unfold c, obj in Hp. rewrite list_lookup_total_alt, lookup_ge_None_2 in Hp by lia. done. }
  split; [|change (store_of (with_store ?st s1)) with st; rewrite Hst; split].
  - rewrite in_use_store, Hst. cbn [rows]. unfold dvalues. rewrite fmap_app, filter_app, length_app.
    cbn [fmap list_fmap snd]. rewrite filter_cons_True by exact Hch. unfold in_use, owned in Hn.
    change (length (filter (charged p) (dvalues (rows (store_of s)))) = n) in Hn.
    cbn [length filter list_filter]. unfold dvalues in Hn. rewrite Hn. cbn. lia.
  - unfold obj. cbn. rewrite list_lookup_total_alt, list_lookup_alter_eq.
    destruct (lookup_lt_is_Some_2 _ _ Hr) as [x Hx]. by rewrite Hx.
  - exists row. cbn. unfold obj. cbn. rewrite list_lookup_total_alt, list_lookup_alter_eq.
    destruct (lookup_lt_is_Some_2 _ _ Hr) as [x Hx]. rewrite Hx. cbn. split; [|exact Hch].
    apply dget_None_keys in Hu. rewrite <- dset_fresh by done. apply dget_dset_eq.
Qed.
End Create.

(** ** The check *)

Section Check.
Context (conf_quota : string → Z) (round3 : Qc → Qc) (sql_number : string → Qc).
Abbreviation driver := (DbQuotaDriver (count_usage (P:=P) (X:=X) sql_number) conf_quota round3).

(** One more container fits in the limit in force. *)
Definition room_for_one (p : string) s : Prop :=
  ∃ z, effective conf_quota Quota.resources s p "containers" = Some z ∧
       ((z < 0)%Z ∨ (Z.of_nat (in_use p s) + 1 ≤ z)%Z).

(** The number of containers after the creation, as the check computes it. *)
Definition one_more (n : nat) : number :=
  match n with 0 => NFloat (0 + 1)%Qc | _ => NInt (Z.of_nat n + 1) end.

Lemma total_containers p s :
  total (P:=P) (X:=X) round3 sql_number p ("containers", JInt 1) s = (Ok ("containers", one_more (in_use p s)), s).
Proof.
  unfold total, Engine.count. cbn [fst snd].
  change (dget Quota.resources "containers") with (Some (mkResource "containers" (Some "containers") "containers")).
  cbv iota beta. unfold Quota.count, get_count. cbn [counted]. steps.
  unfold count_usage. cbn [String.eqb Ascii.eqb Bool.eqb]. unfold in_use, one_more.
  destruct (owned (others s) p) as [|c l] eqn:Ho; cbn [length num].
  - rewrite decide_True by exact Z2Qc_inj_0. cbn. steps. done.
  - rewrite decide_False; [cbn; steps; done|]. intros Hz.
    assert (Z.of_nat (S (length l)) = 0)%Z; [|lia]. by apply Z2Qc_inj.
Qed.

Lemma one_more_fits z n : (0 ≤ z)%Z → is_less_than (NInt z) (one_more n) = false → (Z.of_nat n + 1 ≤ z)%Z.
Proof.
  intros Hz Hless. destruct n as [|n]; cbn [one_more] in *.
  - apply is_less_than_bound in Hless; [|done|by vm_compute]. destruct (decide (z = 0)%Z) as [->|]; [|lia].
    vm_compute in Hless. done.
  - apply is_less_than_bound in Hless; [lia|done|]. cbn [num]. rewrite <- Z2Qc_inj_0, <- Z2Qc_inj_le. lia.
Qed.

Lemma check_gives_room d p s s' :
  c_project_id (a_ctx (others s)) = Some p →
  _check_container_quotas (H2:=driver) round3 sql_number d false s = (Ok tt, s') →
  room_for_one p s.
Proof.
  intros Hp. unfold _check_container_quotas, the_project, ctx. steps. rewrite Hp. cbn [default]. unfold id.
  intros (values & s1 & Hmap & Hcheck)%bind_Ok.
  assert (s1 = s) as ->.
  { symmetry. revert Hmap. apply keeps_map_m; [apply _|]. intros kd _.
    unfold total, Engine.count, Quota.count, get_count, to_int, to_float. look. }
  cbn [map_m] in Hmap. rewrite (bind_eq _ _ _ _ _ (total_containers p s)) in Hmap.
  apply bind_Ok in Hmap as (rest & s2 & _ & [= <- _]).
  change (Quota.limit_check (count_usage sql_number) conf_quota round3 Quota.resources
    (("containers", one_more (in_use p s)) :: rest) p s = (Ok tt, s')) in Hcheck.
  rewrite limit_check_run in Hcheck by apply resources_registered.
  destruct (existsb _ (dkeys _)); [done|]. destruct (existsb negative _); [done|].
  destruct (existsb _ _); [done|]. destruct (forallb _ _) eqn:Hall; [|done]. clear Hcheck.
  cbn [forallb fst snd] in Hall. apply andb_true_iff in Hall as [Hin _]. unfold within in Hin.
  unfold room_for_one. destruct (effective _ _ s p "containers") as [z|]; [|done]. exists z. split; [done|].
  apply orb_true_iff in Hin as [Hz%Z.ltb_lt|Hless%negb_true_iff]; [by left|].
  destruct (decide (0 ≤ z)%Z); [right; by apply one_more_fits|left; lia].
Qed.
End Check.

(** ** An accepted creation *)

Section Post.
Context `{Remote} `{Scheduler.PlacementClient P} `{Clients X}.
Context (allowed : context → string → target → bool) (conf : api_conf) (sched : sched_conf)
  (is_uuid_like : string → bool) (bool_of_text : string → option bool) (version : Version).
Context (enabled_filters : list filter_class) (standards : list string) (max_placement_results : Z)
  (sched_driver : Scheduler.driver).
Context (new_uuid : Container.store → string) (request_uuid : nat → string) (random_name : string)
  (get_registry : string → py X unit) (round3 : Qc → Qc) (sql_number : string → Qc)
  (set_order : list string → list string) (str_float : Qc → string) (coerce_bool : flag → bool).
Context (conf_quota : string → Z).
Abbreviation driver := (DbQuotaDriver (count_usage (P:=P) (X:=X) sql_number) conf_quota round3).
Abbreviation post := (_do_post (H2:=driver) allowed conf sched is_uuid_like bool_of_text version enabled_filters
  standards max_placement_results sched_driver new_uuid request_uuid random_name get_registry
  round3 sql_number set_order str_float coerce_bool).

Section From.
Context (s0 : AS) (p : string) (Hp : c_project_id (a_ctx (others s0)) = Some p).

Lemma alike_returns {A} (m : py AS A) : keeps alike m → returns_in (alike s0) m (λ _, alike s0).
Proof.
  intros Hm s Hs. destruct (m s) as [[a|e] s1] eqn:Hrun; [|done]. etrans; [exact Hs|exact (Hm _ _ _ Hrun)].
Qed.

Lemma alike_room s : alike s0 s → room_for_one conf_quota p s → room_for_one conf_quota p s0.
Proof.
  intros (Hq & Hc & Hst & _). unfold room_for_one, in_use, owned.
  unfold effective, project_limit, default_class_limit. unfold store_of in Hst. by rewrite Hq, Hc, Hst.
Qed.

(** The check passes only when there is room. *)
Lemma check_returns d :
  returns_in (alike s0) (_check_container_quotas (H2:=driver) round3 sql_number d false)
    (λ _ s, alike s0 s ∧ room_for_one conf_quota p s0).
Proof.
  intros s Hs. destruct (_check_container_quotas round3 sql_number d false s) as [[[]|e] s1] eqn:Hrun; [|done].
  pose proof (quotas_alike (Q:=driver) round3 sql_number d false _ _ _ Hrun) as Ha. split; [by etrans|].
  apply (alike_room s Hs). eapply check_gives_room; [|exact Hrun].
  destruct Hs as (_ & _ & _ & _ & ->). exact Hp.
Qed.

Lemma ctx_returns : returns_in (alike s0) (ctx (P:=P) (X:=X))
  (λ c s, alike s0 s ∧ c_project_id c = Some p).
Proof. intros s Hs. split; [done|]. destruct Hs as (_ & _ & _ & _ & Hc). by rewrite Hc. Qed.

Lemma returns_pure {A B} (φ : A → Prop) (m : py AS A) (f : A → py AS B) Q :
  returns_in (alike s0) m (λ a s, alike s0 s ∧ φ a) → (∀ a, φ a → returns_in (alike s0) (f a) Q) →
  returns_in (alike s0) (bind m f) Q.
Proof. intros Hm Hf. eapply returns_bind; [exact Hm|]. intros a s [Hs Ha]. by apply Hf. Qed.

Lemma new_container_returns b c groups interactive auto_remove runtime driver amounts :
  c_project_id c = Some p →
  returns_in (alike s0) (new_container (P:=P) (X:=X) random_name coerce_bool b c groups interactive auto_remove
    runtime driver amounts) (λ row s, alike s0 s ∧ charged p row).
Proof.
  intros Hc. unfold new_container. destruct amounts as [[d m] q].
  assert (keeps alike (float_field (P:=P) (X:=X) q)) as Hq by (unfold float_field, to_float; look).
  assert (keeps alike (int_field (P:=P) (X:=X) d)) as Hd by (unfold int_field, to_int; look).
  eapply returns_bind; [apply alike_returns, Hq|]. intros cpu.
  eapply returns_bind; [apply alike_returns, Hd|]. intros disk s Hs. by split.
Qed.

(** From the row of the new object to the answer. *)
Lemma finish_returns {A} row (f : nat → py AS A) :
  charged p row →
  (∀ r, returns_in (counted_row p (S (in_use p s0)) r) (f r) (λ _ s, in_use p s = S (in_use p s0))) →
  returns_in (alike s0) (let! r := on_store (Container.alloc row) in ApiState.create conf new_uuid r;;; f r)
    (λ _ s, in_use p s = S (in_use p s0)).
Proof.
  intros Hch Hf. eapply (returns_bind _ _ _ (λ r s, in_use p s = in_use p s0 ∧ charged p (obj (store_of s) r))).
  - intros s (_ & _ & Hst & _). rewrite on_store_run. cbn [Container.alloc bind gets modify ret fst snd]. split.
    + by rewrite in_use_store, Hst.
    + change (store_of (with_store ?st s)) with st. unfold obj. cbn. by rewrite list_lookup_total_middle.
  - intros r. eapply returns_bind; [apply create_counted|]. intros []. apply Hf.
Qed.

Ltac prefix :=
  repeat lazymatch goal with
  | |- returns_in _ (bind ctx _) _ => apply (returns_pure _ _ _ _ ctx_returns); intros ? ?
  | |- returns_in _ (bind (new_container _ _ _ _ _ _ _ _ _ _) _) _ =>
      eapply returns_pure; [by apply new_container_returns|intros ? ?]
  | |- returns_in _ (bind (on_store _) _) _ => apply finish_returns; [assumption|intros ?]
  | |- returns_in (counted_row _ _ _) _ _ => fail
  | |- returns_in _ (bind (_check_container_quotas _ _ _ _) _) _ => fail
  | |- returns_in _ (bind (since _ _ _ _) _) _ =>
      eapply returns_bind; [apply alike_returns, since_alike; intros ?; look|intros ?]
  | |- returns_in _ (bind _ _) _ => eapply returns_bind; [apply alike_returns; look|intros ?]
  | |- returns_in _ (match ?x with pair _ _ => _ end) _ => destruct x
  end.

(** C8. An accepted creation fits.  When a creation is answered, the limit in force
    on the containers of the project is negative (none) or at least the number of
    its containers including the new one, and the creation added exactly one. *)
Theorem post_within_quota run b s' c :
  post run b s0 = (Answer c, s') →
  in_use p s' = S (in_use p s0) ∧
  ∃ z, effective conf_quota Quota.resources s0 p "containers" = Some z ∧
       ((z < 0)%Z ∨ (Z.of_nat (in_use p s') ≤ z)%Z).
Proof.
  intros Hrun. unfold _do_post, wrap_controller_exception in Hrun.
  match type of Hrun with match ?m s0 with _ => _ end = _ => set (body := m) in Hrun end.
  assert (returns_in (alike s0) body (λ _ s', room_for_one conf_quota p s0 ∧ in_use p s' = S (in_use p s0))) as Hbody.
  2: { specialize (Hbody s0 (reflexivity s0)). destruct (body s0) as [[a|e] s1]; [|by case_bool_decide].
    injection Hrun as _ ->. destruct Hbody as [(z & Hz & Hroom) Hn]. split; [done|]. exists z. split; [done|].
    rewrite Hn. destruct Hroom; [by left|right; lia]. }
  unfold body. clear Hrun body.
  pose proof (volumes_alike (P:=P) (X:=X) is_uuid_like). pose proof (sriov_alike (P:=P) (X:=X) request_uuid).
  pose proof (networks_alike (P:=P) (X:=X) allowed is_uuid_like). pose proof (security_group_alike (P:=P) (X:=X)).
  pose proof (version_check_alike (P:=P) (X:=X) version).
  pose proof (enforce_alike (P:=P) (X:=X) allowed). pose proof (valid_flag_alike (P:=P) (X:=X) bool_of_text).
  assert (∀ rp, keeps alike (check_for_restart_policy (P:=P) (X:=X) rp)) as Hrp
    by (intros rp; unfold check_for_restart_policy, to_int; look).
  assert (∀ k, keeps alike (build_exposed_port (P:=P) (X:=X) k)) as Hport
    by (intros k; unfold build_exposed_port; look).
  prefix. eapply returns_pure; [apply check_returns|intros ? Hroom].
  apply (returns_and _ _ _ _ Hroom). prefix.
  eapply returns_bind; [apply preserves_returns, same_store_counted, alike_same_store; look|intros vols].
  eapply returns_bind; [apply compute_create_counted|intros []].
  intros s (Hn & _). rewrite object_run. exact Hn.
Qed.
End From.
End Post.
End QuotaUse.

(** ** Witness *)

#[local] Definition use_network : network := mkNetwork "n1" "2024" false false None.
#[local] Definition use_clients : Clients unit := {|
  list_networks _ s := ([use_network], s); list_ports _ s := ([], s);
  find_security_group _ _ s := (SgError 404, s);
  show_port _ := raise (Zun PortNotFound); show_network _ := raise (Zun NetworkNotFound);
  volumes_get _ s := (NotFound_, s); volumes_find _ s := (NotFound_, s); volumes_create _ s := (None, s) |}.
(** A request that names an image only, under limits of one container and 100 MiB. *)
#[local] Definition use_body : create_body :=
  mkBody None "nginx" (mkDelta None None None) None None None None None None false None None None None None
    None None None None None None None.
#[local] Definition use_state : qdb (api (list (string * alloc_req)) unit) :=
  mkQdb [mkQuotaRow "p1" "containers" (Some 1%Z); mkQuotaRow "p1" "memory" (Some 100%Z)] []
    (others (demo_api (mkStore [] []))).
Abbreviation use_post :=
  (_do_post (H:=demo_remote) (H1:=use_clients) (H2:=DbQuotaDriver (count_usage (λ _, 0%Qc)) (λ _, (-1)%Z) (λ q, q))
     (λ _ _ _, true) demo_conf demo_sched_conf (λ _, false) (λ _, None) (mkVersion 1 40) demo_filters
     ["VCPU"; "MEMORY_MB"; "DISK_GB"] 1000 FilterScheduler (λ _, "new") (λ _, "req") "alpha"
     (λ _, ret tt) (λ q, q) (λ _, 0%Qc) (λ l, l) (λ _, "1.0") (λ _, true)).

Lemma use_post_accepted : ∃ c s, use_post (FBool false) use_body use_state = (Answer c, s).
Proof.
  assert (match (use_post (FBool false) use_body use_state).1 with Answer _ => true | _ => false end = true) as H
    by (vm_compute; reflexivity).
  destruct (use_post _ _ _) as [[c| |] s]; try done. by exists c, s.
Qed.

Lemma post_within_quota_witness :
  ∃ c s, use_post (FBool false) use_body use_state = (Answer c, s) ∧ in_use "p1" s = 1.
Proof.
  destruct use_post_accepted as (c & s & Hrun). exists c, s. split; [exact Hrun|].
  by eapply (post_within_quota) with (p := "p1") in Hrun as [Hn _].
Defined.

(** The memory a container gets by default is not charged: under a limit of 100 MiB
    the request is accepted and the container gets 512. *)
Lemma default_memory_uncharged :
  match (use_post (FBool false) use_body use_state).1 with Answer c => memory c | _ => None end = Some "512".
Proof. vm_compute. reflexivity. Qed.

(** The schema admits a null for the mounts; it is found out only after the row was
    written, which stays in Creating. *)
#[local] Definition null_mounts : create_body :=
  mkBody None "nginx" (mkDelta None None None) None None None None None None false (Some None) None None None
    None None None None None None None None.
Lemma null_mounts_leave_row :
  (use_post (FBool false) null_mounts use_state).1 = ServerFault 500 ∧
  (λ c, (Container.uuid c, status c)) <$> dvalues (rows (store_of (use_post (FBool false) null_mounts use_state).2)) =
    [("new", Some CREATING)].
Proof. vm_compute. done. Qed.

(** A null memory, admitted too, is an internal error. *)
#[local] Definition null_memory : create_body :=
  mkBody None "nginx" (mkDelta None (Some JNull) None) None None None None None None false None None None None
    None None None None None None None None.
Lemma null_memory_fails : (use_post (FBool false) null_memory use_state).1 = ServerFault 500.
Proof. vm_compute. done. Qed.
