(* ===== verification/Gates.v ===== *)
(** * What stands before an operation on a container

    The life-cycle operations of the container controller have one shape
    ([ContainersApi.checked]): the container is looked up among those the request
    may see, the policy is asked about it, its status must allow the operation,
    and only then an action is recorded and one message sent to its host. *)

From Stdlib Require Import Ascii.
From S2P Require Import Prelude Exceptions PyStr Quota PciStats Container ComputeNode Claims.
From S2P Require Import ResourceRequest HostFilters Scheduler Volumes Versions Services ApiState ComputeApi.
From S2P Require Import ContainersApi.

Section Gates.
Context {P X : Type} `{Remote} `{Clients X}.
Context (allowed : context → string → target → bool) (conf : api_conf) (sched : sched_conf)
  (is_uuid_like : string → bool).
Abbreviation AS := (qdb (api P X)).
Implicit Types s : AS.

(** An operation that ends with one message: its rule, the key of its valid
    states, the action it records and its message. *)
Record cast_op : Type := mkCastOp {
  co_rule : string;
  co_action : string;
  co_noted : string;
  co_request : container → rpc_request;
  co_handler : string → AS → response unit * AS
}.

Definition cast_ops (timeout signal : option string) : list cast_op :=
  [mkCastOp "container:start" "start" "start" container_start (start allowed is_uuid_like);
   mkCastOp "container:stop" "stop" "stop" (λ c, container_stop c timeout)
     (λ i, ContainersApi.stop allowed is_uuid_like i timeout);
   mkCastOp "container:pause" "pause" "pause" container_pause (pause allowed is_uuid_like);
   mkCastOp "container:unpause" "unpause" "unpause" container_unpause (unpause allowed is_uuid_like);
   mkCastOp "container:kill" "kill" "kill" (λ c, container_kill c signal)
     (λ i, kill allowed is_uuid_like i signal)].

(** The status allows the operation. *)
Definition state_allows (action : string) (c : container) : bool :=
  match dget VALID_STATES action with
  | Some states => existsb (λ st, bool_decide (status c = Some st)) states
  | None => false
  end.

Lemma validate_state_run r action s :
  is_Some (dget VALID_STATES action) →
  validate_state r action s =
    (if state_allows action (obj (store_of s) r) then Ok tt else Raise (Zun InvalidStateException), s).
Proof.
  intros [states Hst]. unfold validate_state, validate_container_state, state_allows.
  rewrite (bind_eq _ _ _ _ _ (object_run r s)), Hst. cbn [of_option]. rewrite bind_ret. unfold raise_if.
  by destruct (existsb _ states).
Qed.

Lemma check_policy_run r rule s :
  ApiState.check_policy_on_container allowed r rule s =
    (if allowed (a_ctx (others s)) rule (as_dict (obj (store_of s) r)) then Ok tt
     else Raise (Zun PolicyNotAuthorized), s).
Proof.
  unfold ApiState.check_policy_on_container. rewrite (bind_eq _ _ _ _ _ (object_run r s)).
  unfold ApiState.enforce, ctx. steps. unfold raise_if. cbn [default]. unfold id. by destruct (allowed _ _ _).
Qed.

(** Looking up changes neither the rows nor the messages and actions. *)
Definition looked s s' : Prop :=
  rows (store_of s') = rows (store_of s) ∧ a_sent (others s') = a_sent (others s) ∧
  a_actions (others s') = a_actions (others s).

#[export] Instance looked_preorder : PreOrder looked.
Proof.
  split; [by intros s; unfold looked|]. intros s1 s2 s3 (R1 & S1 & A1) (R2 & S2 & A2).
  unfold looked. by rewrite R2, S2, A2.
Qed.

Lemma get_resource_looked ident : keeps looked (get_resource (P:=P) (X:=X) is_uuid_like ident).
Proof.
  assert (∀ x, keeps looked (on_store (P:=P) (X:=X) (Container.alloc x))) as Halloc.
  { intros x s o s'. rewrite on_store_run. by intros [= _ <-]. }
  assert (∀ f : api P X → api P X, (∀ a, w_store (a_world (f a)) = w_store (a_world a) ∧
            a_sent (f a) = a_sent a ∧ a_actions (f a) = a_actions a) → keeps looked (on_api (modify f))) as Hmod.
  { intros f Hf s o s' [= _ <-]. destruct (Hf (others s)) as (Hw & Hs & Ha). unfold looked, store_of. cbn.
    by rewrite Hw, Hs, Ha. }
  unfold get_resource, get_container_by_uuid, get_container_by_name, ctx. look.
Qed.

(** The outcome of the look-up and the checks. *)
Lemma checked_run ident rule action s :
  is_Some (dget VALID_STATES action) →
  checked allowed is_uuid_like ident rule action s =
  match get_resource is_uuid_like ident s with
  | (Raise e, s1) => (Raise e, s1)
  | (Ok r, s1) =>
      let c := obj (store_of s1) r in
      (if negb (allowed (a_ctx (others s1)) rule (as_dict c)) then Raise (Zun PolicyNotAuthorized)
       else if negb (state_allows action c) then Raise (Zun InvalidStateException) else Ok r, s1)
  end.
Proof.
  intros Hst. unfold checked. unfold bind at 1. destruct (get_resource _ _ s) as [[r|e] s1]; [|done].
  unfold bind at 1. rewrite check_policy_run. destruct (allowed _ _ _); [|done].
  unfold bind at 1. rewrite validate_state_run by done. by destruct (state_allows _ _).
Qed.

(** The end of an operation of the table. *)
Lemma cast_run r noted q s :
  (Compute._record_action_start r noted;;; Rpc.cast_container (P:=P) (X:=X) r q) s =
  let c := obj (store_of s) r in
  (Ok tt, with_sent [mkMessage (Container.host c) Cast (q c)] (with_action (Container.uuid c, noted) s)).
Proof.
  rewrite (bind_eq _ _ _ _ _ (record_run r noted s)). unfold Rpc.cast_container.
  by rewrite (bind_eq _ _ _ _ _ (object_run r _)).
Qed.

Lemma cast_ops_shape timeout signal o ident :
  o ∈ cast_ops timeout signal →
  is_Some (dget VALID_STATES (co_action o)) ∧
  co_handler o ident = wrap_controller_exception (
    let! r := checked allowed is_uuid_like ident (co_rule o) (co_action o) in
    Compute._record_action_start r (co_noted o);;; Rpc.cast_container r (co_request o)).
Proof.
  unfold cast_ops. rewrite !elem_of_cons.
  intros [->|[->|[->|[->|[->|[]%elem_of_nil]]]]]; (split; [by eexists|reflexivity]).
Qed.

(** C22. Start, stop, pause, unpause and kill, whatever the container: one that the
    request does not see gets the exception of the look-up; a policy that does not
    allow the operation on it, 403; a status outside the table, 409; and in these
    cases no message is sent, no action is recorded and no row changes.
    Otherwise one action is recorded and one message sent, to the host of the
    container, and no row changes. *)
Theorem casts_gated timeout signal o ident s :
  o ∈ cast_ops timeout signal →
  match get_resource is_uuid_like ident s with
  | (Raise e, s1) => co_handler o ident s = wrap_controller_exception (raise e) s1 ∧ looked s s1
  | (Ok r, s1) =>
      let c := obj (store_of s1) r in
      looked s s1 ∧
      co_handler o ident s =
        if negb (allowed (a_ctx (others s1)) (co_rule o) (as_dict c))
        then (ClientFault 403 (Zun PolicyNotAuthorized), s1)
        else if negb (state_allows (co_action o) c) then (ClientFault 409 (Zun InvalidStateException), s1)
        else (Answer tt, with_sent [mkMessage (Container.host c) Cast (co_request o c)]
                           (with_action (Container.uuid c, co_noted o) s1))
  end.
Proof.
  intros [Hst ->]%(cast_ops_shape _ _ _ ident). pose proof (get_resource_looked ident s) as Hlook.
  pose proof (checked_run ident (co_rule o) (co_action o) s Hst) as Hrun.
  destruct (get_resource _ _ s) as [[r|e] s1]; specialize (Hlook _ _ eq_refl);
    unfold wrap_controller_exception, bind at 1; rewrite Hrun; [|done].
  split; [exact Hlook|]. cbv zeta. destruct (allowed _ _ _); [|reflexivity].
  destruct (state_allows _ _); [|reflexivity]. cbn [negb]. by rewrite cast_run.
Qed.
End Gates.

(** ** Witness *)

#[local] Definition gate_state : qdb (api (list (string * alloc_req)) unit) :=
  demo_api (mkStore [] [("c1", set_host (Some "h1") (set_status (Some RUNNING) demo_row))]).
(** Anything but killing is allowed. *)
#[local] Definition gate_rules : context → string → target → bool :=
  λ _ rule _, negb (String.eqb rule "container:kill").
Abbreviation gate_run o := (co_handler o "web" gate_state).
Abbreviation gate_op i := (nth i (cast_ops (P:=list (string * alloc_req)) (X:=unit) gate_rules (λ _, false)
  (Some "10") None) (mkCastOp "" "" "" container_start (λ _ s, (Answer tt, s)))).

(** Stopping a running container sends its message, starting it and killing it do not. *)
Lemma casts_gated_witness :
  m_kind <$> a_sent (others (gate_run (gate_op 1)).2) = [Cast] ∧
  (gate_run (gate_op 0)).1 = ClientFault 409 (Zun InvalidStateException) ∧
  (gate_run (gate_op 4)).1 = ClientFault 403 (Zun PolicyNotAuthorized).
Proof.
  assert (∀ i, i < 5 → gate_op i ∈ cast_ops gate_rules (λ _, false) (Some "10") None) as Hin
    by (intros i Hi; apply list_elem_of_In, nth_In; exact Hi).
  assert (∃ r s1, get_resource (λ _, false) "web" gate_state = (Ok r, s1) ∧ store_of s1 = mkStore
    [set_host (Some "h1") (set_status (Some RUNNING) demo_row)] (rows (store_of gate_state)) ∧ r = 0 ∧
    a_sent (others s1) = []) as (r & s1 & Hget & Hst & -> & Hsent)
    by (eexists _, _; split; [vm_compute; reflexivity|by split_and!]).
  pose proof (λ i Hi, casts_gated gate_rules (λ _, false) (Some "10") None (gate_op i) "web" gate_state (Hin i Hi)) as Hall.
  rewrite Hget in Hall. cbv zeta in Hall. rewrite Hst in Hall.
  pose proof (Hall 1 ltac:(lia)) as [_ ->]. pose proof (Hall 0 ltac:(lia)) as [_ ->].
  pose proof (Hall 4 ltac:(lia)) as [_ ->]. cbn.
  change (state_allows "stop" _) with true. change (state_allows "start" _) with false. cbn. by rewrite Hsent.
Defined.

(** ** Deletion

    Without the right to [container:delete_force], asking to force is refused;
    asking to stop as well skips that check, and the deletion is still forced. *)
#[local] Definition no_force : context → string → target → bool :=
  λ _ rule _, negb (String.eqb rule "container:delete_force").
#[local] Definition gate_created : qdb (api (list (string * alloc_req)) unit) :=
  demo_api (mkStore [] [("c1", set_host (Some "host1") (set_status (Some ERROR) demo_row))]).
Abbreviation gate_delete force stop :=
  (delete no_force demo_sched_conf (λ _, false) (λ _, None) (mkVersion 1 40) "web" None force stop gate_created).

Lemma stopping_skips_the_force_policy :
  (gate_delete (FBool true) (FBool false)).1 = ClientFault 403 (Zun PolicyNotAuthorized) ∧
  (gate_delete (FBool true) (FBool true)).1 = Answer tt ∧
  (λ m, match m_request m with container_delete _ force => Some force | _ => None end) <$>
    a_sent (others (gate_delete (FBool true) (FBool true)).2) = [Some true].
Proof. vm_compute. done. Qed.
