(* ===== verification/Effects.v ===== *)
(** * Programs by their calls

    A program that only talks to what is outside of it — Docker, Neutron, a shared
    table — is the tree of its calls: each call, and what follows for every answer.
    Such a program can be run alone against any answers ([run]), or several can be
    interleaved, call by call, on a shared world ([step]).  For interleavings, a
    process is followed by the phase it is in ([in_phase]), and an invariant of the
    phases and the world that every call keeps holds in every reachable state
    ([steps_running]). *)

From S2P Require Import Prelude.

Inductive eff (fault : Type) (call : Type → Type) (A : Type) : Type :=
| Return (a : A)
| Fault (e : fault)
| Do {B : Type} (c : call B) (k : outcome fault B → eff fault call A).
Arguments Return {fault call A} _.
Arguments Fault {fault call A} _.
Arguments Do {fault call A B} _ _.

(** A call that was made, and whether it succeeded. *)
Record ev (call : Type → Type) : Type := mkEvent { ev_type : Type; ev_call : call ev_type; ev_ok : bool }.
Arguments mkEvent {call} _ _ _.
Arguments ev_type {call} _.
Arguments ev_call {call} _.
Arguments ev_ok {call} _.

Section Effects.
Context {fault : Type} {call : Type → Type}.
Abbreviation prog := (eff fault call).

Fixpoint pbind {A B} (m : prog A) (f : A → prog B) : prog B :=
  match m with
  | Return a => f a
  | Fault e => Fault e
  | Do c k => Do c (λ o, pbind (k o) f)
  end.
#[export] Instance prog_ret : MRet prog := λ A, Return.
#[export] Instance prog_bind : MBind prog := λ A B f m, pbind m f.

Definition ask {B} (c : call B) : prog B :=
  Do c (λ o, match o with Ok b => Return b | Raise e => Fault e end).

Fixpoint handle {A} (m : prog A) (h : fault → option (prog A)) : prog A :=
  match m with
  | Return a => Return a
  | Fault e => match h e with Some k => k | None => Fault e end
  | Do c k => Do c (λ o, handle (k o) h)
  end.

Fixpoint finally {A} (m : prog A) (k : prog unit) : prog A :=
  match m with
  | Return a => _ ← k; Return a
  | Fault e => _ ← k; Fault e
  | Do c f => Do c (λ o, finally (f o) k)
  end.

Definition on_error {A} (m : prog A) (handler : prog unit) : prog A :=
  handle m (λ e, Some (_ ← handler; Fault e)).

Fixpoint each {X} (f : X → prog unit) (l : list X) : prog unit :=
  match l with [] => Return tt | x :: l' => _ ← f x; each f l' end.

Definition check (b : bool) (e : fault) : prog unit := if b then Fault e else Return tt.

(** ** The calls a program may make *)

Section Calls.
Context (P : ∀ B, call B → Prop).

Fixpoint calls_in {A} (m : prog A) : Prop :=
  match m with
  | Return _ | Fault _ => True
  | Do c k => P _ c ∧ ∀ o, calls_in (k o)
  end.

Lemma calls_pbind {A B} (m : prog A) (f : A → prog B) :
  calls_in m → (∀ a, calls_in (f a)) → calls_in (pbind m f).
Proof. intros Hm Hf. induction m as [a|e|C c k IH]; cbn; [apply Hf|done|]. destruct Hm. split; auto. Qed.

Lemma calls_ask {A} (c : call A) : P _ c → calls_in (ask c).
Proof. intros Hc. split; [done|]. by intros []. Qed.

Lemma calls_handle {A} (m : prog A) h :
  calls_in m → (∀ e k, h e = Some k → calls_in k) → calls_in (handle m h).
Proof.
  intros Hm Hh. induction m as [a|e|C c k IH]; cbn; [done| |destruct Hm; split; auto].
  destruct (h e) eqn:He; [by eapply Hh|done].
Qed.

Lemma calls_finally {A} (m : prog A) k : calls_in m → calls_in k → calls_in (finally m k).
Proof.
  intros Hm Hk. induction m as [a|e|C c f IH]; cbn; [by apply calls_pbind..|]. destruct Hm. split; auto.
Qed.

Lemma calls_each {X} (f : X → prog unit) l : (∀ x, calls_in (f x)) → calls_in (each f l).
Proof. intros Hf. induction l; cbn; [done|]. by apply calls_pbind. Qed.
End Calls.
End Effects.

(** The same program over more calls. *)
Section Lift.
Context {fault : Type} {call call' : Type → Type} (f : ∀ B, call B → call' B).

Fixpoint lift {A} (m : eff fault call A) : eff fault call' A :=
  match m with
  | Return a => Return a
  | Fault e => Fault e
  | Do c k => Do (f _ c) (λ o, lift (k o))
  end.

Lemma calls_lift (P : ∀ B, call' B → Prop) {A} (m : eff fault call A) :
  calls_in (λ B c, P B (f B c)) m → calls_in P (lift m).
Proof. induction m as [a|e|B c k IH]; [done..|]. intros [Hc Hk]. split; [done|]. intros o. apply IH, Hk. Qed.
End Lift.

(** Follow the structure of a program whose calls are to be checked. *)
Ltac calls :=
  repeat first
    [ done
    | apply calls_pbind; [|intros ?]
    | apply calls_handle; [|intros ? ? ?; simplify_eq/=]
    | apply calls_each; intros ?
    | apply calls_finally
    | apply calls_ask
    | match goal with
      | |- calls_in _ (match ?x with _ => _ end) => destruct x eqn:?; simplify_eq/=
      | H : (match ?x with _ => _ end) = Some _ |- _ => destruct x eqn:?; simplify_eq/=
      | |- calls_in _ (Do _ _) => split; [|intros ?]
      | |- _ ∧ _ => split; [|intros ?]
      end ].

(** ** Running alone *)

(** What is outside answers each call, knowing what was called before. *)
Class Answers (fault : Type) (call : Type → Type) : Type :=
  answer : ∀ {B}, call B → list (ev call) → outcome fault B.

Section Run.
Context {fault : Type} {call : Type → Type} `{Answers fault call}.
Abbreviation prog := (eff fault call).

Fixpoint run {A} (m : prog A) (log : list (ev call)) : outcome fault A * list (ev call) :=
  match m with
  | Return a => (Ok a, log)
  | Fault e => (Raise e, log)
  | Do c k => let o := answer c log in run (k o) (log ++ [mkEvent _ c (is_ok o)])
  end.

Lemma run_pbind {A B} (m : prog A) (f : A → prog B) log :
  run (pbind m f) log = let '(o, log') := run m log in
    match o with Ok a => run (f a) log' | Raise e => (Raise e, log') end.
Proof. revert log. induction m as [a|e|C c k IH]; intros log; cbn; [done..|apply IH]. Qed.

Lemma run_handle_ok {A} (m : prog A) h log a log' :
  run m log = (Ok a, log') → run (handle m h) log = (Ok a, log').
Proof. revert log. induction m as [b|e|B c k IH]; intros lg; cbn; [done|by intros [=]|apply IH]. Qed.

Lemma run_finally {A} (m : prog A) k log :
  run (finally m k) log = let '(o, log') := run m log in
    let '(o', log'') := run k log' in (match o' with Ok _ => o | Raise e => Raise e end, log'').
Proof.
  revert log. induction m as [a|e|B c f IH]; intros log; cbn; [| |apply IH];
    unfold mbind, prog_bind; rewrite run_pbind; by destruct (run k log) as [[[]|e2] l2].
Qed.

Lemma calls_impl {A} (P P' : ∀ B, call B → Prop) (m : prog A) :
  (∀ B c, P B c → P' B c) → calls_in P m → calls_in P' m.
Proof. intros HP. induction m as [| |B c k IH]; [done..|]. intros [Hc Hk]. split; [by apply HP|auto]. Qed.

Lemma run_calls P {A} (m : prog A) log :
  calls_in P m → ∃ evs, (run m log).2 = log ++ evs ∧ Forall (λ e, P _ (ev_call e)) evs.
Proof.
  revert log. induction m as [a|e|B c k IH]; intros log; cbn; [exists []; by rewrite app_nil_r..|].
  intros [Hc Hk]. destruct (IH (answer c log) (log ++ [mkEvent _ c (is_ok (answer c log))]) (Hk _)) as (evs & -> & Hevs).
  exists (mkEvent _ c (is_ok (answer c log)) :: evs). split; [by rewrite <- app_assoc|by constructor].
Qed.
End Run.

(** ** What the calls have done

    What each call did, by whether it succeeded, to a summary of the world; and what a
    program leaves there, whether it returns or fails. *)
Section Summary.
Context {fault : Type} {call : Type → Type} `{Answers fault call} {world : Type}.
Context (effect : ∀ B, call B → bool → world → world) (start : world).
Abbreviation prog := (eff fault call).

Definition summary (log : list (ev call)) : world := foldl (λ h e, effect _ (ev_call e) (ev_ok e) h) start log.

Definition leaves {A} (h : world) (m : prog A) (Q : A → world → Prop) (X : fault → world → Prop) : Prop :=
  ∀ log, summary log = h →
    let '(o, log') := run m log in match o with Ok a => Q a (summary log') | Raise e => X e (summary log') end.

Lemma leaves_ret {A} h (a : A) (Q : A → world → Prop) X : Q a h → leaves h (Return a) Q X.
Proof. by intros HQ log <-. Qed.
Lemma leaves_fault {A} h e (Q : A → world → Prop) (X : fault → world → Prop) : X e h → leaves h (Fault e) Q X.
Proof. by intros HX log <-. Qed.

Lemma leaves_conseq {A} h (m : prog A) (Q Q' : A → world → Prop) (X X' : fault → world → Prop) :
  leaves h m Q X → (∀ a h', Q a h' → Q' a h') → (∀ e h', X e h' → X' e h') → leaves h m Q' X'.
Proof. intros Hm HQ HX log Hlog. specialize (Hm log Hlog). destruct (run m log) as [[a|e] l]; auto. Qed.

Lemma leaves_bind {A B} h (m : prog A) (f : A → prog B) R (Q : B → world → Prop) X :
  leaves h m R X → (∀ a h', R a h' → leaves h' (f a) Q X) → leaves h (m ≫= f) Q X.
Proof.
  intros Hm Hf log Hlog. specialize (Hm log Hlog). unfold mbind, prog_bind. rewrite run_pbind.
  destruct (run m log) as [[a|e] l]; [|done]. by apply (Hf a _ Hm).
Qed.

(** What a call returns was answered to it. *)
Lemma leaves_ask {A} h (c : call A) (Q : A → world → Prop) (X : fault → world → Prop) :
  (∀ a before, answer c before = Ok a → Q a (effect _ c true h)) →
  (∀ e, X e (effect _ c false h)) → leaves h (ask c) Q X.
Proof.
  intros HQ HX log <-. unfold ask. cbn.
  destruct (answer c log) eqn:Hc; cbn; unfold summary; rewrite foldl_app; cbn; [by eapply HQ|apply HX].
Qed.

Lemma leaves_handle {A} h (m : prog A) f (Q : A → world → Prop) R (X : fault → world → Prop) :
  leaves h m Q R → (∀ e h', R e h' → match f e with Some k => leaves h' k Q X | None => X e h' end) →
  leaves h (handle m f) Q X.
Proof.
  intros Hm Hf log Hlog. specialize (Hm log Hlog).
  assert (run (handle m f) log = let '(o, l) := run m log in
    match o with Raise e => match f e with Some k => run k l | None => (Raise e, l) end | Ok a => (Ok a, l) end) as ->.
  { clear. revert log. induction m as [a|e|B c k IH]; intros log; cbn; [done| |apply IH]. by destruct (f e). }
  destruct (run m log) as [[a|e] l]; [done|]. specialize (Hf e _ Hm). destruct (f e) as [k|]; [|done]. by apply Hf.
Qed.

(** What comes last, whose own error replaces the outcome. *)
Lemma leaves_finally {A} h (m : prog A) k Q (R : A → world → Prop) (X Y : fault → world → Prop) :
  leaves h m Q X → (∀ a h', Q a h' → leaves h' k (λ _, R a) Y) →
  (∀ e h', X e h' → leaves h' k (λ _, Y e) Y) → leaves h (finally m k) R Y.
Proof.
  intros Hm HQ HX log Hlog. specialize (Hm log Hlog). rewrite run_finally.
  destruct (run m log) as [[a|e] l]; [specialize (HQ a _ Hm l eq_refl)|specialize (HX e _ Hm l eq_refl)];
    by destruct (run k l) as [[[]|] l'].
Qed.
End Summary.

(** ** Running together *)

Section Step.
Context {fault : Type} {call : Type → Type} {A W : Type}.
(** What one call may answer, and the world it leaves. *)
Context (atomic : W → ∀ B, call B → outcome fault B → W → Prop).
Abbreviation process := (eff fault call A).

(** One process makes its next call. *)
Inductive step : list process * W → list process * W → Prop :=
| step_call procs w i B (c : call B) k o w' :
    procs !! i = Some (Do c k) → atomic w B c o w' → step (procs, w) (<[i:=k o]> procs, w').

(** A concrete run: the processes that move, in order, and what answers them. *)
Section Schedule.
Context (reply : W → ∀ B, call B → option (outcome fault B * W)).

Fixpoint schedule (moves : list nat) (st : list process * W) : option (list process * W) :=
  match moves with
  | [] => Some st
  | i :: moves' =>
      match st.1 !! i with
      | Some (Do c k) =>
          match reply st.2 _ c with
          | Some (o, w') => schedule moves' (<[i:=k o]> st.1, w')
          | None => None
          end
      | _ => None
      end
  end.

Lemma schedule_steps moves st st' :
  (∀ w B (c : call B) o w', reply w B c = Some (o, w') → atomic w B c o w') →
  schedule moves st = Some st' → rtc step st st'.
Proof.
  intros Hreply. revert st. induction moves as [|i moves IH]; intros [procs w]; cbn; [by intros [= ->]|].
  destruct (procs !! i) as [[a|e|B c k]|] eqn:Hi; try done.
  destruct (reply w B c) as [[o w']|] eqn:Hr; [|done]. intros Hs. eapply rtc_l; [|by apply IH].
  econstructor; eauto.
Qed.
End Schedule.

(** The calls of each phase and the phases they lead to; the phases in which a process
    may end. *)
Context {phase : Type}
  (call_ok : phase → ∀ B, call B → (phase → outcome fault B → Prop) → Prop)
  (return_ok : phase → A → Prop) (fault_ok : phase → fault → Prop).

Fixpoint in_phase (ph : phase) (p : process) : Prop :=
  match p with
  | Return a => return_ok ph a
  | Fault e => fault_ok ph e
  | Do c k => call_ok ph _ c (λ ph' o, in_phase ph' (k o))
  end.

Context (invariant : list phase → W → Prop).

Definition running (st : list process * W) : Prop :=
  ∃ phs, Forall2 in_phase phs st.1 ∧ invariant phs st.2.

Context (call_running : ∀ phs w i ph B (c : call B) (K : phase → outcome fault B → Prop) o w',
  invariant phs w → phs !! i = Some ph → call_ok ph B c K → atomic w B c o w' →
  ∃ ph', K ph' o ∧ invariant (<[i:=ph']> phs) w').

Lemma step_running st st' : running st → step st st' → running st'.
Proof.
  intros (phs & Hall & Hinv) Hstep. destruct Hstep as [procs w i B c k o w' Hi Hat].
  destruct (Forall2_lookup_r _ _ _ _ _ Hall Hi) as (ph & Hph & Hp).
  destruct (call_running _ _ _ _ _ _ _ _ _ Hinv Hph Hp Hat) as (ph' & Hk & Hinv').
  exists (<[i:=ph']> phs). split; [by apply Forall2_insert|done].
Qed.

Lemma steps_running st st' : rtc step st st' → running st → running st'.
Proof. induction 1; eauto using step_running. Qed.
End Step.

(** One step of a concrete run. *)
Ltac call i o :=
  eapply rtc_l;
  [eapply (step_call _ _ _ i _ _ _ o); [cbn; reflexivity|cbn; repeat first [reflexivity|split|eexists|left; reflexivity|left]]|].
