(* ===== verification/VolumeDriver.v ===== *)
(** * The volume drivers (src/zun/volume/driver.py, cinder_workflow.py, cinder_api.py,
    src/zun/common/mount.py)

    [Local] keeps a file, [Cinder] attaches a block device: reserve the volume,
    export it, connect the host, record the connection, mark the volume attached,
    mount it; each step that fails takes the earlier ones back.

    Cinder, os-brick, the database of mappings and the commands of the host are the
    remote end: a call is answered by an oracle that sees the calls before it, and
    every call is recorded with its outcome.  JSON is left out: connection
    information is a record that survives its encoding, which may be refused. *)

From Stdlib Require Import Ascii.
From S2P Require Import Prelude Exceptions PyStr.

(** What a call may raise: an exception of the service, of Python, of the Cinder
    client ([BadRequest] is one of its classes) or of os-brick. *)
Inductive fault : Type :=
| FZun (c : zun_class)
| FPy (b : builtin)
| ClientException (bad_request : bool)
| VolumeDeviceNotFound.

(** Connection information: the protocol, the data, the path once connected. *)
Record conn : Type := mkConn {
  driver_volume_type : string;
  c_data : string;
  device_path : option string
}.

(** A volume as Cinder shows it; an attachment is a server and its own id. *)
Record cvolume : Type := mkCVolume {
  cv_status : string;
  cv_attachments : list (option string * string);
  cv_multiattach : bool
}.

(** The calls, with the type of their answer. *)
Inductive call : Type → Type :=
| Reserve (v : string) : call unit
| Unreserve (v : string) : call unit
| Initialize (v : string) : call conn
| Terminate (v : string) : call unit
| Attach (v mountpoint : string) (container : option string) : call unit
| VolumesGet (v : string) : call cvolume
| Detach (v : string) (attachment : option string) : call unit
| BeginDetaching (v : string) : call unit
| RollDetaching (v : string) : call unit
| VolumesDelete (v : string) : call unit
| SearchVolume (v : string) : call cvolume
| Connect (c : conn) : call string
| Disconnect (c : conn) : call unit
| ListMappings (v : string) : call (list (option string))   (** the hosts *)
| SaveMapping (info : option conn) : call unit
| ReadMounts : call string
| Mount (fstype devpath mountpoint : string) : call unit
| Mkfs (fstype devpath : string) : call unit
| Umount (mountpoint : string) : call unit
| EnsureTree (path : string) : call unit
| RemoveTree (path : string) : call unit
| OpenFile (path : string) : call unit
| WriteFile (path content : string) : call unit.

Record event : Type := mkEvent { ev_type : Type; ev_call : call ev_type; ev_ok : bool }.

Class Outside : Type := answer : ∀ {A}, call A → list event → outcome fault A.

(** The mapping the driver works on, and the calls so far. *)
Record mapping : Type := mkMapping {
  mp_volume_uuid : string;
  mp_cinder : string;
  mp_container : option string;
  mp_provider : string;
  mp_path : string;
  mp_contents : string;
  mp_connection : option conn
}.
Record vstate : Type := mkV { v_map : mapping; v_log : list event }.

Record volume_conf : Type := mkVolumeConf { volume_dir : string; fstype : string; this_host : string }.

Section Volumes.
Context `{Outside} (conf : volume_conf) (dumpable : conn → bool) (b64decode : string → option string).
Abbreviation vm := (M fault vstate).

Definition ask {A} (c : call A) : vm A := λ s,
  let r := answer c (v_log s) in (r, mkV (v_map s) (v_log s ++ [mkEvent A c (is_ok r)])).

Definition is_zun (k : zun_class) (e : fault) : bool :=
  match e with FZun c => isinstance (Zun c) k | _ => false end.

(** [except Exception: with excutils.save_and_reraise_exception(): handler] *)
Definition on_error {A} (m : vm A) (handler : vm unit) : vm A :=
  try_except m (λ e, Some (handler;;; raise e)).
Definition swallow (m : vm unit) : vm unit := try_except m (λ _, Some (ret tt)).

Definition the_map : vm mapping := gets v_map.
Definition set_connection (c : option conn) (m : mapping) : mapping :=
  mkMapping (mp_volume_uuid m) (mp_cinder m) (mp_container m) (mp_provider m) (mp_path m) (mp_contents m) c.
Definition store_connection (c : conn) : vm unit :=
  if dumpable c then modify (λ s, mkV (set_connection (Some c) (v_map s)) (v_log s)) else ret tt.

(** ** [CinderAPI] *)

Definition initialize_connection (v : string) : vm conn :=
  try_except (ask (Initialize v))
    (λ e, match e with
          | ClientException _ => Some (swallow (ask (Terminate v));;; raise e)
          | _ => None
          end).

(** The attachment of the container, if the volume has one. *)
Definition detach (m : mapping) : vm unit :=
  let! volume := ask (VolumesGet (mp_cinder m)) in
  let attachment := snd <$> head (filter (λ a, a.1 = mp_container m) (cv_attachments volume)) in
  ask (Detach (mp_cinder m) attachment).

Definition api_delete_volume (v : string) : vm unit :=
  try_except (ask (VolumesDelete v))
    (λ e, match e with ClientException _ => Some (raise (FZun VolumeDeleteFailed)) | _ => None end).

(** ** [CinderWorkflow] *)

Definition _connect_volume (c : conn) : vm string := ask (Connect c).
Definition _disconnect_volume (c : conn) : vm unit := ask (Disconnect c).

Definition with_path (p : string) (c : conn) : conn := mkConn (driver_volume_type c) (c_data c) (Some p).

Definition _do_attach_volume : vm string :=
  let! m := the_map in
  let v := mp_cinder m in
  ask (Reserve v);;;
  let! conn_info := initialize_connection v in
  let! path := on_error (_connect_volume conn_info) (ask (Terminate v)) in
  let conn_info := with_path path conn_info in
  store_connection conn_info;;;
  let! m := the_map in
  ask (SaveMapping (mp_connection m));;;
  on_error (ask (Attach v path (mp_container m)))
    (try_except (_disconnect_volume conn_info)
       (λ e, match e with VolumeDeviceNotFound => Some (ret tt) | _ => None end);;;
     ask (Terminate v);;;
     detach m);;;
  ret path.

Definition attach_volume : vm string :=
  let! m := the_map in on_error _do_attach_volume (ask (Unreserve (mp_cinder m))).

(** Whether another mapping of the volume, or none at all, is on this host. *)
Definition _volume_connection_keep (v : string) : vm bool :=
  let! hosts := ask (ListMappings v) in
  ret (negb (bool_decide (length (filter (λ h, h = Some (this_host conf)) hosts) = 1))).

Definition detach_volume : vm unit :=
  let! m := the_map in
  let v := mp_cinder m in
  try_except (ask (BeginDetaching v))
    (λ e, match e with ClientException true => Some (raise (FZun Invalid)) | _ => None end);;;
  let! conn_info := of_option (mp_connection m) (FPy TypeError) in
  let! keep := _volume_connection_keep v in
  (if keep : bool then ret tt
   else on_error (_disconnect_volume conn_info) (ask (RollDetaching v));;;
        ask (Terminate v));;;
  detach m.

(** [except cinder_exception] names a module: comparing an exception with it is a
    [TypeError]. *)
Definition delete_volume : vm unit :=
  let! m := the_map in
  try_except (api_delete_volume (mp_cinder m)) (λ _, Some (raise (FPy TypeError))).

(** ** Mounting *)

Definition run_command (failure : zun_class) (c : call unit) : vm unit :=
  try_except (ask c) (λ e, if is_zun CommandError e then Some (raise (FZun failure)) else None).
Definition make_filesystem (devpath : string) : vm unit :=
  run_command MakeFileSystemException (Mkfs (fstype conf) devpath).
Definition mount (devpath mountpoint : string) : vm unit :=
  run_command MountException (Mount (fstype conf) devpath mountpoint).
Definition unmount (mountpoint : string) : vm unit := run_command UnmountException (Umount mountpoint).

(** [line.split()]: the words between spaces. *)
Fixpoint words (l : chars) : list chars :=
  match l with
  | [] => []
  | c :: l' =>
      if is_space c then words l'
      else match l' with
           | [] => [[c]]
           | d :: _ => if is_space d then [c] :: words l'
                       else match words l' with w :: ws => (c :: w) :: ws | [] => [[c]] end
           end
  end.

(** One line of the table of mounts: device, mount point, type, options. *)
Definition mount_of_line (line : chars) : option (string * string) :=
  match words line with
  | device :: mountpoint :: _ :: _ :: _ => Some (implode device, implode mountpoint)
  | _ => None
  end.
Definition newline : ascii := ascii_of_nat 10.
Definition mounts_of (out : string) : list (string * string) :=
  omap mount_of_line (split_chars newline (explode out)).

Definition read_mounts : vm (list (string * string)) :=
  let! out := try_except (ask ReadMounts)
    (λ e, if is_zun CommandError e then Some (raise (FZun FileNotFound)) else None) in
  ret (mounts_of out).

Definition check_already_mounted (mountpoint : string) : vm bool :=
  let! mounts := read_mounts in ret (bool_decide (mountpoint ∈ mounts.*2)).

Definition do_mount (devpath mountpoint : string) : vm unit :=
  let! mounted := check_already_mounted mountpoint in
  if mounted : bool then ret tt
  else try_except (mount devpath mountpoint)
    (λ e, if is_zun MountException e
          then Some (make_filesystem devpath;;; mount devpath mountpoint) else None).

Definition do_unmount (mountpoint : string) : vm unit :=
  let! mounted := check_already_mounted mountpoint in
  if mounted : bool then unmount mountpoint else ret tt.

(** [os.path.join] *)
Definition path_join (a b : string) : string :=
  match b with
  | String "/"%char _ => b
  | _ => if bool_decide (a = "" ∨ last (explode a) = Some "/"%char) then (a ++ b)%string else (a ++ "/" ++ b)%string
  end.
Definition get_mountpoint (v : string) : string := path_join (volume_dir conf) v.

(** ** The drivers *)

(** [validate_volume_provider] *)
Definition validate_volume_provider {A} (supported_providers : list string) (function : vm A) : vm A :=
  let! m := the_map in
  raise_if (negb (bool_decide (mp_provider m ∈ supported_providers))) (FZun ZunException);;;
  function.

Definition the_mountpoint : vm string := let! m := the_map in ret (get_mountpoint (mp_volume_uuid m)).

End Volumes.

Module Local.
Section Local.
Context `{Outside} (conf : volume_conf) (dumpable : conn → bool) (b64decode : string → option string).
Abbreviation vm := (M fault vstate).
Abbreviation the_mountpoint := (the_mountpoint conf).
Abbreviation get_mountpoint := (get_mountpoint conf).
Definition supported_providers : list string := ["local"].

Definition attach : vm unit := validate_volume_provider supported_providers (
  let! m := the_map in
  let mountpoint := get_mountpoint (mp_volume_uuid m) in
  ask (EnsureTree mountpoint);;;
  let filename := join "/" [mountpoint; mp_volume_uuid m] in
  ask (OpenFile filename);;;
  let! content := of_option (b64decode (mp_contents m)) (FZun Base64Exception) in
  ask (WriteFile filename content)).
Definition _remove_local_file : vm unit := let! p := the_mountpoint in ask (RemoveTree p).
Definition detach : vm unit := validate_volume_provider supported_providers _remove_local_file.
Definition delete : vm unit := validate_volume_provider supported_providers _remove_local_file.
Definition bind_mount : vm (string * string) := validate_volume_provider supported_providers (
  let! m := the_map in
  ret (join "/" [get_mountpoint (mp_volume_uuid m); mp_volume_uuid m], mp_path m)).
Definition is_volume_available : vm (bool * bool) := ret (true, false).
Definition is_volume_deleted : vm (bool * bool) := ret (true, false).
End Local.
End Local.

Module Cinder.
Section Cinder.
Context `{Outside} (conf : volume_conf) (dumpable : conn → bool) (b64decode : string → option string).
Abbreviation vm := (M fault vstate).
Abbreviation the_mountpoint := (the_mountpoint conf).
Abbreviation attach_volume := (attach_volume dumpable).
Abbreviation store_connection := (store_connection dumpable).
Abbreviation detach_volume := (detach_volume conf).
Abbreviation do_mount := (do_mount conf).
Definition supported_providers : list string := ["cinder"].

Definition _mount_device (devpath : string) : vm unit :=
  let! mountpoint := the_mountpoint in
  ask (EnsureTree mountpoint);;;
  do_mount devpath mountpoint.

(** A mapping with connection information is connected again. *)
Definition attach : vm unit := validate_volume_provider supported_providers (
  let! m := the_map in
  let! devpath :=
    match mp_connection m with
    | Some connection_info =>
        let! path := _connect_volume connection_info in
        store_connection (with_path path connection_info);;;
        let! m := the_map in
        ask (SaveMapping (mp_connection m));;;
        ret path
    | None => attach_volume
    end in
  on_error (_mount_device devpath) (swallow detach_volume)).

Definition _unmount_device : vm unit :=
  let! mountpoint := the_mountpoint in
  do_unmount mountpoint;;;
  ask (RemoveTree mountpoint).

Definition detach : vm unit := validate_volume_provider supported_providers (
  _unmount_device;;; detach_volume).
Definition delete : vm unit := validate_volume_provider supported_providers delete_volume.
Definition bind_mount : vm (string * string) := validate_volume_provider supported_providers (
  let! mountpoint := the_mountpoint in let! m := the_map in ret (mountpoint, mp_path m)).

Definition get_volume_status : vm string := validate_volume_provider supported_providers (
  let! m := the_map in let! v := ask (VolumesGet (mp_cinder m)) in ret (cv_status v)).
Definition check_multiattach : vm bool := validate_volume_provider supported_providers (
  let! m := the_map in let! v := ask (VolumesGet (mp_cinder m)) in ret (cv_multiattach v)).

Definition is_volume_available : vm (bool * bool) := validate_volume_provider supported_providers (
  let! status := get_volume_status in
  if String.eqb status "available" then ret (true, false)
  else if String.eqb status "in-use" then let! m := check_multiattach in ret (m, false)
  else if String.eqb status "error" then ret (false, true)
  else ret (false, false)).

(** ['error' in volume.status] *)
Definition is_volume_deleted : vm (bool * bool) := validate_volume_provider supported_providers (
  try_except
    (let! m := the_map in
     let! v := ask (SearchVolume (mp_cinder m)) in
     ret (false, match String.index 0 "error" (cv_status v) with Some _ => true | None => false end))
    (λ e, if is_zun VolumeNotFound e then Some (ret (true, false)) else None)).
End Cinder.
End Cinder.

(** ** What a run leaves behind

    The volume as Cinder and the host see it, read off the calls and their answers:
    which steps towards an attachment were made and which were taken back.  A
    reservation, and an attachment, may have been made by a call that failed, and so
    may an export that failed in the Cinder client; a step back that was refused
    leaves what it should have taken back. *)

Inductive step : Type := NotDone | Done | TakenBack | Refused.
#[export] Instance step_eq_dec : EqDecision step.
Proof. solve_decision. Defined.
Record held : Type := mkHeld {
  h_reserved : step;
  h_exported : step;
  h_connected : step;
  h_attached : step;
  h_connection : option conn;   (** as exported, with the path once connected *)
  h_saved : option conn;        (** the information recorded in the mapping *)
  h_mounted : bool;
  h_obstacle : bool;            (** a step back was refused or is not possible *)
  h_strayed : bool              (** some call was about something else *)
}.
Definition nothing : held := mkHeld NotDone NotDone NotDone NotDone None None false false false.

Definition back (ok : bool) (st : step) : step :=
  match st with Done | Refused => if ok then TakenBack else Refused | _ => st end.
Definition target (c : conn) : string * string := (driver_volume_type c, c_data c).
Definition is_client {A} (o : outcome fault A) : bool :=
  match o with Raise (ClientException _) => true | _ => false end.
Definition not_there {A} (o : outcome fault A) : bool :=
  match o with Raise VolumeDeviceNotFound => true | _ => false end.

Section Effect.
Context (conf : volume_conf) (m : mapping).

Definition stray (own : bool) (h : held) : held :=
  if own then h
  else mkHeld (h_reserved h) (h_exported h) (h_connected h) (h_attached h) (h_connection h) (h_saved h)
         (h_mounted h) (h_obstacle h) true.
Definition own (v : string) : bool := bool_decide (v = mp_cinder m).
Definition own_target (c : conn) (h : held) : bool :=
  bool_decide (target <$> h_connection h = Some (target c)).
Definition here (path : string) : bool := bool_decide (path = get_mountpoint conf (mp_volume_uuid m)).
Definition at_path (path : string) (h : held) : bool :=
  bool_decide ((h_connection h ≫= device_path) = Some path).

Definition effect {A} (c : call A) : outcome fault A → held → held :=
  match c in call B return outcome fault B → held → held with
  | Reserve v => λ _ h, let 'mkHeld r x k a i sv mt ob y := h in
      stray (own v) (mkHeld Done x k a i sv mt ob y)
  | Unreserve v => λ o h, let 'mkHeld r x k a i sv mt ob y := h in
      stray (own v) (mkHeld (back (is_ok o) r) x k a i sv mt (ob || negb (is_ok o)) y)
  | Initialize v => λ o h, let 'mkHeld r x k a i sv mt ob y := h in
      stray (own v) match o with
        | Ok j => mkHeld r Done k a (Some j) sv mt ob y
        | Raise _ => mkHeld r (if is_client o then Done else x) k a i sv mt ob y
        end
  | Terminate v => λ o h, let 'mkHeld r x k a i sv mt ob y := h in
      stray (own v) (mkHeld r (back (is_ok o) x) k a i sv mt (ob || negb (is_ok o)) y)
  | Connect j => λ o h, let 'mkHeld r x k a i sv mt ob y := h in
      stray (own_target j h) match o with
        | Ok p => mkHeld r x Done a (Some (with_path p j)) sv mt ob y
        | Raise _ => h
        end
  | Disconnect j => λ o h, let 'mkHeld r x k a i sv mt ob y := h in
      stray (own_target j h)
        (mkHeld r x (back (is_ok o || not_there o) k) a i sv mt (ob || negb (is_ok o || not_there o)) y)
  | Attach v p ct => λ o h, let 'mkHeld r x k a i sv mt ob y := h in
      stray (own v && at_path p h && bool_decide (ct = mp_container m))
        (mkHeld (if is_ok o then NotDone else r) x k Done i sv mt ob y)
  | Detach v _ => λ o h, let 'mkHeld r x k a i sv mt ob y := h in
      stray (own v) (mkHeld r x k (back (is_ok o) a) i sv mt (ob || negb (is_ok o)) y)
  | BeginDetaching v => λ o h, let 'mkHeld r x k a i sv mt ob y := h in
      stray (own v) (mkHeld r x k a i sv mt (ob || negb (is_ok o)) y)
  | RollDetaching v => λ _ h, let 'mkHeld r x k a i sv mt ob y := h in
      stray (own v) (mkHeld r x k a i sv mt true y)
  | VolumesGet v => λ o h, let 'mkHeld r x k a i sv mt ob y := h in
      stray (own v) (mkHeld r x k a i sv mt (ob || negb (is_ok o)) y)
  | ListMappings v => λ o h, let 'mkHeld r x k a i sv mt ob y := h in
      let alone := match o with
                   | Ok hosts => bool_decide (length (filter (λ h, h = Some (this_host conf)) hosts) = 1)
                   | Raise _ => false
                   end in
      stray (own v) (mkHeld r x k a i sv mt (ob || negb alone) y)
  | SaveMapping info => λ o h, let 'mkHeld r x k a i sv mt ob y := h in
      if is_ok o then mkHeld r x k a i info mt (ob || bool_decide (info = None)) y
      else mkHeld r x k a i sv mt true y
  | ReadMounts => λ o h, let 'mkHeld r x k a i sv mt ob y := h in
      let there := match o with
                   | Ok out => bool_decide (get_mountpoint conf (mp_volume_uuid m) ∈ (mounts_of out).*2)
                   | Raise _ => false
                   end in
      mkHeld r x k a i sv (mt || there) ob y
  | Mount _ dev p => λ o h, let 'mkHeld r x k a i sv mt ob y := h in
      stray (here p && at_path dev h) (mkHeld r x k a i sv (mt || is_ok o) ob y)
  | Mkfs _ dev => λ _ h, stray (at_path dev h) h
  | EnsureTree p => λ _ h, stray (here p) h
  | VolumesDelete _ | Umount _ | RemoveTree _ | OpenFile _ | WriteFile _ _ => λ _, stray false
  | SearchVolume _ => λ _ h, h
  end.

Context `{Outside}.

Fixpoint replay (latest_first : list event) : held :=
  match latest_first with
  | [] => nothing
  | e :: l => effect (ev_call e) (answer (ev_call e) (reverse l)) (replay l)
  end.
Definition after (log : list event) : held := replay (reverse log).

Lemma after_snoc log e : after (log ++ [e]) = effect (ev_call e) (answer (ev_call e) log) (after log).
Proof. unfold after. rewrite reverse_snoc. cbn. by rewrite reverse_involutive. Qed.
End Effect.

(** Every step is taken back, or was never made. *)
Definition step_gone (st : step) : bool := bool_decide (st = NotDone ∨ st = TakenBack).
Definition given_back (h : held) : bool :=
  step_gone (h_reserved h) && step_gone (h_exported h) && step_gone (h_connected h) && step_gone (h_attached h).

(** All was about this volume, and nothing is mounted. *)
Definition calm (h : held) : bool := negb (h_strayed h) && negb (h_mounted h).
(** What an attachment that fails still holds: the reservation at most, unless there
    was an obstacle. *)
Definition loose (h : held) : bool :=
  calm h && (h_obstacle h || step_gone (h_exported h) && step_gone (h_connected h) && step_gone (h_attached h)).

(** After a failure: the reservation was given up, or was asked to be. *)
Definition torn (h : held) : bool :=
  calm h && negb (bool_decide (h_reserved h = Done)) && (h_obstacle h || given_back h).

(** The volume is attached by [c], recorded as [sv]; nothing is mounted yet. *)
Definition attached_by (c : conn) (sv : option conn) (mounted : bool) : held :=
  mkHeld NotDone Done Done Done (Some c) sv mounted (bool_decide (sv = None)) false.

Section Runs.
Context `{Outside} (conf : volume_conf) (dumpable : conn → bool) (m0 : mapping).
Implicit Types s : vstate.
Abbreviation effect := (effect conf m0).
Abbreviation after := (after conf m0).

(** The volume is held as [h] and the mapping is the one the run began with, but for
    the connection information [i]. *)
Definition at_ (h : held) (i : option conn) s : Prop := after (v_log s) = h ∧ v_map s = set_connection i m0.
Definition left (Q : held → bool) s : Prop := Q (after (v_log s)) = true.

Lemma ask_at {A} (c : call A) h i :
  hoare (at_ h i) (ask c) (λ a, at_ (effect c (Ok a) h) i) (λ e, at_ (effect c (Raise e) h) i).
Proof.
  intros s [Hh Hm]. unfold ask. destruct (answer c (v_log s)) as [a|e] eqn:Ha; (split; [|exact Hm]);
    cbn [v_log]; rewrite after_snoc, Hh; cbn [ev_type ev_call]; by rewrite Ha.
Qed.

Lemma at_left (Q : held → bool) h i s : Q h = true → at_ h i s → left Q s.
Proof. intros HQ [Hs _]. unfold left. by rewrite Hs. Qed.

Lemma map_bind_at {A} h i (f : mapping → M fault vstate A) Q X :
  hoare (at_ h i) (f (set_connection i m0)) Q X → hoare (at_ h i) (bind the_map f) Q X.
Proof. intros Hf s Hs. unfold bind, the_map, gets. destruct Hs as [Hh Hm]. rewrite Hm. by apply Hf. Qed.

(** A call before the rest. *)
Lemma ask_bind_at {A B} (c : call A) h i (f : A → M fault vstate B) Q X :
  (∀ a, hoare (at_ (effect c (Ok a) h) i) (f a) Q X) →
  (∀ e s, at_ (effect c (Raise e) h) i s → X e s) →
  hoare (at_ h i) (bind (ask c) f) Q X.
Proof.
  intros Hf HX. eapply hoare_bind; [|exact Hf]. eapply hoare_conseq; [apply ask_at|done|done|exact HX].
Qed.

(** A call and nothing more. *)
Lemma ask_end_at {A} (c : call A) h i Q X :
  (∀ a s, at_ (effect c (Ok a) h) i s → Q a s) → (∀ e s, at_ (effect c (Raise e) h) i s → X e s) →
  hoare (at_ h i) (ask c) Q X.
Proof. intros HQ HX. eapply hoare_conseq; [apply ask_at|done|exact HQ|exact HX]. Qed.

(** A handler that goes through raises the error again. *)
Lemma on_error_at {A} P (m : M fault vstate A) (handler : M fault vstate unit) Q X Y :
  hoare P m Q X → (∀ e, hoare (X e) handler (λ _, Y) (λ _, Y)) →
  hoare P (on_error m handler) Q (λ _, Y).
Proof.
  intros Hm Hh s Hs. specialize (Hm s Hs). unfold on_error, try_except.
  destruct (m s) as [[a|e] s1]; [exact Hm|]. specialize (Hh e s1 Hm). unfold bind.
  by destruct (handler s1) as [[[]|e'] s2].
Qed.

Lemma own_self : own m0 (mp_cinder m0) = true.
Proof. by apply bool_decide_true. Qed.
Lemma here_self : here conf m0 (get_mountpoint conf (mp_volume_uuid m0)) = true.
Proof. by apply bool_decide_true. Qed.
Lemma own_target_path p c h : h_connection h = Some c → own_target (with_path p c) h = true.
Proof. intros E. apply bool_decide_true. by rewrite E. Qed.
Lemma own_target_self c h : h_connection h = Some c → own_target c h = true.
Proof. intros E. apply bool_decide_true. by rewrite E. Qed.
Lemma at_path_self p c h : h_connection h = Some (with_path p c) → at_path p h = true.
Proof. intros E. apply bool_decide_true. by rewrite E. Qed.

Lemma container_self : bool_decide (mp_container m0 = mp_container m0) = true.
Proof. by apply bool_decide_true. Qed.
Ltac own_steps :=
  repeat match goal with
  | |- context [own_target (with_path ?p ?c) ?h] => rewrite (own_target_path p c h eq_refl)
  | |- context [own_target ?c ?h] => rewrite (own_target_self c h eq_refl)
  | |- context [at_path ?p ?h] => rewrite (at_path_self p _ h eq_refl)
  end.
Ltac held := cbn; rewrite ?own_self, ?here_self, ?container_self; cbn; own_steps; cbn.
(** The state after the calls so far, when the rest of the run is over. *)
Ltac over := intros; eapply at_left; [|eassumption]; held; try done.


(** The calls of an attachment up to the reservation being made. *)
Definition reserved : held := mkHeld Done NotDone NotDone NotDone None None false false false.
Definition exported (c : conn) : held := mkHeld Done Done NotDone NotDone (Some c) None false false false.
Definition connected (c : conn) : held := mkHeld Done Done Done NotDone (Some c) None false false false.

Lemma initialize_at :
  hoare (at_ reserved None) (initialize_connection (mp_cinder m0))
    (λ c, at_ (exported c) None) (λ _, left loose).
Proof.
  intros s Hs. unfold initialize_connection, try_except.
  pose proof (ask_at (Initialize (mp_cinder m0)) _ _ s Hs) as Hi.
  destruct (ask (Initialize (mp_cinder m0)) s) as [[c|e] s1]; revert Hi; held; intros Hi; [exact Hi|].
  destruct e; cbn in *; try by eapply at_left; [|exact Hi].
  unfold swallow, try_except, bind. pose proof (ask_at (Terminate (mp_cinder m0)) _ _ s1 Hi) as Ht.
  destruct (ask (Terminate (mp_cinder m0)) s1) as [[[]|e] s2]; by eapply at_left; [|exact Ht]; held.
Qed.
(** The connection information the mapping ends up with. *)
Definition recorded (c : conn) : option conn := if dumpable c then Some c else None.

Lemma store_at c h :
  hoare (at_ h None) (store_connection dumpable c) (λ _, at_ h (recorded c)) (λ _ _, False).
Proof.
  intros s [Hh Hm]. unfold store_connection, recorded. destruct (dumpable c); (split; [exact Hh|]); cbn; by rewrite Hm.
Qed.

Lemma do_attach_at :
  hoare (at_ nothing None) (_do_attach_volume dumpable)
    (λ p s, ∃ c, device_path c = Some p ∧ at_ (attached_by c (recorded c) false) (recorded c) s)
    (λ _, left loose).
Proof.
  unfold _do_attach_volume. apply map_bind_at. cbn [set_connection mp_cinder].
  apply ask_bind_at; [intros u|over]. held.
  eapply hoare_bind; [apply initialize_at|intros c].
  eapply hoare_bind.
  { eapply on_error_at; [apply ask_at|]. intros e. held.
    apply ask_end_at; over. }
  intros path. held.
  eapply hoare_bind; [eapply hoare_conseq; [apply store_at|done|done|done]|intros []].
  apply map_bind_at. cbn [set_connection mp_connection mp_container].
  apply ask_bind_at; [intros u1|over]. held.
  eapply hoare_bind.
  - eapply on_error_at; [apply ask_at|]. intros e. held.
    eapply (hoare_bind _ _ _ (λ _, at_ (mkHeld Done Done TakenBack Done _ _ false _ false) _)).
    + intros s Hs. unfold try_except, _disconnect_volume.
      pose proof (ask_at (Disconnect (with_path path c)) _ _ s Hs) as Hd.
      destruct (ask (Disconnect (with_path path c)) s) as [[[]|e2] s1]; revert Hd; held; rewrite ?orb_false_r; [intros Hd; exact Hd|].
      destruct e2; cbn [not_there is_ok orb negb]; rewrite ?orb_false_r; intros Hd; try exact Hd; (eapply at_left; [|exact Hd]); held; by rewrite orb_true_r.
    + intros []. apply ask_bind_at; [intros u2|over]. 2: by rewrite orb_true_r. held. rewrite orb_false_r.
      apply ask_bind_at; [intros vol|over]. 2: by rewrite orb_true_r. held. rewrite orb_false_r.
      apply ask_end_at; over. all: by rewrite orb_true_r.
  - intros []. held. intros s Hs. exists (with_path path c). by split.
Qed.
Lemma unreserve_torn o h : loose h = true → torn (effect (Unreserve (mp_cinder m0)) o h) = true.
Proof.
  destruct h as [r x k a i sv mt ob y]. cbn. rewrite own_self. cbn. unfold loose, torn, calm, given_back. cbn.
  destruct y, mt; try done. by destruct ob, o as [[]|e], r; destruct (step_gone x), (step_gone k), (step_gone a).
Qed.

Lemma attach_volume_at :
  hoare (at_ nothing None) (attach_volume dumpable)
    (λ p s, ∃ c, device_path c = Some p ∧ at_ (attached_by c (recorded c) false) (recorded c) s)
    (λ _, left torn).
Proof.
  unfold attach_volume. apply map_bind_at. apply (on_error_at _ _ _ _ (λ _, left loose)); [apply do_attach_at|].
  intros _ s Hs. unfold ask. destruct (answer _ (v_log s)) as [[]|e] eqn:Ha; unfold left; cbn [v_log];
    rewrite after_snoc; cbn [ev_type ev_call]; rewrite Ha; by apply unreserve_torn.
Qed.

(** Mounting what the volume is attached by. *)
Lemma mount_at c sv p :
  device_path c = Some p →
  hoare (at_ (attached_by c sv false) sv) (Cinder._mount_device conf p)
    (λ _, at_ (attached_by c sv true) sv) (λ _, at_ (attached_by c sv false) sv).
Proof.
  intros Hp. assert (∀ b, at_path p (attached_by c sv b) = true) as Hat by (intros b; by apply bool_decide_true).
  set (mp := get_mountpoint conf (mp_volume_uuid m0)).
  assert (here conf m0 mp = true) as Hmp by apply here_self.
  assert (∀ b o, effect (Mount (fstype conf) p mp) o (attached_by c sv b) = attached_by c sv (b || is_ok o)) as Hmount.
  { intros b o. cbn. rewrite Hmp. by rewrite (Hat b). }
  assert (∀ o, effect (Mkfs (fstype conf) p) o (attached_by c sv false) = attached_by c sv false) as Hmkfs.
  { intros o. cbn. by rewrite (Hat false). }
  assert (∀ o, effect (EnsureTree mp) o (attached_by c sv false) = attached_by c sv false) as Htree.
  { intros o. cbn. by rewrite Hmp. }
  assert (∀ k b (c1 : call unit), (∀ o, effect c1 o (attached_by c sv false) = attached_by c sv (b && is_ok o)) →
    hoare (at_ (attached_by c sv false) sv) (run_command k c1)
      (λ _, at_ (attached_by c sv b) sv) (λ _, at_ (attached_by c sv false) sv)) as Hrun.
  { intros k b c1 Hc s Hs. unfold run_command, try_except.
    pose proof (ask_at c1 _ _ s Hs) as Ha. destruct (ask c1 s) as [[[]|e] s1]; rewrite Hc in Ha; cbn in Ha.
    - by rewrite andb_true_r in Ha.
    - rewrite andb_false_r in Ha. by destruct (is_zun CommandError e). }
  assert (hoare (at_ (attached_by c sv false) sv) (check_already_mounted mp)
    (λ mounted, at_ (attached_by c sv mounted) sv) (λ _, at_ (attached_by c sv false) sv)) as Hcheck.
  { intros s Hs. unfold check_already_mounted, read_mounts, try_except, bind.
    pose proof (ask_at ReadMounts _ _ s Hs) as Ha. destruct (ask ReadMounts s) as [[out|e] s1]; [exact Ha|].
    cbn in Ha. by destruct (is_zun CommandError e). }
  intros s Hs. unfold Cinder._mount_device, the_mountpoint. rewrite bind_assoc. revert s Hs.
  apply map_bind_at. intros s. rewrite bind_ret. revert s.
  change (get_mountpoint conf (mp_volume_uuid (set_connection sv m0))) with mp.
  apply ask_bind_at; [intros u|intros e s]; rewrite Htree; [|done].
  unfold do_mount. eapply hoare_bind; [exact Hcheck|]. intros [|]; [by intros s Hs|].
  pose proof (Hrun MountException true (Mount (fstype conf) p mp) (Hmount false)) as Hm.
  intros s Hs. unfold try_except at 1. specialize (Hm s Hs) as Hm1. unfold mount at 1.
  destruct (run_command _ _ s) as [[[]|e] s1]; [exact Hm1|]. destruct (is_zun MountException e); [|exact Hm1].
  refine (hoare_bind _ _ _ (λ _, at_ (attached_by c sv false) sv) _ _ _ _ s1 Hm1); [|intros []; exact Hm].
  exact (Hrun MakeFileSystemException false _ Hmkfs).
Qed.
Lemma recorded_or c : recorded c = None ∨ recorded c = Some c.
Proof. unfold recorded. destruct (dumpable c); [by right|by left]. Qed.

Lemma torn_whole s :
  left torn s →
  let h := after (v_log s) in
  h_strayed h = false ∧ h_mounted h = false ∧ h_reserved h ≠ Done ∧ (h_obstacle h = false → given_back h = true).
Proof.
  unfold left, torn, calm. intros Ht. apply andb_prop in Ht as [[[Hy Hm]%andb_prop Hr]%andb_prop Hg].
  apply negb_true_iff in Hy, Hm, Hr. apply bool_decide_eq_false in Hr. cbn. split_and!; try done.
  intros Ho. by rewrite Ho in Hg.
Qed.

(** What a failed detachment leaves had an obstacle. *)
Lemma detach_volume_at c sv :
  sv = None ∨ sv = Some c →
  hoare (at_ (attached_by c sv false) sv) (detach_volume conf) (λ _, left torn) (λ _, left torn).
Proof.
  intros Hsv. unfold detach_volume. apply map_bind_at. cbn [set_connection mp_cinder mp_connection].
  eapply (hoare_bind _ _ _ (λ _, at_ (attached_by c sv false) sv)).
  { intros s Hs. unfold try_except. pose proof (ask_at (BeginDetaching (mp_cinder m0)) _ _ s Hs) as Hb.
    destruct (ask _ s) as [[[]|e] s1]; revert Hb; held; rewrite ?orb_false_r, ?orb_true_r; intros Hb; [exact Hb|].
    assert (left torn s1) by (by eapply at_left; [|exact Hb]).
    by destruct e as [| |[]|]. }
  intros []. destruct Hsv as [-> | ->]; [intros s Hs; by eapply at_left; [|exact Hs]|].
  cbn [of_option]. intros s. rewrite bind_ret. revert s. unfold _volume_connection_keep.
  eapply (hoare_bind _ _ _ (λ keep : bool, at_ (mkHeld NotDone Done Done Done (Some c) (Some c) false keep false) (Some c))).
  { apply ask_bind_at; [intros hosts s Hs|by over]. revert Hs. held. intros Hs. exact Hs. }
  intros keep. eapply (hoare_bind _ _ _ (λ _, at_ (mkHeld NotDone (if keep then Done else TakenBack)
    (if keep then Done else TakenBack) Done (Some c) (Some c) false keep false) (Some c))).
  - destruct keep; [by intros s Hs|]. eapply hoare_bind.
    + eapply on_error_at; [apply ask_at|]. intros e. held. apply ask_end_at; over.
    + intros u. held. apply ask_end_at; [|over]. held. done.
  - intros u. unfold detach. apply ask_bind_at; [intros vol|over]. held. 2: by rewrite orb_true_r.
    apply ask_end_at; over; destruct keep; done.
Qed.

End Runs.


(** ** Witnesses *)

#[local] Definition demo_conn : conn := mkConn "iscsi" "target" None.
(** A remote end where everything goes well but what [refuses] says. *)
#[local] Definition demo_outside (refuses : ∀ A, call A → option fault) : Outside := λ A c _,
  match refuses A c with
  | Some e => Raise e
  | None =>
      match c in call A return outcome fault A with
      | Initialize _ => Ok demo_conn
      | VolumesGet _ | SearchVolume _ => Ok (mkCVolume "in-use" [(Some "c1", "a1")] false)
      | Connect _ => Ok "/dev/sda"
      | ListMappings _ => Ok [Some "h1"]
      | ReadMounts => Ok "/dev/vda1 / ext4 rw 0 0"
      | _ => Ok tt
      end
  end.
#[local] Definition demo_volume_conf : volume_conf := mkVolumeConf "/var/lib/zun/mnt" "ext4" "h1".
#[local] Definition demo_mapping : mapping := mkMapping "v1" "cv1" (Some "c1") "cinder" "/data" "" None.
(** Neither mounting nor making a file system works. *)
#[local] Definition no_mount : ∀ A, call A → option fault := λ A c,
  match c with Mount _ _ _ | Mkfs _ _ => Some (FZun CommandError) | _ => None end.
#[local] Definition no_save : ∀ A, call A → option fault := λ A c,
  match c with SaveMapping _ => Some (FPy OtherException) | _ => None end.
Abbreviation demo_attach refuses :=
  (Cinder.attach (H:=demo_outside refuses) demo_volume_conf (λ _, true) (mkV demo_mapping [])).

Abbreviation demo_hold refuses :=
  (after (H:=demo_outside refuses) demo_volume_conf demo_mapping (v_log (demo_attach refuses).2)).


(** A connection that cannot be undone keeps the volume exported. *)
#[local] Definition no_attach : ∀ A, call A → option fault := λ A c,
  match c with
  | Attach _ _ _ => Some (ClientException false)
  | Disconnect _ => Some (FPy OtherException)
  | _ => None
  end.
Example refused_step_back : demo_hold no_attach =
  mkHeld TakenBack Done Refused Done (Some (with_path "/dev/sda" demo_conn)) (Some (with_path "/dev/sda" demo_conn))
    false true false.
Proof. by vm_compute. Qed.

(** Everything but recording the connection works: the volume is given back to
    Cinder while the host stays connected to it. *)
Lemma unsaved_connection_leaks :
  is_ok (demo_attach no_save).1 = false ∧
  demo_hold no_save =
    mkHeld TakenBack Done Done NotDone (Some (with_path "/dev/sda" demo_conn)) None false true false.
Proof. by vm_compute. Qed.

(** Whatever Cinder says about a failed deletion, the driver raises [TypeError]. *)
Lemma delete_failure_is_a_type_error `{Outside} s e :
  answer (VolumesDelete (mp_cinder (v_map s))) (v_log s) = Raise e →
  (delete_volume s).1 = Raise (FPy TypeError).
Proof.
  intros Ha. unfold delete_volume, the_map, api_delete_volume, try_except, bind, gets, ask. rewrite Ha. by destruct e.
Qed.
