(* ===== verification/Network.v ===== *)
(** * The Kuryr network driver (src/zun/network/kuryr_network.py, neutron.py)

    Docker networks stand for Neutron networks, ports of Neutron for the interfaces
    of a container.  An operation is a [prog]: the calls it makes, one after the
    other, to Docker, to Neutron and to the table of networks ([Effects]); each is
    atomic, so a [prog] can be run alone with any answers ([run]), or interleaved with
    others ([NetworkRace]).  The calls of the container operations of the Docker driver
    ([DockerCreate]) are here too, since they share one log. *)

From Stdlib Require Import Ascii.
From S2P Require Import Prelude Exceptions PyStr DockerDriver Effects.

(** [NeutronClientException] has a status; [PortNotFoundClient] is one.  An error of
    Docker is an [APIError] until the client of the driver is left, a [DockerError]
    after that. *)
Inductive fault : Type :=
| FApi (e : api_error)
| FDocker (e : api_error)
| FZun (c : zun_class)
| FPy (b : builtin)
| FClient (status : Z)
| FPortNotFoundClient
| FNetworkExists (neutron_net_id : bool).    (** [NetworkAlreadyExists], with its field *)

Definition is_zun (k : zun_class) (e : fault) : bool :=
  match e with
  | FZun c => isinstance (Zun c) k
  | FNetworkExists _ => isinstance (Zun NetworkAlreadyExists) k
  | FDocker _ => isinstance (Zun DockerError) k
  | _ => false
  end.

Record subnet : Type := mkSubnet {
  sn_id : string; sn_version : Z; sn_cidr : string; sn_gateway : option string
}.

(** How a port is bound: its network, the type of its interface with the details of it,
    and whether it is active. *)
Record binding : Type := mkBinding {
  bd_network : string;
  bd_vif_type : option string;
  bd_bridge_name : option string;
  bd_hybrid_plug : bool;
  bd_port_filter : bool;
  bd_active : bool
}.
Definition unbound : binding := mkBinding "" None None false false false.

(** A port; its profile and its groups may be missing. *)
Record port : Type := mkPort {
  pt_id : string;
  pt_mac : option string;
  pt_fixed_ips : list (string * option string);        (** address, subnet *)
  pt_profile : option (dict string string);
  pt_groups : option (list string);
  pt_binding : binding
}.

(** The body of a request on a port: the keys it has. *)
Record port_body : Type := mkBody {
  pb_network : option string;
  pb_tenant : option string;
  pb_device : option string;
  pb_owner : option string;
  pb_host : option (option string);
  pb_fixed_ip : option string;
  pb_mac : option (option string);
  pb_profile : option (dict string string);
  pb_groups : option (list string)
}.
Definition no_body : port_body := mkBody None None None None None None None None None.

(** One address of a container on a network. *)
Record addr : Type := mkAddr {
  ad_addr : string; ad_version : Z; ad_port : string; ad_subnet : option string; ad_preserve : bool
}.

(** A row of the table [network]. *)
Record netrow : Type := mkNetrow {
  nr_uuid : nat; nr_name : string; nr_neutron : string; nr_host : string; nr_network_id : option string
}.

(** The options of a Docker network. *)
Record docker_options : Type := mkOptions {
  do_net : string; do_shared : bool; do_v4 : option subnet; do_v6 : option subnet
}.

(** What Docker is asked to create: the arguments of [create_container], and those of
    [create_host_config].  A memory set is passed as the text of a Python set. *)
Record health_args : Type := mkHealth {
  ha_test : string; ha_interval : Z; ha_retries : Z; ha_timeout : Z
}.
Record host_config : Type := mkHostConfig {
  hc_privileged : option bool;
  hc_runtime : option string;
  hc_binds : list (string * string);
  hc_network_mode : option string;
  hc_ipc_mode : option string;
  hc_auto_remove : option bool;
  hc_mem_limit : option string;
  hc_cpu_shares : option Z;
  hc_restart_policy : option (string * Z);
  hc_storage_size : option string;
  hc_cpuset_cpus : option (option (gset Z));
  hc_cpuset_mems : option (option (gset Z))
}.
Record create_args : Type := mkCreateArgs {
  ca_name : string;
  ca_command : option (list string);
  ca_environment : dict string string;
  ca_working_dir : option string;
  ca_labels : dict string string;
  ca_tty : option bool;
  ca_stdin_open : option bool;
  ca_hostname : option string;
  ca_entrypoint : option (list string);
  ca_volumes : list string;
  ca_ports : list (string * string);
  ca_network : option (string * option string * option string);
  ca_mac_address : option string;
  ca_healthcheck : option health_args;
  ca_host_config : host_config
}.

Inductive call : Type → Type :=
| DockerInspectImage (image : string) : call (option (list string) * option (list string))
| DockerCreateContainer (image : string) (kwargs : create_args) : call string
| DockerInspect (cid : string) : call docker_container
| DockerStart (cid : string) : call unit
| DockerStop (cid : string) : call unit
| DockerRemove (cid : string) (force : bool) : call unit
| CreateGroup (name : string) : call string
| ListGroups (tenant : option string) : call (list (string * string))     (** id, name *)
| BindMount (volume : string) : call (string * string)                    (** source, destination *)
| SaveContainer (uuid : string) : call unit
| DockerNetworks (name : string) : call (list string)                  (** their ids *)
| DockerCreateNetwork (name : string) (enable_ipv6 : bool) (o : docker_options) : call string
| DockerRemoveNetwork (name : string) : call unit
| DockerConnect (cid name : string) (v4 v6 : option string) : call unit
| DockerDisconnect (cid name : string) : call unit
| GetNeutronNetwork (net : string) : call bool                         (** shared *)
| ListSubnets (net : string) : call (list subnet)
| GetNeutronPort (p : string) : call port
| UpdatePort (p : string) (b : port_body) : call port
| CreatePort (b : port_body) : call port
| DeletePort (p : string) : call unit
| ListPorts (tenant : option string) : call (list port)
| CreateRule (group port protocol : string) : call unit
| DeleteGroup (group : string) : call unit
| CreateRow (name net host : string) : call nat                        (** its uuid *)
| ListRows (net host : string) : call (list netrow)
| SaveRow (u : nat) (network_id : string) : call unit
| DestroyRow (u : nat) : call unit
| Sleep (seconds : Z) : call unit.

(** Programs over these calls, what they log, and what answers them. *)
Abbreviation prog := (eff fault call).
Abbreviation event := (ev call).
Abbreviation Outside := (Answers fault call).

(** ** Creating and removing a network *)

Section Network.
(** The host of the process, the project of the context, the order of a set, and
    the version of an address. *)
Context (this_host : string) (project : option string) (set_order : list string → list string)
  (ip_version : string → option Z).

Definition _get_subnet (subnets : list subnet) (ip_version : Z) : prog (option subnet) :=
  match filter (λ s, sn_version s = ip_version) subnets with
  | [] => Return None
  | [s] => Return (Some s)
  | _ => Fault (FZun ZunException)
  end.

(** The row of this host, once Docker has its network; [None] to try again. *)
Definition _create_network_attempt (name net : string) (o : docker_options) : prog (option netrow) :=
  Do (CreateRow name net this_host) (λ created,
    match created with
    | Raise (FNetworkExists true) =>
        networks ← ask (ListRows net this_host);
        docker_networks ← ask (DockerNetworks name);
        match networks, docker_networks with
        | n :: _, d :: _ => if bool_decide (nr_network_id n = Some d ∧ d ≠ "") then Return (Some n) else Return None
        | _, _ => Return None
        end
    | Raise e => Fault e
    | Ok u =>
        docker_network ← on_error (ask (DockerCreateNetwork name (bool_decide (is_Some (do_v6 o))) o))
          (ask (DestroyRow u));
        _ ← ask (SaveRow u docker_network);
        Return (Some (mkNetrow u name net this_host (Some docker_network)))
    end).

Fixpoint attempts (l : list Z) (name net : string) (o : docker_options) : prog netrow :=
  match l with
  | [] => Fault (FZun ZunException)
  | attempt :: l' =>
      created_network ← _create_network_attempt name net o;
      match created_network with
      | Some n => Return n
      | None => _ ← ask (Sleep (2 ^ attempt - 1)); attempts l' name net o
      end
  end.

Definition create_network (neutron_net_id : string) : prog netrow :=
  shared ← ask (GetNeutronNetwork neutron_net_id);
  subnets ← ask (ListSubnets neutron_net_id);
  v4_subnet ← _get_subnet subnets 4;
  v6_subnet ← _get_subnet subnets 6;
  _ ← check (bool_decide (v4_subnet = None ∧ v6_subnet = None)) (FZun ZunException);
  attempts [1; 2; 3]%Z neutron_net_id neutron_net_id (mkOptions neutron_net_id shared v4_subnet v6_subnet).

Definition get_or_create_network (neutron_net_id : string) : prog unit :=
  docker_networks ← ask (DockerNetworks neutron_net_id);
  match docker_networks with
  | [] => _ ← create_network neutron_net_id; Return tt
  | _ => Return tt
  end.

Definition remove_network (n : netrow) : prog unit :=
  _ ← ask (DockerRemoveNetwork (nr_name n)); ask (DestroyRow (nr_uuid n)).

(** ** Ports (src/zun/network/neutron.py) *)

(** The network of a request. *)
Record requested : Type := mkRequested {
  rq_network : string; rq_port : string; rq_fixed_ip : string; rq_preserve : bool
}.

Definition addresses_of (preserve : bool) (p : port) : prog (list addr) :=
  (fix go (l : list (string * option string)) : prog (list addr) :=
     match l with
     | [] => Return []
     | (ip, sn) :: l' =>
         match ip_version ip with
         | None => Fault (FPy ValueError)
         | Some v => rest ← go l';
                     Return (mkAddr ip (if bool_decide (v = 4%Z) then 4 else 6) (pt_id p) sn preserve :: rest)
         end
     end) (pt_fixed_ips p).

(** For a port without a request for a PCI device. *)
Definition create_or_update_port (container_uuid : string) (container_host : option string)
    (network_uuid : string) (rq : requested) (device_owner : string)
    (security_groups : option (list string)) (set_binding_host : bool) : prog (list addr * port) :=
  let owner := if set_binding_host then Some device_owner else None in
  let host := if set_binding_host then Some container_host else None in
  neutron_port ←
    (if String.eqb (rq_port rq) "" then
       ask (CreatePort (mkBody (Some network_uuid) project (Some container_uuid) owner host
              (if String.eqb (rq_fixed_ip rq) "" then None else Some (rq_fixed_ip rq)) None None security_groups))
     else ask (UpdatePort (rq_port rq) (mkBody None None (Some container_uuid) owner host None None None None)));
  addresses ← addresses_of (rq_preserve rq) neutron_port;
  Return (addresses, neutron_port).

Definition drop_keys (ks : list string) (d : dict string string) : dict string string :=
  filter (λ kv, kv.1 ∉ ks) d.

(** A port that is gone needs no unbinding; another failure is only logged. *)
Definition _unbind_port (port_id : string) : prog unit :=
  profile ← handle (p ← ask (GetNeutronPort port_id); Return (Some (default [] (pt_profile p))))
    (λ e, Some (Return (if is_zun PortNotFound e then None else Some [])));
  match profile with
  | None => Return tt
  | Some d =>
      handle (_ ← ask (UpdatePort port_id
        (mkBody None None (Some "") (Some "") (Some None) None None
          (Some (drop_keys ["pci_vendor_info"; "pci_slot"] d)) None)); Return tt)
        (λ _, Some (Return tt))
  end.

Definition delete_or_unbind_ports (ports ports_to_delete : list string) : prog unit :=
  each (λ port_id,
    handle (if bool_decide (port_id ∈ ports_to_delete) then ask (DeletePort port_id) else _unbind_port port_id)
      (λ e, match e with FPortNotFoundClient => Some (Return tt) | _ => None end)) ports.

Definition expose_ports (secgroup_id : string) (ports : list string) : prog unit :=
  each (λ p,
    match split "/" p with
    | [port; proto] =>
        handle (ask (CreateRule secgroup_id port proto))
          (λ e, match e with
                | FClient _ | FPortNotFoundClient =>
                    Some (_ ← ask (DeleteGroup secgroup_id); Fault (FZun ZunException))
                | _ => None
                end)
    | _ => Fault (FPy ValueError)
    end) ports.

(** ** Containers and networks *)

(** The last address of each version. *)
Definition of_version (v : Z) (l : list addr) : option string :=
  ad_addr <$> last (filter (λ a, ad_version a = v) l).

(** A failed connection gives the port back as it was, or deletes it. *)
Definition do_port_cleanup (addresses : list addr) (p : port) : prog unit :=
  match addresses with
  | [] => Fault (FPy IndexError)
  | a :: _ =>
      if ad_preserve a then
        handle (_ ← ask (UpdatePort (pt_id p) (mkBody None None (Some "") (Some "") (Some None) None
                 (Some (pt_mac p)) (Some (default [] (pt_profile p))) None)); Return tt)
          (λ _, Some (Return tt))
      else
        handle (ask (DeletePort (pt_id p))) (λ e, if is_zun PortNotFound e then Some (Return tt) else None)
  end.

Definition DEVICE_OWNER : string := "compute:kuryr".

(** What the container is created with: the addresses, its network, its MAC. *)
Definition process_networking_config (container_uuid : string) (container_host : option string)
    (rq : requested) (security_group_ids : option (list string))
    : prog (list addr * (string * option string * option string * option string)) :=
  r ← create_or_update_port container_uuid container_host (rq_network rq) rq DEVICE_OWNER
        security_group_ids true;
  let '(addresses, p) := r in
  Return (addresses, (rq_network rq, of_version 4 addresses, of_version 6 addresses, pt_mac p)).

Definition connect_container_to_network (container_uuid : string) (container_id : string)
    (container_host : option string) (rq : requested) (security_groups : option (list string)) : prog (list addr) :=
  r ← create_or_update_port container_uuid container_host (rq_network rq) rq DEVICE_OWNER security_groups false;
  let '(addresses, original_port) := r in
  _ ← handle (ask (DockerConnect container_id (rq_network rq) (of_version 4 addresses) (of_version 6 addresses)))
        (λ e, if is_zun DockerError e
              then Some (_ ← do_port_cleanup addresses original_port; Fault e) else None);
  Return addresses.

Definition _disconnect_container_from_network (container_id : option string) (network_name : string)
    (addrs_list : list addr) : prog unit :=
  let all_ports := remove_dups (ad_port <$> addrs_list) in
  let neutron_ports := remove_dups (ad_port <$> filter (λ a, ad_preserve a = false) addrs_list) in
  finally (match container_id with
           | Some c => if String.eqb c "" then Return tt else ask (DockerDisconnect c network_name)
           | None => Return tt
           end)
    (delete_or_unbind_ports (set_order all_ports) neutron_ports).

Definition disconnect_container_from_network (container_id : option string)
    (addresses : dict string (list addr)) (neutron_network_id : string) : prog unit :=
  _disconnect_container_from_network container_id neutron_network_id
    (if String.eqb neutron_network_id "" then [] else default [] (dget addresses neutron_network_id)).

(** The ports of the container, among those of the project. *)
Definition ports_of (addresses : dict string (list addr)) : prog (list port) :=
  let port_ids := ad_port <$> mjoin (dvalues addresses) in
  ports ← ask (ListPorts project);
  Return (filter (λ p, pt_id p ∈ port_ids) ports).

Definition set_groups (p : port) (groups : list string) (refused : zun_class) : prog unit :=
  handle (_ ← ask (UpdatePort (pt_id p) (mkBody None None None None None None None None (Some groups))); Return tt)
    (λ e, match e with FClient 400 => Some (Fault (FZun refused)) | _ => None end).

Definition add_security_groups_to_ports (addresses : dict string (list addr)) (ids : list string) : prog unit :=
  ports ← ports_of addresses;
  each (λ p, set_groups p (default [] (pt_groups p) ++ ids) SecurityGroupCannotBeApplied) ports.

Definition remove_security_groups_from_ports (addresses : dict string (list addr)) (ids : list string) : prog unit :=
  ports ← ports_of addresses;
  each (λ p,
    match pt_groups p, ids with
    | None, _ => Fault (FPy KeyError)
    | _, [] => Fault (FPy IndexError)
    | Some groups, i :: _ =>
        match remove_first (String.eqb i) groups with
        | Some rest => set_groups p rest SecurityGroupCannotBeRemoved
        | None => Fault (FPy ValueError)
        end
    end) ports.
End Network.

(** ** Disconnecting *)

Section Disconnect.
Context `{Outside} (set_order : list string → list string) (Hset : ∀ l, set_order l ≡ₚ l).

(** What an event says, with the answer it had. *)
Fixpoint along {X} (f : ∀ B, call B → outcome fault B → option X) (log evs : list event) : list X :=
  match evs with
  | [] => []
  | e :: evs' => option_list (f _ (ev_call e) (answer (ev_call e) log)) ++ along f (log ++ [e]) evs'
  end.

(** The port a call deletes. *)
Definition deletes B (c : call B) (_ : outcome fault B) : option string :=
  match c with DeletePort p => Some p | _ => None end.
(** The body that unbinds a port: no device, no owner, no host, and no PCI device in
    the profile. *)
Definition clears (b : port_body) : bool :=
  bool_decide (pb_device b = Some "" ∧ pb_owner b = Some "" ∧ pb_host b = Some None) &&
  match pb_profile b with
  | Some d => negb (dhas d "pci_vendor_info") && negb (dhas d "pci_slot")
  | None => false
  end.
(** The port that Neutron is asked to unbind, or that it says is gone. *)
Definition unbinds B (c : call B) : outcome fault B → option string :=
  match c with
  | UpdatePort p b => λ _, if clears b then Some p else None
  | GetNeutronPort p => λ o, match o with Raise e => if is_zun PortNotFound e then Some p else None | Ok _ => None end
  | _ => λ _, None
  end.
(** The network that Docker disconnects a container from. *)
Definition disconnects B (c : call B) (_ : outcome fault B) : option (string * string) :=
  match c with DockerDisconnect cid net => Some (cid, net) | _ => None end.
(** Calls that free ports, and nothing else. *)
Definition frees {B} (c : call B) : Prop :=
  match c with
  | DockerDisconnect _ _ | DeletePort _ | GetNeutronPort _ => True
  | UpdatePort _ b => clears b = true
  | _ => False
  end.

Lemma along_app {X} (f : ∀ B, call B → outcome fault B → option X) log evs evs' :
  along f log (evs ++ evs') = along f log evs ++ along f (log ++ evs) evs'.
Proof.
  revert log. induction evs as [|e evs IH]; intros log; cbn; [by rewrite app_nil_r|].
  by rewrite IH, <- !app_assoc.
Qed.

Lemma drop_keys_gone ks d k : k ∈ ks → dhas (drop_keys ks d) k = false.
Proof.
  intros Hk. unfold dhas, drop_keys. destruct (dget _ _) as [v|] eqn:Hd; [|done].
  apply dget_Some_In, list_elem_of_filter in Hd as [Hn _]. by destruct Hn.
Qed.

Lemma cleared d :
  clears (mkBody None None (Some "") (Some "") (Some None) None None
    (Some (drop_keys ["pci_vendor_info"; "pci_slot"] d)) None) = true.
Proof. unfold clears. cbn. rewrite !drop_keys_gone by set_solver. done. Qed.

(** [freed log evs dead live net]: [evs], after [log], delete the ports [dead], unbind
    [live], and have Docker leave [net]. *)
Definition freed (log evs : list event) (dead live : list string) (net : list (string * string)) : Prop :=
  Forall (λ e, frees (ev_call e)) evs ∧ along deletes log evs = dead ∧ along unbinds log evs = live ∧
  along disconnects log evs = net.

Lemma freed_app log evs evs' d u n d' u' n' :
  freed log evs d u n → freed (log ++ evs) evs' d' u' n' → freed log (evs ++ evs') (d ++ d') (u ++ u') (n ++ n').
Proof.
  intros (Hf & <- & <- & <-) (Hf' & <- & <- & <-). split; [by apply Forall_app|]. by rewrite !along_app.
Qed.

(** [after m log o evs]: run after [log], [m] ends in [o] having made the calls [evs]. *)
Definition after {A} (m : prog A) (log : list event) (o : outcome fault A) (evs : list event) : Prop :=
  run m log = (o, log ++ evs).

Lemma after_ret {A} (a : A) log : after (Return a) log (Ok a) [].
Proof. unfold after. by rewrite app_nil_r. Qed.
Lemma after_fault {A} e log : after (A:=A) (Fault e) log (Raise e) [].
Proof. unfold after. by rewrite app_nil_r. Qed.

Lemma after_do {A B} (c : call B) (k : outcome fault B → prog A) log o evs :
  let e := mkEvent B c (is_ok (answer c log)) in
  after (k (answer c log)) (log ++ [e]) o evs → after (Do c k) log o (e :: evs).
Proof. unfold after. cbn. intros ->. by rewrite <- app_assoc. Qed.

Lemma after_bind {A B} (m : prog A) (f : A → prog B) log a evs o evs' :
  after m log (Ok a) evs → after (f a) (log ++ evs) o evs' → after (x ← m; f x) log o (evs ++ evs').
Proof.
  unfold after, mbind, prog_bind. intros Hm Hf. by rewrite run_pbind, Hm, Hf, app_assoc.
Qed.

(** Unbinding returns, whatever Neutron says, and deletes nothing. *)
Lemma unbind_after p log :
  ∃ evs, after (_unbind_port p) log (Ok tt) evs ∧ freed log evs [] [p] [].
Proof.
  assert (∀ d l, ∃ evs, after (handle (_ ← ask (UpdatePort p
      (mkBody None None (Some "") (Some "") (Some None) None None
        (Some (drop_keys ["pci_vendor_info"; "pci_slot"] d)) None)); Return tt) (λ _, Some (Return tt))) l (Ok tt) evs ∧
      freed l evs [] [p] []) as Hupdate.
  { intros d l. eexists [mkEvent port (UpdatePort p _) _]. split.
    - apply after_do. by destruct (answer (UpdatePort p _) _); apply after_ret.
    - unfold freed. cbn -[clears]. rewrite cleared. split_and!; try done. by repeat constructor; apply cleared. }
  unfold _unbind_port, mbind, prog_bind, ask. cbn [pbind handle].
  set (e := mkEvent port (GetNeutronPort p) (is_ok (answer (GetNeutronPort p) log))).
  assert (∀ evs, freed log [e] [] [] [] → freed (log ++ [e]) evs [] [p] [] → freed log (e :: evs) [] [p] []) as Hcons.
  { intros evs Hget Hrest. by apply (freed_app log [e] evs [] [] [] [] [p] []). }
  assert (∃ r, answer (GetNeutronPort p) log = r) as [[q|x] Hq] by by eexists.
  - destruct (Hupdate (default [] (pt_profile q)) (log ++ [e])) as (evs & Hrun & Hf). exists (e :: evs). split.
    + refine (after_do (GetNeutronPort p) _ log _ evs _). fold e. by rewrite Hq.
    + apply Hcons; [|done]. unfold freed. cbn. rewrite Hq. by split; [repeat constructor|].
  - destruct (is_zun PortNotFound x) eqn:Hx.
    + exists [e]. split; [refine (after_do (GetNeutronPort p) _ log _ [] _); fold e; rewrite Hq; cbn; rewrite Hx; apply after_ret|].
      unfold freed. cbn. rewrite Hq, Hx. by split; [repeat constructor|].
    + destruct (Hupdate [] (log ++ [e])) as (evs & Hrun & Hf). exists (e :: evs). split.
      * refine (after_do (GetNeutronPort p) _ log _ evs _). fold e. rewrite Hq. cbn. rewrite Hx. exact Hrun.
      * apply Hcons; [|done]. unfold freed. cbn. rewrite Hq, Hx. by split; [repeat constructor|].
Qed.

Context (Hdelete : ∀ p log, answer (DeletePort p) log = Ok tt ∨
  answer (DeletePort p) log = Raise FPortNotFoundClient).

(** Each port is deleted or unbound, once, in their order. *)
Lemma ports_after ports dead log :
  ∃ evs, after (delete_or_unbind_ports ports dead) log (Ok tt) evs ∧
    freed log evs (filter (λ p, p ∈ dead) ports) (filter (λ p, p ∉ dead) ports) [].
Proof.
  revert log. induction ports as [|p ports IH]; intros log; [exists []; by split; [apply after_ret|]|].
  assert (∃ evs, after (handle (if bool_decide (p ∈ dead) then ask (DeletePort p) else _unbind_port p)
      (λ e, match e with FPortNotFoundClient => Some (Return tt) | _ => None end)) log (Ok tt) evs ∧
    freed log evs (filter (λ p, p ∈ dead) [p]) (filter (λ p, p ∉ dead) [p]) []) as (evs & Hp & Hf).
  { destruct (decide (p ∈ dead)) as [Hin|Hin].
    - rewrite bool_decide_true by done. rewrite filter_cons_True, filter_cons_False by naive_solver.
      exists [mkEvent unit (DeletePort p) (is_ok (answer (DeletePort p) log))].
      split; [|by split; [repeat constructor|]].
      apply after_do. destruct (Hdelete p log) as [-> | ->]; apply after_ret.
    - rewrite bool_decide_false by done. rewrite filter_cons_False, filter_cons_True by done.
      destruct (unbind_after p log) as (evs & Ha & Hf). exists evs. split; [|done]. by apply run_handle_ok. }
  destruct (IH (log ++ evs)) as (evs' & Hr & Hf').
  exists (evs ++ evs'). split; [exact (after_bind _ _ _ _ _ _ _ Hp Hr)|].
  change (p :: ports) with ([p] ++ ports). rewrite !filter_app. by apply (freed_app _ _ _ _ _ [] _ _ []).
Qed.

Lemma disconnect_frees container_id addresses net log :
  let here := if String.eqb net "" then [] else default [] (dget addresses net) in
  let dead := ad_port <$> filter (λ a, ad_preserve a = false) here in
  let m := disconnect_container_from_network set_order container_id addresses net in
  let cids := match container_id with Some c => if String.eqb c "" then [] else [c] | None => [] end in
  ∃ evs, run m log = (match cids with c :: _ => answer (DockerDisconnect c net) log | [] => Ok tt end, log ++ evs) ∧
    Forall (λ e, frees (ev_call e)) evs ∧ along disconnects log evs = (λ c, (c, net)) <$> cids ∧
    along deletes log evs ≡ₚ filter (λ p, p ∈ dead) (remove_dups (ad_port <$> here)) ∧
    along unbinds log evs ≡ₚ filter (λ p, p ∉ dead) (remove_dups (ad_port <$> here)).
Proof.
  cbv zeta. unfold disconnect_container_from_network, _disconnect_container_from_network.
  set (here := if String.eqb net "" then [] else default [] (dget addresses net)).
  set (dead := ad_port <$> filter (λ a, ad_preserve a = false) here).
  set (first := match container_id with Some c => if String.eqb c "" then _ else _ | None => _ end).
  set (cids := match container_id with Some c => if String.eqb c "" then [] else [c] | None => [] end).
  assert (∃ evs, run first log = (match cids with c :: _ => answer (DockerDisconnect c net) log | [] => Ok tt end, log ++ evs)
    ∧ freed log evs [] [] ((λ c, (c, net)) <$> cids)) as (evs & Hrun & Hf).
  { unfold first, cids. destruct container_id as [c|]; [|exists []; by rewrite app_nil_r].
    destruct (String.eqb c ""); [exists []; by rewrite app_nil_r|].
    exists [mkEvent unit (DockerDisconnect c net) (is_ok (answer (DockerDisconnect c net) log))].
    split; [|by split; [repeat constructor|]]. cbn. by destruct (answer (DockerDisconnect c net) log) as [[]|e]. }
  rewrite run_finally, Hrun.
  destruct (ports_after (set_order (remove_dups (ad_port <$> here))) (remove_dups dead) (log ++ evs))
    as (evs' & Hrun' & Hf'). rewrite Hrun'.
  destruct (freed_app _ _ _ _ _ _ _ _ _ Hf Hf') as (Hall & Hd & Hu & Hn).
  exists (evs ++ evs'). rewrite app_assoc. split; [done|]. split; [done|]. rewrite Hn, Hd, Hu. cbn.
  split; [by rewrite app_nil_r|].
  assert (∀ p, p ∈ remove_dups dead ↔ p ∈ dead) as Hdup by (intros p; apply elem_of_remove_dups).
  split; (rewrite (Hset (remove_dups (ad_port <$> here))); erewrite list_filter_iff; [reflexivity|intros p; by rewrite Hdup]).
Qed.

(** C23. Disconnecting a container from a network frees its ports there, whether or
    not Docker does its part: Docker is asked once to disconnect the container, if it
    has an id; every port of its addresses on the network is, exactly once, deleted
    when one of its addresses is not to be preserved, and otherwise unbound — an
    update that clears its device, its owner, its host and the PCI keys of its profile
    is sent to Neutron — or found to be gone; no other port is touched; and the
    operation raises exactly what Docker raised.  Neutron may refuse anything but the
    deletion of a port that exists. *)
Theorem disconnect_frees_ports container_id addresses net log :
  let here := if String.eqb net "" then [] else default [] (dget addresses net) in
  let dead := ad_port <$> filter (λ a, ad_preserve a = false) here in
  let m := disconnect_container_from_network set_order container_id addresses net in
  let cids := match container_id with Some c => if String.eqb c "" then [] else [c] | None => [] end in
  ∃ evs, run m log = (match cids with c :: _ => answer (DockerDisconnect c net) log | [] => Ok tt end, log ++ evs) ∧
    Forall (λ e, frees (ev_call e)) evs ∧ along disconnects log evs = (λ c, (c, net)) <$> cids ∧
    along deletes log evs ≡ₚ filter (λ p, p ∈ dead) (remove_dups (ad_port <$> here)) ∧
    along unbinds log evs ≡ₚ filter (λ p, p ∉ dead) (remove_dups (ad_port <$> here)).
Proof. apply disconnect_frees. Qed.
End Disconnect.

(** ** Witness *)

#[local] Definition net_outside : Outside := λ B c _,
  match c in call B return outcome fault B with
  | DockerDisconnect _ _ => Raise (FZun DockerError)
  | DeletePort _ => Raise FPortNotFoundClient
  | GetNeutronPort p => Ok (mkPort p None [] None None unbound)
  | _ => Raise (FPy OtherException)
  end.
#[local] Definition net_addresses : dict string (list addr) :=
  [("n1", [mkAddr "10.0.0.1" 4 "p1" None false; mkAddr "fd::1" 6 "p1" None false;
           mkAddr "10.0.0.2" 4 "p2" None true]); ("n2", [mkAddr "10.1.0.1" 4 "p3" None false])].

Lemma disconnect_frees_ports_witness :
  ∃ evs, run (H:=net_outside) (disconnect_container_from_network (λ l, l) (Some "cid") net_addresses "n1") [] =
    (Raise (FZun DockerError), evs) ∧ along (H:=net_outside) deletes [] evs = ["p1"] ∧
    along (H:=net_outside) unbinds [] evs = ["p2"].
Proof.
  destruct (disconnect_frees_ports (H:=net_outside) (λ l, l) (λ l, reflexivity l) (λ p log, or_intror eq_refl)
    (Some "cid") net_addresses "n1" []) as (evs & Hrun & _ & _ & Hd & Hu).
  exists evs. split; [exact Hrun|]. split; [by apply Permutation_singleton_r in Hd|by apply Permutation_singleton_r in Hu].
Defined.

(** ** Where networks go wrong *)

Section Wrong.
Context `{Outside}.

(** A row the process cannot use — one of another project, that the listing leaves
    out, or one whose Docker id was never saved — is waited for, three times, and
    creating the network fails. *)
Lemma unusable_row_blocks host l name net o log rows ids :
  (∀ log, answer (CreateRow name net host) log = Raise (FNetworkExists true)) →
  (∀ log, answer (ListRows net host) log = Ok rows) →
  (∀ n, head rows = Some n → nr_network_id n = None) →
  (∀ log, answer (DockerNetworks name) log = Ok ids) →
  (∀ n log, answer (Sleep n) log = Ok tt) →
  (run (attempts host l name net o) log).1 = Raise (FZun ZunException).
Proof.
  intros Hrow Hlist Hnone Hids Hsleep. revert log. induction l as [|a l IH]; intros log; [done|].
  cbn [attempts]. unfold mbind, prog_bind. rewrite run_pbind.
  assert (∃ log', run (_create_network_attempt host name net o) log = (Ok None, log')) as [log' ->].
  { unfold _create_network_attempt, mbind, prog_bind, ask. cbn [run]. rewrite Hrow. cbn [pbind run].
    rewrite Hlist. cbn [pbind run]. rewrite Hids. cbn [pbind run].
    destruct rows as [|n rows], ids as [|d ids]; try (by eexists).
    rewrite bool_decide_false; [by eexists|]. rewrite (Hnone n eq_refl). by intros []. }
  cbn [run ask pbind]. rewrite Hsleep. apply IH.
Qed.

(** Only a [DockerError] has the port of a failed connection cleaned up: on an
    [APIError], what Docker's client raises, the new port is kept, and nothing
    records it. *)
Lemma api_error_leaves_port project version uuid cid chost rq groups e p addrs log log' :
  run (create_or_update_port project version uuid chost (rq_network rq) rq DEVICE_OWNER groups false) log =
    (Ok (addrs, p), log') →
  answer (DockerConnect cid (rq_network rq) (of_version 4 addrs) (of_version 6 addrs)) log' = Raise (FApi e) →
  run (connect_container_to_network project version uuid cid chost rq groups) log =
    (Raise (FApi e), log' ++ [mkEvent _ (DockerConnect cid (rq_network rq) (of_version 4 addrs) (of_version 6 addrs)) false]).
Proof.
  intros Hport Hfail. unfold connect_container_to_network, mbind, prog_bind. rewrite run_pbind, Hport.
  unfold ask. cbn [run handle pbind]. rewrite Hfail. done.
Qed.

(** The port of a failed connection that is already gone: the client's
    [PortNotFoundClient] is not the [PortNotFound] the clean-up expects. *)
Lemma cleanup_of_gone_port a l p log :
  ad_preserve a = false → answer (DeletePort (pt_id p)) log = Raise FPortNotFoundClient →
  (run (do_port_cleanup (a :: l) p) log).1 = Raise FPortNotFoundClient.
Proof. intros Ha Hp. unfold do_port_cleanup, ask. rewrite Ha. cbn [handle run]. by rewrite Hp. Qed.

(** The port of a failed connection that has no address is left as it is. *)
Lemma cleanup_without_address p log :
  run (do_port_cleanup [] p) log = (Raise (FPy IndexError), log).
Proof. done. Qed.
End Wrong.
