(* ===== verification/NetworkRace.v ===== *)
(** * Processes that create the same Docker network at once

    Several threads of one host may find that Docker lacks the network of a Neutron
    network and create it; the unique index of the table [network] on the network
    and the host is to let one of them through.  Here any number of processes run
    [create_network], a call of one at a time, against one table and one Docker.
    The table answers as src/zun/db/sqlalchemy/api.py does; Docker finds the networks
    of a name, and a creation that fails has no effect. *)

From Stdlib Require Import Ascii.
From S2P Require Import Prelude Exceptions DockerDriver Effects Network.

Record world : Type := mkWorld {
  w_rows : list netrow;
  w_docker : list (string * string);     (** name, id *)
  w_next : nat                           (** the next uuid of a row *)
}.

(** The rows of a network on a host. *)
Definition same_index (net host : string) (n : netrow) : Prop := nr_neutron n = net ∧ nr_host n = host.
#[export] Instance same_index_dec net host n : Decision (same_index net host n).
Proof. unfold same_index. apply _. Defined.

(** [Connection.create_network], with the unique index; [update_network] of the
    Docker id; [destroy_network] *)
Definition create_row (name net host : string) (w : world) : outcome fault nat * world :=
  match filter (same_index net host) (w_rows w) with
  | [] => (Ok (w_next w), mkWorld (w_rows w ++ [mkNetrow (w_next w) name net host None]) (w_docker w) (S (w_next w)))
  | _ => (Raise (FNetworkExists true), w)
  end.
Definition set_network_id (i : string) (n : netrow) : netrow :=
  mkNetrow (nr_uuid n) (nr_name n) (nr_neutron n) (nr_host n) (Some i).
Definition save_row (u : nat) (i : string) (w : world) : outcome fault unit * world :=
  match filter (λ n, nr_uuid n = u) (w_rows w) with
  | [] => (Raise (FZun NetworkNotFound), w)
  | _ => (Ok tt, mkWorld ((λ n, if decide (nr_uuid n = u) then set_network_id i n else n) <$> w_rows w)
                   (w_docker w) (w_next w))
  end.
Definition destroy_row (u : nat) (w : world) : outcome fault unit * world :=
  match filter (λ n, nr_uuid n = u) (w_rows w) with
  | [] => (Raise (FZun NetworkNotFound), w)
  | _ => (Ok tt, mkWorld (filter (λ n, nr_uuid n ≠ u) (w_rows w)) (w_docker w) (w_next w))
  end.

(** The ids Docker has for a name. *)
Definition ids_of (name : string) (w : world) : list string :=
  snd <$> filter (λ d, d.1 = name) (w_docker w).

(** One call.  A listing leaves out the rows the project may not see. *)
Definition atomic (w : world) {B} (c : call B) : outcome fault B → world → Prop :=
  match c in call B return outcome fault B → world → Prop with
  | CreateRow name net host => λ o w', create_row name net host w = (o, w')
  | SaveRow u i => λ o w', save_row u i w = (o, w')
  | DestroyRow u => λ o w', destroy_row u w = (o, w')
  | ListRows net host => λ o w', w' = w ∧ ∃ l, o = Ok l ∧ l `sublist_of` filter (same_index net host) (w_rows w)
  | DockerNetworks name => λ o w', w' = w ∧ (o = Ok (ids_of name w) ∨ ∃ e, o = Raise e)
  | DockerCreateNetwork name _ _ => λ o w',
      (∃ i, o = Ok i ∧ w' = mkWorld (w_rows w) (w_docker w ++ [(name, i)]) (w_next w)) ∨ (w' = w ∧ ∃ e, o = Raise e)
  | Sleep _ => λ o w', w' = w ∧ o = Ok tt
  | GetNeutronNetwork _ => λ _ w', w' = w
  | ListSubnets _ => λ _ w', w' = w
  | _ => λ _ _, False
  end.

Abbreviation process := (prog netrow).

Abbreviation network_step := (step (call:=call) (λ w B c, @atomic w B c)).

Section Race.
Context (host net : string).

(** ** Where a process is

    [Outside]: it has no row.  [Owner]: it wrote the row [u] and asks Docker.
    [Undoing]: Docker failed, it removes the row.  [Made]: Docker made the network
    [i], it saves the id.  [Seen]: Docker showed the ids [l].  [Has]: the network of
    the result exists. *)
Inductive phase : Type :=
| POutside | POwner (u : nat) | PUndoing (u : nat) | PMade (u : nat) (i : string)
| PSeen (l : list string) | PHas (i : string).

Definition outside (ph : phase) : Prop := ph = POutside ∨ ∃ l, ph = PSeen l.

(** The calls of each phase, and the phases they lead to. *)
Definition call_ok (ph : phase) {B} (c : call B) : (phase → outcome fault B → Prop) → Prop :=
  match c in call B return (phase → outcome fault B → Prop) → Prop with
  | GetNeutronNetwork _ => λ K, outside ph ∧ ∀ o, K POutside o
  | ListSubnets _ => λ K, outside ph ∧ ∀ o, K POutside o
  | Sleep _ => λ K, outside ph ∧ ∀ o, K POutside o
  | ListRows n h => λ K, outside ph ∧ n = net ∧ h = host ∧ ∀ o, K POutside o
  | DockerNetworks n => λ K, outside ph ∧ n = net ∧ (∀ e, K POutside (Raise e)) ∧ ∀ l, K (PSeen l) (Ok l)
  | CreateRow n t h => λ K, outside ph ∧ n = net ∧ t = net ∧ h = host ∧
      (∀ e, K POutside (Raise e)) ∧ ∀ u, K (POwner u) (Ok u)
  | DockerCreateNetwork n _ _ => λ K, n = net ∧ ∃ u, ph = POwner u ∧
      (∀ e, K (PUndoing u) (Raise e)) ∧ ∀ i, K (PMade u i) (Ok i)
  | DestroyRow u => λ K, ph = PUndoing u ∧ ∀ o, K POutside o
  | SaveRow u i => λ K, ph = PMade u i ∧ K (PHas i) (Ok tt) ∧ ∀ e, K POutside (Raise e)
  | _ => λ _, False
  end.

Definition return_ok (ph : phase) (n : netrow) : Prop :=
  ∃ i, nr_network_id n = Some i ∧ (ph = PHas i ∨ ∃ l, ph = PSeen (i :: l)).
Abbreviation in_phase := (in_phase (call:=call) (λ ph B c, @call_ok ph B c) return_ok (λ ph _, outside ph)).

Lemma seen_outside l p : in_phase POutside p → in_phase (PSeen l) p.
Proof.
  assert (outside (PSeen l)) as Hout by (right; by exists l).
  destruct p as [n|e|B c k]; cbn; [by intros (i & _ & [|[]])|done|].
  destruct c; cbn; naive_solver.
Qed.

Lemma outside_outside : outside POutside.
Proof. by left. Qed.
#[local] Hint Resolve outside_outside : core.

Lemma attempts_outside l o : in_phase POutside (attempts host l net net o).
Proof.
  induction l as [|a l IH]; cbn [attempts]; [by left|].
  assert (∀ f : fault, in_phase POutside (Fault f)) as Hfault by by left.
  assert (in_phase POutside (Do (Sleep (2 ^ a - 1))
    (λ x, pbind (match x with Ok b => Return b | Raise e => Fault e end) (λ _, attempts host l net net o)))) as Hagain.
  { split; [done|]. intros [[]|e]; cbn [pbind]; [exact IH|apply Hfault]. }
  unfold _create_network_attempt, on_error, mbind, prog_bind, ask. cbn [pbind]. split_and!; try done.
  - intros e. destruct e as [| | | | | |[|]]; cbn [pbind]; try apply Hfault. split_and!; try done.
    intros [rows|e]; cbn [pbind]; [|apply Hfault]. split_and!; [done|done|intros e; apply Hfault|].
    intros ids. cbn [pbind]. destruct rows as [|n rows], ids as [|d ids]; cbn [pbind];
      try (apply seen_outside, Hagain).
    case_bool_decide as Hn; cbn [pbind]; [|apply seen_outside, Hagain].
    exists d. split; [apply Hn|]. right. by exists ids.
  - intros u. cbn [handle pbind]. split; [done|]. exists u. split_and!; [done|..].
    + intros e. cbn [handle pbind]. split; [done|]. intros [[]|e2]; cbn [pbind]; apply Hfault.
    + intros i. cbn [handle pbind]. split_and!; [done| |intros e; apply Hfault]. cbn [pbind].
      exists i. split; [done|]. by left.
Qed.

Lemma create_network_outside : in_phase POutside (create_network host net).
Proof.
  assert (∀ f : fault, in_phase POutside (Fault f)) as Hfault by by left.
  unfold create_network, mbind, prog_bind, ask. cbn [pbind]. split; [done|].
  intros [shared|e]; cbn [pbind]; [|apply Hfault].
  split; [done|]. intros [subnets|e]; cbn [pbind]; [|apply Hfault].
  assert (∀ v k, (∀ x, in_phase POutside (k x)) → in_phase POutside (pbind (_get_subnet subnets v) k)) as Hsub.
  { intros v k Hk. unfold _get_subnet. destruct (filter _ _) as [|x [|]]; cbn [pbind]; [apply Hk..|apply Hfault]. }
  apply Hsub. intros v4. apply Hsub. intros v6. unfold check.
  destruct (bool_decide _); cbn [pbind]; [apply Hfault|apply attempts_outside].
Qed.

(** ** The invariant *)

Definition mine (w : world) : list netrow := filter (same_index net host) (w_rows w).
Definition dockers (w : world) : list string := ids_of net w.

(** The row a process holds. *)
Definition holds (ph : phase) : option nat :=
  match ph with POwner u | PUndoing u | PMade u _ => Some u | _ => None end.

(** What a process knows of Docker and of its row. *)
Definition sound (w : world) (ph : phase) : Prop :=
  match ph with
  | POutside => True
  | POwner u | PUndoing u => dockers w = [] ∧ nr_uuid <$> mine w = [u]
  | PMade u i => dockers w = [i] ∧ nr_uuid <$> mine w = [u]
  | PSeen l => l = [] ∨ l = dockers w
  | PHas i => dockers w = [i]
  end.

Record invariant (phs : list phase) (w : world) : Prop := mkInvariant {
  inv_one_docker : length (dockers w) ≤ 1;
  inv_one_row : length (mine w) ≤ 1;
  inv_backed : dockers w ≠ [] → mine w ≠ [];
  inv_sound : ∀ j p, phs !! j = Some p → sound w p;
  inv_holder : ∀ i j p q, phs !! i = Some p → phs !! j = Some q → is_Some (holds p) → is_Some (holds q) → i = j
}.

(** A process that goes to a phase of its own, in a world that suits the others. *)
Lemma invariant_insert phs w w' i ph' :
  invariant phs w → length (dockers w') ≤ 1 → length (mine w') ≤ 1 → (dockers w' ≠ [] → mine w' ≠ []) →
  sound w' ph' →
  (∀ j p, j ≠ i → phs !! j = Some p → sound w' p ∧ (is_Some (holds ph') → holds p = None)) →
  invariant (<[i:=ph']> phs) w'.
Proof.
  intros [H1 H2 H3 H4 H5] Hd Hr Hb Hs Hothers. constructor; try done.
  - intros j p [(<- & <- & _)|[? Hj]]%list_lookup_insert_Some; [done|]. by eapply Hothers.
  - intros j1 j2 p q Hp Hq Hhp Hhq.
    apply list_lookup_insert_Some in Hp as [(<- & <- & _)|[? Hp]];
    apply list_lookup_insert_Some in Hq as [(<- & <- & _)|[? Hq]]; [done|..|by eapply H5].
    + edestruct (Hothers j2) as [_ Hnone]; [done..|]. rewrite Hnone in Hhq by done. by destruct Hhq.
    + edestruct (Hothers j1) as [_ Hnone]; [done..|]. rewrite Hnone in Hhp by done. by destruct Hhp.
Qed.

(** The world does not change, and the process takes no row. *)
Lemma invariant_same phs w i ph' : invariant phs w → sound w ph' → holds ph' = None → invariant (<[i:=ph']> phs) w.
Proof.
  intros Hinv Hs Hh. pose proof Hinv as []. eapply invariant_insert; eauto.
  intros j p _ Hp. split; [eauto|]. rewrite Hh. by intros [].
Qed.

(** The one that holds a row is alone to. *)
Lemma holder_alone phs w i j ph p : invariant phs w → phs !! i = Some ph → is_Some (holds ph) →
  j ≠ i → phs !! j = Some p → holds p = None.
Proof.
  intros [_ _ _ _ Hone] Hi Hh Hj Hp. destruct (holds p) eqn:Hhp; [|done].
  destruct Hj. by eapply Hone; eauto.
Qed.

Lemma free_holder phs w j p : invariant phs w → mine w = [] → phs !! j = Some p → holds p = None.
Proof.
  intros Hinv Hmine Hp. pose proof (inv_sound _ _ Hinv _ _ Hp) as Hs.
  destruct p; cbn in *; rewrite ?Hmine in Hs; naive_solver.
Qed.

Lemma create_row_mine w : mine w = [] →
  create_row net net host w = (Ok (w_next w),
    mkWorld (w_rows w ++ [mkNetrow (w_next w) net net host None]) (w_docker w) (S (w_next w))) ∧
  mine (mkWorld (w_rows w ++ [mkNetrow (w_next w) net net host None]) (w_docker w) (S (w_next w)))
    = [mkNetrow (w_next w) net net host None].
Proof.
  unfold mine, create_row. intros Hnone. rewrite Hnone. split; [done|]. cbn [w_rows].
  rewrite filter_app, Hnone. unfold filter at 1. cbn. by rewrite decide_True by done.
Qed.

Lemma mine_has w u : nr_uuid <$> mine w = [u] → ∃ n, mine w = [n] ∧ nr_uuid n = u ∧ n ∈ w_rows w.
Proof.
  unfold mine. intros Hu. destruct (filter (same_index net host) (w_rows w)) as [|n [|]] eqn:Hm; simplify_eq/=.
  exists n. split_and!; [done|done|]. apply (list_elem_of_filter (same_index net host)). rewrite Hm. by left.
Qed.

Lemma destroy_row_mine u w : nr_uuid <$> mine w = [u] →
  ∃ w', destroy_row u w = (Ok tt, w') ∧ mine w' = [] ∧ dockers w' = dockers w.
Proof.
  intros (n & Hm & Hu & Hn)%mine_has. unfold destroy_row.
  destruct (filter (λ n, nr_uuid n = u) (w_rows w)) eqn:Hf.
  { exfalso. assert (n ∈ filter (λ n, nr_uuid n = u) (w_rows w)) as Hin by by apply list_elem_of_filter.
    rewrite Hf in Hin. by apply not_elem_of_nil in Hin. }
  eexists. split_and!; [done| |done]. unfold mine in *. cbn [w_rows].
  rewrite list_filter_filter, (list_filter_iff _ (λ n, nr_uuid n ≠ u ∧ same_index net host n)) by tauto.
  rewrite <- (list_filter_filter (λ n, nr_uuid n ≠ u)), Hm. by rewrite filter_cons_False by tauto.
Qed.

Lemma save_row_mine u i w : nr_uuid <$> mine w = [u] →
  ∃ w', save_row u i w = (Ok tt, w') ∧ nr_uuid <$> mine w' = [u] ∧ dockers w' = dockers w.
Proof.
  intros Hmine. pose proof Hmine as (n & Hm & Hu & Hn)%mine_has. unfold save_row.
  destruct (filter (λ n, nr_uuid n = u) (w_rows w)) eqn:Hf.
  { exfalso. assert (n ∈ filter (λ n, nr_uuid n = u) (w_rows w)) as Hin by by apply list_elem_of_filter.
    rewrite Hf in Hin. by apply not_elem_of_nil in Hin. }
  eexists. split_and!; [done| |done]. rewrite <- Hmine. unfold mine. cbn [w_rows]. clear.
  induction (w_rows w) as [|m rows IH]; [done|]. cbn [fmap list_fmap].
  destruct (decide (nr_uuid m = u)), (decide (same_index net host m)).
  all: first [rewrite !(filter_cons_True (same_index net host)) by done | rewrite !(filter_cons_False (same_index net host)) by done].
  all: cbn [fmap list_fmap]; by rewrite IH.
Qed.
(** Every call leads to a phase its process knows, and keeps the invariant. *)
Lemma call_running phs w i ph B (c : call B) (K : phase → outcome fault B → Prop) o w' :
  invariant phs w → phs !! i = Some ph → call_ok ph c K → atomic w c o w' →
  ∃ ph', K ph' o ∧ invariant (<[i:=ph']> phs) w'.
Proof.
  intros Hinv Hi Hok Hat. pose proof (inv_sound _ _ Hinv _ _ Hi) as Hs.
  assert (∀ w2, dockers w2 = dockers w → length (mine w2) ≤ 1 → (dockers w2 ≠ [] → mine w2 ≠ []) →
    is_Some (holds ph) → ∀ ph', sound w2 ph' → invariant (<[i:=ph']> phs) w2) as Hrows.
  { intros w2 Hd Hl Hb Hh ph' Hs'. eapply invariant_insert; eauto; [rewrite Hd; apply Hinv|].
    intros j p Hj Hp. pose proof (holder_alone _ _ _ _ _ _ Hinv Hi Hh Hj Hp) as Hnone.
    split; [|done]. pose proof (inv_sound _ _ Hinv _ _ Hp) as Hsp.
    destruct p; cbn in *; try done; by rewrite Hd. }
  destruct c; cbn in Hok, Hat; try done.
  - (* DockerNetworks *) destruct Hok as (_ & -> & Hno & Hyes), Hat as [-> [->|[e ->]]].
    + exists (PSeen (ids_of net w)). split; [apply Hyes|]. apply invariant_same; [done|by right|done].
    + exists POutside. split; [apply Hno|]. by apply invariant_same.
  - (* DockerCreateNetwork *) destruct Hok as (-> & u & -> & Hno & Hyes). destruct Hs as [Hd Hm].
    destruct Hat as [(d & -> & ->)|(-> & e & ->)].
    + exists (PMade u d). split; [apply Hyes|].
      assert (dockers (mkWorld (w_rows w) (w_docker w ++ [(net, d)]) (w_next w)) = [d]) as Hd'.
      { revert Hd. unfold dockers, ids_of. cbn [w_docker]. rewrite filter_app, fmap_app. intros ->.
        by rewrite filter_cons_True by done. }
      eapply invariant_insert; [exact Hinv|by rewrite Hd'|apply Hinv|..].
      * intros _. pose proof Hm as (n & Hn & _)%mine_has. unfold mine in *. cbn [w_rows]. by rewrite Hn.
      * split; [apply Hd'|apply Hm].
      * intros j p Hj Hp. assert (holds p = None) as Hnone by by eapply (holder_alone _ _ i j (POwner u)).
        split; [|done]. pose proof (inv_sound _ _ Hinv _ _ Hp) as Hsp.
        destruct p; cbn in *; try done; rewrite Hd in Hsp; [left; naive_solver|done].
    + exists (PUndoing u). split; [apply Hno|]. apply Hrows; try apply Hinv; by cbn.
  - (* GetNeutronNetwork *) destruct Hok as [_ HK]. subst. exists POutside. split; [apply HK|]. by apply invariant_same.
  - (* ListSubnets *) destruct Hok as [_ HK]. subst. exists POutside. split; [apply HK|]. by apply invariant_same.
  - (* CreateRow *) destruct Hok as (_ & -> & -> & -> & Hno & Hyes).
    destruct (mine w) as [|n l] eqn:Hm.
    + destruct (create_row_mine w Hm) as [Hrow Hm']. rewrite Hrow in Hat. simplify_eq/=.
      exists (POwner (w_next w)). split; [apply Hyes|].
      assert (dockers w = []) as Hd.
      { destruct (dockers w) eqn:Hd; [done|]. destruct (inv_backed _ _ Hinv); [by rewrite Hd|done]. }
      eapply invariant_insert; [exact Hinv|apply Hinv|rewrite Hm'; cbn; lia|by rewrite Hm'|..].
      * cbn [sound]. by rewrite Hm'.
      * intros j p _ Hp. pose proof (free_holder _ _ _ _ Hinv Hm Hp) as Hnone. split; [|done].
        pose proof (inv_sound _ _ Hinv _ _ Hp). by destruct p.
    + unfold create_row in Hat. unfold mine in Hm. rewrite Hm in Hat. simplify_eq.
      exists POutside. split; [apply Hno|]. by apply invariant_same.
  - (* ListRows *) destruct Hok as (_ & _ & _ & HK), Hat as [-> _]. exists POutside. split; [apply HK|]. by apply invariant_same.
  - (* SaveRow *) destruct Hok as (-> & Hyes & _), Hs as [Hd Hm].
    destruct (save_row_mine u network_id w Hm) as (w2 & Hrow & Hm2 & Hd2). rewrite Hrow in Hat. simplify_eq.
    exists (PHas network_id). split; [done|]. pose proof Hm2 as (n & Hn & _)%mine_has.
    apply Hrows; [done|by rewrite Hn..|by eexists|]. cbn. by rewrite Hd2.
  - (* DestroyRow *) destruct Hok as (-> & HK), Hs as [Hd Hm].
    destruct (destroy_row_mine u w Hm) as (w2 & Hrow & Hm2 & Hd2). rewrite Hrow in Hat. simplify_eq.
    exists POutside. split; [apply HK|]. apply Hrows; [done|rewrite Hm2; cbn; lia|by rewrite Hd2, Hd|by eexists|done].
  - (* Sleep *) destruct Hok as [_ HK], Hat as [-> ->]. exists POutside. split; [apply HK|]. by apply invariant_same.
Qed.

End Race.

(** C11. However the calls of the processes of a host that create the network of one
    Neutron network interleave, and whichever fail: Docker never has two networks of
    that name, and a process that ends with a network has the one Docker has. *)
Theorem one_docker_network host net procs w procs' w' :
  (∀ p, p ∈ procs → p = create_network host net) →
  length (dockers net w) ≤ 1 → length (mine host net w) ≤ 1 → (dockers net w ≠ [] → mine host net w ≠ []) →
  rtc network_step (procs, w) (procs', w') →
  length (dockers net w') ≤ 1 ∧
  ∀ n, Return n ∈ procs' → ∃ i, nr_network_id n = Some i ∧ dockers net w' = [i].
Proof.
  intros Hprocs Hd Hm Hb Hsteps.
  destruct (steps_running _ _ return_ok (λ ph _, outside ph) _ (call_running host net) _ _ Hsteps) as (phs & Hall & Hinv).
  { exists (replicate (length procs) POutside). split; cbn.
    - apply Forall2_replicate_l, Forall_forall; [done|]. intros p ->%Hprocs. apply create_network_outside.
    - constructor; try done.
      + by intros ?? [-> _]%lookup_replicate.
      + intros ???? [-> _]%lookup_replicate _. by intros []. }
  split; [apply Hinv|]. intros n [i Hi]%list_elem_of_lookup.
  destruct (Forall2_lookup_r _ _ _ _ _ Hall Hi) as (ph & Hph & d & Hn & Hcase). exists d. split; [done|].
  pose proof (inv_sound _ _ _ _ Hinv _ _ Hph) as Hs. pose proof (inv_one_docker _ _ _ _ Hinv) as Hone. cbn in *.
  destruct Hcase as [->|[l ->]]; [done|]. destruct Hs as [|Hs]; [done|]. rewrite <- Hs in Hone |- *. destruct l; cbn in Hone; [done|lia].
Qed.

(** Two processes: the second finds a row without its id, waits, and finds it saved. *)
Definition one_subnet : subnet := mkSubnet "s" 4 "10.0.0.0/24" None.

Definition saved_row : netrow := mkNetrow 0 "n" "n" "h" (Some "d").

Lemma one_docker_network_witness :
  let w := mkWorld [saved_row] [("n", "d")] 1 in
  let procs : list process := [Return saved_row; Return saved_row] in
  rtc network_step ([create_network "h" "n"; create_network "h" "n"], mkWorld [] [] 0) (procs, w) ∧
  length (dockers "n" w) ≤ 1 ∧ ∀ n, Return n ∈ procs → ∃ i, nr_network_id n = Some i ∧ dockers "n" w = [i].
Proof.
  cbn zeta.
  match goal with |- ?steps ∧ _ => assert steps as Hsteps end.
  { call 0 (Ok false : outcome fault bool). call 1 (Ok false : outcome fault bool).
    call 0 (Ok [one_subnet] : outcome fault (list subnet)). call 1 (Ok [one_subnet] : outcome fault (list subnet)).
    call 0 (Ok 0 : outcome fault nat).
    call 1 (Raise (FNetworkExists true) : outcome fault nat).
    call 0 (Ok "d" : outcome fault string).
    call 1 (Ok [mkNetrow 0 "n" "n" "h" None] : outcome fault (list netrow)).
    call 1 (Ok ["d"] : outcome fault (list string)).
    call 1 (Ok tt : outcome fault unit).
    call 1 (Raise (FNetworkExists true) : outcome fault nat).
    call 0 (Ok tt : outcome fault unit).
    call 1 (Ok [saved_row] : outcome fault (list netrow)).
    call 1 (Ok ["d"] : outcome fault (list string)).
    cbn. apply rtc_refl. }
  split; [exact Hsteps|].
  eapply (one_docker_network "h" "n" _ (mkWorld [] [] 0)); [|cbn; lia..|by cbn|exact Hsteps].
  intros q Hq. set_solver.
Defined.
