(* ===== verification/DockerCreate.v ===== *)
(** * The Docker driver: creation, deletion and networks (src/zun/container/docker/driver.py)

    The operations of the driver that work on Docker, Neutron and the volume drivers
    at once: creating a container or a capsule, deleting it, attaching it to a network
    and detaching it.  They run against the calls of [Network], whose log records what
    was asked; the object of the container (the [d_self] of the state) keeps every
    mutation made before a raise. *)

From Stdlib Require Import Ascii.
From S2P Require Import Claims.
From S2P Require Import Prelude Exceptions PyStr Container DockerDriver Effects Network.

(** ['healthcheck']: the keys it has. *)
Record health : Type := mkHealthcheck {
  h_test : option string; h_interval : option Z; h_retries : option Z; h_timeout : option Z
}.

(** A container, with the fields that [Container] leaves out; the field [addresses] of
    [x_base] is not used. *)
Record xcontainer : Type := mkX {
  x_base : container;
  x_command : option (list string);
  x_entrypoint : option (list string);
  x_environment : dict string string;
  x_workdir : option string;
  x_labels : dict string string;
  x_tty : option bool;
  x_hostname : option string;
  x_restart_policy : dict string string;
  x_privileged : option bool;
  x_healthcheck : option health;
  x_exposed_ports : list string;
  x_addresses : dict string (list addr)
}.

Definition x_uuid (c : xcontainer) : string := uuid (x_base c).
Definition on_base (f : container → container) (c : xcontainer) : xcontainer :=
  mkX (f (x_base c)) (x_command c) (x_entrypoint c) (x_environment c) (x_workdir c) (x_labels c) (x_tty c)
    (x_hostname c) (x_restart_policy c) (x_privileged c) (x_healthcheck c) (x_exposed_ports c) (x_addresses c).
Definition set_image_defaults (cmd entry : option (list string)) (c : xcontainer) : xcontainer :=
  mkX (x_base c) cmd entry (x_environment c) (x_workdir c) (x_labels c) (x_tty c)
    (x_hostname c) (x_restart_policy c) (x_privileged c) (x_healthcheck c) (x_exposed_ports c) (x_addresses c).
Definition set_addresses (a : dict string (list addr)) (c : xcontainer) : xcontainer :=
  mkX (x_base c) (x_command c) (x_entrypoint c) (x_environment c) (x_workdir c) (x_labels c) (x_tty c)
    (x_hostname c) (x_restart_policy c) (x_privileged c) (x_healthcheck c) (x_exposed_ports c) a.

(** The container at work, the containers of the capsule it is (initial ones first),
    what was asked. *)
Record dstate : Type := mkD { d_self : xcontainer; d_kids : list xcontainer; d_log : list event }.

(** Which object a mutation is on. *)
Inductive who : Type := Self | Kid (i : nat).

Section Create.
Context `{Outside} (this_host : string) (project : option string) (set_order : list string → list string)
  (ip_version : string → option Z).
(** Whether the version of Docker's API is at least 1.26; [CONF.container_runtime]; the
    digits of a number. *)
Context (runtime_supported : bool) (container_runtime : string) (show_Z : Z → string).
Abbreviation dk := (M fault dstate).

(** A program of [Network] at this point. *)
Definition io {A} (p : prog A) : dk A := λ s,
  let '(o, log) := run p (d_log s) in (o, mkD (d_self s) (d_kids s) log).
Definition call_out {A} (c : call A) : dk A := io (ask c).

Definition nobody : xcontainer :=
  mkX inhabitant None None [] None [] None None [] None None [] [].
Definition object (w : who) (s : dstate) : xcontainer :=
  match w with Self => d_self s | Kid i => nth i (d_kids s) nobody end.
Definition the (w : who) : dk xcontainer := gets (object w).
Definition change (w : who) (f : xcontainer → xcontainer) : dk unit :=
  modify (λ s, match w with
               | Self => mkD (f (d_self s)) (d_kids s) (d_log s)
               | Kid i => mkD (d_self s) (alter f i (d_kids s)) (d_log s)
               end).

Definition fault_of (e : derr) : fault :=
  match e with
  | APIError a => FApi a
  | DockerErr a => FDocker a
  | Exn (Zun c) => FZun c
  | Exn (Py b) => FPy b
  | Exn OutOfFuel => FPy OtherException
  end.

(** [with docker_utils.docker_client()] *)
Definition docker_client {A} (m : dk A) : dk A :=
  try_except m (λ e, match e with FApi a => Some (raise (FDocker a)) | _ => None end).

(** [_populate_container(container, response, force=True)] *)
Definition populate_forced (w : who) (response : docker_container) : dk unit := λ s,
  match _populate_container response true (x_base (object w s)) with
  | (o, b) =>
      let s' := (change w (on_base (λ _, b)) s).2 in
      (match o with Ok _ => Ok tt | Raise e => Raise (fault_of e) end, s')
  end.

(** ** The arguments *)

Definition NAME_PREFIX : string := "zun-".
Definition get_container_name (c : xcontainer) : string := (NAME_PREFIX ++ x_uuid c)%string.
Definition is_capsule (c : xcontainer) : bool := bool_decide (ctype (x_base c) = TYPE_CAPSULE).

Definition _should_limit_memory (c : xcontainer) : bool :=
  bool_decide (is_Some (memory (x_base c))) && negb (is_capsule c).
Definition _should_limit_cpu (c : xcontainer) : bool :=
  bool_decide (is_Some (cpu (x_base c))) && negb (is_capsule c).

(** [int(1024 * cpu)] *)
Definition cpu_shares (q : Qc) : Z := trunc (Q2Qc (QArith_base.inject_Z 1024) * q)%Qc.
Definition mem_limit (m : string) : string := (m ++ "M")%string.

(** The count and the name of the restart policy. *)
Definition restart_policy (d : dict string string) : dk (option (string * Z)) :=
  match d with
  | [] => ret None
  | _ =>
      let! retries := of_option (dget d "MaximumRetryCount") (FPy KeyError) in
      let! count := of_option (int_of 10 retries) (FPy ValueError) in
      let! name := of_option (dget d "Name") (FPy KeyError) in
      ret (Some (name, count))
  end.

Definition nanoseconds (seconds : option Z) : Z := default 0%Z seconds * 10 ^ 9.
Definition health_of (h : health) : health_args :=
  mkHealth (default "" (h_test h)) (nanoseconds (h_interval h)) (default 0%Z (h_retries h)) (nanoseconds (h_timeout h)).

(** [':']-joined repository and tag *)
Definition image_repo (repo tag : string) : string := if str_true tag then (repo ++ ":" ++ tag)%string else repo.

Definition falsy_list (l : option (list string)) : bool := match l with None | Some [] => true | _ => false end.

(** ** Networks, ports and volumes *)

Definition get_security_group_ids (security_groups : list string) : dk (option (list string)) :=
  match security_groups with
  | [] => ret None
  | _ =>
      let! groups := call_out (ListGroups project) in
      let security_group_ids :=
        fst <$> filter (λ g : string * string, g.2 ∈ security_groups ∨ g.1 ∈ security_groups) groups in
      if bool_decide (length security_groups ≤ length security_group_ids) then ret (Some security_group_ids)
      else raise (FZun ZunException)
  end.

Definition _provision_network (requested_networks : list requested) : dk unit :=
  for_each (λ rq, io (get_or_create_network this_host (rq_network rq))) requested_networks.

Definition _get_binds (volumes : list string) : dk (dict string string) :=
  let! l := map_m (λ v, call_out (BindMount v)) volumes in ret (dict_of l).

Definition split_port (p : string) : dk (string * string) :=
  match split "/" p with [port; proto] => ret (port, proto) | _ => raise (FPy ValueError) end.

(** The keys of the dictionaries, merged. *)
Definition merged (l : list string) : list string := dkeys (dict_of ((λ k, (k, tt)) <$> l)).
(** The container whose ports are exposed last: the loop over the containers of a
    capsule rebinds the name of the capsule. *)
Definition exposing (c : xcontainer) (kids : list xcontainer) : who :=
  if is_capsule c then match length kids with O => Self | S n => Kid n end else Self.
Definition exposed_ports_of (c : xcontainer) (kids : list xcontainer) : list string :=
  match ctype (x_base c) with
  | TYPE_CONTAINER => merged (x_exposed_ports c)
  | TYPE_CAPSULE => merged (mjoin (x_exposed_ports <$> kids))
  | _ => []
  end.

Definition _process_exposed_ports : dk (list (string * string)) :=
  let! s := get in
  let container := exposing (d_self s) (d_kids s) in
  match exposed_ports_of (d_self s) (d_kids s) with
  | [] => ret []
  | exposed_ports =>
      let! c := the container in
      let! secgroup_id := call_out (CreateGroup (NAME_PREFIX ++ x_uuid c)%string) in
      io (expose_ports secgroup_id exposed_ports);;;
      change container (on_base (λ b, set_security_groups (security_groups b ++ [secgroup_id]) b));;;
      map_m split_port exposed_ports
  end.

(** The addresses of the container are extended in place, network by network. *)
Definition connect_one (groups : option (list string)) (rq : requested) : dk unit :=
  let! c := the Self in
  if dhas (x_addresses c) (rq_network rq) then ret tt
  else
    let! addrs := io (connect_container_to_network project ip_version (x_uuid c) (default "" (container_id (x_base c)))
                        (host (x_base c)) rq groups) in
    change Self (λ c, set_addresses (dset (x_addresses c) (rq_network rq) addrs) c).

Definition _setup_network_for_container (requested_networks : list requested) : dk unit :=
  let! c := the Self in
  let! security_group_ids := get_security_group_ids (security_groups (x_base c)) in
  for_each (connect_one security_group_ids) requested_networks.

(** ** Creation *)

Definition split_last {A} (l : list A) : option (list A * A) :=
  match rev l with [] => None | x :: l' => Some (rev l', x) end.

Definition the_runtime (c : xcontainer) : dk (option string) :=
  if runtime_supported then ret (Some (if ostr_true (runtime (x_base c)) then default "" (runtime (x_base c)) else container_runtime))
  else if ostr_true (runtime (x_base c)) then raise (FZun ZunException) else ret None.

Definition limits (c : xcontainer) : option string * option Z :=
  (if _should_limit_memory c then mem_limit <$> memory (x_base c) else None,
   if _should_limit_cpu c then cpu_shares <$> cpu (x_base c) else None).

Definition storage_size (c : xcontainer) : option string :=
  match disk (x_base c) with
  | Some 0%Z | None => None
  | Some d => Some (show_Z d ++ "G")%string
  end.

Definition auto_remove_of (c : xcontainer) : option bool :=
  if bool_decide (auto_remove (x_base c) = Some true) then Some true else None.

(** The sets of a dedicated container; [container.cpuset] may be null. *)
Definition cpusets (c : xcontainer) : dk (option (option (gset Z)) * option (option (gset Z))) :=
  if bool_decide (cpu_policy (x_base c) = Some "dedicated") then
    let! s := of_option (cpuset (x_base c)) (FPy AttributeError) in
    let! cpus := of_option (cpuset_cpus s) (FPy NotImplementedError) in
    let! mems := of_option (cpuset_mems s) (FPy NotImplementedError) in
    ret (Some cpus, Some mems)
  else ret (None, None).

(** The command and the entry point, from the image where the container has none. *)
Definition resolve_command (image : string) : dk unit :=
  let! c := the Self in
  if falsy_list (x_entrypoint c) || falsy_list (x_command c) then
    let! '(entry, cmd) := call_out (DockerInspectImage image) in
    change Self (set_image_defaults (if falsy_list (x_command c) then cmd else x_command c)
                   (if falsy_list (x_entrypoint c) then entry else x_entrypoint c))
  else ret tt.

Definition create (repo tag : string) (requested_networks : list requested) (volumes : list string) : dk unit :=
  docker_client (
    let image := image_repo repo tag in
    _provision_network requested_networks;;;
    let! binds := _get_binds volumes in
    resolve_command image;;;
    let! c0 := the Self in
    let! runtime := the_runtime c0 in
    let! ports := _process_exposed_ports in
    let! '(others, requested_network) := of_option (split_last requested_networks) (FPy IndexError) in
    let! c := the Self in
    let! security_group_ids := get_security_group_ids (security_groups (x_base c)) in
    let! '(addresses, (network, v4, v6, mac)) :=
      io (process_networking_config project ip_version (x_uuid c) (host (x_base c)) requested_network security_group_ids) in
    change Self (set_addresses [(network, addresses)]);;;
    let! c := the Self in
    let '(mem, shares) := limits c in
    let! restart := restart_policy (x_restart_policy c) in
    let! '(cpus, mems) := cpusets c in
    let args := mkCreateArgs (get_container_name c) (x_command c) (x_environment c) (x_workdir c) (x_labels c)
      (x_tty c) (interactive (x_base c)) (x_hostname c) (x_entrypoint c) (dvalues binds) ports
      (Some (network, v4, v6)) mac (health_of <$> x_healthcheck c)
      (mkHostConfig (x_privileged c) runtime binds (Some network) None (auto_remove_of c) mem shares restart
         (storage_size c) cpus mems) in
    let! cid := call_out (DockerCreateContainer image args) in
    change Self (on_base (set_container_id (Some cid)));;;
    _setup_network_for_container others;;;
    let! response := call_out (DockerInspect cid) in
    populate_forced Self response;;;
    call_out (SaveContainer (x_uuid c))).

(** ** Deletion *)

(** [wrap_docker_error] on a method whose first two arguments are the container and the
    network driver: it looks for the status of the driver. *)
Definition wrap_shifted {A} (m : dk A) : dk A :=
  try_except m (λ e, match e with
                     | FDocker a => Some (if is_not_found a then raise (FPy AttributeError)
                                          else if is_conflict a then raise (FZun Conflict) else raise e)
                     | _ => None
                     end).

Definition _cleanup_network_for_container (w : who) : dk unit :=
  wrap_shifted (
    let! c := the w in
    for_each (λ net, io (disconnect_container_from_network set_order (container_id (x_base c)) (x_addresses c) net))
      (dkeys (x_addresses c))).

Definition is_client (e : fault) : bool := match e with FClient _ | FPortNotFoundClient => true | _ => false end.

Definition _cleanup_exposed_ports : dk unit :=
  let! s := get in
  match exposed_ports_of (d_self s) (d_kids s) with
  | [] => ret tt
  | _ =>
      let! c := the (exposing (d_self s) (d_kids s)) in
      try_except (let! g := of_option (head (security_groups (x_base c))) (FPy IndexError) in
                  call_out (DeleteGroup g))
        (λ e, if is_client e then Some (ret tt) else None)
  end.

(** An error of Docker that means the work is done already. *)
Definition already_done (e : fault) : option (dk unit) :=
  match e with FApi a => Some (if is_not_found a || is_not_connected a then ret tt else raise e) | _ => None end.

Definition delete (force : bool) : dk unit :=
  docker_client (
    try_except (
      _cleanup_network_for_container Self;;;
      _cleanup_exposed_ports;;;
      let! c := the Self in
      match container_id (x_base c) with
      | Some cid => if str_true cid then call_out (DockerRemove cid force) else ret tt
      | None => ret tt
      end) already_done).

Definition _delete_container_in_capsule (i : nat) (force : bool) : dk unit :=
  let! c := the (Kid i) in
  match container_id (x_base c) with
  | Some cid =>
      if str_true cid then
        docker_client (try_except (call_out (DockerStop cid);;; call_out (DockerRemove cid force)) already_done)
      else ret tt
  | None => ret tt
  end.

(** The containers first, the initial ones last; any error of Docker at stopping the
    capsule is dropped.  A capsule without an id makes Docker's client refuse. *)
Definition delete_capsule (n_init : nat) (force : bool) : dk unit :=
  let! s := get in
  let ids := seq 0 (length (d_kids s)) in
  for_each (λ i, _delete_container_in_capsule i force) (drop n_init ids ++ take n_init ids);;;
  docker_client (
    try_except (let! c := the Self in
                let! cid := of_option (container_id (x_base c)) (FPy OtherException) in
                call_out (DockerStop cid))
      (λ e, match e with FApi _ => Some (ret tt) | _ => None end));;;
  delete force.

(** ** Networks of a running container *)

Definition handle_not_found : dk unit :=
  let! c := the Self in
  if bool_decide (status (x_base c) = Some DELETING) then ret tt else
  change Self (on_base (set_status (Some (if bool_decide (auto_remove (x_base c) = Some true) then DELETED else ERROR))));;;
  call_out (SaveContainer (x_uuid c));;;
  raise (FZun Conflict).

Definition wrap_docker_error {A} (m : dk A) : dk A :=
  try_except m (λ e, match e with
                     | FDocker a => Some ((if is_not_found a then handle_not_found else ret tt);;;
                                          if is_conflict a then raise (FZun Conflict) else raise e)
                     | _ => None
                     end).

Definition network_detach (network : string) : dk unit :=
  wrap_docker_error (docker_client (
    let! c := the Self in
    io (disconnect_container_from_network set_order (container_id (x_base c)) (x_addresses c) network);;;
    raise_if (negb (dhas (x_addresses c) network)) (FPy KeyError);;;
    change Self (λ c, set_addresses (ddel (x_addresses c) network) c);;;
    call_out (SaveContainer (x_uuid c)))).

Definition network_attach (requested_network : requested) : dk unit :=
  docker_client (
    let! c := the Self in
    let! security_group_ids := get_security_group_ids (security_groups (x_base c)) in
    let network := rq_network requested_network in
    raise_if (dhas (x_addresses c) network) (FZun ZunException);;;
    io (get_or_create_network this_host network);;;
    let! addrs := io (connect_container_to_network project ip_version (x_uuid c) (default "" (container_id (x_base c)))
                        (host (x_base c)) requested_network security_group_ids) in
    change Self (λ c, set_addresses (dset (x_addresses c) network addrs) c);;;
    call_out (SaveContainer (x_uuid c))).

Definition add_security_group (g : string) : dk unit :=
  docker_client (let! c := the Self in io (add_security_groups_to_ports project (x_addresses c) [g])).
Definition remove_security_group (g : string) : dk unit :=
  docker_client (let! c := the Self in io (remove_security_groups_from_ports project (x_addresses c) [g])).
Definition docker_create_network (net : string) : dk netrow := docker_client (io (create_network this_host net)).
Definition delete_network (n : netrow) : dk unit := docker_client (io (remove_network n)).
End Create.

(** ** The networks of a new container *)

(** A container created on a network ([true]), or connected to one ([false]). *)
Definition joins (e : event) : option (bool * string) :=
  if ev_ok e then
    match ev_call e with
    | DockerCreateContainer _ kw => (λ n, (true, n.1.1)) <$> ca_network kw
    | DockerConnect _ n _ _ => Some (false, n)
    | _ => None
    end
  else None.
Definition quiet {B} (c : call B) : Prop :=
  match c with DockerCreateContainer _ _ | DockerConnect _ _ _ _ => False | _ => True end.

(** Nothing is asked of the ports, nor of the networks of a container. *)
Definition unasked {B} (c : call B) : Prop :=
  match c with
  | DockerCreateContainer _ _ | DockerConnect _ _ _ _ | CreatePort _ | UpdatePort _ _ | DeletePort _ => False
  | _ => True
  end.

Lemma quiet_joins evs : Forall (λ e, quiet (ev_call e)) evs → omap joins evs = [].
Proof.
  induction 1 as [|[B c ok] evs Hq _ IH]; [done|]. cbn. replace (joins _) with (@None (bool * string)); [done|].
  unfold joins. cbn in *. destruct ok; [|done]. by destruct c.
Qed.

(** The names of a list that are new after [ks], each once. *)
Fixpoint fresh (ks ns : list string) : list string :=
  match ns with
  | [] => []
  | n :: ns' => if bool_decide (n ∈ ks) then fresh ks ns' else n :: fresh (ks ++ [n]) ns'
  end.

Lemma fresh_nodup ns : ∀ ks, NoDup ks → NoDup (ks ++ fresh ks ns).
Proof.
  induction ns as [|n ns IH]; intros ks Hks; cbn [fresh]; [by rewrite app_nil_r|].
  case_bool_decide as Hn; [by apply IH|]. change (n :: fresh (ks ++ [n]) ns) with ([n] ++ fresh (ks ++ [n]) ns).
  rewrite app_assoc. apply IH, NoDup_app. split_and!; [done| |by apply NoDup_singleton].
  by intros x Hx ->%list_elem_of_singleton.
Qed.

Lemma elem_of_fresh ns n : ∀ ks, n ∈ ks ++ fresh ks ns ↔ n ∈ ks ∨ n ∈ ns.
Proof.
  induction ns as [|m ns IH]; intros ks; cbn [fresh]; [rewrite app_nil_r; set_solver|].
  case_bool_decide as Hn.
  - rewrite IH, elem_of_cons. naive_solver.
  - change (m :: fresh (ks ++ [m]) ns) with ([m] ++ fresh (ks ++ [m]) ns). rewrite app_assoc, IH. set_solver.
Qed.

Section Networks.
Context `{Outside} (this_host : string) (project : option string) (set_order : list string → list string)
  (ip_version : string → option Z) (runtime_supported : bool) (container_runtime : string) (show_Z : Z → string).

Definition at_ (js : list (bool * string)) (ks : list string) (s : dstate) : Prop :=
  omap joins (d_log s) = js ∧ dkeys (x_addresses (d_self s)) = ks.
Definition undisturbed (s s' : dstate) : Prop :=
  omap joins (d_log s') = omap joins (d_log s) ∧ x_addresses (d_self s') = x_addresses (d_self s).
#[local] Instance undisturbed_preorder : PreOrder undisturbed.
Proof. split; [done|]. unfold undisturbed. intros ??? [] []. split; congruence. Qed.

Lemma io_undisturbed {A} (m : prog A) : calls_in (λ B c, @quiet B c) m → keeps undisturbed (io m).
Proof.
  intros Hm s o s'. unfold io. destruct (run_calls _ m (d_log s) Hm) as (evs & Hlog & Hevs).
  destruct (run m (d_log s)) as [o1 log]. cbn in Hlog. subst. intros [= <- <-]. split; [|done].
  cbn [d_log]. by rewrite omap_app, (quiet_joins _ Hevs), app_nil_r.
Qed.

Lemma call_undisturbed {A} (c : call A) : quiet c → keeps undisturbed (call_out c).
Proof. intros Hc. by apply io_undisturbed, calls_ask. Qed.

Lemma undisturbed_at {A} (m : M fault dstate A) js ks :
  keeps undisturbed m → hoare (at_ js ks) m (λ _, at_ js ks) (λ _ _, True).
Proof.
  intros Hm s [Hj Hk]. destruct (m s) as [[a|e] s'] eqn:Hs; [|done]. apply Hm in Hs as [Hj' Hk'].
  split; congruence.
Qed.

Lemma the_undisturbed w : keeps undisturbed (the w).
Proof. apply keeps_gets, _. Qed.
#[local] Hint Resolve the_undisturbed : py.

Lemma change_undisturbed w f : (∀ c, x_addresses (f c) = x_addresses c) → keeps undisturbed (change w f).
Proof. intros Hf. apply keeps_modify. intros s. unfold undisturbed. destruct w; cbn; [by rewrite Hf|done]. Qed.

Lemma addresses_calls P preserve p : calls_in P (addresses_of ip_version preserve p).
Proof.
  unfold addresses_of. induction (pt_fixed_ips p) as [|[ip sn] l IH]; [done|].
  cbn. destruct (ip_version ip); [|done]. apply calls_pbind; [exact IH|done].
Qed.

Lemma port_calls u h n rq o g b : calls_in (λ B c, @quiet B c) (create_or_update_port project ip_version u h n rq o g b).
Proof. unfold create_or_update_port, mbind, prog_bind. calls; first [apply addresses_calls|done]. Qed.

Lemma attempts_calls l n o : calls_in (λ B c, @unasked B c) (attempts this_host l n n o).
Proof.
  induction l as [|a l IH]; [done|]. cbn [attempts]. unfold mbind, prog_bind.
  unfold _create_network_attempt, on_error, mbind, prog_bind. calls; first [exact IH|done].
Qed.

Lemma network_unasked net : calls_in (λ B c, @unasked B c) (get_or_create_network this_host net).
Proof.
  unfold get_or_create_network, create_network, mbind, prog_bind, _get_subnet, Effects.check.
  calls; first [apply attempts_calls|done].
Qed.

Lemma network_calls net : calls_in (λ B c, @quiet B c) (get_or_create_network this_host net).
Proof. eapply calls_impl; [|apply network_unasked]. by intros B []. Qed.

Lemma expose_calls g ports : calls_in (λ B c, @quiet B c) (expose_ports g ports).
Proof. unfold expose_ports, mbind, prog_bind. calls. Qed.

Lemma populate_undisturbed w r : keeps undisturbed (populate_forced w r).
Proof.
  intros s o s'. unfold populate_forced. destruct (_populate_container r true _) as [o1 b]. intros [= _ <-].
  by eapply (change_undisturbed w (on_base (λ _, b)) ltac:(done)).
Qed.

Lemma groups_undisturbed l : keeps undisturbed (get_security_group_ids project l).
Proof. unfold get_security_group_ids. destruct l; look. by apply call_undisturbed. Qed.

Lemma client_at {A} (m : M fault dstate A) P Q :
  hoare P m Q (λ _ _, True) → hoare P (docker_client m) Q (λ _ _, True).
Proof.
  intros Hm s HP. specialize (Hm s HP). unfold docker_client, try_except.
  destruct (m s) as [[a|e] s']; [done|]. by destruct e.
Qed.

(** A quiet part, then the rest. *)
Lemma then_at {A B} (m : M fault dstate A) (f : A → M fault dstate B) js ks Q :
  keeps undisturbed m → (∀ a, hoare (at_ js ks) (f a) Q (λ _ _, True)) →
  hoare (at_ js ks) (bind m f) Q (λ _ _, True).
Proof. intros Hm Hf. eapply (hoare_bind _ _ _ (λ _, at_ js ks)); [by apply undisturbed_at|done]. Qed.

Lemma connect_at g rq js ks :
  hoare (at_ js ks) (connect_one project ip_version g rq)
    (λ _, at_ (js ++ ((false,.) <$> fresh ks [rq_network rq])) (ks ++ fresh ks [rq_network rq])) (λ _ _, True).
Proof.
  intros s [Hj Hk]. unfold connect_one, the. rewrite bind_gets. unfold object, dhas.
  destruct (dget (x_addresses (d_self s)) (rq_network rq)) as [v|] eqn:Hget.
  - cbn. rewrite bool_decide_true by (rewrite <- Hk; apply dget_Some_keys; eauto). cbn. by rewrite !app_nil_r.
  - assert (rq_network rq ∉ ks) as Hn by by rewrite <- Hk; apply dget_None_keys.
    cbn [fresh]. rewrite bool_decide_false by done. unfold bind, io, connect_container_to_network, mbind, prog_bind.
    rewrite run_pbind.
    match goal with |- context [run (create_or_update_port ?a ?b ?c ?d ?e ?f ?g ?h ?i) _] =>
      destruct (run_calls _ _ (d_log s) (port_calls c d e f g h i)) as (evs & Hlog & Hevs) end.
    destruct (run _ (d_log s)) as [[[addrs p]|e] log]; cbn in Hlog; subst log; [|done].
    unfold ask. cbn [run handle pbind]. destruct (answer _ _) as [[]|e]; cbn [run handle pbind is_ok].
    + split; cbn [d_log d_self change modify].
      * rewrite !omap_app, (quiet_joins _ Hevs), app_nil_r. cbn. by rewrite Hj.
      * change (dkeys (dset (x_addresses (d_self s)) (rq_network rq) addrs) = ks ++ [rq_network rq]).
        by rewrite dkeys_dset_None; rewrite Hk.
    + destruct (is_zun DockerError e); cbn [run pbind handle]; [|done].
      rewrite !run_pbind. by destruct (run (do_port_cleanup addrs p) _) as [[[]|e2] l2].
Qed.

Lemma connect_all_at g rqs : ∀ js ks,
  hoare (at_ js ks) (for_each (connect_one project ip_version g) rqs)
    (λ _, at_ (js ++ ((false,.) <$> fresh ks (rq_network <$> rqs))) (ks ++ fresh ks (rq_network <$> rqs))) (λ _ _, True).
Proof.
  induction rqs as [|rq rqs IH]; intros js ks; [by intros s Hs; cbn; rewrite !app_nil_r|].
  cbn [for_each]. eapply (hoare_bind _ _ _ (λ _, at_ _ _)); [apply connect_at|intros _].
  eapply hoare_conseq; [apply IH|done| |done]. intros [] s. cbn [fresh fmap list_fmap].
  case_bool_decide as Hn; cbn [fresh fmap list_fmap app]; [by rewrite !app_nil_r|].
  by rewrite <- !app_assoc.
Qed.

(** The container is created on its network, with its address there. *)
Lemma config_at u h rq g js ks :
  hoare (at_ js ks) (io (process_networking_config project ip_version u h rq g))
    (λ r s, r.2.1.1.1 = rq_network rq ∧ at_ js ks s) (λ _ _, True).
Proof.
  intros s [Hj Hk]. unfold io, process_networking_config, mbind, prog_bind. rewrite run_pbind.
  destruct (run_calls _ _ (d_log s) (port_calls u h (rq_network rq) rq DEVICE_OWNER g true)) as (evs & Hlog & Hevs).
  destruct (run _ (d_log s)) as [[[addrs p]|e] log]; cbn in Hlog; subst log; [|done].
  split; [done|]. split; [|done]. cbn [d_log]. by rewrite omap_app, (quiet_joins _ Hevs), app_nil_r.
Qed.

Lemma created_at image kw n v4 v6 js ks :
  ca_network kw = Some (n, v4, v6) →
  hoare (at_ js ks) (call_out (DockerCreateContainer image kw)) (λ _, at_ (js ++ [(true, n)]) ks) (λ _ _, True).
Proof.
  intros Hkw s [Hj Hk]. unfold call_out, io, ask. cbn [run]. destruct (answer _ _) as [cid|e]; cbn [run]; [|done].
  split; [|done]. cbn [d_log is_ok]. rewrite omap_app, Hj. unfold joins at 1. cbn. by rewrite Hkw.
Qed.

Lemma split_port_undisturbed p : keeps undisturbed (split_port p).
Proof. unfold split_port. look. Qed.
#[local] Hint Resolve split_port_undisturbed : py.

Lemma ports_undisturbed : keeps undisturbed (_process_exposed_ports).
Proof.
  unfold _process_exposed_ports.
  look; [by apply call_undisturbed|apply io_undisturbed, expose_calls|by apply change_undisturbed].
Qed.
#[local] Hint Resolve ports_undisturbed groups_undisturbed populate_undisturbed : py.

Lemma create_at repo tag rqs vols js ks :
  hoare (at_ js ks) (create this_host project ip_version runtime_supported container_runtime show_Z repo tag rqs vols)
    (λ _ s, ∃ others last, split_last rqs = Some (others, last) ∧
       let rest := fresh [rq_network last] (rq_network <$> others) in
       at_ (js ++ (true, rq_network last) :: ((false,.) <$> rest)) (rq_network last :: rest) s) (λ _ _, True).
Proof.
  apply client_at. cbv zeta.
  apply then_at; [unfold _provision_network; look; apply io_undisturbed, network_calls|intros _].
  apply then_at; [unfold _get_binds; look; by apply call_undisturbed|intros binds].
  apply then_at; [unfold resolve_command; look; [by apply call_undisturbed|by apply change_undisturbed]|intros _].
  apply then_at; [look|intros c0]. apply then_at; [unfold the_runtime; look|intros runtime].
  apply then_at; [look|intros ports].
  destruct (split_last rqs) as [[others last]|] eqn:Hlast; [|by intros s _].
  cbn [of_option]. intros s Hs. rewrite bind_ret. revert s Hs. cbv beta iota.
  apply then_at; [look|intros c]. apply then_at; [look|intros groups].
  eapply (hoare_bind _ _ _ (λ r s, r.2.1.1.1 = rq_network last ∧ at_ js ks s)); [apply config_at|].
  intros [addresses [[[network v4] v6] mac]]. cbn [fst snd].
  eapply (hoare_bind _ _ _ (λ _ s, network = rq_network last ∧ at_ js [network] s)).
  { by intros s (? & Hj & Hk). }
  intros _. intros s [-> Hs]. revert s Hs.
  apply then_at; [look|intros c1]. destruct (limits c1) as [mem shares].
  apply then_at; [unfold restart_policy; look|intros restart].
  apply then_at; [unfold cpusets; look|intros [cpus mems]].
  eapply (hoare_bind _ _ _ (λ _, at_ (js ++ [(true, rq_network last)]) [rq_network last])); [by eapply created_at|intros cid].
  apply then_at; [by apply change_undisturbed|intros _]. unfold _setup_network_for_container.
  set (rest := fresh [rq_network last] (rq_network <$> others)).
  eapply (hoare_bind _ _ _ (λ _, at_ ((js ++ [(true, rq_network last)]) ++ ((false,.) <$> rest)) (rq_network last :: rest))).
  { apply then_at; [look|intros c2]. apply then_at; [look|intros g2]. apply connect_all_at. }
  intros _. apply then_at; [by apply call_undisturbed|intros response]. apply then_at; [look|intros _].
  eapply hoare_conseq; [apply undisturbed_at, call_undisturbed|done| |done]; [done|].
  intros [] s Hs. exists others, last. split; [done|]. by rewrite <- app_assoc in Hs.
Qed.

Lemma split_last_Some {A} (l others : list A) last : split_last l = Some (others, last) → l = others ++ [last].
Proof.
  unfold split_last. destruct (rev l) eqn:Hrev; [done|]. intros [= <- <-].
  rewrite <- (rev_involutive l), Hrev. done.
Qed.

(** The network a container is created on is the last one of the request, where the
    comment in the code says the first. *)
Lemma created_on_last repo tag rqs vols s s' :
  create this_host project ip_version runtime_supported container_runtime show_Z repo tag rqs vols s = (Ok tt, s') →
  ∃ others last, rqs = others ++ [last] ∧
    let rest := fresh [rq_network last] (rq_network <$> others) in
    omap joins (d_log s') = omap joins (d_log s) ++ (true, rq_network last) :: ((false,.) <$> rest) ∧
    dkeys (x_addresses (d_self s')) = rq_network last :: rest.
Proof.
  intros Hrun. pose proof (create_at repo tag rqs vols _ _ s (conj eq_refl eq_refl)) as Hat. rewrite Hrun in Hat.
  destruct Hat as (others & last & Hlast & Hj & Hk). exists others, last. split; [by apply split_last_Some|done].
Qed.


(** ** Attaching to a network and back *)

Lemma addresses_of_port preserve p log addrs log' :
  run (addresses_of ip_version preserve p) log = (Ok addrs, log') →
  log' = log ∧ ∀ a, a ∈ addrs → ad_port a = pt_id p ∧ ad_preserve a = preserve.
Proof.
  unfold addresses_of. revert addrs. induction (pt_fixed_ips p) as [|[ip sn] l IH]; intros addrs; cbn.
  { intros [= <- <-]. split; [done|]. by intros a ?%not_elem_of_nil. }
  destruct (ip_version ip) as [v|]; [|done]. unfold mbind, prog_bind. rewrite run_pbind.
  destruct (run _ log) as [[rest|e] log1]; [|done]. cbn. intros [= <- <-].
  destruct (IH rest eq_refl) as [-> Hrest]. split; [done|]. intros a Ha. apply elem_of_cons in Ha as [->|Ha]; [by split|auto].
Qed.

(** What is asked of Neutron for a container: a new port on a network, or a port that
    exists; and what it answers. *)
Definition given B (c : call B) : outcome fault B → option ((option string + string) * port) :=
  match c in call B return outcome fault B → option ((option string + string) * port) with
  | CreatePort b => λ o, match o with Ok p => Some (inl (pb_network b), p) | Raise _ => None end
  | UpdatePort q _ => λ o, match o with Ok p => Some (inr q, p) | Raise _ => None end
  | _ => λ _, None
  end.
Definition wanted (rq : requested) : option string + string :=
  if String.eqb (rq_port rq) "" then inl (Some (rq_network rq)) else inr (rq_port rq).
(** The network that Docker is asked to connect a container to. *)
Definition connects B (c : call B) (_ : outcome fault B) : option (string * string) :=
  match c with DockerConnect cid net _ _ => Some (cid, net) | _ => None end.

(** [made log evs ps nets]: [evs], after [log], are given the ports [ps] and connect to
    [nets]; they delete no port. *)
Definition made (log evs : list event) (ps : list ((option string + string) * port)) (nets : list (string * string)) : Prop :=
  along given log evs = ps ∧ along connects log evs = nets ∧ along deletes log evs = [].

Lemma made_app log evs evs' ps nets ps' nets' :
  made log evs ps nets → made (log ++ evs) evs' ps' nets' → made log (evs ++ evs') (ps ++ ps') (nets ++ nets').
Proof. intros (<- & <- & Hd) (<- & <- & Hd'). unfold made. by rewrite !along_app, Hd, Hd'. Qed.

Lemma unasked_made log evs : Forall (λ e, unasked (ev_call e)) evs → made log evs [] [].
Proof.
  intros Hevs. revert log. induction Hevs as [|[B c ok] evs Hc _ IH]; intros log; [done|].
  apply (made_app log [mkEvent B c ok] evs [] [] [] []); [|apply IH]. cbn in Hc. by destruct c.
Qed.

Lemma unasked_run {A} (m : prog A) log : calls_in (λ B c, @unasked B c) m →
  ∃ evs, (run m log).2 = log ++ evs ∧ made log evs [] [].
Proof. intros (evs & Hlog & Hevs)%(run_calls _ m log). exists evs. split; [done|by apply unasked_made]. Qed.

(** A connection that succeeds asked for one port and connected the container to one
    network; the addresses are those of the port, kept or not as asked. *)
Lemma connected_addresses u cid h rq g log addrs log' :
  run (connect_container_to_network project ip_version u cid h rq g) log = (Ok addrs, log') →
  ∃ evs p, log' = log ++ evs ∧ made log evs [(wanted rq, p)] [(cid, rq_network rq)] ∧
    ∀ a, a ∈ addrs → ad_port a = pt_id p ∧ ad_preserve a = rq_preserve rq.
Proof.
  unfold connect_container_to_network, create_or_update_port, mbind, prog_bind. rewrite !run_pbind.
  match goal with |- context [run (if ?b then ?x else ?y) log] => set (asking := if b then x else y) end.
  assert (∃ evs, match run asking log with
    | (Ok p, log1) => log1 = log ++ evs ∧ made log evs [(wanted rq, p)] []
    | _ => True
    end) as [evs Hport].
  { subst asking. unfold wanted. destruct (String.eqb (rq_port rq) ""); unfold ask; cbn [run];
      match goal with |- context [answer ?c log] => exists [mkEvent port c true]; destruct (answer c log) eqn:Ha end;
      cbn; try done; (split; [done|]); unfold made; cbn; by rewrite Ha. }
  destruct (run asking log) as [[p|e] log1]; [|done].
  destruct Hport as [-> Hport].
  rewrite run_pbind. destruct (run (addresses_of _ _ p) _) as [[l|e] log2] eqn:Ha; [|done].
  apply addresses_of_port in Ha as [-> Ha]. cbn [run pbind]. rewrite run_pbind. unfold ask. cbn [run handle].
  set (c := DockerConnect _ _ _ _).
  destruct (answer c (log ++ evs)) as [[]|e]; cbn [run pbind handle is_ok].
  - intros [= <- <-]. exists (evs ++ [mkEvent unit c true]), p. split; [by rewrite app_assoc|]. split; [|exact Ha].
    by apply (made_app _ _ _ [(wanted rq, p)] [] [] [(cid, rq_network rq)]).
  - destruct (is_zun DockerError e); [|done]. cbn. rewrite run_pbind. cbn.
    by destruct (run (do_port_cleanup _ _) _) as [[[]|e2] l2].
Qed.

Lemma one_port p preserve (addrs : list addr) :
  (∀ a, a ∈ addrs → ad_port a = p ∧ ad_preserve a = preserve) →
  let dead := ad_port <$> filter (λ a, ad_preserve a = false) addrs in
  remove_dups (ad_port <$> addrs) = (match addrs with [] => [] | _ => [p] end) ∧
  filter (λ q, q ∈ dead) (remove_dups (ad_port <$> addrs)) = (if preserve then [] else match addrs with [] => [] | _ => [p] end) ∧
  filter (λ q, q ∉ dead) (remove_dups (ad_port <$> addrs)) = (if preserve then match addrs with [] => [] | _ => [p] end else []).
Proof.
  intros Hall dead.
  assert (remove_dups (ad_port <$> addrs) = match addrs with [] => [] | _ => [p] end) as Hdups.
  { induction addrs as [|a addrs IH]; [done|]. cbn. rewrite IH by (intros; apply Hall; by right).
    destruct (Hall a ltac:(by left)) as [-> _]. destruct addrs as [|b addrs]; [done|].
    case_decide as Hn; [done|]. destruct Hn. destruct (Hall b ltac:(by right; left)) as [<- _]. by left. }
  rewrite Hdups. split; [done|]. destruct addrs as [|a addrs]; [by destruct preserve|].
  assert (p ∈ dead ↔ preserve = false) as Hdead.
  { subst dead. rewrite list_elem_of_fmap. split.
    - intros (b & _ & [Hb Hin]%list_elem_of_filter). destruct (Hall b Hin). congruence.
    - intros ->. exists a. destruct (Hall a ltac:(by left)) as [<- Hp]. split; [done|].
      apply list_elem_of_filter. split; [done|by left]. }
  destruct preserve; [rewrite filter_cons_False, filter_cons_True by naive_solver|
    rewrite filter_cons_True, filter_cons_False by naive_solver]; done.
Qed.

Lemma client_Ok {A} (m : M fault dstate A) s a s' : docker_client m s = (Ok a, s') → m s = (Ok a, s').
Proof. unfold docker_client, try_except. destruct (m s) as [[b|e] s1]; [done|]. by destruct e. Qed.

Lemma wrap_Ok {A} (m : M fault dstate A) s a s' : wrap_docker_error m s = (Ok a, s') → m s = (Ok a, s').
Proof.
  unfold wrap_docker_error, try_except. destruct (m s) as [[b|e] s1]; [done|]. destruct e as [|x| | | | |]; try done.
  unfold bind.
  match goal with |- context [match ?k s1 with _ => _ end] => destruct (k s1) as [[[]|e] s2] end; [|done].
  by destruct (is_conflict x).
Qed.

Lemma io_Ok {A} (m : prog A) s a s' :
  io m s = (Ok a, s') → run m (d_log s) = (Ok a, d_log s') ∧ d_self s' = d_self s ∧ d_kids s' = d_kids s.
Proof. unfold io. destruct (run m (d_log s)) as [o log]. by intros [= -> <-]. Qed.

Lemma call_Ok {A} (c : call A) s a s' :
  call_out c s = (Ok a, s') → d_log s' = d_log s ++ [mkEvent A c true] ∧ d_self s' = d_self s ∧ d_kids s' = d_kids s.
Proof.
  intros [Hrun Hrest]%io_Ok. split; [|done]. unfold ask in Hrun. cbn in Hrun.
  destruct (answer c (d_log s)) as [b|e]; cbn in Hrun; by simplify_eq.
Qed.

Lemma ddel_dset_new (d : dict string (list addr)) k v : dget d k = None → ddel (dset d k v) k = d.
Proof.
  induction d as [|[k' v'] d IH]; cbn; [by rewrite decide_True|].
  case_decide as Hk; [done|]. intros Hd. cbn. by rewrite decide_False, IH by done.
Qed.

(** [then_made s s' ps nets]: between the states, these ports and networks. *)
Definition then_made (s s' : dstate) ps nets : Prop :=
  ∃ evs, d_log s' = d_log s ++ evs ∧ made (d_log s) evs ps nets.

Lemma then_made_refl s : then_made s s [] [].
Proof. exists []. by rewrite app_nil_r. Qed.
Lemma then_made_trans s1 s2 s3 ps nets ps' nets' :
  then_made s1 s2 ps nets → then_made s2 s3 ps' nets' → then_made s1 s3 (ps ++ ps') (nets ++ nets').
Proof.
  intros (evs & Hlog & Hm) (evs' & Hlog' & Hm'). rewrite Hlog in Hlog', Hm'. exists (evs ++ evs').
  split; [by rewrite app_assoc|by apply made_app].
Qed.

Lemma io_made {A} (m : prog A) s a s' :
  calls_in (λ B c, @unasked B c) m → io m s = (Ok a, s') →
  then_made s s' [] [] ∧ d_self s' = d_self s ∧ d_kids s' = d_kids s.
Proof.
  intros Hm [Hrun Hrest]%io_Ok. split; [|done]. destruct (unasked_run m (d_log s) Hm) as (evs & Hlog & Hmade).
  rewrite Hrun in Hlog. by exists evs.
Qed.

Lemma groups_Ok l s a s' :
  get_security_group_ids project l s = (Ok a, s') →
  then_made s s' [] [] ∧ d_self s' = d_self s ∧ d_kids s' = d_kids s.
Proof.
  unfold get_security_group_ids. destruct l; intros Hrun; run_inv; [by split; [apply then_made_refl|]|].
  apply io_made in Hrun0; [|by apply calls_ask]. destruct (bool_decide _) in Hrun; by run_inv.
Qed.

(** What attaching adds. *)
Lemma attach_effect rq s s1 :
  network_attach this_host project ip_version rq s = (Ok tt, s1) →
  ∃ p addrs, (∀ a, a ∈ addrs → ad_port a = pt_id p ∧ ad_preserve a = rq_preserve rq) ∧
    then_made s s1 [(wanted rq, p)] [(default "" (container_id (x_base (d_self s))), rq_network rq)] ∧
    dget (x_addresses (d_self s)) (rq_network rq) = None ∧ d_kids s1 = d_kids s ∧
    d_self s1 = set_addresses (dset (x_addresses (d_self s)) (rq_network rq) addrs) (d_self s).
Proof.
  unfold network_attach. intros Hrun%client_Ok. unfold the in Hrun. rewrite bind_gets in Hrun. cbn [object] in Hrun.
  run_inv. apply groups_Ok in Hrun0 as (Hl1 & Hs1 & Hk1).
  apply io_made in Hrun1 as (Hl2 & Hs2 & Hk2); [|apply network_unasked].
  apply io_Ok in Hrun2 as (Hconnect & Hs3 & Hk3).
  apply io_made in Hrun as (Hl4 & Hs4 & Hk4); [|by apply calls_ask].
  apply connected_addresses in Hconnect as (evs & p & Hlog & Hmade & Hp).
  unfold change in Hrun3. run_inv. exists p, a1. cbn [d_self d_kids d_log] in *. unfold dhas in Hc.
  split_and!; [done| |by destruct (dget _ _)|congruence|by rewrite Hs4, Hs3, Hs2, Hs1].
  pose proof (then_made_trans _ _ _ _ _ _ _ Hl1 Hl2) as Hbefore.
  assert (then_made s0 s3 [(wanted rq, p)] [(default "" (container_id (x_base (d_self s))), rq_network rq)]) as Hhere
    by by exists evs.
  pose proof (then_made_trans _ _ _ _ _ _ _ Hbefore Hhere) as Hup.
  exact (then_made_trans _ _ _ _ _ _ _ Hup Hl4).
Qed.

End Networks.

(** ** Where deletions and exposed ports go wrong *)

Section Wrong.
Context `{Outside} (set_order : list string → list string) (project : option string).

(** Docker says that the container is not connected to its first network, or that
    something is not found: the deletion returns without removing the container from
    Docker. *)
Lemma not_connected_not_removed net addrs rest cid a force s :
  x_addresses (d_self s) = (net, addrs) :: rest → container_id (x_base (d_self s)) = Some cid → cid ≠ "" →
  (∀ l, set_order l ≡ₚ l) →
  (∀ p log, answer (DeletePort p) log = Ok tt ∨ answer (DeletePort p) log = Raise FPortNotFoundClient) →
  (∀ log, answer (DockerDisconnect cid net) log = Raise (FApi a)) → is_not_found a || is_not_connected a = true →
  ∃ evs s', delete set_order force s = (Ok tt, s') ∧ d_log s' = d_log s ++ evs ∧
    Forall (λ e, match ev_call e with DockerRemove _ _ => False | _ => True end) evs.
Proof.
  intros Haddr Hcid Hne Hset Hdelete Hdis Ha.
  destruct (disconnect_frees set_order Hset Hdelete (Some cid) (x_addresses (d_self s)) net (d_log s)) as (evs & Hrun & _).
  rewrite (proj2 (String.eqb_neq _ _) Hne), Hdis in Hrun. cbn [negb] in Hrun.
  destruct (run_calls (call:=call) (λ B c, match c with DockerRemove _ _ => False | _ => True end)
    (disconnect_container_from_network set_order (Some cid) (x_addresses (d_self s)) net) (d_log s)) as (evs' & Hlog & Hevs).
  { unfold disconnect_container_from_network, _disconnect_container_from_network, delete_or_unbind_ports, _unbind_port,
      mbind, prog_bind. calls. }
  rewrite Hrun in Hlog. cbn in Hlog. apply app_inv_head in Hlog as ->.
  exists evs', (mkD (d_self s) (d_kids s) (d_log s ++ evs')). split_and!; [|reflexivity|exact Hevs].
  assert (_cleanup_network_for_container set_order Self s = (Raise (FApi a), mkD (d_self s) (d_kids s) (d_log s ++ evs'))) as Hclean.
  { unfold _cleanup_network_for_container, wrap_shifted, try_except, the. rewrite bind_gets. cbv beta. cbn [object].
    rewrite Haddr at 1. cbn [dkeys fmap list_fmap for_each fst]. rewrite Hcid. unfold bind, io. by rewrite Hrun. }
  unfold delete, docker_client, try_except. rewrite (bind_err _ _ _ _ _ Hclean). cbn. by rewrite Ha.
Qed.

Lemma split_ports_pure l s ports s' : map_m split_port l s = (Ok ports, s') → s' = s.
Proof.
  intros Hrun. symmetry. eapply (keeps_map_m eq split_port l); [|exact Hrun]. intros p _. unfold split_port. look.
Qed.

(** The security group made for the exposed ports comes last in the list of the
    container, and the one deleted with the container is the first: a group of the
    request when there is one. *)
Lemma deletes_first_group g l ports s s' :
  ctype (x_base (d_self s)) = TYPE_CONTAINER → security_groups (x_base (d_self s)) = g :: l →
  merged (x_exposed_ports (d_self s)) ≠ [] →
  _process_exposed_ports s = (Ok ports, s') →
  (∃ new, security_groups (x_base (d_self s')) = g :: l ++ [new]) ∧
  d_log (_cleanup_exposed_ports s').2 = d_log s' ++ [mkEvent unit (DeleteGroup g) (is_ok (answer (DeleteGroup g) (d_log s')))].
Proof.
  intros Htype Hgroups Hports Hrun. unfold _process_exposed_ports in Hrun. rewrite bind_get in Hrun.
  unfold exposed_ports_of, exposing, is_capsule in Hrun. rewrite Htype in Hrun.
  rewrite bool_decide_false in Hrun by done. destruct (merged _) as [|q qs] eqn:Hm; [done|].
  unfold the in Hrun. rewrite bind_gets in Hrun. cbn [object] in Hrun.
  run_inv. apply call_Ok in Hrun0 as (_ & Hs0 & _). apply io_Ok in Hrun1 as (_ & Hs1 & _).
  apply split_ports_pure in Hrun as ->. unfold change in Hrun2. run_inv. cbn [d_self d_log].
  assert (security_groups (x_base (d_self s1)) = g :: l) as Hg by by rewrite Hs1, Hs0.
  split; [exists a; cbn; by rewrite Hg|].
  unfold _cleanup_exposed_ports. rewrite bind_get. unfold exposed_ports_of, exposing, is_capsule. cbn [d_self d_kids].
  change (ctype (x_base (on_base _ (d_self s1)))) with (ctype (x_base (d_self s1))).
  change (x_exposed_ports (on_base _ (d_self s1))) with (x_exposed_ports (d_self s1)).
  rewrite Hs1, Hs0, Htype, Hm, bool_decide_false by done. unfold the. rewrite bind_gets. cbn [object d_self].
  change (security_groups (x_base (on_base (λ b, set_security_groups (security_groups b ++ [a]) b) (d_self s))))
    with (security_groups (x_base (d_self s)) ++ [a]).
  rewrite Hgroups. unfold try_except, bind, of_option, call_out, io, ask, ret. cbn [head app run d_log].
  destruct (answer (DeleteGroup g) (d_log s1)) as [[]|e]; cbn; [done|]. by destruct (is_client e).
Qed.

(** The ports of the containers of a capsule are opened in a group of its last
    container: the groups of the capsule, whose ports the containers share, stay the
    same. *)
Lemma capsule_not_in_group ports s s' :
  ctype (x_base (d_self s)) = TYPE_CAPSULE → _process_exposed_ports s = (Ok ports, s') → d_self s' = d_self s.
Proof.
  intros Htype Hrun. unfold _process_exposed_ports in Hrun. rewrite bind_get in Hrun.
  unfold exposed_ports_of, exposing, is_capsule in Hrun. rewrite Htype, bool_decide_true in Hrun by done.
  destruct (merged _) as [|q qs] eqn:Hm; [by run_inv|]. destruct (d_kids s) as [|k kids]; cbn [length] in Hrun; [done|].
  unfold the in Hrun. rewrite bind_gets in Hrun. run_inv.
  apply call_Ok in Hrun0 as (_ & Hs0 & _). apply io_Ok in Hrun1 as (_ & Hs1 & _).
  apply split_ports_pure in Hrun as ->. unfold change in Hrun2. run_inv. cbn [d_self]. congruence.
Qed.
End Wrong.

(** ** Witnesses *)

#[local] Definition obliging : Outside := λ B c _,
  match c in call B return outcome fault B with
  | DockerInspectImage _ => Ok (Some ["sh"], None)
  | DockerCreateContainer _ _ => Ok "cid"
  | DockerInspect cid => Ok (mkDocker cid "/zun-u" (StateText "created") None)
  | DockerNetworks n => Ok [n]
  | CreatePort b => Ok (mkPort ("p-" ++ default "" (pb_network b)) (Some "mac") [("10.0.0.1", None); ("fd::1", None)] None None unbound)
  | UpdatePort p _ | GetNeutronPort p => Ok (mkPort p None [] None None unbound)
  | DockerStart _ | DockerStop _ | DockerRemove _ _ | DockerRemoveNetwork _ | DockerConnect _ _ _ _
  | DockerDisconnect _ _ | DeletePort _ | DeleteGroup _ | CreateRule _ _ _ | SaveContainer _ => Ok tt
  | _ => Raise (FPy OtherException)
  end.
#[local] Definition want (net : string) : requested := mkRequested net "" "" false.
#[local] Definition fresh_container : xcontainer :=
  mkX (set_container_id (Some "cid") (set_status (Some CREATING) (set_uuid "u" inhabitant))) None None [] None [] None None [] None None [] [].
#[local] Definition fresh_state : dstate := mkD fresh_container [] [].
Abbreviation demo_version := (λ _ : string, Some 4%Z).
Abbreviation demo_create rqs :=
  (create (H:=obliging) "h1" (Some "proj") demo_version true "runc" (λ _, "1") "nginx" "latest" rqs [] fresh_state).


Abbreviation demo_attach_network := (network_attach (H:=obliging) "h1" (Some "proj") demo_version (want "n1") fresh_state).
Abbreviation demo_detach_network := (network_detach (H:=obliging) (λ l, l) "n1" demo_attach_network.2).

