(* ===== verification/Cni.v ===== *)
(** * The CNI daemon and its registry (src/zun/cni)

    A server process plugs and unplugs the interfaces of capsules and containers; a
    watcher process notices deletions in the database and ports that become active.
    They share a registry, a dictionary whose entries a container leaves when both its
    interfaces are unplugged and its deletion was seen, in either order.  Reads and
    writes of the registry are calls; a lock per container surrounds some of them. *)

From Stdlib Require Import Ascii.
From S2P Require Import Prelude Exceptions PyStr Effects.

Record vif : Type := mkVif { vif_id : string; vif_active : bool }.

(** What the registry keeps of a container. *)
Record entry : Type := mkEntry {
  containerid : string;
  vif_unplugged : bool;
  del_received : bool;
  vifs : dict string vif
}.

Inductive call : Type → Type :=
| Lock (u : string) : call unit
| Unlock (u : string) : call unit
| RegGet (u : string) : call entry                        (** [registry\[u\]] *)
| RegSet (u : string) (e : entry) : call unit
| RegDel (u : string) : call unit
| RegFind (u : string) : call (option entry)              (** [registry.get(u)] *)
| RegCopy : call (dict string entry)
| GetVifs (capsule : bool) (u : string) : call (dict string vif)
| Plug (v : vif) (ifname netns containerid : string) (default_gateway : bool) : call unit
| Unplug (v : vif) (ifname netns containerid : string) : call unit
| ListByHost (capsule : bool) : call (list string)
| ListPorts : call (list vif)
| DelayOver : call bool                                   (** the time out of a wait is reached *)
| Sleep : call unit.

Abbreviation prog := (eff exn call).

(** ** Parameters (src/zun/cni/utils.py) *)

(** ['_']-prefixed names are not set as attributes. *)
Definition public (k : string) : bool := negb (Stdlib.Strings.String.prefix "_" k).
Definition cni_args (value : string) : option (dict string string) :=
  foldl (λ acc item, d ← acc;
           match partition "=" item with
           | (k, true, v) => Some (if public k then dset d k v else d)
           | _ => None
           end) (Some []) (split ";" value).

Record params : Type := mkParams { p_env : dict string string; p_args : dict string string }.

(** [params.K] *)
Definition attr (d : dict string string) (k : string) : prog string :=
  match dget d k with Some v => Return v | None => Fault (Py AttributeError) end.

(** [CNIParameters]: the variables of the request, and whether it has a configuration. *)
Definition read_params (env : dict string string) (config : bool) : prog params :=
  let e := filter (λ kv : string * string, Stdlib.Strings.String.prefix "CNI_" kv.1 = true) env in
  if negb config then Fault (Py KeyError) else
  value ← attr e "CNI_ARGS";
  match cni_args value with
  | Some a => Return (mkParams e a)
  | None => Fault (Py ValueError)
  end.

(** ** The plugin (src/zun/cni/plugins/zun_cni_registry.py) *)

Definition DEFAULT_IFNAME : string := "eth0".

(** [with lockutils.lock(u, external=True): body] *)
Definition locked {A} (u : string) (body : prog A) : prog A :=
  _ ← ask (Lock u); finally body (ask (Unlock u)).

Definition _get_container_uuid (p : params) : prog string := attr (p_args p) "K8S_POD_NAME".
Definition _get_container_type (p : params) : string := default "CAPSULE" (dget (p_args p) "ZUN_CONTAINER_TYPE").

Definition _do_work (p : params) (fn : vif → string → string → string → bool → prog unit) : prog (dict string vif) :=
  u ← _get_container_uuid p;
  capsule ← (if bool_decide (_get_container_type p = "CAPSULE") then Return true
             else if bool_decide (_get_container_type p = "CONTAINER") then Return false
             else Fault (Zun CNIError));
  l ← ask (GetVifs capsule u);
  _ ← each (λ kv : string * vif,
        let default_gateway := bool_decide (kv.1 = DEFAULT_IFNAME) in
        ifname ← (if default_gateway then attr (p_env p) "CNI_IFNAME" else Return kv.1);
        netns ← attr (p_env p) "CNI_NETNS";
        cid ← attr (p_env p) "CNI_CONTAINERID";
        fn kv.2 ifname netns cid default_gateway) l;
  Return l.

Definition any_vif_inactive (l : dict string vif) : bool := existsb (λ v, negb (vif_active v)) (dvalues l).

(** The registry is read every second, at most [n] more times, until all interfaces are
    active; the last result is an error of the retrying library, or the last exception. *)
Fixpoint wait_for_active (n : nat) (u : string) : prog (dict string vif) :=
  Do (RegGet u) (λ o,
    match o with
    | Ok e => if any_vif_inactive (vifs e) then
                over ← ask DelayOver;
                match n with
                | S n => if over : bool then Fault (Py OtherException) else _ ← ask Sleep; wait_for_active n u
                | O => Fault (Py OtherException)
                end
              else Return (vifs e)
    | Raise x => over ← ask DelayOver;
                 match n with
                 | S n => if over : bool then Fault x else _ ← ask Sleep; wait_for_active n u
                 | O => Fault x
                 end
    end).

Section Daemon.
(** [CONF.cni_daemon.vif_active_timeout] *)
Context (timeout : nat).

Definition add (p : params) : prog vif :=
  l ← _do_work p (λ v ifname netns cid gw, ask (Plug v ifname netns cid gw));
  u ← _get_container_uuid p;
  cid ← attr (p_env p) "CNI_CONTAINERID";
  _ ← locked u (ask (RegSet u (mkEntry cid false false l)));
  result ← wait_for_active timeout u;
  _ ← check (any_vif_inactive result) (Zun ResourceNotReady);
  match dget l DEFAULT_IFNAME with Some v => Return v | None => Fault (Py KeyError) end.

Definition is_KeyError (x : exn) : bool := bool_decide (x = Py KeyError).

(** A request for an older container of that name is left alone. *)
Definition stale (p : params) (u : string) : prog bool :=
  handle (e ← ask (RegGet u);
          if str_true (containerid e) then
            cid ← attr (p_env p) "CNI_CONTAINERID"; Return (bool_decide (containerid e ≠ cid))
          else Return false)
    (λ x, if is_KeyError x then Some (Return false) else None).

(** The last of the two to come removes the entry. *)
Definition unplugged (u : string) : prog unit :=
  handle (locked u (
      e ← ask (RegGet u);
      if del_received e then ask (RegDel u)
      else e ← ask (RegGet u); ask (RegSet u (mkEntry (containerid e) true (del_received e) (vifs e)))))
    (λ x, if is_KeyError x then Some (Return tt) else None).

Definition delete (p : params) : prog unit :=
  u ← _get_container_uuid p;
  old ← stale p u;
  if old : bool then Return tt else
  _ ← handle (_ ← _do_work p (λ v ifname netns cid _, ask (Unplug v ifname netns cid)); Return tt)
        (λ x, if isinstance x ContainerNotFound then Some (Return tt) else None);
  unplugged u.

(** ** The server (src/zun/cni/daemon/service.py): the status of its answers *)

Definition _prepare_request (env : dict string string) (config : bool) : prog params :=
  p ← read_params env config; _ ← attr (p_env p) "CNI_COMMAND"; Return p.

Definition handle_request (env : dict string string) (config : bool) (act : params → prog Z)
    (not_ready : Z) : prog Z :=
  m ← handle (p ← _prepare_request env config; Return (Some p)) (λ _, Some (Return None));
  match m with
  | None => Return 400%Z
  | Some p => handle (act p) (λ x, Some (Return (if isinstance x ResourceNotReady then not_ready else 500%Z)))
  end.

Definition serve_add (env : dict string string) (config : bool) : prog Z :=
  handle_request env config (λ p, _ ← add p; Return 202%Z) 504%Z.
Definition serve_delete (env : dict string string) (config : bool) : prog Z :=
  handle_request env config (λ p, _ ← delete p; Return 204%Z) 204%Z.

(** ** The watcher *)

Definition _on_container_deleted (u : string) : prog unit :=
  handle (locked u (
      e ← ask (RegGet u);
      if vif_unplugged e then ask (RegDel u)
      else e ← ask (RegGet u); ask (RegSet u (mkEntry (containerid e) (vif_unplugged e) true (vifs e)))))
    (λ x, if is_KeyError x then Some (Return tt) else None).

Definition sync_containers : prog unit :=
  capsules ← ask (ListByHost true);
  containers ← ask (ListByHost false);
  registry ← ask RegCopy;
  each (λ u, if bool_decide (u ∈ capsules ++ containers) then Return tt else _on_container_deleted u) (dkeys registry).

Definition set_active (ifname : string) (l : dict string vif) : option (dict string vif) :=
  v ← dget l ifname; Some (dset l ifname (mkVif (vif_id v) true)).

Definition _update_vif_status (u ifname : string) : prog unit :=
  locked u (
    found ← ask (RegFind u);
    match found with
    | None => Return tt
    | Some _ =>
        e ← ask (RegGet u);
        match set_active ifname (vifs e) with
        | Some l => ask (RegSet u (mkEntry (containerid e) (vif_unplugged e) (del_received e) l))
        | None => Fault (Py KeyError)
        end
    end).

(** The interfaces that are not active, by the id of their port. *)
Definition inactive (registry : dict string entry) : dict string string :=
  dict_of (ue ← registry; kv ← vifs ue.2; if vif_active kv.2 then [] else [(vif_id kv.2, kv.1)]).

Definition poll_vif_status : prog unit :=
  registry ← ask RegCopy;
  match inactive registry with
  | [] => Return tt
  | inactive_vifs =>
      ports ← ask ListPorts;
      each (λ u, each (λ port,
        match dget inactive_vifs (vif_id port) with
        | Some ifname => if vif_active port then _update_vif_status u ifname else Return tt
        | None => Return tt
        end) ports) (dkeys registry)
  end.
End Daemon.

(** ** The processes together *)

Record world : Type := mkWorld { w_reg : gmap string entry; w_locked : gset string }.

(** One call; what is outside the registry answers as it likes. *)
Definition atomic (w : world) {B} (c : call B) : outcome exn B → world → Prop :=
  match c in call B return outcome exn B → world → Prop with
  | Lock u => λ o w', u ∉ w_locked w ∧ o = Ok tt ∧ w' = mkWorld (w_reg w) ({[u]} ∪ w_locked w)
  | Unlock u => λ o w', o = Ok tt ∧ w' = mkWorld (w_reg w) (w_locked w ∖ {[u]})
  | RegGet u => λ o w', w' = w ∧ o = match w_reg w !! u with Some e => Ok e | None => Raise (Py KeyError) end
  | RegSet u e => λ o w', o = Ok tt ∧ w' = mkWorld (<[u:=e]> (w_reg w)) (w_locked w)
  | RegDel u => λ o w',
      match w_reg w !! u with
      | Some _ => o = Ok tt ∧ w' = mkWorld (base.delete u (w_reg w)) (w_locked w)
      | None => o = Raise (Py KeyError) ∧ w' = w
      end
  | RegFind u => λ o w', w' = w ∧ o = Ok (w_reg w !! u)
  | RegCopy => λ o w', w' = w ∧ ∃ l, o = Ok l ∧ (list_to_map l : gmap string entry) = w_reg w
  | _ => λ _ w', w' = w
  end.
Abbreviation registry_step := (step (call:=call) (λ w B c, @atomic w B c)).

(** A process is outside the locks, or holds the lock of [u] and may know the entry. *)
Inductive phase : Type := Out | Holds (u : string) (known : option (option entry)).

Definition settled (e : entry) : Prop := vif_unplugged e = false ∨ del_received e = false.

Definition call_ok (ph : phase) {B} (c : call B) : (phase → outcome exn B → Prop) → Prop :=
  match c in call B return (phase → outcome exn B → Prop) → Prop with
  | Lock u => λ K, ph = Out ∧ K (Holds u None) (Ok tt)
  | Unlock u => λ K, ∃ k, ph = Holds u k ∧ K Out (Ok tt)
  | RegGet u => λ K,
      match ph with
      | Out => ∀ o, K Out o
      | Holds u' k => u' = u ∧
          (k = None ∨ k = Some None → K (Holds u (Some None)) (Raise (Py KeyError))) ∧
          ∀ e, settled e → k = None ∨ k = Some (Some e) → K (Holds u (Some (Some e))) (Ok e)
      end
  | RegSet u e => λ K, ∃ k, ph = Holds u k ∧ settled e ∧ K (Holds u (Some (Some e))) (Ok tt)
  | RegDel u => λ K, ∃ e, ph = Holds u (Some (Some e)) ∧
      (vif_unplugged e = true ∨ del_received e = true) ∧ K (Holds u (Some None)) (Ok tt)
  | RegFind u => λ K, ph = Holds u None ∧ ∀ o, K (Holds u (Some o)) (Ok o)
  | _ => λ K, ph = Out ∧ ∀ o, K Out o
  end.

Definition held (ph : phase) : option string := match ph with Out => None | Holds u _ => Some u end.
Definition sound (w : world) (ph : phase) : Prop :=
  match ph with
  | Out => True
  | Holds u k => u ∈ w_locked w ∧ ∀ v, k = Some v → w_reg w !! u = v
  end.

Record invariant (phs : list phase) (w : world) : Prop := mkInvariant {
  inv_settled : map_Forall (λ _ e, settled e) (w_reg w);
  inv_sound : ∀ i ph, phs !! i = Some ph → sound w ph;
  inv_alone : ∀ i j p q u, phs !! i = Some p → phs !! j = Some q → held p = Some u → held q = Some u → i = j
}.

(** A process that moves in a world where the others' entries are as before. *)
Lemma registry_insert phs w w' i ph ph' :
  invariant phs w → phs !! i = Some ph → map_Forall (λ _ e, settled e) (w_reg w') → sound w' ph' →
  (∀ u, held ph' = Some u → held ph = Some u ∨ u ∉ w_locked w) →
  (∀ u, held ph ≠ Some u → u ∈ w_locked w → u ∈ w_locked w' ∧ w_reg w' !! u = w_reg w !! u) →
  invariant (<[i:=ph']> phs) w'.
Proof.
  intros [Hset Hsound Halone] Hi Hset' Hs Hheld Hsame.
  assert (∀ j p u, j ≠ i → phs !! j = Some p → held p = Some u → held ph' ≠ Some u) as Hdiff.
  { intros j p u Hj Hp Hu [Hph|Hfree]%Hheld; [by destruct Hj; eapply Halone|].
    specialize (Hsound _ _ Hp). destruct p; [done|]. simplify_eq/=. by destruct Hsound. }
  constructor; [done|..].
  - intros j p [(<- & <- & _)|[Hj Hp]]%list_lookup_insert_Some; [done|].
    specialize (Hsound _ _ Hp). destruct p as [|u k]; [done|]. destruct Hsound as [Hu Hk].
    assert (held ph ≠ Some u) as Hne. { intros Hph. destruct Hj. by eapply (Halone i j). }
    destruct (Hsame u Hne Hu) as [? Heq]. split; [done|]. intros v Hv. rewrite Heq. auto.
  - intros j1 j2 p q u Hp Hq Hhp Hhq.
    apply list_lookup_insert_Some in Hp as [(<- & <- & _)|[? Hp]];
    apply list_lookup_insert_Some in Hq as [(<- & <- & _)|[? Hq]]; [done|..|by eapply Halone].
    + by destruct (Hdiff j2 q u).
    + by destruct (Hdiff j1 p u).
Qed.

Lemma registry_kept phs w i ph ph' :
  invariant phs w → phs !! i = Some ph → sound w ph' → held ph' = held ph ∨ held ph' = None → invariant (<[i:=ph']> phs) w.
Proof.
  intros Hinv Hi Hs Hh. eapply registry_insert; eauto; [apply Hinv|].
  intros u Hu. left. destruct Hh; congruence.
Qed.

Lemma registry_call phs w i ph B (c : call B) (K : phase → outcome exn B → Prop) o w' :
  invariant phs w → phs !! i = Some ph → call_ok ph c K → atomic w c o w' →
  ∃ ph', K ph' o ∧ invariant (<[i:=ph']> phs) w'.
Proof.
  intros Hinv Hi Hok Hat. pose proof (inv_sound _ _ Hinv _ _ Hi) as Hs. pose proof (inv_settled _ _ Hinv) as Hset.
  destruct c; cbn in Hok, Hat.
  1: { (* Lock *) destruct Hok as [-> HK], Hat as (Hfree & -> & ->). exists (Holds u None). split; [done|].
    eapply registry_insert; eauto; cbn [w_reg w_locked].
    - split; [set_solver|done].
    - intros u' [= <-]. by right.
    - intros u' _ Hu'. split; [set_solver|done]. }
  1: { (* Unlock *) destruct Hok as (k & -> & HK), Hat as [-> ->]. exists Out. split; [done|].
    eapply registry_insert; eauto; cbn [w_reg w_locked]; [done..|].
    intros u' Hne Hu'. split; [|done]. apply elem_of_difference. split; [done|]. intros ->%elem_of_singleton. done. }
  1: { (* RegGet *) destruct Hat as [-> ->]. destruct ph as [|u' k].
    - exists Out. split; [apply Hok|]. by eapply registry_kept; [..|left].
    - destruct Hok as (-> & Hnone & Hsome), Hs as [Hu Hk].
      destruct (w_reg w !! u) as [e|] eqn:He.
      + exists (Holds u (Some (Some e))). split.
        { apply Hsome; [by eapply Hset|]. destruct k as [v|]; [right; f_equal; symmetry; by apply Hk|by left]. }
        eapply registry_kept; [done..| |by left]. split; [done|]. by intros v [= <-].
      + exists (Holds u (Some None)). split.
        { apply Hnone. destruct k as [v|]; [right; f_equal; symmetry; by apply Hk|by left]. }
        eapply registry_kept; [done..| |by left]. split; [done|]. by intros v [= <-]. }
  1: { (* RegSet *) destruct Hok as (k & -> & He & HK), Hat as [-> ->], Hs as [Hu Hk].
    exists (Holds u (Some (Some e))). split; [done|]. eapply registry_insert; eauto; cbn [w_reg w_locked].
    - by apply map_Forall_insert_2.
    - split; [done|]. intros v [= <-]. apply lookup_insert_eq.
    - intros u' Hne Hu'. split; [done|]. rewrite lookup_insert_ne; [done|]. intros ->. done. }
  1: { (* RegDel *) destruct Hok as (e & -> & He & HK), Hs as [Hu Hk]. rewrite (Hk _ eq_refl) in Hat.
    destruct Hat as [-> ->]. exists (Holds u (Some None)). split; [done|]. eapply registry_insert; eauto; cbn [w_reg w_locked].
    - by apply map_Forall_delete.
    - split; [done|]. intros v [= <-]. apply lookup_delete_eq.
    - intros u' Hne Hu'. split; [done|]. rewrite lookup_delete_ne; [done|]. intros ->. done. }
  1: { (* RegFind *) destruct Hok as [-> HK], Hat as [-> ->], Hs as [Hu Hk]. exists (Holds u (Some (w_reg w !! u))).
    split; [apply HK|]. eapply registry_kept; [done..| |by left]. split; [done|]. by intros v [= <-]. }
  1: { (* RegCopy *) destruct Hok as [-> HK], Hat as [-> _]. exists Out. split; [apply HK|]. by eapply registry_kept; [..|left]. }
  all: destruct Hok as [-> HK]; subst w'; exists Out; (split; [apply HK|]); by eapply registry_kept; [..|left].
Qed.

(** ** Every process respects the phases *)

(** [follows m ph f h]: from the phase [ph], [m] respects the phases, and whatever it
    ends in is a phase that the continuations accept. *)
Fixpoint follows {A} (m : prog A) (ph : phase) (f : phase → A → Prop) (h : phase → exn → Prop) : Prop :=
  match m with
  | Return a => f ph a
  | Fault e => h ph e
  | Do c k => call_ok ph c (λ ph' o, follows (k o) ph' f h)
  end.

Abbreviation in_phase := (in_phase (call:=call) (λ ph B c, @call_ok ph B c) (λ ph (_ : Z), ph = Out) (λ ph _, ph = Out)).

Lemma call_ok_mono ph B (c : call B) (K K' : phase → outcome exn B → Prop) :
  (∀ ph o, K ph o → K' ph o) → call_ok ph c K → call_ok ph c K'.
Proof. intros HK. destruct c; cbn; try naive_solver. destruct ph; naive_solver. Qed.

Lemma follows_in_phase (m : prog Z) ph : follows m ph (λ ph _, ph = Out) (λ ph _, ph = Out) → in_phase ph m.
Proof. revert ph. induction m as [a|e|B c k IH]; intros ph; [done..|]. cbn. apply call_ok_mono. auto. Qed.

Lemma follows_mono {A} (m : prog A) ph (f f' : phase → A → Prop) (h h' : phase → exn → Prop) :
  (∀ ph a, f ph a → f' ph a) → (∀ ph e, h ph e → h' ph e) → follows m ph f h → follows m ph f' h'.
Proof. intros Hf Hh. revert ph. induction m as [a|e|B c k IH]; intros ph; cbn; [auto..|]. apply call_ok_mono. auto. Qed.

Lemma follows_bind {A B} (m : prog A) (g : A → prog B) ph f h :
  follows m ph (λ ph' a, follows (g a) ph' f h) h → follows (x ← m; g x) ph f h.
Proof. revert ph. induction m as [a|e|C c k IH]; intros ph; cbn; [done..|]. apply call_ok_mono. intros ph' o. apply IH. Qed.

Lemma follows_handle {A} (m : prog A) g ph f h :
  follows m ph f (λ ph' e, match g e with Some k => follows k ph' f h | None => h ph' e end) →
  follows (handle m g) ph f h.
Proof.
  revert ph. induction m as [a|e|C c k IH]; intros ph; cbn; [done| |apply call_ok_mono; intros ph' o; apply IH].
  by destruct (g e).
Qed.

Lemma follows_finally {A} (m : prog A) k ph f h :
  follows m ph (λ ph' a, follows k ph' (λ ph'' _, f ph'' a) h) (λ ph' e, follows k ph' (λ ph'' _, h ph'' e) h) →
  follows (finally m k) ph f h.
Proof.
  revert ph. induction m as [a|e|C c g IH]; intros ph; cbn; [..|apply call_ok_mono; intros ph' o; apply IH];
    intros Hk; apply follows_bind; [exact Hk|exact Hk].
Qed.

(** Outside the locks, before and after. *)
Definition free {A} (m : prog A) : Prop := follows m Out (λ ph _, ph = Out) (λ ph _, ph = Out).

Lemma free_return {A} (a : A) : free (Return a). Proof. done. Qed.
Lemma free_fault {A} e : free (A:=A) (Fault e). Proof. done. Qed.

Lemma free_bind {A B} (m : prog A) (g : A → prog B) : free m → (∀ a, free (g a)) → free (x ← m; g x).
Proof.
  intros Hm Hg. apply follows_bind. eapply follows_mono; [..|exact Hm]; [|done]. intros ph a ->. apply Hg.
Qed.

Lemma free_handle {A} (m : prog A) g : free m → (∀ e k, g e = Some k → free k) → free (handle m g).
Proof.
  intros Hm Hg. apply follows_handle. eapply follows_mono; [..|exact Hm]; [done|]. intros ph e ->.
  destruct (g e) eqn:He; [by eapply Hg|done].
Qed.

Lemma free_each {X} (g : X → prog unit) l : (∀ x, free (g x)) → free (each g l).
Proof. intros Hg. induction l as [|x l IH]; [done|]. cbn. by apply free_bind. Qed.

(** A call that asks for no lock and writes nothing. *)
Definition harmless {B} (c : call B) : Prop :=
  match c with Lock _ | Unlock _ | RegSet _ _ | RegDel _ | RegFind _ => False | _ => True end.
Lemma free_ask {B} (c : call B) : harmless c → free (ask c).
Proof. destruct c; try done; intros _; cbn; try (split; [done|]); by intros []. Qed.

Lemma free_attr d k : free (attr d k).
Proof. unfold attr. by destruct (dget d k). Qed.

#[local] Hint Resolve free_return free_fault free_attr : core.
Ltac free :=
  repeat first
    [ done
    | solve [auto]
    | apply free_handle; [|intros ? ? ?; simplify_eq/=]
    | apply free_each; intros ?
    | apply free_ask
    | apply free_bind; [|intros ?]
    | match goal with
      | |- free (match ?x with _ => _ end) => destruct x eqn:?; simplify_eq/=
      | H : (match ?x with _ => _ end) = Some _ |- _ => destruct x eqn:?; simplify_eq/=
      end ].

(** The locked sections. *)
Lemma free_locked {A} u (body : prog A) :
  follows body (Holds u None) (λ ph _, ∃ k, ph = Holds u k) (λ ph _, ∃ k, ph = Holds u k) → free (locked u body).
Proof.
  intros Hbody. split; [done|]. apply follows_finally. eapply follows_mono; [..|exact Hbody].
  - intros ph a [k ->]. cbn. eauto.
  - intros ph e [k ->]. cbn. eauto.
Qed.

Lemma free_set u e : settled e → free (locked u (ask (RegSet u e))).
Proof. intros He. apply free_locked. cbn. eauto 6. Qed.

Lemma free_unplugged u : free (unplugged u).
Proof.
  unfold unplugged. apply free_handle; [|intros; case_match; by simplify_eq].
  apply free_locked, follows_bind. cbn. split_and!; [done|eauto|]. intros e _ _.
  destruct (del_received e) eqn:Hd; cbn; [eauto 8|]. split_and!; [done|by intros [|]|].
  intros e' _ [|[= <-]]; [done|]. exists (Some (Some e)). split_and!; [done|by right|eauto].
Qed.

Lemma free_deleted u : free (_on_container_deleted u).
Proof.
  unfold _on_container_deleted. apply free_handle; [|intros; case_match; by simplify_eq].
  apply free_locked, follows_bind. cbn. split_and!; [done|eauto|]. intros e _ _.
  destruct (vif_unplugged e) eqn:Hd; cbn; [eauto 8|]. split_and!; [done|by intros [|]|].
  intros e' _ [|[= <-]]; [done|]. exists (Some (Some e)). split_and!; [done|by left|eauto].
Qed.

Lemma free_update u ifname : free (_update_vif_status u ifname).
Proof.
  unfold _update_vif_status. apply free_locked, follows_bind. cbn. split; [done|].
  intros [e|]; cbn; [|eauto]. split_and!; [done|eauto|]. intros e' He' _. cbn.
  destruct (set_active ifname (vifs e')); cbn; [|eauto]. eexists. split_and!; [done|exact He'|eauto].
Qed.

#[local] Hint Resolve free_unplugged free_deleted free_update : core.

Lemma free_params env config : free (read_params env config).
Proof. unfold read_params. free. Qed.
Lemma free_prepare env config : free (_prepare_request env config).
Proof. unfold _prepare_request. apply free_bind; [apply free_params|intros p; free]. Qed.

Lemma free_work p fn : (∀ v a b c d, free (fn v a b c d)) → free (_do_work p fn).
Proof. intros Hfn. unfold _do_work, _get_container_uuid. free. Qed.

Lemma free_wait n u : free (wait_for_active n u).
Proof.
  induction n as [|n IH]; cbn; (intros [e|x]; [destruct (any_vif_inactive (vifs e)); [|done]|]);
    cbn; (split; [done|]); intros [over|y]; cbn; try done.
  all: destruct over; [done|]; cbn; (split; [done|]); intros [[]|z]; cbn; [apply IH|done].
Qed.

#[local] Opaque _do_work locked wait_for_active unplugged _on_container_deleted _update_vif_status _prepare_request.

Lemma free_add timeout p : free (add timeout p).
Proof.
  unfold add, _get_container_uuid, check. free;
    try (apply free_work; intros; free); try (by apply free_set; left); try apply free_wait; free.
Qed.

Lemma free_delete p : free (delete p).
Proof. unfold delete, stale, _get_container_uuid. free; try (apply free_work; intros; free); free. Qed.

Lemma free_request env config act n : (∀ p, free (act p)) → free (handle_request env config act n).
Proof. intros Hact. unfold handle_request. free; try apply free_prepare; free. Qed.

Lemma free_sync : free sync_containers.
Proof. unfold sync_containers. free. Qed.

Lemma free_poll : free poll_vif_status.
Proof.
  unfold poll_vif_status. apply free_bind; [by apply free_ask|intros r].
  set (ids := inactive r). destruct ids as [|p l] eqn:Hids; [done|]. rewrite <- Hids. clearbody ids. free.
Qed.
#[local] Transparent _do_work locked wait_for_active unplugged _on_container_deleted _update_vif_status _prepare_request.

(** What runs in the daemon: the two handlers of the server, the two periodic tasks of
    the watcher. *)
Inductive daemon_process (timeout : nat) : prog Z → Prop :=
| dp_add env config : daemon_process timeout (serve_add timeout env config)
| dp_delete env config : daemon_process timeout (serve_delete env config)
| dp_sync : daemon_process timeout (_ ← sync_containers; Return 0%Z)
| dp_poll : daemon_process timeout (_ ← poll_vif_status; Return 0%Z).

Lemma daemon_in_phase timeout p : daemon_process timeout p → in_phase Out p.
Proof.
  intros Hp. apply follows_in_phase. destruct Hp.
  - apply free_request. intros p. apply free_bind; [apply free_add|done].
  - apply free_request. intros p. apply free_bind; [apply free_delete|done].
  - apply free_bind; [apply free_sync|done].
  - apply free_bind; [apply free_poll|done].
Qed.

Lemma daemon_running timeout procs w st :
  Forall (daemon_process timeout) procs → map_Forall (λ _ e, settled e) (w_reg w) → w_locked w = ∅ →
  rtc registry_step (procs, w) st →
  running (call:=call) (λ ph B c, @call_ok ph B c) (λ ph (_ : Z), ph = Out) (λ ph _, ph = Out) invariant st.
Proof.
  intros Hprocs Hset Hlocked Hsteps. eapply steps_running; [exact registry_call|exact Hsteps|].
  exists (replicate (length procs) Out). split; cbn.
  - apply Forall2_replicate_l; [done|]. eapply Forall_impl; [exact Hprocs|]. apply (daemon_in_phase timeout).
  - constructor; [done|..].
    + by intros i ph [-> _]%lookup_replicate.
    + by intros i j p q u [-> _]%lookup_replicate.
Qed.

(** C12. In whatever order the handlers of the server and the tasks of the watcher
    run, call by call, and whatever the rest of the system answers: no entry of the
    registry is ever left with both its interfaces unplugged and its deletion
    received, since whoever comes last removes it; and an entry is only removed once
    one of the two was recorded before. *)
Theorem registry_settled timeout procs w procs' w' :
  Forall (daemon_process timeout) procs → map_Forall (λ _ e, settled e) (w_reg w) → w_locked w = ∅ →
  rtc registry_step (procs, w) (procs', w') →
  (∀ u e, w_reg w' !! u = Some e → vif_unplugged e = false ∨ del_received e = false) ∧
  ∀ procs2 w2 u e, registry_step (procs', w') (procs2, w2) → w_reg w' !! u = Some e → w_reg w2 !! u = None →
    vif_unplugged e = true ∨ del_received e = true.
Proof.
  intros Hprocs Hset Hlocked Hsteps. destruct (daemon_running _ _ _ _ Hprocs Hset Hlocked Hsteps) as (phs & Hall & Hinv).
  split; [intros u e He; by eapply (inv_settled _ _ Hinv)|]. intros procs2 w2 u e Hstep He Hnone.
  inversion Hstep as [? ? i B c k o ? Hi Hat Heq1 Heq2]; simplify_eq.
  destruct (Forall2_lookup_r _ _ _ _ _ Hall Hi) as (ph & Hph & Hp). cbn in Hp.
  destruct c; cbn in Hat, Hp; try (destruct_and?; subst; cbn in *; congruence).
  - destruct Hat as [_ ->]. cbn in Hnone. by apply lookup_insert_None in Hnone as [? _]; congruence.
  - destruct Hp as (e' & -> & He' & _). pose proof (inv_sound _ _ Hinv _ _ Hph) as [_ Hk].
    specialize (Hk _ eq_refl). cbn [snd] in Hk. rewrite Hk in Hat. destruct Hat as [_ ->]. cbn in Hnone.
    apply lookup_delete_None in Hnone as [->|]; [|congruence]. congruence.
Qed.

(** ** Witness: a deletion in the database and a request to unplug, one after the other *)

#[local] Definition demo_env : dict string string :=
  [("CNI_COMMAND", "ADD"); ("CNI_ARGS", "K8S_POD_NAME=u1;ZUN_CONTAINER_TYPE=CONTAINER"); ("CNI_IFNAME", "eth0");
   ("CNI_NETNS", "/proc/7/ns/net"); ("CNI_CONTAINERID", "c1")].
#[local] Definition demo_entry : entry := mkEntry "c1" false false [("eth0", mkVif "p1" true)].
#[local] Definition demo_world : world := mkWorld {["u1" := demo_entry]} ∅.

(** A system with the interfaces [l], the rows [db] and the ports [ports]. *)
#[local] Definition reply_with (l : string → dict string vif) (db : list string) (ports : list vif)
    (w : world) {B} (c : call B) : option (outcome exn B * world) :=
  match c in call B return option (outcome exn B * world) with
  | Lock u => if bool_decide (u ∈ w_locked w) then None else Some (Ok tt, mkWorld (w_reg w) ({[u]} ∪ w_locked w))
  | Unlock u => Some (Ok tt, mkWorld (w_reg w) (w_locked w ∖ {[u]}))
  | RegGet u => Some (match w_reg w !! u with Some e => Ok e | None => Raise (Py KeyError) end, w)
  | RegSet u e => Some (Ok tt, mkWorld (<[u:=e]> (w_reg w)) (w_locked w))
  | RegDel u => Some (match w_reg w !! u with
                      | Some _ => (Ok tt, mkWorld (base.delete u (w_reg w)) (w_locked w))
                      | None => (Raise (Py KeyError), w)
                      end)
  | RegFind u => Some (Ok (w_reg w !! u), w)
  | RegCopy => Some (Ok (map_to_list (w_reg w)), w)
  | GetVifs _ u => Some (Ok (l u), w)
  | Plug _ _ _ _ _ | Unplug _ _ _ _ | Sleep => Some (Ok tt, w)
  | ListByHost _ => Some (Ok db, w)
  | ListPorts => Some (Ok ports, w)
  | DelayOver => Some (Ok false, w)
  end.

Lemma reply_atomic l db ports w B (c : call B) o w' : reply_with l db ports w c = Some (o, w') → atomic w c o w'.
Proof.
  destruct c; cbn; try (intros [= <- <-]; done); intros Hr.
  - case_bool_decide; by simplify_eq.
  - destruct (w_reg w !! u); by simplify_eq.
  - simplify_eq. split; [done|]. eexists. split; [done|]. apply list_to_map_to_list.
Qed.

(** The watcher sees the deletion between the two look-ups of the handler. *)
#[local] Definition demo_moves : list nat := [0; 1; 1; 1; 1; 1; 1; 1; 1; 0; 0; 0; 0].
Abbreviation demo_procs := [serve_delete demo_env true; (_ ← sync_containers; Return 0%Z)].

Lemma registry_settled_witness :
  let w' := mkWorld {["u1" := mkEntry "c1" false true (vifs demo_entry)]} {["u1"]} in
  ∃ procs', rtc registry_step (demo_procs, demo_world) (procs', w') ∧
  (∀ u e, w_reg w' !! u = Some e → vif_unplugged e = false ∨ del_received e = false) ∧
  ∀ procs2 w2 u e, registry_step (procs', w') (procs2, w2) → w_reg w' !! u = Some e → w_reg w2 !! u = None →
    vif_unplugged e = true ∨ del_received e = true.
Proof.
  cbv zeta.
  destruct (schedule (call:=call) (λ w B c, reply_with (λ _, vifs demo_entry) [] [] w c) demo_moves (demo_procs, demo_world))
    as [[procs' w']|] eqn:Hs; [|vm_compute in Hs; discriminate].
  assert (w' = mkWorld {["u1" := mkEntry "c1" false true (vifs demo_entry)]} {["u1"]}) as Hw.
  { vm_compute in Hs. injection Hs as _ <-. vm_compute. reflexivity. }
  apply (schedule_steps (call:=call) (λ w B c, @atomic w B c)) in Hs; [|exact (reply_atomic _ _ _)]. rewrite Hw in Hs.
  exists procs'. split; [exact Hs|].
  apply (registry_settled 60 demo_procs demo_world procs' _); [|by apply map_Forall_singleton; left|done|exact Hs].
  repeat constructor.
Defined.

(** ** Where the daemon goes wrong *)

(** The watcher marks the interface of every container that has one of that name, when
    the port of one of them becomes active: the interface of [u2] is not up. *)
Lemma other_port_activates :
  let e p := mkEntry "c" false false [("eth0", mkVif p false)] in
  let w := mkWorld {["u1" := e "p1"; "u2" := e "p2"]} ∅ in
  ∃ procs' w', rtc registry_step ([_ ← poll_vif_status; Return 0%Z], w) (procs', w') ∧
    procs' = [Return 0%Z] ∧ vifs <$> w_reg w' !! "u2" = Some [("eth0", mkVif "p2" true)].
Proof.
  cbv zeta. set (w := mkWorld _ _).
  destruct (schedule (call:=call) (λ w B c, reply_with (λ _, []) [] [mkVif "p1" true; mkVif "p2" false] w c)
    (replicate 12 0) ([_ ← poll_vif_status; Return 0%Z], w)) as [[procs' w']|] eqn:Hs; [|vm_compute in Hs; discriminate].
  exists procs', w'. split; [|vm_compute in Hs; injection Hs as <- <-; by vm_compute].
  eapply (schedule_steps (call:=call) (λ w B c, @atomic w B c)); [intros *; apply reply_atomic|exact Hs].
Qed.

(** A wait that ends with a result has all interfaces active: a time out is an error of
    the retrying library, and the [ResourceNotReady] after the wait is never raised. *)
Lemma wait_all_active `{Answers exn call} n u log l log' :
  run (wait_for_active n u) log = (Ok l, log') → any_vif_inactive l = false.
Proof.
  revert log. induction n as [|n IH]; intros log; cbn; destruct (answer (RegGet u) log) as [e|x]; cbn;
    try (destruct (any_vif_inactive (vifs e)) eqn:Ha; [|intros [= <- <-]; exact Ha]);
    cbn; destruct (answer DelayOver _) as [over|y]; cbn; try done.
  all: destruct over; cbn; [done|]; destruct (answer Sleep _) as [[]|z]; cbn; [apply IH|done].
Qed.
