(* ===== verification/Websocket.v ===== *)
(** * The websocket proxy (src/zun/websocket/websocketproxy.py)

    A client that holds the token of a container, or of an exec instance of it, is
    relayed to its console.  The first half checks a request: its query, the token,
    and where it comes from.  The second relays, with the sockets a class; what is
    received from a socket and handed to the other is recorded, so that theorems can
    speak of the streams.  Bytes are characters. *)

From Stdlib Require Import Ascii.
From S2P Require Import Prelude Exceptions PyStr DockerDriver.

(** ** What is used of [urllib.parse] *)

Definition is_letter (c : ascii) : bool :=
  let n := code_of c in (((65 <=? n) && (n <=? 90)) || ((97 <=? n) && (n <=? 122)))%Z.
Definition is_scheme_char (c : ascii) : bool :=
  is_letter c || (((48 <=? code_of c) && (code_of c <=? 57)))%Z || bool_decide (c ∈ ["+"; "-"; "."]%char).

(** The scheme and the rest. *)
Definition url_scheme (url : string) : string * string :=
  match partition ":" url with
  | (s, true, rest) =>
      match explode s with
      | c :: l => if is_letter c && forallb is_scheme_char l then (lower s, rest) else ("", url)
      | [] => ("", url)
      end
  | _ => ("", url)
  end.

Fixpoint until (stop : ascii → bool) (l : chars) : chars * chars :=
  match l with
  | [] => ([], [])
  | c :: l' => if stop c then ([], l) else let '(a, b) := until stop l' in (c :: a, b)
  end.

Definition url_netloc (rest : string) : string * string :=
  match explode rest with
  | "/"%char :: "/"%char :: l =>
      let '(a, b) := until (λ c, bool_decide (c ∈ ["/"; "?"; "#"]%char)) l in (implode a, implode b)
  | _ => ("", rest)
  end.

Record url : Type := mkUrl { u_scheme : string; u_netloc : string; u_query : string }.
Definition has (c : ascii) (s : string) : bool := bool_decide (c ∈ explode s).

Definition urlparse (s : string) : option url :=
  let '(scheme, rest) := url_scheme s in
  let '(netloc, rest) := url_netloc rest in
  if xorb (has "[" netloc) (has "]" netloc) then None else
  let '(before, _, _) := partition "#" rest in
  let '(_, _, query) := partition "?" before in
  Some (mkUrl scheme netloc query).

(** What follows the last ["@"]. *)
Fixpoint after_last (sep : ascii) (l : chars) : chars :=
  match l with
  | [] => []
  | c :: l' => if bool_decide (sep ∈ l') then after_last sep l'
               else if bool_decide (c = sep) then l' else l
  end.

(** [.hostname] *)
Definition hostname (u : url) : option string :=
  let hostinfo := implode (after_last "@" (explode (u_netloc u))) in
  let '(_, bracketed, rest) := partition "[" hostinfo in
  let h := if bracketed : bool then (partition "]" rest).1.1 else (partition ":" hostinfo).1.1 in
  let '(name, delim, zone) := partition "%" h in
  if str_true h then Some (lower name ++ (if delim : bool then "%" else "") ++ zone)%string else None.

Fixpoint unquote (l : chars) : chars :=
  match l with
  | "%"%char :: ((a :: b :: l2) as l1) =>
      match digit_in 16 a, digit_in 16 b with
      | Some x, Some y => ascii_of_nat (Z.to_nat (16 * x + y)) :: unquote l2
      | _, _ => "%"%char :: unquote l1
      end
  | c :: l' => c :: unquote l'
  | [] => []
  end.
Definition unquote_plus (s : string) : string :=
  implode (unquote ((λ c, if bool_decide (c = "+"%char) then " "%char else c) <$> explode s)).

(** [parse_qs(query).get(name, \[""\]).pop()]: the last value that is not blank. *)
Definition parse_qs (query : string) : list (string * string) :=
  omap (λ nv, match partition "=" nv with
              | (n, true, v) => if str_true v then Some (unquote_plus n, unquote_plus v) else None
              | _ => None
              end) (split "&" query).
Definition query_value (query name : string) : string :=
  default "" (snd <$> last (filter (λ nv : string * string, nv.1 = name) (parse_qs query))).

(** ** Who may connect *)

Record exec_instance : Type := mkExec { x_exec_id : string; x_token : string; x_url : string }.
Record console : Type := mkConsole {
  websocket_token : option string; websocket_url : option string; exec_instances : list exec_instance
}.
Record headers : Type := mkHeaders { h_host : option string; h_origin : option string; h_forwarded_proto : option string }.

(** The state of the process: the list of the option [allowed_origins], which is
    extended in place. *)
Abbreviation pm := (M exn (list string)).

Definition verify_origin_proto (access_url origin_proto : string) : pm bool :=
  raise_if (bool_decide (access_url = "")) (Zun ValidationError);;;
  let! u := of_option (urlparse access_url) (Py ValueError) in
  let scheme := u_scheme u in
  let expected := [scheme] ++ (if bool_decide (scheme = "ws") then ["http"] else [])
                           ++ (if bool_decide (scheme = "wss") then ["https"] else []) in
  ret (bool_decide (origin_proto ∈ expected)).

(** The host of the header [Host], without its port. *)
Definition host_of (e : string) : string :=
  if has ":" e then
    if has "[" e && has "]" e then
      implode (drop 1 (explode (default "" (head (split "]" e)))))
    else default "" (head (split ":" e))
  else e.

Definition _verify_origin (h : headers) (access_url : string) : pm unit :=
  let! expected_origin_hostname := of_option (h_host h) (Py TypeError) in
  modify (λ l, l ++ [host_of expected_origin_hostname]);;;
  let! expected_origin_hostnames := get in
  match h_origin h with
  | None => ret tt
  | Some origin_url =>
      let! origin := of_option (urlparse origin_url) (Py ValueError) in
      let origin_scheme := default (u_scheme origin) (h_forwarded_proto h) in
      raise_if (bool_decide (origin_scheme = "")) (Zun ValidationError);;;
      raise_if (match hostname origin with Some n => negb (bool_decide (n ∈ expected_origin_hostnames)) | None => true end)
        (Zun ValidationError);;;
      let! ok := verify_origin_proto access_url origin_scheme in
      raise_if (negb ok) (Zun ValidationError)
  end.

(** What is connected to. *)
Inductive target : Type := Console (url : string) | Exec (url exec_id : string).

Section Requests.
(** [CONF.websocket_proxy.base_url]; [uuidutils.is_uuid_like]; the container of a uuid
    or of a name, for an administrator of all projects *)
Context (base_url : string) (is_uuid_like : string → bool)
  (get_by_uuid get_by_name : string → outcome exn console).

Definition access_url (token uuid : string) : string := (base_url ++ "?token=" ++ token ++ "&uuid=" ++ uuid)%string.

Definition _new_websocket_client (h : headers) (c : console) (token uuid : string) : pm target :=
  raise_if (negb (bool_decide (websocket_token c = Some token))) (Zun InvalidWebsocketToken);;;
  _verify_origin h (access_url token uuid);;;
  if ostr_true (websocket_url c) then ret (Console (default "" (websocket_url c))) else raise (Zun InvalidWebsocketUrl).

Definition _new_exec_client (h : headers) (c : console) (token uuid exec_id : string) : pm target :=
  match last (filter (λ e, x_token e = token ∧ x_exec_id e = exec_id) (exec_instances c)) with
  | None => raise (Zun InvalidWebsocketToken)
  | Some e => _verify_origin h (access_url token uuid);;; ret (Exec (x_url e) exec_id)
  end.

Definition of_outcome {A} (o : outcome exn A) : pm A := match o with Ok a => ret a | Raise x => raise x end.

Definition new_websocket_client (path : string) (h : headers) : pm target :=
  let! parse := of_option (urlparse path) (Py ValueError) in
  let token := query_value (u_query parse) "token" in
  let uuid := query_value (u_query parse) "uuid" in
  let exec_id := query_value (u_query parse) "exec_id" in
  let! container := of_outcome (if is_uuid_like uuid then get_by_uuid uuid else get_by_name uuid) in
  if str_true exec_id then _new_exec_client h container token uuid exec_id
  else _new_websocket_client h container token uuid.

(** Who holds the token [t] of the container named [u] (or of its instance [x]). *)
Definition holds_token (c : console) (t x : string) (g : target) : Prop :=
  match g with
  | Console w => x = "" ∧ websocket_token c = Some t ∧ websocket_url c = Some w
  | Exec w i => x ≠ "" ∧ i = x ∧ mkExec x t w ∈ exec_instances c
  end.

(** The page of the request is allowed: it has no origin (no browser), or its host is one
    of [hosts] and its protocol that of the proxy. *)
Definition page_allowed (h : headers) (hosts : list string) (proxy : string) : Prop :=
  match h_origin h with
  | None => True
  | Some o => ∃ u n a, urlparse o = Some u ∧ hostname u = Some n ∧ n ∈ hosts ∧ urlparse proxy = Some a ∧
      let p := default (u_scheme u) (h_forwarded_proto h) in
      p = u_scheme a ∨ (u_scheme a = "ws" ∧ p = "http") ∨ (u_scheme a = "wss" ∧ p = "https")
  end.

Lemma verify_origin_Ok h proxy allowed s' :
  _verify_origin h proxy allowed = (Ok tt, s') →
  ∃ host, h_host h = Some host ∧ s' = allowed ++ [host_of host] ∧ page_allowed h (allowed ++ [host_of host]) proxy.
Proof.
  unfold _verify_origin, page_allowed. intros Hrun. run_inv. rename a into host, s into allowed. exists host. split; [done|].
  destruct (h_origin h) as [o|]; [|by run_inv].
  unfold verify_origin_proto in Hrun. run_inv. split; [done|].
  destruct (hostname _) as [n|] eqn:Hn; [|done]. eexists _, n, _. split_and!; [done|done| |done|].
  { by destruct (decide (n ∈ allowed ++ [host_of host])); [|rewrite bool_decide_false in Hc0]. }
  apply negb_false_iff, bool_decide_eq_true in Hc1. repeat case_bool_decide; set_solver.
Qed.

(** C9. The proxy connects a client to a console, or to an exec instance, only for a
    request that carries the token of that very console or instance of the container
    the request names; and, when the request comes from a page, only if the page is
    of the host the request is for, or of an allowed one, and uses the protocol of
    the proxy. *)
Theorem connect_needs_token path h allowed g s' :
  new_websocket_client path h allowed = (Ok g, s') →
  ∃ u c host, urlparse path = Some u ∧
    let token := query_value (u_query u) "token" in
    let uuid := query_value (u_query u) "uuid" in
    (if is_uuid_like uuid then get_by_uuid uuid else get_by_name uuid) = Ok c ∧
    holds_token c token (query_value (u_query u) "exec_id") g ∧
    h_host h = Some host ∧ page_allowed h (allowed ++ [host_of host]) (access_url token uuid).
Proof.
  unfold new_websocket_client. intros Hrun. run_inv. exists a. cbv zeta.
  set (token := query_value (u_query a) "token") in *. set (uuid := query_value (u_query a) "uuid") in *.
  set (x := query_value (u_query a) "exec_id") in *.
  destruct (if is_uuid_like uuid then get_by_uuid uuid else get_by_name uuid) as [c|e]; [|done].
  unfold of_outcome in Hrun0. run_inv. exists a0. unfold str_true in Hrun. case_bool_decide as Hx.
  - unfold _new_exec_client in Hrun. destruct (last _) as [e|] eqn:He; [|done]. run_inv.
    destruct a1. apply verify_origin_Ok in Hrun0 as (host & Hh & _ & Hpage). exists host. split_and!; try done.
    apply last_Some in He as [l He].
    assert (e ∈ l ++ [e]) as Hin by set_solver. rewrite <- He in Hin. apply list_elem_of_filter in Hin as [[Ht Hi] Hin]. split_and!; [done|done|]. rewrite <- Ht, <- Hi. by destruct e.
  - unfold _new_websocket_client in Hrun. run_inv. destruct (ostr_true (websocket_url a0)) eqn:Hurl; [|done]. run_inv.
    match goal with Hv : _verify_origin _ _ _ = (Ok ?v, _) |- _ => destruct v; apply verify_origin_Ok in Hv as (host & Hh & _ & Hpage) end.
    exists host. split_and!; try done.
    cbn. split_and!; [by destruct (decide (x = ""))|by apply negb_false_iff, bool_decide_eq_true in Hc|].
    unfold ostr_true in Hurl. by destruct (websocket_url a0).
Qed.
End Requests.

(** ** The relay *)

(** An exception of the service, a full buffer, another error of a socket, the client's
    connection closed with a code. *)
Inductive wfault : Type := Exn (x : exn) | Full | SocketError | CClose (code : Z).

Record ready : Type := mkReady { client_out : bool; client_in : bool; target_out : bool; target_in : bool; failed : bool }.

Class Sockets (W : Type) : Type := {
  select : bool → bool → M wfault W (option ready);        (* write to the target, to the client; None: interrupted *)
  recv_frames : M wfault W (list chars * option Z);
  send_frames : list chars → M wfault W Z;
  target_send : chars → M wfault W nat;
  target_recv : M wfault W chars;
  send_ping : M wfault W unit;
  now : M wfault W Z
}.

Section Relay.
Context {W : Type} `{Sockets W}.

(** The queues of the proxy; what came from each side and what was handed to it. *)
Record relay : Type := mkRelay {
  r_w : W;
  tqueue : list chars;
  cqueue : list chars;
  c_pend : Z;
  heartbeat : option Z;
  from_client : chars; to_target : chars;
  from_target : list chars; to_client : list chars
}.
Abbreviation rm := (M wfault relay).

Definition sockets {A} (m : M wfault W A) : rm A := λ s,
  match m (r_w s) with
  | (o, w) => (o, mkRelay w (tqueue s) (cqueue s) (c_pend s) (heartbeat s) (from_client s) (to_target s) (from_target s) (to_client s))
  end.

Definition set_tqueue (q : list chars) : rm unit := modify (λ s,
  mkRelay (r_w s) q (cqueue s) (c_pend s) (heartbeat s) (from_client s) (to_target s) (from_target s) (to_client s)).
Definition received_from_client (bufs : list chars) : rm unit := modify (λ s,
  mkRelay (r_w s) (tqueue s ++ bufs) (cqueue s) (c_pend s) (heartbeat s) (from_client s ++ mjoin bufs) (to_target s)
    (from_target s) (to_client s)).
Definition handed_to_target (b : chars) : rm unit := modify (λ s,
  mkRelay (r_w s) (tqueue s) (cqueue s) (c_pend s) (heartbeat s) (from_client s) (to_target s ++ b) (from_target s) (to_client s)).
Definition received_from_target (b : chars) : rm unit := modify (λ s,
  mkRelay (r_w s) (tqueue s) (cqueue s ++ [b]) (c_pend s) (heartbeat s) (from_client s) (to_target s)
    (from_target s ++ [b]) (to_client s)).
Definition handed_to_client (pend : Z) : rm unit := modify (λ s,
  mkRelay (r_w s) (tqueue s) [] pend (heartbeat s) (from_client s) (to_target s) (from_target s) (to_client s ++ cqueue s)).
Definition set_heartbeat (t : Z) : rm unit := modify (λ s,
  mkRelay (r_w s) (tqueue s) (cqueue s) (c_pend s) (Some t) (from_client s) (to_target s) (from_target s) (to_client s)).

(** [_send_buffer] without [send_all]: what is left when the buffers are full.  Each
    round sends at least one character, so the length of the buffer bounds them. *)
Fixpoint send_loop (fuel : nat) (buff : chars) : rm (option chars) :=
  match buff, fuel with
  | [], _ => ret None
  | _, O => raise (Exn OutOfFuel)
  | _, S fuel =>
      let! sent := try_except (let! n := sockets (target_send buff) in ret (Some n))
        (λ e, match e with
              | Full => Some (ret None)
              | SocketError => Some (raise (Exn (Zun SocketException)))
              | _ => None
              end) in
      match sent with
      | None => ret (Some buff)
      | Some O => raise (Exn (Py OtherException))
      | Some n => handed_to_target (take n buff);;; send_loop fuel (drop n buff)
      end
  end.
Definition _send_buffer (buff : chars) : rm (option chars) := send_loop (length buff) buff.

(** The queue is a list, which has no [appendleft]. *)
Fixpoint drain (queue : list chars) : rm unit :=
  match queue with
  | [] => ret tt
  | payload :: rest =>
      set_tqueue rest;;;
      let! remaining := _send_buffer payload in
      match remaining with
      | Some _ => raise (Exn (Py AttributeError))
      | None => drain rest
      end
  end.

Definition when (b : bool) (m : rm unit) : rm unit := if b then m else ret tt.

Definition _handle_ins_outs (r : ready) : rm unit :=
  when (client_out r) (
    let! q := gets cqueue in
    let! pend := sockets (send_frames q) in
    handed_to_client pend);;;
  when (client_in r) (
    let! '(bufs, closed) := sockets recv_frames in
    received_from_client bufs;;;
    match closed with Some code => raise (CClose code) | None => ret tt end);;;
  when (target_out r) (let! q := gets tqueue in drain q);;;
  when (target_in r) (
    let! buf := sockets target_recv in
    match buf with
    | [] => raise (CClose 1000)
    | _ => received_from_target buf
    end).

(** One round of the loop of [do_websocket_proxy]; [every] is the option [heartbeat]. *)
Definition round (every : Z) : rm unit :=
  let! s := get in
  match heartbeat s with
  | Some t => let! t' := sockets now in
              when (t <? t')%Z (set_heartbeat (t' + every);;; sockets send_ping)
  | None => ret tt
  end;;;
  let! s := get in
  let! r := sockets (select (bool_decide (tqueue s ≠ [])) (bool_decide (cqueue s ≠ [] ∨ c_pend s ≠ 0%Z))) in
  match r with
  | None => ret tt
  | Some r => raise_if (failed r) (Exn (Zun SocketException));;; _handle_ins_outs r
  end.

(** The start of the proxy, and its first [n] rounds. *)
Definition do_websocket_proxy (every : Z) (n : nat) : rm unit :=
  modify (λ s, mkRelay (r_w s) [] [] 0 None (from_client s) (to_target s) (from_target s) (to_client s));;;
  (if bool_decide (every = 0%Z) then ret tt else let! t := sockets now in set_heartbeat (t + every));;;
  repeat_m n (round every).

(** ** What is relayed *)

Definition lossless (s : relay) : Prop :=
  from_client s = to_target s ++ mjoin (tqueue s) ∧ from_target s = to_client s ++ cqueue s.
Definition in_order (s : relay) : Prop :=
  to_target s `prefix_of` from_client s ∧ to_client s `prefix_of` from_target s.

Lemma lossless_in_order s : lossless s → in_order s.
Proof. intros [Ht Hc]. split; [by exists (mjoin (tqueue s))|by exists (cqueue s)]. Qed.

(** The sockets keep the state of the proxy. *)
Lemma sockets_keep {A} P (m : M wfault W A) :
  (∀ w s, P s → P (mkRelay w (tqueue s) (cqueue s) (c_pend s) (heartbeat s) (from_client s) (to_target s) (from_target s) (to_client s))) →
  preserves P (sockets m).
Proof. intros HP s Hs. unfold sockets. destruct (m (r_w s)) as [[a|e] w]; by apply HP. Qed.

Lemma sockets_lossless {A} (m : M wfault W A) : preserves lossless (sockets m).
Proof. by apply sockets_keep. Qed.

Lemma heartbeat_lossless t : preserves lossless (set_heartbeat t).
Proof. by intros s Hs. Qed.
#[local] Hint Resolve sockets_lossless heartbeat_lossless : py.

(** Inside the queue: [b] is what is left of the buffer being sent. *)
Definition sending (b : chars) (s : relay) : Prop :=
  from_client s = to_target s ++ b ++ mjoin (tqueue s) ∧ from_target s = to_client s ++ cqueue s.

Lemma sending_in_order b s : sending b s → in_order s.
Proof. intros [Ht Hc]. split; [by eexists|by exists (cqueue s)]. Qed.

Lemma send_loop_sends fuel b :
  hoare (sending b) (send_loop fuel b) (λ r, sending (default [] r)) (λ _, in_order).
Proof.
  revert b. induction fuel as [|fuel IH]; intros [|a b]; cbn [send_loop]; try (by intros s Hs).
  { intros s Hs. by eapply sending_in_order. }
  eapply (hoare_bind _ _ _ (λ _, sending (a :: b))).
  - intros s Hs. unfold try_except, bind, sockets. destruct (target_send _ _) as [[n|e] w]; [done|].
    destruct e; cbn; try done; by eapply sending_in_order, Hs.
  - intros [[|n]|]; [by intros s Hs; eapply sending_in_order| |by intros s Hs].
    eapply (hoare_bind _ _ _ (λ _, sending (drop (S n) (a :: b)))); [|intros _; apply IH].
    intros s [Ht Hc]. split; [|done]. cbn [from_client to_target handed_to_target].
    by rewrite <- app_assoc, (app_assoc (take _ _)), take_drop.
Qed.

Lemma send_loop_queue q fuel b : preserves (λ s, tqueue s = q) (send_loop fuel b).
Proof.
  revert b. induction fuel as [|fuel IH]; intros [|a b]; cbn [send_loop]; keep.
  - by apply sockets_keep.
  - by destruct e; simplify_eq; keep.
  - by intros s Hs.
Qed.

Lemma drain_sends q : hoare (λ s, lossless s ∧ tqueue s = q) (drain q) (λ _, lossless) (λ _, in_order).
Proof.
  induction q as [|b q IH]; [by intros s []|]. cbn [drain].
  eapply (hoare_bind _ _ _ (λ _ s, sending b s ∧ tqueue s = q)).
  { intros s [[Ht Hc] Hq]. rewrite Hq in Ht. by repeat split. }
  intros _. eapply (hoare_bind _ _ _ (λ r s, sending (default [] r) s ∧ tqueue s = q)).
  { eapply hoare_conseq; [exact (hoare_frame _ _ _ _ _ (send_loop_sends _ _) (send_loop_queue q _ _))|..];
      [by intros|by intros|by intros e s []]. }
  intros [r|]; [intros s [Hs _]; by eapply sending_in_order|exact IH].
Qed.

Lemma when_at b m (Q : relay → Prop) X : hoare Q m (λ _, Q) X → hoare Q (when b m) (λ _, Q) X.
Proof. intros Hm. destruct b; [done|by intros s Hs]. Qed.

(** A part that keeps everything, then the rest. *)
Lemma kept_then {A B} (m : M wfault relay A) (f : A → M wfault relay B) Q :
  preserves lossless m → (∀ a, hoare lossless (f a) Q (λ _, in_order)) → hoare lossless (bind m f) Q (λ _, in_order).
Proof.
  intros Hm Hf. eapply (hoare_bind _ _ _ (λ _, lossless)); [|exact Hf].
  eapply hoare_conseq; [exact Hm|done|done|]. intros e s. apply lossless_in_order.
Qed.

Lemma kept {A} (m : M wfault relay A) : preserves lossless m → hoare lossless m (λ _, lossless) (λ _, in_order).
Proof. intros Hm. eapply hoare_conseq; [exact Hm|done|done|]. intros e s. apply lossless_in_order. Qed.

Lemma handle_relays r : hoare lossless (_handle_ins_outs r) (λ _, lossless) (λ _, in_order).
Proof.
  unfold _handle_ins_outs.
  eapply (hoare_bind _ _ _ (λ _, lossless)); [apply when_at|intros _].
  { apply kept_then; [keep|intros q]. apply kept_then; [apply sockets_lossless|intros pend].
    intros s [Ht Hc]. split; [done|]. cbn. by rewrite app_nil_r. }
  eapply (hoare_bind _ _ _ (λ _, lossless)); [apply when_at|intros _].
  { apply kept_then; [apply sockets_lossless|intros [bufs closed]].
    eapply (hoare_bind _ _ _ (λ _, lossless)); [|intros _; apply kept; keep].
    intros s [Ht Hc]. split; [|done]. cbn. by rewrite Ht, join_app, app_assoc. }
  eapply (hoare_bind _ _ _ (λ _, lossless)); [apply when_at|intros _].
  { intros s Hs. exact (drain_sends (tqueue s) s (conj Hs eq_refl)). }
  apply when_at. apply kept_then; [apply sockets_lossless|intros [|a b]]; [by apply kept; keep|].
  intros s [Ht Hc]. split; [done|]. cbn. by rewrite Hc, app_assoc.
Qed.

Lemma round_relays every : hoare lossless (round every) (λ _, lossless) (λ _, in_order).
Proof.
  unfold round. apply kept_then; [keep|intros s0].
  apply kept_then; [unfold when; keep|intros _].
  apply kept_then; [keep|intros s1]. apply kept_then; [apply sockets_lossless|intros [r|]]; [|by apply kept; keep].
  apply kept_then; [keep|intros _]. apply handle_relays.
Qed.

(** C26. The proxy relays in order and makes nothing up: whatever the sockets do, and
    however the connection ends, what the target was given is a prefix of what the
    client sent, and the client is given a prefix of the frames of the target.  As
    long as the proxy runs nothing is lost either: the rest is in its queues. *)
Theorem relay_in_order every n s :
  from_client s = [] → to_target s = [] → from_target s = [] → to_client s = [] →
  match do_websocket_proxy every n s with
  | (Ok _, s') => lossless s'
  | (Raise _, s') => in_order s'
  end.
Proof.
  intros Hfc Htt Hft Htc.
  cut (hoare (λ s, from_client s = [] ∧ to_target s = [] ∧ from_target s = [] ∧ to_client s = [])
    (do_websocket_proxy every n) (λ _, lossless) (λ _, in_order)).
  { intros Hrun. apply Hrun. by split_and!. }
  eapply (hoare_bind _ _ _ (λ _, lossless)).
  { intros x (H1 & H2 & H3 & H4). unfold lossless. cbn. rewrite H1, H2, H3, H4. done. }
  intros _. apply kept_then; [keep|intros _].
  induction n as [|n IH]; [by intros s1 Hs1|]. cbn [repeat_m].
  eapply (hoare_bind _ _ _ (λ _, lossless)); [apply round_relays|intros _; exact IH].
Qed.
End Relay.

(** ** Witnesses, and where the relay goes wrong *)

#[local] Definition demo_console : console := mkConsole (Some "tok") (Some "ws://10.0.0.1:2375/attach") [].
#[local] Definition demo_headers : headers := mkHeaders (Some "zun.example.org:6784") (Some "https://Zun.example.org") None.
#[local] Definition demo_path : string := "/?token=a&token=tok&uuid=c1".
#[local] Definition demo_found : string → outcome exn console :=
  λ u, if bool_decide (u = "c1") then Ok demo_console else Raise (Zun ContainerNotFound).
Abbreviation demo_connect := (new_websocket_client "wss://proxy:6784/" (λ _, false) demo_found demo_found demo_path demo_headers []).

Lemma connect_needs_token_witness :
  ∃ u c host, urlparse demo_path = Some u ∧ demo_found (query_value (u_query u) "uuid") = Ok c ∧
    query_value (u_query u) "token" = "tok" ∧ holds_token c "tok" "" (Console "ws://10.0.0.1:2375/attach") ∧
    h_host demo_headers = Some host ∧
    page_allowed demo_headers ([] ++ [host_of host]) (access_url "wss://proxy:6784/" "tok" "c1").
Proof.
  assert (demo_connect = (Ok (Console "ws://10.0.0.1:2375/attach"), ["zun.example.org"])) as Hrun by (vm_compute; reflexivity).
  destruct (connect_needs_token _ _ _ _ _ _ _ _ _ Hrun) as (u & c & host & Hu & Hc & Hg & Hh & Hp).
  exists u, c, host. assert (Some u = urlparse demo_path) as Hu' by (symmetry; exact Hu).
  vm_compute in Hu'. injection Hu' as ->. split; [exact Hu|]. split; [exact Hc|]. split; [vm_compute; reflexivity|].
  split; [exact Hg|]. split; [exact Hh|exact Hp].
Defined.

(** A target that takes one character, then is full; a client that sends two frames. *)
#[local] Definition slow : Sockets nat := {|
  select _ _ := λ w, (Ok (Some (mkReady false (bool_decide (w = 0)) (negb (bool_decide (w = 0))) false false)), w);
  recv_frames := λ w, (Ok ([explode "ab"; explode "c"], None), S w);
  send_frames _ := λ w, (Ok 0%Z, w);
  target_send b := λ w, if bool_decide (w = 1) then (Ok 1, 2) else (Raise Full, w);
  target_recv := λ w, (Ok [], w);
  send_ping := λ w, (Ok tt, w);
  now := λ w, (Ok 0%Z, w)
|}.
#[local] Definition opened : @relay nat := mkRelay 0 [] [] 0 None [] [] [] [].

Lemma relay_in_order_witness :
  let r := do_websocket_proxy (H:=slow) 0 2 opened in
  r.1 = Raise (Exn (Py AttributeError)) ∧ in_order r.2 ∧
  implode (from_client r.2) = "abc" ∧ implode (to_target r.2) = "a".
Proof.
  cbv zeta. split; [vm_compute; reflexivity|]. split; [|split; vm_compute; reflexivity].
  pose proof (relay_in_order (H:=slow) 0 2 opened eq_refl eq_refl eq_refl eq_refl) as Hrelay.
  assert ((do_websocket_proxy (H:=slow) 0 2 opened).1 = Raise (Exn (Py AttributeError))) as Hend by (vm_compute; reflexivity).
  destruct (do_websocket_proxy 0 2 opened) as [[u|e] s']; [done|exact Hrelay].
Defined.

(** A target that takes only part of a buffer ends the connection: the queue is a list,
    which has no [appendleft]. *)
Lemma full_target_ends_relay {W} `{Sockets W} (s : relay) b rest w :
  tqueue s = b :: rest → b ≠ [] → target_send b (r_w s) = (Raise Full, w) →
  (drain (tqueue s) s).1 = Raise (Exn (Py AttributeError)).
Proof.
  intros Hq Hb Hfull. rewrite Hq. cbn [drain]. unfold set_tqueue at 1. rewrite bind_modify.
  destruct b as [|a b]; [done|]. unfold _send_buffer. cbn [length send_loop].
  unfold bind, try_except, sockets. cbn [r_w]. rewrite Hfull. done.
Qed.
