(* ===== verification/Regex.v ===== *)
(** * The regular expressions of Python's [re] that the service's patterns use

    A pattern as a tree, the text it is written as, and the backtracking matcher:
    alternatives are tried in order, repetitions greedily, and the rest of the
    pattern is a continuation.  What an alternative that fails does is a class, so
    that the same matcher finds the first match, or counts what it tries.

    Three readings of a pattern agree: the matcher, the list of all the ways to
    match in the order they are tried ([ways]), and the words of its language
    ([lang]).  Characters are those of code below 256. *)

From Stdlib Require Import Ascii.
From S2P Require Import Prelude PyStr.

(** ** Patterns *)

Inductive item : Type :=
| Range (a b : ascii)
| One (c : ascii)
| Word. (** [\w] *)

Inductive re : Type :=
| Eps
| Bol (** [^] *)
| Eol (** [$] *)
| Chr (c : ascii)
| Class_ (its : list item)
| Seq (a b : re)
| Alt (a b : re)
| Rep (a : re) (lo : nat) (hi : option nat)
| Grp (a : re) (** [(?:...)] *)
| Cap (a : re). (** [(...)] *)

(** A letter or a digit, whatever the alphabet: [str.isalnum]. *)
Definition is_alnum (c : ascii) : bool :=
  let n := code_of c in
  (((48 <=? n) && (n <=? 57)) || ((65 <=? n) && (n <=? 90)) || ((97 <=? n) && (n <=? 122))
   || bool_decide (n ∈ [170; 178; 179; 181; 185; 186; 188; 189; 190])
   || ((192 <=? n) && (n <=? 214)) || ((216 <=? n) && (n <=? 246)) || ((248 <=? n) && (n <=? 255)))%Z.

Definition in_item (c : ascii) (it : item) : bool :=
  match it with
  | Range a b => ((code_of a <=? code_of c) && (code_of c <=? code_of b))%Z
  | One d => bool_decide (c = d)
  | Word => is_alnum c || bool_decide (c = "_"%char)
  end.
Definition in_class (c : ascii) (its : list item) : bool := existsb (in_item c) its.

Fixpoint groups (r : re) : nat :=
  match r with
  | Cap a => S (groups a)
  | Seq a b | Alt a b => groups a + groups b
  | Rep a _ _ | Grp a => groups a
  | _ => 0
  end.

(** ** The text of a pattern *)

Definition dec (n : nat) : string := pretty.pretty n.

Definition show_item (it : item) : string :=
  match it with
  | Range a b => implode [a; "-"%char; b]
  | One c => implode [c]
  | Word => "\w"
  end.

Definition show_times (lo : nat) (hi : option nat) : string :=
  match lo, hi with
  | 0, None => "*"
  | 1, None => "+"
  | 0, Some 1 => "?"
  | _, None => "{" ++ dec lo ++ ",}"
  | _, Some h => "{" ++ dec lo ++ "," ++ dec h ++ "}"
  end%string.

(** The characters that are escaped to stand for themselves. *)
Definition special_chars : chars := explode "()[]{}?*+|^$\.-#&~".
Definition escape (c : ascii) : chars := if bool_decide (c ∈ special_chars) then ["\"%char; c] else [c].

Fixpoint show (r : re) : string :=
  match r with
  | Eps => ""
  | Bol => "^"
  | Eol => "$"
  | Chr c => implode (escape c)
  | Class_ its => "[" ++ String.concat "" (map show_item its) ++ "]"
  | Seq a b => show a ++ show b
  | Alt a b => show a ++ "|" ++ show b
  | Rep a lo hi => show a ++ show_times lo hi
  | Grp a => "(?:" ++ show a ++ ")"
  | Cap a => "(" ++ show a ++ ")"
  end%string.

(** ** The matcher *)

(** What the matcher makes of its alternatives; the second is not looked at before
    it is needed. *)
Class Alternatives (X : Type) : Type := {
  fail : X;
  orelse : X → (unit → X) → X;
}.
Class AlternativesLaws (X : Type) `{Alternatives X} : Prop := {
  orelse_fail : ∀ x, orelse fail (λ _, x) = x;
  orelse_assoc : ∀ x y z, orelse (orelse x (λ _, y)) (λ _, z) = orelse x (λ _, orelse y (λ _, z));
  orelse_none : ∀ x, orelse x (λ _, fail) = x;
}.

(** The groups captured so far. *)
Abbreviation caps := (list (option chars)).

Section Repeat.
Context {X : Type} `{Alternatives X} (body : chars → caps → (chars → caps → X) → X) (k : chars → caps → X).

(** A repetition; one that matched nothing is not repeated. *)
Fixpoint run_rep (fuel lo : nat) (hi : option nat) (s : chars) (c : caps) : X :=
  match fuel with
  | 0 => fail
  | S fuel' =>
      match lo with
      | S lo' => body s c (λ s' c', run_rep fuel' lo' (pred <$> hi) s' c')
      | 0 =>
          if bool_decide (hi = Some 0) then k s c else
          orelse (body s c (λ s' c',
                    if length s' <? length s then run_rep fuel' 0 (pred <$> hi) s' c' else k s' c'))
                 (λ _, k s c)
      end
  end.
End Repeat.

Section Matcher.
Context {X : Type} `{Alternatives X} (whole : nat).

Fixpoint run (r : re) (i : nat) (s : chars) (c : caps) (k : chars → caps → X) : X :=
  match r with
  | Eps => k s c
  | Bol => if bool_decide (length s = whole) then k s c else fail
  | Eol => if bool_decide (s = [] ∨ s = ["010"%char]) then k s c else fail
  | Chr d => match s with
             | x :: s' => if bool_decide (x = d) then k s' c else fail
             | [] => fail
             end
  | Class_ its => match s with
                  | x :: s' => if in_class x its then k s' c else fail
                  | [] => fail
                  end
  | Seq a b => run a i s c (λ s' c', run b (i + groups a) s' c' k)
  | Alt a b => orelse (run a i s c k) (λ _, run b (i + groups a) s c k)
  | Rep a lo hi => run_rep (run a i) k (S (lo + length s)) lo hi s c
  | Grp a => run a i s c k
  | Cap a => run a (S i) s c (λ s' c', k s' (<[i := Some (take (length s - length s') s)]> c'))
  end.
End Matcher.

#[export] Instance first_match {A} : Alternatives (option A) := {
  fail := None;
  orelse x f := match x with Some _ => x | None => f tt end;
}.
#[export] Instance count_tries : Alternatives nat := {
  fail := 0;
  orelse x f := x + f tt;
}.
#[export] Instance first_match_laws {A} : AlternativesLaws (option A).
Proof. by split; [|intros []|intros []]. Qed.
#[export] Instance count_tries_laws : AlternativesLaws nat.
Proof. split; intros; cbn; lia. Qed.

(** [re.compile(pattern).match(s).groups()] *)
Definition re_match (r : re) (s : chars) : option caps :=
  run (length s) r 0 s (replicate (groups r) None) (λ _ c, Some c).

(** How many times what follows the pattern is tried on [s], if it never matches. *)
Definition tries (r : re) (s : chars) : nat :=
  run (length s) r 0 s (replicate (groups r) None) (λ _ _, 1).

(** ** All the ways to match, in the order they are tried *)

Section Repeat.
Context (body : chars → caps → list (chars * caps)).

Fixpoint ways_rep (fuel lo : nat) (hi : option nat) (s : chars) (c : caps) : list (chars * caps) :=
  match fuel with
  | 0 => []
  | S fuel' =>
      match lo with
      | S lo' => body s c ≫= λ p, ways_rep fuel' lo' (pred <$> hi) p.1 p.2
      | 0 =>
          if bool_decide (hi = Some 0) then [(s, c)] else
          (body s c ≫= λ p,
             if length p.1 <? length s then ways_rep fuel' 0 (pred <$> hi) p.1 p.2 else [p])
          ++ [(s, c)]
      end
  end.
End Repeat.

Section Ways.
Context (whole : nat).

Fixpoint ways (r : re) (i : nat) (s : chars) (c : caps) : list (chars * caps) :=
  match r with
  | Eps => [(s, c)]
  | Bol => if bool_decide (length s = whole) then [(s, c)] else []
  | Eol => if bool_decide (s = [] ∨ s = ["010"%char]) then [(s, c)] else []
  | Chr d => match s with
             | x :: s' => if bool_decide (x = d) then [(s', c)] else []
             | [] => []
             end
  | Class_ its => match s with
                  | x :: s' => if in_class x its then [(s', c)] else []
                  | [] => []
                  end
  | Seq a b => ways a i s c ≫= λ p, ways b (i + groups a) p.1 p.2
  | Alt a b => ways a i s c ++ ways b (i + groups a) s c
  | Rep a lo hi => ways_rep (ways a i) (S (lo + length s)) lo hi s c
  | Grp a => ways a i s c
  | Cap a => (λ p, (p.1, <[i := Some (take (length s - length p.1) s)]> p.2)) <$> ways a (S i) s c
  end.
End Ways.

(** ** The matcher goes through the ways, in order *)

(** The alternatives of a list, in order. *)
Definition first_of {X} `{Alternatives X} : list X → X := foldr (λ x acc, orelse x (λ _, acc)) fail.

Section Agree.
Context {X : Type} `{Alternatives X} {L : AlternativesLaws X} (whole : nat).

Lemma first_of_app xs ys : first_of (xs ++ ys) = orelse (first_of xs) (λ _, first_of ys).
Proof.
  induction xs as [|x xs IH]; cbn; [by rewrite orelse_fail|].
  change (foldr _ _ (xs ++ ys)) with (first_of (xs ++ ys)). by rewrite IH, orelse_assoc.
Qed.
Lemma first_of_one x : first_of [x] = x.
Proof. apply orelse_none. Qed.
Lemma first_of_bind {A} (g : A → list X) l : first_of (l ≫= g) = first_of ((λ a, first_of (g a)) <$> l).
Proof. induction l as [|a l IH]; [done|]. cbn. by rewrite first_of_app, <- IH. Qed.

Definition pick (k : chars → caps → X) (l : list (chars * caps)) : X := first_of ((λ p, k p.1 p.2) <$> l).

Lemma pick_bind k g l : pick k (l ≫= g) = pick (λ s c, pick k (g (s, c))) l.
Proof.
  unfold pick. induction l as [|[s c] l IH]; [done|]. cbn. rewrite fmap_app, first_of_app. by rewrite <- IH.
Qed.
Lemma pick_one k s c : pick k [(s, c)] = k s c.
Proof. apply first_of_one. Qed.
Lemma pick_app k l1 l2 : pick k (l1 ++ l2) = orelse (pick k l1) (λ _, pick k l2).
Proof. unfold pick. by rewrite fmap_app, first_of_app. Qed.
Lemma pick_ext k k' l : (∀ s c, k s c = k' s c) → pick k l = pick k' l.
Proof. intros He. unfold pick. f_equal. apply list_fmap_ext. intros; apply He. Qed.

Lemma run_rep_ways body_run body_ways k : (∀ s c k, body_run s c k = pick k (body_ways s c)) →
  ∀ fuel lo hi s c, run_rep body_run k fuel lo hi s c = pick k (ways_rep body_ways fuel lo hi s c).
Proof.
  intros Hb fuel. induction fuel as [|n IH]; intros lo hi s c; [done|]. cbn [run_rep ways_rep]. destruct lo.
  - case_bool_decide; [by rewrite pick_one|]. rewrite pick_app, pick_one.
    rewrite Hb, pick_bind. f_equal. apply pick_ext. intros s' c'. cbn [fst snd].
    destruct (length s' <? length s); [apply IH|]. by rewrite pick_one.
  - rewrite Hb, pick_bind. apply pick_ext. intros s' c'. apply IH.
Qed.

Lemma run_ways r : ∀ i s c k, run whole r i s c k = pick k (ways whole r i s c).
Proof.
  induction r as [| | |d|its|a IHa b IHb|a IHa b IHb|a IHa lo hi|a IHa|a IHa]; intros i s c k; cbn [run ways].
  - by rewrite pick_one.
  - case_bool_decide; [by rewrite pick_one|done].
  - case_bool_decide; [by rewrite pick_one|done].
  - destruct s as [|x s']; [done|]. case_bool_decide; [by rewrite pick_one|done].
  - destruct s as [|x s']; [done|]. destruct in_class; [by rewrite pick_one|done].
  - rewrite IHa, pick_bind. apply pick_ext. intros s' c'. apply IHb.
  - by rewrite pick_app, <- IHa, <- IHb.
  - by apply run_rep_ways.
  - apply IHa.
  - rewrite IHa. unfold pick. by rewrite <- list_fmap_compose.
Qed.
End Agree.

(** ** The words of a pattern without anchors and groups *)

Fixpoint plain (r : re) : bool :=
  match r with
  | Bol | Eol | Cap _ => false
  | Seq a b | Alt a b => plain a && plain b
  | Rep a _ _ | Grp a => plain a
  | _ => true
  end.

Definition at_most (n : nat) (hi : option nat) : Prop := match hi with Some h => n ≤ h | None => True end.

Fixpoint lang (r : re) (w : chars) : Prop :=
  match r with
  | Eps => w = []
  | Bol | Eol | Cap _ => False
  | Chr d => w = [d]
  | Class_ its => ∃ x, w = [x] ∧ in_class x its = true
  | Seq a b => ∃ u v, w = u ++ v ∧ lang a u ∧ lang b v
  | Alt a b => lang a w ∨ lang b w
  | Rep a lo hi => ∃ ws, w = concat ws ∧ Forall (lang a) ws ∧ lo ≤ length ws ∧ at_most (length ws) hi
  | Grp a => lang a w
  end.

(** The characters that may occur in a word of the pattern. *)
Fixpoint may (r : re) (x : ascii) : bool :=
  match r with
  | Chr d => bool_decide (x = d)
  | Class_ its => in_class x its
  | Seq a b | Alt a b => may a x || may b x
  | Rep a _ _ | Grp a | Cap a => may a x
  | _ => false
  end.

Lemma lang_may r : ∀ w x, lang r w → x ∈ w → may r x = true.
Proof.
  induction r as [| | |d|its|a IHa b IHb|a IHa b IHb|a IHa lo hi|a IHa|a IHa]; intros w x; cbn [lang may]; try done.
  - intros ->. set_solver.
  - intros -> ->%list_elem_of_singleton. by apply bool_decide_eq_true_2.
  - intros (y & -> & Hy) ->%list_elem_of_singleton. done.
  - intros (u & v & -> & Hu & Hv) [Hx|Hx]%elem_of_app; apply orb_true_iff; eauto.
  - intros [Hw|Hw] Hx; apply orb_true_iff; eauto.
  - intros (ws & -> & Hws & _) (u & Hu & Hx)%list_elem_of_In%in_concat. rewrite Forall_forall in Hws.
    apply (IHa u); [apply Hws|]; by apply list_elem_of_In.
  - apply IHa.
Qed.

Lemma lang_without r w x : lang r w → may r x = false → x ∉ w.
Proof. intros Hw Hx Hin. by rewrite (lang_may r w x Hw Hin) in Hx. Qed.

Lemma at_most_pred n hi : hi ≠ Some 0 → at_most n (pred <$> hi) → at_most (S n) hi.
Proof. destruct hi as [[|h]|]; cbn; [done|lia|done]. Qed.
Lemma at_most_S n hi : at_most (S n) hi → hi ≠ Some 0 ∧ at_most n (pred <$> hi) ∧ at_most n hi.
Proof. destruct hi as [[|h]|]; cbn; [lia| |done]. intros. split_and!; [done|lia|lia]. Qed.

Section Lang.
Context (whole : nat).

(** What a part of the pattern leaves is what follows the word it matched. *)
Lemma ways_rep_lang a body (Hb : ∀ s c s' c', (s', c') ∈ body s c → c' = c ∧ ∃ w, s = w ++ s' ∧ lang a w) :
  ∀ fuel lo hi s c s' c', (s', c') ∈ ways_rep body fuel lo hi s c → at_most lo hi →
  c' = c ∧ ∃ ws, s = concat ws ++ s' ∧ Forall (lang a) ws ∧ lo ≤ length ws ∧ at_most (length ws) hi.
Proof.
  intros fuel. induction fuel as [|n IH]; intros lo hi s c s' c'; cbn [ways_rep]; [by intros ?%elem_of_nil|].
  destruct lo as [|lo].
  - case_bool_decide as Hhi.
    { intros [= -> ->]%list_elem_of_singleton _. split; [done|]. exists []. split_and!; [done|constructor|done|rewrite Hhi; cbn; lia]. }
    intros [([s1 c1] & Hin & H1)%list_elem_of_bind|[= -> ->]%list_elem_of_singleton]%elem_of_app _.
    + apply Hb in H1 as (-> & w & -> & Hw). cbn [fst snd] in Hin. destruct (length s1 <? _).
      * apply IH in Hin as (-> & ws & -> & Hws & _ & Hm); [|by destruct hi as [[]|]; cbn; lia].
        split; [done|]. exists (w :: ws). cbn. rewrite <- app_assoc. split_and!; [done|by constructor|lia|by apply at_most_pred].
      * apply list_elem_of_singleton in Hin as [= -> ->]. split; [done|]. exists [w]. cbn. rewrite app_nil_r.
        split_and!; [done|by repeat constructor|lia|]. by destruct hi as [[]|]; cbn; [|lia|].
    + split; [done|]. exists []. split_and!; [done|constructor|done|]. by destruct hi; cbn; [lia|].
  - intros ([s1 c1] & Hin & H1)%list_elem_of_bind Hlo. apply Hb in H1 as (-> & w & -> & Hw). cbn [fst snd] in Hin.
    apply at_most_S in Hlo as (H0 & Hlo & _). apply IH in Hin as (-> & ws & -> & Hws & Hl & Hm); [|done].
    split; [done|]. exists (w :: ws). cbn. rewrite <- app_assoc. split_and!; [done|by constructor|lia|by apply at_most_pred].
Qed.

(** The bounds of every repetition are in order. *)
Fixpoint bounded (r : re) : bool :=
  match r with
  | Seq a b | Alt a b => bounded a && bounded b
  | Rep a lo hi => match hi with Some h => lo <=? h | None => true end && bounded a
  | Grp a | Cap a => bounded a
  | _ => true
  end.

Lemma ways_lang r : plain r = true → bounded r = true → ∀ i s c s' c', (s', c') ∈ ways whole r i s c →
  c' = c ∧ ∃ w, s = w ++ s' ∧ lang r w.
Proof.
  induction r as [| | |d|its|a IHa b IHb|a IHa b IHb|a IHa lo hi|a IHa|a IHa]; intros Hp Hd i s c s' c'; cbn in Hp, Hd;
    cbn [ways lang]; try done.
  - intros [= -> ->]%list_elem_of_singleton. split; [done|]. by exists [].
  - destruct s as [|x s0]; [by intros ?%elem_of_nil|]. case_bool_decide as Hx; [|by intros ?%elem_of_nil].
    intros [= -> ->]%list_elem_of_singleton. split; [done|]. exists [x]. by subst.
  - destruct s as [|x s0]; [by intros ?%elem_of_nil|]. destruct in_class eqn:Hx; [|by intros ?%elem_of_nil].
    intros [= -> ->]%list_elem_of_singleton. split; [done|]. exists [x]. eauto.
  - apply andb_true_iff in Hp as [Hpa Hpb], Hd as [Hda Hdb].
    intros ([s1 c1] & Hin & H1)%list_elem_of_bind. cbn [fst snd] in Hin.
    apply (IHa Hpa Hda) in H1 as (-> & u & -> & Hu).
    apply (IHb Hpb Hdb) in Hin as (-> & v & -> & Hv). split; [done|]. exists (u ++ v). rewrite <- app_assoc. eauto 6.
  - apply andb_true_iff in Hp as [Hpa Hpb], Hd as [Hda Hdb].
    intros [(-> & u & -> & Hu)%(IHa Hpa Hda)|(-> & u & -> & Hu)%(IHb Hpb Hdb)]%elem_of_app; eauto 6.
  - apply andb_true_iff in Hd as [Hlo Hda]. intros Hin. apply (ways_rep_lang a) in Hin as (-> & ws & -> & Hws); [|eauto|].
    + split; [done|]. exists (concat ws). eauto.
    + destruct hi; [by apply Nat.leb_le|done].
  - apply (IHa Hp Hd).
Qed.

Lemma lang_ways_rep a body c (Hb : ∀ w s, lang a w → (s, c) ∈ body (w ++ s) c) :
  ∀ ws, Forall (lang a) ws → ∀ fuel lo hi s, lo ≤ length ws → at_most (length ws) hi →
  lo + length (concat ws ++ s) < fuel → (s, c) ∈ ways_rep body fuel lo hi (concat ws ++ s) c.
Proof.
  intros ws Hws. induction Hws as [|w ws Hw Hws IH]; intros fuel lo hi s Hlo Hhi Hf; (destruct fuel as [|n]; [lia|]).
  - destruct lo; [|by cbn in Hlo; lia]. cbn. case_bool_decide; [by left|]. apply elem_of_app. right. by left.
  - cbn [concat length] in *. rewrite <- app_assoc in *. apply at_most_S in Hhi as (H0 & Hm & Hm').
    destruct lo as [|lo]; cbn [ways_rep].
    + rewrite bool_decide_eq_false_2 by done. apply elem_of_app. destruct w as [|x w].
      * cbn [app] in *. specialize (IH (S n) 0 hi s ltac:(lia) Hm' Hf). cbn [ways_rep] in IH.
        by rewrite bool_decide_eq_false_2, elem_of_app in IH by done.
      * left. apply list_elem_of_bind. exists (concat ws ++ s, c). split; [|by apply Hb]. cbn [fst snd].
        rewrite (proj2 (Nat.ltb_lt _ _)); [apply IH; [lia|done|]|]; rewrite ?length_app in *; cbn in *; lia.
    + apply list_elem_of_bind. exists (concat ws ++ s, c). split; [|by apply Hb]. apply IH; [lia|done|].
      rewrite !length_app in *. cbn. lia.
Qed.

(** Every word of the language is found. *)
Lemma lang_ways r : plain r = true → ∀ i w s c, lang r w → (s, c) ∈ ways whole r i (w ++ s) c.
Proof.
  induction r as [| | |d|its|a IHa b IHb|a IHa b IHb|a IHa lo hi|a IHa|a IHa]; intros Hp i w s c; cbn in Hp;
    cbn [ways lang]; try done.
  - intros ->. by left.
  - intros ->. cbn. rewrite bool_decide_eq_true_2 by done. by left.
  - intros (x & -> & Hx). cbn. rewrite Hx. by left.
  - apply andb_true_iff in Hp as [Hpa Hpb]. intros (u & v & -> & Hu & Hv). rewrite <- app_assoc.
    apply list_elem_of_bind. exists (v ++ s, c). split; [by apply IHb|by apply IHa].
  - apply andb_true_iff in Hp as [Hpa Hpb]. intros [Hw|Hw]; apply elem_of_app; auto.
  - intros (ws & -> & Hws & Hlo & Hhi). apply (lang_ways_rep a); auto with lia.
  - apply (IHa Hp).
Qed.
End Lang.

(** ** What is found *)

Lemma re_match_head r s : re_match r s = snd <$> head (ways (length s) r 0 s (replicate (groups r) None)).
Proof. unfold re_match. rewrite run_ways. by destruct ways as [|[s' c'] l]. Qed.

Lemma re_match_Some r s c : re_match r s = Some c →
  ∃ s', (s', c) ∈ ways (length s) r 0 s (replicate (groups r) None).
Proof. rewrite re_match_head. destruct ways as [|[s' c'] l]; [done|]. intros [= ->]. exists s'. by left. Qed.

Lemma re_match_None r s : re_match r s = None ↔ ways (length s) r 0 s (replicate (groups r) None) = [].
Proof. rewrite re_match_head. by destruct ways as [|[s' c'] l]. Qed.

(** If all the ways capture the same, it is what the matcher answers. *)
Lemma re_match_unique r s c s' : (s', c) ∈ ways (length s) r 0 s (replicate (groups r) None) →
  (∀ s1 c1, (s1, c1) ∈ ways (length s) r 0 s (replicate (groups r) None) → c1 = c) → re_match r s = Some c.
Proof.
  intros Hin Hun. destruct (re_match r s) as [c1|] eqn:Hm.
  - destruct (re_match_Some _ _ _ Hm) as [s1 H1]. by rewrite (Hun _ _ H1).
  - apply re_match_None in Hm. rewrite Hm in Hin. by apply elem_of_nil in Hin.
Qed.

Lemma tries_ways r s : tries r s = length (ways (length s) r 0 s (replicate (groups r) None)).
Proof.
  unfold tries. rewrite run_ways. unfold pick. generalize (ways (length s) r 0 s (replicate (groups r) None)).
  intros l. induction l as [|p l IH]; [done|]. cbn in *. by rewrite IH.
Qed.

(** What each construct leaves and captures. *)
Section Constructs.
Context (whole : nat).

Lemma ways_Seq a b i s c s' c' : (s', c') ∈ ways whole (Seq a b) i s c ↔
  ∃ s1 c1, (s1, c1) ∈ ways whole a i s c ∧ (s', c') ∈ ways whole b (i + groups a) s1 c1.
Proof.
  cbn. rewrite list_elem_of_bind. split; [intros ([s1 c1] & Hb & Ha)|intros (s1 & c1 & Ha & Hb)].
  - eauto.
  - by exists (s1, c1).
Qed.

Lemma ways_optional a i s c : ways whole (Rep a 0 (Some 1)) i s c = ways whole a i s c ++ [(s, c)].
Proof.
  cbn. f_equal. induction (ways whole a i s c) as [|[s1 c1] l IH]; [done|]. cbn. rewrite IH. f_equal.
  destruct (length s) as [|n]; [done|]. cbn. by destruct (length s1 <=? n).
Qed.

Lemma ways_Cap a i s c s' c' : plain a = true → bounded a = true →
  (s', c') ∈ ways whole (Cap a) i s c ↔ ∃ w, s = w ++ s' ∧ lang a w ∧ c' = <[i := Some w]> c.
Proof.
  intros Hp Hb. cbn. rewrite list_elem_of_fmap. split.
  - intros ([s1 c1] & [= -> ->] & (-> & w & -> & Hw)%ways_lang); [|done..]. exists w. split_and!; [done..|].
    cbn. rewrite length_app. replace (_ + _ - _) with (length w) by lia. by rewrite take_app_length.
  - intros (w & -> & Hw & ->). exists (s', c). split; [|by apply lang_ways].
    cbn. rewrite length_app. replace (_ + _ - _) with (length w) by lia. by rewrite take_app_length.
Qed.

Lemma ways_plain a i s c s' c' : plain a = true → bounded a = true →
  (s', c') ∈ ways whole a i s c ↔ ∃ w, s = w ++ s' ∧ lang a w ∧ c' = c.
Proof.
  intros Hp Hb. split; [intros (-> & w & -> & Hw)%ways_lang; eauto|]. intros (w & -> & Hw & ->). by apply lang_ways.
Qed.

Lemma ways_Eol i s c s' c' : (s', c') ∈ ways whole Eol i s c ↔ (s = [] ∨ s = ["010"%char]) ∧ s' = s ∧ c' = c.
Proof.
  cbn. case_bool_decide as He; split; try done; [intros [= -> ->]%list_elem_of_singleton| |intros ?%elem_of_nil|]; try done.
  - intros (_ & -> & ->). by left.
  - by intros (? & _).
Qed.

Lemma ways_Bol i s c s' c' : (s', c') ∈ ways whole Bol i s c ↔ length s = whole ∧ s' = s ∧ c' = c.
Proof.
  cbn. case_bool_decide as He; split; try done; [intros [= -> ->]%list_elem_of_singleton| |intros ?%elem_of_nil|]; try done.
  - intros (_ & -> & ->). by left.
  - by intros (? & _).
Qed.

Lemma ways_Eps i s c s' c' : (s', c') ∈ ways whole Eps i s c ↔ s' = s ∧ c' = c.
Proof. cbn. rewrite list_elem_of_singleton. naive_solver. Qed.

Lemma ways_Chr d i s c s' c' : (s', c') ∈ ways whole (Chr d) i s c ↔ s = d :: s' ∧ c' = c.
Proof.
  rewrite ways_plain by done. cbn. split; [intros (w & -> & -> & ->); done|]. intros (-> & ->). by exists [d].
Qed.
End Constructs.

(** Whether a pattern may match the empty word. *)
Fixpoint nullable (r : re) : bool :=
  match r with
  | Eps => true
  | Seq a b => nullable a && nullable b
  | Alt a b => nullable a || nullable b
  | Rep a lo _ => (lo =? 0) || nullable a
  | Grp a => nullable a
  | _ => false
  end.

Lemma lang_nullable r : lang r [] → nullable r = true.
Proof.
  induction r as [| | |d|its|a IHa b IHb|a IHa b IHb|a IHa lo hi|a IHa|a IHa]; cbn [lang nullable]; try done.
  - by intros (x & [=] & _).
  - intros (u & v & [-> ->]%eq_sym%app_eq_nil & Hu & Hv). by rewrite IHa, IHb.
  - intros [H|H]; [by rewrite IHa|]. rewrite IHb by done. apply orb_true_r.
  - intros (ws & Hw & Hws & Hl & _). destruct lo as [|lo]; [done|]. destruct Hws as [|w ws Hw1 _]; [by cbn in Hl; lia|].
    cbn in Hw. apply eq_sym, app_eq_nil in Hw as [-> _]. by apply IHa.
Qed.

Lemma lang_not_empty r w : lang r w → nullable r = false → w ≠ [].
Proof. intros Hw Hn ->. by rewrite (lang_nullable _ Hw) in Hn. Qed.

Lemma lang_opt r w : lang (Rep r 0 (Some 1)) w ↔ w = [] ∨ lang r w.
Proof.
  cbn [lang]. split.
  - intros (ws & -> & Hws & _ & Hm). destruct Hws as [|u ws Hu Hws]; [by left|].
    destruct ws; [|by cbn in Hm; lia]. right. cbn. by rewrite app_nil_r.
  - intros [->|Hw]; [exists []|exists [w]]; cbn.
    + split_and!; [done|constructor|lia..].
    + rewrite app_nil_r. split_and!; [done|by repeat constructor|lia..].
Qed.

Lemma ways_Seq_Eps whole a i s c : ways whole (Seq a Eps) i s c = ways whole a i s c.
Proof.
  cbn. generalize (ways whole a i s c). intros l. induction l as [|[s' c'] l IH]; [done|]. cbn. by rewrite IH.
Qed.
