(* ===== verification/ImageRef.v ===== *)
(** * Image references (src/zun/common/docker_image/, parse_image_name of common/utils.py)

    The patterns of a reference, built as the source builds them; digests; the
    parser and the printers; and the repository and tag the compute service pulls.
    A text is read back from what it parses to, and what is parsed is the only
    reading of the text; but the pattern of a name has exponentially many ways to
    match a run of letters, and tries them all before it refuses one. *)

From Stdlib Require Import Ascii.
From S2P Require Import Prelude Exceptions PyStr Regex.

(** ** regexp.py *)

Definition _quote_meta (s : string) : string := implode (concat (escape <$> explode s)).

Definition expression (res : list re) : re := foldr Seq Eps res.
Definition literal (s : string) : re := expression (Chr <$> explode s).
Definition group (res : list re) : re := Grp (expression res).
Definition optional (res : list re) : re := Rep (group res) 0 (Some 1).
Definition repeated (res : list re) : re := Rep (group res) 1 None.
Definition capture (res : list re) : re := Cap (expression res).
Definition anchored (res : list re) : re := Seq Bol (Seq (expression res) Eol).

Module ImageRegexps.
Definition lower_digit : list item := [Range "a" "z"; Range "0" "9"].
Definition letter_digit : list item := [Range "a" "z"; Range "A" "Z"; Range "0" "9"].
Definition dash : ascii := "-".

Definition ALPHA_NUMERIC_REGEXP : re := Rep (Class_ lower_digit) 1 None.
Definition SEPARATOR_REGEXP : re :=
  Grp (Alt (Class_ [One "."; One "_"]) (Alt (Seq (Chr "_") (Chr "_")) (Rep (Class_ [One dash]) 0 None))).
Definition NAME_COMPONENT_REGEXP : re :=
  expression [ALPHA_NUMERIC_REGEXP; optional [repeated [SEPARATOR_REGEXP; ALPHA_NUMERIC_REGEXP]]].
Definition HOSTNAME_COMPONENT_REGEXP : re :=
  Grp (Alt (Class_ letter_digit)
           (Seq (Class_ letter_digit) (Seq (Rep (Class_ (letter_digit ++ [One dash])) 0 None) (Class_ letter_digit)))).
Definition HOSTNAME_REGEXP : re :=
  expression [HOSTNAME_COMPONENT_REGEXP;
              optional [repeated [literal "."; HOSTNAME_COMPONENT_REGEXP]];
              optional [literal ":"; Rep (Class_ [Range "0" "9"]) 1 None]].
Definition TAG_REGEXP : re := Seq (Class_ [Word]) (Rep (Class_ [Word; One "."; One dash]) 0 (Some 127)).
Definition DIGEST_REGEXP : re :=
  Seq (Rep (Class_ (letter_digit ++ [One dash; One "_"; One "+"; One "."])) 1 None)
      (Seq (Chr ":") (Rep (Class_ [Range "a" "f"; Range "A" "F"; Range "0" "9"]) 1 None)).
Definition NAME_REGEXP : re :=
  expression [optional [HOSTNAME_REGEXP; literal "/"];
              NAME_COMPONENT_REGEXP;
              optional [repeated [literal "/"; NAME_COMPONENT_REGEXP]]].
Definition ANCHORED_NAME_REGEXP : re :=
  anchored [optional [capture [HOSTNAME_REGEXP]; literal "/"];
            capture [NAME_COMPONENT_REGEXP; optional [repeated [literal "/"; NAME_COMPONENT_REGEXP]]]].
Definition REFERENCE_REGEXP : re :=
  anchored [capture [NAME_REGEXP];
            optional [literal ":"; capture [TAG_REGEXP]];
            optional [literal "@"; capture [DIGEST_REGEXP]]].
End ImageRegexps.
Import ImageRegexps.

Definition DIGEST_REGEXP_ANCHORED : re := anchored [DIGEST_REGEXP].

(** The texts that the functions build are those of the trees. *)
Lemma show_literal s : show (literal s) = _quote_meta s.
Proof.
  unfold literal, _quote_meta. induction (explode s) as [|c l IH]; [done|].
  cbn. rewrite implode_app. by f_equal.
Qed.
Lemma app_empty (s : string) : (s ++ "" = s)%string.
Proof. induction s as [|c s IH]; [done|]. exact (f_equal (String c) IH). Qed.
Lemma app_assoc_string (a b c : string) : ((a ++ b) ++ c = a ++ b ++ c)%string.
Proof. induction a as [|x a IH]; [done|]. exact (f_equal (String x) IH). Qed.
Lemma show_expression res : show (expression res) = String.concat "" (show <$> res).
Proof.
  induction res as [|r res IH]; [done|]. cbn [expression foldr show fmap list_fmap].
  change (foldr Seq Eps res) with (expression res). rewrite IH. destruct res; [apply app_empty|done].
Qed.
Lemma show_optional res : show (optional res) = ("(?:" ++ show (expression res) ++ ")" ++ "?")%string.
Proof.
  cbn [optional group show show_times]. by rewrite !app_assoc_string.
Qed.

Example TAG_text : show TAG_REGEXP = "[\w][\w.-]{0,127}".
Proof. reflexivity. Qed.
Example DIGEST_text : show DIGEST_REGEXP = "[a-zA-Z0-9-_+.]+:[a-fA-F0-9]+".
Proof. reflexivity. Qed.
Example SEPARATOR_text : show SEPARATOR_REGEXP = "(?:[._]|__|[-]*)".
Proof. reflexivity. Qed.
Example HOSTNAME_COMPONENT_text :
  show HOSTNAME_COMPONENT_REGEXP = "(?:[a-zA-Z0-9]|[a-zA-Z0-9][a-zA-Z0-9-]*[a-zA-Z0-9])".
Proof. reflexivity. Qed.
Example NAME_COMPONENT_text :
  show NAME_COMPONENT_REGEXP = "[a-z0-9]+(?:(?:(?:[._]|__|[-]*)[a-z0-9]+)+)?".
Proof. reflexivity. Qed.

(** ** digest.py *)

(** The exceptions of this file are not of the service's hierarchy. *)
Definition InvalidDigest : exn := Py OtherException.

Definition DIGESTS_SIZE : list (string * nat) := [("sha256", 32); ("sha384", 48); ("sha512", 64)].
Definition digest_size (algorithm : string) : option nat :=
  snd <$> find (λ p, bool_decide (p.1 = algorithm)) DIGESTS_SIZE.

Definition validate_digest (digest : string) : outcome exn unit :=
  match re_match DIGEST_REGEXP_ANCHORED (explode digest) with
  | None => Raise InvalidDigest
  | Some _ =>
      let '(algorithm, found, rest) := partition ":" digest in
      if negb found || bool_decide (rest = "") then Raise InvalidDigest else
      match digest_size algorithm with
      | None => Raise InvalidDigest
      | Some size => if bool_decide (size * 2 = String.length rest) then Ok tt else Raise InvalidDigest
      end
  end.

(** ** reference.py *)

Definition NAME_TOTAL_LENGTH_MAX : nat := 255.

Inductive class : Type := CReference | CNamed | CDigest | CCanonical | CTagged.
#[export] Instance class_eq_dec : EqDecision class.
Proof. solve_decision. Defined.

Record Reference : Type := mkRef {
  r_class : class;
  r_name : option string;
  r_tag : option string;
  r_digest : option string;
}.

Definition DigestReference (digest : option string) : Reference := mkRef CDigest None None digest.
Definition CanonicalReference (name digest : option string) : Reference := mkRef CCanonical name None digest.
Definition NamedReference (name : option string) : Reference := mkRef CNamed name None None.
Definition TaggedReference (name tag : option string) : Reference := mkRef CTagged name tag None.

(** [bool(x)] and [str(x)] of a text or [None]. *)
Definition truthy (o : option string) : bool := match o with Some s => negb (bool_decide (s = "")) | None => false end.
Definition fmt (o : option string) : string := default "None" o.

(** The [string] of each class. *)
Definition to_string (r : Reference) : string :=
  match r_class r with
  | CReference => fmt (r_name r) ++ ":" ++ fmt (r_tag r) ++ "@" ++ fmt (r_digest r)
  | CNamed => fmt (r_name r)
  | CDigest => fmt (r_digest r)
  | CCanonical => fmt (r_name r) ++ "@" ++ fmt (r_digest r)
  | CTagged => fmt (r_name r) ++ ":" ++ fmt (r_tag r)
  end%string.

Definition best_reference (r : Reference) : option Reference :=
  if negb (truthy (r_name r)) then
    if truthy (r_digest r) then Some (DigestReference (r_digest r)) else None
  else if negb (truthy (r_tag r)) then
    if truthy (r_digest r) then Some (CanonicalReference (r_name r) (r_digest r))
    else Some (NamedReference (r_name r))
  else if negb (truthy (r_digest r)) then Some (TaggedReference (r_name r) (r_tag r))
  else Some r.

Definition nth_group (gs : caps) (i : nat) : option string := implode <$> (default None (gs !! i)).

Definition parse (s : string) : outcome exn Reference :=
  match re_match REFERENCE_REGEXP (explode s) with
  | None => if bool_decide (s = "") then Raise (Zun NameEmpty) else Raise (Zun ReferenceInvalidFormat)
  | Some matches =>
      match nth_group matches 0 with
      | None => Raise (Py TypeError)
      | Some name =>
          if NAME_TOTAL_LENGTH_MAX <? String.length name then Raise (Zun NameTooLong) else
          let ref digest :=
            match best_reference (mkRef CReference (Some name) (nth_group matches 1) digest) with
            | Some r => Ok r
            | None => Raise (Zun NameEmpty)
            end in
          match nth_group matches 2 with
          | Some digest =>
              if truthy (Some digest) then
                match validate_digest digest with
                | Ok _ => ref (Some digest)
                | Raise e => Raise e
                end
              else ref None
          | None => ref None
          end
      end
  end.

Definition split_hostname (name : string) : string * string :=
  match re_match ANCHORED_NAME_REGEXP (explode name) with
  | None => ("", name)
  | Some matches =>
      match nth_group matches 0 with
      | None => ("", name)
      | Some hostname =>
          if negb (bool_decide ("."%char ∈ explode hostname)) && negb (bool_decide (":"%char ∈ explode hostname))
             && negb (bool_decide (hostname = "localhost"))
          then ("", name)
          else (hostname, fmt (nth_group matches 1))
      end
  end.

(** ** parse_image_name (common/utils.py) *)

Section ParseImageName.
Context (default_image_driver : option string) (default_registry : option string).

(** [registry] is the domain of the registry asked for, if one is. *)
Definition parse_image_name (image : string) (driver : option string) (registry : option (option string)) :
    outcome exn (string * string) :=
  match parse image with
  | Raise e => Raise e
  | Ok image_parts =>
      let image_repo := fmt (r_name image_parts) in
      let driver := match driver with None => default_image_driver | Some d => Some d end in
      if bool_decide (driver = Some "glance") then Ok (image_repo, "") else
      let image_tag := if truthy (r_tag image_parts) then fmt (r_tag image_parts) else "latest" in
      let '(domain, _) := split_hostname image_repo in
      let image_repo :=
        if bool_decide (domain = "") then
          match registry with
          | Some reg => (fmt reg ++ "/" ++ image_repo)%string
          | None => if truthy default_registry then (fmt default_registry ++ "/" ++ image_repo)%string else image_repo
          end
        else image_repo in
      Ok (image_repo, image_tag)
  end.
End ParseImageName.

(** ** What the patterns match *)

Definition suffix (d : ascii) (o : option chars) : chars := match o with Some w => d :: w | None => [] end.
Definition opt_lang (r : re) (o : option chars) : Prop := match o with Some w => lang r w | None => True end.

Lemma lang_single r w : lang (expression [r]) w ↔ lang r w.
Proof.
  cbn. split; [intros (u & v & -> & Hu & ->); by rewrite app_nil_r|].
  intros Hw. exists w, []. by rewrite app_nil_r.
Qed.

(** The end of the text, or a newline that ends it. *)
Definition ends (s : chars) : Prop := s = [] ∨ s = ["010"%char].

Section Shapes.
Context (whole : nat).

Lemma ways_capture r i s c s' c' : plain r = true → bounded r = true →
  (s', c') ∈ ways whole (capture [r]) i s c ↔ ∃ w, s = w ++ s' ∧ lang r w ∧ c' = <[i := Some w]> c.
Proof.
  intros Hp Hb. unfold capture. rewrite ways_Cap by (cbn; by rewrite ?Hp, ?Hb). by setoid_rewrite lang_single.
Qed.

Lemma ways_expression_nil i s c s' c' : (s', c') ∈ ways whole (expression []) i s c ↔ s' = s ∧ c' = c.
Proof. apply ways_Eps. Qed.
Lemma ways_expression_cons r res i s c s' c' : (s', c') ∈ ways whole (expression (r :: res)) i s c ↔
  ∃ s1 c1, (s1, c1) ∈ ways whole r i s c ∧ (s', c') ∈ ways whole (expression res) (i + groups r) s1 c1.
Proof. apply ways_Seq. Qed.

(** [d] and a captured word, or nothing. *)
Lemma ways_suffix d r i s c s' c' : plain r = true → bounded r = true →
  (s', c') ∈ ways whole (optional [expression [Chr d]; capture [r]]) i s c ↔
  ∃ o, opt_lang r o ∧ s = suffix d o ++ s' ∧ c' = match o with Some w => <[i := Some w]> c | None => c end.
Proof.
  intros Hp Hb. unfold optional. rewrite ways_optional, elem_of_app, list_elem_of_singleton. unfold group. cbn [ways].
  repeat setoid_rewrite ways_expression_cons. repeat setoid_rewrite ways_expression_nil.
  setoid_rewrite ways_capture; [|done..]. setoid_rewrite ways_Chr. cbn [groups expression foldr Nat.add].
  rewrite !Nat.add_0_r. split.
  - intros [(s1 & c1 & (s2 & c2 & (-> & ->) & -> & ->) & s3 & c3 & (w & -> & Hw & ->) & -> & ->)|[= -> ->]].
    + by exists (Some w).
    + by exists None.
  - intros ([w|] & Ho & -> & ->); [left|by right].
    exists (w ++ s'), c. split; [by exists (w ++ s'), c|]. exists s', (<[i := Some w]> c). split; [by exists w|done].
Qed.

Lemma ways_anchored res s c s' c' : length s = whole →
  (s', c') ∈ ways whole (anchored res) 0 s c ↔ (s', c') ∈ ways whole (expression res) 0 s c ∧ ends s'.
Proof.
  intros Hl. unfold anchored, ends. rewrite ways_Seq. setoid_rewrite ways_Bol. setoid_rewrite ways_Seq.
  setoid_rewrite ways_Eol. cbn [groups Nat.add]. split.
  - intros (? & ? & (_ & -> & ->) & s2 & c2 & H & He & -> & ->). done.
  - intros (H & He). exists s, c. split; [done|]. by exists s', c'.
Qed.
End Shapes.

Lemma reference_ways s s' c' :
  (s', c') ∈ ways (length s) REFERENCE_REGEXP 0 s [None; None; None] ↔
  ∃ n t d, lang NAME_REGEXP n ∧ opt_lang TAG_REGEXP t ∧ opt_lang DIGEST_REGEXP d ∧
    s = n ++ suffix ":" t ++ suffix "@" d ++ s' ∧ ends s' ∧ c' = [Some n; t; d].
Proof.
  unfold REFERENCE_REGEXP. rewrite ways_anchored by done. repeat setoid_rewrite ways_expression_cons.
  setoid_rewrite ways_expression_nil. setoid_rewrite ways_capture; [|done..].
  change (literal ":") with (expression [Chr ":"]). change (literal "@") with (expression [Chr "@"]).
  setoid_rewrite ways_suffix; [|done..]. split.
  - intros [(s1 & c1 & (n & -> & Hn & ->) & s2 & c2 & (t & Ht & -> & ->) & s3 & c3 & (d & Hd & -> & ->) & -> & ->) He].
    exists n, t, d. split_and!; try done. by destruct t, d.
  - intros (n & t & d & Hn & Ht & Hd & -> & He & ->). split; [|done].
    eexists _, _. split; [by exists n|]. eexists _, _. split; [by exists t|]. eexists _, _. split; [by exists d|].
    split; [done|]. by destruct t, d.
Qed.

(** ** A text has one reading *)

Lemma suffix_inj x a a' o o' : x ∉ a → x ∉ a' → a ++ suffix x o = a' ++ suffix x o' → a = a' ∧ o = o'.
Proof.
  revert a'. induction a as [|y a IH]; intros [|y' a'] Ha Ha'; cbn.
  - intros He. split; [done|]. by destruct o, o'; simplify_eq/=.
  - destruct o as [w|]; intros [= -> _]. set_solver.
  - destruct o' as [w|]; intros [= -> _]. set_solver.
  - intros [= -> He]. destruct (IH a') as [-> ->]; set_solver.
Qed.

(** The part of a name before its first component. *)
Lemma name_shape n : lang NAME_REGEXP n ↔ ∃ u v, n = u ++ v ∧
  (u = [] ∨ ∃ h, u = h ++ ["/"%char] ∧ lang HOSTNAME_REGEXP h) ∧
  lang (expression [NAME_COMPONENT_REGEXP; optional [repeated [literal "/"; NAME_COMPONENT_REGEXP]]]) v.
Proof.
  unfold NAME_REGEXP. cbn [expression foldr]. set (rest := Seq NAME_COMPONENT_REGEXP _).
  change (lang (Seq (optional [HOSTNAME_REGEXP; literal "/"]) rest) n) with
    (∃ u v, n = u ++ v ∧ lang (optional [HOSTNAME_REGEXP; literal "/"]) u ∧ lang rest v).
  unfold optional at 1. setoid_rewrite lang_opt.
  assert (∀ u, lang (group [HOSTNAME_REGEXP; literal "/"]) u ↔ ∃ h, u = h ++ ["/"%char] ∧ lang HOSTNAME_REGEXP h) as Hg.
  { intros u. cbn [group expression foldr literal explode String.list_ascii_of_string fmap list_fmap lang]. split.
    - intros (h & q & -> & Hh & v & w & -> & (? & ? & -> & -> & ->) & ->). by exists h.
    - intros (h & -> & Hh). exists h, ["/"%char]. split; [done|]. split; [done|]. exists ["/"%char], [].
      split; [done|]. split; [|done]. by exists ["/"%char], []. }
  by setoid_rewrite Hg.
Qed.

(** In a name, a colon belongs to the host, and a slash follows. *)
Lemma name_colon n a b : lang NAME_REGEXP n → n = a ++ ":"%char :: b → "/"%char ∈ b.
Proof.
  intros (u & v & -> & Hu & Hv)%name_shape He. pose proof (lang_without _ _ ":"%char Hv eq_refl) as Hn.
  destruct Hu as [->|(h & -> & _)]; [cbn in He; subst v; set_solver|].
  rewrite <- app_assoc in He. apply app_eq_app in He as (l & [[-> He]|[-> He]]).
  - destruct l as [|x l]; cbn in He; [done|]. injection He as <- ->. set_solver.
  - assert (":"%char ∈ ["/"%char] ++ v) as Hin by (rewrite He; set_solver). set_solver.
Qed.

Record well_formed (n : chars) (t d : option chars) : Prop := {
  wf_name : lang NAME_REGEXP n;
  wf_tag : opt_lang TAG_REGEXP t;
  wf_digest : opt_lang DIGEST_REGEXP d;
}.

Definition text (n : chars) (t d : option chars) : chars := n ++ suffix ":" t ++ suffix "@" d.

Lemma not_in_suffix x y r o : opt_lang r o → x ≠ y → may r x = false → x ∉ suffix y o.
Proof. destruct o as [w|]; cbn; [|set_solver]. intros Hw Hxy Hr. pose proof (lang_without _ _ x Hw Hr). set_solver. Qed.

Lemma not_in_name x n : lang NAME_REGEXP n → may NAME_REGEXP x = false → x ∉ n.
Proof. apply lang_without. Qed.

Lemma name_tag_inj n t n' t' : lang NAME_REGEXP n → lang NAME_REGEXP n' → opt_lang TAG_REGEXP t → opt_lang TAG_REGEXP t' →
  n ++ suffix ":" t = n' ++ suffix ":" t' → n = n' ∧ t = t'.
Proof.
  intros Hn Hn' Ht Ht'.
  assert (∀ w, lang TAG_REGEXP w → "/"%char ∉ w ∧ ":"%char ∉ w) as Htag.
  { intros w Hw. split; by apply (lang_without _ _ _ Hw). }
  assert (∀ (x : ascii) l, x ∈ rev l ↔ x ∈ l) as in_rev_iff by (intros; by rewrite !list_elem_of_In, <- in_rev).
  destruct t as [w|], t' as [w'|]; cbn [suffix opt_lang] in *; rewrite ?app_nil_r; intros He; subst; try done.
  - apply (f_equal (@rev ascii)) in He. rewrite !rev_app_distr in He. cbn [rev] in He.
    rewrite <- !app_assoc in He. cbn [app] in He.
    apply (suffix_inj ":" (rev w) (rev w') (Some (rev n)) (Some (rev n'))) in He as [H1 [= H2]].
    + by rewrite <- (rev_involutive n), H2, <- (rev_involutive w), H1, !rev_involutive.
    + rewrite in_rev_iff. by apply Htag.
    + rewrite in_rev_iff. by apply Htag.
  - by destruct (proj1 (Htag w Ht) (name_colon _ n w Hn' eq_refl)).
  - by destruct (proj1 (Htag w' Ht') (name_colon _ n' w' Hn eq_refl)).
Qed.

Lemma text_inj n t d e n' t' d' e' : well_formed n t d → well_formed n' t' d' → ends e → ends e' →
  text n t d ++ e = text n' t' d' ++ e' → n = n' ∧ t = t' ∧ d = d'.
Proof.
  intros [Hn Ht Hd] [Hn' Ht' Hd'] He He'. unfold text.
  assert (∀ e, ends e → ∃ o, e = suffix "010" o) as Hend.
  { intros x [->| ->]; [by exists None|by exists (Some [])]. }
  destruct (Hend e He) as [o ->], (Hend e' He') as [o' ->].
  assert (∀ x n t d, lang NAME_REGEXP n → opt_lang TAG_REGEXP t → opt_lang DIGEST_REGEXP d →
    x ≠ ":"%char → x ≠ "@"%char → may NAME_REGEXP x = false → may TAG_REGEXP x = false → may DIGEST_REGEXP x = false →
    x ∉ n ++ suffix ":" t ++ suffix "@" d) as Hout.
  { intros x n0 t0 d0 H1 H2 H3 ?? Hx1 Hx2 Hx3. rewrite !elem_of_app.
    pose proof (not_in_name x n0 H1 Hx1). pose proof (not_in_suffix x ":" _ _ H2 ltac:(done) Hx2).
    pose proof (not_in_suffix x "@" _ _ H3 ltac:(done) Hx3). tauto. }
  intros [Htext _]%suffix_inj; [|by apply Hout..].
  rewrite !app_assoc in Htext. apply suffix_inj in Htext as [Hnt ->].
  - by apply name_tag_inj in Hnt as [-> ->].
  - rewrite elem_of_app. pose proof (not_in_name "@" n Hn eq_refl). pose proof (not_in_suffix "@" ":" _ _ Ht ltac:(done) eq_refl). tauto.
  - rewrite elem_of_app. pose proof (not_in_name "@" n' Hn' eq_refl). pose proof (not_in_suffix "@" ":" _ _ Ht' ltac:(done) eq_refl). tauto.
Qed.

(** The pattern of a reference reads exactly the texts of well-formed ones, and a newline after. *)
Lemma reference_match s gs : re_match REFERENCE_REGEXP s = Some gs ↔
  ∃ n t d e, well_formed n t d ∧ ends e ∧ s = text n t d ++ e ∧ gs = [Some n; t; d].
Proof.
  split.
  - intros (e & (n & t & d & Hn & Ht & Hd & -> & He & ->)%reference_ways)%re_match_Some.
    exists n, t, d, e. unfold text. by rewrite <- !app_assoc.
  - intros (n & t & d & e & Hwf & He & -> & ->). pose proof Hwf as [Hn Ht Hd].
    apply (re_match_unique _ _ _ e).
    + apply reference_ways. exists n, t, d. unfold text. rewrite <- !app_assoc. done.
    + intros s1 c1 (n' & t' & d' & Hn' & Ht' & Hd' & Hs & He' & ->)%reference_ways.
      rewrite !app_assoc, <- (app_assoc n') in Hs.
      by destruct (text_inj n t d e n' t' d' s1) as (-> & -> & ->).
Qed.

(** ** The parser *)

(** A reference in its most telling class. *)
Definition reference_of (n : chars) (t d : option chars) : Reference :=
  mkRef (match t, d with
         | None, None => CNamed
         | None, Some _ => CCanonical
         | Some _, None => CTagged
         | Some _, Some _ => CReference
         end) (Some (implode n)) (implode <$> t) (implode <$> d).

Definition valid_digest (d : option chars) : bool :=
  match d with Some w => is_ok (validate_digest (implode w)) | None => true end.

(** A well-formed reference that is not too long, whose digest is of a known kind. *)
Definition acceptable (r : Reference) : Prop :=
  ∃ n t d, well_formed n t d ∧ length n ≤ NAME_TOTAL_LENGTH_MAX ∧ valid_digest d = true ∧ r = reference_of n t d.

Definition newline : string := implode ["010"%char].

Lemma length_implode l : String.length (implode l) = length l.
Proof. induction l as [|c l IH]; [done|]. exact (f_equal S IH). Qed.

Lemma truthy_word r w : lang r w → nullable r = false → truthy (Some (implode w)) = true.
Proof. intros Hw Hn. pose proof (lang_not_empty _ _ Hw Hn). by destruct w. Qed.

(** [validate_digest] raises nothing else. *)
Lemma validate_digest_cases s : validate_digest s = Ok tt ∨ validate_digest s = Raise InvalidDigest.
Proof. unfold validate_digest. repeat (case_match; auto). Qed.

Lemma best_reference_of n t d : well_formed n t d →
  best_reference (mkRef CReference (Some (implode n)) (implode <$> t) (implode <$> d)) = Some (reference_of n t d).
Proof.
  intros [Hn Ht Hd]. unfold best_reference. cbn [r_name r_tag r_digest].
  rewrite (truthy_word _ _ Hn eq_refl). cbn [negb].
  destruct t as [w|], d as [w'|]; cbn [fmap option_fmap option_map];
    rewrite ?(truthy_word _ _ Ht eq_refl), ?(truthy_word _ _ Hd eq_refl); done.
Qed.

Lemma to_string_of n t d : to_string (reference_of n t d) = implode (text n t d).
Proof.
  unfold to_string, text. destruct t, d; cbn [reference_of r_class r_name r_tag r_digest suffix fmap option_fmap option_map fmt default];
    rewrite ?app_nil_r, ?implode_app; done.
Qed.

Lemma parse_text s n t d e : well_formed n t d → ends e → explode s = text n t d ++ e →
  parse s = if NAME_TOTAL_LENGTH_MAX <? length n then Raise (Zun NameTooLong) else
            if valid_digest d then Ok (reference_of n t d) else Raise InvalidDigest.
Proof.
  intros Hwf He Hs. unfold parse. rewrite (proj2 (reference_match (explode s) [Some n; t; d])) by eauto 8.
  unfold nth_group. cbn [lookup list_lookup default id fmap option_fmap option_map]. rewrite length_implode.
  destruct (_ <? _); [done|]. pose proof (best_reference_of _ _ _ Hwf) as Hbest. pose proof Hwf as [Hn Ht Hd].
  destruct d as [w|]; cbn [default fmap option_fmap option_map valid_digest] in *.
  - rewrite (truthy_word _ _ Hd eq_refl). cbn [id]. destruct (validate_digest_cases (implode w)) as [-> | ->].
    + cbn [is_ok]. by destruct t; cbn in *; rewrite Hbest.
    + done.
  - by destruct t; cbn in *; rewrite Hbest.
Qed.

Lemma parse_no_match s : (∀ n t d e, well_formed n t d → ends e → explode s ≠ text n t d ++ e) →
  parse s = Raise (Zun (if bool_decide (s = "") then NameEmpty else ReferenceInvalidFormat)).
Proof.
  intros Hno. unfold parse. destruct (re_match REFERENCE_REGEXP (explode s)) as [gs|] eqn:Hm.
  - apply reference_match in Hm as (n & t & d & e & Hwf & He & Hs & _). by destruct (Hno n t d e).
  - by case_bool_decide.
Qed.

Lemma parse_iff s r :
  parse s = Ok r ↔ acceptable r ∧ (s = to_string r ∨ s = (to_string r ++ newline)%string).
Proof.
  split.
  - intros Hp. destruct (re_match REFERENCE_REGEXP (explode s)) as [gs|] eqn:Hm.
    + apply reference_match in Hm as (n & t & d & e & Hwf & He & Hs & _).
      rewrite (parse_text s n t d e Hwf He Hs) in Hp. destruct (_ <? _) eqn:Hl; [done|]. apply Nat.ltb_ge in Hl.
      destruct (valid_digest d) eqn:Hd; [|done]. injection Hp as <-. split; [by exists n, t, d|].
      unfold newline. rewrite to_string_of, <- implode_app, <- (implode_explode s), Hs.
      destruct He as [-> | ->]; [left; by rewrite app_nil_r|by right].
    + unfold parse in Hp. rewrite Hm in Hp. by case_bool_decide.
  - intros ((n & t & d & Hwf & Hl & Hd & ->) & Hs). rewrite to_string_of in Hs. unfold newline in Hs.
    rewrite <- implode_app in Hs.
    assert (∃ e, ends e ∧ explode s = text n t d ++ e) as (e & He & Hse).
    { destruct Hs as [-> | ->]; rewrite explode_implode; [exists []|exists ["010"%char]]; (split; [by (left + right)|]).
      - by rewrite app_nil_r.
      - done. }
    rewrite (parse_text s n t d e Hwf He Hse), (proj2 (Nat.ltb_ge _ _)) by done. by rewrite Hd.
Qed.

(** C19. The parser and the printers are inverse.  What is parsed is a well-formed
    reference: its parts are words of the patterns of names, tags and digests, the name
    has at most 255 characters, the digest is of a known algorithm and of its length,
    and the class is the one of the parts present.  The text is what the reference
    prints, or that and a newline; and every such reference is read back from what it
    prints: no text has a second reading. *)
Theorem parse_prints s r :
  parse s = Ok r ↔ acceptable r ∧ (s = to_string r ∨ s = (to_string r ++ newline)%string).
Proof. apply parse_iff. Qed.

(** ** What a name that is refused costs *)

Section Cost.
Context (whole : nat) (i : nat) (c : caps).

(** A run of letters that something else ends. *)
Definition letters (n : nat) : chars := replicate n "a"%char ++ ["!"%char].
Lemma length_letters n : length (letters n) = S n.
Proof. unfold letters. rewrite length_app, length_replicate. cbn. lia. Qed.

Definition splits (n : nat) : list (chars * caps) := (λ j, (letters j, c)) <$> seq 0 n.
Lemma splits_S n : splits (S n) = splits n ++ [(letters n, c)].
Proof. unfold splits. by rewrite seq_S, fmap_app. Qed.

Lemma letters_class n : ways whole (Class_ lower_digit) i (letters (S n)) c = [(letters n, c)].
Proof. reflexivity. Qed.

Lemma alnum_rep n : ∀ fuel, S n < fuel →
  ways_rep (ways whole (Class_ lower_digit) i) fuel 0 None (letters n) c = splits (S n).
Proof.
  induction n as [|n IH]; intros [|fuel] Hf; try lia; [reflexivity|].
  rewrite splits_S, <- (IH fuel) by lia. cbn [ways_rep]. rewrite bool_decide_eq_false_2, letters_class by done.
  cbn [mbind list_bind fst snd]. rewrite !length_letters, (proj2 (Nat.ltb_lt _ _)) by lia. by rewrite app_nil_r.
Qed.

Lemma alnum_ways n : ways whole ALPHA_NUMERIC_REGEXP i (letters n) c = splits n.
Proof.
  unfold ALPHA_NUMERIC_REGEXP. cbn [ways]. rewrite length_letters. destruct n as [|n]; [reflexivity|].
  change (ways_rep _ (S ?f) 1 None ?s c) with
    (ways whole (Class_ lower_digit) i s c ≫= λ p, ways_rep (ways whole (Class_ lower_digit) i) f 0 None p.1 p.2).
  rewrite letters_class. cbn [mbind list_bind fst snd]. rewrite alnum_rep by lia. by rewrite app_nil_r.
Qed.

Lemma separator_ways n : ways whole SEPARATOR_REGEXP i (letters n) c = [(letters n, c)].
Proof. by destruct n. Qed.

Lemma length_splits_bind (f : chars * caps → list (chars * caps)) n :
  (∀ j, j < n → length (f (letters j, c)) = 2 ^ j) → S (length (splits n ≫= f)) = 2 ^ n.
Proof.
  induction n as [|n IH]; intros Hf; [done|]. rewrite splits_S, bind_app, length_app.
  rewrite <- Nat.add_succ_l, IH by (intros; apply Hf; lia). cbn [mbind list_bind]. rewrite app_nil_r, Hf by lia. cbn. lia.
Qed.
End Cost.

Lemma pieces_ways whole i c n :
  ways whole (group [SEPARATOR_REGEXP; ALPHA_NUMERIC_REGEXP]) i (letters n) c = splits c n.
Proof.
  change (ways whole (group [?a; ?b]) i ?s c) with (ways whole a i s c ≫= λ p, ways whole (Seq b Eps) (i + groups a) p.1 p.2).
  rewrite separator_ways. cbn [mbind list_bind fst snd]. by rewrite ways_Seq_Eps, alnum_ways, app_nil_r.
Qed.

Lemma pieces_rep whole i c n : ∀ fuel, S n < fuel →
  length (ways_rep (ways whole (group [SEPARATOR_REGEXP; ALPHA_NUMERIC_REGEXP]) i) fuel 0 None (letters n) c) = 2 ^ n.
Proof.
  induction n as [n IH] using lt_wf_ind. intros [|fuel] Hf; [lia|]. cbn [ways_rep].
  rewrite bool_decide_eq_false_2, pieces_ways, length_app by done. cbn [length]. rewrite Nat.add_1_r.
  apply length_splits_bind. intros j Hj. cbn [fst snd]. rewrite !length_letters, (proj2 (Nat.ltb_lt _ _)) by lia.
  apply IH; lia.
Qed.

Lemma pieces_optional whole i c n :
  length (ways whole (optional [repeated [SEPARATOR_REGEXP; ALPHA_NUMERIC_REGEXP]]) i (letters n) c) = 2 ^ n.
Proof.
  unfold optional. rewrite ways_optional, length_app. cbn [length]. rewrite Nat.add_1_r.
  change (ways whole (group [?a]) i ?s c) with (ways whole (Seq a Eps) i s c). rewrite ways_Seq_Eps.
  change (ways whole (repeated ?r) i ?s c) with (ways_rep (ways whole (group r) i) (S (1 + length s)) 1 None s c).
  cbn [ways_rep]. rewrite pieces_ways. apply length_splits_bind. intros j Hj. cbn [fst snd]. apply pieces_rep.
  rewrite length_letters. lia.
Qed.

Lemma component_ways whole i c n : S (length (ways whole NAME_COMPONENT_REGEXP i (letters n) c)) = 2 ^ n.
Proof.
  change (ways whole NAME_COMPONENT_REGEXP i ?s c) with
    (ways whole ALPHA_NUMERIC_REGEXP i s c ≫= λ p,
       ways whole (Seq (optional [repeated [SEPARATOR_REGEXP; ALPHA_NUMERIC_REGEXP]]) Eps) (i + 0) p.1 p.2).
  rewrite alnum_ways. apply length_splits_bind. intros j Hj. cbn [fst snd]. rewrite ways_Seq_Eps. apply pieces_optional.
Qed.

(** What an optional part follows is tried at least as often. *)
Lemma length_bind_more {A B} (f : A → list B) l : (∀ x, f x ≠ []) → length l ≤ length (l ≫= f).
Proof.
  intros Hf. induction l as [|x l IH]; [done|]. change ((x :: l) ≫= f) with (f x ++ (l ≫= f)). rewrite length_app.
  destruct (f x) eqn:He; [by destruct (Hf x)|]. cbn [length]. lia.
Qed.

Lemma name_ways whole i c n : 2 ^ n ≤ S (length (ways whole NAME_REGEXP i (letters n) c)).
Proof.
  set (path := optional [repeated [literal "/"; NAME_COMPONENT_REGEXP]]).
  change (ways whole NAME_REGEXP i ?s c) with
    (ways whole (optional [HOSTNAME_REGEXP; literal "/"]) i s c ≫= λ p,
       ways whole NAME_COMPONENT_REGEXP (i + 0) p.1 p.2 ≫= λ q, ways whole (Seq path Eps) (i + 0 + 0) q.1 q.2).
  unfold optional at 1. rewrite ways_optional, bind_app, length_app. cbn [mbind list_bind fst snd]. rewrite app_nil_r.
  rewrite <- (component_ways whole (i + 0) c n). apply le_n_S.
  etransitivity; [apply (length_bind_more (λ q, ways whole (Seq path Eps) (i + 0 + 0) q.1 q.2))|unfold mbind; lia].
  intros q. rewrite ways_Seq_Eps. unfold path, optional. rewrite ways_optional. by destruct ways.
Qed.

(** C27. A name of [n] letters that ends in a character no name has is refused; but
    before that, what follows the name is tried [2 ^ n - 1] times at least. *)
Theorem refusal_is_exponential n :
  is_ok (parse (implode (letters n))) = false ∧ 2 ^ n - 1 ≤ tries NAME_REGEXP (letters n).
Proof.
  split.
  - rewrite parse_no_match; [done|]. intros nm t d e [Hn Ht Hd] He Hs. rewrite explode_implode in Hs.
    assert ("!"%char ∈ text nm t d ++ e) as Hin by (rewrite <- Hs; unfold letters; set_solver).
    unfold text in Hin. rewrite !elem_of_app in Hin. destruct Hin as [[Hin|[Hin|Hin]]|Hin].
    + by apply (not_in_name "!" nm Hn eq_refl).
    + by apply (not_in_suffix "!" ":" _ _ Ht ltac:(done) eq_refl).
    + by apply (not_in_suffix "!" "@" _ _ Hd ltac:(done) eq_refl).
    + destruct He as [-> | ->]; set_solver.
  - rewrite tries_ways. pose proof (name_ways (length (letters n)) 0 (replicate (groups NAME_REGEXP) None) n). lia.
Qed.

(** ** The registry of a name *)

Definition PATH : re := expression [NAME_COMPONENT_REGEXP; optional [repeated [literal "/"; NAME_COMPONENT_REGEXP]]].

(** A host that is not the first component of a path on the default registry. *)
Definition telling (h : chars) : bool :=
  bool_decide ("."%char ∈ h) || bool_decide (":"%char ∈ h) || bool_decide (implode h = "localhost").

Lemma lang_host_single h : lang (expression [HOSTNAME_REGEXP]) h ↔ lang HOSTNAME_REGEXP h.
Proof. apply lang_single. Qed.

Lemma bind_bind {A B C} (l : list A) (f : A → list B) (g : B → list C) : (l ≫= f) ≫= g = l ≫= λ x, f x ≫= g.
Proof.
  induction l as [|x l IH]; [done|]. change ((x :: l) ≫= ?h) with (h x ++ (l ≫= h)). by rewrite bind_app, IH.
Qed.

(** The two halves of what the pattern of a split name tries: with a host, and without. *)
Lemma anchored_name_ways s c0 : ∃ l1 l2,
  ways (length s) ANCHORED_NAME_REGEXP 0 s c0 = l1 ++ l2 ∧
  (∀ s' c', (s', c') ∈ l1 ↔ ∃ h p, s = h ++ "/"%char :: p ++ s' ∧ ends s' ∧ lang HOSTNAME_REGEXP h ∧ lang PATH p ∧
     c' = <[1 := Some p]> (<[0 := Some h]> c0)) ∧
  (∀ s' c', (s', c') ∈ l2 ↔ ∃ p, s = p ++ s' ∧ ends s' ∧ lang PATH p ∧ c' = <[1 := Some p]> c0).
Proof.
  set (tail := λ p : chars * caps, ways (length s) (Seq (Seq (capture [NAME_COMPONENT_REGEXP;
    optional [repeated [literal "/"; NAME_COMPONENT_REGEXP]]]) Eps) Eol) 1 p.1 p.2).
  assert (∀ s1 c1 s' c', (s', c') ∈ tail (s1, c1) ↔ ∃ p, s1 = p ++ s' ∧ ends s' ∧ lang PATH p ∧ c' = <[1 := Some p]> c1) as Ht.
  { intros s1 c1 s' c'. unfold tail. cbn [fst snd]. rewrite ways_Seq. setoid_rewrite ways_Eol. split.
    - intros (s2 & c2 & H & He & -> & ->). rewrite ways_Seq_Eps in H. apply ways_Cap in H as (p & -> & Hp & ->); [|done..]. eauto.
    - intros (p & -> & He & Hp & ->). exists s', (<[1 := Some p]> c1). rewrite ways_Seq_Eps. split; [|done].
      apply ways_Cap; eauto. }
  exists (ways (length s) (group [capture [HOSTNAME_REGEXP]; literal "/"]) 0 s c0 ≫= tail), (tail (s, c0)).
  split_and!.
  - unfold ANCHORED_NAME_REGEXP, anchored. cbn [ways]. rewrite bool_decide_eq_true_2 by done. cbn [mbind list_bind].
    rewrite app_nil_r.
    change (ways _ (expression [?o; ?r]) _ _ _) with (ways (length s) o 0 s c0 ≫= λ p, ways (length s) (Seq r Eps) 1 p.1 p.2).
    rewrite bind_bind. change (ways _ (optional ?r) 0 s c0) with (ways (length s) (Rep (group r) 0 (Some 1)) 0 s c0).
    rewrite ways_optional, bind_app. f_equal. apply app_nil_r.
  - intros s' c'. rewrite list_elem_of_bind. split.
    + intros ([s1 c1] & H2 & H1). apply Ht in H2 as (p & -> & He & Hp & ->).
      unfold group in H1. cbn [ways] in H1. apply ways_expression_cons in H1 as (s2 & c2 & H1 & H2).
      apply ways_capture in H1 as (h & -> & Hh & ->); [|done..]. change (literal "/") with (expression [Chr "/"]) in H2.
      rewrite ways_expression_cons in H2. destruct H2 as (s3 & c3 & H2 & [<- ->]%ways_expression_nil).
      change (expression [Chr "/"]) with (Seq (Chr "/") Eps) in H2. rewrite ways_Seq_Eps in H2.
      apply ways_Chr in H2 as [-> ->]. eauto 8.
    + intros (h & p & -> & He & Hh & Hp & ->). exists (p ++ s', <[0 := Some h]> c0). split; [by apply Ht; eauto|].
      unfold group. cbn [ways]. apply ways_expression_cons. eexists _, _. split.
      { apply ways_capture; [done..|]. by exists h. }
      change (expression [literal "/"]) with (Seq (Seq (Chr "/") Eps) Eps). rewrite !ways_Seq_Eps. by apply ways_Chr.
  - intros s' c'. apply Ht.
Qed.

(** The host is what precedes the first slash; what follows it is a path. *)
Lemma split_at_slash h p e h' p' e' : lang HOSTNAME_REGEXP h → lang HOSTNAME_REGEXP h' → lang PATH p → lang PATH p' →
  ends e → ends e' → h ++ "/"%char :: p ++ e = h' ++ "/"%char :: p' ++ e' → h = h' ∧ p = p'.
Proof.
  intros Hh Hh' Hp Hp' He He' Heq.
  destruct (suffix_inj "/" h h' (Some (p ++ e)) (Some (p' ++ e'))) as [-> [= Hpe]]; [by eapply lang_without..|done|].
  split; [done|]. assert (∀ e, ends e → ∃ o, e = suffix "010" o) as Hend.
  { intros x [->| ->]; [by exists None|by exists (Some [])]. }
  destruct (Hend e He) as [o ->], (Hend e' He') as [o' ->].
  by apply suffix_inj in Hpe as [-> _]; [|by apply (lang_without PATH)..].
Qed.

Lemma path_is_name p : lang PATH p → lang NAME_REGEXP p.
Proof. intros Hp. apply name_shape. exists [], p. auto. Qed.
Lemma name_with_host h p : lang HOSTNAME_REGEXP h → lang PATH p → lang NAME_REGEXP (h ++ "/"%char :: p).
Proof. intros Hh Hp. apply name_shape. exists (h ++ ["/"%char]), p. rewrite <- app_assoc. split_and!; eauto. Qed.

Lemma split_hostname_some n h p : re_match ANCHORED_NAME_REGEXP n = Some [Some h; Some p] →
  split_hostname (implode n) = if telling h then (implode h, implode p) else ("", implode n).
Proof.
  intros Hm. unfold split_hostname. rewrite explode_implode, Hm. unfold nth_group, telling.
  cbn [lookup list_lookup default id fmap option_fmap option_map fmt]. rewrite explode_implode.
  by repeat case_bool_decide.
Qed.
Lemma split_hostname_none n p : re_match ANCHORED_NAME_REGEXP n = Some [None; Some p] → split_hostname (implode n) = ("", implode n).
Proof. intros Hm. unfold split_hostname. by rewrite explode_implode, Hm. Qed.

Lemma anchored_name_groups : groups ANCHORED_NAME_REGEXP = 2.
Proof. reflexivity. Qed.

(** A name is split after its host, if it is a telling one. *)
Lemma split_hostname_host h p : lang HOSTNAME_REGEXP h → lang PATH p →
  split_hostname (implode (h ++ "/"%char :: p)) =
    if telling h then (implode h, implode p) else ("", implode (h ++ "/"%char :: p)).
Proof.
  intros Hh Hp. set (s := h ++ "/"%char :: p). apply split_hostname_some.
  rewrite re_match_head, anchored_name_groups.
  destruct (anchored_name_ways s (replicate 2 None)) as (l1 & l2 & -> & H1 & _).
  destruct l1 as [|[s1 c1] l1].
  - assert (([], [Some h; Some p]) ∈ ([] : list (chars * caps))) as []%elem_of_nil. apply H1. exists h, p.
    split_and!; try done; [unfold s; by rewrite app_nil_r|by left].
  - cbn [head app fmap option_fmap option_map snd]. f_equal.
    destruct (proj1 (H1 s1 c1)) as (h' & p' & Hs & He & Hh' & Hp' & ->); [by left|].
    unfold s in Hs. rewrite <- (app_nil_r p) in Hs.
    by destruct (split_at_slash h p [] h' p' s1 Hh Hh' Hp Hp' (or_introl eq_refl) He Hs) as [-> ->].
Qed.

(** A name that starts with the host of a registry. *)
Definition names_registry (n : chars) : Prop :=
  ∃ h p, n = h ++ "/"%char :: p ∧ lang HOSTNAME_REGEXP h ∧ lang PATH p ∧ telling h = true.

Lemma names_registry_split n : names_registry n → (split_hostname (implode n)).1 ≠ "".
Proof.
  intros (h & p & -> & Hh & Hp & Ht). rewrite split_hostname_host, Ht by done. cbn.
  pose proof (lang_not_empty _ _ Hh eq_refl). by destruct h.
Qed.

Lemma split_hostname_cases n : lang NAME_REGEXP n →
  if bool_decide ((split_hostname (implode n)).1 = "") then ¬ names_registry n else names_registry n.
Proof.
  intros Hn. case_bool_decide as He; [by intros ?%names_registry_split|].
  destruct (re_match ANCHORED_NAME_REGEXP n) as [gs|] eqn:Hm.
  - destruct (re_match_Some _ _ _ Hm) as [s' Hs']. rewrite anchored_name_groups in Hs'.
    destruct (anchored_name_ways n (replicate 2 None)) as (l1 & l2 & Hw & H1 & H2). rewrite Hw in Hs'.
    apply elem_of_app in Hs' as [(h & q & Heq & Hend & Hh & Hq & ->)%H1|(q & _ & _ & _ & ->)%H2].
    + destruct Hend as [->| ->].
      * rewrite app_nil_r in Heq. exists h, q. split_and!; try done.
        rewrite (split_hostname_some n h q Hm) in He. by destruct (telling h).
      * assert ("010"%char ∉ n) as Hnl by by eapply lang_without. destruct Hnl. rewrite Heq.
        apply elem_of_app. right. apply list_elem_of_further, elem_of_app. right. by left.
    + by rewrite (split_hostname_none n q Hm) in He.
  - unfold split_hostname in He. by rewrite explode_implode, Hm in He.
Qed.

(** What is pulled for an image that names its registry is the name as it is; any
    other name is put under the registry asked for, or else the default one if there is
    one.  Without a tag the latest is meant, and a digest is not looked at.  Glance is
    given the name alone. *)
Theorem registry_of_image default_driver default_registry s r driver registry n :
  parse s = Ok r → r_name r = Some (implode n) →
  let from := match driver with Some d => Some d | None => default_driver end in
  ∃ repo tag, parse_image_name default_driver default_registry s driver registry = Ok (repo, tag) ∧
    (from = Some "glance" → repo = implode n ∧ tag = "") ∧
    (from ≠ Some "glance" → tag = default "latest" (r_tag r) ∧
      (names_registry n → repo = implode n) ∧
      (¬ names_registry n →
        repo = (match registry with
                | Some reg => fmt reg ++ "/" ++ implode n
                | None => if truthy default_registry then fmt default_registry ++ "/" ++ implode n else implode n
                end)%string)).
Proof.
  intros Hp Hr from. pose proof Hp as ((n' & t & d & Hwf & _ & _ & ->) & _)%parse_iff.
  cbn in Hr. injection Hr as Hr.
  assert (n' = n) as -> by by rewrite <- (explode_implode n'), Hr, explode_implode.
  unfold parse_image_name. rewrite Hp. cbn [reference_of r_name r_tag fmt default id]. fold from.
  pose proof (split_hostname_cases n (wf_name _ _ _ Hwf)) as Hs.
  destruct (split_hostname (implode n)) as [domain rest]. cbn [fst] in Hs.
  destruct (decide (from = Some "glance")) as [Hf|Hf].
  { rewrite bool_decide_eq_true_2 by done. eexists _, _. split; [done|]. split; [done|]. by intros []. }
  rewrite (bool_decide_eq_false_2 (from = _)) by done. eexists _, _. split; [done|]. split; [done|]. intros _. split.
  - destruct t as [w|]; [|done]. cbn [fmap option_fmap option_map].
    by rewrite (truthy_word _ _ (wf_tag _ _ _ Hwf) eq_refl).
  - by case_bool_decide.
Qed.

Lemma registry_of_image_witness :
  ∃ repo tag, parse_image_name None (Some "hub") "app:1" None (Some (Some "quay.io")) = Ok (repo, tag) ∧ tag = "1" ∧
    (¬ names_registry (explode "app") → repo = "quay.io/app").
Proof.
  destruct (registry_of_image None (Some "hub") "app:1" (mkRef CTagged (Some "app") (Some "1") None) None
              (Some (Some "quay.io")) (explode "app") ltac:(vm_compute; reflexivity) ltac:(reflexivity))
    as (repo & tag & H & _ & H2).
  destruct (H2 ltac:(discriminate)) as (Ht & _ & Hno). exists repo, tag. split_and!; [exact H|exact Ht|exact Hno].
Defined.

(** A newline after a reference is not seen. *)
Lemma newline_ignored : parse ("app:1" ++ newline)%string = Ok (mkRef CTagged (Some "app") (Some "1") None).
Proof. vm_compute. reflexivity. Qed.
(** A digest of an unknown algorithm is not one of the service's errors. *)
Lemma unknown_digest : parse "app@md5:00" = Raise (Py OtherException).
Proof. vm_compute. reflexivity. Qed.
