(* ===== verification/Capsules.v ===== *)
(** * The capsule controller (src/zun/api/controllers/v1/capsules.py, the capsule
    functions of src/zun/common/utils.py)

    A capsule is a group of containers, some of which run first ([init]).  A
    creation checks the template, stores the capsule, then each container, then
    makes or looks up the volumes; a deletion sends it to its host, or removes the
    rows.  The state is that of the API with the rows of capsules and of their
    containers; a statement of the database may fail ([db_error]), and has then no
    effect.  Values of the template are those its schema admits. *)

From stdpp Require Import gmap.
From S2P Require Import Prelude Exceptions PyStr Quota PciStats Container ComputeNode Claims.
From S2P Require Import ResourceRequest Scheduler Versions Services ApiState ComputeApi ContainersApi ContainersCreate.

(** ** The template *)

(** A text, an integer or null. *)
Inductive mval : Type := MNull | MInt (z : Z) | MStr (s : string).

Record requests : Type := mkRequests { rq_cpu : option jval; rq_memory : option mval }.
Record cport : Type := mkPortSpec { containerPort : string; protocol : option string }.
(** The container is known once it is created. *)
Record cmount : Type := mkCMount { cm_name : string; cm_path : string; cm_container : option string }.

(** A container, its keys as [VALID_CONTAINER_FILED] maps them. *)
Record cspec : Type := mkCSpec {
  cs_image : option string;
  cs_command : option (list string);
  cs_args : option (list string);
  cs_resources : option requests;
  cs_ports : option (list cport);
  cs_mounts : option (list cmount);
  cs_environment : option (list (string * string));
  cs_workdir : option string;
  cs_pull : option (option string);   (** absent, null or a text *)
  cs_tty : option bool;
  cs_interactive : option bool
}.

Record cinder_spec : Type := mkCinderSpec { ci_volumeID : option string; ci_size : option jval; ci_autoRemove : option bool }.
Record vspec : Type := mkVSpec { vs_name : option string; vs_cinder : option cinder_spec }.

Record spec : Type := mkSpec {
  sp_containers : option (list cspec);
  sp_initContainers : option (list cspec);
  sp_volumes : option (list vspec);
  sp_restartPolicy : option string;
  sp_restart_policy : option string
}.

Record metadata : Type := mkMeta {
  md_name : option string;
  md_labels : option (list (string * string));
  md_annotations : option (list (string * string))
}.

(** The schema admits neither [restart_policy] nor [nets] beside these. *)
Record template : Type := mkTemplate {
  tp_kind : string;
  tp_spec : option spec;
  tp_restartPolicy : option string;
  tp_metadata : option metadata;
  tp_availabilityZone : option string
}.

#[export] Instance mval_eq_dec : EqDecision mval. Proof. solve_decision. Defined.
#[export] Instance jval_eq_dec : EqDecision jval. Proof. solve_decision. Defined.
#[export] Instance requests_eq_dec : EqDecision requests. Proof. solve_decision. Defined.
#[export] Instance cport_eq_dec : EqDecision cport. Proof. solve_decision. Defined.
#[export] Instance cmount_eq_dec : EqDecision cmount. Proof. solve_decision. Defined.
#[export] Instance cspec_eq_dec : EqDecision cspec. Proof. solve_decision. Defined.

(** What is loaded from a text: JSON, of the schema or not. *)
Inductive loaded : Type := NotJson | Unschematic | Loaded (t : template).
Inductive template_arg : Type := TObject (t : template) | TText (s : string).

Definition VALID_CAPSULE_RESTART_POLICY (p : string) : option string :=
  snd <$> find (λ q, bool_decide (q.1 = p))
    [("Never", "no"); ("Always", "always"); ("OnFailure", "on-failure")].

(** ** What is stored *)

Record restart : Type := mkRestartPolicy { rs_count : string; rs_name : string }.
#[export] Instance restart_eq_dec : EqDecision restart. Proof. solve_decision. Defined.

(** A container's dictionary once it is ready. *)
Record cdict : Type := mkCDict {
  cd_project_id : option string;
  cd_user_id : option string;
  cd_name : string;
  cd_image : option string;
  cd_command : option (list string);
  cd_exposed_ports : option (list string);
  cd_environment : option (list (string * string));
  cd_workdir : option string;
  cd_tty : option bool;
  cd_interactive : option bool;
  cd_cpu : option jval;
  cd_memory : option string;
  cd_pull : string;
  cd_status : string;
  cd_capsule_id : nat;
  cd_restart : restart;
  cd_mounts : option (list cmount)
}.
#[export] Instance cdict_eq_dec : EqDecision cdict. Proof. solve_decision. Defined.

(** A row of a container of a capsule: [CapsuleContainer] or [CapsuleInitContainer]. *)
Record crow : Type := mkCRow { cr_uuid : string; cr_init : bool; cr_dict : cdict }.

Record capsule : Type := mkCapsule {
  cp_id : nat;
  cp_uuid : string;
  cp_project_id : option string;
  cp_user_id : option string;
  cp_status : string;
  cp_task_state : option string;
  cp_host : option string;
  cp_restart : option restart;
  cp_name : option string;
  cp_labels : option (list (string * string));
  cp_annotations : option (list (string * string));
  cp_image : option string;
  cp_image_driver : option string;
  cp_cpu : option Qc;
  cp_memory : option string
}.

Definition set_restart (r : restart) (c : capsule) : capsule :=
  mkCapsule (cp_id c) (cp_uuid c) (cp_project_id c) (cp_user_id c) (cp_status c) (cp_task_state c) (cp_host c) (Some r)
    (cp_name c) (cp_labels c) (cp_annotations c) (cp_image c) (cp_image_driver c) (cp_cpu c) (cp_memory c).
Definition set_metadata (m : metadata) (c : capsule) : capsule :=
  mkCapsule (cp_id c) (cp_uuid c) (cp_project_id c) (cp_user_id c) (cp_status c) (cp_task_state c) (cp_host c) (cp_restart c)
    (md_name m) (md_labels m) (md_annotations m) (cp_image c) (cp_image_driver c) (cp_cpu c) (cp_memory c).
Definition set_image (i d : option string) (c : capsule) : capsule :=
  mkCapsule (cp_id c) (cp_uuid c) (cp_project_id c) (cp_user_id c) (cp_status c) (cp_task_state c) (cp_host c) (cp_restart c)
    (cp_name c) (cp_labels c) (cp_annotations c) i d (cp_cpu c) (cp_memory c).
Definition set_amounts (q : Qc) (m : string) (c : capsule) : capsule :=
  mkCapsule (cp_id c) (cp_uuid c) (cp_project_id c) (cp_user_id c) (cp_status c) (cp_task_state c) (cp_host c) (cp_restart c)
    (cp_name c) (cp_labels c) (cp_annotations c) (cp_image c) (cp_image_driver c) (Some q) (Some m).
Definition set_task (t : string) (c : capsule) : capsule :=
  mkCapsule (cp_id c) (cp_uuid c) (cp_project_id c) (cp_user_id c) (cp_status c) (Some t) (cp_host c) (cp_restart c)
    (cp_name c) (cp_labels c) (cp_annotations c) (cp_image c) (cp_image_driver c) (cp_cpu c) (cp_memory c).

(** The requested volumes, by container. *)
Abbreviation volumes := (gmap string (list volmapp)).

(** What the controller asks of the services beyond [Clients]: deleting a volume, and
    the operations of the compute API on a capsule. *)
Class CapsuleClients (X : Type) : Type := {
  volumes_delete : string → py X unit;
  compute_create : capsule → option string → list net_request → volumes → py X unit;
  compute_delete : capsule → py X unit
}.

Record cstate (P X : Type) : Type := mkCState {
  c_base : qdb (api P X);
  c_capsules : list capsule;
  c_containers : list crow;
  c_ops : nat
}.
Arguments mkCState {P X} _ _ _ _.
Arguments c_base {P X} _.
Arguments c_capsules {P X} _.
Arguments c_containers {P X} _.
Arguments c_ops {P X} _.

Section Capsules.
Context {P X : Type} `{Clients X} `{CapsuleClients X}.
Context (allowed : context → string → target → bool) (is_uuid_like : string → bool).
Context (db_error : nat → option exn) (new_uuid random_name : nat → string) (str_float : Qc → string).
Context (load : string → loaded) (bool_of_text : string → option bool).
Context (sandbox_image sandbox_image_driver : option string).
Abbreviation CS := (cstate P X).

Definition on_base {A} (m : py (qdb (api P X)) A) : py CS A :=
  zoom c_base (λ b s, mkCState b (c_capsules s) (c_containers s) (c_ops s)) m.
Definition on_clients {A} (m : py X A) : py CS A := on_base (on_ext m).
Definition enforce (rule : string) (t : option target) : py CS unit := on_base (ApiState.enforce allowed rule t).
Definition the_context : py CS context := on_base ctx.

(** ** The tables *)

(** A statement of the database. *)
Definition db {A} (m : py CS A) : py CS A := λ s,
  let s' := mkCState (c_base s) (c_capsules s) (c_containers s) (S (c_ops s)) in
  match db_error (c_ops s) with
  | Some e => (Raise e, s')
  | None => m s'
  end.

Definition set_capsules (f : list capsule → list capsule) : py CS unit :=
  modify (λ s, mkCState (c_base s) (f (c_capsules s)) (c_containers s) (c_ops s)).
Definition set_containers (f : list crow → list crow) : py CS unit :=
  modify (λ s, mkCState (c_base s) (c_capsules s) (f (c_containers s)) (c_ops s)).

Definition stored (u : string) (l : list capsule) : bool := existsb (λ d, bool_decide (cp_uuid d = u)) l.

(** [capsule.save] and [capsule.destroy] *)
Definition save (c : capsule) : py CS unit := db (
  let! l := gets c_capsules in
  raise_if (negb (stored (cp_uuid c) l)) (Zun ContainerNotFound);;;
  set_capsules (λ l, (λ d, if bool_decide (cp_uuid d = cp_uuid c) then c else d) <$> l)).
Definition destroy_capsule (c : capsule) : py CS unit := db (
  let! l := gets c_capsules in
  raise_if (negb (stored (cp_uuid c) l)) (Zun ContainerNotFound);;;
  set_capsules (λ l, filter (λ d, cp_uuid d ≠ cp_uuid c) l)).

(** [objects.CapsuleContainer(...).create] and [container.destroy] *)
Definition create_container (init : bool) (d : cdict) : py CS string :=
  let! n := gets c_ops in
  db (set_containers (λ l, l ++ [mkCRow (new_uuid n) init d]);;; ret (new_uuid n)).
Definition destroy_container (r : crow) : py CS unit := db (
  let! l := gets c_containers in
  raise_if (negb (existsb (λ q, bool_decide (cr_uuid q = cr_uuid r)) l)) (Zun ContainerNotFound);;;
  set_containers (λ l, filter (λ q, cr_uuid q ≠ cr_uuid r) l)).

(** [capsule.containers] and [capsule.init_containers]: those that the request sees *)
Definition of_capsule (ctx : context) (init : bool) (c : capsule) (r : crow) : bool :=
  Bool.eqb (cr_init r) init && bool_decide (cd_capsule_id (cr_dict r) = cp_id c)
  && project_filter ctx (cd_project_id (cr_dict r)) (cd_user_id (cr_dict r)).
Definition load_containers (init : bool) (c : capsule) : py CS (list crow) :=
  let! ctx := the_context in
  db (gets (λ s, filter (λ r, of_capsule ctx init c r = true) (c_containers s))).

(** ** Checking the template *)

Definition invalid_template {A} : py CS A := raise (Zun InvalidCapsuleTemplate).

Definition check_capsule_template (tpl : template_arg) : py CS (spec * template) :=
  let! tpl_json := match tpl with
    | TObject t => ret t
    | TText s =>
        match load s with
        | NotJson => raise (Zun FailedParseStringToJson)
        | Unschematic => raise (Zun SchemaValidationError)
        | Loaded t => ret t
        end
    end in
  (if bool_decide (tp_kind tpl_json ∈ ["capsule"; "Capsule"]) then ret tt else invalid_template);;;
  let! spec_field := match tp_spec tpl_json with Some sp => ret sp | None => invalid_template end in
  let! spec_field := match sp_restartPolicy spec_field with
    | Some p =>
        let! q := of_option (VALID_CAPSULE_RESTART_POLICY p) (Py KeyError) in
        ret (mkSpec (sp_containers spec_field) (sp_initContainers spec_field) (sp_volumes spec_field) None (Some q))
    | None => ret spec_field
    end in
  match sp_containers spec_field with
  | None => invalid_template
  | Some _ => ret (spec_field, tpl_json)
  end.

(** An image is needed. *)
Definition check_image (c : cspec) : py CS unit :=
  match cs_image c with None => invalid_template | Some _ => ret tt end.

Definition capsule_get_container_spec (sp : spec) : py CS (list cspec * list cspec) :=
  let! containers_spec := of_option (sp_containers sp) (Py TypeError) in
  (if bool_decide (containers_spec = []) then invalid_template else ret tt);;;
  for_each check_image containers_spec;;;
  match sp_initContainers sp with
  | Some init_containers_spec => for_each check_image init_containers_spec;;; ret (containers_spec, init_containers_spec)
  | None => ret (containers_spec, [])
  end.

Definition jval_true (v : jval) : bool :=
  match v with
  | JNull => false
  | JInt z => negb (z =? 0)%Z
  | JFloat q => negb (bool_decide (q = 0%Qc))
  | JStr s => negb (bool_decide (s = ""))
  end.
Definition mval_true (v : mval) : bool :=
  match v with MNull => false | MInt z => negb (z =? 0)%Z | MStr s => negb (bool_decide (s = "")) end.

(** [{}] is false. *)
Definition cinder_true (c : cinder_spec) : bool :=
  match c with mkCinderSpec None None None => false | _ => true end.

Definition check_volume (v : vspec) : py CS unit :=
  (if bool_decide (vs_name v = None) then invalid_template else ret tt);;;
  match vs_cinder v with
  | Some c =>
      if cinder_true c then
        if negb (ostr_true (ci_volumeID c)) then
          if bool_decide (ci_size c = None) then invalid_template else ret tt
        else if match ci_size c with Some z => jval_true z | None => false end then invalid_template else ret tt
      else invalid_template
  | None => invalid_template
  end.

Definition capsule_get_volume_spec (sp : spec) : py CS (list vspec) :=
  let volumes_spec := default [] (sp_volumes sp) in
  for_each check_volume volumes_spec;;; ret volumes_spec.

(** ** The amounts of a capsule *)

(** A number; adding or comparing a text to a number is a [TypeError]. *)
Definition cpu_amount (v : jval) : py CS Qc :=
  match v with
  | JInt z => ret (Qc_of_Z z)
  | JFloat q => ret q
  | _ => raise (Py TypeError)
  end.
Definition memory_amount (v : mval) : py CS Z := match v with MInt z => ret z | _ => raise (Py TypeError) end.

(** What a container's requests make of an amount. *)
Definition with_cpu (f : Qc → Qc → Qc) (c : cspec) (acc : Qc) : py CS Qc :=
  match cs_resources c with
  | Some (mkRequests (Some v) _) => if jval_true v then let! q := cpu_amount v in ret (f acc q) else ret acc
  | _ => ret acc
  end.
Definition with_memory (f : Z → Z → Z) (c : cspec) (acc : Z) : py CS Z :=
  match cs_resources c with
  | Some (mkRequests _ (Some v)) => if mval_true v then let! z := memory_amount v in ret (f acc z) else ret acc
  | _ => ret acc
  end.

Fixpoint sum_amounts (f : Qc → Qc → Qc) (g : Z → Z → Z) (l : list cspec) (acc : Qc * Z) : py CS (Qc * Z) :=
  match l with
  | [] => ret acc
  | c :: l' =>
      let! q := with_cpu f c acc.1 in
      let! z := with_memory g c acc.2 in
      sum_amounts f g l' (q, z)
  end.

Definition Qc_max (a b : Qc) : Qc := if decide (a < b)%Qc then b else a.

(** The sum over the regular containers, or one of the others if it is more. *)
Definition capsule_amounts (containers init_containers : list cspec) : py CS (Qc * Z) :=
  let! need := sum_amounts Qcplus Z.add containers (0%Qc, 0%Z) in
  sum_amounts Qc_max Z.max init_containers need.

(** ** The containers *)

(** [utils.check_for_restart_policy] *)
Definition check_for_restart_policy (r : restart) : py CS restart :=
  let! count := of_option (int_of 10 (rs_count r)) (Py ValueError) in
  if bool_decide (rs_name r ∈ ["unless-stopped"; "always"]) then
    raise_if (negb (count =? 0)%Z) (Zun InvalidValue);;; ret r
  else ret (if bool_decide (rs_name r = "no") then mkRestartPolicy "0" (rs_name r) else r).

(** ["%s/%s" % (port['containerPort'], port.get('protocol', 'tcp').lower())], as keys *)
Definition exposed_port (p : cport) : string :=
  (containerPort p ++ "/" ++ lower (default "tcp" (protocol p)))%string.
Definition exposed_ports (ports : list cport) : list string :=
  foldl (λ keys p, if bool_decide (exposed_port p ∈ keys) then keys else keys ++ [exposed_port p]) [] ports.

Definition list_true {A} (l : option (list A)) : bool := match l with Some (_ :: _) => true | _ => false end.

(** The command and its arguments. *)
Definition full_command (c : cspec) : option (list string) :=
  if list_true (cs_args c) && list_true (cs_command c) then Some (default [] (cs_command c) ++ default [] (cs_args c))
  else if list_true (cs_args c) then cs_args c
  else cs_command c.

(** The policy for [image_pull_policy] is asked only when one is given. *)
Definition pull_policy (c : cspec) : py CS string :=
  let! pull :=
    match cs_pull c with
    | Some p =>
        if ostr_true p then
          let! ok := on_base (can allowed "container:create:image_pull_policy") in
          ret (if ok : bool then Some p else None)
        else ret (Some p)
    | None => ret None
    end in
  match pull with
  | None => ret "always"
  | Some (Some p) => ret (lower p)
  | Some None => raise (Py AttributeError)
  end.

Definition _generate_name_for_capsule_container (cap : capsule) (name : string) : string :=
  match cp_name cap with
  | None => "capsule-" ++ cp_uuid cap ++ "-" ++ name
  | Some n => "capsule-" ++ n ++ "-" ++ name
  end%string.

Definition CREATING : string := "Creating".

Definition ready_dict (cap : capsule) (c : cspec) (k : nat) (policy : restart) : py CS cdict :=
  let! pull := pull_policy c in
  let! ctx := the_context in
  ret (mkCDict (c_project_id ctx) (c_user_id ctx) (_generate_name_for_capsule_container cap (random_name k)) (cs_image c)
         (full_command c)
         (match cs_ports c with Some (p :: l) => Some (exposed_ports (p :: l)) | _ => None end)
         (cs_environment c) (cs_workdir c) (cs_tty c) (cs_interactive c)
         (match cs_resources c with Some (mkRequests (Some v) _) => if jval_true v then Some v else None | _ => None end)
         (match cs_resources c with
          | Some (mkRequests _ (Some v)) =>
              if mval_true v then Some (match v with MInt z => pretty.pretty z | MStr s => s | MNull => "None" end) else None
          | _ => None
          end)
         pull CREATING (cp_id cap) policy (cs_mounts c)).

Definition with_restart (r : restart) (d : cdict) : cdict :=
  mkCDict (cd_project_id d) (cd_user_id d) (cd_name d) (cd_image d) (cd_command d) (cd_exposed_ports d) (cd_environment d)
    (cd_workdir d) (cd_tty d) (cd_interactive d) (cd_cpu d) (cd_memory d) (cd_pull d) (cd_status d) (cd_capsule_id d) r (cd_mounts d).
Definition with_mounts (m : option (list cmount)) (d : cdict) : cdict :=
  mkCDict (cd_project_id d) (cd_user_id d) (cd_name d) (cd_image d) (cd_command d) (cd_exposed_ports d) (cd_environment d)
    (cd_workdir d) (cd_tty d) (cd_interactive d) (cd_cpu d) (cd_memory d) (cd_pull d) (cd_status d) (cd_capsule_id d) (cd_restart d) m.

Definition on_failure_10 : restart := mkRestartPolicy "10" "on-failure".

(** The keys that stay in a dictionary because their values are empty. *)
Abbreviation leftover := (option (list string) * option (list cport))%type.
Definition leftovers (c : cspec) : leftover :=
  (if list_true (cs_args c) then None else cs_args c, if list_true (cs_ports c) then None else cs_ports c).

(** One round of the loop: the initial containers so far, as they became, and the policy
    for the next container. *)
Record round_state : Type := mkRound {
  rd_inits : list (leftover * cdict);
  rd_policy : restart;
  rd_mounts : list cmount
}.

(** [container_spec in init_containers_spec] compares dictionaries: it holds of the
    initial containers, and of one that became equal to one of them. *)
Definition create_one (cap : capsule) (capsule_restart_policy : string) (k : nat) (from_init : bool) (c : cspec)
    (st : round_state) : py CS round_state :=
  let! d := ready_dict cap c k (rd_policy st) in
  let init := from_init || bool_decide ((leftovers c, d) ∈ rd_inits st) in
  let policy := if init && bool_decide (capsule_restart_policy = "always") then on_failure_10 else rd_policy st in
  let! r := check_for_restart_policy policy in
  let d := with_restart r d in
  let! uuid := create_container init d in
  let mounts := (λ m, mkCMount (cm_name m) (cm_path m) (Some uuid)) <$> default [] (cs_mounts c) in
  let d := if list_true (cs_mounts c) then with_mounts (Some mounts) d else d in
  ret (mkRound (if from_init then rd_inits st ++ [(leftovers c, d)] else rd_inits st) r (rd_mounts st ++ mounts)).

Fixpoint create_containers (cap : capsule) (capsule_restart_policy : string) (k : nat) (todo : list (bool * cspec))
    (st : round_state) : py CS round_state :=
  match todo with
  | [] => ret st
  | (from_init, c) :: todo' =>
      let! st' := create_one cap capsule_restart_policy k from_init c st in
      create_containers cap capsule_restart_policy (S k) todo' st'
  end.

(** ** The volumes *)

(** [volume_object.create] *)
Definition create_volume_row (cinder : string) (auto_remove : bool) : py CS volume_row :=
  let! rows := gets (λ s, a_volumes (others (c_base s))) in
  let v := mkVolumeRow (S (foldr max 0 (v_id <$> rows))) (Some cinder) (Some "cinder") auto_remove None in
  db (on_base (on_api (modify (λ a, set_volumes (a_volumes a ++ [v]) a)));;; ret v).

(** The mounts of one volume are added to what is requested; whether the last of them
    has a path and a container. *)
Fixpoint add_mounts (name : string) (v : volume_row) (mounts : list cmount) (acc : volumes * bool) : py CS (volumes * bool) :=
  match mounts with
  | [] => ret acc
  | item :: mounts' =>
      if bool_decide (cm_name item = name) then
        let! uuid := of_option (cm_container item) (Py KeyError) in
        add_mounts name v mounts'
          (<[uuid := default [] (acc.1 !! uuid) ++ [mkVolmapp v (cm_path item)]]> acc.1,
           negb (bool_decide (cm_path item = "")) && negb (bool_decide (uuid = "")))
      else add_mounts name v mounts' acc
  end.

Definition cinder_of (v : vspec) : py CS cinder_spec := of_option (vs_cinder v) (Py KeyError).

(** The volume of Cinder, the volume if it was made, and whether it goes with the capsule. *)
Definition obtain_volume (v : vspec) : py CS (cinder_volume * list string * bool) :=
  let! mount_driver := cinder_of v in
  let! ctx := the_context in
  if ostr_true (ci_volumeID mount_driver) then
    let! volume := on_clients (search_volume is_uuid_like (default "" (ci_volumeID mount_driver))) in
    on_clients (ensure_volume_usable (c_project_id ctx) volume);;;
    ret (volume, [], false)
  else
    let! volume := on_clients (Services.create_volume (str_of str_float (default JNull (ci_size mount_driver)))) in
    ret (volume, [cv_id volume], default false (ci_autoRemove mount_driver)).

(** It is stored, and mounted in the containers that name it. *)
Definition map_volume (mounts : list cmount) (v : vspec) (volume : cinder_volume) (auto_remove : bool) (acc : volumes)
    : py CS volumes :=
  let! row := create_volume_row (cv_id volume) auto_remove in
  let! '(acc, found) := add_mounts (default "" (vs_name v)) row mounts (acc, false) in
  raise_if (negb found) (Zun Invalid);;;
  ret acc.

(** [volume_created] outlives the exception. *)
Definition request_volume (mounts : list cmount) (v : vspec) (acc : volumes) : M (exn * list string) CS (volumes * list string) :=
  λ s,
    match obtain_volume v s with
    | (Raise e, s') => (Raise (e, []), s')
    | (Ok (volume, created, auto_remove), s') =>
        match map_volume mounts v volume auto_remove acc s' with
        | (Raise e, s'') => (Raise (e, created), s'')
        | (Ok acc, s'') => (Ok (acc, created), s'')
        end
    end.

Fixpoint request_volumes (mounts : list cmount) (l : list vspec) (acc : volumes) (created : list string)
    : M (exn * list string) CS volumes :=
  match l with
  | [] => ret acc
  | v :: l' => λ s,
      match request_volume mounts v acc s with
      | (Raise (e, new), s') => (Raise (e, created ++ new), s')
      | (Ok (acc, new), s') => request_volumes mounts l' acc (created ++ new) s'
      end
  end.

Definition swallow (m : py CS unit) : py CS unit := try_except m (λ _, Some (ret tt)).

(** [cinder_api.delete_volume] *)
Definition delete_volume (id : string) : py CS unit := on_clients (volumes_delete id).

Definition _build_requested_volumes (volume_spec : list vspec) (mounts : list cmount) (cap : capsule) : py CS volumes := λ s,
  match request_volumes mounts volume_spec ∅ [] s with
  | (Ok acc, s') => (Ok acc, s')
  | (Raise (e, volume_created), s') =>
      (for_each (λ id, swallow (delete_volume id)) volume_created;;;
       let! containers := load_containers false cap in
       for_each (λ r, swallow (destroy_container r)) containers;;;
       destroy_capsule cap;;;
       raise e) s'
  end.

(** ** The operations *)

(** [objects.Capsule(context, ...).create] *)
Definition create_capsule : py CS capsule :=
  let! ctx := the_context in
  let! n := gets c_ops in
  let! l := gets c_capsules in
  let cap := mkCapsule (S (foldr max 0 (cp_id <$> l))) (new_uuid n) (c_project_id ctx) (c_user_id ctx) CREATING
               None None None None None None None None None None in
  db (set_capsules (λ l, l ++ [cap]);;; ret cap).

(** The policy of the containers: the template has no [restart_policy] of its own. *)
Definition restart_name (sp : spec) : string :=
  if ostr_true (sp_restart_policy sp) then default "" (sp_restart_policy sp) else "always".

Definition metadata_true (m : metadata) : bool := match m with mkMeta None None None => false | _ => true end.

Definition _do_post (tpl : template_arg) : py CS capsule :=
  enforce "capsule:create" None;;;
  let! '(spec_content, template_json) := check_capsule_template tpl in
  let! '(containers_spec, init_containers_spec) := capsule_get_container_spec spec_content in
  let! volumes_spec := capsule_get_volume_spec spec_content in
  let! new_capsule := create_capsule in
  let capsule_restart_policy := restart_name spec_content in
  let container_restart_policy := mkRestartPolicy "0" capsule_restart_policy in
  let new_capsule := set_restart container_restart_policy new_capsule in
  let! requested_networks := on_base (build_requested_networks allowed is_uuid_like []) in
  let new_capsule := match tp_metadata template_json with
    | Some m => if metadata_true m then set_metadata m new_capsule else new_capsule
    | None => new_capsule
    end in
  save new_capsule;;;
  let az := if ostr_true (tp_availabilityZone template_json) then tp_availabilityZone template_json else None in
  let new_capsule := set_image sandbox_image sandbox_image_driver new_capsule in
  let! '(capsule_need_cpu, capsule_need_memory) := capsule_amounts containers_spec init_containers_spec in
  let merged_containers_spec := (pair true <$> init_containers_spec) ++ (pair false <$> containers_spec) in
  let! st := create_containers new_capsule capsule_restart_policy 0 merged_containers_spec
               (mkRound [] container_restart_policy []) in
  let! requested_volumes := _build_requested_volumes volumes_spec (rd_mounts st) new_capsule in
  let new_capsule := set_amounts capsule_need_cpu (pretty.pretty capsule_need_memory) new_capsule in
  save new_capsule;;;
  on_clients (compute_create new_capsule az requested_networks requested_volumes);;;
  ret new_capsule.

(** [api_utils.get_resource('Capsule', ident)] *)
Definition get_capsule (ident : string) : py CS capsule :=
  let! ctx := the_context in
  (if c_is_admin ctx then on_base (on_api (modify (set_ctx (with_all_projects ctx)))) else ret tt);;;
  let! ctx := the_context in
  let! seen := db (gets (λ s, filter (λ c, project_filter ctx (cp_project_id c) (cp_user_id c) = true) (c_capsules s))) in
  if is_uuid_like ident then
    match filter (λ c, cp_uuid c = ident) seen with
    | [c] => ret c
    | _ => raise (Zun ContainerNotFound)
    end
  else
    match filter (λ c, cp_name c = Some ident) seen with
    | [] => raise (Zun ContainerNotFound)
    | [c] => ret c
    | _ => raise (Zun Conflict)
    end.

(** [check_policy_on_capsule(capsule.as_dict(), ...)] loads the containers. *)
Definition check_policy_on_capsule (c : capsule) (action : string) : py CS (list crow * list crow) :=
  let! containers := load_containers false c in
  let! init_containers := load_containers true c in
  enforce action (Some (mkTarget (cp_project_id c) (cp_user_id c)));;;
  ret (containers, init_containers).

Definition _do_get_one (ident : string) : py CS capsule :=
  let! c := get_capsule ident in
  check_policy_on_capsule c "capsule:get";;;
  ret c.

Definition delete (ident : string) (all_projects : option flag) : py CS unit :=
  on_base (across_projects allowed bool_of_text all_projects "capsule:delete_all_projects");;;
  let! c := get_capsule ident in
  let! '(containers, init_containers) := check_policy_on_capsule c "capsule:delete" in
  let c := set_task "container_deleting" c in
  save c;;;
  if ostr_true (cp_host c) then on_clients (compute_delete c)
  else
    for_each destroy_container (containers ++ init_containers);;;
    destroy_capsule c.

(** A capsule with its containers, as it is shown. *)
Definition respond {A} (m : py CS A) : CS → response A * CS := wrap_controller_exception (S:=CS) m.
Definition post (tpl : template_arg) : CS → response capsule * CS := respond (_do_post tpl).
Definition get_one (ident : string) : CS → response capsule * CS := respond (_do_get_one ident).
End Capsules.

(** ** What Cinder holds *)

(** The volumes of Cinder: looking changes nothing, a creation adds a new volume or
    nothing; a deletion touches no other volume, and has taken its own away if it
    returns. *)
Class Cinder (X : Type) `{Clients X} `{CapsuleClients X} : Type := {
  held : X → gset string;
  held_get : ∀ v x, held (volumes_get v x).2 = held x;
  held_find : ∀ v x, held (volumes_find v x).2 = held x;
  held_create : ∀ z x,
    match volumes_create z x with
    | (Some v, x') => cv_id v ∉ held x ∧ held x' = {[cv_id v]} ∪ held x
    | (None, x') => held x' = held x
    end;
  held_delete : ∀ i x,
    let '(o, x') := volumes_delete i x in
    held x ∖ {[i]} ⊆ held x' ⊆ held x ∧ (is_ok o = true → i ∉ held x')
}.

Section Rollback.
Context {P X : Type} `{Cinder X}.
Context (is_uuid_like : string → bool) (db_error : nat → option exn) (str_float : Qc → string).
Abbreviation CS := (cstate P X).
Abbreviation request_volume := (request_volume (P:=P) (X:=X) is_uuid_like db_error str_float).
Abbreviation request_volumes := (request_volumes (P:=P) (X:=X) is_uuid_like db_error str_float).
Abbreviation _build_requested_volumes := (_build_requested_volumes (P:=P) (X:=X) is_uuid_like db_error str_float).
Abbreviation db := (db (P:=P) (X:=X) db_error).

Definition vols (s : CS) : gset string := held (a_ext (others (c_base s))).
Definition same_vols (s s' : CS) : Prop := vols s' = vols s.
#[export] Instance same_vols_preorder : PreOrder same_vols.
Proof. split; [done|]. intros s1 s2 s3. unfold same_vols. congruence. Qed.

Definition ext (s : CS) : X := a_ext (others (c_base s)).

Lemma on_clients_run {A} (m : py X A) (s : CS) o s' : on_clients m s = (o, s') →
  ∃ x', m (ext s) = (o, x') ∧ vols s' = held x'.
Proof.
  unfold on_clients, on_base, on_ext, on_api, zoom, vols, ext. destruct (m _) as [o1 x']. intros [= <- <-]. by exists x'.
Qed.
Lemma on_clients_same {A} (m : py X A) : keeps (λ x x', held x' = held x) m → keeps same_vols (on_clients m : py CS A).
Proof. intros Hm s o s' (x' & Hx & Hv)%on_clients_run. unfold same_vols. rewrite Hv. exact (Hm _ _ _ Hx). Qed.

Lemma db_same {A} (m : py CS A) : keeps same_vols m → keeps same_vols (db m).
Proof. intros Hm s o s'. unfold Capsules.db. destruct (db_error _); [by intros [= _ <-]|]. apply Hm. Qed.

Lemma search_volume_same v : keeps (λ x x' : X, held x' = held x) (search_volume is_uuid_like v).
Proof.
  unfold search_volume, query. intros x o x'. pose proof (held_get v x) as Hg. pose proof (held_find v x) as Hf.
  unfold bind. destruct is_uuid_like; [destruct (volumes_get v x) as [r x1]|destruct (volumes_find v x) as [r x1]];
    cbn in *; destruct r; by intros [= _ <-].
Qed.
Lemma ensure_usable_same project v : keeps (λ x x' : X, held x' = held x) (ensure_volume_usable project v).
Proof. unfold ensure_volume_usable, raise_if. by repeat case_match; intros ? ? ? [= _ <-]. Qed.

Lemma add_mounts_same name row mounts acc : keeps same_vols (add_mounts name row mounts acc : py CS _).
Proof.
  revert acc. induction mounts as [|item mounts IH]; intros acc; cbn [add_mounts]; [apply keeps_ret; apply _|].
  case_bool_decide; [|apply IH]. apply keeps_bind; [apply _|apply keeps_of_option; apply _|]. intros u. apply IH.
Qed.

Lemma create_volume_row_same cinder auto : keeps same_vols (create_volume_row db_error cinder auto : py CS _).
Proof. unfold create_volume_row. keep_rel. apply db_same. keep_rel. by intros s o s' [= _ <-]. Qed.

Definition has (V : gset string) (s : CS) : Prop := vols s = V.
Lemma same_has {A} (m : py CS A) V : keeps same_vols m → preserves (has V) m.
Proof.
  intros Hm s Hs. destruct (m s) as [o s'] eqn:Hr. pose proof (Hm _ _ _ Hr) as He. unfold same_vols, has in *.
  destruct o; congruence.
Qed.

(** A volume that Cinder made is new, and is all that was added. *)
Lemma create_volume_vols z V :
  hoare (has V) (on_clients (Services.create_volume z) : py CS _)
    (λ v s, vols s = {[cv_id v]} ∪ V ∧ cv_id v ∉ V) (λ _, has V).
Proof.
  intros s Hs. destruct (on_clients _ s) as [o s'] eqn:Hr. apply on_clients_run in Hr as (x' & Hx & Hv).
  unfold Services.create_volume, query, bind in Hx. pose proof (held_create z (ext s)) as Hc.
  destruct (volumes_create z (ext s)) as [[v|] x1]; cbn in Hx; injection Hx as <- <-; unfold has in *; rewrite Hv;
    change (held (ext s)) with (vols s) in Hc; rewrite Hs in Hc; [|done]. by destruct Hc.
Qed.

Lemma obtain_volume_vols v V :
  hoare (has V) (obtain_volume is_uuid_like str_float v)
    (λ r s, vols s = list_to_set r.1.2 ∪ V ∧ list_to_set r.1.2 ## V) (λ _, has V).
Proof.
  unfold obtain_volume, cinder_of.
  eapply (hoare_bind _ _ _ (λ _, has V)); [apply same_has; keep_rel|intros d].
  eapply (hoare_bind _ _ _ (λ _, has V)); [apply same_has; by intros s o s' [= _ <-]|intros ctx].
  destruct (ostr_true _).
  - eapply (hoare_bind _ _ _ (λ _, has V)); [apply same_has, on_clients_same, search_volume_same|intros w].
    eapply (hoare_bind _ _ _ (λ _, has V)); [apply same_has, on_clients_same, ensure_usable_same|intros _].
    intros s Hs. cbn. split; [|set_solver]. unfold has in Hs. set_solver.
  - eapply (hoare_bind _ _ _ _); [apply create_volume_vols|intros w]. intros s [Hs Hw]. cbn. split; set_solver.
Qed.

Lemma map_volume_same mounts v volume auto acc : keeps same_vols (map_volume db_error mounts v volume auto acc : py CS _).
Proof.
  unfold map_volume. apply keeps_bind; [apply _|apply create_volume_row_same|intros row].
  apply keeps_bind; [apply _|apply add_mounts_same|intros [acc' found]]. keep_rel.
Qed.

(** What the volumes of the template add to Cinder, however it ends. *)
Lemma request_volume_vols mounts v acc s o s' : request_volume mounts v acc s = (o, s') →
  let new := list_to_set (match o with Ok (_, n) => n | Raise (_, n) => n end) in
  vols s' = new ∪ vols s ∧ new ## vols s.
Proof.
  unfold Capsules.request_volume. pose proof (obtain_volume_vols v (vols s) s eq_refl) as Ho.
  destruct (obtain_volume _ _ v s) as [[[[volume created] auto]|e] s1]; cbn in Ho; unfold has in Ho.
  - pose proof (map_volume_same mounts v volume auto acc s1) as Hm.
    destruct (map_volume _ _ _ _ _ _ s1) as [[acc'|e] s2]; pose proof (Hm _ _ eq_refl) as Hs2; unfold same_vols in Hs2;
      intros [= <- <-]; by rewrite Hs2.
  - intros [= <- <-]. cbn. set_solver.
Qed.

Lemma request_volumes_vols mounts l acc created s o s' : request_volumes mounts l acc created s = (o, s') →
  ∃ new, vols s' = list_to_set new ∪ vols s ∧ list_to_set new ## vols s ∧
    (∀ e c, o = Raise (e, c) → c = created ++ new).
Proof.
  revert acc created s. induction l as [|v l IH]; intros acc created s; cbn [Capsules.request_volumes].
  - intros [= <- <-]. exists []. split_and!; [set_solver..|done].
  - destruct (request_volume mounts v acc s) as [[[acc1 new1]|[e new1]] s1] eqn:Hr; apply request_volume_vols in Hr as [Hv Hd].
    + intros (new & Hv' & Hd' & Hc)%IH. exists (new1 ++ new). rewrite list_to_set_app_L. split_and!; [set_solver..|].
      intros e c ->. rewrite (Hc _ _ eq_refl). by rewrite <- app_assoc.
    + intros [= <- <-]. exists new1. split_and!; [done..|]. by intros ? ? [= <- <-].
Qed.

(** Cinder did not delete a volume when it was asked to. *)
Definition refused (v : string) : Prop := ∃ (x : X) e x', volumes_delete v x = (Raise e, x').

Lemma delete_vols i s o s' : delete_volume i s = (o, s') →
  vols s ∖ {[i]} ⊆ vols s' ∧ vols s' ⊆ vols s ∧ (i ∈ vols s' → refused i).
Proof.
  intros (x' & Hx & Hv)%on_clients_run. pose proof (held_delete i (ext s)) as Hh. rewrite Hx in Hh.
  destruct Hh as [[Hh1 Hh2] Hh3]. rewrite Hv. split_and!; [done..|]. intros Hin.
  destruct o as [[]|e]; [|by exists (ext s), e, x']. by destruct Hh3.
Qed.

(** Each volume that was made is asked to be deleted, whatever became of the others; no
    volume that was there before is touched. *)
Lemma delete_all_vols l s o s' : for_each (λ id, swallow (delete_volume id)) l s = (o, s') →
  o = Ok tt ∧ vols s ∖ list_to_set l ⊆ vols s' ∧ vols s' ⊆ vols s ∧ ∀ v, v ∈ l → v ∈ vols s' → refused v.
Proof.
  revert s. induction l as [|i l IH]; intros s; cbn [for_each]; [intros [= <- <-]; set_solver|].
  unfold bind. destruct (swallow (delete_volume i) s) as [o1 s1] eqn:Hi.
  assert (o1 = Ok tt ∧ vols s ∖ {[i]} ⊆ vols s1 ∧ vols s1 ⊆ vols s ∧ (i ∈ vols s1 → refused i)) as (-> & Hk1 & Hk2 & Hk3).
  { unfold swallow, try_except in Hi. destruct (delete_volume i s) as [o2 s2] eqn:Hd. apply delete_vols in Hd.
    by destruct o2 as [[]|e]; injection Hi as <- <-. }
  intros (-> & Hl1 & Hl2 & Hl3)%IH. split_and!; [done|set_solver..|]. intros v Hv Hin.
  apply elem_of_cons in Hv as [->|Hv]; [by apply Hk3, Hl2|by apply Hl3].
Qed.

(** *** The rows *)

Definition same_rows (s s' : CS) : Prop :=
  c_capsules s' = c_capsules s ∧ c_containers s' = c_containers s ∧
  a_ctx (others (c_base s')) = a_ctx (others (c_base s)).
#[export] Instance same_rows_preorder : PreOrder same_rows.
Proof. split; [done|]. intros s1 s2 s3 (? & ? & ?) (? & ? & ?). unfold same_rows. split_and!; congruence. Qed.

Lemma on_clients_rows {A} (m : py X A) : keeps same_rows (on_clients m : py CS A).
Proof.
  intros s o s'. unfold on_clients, on_base, on_ext, on_api, zoom. destruct (m _) as [o1 x']. by intros [= _ <-].
Qed.
Lemma db_rows {A} (m : py CS A) : keeps same_rows m → keeps same_rows (db m).
Proof. intros Hm s o s'. unfold Capsules.db. destruct (db_error _); [by intros [= _ <-]|]. apply Hm. Qed.

Lemma obtain_volume_rows v : keeps same_rows (obtain_volume is_uuid_like str_float v : py CS _).
Proof. unfold obtain_volume, cinder_of, the_context. keep_rel; try apply on_clients_rows. by intros s o s' [= _ <-]. Qed.
Lemma map_volume_rows mounts v volume auto acc : keeps same_rows (map_volume db_error mounts v volume auto acc : py CS _).
Proof.
  unfold map_volume, create_volume_row. apply keeps_bind; [apply _| |intros row].
  - keep_rel. apply db_rows. keep_rel. by intros s o s' [= _ <-].
  - apply keeps_bind; [apply _| |intros [acc' found]; keep_rel]. generalize (acc, false). intros p. revert p.
    induction mounts as [|item mounts IH]; intros p; cbn [add_mounts]; [apply keeps_ret; apply _|].
    case_bool_decide; [|apply IH]. apply keeps_bind; [apply _|apply keeps_of_option; apply _|]. intros u. apply IH.
Qed.

Lemma request_volumes_rows mounts l acc created s o s' :
  request_volumes mounts l acc created s = (o, s') → same_rows s s'.
Proof.
  revert acc created s. induction l as [|v l IH]; intros acc created s; cbn [Capsules.request_volumes]; [by intros [= _ <-]|].
  destruct (request_volume mounts v acc s) as [o1 s1] eqn:Hr.
  assert (same_rows s s1) as Hsame.
  { unfold Capsules.request_volume in Hr. destruct (obtain_volume _ _ v s) as [[[[w created'] auto]|e] s2] eqn:Ho.
    - pose proof (obtain_volume_rows _ _ _ _ Ho). destruct (map_volume _ _ _ _ _ _ s2) as [o3 s3] eqn:Hm.
      pose proof (map_volume_rows _ _ _ _ _ _ _ _ Hm). assert (s1 = s3) as -> by (by destruct o3; injection Hr).
      by etransitivity.
    - injection Hr as _ <-. by eapply obtain_volume_rows. }
  destruct o1 as [[acc1 new1]|[e new1]]; [|by intros [= _ <-]]. intros Hrest%IH. by etransitivity.
Qed.

(** Without an error of the database, the rows of a list are gone once they were destroyed. *)
Lemma destroy_all (no_error : ∀ n, db_error n = None) l (s : CS) o (s' : CS) :
  for_each (λ r, swallow (destroy_container db_error r)) l s = (o, s') →
  o = Ok tt ∧ c_capsules s' = c_capsules s ∧ c_base s' = c_base s ∧
  (∀ r, r ∈ c_containers s' ↔ r ∈ c_containers s ∧ cr_uuid r ∉ cr_uuid <$> l).
Proof.
  revert s. induction l as [|q l IH]; intros s; cbn [for_each].
  - intros [= <- <-]. split_and!; [done..|]. intros r. set_solver.
  - unfold bind. destruct (swallow _ s) as [o1 s1] eqn:Hq.
    assert (o1 = Ok tt ∧ c_capsules s1 = c_capsules s ∧ c_base s1 = c_base s ∧
      (∀ r, r ∈ c_containers s1 ↔ r ∈ c_containers s ∧ cr_uuid r ≠ cr_uuid q)) as (-> & Hc & Hb & Hr).
    { unfold swallow, try_except, destroy_container, Capsules.db in Hq. rewrite no_error in Hq.
      unfold bind, gets, raise_if in Hq. cbn in Hq. destruct (existsb _ _) eqn:He; cbn in Hq; injection Hq as <- <-; cbn;
        split_and!; try done; intros r; [rewrite list_elem_of_filter; tauto|].
      split; [|tauto]. intros Hin. split; [done|]. intros Hu. apply not_true_iff_false in He. destruct He.
      apply existsb_exists. exists r. split; [by apply list_elem_of_In|]. by apply bool_decide_eq_true_2. }
    intros (-> & Hc' & Hb' & Hr')%IH. split_and!; [done|congruence..|]. intros r. rewrite Hr', Hr. set_solver.
Qed.

Lemma deletes_rows l : keeps same_rows (for_each (λ id, swallow (delete_volume id)) l : py CS _).
Proof. unfold swallow, delete_volume. keep_rel; apply on_clients_rows. Qed.

Lemma rollback_same cap (e : exn) containers : keeps same_vols
  (for_each (λ r, swallow (destroy_container db_error r)) containers;;; destroy_capsule db_error cap;;; raise (A:=volumes) e : py CS _).
Proof.
  unfold swallow, destroy_container, destroy_capsule, set_containers, set_capsules. keep_rel; apply db_same; keep_rel;
    by intros s o s' [= _ <-].
Qed.

(** The rows that go, when the database does not fail. *)
Lemma rolled_back cap e (s : CS) o s' :
  (∀ n, db_error n = None) → stored (cp_uuid cap) (c_capsules s) = true →
  (let! containers := load_containers db_error false cap in
   for_each (λ r, swallow (destroy_container db_error r)) containers;;;
   destroy_capsule db_error cap;;; raise (A:=volumes) e) s = (o, s') →
  o = Raise e ∧ c_capsules s' = filter (λ c, cp_uuid c ≠ cp_uuid cap) (c_capsules s) ∧
  ∀ r, r ∈ c_containers s' ↔ r ∈ c_containers s ∧
    ∀ q, q ∈ c_containers s → of_capsule (a_ctx (others (c_base s))) false cap q = true → cr_uuid r ≠ cr_uuid q.
Proof.
  intros Hno Hst. unfold bind at 1. destruct (load_containers _ _ _ s) as [o3 s3] eqn:Hload.
  unfold load_containers, the_context, Capsules.db, bind, on_base, ctx, zoom in Hload. cbn in Hload.
  rewrite Hno in Hload. injection Hload as <- <-. unfold bind at 1. destruct (for_each _ _ _) as [o4 s4] eqn:Hdes.
  apply (destroy_all Hno) in Hdes as (-> & Hcap4 & _ & Hcont4). cbn in Hcap4, Hcont4.
  unfold destroy_capsule, Capsules.db, bind. rewrite Hno. unfold gets, raise_if. cbn.
  unfold stored in Hst. rewrite Hcap4, Hst. cbn. intros [= <- <-]. cbn. split_and!; [done..|].
  intros r. rewrite Hcont4. split; intros [Hin Hout]; (split; [done|]).
  + intros q Hq Hof Heq. apply Hout, list_elem_of_fmap. exists q. split; [done|]. by apply list_elem_of_filter.
  + intros (q & Heq & [Hof Hq]%list_elem_of_filter)%list_elem_of_fmap. by apply (Hout q).
Qed.

(** C13. When the volumes of a capsule cannot all be had, the request undoes itself.
    Cinder keeps every volume it held before, and of those made for the capsule only
    the ones it refused to delete when it was asked to, one refusal not keeping the
    others from being deleted.  Unless the database fails, the error that is raised is
    that of the volumes, the row of the capsule and the rows of its regular containers
    are gone, and the rows of other capsules stay.  A request whose volumes are had
    deletes none. *)
Theorem failed_volumes_undone volume_spec mounts cap s o s' :
  _build_requested_volumes volume_spec mounts cap s = (o, s') →
  vols s ⊆ vols s' ∧
  (∀ e, o = Raise e →
    (∀ v, v ∈ vols s' → v ∉ vols s → refused v) ∧
    ((∀ n, db_error n = None) → stored (cp_uuid cap) (c_capsules s) = true →
     (∃ created s1, request_volumes mounts volume_spec ∅ [] s = (Raise (e, created), s1)) ∧
     c_capsules s' = filter (λ c, cp_uuid c ≠ cp_uuid cap) (c_capsules s) ∧
     (∀ q, q ∈ c_containers s → of_capsule (a_ctx (others (c_base s))) false cap q = true → q ∉ c_containers s') ∧
     (∀ r, r ∈ c_containers s →
       (∀ q, q ∈ c_containers s → cd_capsule_id (cr_dict q) = cp_id cap → cr_uuid r ≠ cr_uuid q) →
       r ∈ c_containers s'))).
Proof.
  unfold Capsules._build_requested_volumes.
  destruct (request_volumes mounts volume_spec ∅ [] s) as [[acc|[e1 created]] s1] eqn:Hr.
  - intros [= <- <-]. apply request_volumes_vols in Hr as (new & Hv & _ & _). split; [set_solver|done].
  - pose proof (request_volumes_rows _ _ _ _ _ _ _ Hr) as (Hcap & Hcont & Hctx).
    apply request_volumes_vols in Hr as (new & Hv & Hd & Hc). rewrite (Hc _ _ eq_refl). cbn [app].
    unfold bind at 1. destruct (for_each _ new s1) as [o2 s2] eqn:Hdel.
    destruct (delete_all_vols _ _ _ _ Hdel) as (-> & Hkept & Hless & Hrefused).
    apply deletes_rows in Hdel as (Hcap2 & Hcont2 & Hctx2). intros Hrun. assert (vols s' = vols s2) as Hv'.
    { revert Hrun. apply (keeps_bind same_vols); [|intros; apply rollback_same]. unfold load_containers, the_context.
      apply keeps_bind; [apply _|by intros ? ? ? [= _ <-]|intros ctx]. apply db_same. keep_rel. }
    rewrite Hv'. split; [set_solver|]. intros e ->. split; [set_solver|]. intros Hno Hst.
    pose proof (rolled_back cap e1 s2 (Raise e) s' Hno) as Hback. unfold stored in *.
    rewrite Hcap2, Hcap in Hback. destruct (Hback Hst Hrun) as ([= ->] & Hcs & Hrs). clear Hback.
    rewrite Hctx2, Hctx, Hcont2, Hcont in Hrs. split_and!; [by eauto|done|..].
    + intros q Hq Hof [_ Hout]%Hrs. by apply (Hout q).
    + intros r Hin Hother. apply Hrs. split; [done|]. intros q Hq Hof. apply Hother; [done|].
      unfold of_capsule in Hof. rewrite !andb_true_iff in Hof. destruct Hof as [[_ Hid%bool_decide_eq_true] _]. done.
Qed.
End Rollback.

(** ** What a creation stores *)

(** The amounts asked for, as far as they are numbers that count. *)
Definition cpu_given (c : cspec) : option Qc :=
  match cs_resources c with
  | Some (mkRequests (Some v) _) =>
      if jval_true v then match v with JInt z => Some (Qc_of_Z z) | JFloat q => Some q | _ => None end else None
  | _ => None
  end.
Definition memory_given (c : cspec) : option Z :=
  match cs_resources c with
  | Some (mkRequests _ (Some v)) => if mval_true v then match v with MInt z => Some z | _ => None end else None
  | _ => None
  end.

Section Creation.
Context {P X : Type} `{Clients X} `{CapsuleClients X}.
Context (allowed : context → string → target → bool) (is_uuid_like : string → bool).
Context (db_error : nat → option exn) (new_uuid random_name : nat → string) (str_float : Qc → string).
Context (load : string → loaded) (sandbox_image sandbox_image_driver : option string).
Abbreviation CS := (cstate P X).
Abbreviation create_one := (create_one (P:=P) (X:=X) allowed db_error new_uuid random_name).
Abbreviation create_containers := (create_containers (P:=P) (X:=X) allowed db_error new_uuid random_name).
Abbreviation _do_post := (_do_post (P:=P) (X:=X) allowed is_uuid_like db_error new_uuid random_name str_float load
  sandbox_image sandbox_image_driver).

Lemma sum_amounts_ok f g l acc (s : CS) r s' : sum_amounts f g l acc s = (Ok r, s') →
  s' = s ∧ r = (foldl f acc.1 (omap cpu_given l), foldl g acc.2 (omap memory_given l)).
Proof.
  revert acc. induction l as [|c l IH]; intros [q z]; cbn [sum_amounts]; [by intros [= <- <-]|].
  intros (q1 & s1 & Hq & (z1 & s2 & Hz & Hrun)%bind_Ok)%bind_Ok. cbn [fst snd] in *.
  assert (s1 = s ∧ q1 = foldl f q (option_list (cpu_given c))) as [-> ->].
  { unfold with_cpu, cpu_given, cpu_amount in *. repeat case_match; run_inv; done. }
  assert (s2 = s ∧ z1 = foldl g z (option_list (memory_given c))) as [-> ->].
  { unfold with_memory, memory_given, memory_amount in *. repeat case_match; run_inv; done. }
  apply IH in Hrun as [-> ->]. split; [done|]. cbn. by destruct (cpu_given c), (memory_given c).
Qed.

Lemma Z_max_bounds a l : (a ≤ foldl Z.max a l)%Z ∧ (∀ x, x ∈ l → (x ≤ foldl Z.max a l)%Z) ∧
  (foldl Z.max a l = a ∨ foldl Z.max a l ∈ l).
Proof.
  revert a. induction l as [|y l IH]; intros a; cbn [foldl]; [split_and!; [lia|set_solver|by left]|].
  destruct (IH (Z.max a y)) as (Ha & Hl & He). split_and!; [lia| |].
  - intros x [->|Hx]%elem_of_cons; [lia|auto].
  - destruct He as [->|He]; [|right; by right]. destruct (Z.max_spec a y) as [[_ ->]|[_ ->]]; [right; by left|by left].
Qed.

Lemma Qc_max_bounds a l : (a ≤ foldl Qc_max a l)%Qc ∧ (∀ x, x ∈ l → (x ≤ foldl Qc_max a l)%Qc) ∧
  (foldl Qc_max a l = a ∨ foldl Qc_max a l ∈ l).
Proof.
  revert a. induction l as [|y l IH]; intros a; cbn.
  - split_and!; [apply Qcle_refl|set_solver|by left].
  - destruct (IH (Qc_max a y)) as (Ha & Hl & He).
    assert (a ≤ Qc_max a y ∧ y ≤ Qc_max a y)%Qc as [Hy1 Hy2].
    { unfold Qc_max. destruct (decide (a < y)%Qc) as [Hlt|Hge].
      - split; [by apply Qclt_le_weak|apply Qcle_refl].
      - split; [apply Qcle_refl|]. by apply Qcnot_lt_le. }
    split_and!.
    + by eapply Qcle_trans.
    + intros x [->|Hx]%elem_of_cons; [by eapply Qcle_trans|auto].
    + destruct He as [->|He]; [|right; by right]. unfold Qc_max. destruct (decide _); [right; by left|by left].
Qed.

Lemma check_restart_ok (p : restart) (s : CS) r s' : check_for_restart_policy p s = (Ok r, s') →
  s' = s ∧ (p = mkRestartPolicy "0" (rs_name p) ∨ p = on_failure_10 → r = p).
Proof.
  unfold check_for_restart_policy, bind, of_option, raise_if. destruct (int_of 10 (rs_count p)) as [z|]; [|done]. cbn.
  case_bool_decide; [destruct (negb _); [done|]|]; intros [= <- <-]; (split; [done|]); [done|].
  intros [->| ->]; [|done]. cbn. case_bool_decide as Hn; [|done]. by rewrite Hn.
Qed.

Definition same_containers (s s' : CS) : Prop := c_containers s' = c_containers s.
#[export] Instance same_containers_preorder : PreOrder same_containers.
Proof. split; [done|]. intros s1 s2 s3. unfold same_containers. congruence. Qed.
Lemma on_base_containers {A} (m : py (qdb (api P X)) A) : keeps same_containers (on_base m : py CS A).
Proof. intros s o s'. unfold on_base, zoom. destruct (m _). by intros [= _ <-]. Qed.
Lemma db_containers {A} (m : py CS A) : keeps same_containers m → keeps same_containers (db db_error m).
Proof. intros Hm s o s'. unfold db. destruct (db_error _); [by intros [= _ <-]|]. apply Hm. Qed.

Lemma pull_policy_containers c : keeps same_containers (pull_policy allowed c : py CS string).
Proof. unfold pull_policy. keep_rel; apply on_base_containers. Qed.

(** What the row of a container is, apart from its policy. *)
Record described (cap : capsule) (t : bool * cspec) (r : crow) : Prop := {
  de_init : t.1 = true → cr_init r = true;
  de_image : cd_image (cr_dict r) = cs_image t.2;
  de_command : cd_command (cr_dict r) = full_command t.2;
  de_capsule : cd_capsule_id (cr_dict r) = cp_id cap;
  de_status : cd_status (cr_dict r) = CREATING
}.

Definition policy_of (capsule_restart_policy : string) (init : bool) (p : restart) : restart :=
  if init && bool_decide (capsule_restart_policy = "always") then on_failure_10 else p.

Lemma create_one_ok cap policy k fi c st (s : CS) st' s' : create_one cap policy k fi c st s = (Ok st', s') →
  rd_policy st = mkRestartPolicy "0" policy ∨ rd_policy st = on_failure_10 →
  ∃ r, c_containers s' = c_containers s ++ [r] ∧ described cap (fi, c) r ∧
    cd_restart (cr_dict r) = policy_of policy (cr_init r) (rd_policy st) ∧ rd_policy st' = cd_restart (cr_dict r) ∧
    (fi = false → rd_inits st' = rd_inits st ∧ (rd_inits st = [] → cr_init r = false)).
Proof.
  unfold Capsules.create_one. intros (d & s1 & Hd & Hrun)%bind_Ok Hp.
  assert (same_containers s s1 ∧ cd_image d = cs_image c ∧ cd_command d = full_command c ∧
    cd_capsule_id d = cp_id cap ∧ cd_status d = CREATING) as (Hs1 & Hi & Hcmd & Hid & Hst).
  { unfold ready_dict in Hd. apply bind_Ok in Hd as (pull & s2 & Hpull & (ctx & s3 & Hctx & Hd)%bind_Ok).
    injection Hd as <- <-. split_and!; try done. etransitivity; [|by eapply on_base_containers].
    by eapply pull_policy_containers. }
  cbv zeta in Hrun. set (init := fi || _) in Hrun. apply bind_Ok in Hrun as (r & s2 & Hr & (u & s3 & Hu & Hrun)%bind_Ok).
  apply check_restart_ok in Hr as [-> Hr]. 
  assert (r = policy_of policy init (rd_policy st)) as ->.
  { apply Hr. unfold policy_of. destruct (init && _); [by right|]. destruct Hp as [->| ->]; [by left|by right]. }
  injection Hrun as <- <-. unfold create_container, db in Hu. unfold bind at 1 in Hu. cbn [gets] in Hu.
  destruct (db_error (c_ops s1)); [done|]. injection Hu as <- <-.
  eexists (mkCRow _ init _). cbn. rewrite Hs1. split_and!; try done.
  - constructor; cbn; try done. by intros ->.
  - intros ->. split; [done|]. intros Hnil. unfold init. rewrite Hnil. cbn. apply bool_decide_eq_false_2. set_solver.
Qed.

Lemma policy_kept policy init p : p = on_failure_10 ∨ policy ≠ "always" → policy_of policy init p = p.
Proof. unfold policy_of. intros [->|Hp]; [by destruct (init && _)|]. rewrite bool_decide_eq_false_2 by done. by rewrite andb_false_r. Qed.

Lemma create_containers_ok cap policy k todo st (s : CS) st' s' :
  create_containers cap policy k todo st s = (Ok st', s') →
  rd_policy st = mkRestartPolicy "0" policy ∨ rd_policy st = on_failure_10 →
  ∃ rows, c_containers s' = c_containers s ++ rows ∧ Forall2 (described cap) todo rows ∧
    (rd_policy st = on_failure_10 ∨ policy ≠ "always" → Forall (λ r, cd_restart (cr_dict r) = rd_policy st) rows) ∧
    (rd_inits st = [] → Forall (λ t, t.1 = false) todo →
       Forall (λ r, cr_init r = false ∧ cd_restart (cr_dict r) = rd_policy st) rows).
Proof.
  revert k st s. induction todo as [|[fi c] todo IH]; intros k st s; cbn [Capsules.create_containers].
  - intros [= <- <-] _. exists []. rewrite app_nil_r. split_and!; [done|constructor|by intros; constructor..].
  - intros (st1 & s1 & Hone & Hrun)%bind_Ok Hp.
    destruct (create_one_ok _ _ _ _ _ _ _ _ _ Hone Hp) as (r & Hs1 & Hdesc & Hrs & Hst1 & Hreg).
    assert (rd_policy st1 = mkRestartPolicy "0" policy ∨ rd_policy st1 = on_failure_10) as Hp1.
    { rewrite Hst1, Hrs. unfold policy_of. destruct (cr_init r && _); [by right|done]. }
    destruct (IH _ _ _ Hrun Hp1) as (rows & Hs' & Hall & Hkept & Hno). exists (r :: rows).
    rewrite Hs', Hs1, <- app_assoc. split_and!; [done|by constructor|..].
    + intros Hk. rewrite policy_kept in Hrs by done. constructor; [done|]. rewrite Hst1, Hrs in Hkept. auto.
    + intros Hnil [Hfi Htodo]%Forall_cons. cbn in Hfi. destruct (Hreg Hfi) as [Hi1 Hinit]. specialize (Hinit Hnil).
      rewrite Hinit in Hrs. unfold policy_of in Hrs. cbn in Hrs. constructor; [done|].
      rewrite Hi1, Hst1, Hrs in Hno. auto.
Qed.

(** The containers of a capsule, the initial ones first. *)
Definition all_containers (inits containers : list cspec) : list (bool * cspec) :=
  (pair true <$> inits) ++ (pair false <$> containers).

Lemma all_containers_ok cap policy inits containers (s : CS) st s' :
  create_containers cap policy 0 (all_containers inits containers) (mkRound [] (mkRestartPolicy "0" policy) []) s = (Ok st, s') →
  ∃ rows, c_containers s' = c_containers s ++ rows ∧ Forall2 (described cap) (all_containers inits containers) rows ∧
    Forall (λ r, cd_restart (cr_dict r) =
      if bool_decide (policy = "always" ∧ inits ≠ []) then on_failure_10 else mkRestartPolicy "0" policy) rows.
Proof.
  destruct inits as [|c inits]; intros Hrun.
  - destruct (create_containers_ok _ _ _ _ _ _ _ _ Hrun) as (rows & Hs & Hall & _ & Hno); [by left|].
    exists rows. split_and!; [done..|]. rewrite bool_decide_eq_false_2 by (by intros []).
    eapply Forall_impl; [apply Hno; [done|]|by intros r []]. apply Forall_fmap, Forall_true. done.
  - destruct (decide (policy = "always")) as [->|Hpol].
    + rewrite bool_decide_eq_true_2 by done. cbn [all_containers fmap list_fmap app Capsules.create_containers] in Hrun.
      apply bind_Ok in Hrun as (st1 & s1 & Hone & Hrun).
      destruct (create_one_ok _ _ _ _ _ _ _ _ _ Hone (or_introl eq_refl)) as (r & Hs1 & Hdesc & Hrs & Hst1 & _).
      rewrite (de_init _ _ _ Hdesc eq_refl) in Hrs. cbn in Hrs. rewrite Hrs in Hst1.
      destruct (create_containers_ok _ _ _ _ _ _ _ _ Hrun (or_intror Hst1)) as (rows & Hs & Hall & Hkept & _).
      exists (r :: rows). rewrite Hs, Hs1, <- app_assoc. split_and!; [done|by constructor|].
      constructor; [done|]. rewrite Hst1 in Hkept. auto.
    + rewrite bool_decide_eq_false_2 by (by intros []).
      destruct (create_containers_ok _ _ _ _ _ _ _ _ Hrun) as (rows & Hs & Hall & Hkept & _); [by left|].
      exists rows. split_and!; [done..|]. apply Hkept. by right.
Qed.

(** The restart policy the template means. *)
Definition policy_meant (sp : spec) : string :=
  match sp_restartPolicy sp with
  | Some p => default "" (VALID_CAPSULE_RESTART_POLICY p)
  | None => restart_name sp
  end.

#[local] Arguments VALID_CAPSULE_RESTART_POLICY : simpl never.

Lemma check_template_ok t (s : CS) r s' : check_capsule_template load (TObject t) s = (Ok r, s') →
  ∃ sp cs, tp_spec t = Some sp ∧ sp_containers sp = Some cs ∧ s' = s ∧ r.2 = t ∧ sp_containers r.1 = Some cs ∧
    sp_initContainers r.1 = sp_initContainers sp ∧ restart_name r.1 = policy_meant sp.
Proof.
  unfold check_capsule_template, bind, invalid_template, of_option, raise, ret. cbn. case_bool_decide; cbn; [|done].
  destruct (tp_spec t) as [sp|]; cbn; [|done]. unfold policy_meant. destruct (sp_restartPolicy sp) as [p|] eqn:Hp; cbn.
  - destruct (VALID_CAPSULE_RESTART_POLICY p) as [q|] eqn:Hq; cbn; [|done].
    destruct (sp_containers sp) as [cs|] eqn:Hc; cbn; [|done]. intros [= <- <-]. exists sp, cs. split_and!; try done.
    rewrite Hp, Hq. cbn. unfold VALID_CAPSULE_RESTART_POLICY in Hq. apply fmap_Some in Hq as ([a b] & Hf%find_some & ->).
    destruct Hf as [Hin _]. destruct Hin as [He|[He|[He|[]]]]; injection He as <- <-; reflexivity.
  - destruct (sp_containers sp) as [cs|] eqn:Hc; cbn; [|done]. intros [= <- <-]. exists sp, cs. by rewrite Hp.
Qed.

Lemma for_each_check_image l (s : CS) o s' : for_each (λ c, check_image c) l s = (o, s') → s' = s.
Proof.
  revert o. induction l as [|c l IH]; intros o; cbn [for_each]; [by intros [= _ <-]|].
  unfold bind, check_image, invalid_template. destruct (cs_image c); cbn; [apply IH|by intros [= _ <-]].
Qed.

Lemma container_specs_ok sp cs (s : CS) r s' : sp_containers sp = Some cs → capsule_get_container_spec sp s = (Ok r, s') →
  s' = s ∧ r = (cs, default [] (sp_initContainers sp)).
Proof.
  intros Hc. unfold capsule_get_container_spec. rewrite Hc. intros (l & s1 & Hl & Hrun)%bind_Ok.
  injection Hl as <- <-. apply bind_Ok in Hrun as ([] & s2 & H2 & ([] & s3 & H3%for_each_check_image & Hrun)%bind_Ok).
  assert (s2 = s) as -> by (revert H2; unfold invalid_template; case_bool_decide; [done|by intros [= <-]]). subst s3.
  destruct (sp_initContainers sp) as [l|]; [|by injection Hrun as <- <-].
  apply bind_Ok in Hrun as ([] & s4 & H4%for_each_check_image & [= <- <-]). by subst.
Qed.

Lemma volume_specs_containers sp : keeps same_containers (capsule_get_volume_spec sp : py CS _).
Proof. unfold capsule_get_volume_spec, check_volume, invalid_template. keep_rel. Qed.

Lemma save_stores (c : capsule) (s : CS) s' : save db_error c s = (Ok tt, s') → same_containers s s' ∧ c ∈ c_capsules s'.
Proof.
  unfold save, db, bind, gets, raise_if, set_capsules, stored. destruct (db_error _); [done|]. cbn.
  destruct (existsb _ _) eqn:He; cbn; [|done]. intros [= <-]. split; [done|]. cbn.
  apply existsb_exists in He as (d & Hd%list_elem_of_In & Hu). apply list_elem_of_fmap. exists d. by rewrite Hu.
Qed.

Lemma volumes_containers vs ms cap (s : CS) acc s' :
  _build_requested_volumes is_uuid_like db_error str_float vs ms cap s = (Ok acc, s') → same_containers s s'.
Proof.
  unfold _build_requested_volumes. destruct (request_volumes _ _ _ ms vs ∅ [] s) as [o1 s1] eqn:Hr.
  apply request_volumes_rows in Hr as (_ & Hc & _). destruct o1 as [a|[e l]]; [by intros [= _ <-]|].
  intros Hrun. exfalso. repeat (apply bind_Ok in Hrun as (? & ? & _ & Hrun)). done.
Qed.

Lemma described_id cap cap' t r : cp_id cap' = cp_id cap → described cap t r → described cap' t r.
Proof. intros Hid [Ha Hb Hc Hd He]. constructor; [done|done|done|by rewrite Hid|done]. Qed.

End Creation.

(** ** Witnesses *)

(** Cinder as the set of its volumes. *)
#[local] Definition cap_volume (v : string) : cinder_volume := mkCinder v None false false.
#[local] Instance cap_clients : Clients (gset string) := {|
  list_networks _ s := ([mkNetwork "n1" "2024" false false None], s); list_ports _ s := ([], s);
  find_security_group _ _ s := (SgError 404, s);
  show_port _ := raise (Zun PortNotFound); show_network _ := raise (Zun NetworkNotFound);
  volumes_get v s := (if bool_decide (v ∈ s) then Found (cap_volume v) else NotFound_, s);
  volumes_find v s := (if bool_decide (v ∈ s) then Found (cap_volume v) else NotFound_, s);
  volumes_create _ s := (Some (cap_volume (fresh s)), {[fresh s]} ∪ s) |}.
#[local] Instance cap_more : CapsuleClients (gset string) := {|
  volumes_delete i := λ s, if decide (i = "kept") then (Raise (Zun VolumeDeleteFailed), s) else (Ok tt, s ∖ {[i]});
  compute_create _ _ _ _ := ret tt;
  compute_delete _ := ret tt |}.
#[local] Instance cap_cinder : Cinder (gset string).
Proof.
  refine {| held := λ s, s |}; try done.
  - intros z x. cbn. split; [apply is_fresh|done].
  - intros i x. cbn. destruct (decide (i = "kept")); cbn; [set_solver|]. split; set_solver.
Defined.

#[local] Definition cap_state : cstate (list (string * alloc_req)) (gset string) :=
  mkCState (mkQdb [] [] (mkApi demo_context (a_world (others (demo_api (mkStore [] [])))) [] [] [] [] {["old"]})) [] [] 0.
#[local] Definition cap_spec (image : string) (memory : mval) (mounts : list cmount) : cspec :=
  mkCSpec (Some image) (Some ["run"]) (Some ["-v"]) (Some (mkRequests (Some (JInt 1)) (Some memory))) None (Some mounts)
    None None None None None.
#[local] Definition cap_template (memory : mval) (inits : list cspec) (volume : string) : template :=
  mkTemplate "capsule"
    (Some (mkSpec (Some [cap_spec "web" memory [mkCMount "data" "/d" None; mkCMount "more" "/m" None]]) (Some inits)
       (Some [mkVSpec (Some "data") (Some (mkCinderSpec None (Some (JInt 3)) None));
              mkVSpec (Some "more") (Some (mkCinderSpec (Some volume) None None))]) None None))
    (Some "Never") (Some (mkMeta (Some "box") None None)) None.
#[local] Definition cap_inits : list cspec := [cap_spec "setup" (MInt 64) []].
Abbreviation cap_post := (_do_post (P:=list (string * alloc_req)) (X:=gset string) (λ _ _ _, true) (λ _, true) (λ _, None)
  (λ n, ("u" ++ pretty.pretty n)%string) (λ k, ("alpha-" ++ pretty.pretty k)%string) (λ _, "1.0") (λ _, NotJson) None None).
Abbreviation cap_build := (_build_requested_volumes (P:=list (string * alloc_req)) (X:=gset string) (λ _, true) (λ _, None) (λ _, "1.0")).


#[local] Definition cap_row : capsule :=
  mkCapsule 1 "u0" (Some "p1") None CREATING None None None None None None None None None None.
#[local] Definition cap_stored : cstate (list (string * alloc_req)) (gset string) :=
  mkCState (c_base cap_state) [cap_row] [] 1.
#[local] Definition cap_failed := cap_build
  [mkVSpec (Some "data") (Some (mkCinderSpec None (Some (JInt 3)) None));
   mkVSpec (Some "more") (Some (mkCinderSpec (Some "gone") None None))]
  [mkCMount "data" "/d" (Some "u1"); mkCMount "more" "/m" (Some "u1")] cap_row cap_stored.

Lemma failed_volumes_undone_witness :
  cap_failed.1 = Raise (Zun VolumeNotFound) ∧ c_capsules cap_failed.2 = [] ∧
  (∀ v, v ∈ vols cap_failed.2 → v ∉ vols cap_stored → refused v).
Proof.
  assert (cap_failed.1 = Raise (Zun VolumeNotFound)) as He by (vm_compute; reflexivity).
  destruct (failed_volumes_undone _ _ _ _ _ _ cap_stored cap_failed.1 cap_failed.2 (surjective_pairing _)) as [_ Hr].
  destruct (Hr _ He) as [Hv Hrows]. destruct (Hrows (λ _, eq_refl) eq_refl) as (_ & Hc & _).
  split; [exact He|]. split; [exact Hc|exact Hv].
Defined.

(** A capsule with an initial container whose volumes are there. *)
Abbreviation cap_posted := (cap_post (TObject (cap_template (MInt 128) cap_inits "old")) cap_state).


(** ** Particular capsules *)

(** What the rows of a run say of restarts. *)
#[local] Definition restarts (s : cstate (list (string * alloc_req)) (gset string)) : list (bool * string) :=
  (λ r, (cr_init r, rs_name (cd_restart (cr_dict r)))) <$> c_containers s.

(** The policy given to an initial container is that of the next ones too. *)
Lemma on_failure_leaks : restarts cap_posted.2 = [(true, "on-failure"); (false, "on-failure")].
Proof. vm_compute. reflexivity. Qed.

(** The template's own [restartPolicy], [Never] here, is not read. *)
Lemma deprecated_policy_ignored :
  restarts (cap_post (TObject (cap_template (MInt 128) [] "old")) cap_state).2 = [(false, "always")].
Proof. vm_compute. reflexivity. Qed.

(** An amount of memory as a text, which the schema admits, is found out only after the
    capsule was stored, and its row stays. *)
Lemma text_amount_fails :
  let run := cap_post (TObject (cap_template (MStr "128") [] "old")) cap_state in
  run.1 = Raise (Py TypeError) ∧ length (c_capsules run.2) = 1.
Proof. split; vm_compute; reflexivity. Qed.

(** When a volume is not found, the row of the initial container stays, without its
    capsule. *)
Lemma initial_row_stays :
  let run := cap_post (TObject (cap_template (MInt 128) cap_inits "gone")) cap_state in
  run.1 = Raise (Zun VolumeNotFound) ∧ c_capsules run.2 = [] ∧ restarts run.2 = [(true, "on-failure")].
Proof. split_and!; vm_compute; reflexivity. Qed.
