(* ===== verification/Cri.v ===== *)
(** * Capsules on a CRI runtime, and the CNI network
    (src/zun/container/cri/driver.py, src/zun/network/cni_network.py, os_vif_util.py)

    Three parts on the calls of [Network], with those of the runtime, of the [zun-cni]
    command and of Docker's exec added: a Neutron port as the interface that os-vif is
    asked to plug; the provider that plugs it when a container starts; and the driver
    that runs a capsule as a pod.  An error of gRPC is an exception that is not of the
    service.  A container, or a capsule and its containers, are objects that keep every
    mutation made before a raise. *)

From Stdlib Require Import Ascii.
From S2P Require Import ComputeNode Claims.
From S2P Require Import Prelude Exceptions PyStr Container DockerDriver Effects Network.

(** ** os_vif_util.py *)

Record os_network : Type := mkOsNetwork {
  on_id : string;
  on_name : option string;
  on_mtu : option Z;
  on_network_type : string;
  on_segmentation_id : option Z
}.
Record os_subnet : Type := mkOsSubnet {
  os_cidr : string;
  os_dns_nameservers : list string;
  os_host_routes : list (string * string);   (** destination, next hop *)
  os_gateway_ip : option string
}.

(** The objects of os-vif. *)
Record vif_subnet : Type := mkVifSubnet {
  vs_cidr : string;
  vs_dns : list string;
  vs_routes : list (string * string);
  vs_gateway : option string;
  vs_ips : list string
}.
Record vif_network : Type := mkVifNetwork {
  vn_id : string;
  vn_label : option string;
  vn_mtu : option Z;
  vn_vlan : option (option Z);              (** when vlans are to be provided *)
  vn_subnets : list vif_subnet;
  vn_bridge : option string
}.
Record vif : Type := mkVif {
  vf_is_bridge : bool;                      (** [VIFBridge], or else [VIFOpenVSwitch] *)
  vf_id : string;
  vf_address : option string;
  vf_network : vif_network;
  vf_has_traffic_filtering : bool;
  vf_preserve_on_delete : bool;
  vf_active : bool;
  vf_port_profile : string;                 (** the id of its interface *)
  vf_plugin : string;
  vf_vif_name : string;
  vf_bridge_name : string
}.

Section OsVif.
(** Names of the package kuryr-lib, and the option of the bridge. *)
Context (get_veth_name : string → string) (NIC_NAME_LEN : nat) (ovs_bridge : option string).

Definition _neutron_to_osvif_network (n : os_network) : vif_network :=
  mkVifNetwork (on_id n) (on_name n) (on_mtu n)
    (if String.eqb (on_network_type n) "vlan" then Some (on_segmentation_id n) else None) [] None.

Definition _neutron_to_osvif_subnet (s : os_subnet) : vif_subnet :=
  mkVifSubnet (os_cidr s) (os_dns_nameservers s) (os_host_routes s) (os_gateway_ip s) [].

Definition add_ip (ip : string) (s : vif_subnet) : vif_subnet :=
  mkVifSubnet (vs_cidr s) (vs_dns s) (vs_routes s) (vs_gateway s) (vs_ips s ++ [ip]).

(** One fixed address; that of a subnet which was not fetched is left out. *)
Definition add_fixed_ip (subnets : dict string os_subnet) (vif_subnets : dict string vif_subnet)
    (fixed_ip : string * string) : dict string vif_subnet :=
  let '(ip_address, subnet_id) := fixed_ip in
  match dget subnets subnet_id with
  | None => vif_subnets
  | Some s =>
      dset vif_subnets subnet_id
        (add_ip ip_address (default (_neutron_to_osvif_subnet s) (dget vif_subnets subnet_id)))
  end.

(** The addresses with their subnets, which every one must have. *)
Fixpoint with_subnets (l : list (string * option string)) : option (list (string * string)) :=
  match l with
  | [] => Some []
  | (ip, sn) :: l' => sn' ← sn; r ← with_subnets l'; Some ((ip, sn') :: r)
  end.

Definition _make_vif_subnets (p : port) (subnets : dict string os_subnet) : outcome fault (list vif_subnet) :=
  match with_subnets (pt_fixed_ips p) with
  | None => Raise (FPy KeyError)
  | Some l =>
      match foldl (add_fixed_ip subnets) [] l with
      | [] => Raise (FZun ZunException)
      | vif_subnets => Ok (dvalues vif_subnets)
      end
  end.

Definition _make_vif_network (p : port) (n : os_network) (subnets : dict string os_subnet) : outcome fault vif_network :=
  match _make_vif_subnets p subnets with
  | Raise e => Raise e
  | Ok l =>
      let v := _neutron_to_osvif_network n in
      Ok (mkVifNetwork (vn_id v) (vn_label v) (vn_mtu v) (vn_vlan v) l (vn_bridge v))
  end.

Definition with_bridge (b : string) (v : vif_network) : vif_network :=
  mkVifNetwork (vn_id v) (vn_label v) (vn_mtu v) (vn_vlan v) (vn_subnets v) (Some b).

Definition _get_ovs_hybrid_bridge_name (p : port) : string :=
  implode (take NIC_NAME_LEN (explode ("qbr" ++ pt_id p)%string)).

Definition neutron_to_osvif_vif_ovs (vif_plugin : string) (p : port) (n : os_network) (subnets : dict string os_subnet)
    : outcome fault vif :=
  let details := pt_binding p in
  match (match bd_bridge_name details with Some b => Some b | None => ovs_bridge end) with
  | None | Some "" => Raise (FPy OtherException)
  | Some bridge =>
      match _make_vif_network p n subnets with
      | Raise e => Raise e
      | Ok network =>
          let network := with_bridge bridge network in
          Ok (mkVif (bd_hybrid_plug details) (pt_id p) (pt_mac p) network (bd_port_filter details) false (bd_active details)
                (pt_id p) vif_plugin (get_veth_name (pt_id p))
                (if bd_hybrid_plug details then _get_ovs_hybrid_bridge_name p else bridge))
      end
  end.

(** The only translator that is registered (setup.cfg) is [ovs]. *)
Definition neutron_to_osvif_vif (vif_translator : option string) (p : port) (n : os_network) (subnets : dict string os_subnet)
    : outcome fault vif :=
  match vif_translator with
  | Some "ovs" => neutron_to_osvif_vif_ovs "ovs" p n subnets
  | _ => Raise (FPy OtherException)
  end.
End OsVif.

(** ** The calls *)

(** What a container of the runtime is made of. *)
Record container_config : Type := mkConfig {
  cf_name : option string;
  cf_image : option string;
  cf_tty : option bool;
  cf_stdin : option bool;
  cf_args : list string;
  cf_envs : dict string string;
  cf_working_dir : string;
  cf_labels : dict string string;
  cf_mounts : list (string * string);       (** source, destination *)
  cf_privileged : option bool;
  cf_cpu_shares : Z;
  cf_memory_limit_in_bytes : Z
}.

Inductive ContainerState : Type :=
| CONTAINER_CREATED | CONTAINER_RUNNING | CONTAINER_EXITED | CONTAINER_UNKNOWN | UNRECOGNIZED.

Inductive cni_command : Type := ADD | DEL.

Inductive call : Type → Type :=
| Net {B} (c : Network.call B) : call B
| ShowNetwork (net : string) : call os_network
| ShowSubnet (subnet : string) : call os_subnet
| RunPodSandbox (name runtime_handler : string) : call string
| StopPodSandbox (pod : string) : call unit
| RemovePodSandbox (pod : string) : call unit
| PullImage (image : option string) : call unit
| CreateContainer (pod : option string) (config : container_config) (sandbox : string) : call string
| StartContainer (cid : string) : call unit
| ListContainers (cid : string) : call (list ContainerState)
| TooLate : call bool                                  (** whether the time is over already *)
| ZunCni (cmd : cni_command) (pid : option Z) (cid : option string) (uuid : string) : call unit
| InspectPid (cid : option string) : call (option Z)   (** of the state of the container *)
| ExecCreate (cid : option string) (cmd : list string) : call string
| ExecStart (exec_id : string) : call string
| ExecInspect (exec_id : string) : call Z.

Abbreviation event := (ev call).
Abbreviation Runtime := (Answers fault call).

(** ** Containers and capsules *)

(** The interface, and the process whose network it is plugged into. *)
Record cni_metadata : Type := mkCni { cni_vif : option vif; cni_pid : option Z }.

(** What the operations change. *)
Record ostate : Type := mkState {
  os_container_id : option string;
  os_addresses : dict string (list addr);
  os_metadata : cni_metadata;
  os_status : option ContainerStatus;
  os_status_reason : option string
}.
Record cobject : Type := mkObject {
  o_uuid : string;
  o_host : option string;
  o_name : option string;
  o_image : option string;
  o_command : option (list string);
  o_entrypoint : option (list string);
  o_environment : dict string string;
  o_workdir : option string;
  o_labels : dict string string;
  o_cpu : option Qc;
  o_memory : option string;
  o_privileged : option bool;
  o_tty : option bool;
  o_interactive : option bool;
  o_runtime : option string;
  o_security_groups : list string;
  o_state : ostate
}.
Definition on_state (f : ostate → ostate) (o : cobject) : cobject :=
  mkObject (o_uuid o) (o_host o) (o_name o) (o_image o) (o_command o) (o_entrypoint o) (o_environment o) (o_workdir o)
    (o_labels o) (o_cpu o) (o_memory o) (o_privileged o) (o_tty o) (o_interactive o) (o_runtime o)
    (o_security_groups o) (f (o_state o)).
Definition set_container_id (i : option string) : cobject → cobject := on_state (λ t,
  mkState i (os_addresses t) (os_metadata t) (os_status t) (os_status_reason t)).
Definition set_addresses (a : dict string (list addr)) : cobject → cobject := on_state (λ t,
  mkState (os_container_id t) a (os_metadata t) (os_status t) (os_status_reason t)).
Definition set_metadata (m : cni_metadata) : cobject → cobject := on_state (λ t,
  mkState (os_container_id t) (os_addresses t) m (os_status t) (os_status_reason t)).
Definition set_status (st : ContainerStatus) : cobject → cobject := on_state (λ t,
  mkState (os_container_id t) (os_addresses t) (os_metadata t) (Some st) (os_status_reason t)).
Definition set_status_reason (r : string) : cobject → cobject := on_state (λ t,
  mkState (os_container_id t) (os_addresses t) (os_metadata t) (os_status t) (Some r)).
Definition o_container_id (o : cobject) : option string := os_container_id (o_state o).
Definition o_metadata (o : cobject) : cni_metadata := os_metadata (o_state o).
Definition set_pid (p : option Z) (o : cobject) : cobject := set_metadata (mkCni (cni_vif (o_metadata o)) p) o.

(** The object at work, the containers of the capsule it is (initial ones first),
    what was asked. *)
Record cstate : Type := mkC { c_self : cobject; c_kids : list cobject; c_log : list event }.

(** Which object a mutation is on. *)
Inductive who : Type := Self | Kid (i : nat).

Section Cri.
Context `{Runtime} (project : option string) (set_order : list string → list string) (ip_version : string → option Z).
Context (get_veth_name : string → string) (NIC_NAME_LEN : nat) (ovs_bridge : option string) (quote : string → string).
(** [CONF.container_runtime]; the waits of tenacity, as many as fit in the time; whether
    the text of an error says that no sandbox was found. *)
Context (container_runtime : string) (waits : list Z) (no_sandbox : fault → bool).
Abbreviation cri := (M fault cstate).

(** A program at this point. *)
Definition io {A} (m : eff fault call A) : cri A := λ s,
  let '(o, log) := run m (c_log s) in (o, mkC (c_self s) (c_kids s) log).
Definition call_out {A} (c : call A) : cri A := io (ask c).
Definition net {A} (m : Network.prog A) : cri A := io (lift (λ B, @Net B) m).

Definition nobody : cobject :=
  mkObject "" None None None None None [] None [] None None None None None None []
    (mkState None [] (mkCni None None) None None).
Definition object (w : who) (s : cstate) : cobject :=
  match w with Self => c_self s | Kid i => nth i (c_kids s) nobody end.
Definition the (w : who) : cri cobject := gets (object w).
Definition change (w : who) (f : cobject → cobject) : cri unit :=
  modify (λ s, match w with
               | Self => mkC (f (c_self s)) (c_kids s) (c_log s)
               | Kid i => mkC (c_self s) (alter f i (c_kids s)) (c_log s)
               end).
Definition save (w : who) : cri unit := let! o := the w in net (ask (SaveContainer (o_uuid o))).

(** ** A port of Neutron for an object *)

Definition DEVICE_OWNER_ZUN : string := "compute:zun".

(** The subnets of the addresses of a port. *)
Fixpoint show_subnets (l : list (string * option string)) (acc : dict string os_subnet) : cri (dict string os_subnet) :=
  match l with
  | [] => ret acc
  | (_, Some subnet_id) :: l' =>
      let! sn := call_out (ShowSubnet subnet_id) in show_subnets l' (dset acc subnet_id sn)
  | (_, None) :: l' => raise (FPy KeyError)
  end.

(** Both providers make the port, and record the interface it is. *)
Definition plan_network (rq : requested) (security_group_ids : option (list string)) : cri unit :=
  let! o := the Self in
  let! r := net (create_or_update_port project ip_version (o_uuid o) (o_host o) (rq_network rq) rq
                   DEVICE_OWNER_ZUN security_group_ids true) in
  let '(addresses, port) := r in
  change Self (set_addresses [(rq_network rq, addresses)]);;;
  let! network := call_out (ShowNetwork (bd_network (pt_binding port))) in
  let! subnets := show_subnets (pt_fixed_ips port) [] in
  let! vif_obj := (λ s, (neutron_to_osvif_vif get_veth_name NIC_NAME_LEN ovs_bridge (bd_vif_type (pt_binding port))
                           port network subnets, s)) in
  change Self (set_metadata (mkCni (Some vif_obj) None));;;
  save Self.

(** The ports of some addresses: those that are preserved are only unbound. *)
Definition release_ports (addrs : list addr) : cri unit :=
  net (delete_or_unbind_ports (set_order (remove_dups (ad_port <$> addrs)))
         (remove_dups (ad_port <$> filter (λ a, ad_preserve a = false) addrs))).

(** ** cni_network.py *)

Definition ZUN_INIT_NETWORK_READY_PATH : string := "/zun-init-network-ready".
Definition ZUN_INIT : string :=
  ("while ! [ -f " ++ ZUN_INIT_NETWORK_READY_PATH ++ " ] ; do sleep 1 ; done ; rm -f " ++ ZUN_INIT_NETWORK_READY_PATH ++
   " ; exec ")%string.

(** What the container is created with: its network mode, entrypoint and command. *)
Definition process_networking_config (rq : requested) (security_group_ids : option (list string))
    : cri (string * list string * list string) :=
  plan_network rq security_group_ids;;;
  let! o := the Self in
  let token := default [] (o_entrypoint o) ++ default [] (o_command o) in
  let new_command := (ZUN_INIT ++ String.concat " " (quote <$> token))%string in
  ret ("none", ["/bin/sh"; "-c"], [new_command]).

Definition disconnect_container_from_network (neutron_network_id : string) : cri unit :=
  let! o := the Self in
  release_ports (if String.eqb neutron_network_id "" then []
                 else default [] (dget (os_addresses (o_state o)) neutron_network_id)).

Definition _add (pid : option Z) : cri unit :=
  let! o := the Self in call_out (ZunCni ADD pid (o_container_id o) (o_uuid o)).
Definition _delete (pid : option Z) : cri unit :=
  let! o := the Self in call_out (ZunCni DEL pid (o_container_id o) (o_uuid o)).

Definition _exec_command_in_container (cmd : list string) : cri (Z * string) :=
  let! o := the Self in
  let! exec_id := call_out (ExecCreate (o_container_id o) cmd) in
  let! output := call_out (ExecStart exec_id) in
  let! code := call_out (ExecInspect exec_id) in
  ret (code, output).

Definition pid_true (p : option Z) : bool := match p with Some z => negb (z =? 0)%Z | None => false end.

(** [cni_metadata.pop(CNI_METADATA_PID, None)], on the dictionary of the object. *)
Definition pop_pid : cri (option Z) :=
  let! o := the Self in change Self (set_pid None);;; ret (cni_pid (o_metadata o)).

(** Out of the old network, and into the new one, of which the container is told. *)
Definition unplug (pid : option Z) : cri unit := if pid_true pid then _delete pid;;; save Self else ret tt.
Definition plug (pid : option Z) : cri unit :=
  _add pid;;;
  change Self (set_pid pid);;;
  save Self;;;
  let! r := _exec_command_in_container ["touch"; ZUN_INIT_NETWORK_READY_PATH] in
  raise_if (negb (r.1 =? 0)%Z) (FZun ZunException).

Definition on_container_started : cri unit :=
  let! o := the Self in
  let! state_pid := call_out (InspectPid (o_container_id o)) in
  let pid := if pid_true state_pid then state_pid else None in
  if bool_decide (cni_pid (o_metadata o) = pid) then ret tt
  else
    let! old_pid := pop_pid in
    unplug old_pid;;;
    plug pid.

Definition on_container_stopped : cri unit := let! pid := pop_pid in unplug pid.

(** ** container/cri/driver.py *)

Definition get_security_group_ids (security_groups : list string) : cri (option (list string)) :=
  match security_groups with
  | [] => ret None
  | _ =>
      let! groups := net (ask (ListGroups project)) in
      let security_group_ids :=
        fst <$> filter (λ g : string * string, g.2 ∈ security_groups ∨ g.1 ∈ security_groups) groups in
      if bool_decide (length security_groups ≤ length security_group_ids) then ret (Some security_group_ids)
      else raise (FZun ZunException)
  end.

Definition _write_cni_metadata (requested_networks : list requested) : cri unit :=
  let! capsule := the Self in
  let! security_group_ids := get_security_group_ids (o_security_groups capsule) in
  match requested_networks with
  | [] => raise (FPy IndexError)
  | requested_network :: _ => plan_network requested_network security_group_ids
  end.

(** Its configuration names the capsule only. *)
Definition _create_pod_sandbox (requested_networks : list requested) : cri unit :=
  let! capsule := the Self in
  let runtime := match o_runtime capsule with Some "" | None => container_runtime | Some r => r end in
  let runtime := if String.eqb runtime "runc" then "" else runtime in
  _write_cni_metadata requested_networks;;;
  let! pod_sandbox_id := call_out (RunPodSandbox (o_uuid capsule) runtime) in
  change Self (set_container_id (Some pod_sandbox_id)).

Definition _get_container_config (i : nat) (requested_volumes : dict string (list string)) : cri container_config :=
  let! container := the (Kid i) in
  let! mounts := map_m (λ v, net (ask (BindMount v))) (default [] (dget requested_volumes (o_uuid container))) in
  let cpu := match o_cpu container with Some q => trunc (Q2Qc (QArith_base.inject_Z 1024) * q)%Qc | None => 0%Z end in
  let! memory := match o_memory container with
                 | Some m => let! z := of_option (int_of 10 m) (FPy ValueError) in ret (z * 1024 * 1024)%Z
                 | None => ret 0%Z
                 end in
  ret (mkConfig (o_name container) (o_image container) (o_tty container) (o_interactive container)
         (default [] (o_command container)) (o_environment container) (default "" (o_workdir container))
         (o_labels container) mounts (o_privileged container) cpu memory).

Definition _pull_image (i : nat) : cri unit := let! container := the (Kid i) in call_out (PullImage (o_image container)).

Definition _create_container (i : nat) (requested_volumes : dict string (list string)) : cri unit :=
  _pull_image i;;;
  let! container_config := _get_container_config i requested_volumes in
  let! capsule := the Self in
  let! container_id := call_out (CreateContainer (o_container_id capsule) container_config (o_uuid capsule)) in
  change (Kid i) (set_container_id (Some container_id));;;
  save (Kid i);;;
  call_out (StartContainer container_id).

Definition _populate_container_state (i : nat) (state : ContainerState) : cri unit :=
  match state with
  | CONTAINER_CREATED => change (Kid i) (set_status CREATED)
  | CONTAINER_RUNNING => change (Kid i) (set_status RUNNING)
  | CONTAINER_EXITED => change (Kid i) (set_status STOPPED)
  | CONTAINER_UNKNOWN => change (Kid i) (set_status UNKNOWN)
  | UNRECOGNIZED =>
      change (Kid i) (set_status UNKNOWN);;; change (Kid i) (set_status_reason "container state unknown")
  end.

(** The container, unless it has no id. *)
Definition _show_container (i : nat) : cri (option cobject) :=
  let! container := the (Kid i) in
  match o_container_id container with
  | None | Some "" => ret None
  | Some container_id =>
      let! containers := call_out (ListContainers container_id) in
      match containers with
      | [] => raise (FZun ZunException)
      | state :: _ =>
          _populate_container_state i state;;;
          let! container := the (Kid i) in ret (Some container)
      end
  end.

Definition check_init_container_stopped (i : nat) : cri bool :=
  let! shown := _show_container i in
  match shown with
  | None => raise (FPy AttributeError)
  | Some container =>
      match os_status (o_state container) with
      | Some STOPPED => ret true
      | Some RUNNING => ret false
      | _ => raise (FZun ZunException)
      end
  end.

(** [tenacity.Retrying(...).call(check)]: [RetryError] when it is too late. *)
Fixpoint retrying (waits : list Z) (check : cri bool) : cri unit :=
  let! result := check in
  if result then ret tt
  else
    let! late := call_out TooLate in
    match waits with
    | w :: waits' => if late then raise (FPy OtherException) else net (ask (Sleep w));;; retrying waits' check
    | [] => raise (FPy OtherException)
    end.

Definition _wait_for_init_container (i : nat) : cri unit := retrying waits (check_init_container_stopped i).

(** The first [n_init] containers are the initial ones. *)
Definition create_capsule (n_init : nat) (requested_networks : list requested)
    (requested_volumes : dict string (list string)) : cri unit :=
  _create_pod_sandbox requested_networks;;;
  for_each (λ i,
    _create_container i requested_volumes;;; _wait_for_init_container i;;; save (Kid i)) (seq 0 n_init);;;
  let! kids := gets c_kids in
  for_each (λ i,
    _create_container i requested_volumes;;; change (Kid i) (set_status RUNNING);;; save (Kid i))
    (seq n_init (length kids - n_init));;;
  change Self (set_status RUNNING).

Definition _delete_neutron_ports : cri unit :=
  let! capsule := the Self in
  match os_addresses (o_state capsule) with
  | [] => ret tt
  | addresses => release_ports (mjoin (dvalues addresses))
  end.

Definition delete_capsule (force : bool) : cri unit :=
  let! capsule := the Self in
  match o_container_id capsule with
  | None | Some "" => ret tt
  | Some pod_id =>
      try_except (call_out (StopPodSandbox pod_id);;; call_out (RemovePodSandbox pod_id))
        (λ e, if is_zun CommandError e then Some (if no_sandbox e then ret tt else raise e) else None);;;
      _delete_neutron_ports
  end.
End Cri.

(** ** The addresses of a port, by subnet *)

(** The subnets of the addresses in the order they come first, each once. *)
Definition first_subnets (l : list (string * string)) : list string :=
  foldl (λ ks x, if decide (x.2 ∈ ks) then ks else ks ++ [x.2]) [] l.

(** What a subnet is, with its addresses among those of the port. *)
Definition subnet_with_ips (subnets : dict string os_subnet) (l : list (string * string)) (k : string) : vif_subnet :=
  let v := from_option _neutron_to_osvif_subnet (mkVifSubnet "" [] [] None []) (dget subnets k) in
  mkVifSubnet (vs_cidr v) (vs_dns v) (vs_routes v) (vs_gateway v) (fst <$> filter (λ x, x.2 = k) l).

Section Subnets.
Context (subnets : dict string os_subnet).
Abbreviation known x := (is_Some (dget subnets x.2)).

Lemma first_subnets_snoc l x :
  first_subnets (l ++ [x]) = if decide (x.2 ∈ first_subnets l) then first_subnets l else first_subnets l ++ [x.2].
Proof. unfold first_subnets. by rewrite foldl_snoc. Qed.

Lemma first_subnets_spec l : NoDup (first_subnets l) ∧ ∀ k, k ∈ first_subnets l ↔ ∃ ip, (ip, k) ∈ l.
Proof.
  induction l as [|[ip k] l [Hnd Hin]] using rev_ind; [split; [constructor|set_solver]|].
  rewrite first_subnets_snoc. cbn [snd]. case_decide as Hk.
  - split; [done|]. intros k'. rewrite Hin. set_solver.
  - split.
    + apply NoDup_app. split; [done|]. split; [set_solver|apply NoDup_singleton].
    + intros k'. set_solver.
Qed.

(** The dictionary that holds a value for each of some keys. *)
Lemma dget_graph {V} (f : string → V) ks k :
  dget ((λ k, (k, f k)) <$> ks) k = if decide (k ∈ ks) then Some (f k) else None.
Proof.
  induction ks as [|k' ks IH]; cbn [fmap list_fmap dget]; [rewrite decide_False; [done|apply not_elem_of_nil]|].
  destruct (decide (k' = k)) as [->|Hk]; [rewrite decide_True; [done|left]|]. rewrite IH.
  destruct (decide (k ∈ ks)); [rewrite decide_True|rewrite decide_False]; set_solver.
Qed.

Lemma dset_graph {V} (f : string → V) ks k v :
  NoDup ks → k ∈ ks →
  dset ((λ k, (k, f k)) <$> ks) k v = (λ k', (k', if decide (k' = k) then v else f k')) <$> ks.
Proof.
  intros Hnd Hk. induction Hnd as [|k' ks Hnotin Hnd IH]; [set_solver|]. cbn.
  destruct (decide (k' = k)) as [->|Hne].
  - f_equal. apply list_fmap_ext. intros i x Hx. rewrite decide_False; [done|].
    intros ->. by apply Hnotin, (list_elem_of_lookup_2 _ i).
  - rewrite IH by set_solver. done.
Qed.

Lemma fixed_ips_grouped l :
  foldl (add_fixed_ip subnets) [] l =
  (λ k, (k, subnet_with_ips subnets (filter (λ x, known x) l) k)) <$> first_subnets (filter (λ x, known x) l).
Proof.
  induction l as [|[ip k] l IH] using rev_ind; [done|].
  rewrite foldl_snoc, IH, filter_app, (filter_cons _ _ []), filter_nil. cbn [add_fixed_ip snd].
  set (l' := filter (λ x, known x) l). destruct (first_subnets_spec l') as [Hnd Hin].
  destruct (dget subnets k) as [sn|] eqn:Hsn.
  2: { rewrite decide_False by (rewrite is_Some_alt; naive_solver). by rewrite app_nil_r. }
  rewrite decide_True by eauto. rewrite first_subnets_snoc. cbn [snd].
  rewrite dget_graph. destruct (decide (k ∈ first_subnets l')) as [Hk|Hk]; cbn [default].
  - rewrite dset_graph by done. apply list_fmap_ext. intros i k' _. f_equal.
    unfold subnet_with_ips. rewrite filter_app, (filter_cons _ _ []), filter_nil. cbn [snd].
    destruct (decide (k' = k)) as [->|Hne].
    + rewrite (decide_True (P:=k = k)) by done. unfold add_ip. cbn. by rewrite fmap_app.
    + rewrite decide_False by congruence. by rewrite app_nil_r.
  - rewrite dset_fresh.
    2: { intros Hx. apply Hk. unfold dkeys in Hx. rewrite <- list_fmap_compose in Hx. cbn in Hx. by rewrite list_fmap_id in Hx. }
    rewrite fmap_app. f_equal.
    + apply list_fmap_ext. intros i k' Hk'. f_equal. unfold subnet_with_ips.
      rewrite filter_app, (filter_cons _ _ []), filter_nil. cbn [snd]. rewrite decide_False; [by rewrite app_nil_r|].
      intros ->. by apply Hk, (list_elem_of_lookup_2 _ i).
    + cbn. do 2 f_equal. unfold subnet_with_ips, add_ip. rewrite Hsn. cbn.
      rewrite filter_app, fmap_app, (filter_cons _ _ []), filter_nil, (decide_True (P:=k = k)) by done. cbn.
      replace (filter (λ x : string * string, x.2 = k) l') with (@nil (string * string)); [done|].
      symmetry. apply filter_none, Forall_forall. intros [ip' k'] Hx Heq. apply Hk, Hin. cbn in Heq. subst. by exists ip'.
Qed.
End Subnets.

(** C29. The interface that os-vif is given has a subnet for each subnet of the port that
    was fetched, in the order in which the addresses of the port name them first, and
    each holds the addresses of the port in that subnet, in their order: the loop over
    the addresses groups them, whatever they are and in whatever order. *)
Theorem vif_subnets_grouped p subnets l :
  with_subnets (pt_fixed_ips p) = Some l →
  _make_vif_subnets p subnets =
  let here := filter (λ x, is_Some (dget subnets x.2)) l in
  match here with
  | [] => Raise (FZun ZunException)
  | _ => Ok (subnet_with_ips subnets here <$> first_subnets here)
  end.
Proof.
  intros Hl. unfold _make_vif_subnets. rewrite Hl, fixed_ips_grouped. cbn zeta.
  set (here := filter _ l). destruct (first_subnets_spec here) as [_ Hin].
  destruct here as [|[ip k] here']; [done|].
  destruct (first_subnets ((ip, k) :: here')) as [|k1 ks] eqn:Hf.
  - assert (k ∈ @nil string) as []%elem_of_nil. apply Hin. exists ip. left.
  - cbn. unfold dvalues. cbn. by rewrite <- list_fmap_compose.
Qed.

Lemma vif_subnets_grouped_witness :
  let p := mkPort "p" None [("10.0.0.5", Some "a"); ("fd00::5", Some "b"); ("10.0.0.6", Some "a")] None None unbound in
  let sn c := mkOsSubnet c [] [] None in
  let subnets := [("a", sn "10.0.0.0/24"); ("b", sn "fd00::/64")] in
  let l := [("10.0.0.5", "a"); ("fd00::5", "b"); ("10.0.0.6", "a")] in
  _make_vif_subnets p subnets = (let here := filter (λ x, is_Some (dget subnets x.2)) l in
    match here with [] => Raise (FZun ZunException) | _ => Ok (subnet_with_ips subnets here <$> first_subnets here) end) ∧
  vs_ips <$> (match _make_vif_subnets p subnets with Ok v => v | _ => [] end) = [["10.0.0.5"; "10.0.0.6"]; ["fd00::5"]].
Proof. intros p sn subnets l. split; [apply (vif_subnets_grouped p subnets l); reflexivity|vm_compute; reflexivity]. Defined.

(** ** A capsule on its runtime *)

(** What the runtime did: a sandbox is there, a container is made in it and started,
    and one is seen to have ended. *)
Inductive life : Type :=
| Sandbox (pod : string)
| Created (pod : option string) (cid : string)
| Started (cid : string)
| Exited (cid : string).

Section Lives.
Context `{Runtime}.

(** A call, by what was answered to it after the calls before. *)
Definition life_of (before : list event) {B} (c : call B) : list life :=
  match c with
  | RunPodSandbox n r => match answer (RunPodSandbox n r) before with Ok pod => [Sandbox pod] | _ => [] end
  | CreateContainer pod conf n => match answer (CreateContainer pod conf n) before with Ok cid => [Created pod cid] | _ => [] end
  | StartContainer cid => match answer (StartContainer cid) before with Ok _ => [Started cid] | _ => [] end
  | ListContainers cid => match answer (ListContainers cid) before with Ok (CONTAINER_EXITED :: _) => [Exited cid] | _ => [] end
  | _ => []
  end.

Fixpoint lives (before log : list event) : list life :=
  match log with
  | [] => []
  | e :: log' => life_of before (ev_call e) ++ lives (before ++ [e]) log'
  end.

Lemma lives_app before l1 l2 : lives before (l1 ++ l2) = lives before l1 ++ lives (before ++ l1) l2.
Proof.
  revert before. induction l1 as [|e l1 IH]; intros before; cbn; [by rewrite app_nil_r|].
  by rewrite IH, <- !app_assoc.
Qed.

Definition calm {B} (c : call B) : Prop :=
  match c with RunPodSandbox _ _ | CreateContainer _ _ _ | StartContainer _ | ListContainers _ => False | _ => True end.

Lemma calm_lives evs before : Forall (λ e, calm (ev_call e)) evs → lives before evs = [].
Proof. intros Hevs. revert before. induction Hevs as [|e evs He Hevs IH]; intros before; cbn; [done|]. rewrite IH. by destruct e as [B []]. Qed.

(** What the runtime did so far, and the containers among [kids] that have an id; no
    program takes an id away. *)
Definition at_ (ls : list life) (n : nat) (pod : option string) (ids : list string) (s : cstate) : Prop :=
  lives [] (c_log s) = ls ∧ length (c_kids s) = n ∧ o_container_id (c_self s) = pod ∧
  ∀ j i, ids !! j = Some i → o_container_id <$> c_kids s !! j = Some (Some i).

(** A program that does nothing on the runtime, and leaves the ids as they are. *)
Definition calmly (s s' : cstate) : Prop :=
  lives [] (c_log s') = lives [] (c_log s) ∧ o_container_id <$> c_kids s' = o_container_id <$> c_kids s ∧
  o_container_id (c_self s') = o_container_id (c_self s).
#[local] Instance calmly_preorder : PreOrder calmly.
Proof. split; [done|]. unfold calmly. intros ??? (?&?&?) (?&?&?). split_and!; congruence. Qed.

Lemma io_calmly {A} (m : eff fault call A) : calls_in (λ B c, @calm B c) m → keeps calmly (io m).
Proof.
  intros Hm s o s'. unfold io. destruct (run_calls _ m (c_log s) Hm) as (evs & Hlog & Hevs).
  destruct (run m (c_log s)) as [o1 log]. cbn in Hlog. subst. intros [= <- <-]. split; [|done].
  cbn [c_log]. by rewrite lives_app, (calm_lives _ _ Hevs), app_nil_r.
Qed.
Lemma call_calmly {A} (c : call A) : calm c → keeps calmly (call_out c).
Proof. intros Hc. by apply io_calmly, calls_ask. Qed.
Lemma net_calmly {A} (m : Network.prog A) : keeps calmly (net m).
Proof. apply io_calmly, calls_lift. induction m; cbn; [done..|]. split; auto. Qed.
Lemma the_calmly w : keeps calmly (the w).
Proof. apply keeps_gets, _. Qed.
Lemma change_calmly w f : (∀ o, o_container_id (f o) = o_container_id o) → keeps calmly (change w f).
Proof.
  intros Hf. apply keeps_modify. intros s. unfold calmly. destruct w as [|i]; cbn; [by rewrite Hf|].
  split_and!; [done| |done]. apply list_eq. intros j. rewrite !list_lookup_fmap, list_lookup_alter.
  case_decide; [subst|done]. destruct (c_kids s !! j); cbn; [by rewrite Hf|done].
Qed.
#[local] Hint Resolve the_calmly net_calmly : py.
#[local] Hint Extern 1 (keeps calmly (call_out _)) => by apply call_calmly : py.
#[local] Hint Extern 1 (keeps calmly (change _ _)) => by apply change_calmly : py.
Lemma save_calmly w : keeps calmly (save w).
Proof. unfold save. look. Qed.
#[local] Hint Resolve save_calmly : py.

Lemma calmly_at {A} (m : M fault cstate A) ls n pod ids :
  keeps calmly m → hoare (at_ ls n pod ids) m (λ _, at_ ls n pod ids) (λ _ _, True).
Proof.
  intros Hm s (Hl & Hn & Hp & Hi). destruct (m s) as [[a|e] s'] eqn:Hs; [|done].
  apply Hm in Hs as (Hl' & Hk & Hp'). split_and!; [congruence| |congruence|].
  - by rewrite <- Hn, <- (length_fmap o_container_id), Hk, length_fmap.
  - intros j i Hj. by rewrite <- list_lookup_fmap, Hk, list_lookup_fmap, (Hi j i).
Qed.

Lemma at_then {A B} (m : M fault cstate A) (f : A → M fault cstate B) ls n pod ids Q :
  keeps calmly m → (∀ a, hoare (at_ ls n pod ids) (f a) Q (λ _ _, True)) →
  hoare (at_ ls n pod ids) (bind m f) Q (λ _ _, True).
Proof. intros Hm Hf. eapply (hoare_bind _ _ _ (λ _, at_ ls n pod ids)); [by apply calmly_at|done]. Qed.

(** A call that the runtime acts on. *)
Lemma call_at {A} (c : call A) ls n pod ids :
  hoare (at_ ls n pod ids) (call_out c)
    (λ a s, ∃ before, answer c before = Ok a ∧ at_ (ls ++ life_of before c) n pod ids s) (λ _ _, True).
Proof.
  intros s (Hl & Hs). unfold call_out, io, ask. cbn. destruct (answer c (c_log s)) as [a|e] eqn:Ha; cbn; [|done].
  exists (c_log s). split; [done|]. split; [|done]. cbn. by rewrite lives_app, Hl; cbn; rewrite app_nil_r.
Qed.

Section Capsule.
Context (project : option string) (set_order : list string → list string) (ip_version : string → option Z).
Context (get_veth_name : string → string) (NIC_NAME_LEN : nat) (ovs_bridge : option string).
Context (container_runtime : string) (waits : list Z).
Abbreviation create_capsule := (create_capsule project ip_version get_veth_name NIC_NAME_LEN ovs_bridge container_runtime waits).

Lemma subnets_calmly l acc : keeps calmly (show_subnets l acc).
Proof. revert acc. induction l as [|[ip [sn|]] l IH]; intros acc; cbn [show_subnets]; look. Qed.
#[local] Hint Resolve subnets_calmly : py.

Lemma plan_calmly rq groups : keeps calmly (plan_network project ip_version get_veth_name NIC_NAME_LEN ovs_bridge rq groups).
Proof. unfold plan_network. look. by intros s o s' [= <- <-]. Qed.
#[local] Hint Resolve plan_calmly : py.

Lemma metadata_calmly rqs :
  keeps calmly (_write_cni_metadata project ip_version get_veth_name NIC_NAME_LEN ovs_bridge rqs).
Proof. unfold _write_cni_metadata, get_security_group_ids. look. Qed.

Lemma config_calmly i vols : keeps calmly (_get_container_config i vols).
Proof. unfold _get_container_config. look. Qed.
#[local] Hint Resolve metadata_calmly config_calmly : py.

Lemma the_self_at {B} (f : cobject → M fault cstate B) ls n pod ids Q :
  (∀ o, o_container_id o = pod → hoare (at_ ls n pod ids) (f o) Q (λ _ _, True)) →
  hoare (at_ ls n pod ids) (bind (the Self) f) Q (λ _ _, True).
Proof. intros Hf s Hs. apply Hf; [|done]. by destruct Hs as (_ & _ & Hp & _). Qed.

Lemma sandbox_at rqs ls n pod ids :
  hoare (at_ ls n pod ids) (_create_pod_sandbox project ip_version get_veth_name NIC_NAME_LEN ovs_bridge container_runtime rqs)
    (λ _ s, ∃ p, at_ (ls ++ [Sandbox p]) n (Some p) ids s) (λ _ _, True).
Proof.
  apply the_self_at. intros o _. cbn zeta. apply at_then; [look|]. intros _.
  eapply hoare_bind; [apply call_at|]. intros p s (before & Ha & Hl & Hn & _ & Hi). exists p.
  cbn in Hl. rewrite Ha in Hl. by split_and!.
Qed.

Lemma new_id_at i cid ls n pod ids :
  length ids = i → i < n →
  hoare (at_ ls n pod ids) (change (Kid i) (set_container_id (Some cid))) (λ _, at_ ls n pod (ids ++ [cid])) (λ _ _, True).
Proof.
  intros Hids Hi s (Hl & Hn & Hp & Hk). cbn. split_and!; [done|cbn; by rewrite length_alter|done|].
  intros j c Hj. cbn. rewrite list_lookup_alter. case_decide; subst.
  - rewrite list_lookup_middle in Hj by done. injection Hj as <-.
    destruct (lookup_lt_is_Some_2 (c_kids s) (length ids)) as [o ->]; [lia|done].
  - apply Hk. apply lookup_app_Some in Hj as [|[Hge Hj]]; [done|].
    apply list_lookup_singleton_Some in Hj as [Hj _]. lia.
Qed.

Lemma made_at i vols ls n pod ids :
  length ids = i → i < n →
  hoare (at_ ls n pod ids) (_create_container i vols)
    (λ _ s, ∃ cid, at_ (ls ++ [Created pod cid; Started cid]) n pod (ids ++ [cid]) s) (λ _ _, True).
Proof.
  intros Hids Hi. unfold _create_container. apply at_then; [unfold _pull_image; look|]. intros _.
  apply at_then; [look|]. intros conf. apply the_self_at. intros o <-.
  eapply hoare_bind; [apply call_at|]. intros cid.
  eapply (hoare_bind _ _ _ (λ _, at_ (ls ++ [Created (o_container_id o) cid]) n (o_container_id o) (ids ++ [cid]))).
  { intros s (before & Ha & Hs). cbn in Hs. rewrite Ha in Hs. by apply new_id_at. }
  intros _. apply at_then; [look|]. intros _. intros s Hs. pose proof (call_at (StartContainer cid) _ _ _ _ s Hs) as Hc.
  destruct (call_out _ s) as [[u|e] s1]; [|done]. destruct Hc as (before & Ha & Hc). exists cid.
  cbn in Hc. rewrite Ha in Hc. by rewrite <- app_assoc in Hc.
Qed.

(** The state that is read back is that of the answer. *)
Lemma shown_at i state ls n pod ids :
  i < n →
  hoare (at_ ls n pod ids) (_populate_container_state i state;;; the (Kid i))
    (λ c s, at_ ls n pod ids s ∧ (os_status (o_state c) = Some STOPPED ↔ state = CONTAINER_EXITED)) (λ _ _, True).
Proof.
  intros Hi s Hs.
  assert (keeps calmly (_populate_container_state i state)) as Hkeep by (unfold _populate_container_state; look).
  pose proof (calmly_at _ ls n pod ids Hkeep s Hs) as Hat. unfold bind.
  destruct (_populate_container_state i state s) as [[u|e] s1] eqn:Hrun; [|done]. split; [done|].
  destruct Hs as (_ & Hn & _). destruct (lookup_lt_is_Some_2 (c_kids s) i) as [o Ho]; [lia|].
  assert (∀ f, nth i (alter f i (c_kids s)) nobody = f o) as Hnth.
  { intros f. apply nth_lookup_Some. by rewrite list_lookup_alter_eq, Ho. }
  destruct state; cbn in Hrun; injection Hrun as _ <-; cbn; rewrite ?Hnth; try by split.
  rewrite (nth_lookup_Some _ _ _ (set_status_reason "container state unknown" (set_status UNKNOWN o))); [by split|].
  by rewrite list_lookup_alter_eq, list_lookup_alter_eq, Ho.
Qed.

Lemma the_kid_at {B} i cid (f : cobject → M fault cstate B) ls n pod ids Q :
  ids !! i = Some cid →
  (∀ o, o_container_id o = Some cid → hoare (at_ ls n pod ids) (f o) Q (λ _ _, True)) →
  hoare (at_ ls n pod ids) (bind (the (Kid i)) f) Q (λ _ _, True).
Proof.
  intros Hcid Hf s Hs. apply Hf; [|done]. destruct Hs as (_ & _ & _ & Hk). specialize (Hk _ _ Hcid).
  cbn. destruct (c_kids s !! i) as [o|] eqn:Ho; [|done]. rewrite (nth_lookup_Some _ _ _ _ Ho). by injection Hk.
Qed.

Lemma check_at i ls n pod ids cid :
  ids !! i = Some cid → i < n →
  hoare (at_ ls n pod ids) (check_init_container_stopped i)
    (λ (b : bool) s, at_ (if b then ls ++ [Exited cid] else ls) n pod ids s) (λ _ _, True).
Proof.
  intros Hcid Hi. unfold check_init_container_stopped.
  eapply (hoare_bind _ _ _ (λ shown s, match shown with
    | Some c => at_ (if bool_decide (os_status (o_state c) = Some STOPPED) then ls ++ [Exited cid] else ls) n pod ids s
    | None => True end)).
  - apply (the_kid_at _ cid); [done|]. intros o ->. destruct cid as [|a cid']; [by intros s|]. set (cid := String a cid').
    eapply hoare_bind; [apply call_at|]. intros [|state states]; [by intros s|]. cbn zeta iota.
    intros s (before & Ha & Hs). rewrite <- bind_assoc.
    pose proof (shown_at i state _ n pod ids Hi s Hs) as Hshown. unfold bind at 1.
    destruct (bind _ _ s) as [[c|e] s1]; [|done]. cbn. destruct Hshown as (Hat & Hst).
    cbn in Hat. rewrite Ha in Hat. case_bool_decide as Hc.
    + apply Hst in Hc as ->. done.
    + destruct state; try (by rewrite app_nil_r in Hat). by destruct Hc; apply Hst.
  - intros [c|]; [|done]. destruct (os_status (o_state c)) as [[]|] eqn:Hst; try done; intros s; case_bool_decide; done.
Qed.

Lemma wait_at i ls n pod ids cid :
  ids !! i = Some cid → i < n →
  hoare (at_ ls n pod ids) (_wait_for_init_container waits i) (λ _, at_ (ls ++ [Exited cid]) n pod ids) (λ _ _, True).
Proof.
  intros Hcid Hi. unfold _wait_for_init_container. generalize waits as ws. induction ws as [|w ws IH]; cbn [retrying].
  - eapply hoare_bind; [by eapply check_at|]. intros [|]; [by intros s|]. apply at_then; [look|by intros _ s].
  - eapply hoare_bind; [by eapply check_at|]. intros [|]; [by intros s|]. apply at_then; [look|]. intros [|]; [by intros s|].
    apply at_then; [look|]. intros _. apply IH.
Qed.

(** Containers that come to life one after the other. *)
Lemma each_at (f : nat → M fault cstate unit) (g : string → list life) n pod :
  (∀ i ls ids, length ids = i → i < n →
    hoare (at_ ls n pod ids) (f i) (λ _ s, ∃ cid, at_ (ls ++ g cid) n pod (ids ++ [cid]) s) (λ _ _, True)) →
  ∀ m ls ids, length ids + m ≤ n →
    hoare (at_ ls n pod ids) (for_each f (seq (length ids) m))
      (λ _ s, ∃ new, length new = m ∧ at_ (ls ++ mjoin (g <$> new)) n pod (ids ++ new) s) (λ _ _, True).
Proof.
  intros Hf m. induction m as [|m IH]; intros ls ids Hm; cbn [seq for_each].
  - intros s Hs. exists []. split; [done|]. by rewrite !app_nil_r.
  - eapply hoare_bind; [by apply Hf; [|lia]|]. intros _ s (cid & Hs).
    specialize (IH (ls ++ g cid) (ids ++ [cid])). rewrite length_app, Nat.add_1_r in IH.
    specialize (IH ltac:(lia) s Hs). destruct (for_each _ _ s) as [[u|e] s1]; [|done].
    destruct IH as (new & Hnew & Hat). exists (cid :: new). cbn. split; [by rewrite Hnew|]. by rewrite <- !app_assoc in Hat.
Qed.

(** A container that has run to its end, and one that was started. *)
Definition ran (pod cid : string) : list life := [Created (Some pod) cid; Started cid; Exited cid].
Definition up (pod cid : string) : list life := [Created (Some pod) cid; Started cid].

(** C25. A capsule is created in order: its sandbox first, then each initial container,
    which is made, started and seen to have ended before the next is made, and only then
    the others, each made and started; all are made in the sandbox, and nothing else is
    made or started.  The capsule and the containers keep the ids they were given. *)
Theorem capsule_in_order n_init rqs vols s s' :
  n_init ≤ length (c_kids s) →
  create_capsule n_init rqs vols s = (Ok tt, s') →
  ∃ pod init others,
    lives [] (c_log s') = lives [] (c_log s) ++ Sandbox pod :: mjoin (ran pod <$> init) ++ mjoin (up pod <$> others) ∧
    length init = n_init ∧ o_container_id (c_self s') = Some pod ∧
    o_container_id <$> c_kids s' = Some <$> init ++ others.
Proof.
  intros Hn Hrun. set (n := length (c_kids s)) in *. set (ls := lives [] (c_log s)).
  assert (hoare (at_ ls n (o_container_id (c_self s)) []) (create_capsule n_init rqs vols)
    (λ _ s', ∃ pod init others, length init = n_init ∧ length others = n - n_init ∧
       at_ (((ls ++ [Sandbox pod]) ++ mjoin (ran pod <$> init)) ++ mjoin (up pod <$> others)) n (Some pod) (init ++ others) s')
    (λ _ _, True)) as Hall.
  { unfold create_capsule. eapply hoare_bind; [apply sandbox_at|]. intros _ s1 (pod & Hs1). revert s1 Hs1.
    eapply hoare_bind; [apply (each_at _ (ran pod) n (Some pod)) with (ids := []); [|by cbn]|].
    { intros i ls1 ids Hids Hi. eapply hoare_bind; [by apply made_at|]. intros _ s1 (cid & Hs1). revert s1 Hs1.
      eapply hoare_bind; [apply (wait_at _ _ _ _ _ cid); [rewrite <- Hids; by apply list_lookup_middle|done]|].
      intros _ s1 Hs1. rewrite <- app_assoc in Hs1. apply (calmly_at _ _ _ _ _ (save_calmly (Kid i))) in Hs1.
      destruct (save _ s1) as [[u|e] s2]; [|done]. by exists cid. }
    intros _ s1 (init & Hinit & Hs1). pose proof Hs1 as (_ & Hlen & _). rewrite app_nil_l in Hs1.
    unfold bind at 1, gets at 1. cbn iota beta. rewrite Hlen, <- Hinit. revert s1 Hs1 Hlen. intros s1 Hs1 _. revert s1 Hs1.
    eapply hoare_bind; [apply (each_at _ (up pod) n (Some pod)); [|lia]|].
    { intros i ls1 ids Hids Hi. eapply hoare_bind; [by apply made_at|]. intros _ s1 (cid & Hs1). revert s1 Hs1.
      apply at_then; [look|]. intros _ s1 Hs1. apply (calmly_at _ _ _ _ _ (save_calmly (Kid i))) in Hs1.
      destruct (save _ s1) as [[u|e] s2]; [|done]. by exists cid. }
    intros _ s1 (others & Hothers & Hs1).
    apply (calmly_at _ _ _ _ _ (change_calmly Self (set_status RUNNING) ltac:(done))) in Hs1.
    exists pod, init, others. by split_and!. }
  specialize (Hall s). rewrite Hrun in Hall. destruct Hall as (pod & init & others & Hinit & Hothers & Hl & Hk & Hp & Hids).
  { by split_and!. }
  exists pod, init, others. split_and!; [by rewrite Hl, <- !app_assoc|done|done|].
  apply list_eq_same_length with (n := n); [by rewrite length_fmap, length_app; lia|by rewrite length_fmap|].
  intros j x y Hj Hx Hy. rewrite list_lookup_fmap in Hx. rewrite list_lookup_fmap in Hy. apply fmap_Some in Hy as (i & Hi & ->).
  rewrite (Hids _ _ Hi) in Hx. congruence.
Qed.
End Capsule.
End Lives.

(** ** Where the driver and the provider fall short *)

Section Wrong.
Context `{Runtime} (set_order : list string → list string) (no_sandbox : fault → bool).

Lemma call_out_run {A} (c : call A) s : call_out c s =
  (answer c (c_log s), mkC (c_self s) (c_kids s) (c_log s ++ [mkEvent _ c (is_ok (answer c (c_log s)))])).
Proof. unfold call_out, io, ask. cbn. by destruct (answer c (c_log s)). Qed.

(** An error of the runtime is no [CommandError]: when the sandbox is not to be found,
    or anything else fails, the error is not caught and the ports of the capsule stay. *)
Lemma lost_sandbox_keeps_ports pod force s e :
  o_container_id (c_self s) = Some pod → pod ≠ "" → answer (StopPodSandbox pod) (c_log s) = Raise e →
  is_zun CommandError e = false →
  delete_capsule set_order no_sandbox force s =
    (Raise e, mkC (c_self s) (c_kids s) (c_log s ++ [mkEvent _ (StopPodSandbox pod) false])).
Proof.
  intros Hpod Hne He Hzun. unfold delete_capsule, the. rewrite bind_gets. cbn [object]. rewrite Hpod.
  destruct pod as [|a pod']; [done|]. unfold bind, try_except. by rewrite call_out_run, He; cbn; rewrite Hzun.
Qed.

Lemma net_run {A} (c : Network.call A) s : net (ask c) s = call_out (Net c) s.
Proof. unfold net, call_out, io, ask. cbn. by destruct (answer (Net c) (c_log s)). Qed.

(** A program leaves the object at work, and only adds to what was asked. *)
Definition onward (s s' : cstate) : Prop := c_self s' = c_self s ∧ c_log s `prefix_of` c_log s'.
#[local] Instance onward_preorder : PreOrder onward.
Proof. split; [by intros s|]. intros s1 s2 s3 [H1 H2] [H3 H4]. split; [congruence|by etrans]. Qed.
Lemma io_onward {A} (m : eff fault call A) : keeps onward (io m).
Proof.
  intros s o s'. unfold io. destruct (run_calls (λ _ _, True) m (c_log s)) as (evs & Hlog & _).
  { induction m; cbn; auto. }
  destruct (run m (c_log s)) as [o1 log]. cbn in Hlog. subst. intros [= <- <-]. split; [done|]. by apply prefix_app_r.
Qed.
Lemma call_onward {A} (c : call A) : keeps onward (call_out c).
Proof. apply io_onward. Qed.
Lemma the_onward w : keeps onward (the w).
Proof. apply keeps_gets, _. Qed.
#[local] Hint Resolve io_onward call_onward the_onward : py.
Lemma save_onward w : keeps onward (save w).
Proof. unfold save, net. look. Qed.
Lemma exec_onward cmd : keeps onward (_exec_command_in_container cmd).
Proof. unfold _exec_command_in_container. look. Qed.
#[local] Hint Resolve save_onward exec_onward : py.

Lemma pop_run s :
  pop_pid s = (Ok (cni_pid (o_metadata (c_self s))), mkC (set_pid None (c_self s)) (c_kids s) (c_log s)).
Proof. done. Qed.

Lemma unplug_onward pid : keeps onward (unplug pid).
Proof. unfold unplug, _delete. look. Qed.

Lemma unplug_run pid s :
  (∀ log, is_ok (answer (ZunCni DEL pid (o_container_id (c_self s)) (o_uuid (c_self s))) log) = true) →
  (∀ log, is_ok (answer (Net (SaveContainer (o_uuid (c_self s)))) log) = true) →
  ∃ s', unplug pid s = (Ok tt, s').
Proof.
  intros Hdel Hsave. unfold unplug, _delete, save, the. case_match; [|by eexists].
  rewrite bind_assoc, bind_gets. unfold bind at 1. rewrite call_out_run. cbn [object]. specialize (Hdel (c_log s)).
  destruct (answer (ZunCni DEL pid _ _) _) as [[]|]; [|done]. rewrite bind_gets, net_run, call_out_run. cbn [object c_self].
  match goal with |- context [answer (Net ?c) ?l] => specialize (Hsave l) end.
  destruct (answer (Net _) _) as [[]|]; [by eexists|done].
Qed.

(** A container that is inspected when its process is gone already is unplugged from the
    old process, and then plugged into the network of the process "None". *)
Lemma plugged_into_none s p old :
  cni_pid (o_metadata (c_self s)) = Some old →
  answer (InspectPid (o_container_id (c_self s))) (c_log s) = Ok p → pid_true p = false →
  (∀ log, is_ok (answer (ZunCni DEL (Some old) (o_container_id (c_self s)) (o_uuid (c_self s))) log) = true) →
  (∀ log, is_ok (answer (Net (SaveContainer (o_uuid (c_self s)))) log) = true) →
  ∃ ok, mkEvent _ (ZunCni ADD None (o_container_id (c_self s)) (o_uuid (c_self s))) ok ∈ c_log (on_container_started s).2.
Proof.
  intros Hold Hp Hfalse Hdel Hsave. unfold on_container_started, the. rewrite bind_gets. cbn [object].
  unfold bind at 1. rewrite call_out_run, Hp, Hfalse, Hold. rewrite bool_decide_false by done.
  unfold bind at 1. rewrite pop_run. cbn [c_self c_kids c_log]. rewrite Hold.
  match goal with |- context [bind (unplug _) _ ?st] => set (s1 := st) end.
  destruct (unplug_run (Some old) s1) as [s2 Hs2]; [done..|]. unfold bind at 1. rewrite Hs2.
  apply unplug_onward in Hs2 as [Hself _]. unfold plug, _add, the. rewrite bind_assoc, bind_gets. cbn [object].
  unfold bind at 1. rewrite call_out_run, Hself. cbn [c_self s1].
  match goal with |- context [answer ?c ?l] => exists (is_ok (answer c l)); destruct (answer c l) as [[]|e] end.
  2: { cbn. apply elem_of_app. right. left. }
  unfold bind at 1, change, modify at 1. cbv beta iota.
  match goal with |- _ ∈ c_log (?m ?st).2 =>
    assert (keeps onward m) as Hkeep by look; destruct (m st) as [o s'] eqn:Hrun end.
  apply Hkeep in Hrun as [_ [l Hl]]. cbn [snd]. rewrite Hl. apply elem_of_app. left. cbn. apply elem_of_app. right. left.
Qed.

(** What a container is plugged into is not plugged again. *)
Lemma started_again s s1 p :
  on_container_started s = (Ok tt, s1) → cni_pid (o_metadata (c_self s1)) = p →
  answer (InspectPid (o_container_id (c_self s1))) (c_log s1) = Ok p →
  on_container_started s1 = (Ok tt, mkC (c_self s1) (c_kids s1)
    (c_log s1 ++ [mkEvent _ (InspectPid (o_container_id (c_self s1))) true])).
Proof.
  intros Hrun Hpid Hp.
  assert ((if pid_true p then p else None) = p) as Hnorm.
  { subst p. revert Hrun. clear Hp. unfold on_container_started. intros (o & s2 & Ho & Hrun)%bind_Ok.
    apply bind_Ok in Hrun as (p & s3 & Hp & Hrun). cbv zeta in Hrun. case_bool_decide as Heq.
    - injection Ho as <- <-. injection Hrun as <-. apply call_onward in Hp as [-> _]. cbn in Heq.
      rewrite Heq. destruct (pid_true p) eqn:Ht; by rewrite ?Ht.
    - apply bind_Ok in Hrun as (old & s4 & _ & Hrun). apply bind_Ok in Hrun as ([] & s5 & _ & Hrun).
      unfold plug in Hrun. apply bind_Ok in Hrun as ([] & s6 & _ & Hrun). apply bind_Ok in Hrun as ([] & s7 & Hset & Hrun).
      injection Hset as <-.
      assert (keeps onward (save Self;;; (let! r := _exec_command_in_container ["touch"; ZUN_INIT_NETWORK_READY_PATH] in
         raise_if (negb (r.1 =? 0)%Z) (FZun ZunException)))) as Hkeep by look.
      apply Hkeep in Hrun as [-> _]. cbn. destruct (pid_true p) eqn:Ht; by rewrite ?Ht. }
  unfold on_container_started, the. rewrite bind_gets. cbn [object]. unfold bind. rewrite call_out_run, Hp, Hnorm.
  by rewrite bool_decide_true.
Qed.
End Wrong.

(** ** Examples *)

(** A runtime that gives containers their names as ids, where an initial container is
    seen to run once before it ends; Neutron makes one port. *)
Definition demo_port : port :=
  mkPort "port" (Some "mac") [("10.0.0.5", Some "sn")] None None (mkBinding "net" (Some "ovs") (Some "br-int") false true true).
Definition is_list (e : event) : bool := match ev_call e with ListContainers _ => true | _ => false end.
#[local] Instance demo_runtime : Runtime := λ B c log,
  match c in call B return outcome fault B with
  | Net c' =>
      match c' in Network.call B return outcome fault B with
      | CreatePort _ => Ok demo_port
      | SaveContainer _ => Ok tt
      | Sleep _ => Ok tt
      | _ => Raise (FPy OtherException)
      end
  | ShowNetwork n => Ok (mkOsNetwork n None None "vxlan" None)
  | ShowSubnet _ => Ok (mkOsSubnet "10.0.0.0/24" [] [] None)
  | RunPodSandbox _ _ => Ok "pod"
  | PullImage _ => Ok tt
  | CreateContainer _ conf _ => Ok (default "" (cf_name conf))
  | StartContainer _ => Ok tt
  | ListContainers _ => Ok [if existsb is_list log then CONTAINER_EXITED else CONTAINER_RUNNING]
  | TooLate => Ok false
  | _ => Raise (FPy OtherException)
  end.
Definition demo_object (name : string) : cobject :=
  mkObject name None (Some name) (Some "image") None None [] None [] None (Some "512") None None None None []
    (mkState None [] (mkCni None None) None None).
Definition demo_capsule : cstate := mkC (demo_object "capsule") [demo_object "init"; demo_object "main"] [].
Abbreviation demo_create := (create_capsule None (λ _, Some 4%Z) (λ s, s) 14 None "runc" [1; 2]%Z 1
  [mkRequested "net" "" "" false] []).

Lemma capsule_in_order_witness :
  ∃ s', demo_create demo_capsule = (Ok tt, s') ∧
  ∃ pod init others,
    lives [] (c_log s') = lives [] (c_log demo_capsule) ++ Sandbox pod :: mjoin (ran pod <$> init) ++ mjoin (up pod <$> others) ∧
    length init = 1 ∧ o_container_id (c_self s') = Some pod ∧ o_container_id <$> c_kids s' = Some <$> init ++ others.
Proof.
  destruct (demo_create demo_capsule) as [o s'] eqn:Hrun. assert (o = Ok tt) as -> by (revert Hrun; vm_compute; congruence).
  exists s'. split; [done|].
  apply (capsule_in_order None (λ _, Some 4%Z) (λ s, s) 14 None "runc" [1; 2]%Z 1
    [mkRequested "net" "" "" false] [] demo_capsule s'); [vm_compute; lia|exact Hrun].
Defined.

Lemma demo_lives : lives [] (c_log (demo_create demo_capsule).2) =
  [Sandbox "pod"; Created (Some "pod") "init"; Started "init"; Exited "init"; Created (Some "pod") "main"; Started "main"].
Proof. vm_compute. reflexivity. Qed.
