(* ===== verification/Images.v ===== *)
(** * Images
    (src/zun/image/docker/driver.py, src/zun/image/glance/, the operations on images of
    container/docker/driver.py and of compute/manager.py)

    Where the image of a container comes from, and how a container is committed to
    one.  An operation is a program on the calls to Docker, to Glance, to the files of
    the host and to the tables ([Effects]); an object it changes is saved by a call that
    carries it. *)

From Stdlib Require Import Ascii.
From S2P Require Import Prelude Exceptions PyStr Container DockerDriver Effects ImageRef.

(** [errors.APIError] of Docker and its classes, the same after [docker_client], an error
    of Glance, and those of the service and of Python. *)
Inductive api_class : Type := APIErrorClass | NotFoundClass | ImageNotFoundClass.
Inductive fault : Type :=
| FApi (k : api_class) (e : api_error)
| FDocker (e : api_error)
| FGlance (not_found : bool)
| FZun (c : zun_class)
| FPy (b : builtin).

Definition is_zun (k : zun_class) (e : fault) : bool :=
  match e with
  | FZun c => isinstance (Zun c) k
  | FDocker _ => isinstance (Zun DockerError) k
  | _ => false
  end.

(** ** Data *)

Record image_info : Type := mkInfo { if_id : string; if_repo_tags : list string; if_size : Z }.
Record hub_metadata : Type := mkMetadata { md_is_official : option bool; md_star_count : option Z }.
Record hub_image : Type := mkHub { hb_name : string; hb_metadata : hub_metadata }.
Record manifest : Type := mkManifest { mf_repo_tags : list string; mf_config : string }.
Record gimage : Type := mkGimage {
  gi_id : string;
  gi_name : option string;
  gi_container_format : option string;
  gi_tags : list string;
  gi_checksum : string
}.
Record registry : Type := mkRegistry { rg_username : string; rg_password : string }.

(** The dictionary of a pulled image: the keys it has. *)
Record pulled : Type := mkPulled {
  pl_image : option string;
  pl_path : option string;
  pl_checksum : option string;
  pl_tags : option (list string);
  pl_repo_tag : option (string * string);
  pl_driver : option string
}.

(** A container that is committed, a row of the table of images. *)
Record ccon : Type := mkCcon {
  cn_uuid : string; cn_container_id : option string; cn_status : ContainerStatus; cn_auto_remove : bool
}.
Definition set_status (st : ContainerStatus) (c : ccon) : ccon :=
  mkCcon (cn_uuid c) (cn_container_id c) st (cn_auto_remove c).
Record image_row : Type := mkRow {
  ir_uuid : string; ir_repo : string; ir_tag : string; ir_image_id : option string; ir_size : option Z
}.

Inductive call : Type → Type :=
| InspectImage (name : string) : call image_info
| DockerPull (repo tag : string) (auth_config : option (string * string)) : call unit
| RemoveImage (id : string) : call unit
| SearchHub (name : string) : call (list hub_image)
| LoadImage (path : string) : call unit
| ReadManifest (path : option string) : call manifest
| GetImage (name : string) : call string
| DockerCommit (cid repository : string) (tag : option string) : call string
| DockerPause (cid : string) : call unit
| DockerUnpause (cid : string) : call unit
| GlanceGet (id : string) : call gimage
| GlanceList : call (list gimage)                  (** those of Docker's format *)
| GlanceCreate (name : string) : call gimage
| GlanceUpdate (id disk_format container_format : string) (tags : list string) : call gimage
| GlanceUpload (id data : string) : call unit
| GlanceData (id : string) : call string
| GlanceDelete (id : string) : call unit
| IsFile (path : string) : call bool
| ReadFile (path : string) : call string
| WriteFile (path data : string) : call unit
| Unlink (path : string) : call unit
| SaveContainer (c : ccon) : call unit
| SaveImage (i : image_row) : call unit
| DestroyImage (uuid : string) : call unit.

Abbreviation prog := (eff fault call).
Abbreviation event := (ev call).
Abbreviation Outside := (Answers fault call).

(** [except Exception as e: raise exception.ZunException(str(e))] *)
Definition as_ZunException {A} (m : prog A) : prog A := handle m (λ _, Some (Fault (FZun ZunException))).
(** The same, where an exception of the service is passed on. *)
Definition unless_ZunException {A} (m : prog A) : prog A :=
  handle m (λ e, if is_zun ZunException e then None else Some (Fault (FZun ZunException))).

Definition docker_client {A} (m : prog A) : prog A :=
  handle m (λ e, match e with FApi _ a => Some (Fault (FDocker a)) | _ => None end).

Definition of_exn {A} (o : outcome exn A) : prog A :=
  match o with
  | Ok a => Return a
  | Raise (Zun c) => Fault (FZun c)
  | Raise (Py b) => Fault (FPy b)
  | Raise OutOfFuel => Fault (FPy OtherException)
  end.

Section Images.
(** Options: the default driver, the default registry with its user, the drivers of
    images, the directory of downloaded images. *)
Context (default_image_driver : string) (default_registry username password : option string)
  (image_driver_list : list string) (images_directory : string).
(** Functions of libraries. *)
Context (is_uuid_like : string → bool) (md5 : string → string).

(** ** common/utils.py *)

Definition get_image_pull_policy (image_pull_policy : option string) : string :=
  match image_pull_policy with None | Some "" => "always" | Some p => p end.

Definition should_pull_image (image_pull_policy : string) (present : bool) : bool :=
  if String.eqb image_pull_policy "never" then false
  else String.eqb image_pull_policy "always" || (String.eqb image_pull_policy "ifnotpresent" && negb present).

(** ** image/docker/driver.py *)

Definition docker_delete_image (img_id : string) : prog unit :=
  docker_client (handle (ask (RemoveImage img_id))
    (λ e, match e with FApi ImageNotFoundClass _ => Some (Return tt) | _ => Some (Fault (FZun ZunException)) end)).

Definition docker_search_on_host (repo tag : string) : prog (option pulled) :=
  docker_client (handle
    (_ ← ask (InspectImage (repo ++ ":" ++ tag)%string);
     Return (Some (mkPulled (Some repo) None None None None None)))
    (λ e, match e with FApi (NotFoundClass | ImageNotFoundClass) _ => Some (Return None) | _ => None end)).

Definition docker_auth (registry_domain : string) (rg : option registry) : option (string * string) :=
  let from_options :=
    if truthy (Some registry_domain) && bool_decide (Some registry_domain = default_registry) && truthy username
    then Some (fmt username, fmt password) else None in
  match rg with
  | Some r => if truthy (Some (rg_username r)) then Some (rg_username r, rg_password r) else from_options
  | None => from_options
  end.

Definition docker__pull_image (repo tag : string) (rg : option registry) : prog unit :=
  image_ref ← of_exn (parse repo);
  let '(registry_domain, _) := split_hostname (fmt (r_name image_ref)) in
  docker_client (handle (ask (DockerPull repo tag (docker_auth registry_domain rg)))
    (λ e, match e with
          | FApi (NotFoundClass | ImageNotFoundClass) _ => Some (Fault (FZun ImageNotFound))
          | FApi APIErrorClass _ => Some (Fault (FZun ZunException))
          | _ => None
          end)).

Definition docker_pull_image (repo tag image_pull_policy : string) (rg : option registry) : prog (pulled * bool) :=
  image ← docker_search_on_host repo tag;
  if negb (should_pull_image image_pull_policy (bool_decide (is_Some image))) then
    match image with
    | Some i => Return (i, true)
    | None => Fault (FZun ImageNotFound)
    end
  else
    handle (_ ← docker__pull_image repo tag rg; Return (mkPulled (Some repo) None None None None None, true))
      (λ e, if is_zun ImageNotFound e || is_zun DockerError e then None else Some (Fault (FZun ZunException))).

Definition docker_search_image (repo : string) (exact_match : bool) : prog (list hub_image) :=
  image_ref ← of_exn (parse repo);
  let '(registry, image_name) := split_hostname (fmt (r_name image_ref)) in
  if truthy (Some registry) && negb (String.eqb registry "docker.io") then Fault (FZun OperationNotSupported)
  else
    images ← docker_client (as_ZunException (ask (SearchHub image_name)));
    Return (if exact_match then filter (λ i, hb_name i = image_name) images else images).

(** ** image/glance *)

Definition with_tag (tag : string) (images : list gimage) : list gimage :=
  if negb (truthy (Some tag)) then images
  else match images with
       | [] => []
       | [i] => if bool_decide (gi_tags i ≠ [] ∧ tag ∉ gi_tags i) then [] else [i]
       | _ => filter (λ i, tag ∈ gi_tags i) images
       end.

(** [a in b] of texts. *)
Fixpoint has_sub (a b : chars) : bool :=
  bool_decide (a `prefix_of` b) || match b with [] => false | _ :: b' => has_sub a b' end.

(** [image_ident in i.name], where a name may be missing. *)
Fixpoint named_like (image_ident : string) (images : list gimage) : prog (list gimage) :=
  match images with
  | [] => Return []
  | i :: images' =>
      match gi_name i with
      | None => Fault (FPy TypeError)
      | Some n => rest ← named_like image_ident images';
                  Return (if has_sub (explode image_ident) (explode n) then i :: rest else rest)
      end
  end.

Definition find_images (image_ident tag : string) (exact_match : bool) : prog (list gimage) :=
  if is_uuid_like image_ident then
    handle (image ← ask (GlanceGet image_ident);
            Return (if bool_decide (gi_container_format image = Some "docker") then [image] else []))
      (λ e, match e with FGlance true => Some (Return []) | _ => None end)
  else
    images ← ask GlanceList;
    images ← (if exact_match then Return (filter (λ i, gi_name i = Some image_ident) images)
              else named_like image_ident images);
    Return (with_tag tag images).

Definition find_image (image_ident tag : string) : prog gimage :=
  matches ← find_images image_ident tag true;
  match matches with
  | [] => Fault (FZun ImageNotFound)
  | [i] => Return i
  | _ => Fault (FZun Conflict)
  end.

(** [os.path.join(images_directory, image.id + '.tar')] *)
Definition tar_path (image_id : string) : string := (images_directory ++ "/" ++ image_id ++ ".tar")%string.

Definition glance_search_on_host (repo tag : string) : prog (option pulled) :=
  image_meta ← handle (i ← find_image repo tag; Return (Some i))
    (λ e, if is_zun ImageNotFound e then Some (Return None) else None);
  match image_meta with
  | None => Return None
  | Some i =>
      let out_path := tar_path (gi_id i) in
      there ← ask (IsFile out_path);
      Return (if there : bool then Some (mkPulled (Some repo) (Some out_path) (Some (gi_checksum i)) None None None) else None)
  end.

Definition _verify_md5sum_for_image (image : pulled) : prog bool :=
  data ← ask (ReadFile (default "" (pl_path image)));
  Return (bool_decide (Some (md5 data) = pl_checksum image)).

Definition glance_download (repo tag : string) : prog pulled :=
  found ← handle
    (i ← find_image repo tag; data ← ask (GlanceData (gi_id i)); Return (i, data))
    (λ e, if is_zun ImageNotFound e then None else Some (Fault (FZun ZunException)));
  let '(image_meta, image_chunks) := found in
  let out_path := tar_path (gi_id image_meta) in
  _ ← as_ZunException (ask (WriteFile out_path image_chunks));
  Return (mkPulled (gi_name image_meta) (Some out_path) None (Some (gi_tags image_meta)) None None).

Definition glance_pull_image (repo tag image_pull_policy : string) : prog (pulled * bool) :=
  image ← glance_search_on_host repo tag;
  let download := i ← glance_download repo tag; Return (i, false) in
  if negb (should_pull_image image_pull_policy (bool_decide (is_Some image))) then
    match image with
    | Some i => same ← _verify_md5sum_for_image i; if same : bool then Return (i, true) else download
    | None => Fault (FZun ImageNotFound)
    end
  else download.

Definition glance_search_image (repo tag : string) (exact_match : bool) : prog (list gimage) :=
  as_ZunException (find_images repo tag exact_match).
Definition glance_create_image (image_name : string) : prog gimage := as_ZunException (ask (GlanceCreate image_name)).
Definition glance_update_image (img_id : string) (tag : option string) : prog gimage :=
  as_ZunException (ask (GlanceUpdate img_id "qcow2" "docker" (if truthy tag then [fmt tag] else []))).
Definition glance_upload_image_data (img_id data : string) : prog unit := as_ZunException (ask (GlanceUpload img_id data)).
Definition glance_delete_committed_image (img_id : string) : prog unit := as_ZunException (ask (GlanceDelete img_id)).

(** The first two parts of the name are taken as its repository and tag. *)
Definition glance_delete_image_tar (image : string) : prog unit :=
  match split ":" image with
  | repo :: tag :: _ =>
      found ← glance_search_on_host repo tag;
      match found with
      | None => Return tt
      | Some i => as_ZunException (ask (Unlink (default "" (pl_path i))))
      end
  | _ => Fault (FPy IndexError)
  end.

(** ** The driver of Docker (container/docker/driver.py) *)

Definition load_image (image_path : option string) : prog unit :=
  docker_client (match image_path with None | Some "" => Return tt | Some p => ask (LoadImage p) end).
Definition inspect_image (image : string) : prog image_info := docker_client (ask (InspectImage image)).
Definition get_image (name : string) : prog string := docker_client (ask (GetImage name)).

(** The drivers are loaded by name; an unknown name does nothing here. *)
Definition delete_image (img_id : string) (image_driver : option string) : prog unit :=
  info ← inspect_image img_id;
  match if_repo_tags info with
  | [] => Fault (FPy IndexError)
  | image :: _ =>
      each (λ driver_name,
        handle (if String.eqb driver_name "glance" then glance_delete_image_tar image
                else if String.eqb driver_name "docker" then docker_delete_image img_id else Return tt)
          (λ e, if is_zun ZunException e then Some (Return tt) else None))
        (match image_driver with None | Some "" => image_driver_list | Some d => [d] end)
  end.

Definition delete_committed_image (img_id : string) : prog unit := as_ZunException (glance_delete_committed_image img_id).

Definition with_driver (d : string) (i : pulled) : pulled :=
  mkPulled (pl_image i) (pl_path i) (pl_checksum i) (pl_tags i) (pl_repo_tag i) (Some d).
Definition with_repo_tag (rt : string * string) (i : pulled) : pulled :=
  mkPulled (pl_image i) (pl_path i) (pl_checksum i) (pl_tags i) (Some rt) (pl_driver i).

(** [driver_name.split('.')\[0\]] *)
Definition first_part (s : string) : string := (partition "." s).1.1.

Definition pull_image (repo tag image_pull_policy : string) (driver_name : option string) (rg : option registry)
    : prog (pulled * bool) :=
  let driver_name := default default_image_driver driver_name in
  unless_ZunException (
    '(image, image_loaded) ← (if bool_decide (driver_name ∉ image_driver_list) then Fault (FPy KeyError)
      else if String.eqb driver_name "glance" then glance_pull_image repo tag image_pull_policy
      else docker_pull_image repo tag image_pull_policy rg);
    Return (with_driver (first_part driver_name) image, image_loaded)).

Definition search_image (repo tag : string) (driver_name : option string) (exact_match : bool)
    : prog (list gimage + list hub_image) :=
  let driver_name := default default_image_driver driver_name in
  unless_ZunException (
    if bool_decide (driver_name ∉ image_driver_list) then Fault (FPy KeyError)
    else if String.eqb driver_name "glance" then l ← glance_search_image repo tag exact_match; Return (inl l)
    else l ← docker_search_image repo exact_match; Return (inr l)).

Definition create_image (image_name : string) : prog gimage := as_ZunException (glance_create_image image_name).

Definition upload_image_data (image_id : string) (image_tag : option string) (image_data : string) : prog unit :=
  as_ZunException (_ ← glance_update_image image_id image_tag; glance_upload_image_data image_id image_data).

(** [read_tar_image] of docker/utils.py: the first tag in the file, or its name. *)
Definition tar_repo_tag (m : manifest) : prog (string * string) :=
  match mf_repo_tags m with
  | [] => Return ((partition "." (mf_config m)).1.1, "")
  | repo_tag :: _ =>
      match split ":" repo_tag with
      | [repo; tag] => Return (repo, tag)
      | _ => Fault (FPy ValueError)
      end
  end.

(** A file that cannot be read leaves the image as it is. *)
Definition read_tar_image (image : pulled) : prog pulled :=
  docker_client (handle (m ← ask (ReadManifest (pl_path image)); rt ← tar_repo_tag m; Return (with_repo_tag rt image))
    (λ _, Some (Return image))).

(** [utils.check_container_id] and [wrap_docker_error] *)
Definition check_container_id {A} (c : ccon) (f : string → prog A) : prog A :=
  match cn_container_id c with None => Fault (FZun Invalid) | Some cid => f cid end.

Definition handle_not_found (c : ccon) : prog unit :=
  if bool_decide (cn_status c = DELETING) then Return tt
  else
    _ ← ask (SaveContainer (set_status (if cn_auto_remove c then DELETED else ERROR) c));
    Fault (FZun Conflict).

Definition wrap_docker_error {A} (c : ccon) (m : prog A) : prog A :=
  handle m (λ e, match e with
    | FDocker a =>
        Some (_ ← (if is_not_found a then handle_not_found c else Return tt);
              Fault (if is_conflict a then FZun Conflict else e))
    | _ => None
    end).

Definition pause (c : ccon) : prog ccon :=
  check_container_id c (λ cid, wrap_docker_error c (
    docker_client (_ ← ask (DockerPause cid); Return (set_status PAUSED c)))).
Definition unpause (c : ccon) : prog ccon :=
  check_container_id c (λ cid, wrap_docker_error c (
    docker_client (_ ← ask (DockerUnpause cid); Return (set_status RUNNING c)))).

(** The text "None" counts as no tag. *)
Definition given_tag (tag : option string) : option string := match tag with None | Some "None" => None | Some t => Some t end.

Definition commit (c : ccon) (repository : string) (tag : option string) : prog string :=
  check_container_id c (λ cid, wrap_docker_error c (
    docker_client (ask (DockerCommit cid repository (given_tag tag))))).

(** The image of a container of a capsule, up to its creation. *)
Definition capsule_image (image : string) (image_driver_name : option string) (image_pull_policy : option string)
    : prog (pulled * string) :=
  '(repo, tag) ← of_exn (parse_image_name (Some default_image_driver) default_registry image image_driver_name None);
  '(i, image_loaded) ← pull_image repo tag (get_image_pull_policy image_pull_policy) image_driver_name None;
  let i := with_repo_tag (repo, tag) i in
  _ ← (if image_loaded : bool then Return tt else load_image (pl_path i));
  i ← (if bool_decide (image_driver_name = Some "glance") then read_tar_image i else Return i);
  let '(repo, tag) := default (repo, tag) (pl_repo_tag i) in
  Return (i, if truthy (Some tag) then (repo ++ ":" ++ tag)%string else repo).

(** ** The compute manager (compute/manager.py) *)

(** The exception of a failed upload is raised again, once its image is deleted. *)
Definition _do_container_image_upload (snapshot_image container_image_id data : string) (tag : option string) : prog unit :=
  handle (upload_image_data snapshot_image tag data)
    (λ e, Some (_ ← delete_committed_image snapshot_image;
                _ ← delete_image container_image_id (Some "docker");
                Fault e)).

Definition _do_container_commit (snapshot_image : string) (container : ccon) (repository : string) (tag : option string)
    : prog unit :=
  let tag := default "latest" tag in
  '(container, unpause_it) ←
    (if bool_decide (cn_status container = RUNNING) then
       c ← pause container; _ ← ask (SaveContainer c); Return (c, true)
     else Return (container, false));
  '(container_image_id, container_image) ← finally
    (handle
      (i ← commit container repository (Some tag);
       data ← get_image (repository ++ ":" ++ tag)%string;
       Return (i, data))
      (λ e, if is_zun DockerError e then Some (_ ← delete_committed_image snapshot_image; Fault e) else None))
    (if unpause_it : bool then
       handle (c ← unpause container; ask (SaveContainer c)) (λ _, Some (Return tt))
     else Return tt);
  _do_container_image_upload snapshot_image container_image_id container_image (Some tag).

(** The answer, and the task that is spawned. *)
Definition container_commit (container : ccon) (repository : string) (tag : option string)
    : prog (string * prog unit) :=
  unless_ZunException (
    snapshot_image ← handle (i ← create_image repository; Return (Some i))
      (λ e, if is_zun DockerError e then Some (Return None) else None);
    match snapshot_image with
    | None => Fault (FPy AttributeError)
    | Some i => Return (gi_id i, _do_container_commit (gi_id i) container repository tag)
    end).

Definition _do_image_delete (image : image_row) : prog unit :=
  _ ← (match ir_image_id image with None | Some "" => Return tt | Some i => delete_image i None end);
  ask (DestroyImage (ir_uuid image)).

(** [repo_tag.split(":", 1)] in two *)
Definition two_parts (repo_tag : string) : prog (string * string) :=
  let '(a, found, b) := partition ":" repo_tag in
  if found : bool then Return (a, b) else Fault (FPy IndexError).

Definition _do_image_pull (image : image_row) : prog unit :=
  let repo_tag := if truthy (Some (ir_tag image)) then (ir_repo image ++ ":" ++ ir_tag image)%string else ir_repo image in
  let '(tag, image_driver_name) :=
    if is_uuid_like (ir_repo image) then ("", "glance") else (ir_tag image, default_image_driver) in
  handle (
    '(pulled_image, image_loaded) ← pull_image (ir_repo image) tag "always" (Some image_driver_name) None;
    _ ← (if image_loaded : bool then Return tt else load_image (pl_path pulled_image));
    repo_tag ←
      (if bool_decide (pl_driver pulled_image = Some "glance") then
         i ← read_tar_image pulled_image;
         match pl_repo_tag i, pl_tags i with
         | Some (r, t), Some _ => Return (if truthy (Some t) then (r ++ ":" ++ t)%string else r)
         | _, _ => Fault (FPy KeyError)
         end
       else Return repo_tag);
    image_dict ← inspect_image repo_tag;
    match if_repo_tags image_dict with
    | [] => Fault (FPy IndexError)
    | first :: _ =>
        '(repo, tag) ← two_parts first;
        ask (SaveImage (mkRow (ir_uuid image) repo tag (Some (if_id image_dict)) (Some (if_size image_dict))))
    end)
    (λ e, if is_zun ImageNotFound e then Some (Return tt) else None).

Definition image_search (image image_driver_name : string) (exact_match : bool) (rg : option (option string))
    : prog (list gimage + list hub_image) :=
  unless_ZunException (
    '(repo, tag) ← of_exn (parse_image_name (Some default_image_driver) default_registry image (Some image_driver_name) rg);
    search_image repo tag (Some image_driver_name) exact_match).
End Images.

(** ** Committing a container *)

(** What the calls of a commit did to its container and to the image it fills in Glance,
    and whether they touched anything else.  An undoing that is refused is on record
    as one that was asked for. *)
Inductive snapshot : Type := Empty | Whole (data : string) | Gone.
Record held : Type := mkHeld {
  h_paused : bool;
  h_unpause_asked : bool;
  h_unsaved : bool;
  h_snapshot : snapshot;
  h_delete_asked : bool;
  h_removed : list string;       (** the images that Docker removed *)
  h_strayed : bool
}.
Definition created : held := mkHeld false false false Empty false [] false.

Section Effect.
Context (cid snap repository : string).
Definition strayed_if (b : bool) (h : held) : held :=
  mkHeld (h_paused h) (h_unpause_asked h) (h_unsaved h) (h_snapshot h) (h_delete_asked h) (h_removed h) (h_strayed h || b).
Definition effect {B} (c : call B) (ok : bool) (h : held) : held :=
  let '(mkHeld p a u g d r w) := h in
  match c with
  | DockerPause i => strayed_if (negb (String.eqb i cid)) (mkHeld (p || ok) a u g d r w)
  | DockerUnpause i => strayed_if (negb (String.eqb i cid)) (mkHeld (p && negb ok) true u g d r w)
  | SaveContainer _ => mkHeld p a (u || negb ok) g d r w
  | DockerCommit i rp _ => strayed_if (negb (String.eqb i cid && String.eqb rp repository)) h
  | GlanceUpdate i _ _ _ => strayed_if (negb (String.eqb i snap)) h
  | GlanceUpload i data => strayed_if (negb (String.eqb i snap)) (mkHeld p a u (if ok then Whole data else g) d r w)
  | GlanceDelete i => strayed_if (negb (String.eqb i snap)) (mkHeld p a u (if ok then Gone else g) true r w)
  | RemoveImage i => mkHeld p a u g d (i :: r) w
  | _ => h
  end.
End Effect.

Section Commit.
Context `{Outside}.
Context (image_driver_list : list string) (images_directory : string) (is_uuid_like : string → bool).
Context (snap : string) (c0 : ccon) (repo : string) (tag : option string).
Abbreviation the_tag := (default "latest" tag).
Abbreviation cid := (default "" (cn_container_id c0)).
Abbreviation leaves := (leaves (λ B, @effect cid snap repo B) created).
Abbreviation _do_container_commit := (_do_container_commit image_driver_list images_directory is_uuid_like).

(** The container is the one that is committed, in whatever status. *)
Definition same_id (c : ccon) : Prop := cn_container_id c = cn_container_id c0.

(** What Docker answered as the image it committed, and as the data of the one asked for. *)
Definition committed (i : string) : Prop :=
  ∃ before, answer (DockerCommit cid repo (given_tag (Some the_tag))) before = Ok i.
Definition exported (data : string) : Prop := ∃ before, answer (GetImage (repo ++ ":" ++ the_tag)%string) before = Ok data.

(** A container that is still paused was asked to be unpaused, unless it could not be saved. *)
Definition settled (h : held) : Prop := h_paused h = true → h_unpause_asked h = true ∨ h_unsaved h = true.

Ltac effects := cbn [effect created strayed_if h_paused h_unpause_asked h_unsaved h_snapshot h_delete_asked h_removed h_strayed];
  rewrite ?String.eqb_refl; cbn [negb andb orb]; rewrite ?orb_false_r, ?andb_true_r, ?andb_false_r.

Definition unsaved_if (b : bool) (h : held) : held :=
  mkHeld (h_paused h) (h_unpause_asked h) (h_unsaved h || b) (h_snapshot h) (h_delete_asked h) (h_removed h) (h_strayed h).
Lemma unsaved_none h : unsaved_if false h = h.
Proof. destruct h. unfold unsaved_if. cbn. by rewrite orb_false_r. Qed.

(** The errors of [check_container_id] and [wrap_docker_error]: at most the container is
    saved. *)
Lemma wrapped_leaves {A} (c : ccon) h (f : string → prog A) (Q : A → held → Prop) (X : fault → held → Prop) :
  same_id c → (∀ e b, X e (unsaved_if b h)) →
  (is_Some (cn_container_id c0) → leaves h (f cid) Q (λ _ h', h' = h)) →
  leaves h (check_container_id c (λ cid, wrap_docker_error c (f cid))) Q X.
Proof.
  intros Hid HX Hf. assert (∀ e, X e h) as HXh by (intros e; rewrite <- (unsaved_none h); apply HX).
  unfold check_container_id. rewrite Hid. destruct (cn_container_id c0) as [i|]; [|by apply leaves_fault].
  unfold wrap_docker_error. eapply leaves_handle; [by apply Hf|]. intros e h' ->. destruct e as [|a| | |]; try by apply HXh.
  eapply leaves_bind with (R := λ _ h', ∃ b, h' = unsaved_if b h).
  - unfold handle_not_found. case_match; [|apply leaves_ret; exists false; by rewrite unsaved_none].
    case_bool_decide; [apply leaves_ret; exists false; by rewrite unsaved_none|].
    eapply leaves_bind with (R := λ _ h', h' = h).
    + destruct h. apply leaves_ask; [intros; by effects|]. intros e. exact (HX e true).
    + intros _ h' ->. by apply leaves_fault.
  - intros _ h' [b' ->]. by apply leaves_fault.
Qed.

Lemma client_leaves {A} h (m : prog A) (Q : A → held → Prop) h' :
  leaves h m Q (λ _ x, x = h') → leaves h (docker_client m) Q (λ _ x, x = h').
Proof.
  intros Hm. eapply leaves_handle; [exact Hm|]. intros e x ->. destruct e; try done. by apply leaves_fault.
Qed.

(** The container is paused and saved, or the commit has failed already. *)
Lemma pause_leaves :
  leaves created (c ← pause c0; _ ← ask (SaveContainer c); Return (c, true))
    (λ x h, x.2 = true ∧ same_id x.1 ∧ is_Some (cn_container_id c0) ∧ h = mkHeld true false false Empty false [] false)
    (λ _ h, ∃ p u, h = mkHeld p false u Empty false [] false ∧ (p = true → u = true)).
Proof.
  eapply leaves_bind with (R := λ c h, same_id c ∧ is_Some (cn_container_id c0) ∧ h = mkHeld true false false Empty false [] false).
  - unfold pause. eapply (wrapped_leaves c0 created (λ cid, docker_client (_ ← ask (DockerPause cid); Return (set_status PAUSED c0))));
      [done|intros e b; by exists false, b|].
    intros Hsome. apply client_leaves. eapply leaves_bind with (R := λ _ h, h = mkHeld true false false Empty false [] false).
    + apply leaves_ask; intros; by effects.
    + intros _ h ->. by apply leaves_ret.
  - intros c h (Hid & Hsome & ->). eapply leaves_bind with (R := λ _ h, h = mkHeld true false false Empty false [] false).
    + apply leaves_ask; intros; effects; [done|]. by exists true, true.
    + intros _ h ->. by apply leaves_ret.
Qed.

(** The container is asked to be unpaused, and whatever happens the commit goes on. *)
Lemma unpause_leaves c u g d :
  same_id c → is_Some (cn_container_id c0) →
  leaves (mkHeld true false u g d [] false) (handle (c ← unpause c; ask (SaveContainer c)) (λ _, Some (Return tt)))
    (λ _ h, ∃ p u', h = mkHeld p true u' g d [] false) (λ _ _, False).
Proof.
  intros Hid Hsome. eapply leaves_handle with (R := λ _ h, ∃ p u', h = mkHeld p true u' g d [] false).
  2: { intros e h Hh. by apply leaves_ret. }
  eapply leaves_bind with (R := λ _ h, ∃ p u', h = mkHeld p true u' g d [] false).
  - assert (cn_container_id c = Some cid) as Hc by (rewrite Hid; by destruct Hsome as [i ->]).
    unfold unpause, check_container_id. rewrite Hc. clear Hc.
    eapply leaves_handle with (R := λ _ h, h = mkHeld true true u g d [] false).
    + apply client_leaves. eapply leaves_bind with (R := λ _ h, ∃ p u', h = mkHeld p true u' g d [] false).
      * apply leaves_ask; intros; effects; [by eexists _, _|done].
      * intros _ h Hh. by apply leaves_ret.
    + intros e h ->. destruct e as [|a| | |]; try by eexists _, _.
      eapply leaves_bind with (R := λ _ h, ∃ p u', h = mkHeld p true u' g d [] false).
      * unfold handle_not_found. case_match; [|apply leaves_ret; by eexists _, _]. case_bool_decide; [apply leaves_ret; by eexists _, _|].
        eapply leaves_bind with (R := λ _ h, ∃ p u', h = mkHeld p true u' g d [] false).
        -- apply leaves_ask; intros; effects; by eexists _, _.
        -- intros _ h Hh. by apply leaves_fault.
      * intros _ h Hh. by apply leaves_fault.
  - intros c' h (p & u' & ->). apply leaves_ask; intros; effects; by eexists _, _.
Qed.

(** The image is gone, or its deletion was refused. *)
Lemma delete_leaves p a u :
  leaves (mkHeld p a u Empty false [] false) (delete_committed_image snap)
    (λ _ h, h = mkHeld p a u Gone true [] false) (λ _ h, h = mkHeld p a u Empty true [] false).
Proof.
  assert (leaves (mkHeld p a u Empty false [] false) (ask (GlanceDelete snap))
    (λ _ h, h = mkHeld p a u Gone true [] false) (λ _ h, h = mkHeld p a u Empty true [] false)) as Hdel.
  { apply leaves_ask; intros; by effects. }
  unfold delete_committed_image, glance_delete_committed_image, as_ZunException.
  do 2 (apply leaves_handle with (R := λ _ h, h = mkHeld p a u Empty true [] false);
    [|intros e h ->; by apply leaves_fault]). exact Hdel.
Qed.

(** What the part under [try] leaves when it fails: after an error of Docker the image
    was asked to be deleted; after another it is as it was. *)
Definition failed (p a : bool) (e : fault) (h : held) : Prop :=
  ∃ u g d, h = mkHeld p a u g d [] false ∧ (g = Gone ∨ g = Empty) ∧ (d = false → g = Empty ∧ is_zun DockerError e = false).

Lemma commit_leaves c p :
  same_id c →
  leaves (mkHeld p false false Empty false [] false)
    (handle (i ← commit c repo (Some the_tag); data ← get_image (repo ++ ":" ++ the_tag)%string; Return (i, data))
      (λ e, if is_zun DockerError e then Some (_ ← delete_committed_image snap; Fault e) else None))
    (λ x h, h = mkHeld p false false Empty false [] false ∧ committed x.1 ∧ exported x.2) (failed p false).
Proof.
  intros Hid. set (h0 := mkHeld p false false Empty false [] false).
  apply leaves_handle with (R := λ _ h, ∃ b, h = unsaved_if b h0).
  - eapply leaves_bind with (R := λ i h, h = h0 ∧ committed i).
    + eapply (wrapped_leaves c h0 (λ cid, docker_client (ask (DockerCommit cid repo (given_tag (Some the_tag)))))); [done|intros e b; by exists b|].
      intros _. apply client_leaves, leaves_ask.
      * intros i before Hi. split; [unfold h0; by effects|]. by exists before.
      * intros e. unfold h0. by effects.
    + intros i h [-> Hi]. eapply leaves_bind with (R := λ d h, h = h0 ∧ exported d).
      * apply leaves_handle with (R := λ _ h, h = h0).
        -- apply leaves_ask; [|done]. intros d before Hd. split; [done|]. by exists before.
        -- assert (∃ b, h0 = unsaved_if b h0) as Hb by (exists false; by rewrite unsaved_none).
           intros e h ->. destruct e; [by apply leaves_fault|exact Hb..].
      * intros d h [-> Hd]. by apply leaves_ret.
  - intros e h [b ->]. change (unsaved_if b h0) with (mkHeld p false b Empty false [] false).
    destruct (is_zun DockerError e) eqn:He.
    + eapply leaves_bind with (R := λ _ h, h = mkHeld p false b Gone true [] false).
      * eapply leaves_conseq; [apply delete_leaves|done|]. intros e' h ->. eexists _, _, _. split; [done|]. by split; [right|].
      * intros _ h ->. apply leaves_fault. eexists _, _, _. split; [done|]. by split; [left|].
    + eexists _, _, _. split; [done|]. by split; [right|].
Qed.

(** The upload fills the image; when it fails, the image is asked to be deleted in
    Glance, and the committed one in Docker. *)
Lemma upload_leaves p a u i data :
  leaves (mkHeld p a u Empty false [] false)
    (_do_container_image_upload image_driver_list images_directory is_uuid_like snap i data (Some the_tag))
    (λ _ h, h = mkHeld p a u (Whole data) false [] false)
    (λ _ h, ∃ g r, h = mkHeld p a u g true r false ∧ (g = Gone ∨ g = Empty) ∧ r ⊆ [i]).
Proof.
  set (h0 := mkHeld p a u Empty false [] false).
  assert (∀ g, g = Gone ∨ g = Empty → ∀ e, leaves (mkHeld p a u g true [] false)
    (_ ← delete_image image_driver_list images_directory is_uuid_like i (Some "docker"); Fault e)
    (λ (_ : unit) h, h = mkHeld p a u (Whole data) false [] false)
    (λ _ h, ∃ g r, h = mkHeld p a u g true r false ∧ (g = Gone ∨ g = Empty) ∧ r ⊆ [i])) as Hdocker.
  { intros g Hg e. set (P h := ∃ r, h = mkHeld p a u g true r false ∧ r ⊆ [i]).
    assert (∀ h, P h → ∃ g r, h = mkHeld p a u g true r false ∧ (g = Gone ∨ g = Empty) ∧ r ⊆ [i]) as HP.
    { intros h (r & -> & Hr). by exists g, r. }
    eapply leaves_bind with (R := λ _, P); [|intros _ h Hh; apply leaves_fault; by apply HP].
    eapply leaves_conseq with (Q := λ _, P) (X := λ _, P); [|done|intros _ h Hh; by apply HP].
    assert (P (mkHeld p a u g true [] false)) as H0 by (exists []; set_solver).
    unfold delete_image. eapply leaves_bind with (R := λ _ h, h = mkHeld p a u g true [] false).
    - apply leaves_handle with (R := λ _ h, h = mkHeld p a u g true [] false); [by apply leaves_ask|].
      intros e' h ->. destruct e'; try done. by apply leaves_fault.
    - intros info h ->. destruct (if_repo_tags info) as [|image l]; [by apply leaves_fault|].
      cbn [each]. eapply leaves_bind with (R := λ _, P); [|intros _ h Hh; by apply leaves_ret].
      apply leaves_handle with (R := λ _, P); [|intros e' h Hh; destruct (is_zun _ _); [by apply leaves_ret|done]].
      cbn [String.eqb Ascii.eqb Bool.eqb]. unfold docker_delete_image.
      apply leaves_handle with (R := λ _, P); [|intros e' h Hh; destruct e'; try done; by apply leaves_fault].
      apply leaves_handle with (R := λ _, P).
      + apply leaves_ask; intros; effects; exists [i]; set_solver.
      + intros e' h Hh. destruct e' as [[]| | | |]; solve [by apply leaves_fault|by apply leaves_ret]. }
  apply leaves_handle with (R := λ _ h, h = h0).
  - apply leaves_handle with (R := λ _ h, h = h0); [|intros e h ->; by apply leaves_fault].
    eapply leaves_bind with (R := λ _ h, h = h0).
    + apply leaves_handle with (R := λ _ h, h = h0); [|intros e h ->; by apply leaves_fault].
      apply leaves_ask; intros; unfold h0; by effects.
    + intros _ h ->. apply leaves_handle with (R := λ _ h, h = h0); [|intros e h ->; by apply leaves_fault].
      apply leaves_ask; intros; unfold h0; by effects.
  - intros e h ->. eapply leaves_bind with (R := λ _ h, h = mkHeld p a u Gone true [] false).
    + eapply leaves_conseq; [apply delete_leaves|done|]. intros e' h ->. exists Empty, []. split; [done|]. split; [by right|set_solver].
    + intros _ h ->. apply Hdocker. by left.
Qed.

(** C15. However the commit of a container ends, and whatever is refused on the way, it
    acts on its own container and its own image only, and a container that it paused and
    saved is asked to be unpaused.  If it returns, the image in Glance holds what Docker
    answered as the data of the committed image.  If it fails, the image does not hold
    any data; it was asked to be deleted, except when the pause failed (it is then as it
    was) or what failed was not an error of Docker; and Docker removed at most the image
    it had committed. *)
Theorem commit_settles :
  leaves created (_do_container_commit snap c0 repo tag)
    (λ _ h, settled h ∧ h_strayed h = false ∧ ∃ data, exported data ∧ h_snapshot h = Whole data)
    (λ e h, settled h ∧ h_strayed h = false ∧ (∀ i, i ∈ h_removed h → committed i) ∧
       (h_snapshot h = Gone ∨ h_snapshot h = Empty) ∧
       (h_delete_asked h = false → h_snapshot h = Empty ∧
          (cn_status c0 = RUNNING ∧ h_unpause_asked h = false ∨ is_zun DockerError e = false))).
Proof.
  unfold Images._do_container_commit. cbv zeta.
  eapply leaves_bind with (R := λ x h, h = mkHeld x.2 false false Empty false [] false ∧ same_id x.1 ∧
    (x.2 = true → is_Some (cn_container_id c0))).
  - case_bool_decide as Hrun; [|by apply leaves_ret].
    eapply leaves_conseq; [apply pause_leaves|..].
    + intros [c' u] h ([= ->] & Hid & Hsome & ->). by split_and!.
    + intros e h (p & u & -> & Hp). split_and!; [intros Hpt; cbn in *; right; auto|done|set_solver|by right|].
      intros _. split; [done|]. by left.
  - intros [c' p] h (-> & Hid & Hsome). cbn [fst snd] in *.
    set (after (x : string * string) h := ∃ p' u, h = mkHeld p' p u Empty false [] false ∧ (p = false → p' = false) ∧
      committed x.1 ∧ exported x.2).
    set (broken e h := ∃ p' u g d, h = mkHeld p' p u g d [] false ∧ (p = false → p' = false) ∧ (g = Gone ∨ g = Empty) ∧
      (d = false → g = Empty ∧ is_zun DockerError e = false)).
    assert (∀ p', (p = false → p' = false) → p' = true → p = true) as Hpp.
    { intros p' Hp Hp'. destruct p; [done|]. by rewrite Hp in Hp'. }
    eapply leaves_bind with (R := λ x, after x).
    + eapply leaves_conseq with (Q := after) (X := broken); [|done|].
      * eapply leaves_finally; [by apply commit_leaves|..].
        -- intros x h (-> & Hi & Hd). destruct p; [|apply leaves_ret; by exists false, false].
           eapply leaves_conseq; [apply unpause_leaves; auto| |by intros ? ? []]. intros _ h (p' & u & ->). by exists p', u.
        -- intros e h (u & g & d & -> & Hg & He). destruct p; [|apply leaves_ret; by exists false, u, g, d].
           eapply leaves_conseq; [apply unpause_leaves; auto| |by intros ? ? []]. intros _ h (p' & u' & ->). by exists p', u', g, d.
      * intros e h (p' & u & g & d & -> & Hp & Hg & He). split_and!; [intros Hpt; left; by eapply Hpp|done|set_solver|done|].
        intros Hd. destruct (He Hd) as [-> ?]. split; [done|by right].
    + intros [i data] h (p' & u & -> & Hp & Hi & Hd). cbn [fst snd] in *. eapply leaves_conseq; [apply upload_leaves|..].
      * intros _ h ->. split_and!; [intros Hpt; left; by eapply Hpp|done|]. by exists data.
      * intros e h (g & r & -> & Hg & Hr). split_and!; [intros Hpt; left; by eapply Hpp|done| |done|done].
        intros j Hj. cbn in Hj. apply Hr, list_elem_of_singleton in Hj as ->. done.
Qed.
End Commit.

(** ** Policies of pulling *)

Section Policy.
Context `{Outside} (default_registry username password : option string) (images_directory : string)
  (is_uuid_like : string → bool) (md5 : string → string).

Definition no_pull {B} (c : call B) : Prop := match c with DockerPull _ _ _ => False | _ => True end.

(** With the policy "never" Docker is not asked to pull. *)
Lemma docker_never repo tag rg :
  calls_in (λ B, @no_pull B) (docker_pull_image default_registry username password repo tag "never" rg).
Proof. unfold docker_pull_image, docker_search_on_host, docker_client. cbn [should_pull_image String.eqb Ascii.eqb Bool.eqb negb]. calls. Qed.

(** A file in the directory of Glance that does not have the sum of the image is
    downloaded again, even when the policy is "never". *)
Lemma stale_file_downloaded repo tag log i log1 data :
  run (glance_search_on_host images_directory is_uuid_like repo tag) log = (Ok (Some i), log1) →
  answer (ReadFile (default "" (pl_path i))) log1 = Ok data → Some (md5 data) ≠ pl_checksum i →
  run (glance_pull_image images_directory is_uuid_like md5 repo tag "never") log =
  run (i ← glance_download images_directory is_uuid_like repo tag; Return (i, false))
    (log1 ++ [mkEvent _ (ReadFile (default "" (pl_path i))) true]).
Proof.
  intros Hs Hd Hne. unfold glance_pull_image, mbind, prog_bind. rewrite run_pbind, Hs.
  cbn [should_pull_image String.eqb Ascii.eqb Bool.eqb negb]. unfold _verify_md5sum_for_image, mbind, prog_bind. rewrite run_pbind.
  cbn. rewrite Hd. cbn. by rewrite bool_decide_false.
Qed.
End Policy.

(** A container whose pause fails leaves the image of its commit in Glance. *)
Lemma pause_failure_leaks `{Outside} drivers dir uuid_like snap c cid repo tag k a :
  cn_status c = RUNNING → cn_container_id c = Some cid → is_not_found a = false →
  answer (DockerPause cid) [] = Raise (FApi k a) →
  run (_do_container_commit drivers dir uuid_like snap c repo tag) [] =
    (Raise (if is_conflict a then FZun Conflict else FDocker a), [mkEvent _ (DockerPause cid) false]).
Proof.
  intros Hrun Hcid Hnf Ha. unfold _do_container_commit. rewrite bool_decide_true by done.
  unfold pause, check_container_id. rewrite Hcid. cbn. rewrite Ha. cbn. rewrite Hnf. by destruct (is_conflict a).
Qed.

(** The registry of a name may have a port; the row then has its host as repository. *)
Lemma port_taken_for_tag : two_parts "reg:5000/app:1" = Return ("reg", "5000/app:1").
Proof. reflexivity. Qed.

(** ** An example: an upload that fails *)

#[local] Instance full_glance : Outside := λ B c log,
  match c in call B return outcome fault B with
  | InspectImage _ => Ok (mkInfo "image" ["repo:latest"] 1%Z)
  | DockerPause _ | DockerUnpause _ | RemoveImage _ | GlanceDelete _ | SaveContainer _ => Ok tt
  | DockerCommit _ _ _ => Ok "image"
  | GetImage _ => Ok "data"
  | GlanceUpdate i _ _ _ => Ok (mkGimage i None None [] "")
  | _ => Raise (FGlance false)
  end.

(** The upload fails: the container runs again, both images are gone. *)
#[local] Definition demo_container : ccon := mkCcon "u" (Some "cid") RUNNING false.
Abbreviation demo_commit :=
  (run (_do_container_commit ["docker"] "/images" (λ _, false) "snap" demo_container "repo" None) []).
Abbreviation demo_held := (summary (λ B, @effect "cid" "snap" "repo" B) created).

Lemma commit_settles_witness : ∃ e log, demo_commit = (Raise e, log) ∧
  settled (demo_held log) ∧ h_strayed (demo_held log) = false ∧
  (∀ i, i ∈ h_removed (demo_held log) → committed demo_container "repo" None i).
Proof.
  pose proof (commit_settles ["docker"] "/images" (λ _, false) "snap" demo_container "repo" None [] eq_refl) as Hall.
  destruct demo_commit as [[[]|e] log] eqn:Hrun; [exfalso; revert Hrun; vm_compute; discriminate|].
  destruct Hall as (H1 & H2 & H3 & _). exists e, log. split; [reflexivity|]. split; [exact H1|]. split; [exact H2|exact H3].
Defined.

Lemma demo_commit_held : demo_held demo_commit.2 = mkHeld false true false Gone true ["image"] false.
Proof. vm_compute. reflexivity. Qed.
